(* ===== verification/_CoqProject ===== *)
-Q . S2P
Prelude.v
AuthError.v
Capabilities.v
Externs.v
Identity.v
Mcp.v
Delegation.v
P256.v
ArcZkp.v
Arc.v
Credentials.v
Verification.v
Gateway.v
McpError.v
Messages.v
Interceptor.v
RateLimit.v
ProtocolValidation.v
Transform.v
Text.v
Common.v
Routing.v
Predictor.v
Gepa.v
Session.v
LlmInterceptor.v
Conversation.v
IpcServer.v
StdioHandler.v
ParamValidation.v
CoreTransport.v
Sandbox.v
BufferedIpc.v
Utf8.v
Gencode.v
Execution.v
Service.v
CodeGenerator.v
Initialization.v
Client.v
StdioTransport.v
HttpStream.v
HttpSse.v
HttpServers.v
Backend.v
AppState.v
Relay.v
HttpRelay.v
HttpHandler.v
ModelConfig.v
ModelManager.v
Streaming.v
Proxy.v
GatewayTypes.v
CredentialServer.v
MonitorUi.v
Monitor.v
Families.v
LitertServer.v
Ipc.v
Runtimes.v
QuickActions.v
Startup.v
ProxyMain.v
Cli.v
GatewayMain.v
ClientMessages.v
GepaModule.v
LlmTables.v
Screen.v
