(* ===== verification/Prelude.v ===== *)
(** * ACDP: verification of the agent credential, message and sandbox layers

    ACDP puts a proxy between MCP clients (language-model agents) and MCP
    servers (tools).  Modelled here are the layers that carry its own logic:
    the credentials that say what an agent may do ([acdp-auth]), the MCP
    client with its transports and interceptor pipeline ([acdp-core]), the
    proxy that relays every JSON-RPC message ([acdp-transport], and the
    gateway of clients in [acdp-tui]), the language-model layer that routes and
    predicts ([acdp-llm]), the sandbox that decides where and under which
    capabilities generated code runs ([acdp-sandbox]), and the programs made of
    them, with the command line ([acdp-cli]) and the terminal interface
    ([acdp-tui]).  Paths below are under
    [src/].

    ** How the code is modelled

    Each file models one part and keeps the code's names: a [Module] for each
    struct or enum, with [t] its data, [new] its constructor and the functions
    named as the methods.  A method with [&mut self] returns the new state; a
    shared object is passed along, and where threads or tasks share it the
    steps between two lock or atomic operations are separate and interleave.
    A [select!] loop is a function for each branch, or a step relation over
    them.  [Result] is [Res] with [let?] for the question mark, a panic is
    [None].  Integers are [Z] with the wrap-around or saturation of the code's
    operations in a release build, [f64] is IEEE 754 binary64 from the standard
    library, strings are byte strings.  Time, random scalars, generated
    identifiers and the outcomes of system calls are arguments.  Log output is
    not modelled.

    Third-party code is never defined: it is a type class of operations whose
    documented behaviour is a class of laws, and so are the objects the code
    reaches through a trait ([Externs]: [uuid], [chrono],
    [ed25519-compact], [hex], [validator], [serde_json], [jsonwebtoken];
    [P256]: the curve and the [sigma_proofs] proof system; [Messages]: JSON
    numbers; [Text]: JSON as text, floats in it; [Transform]: Unicode case
    mapping; [Session]: [Debug] of a text; [Predictor]: the tables, the model,
    the clock; [CoreTransport], [HttpSse]: addresses, regular expressions;
    [Backend]: the JSON parser's error texts; [Execution]: [tokio] channels;
    [Client]: the transport; [Service]: the runtime, the code generator and the
    file system; [GatewayTypes], [CredentialServer]: the crate [mcp-auth], the
    assertions' codec, the database's error texts; [Ipc]: the JSON of an
    envelope and the syntax of identifiers; [Runtimes]: the operating system,
    wasmtime and V8; [Screen]: [ratatui]'s layout and lists; [GepaModule]: a
    [dspy] module; [LlmTables]: the order and the aggregates SQL leaves open).
    Each class with laws has a concrete instance, at which the theorems'
    witnesses apply them.  One law idealises
    cryptography: a signature is valid only for the message it was made for.

    ** Credentials ([acdp-auth/src])

    - [AuthError] ([error.rs]): the error type, its texts, HTTP codes and
      retry classes.
    - [Capabilities] ([capabilities.rs]): allow and deny patterns, limits, and
      the subset test for delegated capabilities.  [tool_access_decision] is
      the access decision on every branch; [subset_reduces_authority] and
      [attenuation_is_transitive] say in which way the subset test bounds
      authority, along whole chains.  [subset_ignores_deny_list] and
      [double_star_subset_escapes] show what it does not cover.
    - [Identity] ([principal.rs], [agent.rs], signature serialisation of
      [delegation.rs]), [Mcp] ([mcp.rs], ID-JAG tokens and token exchange):
      [id_jag_issue_verify] is the life of a token from issue to expiry.
    - [Delegation] ([delegation.rs]): rights, proofs, chains.
      [delegation_depth_bounded] is the invariant of chains built by the
      rights' own check; [proof_signature_binds_fields] what a signature
      commits to; [chain_verify_is_pointwise], [check_depth_modulo_256] and
      [proof_names_can_be_resplit] state the exact, weaker meaning of the
      chain checks.
    - [P256], [ArcZkp] ([arc_zkp.rs]), [Arc] ([arc.rs]): anonymous rate-limited
      credentials.  [arc_issue_present_verify] is completeness of the
      protocol, [arc_verify_sound] what acceptance is,
      [arc_tag_identifies_nonce] why reuse is detectable,
      [arc_presentations_bounded] the limit for one thread and
      [arc_concurrent_overdraw] the exact excess for [n] threads, by rule
      induction over the interleavings of the atomic load and increment.
    - [Credentials] ([credentials.rs]), [Verification] ([verification.rs]),
      [Gateway] ([gateway.rs]): the three credential forms, the verifier and
      the issuance handler, composed as the code composes them.
      [verifier_decision] and [issue_credential_outcome] are the decisions on
      all branches, in terms of the fields (no rate limit is enforced), [hidden_credentials_indistinguishable] is
      non-interference for hidden identities,
      [issued_anonymous_credential_accepted] and
      [issued_signed_credential_rejected] follow a credential from the
      gateway's issue to its own verification.

    ** The gateway server ([acdp-gateway])

    - [GatewayTypes] ([acdp-common/src]): requests, results and errors, and the
      interface of the crate [mcp-auth].
    - [CredentialServer] ([acdp-server/src]): the credential service, the table
      of credentials and the routes.  [issued_credentials_are_spent] follows a
      credential from its issue to its last presentation,
      [forged_credentials_are_believed] and [identities_can_be_made_up] say
      what is not checked on both ways, [issue_failures] is the behaviour on
      errors.  [verifications_overdraw] is an invariant of all interleavings of
      verifications, a database statement being a step, with its sharp bound.

    ** Messages, client and transports ([acdp-core/src])

    - [McpError] ([error.rs]): error sums, categories, retry classes.
    - [Messages] ([messages/core.rs]): JSON-RPC messages and the codec serde
      derives, with its untagged variants: [message_serde_roundtrip] and
      [unreadable_id_becomes_notification].  [Text] adds the text form of
      messages and values, and the methods of [str] the code uses.
    - [Initialization] ([messages/initialization.rs], [messages/mod.rs]): the
      handshake's messages with their flattened maps;
      [initialize_serde_roundtrip].
    - [Families] ([messages/tools.rs], [resources.rs], [prompts.rs],
      [sampling.rs], [logging.rs]): the other messages as instances of a class
      [Serde] with its laws [SerdeLaws]; [message_families_are_read_back]
      collects their round trips, [camel_case_is_lost] says what of a peer
      that follows the protocol is not understood.
    - [ParamValidation] ([validation.rs]): coercion and checks of parameters
      against a schema; [validation_decides] says what is accepted and that
      accepted parameters have their declared types.
    - [Client] ([client.rs]): connection states, handshake, requests with
      retries, over a transport that is an interface and an
      [InterceptorManager].  [client_lifecycle] is the invariant over all
      sequences of operations, [request_retries] bounds and times the
      attempts, [blocked_request_is_retried] composes the client with the
      manager; [op_keeps] lifts an invariant of a transport to the client.
    - [ClientMessages] ([client.rs]): the builder and the task that hands
      received messages to waiting requests and to the handler.
      [messages_are_dispatched] is what it does with each,
      [protocol_notifications_are_missed] why no notification of the protocol
      reaches its handler.
    - [CoreTransport] ([transport/mod.rs], [config.rs], [factory.rs]):
      configurations, information counters, the factory with its base64
      encoder, against the standard's decoder ([base64_roundtrip]).
    - [StdioTransport] ([transport/stdio.rs]): the child process's reader and
      writer tasks and the table of pending requests;
      [requests_are_correlated].
    - [HttpStream] ([transport/http_stream.rs]): an instance of the client's
      transport interface.  [client_keeps_sessions] composes it with the
      client: a session, once assigned, is sent with everything that follows.
    - [HttpSse] ([transport/http_sse.rs]): the event-stream transport with the
      protocol's two versions.  [sessions_are_checked] says which sessions it
      takes on, [streamed_responses] what a wait on a stream gives and loses,
      [streams_never_resume] that no stream is ever resumed.

    ** Interceptors ([acdp-core/src/interceptor.rs], [acdp-transport/src/interceptors])

    - [Interceptor] ([interceptor.rs]): the manager.  [Record
      MessageInterceptor] is the trait, an interceptor with its state; the
      manager's theorems are about all interceptors and the shipped ones are
      values of the record.  [manager_keeps_priority_order] is the invariant of
      the list, [manager_implements_pipeline] the refinement of the mutable
      loop to a sequential pipeline given by an inductive relation,
      [manager_statistics_exact] the counters.
    - [RateLimit], [ProtocolValidation] (with [logging.rs]), [Transform]
      ([interceptors/*.rs]): the shipped interceptors.
      [rate_limiter_refines_log] refines the sliding window to a specification
      that keeps the whole log; [rate_limiter_window_bound] is the bound for
      every window; [transform_path_laws] the laws of dotted paths.

    ** The proxy ([acdp-transport/src], [acdp-common/src])

    - [Common] ([acdp-common/src]): the types shared with the monitor, and a
      second JSON-RPC codec; [codecs_agree] compares it with the first.
    - [BufferedIpc] ([buffered_ipc_client.rs]): the client that buffers
      messages for the monitor.  [buffered_delivery] is its invariant over all
      runs; [reconnect_backoff], [failed_flush_drops_messages] and
      [busy_client_never_reconnects] its timing and losses.
    - [Ipc] ([ipc.rs]): the local socket between the programs, lines of JSON.
      [messages_are_received_in_order] says what is received wherever the
      stream is cut.
    - [IpcServer] ([ipc_server.rs]): the monitor's queries, as jobs with a
      responder; [queries_are_answered].
    - [StdioHandler] ([stdio_handler.rs]): the loop between a client on
      standard input and a server process.  [client_line_decision] is what a
      line becomes, [traffic_is_accounted] and [responders_are_conserved] are
      invariants of all its runs (the latter with the fate of each query, turn
      by turn), [query_is_completed] follows a query to its
      answer.
    - [HttpServers] ([http_stream_server.rs], [http_sse_server.rs]): the proxy
      as an HTTP server before an upstream server.
      [requests_are_intercepted_twice] and
      [answers_carry_the_proxys_identifier] compose the handler, the manager
      and the client.
    - [Backend] ([backend_connection.rs]): local and upstream backends, and
      the loop of retries they share with the proxy;
      [connections_are_bounded].
    - [HttpHandler] ([http_handler.rs]): the proxy's loop before an upstream
      server.  [http_queries_are_completed] is its liveness over all its runs;
      [structured_requests_lose_arguments] follows a monitor's request from
      the IPC server to the calls of the transport.
    - [Proxy] ([proxy.rs], [transport_config.rs]): pairs of transports, the
      chain of interceptors a proxy starts with, and its life with restarts.
      [stdio_proxy_life] is its termination and what the monitor hears,
      [restarts_lose_the_monitors_queries] and [calls_carry_the_starting_time]
      compose it with the handler's runs, the IPC server and the transformer;
      [proxies_announce_their_end] covers all pairs of the command line.

    - [LitertServer] ([bin/litert_mcp_server.rs]): the model server, an MCP
      server over HTTP whose tools are the language-model service.
      [requests_are_answered] covers all its answers,
      [generation_reaches_the_client] composes it with the service's stream
      and the client's transport, [sessions_are_not_used] is about its table.

    ** The gateway of clients ([acdp-tui/src])

    - [AppState] ([acdp_server.rs]): the table of clients, its counters and
      health, and the listener.  [Module Table] is the abstract specification:
      the operations both servers may do to the shared state, each with the
      clients that depart in it.  [departed_bytes_count_twice] is the invariant
      of its counters; [the_limit_is_the_listeners] the bound on clients, with
      the two locks of the accept loop as two steps.
    - [Relay] ([client_proxy.rs]): the relay of a client.
      [relays_implement_the_table] refines all relays together, interleaved, to
      [Table]; [printed_messages_are_delivered] is delivery from a local
      process, [upstream_answers_are_lost] the absence of it from an upstream
      server.
    - [HttpRelay] ([http_server.rs]): the same over HTTP, with sessions and a
      task each.  [http_sessions_never_leave] refines it to [Table] without
      departures, [http_notifications_are_dropped] and
      [restarts_are_miscounted] say what its handler and its tasks do.
    - The terminal interface ([acdp-tui/src/app.rs], [ipc_handler.rs],
      [ui.rs], [settings_panel.rs], [events.rs], [tabs.rs]): MonitorUi.v has
      the keys with the events they become, the focus with its overlays, the
      lists with a selection and the settings; Monitor.v has the messages of
      the proxies as updates ([IpcHandler]) and the application ([App]): its
      tables, queries over the proxy, the gateway or the model, streamed
      replies, the state's updates in the order of [update_state], and the
      loop over rounds of events and arrivals ([App.run]).  The clock, drawn
      identifiers and the outcomes of connecting and sending are inputs.
      [proxy_queries_are_settled] composes it with the proxy's side
      (IpcServer.v): the one answer to a typed query settles its item, however
      many rounds later, unless the feed was cleaned;
      [answers_miss_their_query] is what cleaning the feed does to that.
      [streamed_replies_are_shown] composes it with the service's stream
      (Streaming.v), again for a feed that was not cleaned.  [keys_reach_no_overlay] is the invariant of the keys.
      [QuickActions] ([quick_access.rs] and the handlers in [app.rs]) has the
      drawer and what its actions do to the application;
      [mode_changes_go_to_the_connected_proxy] composes a change of mode with
      the proxy that receives it.
      [Screen] ([ui.rs], the panels' files, [colors.rs]) has the drawing: what
      is handed to [ratatui] for a state, as data, and the loop with it.
      [drawing_succeeds] says when drawing panics, [drawing_never_panics] is
      its safety over all runs, from the messages of the proxies to the names
      in the feed; [answer_times_are_misread] follows the time of an answer to
      the status bar.

    ** The programs

    - [ProxyMain] ([acdp-transport/src/main.rs], [lib.rs],
      [bin/http_sse_proxy.rs]): arguments and configuration become a proxy.
    - [Startup] ([acdp-tui/src/config.rs], [App::new], [lib.rs]): the settings
      of the terminal interface and what it starts;
      [configured_backends_are_not_used].
    - [Cli] ([acdp-cli/src]): the commands, from the parsed arguments to the
      lines printed and the exit.  [command_line_gets_no_answer] composes it
      with the socket and the servers on it, and so does
      [proxy_commands_do_nothing].
    - [GatewayMain] ([acdp-auth/src/bin/gateway.rs]): the routes of the
      gateway's program; [gateway_only_reports_health].

    ** The language-model layer ([acdp-llm/src])

    - [Routing] ([routing_modes.rs], [routing_rules.rs], [error.rs]): modes and
      the choice of a rule, [matching_rule_is_best].
    - [Predictor] ([predictors.rs], [dspy_*.rs], [predictions.rs]), [Gepa]
      ([gepa_optimizer.rs]), [Session] ([session_management.rs]),
      [Conversation] ([conversation_context.rs]): predictions, their table,
      prompt optimisation, sessions and their text.
      [sessions_never_succeed] is the invariant of the sessions' counters over
      all interleavings.
    - [LlmInterceptor] ([interceptor.rs]): routing as an interceptor.
      [llm_only_adds_metadata] bounds what it changes, [prediction_is_scored]
      follows a call to the row its answer scores, [bypass_is_transparent]
      compares a manager with it to one without, where the interceptors after
      it do not look at the message to decide whether they run.
    - [ModelConfig] ([config.rs], and the paths of the standard library it
      uses), [ModelManager] ([model_management.rs]): configuration, the cache
      of models over a tree of files, lists of remote models, downloads.
      [status_is_announced] is the invariant of the manager over all sequences
      of operations, [downloads_are_repeated] follows a download to the next
      start.
    - [Streaming] ([streaming.rs], [service.rs], [lm_provider.rs], the
      benchmark of [litert_wrapper.rs]): token streams, the service and its
      start.  [generated_code_is_one_line] composes the stream with the code
      generator of the sandbox.
    - [GepaModule] ([GEPAOptimizer::optimize_module]): traces of a module on
      examples, a new prompt and its evaluation; [modules_are_never_improved] for any
      module that answers its examples.
    - [LlmTables] ([database/routing_rules.rs], [database/metrics.rs],
      [metrics.rs]): the tables of rules and of metrics, over the same world as
      [Predictor]; [created_rules_are_found] follows a rule to the matches of a
      query.

    ** Sandbox ([acdp-sandbox/src])

    - [Sandbox] ([policy.rs], [limits.rs], [selector.rs]): trust levels,
      policies and the runtime selector, for every iteration order of its hash
      set.  [select_runtime_choice] refines it to a choice on sets;
      [select_runtime_respects_policy] is its safety.
    - [Utf8]: lossy decoding and prefixes as the standard library does them;
      [Gencode] ([acdp-common/src/gencode.rs]): execution plans.
    - [Execution] ([execution.rs], [types.rs]): output buffers, handles, and
      the monitor's three tasks as a step relation; [monitoring_ends] gives the
      length and the end of every interleaving.
    - [Service] ([service.rs]): the plan interpreter in a monad of state,
      errors and a log of effects, with a small program logic ([emits]).
      [plan_effects_authorised] and [plan_data_flow] are proved from the
      relation [trace] of all runs.
    - [Runtimes] ([runtime.rs], [runtime/]): a shell, WebAssembly and
      JavaScript over a host.  [runs_are_reported_truly] says what a handle
      tells of a run, [policy_limits_and_runtimes] composes the selector with
      the runtimes: what executing makes of the limits of a policy.
    - [CodeGenerator] ([gencode.rs]): the model's reply, the code in it and the
      plan made of it; [generated_code_runs] composes it with the interpreter.

    ** Bounds and fuel

    Recursion is structural but for three kinds of function on text.  The fuel
    of the UTF-8 decoders is the length of their input, enough since every
    chunk consumes a byte ([Utf8.lossy_fuel]); that of [Ipc]'s loop that
    receives all messages is one more than the bytes at hand, and
    [messages_are_received_in_order] gives its result; numbers of 64 bits are
    printed in sixteen hexadecimal digits at most.  Loops of retries recurse on the retries left.  Instants are
    integers of nanoseconds and assumed in range; counters wrap at 64 bits and
    the theorems that need it bound the number of messages or speak modulo
    [2^64].

    ** Not modelled

    What is not this program's code: sockets, processes and HTTP themselves,
    the engines of the sandbox, the SQL schema, the foreign functions of
    [litert_wrapper.rs], and the parsing of arguments that [clap] derives.
    The files no module declares ([ui_old.rs], [ui_backup.rs], [acdp-llm]'s
    [signatures.rs], [runtime/snapshot.rs]) and, in [http_sse.rs], the
    functions the source allows to be dead.  Examples and tests.  In the
    relays, what a cancelled read of a partial line loses. *)

From Stdlib Require Export ZArith Lia Bool Strings.Ascii.
From Stdlib Require Import Strings.Byte Floats.SpecFloat.
From stdpp Require Export base tactics numbers option list strings gmap pretty.

(** * Notation scope and hint databases of the development *)

Declare Scope acdp_scope.
Delimit Scope acdp_scope with acdp.
Open Scope acdp_scope.

#[global] Open Scope Z_scope.

Create HintDb acdp discriminated.

(** * Fallible results

    Rust's [Result<T, E>]; [let? x := e in k] is the [?] operator. *)

Inductive Res (T E : Type) : Type :=
| Ok (t : T)
| Err (e : E).
Arguments Ok {T E} t.
Arguments Err {T E} e.

Definition res_bind {T U E} (r : Res T E) (k : T -> Res U E) : Res U E :=
  match r with
  | Ok t => k t
  | Err e => Err e
  end.

Notation "'let?' x ':=' e 'in' k" := (res_bind e (fun x => k))
  (at level 200, x pattern, e at level 100, k at level 200, right associativity) : acdp_scope.

(** [r.map_err(f)] *)
Definition map_err {T E F} (f : E -> F) (r : Res T E) : Res T F :=
  match r with
  | Ok t => Ok t
  | Err e => Err (f e)
  end.

(** [o.ok_or(e)] *)
Definition ok_or {T E} (o : option T) (e : E) : Res T E :=
  match o with
  | Some t => Ok t
  | None => Err e
  end.

Definition is_ok {T E} (r : Res T E) : bool :=
  match r with Ok _ => true | Err _ => false end.

#[local] Ltac res_cases r :=
  destruct r; simpl; split; intros;
  repeat match goal with
    | H : exists _, _ |- _ => destruct H
    | H : _ /\ _ |- _ => destruct H
    | H : _ \/ _ |- _ => destruct H
    end; simplify_eq; eauto; congruence.

Lemma res_bind_Ok {T U E} (r : Res T E) (k : T -> Res U E) (u : U) :
  res_bind r k = Ok u <-> exists t, r = Ok t /\ k t = Ok u.
Proof. res_cases r. Qed.

Lemma res_bind_Err {T U E} (r : Res T E) (k : T -> Res U E) (e : E) :
  res_bind r k = Err e <-> r = Err e \/ exists t, r = Ok t /\ k t = Err e.
Proof. res_cases r. Qed.

Lemma map_err_Ok {T E F} (f : E -> F) (r : Res T E) t :
  map_err f r = Ok t <-> r = Ok t.
Proof. res_cases r. Qed.

Lemma ok_or_Ok {T E} (o : option T) (e : E) t :
  ok_or o e = Ok t <-> o = Some t.
Proof. res_cases o. Qed.

Lemma Ok_inj {T E} (a b : T) : @Ok T E a = Ok b -> a = b.
Proof. congruence. Qed.

Lemma is_ok_iff {T E} (r : Res T E) : is_ok r = true <-> exists t, r = Ok t.
Proof. res_cases r. Qed.

(** Break every hypothesis that says a sequence of [?] returned [Ok]. *)
Ltac inv_res :=
  repeat match goal with
    | H : Ok _ = Ok _ |- _ => injection H as H; try subst
    | H : Err _ = Err _ |- _ => injection H as H; try subst
    | H : Ok _ = Err _ |- _ => discriminate H
    | H : Err _ = Ok _ |- _ => discriminate H
    | H : res_bind _ _ = Ok _ |- _ =>
        apply res_bind_Ok in H; destruct H as (? & ? & ?)
    | H : map_err _ _ = Ok _ |- _ => apply map_err_Ok in H
    | H : ok_or _ _ = Ok _ |- _ => apply ok_or_Ok in H
    | x : unit |- _ => destruct x
    end.

(** Case on the innermost [if] or [match] scrutinee of the goal. *)
Ltac case_goal :=
  match goal with
  | |- context [ if ?b then _ else _ ] => destruct b eqn:?
  | |- context [ match ?x with _ => _ end ] => destruct x eqn:?
  end.

(** Evaluate both sides of an equation without normalising its type. *)
Ltac vm_refl := match goal with |- _ = ?b => vm_cast_no_check (eq_refl b) end.

(** * Machine integers *)

Definition u8_max : Z := 255.
Definition u64_max : Z := 2 ^ 64 - 1.
Definition i64_min : Z := - 2 ^ 63.
Definition i64_max : Z := 2 ^ 63 - 1.

(** [x as u8], and unsigned addition in a release build *)
Definition wrap_u8 (z : Z) : Z := z mod 2 ^ 8.
Definition wrap_u64 (z : Z) : Z := z mod 2 ^ 64.

(** [x as i64] for a value of any width *)
Definition wrap_i64 (z : Z) : Z := (z + 2 ^ 63) mod 2 ^ 64 - 2 ^ 63.

(** [a.saturating_sub(b)] on an unsigned type *)
Definition saturating_sub (a b : Z) : Z := Z.max 0 (a - b).

Definition is_u8 (z : Z) : Prop := 0 <= z <= u8_max.
Definition is_u64 (z : Z) : Prop := 0 <= z <= u64_max.
Definition is_i64 (z : Z) : Prop := i64_min <= z <= i64_max.

Lemma wrap_u8_range z : is_u8 (wrap_u8 z).
Proof. unfold is_u8, u8_max, wrap_u8. pose proof (Z.mod_pos_bound z (2 ^ 8)). lia. Qed.

Lemma wrap_u8_id z : is_u8 z -> wrap_u8 z = z.
Proof. unfold is_u8, u8_max, wrap_u8. intros. apply Z.mod_small. lia. Qed.

Lemma wrap_u64_range z : is_u64 (wrap_u64 z).
Proof. unfold is_u64, u64_max, wrap_u64. pose proof (Z.mod_pos_bound z (2 ^ 64)). lia. Qed.

Lemma wrap_u64_id z : is_u64 z -> wrap_u64 z = z.
Proof. unfold is_u64, u64_max, wrap_u64. intros. apply Z.mod_small. lia. Qed.

Lemma wrap_i64_range z : is_i64 (wrap_i64 z).
Proof.
  unfold is_i64, i64_min, i64_max, wrap_i64.
  pose proof (Z.mod_pos_bound (z + 2 ^ 63) (2 ^ 64)). lia.
Qed.

Lemma wrap_i64_id z : is_i64 z -> wrap_i64 z = z.
Proof. unfold is_i64, i64_min, i64_max, wrap_i64. intros. rewrite Z.mod_small; lia. Qed.

Lemma saturating_sub_range a b : is_u64 a -> 0 <= b -> is_u64 (saturating_sub a b).
Proof. unfold is_u64, u64_max, saturating_sub. lia. Qed.

#[export] Hint Resolve wrap_u8_range wrap_u64_range wrap_i64_range : acdp.

(** * [f64]

    IEEE 754 binary64, rounding to nearest even *)

Abbreviation f64 := spec_float.
Definition f64_prec : Z := 53.
Definition f64_emax : Z := 1024.

Definition f64_zero : f64 := S754_zero false.
Definition f64_add : f64 -> f64 -> f64 := SFadd f64_prec f64_emax.
Definition f64_mul : f64 -> f64 -> f64 := SFmul f64_prec f64_emax.
Definition f64_div : f64 -> f64 -> f64 := SFdiv f64_prec f64_emax.

(** [n as f64] of an integer *)
Definition f64_of_Z (n : Z) : f64 := binary_normalize f64_prec f64_emax n 0 false.

(** The running average the statistics keep: [n] is the new count. *)
Definition f64_running_average (avg : f64) (n elapsed : Z) : f64 :=
  f64_div (f64_add (f64_mul avg (f64_of_Z (n - 1))) (f64_of_Z elapsed)) (f64_of_Z n).

Definition f64_sub : f64 -> f64 -> f64 := SFsub f64_prec f64_emax.

(** The literal [n / d] *)
Definition f64_ratio (n d : Z) : f64 := f64_div (f64_of_Z n) (f64_of_Z d).

(** [a >= b], false on a NaN *)
Definition f64_geb (a b : f64) : bool := SFleb b a.

(** * [f32], likewise *)

Abbreviation f32 := spec_float.
Definition f32_prec : Z := 24.
Definition f32_emax : Z := 128.

Definition f32_zero : f32 := S754_zero false.
Definition f32_add : f32 -> f32 -> f32 := SFadd f32_prec f32_emax.
Definition f32_mul : f32 -> f32 -> f32 := SFmul f32_prec f32_emax.
Definition f32_div : f32 -> f32 -> f32 := SFdiv f32_prec f32_emax.
Definition f32_of_Z (n : Z) : f32 := binary_normalize f32_prec f32_emax n 0 false.
Definition f32_ratio (n d : Z) : f32 := f32_div (f32_of_Z n) (f32_of_Z d).
Definition f32_geb (a b : f32) : bool := SFleb b a.

(** [x as f64] of an [f32], exact, and [x as f32] of an [f64], rounded *)
Definition float_cast (prec emax : Z) (x : spec_float) : spec_float :=
  match x with
  | S754_finite s m e => binary_normalize prec emax (if s then Z.neg m else Z.pos m) e s
  | _ => x
  end.
Definition f64_of_f32 (x : f32) : f64 := float_cast f64_prec f64_emax x.
Definition f32_of_f64 (x : f64) : f32 := float_cast f32_prec f32_emax x.

(** * Bytes

    [&[u8]] and [Vec<u8>] as lists of bytes; [str::as_bytes]; the
    little-endian encoding of a 64-bit integer. *)

Abbreviation bytes := (list Byte.byte).

#[global] Instance byte_eq_decision : EqDecision Byte.byte := Byte.byte_eq_dec.

Definition as_bytes (s : string) : bytes := String.list_byte_of_string s.

Definition byte_of_Z (z : Z) : Byte.byte :=
  match Byte.of_N (Z.to_N (z mod 256)) with
  | Some b => b
  | None => Byte.x00
  end.

Definition Z_of_byte (b : Byte.byte) : Z := Z.of_N (Byte.to_N b).

(** [z.to_le_bytes()] of an [n]-byte two's complement integer *)
Fixpoint to_le_bytes (n : nat) (z : Z) : bytes :=
  match n with
  | O => []
  | S n => byte_of_Z z :: to_le_bytes n (Z.shiftr z 8)
  end.

(** [i64::from_le_bytes]'s unsigned reading of the bytes *)
Fixpoint from_le_bytes (bs : bytes) : Z :=
  match bs with
  | [] => 0
  | b :: bs => Z_of_byte b + 256 * from_le_bytes bs
  end.

Lemma Z_of_byte_of_Z z : Z_of_byte (byte_of_Z z) = z mod 256.
Proof.
  unfold Z_of_byte, byte_of_Z.
  pose proof (Z.mod_pos_bound z 256 ltac:(lia)) as Hb.
  destruct (Byte.of_N (Z.to_N (z mod 256))) as [b|] eqn:E.
  - apply Byte.to_of_N_iff in E. rewrite E. lia.
  - apply Byte.of_N_None_iff in E. lia.
Qed.

Lemma length_to_le_bytes n z : length (to_le_bytes n z) = n.
Proof. revert z. induction n; intros; simpl; auto. Qed.

Lemma from_to_le_bytes n z :
  from_le_bytes (to_le_bytes n z) = z mod 2 ^ (8 * Z.of_nat n).
Proof.
  revert z. induction n as [|n IH]; intros z; simpl.
  - rewrite Z.mod_1_r. done.
  - rewrite Z_of_byte_of_Z, IH, Z.shiftr_div_pow2 by lia.
    replace (8 * Z.of_nat (S n)) with (8 + 8 * Z.of_nat n) by lia.
    rewrite Z.pow_add_r by lia. change (2 ^ 8) with 256.
    rewrite (Z.rem_mul_r z 256) by lia. lia.
Qed.

Lemma to_le_bytes_i64_inj a b :
  is_i64 a -> is_i64 b -> to_le_bytes 8 a = to_le_bytes 8 b -> a = b.
Proof.
  unfold is_i64, i64_min, i64_max. intros Ha Hb H.
  apply (f_equal from_le_bytes) in H. rewrite !from_to_le_bytes in H.
  change (8 * Z.of_nat 8) with 64 in H.
  assert (Hd : (a - b) mod 2 ^ 64 = 0).
  { rewrite Zminus_mod, H, Z.sub_diag. done. }
  apply Z.mod_divide in Hd; [|lia]. destruct Hd as [k Hk]. nia.
Qed.

Lemma length_as_bytes s : length (as_bytes s) = String.length s.
Proof. unfold as_bytes. induction s; simpl; auto. Qed.

Lemma str_cons_app c s t : String c s +:+ t = String c (s +:+ t).
Proof. reflexivity. Qed.

Lemma as_bytes_app s t : as_bytes (s +:+ t) = as_bytes s ++ as_bytes t.
Proof.
  unfold as_bytes, String.list_byte_of_string. rewrite <- map_app. f_equal.
  induction s as [|c s IH]; [done|].
  rewrite str_cons_app. simpl. by rewrite IH.
Qed.

Lemma as_bytes_inj s t : as_bytes s = as_bytes t -> s = t.
Proof.
  unfold as_bytes. intros H. apply (f_equal String.string_of_list_byte) in H.
  by rewrite !String.string_of_list_byte_of_string in H.
Qed.

(** Equal concatenations split at equal lengths. *)
Lemma app_inj_len {A} (a b c d : list A) :
  length a = length c -> a ++ b = c ++ d -> a = c /\ b = d.
Proof. apply app_inj_1. Qed.

(** * Strings

    [str] methods of the Rust standard library on byte strings.  The needles
    of the program are ASCII, so byte positions are character boundaries. *)

(** [s.starts_with(p)] *)
Definition starts_with (p s : string) : bool := String.prefix p s.

(** [s.ends_with(c)] *)
Fixpoint ends_with_char (c : Ascii.ascii) (s : string) : bool :=
  match s with
  | EmptyString => false
  | String d EmptyString => Ascii.eqb d c
  | String _ s => ends_with_char c s
  end.

(** [&s[..s.len() - 1]], for a non-empty [s] *)
Fixpoint drop_last_char (s : string) : string :=
  match s with
  | EmptyString | String _ EmptyString => EmptyString
  | String d s => String d (drop_last_char s)
  end.

(** [s.contains(c)] for a character *)
Fixpoint contains_char (c : Ascii.ascii) (s : string) : bool :=
  match s with
  | EmptyString => false
  | String d s => Ascii.eqb d c || contains_char c s
  end.

(** [s.is_empty()] *)
Definition str_is_empty (s : string) : bool :=
  match s with EmptyString => true | _ => false end.

(** [parts.join(sep)] *)
Definition join (sep : string) (parts : list string) : string :=
  String.concat sep parts.

(** [s.chars().count()]: the bytes that do not continue a UTF-8 sequence *)
Definition is_continuation_byte (c : Ascii.ascii) : bool :=
  Z.land (Z.of_nat (Ascii.nat_of_ascii c)) 192 =? 128.

Fixpoint chars_count (s : string) : Z :=
  match s with
  | EmptyString => 0
  | String c s => (if is_continuation_byte c then 0 else 1) + chars_count s
  end.

Lemma starts_with_spec p s :
  starts_with p s = true <-> exists r, s = p +:+ r.
Proof.
  unfold starts_with. revert s. induction p as [|c p IH]; intros s.
  - split; [intros _; by exists s|by destruct s].
  - destruct s as [|d s]; simpl.
    + split; [done|intros [r Hr]; done].
    + destruct (Ascii.ascii_dec c d) as [->|Hne].
      * rewrite IH. split; intros [r Hr]; exists r; rewrite ?str_cons_app in *; congruence.
      * split; [done|]. intros [r Hr]. rewrite str_cons_app in Hr. congruence.
Qed.

Lemma starts_with_refl s : starts_with s s = true.
Proof.
  apply starts_with_spec. exists ""%string.
  induction s as [|c s IH]; [done|]. rewrite str_cons_app. congruence.
Qed.

Lemma str_app_assoc (a b c : string) : (a +:+ b) +:+ c = a +:+ (b +:+ c).
Proof. induction a as [|x a IH]; [done|]. rewrite !str_cons_app. congruence. Qed.

Lemma str_app_inj_l (a b c : string) : a +:+ b = a +:+ c -> b = c.
Proof. induction a as [|x a IH]; [done|]. rewrite !str_cons_app. intros H. injection H. auto. Qed.

Lemma starts_with_trans a b c :
  starts_with a b = true -> starts_with b c = true -> starts_with a c = true.
Proof.
  rewrite !starts_with_spec. intros [r ->] [r' ->]. exists (r +:+ r').
  apply str_app_assoc.
Qed.

Lemma ends_with_char_spec c s :
  ends_with_char c s = true <-> s = drop_last_char s +:+ String c EmptyString.
Proof.
  induction s as [|d s IH]; [done|]. destruct s as [|e s].
  - simpl. rewrite Ascii.eqb_eq. split; [by intros ->|].
    intros H. injection H. done.
  - change (ends_with_char c (String d (String e s))) with (ends_with_char c (String e s)).
    change (drop_last_char (String d (String e s))) with
      (String d (drop_last_char (String e s))).
    rewrite IH, str_cons_app. split; [congruence|]. intros H. by injection H.
Qed.

Lemma ends_with_char_app c s t :
  t <> ""%string -> ends_with_char c (s +:+ t) = ends_with_char c t.
Proof.
  intros Ht. induction s as [|d s IH]; [done|]. rewrite str_cons_app.
  rewrite <- IH. destruct (s +:+ t) eqn:E; [|done].
  destruct s; [|rewrite str_cons_app in E; discriminate].
  change (EmptyString +:+ t) with t in E. done.
Qed.

Lemma drop_last_char_app_char s c :
  drop_last_char (s +:+ String c EmptyString) = s.
Proof.
  induction s as [|d s IH]; [done|]. rewrite str_cons_app.
  destruct s as [|e s]; [done|]. rewrite str_cons_app in *.
  change (drop_last_char (String d (String e (s +:+ String c EmptyString))))
    with (String d (drop_last_char (String e (s +:+ String c EmptyString)))).
  by rewrite IH.
Qed.

(** A prefix of [s ++ c] is all of it or a prefix of [s]. *)
Lemma starts_with_snoc p s c :
  starts_with p (s +:+ String c EmptyString) = true ->
  starts_with p s = true \/ p = s +:+ String c EmptyString.
Proof.
  unfold starts_with. revert s.
  induction p as [|d p IH]; intros s H; [left; by destruct s|].
  destruct s as [|e s].
  - right. change (EmptyString +:+ String c EmptyString) with (String c EmptyString) in *.
    simpl in H. destruct (Ascii.ascii_dec d c) as [->|]; [|done].
    destruct p; [done|discriminate].
  - rewrite str_cons_app in *. simpl in *. destruct (Ascii.ascii_dec d e) as [->|]; [|done].
    destruct (IH _ H) as [Hp| ->]; [by left|by right].
Qed.

#[export] Hint Resolve starts_with_refl starts_with_trans : acdp.

(** * Lists *)

(** [v.iter().any(f)], [v.contains(x)] and [Vec::retain] are [existsb],
    [existsb (eqb x)] and [List.filter]. *)

Lemma existsb_false {A} (f : A -> bool) (l : list A) :
  existsb f l = false <-> forall x, x ∈ l -> f x = false.
Proof.
  rewrite <- not_true_iff_false, existsb_exists. split.
  - intros H x Hx. destruct (f x) eqn:E; [|done]. exfalso. apply H.
    exists x. by rewrite <- list_elem_of_In.
  - intros H [x [Hx Hf]]. rewrite <- list_elem_of_In in Hx. rewrite H in Hf; done.
Qed.

Lemma existsb_true {A} (f : A -> bool) (l : list A) :
  existsb f l = true <-> exists x, x ∈ l /\ f x = true.
Proof.
  rewrite existsb_exists. split; intros [x [Hx Hf]]; exists x; split; auto;
    by apply list_elem_of_In.
Qed.
