(* ===== verification/AuthError.v ===== *)
(** Errors of the [acdp-auth] crate ([acdp-auth/src/error.rs]): the error
    enum, its [Display] text, its HTTP status and its retry class.  The
    conversions from third-party error types are not modelled. *)

From S2P Require Import Prelude.

Inductive ACDPError : Type :=
| InvalidCredential (msg : string)
| CredentialExpired (msg : string)
| RateLimitExceeded (used max : Z)
| ToolNotAllowed (tool : string)
| ResourceLimitExceeded (resource : string)
| DelegationNotAllowed (msg : string)
| DelegationDepthExceeded (current max : Z)
| CapabilityReductionViolation (msg : string)
| InvalidIDJAG (msg : string)
| TokenExchangeFailed (msg : string)
| MCPError (msg : string)
| ARCVerificationFailed (msg : string)
| CryptoError (msg : string)
| DatabaseError (msg : string)
| HttpError (msg : string)
| ConfigError (msg : string)
| InternalError (msg : string).

#[global] Instance ACDPError_eq_dec : EqDecision ACDPError.
Proof. solve_decision. Defined.

Abbreviation Result T := (Res T ACDPError).

Module Error.

(** The [#[error("...")]] strings *)
Definition display (e : ACDPError) : string :=
  match e with
  | InvalidCredential m => "Invalid credential: " +:+ m
  | CredentialExpired m => "Credential expired at " +:+ m
  | RateLimitExceeded used max =>
      "Rate limit exceeded: " +:+ pretty used +:+ "/" +:+ pretty max +:+ " presentations used"
  | ToolNotAllowed tool =>
      "Tool '" +:+ tool +:+ "' not allowed by credential capabilities"
  | ResourceLimitExceeded r => "Resource limit exceeded: " +:+ r
  | DelegationNotAllowed m => "Delegation not allowed: " +:+ m
  | DelegationDepthExceeded current max =>
      "Delegation depth exceeded: " +:+ pretty current +:+ " > " +:+ pretty max
  | CapabilityReductionViolation m =>
      "Delegated capabilities must be subset of parent: " +:+ m
  | InvalidIDJAG m => "Invalid ID-JAG token: " +:+ m
  | TokenExchangeFailed m => "Token exchange failed: " +:+ m
  | MCPError m => "MCP error: " +:+ m
  | ARCVerificationFailed m => "ARC proof verification failed: " +:+ m
  | CryptoError m => "Cryptographic error: " +:+ m
  | DatabaseError m => "Database error: " +:+ m
  | HttpError m => "HTTP error: " +:+ m
  | ConfigError m => "Configuration error: " +:+ m
  | InternalError m => "Internal error: " +:+ m
  end%string.

Definition is_retryable (e : ACDPError) : bool :=
  match e with
  | HttpError _ | DatabaseError _ | InternalError _ => true
  | _ => false
  end.

Definition status_code (e : ACDPError) : Z :=
  match e with
  | InvalidCredential _ => 401
  | CredentialExpired _ => 401
  | RateLimitExceeded _ _ => 429
  | ToolNotAllowed _ => 403
  | ResourceLimitExceeded _ => 403
  | DelegationNotAllowed _ => 403
  | DelegationDepthExceeded _ _ => 403
  | CapabilityReductionViolation _ => 400
  | InvalidIDJAG _ => 401
  | TokenExchangeFailed _ => 400
  | MCPError _ => 400
  | ARCVerificationFailed _ => 401
  | CryptoError _ => 500
  | DatabaseError _ => 500
  | HttpError _ => 502
  | ConfigError _ => 500
  | InternalError _ => 500
  end.

(** A retryable error is a server-side one. *)
Lemma retryable_is_server_error e :
  is_retryable e = true -> 500 <= status_code e < 600.
Proof. destruct e; simpl; intros; (discriminate || lia). Qed.

Lemma status_code_is_error e : 400 <= status_code e < 600.
Proof. destruct e; simpl; lia. Qed.

End Error.
