(* ===== verification/Capabilities.v ===== *)
(** MCP capabilities ([acdp-auth/src/capabilities.rs]): tool patterns, rate
    limit parameters, resource limits, the access decision of a credential
    and the subset test that delegation relies on. *)

From S2P Require Import Prelude AuthError.

(** [std::time::Duration], in nanoseconds *)
Module Duration.

Abbreviation t := Z.

Definition from_secs (secs : Z) : t := secs * 10 ^ 9.
Definition as_secs (d : t) : Z := d / 10 ^ 9.

Lemma as_secs_from_secs s : as_secs (from_secs s) = s.
Proof. unfold as_secs, from_secs. apply Z.div_mul. lia. Qed.

End Duration.

Module ToolPattern.

Record t : Type := mk { pattern : string }.

#[global] Instance t_eq_dec : EqDecision t.
Proof. solve_decision. Defined.

(** The wildcard character [*] and the separator [/] *)
Definition star : Ascii.ascii := "*"%char.
Definition slash : Ascii.ascii := "/"%char.

Definition new (p : string) : t := mk p.

Definition matches (self : t) (tool_name : string) : bool :=
  if ends_with_char star (pattern self) then
    starts_with (drop_last_char (pattern self)) tool_name
  else if ends_with_char slash (pattern self) then
    starts_with (pattern self) tool_name
  else String.eqb tool_name (pattern self).

Definition is_subset_of (self parent : t) : bool :=
  if ends_with_char star (pattern parent) then
    starts_with (drop_last_char (pattern parent)) (pattern self)
  else String.eqb (pattern self) (pattern parent).

(** A wildcard pattern has a single [*], at its end. *)
Definition single_star (self : t) : bool :=
  negb (ends_with_char star (pattern self) &&
        ends_with_char star (drop_last_char (pattern self))).

Lemma matches_exact p tool :
  ends_with_char star p = false -> ends_with_char slash p = false ->
  matches (mk p) tool = true <-> tool = p.
Proof. unfold matches; simpl. intros -> ->. apply String.eqb_eq. Qed.

Lemma matches_wildcard p tool :
  matches (mk (p +:+ "*")%string) tool = true <-> exists r, tool = p +:+ r.
Proof.
  unfold matches; simpl. rewrite ends_with_char_app by done. simpl.
  rewrite drop_last_char_app_char. apply starts_with_spec.
Qed.

Lemma pattern_subset_refl self : is_subset_of self self = true.
Proof.
  unfold is_subset_of. destruct (ends_with_char star (pattern self)) eqn:E.
  - apply ends_with_char_spec in E. apply starts_with_spec. eauto.
  - apply String.eqb_refl.
Qed.

(** The prefix of a single-star wildcard survives the removal of the star
    of a pattern it is a prefix of. *)
Lemma starts_with_drop_star p c :
  ends_with_char star p = false ->
  ends_with_char star c = true ->
  starts_with p c = true ->
  starts_with p (drop_last_char c) = true.
Proof.
  intros Hp Hc H. apply ends_with_char_spec in Hc. rewrite Hc in H.
  destruct (starts_with_snoc _ _ _ H) as [|He]; [done|]. exfalso.
  rewrite He, ends_with_char_app in Hp by done. discriminate.
Qed.

Lemma single_star_prefix self :
  single_star self = true -> ends_with_char star (pattern self) = true ->
  ends_with_char star (drop_last_char (pattern self)) = false.
Proof. unfold single_star. intros H E. rewrite E in H. by destruct ends_with_char. Qed.

(** Every tool of the smaller pattern is a tool of the larger. *)
Lemma pattern_subset_matches child parent tool :
  single_star parent = true ->
  is_subset_of child parent = true ->
  matches child tool = true -> matches parent tool = true.
Proof.
  intros Hs. unfold is_subset_of.
  destruct (ends_with_char star (pattern parent)) eqn:Ep.
  - unfold matches at 2. rewrite Ep. intros Hsub.
    pose proof (single_star_prefix _ Hs Ep) as Hp. unfold matches.
    destruct (ends_with_char star (pattern child)) eqn:Ec.
    + intros Hm. eapply starts_with_trans; [|exact Hm].
      by apply starts_with_drop_star.
    + destruct (ends_with_char slash (pattern child)); intros Hm.
      * eauto with acdp.
      * apply String.eqb_eq in Hm. by subst.
  - intros He. apply String.eqb_eq in He. unfold matches. by rewrite He.
Qed.

Lemma pattern_subset_trans a b c :
  single_star c = true ->
  is_subset_of a b = true -> is_subset_of b c = true -> is_subset_of a c = true.
Proof.
  intros Hs. unfold is_subset_of.
  destruct (ends_with_char star (pattern c)) eqn:Ec.
  - pose proof (single_star_prefix _ Hs Ec) as Hc. intros Hab Hbc.
    destruct (ends_with_char star (pattern b)) eqn:Eb.
    + eapply starts_with_trans; [|exact Hab]. by apply starts_with_drop_star.
    + apply String.eqb_eq in Hab. by rewrite Hab.
  - intros Hab Hbc. apply String.eqb_eq in Hbc. rewrite Hbc, Ec in Hab. done.
Qed.

End ToolPattern.

Module RateLimitParams.

Record t : Type := mk { max_presentations : Z; window : Duration.t }.

#[global] Instance t_eq_dec : EqDecision t.
Proof. solve_decision. Defined.

Definition new (max_presentations : Z) (window : Duration.t) : t :=
  mk max_presentations window.
Definition daily (max_presentations : Z) : t :=
  new max_presentations (Duration.from_secs (24 * 60 * 60)).
Definition hourly (max_presentations : Z) : t :=
  new max_presentations (Duration.from_secs (60 * 60)).

(** [duration_serde]: the window is stored as whole seconds. *)
Definition serialize_window (d : Duration.t) : Z := Duration.as_secs d.
Definition deserialize_window (secs : Z) : Duration.t := Duration.from_secs secs.

End RateLimitParams.

Module ResourceLimits.

Record t : Type := mk {
  max_read_bytes : option Z;
  max_write_bytes : option Z;
  max_concurrent_requests : option Z
}.

#[global] Instance t_eq_dec : EqDecision t.
Proof. solve_decision. Defined.

Definition default : t := mk None None None.

(** One of the three blocks of [is_subset_of] *)
Definition limit_within (child parent : option Z) : bool :=
  match parent with
  | Some parent_max =>
      match child with
      | Some child_max => negb (child_max >? parent_max)
      | None => false
      end
  | None => true
  end.

Definition is_subset_of (self parent : t) : bool :=
  if negb (limit_within (max_read_bytes self) (max_read_bytes parent)) then false
  else if negb (limit_within (max_write_bytes self) (max_write_bytes parent)) then false
  else if negb (limit_within (max_concurrent_requests self)
                             (max_concurrent_requests parent)) then false
  else true.

(** What a limit lets through *)
Definition limit_admits (limit : option Z) (n : Z) : Prop :=
  match limit with Some m => n <= m | None => True end.

Definition admits (self : t) (read write concurrent : Z) : Prop :=
  limit_admits (max_read_bytes self) read /\
  limit_admits (max_write_bytes self) write /\
  limit_admits (max_concurrent_requests self) concurrent.

(** Limits are unsigned. *)
Definition limit_ok (limit : option Z) : Prop :=
  match limit with Some m => 0 <= m | None => True end.

Definition wf (self : t) : Prop :=
  limit_ok (max_read_bytes self) /\ limit_ok (max_write_bytes self) /\
  limit_ok (max_concurrent_requests self).

Lemma limit_within_spec child parent :
  limit_ok child ->
  limit_within child parent = true <->
  (forall n, 0 <= n -> limit_admits child n -> limit_admits parent n).
Proof.
  intros Hok. destruct parent as [p|], child as [c|]; simpl in *.
  - rewrite negb_true_iff, Z.gtb_ltb, Z.ltb_ge. split; [lia|].
    intros H. apply H; lia.
  - split; [done|]. intros H. exfalso.
    specialize (H (Z.max 0 (p + 1)) ltac:(lia) I). lia.
  - tauto.
  - tauto.
Qed.

Lemma limit_within_trans a b c :
  limit_within a b = true -> limit_within b c = true -> limit_within a c = true.
Proof.
  destruct a, b, c; simpl; try done.
  rewrite !negb_true_iff, !Z.gtb_ltb, !Z.ltb_ge. lia.
Qed.

Lemma limit_within_refl a : limit_within a a = true.
Proof. destruct a; simpl; [|done]. by rewrite Z.gtb_ltb, Z.ltb_irrefl. Qed.

Lemma limits_subset_within self parent :
  is_subset_of self parent = true <->
  limit_within (max_read_bytes self) (max_read_bytes parent) = true /\
  limit_within (max_write_bytes self) (max_write_bytes parent) = true /\
  limit_within (max_concurrent_requests self) (max_concurrent_requests parent) = true.
Proof.
  unfold is_subset_of.
  destruct (limit_within (max_read_bytes self)), (limit_within (max_write_bytes self)),
    (limit_within (max_concurrent_requests self)); simpl; intuition congruence.
Qed.

Lemma limits_subset_refl self : is_subset_of self self = true.
Proof. apply limits_subset_within. auto using limit_within_refl. Qed.

Lemma limits_subset_trans a b c :
  is_subset_of a b = true -> is_subset_of b c = true -> is_subset_of a c = true.
Proof. rewrite !limits_subset_within. intuition eauto using limit_within_trans. Qed.

Lemma limits_subset_admits self parent r w k :
  is_subset_of self parent = true -> admits self r w k -> admits parent r w k.
Proof.
  rewrite limits_subset_within. unfold admits, limit_admits.
  intros (H1 & H2 & H3) (A1 & A2 & A3).
  destruct (max_read_bytes self), (max_read_bytes parent),
    (max_write_bytes self), (max_write_bytes parent),
    (max_concurrent_requests self), (max_concurrent_requests parent);
    simpl in *; rewrite ?negb_true_iff, ?Z.gtb_ltb, ?Z.ltb_ge in *;
    repeat split; (done || lia).
Qed.

End ResourceLimits.

Module MCPCapabilities.

Record t : Type := mk {
  allowed_tools : list ToolPattern.t;
  denied_tools : list ToolPattern.t;
  resource_limits : ResourceLimits.t;
  rate_limit : RateLimitParams.t
}.

#[global] Instance t_eq_dec : EqDecision t.
Proof. solve_decision. Defined.

(** The first loop returns the error, the second the permission. *)
Definition is_tool_allowed (self : t) (tool_name : string) : Result unit :=
  if existsb (fun pattern => ToolPattern.matches pattern tool_name) (denied_tools self)
  then Err (ToolNotAllowed tool_name)
  else if existsb (fun pattern => ToolPattern.matches pattern tool_name)
                  (allowed_tools self)
  then Ok tt
  else Err (ToolNotAllowed tool_name).

(** The outer loop: every child pattern has [found = true]. *)
Fixpoint patterns_covered (children parents : list ToolPattern.t) : bool :=
  match children with
  | [] => true
  | child_pattern :: rest =>
      let found := existsb (fun parent_pattern =>
        ToolPattern.is_subset_of child_pattern parent_pattern) parents in
      if negb found then false else patterns_covered rest parents
  end.

Definition is_subset_of (self parent : t) : bool :=
  if negb (patterns_covered (allowed_tools self) (allowed_tools parent)) then false
  else if RateLimitParams.max_presentations (rate_limit self)
          >? RateLimitParams.max_presentations (rate_limit parent) then false
  else if negb (ResourceLimits.is_subset_of (resource_limits self) (resource_limits parent))
  then false
  else true.

(** The tools an allow list names, and those a deny list names *)
Definition lists_tool (patterns : list ToolPattern.t) (tool : string) : Prop :=
  exists p, p ∈ patterns /\ ToolPattern.matches p tool = true.

(** No allow pattern ends in two stars. *)
Definition wf (self : t) : Prop :=
  forall p, p ∈ allowed_tools self -> ToolPattern.single_star p = true.

Lemma patterns_covered_spec children parents :
  patterns_covered children parents = true <->
  forall c, c ∈ children ->
    exists p, p ∈ parents /\ ToolPattern.is_subset_of c p = true.
Proof.
  induction children as [|c cs IH]; simpl.
  - split; [|done]. intros _ c Hc. by apply not_elem_of_nil in Hc.
  - destruct existsb eqn:E; simpl.
    + apply existsb_true in E. rewrite IH. setoid_rewrite elem_of_cons.
      split; [|eauto]. intros H c' [->|Hc']; eauto.
    + rewrite existsb_false in E. split; [done|]. intros H.
      destruct (H c) as (p & Hp & Hs); [by left|]. rewrite E in Hs; done.
Qed.

Lemma caps_subset_parts self parent :
  is_subset_of self parent = true <->
  patterns_covered (allowed_tools self) (allowed_tools parent) = true /\
  RateLimitParams.max_presentations (rate_limit self)
    <= RateLimitParams.max_presentations (rate_limit parent) /\
  ResourceLimits.is_subset_of (resource_limits self) (resource_limits parent) = true.
Proof.
  unfold is_subset_of. rewrite Z.gtb_ltb.
  destruct patterns_covered, ResourceLimits.is_subset_of,
    (Z.ltb_spec (RateLimitParams.max_presentations (rate_limit parent))
                (RateLimitParams.max_presentations (rate_limit self)));
    simpl; intuition (congruence || lia).
Qed.

Lemma patterns_covered_tools children parents tool :
  (forall p, p ∈ parents -> ToolPattern.single_star p = true) ->
  patterns_covered children parents = true ->
  lists_tool children tool -> lists_tool parents tool.
Proof.
  intros Hwf Hcov (c & Hc & Hm). rewrite patterns_covered_spec in Hcov.
  destruct (Hcov c Hc) as (p & Hp & Hs). exists p. split; [done|].
  eapply ToolPattern.pattern_subset_matches; eauto.
Qed.

Lemma patterns_covered_refl ps : patterns_covered ps ps = true.
Proof.
  apply patterns_covered_spec. eauto using ToolPattern.pattern_subset_refl.
Qed.

Lemma patterns_covered_trans a b c :
  (forall p, p ∈ c -> ToolPattern.single_star p = true) ->
  patterns_covered a b = true -> patterns_covered b c = true ->
  patterns_covered a c = true.
Proof.
  rewrite !patterns_covered_spec. intros Hwf Hab Hbc x Hx.
  destruct (Hab x Hx) as (y & Hy & Hxy). destruct (Hbc y Hy) as (z & Hz & Hyz).
  exists z. split; [done|]. eauto using ToolPattern.pattern_subset_trans.
Qed.

Lemma is_tool_allowed_cases self tool :
  (is_tool_allowed self tool = Ok tt /\
     ~ lists_tool (denied_tools self) tool /\ lists_tool (allowed_tools self) tool) \/
  (is_tool_allowed self tool = Err (ToolNotAllowed tool) /\
     (lists_tool (denied_tools self) tool \/ ~ lists_tool (allowed_tools self) tool)).
Proof.
  unfold is_tool_allowed, lists_tool.
  destruct (existsb _ (denied_tools self)) eqn:Ed.
  - right. split; [done|]. left. by apply existsb_true in Ed.
  - rewrite existsb_false in Ed.
    destruct (existsb _ (allowed_tools self)) eqn:Ea.
    + apply existsb_true in Ea. left. split_and!; [done| |done].
      intros (p & Hp & Hm). rewrite Ed in Hm; done.
    + right. split; [done|]. right. intros (p & Hp & Hm).
      rewrite existsb_false in Ea. rewrite Ea in Hm; done.
Qed.

End MCPCapabilities.

Import MCPCapabilities.

(** [is_tool_allowed] permits exactly the tools that some allow pattern
    matches and no deny pattern matches, and answers [ToolNotAllowed] with the
    tool's name for every other tool: deny takes precedence over allow. *)
Theorem tool_access_decision self tool :
  (is_tool_allowed self tool = Ok tt <->
     lists_tool (allowed_tools self) tool /\ ~ lists_tool (denied_tools self) tool) /\
  (is_tool_allowed self tool = Err (ToolNotAllowed tool) <->
     lists_tool (denied_tools self) tool \/ ~ lists_tool (allowed_tools self) tool).
Proof.
  destruct (is_tool_allowed_cases self tool) as [(-> & Hd & Ha)|(-> & H)];
    split; split; try done; intuition.
Qed.

(** C7: provided no allow pattern of the parent ends in two stars, capabilities
    that pass [is_subset_of] list no tool the parent does not list, allow no
    more presentations, and every operation size their resource limits admit is
    admitted by the parent's.  The deny lists are not compared, and for a
    pattern that ends in two stars the first of these fails
    ([double_star_subset_escapes]). *)
Theorem subset_reduces_authority child parent :
  (forall p, p ∈ allowed_tools parent -> ToolPattern.single_star p = true) ->
  is_subset_of child parent = true ->
  (forall tool p, p ∈ allowed_tools child -> ToolPattern.matches p tool = true ->
     exists q, q ∈ allowed_tools parent /\ ToolPattern.matches q tool = true) /\
  RateLimitParams.max_presentations (rate_limit child)
    <= RateLimitParams.max_presentations (rate_limit parent) /\
  (forall r w k, ResourceLimits.admits (resource_limits child) r w k ->
                 ResourceLimits.admits (resource_limits parent) r w k).
Proof.
  intros Hwf (Hp & Hm & Hr)%caps_subset_parts. split_and!; [|done|].
  - intros tool p Hpc Hm'. apply (patterns_covered_tools _ _ tool Hwf Hp). by exists p.
  - intros r w k. by apply ResourceLimits.limits_subset_admits.
Qed.

(** Each capability set of a delegation sequence passes the subset test
    against the one before it. *)
Fixpoint attenuates (root : t) (chain : list t) : Prop :=
  match chain with
  | [] => True
  | c :: rest => is_subset_of c root = true /\ attenuates c rest
  end.

Lemma caps_subset_trans a b c :
  wf c -> is_subset_of a b = true -> is_subset_of b c = true -> is_subset_of a c = true.
Proof.
  intros Hwf (P1 & M1 & R1)%caps_subset_parts (P2 & M2 & R2)%caps_subset_parts.
  apply caps_subset_parts. split_and!; [|lia|].
  - eapply patterns_covered_trans; eauto.
  - eapply ResourceLimits.limits_subset_trans; eauto.
Qed.

(** Along a sequence of delegations in which every capability set passes
    [is_subset_of] against its predecessor, every member passes it against the
    first: checking one link at a time never loses the root's bound. *)
Theorem attenuation_is_transitive root chain :
  wf root -> Forall wf chain -> attenuates root chain ->
  Forall (fun c => is_subset_of c root = true) chain.
Proof.
  assert (Hgen : forall chain top, wf root -> is_subset_of top root = true ->
    Forall wf chain -> attenuates top chain ->
    Forall (fun c => is_subset_of c root = true) chain).
  { clear chain. induction chain as [|c rest IH]; intros top Hr Ht Hw Ha; [done|].
    destruct Ha as [Hc Ha]. inversion_clear Hw.
    assert (is_subset_of c root = true) by eauto using caps_subset_trans.
    constructor; eauto. }
  intros Hr Hw Ha. destruct chain as [|c rest]; [done|]. destruct Ha as [Hc Ha].
  inversion_clear Hw. constructor; [done|]. eauto.
Qed.

(** A parent's capabilities with the deny list emptied *)
Definition without_denials (self : t) : t :=
  mk (allowed_tools self) [] (resource_limits self) (rate_limit self).

(** [is_subset_of] does not read the deny lists.  For every parent and
    every tool that the parent lists but denies, the capabilities obtained by
    dropping the deny list pass the subset test and permit the tool, so a
    delegation accepted as a reduction can regain a denied tool. *)
Theorem subset_ignores_deny_list parent tool :
  lists_tool (allowed_tools parent) tool ->
  is_subset_of (without_denials parent) parent = true /\
  is_tool_allowed (without_denials parent) tool = Ok tt.
Proof.
  intros Ha. split.
  - apply caps_subset_parts. simpl. split_and!; [apply patterns_covered_refl|lia|].
    apply ResourceLimits.limits_subset_refl.
  - destruct (is_tool_allowed_cases (without_denials parent) tool)
      as [(H & _)|(_ & [(p & Hp & _)|Hn])]; [done| |done].
    by apply not_elem_of_nil in Hp.
Qed.

(** Without the single-star condition the subset test is unsound: the
    pattern [x*] passes it against the pattern [x**], yet matches a tool that
    [x**] does not match. *)
Theorem double_star_subset_escapes :
  exists child parent tool,
    ToolPattern.is_subset_of child parent = true /\
    ToolPattern.matches child tool = true /\
    ToolPattern.matches parent tool = false.
Proof.
  exists (ToolPattern.mk "fs/*"), (ToolPattern.mk "fs/**"), "fs/delete"%string.
  vm_compute. done.
Qed.

(** ** Concrete capabilities *)

Definition team_caps : t :=
  mk [ToolPattern.mk "filesystem/*"; ToolPattern.mk "web-search/query"]
     [ToolPattern.mk "filesystem/execute"]
     (ResourceLimits.mk (Some 1000000) (Some 100000) None)
     (RateLimitParams.daily 1000).

Definition reader_caps : t :=
  mk [ToolPattern.mk "filesystem/read_file"] []
     (ResourceLimits.mk (Some 100000) (Some 10000) None)
     (RateLimitParams.daily 100).

Lemma team_caps_wf : wf team_caps.
Proof.
  unfold wf, team_caps; simpl. setoid_rewrite elem_of_cons.
  setoid_rewrite list_elem_of_singleton. by intros p [->| ->].
Qed.

Lemma reader_caps_wf : wf reader_caps.
Proof.
  unfold wf, reader_caps; simpl. setoid_rewrite list_elem_of_singleton. by intros p ->.
Qed.

Example tool_access_examples :
  is_tool_allowed team_caps "filesystem/read_file" = Ok tt /\
  is_tool_allowed team_caps "filesystem/execute"
    = Err (ToolNotAllowed "filesystem/execute") /\
  is_tool_allowed team_caps "database/query" = Err (ToolNotAllowed "database/query").
Proof. vm_compute. done. Qed.

Lemma subset_reduces_authority_witness :
  lists_tool (allowed_tools team_caps) "filesystem/read_file" /\
  (forall r w k, ResourceLimits.admits (resource_limits reader_caps) r w k ->
                 ResourceLimits.admits (resource_limits team_caps) r w k).
Proof.
  destruct (subset_reduces_authority reader_caps team_caps) as (H1 & _ & H3).
  - exact team_caps_wf.
  - reflexivity.
  - split; [|exact H3]. apply (H1 _ (ToolPattern.mk "filesystem/read_file")); [by left|reflexivity].
Defined.

Lemma attenuation_is_transitive_witness :
  Forall (fun c => is_subset_of c team_caps = true) [reader_caps; reader_caps].
Proof.
  apply (attenuation_is_transitive team_caps [reader_caps; reader_caps]).
  - exact team_caps_wf.
  - repeat constructor; exact reader_caps_wf.
  - vm_compute. done.
Defined.

Lemma subset_ignores_deny_list_witness :
  is_tool_allowed team_caps "filesystem/execute"
    = Err (ToolNotAllowed "filesystem/execute") /\
  is_subset_of (without_denials team_caps) team_caps = true /\
  is_tool_allowed (without_denials team_caps) "filesystem/execute" = Ok tt.
Proof.
  split; [reflexivity|]. apply subset_ignores_deny_list.
  exists (ToolPattern.mk "filesystem/*"). split; [by left|reflexivity].
Defined.
