(* ===== verification/Externs.v ===== *)
(** Third-party code the auth crate calls, as interfaces: [uuid], [chrono],
    [ed25519-compact], [hex], [validator], [serde_json] and [jsonwebtoken].
    The operations are parameters; what the code relies on is stated as laws,
    each documented behaviour of the crate.  [Module Toy] gives concrete
    instances, so that every theorem that assumes a law has an instance to
    which it applies. *)

From S2P Require Import Prelude.

(** ** [uuid::Uuid] *)

Class UuidApi := {
  Uuid : Type;
  #[global] Uuid_eq_dec :: EqDecision Uuid;
  uuid_as_bytes : Uuid -> bytes;
  uuid_to_string : Uuid -> string
}.

(** A UUID is 16 bytes. *)
Class UuidLaws {U : UuidApi} := {
  uuid_as_bytes_len u : length (uuid_as_bytes u) = 16%nat;
  uuid_as_bytes_inj u v : uuid_as_bytes u = uuid_as_bytes v -> u = v
}.
Arguments UuidLaws : clear implicits.

(** ** [chrono::DateTime<Utc>] *)

Class ChronoApi := {
  DateTime : Type;
  (** [dt.timestamp()]: whole seconds since the epoch *)
  timestamp : DateTime -> Z;
  (** [a < b] *)
  dt_ltb : DateTime -> DateTime -> bool;
  (** [dt + Duration::days(n)] and [dt + Duration::seconds(n)]; [None] is the
      panic on overflow *)
  dt_add_days : DateTime -> Z -> option DateTime;
  dt_add_seconds : DateTime -> Z -> option DateTime
}.

Class ChronoLaws {C : ChronoApi} := {
  timestamp_i64 d : is_i64 (timestamp d);
  dt_ltb_irrefl d : dt_ltb d d = false;
  dt_ltb_trans a b c : dt_ltb a b = true -> dt_ltb b c = true -> dt_ltb a c = true;
  (** the order refines the order of the seconds *)
  dt_ltb_timestamp a b : timestamp a < timestamp b -> dt_ltb a b = true;
  dt_add_days_timestamp d n e :
    dt_add_days d n = Some e -> timestamp e = timestamp d + n * 86400
}.
Arguments ChronoLaws : clear implicits.

(** ** [ed25519_compact] *)

Class Ed25519Api := {
  PublicKey : Type;
  SecretKey : Type;
  Signature : Type;
  (** [PublicKey::from_slice], with the [Display] text of its error *)
  pk_from_slice : bytes -> Res PublicKey string;
  pk_as_ref : PublicKey -> bytes;
  (** [Signature::from_slice] *)
  sig_from_slice : bytes -> Res Signature string;
  sig_as_ref : Signature -> bytes;
  (** [pk.verify(message, &signature)] *)
  ed_verify : PublicKey -> bytes -> Signature -> Res unit string;
  (** [sk.sign(message, None)] *)
  ed_sign : SecretKey -> bytes -> Signature;
  ed_public : SecretKey -> PublicKey
}.

Class Ed25519Laws {E : Ed25519Api} := {
  pk_from_slice_as_ref pk : pk_from_slice (pk_as_ref pk) = Ok pk;
  sig_from_slice_as_ref s : sig_from_slice (sig_as_ref s) = Ok s;
  ed_verify_sign sk m : ed_verify (ed_public sk) m (ed_sign sk m) = Ok tt;
  (** A signature is valid only for the message it was made for. *)
  ed_verify_message sk m m' :
    ed_verify (ed_public sk) m' (ed_sign sk m) = Ok tt -> m' = m
}.
Arguments Ed25519Laws : clear implicits.

(** ** [hex] *)

Class HexApi := {
  hex_encode : bytes -> string;
  hex_decode : string -> Res bytes string
}.

Class HexLaws {H : HexApi} := {
  hex_decode_encode b : hex_decode (hex_encode b) = Ok b
}.
Arguments HexLaws : clear implicits.

(** ** [validator]

    The checks of [#[validate(length(..))]] and [#[validate(url)]] and the
    text of a failed [validate()], given the names of the failing fields. *)

Class ValidatorApi := {
  validate_length : option Z -> option Z -> string -> bool;
  validate_url : string -> bool;
  validation_errors_text : list string -> string
}.

Definition within (min max : option Z) (n : Z) : bool :=
  match min with Some m => m <=? n | None => true end &&
  match max with Some m => n <=? m | None => true end.

(** The length of a string is its number of [char]s. *)
Class ValidatorLaws {V : ValidatorApi} := {
  validate_length_spec min max s : validate_length min max s = within min max (chars_count s)
}.
Arguments ValidatorLaws : clear implicits.

(** ** [serde_json] maps carried as opaque data *)

Class JsonData := { JsonValue : Type; JsonMap : Type }.

(** [validate()] over a struct's fields: the failing fields in order. *)
Definition failing_fields (checks : list (string * bool)) : list string :=
  List.map fst (List.filter (fun c => negb (snd c)) checks).

Definition validate_fields `{ValidatorApi} (checks : list (string * bool))
  : Res unit string :=
  match failing_fields checks with
  | [] => Ok tt
  | failed => Err (validation_errors_text failed)
  end.

Lemma validate_fields_Ok `{ValidatorApi} checks :
  validate_fields checks = Ok tt <-> forall c, c ∈ checks -> snd c = true.
Proof.
  unfold validate_fields, failing_fields.
  induction checks as [|[n b] checks IH]; simpl.
  - split; [|done]. intros _ c Hc. by apply not_elem_of_nil in Hc.
  - setoid_rewrite elem_of_cons. destruct b; simpl.
    + rewrite IH. split; [|eauto]. intros Hr c [->|Hc]; auto.
    + split; [done|]. intros Hr. by specialize (Hr (n, false) (or_introl eq_refl)).
Qed.

(** ** Concrete instances *)

Module Toy.

(** Two identifiers *)
#[global] Instance toy_uuid : UuidApi := {|
  Uuid := bool;
  Uuid_eq_dec := _;
  uuid_as_bytes b := repeat (if b then Byte.x01 else Byte.x00) 16;
  uuid_to_string b := if b then "id-1" else "id-0"
|}.

#[global] Instance toy_uuid_laws : UuidLaws toy_uuid.
Proof. split; [by intros []|by intros [] []]. Qed.

(** Instants are numbers read as seconds, clamped to [i64]. *)
Definition clamp_i64 (z : Z) : Z := Z.max i64_min (Z.min i64_max z).

Definition in_i64 (z : Z) : bool := (i64_min <=? z) && (z <=? i64_max).

Definition toy_add (d s : Z) : option Z :=
  let e := clamp_i64 d + s in if in_i64 e then Some e else None.

#[global] Instance toy_chrono : ChronoApi := {|
  DateTime := Z;
  timestamp := clamp_i64;
  dt_ltb a b := clamp_i64 a <? clamp_i64 b;
  dt_add_days d n := toy_add d (n * 86400);
  dt_add_seconds d n := toy_add d n
|}.

#[global] Instance toy_chrono_laws : ChronoLaws toy_chrono.
Proof.
  split; simpl.
  - intros d. unfold is_i64, clamp_i64, i64_min, i64_max. lia.
  - intros d. apply Z.ltb_irrefl.
  - intros a b c. rewrite !Z.ltb_lt. lia.
  - intros a b. by rewrite Z.ltb_lt.
  - intros d n e. unfold toy_add, in_i64.
    destruct (_ && _) eqn:E; [|done]. intros H. simplify_eq.
    apply andb_true_iff in E. rewrite !Z.leb_le in E. unfold clamp_i64 at 1. lia.
Qed.

(** A signature is the key and the message. *)
Definition toy_verify (pk : Byte.byte) (m : bytes) (s : Byte.byte * bytes)
  : Res unit string :=
  if bool_decide (s = (pk, m)) then Ok tt else Err "signature mismatch"%string.

#[global] Instance toy_ed25519 : Ed25519Api := {|
  PublicKey := Byte.byte;
  SecretKey := Byte.byte;
  Signature := Byte.byte * bytes;
  pk_from_slice b := match b with [k] => Ok k | _ => Err "wrong key length"%string end;
  pk_as_ref k := [k];
  sig_from_slice b :=
    match b with k :: m => Ok (k, m) | [] => Err "wrong signature length"%string end;
  sig_as_ref s := s.1 :: s.2;
  ed_verify := toy_verify;
  ed_sign k m := (k, m);
  ed_public k := k
|}.

#[global] Instance toy_ed25519_laws : Ed25519Laws toy_ed25519.
Proof.
  split; simpl; [done|by intros []| |]; unfold toy_verify; intros sk m.
  - by rewrite bool_decide_true.
  - intros m'. case_bool_decide; [|done]. congruence.
Qed.

#[global] Instance toy_hex : HexApi := {|
  hex_encode := String.string_of_list_byte;
  hex_decode s := Ok (String.list_byte_of_string s)
|}.

#[global] Instance toy_hex_laws : HexLaws toy_hex.
Proof. split. intros b. simpl. by rewrite String.list_byte_of_string_of_list_byte. Qed.

#[global] Instance toy_validator : ValidatorApi := {|
  validate_length min max s := within min max (chars_count s);
  validate_url := starts_with "http";
  validation_errors_text := join ", "
|}.

#[global] Instance toy_validator_laws : ValidatorLaws toy_validator.
Proof. split. done. Qed.

#[global] Instance toy_json : JsonData := {| JsonValue := string; JsonMap := list (string * string) |}.

End Toy.
