(* ===== verification/Identity.v ===== *)
(** Principals and agents ([acdp-auth/src/principal.rs],
    [acdp-auth/src/agent.rs]): the identities a credential binds, their
    validation, and the hex encoding of their keys. *)

From S2P Require Import Prelude AuthError Externs.

(** ** Hex encoding of keys and signatures: [public_key_serde] and the two
    copies of [signature_serde] *)

Section serde.
Context `{E : Ed25519Api, H : HexApi}.

Definition public_key_serialize (key : PublicKey) : string := hex_encode (pk_as_ref key).

Definition public_key_deserialize (hex_string : string) : Res PublicKey string :=
  let? b := hex_decode hex_string in pk_from_slice b.

Definition signature_serialize (s : Signature) : string := hex_encode (sig_as_ref s).

Definition signature_deserialize (hex_string : string) : Res Signature string :=
  let? b := hex_decode hex_string in sig_from_slice b.
End serde.

Module Principal.
Section principal.
Context `{V : ValidatorApi, J : JsonData}.

(** Claims carried from the ID-JAG, never inspected by the crate *)
Record AdditionalClaims : Type := {
  email : option string;
  name : option string;
  org : option string;
  groups : option (list string);
  custom : JsonMap
}.

Record t : Type := mk {
  human_id : string;
  idp_issuer : string;
  idp_client_id : string;
  additional_claims : option AdditionalClaims
}.

(** The derived [validate()] *)
Definition validate (self : t) : Res unit string :=
  validate_fields
    [("human_id"%string, validate_length (Some 1) (Some 255) (human_id self));
     ("idp_issuer"%string, validate_url (idp_issuer self));
     ("idp_client_id"%string, validate_length (Some 1) (Some 255) (idp_client_id self))].

Definition from_id_jag (human_id idp_issuer idp_client_id : string) : Result t :=
  let principal := mk human_id idp_issuer idp_client_id None in
  let? _ := map_err (fun e => InvalidIDJAG ("Invalid principal: " +:+ e)) (validate principal) in
  Ok principal.

Definition with_claims (self : t) (claims : AdditionalClaims) : t :=
  mk (human_id self) (idp_issuer self) (idp_client_id self) (Some claims).

Definition canonical_id (self : t) : string := human_id self +:+ "@" +:+ idp_issuer self.

Definition verify_id_jag (self : t) (sub iss client_id : string) : Result unit :=
  if negb (String.eqb (human_id self) sub) then
    Err (InvalidIDJAG ("Principal human_id mismatch: " +:+ human_id self +:+ " != " +:+ sub))
  else if negb (String.eqb (idp_issuer self) iss) then
    Err (InvalidIDJAG ("Principal idp_issuer mismatch: " +:+ idp_issuer self +:+ " != " +:+ iss))
  else if negb (String.eqb (idp_client_id self) client_id) then
    Err (InvalidIDJAG
      ("Principal idp_client_id mismatch: " +:+ idp_client_id self +:+ " != " +:+ client_id))
  else Ok tt.

Lemma validate_Ok self :
  validate self = Ok tt <->
  validate_length (Some 1) (Some 255) (human_id self) = true /\
  validate_url (idp_issuer self) = true /\
  validate_length (Some 1) (Some 255) (idp_client_id self) = true.
Proof.
  unfold validate. rewrite validate_fields_Ok. setoid_rewrite elem_of_cons.
  setoid_rewrite elem_of_cons. setoid_rewrite list_elem_of_singleton.
  split; [intros Hc|intros (? & ? & ?) c [->|[->| ->]]; done].
  split_and!; [exact (Hc _ (or_introl eq_refl))|exact (Hc _ (or_intror (or_introl eq_refl)))|
               exact (Hc _ (or_intror (or_intror eq_refl)))].
Qed.

(** A principal made from an ID-JAG carries its claims, and they matched. *)
Lemma from_id_jag_Ok h i c p :
  from_id_jag h i c = Ok p ->
  p = mk h i c None /\ validate p = Ok tt /\ verify_id_jag p h i c = Ok tt.
Proof.
  unfold from_id_jag. intros Hp. inv_res. split_and!; [done|done|].
  unfold verify_id_jag; simpl. by rewrite !String.eqb_refl.
Qed.

(** The principal is made when its fields are valid, and in no other case. *)
Lemma from_id_jag_valid h i c :
  validate (mk h i c None) = Ok tt -> from_id_jag h i c = Ok (mk h i c None).
Proof. unfold from_id_jag. by intros ->. Qed.

Lemma verify_id_jag_Ok self sub iss client_id :
  verify_id_jag self sub iss client_id = Ok tt <->
  human_id self = sub /\ idp_issuer self = iss /\ idp_client_id self = client_id.
Proof.
  unfold verify_id_jag.
  destruct (String.eqb_spec (human_id self) sub), (String.eqb_spec (idp_issuer self) iss),
    (String.eqb_spec (idp_client_id self) client_id); simpl; intuition congruence.
Qed.
End principal.
Arguments t : clear implicits.
Arguments t {J}.
End Principal.

Module Agent.
Section agent.
Context `{E : Ed25519Api, V : ValidatorApi, C : ChronoApi, J : JsonData}.

Record AgentMetadata : Type := {
  version : option string;
  code_hash : option string;
  build_timestamp : option DateTime;
  capabilities_description : option string;
  custom : JsonMap
}.

Record t : Type := mk {
  agent_id : string;
  public_key : PublicKey;
  platform : string;
  verified : bool;
  metadata : option AgentMetadata
}.

Definition validate (self : t) : Res unit string :=
  validate_fields
    [("agent_id"%string, validate_length (Some 1) (Some 255) (agent_id self));
     ("platform"%string, validate_length (Some 1) (Some 100) (platform self))].

Definition new (agent_id : string) (public_key : PublicKey) (platform : string)
    (verified : bool) : Result t :=
  let agent := mk agent_id public_key platform verified None in
  let? _ := map_err (fun e => InvalidCredential ("Invalid agent: " +:+ e)) (validate agent) in
  Ok agent.

Definition with_metadata (self : t) (m : AgentMetadata) : t :=
  mk (agent_id self) (public_key self) (platform self) (verified self) (Some m).

Definition public_key_bytes (self : t) : bytes := pk_as_ref (public_key self).

Definition verify_signature (self : t) (message signature : bytes) : Result unit :=
  let? sig := map_err (fun e => CryptoError ("Invalid signature: " +:+ e))
                      (sig_from_slice signature) in
  let? _ := map_err (fun e => CryptoError ("Signature verification failed: " +:+ e))
                    (ed_verify (public_key self) message sig) in
  Ok tt.

(** A non-empty identifier of at most 255 characters is accepted. *)
Lemma agent_validate_Ok self :
  validate self = Ok tt <->
  validate_length (Some 1) (Some 255) (agent_id self) = true /\
  validate_length (Some 1) (Some 100) (platform self) = true.
Proof.
  unfold validate. rewrite validate_fields_Ok. setoid_rewrite elem_of_cons.
  setoid_rewrite list_elem_of_singleton.
  split; [intros Hc|intros (? & ?) c [->| ->]; done].
  split; [exact (Hc _ (or_introl eq_refl))|exact (Hc _ (or_intror eq_refl))].
Qed.

Lemma agent_new_Ok i k p v a :
  new i k p v = Ok a -> a = mk i k p v None /\ validate a = Ok tt.
Proof. unfold new. intros Ha. by inv_res. Qed.

Lemma agent_new_valid i k p v :
  validate (mk i k p v None) = Ok tt -> new i k p v = Ok (mk i k p v None).
Proof. unfold new. by intros ->. Qed.
End agent.
Arguments t : clear implicits.
Arguments t {E C J}.
End Agent.

(** The hex serialisation of public keys and of signatures round-trips:
    deserialising what was serialised gives back the key or the signature. *)
Theorem key_and_signature_serde_roundtrip `{E : Ed25519Api, H : HexApi}
    (EL : Ed25519Laws E) (HL : HexLaws H) (key : PublicKey) (s : Signature) :
  public_key_deserialize (public_key_serialize key) = Ok key /\
  signature_deserialize (signature_serialize s) = Ok s.
Proof.
  unfold public_key_deserialize, public_key_serialize, signature_deserialize,
    signature_serialize.
  rewrite !hex_decode_encode. simpl.
  by rewrite pk_from_slice_as_ref, sig_from_slice_as_ref.
Qed.

Lemma key_and_signature_serde_roundtrip_witness :
  public_key_deserialize (E := Toy.toy_ed25519)
    (public_key_serialize (E := Toy.toy_ed25519) Byte.x41) = Ok Byte.x41 /\
  signature_deserialize (E := Toy.toy_ed25519)
    (signature_serialize (E := Toy.toy_ed25519) (Byte.x41, [Byte.x42; Byte.x43]))
  = Ok (Byte.x41, [Byte.x42; Byte.x43]).
Proof.
  exact (key_and_signature_serde_roundtrip (E := Toy.toy_ed25519) (H := Toy.toy_hex)
           Toy.toy_ed25519_laws Toy.toy_hex_laws Byte.x41 (Byte.x41, [Byte.x42; Byte.x43])).
Defined.
