(* ===== verification/Mcp.v ===== *)
(** Enterprise-managed authorization ([acdp-auth/src/mcp.rs]): the ID-JAG
    token with its validation and verification, and the OAuth token exchange
    request and response.  [jsonwebtoken] is a parameter; the current time is
    an argument. *)

From S2P Require Import Prelude AuthError Externs.

(** [jsonwebtoken::{encode, decode}] for claims of type [T]; the two flags of
    [Validation] the code sets are arguments. *)
Class JwtApi (T : Type) := {
  EncodingKey : Type;
  DecodingKey : Type;
  jwt_encode : T -> EncodingKey -> Res string string;
  jwt_decode : forall (validate_exp validate_aud : bool),
    string -> DecodingKey -> Res T string
}.

(** What is encoded under a key is decoded under the matching key. *)
Class JwtLaws {T} {W : JwtApi T} (matching : EncodingKey -> DecodingKey -> Prop) := {
  jwt_decode_encode t ek dk s :
    matching ek dk -> jwt_encode t ek = Ok s -> jwt_decode false false s dk = Ok t
}.

Module IDJAGToken.
Section token.
Context `{V : ValidatorApi, J : JsonData}.

Record t : Type := mk {
  token_type : string;
  jti : string;
  iss : string;
  sub : string;
  aud : string;
  resource : string;
  client_id : string;
  exp : Z;
  iat : Z;
  scope : string;
  additional_claims : option JsonMap
}.

Definition validate (self : t) : Res unit string :=
  validate_fields
    [("iss"%string, validate_url (iss self));
     ("sub"%string, validate_length (Some 1) None (sub self));
     ("aud"%string, validate_url (aud self));
     ("resource"%string, validate_url (resource self));
     ("client_id"%string, validate_length (Some 1) None (client_id self))].

(** [now] is [Utc::now().timestamp()] *)
Definition new (now : Z) (jti iss sub aud resource client_id scope : string)
    (ttl_seconds : Z) : Result t :=
  let token := mk "oauth-id-jag+jwt" jti iss sub aud resource client_id
                  (wrap_i64 (now + ttl_seconds)) now scope None in
  let? _ := map_err (fun e => InvalidIDJAG ("Invalid ID-JAG token: " +:+ e)) (validate token) in
  Ok token.

Definition is_expired (now : Z) (self : t) : bool := now >? exp self.

Definition verify (now : Z) (self : t) (expected_aud : string)
    (expected_resource : option string) : Result unit :=
  if is_expired now self then Err (TokenExchangeFailed "ID-JAG token expired")
  else if negb (String.eqb (token_type self) "oauth-id-jag+jwt") then
    Err (InvalidIDJAG ("Invalid token type: " +:+ token_type self))
  else if negb (String.eqb (aud self) expected_aud) then
    Err (InvalidIDJAG ("Audience mismatch: " +:+ aud self +:+ " != " +:+ expected_aud))
  else match expected_resource with
    | Some expected_res =>
        if negb (String.eqb (resource self) expected_res) then
          Err (InvalidIDJAG
            ("Resource mismatch: " +:+ resource self +:+ " != " +:+ expected_res))
        else Ok tt
    | None => Ok tt
    end.

Definition encode {W : JwtApi t} (self : t) (signing_key : EncodingKey) : Result string :=
  map_err (fun e => TokenExchangeFailed ("Failed to encode JWT: " +:+ e))
    (jwt_encode self signing_key).

Definition decode {W : JwtApi t} (token : string) (verification_key : DecodingKey)
    : Result t :=
  map_err (fun e => InvalidIDJAG ("Failed to decode JWT: " +:+ e))
    (jwt_decode false false token verification_key).

Lemma id_jag_verify_Ok now self expected_aud expected_resource :
  verify now self expected_aud expected_resource = Ok tt <->
  now <= exp self /\ token_type self = "oauth-id-jag+jwt"%string /\
  aud self = expected_aud /\
  (forall r, expected_resource = Some r -> resource self = r).
Proof.
  unfold verify, is_expired. rewrite Z.gtb_ltb.
  destruct (Z.ltb_spec (exp self) now);
    [split; [done|intros (? & _); lia]|].
  destruct (String.eqb_spec (token_type self) "oauth-id-jag+jwt");
    [|split; [done|intros (_ & ? & _); done]].
  destruct (String.eqb_spec (aud self) expected_aud);
    [|split; [done|intros (_ & _ & ? & _); done]].
  destruct expected_resource as [r|]; simpl.
  - destruct (String.eqb_spec (resource self) r); simpl.
    + split; [intros _|done]. split_and!; [done..|]. intros. congruence.
    + split; [done|]. intros (_ & _ & _ & Hr). by destruct (Hr r eq_refl).
  - split; [intros _|done]. split_and!; done.
Qed.

Lemma new_Ok now j i s a r c sc ttl tok :
  new now j i s a r c sc ttl = Ok tok ->
  tok = mk "oauth-id-jag+jwt" j i s a r c (wrap_i64 (now + ttl)) now sc None.
Proof. unfold new. intros Hn. by inv_res. Qed.
End token.
Arguments t : clear implicits.
Arguments t {J}.
End IDJAGToken.

Module TokenExchangeRequest.
Section request.
Context `{V : ValidatorApi}.

Record t : Type := mk {
  grant_type : string;
  requested_token_type : string;
  audience : string;
  resource : string;
  scope : string;
  subject_token : string;
  subject_token_type : string;
  client_id : string;
  client_secret : option string
}.

Definition grant_type_urn : string := "urn:ietf:params:oauth:grant-type:token-exchange".
Definition id_jag_urn : string := "urn:ietf:params:oauth:token-type:id-jag".
Definition id_token_urn : string := "urn:ietf:params:oauth:token-type:id_token".

Definition validate (self : t) : Res unit string :=
  validate_fields
    [("audience"%string, validate_url (audience self));
     ("resource"%string, validate_url (resource self));
     ("subject_token"%string, validate_length (Some 1) None (subject_token self));
     ("client_id"%string, validate_length (Some 1) None (client_id self))].

Definition new (audience resource scope subject_token client_id : string)
    (client_secret : option string) : Result t :=
  let request := mk grant_type_urn id_jag_urn audience resource scope subject_token
                    id_token_urn client_id client_secret in
  let? _ := map_err (fun e =>
              TokenExchangeFailed ("Invalid token exchange request: " +:+ e))
              (validate request) in
  Ok request.

Definition validate_request (self : t) : Result unit :=
  if negb (String.eqb (grant_type self) grant_type_urn) then
    Err (TokenExchangeFailed ("Invalid grant type: " +:+ grant_type self))
  else if negb (String.eqb (requested_token_type self) id_jag_urn) then
    Err (TokenExchangeFailed
      ("Invalid requested token type: " +:+ requested_token_type self))
  else if negb (String.eqb (subject_token_type self) id_token_urn) then
    Err (TokenExchangeFailed
      ("Invalid subject token type: " +:+ subject_token_type self))
  else Ok tt.

Lemma new_validate_request a r s st c cs req :
  new a r s st c cs = Ok req -> validate_request req = Ok tt.
Proof. unfold new. intros Hn. inv_res. reflexivity. Qed.
End request.
End TokenExchangeRequest.

Module TokenExchangeResponse.

Record t : Type := mk {
  issued_token_type : string;
  access_token : string;
  token_type : string;
  scope : string;
  expires_in : Z
}.

Definition new (id_jag_token scope : string) (expires_in : Z) : t :=
  mk TokenExchangeRequest.id_jag_urn id_jag_token "N_A" scope expires_in.

End TokenExchangeResponse.

(** A token made by [IDJAGToken::new] with a lifetime that does not
    overflow survives encoding and decoding, and the decoded token passes
    [verify] for its own audience and resource exactly until its lifetime has
    elapsed, whatever the audience check of the decoder. *)
Theorem id_jag_issue_verify `{V : ValidatorApi, J : JsonData} {W : JwtApi IDJAGToken.t}
    (matching : EncodingKey -> DecodingKey -> Prop) (WL : JwtLaws matching)
    now later jti iss sub aud resource client scope ttl tok ek dk jwt :
  IDJAGToken.new now jti iss sub aud resource client scope ttl = Ok tok ->
  is_i64 (now + ttl) -> matching ek dk ->
  IDJAGToken.encode tok ek = Ok jwt ->
  exists tok', IDJAGToken.decode jwt dk = Ok tok' /\
    (IDJAGToken.verify later tok' aud (Some resource) = Ok tt <-> later <= now + ttl).
Proof.
  intros Hn%IDJAGToken.new_Ok Hi Hm He. unfold IDJAGToken.encode in He. inv_res.
  exists tok. unfold IDJAGToken.decode. rewrite (jwt_decode_encode _ _ _ _ Hm He).
  split; [done|]. rewrite IDJAGToken.id_jag_verify_Ok. subst tok. simpl.
  rewrite wrap_i64_id by done. split; [tauto|]. intros. split_and!; [done..|].
  intros. congruence.
Qed.

(** A codec that stores the token in a table of one entry *)
Definition demo_token : IDJAGToken.t (J := Toy.toy_json) :=
  IDJAGToken.mk "oauth-id-jag+jwt" "jti-123" "https://acme.idp.example" "alice@acme.com"
    "https://acdp-gateway.kontext.dev/" "https://mcp-server.example.com/" "mcp-client"
    1300 1000 "mcp:filesystem:read" None.

#[global] Instance demo_map_eq_dec : EqDecision (@JsonMap Toy.toy_json) :=
  list_eq_dec (A := string * string).

#[global] Instance demo_token_eq_dec : EqDecision (IDJAGToken.t (J := Toy.toy_json)).
Proof. solve_decision. Defined.

Definition toy_jwt : JwtApi (IDJAGToken.t (J := Toy.toy_json)) := {|
  EncodingKey := unit;
  DecodingKey := unit;
  jwt_encode t _ := if bool_decide (t = demo_token) then Ok "jwt"%string
                    else Err "unknown token"%string;
  jwt_decode _ _ s _ := if String.eqb s "jwt" then Ok demo_token else Err "bad"%string
|}.

Lemma toy_jwt_laws : JwtLaws (W := toy_jwt) (fun _ _ => True).
Proof.
  split. intros t ek dk s _. simpl. case_bool_decide; [|done].
  intros H'. injection H' as <-. simpl. congruence.
Qed.

Lemma id_jag_issue_verify_witness :
  exists tok', IDJAGToken.decode (W := toy_jwt) "jwt" tt = Ok tok' /\
    (IDJAGToken.verify 1300 tok' "https://acdp-gateway.kontext.dev/"
       (Some "https://mcp-server.example.com/"%string) = Ok tt <-> 1300 <= 1000 + 300).
Proof.
  apply (id_jag_issue_verify (V := Toy.toy_validator) (W := toy_jwt) (fun _ _ => True)
           toy_jwt_laws 1000 1300 "jti-123" "https://acme.idp.example" "alice@acme.com"
           "https://acdp-gateway.kontext.dev/" "https://mcp-server.example.com/" "mcp-client"
           "mcp:filesystem:read" 300 demo_token tt tt).
  - vm_compute. reflexivity.
  - unfold is_i64, i64_min, i64_max. lia.
  - exact I.
  - vm_compute. reflexivity.
Defined.
