(* ===== verification/Delegation.v ===== *)
(** Agent-to-agent delegation ([acdp-auth/src/delegation.rs]): delegation
    rights, signed delegation proofs and the delegation chain kept as a
    credential's audit trail. *)

From S2P Require Import Prelude AuthError Externs.

Inductive CapabilityReductionPolicy : Type := MustReduce | AllowSame.

#[global] Instance policy_eq_dec : EqDecision CapabilityReductionPolicy.
Proof. solve_decision. Defined.

Module DelegationRights.

Record t : Type := mk {
  can_delegate : bool;
  max_delegation_depth : Z;  (* u8 *)
  capability_reduction_policy : CapabilityReductionPolicy
}.

#[global] Instance t_eq_dec : EqDecision t.
Proof. solve_decision. Defined.

Definition allow_delegation (max_depth : Z) : t := mk true max_depth MustReduce.
Definition no_delegation : t := mk false 0 MustReduce.

Definition can_delegate_at_depth (self : t) (current_depth : Z) : Result unit :=
  if negb (can_delegate self) then
    Err (DelegationNotAllowed "Delegation not permitted for this credential")
  else if current_depth >=? max_delegation_depth self then
    Err (DelegationDepthExceeded current_depth (max_delegation_depth self))
  else Ok tt.

Lemma can_delegate_at_depth_Ok self d :
  can_delegate_at_depth self d = Ok tt <->
  can_delegate self = true /\ d < max_delegation_depth self.
Proof.
  unfold can_delegate_at_depth. rewrite Z.geb_leb.
  destruct (can_delegate self), (Z.leb_spec (max_delegation_depth self) d);
    simpl; intuition (congruence || lia).
Qed.

End DelegationRights.

Module DelegationProof.
Section proof.
Context `{U : UuidApi, C : ChronoApi, E : Ed25519Api}.

Record t : Type := mk {
  delegator : string;
  delegatee : string;
  parent_credential_id : Uuid;
  delegated_credential_id : Uuid;
  at_time : DateTime;  (* the field [timestamp] *)
  capabilities_reduced : bool;
  signature : Signature
}.

(** [now] is [Utc::now()] *)
Definition new (now : DateTime) (delegator delegatee : string)
    (parent_credential_id delegated_credential_id : Uuid)
    (capabilities_reduced : bool) (signature : Signature) : t :=
  mk delegator delegatee parent_credential_id delegated_credential_id now
     capabilities_reduced signature.

Definition signing_data (self : t) : Result bytes :=
  Ok (as_bytes (delegator self) ++ as_bytes (delegatee self) ++
      uuid_as_bytes (parent_credential_id self) ++
      uuid_as_bytes (delegated_credential_id self) ++
      to_le_bytes 8 (timestamp (at_time self)) ++
      [if capabilities_reduced self then Byte.x01 else Byte.x00]).

Definition verify (self : t) (delegator_public_key : bytes) : Result unit :=
  let? public_key := map_err (fun e => CryptoError ("Invalid public key: " +:+ e))
                             (pk_from_slice delegator_public_key) in
  let? data := signing_data self in
  let? _ := map_err (fun e =>
              InvalidCredential ("Delegation proof verification failed: " +:+ e))
              (ed_verify public_key data (signature self)) in
  Ok tt.

Lemma proof_verify_Ok self key :
  verify self key = Ok tt <->
  exists pk data, pk_from_slice key = Ok pk /\ signing_data self = Ok data /\
                  ed_verify pk data (signature self) = Ok tt.
Proof.
  unfold verify. split.
  - intros Hv. inv_res. eauto.
  - intros (pk & data & -> & -> & Hv). simpl. by rewrite Hv.
Qed.

(** The fixed-width tail of the signing data *)
Lemma signing_data_names (UL : UuidLaws U) (p q : t) :
  signing_data p = signing_data q ->
  String.length (delegator p) = String.length (delegator q) ->
  delegator p = delegator q /\ delegatee p = delegatee q /\
  uuid_as_bytes (parent_credential_id p) ++
    uuid_as_bytes (delegated_credential_id p) ++
    to_le_bytes 8 (timestamp (at_time p)) ++
    [if capabilities_reduced p then Byte.x01 else Byte.x00] =
  uuid_as_bytes (parent_credential_id q) ++
    uuid_as_bytes (delegated_credential_id q) ++
    to_le_bytes 8 (timestamp (at_time q)) ++
    [if capabilities_reduced q then Byte.x01 else Byte.x00].
Proof.
  unfold signing_data. intros Heq Hlen. apply Ok_inj in Heq.
  apply app_inj_1 in Heq as [H1 Heq]; [|by rewrite !length_as_bytes].
  apply as_bytes_inj in H1. apply app_inj_1 in Heq as [H2 H3].
  - by apply as_bytes_inj in H2.
  - apply (f_equal length) in Heq. revert Heq. rewrite !length_app, !length_to_le_bytes,
      !uuid_as_bytes_len. simpl. lia.
Qed.

Lemma signing_data_inj (UL : UuidLaws U) (CL : ChronoLaws C) (p q : t) :
  signing_data p = signing_data q ->
  String.length (delegator p) = String.length (delegator q) ->
  delegator p = delegator q /\ delegatee p = delegatee q /\
  parent_credential_id p = parent_credential_id q /\
  delegated_credential_id p = delegated_credential_id q /\
  timestamp (at_time p) = timestamp (at_time q) /\
  capabilities_reduced p = capabilities_reduced q.
Proof.
  intros Heq Hlen. destruct (signing_data_names UL p q Heq Hlen) as (H1 & H2 & H3).
  apply app_inj_1 in H3 as [Ha H3]; [|by rewrite !uuid_as_bytes_len].
  apply app_inj_1 in H3 as [Hb H3]; [|by rewrite !uuid_as_bytes_len].
  apply app_inj_1 in H3 as [Hc H3]; [|by rewrite !length_to_le_bytes].
  split_and!; [done|done|by apply uuid_as_bytes_inj|by apply uuid_as_bytes_inj| |].
  - apply to_le_bytes_i64_inj; [apply timestamp_i64..|done].
  - by destruct (capabilities_reduced p), (capabilities_reduced q).
Qed.
End proof.
Arguments t : clear implicits.
Arguments t {U C E}.
End DelegationProof.

Module DelegationChain.
Section chain.
Context `{U : UuidApi, C : ChronoApi, E : Ed25519Api}.

(** Oldest proof first *)
Record t : Type := mk { proofs : list DelegationProof.t }.

Definition new : t := mk [].

Definition add_proof (self : t) (proof : DelegationProof.t) : t :=
  mk (proofs self ++ [proof]).

Definition depth (self : t) : Z := wrap_u8 (Z.of_nat (length (proofs self))).

(** The loop of [verify]: the first failing proof ends it. *)
Fixpoint verify_proofs (get_public_key : string -> Result bytes)
    (ps : list DelegationProof.t) : Result unit :=
  match ps with
  | [] => Ok tt
  | proof :: rest =>
      let? public_key := get_public_key (DelegationProof.delegator proof) in
      let? _ := DelegationProof.verify proof public_key in
      verify_proofs get_public_key rest
  end.

Definition verify (self : t) (get_public_key : string -> Result bytes) : Result unit :=
  verify_proofs get_public_key (proofs self).

Definition audit_trail (self : t) : list string :=
  List.map (fun p => DelegationProof.delegator p +:+ " → " +:+ DelegationProof.delegatee p)%string
    (proofs self).

Definition check_depth (self : t) (max_depth : Z) : Result unit :=
  if depth self >? max_depth then Err (DelegationDepthExceeded (depth self) max_depth)
  else Ok tt.

(** A proof's signature is valid under the key looked up for its delegator. *)
Definition proof_valid (get_public_key : string -> Result bytes)
    (p : DelegationProof.t) : Prop :=
  exists key, get_public_key (DelegationProof.delegator p) = Ok key /\
              DelegationProof.verify p key = Ok tt.

Lemma verify_proofs_Ok get_public_key ps :
  verify_proofs get_public_key ps = Ok tt <-> Forall (proof_valid get_public_key) ps.
Proof.
  induction ps as [|p ps IH]; simpl; [split; constructor|].
  rewrite Forall_cons, <- IH. unfold proof_valid. split.
  - intros Hv. inv_res. eauto.
  - intros [(key & -> & Hv) Hr]. simpl. by rewrite Hv.
Qed.

Lemma check_depth_Ok self max_depth :
  check_depth self max_depth = Ok tt <-> depth self <= max_depth.
Proof.
  unfold check_depth. rewrite Z.gtb_ltb.
  destruct (Z.ltb_spec max_depth (depth self)); split; (done || lia).
Qed.

Lemma depth_small self :
  (length (proofs self) < 256)%nat -> depth self = Z.of_nat (length (proofs self)).
Proof. intros Hl. apply wrap_u8_id. unfold is_u8, u8_max. lia. Qed.

(** A delegation: the rights are consulted at the current depth, then the
    proof is appended. *)
Inductive delegates (rights : DelegationRights.t) : t -> t -> Prop :=
| delegate_step c p :
    DelegationRights.can_delegate_at_depth rights (depth c) = Ok tt ->
    delegates rights c (add_proof c p).
End chain.
Arguments t : clear implicits.
Arguments t {U C E}.
End DelegationChain.

(** A step relation that keeps the rights, iterated *)
Definition delegated `{U : UuidApi, C : ChronoApi, E : Ed25519Api}
    (rights : DelegationRights.t) : DelegationChain.t -> DelegationChain.t -> Prop :=
  rtc (DelegationChain.delegates rights).

(** No delegation makes a chain longer than the larger of its length and the
    maximum. *)
Lemma delegated_length `{U : UuidApi, C : ChronoApi, E : Ed25519Api}
    (rights : DelegationRights.t) (c c' : DelegationChain.t) :
  is_u8 (DelegationRights.max_delegation_depth rights) ->
  delegated rights c c' ->
  Z.of_nat (length (DelegationChain.proofs c)) <= DelegationRights.max_delegation_depth rights ->
  Z.of_nat (length (DelegationChain.proofs c')) <= DelegationRights.max_delegation_depth rights.
Proof.
  intros Hu8 Hr. induction Hr as [c|c1 c2 c3 Hs _ IH]; [done|]. intros Hlen. apply IH.
  destruct Hs as [c p Hd]. apply DelegationRights.can_delegate_at_depth_Ok in Hd as [_ Hd].
  unfold is_u8, u8_max in Hu8. rewrite DelegationChain.depth_small in Hd by lia.
  simpl. rewrite length_app. simpl. lia.
Qed.

(** From the empty chain, delegating only when [can_delegate_at_depth]
    permits it never makes the chain longer than [max_delegation_depth], the
    depth counter stays exact, and [check_depth] accepts the chain against
    that maximum. *)
Theorem delegation_depth_bounded `{U : UuidApi, C : ChronoApi, E : Ed25519Api}
    (rights : DelegationRights.t) (c : DelegationChain.t) :
  is_u8 (DelegationRights.max_delegation_depth rights) ->
  delegated rights DelegationChain.new c ->
  Z.of_nat (length (DelegationChain.proofs c)) <= DelegationRights.max_delegation_depth rights /\
  DelegationChain.depth c = Z.of_nat (length (DelegationChain.proofs c)) /\
  DelegationChain.check_depth c (DelegationRights.max_delegation_depth rights) = Ok tt.
Proof.
  intros Hu8 Hr.
  assert (Hlen : Z.of_nat (length (DelegationChain.proofs c))
                 <= DelegationRights.max_delegation_depth rights).
  { apply (delegated_length rights DelegationChain.new); [done..|].
    simpl. unfold is_u8 in Hu8. lia. }
  unfold is_u8, u8_max in Hu8.
  assert (Hd : DelegationChain.depth c = Z.of_nat (length (DelegationChain.proofs c)))
    by (apply DelegationChain.depth_small; lia).
  split_and!; [done|done|]. apply DelegationChain.check_depth_Ok. lia.
Qed.

(** [check_depth] compares the length of the chain modulo 256: the depth
    is the length cast to [u8].  In particular every chain whose length is a
    multiple of 256 passes every bound, although no shorter bound was granted. *)
Theorem check_depth_modulo_256 `{U : UuidApi, C : ChronoApi, E : Ed25519Api}
    (c : DelegationChain.t) (max_depth : Z) :
  (DelegationChain.check_depth c max_depth = Ok tt <->
   Z.of_nat (length (DelegationChain.proofs c)) mod 256 <= max_depth) /\
  (DelegationChain.check_depth c max_depth = Ok tt \/
   DelegationChain.check_depth c max_depth
     = Err (DelegationDepthExceeded (Z.of_nat (length (DelegationChain.proofs c)) mod 256)
                                    max_depth)).
Proof.
  split; [apply DelegationChain.check_depth_Ok|].
  unfold DelegationChain.check_depth. case_goal; [right|left]; reflexivity.
Qed.

(** [verify] accepts a chain exactly when each proof, taken alone, is
    validly signed by the key of its delegator.  The verdict is therefore the
    same for every reordering of the proofs: it does not establish that each
    delegatee is the next delegator, nor that the chain is in order. *)
Theorem chain_verify_is_pointwise `{U : UuidApi, C : ChronoApi, E : Ed25519Api}
    (get_public_key : string -> Result bytes) (ps qs : list DelegationProof.t) :
  (DelegationChain.verify (DelegationChain.mk ps) get_public_key = Ok tt <->
   forall p, p ∈ ps -> DelegationChain.proof_valid get_public_key p) /\
  (ps ≡ₚ qs ->
   DelegationChain.verify (DelegationChain.mk ps) get_public_key = Ok tt <->
   DelegationChain.verify (DelegationChain.mk qs) get_public_key = Ok tt).
Proof.
  unfold DelegationChain.verify; simpl. rewrite !DelegationChain.verify_proofs_Ok.
  split; [apply Forall_forall|]. by intros ->.
Qed.

(** The proof re-signed by [sk] *)
Definition signed_by `{U : UuidApi, C : ChronoApi, E : Ed25519Api}
    (sk : SecretKey) (data : bytes) (p : DelegationProof.t) : DelegationProof.t :=
  DelegationProof.mk (DelegationProof.delegator p) (DelegationProof.delegatee p)
    (DelegationProof.parent_credential_id p) (DelegationProof.delegated_credential_id p)
    (DelegationProof.at_time p) (DelegationProof.capabilities_reduced p) (ed_sign sk data).

Section binding.
Context `{U : UuidApi, C : ChronoApi, E : Ed25519Api}.
Context (EL : Ed25519Laws E).

Lemma verify_signed_by sk data p :
  DelegationProof.verify (signed_by sk data p) (pk_as_ref (ed_public sk)) = Ok tt <->
  DelegationProof.signing_data p = Ok data.
Proof.
  rewrite DelegationProof.proof_verify_Ok, pk_from_slice_as_ref. split.
  - intros (pk & d & Hpk & Hd & Hv). simplify_eq. simpl in Hv.
    apply ed_verify_message in Hv. by subst.
  - intros Hd. exists (ed_public sk), data. split_and!; [done|done|].
    apply ed_verify_sign.
Qed.
End binding.

(** A delegator's signature on one proof is accepted on another proof
    whose delegator name has the same length only if the two proofs agree on
    delegator, delegatee, parent and delegated credential, second of issue and
    reduction flag; and it is always accepted on the proof it was made for. *)
Theorem proof_signature_binds_fields `{U : UuidApi, C : ChronoApi, E : Ed25519Api}
    (UL : UuidLaws U) (CL : ChronoLaws C) (EL : Ed25519Laws E)
    sk (p q : DelegationProof.t) data :
  DelegationProof.signing_data p = Ok data ->
  String.length (DelegationProof.delegator p) = String.length (DelegationProof.delegator q) ->
  DelegationProof.verify (signed_by sk data p) (pk_as_ref (ed_public sk)) = Ok tt /\
  (DelegationProof.verify (signed_by sk data q) (pk_as_ref (ed_public sk)) = Ok tt ->
   DelegationProof.delegator p = DelegationProof.delegator q /\
   DelegationProof.delegatee p = DelegationProof.delegatee q /\
   DelegationProof.parent_credential_id p = DelegationProof.parent_credential_id q /\
   DelegationProof.delegated_credential_id p = DelegationProof.delegated_credential_id q /\
   timestamp (DelegationProof.at_time p) = timestamp (DelegationProof.at_time q) /\
   DelegationProof.capabilities_reduced p = DelegationProof.capabilities_reduced q).
Proof.
  intros Hp Hlen. split; [by apply verify_signed_by|].
  intros Hq%verify_signed_by; [|done]. apply DelegationProof.signing_data_inj; congruence.
Qed.

(** The names of delegator and delegatee are signed without a separator.
    A valid proof stays valid when characters move from the end of the
    delegator's name to the front of the delegatee's, under the same key. *)
Theorem proof_names_can_be_resplit `{U : UuidApi, C : ChronoApi, E : Ed25519Api}
    (a b c : string) pid did now reduced sig key :
  DelegationProof.verify
    (DelegationProof.mk (a +:+ b) c pid did now reduced sig) key =
  DelegationProof.verify
    (DelegationProof.mk a (b +:+ c) pid did now reduced sig) key.
Proof.
  unfold DelegationProof.verify, DelegationProof.signing_data; simpl.
  by rewrite !as_bytes_app, <- !app_assoc.
Qed.

(** ** Concrete chains *)

Section demo.
Import Toy.

Definition demo_proof (from to : string) (at_second : Z) : DelegationProof.t :=
  DelegationProof.new at_second from to true false true (Byte.x41, []).

Definition demo_chain : DelegationChain.t :=
  DelegationChain.add_proof
    (DelegationChain.add_proof DelegationChain.new (demo_proof "agent://a" "agent://b" 10))
    (demo_proof "agent://b" "agent://c" 20).

Lemma demo_chain_delegated : delegated (DelegationRights.allow_delegation 3)
                               DelegationChain.new demo_chain.
Proof.
  eapply rtc_l; [by constructor|]. eapply rtc_l; [by constructor|]. apply rtc_refl.
Qed.
End demo.

Example audit_trail_example :
  DelegationChain.audit_trail demo_chain =
    ["agent://a → agent://b"; "agent://b → agent://c"]%string.
Proof. reflexivity. Qed.

Lemma delegation_depth_bounded_witness :
  DelegationChain.check_depth demo_chain 3 = Ok tt /\
  DelegationChain.check_depth demo_chain 1 = Err (DelegationDepthExceeded 2 1).
Proof.
  split; [|reflexivity].
  apply (delegation_depth_bounded (DelegationRights.allow_delegation 3) demo_chain).
  - unfold is_u8, u8_max. simpl. lia.
  - exact demo_chain_delegated.
Defined.

Lemma chain_verify_is_pointwise_witness :
  DelegationChain.verify demo_chain (fun _ => Err (CryptoError "no key")) = Ok tt <->
  DelegationChain.verify
    (DelegationChain.mk (List.rev (DelegationChain.proofs demo_chain)))
    (fun _ => Err (CryptoError "no key")) = Ok tt.
Proof. apply chain_verify_is_pointwise. apply perm_swap. Defined.

Lemma proof_signature_binds_fields_witness :
  DelegationProof.verify
    (signed_by (E := Toy.toy_ed25519) Byte.x41
       (match DelegationProof.signing_data (demo_proof "agent://a" "agent://b" 10) with
        | Ok d => d | Err _ => [] end)
       (demo_proof "agent://a" "agent://b" 10)) [Byte.x41] = Ok tt.
Proof.
  apply (proof_signature_binds_fields Toy.toy_uuid_laws Toy.toy_chrono_laws
           Toy.toy_ed25519_laws Byte.x41 _ (demo_proof "agent://a" "agent://z" 10)).
  - reflexivity.
  - reflexivity.
Defined.
