(* ===== verification/P256.v ===== *)
(** The elliptic-curve group and the proof system under the anonymous
    rate-limited credentials: interfaces for the [p256] and [sigma_proofs]
    crates, the tactic that reduces an equation between points to one between
    scalars, and a five-element instance. *)

From Stdlib Require Import Ring Ring_theory.
From S2P Require Import Prelude.

(** ** [p256]: scalars and points

    [hash_from_bytes] is [NistP256::hash_from_bytes::<ExpandMsgXmd<Sha256>>] on
    a list of messages and a list of domain-separation tags: it fails only for
    an empty or oversized tag, and the tags of the program are constants, so
    the [.expect] is not reached and the parameter is total. *)

Class P256Api := {
  Scalar : Type;
  ProjectivePoint : Type;
  #[global] Scalar_eq_dec :: EqDecision Scalar;
  #[global] ProjectivePoint_eq_dec :: EqDecision ProjectivePoint;
  s_zero : Scalar;
  s_one : Scalar;
  s_add : Scalar -> Scalar -> Scalar;
  s_sub : Scalar -> Scalar -> Scalar;
  s_mul : Scalar -> Scalar -> Scalar;
  s_opp : Scalar -> Scalar;
  (** [Scalar::invert], a [CtOption] *)
  s_invert : Scalar -> option Scalar;
  (** [Scalar::from(u64)] *)
  scalar_from_u64 : Z -> Scalar;
  scalar_to_bytes : Scalar -> bytes;
  scalar_from_repr : bytes -> option Scalar;
  GENERATOR : ProjectivePoint;
  p_add : ProjectivePoint -> ProjectivePoint -> ProjectivePoint;
  p_sub : ProjectivePoint -> ProjectivePoint -> ProjectivePoint;
  p_mul : ProjectivePoint -> Scalar -> ProjectivePoint;
  (** [p.to_affine().is_identity()] *)
  is_identity : ProjectivePoint -> bool;
  (** [p.to_affine().to_bytes()] and [AffinePoint::from_bytes] *)
  point_to_bytes : ProjectivePoint -> bytes;
  point_from_bytes : bytes -> option ProjectivePoint;
  hash_from_bytes : list bytes -> list bytes -> ProjectivePoint
}.

Infix "⊕" := p_add (at level 50, left associativity) : acdp_scope.
Infix "⊖" := p_sub (at level 50, left associativity) : acdp_scope.
Infix "⊛" := p_mul (at level 40, left associativity) : acdp_scope.
Infix "+s" := s_add (at level 50, left associativity) : acdp_scope.
Infix "*s" := s_mul (at level 40, left associativity) : acdp_scope.

(** The scalars are a field, the points the cyclic group of that order, and
    the encodings are 32 and 33 bytes long and decode to what was encoded. *)
Class P256Laws {P : P256Api} := {
  scalar_ring : ring_theory s_zero s_one s_add s_mul s_sub s_opp (@eq Scalar);
  s_one_neq_zero : s_one <> s_zero;
  s_invert_zero : s_invert s_zero = None;
  s_invert_nonzero a : a <> s_zero -> exists b, s_invert a = Some b /\ a *s b = s_one;
  point_log p : exists k, p = GENERATOR ⊛ k;
  generator_inj a b : GENERATOR ⊛ a = GENERATOR ⊛ b -> a = b;
  generator_add a b : GENERATOR ⊛ a ⊕ GENERATOR ⊛ b = GENERATOR ⊛ (a +s b);
  generator_sub a b : GENERATOR ⊛ a ⊖ GENERATOR ⊛ b = GENERATOR ⊛ (s_sub a b);
  generator_mul a b : GENERATOR ⊛ a ⊛ b = GENERATOR ⊛ (a *s b);
  generator_one : GENERATOR = GENERATOR ⊛ s_one;
  is_identity_spec k : is_identity (GENERATOR ⊛ k) = true <-> k = s_zero;
  scalar_to_bytes_len a : length (scalar_to_bytes a) = 32%nat;
  scalar_from_to a : scalar_from_repr (scalar_to_bytes a) = Some a;
  point_to_bytes_len p : length (point_to_bytes p) = 33%nat;
  point_from_to p : point_from_bytes (point_to_bytes p) = Some p
}.
Arguments P256Laws : clear implicits.

Section group.
Context `{PA : P256Api} {PL : P256Laws PA}.

Add Ring scalar_ring_inst : scalar_ring.

Lemma s_mul_cancel_l a b c : a <> s_zero -> a *s b = a *s c -> b = c.
Proof.
  intros Ha H. destruct (s_invert_nonzero a Ha) as (i & _ & Hi).
  assert (a *s i *s b = a *s i *s c) as Hc.
  { transitivity (i *s (a *s b)); [ring|]. rewrite H. ring. }
  rewrite Hi in Hc. transitivity (s_one *s b); [ring|]. rewrite Hc. ring.
Qed.

Lemma s_mul_nonzero a b : a <> s_zero -> b <> s_zero -> a *s b <> s_zero.
Proof.
  intros Ha Hb H. apply Hb, (s_mul_cancel_l a); [done|]. rewrite H. ring.
Qed.

Lemma s_invert_Some a i : s_invert a = Some i -> a <> s_zero /\ a *s i = s_one.
Proof.
  intros H. assert (Ha : a <> s_zero) by (intros ->; rewrite s_invert_zero in H; done).
  split; [done|]. destruct (s_invert_nonzero a Ha) as (b & Hb & Hab). congruence.
Qed.

Lemma s_invert_None a : s_invert a = None <-> a = s_zero.
Proof.
  split; [|intros ->; apply s_invert_zero].
  intros H. destruct (decide (a = s_zero)) as [|Ha]; [done|].
  destruct (s_invert_nonzero a Ha) as (? & ? & ?). congruence.
Qed.
End group.

(** Rewrite every point of the goal as a multiple of the generator; [ring]
    finishes on the scalars. *)
Ltac points_to_scalars :=
  repeat match goal with
    | p : ProjectivePoint |- _ =>
        let k := fresh "k" in destruct (point_log p) as [k ->]
    end;
  rewrite ?generator_add, ?generator_sub, ?generator_mul;
  repeat (rewrite ?generator_add, ?generator_sub, ?generator_mul).

(** ** [sigma_proofs]: linear relations and their non-interactive proofs

    A relation has numbered scalars, the secrets, and numbered elements, the allocated ones first and the image of
    each equation as it is allocated, and equations [image = Σ ± scalar *
    element] over numbered scalars. *)

Record Term := MkTerm { negated : bool; scalar_var : nat; element_var : nat }.
Record Equation := MkEquation { image_var : nat; terms : list Term }.

Record LinearRelation `{P256Api} := MkRelation {
  scalars : nat;
  elements : list ProjectivePoint;
  equations : list Equation
}.

Section relation.
Context `{PA : P256Api}.

Definition identity : ProjectivePoint := GENERATOR ⊛ s_zero.

Definition term_value (w : list Scalar) (els : list ProjectivePoint)
    (acc : ProjectivePoint) (t : Term) : ProjectivePoint :=
  let v := (nth (element_var t) els identity) ⊛ (nth (scalar_var t) w s_zero) in
  if negated t then acc ⊖ v else acc ⊕ v.

Definition equation_holds (w : list Scalar) (els : list ProjectivePoint)
    (e : Equation) : bool :=
  bool_decide (nth (image_var e) els identity
               = List.fold_left (term_value w els) (terms e) identity).

(** The witness [w] satisfies the relation. *)
Definition holds (r : LinearRelation) (w : list Scalar) : bool :=
  List.forallb (equation_holds w (elements r)) (equations r).
End relation.

Class NizkApi `{P256Api} := {
  Nizk : Type;
  Rng : Type;
  into_nizk : LinearRelation -> bytes -> Res Nizk string;
  prove_batchable : Nizk -> list Scalar -> Rng -> Res bytes string;
  verify_batchable : Nizk -> bytes -> Res unit string
}.
Arguments NizkApi : clear implicits.

(** Completeness *)
Class NizkLaws {P : P256Api} {N : NizkApi P} := {
  nizk_complete r session n w rng :
    into_nizk r session = Ok n -> length w = scalars r -> holds r w = true ->
    exists proof, prove_batchable n w rng = Ok proof /\ verify_batchable n proof = Ok tt
}.
Arguments NizkLaws : clear implicits.

(** ** A concrete instance: the integers modulo 5 *)

Module ToyGroup.

Inductive F5 : Set := f0 | f1 | f2 | f3 | f4.

#[global] Instance F5_eq_dec : EqDecision F5.
Proof. solve_decision. Defined.

Definition to_Z (a : F5) : Z :=
  match a with f0 => 0 | f1 => 1 | f2 => 2 | f3 => 3 | f4 => 4 end.

Definition of_Z (z : Z) : F5 :=
  match z mod 5 with 0 => f0 | 1 => f1 | 2 => f2 | 3 => f3 | _ => f4 end.

Definition add (a b : F5) : F5 := of_Z (to_Z a + to_Z b).
Definition sub (a b : F5) : F5 := of_Z (to_Z a - to_Z b).
Definition mul (a b : F5) : F5 := of_Z (to_Z a * to_Z b).

Definition invert (a : F5) : option F5 :=
  match a with f0 => None | f1 => Some f1 | f2 => Some f3 | f3 => Some f2 | f4 => Some f4 end.

Definition encode (n : nat) (a : F5) : bytes := byte_of_Z (to_Z a) :: repeat Byte.x00 n.

Definition decode (b : bytes) : option F5 :=
  match b with
  | c :: _ => if Z_of_byte c <? 5 then Some (of_Z (Z_of_byte c)) else None
  | [] => None
  end.

#[global] Instance toy_p256 : P256Api := {|
  Scalar := F5;
  ProjectivePoint := F5;
  s_zero := f0;
  s_one := f1;
  s_add := add;
  s_sub := sub;
  s_mul := mul;
  s_opp := sub f0;
  s_invert := invert;
  scalar_from_u64 := of_Z;
  scalar_to_bytes := encode 31;
  scalar_from_repr := decode;
  GENERATOR := f1;
  p_add := add;
  p_sub := sub;
  p_mul := mul;
  is_identity p := bool_decide (p = f0);
  point_to_bytes := encode 32;
  point_from_bytes := decode;
  hash_from_bytes ms _ := of_Z (1 + Z.of_nat (length (List.concat ms)) mod 4)
|}.

#[local] Ltac all_F5 :=
  intros; cbn in *; repeat match goal with a : F5 |- _ => destruct a end;
  first [reflexivity | discriminate | congruence].

#[global] Instance toy_p256_laws : P256Laws toy_p256.
Proof.
  split; simpl.
  1: constructor.
  all: try by all_F5.
  - intros [] Ha; first [done | by eexists].
  - intros p. exists p. by destruct p.
  - intros k. by destruct k; compute; split.
Qed.

(** A proof is the witness, one byte a scalar; verifying recomputes the
    relation. *)
Definition decode_witness (b : bytes) : option (list F5) :=
  mapM (fun c => decode [c]) b.

#[global] Instance toy_nizk : NizkApi toy_p256 := {|
  Nizk := LinearRelation;
  Rng := unit;
  into_nizk r _ := Ok r;
  prove_batchable n w _ :=
    if holds n w && (length w =? scalars n)%nat then Ok (concat (map (encode 0) w))
    else Err "invalid witness"%string;
  verify_batchable n b :=
    match decode_witness b with
    | Some w => if holds n w && (length w =? scalars n)%nat then Ok tt else Err "invalid proof"%string
    | None => Err "invalid encoding"%string
    end
|}.

Lemma decode_encode_0 a : decode (encode 0 a) = Some a.
Proof. by destruct a. Qed.

Lemma decode_witness_encode w : decode_witness (concat (map (encode 0) w)) = Some w.
Proof.
  unfold decode_witness. induction w as [|a w IH]; [done|]. simpl in *.
  rewrite IH. by destruct a.
Qed.

#[global] Instance toy_nizk_laws : NizkLaws toy_p256 toy_nizk.
Proof.
  split; simpl. intros r session n w rng Hn Hlen Hw. injection Hn as ->.
  rewrite Hw, Hlen, Nat.eqb_refl. simpl. eexists. split; [done|].
  by rewrite decode_witness_encode, Hw, Hlen, Nat.eqb_refl.
Qed.

End ToyGroup.
