(* ===== verification/ArcZkp.v ===== *)
(** The zero-knowledge proof of a credential presentation
    ([acdp-auth/src/arc_zkp.rs]): the linear relation of the four constraints
    and its proof and verification through [sigma_proofs]. *)

From S2P Require Import Prelude AuthError Externs P256.

Module ARCPresentationProof.
Section proof.
Context `{PA : P256Api} {N : NizkApi PA} `{HexApi}.

Record t : Type := mk { proof : bytes }.

Definition plus (s e : nat) : Term := MkTerm false s e.
Definition minus (s e : nat) : Term := MkTerm true s e.

(** The four [allocate_eq] of [create] and of [verify]: the scalars are
    [m1 z r nonce], the elements [u x1 g h tag] and then the images
    [m1_commit v t m1_tag]. *)
Definition constraints : list Equation :=
  [ MkEquation 5 [plus 0 0; plus 1 2];   (* m1_commit = m1 * u + z * g *)
    MkEquation 6 [plus 1 1; minus 2 2];  (* v = z * x1 - r * g *)
    MkEquation 7 [plus 0 4; plus 3 4];   (* t = m1 * tag + nonce * tag *)
    MkEquation 8 [plus 0 4] ].           (* m1_tag = m1 * tag *)

Definition relation (u x1 g h tag m1_commit v m1_tag t : ProjectivePoint)
  : LinearRelation :=
  MkRelation _ 4 [u; x1; g; h; tag; m1_commit; v; t; m1_tag] constraints.

Definition session_id (presentation_context : bytes) : bytes :=
  as_bytes ("ARC-P256-presentation:" +:+ hex_encode presentation_context).

Definition create (m1 z r nonce : Scalar)
    (u x1 g h tag m1_commit v m1_tag : ProjectivePoint)
    (presentation_context : bytes) (rng : Rng) : Result t :=
  let m1_plus_nonce := m1 +s nonce in
  let t_value := tag ⊛ m1_plus_nonce in
  let? nizk := map_err (fun e => ARCVerificationFailed ("NIZK creation failed: " +:+ e))
    (into_nizk (relation u x1 g h tag m1_commit v m1_tag t_value)
               (session_id presentation_context)) in
  let? proof := map_err (fun e => ARCVerificationFailed ("Proof generation failed: " +:+ e))
    (prove_batchable nizk [m1; z; r; nonce] rng) in
  Ok (mk proof).

Definition verify (self : t) (u x1 g h tag m1_commit v m1_tag t : ProjectivePoint)
    (presentation_context : bytes) : Result unit :=
  let? nizk := map_err (fun e => ARCVerificationFailed ("NIZK creation failed: " +:+ e))
    (into_nizk (relation u x1 g h tag m1_commit v m1_tag t)
               (session_id presentation_context)) in
  let? _ := map_err (fun e => ARCVerificationFailed ("Proof verification failed: " +:+ e))
    (verify_batchable nizk (proof self)) in
  Ok tt.

Definition to_bytes (self : t) : bytes := proof self.
Definition from_bytes (b : bytes) : t := mk b.

(** What the four constraints say *)
Definition statement (m1 z r nonce : Scalar)
    (u x1 g tag m1_commit v m1_tag t : ProjectivePoint) : Prop :=
  m1_commit = u ⊛ m1 ⊕ g ⊛ z /\
  v = x1 ⊛ z ⊖ g ⊛ r /\
  t = tag ⊛ m1 ⊕ tag ⊛ nonce /\
  m1_tag = tag ⊛ m1.

(** Verification is the proof system's, of the relation in the context's
    session. *)
Lemma verify_accepts self u x1 g h tag m1_commit v m1_tag t ctx :
  verify self u x1 g h tag m1_commit v m1_tag t ctx = Ok tt <->
  exists nizk, into_nizk (relation u x1 g h tag m1_commit v m1_tag t) (session_id ctx) = Ok nizk /\
               verify_batchable nizk (proof self) = Ok tt.
Proof.
  unfold verify. destruct (into_nizk _ _) as [nizk|e]; cbn; [|by split; [|intros (? & ? & _)]]. split.
  - destruct (verify_batchable nizk (proof self)) as [[]|e] eqn:E; [|done]. by exists nizk.
  - intros (nizk' & [= <-] & ->). done.
Qed.

Section laws.
Context {PL : P256Laws PA} {NL : NizkLaws PA N}.

Add Ring scalar_ring_zkp : scalar_ring.

Lemma identity_add p : identity ⊕ p = p.
Proof. unfold identity. points_to_scalars. f_equal. ring. Qed.

Lemma holds_relation m1 z r nonce u x1 g h tag m1_commit v m1_tag t :
  holds (relation u x1 g h tag m1_commit v m1_tag t) [m1; z; r; nonce] = true <->
  statement m1 z r nonce u x1 g tag m1_commit v m1_tag t.
Proof.
  unfold holds, statement. simpl. unfold equation_holds. simpl.
  unfold term_value. simpl. rewrite !identity_add, !andb_true_iff, !bool_decide_eq_true.
  intuition.
Qed.

(** A proof made for a true statement verifies. *)
Lemma create_verify m1 z r nonce u x1 g h tag m1_commit v m1_tag t ctx rng :
  statement m1 z r nonce u x1 g tag m1_commit v m1_tag t ->
  is_ok (into_nizk (relation u x1 g h tag m1_commit v m1_tag t) (session_id ctx)) = true ->
  exists p, create m1 z r nonce u x1 g h tag m1_commit v m1_tag ctx rng = Ok p /\
            verify p u x1 g h tag m1_commit v m1_tag t ctx = Ok tt.
Proof.
  intros Hst Hok. apply is_ok_iff in Hok as [nizk Hn].
  assert (Ht : tag ⊛ (m1 +s nonce) = t).
  { destruct Hst as (_ & _ & -> & _). clear -PL. points_to_scalars. f_equal. ring. }
  destruct (nizk_complete _ _ nizk [m1; z; r; nonce] rng Hn)
    as (proof & Hp & Hv); [done|by apply holds_relation|].
  exists (mk proof). unfold create, verify. rewrite Ht, Hn. simpl.
  rewrite Hp. simpl. by rewrite Hv.
Qed.
End laws.
End proof.
End ARCPresentationProof.
