(* ===== verification/Arc.v ===== *)
(** Anonymous rate-limited credentials ([acdp-auth/src/arc.rs]): the server
    keys and their encodings, the blinded request and issuance, the client's
    credential with its presentation counter, presentations and their
    verification.  Random scalars are arguments, in the order in which the code
    draws them. *)

From Stdlib Require Import Ring.
From S2P Require Import Prelude AuthError Externs P256 ArcZkp.

(** [&bytes[from..from + len]] *)
Definition slice (b : bytes) (from len : nat) : bytes := take len (drop from b).

Lemma slice_app_l (a b : bytes) n : length a = n -> slice (a ++ b) 0 n = a.
Proof. intros <-. unfold slice. rewrite drop_0. by apply take_app_length. Qed.

Lemma slice_app_r (a b : bytes) n k m :
  length a = n -> (n <= k)%nat -> slice (a ++ b) k m = slice b (k - n) m.
Proof. intros <- Hk. unfold slice. by rewrite drop_app_ge. Qed.

Lemma slice_all (a : bytes) n : length a = n -> slice a 0 n = a.
Proof. intros <-. unfold slice. rewrite drop_0. by rewrite take_ge. Qed.

Module ARCGenerators.
Section generators.
Context `{PA : P256Api}.

Record t : Type := mk { g : ProjectivePoint; h : ProjectivePoint }.

Definition new : t :=
  mk GENERATOR
     (hash_from_bytes [point_to_bytes GENERATOR]
                      [as_bytes "HashToGroup-ARCV1-P256generatorH"]).
End generators.
Arguments t : clear implicits.
Arguments t {PA}.
End ARCGenerators.

Module ClientSecrets.
Section secrets.
Context `{PA : P256Api}.

Record t : Type := mk { m1 : Scalar; s : Scalar; r1 : Scalar; r2 : Scalar }.
End secrets.
Arguments t : clear implicits.
Arguments t {PA}.
End ClientSecrets.

Section decoding.
Context `{PA : P256Api}.

(** [Option::<AffinePoint>::from(AffinePoint::from_bytes(..))] and
    [Scalar::from_repr] with the error of a failed decoding *)
Definition point_of (b : bytes) (msg : string) : Result ProjectivePoint :=
  ok_or (point_from_bytes b) (ARCVerificationFailed msg).

Definition scalar_of (b : bytes) (msg : string) : Result Scalar :=
  ok_or (scalar_from_repr b) (ARCVerificationFailed msg).
End decoding.

Module ServerPrivateKey.
Section key.
Context `{PA : P256Api}.

Record t : Type := mk { x0 : Scalar; x1 : Scalar; x2 : Scalar; x0_blinding : Scalar }.

Definition to_bytes (self : t) : bytes :=
  scalar_to_bytes (x0 self) ++ scalar_to_bytes (x1 self) ++
  scalar_to_bytes (x2 self) ++ scalar_to_bytes (x0_blinding self).

Definition from_bytes (b : bytes) : Result t :=
  if negb (length b =? 128)%nat then Err (ARCVerificationFailed "Invalid server private key length")
  else
    let? x0 := scalar_of (slice b 0 32) "Invalid x0 scalar" in
    let? x1 := scalar_of (slice b 32 32) "Invalid x1 scalar" in
    let? x2 := scalar_of (slice b 64 32) "Invalid x2 scalar" in
    let? x0_blinding := scalar_of (slice b 96 32) "Invalid x0_blinding scalar" in
    Ok (mk x0 x1 x2 x0_blinding).
End key.
Arguments t : clear implicits.
Arguments t {PA}.
End ServerPrivateKey.

Module ServerPublicKey.
Section key.
Context `{PA : P256Api}.

Record t : Type := mk { x0 : ProjectivePoint; x1 : ProjectivePoint; x2 : ProjectivePoint }.

Definition from_private_key (private_key : ServerPrivateKey.t)
    (generators : ARCGenerators.t) : t :=
  mk (ARCGenerators.g generators ⊛ ServerPrivateKey.x0_blinding private_key ⊕
      ARCGenerators.h generators ⊛ ServerPrivateKey.x0 private_key)
     (ARCGenerators.g generators ⊛ ServerPrivateKey.x1 private_key)
     (ARCGenerators.g generators ⊛ ServerPrivateKey.x2 private_key).

Definition to_bytes (self : t) : bytes :=
  point_to_bytes (x0 self) ++ point_to_bytes (x1 self) ++ point_to_bytes (x2 self).

Definition from_bytes (b : bytes) : Result t :=
  if negb (length b =? 99)%nat then Err (ARCVerificationFailed "Invalid server public key length")
  else
    let? x0 := point_of (slice b 0 33) "Invalid X0 point" in
    let? x1 := point_of (slice b 33 33) "Invalid X1 point" in
    let? x2 := point_of (slice b 66 33) "Invalid X2 point" in
    Ok (mk x0 x1 x2).
End key.
Arguments t : clear implicits.
Arguments t {PA}.
End ServerPublicKey.

Module ARCCredentialRequest.
Section request.
Context `{PA : P256Api}.

Record t : Type := mk {
  m1_commit_blinded : bytes;
  x0_aux : bytes;
  x1_aux : bytes;
  x2_aux : bytes
}.

Definition new (client_secrets : ClientSecrets.t) (server_public_key : ServerPublicKey.t)
    (generators : ARCGenerators.t) : t :=
  let commit_blind :=
    ARCGenerators.g generators ⊛ ClientSecrets.s client_secrets ⊕
    ServerPublicKey.x1 server_public_key ⊛ ClientSecrets.m1 client_secrets in
  let x0_aux := ARCGenerators.g generators ⊛ ClientSecrets.r1 client_secrets in
  let x1_aux := ARCGenerators.g generators ⊛ s_zero in
  let x2_aux := ARCGenerators.g generators ⊛ s_zero in
  mk (point_to_bytes commit_blind) (point_to_bytes x0_aux)
     (point_to_bytes x1_aux) (point_to_bytes x2_aux).

Definition deserialize_point (b : bytes) : Result ProjectivePoint :=
  if negb (length b =? 33)%nat then Err (ARCVerificationFailed "Invalid point length")
  else point_of b "Invalid point encoding".

Definition to_points (self : t)
  : Result (ProjectivePoint * ProjectivePoint * ProjectivePoint * ProjectivePoint) :=
  let? m1_commit := deserialize_point (m1_commit_blinded self) in
  let? x0_aux := deserialize_point (x0_aux self) in
  let? x1_aux := deserialize_point (x1_aux self) in
  let? x2_aux := deserialize_point (x2_aux self) in
  Ok (m1_commit, x0_aux, x1_aux, x2_aux).

Lemma deserialize_point_to_bytes {PL : P256Laws PA} p :
  deserialize_point (point_to_bytes p) = Ok p.
Proof.
  unfold deserialize_point, point_of. by rewrite point_to_bytes_len, point_from_to.
Qed.
End request.
End ARCCredentialRequest.

Module ARCCredentialResponse.
Section response.
Context `{PA : P256Api}.

Record t : Type := mk {
  u : bytes;
  enc_u_prime : bytes;
  x0_aux : bytes;
  x1_aux : bytes;
  x2_aux : bytes;
  proof : bytes
}.

Definition issue (request : ARCCredentialRequest.t)
    (server_private_key : ServerPrivateKey.t) (m2 : Scalar)
    (generators : ARCGenerators.t) (b : Scalar) : Result t :=
  let? (m1_commit_blinded, x0_aux, _, _) := ARCCredentialRequest.to_points request in
  let p := ARCGenerators.g generators ⊛ b in
  let blind_q :=
    m1_commit_blinded ⊛ b ⊕
    p ⊛ (ServerPrivateKey.x0 server_private_key +s
         m2 *s ServerPrivateKey.x2 server_private_key) in
  let enc_u_prime := blind_q ⊕ x0_aux in
  let proof := repeat Byte.x00 64 in
  Ok (mk (point_to_bytes p) (point_to_bytes enc_u_prime)
         (ARCCredentialRequest.x0_aux request) (ARCCredentialRequest.x1_aux request)
         (ARCCredentialRequest.x2_aux request) proof).
End response.
End ARCCredentialResponse.

Module ARCPresentation.
Section presentation.
Context `{PA : P256Api} {N : NizkApi PA} `{HexApi}.

Record t : Type := mk {
  u : ProjectivePoint;
  u_prime_commit : ProjectivePoint;
  m1_commit : ProjectivePoint;
  tag : ProjectivePoint;
  m1_tag : ProjectivePoint;
  t_point : ProjectivePoint;  (* the field [t] *)
  proof : bytes               (* [ARCProof { proof }] *)
}.

(** [T], the context hashed to a point *)
Definition context_point (presentation_context : bytes) : ProjectivePoint :=
  hash_from_bytes [presentation_context] [as_bytes "HashToGroup-ARCV1-P256Tag"].

Definition server_v (self : t) (server_private_key : ServerPrivateKey.t) (m2 : Scalar)
  : ProjectivePoint :=
  m1_commit self ⊛ ServerPrivateKey.x1 server_private_key ⊕
  u self ⊛ ServerPrivateKey.x0 server_private_key ⊕
  u self ⊛ (ServerPrivateKey.x2 server_private_key *s m2) ⊖
  u_prime_commit self.

Definition verify (self : t) (server_private_key : ServerPrivateKey.t) (m2 : Scalar)
    (presentation_context : bytes) (nonce presentation_limit : Z)
    (generators : ARCGenerators.t) : Result bool :=
  if nonce >=? presentation_limit then Ok false
  else if is_identity (u self) || is_identity (u_prime_commit self) then Ok false
  else
    let v := server_v self server_private_key m2 in
    let zkp := ARCPresentationProof.from_bytes (proof self) in
    let x1 := ARCGenerators.g generators ⊛ ServerPrivateKey.x1 server_private_key in
    let? _ := ARCPresentationProof.verify zkp (u self) x1 (ARCGenerators.g generators) (ARCGenerators.h generators)
                (tag self) (m1_commit self) v (m1_tag self) (t_point self)
                presentation_context in
    let expected_t := context_point presentation_context in
    let nonce_scalar := scalar_from_u64 nonce in
    let expected_m1_tag := expected_t ⊖ tag self ⊛ nonce_scalar in
    if negb (bool_decide (t_point self = expected_t)) ||
       negb (bool_decide (m1_tag self = expected_m1_tag)) then Ok false
    else Ok true.

Lemma verify_true self sk m2 ctx nonce limit gens :
  verify self sk m2 ctx nonce limit gens = Ok true <->
  nonce < limit /\ is_identity (u self) = false /\
  is_identity (u_prime_commit self) = false /\
  ARCPresentationProof.verify (ARCPresentationProof.from_bytes (proof self))
    (u self) (ARCGenerators.g gens ⊛ ServerPrivateKey.x1 sk) (ARCGenerators.g gens) (ARCGenerators.h gens) (tag self)
    (m1_commit self) (server_v self sk m2) (m1_tag self) (t_point self) ctx = Ok tt /\
  t_point self = context_point ctx /\
  m1_tag self = context_point ctx ⊖ tag self ⊛ scalar_from_u64 nonce.
Proof.
  unfold verify. rewrite Z.geb_leb.
  destruct (Z.leb_spec limit nonce); [split; [done|lia]|].
  destruct (is_identity (u self)); simpl; [intuition congruence|].
  destruct (is_identity (u_prime_commit self)); simpl; [intuition congruence|].
  destruct (ARCPresentationProof.verify _ _ _ _ _ _ _ _ _ _ _) as [[]|]; simpl;
    [|intuition congruence].
  repeat case_bool_decide; simpl; intuition congruence.
Qed.
End presentation.
Arguments t : clear implicits.
Arguments t {PA}.
End ARCPresentation.

Module ARCCredential.
Section credential.
Context `{PA : P256Api} {N : NizkApi PA} `{HexApi}.

Record t : Type := mk {
  m1 : Scalar;
  u : ProjectivePoint;
  u_prime : ProjectivePoint;
  x1 : ProjectivePoint;
  max_presentations : Z;  (* u64 *)
  presentations_used : Z  (* AtomicU64 *)
}.

(** [r] rerandomises the MAC. *)
Definition from_response (response : ARCCredentialResponse.t)
    (_request : ARCCredentialRequest.t) (client_secrets : ClientSecrets.t)
    (server_public_key : ServerPublicKey.t) (r : Scalar) : Result t :=
  let? p := ARCCredentialRequest.deserialize_point (ARCCredentialResponse.u response) in
  let? enc_blind_q :=
    ARCCredentialRequest.deserialize_point (ARCCredentialResponse.enc_u_prime response) in
  let? x0_aux :=
    ARCCredentialRequest.deserialize_point (ARCCredentialResponse.x0_aux response) in
  let blind_q := enc_blind_q ⊖ x0_aux in
  let q := (blind_q ⊖ p ⊛ ClientSecrets.s client_secrets) ⊛ r in
  let u := p ⊛ r in
  Ok (mk (ClientSecrets.m1 client_secrets) u q (ServerPublicKey.x1 server_public_key)
         1000 0).

(** The load and the comparison that open [create_presentation] *)
Definition check_limit (self : t) : Result unit :=
  let used := presentations_used self in
  if used >=? max_presentations self then
    Err (RateLimitExceeded used (max_presentations self))
  else Ok tt.

(** The computation between the load and the increment; [a], [r], [z] are the
    random scalars in the order drawn. *)
Definition compute_presentation (self : t) (presentation_context : bytes) (nonce : Z)
    (generators : ARCGenerators.t) (a r z : Scalar) (rng : Rng)
  : Result ARCPresentation.t :=
  let u_rand := u self ⊛ a in
  let u_prime_rand := u_prime self ⊛ a in
  let m1_commit := u_rand ⊛ m1 self ⊕ ARCGenerators.g generators ⊛ z in
  let u_prime_commit := u_prime_rand ⊕ ARCGenerators.g generators ⊛ r in
  let v := x1 self ⊛ z ⊖ ARCGenerators.g generators ⊛ r in
  let nonce_scalar := scalar_from_u64 nonce in
  let? inverse := ok_or (s_invert (m1 self +s nonce_scalar))
                    (ARCVerificationFailed "Cannot invert (m1 + nonce)") in
  let t := ARCPresentation.context_point presentation_context in
  let tag := t ⊛ inverse in
  let m1_tag := tag ⊛ m1 self in
  let? zkp := ARCPresentationProof.create (m1 self) z r nonce_scalar u_rand (x1 self)
                (ARCGenerators.g generators) (ARCGenerators.h generators) tag m1_commit
                v m1_tag presentation_context rng in
  Ok (ARCPresentation.mk u_rand u_prime_commit m1_commit tag m1_tag t
        (ARCPresentationProof.to_bytes zkp)).

(** [presentations_used.fetch_add(1)], which wraps *)
Definition fetch_add (self : t) : t :=
  mk (m1 self) (u self) (u_prime self) (x1 self) (max_presentations self)
     (wrap_u64 (presentations_used self + 1)).

Definition create_presentation (self : t) (presentation_context : bytes) (nonce : Z)
    (generators : ARCGenerators.t) (a r z : Scalar) (rng : Rng)
  : Result ARCPresentation.t * t :=
  match check_limit self with
  | Err e => (Err e, self)
  | Ok _ =>
      match compute_presentation self presentation_context nonce generators a r z rng with
      | Err e => (Err e, self)
      | Ok p => (Ok p, fetch_add self)
      end
  end.

Definition presentations_remaining (self : t) : Z :=
  saturating_sub (max_presentations self) (presentations_used self).

(** The fields serde writes: all but the counter, which [#[serde(skip)]]
    restores as [Default::default()] *)
Definition serialize (self : t) : bytes * bytes * bytes * bytes * Z :=
  (scalar_to_bytes (m1 self), point_to_bytes (u self), point_to_bytes (u_prime self),
   point_to_bytes (x1 self), max_presentations self).

Definition deserialize_scalar (b : bytes) : Res Scalar string :=
  if negb (length b =? 32)%nat then Err "Invalid scalar length"%string
  else ok_or (scalar_from_repr b) "Invalid scalar encoding"%string.

Definition deserialize_point (b : bytes) : Res ProjectivePoint string :=
  if negb (length b =? 33)%nat then Err "Invalid point length"%string
  else ok_or (point_from_bytes b) "Invalid point encoding"%string.

Definition deserialize (data : bytes * bytes * bytes * bytes * Z) : Res t string :=
  let '(m1, u, u_prime, x1, max) := data in
  let? m1 := deserialize_scalar m1 in
  let? u := deserialize_point u in
  let? u_prime := deserialize_point u_prime in
  let? x1 := deserialize_point x1 in
  Ok (mk m1 u u_prime x1 max 0).

(** A counter within its limit *)
Definition wf (self : t) : Prop :=
  0 <= presentations_used self <= max_presentations self /\
  is_u64 (max_presentations self).

(** The MAC a credential carries on its attributes [m1] and [m2] *)
Definition mac (self : t) (sk : ServerPrivateKey.t) (m2 : Scalar) : Prop :=
  u_prime self = u self ⊛ (ServerPrivateKey.x0 sk +s
                           m1 self *s ServerPrivateKey.x1 sk +s
                           m2 *s ServerPrivateKey.x2 sk).

Lemma check_limit_Ok self :
  check_limit self = Ok tt <-> presentations_used self < max_presentations self.
Proof.
  unfold check_limit. rewrite Z.geb_leb.
  destruct (Z.leb_spec (max_presentations self) (presentations_used self));
    split; (done || lia).
Qed.

Lemma create_presentation_Ok self ctx nonce gens a r z rng p self' :
  create_presentation self ctx nonce gens a r z rng = (Ok p, self') <->
  presentations_used self < max_presentations self /\
  compute_presentation self ctx nonce gens a r z rng = Ok p /\ self' = fetch_add self.
Proof.
  unfold create_presentation. rewrite <- check_limit_Ok.
  destruct (check_limit self) as [[]|]; [|intuition congruence].
  destruct (compute_presentation _ _ _ _ _ _ _ _); intuition congruence.
Qed.

Lemma create_presentation_Err self ctx nonce gens a r z rng e self' :
  create_presentation self ctx nonce gens a r z rng = (Err e, self') -> self' = self.
Proof.
  unfold create_presentation. repeat case_goal; intuition congruence.
Qed.

Lemma fetch_add_wf self :
  wf self -> presentations_used self < max_presentations self ->
  presentations_used (fetch_add self) = presentations_used self + 1 /\
  max_presentations (fetch_add self) = max_presentations self /\ wf (fetch_add self).
Proof.
  unfold wf, is_u64. intros [Hu Hm] Hlt. simpl.
  rewrite wrap_u64_id; unfold is_u64, u64_max in *; lia.
Qed.
End credential.
Arguments t : clear implicits.
Arguments t {PA}.
End ARCCredential.

(** ** Issuance, presentation and verification *)

Section arc.
Context `{PA : P256Api} {PL : P256Laws PA} {N : NizkApi PA} {NL : NizkLaws PA N} `{HexApi}.

Add Ring scalar_ring_arc : scalar_ring.

Lemma issue_new secrets pk sk m2 gens b :
  ARCCredentialResponse.issue (ARCCredentialRequest.new secrets pk gens) sk m2 gens b =
  Ok (ARCCredentialResponse.mk
        (point_to_bytes (ARCGenerators.g gens ⊛ b))
        (point_to_bytes
           ((ARCGenerators.g gens ⊛ ClientSecrets.s secrets ⊕
             ServerPublicKey.x1 pk ⊛ ClientSecrets.m1 secrets) ⊛ b ⊕
            ARCGenerators.g gens ⊛ b ⊛ (ServerPrivateKey.x0 sk +s
                                         m2 *s ServerPrivateKey.x2 sk) ⊕
            ARCGenerators.g gens ⊛ ClientSecrets.r1 secrets))
        (point_to_bytes (ARCGenerators.g gens ⊛ ClientSecrets.r1 secrets))
        (point_to_bytes (ARCGenerators.g gens ⊛ s_zero))
        (point_to_bytes (ARCGenerators.g gens ⊛ s_zero))
        (repeat Byte.x00 64)).
Proof.
  unfold ARCCredentialResponse.issue, ARCCredentialRequest.to_points,
    ARCCredentialRequest.new. simpl.
  by rewrite !ARCCredentialRequest.deserialize_point_to_bytes.
Qed.

(** The credential a client finalises from the server's answer to its own
    request *)
Lemma from_response_issue secrets sk m2 gens b r req resp :
  req = ARCCredentialRequest.new secrets (ServerPublicKey.from_private_key sk gens) gens ->
  ARCCredentialResponse.issue req sk m2 gens b = Ok resp ->
  exists cred,
    ARCCredential.from_response resp req secrets
      (ServerPublicKey.from_private_key sk gens) r = Ok cred /\
    ARCCredential.mac cred sk m2 /\
    ARCCredential.m1 cred = ClientSecrets.m1 secrets /\
    ARCCredential.u cred = ARCGenerators.g gens ⊛ b ⊛ r /\
    ARCCredential.x1 cred = ARCGenerators.g gens ⊛ ServerPrivateKey.x1 sk /\
    ARCCredential.max_presentations cred = 1000 /\
    ARCCredential.presentations_used cred = 0.
Proof.
  intros -> Hi. rewrite issue_new in Hi. apply Ok_inj in Hi as <-.
  unfold ARCCredential.from_response. simpl.
  rewrite !ARCCredentialRequest.deserialize_point_to_bytes. simpl.
  eexists. split; [done|]. unfold ARCCredential.mac. simpl. split_and!; try done.
  generalize (ARCGenerators.g gens). intros G. points_to_scalars. f_equal. ring.
Qed.

(** The server recomputes the client's [V]. *)
Lemma server_v_client (cred : ARCCredential.t) sk m2 gens (a r z : Scalar) tag m1_tag t pf :
  ARCCredential.mac cred sk m2 ->
  ARCPresentation.server_v
    (ARCPresentation.mk (ARCCredential.u cred ⊛ a)
       (ARCCredential.u_prime cred ⊛ a ⊕ ARCGenerators.g gens ⊛ r)
       (ARCCredential.u cred ⊛ a ⊛ ARCCredential.m1 cred ⊕ ARCGenerators.g gens ⊛ z)
       tag m1_tag t pf) sk m2 =
  ARCGenerators.g gens ⊛ ServerPrivateKey.x1 sk ⊛ z ⊖ ARCGenerators.g gens ⊛ r.
Proof.
  unfold ARCCredential.mac, ARCPresentation.server_v. simpl. intros ->.
  generalize (ARCGenerators.g gens), (ARCCredential.u cred). intros G U.
  points_to_scalars. f_equal. ring.
Qed.
End arc.

Section presenting.
Context `{PA : P256Api} {PL : P256Laws PA} {N : NizkApi PA} {NL : NizkLaws PA N} `{HexApi}.

Add Ring scalar_ring_presenting : scalar_ring.

(** The proof system does not accept the statement of some presentation. *)
Definition statement_refused (e : ACDPError) : Prop :=
  exists r session msg, into_nizk r session = Err msg /\
    e = ARCVerificationFailed ("NIZK creation failed: " +:+ msg).

Lemma tag_inverse T (a i : Scalar) n :
  (a +s n) *s i = s_one -> T = T ⊛ i ⊛ a ⊕ T ⊛ i ⊛ n.
Proof.
  intros Hi. points_to_scalars. f_equal. transitivity (k *s ((a +s n) *s i)); [|ring].
  rewrite Hi. ring.
Qed.

Lemma compute_presentation_verifies cred sk m2 gens ctx nonce limit (a r z : Scalar) rng :
  ARCCredential.mac cred sk m2 ->
  ARCCredential.x1 cred = ARCGenerators.g gens ⊛ ServerPrivateKey.x1 sk ->
  nonce < limit ->
  ARCCredential.m1 cred +s scalar_from_u64 nonce <> s_zero ->
  is_identity (ARCCredential.u cred ⊛ a) = false ->
  is_identity (ARCCredential.u_prime cred ⊛ a ⊕ ARCGenerators.g gens ⊛ r) = false ->
  (exists p, ARCCredential.compute_presentation cred ctx nonce gens a r z rng = Ok p /\
             ARCPresentation.verify p sk m2 ctx nonce limit gens = Ok true) \/
  (exists e, ARCCredential.compute_presentation cred ctx nonce gens a r z rng = Err e /\
             statement_refused e).
Proof.
  intros Hmac Hx1 Hlim Hne Hu Hup. unfold ARCCredential.compute_presentation.
  destruct (s_invert_nonzero _ Hne) as (i & Hi & Hinv). rewrite Hi. simpl.
  set (T := ARCPresentation.context_point ctx).
  set (n := scalar_from_u64 nonce) in *. set (U := ARCCredential.u cred ⊛ a) in *.
  set (tag := T ⊛ i). set (x1 := ARCCredential.x1 cred) in *.
  set (m1 := ARCCredential.m1 cred) in *.
  assert (HT : T = tag ⊛ m1 ⊕ tag ⊛ n) by (by apply tag_inverse).
  destruct (into_nizk (ARCPresentationProof.relation U x1 (ARCGenerators.g gens)
    (ARCGenerators.h gens) tag (U ⊛ m1 ⊕ ARCGenerators.g gens ⊛ z)
    (x1 ⊛ z ⊖ ARCGenerators.g gens ⊛ r) (tag ⊛ m1) T)
    (ARCPresentationProof.session_id ctx)) as [nizk|msg] eqn:Hn.
  - left.
    destruct (ARCPresentationProof.create_verify m1 z r n U x1 (ARCGenerators.g gens)
      (ARCGenerators.h gens) tag (U ⊛ m1 ⊕ ARCGenerators.g gens ⊛ z)
      (x1 ⊛ z ⊖ ARCGenerators.g gens ⊛ r) (tag ⊛ m1) T ctx rng) as (p & -> & Hv);
      [by split_and!|by rewrite Hn|].
    simpl. eexists. split; [done|]. apply ARCPresentation.verify_true. simpl.
    split_and!; try done.
    + unfold U, m1. rewrite server_v_client by done. rewrite <- Hx1. by destruct p.
    + fold T n. rewrite HT. clear -PL. points_to_scalars. f_equal. ring.
  - right. unfold ARCPresentationProof.create.
    replace (tag ⊛ (m1 +s n)) with T.
    + rewrite Hn. simpl. eexists. split; [done|]. by repeat eexists.
    + rewrite HT. clear -PL. generalize tag. intros tag'. points_to_scalars. f_equal. ring.
Qed.

Lemma nonzero_identity (a b : Scalar) :
  a <> s_zero -> b <> s_zero -> is_identity (GENERATOR ⊛ a ⊛ b) = false.
Proof.
  intros Ha Hb. apply not_true_iff_false. rewrite generator_mul, is_identity_spec.
  by apply s_mul_nonzero.
Qed.

Lemma mac_scalar_comm (b rr a k r : Scalar) :
  b *s rr *s a *s k +s r = b *s rr *s k *s a +s r.
Proof. ring. Qed.

Lemma compute_presentation_tag cred ctx n gens a r z rng p :
  ARCCredential.compute_presentation cred ctx n gens a r z rng = Ok p ->
  exists i, s_invert (ARCCredential.m1 cred +s scalar_from_u64 n) = Some i /\
            ARCPresentation.tag p = ARCPresentation.context_point ctx ⊛ i.
Proof.
  unfold ARCCredential.compute_presentation. intros Hc. inv_res. eauto.
Qed.

Lemma inverse_tag_inj T (m n1 n2 i1 i2 : Scalar) :
  is_identity T = false ->
  s_invert (m +s n1) = Some i1 -> s_invert (m +s n2) = Some i2 ->
  T ⊛ i1 = T ⊛ i2 -> n1 = n2.
Proof.
  intros HT [_ H1]%s_invert_Some [_ H2]%s_invert_Some Heq.
  destruct (point_log T) as [k ->].
  assert (Hk : k <> s_zero).
  { intros ->. apply not_true_iff_false in HT. apply HT. by apply is_identity_spec. }
  rewrite !generator_mul in Heq. apply generator_inj in Heq.
  apply s_mul_cancel_l in Heq as <-; [|done].
  transitivity ((m +s n2) *s i1 *s (m +s n1) +s s_opp m).
  - rewrite H2. ring.
  - transitivity ((m +s n1) *s i1 *s (m +s n2) +s s_opp m); [ring|]. rewrite H1. ring.
Qed.

(** ** What the proof of a presentation proves *)

(** The scalars [m1], [z], [r] explain a presentation: it commits to [m1], it
    carries the server's MAC on [m1] and [m2], and its tag solves
    [(m1 + nonce) * tag = T]. *)
Definition explains (p : ARCPresentation.t) (sk : ServerPrivateKey.t) (m2 m1 z r : Scalar)
    (ctx : bytes) (nonce : Z) (gens : ARCGenerators.t) : Prop :=
  ARCPresentation.m1_commit p = ARCPresentation.u p ⊛ m1 ⊕ ARCGenerators.g gens ⊛ z /\
  ARCPresentation.u_prime_commit p ⊖ ARCGenerators.g gens ⊛ r =
    ARCPresentation.u p ⊛ (ServerPrivateKey.x0 sk +s m1 *s ServerPrivateKey.x1 sk +s
                           m2 *s ServerPrivateKey.x2 sk) /\
  ARCPresentation.tag p ⊛ (m1 +s scalar_from_u64 nonce) =
    hash_from_bytes [ctx] [as_bytes "HashToGroup-ARCV1-P256Tag"].

(** The relation the server checks the proof of *)
Definition checked_relation (p : ARCPresentation.t) (sk : ServerPrivateKey.t) (m2 : Scalar)
    (gens : ARCGenerators.t) : LinearRelation :=
  ARCPresentationProof.relation (ARCPresentation.u p) (ARCGenerators.g gens ⊛ ServerPrivateKey.x1 sk)
    (ARCGenerators.g gens) (ARCGenerators.h gens) (ARCPresentation.tag p) (ARCPresentation.m1_commit p)
    (ARCPresentation.server_v p sk m2) (ARCPresentation.m1_tag p) (ARCPresentation.t_point p).

(** An equation between points is one between scalars, and equal differences
    make equivalent equations. *)
Lemma generator_eq (a b : Scalar) : GENERATOR ⊛ a = GENERATOR ⊛ b <-> a = b.
Proof. split; [apply generator_inj|by intros ->]. Qed.

Lemma s_difference (a b : Scalar) : s_sub a b = s_zero <-> a = b.
Proof.
  split.
  - intros Hz. transitivity (s_sub a b +s b); [ring|]. rewrite Hz. ring.
  - intros ->. ring.
Qed.

Lemma s_difference_iff (a b c d : Scalar) : s_sub a b = s_sub d c -> (a = b <-> c = d).
Proof.
  intros Hd. rewrite <- (s_difference a b), Hd, s_difference. by split.
Qed.

Lemma p_mac_eq (G U V : ProjectivePoint) (x0 x1 x2 m1 m2 z r : Scalar) :
  (U ⊛ m1 ⊕ G ⊛ z) ⊛ x1 ⊕ U ⊛ x0 ⊕ U ⊛ (x2 *s m2) ⊖ V = G ⊛ x1 ⊛ z ⊖ G ⊛ r <->
  V ⊖ G ⊛ r = U ⊛ (x0 +s m1 *s x1 +s m2 *s x2).
Proof. points_to_scalars. rewrite !generator_eq. apply s_difference_iff. ring. Qed.

Lemma p_tag_eq (T tag : ProjectivePoint) (m1 n : Scalar) :
  T ⊖ tag ⊛ n = tag ⊛ m1 <-> tag ⊛ (m1 +s n) = T.
Proof. points_to_scalars. rewrite !generator_eq. apply s_difference_iff. ring. Qed.

Lemma p_nonce_eq (T tag : ProjectivePoint) (m1 n nonce : Scalar) :
  T ⊖ tag ⊛ nonce = tag ⊛ m1 -> (T = tag ⊛ m1 ⊕ tag ⊛ n <-> tag ⊛ n = tag ⊛ nonce).
Proof.
  points_to_scalars. rewrite !generator_eq. intros <-. apply s_difference_iff. ring.
Qed.

(** Given what the server computes itself, the scalars that satisfy the relation
    are those that explain the presentation, with the nonce on its tag. *)
Lemma checked_relation_explains p sk m2 ctx nonce gens m1 z r n :
  ARCPresentation.t_point p = ARCPresentation.context_point ctx ->
  ARCPresentation.m1_tag p = ARCPresentation.context_point ctx ⊖ ARCPresentation.tag p ⊛ scalar_from_u64 nonce ->
  holds (checked_relation p sk m2 gens) [m1; z; r; n] = true <->
  explains p sk m2 m1 z r ctx nonce gens /\
  ARCPresentation.tag p ⊛ n = ARCPresentation.tag p ⊛ scalar_from_u64 nonce.
Proof.
  intros Ht Hm. unfold checked_relation. rewrite ARCPresentationProof.holds_relation.
  unfold ARCPresentationProof.statement, explains, ARCPresentation.server_v. rewrite Ht, Hm.
  fold (ARCPresentation.context_point ctx). split.
  - intros (Hc & Hv & Hn & Htag). pose proof (p_nonce_eq _ _ _ n _ Htag) as Heq.
    split; [|by apply Heq]. rewrite Hc in Hv. split_and!; [done|by eapply p_mac_eq|by apply p_tag_eq].
  - intros ((Hc & Hv & Htag) & Hn). apply p_tag_eq in Htag. pose proof (p_nonce_eq _ _ _ n _ Htag) as Heq.
    split_and!; [done| |by apply Heq|done]. rewrite Hc. by eapply p_mac_eq.
Qed.
End presenting.

(** C2: an anonymous credential obtained by the protocol is accepted: for
    every server key, client secrets and non-zero random scalars, the server
    issues, the client finalises a credential with 1000 presentations, its
    presentation for a nonce below the limit with an invertible
    [m1 + nonce] passes [verify], and one presentation is consumed.  The only
    other outcome is that [sigma_proofs] refuses the statement when the proof
    is created, which costs no presentation. *)
Theorem arc_issue_present_verify `{PA : P256Api} {PL : P256Laws PA} {N : NizkApi PA}
    {NL : NizkLaws PA N} `{HexApi}
    (secrets : ClientSecrets.t) (sk : ServerPrivateKey.t) (m2 b rr a r z : Scalar) rng
    ctx nonce limit :
  let gens := ARCGenerators.new in
  let pk := ServerPublicKey.from_private_key sk gens in
  let req := ARCCredentialRequest.new secrets pk gens in
  b <> s_zero -> rr <> s_zero -> a <> s_zero ->
  b *s rr *s a *s (ServerPrivateKey.x0 sk +s ClientSecrets.m1 secrets *s ServerPrivateKey.x1 sk
                   +s m2 *s ServerPrivateKey.x2 sk) +s r <> s_zero ->
  ClientSecrets.m1 secrets +s scalar_from_u64 nonce <> s_zero ->
  nonce < limit ->
  exists resp cred,
    ARCCredentialResponse.issue req sk m2 gens b = Ok resp /\
    ARCCredential.from_response resp req secrets pk rr = Ok cred /\
    ARCCredential.presentations_remaining cred = 1000 /\
    ((exists p cred',
        ARCCredential.create_presentation cred ctx nonce gens a r z rng = (Ok p, cred') /\
        ARCPresentation.verify p sk m2 ctx nonce limit gens = Ok true /\
        ARCCredential.presentations_remaining cred' = 999) \/
     (exists e, ARCCredential.create_presentation cred ctx nonce gens a r z rng = (Err e, cred) /\
                statement_refused e)).
Proof.
  intros gens pk req Hb Hrr Ha Hup Hne Hlim.
  pose proof (issue_new secrets pk sk m2 gens b) as Hi. fold req in Hi.
  eexists. edestruct (from_response_issue secrets sk m2 gens b rr req _ eq_refl Hi)
    as (cred & Hf & Hmac & Hm1 & Hu & Hx1 & Hmax & Hused).
  exists cred. split; [exact Hi|]. split; [exact Hf|].
  unfold ARCCredential.presentations_remaining. split; [by rewrite Hmax, Hused|].
  assert (Hbr : b *s rr <> s_zero) by (by apply s_mul_nonzero).
  destruct (compute_presentation_verifies cred sk m2 gens ctx nonce limit a r z rng)
    as [(p & Hp & Hv)|(e & He & Href)]; [done|done|done|by rewrite Hm1| | | |].
  - rewrite Hu. simpl. rewrite generator_mul. by apply nonzero_identity.
  - rewrite Hmac, Hu, Hm1. simpl. rewrite !generator_mul, generator_add.
    apply not_true_iff_false. rewrite is_identity_spec. intros Hz. apply Hup.
    rewrite <- Hz. apply mac_scalar_comm.
  - left. exists p, (ARCCredential.fetch_add cred). split_and!; [|done|].
    + apply ARCCredential.create_presentation_Ok. rewrite Hmax, Hused. by split_and!.
    + simpl. by rewrite Hmax, Hused.
  - right. exists e. split; [|done]. unfold ARCCredential.create_presentation.
    destruct (ARCCredential.check_limit cred) as [[]|] eqn:Hc; [by rewrite He|].
    unfold ARCCredential.check_limit in Hc. by rewrite Hmax, Hused in Hc.
Qed.

(** C3: what acceptance of a presentation is.  The server answers [true] exactly
    when the nonce is below the limit, neither of the two commitments is the
    identity, the tag's point is the context's hash with what the tag leaves of
    it, and the proof system accepts the presentation's proof, under the
    context's session, for the relation made with the server's own keys.  And
    that relation is satisfied by exactly the scalars that explain the
    presentation: an attribute [m1] it commits to and carries the server's MAC
    on, with [m2], whose sum with the nonce times the tag is the context's
    hash. *)
Theorem arc_verify_sound `{PA : P256Api} {PL : P256Laws PA} {N : NizkApi PA} `{HexApi}
    (p : ARCPresentation.t) (sk : ServerPrivateKey.t) (m2 : Scalar) ctx nonce limit
    (gens : ARCGenerators.t) :
  let hashed := hash_from_bytes [ctx] [as_bytes "HashToGroup-ARCV1-P256Tag"] in
  let session := as_bytes ("ARC-P256-presentation:" +:+ hex_encode ctx) in
  (ARCPresentation.verify p sk m2 ctx nonce limit gens = Ok true <->
   nonce < limit /\ is_identity (ARCPresentation.u p) = false /\ is_identity (ARCPresentation.u_prime_commit p) = false /\
   ARCPresentation.t_point p = hashed /\
   ARCPresentation.m1_tag p = hashed ⊖ ARCPresentation.tag p ⊛ scalar_from_u64 nonce /\
   exists nizk, into_nizk (checked_relation p sk m2 gens) session = Ok nizk /\
                verify_batchable nizk (ARCPresentation.proof p) = Ok tt) /\
  (ARCPresentation.verify p sk m2 ctx nonce limit gens = Ok true ->
   scalars (checked_relation p sk m2 gens) = 4%nat /\
   forall m1 z r n,
     holds (checked_relation p sk m2 gens) [m1; z; r; n] = true <->
     ARCPresentation.m1_commit p = ARCPresentation.u p ⊛ m1 ⊕ ARCGenerators.g gens ⊛ z /\
     ARCPresentation.u_prime_commit p ⊖ ARCGenerators.g gens ⊛ r =
       ARCPresentation.u p ⊛ (ServerPrivateKey.x0 sk +s m1 *s ServerPrivateKey.x1 sk +s
                              m2 *s ServerPrivateKey.x2 sk) /\
     ARCPresentation.tag p ⊛ (m1 +s scalar_from_u64 nonce) = hashed /\
     ARCPresentation.tag p ⊛ n = ARCPresentation.tag p ⊛ scalar_from_u64 nonce).
Proof.
  intros hashed session. rewrite ARCPresentation.verify_true, ARCPresentationProof.verify_accepts. split.
  - split; [intros (? & ? & ? & ? & ? & ?)|intros (? & ? & ? & ? & ? & ?)]; split_and!; done.
  - intros (_ & _ & _ & _ & Ht & Hm). split; [done|]. intros m1 z r n.
    rewrite (checked_relation_explains p sk m2 ctx nonce gens m1 z r n Ht Hm). unfold explains. tauto.
Qed.

(** The tag of a presentation is a function of the credential's secret,
    the context and the nonce, whatever the randomness: presenting twice with
    one nonce gives the same tag, which lets a verifier detect the reuse, and
    different nonces give different tags. *)
Theorem arc_tag_identifies_nonce `{PA : P256Api} {PL : P256Laws PA} {N : NizkApi PA}
    `{HexApi}
    (cred : ARCCredential.t) ctx n1 n2 gens a1 r1 z1 rng1 a2 r2 z2 rng2 p1 p2 :
  ARCCredential.compute_presentation cred ctx n1 gens a1 r1 z1 rng1 = Ok p1 ->
  ARCCredential.compute_presentation cred ctx n2 gens a2 r2 z2 rng2 = Ok p2 ->
  is_identity (ARCPresentation.context_point ctx) = false ->
  (ARCPresentation.tag p1 = ARCPresentation.tag p2 <->
   scalar_from_u64 n1 = scalar_from_u64 n2).
Proof.
  intros H1 H2 Hid. apply compute_presentation_tag in H1 as (i1 & Hi1 & ->).
  apply compute_presentation_tag in H2 as (i2 & Hi2 & ->). split.
  - intros Heq. eapply inverse_tag_inj; eauto.
  - intros Heq. rewrite Heq in Hi1. congruence.
Qed.

(** ** The presentation counter *)

(** A request for a presentation, with the random values it will draw *)
Record PresentationRequest `{PA : P256Api} {N : NizkApi PA} := MkPresentationRequest {
  rq_context : bytes; rq_nonce : Z; rq_a : Scalar; rq_r : Scalar; rq_z : Scalar; rq_rng : Rng
}.

Section counter.
Context `{PA : P256Api} {N : NizkApi PA} `{HexApi}.

(** One credential used for a sequence of presentations *)
Fixpoint present_all (gens : ARCGenerators.t) (cred : ARCCredential.t)
    (rqs : list PresentationRequest) : list (Result ARCPresentation.t) * ARCCredential.t :=
  match rqs with
  | [] => ([], cred)
  | rq :: rqs =>
      let '(res, cred) :=
        ARCCredential.create_presentation cred (rq_context rq) (rq_nonce rq) gens
          (rq_a rq) (rq_r rq) (rq_z rq) (rq_rng rq) in
      let '(rest, cred) := present_all gens cred rqs in
      (res :: rest, cred)
  end.

Definition count_ok {A} (rs : list (Result A)) : Z :=
  Z.of_nat (length (List.filter is_ok rs)).

Lemma create_presentation_counts cred rq gens res cred' :
  ARCCredential.wf cred ->
  ARCCredential.create_presentation cred (rq_context rq) (rq_nonce rq) gens
    (rq_a rq) (rq_r rq) (rq_z rq) (rq_rng rq) = (res, cred') ->
  ARCCredential.wf cred' /\
  ARCCredential.max_presentations cred' = ARCCredential.max_presentations cred /\
  ARCCredential.presentations_used cred' =
    ARCCredential.presentations_used cred + (if is_ok res then 1 else 0).
Proof.
  intros Hwf Hc. destruct res as [p|e]; simpl.
  - apply ARCCredential.create_presentation_Ok in Hc as (Hlt & _ & ->).
    destruct (ARCCredential.fetch_add_wf cred Hwf Hlt) as (Hu & Hm & Hw). auto.
  - apply ARCCredential.create_presentation_Err in Hc as ->. split_and!; [done..|lia].
Qed.

Lemma present_all_counts gens rqs : forall cred rs cred',
  ARCCredential.wf cred ->
  present_all gens cred rqs = (rs, cred') ->
  ARCCredential.wf cred' /\
  ARCCredential.max_presentations cred' = ARCCredential.max_presentations cred /\
  ARCCredential.presentations_used cred' =
    ARCCredential.presentations_used cred + count_ok rs.
Proof.
  induction rqs as [|rq rqs IH]; simpl; intros cred rs cred' Hwf Hp.
  - simplify_eq. unfold count_ok. simpl. split_and!; [done..|lia].
  - destruct (ARCCredential.create_presentation _ _ _ _ _ _ _ _) as [res c1] eqn:Hc.
    apply create_presentation_counts in Hc as (Hw1 & Hm1 & Hu1); [|done].
    destruct (present_all gens c1 rqs) as [rest c2] eqn:Hr.
    destruct (IH _ _ _ Hw1 Hr) as (Hw2 & Hm2 & Hu2). simplify_eq.
    split_and!; [done|lia|]. rewrite Hu2, Hu1. unfold count_ok. simpl.
    destruct (is_ok res); simpl; lia.
Qed.
End counter.

(** Used from one thread, a credential makes at most as many
    presentations as it has left: the successes of any sequence of requests
    are exactly those subtracted from [presentations_remaining], the counter
    never passes the maximum, and once nothing remains every request is
    answered [RateLimitExceeded] without a change. *)
Theorem arc_presentations_bounded `{PA : P256Api} {N : NizkApi PA} `{HexApi}
    gens cred rqs rs cred' :
  ARCCredential.wf cred ->
  present_all gens cred rqs = (rs, cred') ->
  ARCCredential.presentations_remaining cred' =
    ARCCredential.presentations_remaining cred - count_ok rs /\
  0 <= ARCCredential.presentations_remaining cred' /\
  ARCCredential.wf cred' /\
  (ARCCredential.presentations_remaining cred' = 0 ->
   forall ctx nonce a r z rng,
   ARCCredential.create_presentation cred' ctx nonce gens a r z rng =
     (Err (RateLimitExceeded (ARCCredential.max_presentations cred)
                             (ARCCredential.max_presentations cred)), cred')).
Proof.
  intros Hwf Hp. destruct (present_all_counts _ _ _ _ _ Hwf Hp) as (Hwf' & Hm & Hu).
  unfold ARCCredential.presentations_remaining, saturating_sub.
  pose proof Hwf as [? _]. pose proof Hwf' as [? _].
  split_and!; [lia|lia|done|]. intros Hz ctx nonce a r z rng.
  unfold ARCCredential.create_presentation, ARCCredential.check_limit.
  rewrite (proj2 (Z.geb_le _ _)) by lia. do 3 f_equal; lia.
Qed.

(** *** Presenting from several threads

    [create_presentation] takes [&self]: the load and the [fetch_add] are two
    atomic steps, between which other threads run. *)

Inductive Phase := Waiting | Computing | Presented | Refused.

Definition phase_eqb (p q : Phase) : bool :=
  match p, q with
  | Waiting, Waiting | Computing, Computing | Presented, Presented | Refused, Refused => true
  | _, _ => false
  end.

Section race.
Context `{PA : P256Api}.

Inductive race_step : ARCCredential.t * list Phase -> ARCCredential.t * list Phase -> Prop :=
| race_load cred ts i :
    ts !! i = Some Waiting ->
    race_step (cred, ts)
      (cred, <[i := match ARCCredential.check_limit cred with
                    | Ok _ => Computing
                    | Err _ => Refused
                    end]> ts)
| race_add cred ts i :
    ts !! i = Some Computing ->
    race_step (cred, ts) (ARCCredential.fetch_add cred, <[i := Presented]> ts).

Definition races := rtc race_step.

Definition phase_count (p : Phase) (ts : list Phase) : Z :=
  Z.of_nat (length (List.filter (phase_eqb p) ts)).

Lemma phase_count_insert p q q' ts i :
  ts !! i = Some q ->
  phase_count p (<[i := q']> ts) =
    phase_count p ts - Z.b2z (phase_eqb p q) + Z.b2z (phase_eqb p q').
Proof.
  unfold phase_count. revert i. induction ts as [|t ts IH]; intros [|i] Hi; simpl in *; try done.
  - simplify_eq. destruct (phase_eqb p q), (phase_eqb p q'); simpl; lia.
  - specialize (IH i Hi). destruct (phase_eqb p t); simpl; lia.
Qed.

Lemma phase_count_bounds p ts : 0 <= phase_count p ts <= Z.of_nat (length ts).
Proof. unfold phase_count. pose proof (List.filter_length_le (phase_eqb p) ts). lia. Qed.

(** Presentations made and being made never pass the maximum by as much as
    the number of threads. *)
Definition race_inv (max used0 : Z) (st : ARCCredential.t * list Phase) : Prop :=
  let '(cred, ts) := st in
  ARCCredential.max_presentations cred = max /\
  ARCCredential.presentations_used cred = used0 + phase_count Presented ts /\
  (phase_count Computing ts + phase_count Presented ts = 0 \/
   ARCCredential.presentations_used cred + phase_count Computing ts
     <= max - 1 + Z.of_nat (length ts)).

Lemma race_step_inv max used0 st st' :
  0 <= used0 -> max + Z.of_nat (length st.2) <= u64_max ->
  race_inv max used0 st -> race_step st st' ->
  race_inv max used0 st' /\ length st'.2 = length st.2.
Proof.
  intros Hu0 Hbig Hinv Hs. destruct Hs as [cred ts i Hi|cred ts i Hi]; simpl in *.
  - destruct Hinv as (Hm & Hu & Hb). split; [|by rewrite length_insert].
    rewrite !(phase_count_insert _ _ _ _ _ Hi), length_insert.
    pose proof (phase_count_insert Computing _ Computing _ _ Hi) as Hc.
    pose proof (phase_count_bounds Computing (<[i:=Computing]> ts)) as Hcb.
    rewrite length_insert, Hc in Hcb.
    destruct (ARCCredential.check_limit cred) as [[]|e] eqn:Hck; simpl in *.
    + apply ARCCredential.check_limit_Ok in Hck. split_and!; [done|lia|right; lia].
    + split_and!; [done|lia|]. destruct Hb; [left|right]; lia.
  - destruct Hinv as (Hm & Hu & Hb). split; [|by rewrite length_insert].
    rewrite !(phase_count_insert _ _ _ _ _ Hi), length_insert. simpl.
    pose proof (phase_count_insert Computing _ Waiting _ _ Hi) as Hc. simpl in Hc.
    pose proof (phase_count_bounds Computing (<[i:=Waiting]> ts)).
    pose proof (phase_count_bounds Computing ts).
    pose proof (phase_count_bounds Presented ts).
    rewrite wrap_u64_id by (unfold is_u64; lia). split_and!; [done|lia|right; lia].
Qed.

Lemma races_inv max used0 st st' :
  0 <= used0 -> max + Z.of_nat (length st.2) <= u64_max ->
  race_inv max used0 st -> races st st' ->
  race_inv max used0 st' /\ length st'.2 = length st.2.
Proof.
  intros Hu0 Hbig Hinv Hr. induction Hr as [|st1 st2 st3 Hs _ IH]; [done|].
  destruct (race_step_inv max used0 _ _ Hu0 Hbig Hinv Hs) as [Hinv2 Hlen].
  rewrite <- Hlen. apply IH; [by rewrite Hlen|done].
Qed.

Lemma phase_count_waiting p n :
  p <> Waiting -> phase_count p (replicate n Waiting) = 0.
Proof. intros Hp. unfold phase_count. by induction n; destruct p. Qed.

Lemma replicate_inv cred n :
  race_inv (ARCCredential.max_presentations cred) (ARCCredential.presentations_used cred)
    (cred, replicate n Waiting).
Proof. simpl. rewrite !phase_count_waiting by done. split_and!; [done|lia|by left]. Qed.

Lemma insert_replicate_middle {A} (x y : A) k l :
  <[k := x]> (replicate k x ++ y :: l) = replicate (S k) x ++ l.
Proof.
  rewrite insert_app_r_alt by (rewrite length_replicate; lia).
  rewrite length_replicate, Nat.sub_diag, replicate_S_end, <- app_assoc. done.
Qed.

Lemma load_all cred n : forall k,
  ARCCredential.presentations_used cred < ARCCredential.max_presentations cred ->
  races (cred, replicate k Computing ++ replicate n Waiting)
        (cred, replicate (n + k) Computing).
Proof.
  induction n as [|n IH]; intros k Hlt.
  - simpl. rewrite app_nil_r. apply rtc_refl.
  - change (replicate (S n) Waiting) with (Waiting :: replicate n Waiting).
    eapply rtc_l; [apply (race_load _ _ k), list_lookup_middle; by rewrite length_replicate|].
    apply ARCCredential.check_limit_Ok in Hlt as Hck. rewrite Hck.
    rewrite insert_replicate_middle.
    replace (S n + k)%nat with (n + S k)%nat by lia. by apply IH.
Qed.

Lemma add_all n : forall cred k,
  races (cred, replicate k Presented ++ replicate n Computing)
        (Nat.iter n ARCCredential.fetch_add cred, replicate (n + k) Presented).
Proof.
  induction n as [|n IH]; intros cred k.
  - simpl. rewrite app_nil_r. apply rtc_refl.
  - change (replicate (S n) Computing) with (Computing :: replicate n Computing).
    eapply rtc_l; [apply (race_add _ _ k), list_lookup_middle; by rewrite length_replicate|].
    rewrite insert_replicate_middle.
    replace (S n + k)%nat with (n + S k)%nat by lia.
    rewrite Nat.iter_succ_r. apply IH.
Qed.
End race.

(** Shared by [n] threads, a credential with presentations left can be
    overdrawn, since the load and the increment are separate steps: every
    interleaving makes at most [n - 1] presentations more than remained, and
    when one remains there is an interleaving in which all [n] threads present. *)
Theorem arc_concurrent_overdraw `{PA : P256Api} (cred : ARCCredential.t) (n : nat) :
  ARCCredential.wf cred ->
  ARCCredential.max_presentations cred + Z.of_nat n <= u64_max ->
  0 < ARCCredential.presentations_remaining cred ->
  (forall cred' ts, races (cred, replicate n Waiting) (cred', ts) ->
     phase_count Presented ts <=
       ARCCredential.presentations_remaining cred + Z.max 0 (Z.of_nat n - 1)) /\
  (ARCCredential.presentations_remaining cred = 1 ->
   exists cred', races (cred, replicate n Waiting) (cred', replicate n Presented)).
Proof.
  unfold ARCCredential.presentations_remaining, saturating_sub.
  intros [Hu Hm] Hbig Hrem. split.
  - intros cred' ts Hr.
    apply (races_inv (ARCCredential.max_presentations cred)
      (ARCCredential.presentations_used cred)) in Hr as ((_ & Hu' & Hb) & Hlen);
      [|apply Hu|simpl; rewrite length_replicate; lia|apply replicate_inv].
    simpl in Hlen. rewrite length_replicate in Hlen. rewrite Hlen in Hb.
    pose proof (phase_count_bounds Presented ts). pose proof (phase_count_bounds Computing ts).
    lia.
  - intros Hone. exists (Nat.iter n ARCCredential.fetch_add cred).
    etransitivity; [apply (load_all cred n 0); lia|].
    pose proof (add_all n cred 0) as Ha. rewrite Nat.add_0_r in *. exact Ha.
Qed.

(** The encodings of the server's keys decode to the keys: 128 bytes for
    a private key, 99 for a public one; input of any other length is refused. *)
Theorem arc_server_keys_roundtrip `{PA : P256Api} {PL : P256Laws PA}
    (sk : ServerPrivateKey.t) (pk : ServerPublicKey.t) :
  ServerPrivateKey.from_bytes (ServerPrivateKey.to_bytes sk) = Ok sk /\
  ServerPublicKey.from_bytes (ServerPublicKey.to_bytes pk) = Ok pk /\
  (forall b, is_ok (ServerPrivateKey.from_bytes b) = true -> length b = 128%nat) /\
  (forall b, is_ok (ServerPublicKey.from_bytes b) = true -> length b = 99%nat).
Proof.
  destruct sk as [k0 k1 k2 k3], pk as [q0 q1 q2].
  unfold ServerPrivateKey.from_bytes, ServerPublicKey.from_bytes.
  split_and!; [| |intros b; by destruct (Nat.eqb_spec (length b) 128)..
                 |intros b; by destruct (Nat.eqb_spec (length b) 99)].
  - unfold ServerPrivateKey.to_bytes, scalar_of. simpl.
    rewrite !length_app, !scalar_to_bytes_len. simpl.
    rewrite (slice_app_l _ _ 32) by apply scalar_to_bytes_len.
    rewrite !(slice_app_r (scalar_to_bytes k0) _ 32) by (apply scalar_to_bytes_len || lia).
    simpl. rewrite (slice_app_l _ _ 32) by apply scalar_to_bytes_len.
    rewrite !(slice_app_r (scalar_to_bytes k1) _ 32) by (apply scalar_to_bytes_len || lia).
    simpl. rewrite (slice_app_l _ _ 32) by apply scalar_to_bytes_len.
    rewrite !(slice_app_r (scalar_to_bytes k2) _ 32) by (apply scalar_to_bytes_len || lia).
    simpl. rewrite slice_all by apply scalar_to_bytes_len.
    by rewrite !scalar_from_to.
  - unfold ServerPublicKey.to_bytes, point_of. simpl.
    rewrite !length_app, !point_to_bytes_len. simpl.
    rewrite (slice_app_l _ _ 33) by apply point_to_bytes_len.
    rewrite !(slice_app_r (point_to_bytes q0) _ 33) by (apply point_to_bytes_len || lia).
    simpl. rewrite (slice_app_l _ _ 33) by apply point_to_bytes_len.
    rewrite !(slice_app_r (point_to_bytes q1) _ 33) by (apply point_to_bytes_len || lia).
    simpl. rewrite slice_all by apply point_to_bytes_len.
    by rewrite !point_from_to.
Qed.

(** A stored credential comes back unchanged except for its counter,
    which restarts at zero: after writing and reading a credential all its
    presentations are available again, however many were used. *)
Theorem arc_stored_credential_restarts `{PA : P256Api} {PL : P256Laws PA}
    (cred : ARCCredential.t) :
  ARCCredential.deserialize (ARCCredential.serialize cred) =
    Ok (ARCCredential.mk (ARCCredential.m1 cred) (ARCCredential.u cred)
          (ARCCredential.u_prime cred) (ARCCredential.x1 cred)
          (ARCCredential.max_presentations cred) 0) /\
  (ARCCredential.wf cred -> forall cred',
   ARCCredential.deserialize (ARCCredential.serialize cred) = Ok cred' ->
   ARCCredential.presentations_remaining cred' = ARCCredential.max_presentations cred).
Proof.
  assert (Hd : ARCCredential.deserialize (ARCCredential.serialize cred) =
    Ok (ARCCredential.mk (ARCCredential.m1 cred) (ARCCredential.u cred)
          (ARCCredential.u_prime cred) (ARCCredential.x1 cred)
          (ARCCredential.max_presentations cred) 0)).
  { unfold ARCCredential.deserialize, ARCCredential.serialize,
      ARCCredential.deserialize_scalar, ARCCredential.deserialize_point.
    by rewrite !scalar_to_bytes_len, !point_to_bytes_len, scalar_from_to, !point_from_to. }
  split; [exact Hd|]. intros [Hu Hm] cred' Hc. rewrite Hd in Hc.
  apply Ok_inj in Hc as <-. unfold ARCCredential.presentations_remaining, saturating_sub, is_u64 in *.
  simpl. lia.
Qed.

(** ** Concrete runs over the five-element group *)

Section demo.
Import Toy ToyGroup.

Definition demo_sk : ServerPrivateKey.t := ServerPrivateKey.mk f1 f2 f3 f4.
Definition demo_secrets : ClientSecrets.t := ClientSecrets.mk f2 f3 f1 f0.
Definition demo_gens : ARCGenerators.t := ARCGenerators.new.
Definition demo_pk : ServerPublicKey.t := ServerPublicKey.from_private_key demo_sk demo_gens.

Definition demo_cred : ARCCredential.t :=
  ARCCredential.mk f2 f2 f1 (ServerPublicKey.x1 demo_pk) 2 0.

Definition demo_request (nonce : Z) : PresentationRequest :=
  MkPresentationRequest _ _ [Byte.x41] nonce f2 f1 f3 tt.
End demo.

Example present_three_times :
  List.map is_ok (present_all demo_gens demo_cred
                    [demo_request 0; demo_request 3; demo_request 1; demo_request 2]).1
    = [true; false; true; false].
Proof. reflexivity. Qed.

Lemma arc_issue_present_verify_witness :
  exists resp cred,
    ARCCredentialResponse.issue
      (ARCCredentialRequest.new demo_secrets demo_pk demo_gens) demo_sk ToyGroup.f1
      demo_gens ToyGroup.f3 = Ok resp /\
    ARCCredential.from_response resp
      (ARCCredentialRequest.new demo_secrets demo_pk demo_gens) demo_secrets demo_pk
      ToyGroup.f2 = Ok cred /\
    ARCCredential.presentations_remaining cred = 1000 /\
    ((exists p cred',
        ARCCredential.create_presentation cred [Byte.x41] 7 demo_gens
          ToyGroup.f2 ToyGroup.f1 ToyGroup.f3 tt = (Ok p, cred') /\
        ARCPresentation.verify p demo_sk ToyGroup.f1 [Byte.x41] 7 100 demo_gens = Ok true /\
        ARCCredential.presentations_remaining cred' = 999) \/
     (exists e,
        ARCCredential.create_presentation cred [Byte.x41] 7 demo_gens
          ToyGroup.f2 ToyGroup.f1 ToyGroup.f3 tt = (Err e, cred) /\
        statement_refused (N := ToyGroup.toy_nizk) e)).
Proof.
  apply (arc_issue_present_verify (PL := ToyGroup.toy_p256_laws)
           (NL := ToyGroup.toy_nizk_laws) demo_secrets demo_sk ToyGroup.f1);
    try (vm_compute; discriminate). reflexivity.
Defined.

Definition demo_presentation : ARCPresentation.t :=
  match ARCCredential.create_presentation demo_cred [Byte.x41] 1 demo_gens
          ToyGroup.f2 ToyGroup.f1 ToyGroup.f3 tt with
  | (Ok p, _) => p
  | (Err _, _) => ARCPresentation.mk ToyGroup.f0 ToyGroup.f0 ToyGroup.f0 ToyGroup.f0
                    ToyGroup.f0 ToyGroup.f0 []
  end.

Lemma arc_verify_sound_witness : 1 < 2 /\ is_identity (ARCPresentation.u demo_presentation) = false.
Proof.
  destruct (arc_verify_sound (PL := ToyGroup.toy_p256_laws)
    demo_presentation demo_sk ToyGroup.f1 [Byte.x41] 1 2 demo_gens) as [Ha _].
  apply proj1 in Ha. destruct Ha as (Hn & Hid & _); [vm_compute; reflexivity|]. split; assumption.
Defined.

Lemma arc_tag_identifies_nonce_witness :
  exists p1 p2,
    ARCCredential.compute_presentation (N := ToyGroup.toy_nizk) demo_cred [Byte.x41] 1 demo_gens
      ToyGroup.f2 ToyGroup.f1 ToyGroup.f3 tt = Ok p1 /\
    ARCCredential.compute_presentation (N := ToyGroup.toy_nizk) demo_cred [Byte.x41] 2 demo_gens
      ToyGroup.f4 ToyGroup.f3 ToyGroup.f2 tt = Ok p2 /\
    (ARCPresentation.tag p1 = ARCPresentation.tag p2 <->
     scalar_from_u64 1 = scalar_from_u64 2).
Proof.
  eexists. eexists. split; [vm_compute; reflexivity|]. split; [vm_compute; reflexivity|].
  apply (arc_tag_identifies_nonce (N := ToyGroup.toy_nizk) (PL := ToyGroup.toy_p256_laws) demo_cred [Byte.x41] 1 2
           demo_gens ToyGroup.f2 ToyGroup.f1 ToyGroup.f3 tt
           ToyGroup.f4 ToyGroup.f3 ToyGroup.f2 tt); vm_compute; reflexivity.
Defined.

Lemma demo_cred_wf : ARCCredential.wf demo_cred.
Proof. unfold ARCCredential.wf, is_u64, u64_max. simpl. lia. Qed.

Lemma arc_presentations_bounded_witness :
  ARCCredential.presentations_remaining
    (present_all demo_gens demo_cred [demo_request 0; demo_request 3; demo_request 1]).2 =
  ARCCredential.presentations_remaining demo_cred -
    count_ok (present_all demo_gens demo_cred
                [demo_request 0; demo_request 3; demo_request 1]).1.
Proof.
  apply (arc_presentations_bounded demo_gens demo_cred
           [demo_request 0; demo_request 3; demo_request 1]).
  - exact demo_cred_wf.
  - reflexivity.
Defined.

Lemma arc_concurrent_overdraw_witness :
  exists cred',
    races (ARCCredential.fetch_add demo_cred, replicate 2 Waiting)
          (cred', replicate 2 Presented).
Proof.
  apply (arc_concurrent_overdraw (ARCCredential.fetch_add demo_cred) 2).
  - apply ARCCredential.fetch_add_wf; [exact demo_cred_wf|reflexivity].
  - unfold u64_max. simpl. lia.
  - reflexivity.
  - reflexivity.
Defined.

Lemma arc_server_keys_roundtrip_witness :
  ServerPrivateKey.from_bytes (ServerPrivateKey.to_bytes demo_sk) = Ok demo_sk.
Proof. apply (arc_server_keys_roundtrip demo_sk demo_pk). Defined.

Lemma arc_stored_credential_restarts_witness :
  ARCCredential.deserialize (ARCCredential.serialize (ARCCredential.fetch_add demo_cred)) =
    Ok demo_cred.
Proof. apply (arc_stored_credential_restarts (ARCCredential.fetch_add demo_cred)). Defined.
