(* ===== verification/Credentials.v ===== *)
(** The three credential types ([acdp-auth/src/credentials.rs]): identity
    bound, anonymous and hybrid, their signed data and signature check, and the
    operations common to them. *)

From S2P Require Import Prelude AuthError Externs Capabilities Identity Delegation.
From S2P Require Import P256 ArcZkp Arc.

(** [serde_json::to_vec(&(principal, agent, mcp_capabilities, delegation))] *)
Class CanonicalJson `{C : ChronoApi, E : Ed25519Api, J : JsonData} := {
  canonical_to_vec : Principal.t -> Agent.t -> MCPCapabilities.t -> DelegationRights.t ->
    Res bytes string
}.
Arguments CanonicalJson : clear implicits.

Inductive CredentialType : Type := TIdentityBound | TAnonymous | THybrid.

Module Extensions.
Section extensions.
Context `{J : JsonData}.
Record t : Type := mk { ap2_mandate_link : option string; metadata : option JsonValue }.
Definition default : t := mk None None.
End extensions.
Arguments t : clear implicits.
Arguments t {J}.
End Extensions.

Section signing.
Context `{U : UuidApi, C : ChronoApi, E : Ed25519Api, J : JsonData} {CJ : CanonicalJson C E J}.

(** The bytes a credential signature covers *)
Definition credential_signing_data (version : string) (credential_id : Uuid)
    (issued_at expires_at : DateTime) (principal : Principal.t) (agent : Agent.t)
    (mcp_capabilities : MCPCapabilities.t) (delegation : DelegationRights.t) : Result bytes :=
  let? canonical := map_err (fun e => InternalError ("Serialization failed: " +:+ e))
    (canonical_to_vec principal agent mcp_capabilities delegation) in
  Ok (as_bytes version ++ uuid_as_bytes credential_id ++
      to_le_bytes 8 (timestamp issued_at) ++ to_le_bytes 8 (timestamp expires_at) ++
      canonical).

(** [PublicKey::from_slice(..)?.verify(&self.signing_data()?, &self.signature)] *)
Definition check_signature (issuer_public_key : bytes) (signing_data : Result bytes)
    (signature : Signature) : Result unit :=
  let? public_key := map_err (fun e => CryptoError ("Invalid public key: " +:+ e))
    (pk_from_slice issuer_public_key) in
  let? data := signing_data in
  let? _ := map_err (fun e => InvalidCredential ("Signature verification failed: " +:+ e))
    (ed_verify public_key data signature) in
  Ok tt.

Lemma check_signature_Ok key data sig :
  check_signature key data sig = Ok tt <->
  exists pk d, pk_from_slice key = Ok pk /\ data = Ok d /\ ed_verify pk d sig = Ok tt.
Proof.
  unfold check_signature. split.
  - intros Hc. inv_res. eauto.
  - intros (pk & d & -> & -> & Hv). simpl. by rewrite Hv.
Qed.

(** A genuine signature is accepted on exactly the data it was made for. *)
Lemma check_signature_signed (EL : Ed25519Laws E) sk (d : bytes) data :
  check_signature (pk_as_ref (ed_public sk)) data (ed_sign sk d) = Ok tt <-> data = Ok d.
Proof.
  rewrite check_signature_Ok, pk_from_slice_as_ref. split.
  - intros (pk & d' & Hpk & -> & Hv). simplify_eq. by apply ed_verify_message in Hv as ->.
  - intros ->. exists (ed_public sk), d. split_and!; [done..|apply ed_verify_sign].
Qed.

Lemma credential_signing_data_length (UL : UuidLaws U) v i ia ea p a c dl data :
  credential_signing_data v i ia ea p a c dl = Ok data -> (32 <= length data)%nat.
Proof.
  unfold credential_signing_data. intros (canonical & _ & Hd)%res_bind_Ok.
  apply Ok_inj in Hd as <-. rewrite !length_app, !length_to_le_bytes, uuid_as_bytes_len. lia.
Qed.
End signing.

Module IdentityBoundCredential.
Section credential.
Context `{U : UuidApi, C : ChronoApi, E : Ed25519Api, J : JsonData} {CJ : CanonicalJson C E J}.

Record t : Type := mk {
  version : string;
  credential_id : Uuid;
  issued_at : DateTime;
  expires_at : DateTime;
  principal : Principal.t;
  agent : Agent.t;
  mcp_capabilities : MCPCapabilities.t;
  delegation : DelegationRights.t;
  delegation_chain : DelegationChain.t;
  signature : Signature;
  extensions : Extensions.t
}.

Definition signing_data (self : t) : Result bytes :=
  credential_signing_data (version self) (credential_id self) (issued_at self)
    (expires_at self) (principal self) (agent self) (mcp_capabilities self)
    (delegation self).

Definition verify_signature (self : t) (issuer_public_key : bytes) : Result unit :=
  check_signature issuer_public_key (signing_data self) (signature self).
End credential.
Arguments t : clear implicits.
Arguments t {U C E J}.
End IdentityBoundCredential.

Module AnonymousCredential.
Section credential.
Context `{U : UuidApi, C : ChronoApi, J : JsonData, PA : P256Api}.

Record t : Type := mk {
  version : string;
  credential_id : Uuid;
  issued_at : DateTime;
  expires_at : DateTime;
  arc_credential : ARCCredential.t;
  mcp_capabilities : MCPCapabilities.t;
  extensions : Extensions.t
}.

Definition set_arc (self : t) (arc : ARCCredential.t) : t :=
  mk (version self) (credential_id self) (issued_at self) (expires_at self) arc
     (mcp_capabilities self) (extensions self).

Definition create_presentation {N : NizkApi PA} `{HexApi} (self : t)
    (presentation_context : bytes) (nonce : Z) (a r z : Scalar) (rng : Rng)
  : Result ARCPresentation.t * t :=
  let generators := ARCGenerators.new in
  let '(res, arc) := ARCCredential.create_presentation (arc_credential self)
                       presentation_context nonce generators a r z rng in
  (res, set_arc self arc).

Definition check_rate_limit (self : t) : Result Z :=
  Ok (ARCCredential.presentations_remaining (arc_credential self)).
End credential.
Arguments t : clear implicits.
Arguments t {U C J PA}.
End AnonymousCredential.

Module HybridCredential.
Section credential.
Context `{U : UuidApi, C : ChronoApi, E : Ed25519Api, J : JsonData, PA : P256Api}.
Context {CJ : CanonicalJson C E J}.

Record t : Type := mk {
  version : string;
  credential_id : Uuid;
  issued_at : DateTime;
  expires_at : DateTime;
  principal : Principal.t;
  agent : Agent.t;
  arc_credential : ARCCredential.t;
  mcp_capabilities : MCPCapabilities.t;
  delegation : DelegationRights.t;
  delegation_chain : DelegationChain.t;
  signature : Signature;
  extensions : Extensions.t
}.

Definition signing_data (self : t) : Result bytes :=
  credential_signing_data (version self) (credential_id self) (issued_at self)
    (expires_at self) (principal self) (agent self) (mcp_capabilities self)
    (delegation self).

Definition verify_signature (self : t) (issuer_public_key : bytes) : Result unit :=
  check_signature issuer_public_key (signing_data self) (signature self).

Definition set_arc (self : t) (arc : ARCCredential.t) : t :=
  mk (version self) (credential_id self) (issued_at self) (expires_at self)
     (principal self) (agent self) arc (mcp_capabilities self) (delegation self)
     (delegation_chain self) (signature self) (extensions self).

Definition create_anonymous_presentation {N : NizkApi PA} `{HexApi} (self : t)
    (presentation_context : bytes) (nonce : Z) (a r z : Scalar) (rng : Rng)
  : Result ARCPresentation.t * t :=
  let generators := ARCGenerators.new in
  let '(res, arc) := ARCCredential.create_presentation (arc_credential self)
                       presentation_context nonce generators a r z rng in
  (res, set_arc self arc).

Definition check_rate_limit (self : t) : Result Z :=
  Ok (ARCCredential.presentations_remaining (arc_credential self)).
End credential.
Arguments t : clear implicits.
Arguments t {U C E J PA}.
End HybridCredential.

Module ACDPCredential.
Section credential.
Context `{U : UuidApi, C : ChronoApi, E : Ed25519Api, J : JsonData, PA : P256Api}.
Context {CJ : CanonicalJson C E J}.

Inductive t : Type :=
| IdentityBound (c : IdentityBoundCredential.t)
| Anonymous (c : AnonymousCredential.t)
| Hybrid (c : HybridCredential.t).

Definition credential_id (self : t) : Uuid :=
  match self with
  | IdentityBound c => IdentityBoundCredential.credential_id c
  | Anonymous c => AnonymousCredential.credential_id c
  | Hybrid c => HybridCredential.credential_id c
  end.

Definition expires_at (self : t) : DateTime :=
  match self with
  | IdentityBound c => IdentityBoundCredential.expires_at c
  | Anonymous c => AnonymousCredential.expires_at c
  | Hybrid c => HybridCredential.expires_at c
  end.

(** [now] is [Utc::now()] *)
Definition is_expired (now : DateTime) (self : t) : bool := dt_ltb (expires_at self) now.

Definition mcp_capabilities (self : t) : MCPCapabilities.t :=
  match self with
  | IdentityBound c => IdentityBoundCredential.mcp_capabilities c
  | Anonymous c => AnonymousCredential.mcp_capabilities c
  | Hybrid c => HybridCredential.mcp_capabilities c
  end.

Definition credential_type (self : t) : CredentialType :=
  match self with
  | IdentityBound _ => TIdentityBound
  | Anonymous _ => TAnonymous
  | Hybrid _ => THybrid
  end.

Definition verify_signature (self : t) (issuer_public_key : bytes) : Result unit :=
  match self with
  | IdentityBound c => IdentityBoundCredential.verify_signature c issuer_public_key
  | Anonymous _ => Ok tt
  | Hybrid c => HybridCredential.verify_signature c issuer_public_key
  end.
End credential.
Arguments t : clear implicits.
Arguments t {U C E J PA}.
End ACDPCredential.

(** ** What a signature covers *)

Section covered.
Context `{U : UuidApi, C : ChronoApi, E : Ed25519Api, J : JsonData, PA : P256Api}.
Context {CJ : CanonicalJson C E J}.

(** The fields of a hybrid credential under its signature, as an
    identity-bound credential *)
Definition revealed_form (c : HybridCredential.t) : IdentityBoundCredential.t :=
  IdentityBoundCredential.mk (HybridCredential.version c) (HybridCredential.credential_id c)
    (HybridCredential.issued_at c) (HybridCredential.expires_at c)
    (HybridCredential.principal c) (HybridCredential.agent c)
    (HybridCredential.mcp_capabilities c) (HybridCredential.delegation c)
    (HybridCredential.delegation_chain c) (HybridCredential.signature c)
    (HybridCredential.extensions c).

Definition canonical_of (c : IdentityBoundCredential.t) : Res bytes string :=
  canonical_to_vec (IdentityBoundCredential.principal c) (IdentityBoundCredential.agent c)
    (IdentityBoundCredential.mcp_capabilities c) (IdentityBoundCredential.delegation c).

Lemma signing_data_fields (UL : UuidLaws U) (CL : ChronoLaws C)
    (c d : IdentityBoundCredential.t) data :
  IdentityBoundCredential.signing_data c = Ok data ->
  IdentityBoundCredential.signing_data d = Ok data ->
  String.length (IdentityBoundCredential.version c) =
    String.length (IdentityBoundCredential.version d) ->
  IdentityBoundCredential.version c = IdentityBoundCredential.version d /\
  IdentityBoundCredential.credential_id c = IdentityBoundCredential.credential_id d /\
  timestamp (IdentityBoundCredential.issued_at c) =
    timestamp (IdentityBoundCredential.issued_at d) /\
  timestamp (IdentityBoundCredential.expires_at c) =
    timestamp (IdentityBoundCredential.expires_at d) /\
  canonical_of c = canonical_of d.
Proof.
  unfold IdentityBoundCredential.signing_data, credential_signing_data, canonical_of.
  intros (j1 & Hj1%map_err_Ok & Hc)%res_bind_Ok (j2 & Hj2%map_err_Ok & Hd)%res_bind_Ok Hlen.
  rewrite Hj1, Hj2. rewrite <- Hd in Hc. apply Ok_inj in Hc as He.
  apply app_inj_1 in He as [H1 He]; [|by rewrite !length_as_bytes].
  apply app_inj_1 in He as [H2 He]; [|by rewrite !uuid_as_bytes_len].
  apply app_inj_1 in He as [H3 He]; [|by rewrite !length_to_le_bytes].
  apply app_inj_1 in He as [H4 H5]; [|by rewrite !length_to_le_bytes].
  split_and!; [by apply as_bytes_inj|by apply uuid_as_bytes_inj| | |congruence];
    (apply to_le_bytes_i64_inj; [apply timestamp_i64..|done]).
Qed.
End covered.

(** A signature the issuer made for one credential is accepted on a
    credential with a version text of the same length only if the two agree on
    version, identifier, the seconds of issue and expiry, and the canonical
    JSON of principal, agent, capabilities and delegation rights. *)
Theorem credential_signature_binds_fields
    `{U : UuidApi, C : ChronoApi, E : Ed25519Api, J : JsonData} {CJ : CanonicalJson C E J}
    (UL : UuidLaws U) (CL : ChronoLaws C) (EL : Ed25519Laws E)
    sk data (c d : IdentityBoundCredential.t) :
  IdentityBoundCredential.signing_data c = Ok data ->
  IdentityBoundCredential.signature d = ed_sign sk data ->
  String.length (IdentityBoundCredential.version c) =
    String.length (IdentityBoundCredential.version d) ->
  IdentityBoundCredential.verify_signature d (pk_as_ref (ed_public sk)) = Ok tt ->
  IdentityBoundCredential.version c = IdentityBoundCredential.version d /\
  IdentityBoundCredential.credential_id c = IdentityBoundCredential.credential_id d /\
  timestamp (IdentityBoundCredential.issued_at c) =
    timestamp (IdentityBoundCredential.issued_at d) /\
  timestamp (IdentityBoundCredential.expires_at c) =
    timestamp (IdentityBoundCredential.expires_at d) /\
  canonical_of c = canonical_of d.
Proof.
  unfold IdentityBoundCredential.verify_signature. intros Hc Hsig Hlen Hv.
  rewrite Hsig in Hv. apply check_signature_signed in Hv; [|done].
  by apply (signing_data_fields UL CL c d data).
Qed.


(** ** Concrete credentials *)

Module ToyCredentials.
Import Toy ToyGroup.

#[global] Instance toy_canonical : CanonicalJson toy_chrono toy_ed25519 toy_json := {|
  canonical_to_vec p a c d :=
    Ok (as_bytes (Principal.human_id p) ++ [Byte.x00] ++ as_bytes (Agent.agent_id a))
|}.

Definition caps : MCPCapabilities.t :=
  MCPCapabilities.mk [ToolPattern.mk "filesystem/*"] [] ResourceLimits.default
    (RateLimitParams.daily 2).

Definition alice : Principal.t := Principal.mk "alice" "https://idp" "client" None.
Definition bot : Agent.t := Agent.mk "agent://bot" Byte.x41 "custom" false None.

(** The gateway's key, and credentials it has signed over their signing data *)
Definition gateway_key : Byte.byte := Byte.x47.

Definition bound (signature : Byte.byte * bytes) : IdentityBoundCredential.t :=
  IdentityBoundCredential.mk "ACDP/0.3" true 100 (86400 + 100) alice bot caps
    (DelegationRights.allow_delegation 5) DelegationChain.new signature Extensions.default.

Definition bound_data : bytes :=
  match IdentityBoundCredential.signing_data (bound (gateway_key, [])) with
  | Ok d => d
  | Err _ => []
  end.

Definition hybrid (signature : Byte.byte * bytes) : HybridCredential.t :=
  HybridCredential.mk "ACDP/0.3" true 100 (86400 + 100) alice bot demo_cred caps
    (DelegationRights.allow_delegation 5) DelegationChain.new signature Extensions.default.

Definition anonymous : AnonymousCredential.t :=
  AnonymousCredential.mk "ACDP/0.3" false 50 (86400 + 50) demo_cred caps Extensions.default.

End ToyCredentials.

Lemma credential_signature_binds_fields_witness :
  IdentityBoundCredential.verify_signature
    (ToyCredentials.bound (ToyCredentials.gateway_key, ToyCredentials.bound_data))
    [ToyCredentials.gateway_key] = Ok tt /\
  canonical_of (ToyCredentials.bound (ToyCredentials.gateway_key, [])) =
  canonical_of (ToyCredentials.bound (ToyCredentials.gateway_key, ToyCredentials.bound_data)).
Proof.
  split; [vm_compute; reflexivity|].
  apply (credential_signature_binds_fields Toy.toy_uuid_laws Toy.toy_chrono_laws
           Toy.toy_ed25519_laws ToyCredentials.gateway_key ToyCredentials.bound_data);
    vm_compute; reflexivity.
Defined.
