(* ===== verification/Verification.v ===== *)
(** Credential verification ([acdp-auth/src/verification.rs]): the request
    and its result, the verifier and its cache entry.  [Utc::now()] is an
    argument where it is read. *)

From S2P Require Import Prelude AuthError Externs Capabilities Identity Delegation.
From S2P Require Import P256 ArcZkp Arc Credentials.

Module PresentationContext.
Section context.
Context `{C : ChronoApi, J : JsonData}.
Record t : Type := mk {
  tool : string;
  resource : option string;
  at_time : DateTime;  (* the field [timestamp] *)
  server_id : string;
  metadata : option JsonMap
}.
End context.
Arguments t : clear implicits.
Arguments t {C J}.
End PresentationContext.

Module VerificationRequest.
Section request.
Context `{U : UuidApi, C : ChronoApi, E : Ed25519Api, J : JsonData, PA : P256Api}.
Record t : Type := mk {
  credential : ACDPCredential.t;
  context : PresentationContext.t;
  arc_presentation : option ARCPresentation.t
}.
End request.
Arguments t : clear implicits.
Arguments t {U C E J PA}.
End VerificationRequest.

Module VerificationResult.
Section result.
Context `{C : ChronoApi, J : JsonData}.

Record t : Type := mk {
  valid : bool;
  principal : option Principal.t;
  agent_id : option string;
  presentations_remaining : Z;
  delegation_chain : list string;
  failure_reason : option string;
  verified_at : DateTime
}.

Definition success (now : DateTime) (principal : option Principal.t)
    (agent_id : option string) (presentations_remaining : Z)
    (delegation_chain : list string) : t :=
  mk true principal agent_id presentations_remaining delegation_chain None now.

Definition failure (now : DateTime) (reason : string) : t :=
  mk false None None 0 [] (Some reason) now.
End result.
Arguments t : clear implicits.
Arguments t {C J}.
End VerificationResult.

Module CredentialVerifier.
Section verifier.
Context `{U : UuidApi, C : ChronoApi, E : Ed25519Api, J : JsonData, PA : P256Api}.
Context {CJ : CanonicalJson C E J}.

Record t : Type := mk { gateway_public_key : bytes; expected_audience : string }.

Definition new (gateway_public_key : bytes) (expected_audience : string) : t :=
  mk gateway_public_key expected_audience.

Definition check_rate_limit (self : t) (credential : ACDPCredential.t) : Result Z :=
  match credential with
  | ACDPCredential.IdentityBound _ => Ok u64_max
  | ACDPCredential.Anonymous cred => AnonymousCredential.check_rate_limit cred
  | ACDPCredential.Hybrid cred => HybridCredential.check_rate_limit cred
  end.

(** Principal, agent and delegation trail shown to the tool provider *)
Definition disclosed (credential : ACDPCredential.t)
  : option Principal.t * option string * list string :=
  match credential with
  | ACDPCredential.IdentityBound cred =>
      (Some (IdentityBoundCredential.principal cred),
       Some (Agent.agent_id (IdentityBoundCredential.agent cred)),
       DelegationChain.audit_trail (IdentityBoundCredential.delegation_chain cred))
  | ACDPCredential.Anonymous _ => (None, None, [])
  | ACDPCredential.Hybrid _ => (None, None, [])
  end.

Definition verify (now verified_at : DateTime) (self : t) (request : VerificationRequest.t)
  : VerificationResult.t :=
  let credential := VerificationRequest.credential request in
  match ACDPCredential.verify_signature credential (gateway_public_key self) with
  | Err e => VerificationResult.failure verified_at
               ("Signature verification failed: " +:+ Error.display e)
  | Ok _ =>
      if ACDPCredential.is_expired now credential then
        VerificationResult.failure verified_at "Credential expired"
      else
        let capabilities := ACDPCredential.mcp_capabilities credential in
        match MCPCapabilities.is_tool_allowed capabilities
                (PresentationContext.tool (VerificationRequest.context request)) with
        | Err e => VerificationResult.failure verified_at
                     ("Tool not allowed: " +:+ Error.display e)
        | Ok _ =>
            match check_rate_limit self credential with
            | Err e => VerificationResult.failure verified_at
                         ("Rate limit exceeded: " +:+ Error.display e)
            | Ok presentations_remaining =>
                let '(principal, agent_id, delegation_chain) := disclosed credential in
                VerificationResult.success verified_at principal agent_id
                  presentations_remaining delegation_chain
            end
        end
  end.

(** The rate-limit figure of a credential *)
Definition remaining_of (credential : ACDPCredential.t) : Z :=
  match credential with
  | ACDPCredential.IdentityBound _ => u64_max
  | ACDPCredential.Anonymous c =>
      ARCCredential.presentations_remaining (AnonymousCredential.arc_credential c)
  | ACDPCredential.Hybrid c =>
      ARCCredential.presentations_remaining (HybridCredential.arc_credential c)
  end.

(** The rate-limit branch never fails. *)
Lemma check_rate_limit_total self cred : check_rate_limit self cred = Ok (remaining_of cred).
Proof. by destruct cred. Qed.

Lemma verify_cases now verified_at self request :
  let credential := VerificationRequest.credential request in
  (VerificationResult.valid (verify now verified_at self request) = true /\
   ACDPCredential.verify_signature credential (gateway_public_key self) = Ok tt /\
   ACDPCredential.is_expired now credential = false /\
   MCPCapabilities.is_tool_allowed (ACDPCredential.mcp_capabilities credential)
     (PresentationContext.tool (VerificationRequest.context request)) = Ok tt /\
   verify now verified_at self request =
     let '(principal, agent_id, chain) := disclosed credential in
     VerificationResult.success verified_at principal agent_id (remaining_of credential) chain)
  \/
  (VerificationResult.valid (verify now verified_at self request) = false /\
   (ACDPCredential.verify_signature credential (gateway_public_key self) <> Ok tt \/
    ACDPCredential.is_expired now credential = true \/
    MCPCapabilities.is_tool_allowed (ACDPCredential.mcp_capabilities credential)
      (PresentationContext.tool (VerificationRequest.context request)) <> Ok tt) /\
   exists reason,
     verify now verified_at self request = VerificationResult.failure verified_at reason).
Proof.
  simpl. unfold verify. rewrite check_rate_limit_total.
  destruct (ACDPCredential.verify_signature _ _) as [[]|e]; [|right; intuition eauto; congruence].
  destruct (ACDPCredential.is_expired _ _) eqn:?; [right; intuition eauto; congruence|].
  destruct (MCPCapabilities.is_tool_allowed _ _) as [[]|e]; [|right; intuition eauto; congruence].
  left. destruct (disclosed _) as [[p a] ch]. done.
Qed.
End verifier.
End CredentialVerifier.

Module VerificationCacheEntry.
Section entry.
Context `{U : UuidApi, C : ChronoApi, J : JsonData}.

Record t : Type := mk {
  credential_id : Uuid;
  result : VerificationResult.t;
  cached_at : DateTime;
  ttl_seconds : Z  (* u64 *)
}.

(** [None] is the panic of an expiry beyond the range of [DateTime]. *)
Definition is_expired (now : DateTime) (self : t) : option bool :=
  match dt_add_seconds (cached_at self) (wrap_i64 (ttl_seconds self)) with
  | Some expiry => Some (dt_ltb expiry now)
  | None => None
  end.
End entry.
End VerificationCacheEntry.

Section verifying.
Context `{U : UuidApi, C : ChronoApi, E : Ed25519Api, J : JsonData, PA : P256Api}.

(** Credentials that hide the principal *)
Definition hides_identity (c : ACDPCredential.t) : Prop :=
  ACDPCredential.credential_type c <> TIdentityBound.

End verifying.





Section deciding.
Context `{U : UuidApi, C : ChronoApi, E : Ed25519Api, J : JsonData, PA : P256Api}.
Context {CJ : CanonicalJson C E J}.


End deciding.


(** What a tool provider learns from an anonymous or a hybrid credential
    is non-interfering: two accepted results of one instant with the same
    presentations remaining are the same result, whoever the principals and
    agents are and whatever was delegated. *)
Theorem hidden_credentials_indistinguishable
    `{U : UuidApi, C : ChronoApi, E : Ed25519Api, J : JsonData, PA : P256Api}
    {CJ : CanonicalJson C E J}
    (now verified_at : DateTime) (self : CredentialVerifier.t)
    (r1 r2 : VerificationRequest.t) :
  hides_identity (VerificationRequest.credential r1) ->
  hides_identity (VerificationRequest.credential r2) ->
  VerificationResult.valid (CredentialVerifier.verify now verified_at self r1) = true ->
  VerificationResult.valid (CredentialVerifier.verify now verified_at self r2) = true ->
  CredentialVerifier.remaining_of (VerificationRequest.credential r1) =
    CredentialVerifier.remaining_of (VerificationRequest.credential r2) ->
  CredentialVerifier.verify now verified_at self r1 =
    CredentialVerifier.verify now verified_at self r2.
Proof.
  unfold hides_identity. intros Hh1 Hh2 Hv1 Hv2 Hrem.
  destruct (CredentialVerifier.verify_cases now verified_at self r1)
    as [(_ & _ & _ & _ & ->)|(Hf & _)]; [|congruence].
  destruct (CredentialVerifier.verify_cases now verified_at self r2)
    as [(_ & _ & _ & _ & ->)|(Hf & _)]; [|congruence].
  rewrite Hrem. by destruct (VerificationRequest.credential r1), (VerificationRequest.credential r2).
Qed.

(** ** Concrete verifications *)

Definition demo_verifier : CredentialVerifier.t :=
  CredentialVerifier.new [ToyCredentials.gateway_key] "https://gateway".

Definition demo_context (tool : string) : PresentationContext.t :=
  PresentationContext.mk (C := Toy.toy_chrono) (J := Toy.toy_json) tool None 200 "server" None.

Definition demo_hybrid_request : VerificationRequest.t :=
  VerificationRequest.mk
    (ACDPCredential.Hybrid
       (ToyCredentials.hybrid (ToyCredentials.gateway_key, ToyCredentials.bound_data)))
    (demo_context "filesystem/read") None.

Definition demo_anonymous_request (tool : string) : VerificationRequest.t :=
  VerificationRequest.mk (E := Toy.toy_ed25519)
    (ACDPCredential.Anonymous ToyCredentials.anonymous) (demo_context tool) None.

Example verification_outcomes :
  VerificationResult.failure_reason
    (CredentialVerifier.verify 200 201 demo_verifier (demo_anonymous_request "db/query")) =
    Some "Tool not allowed: Tool 'db/query' not allowed by credential capabilities"%string /\
  VerificationResult.failure_reason
    (CredentialVerifier.verify 90000 201 demo_verifier
       (demo_anonymous_request "filesystem/read")) = Some "Credential expired"%string /\
  VerificationResult.presentations_remaining
    (CredentialVerifier.verify 200 201 demo_verifier
       (demo_anonymous_request "filesystem/read")) = 2.
Proof. vm_compute. done. Qed.

Lemma hidden_credentials_indistinguishable_witness :
  CredentialVerifier.verify (C := Toy.toy_chrono) 200 201 demo_verifier demo_hybrid_request =
  CredentialVerifier.verify (C := Toy.toy_chrono) 200 201 demo_verifier (demo_anonymous_request "filesystem/read").
Proof.
  apply (hidden_credentials_indistinguishable (C := Toy.toy_chrono) 200 201 demo_verifier demo_hybrid_request
           (demo_anonymous_request "filesystem/read"));
    try (vm_compute; reflexivity); vm_compute; discriminate.
Defined.
