(* ===== verification/Gateway.v ===== *)
(** The credential gateway ([acdp-auth/src/gateway.rs]): issuing credentials
    from an ID-JAG and verifying them.  What the code draws or reads from its
    environment (identifiers, random scalars, the clock) is an argument. *)

From S2P Require Import Prelude AuthError Externs Capabilities Identity Mcp Delegation.
From S2P Require Import P256 ArcZkp Arc Credentials Verification.

Definition ACDP_VERSION : string := "ACDP/0.3".
Definition DEFAULT_CREDENTIAL_DURATION_DAYS : Z := 7.

Module CredentialIssuanceRequest.

Record t : Type := mk {
  agent_id : string;
  agent_public_key : string;
  credential_type : CredentialType;
  capabilities : MCPCapabilities.t;
  duration_days : Z  (* u64 *)
}.

End CredentialIssuanceRequest.

Module RateLimitState.
Record t : Type := mk { max_presentations : Z; presentations_remaining : Z }.
End RateLimitState.

Module CredentialIssuanceResponse.
Section response.
Context `{U : UuidApi, C : ChronoApi, E : Ed25519Api, J : JsonData, PA : P256Api}.
Record t : Type := mk {
  credential : ACDPCredential.t;
  credential_id : Uuid;
  expires_at : DateTime;
  rate_limit_state : RateLimitState.t
}.
End response.
Arguments t : clear implicits.
Arguments t {U C E J PA}.
End CredentialIssuanceResponse.

(** The scalars drawn while an ARC credential is issued *)
Record ArcRandomness `{PA : P256Api} := MkArcRandomness {
  server_random : ServerPrivateKey.t;
  secrets_random : ClientSecrets.t;
  issue_b : Scalar;
  finalize_r : Scalar
}.

Module ACDPGateway.
Section gateway.
Context `{U : UuidApi, C : ChronoApi, E : Ed25519Api, V : ValidatorApi, J : JsonData}.
Context `{H : HexApi, PA : P256Api} {CJ : CanonicalJson C E J}.

(** The key pair is its secret key, [keypair.pk] being [ed_public sk]. *)
Record t : Type := mk { keypair_sk : SecretKey; issuer : string }.

Definition new (generated : SecretKey) (issuer : string) : t := mk generated issuer.

Definition public_key (self : t) : bytes := pk_as_ref (ed_public (keypair_sk self)).

Definition sign_credential (self : t) (credential_id : Uuid) : Result Signature :=
  let data := uuid_as_bytes credential_id in
  Ok (ed_sign (keypair_sk self) data).

Definition issue_arc_credential (self : t) (max_presentations : Z) (rnd : ArcRandomness)
  : Result ARCCredential.t :=
  let generators := ARCGenerators.new in
  let server_private_key := server_random rnd in
  let server_public_key := ServerPublicKey.from_private_key server_private_key generators in
  let client_secrets := secrets_random rnd in
  let request := ARCCredentialRequest.new client_secrets server_public_key generators in
  let m2 := scalar_from_u64 0 in
  let? response := ARCCredentialResponse.issue request server_private_key m2 generators
                     (issue_b rnd) in
  let? credential := ARCCredential.from_response response request client_secrets
                       server_public_key (finalize_r rnd) in
  Ok (ARCCredential.mk (ARCCredential.m1 credential) (ARCCredential.u credential)
        (ARCCredential.u_prime credential) (ARCCredential.x1 credential)
        max_presentations (ARCCredential.presentations_used credential)).

(** The [match request.credential_type] of [issue_credential] *)
Definition build_credential (self : t) (request : CredentialIssuanceRequest.t)
    (principal : Principal.t) (agent : Agent.t) (credential_id : Uuid)
    (now expires_at : DateTime) (rnd : ArcRandomness) : Result ACDPCredential.t :=
  let capabilities := CredentialIssuanceRequest.capabilities request in
  let max := RateLimitParams.max_presentations (MCPCapabilities.rate_limit capabilities) in
  match CredentialIssuanceRequest.credential_type request with
  | TIdentityBound =>
      let? signature := sign_credential self credential_id in
      Ok (ACDPCredential.IdentityBound
            (IdentityBoundCredential.mk ACDP_VERSION credential_id now expires_at principal
               agent capabilities (DelegationRights.allow_delegation 5) DelegationChain.new
               signature Extensions.default))
  | TAnonymous =>
      let? arc_credential := issue_arc_credential self max rnd in
      Ok (ACDPCredential.Anonymous
            (AnonymousCredential.mk ACDP_VERSION credential_id now expires_at arc_credential
               capabilities Extensions.default))
  | THybrid =>
      let? arc_credential := issue_arc_credential self max rnd in
      let? signature := sign_credential self credential_id in
      Ok (ACDPCredential.Hybrid
            (HybridCredential.mk ACDP_VERSION credential_id now expires_at principal agent
               arc_credential capabilities (DelegationRights.allow_delegation 5)
               DelegationChain.new signature Extensions.default))
  end.

(** The checks before anything is generated: ID-JAG, principal, agent *)
Definition identify (self : t) (id_jag : IDJAGToken.t)
    (request : CredentialIssuanceRequest.t) (now_second : Z)
  : Result (Principal.t * Agent.t) :=
  let? _ := IDJAGToken.verify now_second id_jag (issuer self) None in
  let? principal := Principal.from_id_jag (IDJAGToken.sub id_jag) (IDJAGToken.iss id_jag)
                      (IDJAGToken.client_id id_jag) in
  let? agent_public_key :=
    map_err (fun e => CryptoError ("Invalid public key hex: " +:+ e))
      (hex_decode (CredentialIssuanceRequest.agent_public_key request)) in
  let? public_key := map_err (fun e => CryptoError ("Invalid public key: " +:+ e))
                       (pk_from_slice agent_public_key) in
  let? agent := Agent.new (CredentialIssuanceRequest.agent_id request) public_key
                  "custom" false in
  Ok (principal, agent).

(** [None] is the panic of an expiry beyond the range of [DateTime]. *)
Definition issue_credential (self : t) (id_jag : IDJAGToken.t)
    (request : CredentialIssuanceRequest.t) (now_second : Z) (credential_id : Uuid)
    (now : DateTime) (rnd : ArcRandomness) : option (Result CredentialIssuanceResponse.t) :=
  match identify self id_jag request now_second with
  | Err e => Some (Err e)
  | Ok (principal, agent) =>
      match dt_add_days now (wrap_i64 (CredentialIssuanceRequest.duration_days request)) with
      | None => None
      | Some expires_at =>
          Some (
            let? credential := build_credential self request principal agent credential_id
                                 now expires_at rnd in
            let max := RateLimitParams.max_presentations
                         (MCPCapabilities.rate_limit
                            (CredentialIssuanceRequest.capabilities request)) in
            Ok (CredentialIssuanceResponse.mk credential credential_id expires_at
                  (RateLimitState.mk max max)))
      end
  end.

Definition verify_credential (self : t) (now verified_at : DateTime)
    (request : VerificationRequest.t) : VerificationResult.t :=
  let verifier := CredentialVerifier.new (public_key self) (issuer self) in
  CredentialVerifier.verify now verified_at verifier request.

(** ARC issuance cannot fail: the request is the gateway's own. *)
Lemma issue_arc_credential_Ok {PL : P256Laws PA} self max rnd :
  exists cred, issue_arc_credential self max rnd = Ok cred /\
    ARCCredential.max_presentations cred = max /\
    ARCCredential.presentations_used cred = 0 /\
    ARCCredential.mac cred (server_random rnd) (scalar_from_u64 0).
Proof.
  unfold issue_arc_credential. rewrite issue_new. cbn [res_bind].
  edestruct (from_response_issue (secrets_random rnd) (server_random rnd)
    (scalar_from_u64 0) ARCGenerators.new (issue_b rnd) (finalize_r rnd) _ _ eq_refl
    (issue_new _ _ _ _ _ _)) as (cred & Hc & Hmac & _ & _ & _ & _ & Hu).
  rewrite Hc. simpl. eexists. split_and!; [done|done|exact Hu|exact Hmac].
Qed.

Lemma build_credential_Ok {PL : P256Laws PA} self request principal agent id now exp rnd :
  exists cred, build_credential self request principal agent id now exp rnd = Ok cred /\
    ACDPCredential.credential_type cred = CredentialIssuanceRequest.credential_type request /\
    ACDPCredential.credential_id cred = id /\
    ACDPCredential.expires_at cred = exp /\
    ACDPCredential.mcp_capabilities cred = CredentialIssuanceRequest.capabilities request.
Proof.
  unfold build_credential.
  destruct (issue_arc_credential_Ok self (RateLimitParams.max_presentations
    (MCPCapabilities.rate_limit (CredentialIssuanceRequest.capabilities request))) rnd)
    as (arc & Harc & _).
  destruct (CredentialIssuanceRequest.credential_type request); simpl;
    rewrite ?Harc; simpl; by eexists.
Qed.

Lemma build_credential_names self request principal agent id now exp rnd cred :
  build_credential self request principal agent id now exp rnd = Ok cred ->
  match cred with
  | ACDPCredential.IdentityBound c =>
      IdentityBoundCredential.principal c = principal /\ IdentityBoundCredential.agent c = agent
  | ACDPCredential.Hybrid c =>
      HybridCredential.principal c = principal /\ HybridCredential.agent c = agent
  | ACDPCredential.Anonymous _ => True
  end.
Proof.
  unfold build_credential.
  destruct (CredentialIssuanceRequest.credential_type request); intros Hb; by inv_res.
Qed.

Lemma issue_credential_Ok self id_jag request now_second id now rnd resp :
  issue_credential self id_jag request now_second id now rnd = Some (Ok resp) ->
  exists principal agent exp,
    identify self id_jag request now_second = Ok (principal, agent) /\
    dt_add_days now (wrap_i64 (CredentialIssuanceRequest.duration_days request)) = Some exp /\
    build_credential self request principal agent id now exp rnd
      = Ok (CredentialIssuanceResponse.credential resp).
Proof.
  unfold issue_credential. destruct (identify _ _ _ _) as [[p a]|]; [|done].
  destruct (dt_add_days _ _) as [exp|]; [|done]. intros Hr. injection Hr as Hr.
  apply res_bind_Ok in Hr as (c & Hc & Hr). apply Ok_inj in Hr as <-. eauto 6.
Qed.
End gateway.
Arguments t : clear implicits.
Arguments t {E}.
End ACDPGateway.

Section issuing.
Context `{U : UuidApi, C : ChronoApi, E : Ed25519Api, V : ValidatorApi, J : JsonData}.
Context `{H : HexApi, PA : P256Api} {CJ : CanonicalJson C E J}.

(** Every signature [sign_credential] makes fails the check on the
    credential's signing data, which is longer than the identifier. *)
Lemma sign_credential_rejected (UL : UuidLaws U) (EL : Ed25519Laws E)
    self id sig v i ia ea p a c dl :
  ACDPGateway.sign_credential self id = Ok sig ->
  check_signature (ACDPGateway.public_key self)
    (credential_signing_data v i ia ea p a c dl) sig <> Ok tt.
Proof.
  unfold ACDPGateway.sign_credential. intros Hs%Ok_inj. subst sig.
  unfold ACDPGateway.public_key. rewrite check_signature_signed by done.
  intros Hd. apply credential_signing_data_length in Hd; [|done].
  rewrite uuid_as_bytes_len in Hd. lia.
Qed.

Lemma build_credential_signature (UL : UuidLaws U) (EL : Ed25519Laws E)
    self request principal agent id now exp rnd cred :
  ACDPGateway.build_credential self request principal agent id now exp rnd = Ok cred ->
  (ACDPCredential.verify_signature cred (ACDPGateway.public_key self) = Ok tt <->
   CredentialIssuanceRequest.credential_type request = TAnonymous).
Proof.
  unfold ACDPGateway.build_credential.
  destruct (CredentialIssuanceRequest.credential_type request); intros Hb.
  - apply res_bind_Ok in Hb as (sig & Hsig & <-%Ok_inj). simpl. split; [|done].
    unfold IdentityBoundCredential.verify_signature. simpl. intros Hv. exfalso.
    by eapply sign_credential_rejected in Hv.
  - apply res_bind_Ok in Hb as (arc & _ & <-%Ok_inj). done.
  - apply res_bind_Ok in Hb as (arc & _ & Hb).
    apply res_bind_Ok in Hb as (sig & Hsig & <-%Ok_inj). simpl. split; [|done].
    unfold HybridCredential.verify_signature. simpl. intros Hv. exfalso.
    by eapply sign_credential_rejected in Hv.
Qed.

Lemma identify_Ok self id_jag request now_second p a :
  ACDPGateway.identify self id_jag request now_second = Ok (p, a) ->
  IDJAGToken.verify now_second id_jag (ACDPGateway.issuer self) None = Ok tt /\
  p = Principal.mk (IDJAGToken.sub id_jag) (IDJAGToken.iss id_jag)
        (IDJAGToken.client_id id_jag) None /\
  Agent.agent_id a = CredentialIssuanceRequest.agent_id request /\
  Agent.verified a = false.
Proof.
  unfold ACDPGateway.identify.
  intros ([] & Hj & (p' & Hp & (k & _ & (pk & _ & (a' & Ha & He)%res_bind_Ok)%res_bind_Ok)
                      %res_bind_Ok)%res_bind_Ok)%res_bind_Ok.
  apply Ok_inj in He. simplify_eq.
  apply Principal.from_id_jag_Ok in Hp as (-> & _). apply Agent.agent_new_Ok in Ha as (-> & _).
  done.
Qed.
End issuing.

(** The checks that come before anything is generated all pass. *)
Lemma identify_valid
    `{U : UuidApi, C : ChronoApi, E : Ed25519Api, V : ValidatorApi, J : JsonData, H : HexApi}
    self id_jag request now_second key pk :
  now_second <= IDJAGToken.exp id_jag ->
  IDJAGToken.token_type id_jag = "oauth-id-jag+jwt"%string ->
  IDJAGToken.aud id_jag = ACDPGateway.issuer self ->
  validate_length (Some 1) (Some 255) (IDJAGToken.sub id_jag) = true ->
  validate_url (IDJAGToken.iss id_jag) = true ->
  validate_length (Some 1) (Some 255) (IDJAGToken.client_id id_jag) = true ->
  hex_decode (CredentialIssuanceRequest.agent_public_key request) = Ok key ->
  pk_from_slice key = Ok pk ->
  validate_length (Some 1) (Some 255) (CredentialIssuanceRequest.agent_id request) = true ->
  validate_length (Some 1) (Some 100) "custom" = true ->
  ACDPGateway.identify self id_jag request now_second =
    Ok (Principal.mk (IDJAGToken.sub id_jag) (IDJAGToken.iss id_jag) (IDJAGToken.client_id id_jag) None,
        Agent.mk (CredentialIssuanceRequest.agent_id request) pk "custom" false None).
Proof.
  intros Hexp Hty Haud Hs Hu Hc Hk Hpk Ha Hp. unfold ACDPGateway.identify.
  assert (Hv : IDJAGToken.verify now_second id_jag (ACDPGateway.issuer self) None = Ok tt)
    by (apply IDJAGToken.id_jag_verify_Ok; split_and!; done).
  rewrite Hv. cbn [res_bind]. rewrite Principal.from_id_jag_valid by (by apply Principal.validate_Ok).
  cbn [res_bind]. rewrite Hk. cbn [map_err res_bind]. rewrite Hpk. cbn [map_err res_bind].
  rewrite Agent.agent_new_valid by (by apply Agent.agent_validate_Ok). done.
Qed.

Lemma identify_inv
    `{U : UuidApi, C : ChronoApi, E : Ed25519Api, V : ValidatorApi, J : JsonData, H : HexApi}
    self id_jag request now_second p a :
  ACDPGateway.identify self id_jag request now_second = Ok (p, a) ->
  exists key pk,
    now_second <= IDJAGToken.exp id_jag /\
    IDJAGToken.token_type id_jag = "oauth-id-jag+jwt"%string /\
    IDJAGToken.aud id_jag = ACDPGateway.issuer self /\
    validate_length (Some 1) (Some 255) (IDJAGToken.sub id_jag) = true /\
    validate_url (IDJAGToken.iss id_jag) = true /\
    validate_length (Some 1) (Some 255) (IDJAGToken.client_id id_jag) = true /\
    hex_decode (CredentialIssuanceRequest.agent_public_key request) = Ok key /\
    pk_from_slice key = Ok pk /\
    validate_length (Some 1) (Some 255) (CredentialIssuanceRequest.agent_id request) = true /\
    validate_length (Some 1) (Some 100) "custom" = true /\
    p = Principal.mk (IDJAGToken.sub id_jag) (IDJAGToken.iss id_jag) (IDJAGToken.client_id id_jag) None /\
    a = Agent.mk (CredentialIssuanceRequest.agent_id request) pk "custom" false None.
Proof.
  unfold ACDPGateway.identify.
  intros ([] & Hj & (p' & Hp & (key & Hk & (pk & Hpk & (a' & Ha & He)%res_bind_Ok)%res_bind_Ok)
                      %res_bind_Ok)%res_bind_Ok)%res_bind_Ok.
  apply Ok_inj in He. simplify_eq. apply map_err_Ok in Hk, Hpk. exists key, pk.
  apply Principal.from_id_jag_Ok in Hp as (-> & Hv & _). apply Principal.validate_Ok in Hv.
  apply Agent.agent_new_Ok in Ha as (-> & Hav%Agent.agent_validate_Ok).
  apply IDJAGToken.id_jag_verify_Ok in Hj. destruct_and?. split_and!; done.
Qed.

(** C9: with a duration of the range of a signed 64-bit number and an expiry
    that can be represented, issuance never panics and succeeds exactly when
    the ID-JAG has not expired, is of the type [oauth-id-jag+jwt] and has this
    gateway as its audience, its subject and client identifier have 1 to 255
    characters and its issuer is a URL, the agent's key decodes to a public key
    and its identifier has 1 to 255 characters (the validator's verdict on the
    fixed platform name apart).  Then the response has the requested
    identifier, the expiry and the full number of presentations, and the
    credential the requested form, identifier, expiry and capabilities, with
    the principal of the ID-JAG and the requested agent in the forms that name
    them.  An ID-JAG that is refused fails the issue with the same error. *)
Theorem issue_credential_outcome
    `{U : UuidApi, C : ChronoApi, E : Ed25519Api, V : ValidatorApi, J : JsonData}
    `{H : HexApi, PA : P256Api} {CJ : CanonicalJson C E J} {PL : P256Laws PA}
    (CL : ChronoLaws C)
    (self : ACDPGateway.t) id_jag request now_second id now expires rnd :
  is_i64 (CredentialIssuanceRequest.duration_days request) ->
  dt_add_days now (CredentialIssuanceRequest.duration_days request) = Some expires ->
  let issue := ACDPGateway.issue_credential self id_jag request now_second id now rnd in
  let presentations := RateLimitParams.max_presentations
    (MCPCapabilities.rate_limit (CredentialIssuanceRequest.capabilities request)) in
  timestamp expires = timestamp now + CredentialIssuanceRequest.duration_days request * 86400 /\
  issue <> None /\
  ((exists resp, issue = Some (Ok resp)) <->
   now_second <= IDJAGToken.exp id_jag /\
   IDJAGToken.token_type id_jag = "oauth-id-jag+jwt"%string /\
   IDJAGToken.aud id_jag = ACDPGateway.issuer self /\
   validate_length (Some 1) (Some 255) (IDJAGToken.sub id_jag) = true /\
   validate_url (IDJAGToken.iss id_jag) = true /\
   validate_length (Some 1) (Some 255) (IDJAGToken.client_id id_jag) = true /\
   (exists key pk, hex_decode (CredentialIssuanceRequest.agent_public_key request) = Ok key /\
                   pk_from_slice key = Ok pk) /\
   validate_length (Some 1) (Some 255) (CredentialIssuanceRequest.agent_id request) = true /\
   validate_length (Some 1) (Some 100) "custom" = true) /\
  (forall e, IDJAGToken.verify now_second id_jag (ACDPGateway.issuer self) None = Err e ->
   issue = Some (Err e)) /\
  (forall resp, issue = Some (Ok resp) ->
   exists cred key pk,
     resp = CredentialIssuanceResponse.mk cred id expires (RateLimitState.mk presentations presentations) /\
     ACDPCredential.credential_type cred = CredentialIssuanceRequest.credential_type request /\
     ACDPCredential.credential_id cred = id /\
     ACDPCredential.expires_at cred = expires /\
     ACDPCredential.mcp_capabilities cred = CredentialIssuanceRequest.capabilities request /\
     hex_decode (CredentialIssuanceRequest.agent_public_key request) = Ok key /\ pk_from_slice key = Ok pk /\
     let principal := Principal.mk (IDJAGToken.sub id_jag) (IDJAGToken.iss id_jag)
                        (IDJAGToken.client_id id_jag) None in
     let agent := Agent.mk (CredentialIssuanceRequest.agent_id request) pk "custom" false None in
     match cred with
     | ACDPCredential.IdentityBound c =>
         IdentityBoundCredential.principal c = principal /\ IdentityBoundCredential.agent c = agent
     | ACDPCredential.Hybrid c =>
         HybridCredential.principal c = principal /\ HybridCredential.agent c = agent
     | ACDPCredential.Anonymous _ => True
     end).
Proof.
  intros Hi64 Hexp. cbn zeta. split; [by apply dt_add_days_timestamp|].
  unfold ACDPGateway.issue_credential. rewrite wrap_i64_id, Hexp by done. split_and!.
  - by destruct (ACDPGateway.identify _ _ _ _) as [[]|].
  - split.
    + destruct (ACDPGateway.identify _ _ _ _) as [[p a]|] eqn:Hid; [|by intros [? ?]].
      intros _. apply identify_inv in Hid as (key & pk & Hid). destruct_and?. split_and!; eauto.
    + intros (? & ? & ? & ? & ? & ? & (key & pk & ? & ?) & ? & ?).
      erewrite identify_valid by eassumption.
      edestruct ACDPGateway.build_credential_Ok as (cred & -> & _). by eexists.
  - intros e He. unfold ACDPGateway.identify. by rewrite He.
  - intros resp. destruct (ACDPGateway.identify _ _ _ _) as [[p a]|] eqn:Hid; [|done].
    apply identify_inv in Hid as (key & pk & Hid). destruct_and?. subst p a.
    edestruct ACDPGateway.build_credential_Ok as (cred & Hb & ? & ? & ? & ?). rewrite Hb.
    intros [= <-]. exists cred, key, pk. split_and!; try done.
    by apply ACDPGateway.build_credential_names in Hb.
Qed.

(** An anonymous credential the gateway issued is accepted by the same
    gateway, until it expires, for every tool its capabilities allow, with the
    requested number of presentations remaining and no identity disclosed. *)
Theorem issued_anonymous_credential_accepted
    `{U : UuidApi, C : ChronoApi, E : Ed25519Api, V : ValidatorApi, J : JsonData}
    `{H : HexApi, PA : P256Api} {CJ : CanonicalJson C E J} {PL : P256Laws PA}
    (self : ACDPGateway.t) id_jag request now_second id now rnd resp context presentation
    (at_time verified_at : DateTime) :
  CredentialIssuanceRequest.credential_type request = TAnonymous ->
  is_u64 (RateLimitParams.max_presentations
            (MCPCapabilities.rate_limit (CredentialIssuanceRequest.capabilities request))) ->
  ACDPGateway.issue_credential self id_jag request now_second id now rnd = Some (Ok resp) ->
  dt_ltb (CredentialIssuanceResponse.expires_at resp) at_time = false ->
  MCPCapabilities.is_tool_allowed (CredentialIssuanceRequest.capabilities request)
    (PresentationContext.tool context) = Ok tt ->
  ACDPGateway.verify_credential self at_time verified_at
    (VerificationRequest.mk (CredentialIssuanceResponse.credential resp) context presentation) =
  VerificationResult.success verified_at None None
    (RateLimitParams.max_presentations
       (MCPCapabilities.rate_limit (CredentialIssuanceRequest.capabilities request))) [].
Proof.
  intros Ht Hmax Hi Hexp Htool. unfold ACDPGateway.issue_credential in Hi.
  destruct (ACDPGateway.identify _ _ _ _) as [[p a]|]; [|done].
  destruct (dt_add_days _ _) as [exp|]; [|done]. injection Hi as Hi.
  unfold ACDPGateway.build_credential in Hi. rewrite Ht in Hi.
  destruct (ACDPGateway.issue_arc_credential_Ok self (RateLimitParams.max_presentations
    (MCPCapabilities.rate_limit (CredentialIssuanceRequest.capabilities request))) rnd)
    as (arc & Harc & Hm & Hu & _).
  rewrite Harc in Hi. apply Ok_inj in Hi as <-. simpl in Hexp |- *.
  unfold ACDPGateway.verify_credential, CredentialVerifier.verify. simpl.
  unfold ACDPCredential.is_expired. simpl. rewrite Hexp, Htool.
  unfold ARCCredential.presentations_remaining, saturating_sub, is_u64 in *.
  rewrite Hm, Hu, Z.sub_0_r, Z.max_r by lia. done.
Qed.

(** No identity-bound or hybrid credential the gateway issues is ever
    accepted by that gateway: it signs the credential identifier alone, and
    verification checks the signature against the whole signing data. *)
Theorem issued_signed_credential_rejected
    `{U : UuidApi, C : ChronoApi, E : Ed25519Api, V : ValidatorApi, J : JsonData}
    `{H : HexApi, PA : P256Api} {CJ : CanonicalJson C E J}
    (UL : UuidLaws U) (EL : Ed25519Laws E)
    (self : ACDPGateway.t) id_jag request now_second id now rnd resp context presentation
    (at_time verified_at : DateTime) :
  CredentialIssuanceRequest.credential_type request <> TAnonymous ->
  ACDPGateway.issue_credential self id_jag request now_second id now rnd = Some (Ok resp) ->
  VerificationResult.valid
    (ACDPGateway.verify_credential self at_time verified_at
       (VerificationRequest.mk (CredentialIssuanceResponse.credential resp) context
          presentation)) = false.
Proof.
  intros Ht Hi. apply ACDPGateway.issue_credential_Ok in Hi as (p & a & exp & _ & _ & Hb).
  apply (build_credential_signature UL EL) in Hb. unfold ACDPGateway.verify_credential.
  match goal with |- VerificationResult.valid (CredentialVerifier.verify ?n ?v ?s ?r) = _ =>
    destruct (CredentialVerifier.verify_cases n v s r) as [(_ & Hs & _)|(Hv & _)];
      [|exact Hv] end.
  simpl in Hs. by apply Hb in Hs.
Qed.

(** ** A concrete gateway *)

Definition demo_gateway : ACDPGateway.t :=
  ACDPGateway.new (E := Toy.toy_ed25519) ToyCredentials.gateway_key "https://gateway".

Definition demo_id_jag : IDJAGToken.t (J := Toy.toy_json) :=
  IDJAGToken.mk "oauth-id-jag+jwt" "jti" "https://idp" "alice" "https://gateway"
    "https://mcp" "client" 1000 100 "mcp" None.

Definition demo_issuance (ty : CredentialType) : CredentialIssuanceRequest.t :=
  CredentialIssuanceRequest.mk "agent://bot" "A" ty ToyCredentials.caps
    DEFAULT_CREDENTIAL_DURATION_DAYS.

Definition demo_randomness : ArcRandomness :=
  MkArcRandomness _ demo_sk demo_secrets ToyGroup.f3 ToyGroup.f2.

Definition demo_issue (ty : CredentialType)
  : option (Result (CredentialIssuanceResponse.t (U := Toy.toy_uuid))) :=
  ACDPGateway.issue_credential (U := Toy.toy_uuid) (C := Toy.toy_chrono)
    (J := Toy.toy_json)
    demo_gateway demo_id_jag (demo_issuance ty) 100 true 100 demo_randomness.

Definition demo_response (ty : CredentialType) : CredentialIssuanceResponse.t :=
  match demo_issue ty with
  | Some (Ok r) => r
  | _ => CredentialIssuanceResponse.mk (E := Toy.toy_ed25519)
           (ACDPCredential.Anonymous ToyCredentials.anonymous) false 0
           (RateLimitState.mk 0 0)
  end.

Lemma issue_credential_outcome_witness :
  exists resp cred,
    demo_issue THybrid = Some (Ok resp) /\
    resp = CredentialIssuanceResponse.mk cred true (100 + 7 * 86400) (RateLimitState.mk 2 2) /\
    ACDPCredential.credential_type cred = THybrid.
Proof.
  destruct (issue_credential_outcome (PL := ToyGroup.toy_p256_laws) Toy.toy_chrono_laws
              (U := Toy.toy_uuid) (CJ := ToyCredentials.toy_canonical)
              demo_gateway demo_id_jag (demo_issuance THybrid) 100 true 100
              (100 + 7 * 86400) demo_randomness) as (_ & _ & Hiff & _ & Hok).
  - unfold is_i64, i64_min, i64_max. simpl. unfold DEFAULT_CREDENTIAL_DURATION_DAYS. lia.
  - vm_refl.
  - destruct (proj2 Hiff) as [resp Hr].
    { split; [simpl; lia|]. do 5 (split; [vm_refl|]). split; [|split; vm_refl].
      eexists _, _. split; reflexivity. }
    destruct (Hok resp Hr) as (cred & _ & _ & Hc & Ht & _).
    exists resp, cred. split; [exact Hr|]. split; [exact Hc|exact Ht].
Defined.

Lemma issued_anonymous_credential_accepted_witness :
  ACDPGateway.verify_credential (U := Toy.toy_uuid) (C := Toy.toy_chrono) (J := Toy.toy_json)
    demo_gateway 300 301
    (VerificationRequest.mk (CredentialIssuanceResponse.credential (demo_response TAnonymous))
       (demo_context "filesystem/read") None) =
  VerificationResult.success (C := Toy.toy_chrono) 301 None None 2 [].
Proof.
  apply (issued_anonymous_credential_accepted (PL := ToyGroup.toy_p256_laws)
           (U := Toy.toy_uuid) (C := Toy.toy_chrono) (J := Toy.toy_json)
           demo_gateway demo_id_jag (demo_issuance TAnonymous) 100 true 100 demo_randomness).
  - vm_refl.
  - unfold is_u64, u64_max. simpl. lia.
  - vm_refl.
  - vm_refl.
  - vm_refl.
Defined.

Lemma issued_signed_credential_rejected_witness :
  VerificationResult.valid
    (ACDPGateway.verify_credential (U := Toy.toy_uuid) (C := Toy.toy_chrono) (J := Toy.toy_json)
    demo_gateway 300 301
       (VerificationRequest.mk
          (CredentialIssuanceResponse.credential (demo_response TIdentityBound))
          (demo_context "filesystem/read") None)) = false.
Proof.
  apply (issued_signed_credential_rejected Toy.toy_uuid_laws Toy.toy_ed25519_laws
           (C := Toy.toy_chrono) (J := Toy.toy_json)
           demo_gateway demo_id_jag (demo_issuance TIdentityBound) 100 true 100
           demo_randomness).
  - discriminate.
  - vm_refl.
Defined.
