(* ===== verification/McpError.v ===== *)
(** Errors of the [acdp-core] crate ([acdp-core/src/error.rs]): the error
    enums, which errors are retryable, and their categories.  The sources of
    serialisation and IO errors are carried as their text. *)

From S2P Require Import Prelude.

(** Durations are numbers of milliseconds. *)
Abbreviation Millis := Z.

Inductive TransportError : Type :=
| ConnectionFailed (transport_type reason : string)
| ConnectionLost (transport_type reason : string)
| SendFailed (transport_type reason : string)
| ReceiveFailed (transport_type reason : string)
| TransportInvalidConfig (transport_type reason : string)
| ProcessError (reason : string)
| TransportHttpError (status_code : Z) (reason : string)
| SseError (reason : string)
| StreamingError (reason : string)
| NotConnected (transport_type reason : string)
| NetworkError (transport_type reason : string)
| SerializationError (transport_type reason : string)
| TransportTimeout (transport_type reason : string)
| DisconnectedError (transport_type reason : string)
| ConnectionError (transport_type reason : string).

Inductive ProtocolError : Type :=
| InvalidJsonRpc (reason : string)
| UnsupportedVersion (version : string) (supported : list string)
| MessageIdMismatch (expected actual : string)
| UnexpectedMessageType (expected actual : string)
| MissingField (field message_type : string)
| InvalidMethod (method : string)
| ServerError (code : Z) (message : string)
| StateViolation (reason : string)
| InitializationFailed (reason : string)
| NotInitialized (reason : string)
| InvalidResponse (reason : string)
| ProtocolInvalidConfig (reason : string)
| ProtocolTimeout (operation : string) (timeout : Millis)
| RequestFailed (reason : string)
| RequestTimeout (timeout : Millis)
| RequestBlocked (reason : string)
| ResponseBlocked (reason : string).

Inductive ValidationError : Type :=
| SchemaValidation (object_type reason : string)
| UnsupportedCapability (capability : string)
| InvalidToolParameter (tool parameter reason : string)
| InvalidResource (resource reason : string)
| InvalidPrompt (prompt reason : string)
| ConstraintViolation (constraint_name reason : string).

Inductive AuthenticationError : Type :=
| MissingCredentials (auth_type : string)
| InvalidCredentials (auth_type reason : string)
| Expired (auth_type : string)
| AccessDenied (reason : string)
| OAuth (error_code description : string)
| Jwt (reason : string).

Inductive ConfigurationError : Type :=
| FileNotFound (path : string)
| InvalidFormat (path reason : string)
| MissingParameter (parameter : string)
| InvalidValue (parameter value reason : string)
| Conflict (reason : string).

Inductive McpError : Type :=
| Transport (e : TransportError)
| Protocol (e : ProtocolError)
| Validation (e : ValidationError)
| Auth (e : AuthenticationError)
| Timeout (operation : string) (duration_ms : Z)
| Config (e : ConfigurationError)
| Serialization (source : string)
| Io (source : string)
| Internal (message : string).

Abbreviation McpResult T := (Res T McpError).

Module TransportErrors.

Definition is_retryable (e : TransportError) : bool :=
  match e with
  | ConnectionFailed _ _ | ConnectionLost _ _ | ConnectionError _ _ | SendFailed _ _
  | ReceiveFailed _ _ | NetworkError _ _ | TransportTimeout _ _ | DisconnectedError _ _ => true
  | TransportHttpError status_code _ => status_code >=? 500
  | SseError _ | StreamingError _ => true
  | ProcessError _ | TransportInvalidConfig _ _ | NotConnected _ _ | SerializationError _ _ =>
      false
  end.

End TransportErrors.

Module McpErrors.

Definition internal (message : string) : McpError := Internal message.

(** [duration.as_millis() as u64] *)
Definition timeout (operation : string) (duration : Millis) : McpError :=
  Timeout operation (wrap_u64 duration).

Definition is_retryable (e : McpError) : bool :=
  match e with
  | Transport transport_err => TransportErrors.is_retryable transport_err
  | Timeout _ _ | Io _ => true
  | Auth _ | Protocol _ | Validation _ | Config _ | Serialization _ | Internal _ => false
  end.

Definition category (e : McpError) : string :=
  match e with
  | Transport _ => "transport"
  | Protocol _ => "protocol"
  | Validation _ => "validation"
  | Auth _ => "auth"
  | Timeout _ _ => "timeout"
  | Config _ => "config"
  | Serialization _ => "serialization"
  | Io _ => "io"
  | Internal _ => "internal"
  end.

(** Only transport, timeout and IO failures are worth a retry. *)
Lemma retryable_category e :
  is_retryable e = true -> category e ∈ ["transport"; "timeout"; "io"]%string.
Proof. destruct e; simpl; (discriminate || intros _; set_solver). Qed.

End McpErrors.
