(* ===== verification/Messages.v ===== *)
(** JSON-RPC messages ([acdp-core/src/messages/core.rs]): the message types,
    their constructors and queries, and the serialisation serde derives for
    them, untagged for identifiers and messages. *)

From S2P Require Import Prelude.

(** ** [serde_json::Value]

    Numbers are opaque but for the [i64] they stand for; an object is the list
    of its entries, one for each key. *)

Class JsonNumbers := {
  Num : Type;
  num_as_i64 : Num -> option Z;
  num_from_i64 : Z -> Num
}.

Class JsonNumberLaws {JN : JsonNumbers} := {
  num_as_from_i64 z : is_i64 z -> num_as_i64 (num_from_i64 z) = Some z
}.
Arguments JsonNumberLaws : clear implicits.

#[warnings="-register-all"]
Inductive Value `{JN : JsonNumbers} : Type :=
| VNull
| VBool (b : bool)
| VNumber (n : Num)
| VString (s : string)
| VArray (items : list Value)
| VObject (entries : list (string * Value)).

(** The integers as numbers *)
Module ToyNumbers.
#[global] Instance toy_numbers : JsonNumbers := {|
  Num := Z;
  num_as_i64 z := if bool_decide (i64_min <= z <= i64_max) then Some z else None;
  num_from_i64 z := z
|}.

#[global] Instance toy_number_laws : JsonNumberLaws toy_numbers.
Proof. split. intros z Hz. simpl. by rewrite bool_decide_true. Qed.
End ToyNumbers.

Definition is_i32 (z : Z) : Prop := - 2 ^ 31 <= z <= 2 ^ 31 - 1.

#[global] Instance is_i32_dec z : Decision (is_i32 z).
Proof. unfold is_i32. apply _. Defined.

Section serde.
Context `{JN : JsonNumbers}.

(** [entries[key]] of a map *)
Fixpoint field (entries : list (string * Value)) (key : string) : option Value :=
  match entries with
  | [] => None
  | (k, v) :: entries => if String.eqb k key then Some v else field entries key
  end.

(** A required [String] *)
Definition string_of (v : option Value) : option string :=
  match v with
  | Some (VString s) => Some s
  | _ => None
  end.

(** An [Option<Value>]: absent and null both read as [None]. *)
Definition without_null (v : option Value) : option Value :=
  match v with
  | Some VNull => None
  | v => v
  end.

(** [#[serde(skip_serializing_if = "Option::is_none")]] *)
Definition optional_entry (key : string) (v : option Value) : list (string * Value) :=
  match v with
  | Some v => [(key, v)]
  | None => []
  end.

End serde.

Module RequestId.
Section id.
Context `{JN : JsonNumbers}.

Inductive t : Type :=
| String (s : string)
| Number (n : Z)  (* i64 *)
| Null.

#[global] Instance t_eq_dec : EqDecision t.
Proof. solve_decision. Defined.

Definition to_string (self : t) : string :=
  match self with
  | String s => s
  | Number n => pretty n
  | Null => "null"
  end.

(** [From<i64>] and [From<i32>] *)
Definition from_i64 (n : Z) : t := Number n.
Definition from_i32 (n : Z) : t := Number n.
Definition from_string (s : string) : t := String s.

Definition to_value (self : t) : Value :=
  match self with
  | String s => VString s
  | Number n => VNumber (num_from_i64 n)
  | Null => VNull
  end.

(** The first variant that fits *)
Definition from_value (v : Value) : option t :=
  match v with
  | VString s => Some (String s)
  | VNumber n => match num_as_i64 n with Some z => Some (Number z) | None => None end
  | VNull => Some Null
  | _ => None
  end.

(** A required identifier *)
Definition id_of (v : option Value) : option t :=
  match v with
  | Some v => from_value v
  | None => None
  end.

Definition wf (self : t) : Prop :=
  match self with Number n => is_i64 n | _ => True end.

Lemma id_from_to_value {NL : JsonNumberLaws JN} self :
  wf self -> from_value (to_value self) = Some self.
Proof. destruct self; simpl; [done| |done]. intros Hw. by rewrite num_as_from_i64. Qed.
End id.
End RequestId.

Module JsonRpcError.
Section error.
Context `{JN : JsonNumbers}.

Record t : Type := mk { code : Z (* i32 *); message : string; data : option Value }.

Definition new (code : Z) (message : string) (data : option Value) : t := mk code message data.

Definition parse_error : t := new (-32700) "Parse error" None.
Definition invalid_request (details : string) : t :=
  new (-32600) "Invalid Request" (Some (VString details)).
Definition method_not_found (method : string) : t :=
  new (-32601) "Method not found" (Some (VString ("Method '" +:+ method +:+ "' not found"))).
Definition invalid_params (details : string) : t :=
  new (-32602) "Invalid params" (Some (VString details)).
Definition internal_error (details : string) : t :=
  new (-32603) "Internal error" (Some (VString details)).
Definition application_error (code : Z) (message details : string) : t :=
  new code message (Some (VString details)).

Definition is_standard_error (self : t) : bool := (-32700 <=? code self) && (code self <=? -32600).
Definition is_application_error (self : t) : bool :=
  (-32099 <=? code self) && (code self <=? -32000).

Definition to_value (self : t) : Value :=
  VObject ([("code"%string, VNumber (num_from_i64 (code self)));
            ("message"%string, VString (message self))] ++ optional_entry "data" (data self)).

(** The fields in the order of the struct; serde reads a struct from an object
    or from an array of all its fields. *)
Definition from_parts (code message data : option Value) : option t :=
  match code, string_of message with
  | Some (VNumber n), Some message =>
      match num_as_i64 n with
      | Some code => if decide (is_i32 code) then Some (mk code message (without_null data)) else None
      | None => None
      end
  | _, _ => None
  end.

Definition from_value (v : Value) : option t :=
  match v with
  | VObject entries =>
      from_parts (field entries "code") (field entries "message") (field entries "data")
  | VArray [code; message; data] => from_parts (Some code) (Some message) (Some data)
  | _ => None
  end.

Definition normalize (self : t) : t := mk (code self) (message self) (without_null (data self)).

Lemma error_from_to_value {NL : JsonNumberLaws JN} self :
  is_i32 (code self) -> from_value (to_value self) = Some (normalize self).
Proof.
  intros Hc. destruct self as [code message data]. simpl in *.
  rewrite num_as_from_i64; [|unfold is_i32, is_i64, i64_min, i64_max in *; lia].
  destruct (decide (is_i32 code)); [|done]. by destruct data as [[]|].
Qed.

(** The standard codes are the reserved ones, and no code is in both ranges. *)
Lemma error_code_ranges self :
  is_standard_error self = true -> is_application_error self = false.
Proof. unfold is_standard_error, is_application_error. lia. Qed.
End error.
Arguments t : clear implicits.
Arguments t {JN}.
End JsonRpcError.

Module JsonRpcRequest.
Section request.
Context `{JN : JsonNumbers}.

Record t : Type := mk {
  jsonrpc : string;
  id : RequestId.t;
  method : string;
  params : option Value
}.

Definition new (id : RequestId.t) (method : string) (params : Value) : t :=
  mk "2.0" id method (Some params).
Definition without_params (id : RequestId.t) (method : string) : t := mk "2.0" id method None.

(** [uuid] is the text of the fresh [Uuid]. *)
Definition with_random_id (uuid method : string) (params : Value) : t :=
  new (RequestId.String uuid) method params.

Definition has_params (self : t) : bool := if params self then true else false.

(** [params_as]: the value handed to [serde_json::from_value] *)
Definition params_as {T E} (from_json : Value -> Res T E) (self : t) : Res T E :=
  match params self with
  | Some params => from_json params
  | None => from_json VNull
  end.

Definition to_value (self : t) : Value :=
  VObject ([("jsonrpc"%string, VString (jsonrpc self));
            ("id"%string, RequestId.to_value (id self));
            ("method"%string, VString (method self))] ++ optional_entry "params" (params self)).

Definition from_parts (jsonrpc id method params : option Value) : option t :=
  match string_of jsonrpc, RequestId.id_of id, string_of method with
  | Some jsonrpc, Some id, Some method => Some (mk jsonrpc id method (without_null params))
  | _, _, _ => None
  end.

Definition from_value (v : Value) : option t :=
  match v with
  | VObject e => from_parts (field e "jsonrpc") (field e "id") (field e "method") (field e "params")
  | VArray [jsonrpc; id; method; params] =>
      from_parts (Some jsonrpc) (Some id) (Some method) (Some params)
  | _ => None
  end.
End request.
Arguments t : clear implicits.
Arguments t {JN}.
End JsonRpcRequest.

Module JsonRpcResponse.
Section response.
Context `{JN : JsonNumbers}.

Record t : Type := mk {
  jsonrpc : string;
  id : RequestId.t;
  result : option Value;
  error : option JsonRpcError.t
}.

Definition success (id : RequestId.t) (result : Value) : t := mk "2.0" id (Some result) None.
Definition failure (id : RequestId.t) (error : JsonRpcError.t) : t := mk "2.0" id None (Some error).

Definition is_success (self : t) : bool :=
  (if result self then true else false) && negb (if error self then true else false).
Definition is_error (self : t) : bool := if error self then true else false.

(** [result_as], given the decoder and the text of an error *)
Definition result_as {T} (from_json : Value -> Res T string)
    (error_text : JsonRpcError.t -> string) (self : t) : Res T string :=
  match result self, error self with
  | Some result, None => from_json result
  | None, Some error => Err ("JSON-RPC error: " +:+ error_text error)
  | _, _ => Err "Invalid response: both result and error are present or missing"%string
  end.

Definition to_value (self : t) : Value :=
  VObject ([("jsonrpc"%string, VString (jsonrpc self));
            ("id"%string, RequestId.to_value (id self))] ++
           optional_entry "result" (result self) ++
           optional_entry "error" (option_map JsonRpcError.to_value (error self))).

(** An [Option<JsonRpcError>]: [None] is a value that does not parse. *)
Definition error_of (v : option Value) : option (option JsonRpcError.t) :=
  match v with
  | Some VNull | None => Some None
  | Some v => match JsonRpcError.from_value v with Some e => Some (Some e) | None => None end
  end.

Definition from_parts (jsonrpc id result error : option Value) : option t :=
  match string_of jsonrpc, RequestId.id_of id, error_of error with
  | Some jsonrpc, Some id, Some error => Some (mk jsonrpc id (without_null result) error)
  | _, _, _ => None
  end.

Definition from_value (v : Value) : option t :=
  match v with
  | VObject e => from_parts (field e "jsonrpc") (field e "id") (field e "result") (field e "error")
  | VArray [jsonrpc; id; result; error] =>
      from_parts (Some jsonrpc) (Some id) (Some result) (Some error)
  | _ => None
  end.
End response.
Arguments t : clear implicits.
Arguments t {JN}.
End JsonRpcResponse.

Module JsonRpcNotification.
Section notification.
Context `{JN : JsonNumbers}.

Record t : Type := mk { jsonrpc : string; method : string; params : option Value }.

Definition new (method : string) (params : Value) : t := mk "2.0" method (Some params).
Definition without_params (method : string) : t := mk "2.0" method None.
Definition has_params (self : t) : bool := if params self then true else false.

Definition params_as {T E} (from_json : Value -> Res T E) (self : t) : Res T E :=
  match params self with
  | Some params => from_json params
  | None => from_json VNull
  end.

Definition to_value (self : t) : Value :=
  VObject ([("jsonrpc"%string, VString (jsonrpc self));
            ("method"%string, VString (method self))] ++ optional_entry "params" (params self)).

Definition from_parts (jsonrpc method params : option Value) : option t :=
  match string_of jsonrpc, string_of method with
  | Some jsonrpc, Some method => Some (mk jsonrpc method (without_null params))
  | _, _ => None
  end.

Definition from_value (v : Value) : option t :=
  match v with
  | VObject e => from_parts (field e "jsonrpc") (field e "method") (field e "params")
  | VArray [jsonrpc; method; params] => from_parts (Some jsonrpc) (Some method) (Some params)
  | _ => None
  end.
End notification.
Arguments t : clear implicits.
Arguments t {JN}.
End JsonRpcNotification.

Module JsonRpcMessage.
Section message.
Context `{JN : JsonNumbers}.

Inductive t : Type :=
| Request (req : JsonRpcRequest.t)
| Response (resp : JsonRpcResponse.t)
| Notification (notif : JsonRpcNotification.t).

Definition method (self : t) : option string :=
  match self with
  | Request req => Some (JsonRpcRequest.method req)
  | Notification notif => Some (JsonRpcNotification.method notif)
  | Response _ => None
  end.

Definition id (self : t) : option RequestId.t :=
  match self with
  | Request req => Some (JsonRpcRequest.id req)
  | Response resp => Some (JsonRpcResponse.id resp)
  | Notification _ => None
  end.

Definition expects_response (self : t) : bool :=
  match self with Request _ => true | _ => false end.

Definition to_value (self : t) : Value :=
  match self with
  | Request req => JsonRpcRequest.to_value req
  | Response resp => JsonRpcResponse.to_value resp
  | Notification notif => JsonRpcNotification.to_value notif
  end.

(** [#[serde(untagged)]]: the first variant that parses *)
Definition from_value (v : Value) : Res t string :=
  match JsonRpcRequest.from_value v with
  | Some req => Ok (Request req)
  | None =>
      match JsonRpcResponse.from_value v with
      | Some resp => Ok (Response resp)
      | None =>
          match JsonRpcNotification.from_value v with
          | Some notif => Ok (Notification notif)
          | None => Err "data did not match any variant of untagged enum JsonRpcMessage"%string
          end
      end
  end.

(** Integers at their widths *)
Definition wf (self : t) : Prop :=
  match self with
  | Request req => RequestId.wf (JsonRpcRequest.id req)
  | Response resp =>
      RequestId.wf (JsonRpcResponse.id resp) /\
      (forall e, JsonRpcResponse.error resp = Some e -> is_i32 (JsonRpcError.code e))
  | Notification _ => True
  end.

(** The message with explicit nulls in optional fields read as absent *)
Definition normalize (self : t) : t :=
  match self with
  | Request r =>
      Request (JsonRpcRequest.mk (JsonRpcRequest.jsonrpc r) (JsonRpcRequest.id r)
                 (JsonRpcRequest.method r) (without_null (JsonRpcRequest.params r)))
  | Response r =>
      Response (JsonRpcResponse.mk (JsonRpcResponse.jsonrpc r) (JsonRpcResponse.id r)
                  (without_null (JsonRpcResponse.result r))
                  (option_map JsonRpcError.normalize (JsonRpcResponse.error r)))
  | Notification n =>
      Notification (JsonRpcNotification.mk (JsonRpcNotification.jsonrpc n)
                      (JsonRpcNotification.method n)
                      (without_null (JsonRpcNotification.params n)))
  end.
End message.
Arguments t : clear implicits.
Arguments t {JN}.
End JsonRpcMessage.

Section messages.
Context `{JN : JsonNumbers}.

Lemma request_from_to_value {NL : JsonNumberLaws JN} (r : JsonRpcRequest.t) :
  RequestId.wf (JsonRpcRequest.id r) ->
  JsonRpcRequest.from_value (JsonRpcRequest.to_value r) =
    Some (JsonRpcRequest.mk (JsonRpcRequest.jsonrpc r) (JsonRpcRequest.id r)
            (JsonRpcRequest.method r) (without_null (JsonRpcRequest.params r))).
Proof.
  intros Hw. destruct r as [j i m p]. simpl in *.
  unfold JsonRpcRequest.from_parts. simpl. rewrite RequestId.id_from_to_value by done.
  by destruct p as [[]|].
Qed.

Lemma error_of_to_value {NL : JsonNumberLaws JN} (e : option JsonRpcError.t) :
  (forall x, e = Some x -> is_i32 (JsonRpcError.code x)) ->
  JsonRpcResponse.error_of (option_map JsonRpcError.to_value e) =
    Some (option_map JsonRpcError.normalize e).
Proof.
  intros Hc. destruct e as [e|]; [|done].
  change (JsonRpcResponse.error_of (option_map JsonRpcError.to_value (Some e))) with
    (match JsonRpcError.from_value (JsonRpcError.to_value e) with
     | Some e => Some (Some e) | None => None end).
  by rewrite JsonRpcError.error_from_to_value by (by apply Hc).
Qed.

Lemma response_from_to_value {NL : JsonNumberLaws JN} (r : JsonRpcResponse.t) :
  JsonRpcMessage.wf (JsonRpcMessage.Response r) ->
  JsonRpcResponse.from_value (JsonRpcResponse.to_value r) =
    Some (JsonRpcResponse.mk (JsonRpcResponse.jsonrpc r) (JsonRpcResponse.id r)
            (without_null (JsonRpcResponse.result r))
            (option_map JsonRpcError.normalize (JsonRpcResponse.error r))).
Proof.
  intros [Hw He]. destruct r as [j i res err].
  apply error_of_to_value in He. simpl in *.
  unfold JsonRpcResponse.from_parts. simpl. rewrite RequestId.id_from_to_value by done.
  destruct res as [v|], err as [e|]; simpl in *; rewrite ?He; by try destruct v.
Qed.

(** A response carries no method, so it is not read as a request. *)
Lemma response_is_no_request (r : JsonRpcResponse.t) :
  JsonRpcRequest.from_value (JsonRpcResponse.to_value r) = None.
Proof.
  destruct r as [j i res err]. unfold JsonRpcResponse.to_value. simpl.
  unfold JsonRpcRequest.from_parts.
  destruct res, err; simpl; by destruct (RequestId.from_value (RequestId.to_value i)).
Qed.

(** A notification carries no identifier. *)
Lemma notification_is_no_call (n : JsonRpcNotification.t) :
  JsonRpcRequest.from_value (JsonRpcNotification.to_value n) = None /\
  JsonRpcResponse.from_value (JsonRpcNotification.to_value n) = None.
Proof. by destruct n as [j m [p|]]. Qed.
End messages.

Lemma message_from_to_value `{JN : JsonNumbers} {NL : JsonNumberLaws JN} (m : JsonRpcMessage.t) :
  JsonRpcMessage.wf m ->
  JsonRpcMessage.from_value (JsonRpcMessage.to_value m) = Ok (JsonRpcMessage.normalize m).
Proof.
  intros Hw. unfold JsonRpcMessage.from_value. destruct m as [r|r|n]; simpl JsonRpcMessage.to_value.
  - by rewrite request_from_to_value.
  - by rewrite response_is_no_request, response_from_to_value.
  - destruct (notification_is_no_call n) as [-> ->]. by destruct n as [j m' [[]|]].
Qed.

(** C20: serialising a message and reading it back gives the message, in the
    same variant, with explicit nulls in optional fields read as absent: the
    untagged variants are told apart by the identifier and the method. *)
Theorem message_serde_roundtrip `{JN : JsonNumbers} {NL : JsonNumberLaws JN}
    (m : JsonRpcMessage.t) :
  JsonRpcMessage.wf m ->
  JsonRpcMessage.from_value (JsonRpcMessage.to_value m) = Ok (JsonRpcMessage.normalize m).
Proof. apply message_from_to_value. Qed.

(** A call whose identifier is no string, [i64] or null, such as a
    fractional number or a number above [i64::MAX], is read as a notification:
    the identifier is dropped without an error, so the caller gets no response. *)
Theorem unreadable_id_becomes_notification `{JN : JsonNumbers}
    (entries : list (string * Value)) version method (bad_id : Value) :
  field entries "jsonrpc" = Some (VString version) ->
  field entries "method" = Some (VString method) ->
  field entries "id" = Some bad_id ->
  RequestId.from_value bad_id = None ->
  JsonRpcMessage.from_value (VObject entries) =
    Ok (JsonRpcMessage.Notification
          (JsonRpcNotification.mk version method (without_null (field entries "params")))).
Proof.
  intros Hj Hm Hi Hb. unfold JsonRpcMessage.from_value. simpl.
  unfold JsonRpcRequest.from_parts, JsonRpcResponse.from_parts, JsonRpcNotification.from_parts.
  by rewrite Hj, Hm, Hi; simpl; rewrite Hb.
Qed.

(** ** Concrete messages *)

Definition demo_call : JsonRpcMessage.t (JN := ToyNumbers.toy_numbers) :=
  JsonRpcMessage.Request
    (JsonRpcRequest.new (RequestId.Number 7) "tools/list" (VObject [])).

Definition demo_null_result : JsonRpcMessage.t (JN := ToyNumbers.toy_numbers) :=
  JsonRpcMessage.Response (JsonRpcResponse.success (RequestId.String "a") VNull).

Example null_result_reads_back_empty :
  JsonRpcMessage.from_value (JsonRpcMessage.to_value demo_null_result) =
    Ok (JsonRpcMessage.Response
          (JsonRpcResponse.mk "2.0" (RequestId.String "a") None None)).
Proof. reflexivity. Qed.

Lemma message_serde_roundtrip_witness :
  JsonRpcMessage.from_value (JsonRpcMessage.to_value demo_call) = Ok demo_call.
Proof.
  apply (message_serde_roundtrip demo_call). simpl. unfold is_i64, i64_min, i64_max. lia.
Defined.

Lemma unreadable_id_becomes_notification_witness :
  JsonRpcMessage.from_value
    (VObject [("jsonrpc"%string, VString "2.0"); ("id"%string, VNumber (JN := ToyNumbers.toy_numbers) (2 ^ 63));
              ("method"%string, VString "tools/list")]) =
  Ok (JsonRpcMessage.Notification (JsonRpcNotification.mk "2.0" "tools/list" None)).
Proof.
  apply (unreadable_id_becomes_notification
           [("jsonrpc"%string, VString "2.0"); ("id"%string, VNumber (JN := ToyNumbers.toy_numbers) (2 ^ 63));
            ("method"%string, VString "tools/list")] "2.0" "tools/list" (VNumber (JN := ToyNumbers.toy_numbers) (2 ^ 63)));
    reflexivity.
Defined.
