(* ===== verification/Interceptor.v ===== *)
(** The interceptor pipeline ([acdp-core/src/interceptor.rs]): message
    contexts and interception results, the interceptor interface, and the
    manager that keeps the interceptors in priority order and runs a message
    through them.  Time is an argument: [now] for the clock an interceptor
    reads, [elapsed] for the measured milliseconds. *)

From Stdlib Require Import Sorting.Sorted.
From S2P Require Import Prelude McpError Messages.

Inductive MessageDirection : Type := Outgoing | Incoming.

#[global] Instance direction_eq_dec : EqDecision MessageDirection.
Proof. solve_decision. Defined.

Module MessageContext.
Section context.
Context `{JN : JsonNumbers}.

Record t : Type := mk {
  message : JsonRpcMessage.t;
  direction : MessageDirection;
  timestamp : Z;
  session_id : option string;
  metadata : gmap string Value
}.

Definition new (now : Z) (message : JsonRpcMessage.t) (direction : MessageDirection) : t :=
  mk message direction now None ∅.

Definition method (self : t) : option string :=
  match message self with
  | JsonRpcMessage.Request req => Some (JsonRpcRequest.method req)
  | JsonRpcMessage.Notification notif => Some (JsonRpcNotification.method notif)
  | _ => None
  end.

Definition id (self : t) : option string :=
  match message self with
  | JsonRpcMessage.Request req => Some (RequestId.to_string (JsonRpcRequest.id req))
  | JsonRpcMessage.Response resp => Some (RequestId.to_string (JsonRpcResponse.id resp))
  | _ => None
  end.

Definition set_message (self : t) (m : JsonRpcMessage.t) : t :=
  mk m (direction self) (timestamp self) (session_id self) (metadata self).
End context.
Arguments t : clear implicits.
Arguments t {JN}.
End MessageContext.

Module InterceptionResult.
Section result.
Context `{JN : JsonNumbers}.

Record t : Type := mk {
  modified_flag : bool;  (* the field [modified] *)
  message : JsonRpcMessage.t;
  block : bool;
  reasoning : option string;
  confidence : option f64
}.

Definition pass_through (message : JsonRpcMessage.t) : t := mk false message false None None.

Definition modified (message : JsonRpcMessage.t) (reasoning : string) (confidence : f64) : t :=
  mk true message false (Some reasoning) (Some confidence).

Definition blocked (reasoning : string) : t :=
  mk false
     (JsonRpcMessage.Notification (JsonRpcNotification.mk "2.0" "blocked" None))
     true (Some reasoning) None.
End result.
Arguments t : clear implicits.
Arguments t {JN}.
End InterceptionResult.

Module InterceptorStats.
Record t : Type := mk {
  total_intercepted : Z;
  total_modified : Z;
  total_blocked : Z;
  avg_processing_time_ms : f64;
  last_processed : option Z
}.

Definition default : t := mk 0 0 0 f64_zero None.
End InterceptorStats.

(** The trait [MessageInterceptor], with the state the implementation hides
    behind its locks.  The instant is an argument of [intercept]. *)
Record MessageInterceptor `{JN : JsonNumbers} : Type := MkInterceptor {
  istate : Type;
  current : istate;
  name : string;
  priority : Z;
  should_intercept : istate -> MessageContext.t -> bool;
  intercept : istate -> Z -> MessageContext.t -> McpResult InterceptionResult.t * istate
}.

Section interceptors.
Context `{JN : JsonNumbers}.

Definition wants (i : MessageInterceptor) (context : MessageContext.t) : bool :=
  should_intercept i (current i) context.

(** The interceptor after its state changed *)
Definition with_state (i : MessageInterceptor) (s : istate i) : MessageInterceptor :=
  MkInterceptor _ (istate i) s (name i) (priority i) (should_intercept i) (intercept i).

(** The default method of the trait *)
Definition default_priority : Z := 50.
End interceptors.

Module InterceptionMetadata.
Section metadata.
Context `{JN : JsonNumbers}.

Record t : Type := mk { session_id : option string; extra : gmap string Value }.

Definition new : t := mk None ∅.
Definition with_session_id (self : t) (session_id : string) : t := mk (Some session_id) (extra self).
Definition insert (self : t) (key : string) (value : Value) : t :=
  mk (session_id self) (<[key := value]> (extra self)).
End metadata.
Arguments t : clear implicits.
Arguments t {JN}.
End InterceptionMetadata.

Module ManagerStats.
(** [InterceptorManagerStats] *)
Record t : Type := mk {
  total_messages_processed : Z;
  total_modifications_made : Z;
  total_messages_blocked : Z;
  avg_processing_time_ms : f64;
  messages_by_method : gmap string Z
}.

Definition default : t := mk 0 0 0 f64_zero ∅.

(** The update when a message is blocked *)
Definition count_blocked (self : t) (elapsed : Z) : t :=
  let n := wrap_u64 (total_messages_processed self + 1) in
  mk n (total_modifications_made self) (wrap_u64 (total_messages_blocked self + 1))
     (f64_running_average (avg_processing_time_ms self) n elapsed) (messages_by_method self).

(** The update at the end of the pipeline *)
Definition count_processed (self : t) (was_modified : bool) (method : option string)
    (elapsed : Z) : t :=
  let n := wrap_u64 (total_messages_processed self + 1) in
  mk n
     (if was_modified then wrap_u64 (total_modifications_made self + 1)
      else total_modifications_made self)
     (total_messages_blocked self)
     (f64_running_average (avg_processing_time_ms self) n elapsed)
     (match method with
      | Some m =>
          <[m := wrap_u64 (from_option id 0 (messages_by_method self !! m) + 1)]> (messages_by_method self)
      | None => messages_by_method self
      end).
End ManagerStats.

Module InterceptorManager.
Section manager.
Context `{JN : JsonNumbers}.

Record t : Type := mk {
  interceptors : list MessageInterceptor;
  stats : ManagerStats.t
}.

Definition new : t := mk [] ManagerStats.default.

(** [sort_by_key] is a stable sort: an element is inserted after those whose
    key is not greater. *)
Fixpoint insert_by_priority (i : MessageInterceptor) (l : list MessageInterceptor)
  : list MessageInterceptor :=
  match l with
  | [] => [i]
  | j :: l => if priority i <? priority j then i :: j :: l else j :: insert_by_priority i l
  end.

Definition sort_by_priority (l : list MessageInterceptor) : list MessageInterceptor :=
  List.fold_left (fun acc i => insert_by_priority i acc) l [].

Definition add_interceptor (self : t) (i : MessageInterceptor) : t :=
  mk (sort_by_priority (interceptors self ++ [i])) (stats self).

Definition remove_interceptor (self : t) (n : string) : bool * t :=
  let initial_len := length (interceptors self) in
  let kept := List.filter (fun i => negb (String.eqb (name i) n)) (interceptors self) in
  (negb (length kept =? initial_len)%nat, mk kept (stats self)).

Definition list_interceptors (self : t) : list string := List.map name (interceptors self).

(** The variables of the loop in [process_message_with_metadata] *)
Record Loop : Type := MkLoop {
  context : MessageContext.t;
  current_message : JsonRpcMessage.t;
  was_modified : bool;
  modification_reasoning : list string;
  confidence_sum : f64;
  confidence_count : Z
}.

(** The [result.modified] branch *)
Definition apply_result (l : Loop) (result : InterceptionResult.t) : Loop :=
  if InterceptionResult.modified_flag result then
    MkLoop (context l) (InterceptionResult.message result) true
      (modification_reasoning l ++
       match InterceptionResult.reasoning result with Some r => [r] | None => [] end)
      (match InterceptionResult.confidence result with
       | Some c => f64_add (confidence_sum l) c
       | None => confidence_sum l
       end)
      (match InterceptionResult.confidence result with
       | Some _ => confidence_count l + 1
       | None => confidence_count l
       end)
  else l.

(** The loop: its final variables, or the result that blocked, with the
    interceptors in their new states *)
Fixpoint run (now : Z) (l : Loop) (ics : list MessageInterceptor)
  : (Loop + InterceptionResult.t) * list MessageInterceptor :=
  match ics with
  | [] => (inl l, [])
  | i :: ics =>
      if wants i (context l) then
        let ctx := MessageContext.set_message (context l) (current_message l) in
        let l := MkLoop ctx (current_message l) (was_modified l) (modification_reasoning l)
                   (confidence_sum l) (confidence_count l) in
        let '(answer, s) := intercept i (current i) now ctx in
        match answer with
        | Ok result =>
            if InterceptionResult.block result then (inr result, with_state i s :: ics)
            else let '(out, ics) := run now (apply_result l result) ics in
                 (out, with_state i s :: ics)
        | Err _ => let '(out, ics) := run now l ics in (out, with_state i s :: ics)
        end
      else let '(out, ics) := run now l ics in (out, i :: ics)
  end.

Definition initial_loop (now : Z) (message : JsonRpcMessage.t) (direction : MessageDirection)
    (metadata : InterceptionMetadata.t) : Loop :=
  let context := MessageContext.new now message direction in
  MkLoop
    (MessageContext.mk message direction now (InterceptionMetadata.session_id metadata)
       (InterceptionMetadata.extra metadata ∪ MessageContext.metadata context))
    message false [] f64_zero 0.

(** The result built after the loop *)
Definition final_result (l : Loop) : InterceptionResult.t :=
  let final_confidence :=
    if confidence_count l >? 0 then
      f64_div (confidence_sum l) (f64_of_Z (confidence_count l))
    else f64_zero in
  if was_modified l then
    InterceptionResult.modified (current_message l) (join "; " (modification_reasoning l))
      final_confidence
  else InterceptionResult.pass_through (current_message l).

Definition process_message_with_metadata (now elapsed : Z) (self : t)
    (message : JsonRpcMessage.t) (direction : MessageDirection)
    (metadata : InterceptionMetadata.t) : McpResult InterceptionResult.t * t :=
  match run now (initial_loop now message direction metadata) (interceptors self) with
  | (inr result, ics) =>
      (Ok result, mk ics (ManagerStats.count_blocked (stats self) elapsed))
  | (inl l, ics) =>
      (Ok (final_result l),
       mk ics (ManagerStats.count_processed (stats self) (was_modified l)
                (MessageContext.method (context l)) elapsed))
  end.

Definition process_message (now elapsed : Z) (self : t) (message : JsonRpcMessage.t)
    (direction : MessageDirection) : McpResult InterceptionResult.t * t :=
  process_message_with_metadata now elapsed self message direction InterceptionMetadata.new.
End manager.
Arguments t : clear implicits.
Arguments t {JN}.
Arguments Loop : clear implicits.
Arguments Loop {JN}.
End InterceptorManager.

(** ** A manager without interceptors *)

Lemma process_bare `{JN : JsonNumbers} now elapsed mg m d md :
  InterceptorManager.interceptors mg = [] ->
  exists mg', InterceptorManager.process_message_with_metadata now elapsed mg m d md =
    (Ok (InterceptionResult.pass_through m), mg') /\ InterceptorManager.interceptors mg' = [].
Proof.
  intros H. unfold InterceptorManager.process_message_with_metadata. rewrite H. by eexists.
Qed.

(** ** Priority order *)

Section order.
Context `{JN : JsonNumbers}.

Definition by_priority : list MessageInterceptor -> Prop :=
  StronglySorted (fun i j => priority i <= priority j).

Definition at_priority (p : Z) (l : list MessageInterceptor) : list MessageInterceptor :=
  List.filter (fun i => priority i =? p) l.

Lemma insert_Permutation i l :
  InterceptorManager.insert_by_priority i l ≡ₚ i :: l.
Proof.
  induction l as [|j l IH]; simpl; [done|]. case_goal; [done|].
  rewrite IH. apply perm_swap.
Qed.

Lemma insert_sorted i l :
  by_priority l -> by_priority (InterceptorManager.insert_by_priority i l).
Proof.
  induction 1 as [|j l Hs IH Hj]; simpl; [repeat constructor|].
  destruct (Z.ltb_spec (priority i) (priority j)).
  - constructor; [by constructor|]. constructor; [lia|].
    eapply Forall_impl; [exact Hj|]. simpl. lia.
  - constructor; [exact IH|]. rewrite insert_Permutation. by constructor.
Qed.

Lemma at_priority_above p l :
  Forall (fun j => p < priority j) l -> at_priority p l = [].
Proof.
  induction 1 as [|j l Hj _ IH]; [done|]. simpl.
  destruct (Z.eqb_spec (priority j) p); [lia|done].
Qed.

Lemma insert_last i l :
  Forall (fun j => priority j <= priority i) l ->
  InterceptorManager.insert_by_priority i l = l ++ [i].
Proof.
  induction 1 as [|j l Hj _ IH]; [done|]. simpl.
  destruct (Z.ltb_spec (priority i) (priority j)); [lia|]. by rewrite IH.
Qed.

(** The new interceptor comes last among those of its priority. *)
Lemma insert_at_priority p i l :
  by_priority l ->
  at_priority p (InterceptorManager.insert_by_priority i l) = at_priority p l ++ at_priority p [i].
Proof.
  induction 1 as [|j l Hs IH Hj]; [done|]. simpl.
  destruct (Z.ltb_spec (priority i) (priority j)) as [Hlt|Hge]; simpl.
  - destruct (Z.eqb_spec (priority i) p) as [<-|]; [|by rewrite app_nil_r].
    destruct (Z.eqb_spec (priority j) (priority i)); [lia|].
    rewrite at_priority_above; [done|].
    eapply Forall_impl; [exact Hj|]. simpl. lia.
  - rewrite IH. by case_goal.
Qed.

Lemma sort_sorted l acc :
  by_priority (acc ++ l) ->
  List.fold_left (fun acc i => InterceptorManager.insert_by_priority i acc) l acc = acc ++ l.
Proof.
  revert acc. induction l as [|i l IH]; intros acc Hs; simpl; [by rewrite app_nil_r|].
  rewrite (cons_middle i acc l), app_assoc in Hs |- *.
  assert (Hins : InterceptorManager.insert_by_priority i acc = acc ++ [i]).
  { apply insert_last. clear IH. induction acc as [|j acc IH]; [done|]. simpl in *.
    apply StronglySorted_inv in Hs as [Hs Hj]. constructor; [|by apply IH].
    rewrite !Forall_app in Hj. destruct Hj as [[_ Hi] _]. by inversion Hi. }
  rewrite Hins. by apply IH.
Qed.

(** Adding to a sorted list is an insertion. *)
Lemma add_interceptor_insert (self : InterceptorManager.t) i :
  by_priority (InterceptorManager.interceptors self) ->
  InterceptorManager.interceptors (InterceptorManager.add_interceptor self i) =
    InterceptorManager.insert_by_priority i (InterceptorManager.interceptors self).
Proof.
  intros Hs. simpl. unfold InterceptorManager.sort_by_priority.
  rewrite fold_left_app. simpl. by rewrite (sort_sorted _ []).
Qed.

Lemma filter_sorted (f : MessageInterceptor -> bool) l :
  by_priority l -> by_priority (List.filter f l).
Proof.
  induction 1 as [|j l Hs IH Hj]; simpl; [constructor|]. destruct (f j); [|done].
  constructor; [done|]. rewrite List.Forall_forall in Hj |- *.
  intros k Hk. apply filter_In in Hk as [Hk _]. by apply Hj.
Qed.

Lemma filter_filter_comm {A} (f g : A -> bool) l :
  List.filter f (List.filter g l) = List.filter g (List.filter f l).
Proof.
  induction l as [|x l IH]; [done|]. simpl.
  destruct (f x) eqn:Hf, (g x) eqn:Hg; simpl; rewrite ?Hf, ?Hg, IH; done.
Qed.

Lemma filter_Permutation {A} (f : A -> bool) l l' :
  l ≡ₚ l' -> List.filter f l ≡ₚ List.filter f l'.
Proof.
  induction 1 as [|x l l' H IH|x y l|l l2 l3 H1 IH1 H2 IH2]; simpl.
  - done.
  - destruct (f x); by rewrite IH.
  - destruct (f x), (f y); (apply perm_swap || done).
  - by rewrite IH1.
Qed.

(** What a program does to the list of interceptors *)
Inductive ManagerOp : Type :=
| Add (i : MessageInterceptor)
| Remove (n : string).

Definition apply_op (self : InterceptorManager.t) (op : ManagerOp) : InterceptorManager.t :=
  match op with
  | Add i => InterceptorManager.add_interceptor self i
  | Remove n => (InterceptorManager.remove_interceptor self n).2
  end.

(** The interceptors present, in the order they were added *)
Definition present (log : list MessageInterceptor) (op : ManagerOp) : list MessageInterceptor :=
  match op with
  | Add i => log ++ [i]
  | Remove n => List.filter (fun i => negb (String.eqb (name i) n)) log
  end.

Definition ordered (l log : list MessageInterceptor) : Prop :=
  l ≡ₚ log /\ by_priority l /\ forall p, at_priority p l = at_priority p log.

Lemma apply_op_ordered self log op :
  ordered (InterceptorManager.interceptors self) log ->
  ordered (InterceptorManager.interceptors (apply_op self op)) (present log op).
Proof.
  intros (Hp & Hs & Ha). destruct op as [i|n]; cbn [apply_op present].
  - rewrite add_interceptor_insert by done. split_and!.
    + rewrite insert_Permutation, Hp. apply Permutation_cons_append.
    + by apply insert_sorted.
    + intros p. rewrite insert_at_priority, Ha by done. unfold at_priority.
      by rewrite List.filter_app.
  - simpl. split_and!; [by apply filter_Permutation|by apply filter_sorted|].
    intros p. unfold at_priority in *. rewrite filter_filter_comm, Ha.
    apply filter_filter_comm.
Qed.

Lemma apply_ops_ordered ops : forall self log,
  ordered (InterceptorManager.interceptors self) log ->
  ordered (InterceptorManager.interceptors (List.fold_left apply_op ops self))
          (List.fold_left present ops log).
Proof.
  induction ops as [|op ops IH]; simpl; [done|].
  intros self log Ho. by apply IH, apply_op_ordered.
Qed.
End order.

(** Whatever interceptors were added and removed, the manager holds
    exactly those present, in ascending priority, and among equal priorities in
    the order in which they were added. *)
Theorem manager_keeps_priority_order `{JN : JsonNumbers} (ops : list ManagerOp) :
  let l := InterceptorManager.interceptors
             (List.fold_left apply_op ops InterceptorManager.new) in
  let log := List.fold_left present ops [] in
  l ≡ₚ log /\
  StronglySorted (fun i j => priority i <= priority j) l /\
  (forall p, List.filter (fun i => priority i =? p) l =
             List.filter (fun i => priority i =? p) log).
Proof.
  apply (apply_ops_ordered ops InterceptorManager.new []).
  split_and!; [done|constructor|done].
Qed.

(** ** The pipeline of an interceptor chain

    Each interceptor that runs is given the message as it has become so far; it
    runs if it wants the message [asked], which the one that ran before it was
    given.  A failing one is passed over; the first that blocks ends the run. *)

Record Change := MkChange { why : option string; sure : option f64 }.

Section pipeline.
Context `{JN : JsonNumbers}.

Definition change_of (r : InterceptionResult.t) : Change :=
  MkChange (InterceptionResult.reasoning r) (InterceptionResult.confidence r).

(** The final message with the changes made, or the blocking result *)
Abbreviation Outcome := ((JsonRpcMessage.t * list Change) + InterceptionResult.t)%type.

Definition prepend (c : Change) (out : Outcome) : Outcome :=
  match out with
  | inl (m, cs) => inl (m, c :: cs)
  | inr r => inr r
  end.

Inductive pipeline (now : Z) (ctx : MessageContext.t)
  : JsonRpcMessage.t -> JsonRpcMessage.t -> list MessageInterceptor -> Outcome -> list MessageInterceptor -> Prop :=
| pl_done asked m :
    pipeline now ctx asked m [] (inl (m, [])) []
| pl_skip asked m i l out l' :
    wants i (MessageContext.set_message ctx asked) = false ->
    pipeline now ctx asked m l out l' ->
    pipeline now ctx asked m (i :: l) out (i :: l')
| pl_fail asked m i l s e out l' :
    wants i (MessageContext.set_message ctx asked) = true ->
    intercept i (current i) now (MessageContext.set_message ctx m) = (Err e, s) ->
    pipeline now ctx m m l out l' ->
    pipeline now ctx asked m (i :: l) out (with_state i s :: l')
| pl_block asked m i l s r :
    wants i (MessageContext.set_message ctx asked) = true ->
    intercept i (current i) now (MessageContext.set_message ctx m) = (Ok r, s) ->
    InterceptionResult.block r = true ->
    pipeline now ctx asked m (i :: l) (inr r) (with_state i s :: l)
| pl_keep asked m i l s r out l' :
    wants i (MessageContext.set_message ctx asked) = true ->
    intercept i (current i) now (MessageContext.set_message ctx m) = (Ok r, s) ->
    InterceptionResult.block r = false ->
    InterceptionResult.modified_flag r = false ->
    pipeline now ctx m m l out l' ->
    pipeline now ctx asked m (i :: l) out (with_state i s :: l')
| pl_change asked m i l s r out l' :
    wants i (MessageContext.set_message ctx asked) = true ->
    intercept i (current i) now (MessageContext.set_message ctx m) = (Ok r, s) ->
    InterceptionResult.block r = false ->
    InterceptionResult.modified_flag r = true ->
    pipeline now ctx m (InterceptionResult.message r) l out l' ->
    pipeline now ctx asked m (i :: l) (prepend (change_of r) out) (with_state i s :: l').

Definition reasons (cs : list Change) : list string := omap why cs.
Definition confidences (cs : list Change) : list f64 := omap sure cs.

(** The answer of the manager for an outcome *)
Definition summary (out : Outcome) : InterceptionResult.t :=
  match out with
  | inr r => r
  | inl (m, []) => InterceptionResult.pass_through m
  | inl (m, cs) =>
      InterceptionResult.modified m (join "; " (reasons cs))
        (match confidences cs with
         | [] => f64_zero
         | fs => f64_div (List.fold_left f64_add fs f64_zero) (f64_of_Z (Z.of_nat (length fs)))
         end)
  end.

(** An interceptor that decides without looking at the message: by direction,
    session or metadata *)
Definition message_blind (i : MessageInterceptor) : Prop :=
  forall s c m, should_intercept i s (MessageContext.set_message c m) = should_intercept i s c.

Definition same_but_message (c d : MessageContext.t) : Prop :=
  forall m, MessageContext.set_message c m = MessageContext.set_message d m.

(** The variables of the loop after some changes *)
Definition extends (l l' : InterceptorManager.Loop) (cs : list Change) : Prop :=
  InterceptorManager.was_modified l' =
    InterceptorManager.was_modified l || negb (bool_decide (cs = [])) /\
  InterceptorManager.modification_reasoning l' =
    InterceptorManager.modification_reasoning l ++ reasons cs /\
  InterceptorManager.confidence_sum l' =
    List.fold_left f64_add (confidences cs) (InterceptorManager.confidence_sum l) /\
  InterceptorManager.confidence_count l' =
    InterceptorManager.confidence_count l + Z.of_nat (length (confidences cs)).

#[local] Instance change_nil_dec (cs : list Change) : Decision (cs = []).
Proof. destruct cs; [by left|by right]. Defined.

(** The result of the loop agrees with an outcome of the pipeline. *)
Definition follows (ctx : MessageContext.t) (v : InterceptorManager.Loop)
    (res : (InterceptorManager.Loop + InterceptionResult.t) * list MessageInterceptor)
    (out : Outcome) (l' : list MessageInterceptor) : Prop :=
  res.2 = l' /\
  match res.1 with
  | inr r => out = inr r
  | inl v' =>
      exists cs, out = inl (InterceptorManager.current_message v', cs) /\ extends v v' cs
  end.

Lemma follows_cons ctx v i res out l' :
  follows ctx v res out l' ->
  follows ctx v (let '(o, l) := res in (o, i :: l)) out (i :: l').
Proof. destruct res as [o l]. unfold follows. simpl. intros [-> Ho]. by split. Qed.

Lemma extends_change v v' r cs :
  InterceptionResult.modified_flag r = true ->
  extends (InterceptorManager.apply_result v r) v' cs -> extends v v' (change_of r :: cs).
Proof.
  unfold InterceptorManager.apply_result, extends, reasons, confidences. intros ->. simpl.
  intros (-> & -> & -> & ->).
  destruct (InterceptionResult.reasoning r), (InterceptionResult.confidence r); simpl;
    rewrite ?app_nil_r, <- ?app_assoc; 
    change (list_omap Change f64 sure cs) with (omap sure cs);
    (split_and!; [by rewrite orb_true_r|done|done|lia]).
Qed.

Lemma follows_change ctx v r i res out l' :
  InterceptionResult.modified_flag r = true ->
  follows ctx (InterceptorManager.apply_result v r) res out l' ->
  follows ctx v (let '(o, l) := res in (o, i :: l)) (prepend (change_of r) out) (i :: l').
Proof.
  destruct res as [o l]. unfold follows. simpl. intros Hm [-> Ho]. split; [done|].
  destruct o as [v'|r']; [|by subst]. destruct Ho as (cs & -> & He).
  exists (change_of r :: cs). split; [done|]. by apply extends_change.
Qed.

(** Whatever the loop has done before, it follows the pipeline from its
    current message, asking about the one in its context. *)
Lemma run_pipeline now ctx l : forall v,
  same_but_message (InterceptorManager.context v) ctx ->
  exists out l',
    pipeline now ctx (MessageContext.message (InterceptorManager.context v)) (InterceptorManager.current_message v) l out l' /\
    follows ctx v (InterceptorManager.run now v l) out l'.
Proof.
  induction l as [|i l IH]; intros v Hc; simpl.
  { eexists _, []. split; [constructor|]. split; [done|]. exists []. split; [done|].
    unfold extends. simpl. by rewrite orb_false_r, app_nil_r, Z.add_0_r. }
  set (m := InterceptorManager.current_message v).
  set (asked := MessageContext.message (InterceptorManager.context v)).
  assert (Hw : wants i (InterceptorManager.context v) = wants i (MessageContext.set_message ctx asked)).
  { rewrite <- Hc. by destruct v as [[] ? ? ? ? ?]. }
  rewrite Hw, Hc. destruct (wants i (MessageContext.set_message ctx asked)) eqn:Hwant.
  2:{ destruct (IH v Hc) as (out & l' & Hp & Hf).
      exists out, (i :: l'). split; [by apply pl_skip|]. by apply follows_cons. }
  set (v0 := InterceptorManager.MkLoop (MessageContext.set_message ctx m) m
        (InterceptorManager.was_modified v) (InterceptorManager.modification_reasoning v)
        (InterceptorManager.confidence_sum v) (InterceptorManager.confidence_count v)).
  destruct (intercept i (current i) now (MessageContext.set_message ctx m)) as [[r|e] s] eqn:Hint.
  2:{ destruct (IH v0) as (out & l' & Hp & Hf); [done|].
      exists out, (with_state i s :: l'). split; [by eapply pl_fail|].
      by apply (follows_cons ctx v). }
  destruct (InterceptionResult.block r) eqn:Hblock.
  { exists (inr r), (with_state i s :: l). split; [by apply pl_block|]. done. }
  destruct (IH (InterceptorManager.apply_result v0 r)) as (out & l' & Hp & Hf).
  { unfold InterceptorManager.apply_result. by case_goal. }
  destruct (InterceptionResult.modified_flag r) eqn:Hmod; unfold InterceptorManager.apply_result in Hp; rewrite Hmod in Hp.
  - exists (prepend (change_of r) out), (with_state i s :: l'). split; [by eapply pl_change|].
    by apply (follows_change ctx v0).
  - exists out, (with_state i s :: l'). unfold InterceptorManager.apply_result in *.
    rewrite Hmod in *. split; [by eapply pl_keep|]. by apply (follows_cons ctx v0).
Qed.

(** The answer built after the loop is the summary of the changes. *)
Lemma final_result_summary now m d md v' cs :
  extends (InterceptorManager.initial_loop now m d md) v' cs ->
  InterceptorManager.final_result v' =
    summary (inl (InterceptorManager.current_message v', cs)).
Proof.
  intros (Hw & Hr & Hs & Hn). cbn in Hw, Hr, Hs, Hn.
  unfold InterceptorManager.final_result. rewrite Hw, Hr, Hs, Hn.
  destruct cs as [|c cs]; [done|].
  change (negb (bool_decide (c :: cs = []))) with true. unfold summary. cbv iota.
  destruct (confidences (c :: cs)) as [|f fs] eqn:Hf; [done|].
  assert (0 + Z.of_nat (length (f :: fs)) >? 0 = true) as -> by (apply Z.gtb_lt; simpl; lia).
  done.
Qed.
End pipeline.

(** C4: the manager implements the sequential pipeline.  Each interceptor in
    turn runs on the message the previous ones left; whether it runs is asked
    about the message the last one that ran was given, which is the same one
    unless that one changed it.  Failures are passed over, the first block ends
    the run with its own result and the rest untouched, and otherwise the answer
    carries the last message with the joined reasons and the mean confidence of
    the changes. *)
Theorem manager_implements_pipeline `{JN : JsonNumbers} now elapsed
    (self : InterceptorManager.t) m d md :
  exists out l',
    pipeline now
      (MessageContext.mk m d now (InterceptionMetadata.session_id md)
         (InterceptionMetadata.extra md ∪ ∅))
      m m (InterceptorManager.interceptors self) out l' /\
    (InterceptorManager.process_message_with_metadata now elapsed self m d md).1 =
      Ok (summary out) /\
    InterceptorManager.interceptors
      (InterceptorManager.process_message_with_metadata now elapsed self m d md).2 = l'.
Proof.
  unfold InterceptorManager.process_message_with_metadata.
  set (v := InterceptorManager.initial_loop now m d md).
  destruct (run_pipeline now (InterceptorManager.context v)
    (InterceptorManager.interceptors self) v) as (out & l' & Hp & Hl & Hf); [done|].
  exists out, l'. split; [exact Hp|].
  destruct (InterceptorManager.run now v _) as [[v'|r] l'']; simpl in *; subst l''.
  - destruct Hf as (cs & -> & He). by rewrite (final_result_summary now m d md v' cs He).
  - by subst out.
Qed.

(** ** Statistics *)

Record Submission `{JN : JsonNumbers} := MkSubmission {
  sub_now : Z; sub_elapsed : Z; sub_message : JsonRpcMessage.t;
  sub_direction : MessageDirection; sub_metadata : InterceptionMetadata.t
}.

Section statistics.
Context `{JN : JsonNumbers}.

(** A sequence of messages through one manager *)
Fixpoint process_all (self : InterceptorManager.t) (ms : list Submission)
  : list (McpResult InterceptionResult.t) * InterceptorManager.t :=
  match ms with
  | [] => ([], self)
  | m :: ms =>
      let '(r, self) := InterceptorManager.process_message_with_metadata (sub_now m)
                          (sub_elapsed m) self (sub_message m) (sub_direction m)
                          (sub_metadata m) in
      let '(rs, self) := process_all self ms in
      (r :: rs, self)
  end.

Definition is_blocked (r : McpResult InterceptionResult.t) : bool :=
  match r with Ok r => InterceptionResult.block r | Err _ => false end.

Definition is_modified (r : McpResult InterceptionResult.t) : bool :=
  match r with
  | Ok r => negb (InterceptionResult.block r) && InterceptionResult.modified_flag r
  | Err _ => false
  end.

Definition count {A} (f : A -> bool) (l : list A) : Z := Z.of_nat (length (List.filter f l)).

Definition method_total (m : gmap string Z) : Z := map_fold (fun _ n acc => n + acc) 0 m.

(** The counters after [n] messages with the given results so far *)
Definition counted (s : ManagerStats.t) (n mods blocks : Z) : Prop :=
  ManagerStats.total_messages_processed s = n /\
  ManagerStats.total_modifications_made s = mods /\
  ManagerStats.total_messages_blocked s = blocks /\
  method_total (ManagerStats.messages_by_method s) <= n - blocks /\
  map_Forall (fun _ k => 0 <= k) (ManagerStats.messages_by_method s) /\
  0 <= mods /\ 0 <= blocks /\ mods + blocks <= n.

Lemma method_total_insert m k v :
  method_total (<[k := v]> m) = method_total m - from_option id 0 (m !! k) + v.
Proof.
  unfold method_total. destruct (m !! k) as [w|] eqn:Hk; simpl.
  - rewrite <- (insert_delete_id m k w Hk) at 2. rewrite <- insert_delete_eq.
    rewrite !map_fold_insert_L by (solve [intros; lia] || apply lookup_delete_eq). lia.
  - rewrite map_fold_insert_L by (solve [intros; lia] || done). lia.
Qed.

Lemma method_total_lookup m k :
  map_Forall (fun _ n => 0 <= n) m -> 0 <= from_option id 0 (m !! k) <= method_total m.
Proof.
  unfold method_total. revert k. induction m as [|j v m Hj IH] using map_ind; intros k Hm.
  - by rewrite lookup_empty, map_fold_empty.
  - rewrite map_fold_insert_L by (solve [intros; lia] || done).
    apply map_Forall_insert in Hm as [Hv Hm]; [|done].
    destruct (decide (j = k)) as [->|Hne].
    + rewrite lookup_insert_eq. simpl. specialize (IH k Hm). rewrite Hj in IH. simpl in IH. lia.
    + rewrite lookup_insert_ne by done. specialize (IH k Hm). lia.
Qed.

Lemma count_blocked_counted s n mods blocks elapsed :
  n + 1 <= u64_max -> counted s n mods blocks ->
  counted (ManagerStats.count_blocked s elapsed) (n + 1) mods (blocks + 1).
Proof.
  intros Hn (Hp & Hm & Hb & Ht & Hf & ? & ? & ?). unfold counted. simpl.
  rewrite Hp, Hm, Hb, !wrap_u64_id by (unfold is_u64; lia). split_and!; (done || lia).
Qed.

Lemma count_processed_counted s n mods blocks was_modified method elapsed :
  n + 1 <= u64_max -> counted s n mods blocks ->
  counted (ManagerStats.count_processed s was_modified method elapsed) (n + 1)
    (mods + Z.b2z was_modified) blocks.
Proof.
  intros Hn (Hp & Hm & Hb & Ht & Hf & ? & ? & ?). unfold counted. simpl.
  rewrite Hp, Hm, Hb, wrap_u64_id by (unfold is_u64; lia).
  split_and!; try (destruct was_modified; simpl; lia).
  - destruct was_modified; simpl; [|lia]. rewrite wrap_u64_id by (unfold is_u64; lia). lia.
  - destruct method as [k|]; [|lia]. pose proof (method_total_lookup _ k Hf).
    rewrite method_total_insert, wrap_u64_id by (unfold is_u64; lia). lia.
  - destruct method as [k|]; [|done]. apply map_Forall_insert_2; [|done].
    apply wrap_u64_range.
Qed.

Lemma final_result_flags l :
  InterceptionResult.block (InterceptorManager.final_result l) = false /\
  InterceptionResult.modified_flag (InterceptorManager.final_result l) =
    InterceptorManager.was_modified l.
Proof. unfold InterceptorManager.final_result. by destruct (InterceptorManager.was_modified l). Qed.

(** A result that ends the loop is one that blocks. *)
Lemma run_blocked now is_ : forall l r is',
  InterceptorManager.run now l is_ = (inr r, is') -> InterceptionResult.block r = true.
Proof.
  induction is_ as [|i is_ IH]; intros l r is' Hr; simpl in Hr; [done|].
  destruct (wants i _).
  - destruct (intercept i _ _ _) as [[x|e] s].
    + destruct (InterceptionResult.block x) eqn:Hb; [by simplify_eq|].
      destruct (InterceptorManager.run now _ is_) eqn:He. simplify_eq. by eapply IH.
    + destruct (InterceptorManager.run now _ is_) eqn:He. simplify_eq. by eapply IH.
  - destruct (InterceptorManager.run now _ is_) eqn:He. simplify_eq. by eapply IH.
Qed.

Lemma process_counted self m n mods blocks r self' :
  n + 1 <= u64_max ->
  counted (InterceptorManager.stats self) n mods blocks ->
  InterceptorManager.process_message_with_metadata (sub_now m) (sub_elapsed m) self
    (sub_message m) (sub_direction m) (sub_metadata m) = (r, self') ->
  counted (InterceptorManager.stats self') (n + 1) (mods + Z.b2z (is_modified r))
    (blocks + Z.b2z (is_blocked r)).
Proof.
  intros Hn Hc. unfold InterceptorManager.process_message_with_metadata.
  destruct (InterceptorManager.run _ _ _) as [[l|x] is'] eqn:Hr; intros Heq; simplify_eq; simpl.
  - destruct (final_result_flags l) as [-> ->]. rewrite Z.add_0_r. simpl.
    by apply count_processed_counted.
  - rewrite (run_blocked _ _ _ _ _ Hr). simpl. rewrite Z.add_0_r. by apply count_blocked_counted.
Qed.

Lemma process_all_counted ms : forall self n mods blocks rs self',
  n + Z.of_nat (length ms) <= u64_max ->
  counted (InterceptorManager.stats self) n mods blocks ->
  process_all self ms = (rs, self') ->
  counted (InterceptorManager.stats self') (n + Z.of_nat (length ms))
    (mods + count is_modified rs) (blocks + count is_blocked rs).
Proof.
  unfold count. induction ms as [|m ms IH]; intros self n mods blocks rs self' Hn Hc Hp; simpl in Hp.
  - simplify_eq. simpl. by rewrite !Z.add_0_r.
  - destruct (InterceptorManager.process_message_with_metadata _ _ _ _ _ _) as [r s1] eqn:Hr.
    destruct (process_all s1 ms) as [rs1 s2] eqn:Hrs. simplify_eq. simpl length in Hn |- *.
    apply (process_counted _ _ n mods blocks) in Hr; [|lia|done].
    apply (IH _ (n + 1) (mods + Z.b2z (is_modified r)) (blocks + Z.b2z (is_blocked r))) in Hrs;
      [|lia|done]. simpl.
    destruct (is_modified r), (is_blocked r); simpl in *;
      unfold counted in *; rewrite ?Zpos_P_of_succ_nat in *; destruct Hrs as (?&?&?&?&?&?&?&?);
      split_and!; (done || lia).
Qed.
End statistics.

(** The manager's statistics are exact: after any messages, fewer than
    [2^64], through any interceptors, the counters are the number of messages,
    of results that were modified and of results that were blocked, and the
    counts by method add up to no more than the messages not blocked. *)
Theorem manager_statistics_exact `{JN : JsonNumbers}
    (interceptors : list MessageInterceptor) (ms : list Submission) rs self' :
  Z.of_nat (length ms) <= u64_max ->
  process_all (InterceptorManager.mk interceptors ManagerStats.default) ms = (rs, self') ->
  let s := InterceptorManager.stats self' in
  ManagerStats.total_messages_processed s = Z.of_nat (length ms) /\
  ManagerStats.total_modifications_made s = count is_modified rs /\
  ManagerStats.total_messages_blocked s = count is_blocked rs /\
  method_total (ManagerStats.messages_by_method s) <=
    Z.of_nat (length ms) - count is_blocked rs /\
  count is_modified rs + count is_blocked rs <= Z.of_nat (length ms).
Proof.
  intros Hn Hp.
  eapply (process_all_counted ms _ 0 0 0) in Hp as (? & ? & ? & ? & _ & _ & _ & ?); [|lia|].
  - simpl in *. split_and!; (done || lia).
  - unfold counted. simpl. split_and!; try (done || lia).
Qed.

(** An interceptor is asked about the message as the last interceptor
    that ran received it, not as it left it.  When [a] rewrites the message
    and [b] does not want the original, [b] is not run, whether or not it wants
    the message that is now being sent, which leaves with [a]'s change alone. *)
Theorem should_intercept_sees_previous_message `{JN : JsonNumbers} now elapsed
    (a b : MessageInterceptor) (st : ManagerStats.t) m d md r s :
  let ctx := MessageContext.mk m d now (InterceptionMetadata.session_id md)
               (InterceptionMetadata.extra md ∪ ∅) in
  wants a ctx = true ->
  intercept a (current a) now ctx = (Ok r, s) ->
  InterceptionResult.block r = false ->
  InterceptionResult.modified_flag r = true ->
  wants b ctx = false ->
  let '(answer, self') :=
    InterceptorManager.process_message_with_metadata now elapsed
      (InterceptorManager.mk [a; b] st) m d md in
  answer = Ok (summary (inl (InterceptionResult.message r, [change_of r]))) /\
  InterceptorManager.interceptors self' = [with_state a s; b].
Proof.
  intros ctx Ha Hr Hblock Hmod Hb.
  unfold InterceptorManager.process_message_with_metadata. simpl.
  change (MessageContext.mk m d now _ _) with ctx. rewrite Ha.
  change (MessageContext.set_message ctx m) with ctx. rewrite Hr, Hblock.
  unfold InterceptorManager.apply_result. rewrite Hmod. simpl. rewrite Hb. split; [|done].
  unfold InterceptorManager.final_result, summary, reasons, confidences, change_of. simpl.
  by destruct (InterceptionResult.reasoning r), (InterceptionResult.confidence r).
Qed.

(** ** Concrete interceptors *)

Section demo.
Import ToyNumbers.

Definition with_method (m : JsonRpcMessage.t) (method : string) : JsonRpcMessage.t :=
  match m with
  | JsonRpcMessage.Request r =>
      JsonRpcMessage.Request (JsonRpcRequest.mk (JsonRpcRequest.jsonrpc r) (JsonRpcRequest.id r)
                                method (JsonRpcRequest.params r))
  | m => m
  end.

(** Counts what it sees and renames the method of every outgoing message *)
Definition renamer (n : string) (p : Z) (method : string) : MessageInterceptor :=
  MkInterceptor _ Z 0 n p
    (fun _ c => match MessageContext.direction c with Outgoing => true | Incoming => false end)
    (fun s _ c => (Ok (InterceptionResult.modified (with_method (MessageContext.message c) method)
                         "renamed" (f64_of_Z 1)), s + 1)).

(** Blocks one method *)
Definition gate (n : string) (p : Z) (method : string) : MessageInterceptor :=
  MkInterceptor _ unit tt n p
    (fun _ c => bool_decide (MessageContext.method c = Some method))
    (fun s _ c => (Ok (InterceptionResult.blocked "gate"), s)).

(** Always fails *)
Definition broken (n : string) (p : Z) : MessageInterceptor :=
  MkInterceptor _ unit tt n p (fun _ _ => true) (fun s _ _ => (Err (Internal "broken"), s)).

Definition demo_submission : Submission :=
  MkSubmission _ 5 3 demo_call Outgoing InterceptionMetadata.new.

Definition demo_ops : list ManagerOp :=
  [Add (renamer "late" 90 "x"); Add (renamer "first" 10 "tools/call");
   Add (broken "second" 10); Remove "late"; Add (gate "gate" 50 "tools/call")].
End demo.

Example demo_order :
  InterceptorManager.list_interceptors
    (List.fold_left apply_op demo_ops InterceptorManager.new) =
    ["first"; "second"; "gate"]%string.
Proof. reflexivity. Qed.

Lemma renamer_blind n p method : message_blind (renamer n p method).
Proof. intros s c m. reflexivity. Qed.

Lemma manager_statistics_exact_witness :
  ManagerStats.total_messages_processed
    (InterceptorManager.stats
       (process_all
          (InterceptorManager.mk [gate "g" 1 "tools/list"] ManagerStats.default)
          [demo_submission; demo_submission]).2) = 2.
Proof.
  apply (manager_statistics_exact [gate "g" 1 "tools/list"] [demo_submission; demo_submission]
           (process_all
              (InterceptorManager.mk [gate "g" 1 "tools/list"] ManagerStats.default)
              [demo_submission; demo_submission]).1).
  - unfold u64_max. simpl. lia.
  - by destruct (process_all _ _).
Defined.

Lemma should_intercept_sees_previous_message_witness :
  (InterceptorManager.process_message_with_metadata 5 3
     (InterceptorManager.mk [renamer "r" 10 "secret"; gate "g" 50 "secret"]
        ManagerStats.default)
     demo_call Outgoing InterceptionMetadata.new).1 =
  Ok (summary (inl (with_method demo_call "secret",
                    [MkChange (Some "renamed"%string) (Some (f64_of_Z 1))]))).
Proof.
  apply (should_intercept_sees_previous_message 5 3 (renamer "r" 10 "secret")
           (gate "g" 50 "secret") ManagerStats.default demo_call Outgoing
           InterceptionMetadata.new
           (InterceptionResult.modified (with_method demo_call "secret") "renamed" (f64_of_Z 1))
           1); reflexivity.
Defined.
