(* ===== verification/RateLimit.v ===== *)
(** The rate-limit interceptor ([acdp-transport/src/interceptors/rate_limit.rs]):
    a sliding window of instants for each method.  Instants are numbers of
    nanoseconds; the window is taken to be in the range in which
    [Instant - Duration] does not panic. *)

From S2P Require Import Prelude McpError Messages Interceptor.

Definition nanos_per_sec : Z := 10 ^ 9.

Module RateLimiter.

Record t : Type := mk {
  max_requests : nat;  (* usize *)
  window_secs : Z;
  request_history : gmap string (list Z)
}.

Definition new (max_requests : nat) (window_secs : Z) : t := mk max_requests window_secs ∅.

Definition window_start (self : t) (now : Z) : Z := now - window_secs self * nanos_per_sec.

Definition history (self : t) (method : string) : list Z :=
  from_option id [] (request_history self !! method).

Definition check_and_record (self : t) (now : Z) (method : string) : bool * t :=
  let start := window_start self now in
  let kept := List.filter (fun timestamp => timestamp >? start) (history self method) in
  if (length kept <? max_requests self)%nat then
    (true, mk (max_requests self) (window_secs self)
              (<[method := kept ++ [now]]> (request_history self)))
  else
    (false, mk (max_requests self) (window_secs self)
               (<[method := kept]> (request_history self))).

Definition get_current_rate (self : t) (now : Z) (method : string) : nat :=
  let start := window_start self now in
  match request_history self !! method with
  | Some history => length (List.filter (fun ts => ts >? start) history)
  | None => 0%nat
  end.

End RateLimiter.

(** The clock readings of one [intercept]: the two instants, the UTC time and
    the measured milliseconds *)
Record Readings := MkReadings { at_check : Z; at_rate : Z; utc : Z; elapsed_ms : Z }.

Module RateLimitInterceptor.
Section interceptor.
Context `{JN : JsonNumbers}.

Record t : Type := mk { stats : InterceptorStats.t; limiter : RateLimiter.t }.

Definition interceptor_name : string := "RateLimitInterceptor".

Definition new (max_requests : nat) (window_secs : Z) : t :=
  mk InterceptorStats.default (RateLimiter.new max_requests window_secs).

Definition permissive : t := new 100 60.
Definition moderate : t := new 30 60.
Definition strict : t := new 10 60.

Definition priority : Z := 30.

Definition should_intercept (context : MessageContext.t) : bool :=
  match MessageContext.direction context with
  | Outgoing => if MessageContext.method context then true else false
  | Incoming => false
  end.

Definition update_stats (s : InterceptorStats.t) (c : Readings) : InterceptorStats.t :=
  let n := wrap_u64 (InterceptorStats.total_intercepted s + 1) in
  InterceptorStats.mk n (InterceptorStats.total_modified s) (InterceptorStats.total_blocked s)
    (f64_running_average (InterceptorStats.avg_processing_time_ms s) n (elapsed_ms c))
    (Some (utc c)).

Definition count_blocked (s : InterceptorStats.t) : InterceptorStats.t :=
  InterceptorStats.mk (InterceptorStats.total_intercepted s) (InterceptorStats.total_modified s)
    (wrap_u64 (InterceptorStats.total_blocked s + 1))
    (InterceptorStats.avg_processing_time_ms s) (InterceptorStats.last_processed s).

Definition intercept (self : t) (c : Readings) (context : MessageContext.t)
  : McpResult InterceptionResult.t * t :=
  let method := from_option id "unknown"%string (MessageContext.method context) in
  let '(allowed, limiter) := RateLimiter.check_and_record (limiter self) (at_check c) method in
  let current_rate := RateLimiter.get_current_rate limiter (at_rate c) method in
  let stats := update_stats (stats self) c in
  if allowed then
    (Ok (InterceptionResult.pass_through (MessageContext.message context)), mk stats limiter)
  else
    (Ok (InterceptionResult.blocked
           ("Rate limit exceeded for method '" +:+ method +:+ "' (" +:+
            pretty (Z.of_nat current_rate) +:+ "/window)")),
     mk (count_blocked stats) limiter).

(** As a member of the pipeline *)
Definition as_interceptor (clock : Z -> Readings) (self : t) : MessageInterceptor :=
  MkInterceptor _ t self interceptor_name priority (fun _ => should_intercept)
    (fun s now => intercept s (clock now)).
End interceptor.
End RateLimitInterceptor.

(** ** The sliding window *)

(** A request for a method at an instant *)
Record Attempt := MkAttempt { on : string; at_instant : Z }.

(** The decisions of a limiter on a sequence of attempts *)
Fixpoint decide_all (self : RateLimiter.t) (as_ : list Attempt) : list bool * RateLimiter.t :=
  match as_ with
  | [] => ([], self)
  | a :: as_ =>
      let '(ok, self) := RateLimiter.check_and_record self (at_instant a) (on a) in
      let '(oks, self) := decide_all self as_ in
      (ok :: oks, self)
  end.

Definition window (window_secs now : Z) (t : Z) : bool := t >? now - window_secs * nanos_per_sec.

(** The specification keeps the whole log of granted attempts, newest last:
    an attempt is granted while fewer than [max] grants to its method lie in
    the window before it. *)
Definition granted_to (m : string) (log : list Attempt) : list Attempt :=
  List.filter (fun a => String.eqb (on a) m) log.

Definition in_window (window_secs now : Z) (log : list Attempt) : list Attempt :=
  List.filter (fun a => window window_secs now (at_instant a)) log.

Definition may_pass (max : nat) (window_secs : Z) (log : list Attempt) (a : Attempt) : bool :=
  (length (in_window window_secs (at_instant a) (granted_to (on a) log)) <? max)%nat.

Fixpoint grant_all (max : nat) (window_secs : Z) (log : list Attempt) (as_ : list Attempt)
  : list bool * list Attempt :=
  match as_ with
  | [] => ([], log)
  | a :: as_ =>
      let ok := may_pass max window_secs log a in
      let '(oks, log) := grant_all max window_secs (if ok then log ++ [a] else log) as_ in
      (ok :: oks, log)
  end.

(** Attempts in the order of time, none before [t] *)
Fixpoint in_time (t : Z) (as_ : list Attempt) : Prop :=
  match as_ with
  | [] => True
  | a :: as_ => t <= at_instant a /\ in_time (at_instant a) as_
  end.

(** The limiter's history of a method, from any later window on, is the log's. *)
Definition represents (self : RateLimiter.t) (log : list Attempt) (t : Z) : Prop :=
  forall m now, t <= now ->
  List.filter (window (RateLimiter.window_secs self) now) (RateLimiter.history self m) =
  List.map at_instant (in_window (RateLimiter.window_secs self) now (granted_to m log)).

Lemma filter_filter_window w n1 n2 l :
  n1 <= n2 ->
  List.filter (window w n2) (List.filter (window w n1) l) = List.filter (window w n2) l.
Proof.
  intros Hn. unfold window. induction l as [|x l IH]; [done|]. simpl.
  destruct (Z.gtb_spec x (n1 - w * nanos_per_sec)); simpl; rewrite IH; [done|].
  destruct (Z.gtb_spec x (n2 - w * nanos_per_sec)); [lia|done].
Qed.

Lemma history_insert self max w m m' l :
  RateLimiter.history (RateLimiter.mk max w (<[m := l]> (RateLimiter.request_history self))) m' =
  if String.eqb m m' then l else RateLimiter.history self m'.
Proof.
  unfold RateLimiter.history. simpl. destruct (String.eqb_spec m m') as [->|Hne].
  - by rewrite lookup_insert_eq.
  - by rewrite lookup_insert_ne.
Qed.

Lemma granted_to_snoc m log a :
  granted_to m (log ++ [a]) = granted_to m log ++ (if String.eqb (on a) m then [a] else []).
Proof. unfold granted_to. rewrite List.filter_app. simpl. by case_goal. Qed.

Lemma in_window_app w now l l' :
  in_window w now (l ++ l') = in_window w now l ++ in_window w now l'.
Proof. apply List.filter_app. Qed.

Lemma check_and_record_spec self log t a ok self' :
  represents self log t -> t <= at_instant a ->
  RateLimiter.check_and_record self (at_instant a) (on a) = (ok, self') ->
  ok = may_pass (RateLimiter.max_requests self) (RateLimiter.window_secs self) log a /\
  RateLimiter.max_requests self' = RateLimiter.max_requests self /\
  RateLimiter.window_secs self' = RateLimiter.window_secs self /\
  represents self' (if ok then log ++ [a] else log) (at_instant a).
Proof.
  intros Hrep Ht Hc. unfold RateLimiter.check_and_record in Hc.
  set (kept := List.filter _ _) in Hc.
  assert (Hk : kept = List.map at_instant
    (in_window (RateLimiter.window_secs self) (at_instant a) (granted_to (on a) log))).
  { apply Hrep. done. }
  assert (Hlen : (length kept <? RateLimiter.max_requests self)%nat =
    may_pass (RateLimiter.max_requests self) (RateLimiter.window_secs self) log a).
  { unfold may_pass. by rewrite Hk, length_map. }
  rewrite Hlen in Hc.
  destruct (may_pass _ _ log a); injection Hc as <- <-; simpl; (split_and!; [done..|]);
    intros m now Hnow; rewrite history_insert; simpl RateLimiter.window_secs.
  - rewrite granted_to_snoc, in_window_app, map_app.
    destruct (String.eqb_spec (on a) m) as [<-|Hne].
    + rewrite List.filter_app. f_equal.
      * unfold kept. rewrite <- (Hrep (on a) now) by lia. by apply filter_filter_window.
      * simpl. unfold window. by case_goal.
    + rewrite app_nil_r. apply Hrep. lia.
  - destruct (String.eqb_spec (on a) m) as [<-|Hne]; [|apply Hrep; lia].
    unfold kept. rewrite <- (Hrep (on a) now) by lia. by apply filter_filter_window.
Qed.

Lemma decide_all_represents as_ : forall self log t,
  represents self log t -> in_time t as_ ->
  (decide_all self as_).1 =
  (grant_all (RateLimiter.max_requests self) (RateLimiter.window_secs self) log as_).1.
Proof.
  induction as_ as [|a as_ IH]; intros self log t Hrep Ht; [done|]. destruct Ht as [Ht Has].
  simpl. destruct (RateLimiter.check_and_record _ _ _) as [ok self'] eqn:Hc.
  apply (check_and_record_spec self log t) in Hc as (-> & Hm & Hw & Hrep'); [|done..].
  specialize (IH self' _ _ Hrep' Has). rewrite Hm, Hw in IH.
  destruct (decide_all self' as_), (grant_all _ _ _ as_). simpl in *. by rewrite IH.
Qed.

Lemma represents_new max w t : represents (RateLimiter.new max w) [] t.
Proof. intros m now _. unfold RateLimiter.history. simpl. by rewrite lookup_empty. Qed.

(** The grants to [m] in the window that ends at [now] *)
Definition grants_within (w now : Z) (m : string) (log : list Attempt) : list Attempt :=
  List.filter (fun a => window w now (at_instant a) && (at_instant a <=? now)) (granted_to m log).

Definition within_limit (max : nat) (w : Z) (log : list Attempt) : Prop :=
  forall m now, (length (grants_within w now m log) <= max)%nat.

Lemma filter_impl_length {A} (f g : A -> bool) l :
  (forall x, f x = true -> g x = true) ->
  (length (List.filter f l) <= length (List.filter g l))%nat.
Proof.
  intros Hfg. induction l as [|x l IH]; [done|]. simpl.
  destruct (f x) eqn:Hf; [rewrite (Hfg x Hf); simpl; lia|]. destruct (g x); simpl; lia.
Qed.

Lemma grant_within_limit max w log a :
  within_limit max w log -> may_pass max w log a = true -> within_limit max w (log ++ [a]).
Proof.
  unfold within_limit, grants_within, may_pass. intros Hl Hp m now.
  apply Nat.ltb_lt in Hp. rewrite granted_to_snoc, List.filter_app, length_app.
  specialize (Hl m now). destruct (String.eqb_spec (on a) m) as [<-|Hne]; simpl; [|lia].
  destruct (window w now (at_instant a) && (at_instant a <=? now)) eqn:Hw; simpl; [|lia].
  unfold window in *. apply andb_true_iff in Hw as [Hw1%Z.gtb_lt Hw2%Z.leb_le].
  enough (length (List.filter (fun b => ((at_instant b >? now - w * nanos_per_sec) &&
            (at_instant b <=? now))%Z) (granted_to (on a) log)) <=
          length (in_window w (at_instant a) (granted_to (on a) log)))%nat by lia.
  apply filter_impl_length. intros b [Hb1%Z.gtb_lt _]%andb_true_iff.
  unfold window. apply Z.gtb_lt. lia.
Qed.

Lemma grant_all_within_limit max w as_ : forall log,
  within_limit max w log -> within_limit max w (grant_all max w log as_).2.
Proof.
  induction as_ as [|a as_ IH]; intros log Hl; [done|]. simpl.
  specialize (IH (if may_pass max w log a then log ++ [a] else log)).
  destruct (grant_all _ _ _ as_) as [oks log']. simpl in *. apply IH.
  destruct (may_pass max w log a) eqn:Hp; [by apply grant_within_limit|done].
Qed.

Lemma history_new max w m : RateLimiter.history (RateLimiter.new max w) m = [].
Proof. unfold RateLimiter.history. simpl. by rewrite lookup_empty. Qed.

(** The instants kept for a method *)
Definition history_bounded (self : RateLimiter.t) : Prop :=
  forall m, (length (RateLimiter.history self m) <= RateLimiter.max_requests self)%nat.

Lemma check_and_record_bounded self now m :
  history_bounded self -> history_bounded (RateLimiter.check_and_record self now m).2.
Proof.
  unfold history_bounded. intros Hb m'. unfold RateLimiter.check_and_record.
  set (kept := List.filter _ _).
  assert (length kept <= RateLimiter.max_requests self)%nat.
  { etransitivity; [apply List.filter_length_le|apply Hb]. }
  destruct (Nat.ltb_spec (length kept) (RateLimiter.max_requests self)); simpl;
    rewrite history_insert; destruct (String.eqb m m'); try apply Hb; [|done].
  rewrite length_app. simpl. lia.
Qed.

Lemma check_and_record_max self now m :
  RateLimiter.max_requests (RateLimiter.check_and_record self now m).2 =
    RateLimiter.max_requests self.
Proof. unfold RateLimiter.check_and_record. by case_goal. Qed.

Lemma decide_all_bounded as_ : forall self,
  history_bounded self ->
  history_bounded (decide_all self as_).2 /\
  RateLimiter.max_requests (decide_all self as_).2 = RateLimiter.max_requests self.
Proof.
  induction as_ as [|a as_ IH]; intros self Hb; [done|]. simpl.
  pose proof (check_and_record_bounded self (at_instant a) (on a) Hb) as Hb'.
  pose proof (check_and_record_max self (at_instant a) (on a)) as Hm.
  destruct (RateLimiter.check_and_record _ _ _) as [ok self']. simpl in *.
  destruct (IH self' Hb') as [H1 H2]. destruct (decide_all self' as_). simpl in *.
  split; [done|congruence].
Qed.

(** C5: on attempts in the order of time, the rate limiter takes exactly the
    decisions of the specification that keeps the whole log, though it keeps at
    most [max_requests] instants for each method. *)
Theorem rate_limiter_refines_log (max : nat) (window_secs start : Z) (as_ : list Attempt) :
  in_time start as_ ->
  (decide_all (RateLimiter.new max window_secs) as_).1 =
    (grant_all max window_secs [] as_).1 /\
  (forall m, (length (RateLimiter.history
                        (decide_all (RateLimiter.new max window_secs) as_).2 m) <= max)%nat).
Proof.
  intros Ht. split.
  - apply (decide_all_represents as_ (RateLimiter.new max window_secs) [] start); [|done].
    apply represents_new.
  - destruct (decide_all_bounded as_ (RateLimiter.new max window_secs)) as [Hb Hm];
      [intros m; by rewrite history_new; apply Nat.le_0_l|].
    intros m. specialize (Hb m). by rewrite Hm in Hb.
Qed.

(** The attempts the limiter let through *)
Definition passed (oks : list bool) (as_ : list Attempt) : list Attempt :=
  List.map snd (List.filter fst (combine oks as_)).

Lemma grant_all_log max w as_ : forall log,
  (grant_all max w log as_).2 = log ++ passed (grant_all max w log as_).1 as_.
Proof.
  unfold passed. induction as_ as [|a as_ IH]; intros log; [by rewrite app_nil_r|]. simpl.
  specialize (IH (if may_pass max w log a then log ++ [a] else log)).
  destruct (grant_all _ _ _ as_) as [oks log']. simpl in *. rewrite IH.
  destruct (may_pass max w log a); simpl; [by rewrite <- app_assoc|done].
Qed.

(** The rate limiter lets at most [max_requests] requests of a method
    through in any window of [window_secs] seconds, wherever the window lies. *)
Theorem rate_limiter_window_bound (max : nat) (window_secs start : Z) (as_ : list Attempt)
    (m : string) (now : Z) :
  in_time start as_ ->
  (length (List.filter
             (fun a => String.eqb (on a) m &&
                       ((at_instant a >? now - window_secs * nanos_per_sec)
                        && (at_instant a <=? now))%Z)
             (passed (decide_all (RateLimiter.new max window_secs) as_).1 as_)) <= max)%nat.
Proof.
  intros Ht.
  rewrite (decide_all_represents as_ (RateLimiter.new max window_secs) [] start)
    by (done || apply represents_new). simpl.
  pose proof (grant_all_within_limit max window_secs as_ [] ltac:(intros ? ?; simpl; lia) m now)
    as Hl.
  rewrite grant_all_log in Hl. simpl in Hl. unfold grants_within, granted_to, window in Hl.
  etransitivity; [|exact Hl]. apply Nat.eq_le_incl. f_equal.
  generalize (passed (grant_all max window_secs [] as_).1 as_). intros l.
  induction l as [|a l IH]; [done|]. simpl. destruct (String.eqb (on a) m); simpl; [|done].
  case_goal; by rewrite IH.
Qed.

(** The interceptor runs on outgoing requests and notifications only,
    blocks exactly the messages the limiter refuses, naming the method, passes
    the others on unchanged, and counts every message once. *)
Theorem rate_limit_interceptor_decision `{JN : JsonNumbers}
    (self : RateLimitInterceptor.t) c context :
  let method := from_option id "unknown"%string (MessageContext.method context) in
  let allowed := (RateLimiter.check_and_record (RateLimitInterceptor.limiter self)
                    (at_check c) method).1 in
  let '(answer, self') := RateLimitInterceptor.intercept self c context in
  (RateLimitInterceptor.should_intercept context = true <->
   MessageContext.direction context = Outgoing /\ is_Some (MessageContext.method context)) /\
  (exists r, answer = Ok r /\ InterceptionResult.block r = negb allowed /\
     (allowed = true -> r = InterceptionResult.pass_through (MessageContext.message context))) /\
  InterceptorStats.total_intercepted (RateLimitInterceptor.stats self') =
    wrap_u64 (InterceptorStats.total_intercepted (RateLimitInterceptor.stats self) + 1) /\
  InterceptorStats.total_blocked (RateLimitInterceptor.stats self') =
    (if allowed then InterceptorStats.total_blocked (RateLimitInterceptor.stats self)
     else wrap_u64 (InterceptorStats.total_blocked (RateLimitInterceptor.stats self) + 1)).
Proof.
  unfold RateLimitInterceptor.intercept, RateLimitInterceptor.should_intercept. simpl.
  destruct (RateLimiter.check_and_record _ _ _) as [ok l']. simpl.
  destruct ok; simpl; (split_and!; [|by eexists|done|done]);
    (split; [|by intros [-> [x ->]]]);
    destruct (MessageContext.direction context), (MessageContext.method context); eauto; done.
Qed.

(** ** A concrete limiter: two requests in ten seconds *)

Definition demo_attempts : list Attempt :=
  [MkAttempt "tools/call" 0; MkAttempt "tools/call" 1; MkAttempt "tools/list" 2;
   MkAttempt "tools/call" 3; MkAttempt "tools/call" (10 * nanos_per_sec)].

Example demo_decisions :
  (decide_all (RateLimiter.new 2 10) demo_attempts).1 = [true; true; true; false; true].
Proof. reflexivity. Qed.

Lemma demo_in_time : in_time 0 demo_attempts.
Proof. unfold demo_attempts, nanos_per_sec. simpl. lia. Qed.

Lemma rate_limiter_refines_log_witness :
  (grant_all 2 10 [] demo_attempts).1 = [true; true; true; false; true].
Proof.
  rewrite <- (proj1 (rate_limiter_refines_log 2 10 0 demo_attempts demo_in_time)).
  reflexivity.
Defined.

Lemma rate_limiter_window_bound_witness :
  (length (List.filter
             (fun a => String.eqb (on a) "tools/call" &&
                       ((at_instant a >? 3 - 10 * nanos_per_sec) && (at_instant a <=? 3))%Z)
             (passed (decide_all (RateLimiter.new 2 10) demo_attempts).1 demo_attempts)) <= 2)%nat.
Proof. apply (rate_limiter_window_bound 2 10 0). exact demo_in_time. Defined.
