(* ===== verification/ProtocolValidation.v ===== *)
(** The validation and the logging interceptors
    ([acdp-transport/src/interceptors/validation.rs] and [logging.rs]).  Log
    output is not modelled but for the serialisation that can fail. *)

From S2P Require Import Prelude McpError Messages Interceptor RateLimit.

Module ValidationInterceptor.
Section interceptor.
Context `{JN : JsonNumbers}.

Record t : Type := mk { stats : InterceptorStats.t; strict_mode : bool }.

Definition interceptor_name : string := "ValidationInterceptor".
Definition priority : Z := 20.

Definition new (strict_mode : bool) : t := mk InterceptorStats.default strict_mode.

Definition bad_version (v : string) : Res unit string :=
  Err ("Invalid JSON-RPC version: " +:+ v).

Definition validate_message (message : JsonRpcMessage.t) : Res unit string :=
  match message with
  | JsonRpcMessage.Request req =>
      if negb (String.eqb (JsonRpcRequest.jsonrpc req) "2.0") then
        bad_version (JsonRpcRequest.jsonrpc req)
      else if str_is_empty (JsonRpcRequest.method req) then
        Err "Request method cannot be empty"%string
      else Ok tt
  | JsonRpcMessage.Response resp =>
      if negb (String.eqb (JsonRpcResponse.jsonrpc resp) "2.0") then
        bad_version (JsonRpcResponse.jsonrpc resp)
      else
        match JsonRpcResponse.result resp, JsonRpcResponse.error resp with
        | Some _, Some _ => Err "Response has both result and error"%string
        | None, None => Err "Response must have either result or error"%string
        | _, _ => Ok tt
        end
  | JsonRpcMessage.Notification notif =>
      if negb (String.eqb (JsonRpcNotification.jsonrpc notif) "2.0") then
        bad_version (JsonRpcNotification.jsonrpc notif)
      else if str_is_empty (JsonRpcNotification.method notif) then
        Err "Notification method cannot be empty"%string
      else Ok tt
  end.

Definition should_intercept (_context : MessageContext.t) : bool := true.

(** An invalid message is counted without a new average. *)
Definition count_invalid (s : InterceptorStats.t) (now : Z) (block : bool) : InterceptorStats.t :=
  InterceptorStats.mk (wrap_u64 (InterceptorStats.total_intercepted s + 1))
    (InterceptorStats.total_modified s)
    (if block then wrap_u64 (InterceptorStats.total_blocked s + 1)
     else InterceptorStats.total_blocked s)
    (InterceptorStats.avg_processing_time_ms s) (Some now).

Definition intercept (self : t) (c : Readings) (context : MessageContext.t)
  : McpResult InterceptionResult.t * t :=
  match validate_message (MessageContext.message context) with
  | Ok _ =>
      (Ok (InterceptionResult.pass_through (MessageContext.message context)),
       mk (RateLimitInterceptor.update_stats (stats self) c) (strict_mode self))
  | Err err =>
      let stats := count_invalid (stats self) (utc c) (strict_mode self) in
      if strict_mode self then
        (Ok (InterceptionResult.blocked ("Protocol validation failed: " +:+ err)),
         mk stats (strict_mode self))
      else
        (Ok (InterceptionResult.pass_through (MessageContext.message context)),
         mk stats (strict_mode self))
  end.

Definition as_interceptor (clock : Z -> Readings) (self : t) : MessageInterceptor :=
  MkInterceptor _ t self interceptor_name priority (fun _ => should_intercept)
    (fun s now => intercept s (clock now)).
End interceptor.
End ValidationInterceptor.

Module LoggingInterceptor.
Section interceptor.
Context `{JN : JsonNumbers}.

Record t : Type := mk { stats : InterceptorStats.t; log_content : bool }.

Definition interceptor_name : string := "LoggingInterceptor".
Definition priority : Z := 10.

Definition new (log_content : bool) : t := mk InterceptorStats.default log_content.

Definition should_intercept (_context : MessageContext.t) : bool := true.

(** [to_string] is [serde_json::to_string] of the message. *)
Definition intercept (to_string : JsonRpcMessage.t -> Res string string) (self : t)
    (c : Readings) (context : MessageContext.t) : McpResult InterceptionResult.t * t :=
  let logged :=
    if log_content self then
      let? _ := map_err Serialization (to_string (MessageContext.message context)) in Ok tt
    else Ok tt in
  match logged with
  | Err e => (Err e, self)
  | Ok _ =>
      (Ok (InterceptionResult.pass_through (MessageContext.message context)),
       mk (RateLimitInterceptor.update_stats (stats self) c) (log_content self))
  end.

Definition as_interceptor (to_string : JsonRpcMessage.t -> Res string string)
    (clock : Z -> Readings) (self : t) : MessageInterceptor :=
  MkInterceptor _ t self interceptor_name priority (fun _ => should_intercept)
    (fun s now => intercept to_string s (clock now)).
End interceptor.
End LoggingInterceptor.

Section validation.
Context `{JN : JsonNumbers}.

(** The messages that conform to JSON-RPC 2.0 *)
Definition conforms (m : JsonRpcMessage.t) : Prop :=
  match m with
  | JsonRpcMessage.Request r =>
      JsonRpcRequest.jsonrpc r = "2.0"%string /\ JsonRpcRequest.method r <> ""%string
  | JsonRpcMessage.Notification n =>
      JsonRpcNotification.jsonrpc n = "2.0"%string /\ JsonRpcNotification.method n <> ""%string
  | JsonRpcMessage.Response r =>
      JsonRpcResponse.jsonrpc r = "2.0"%string /\
      (is_Some (JsonRpcResponse.result r) <-> JsonRpcResponse.error r = None)
  end.

Lemma str_is_empty_spec s : str_is_empty s = false <-> s <> ""%string.
Proof. by destruct s. Qed.

Lemma validate_message_Ok m :
  ValidationInterceptor.validate_message m = Ok tt <-> conforms m.
Proof.
  destruct m as [r|r|n]; simpl;
    match goal with |- context [String.eqb ?v "2.0"] => destruct (String.eqb_spec v "2.0") end;
    simpl; try (unfold ValidationInterceptor.bad_version; intuition congruence).
  - rewrite <- str_is_empty_spec. destruct (str_is_empty _); intuition congruence.
  - destruct (JsonRpcResponse.result r) as [v|], (JsonRpcResponse.error r) as [e'|]; simpl.
    + split; [done|]. intros [_ [Hr _]]. discriminate (Hr (ex_intro _ v eq_refl)).
    + split; [|done]. intros _. split; [done|]. split; eauto.
    + split; [|done]. intros _. split; [done|]. split; [intros [x [=]]|done].
    + split; [done|]. intros [_ [_ Hr]]. by destruct (Hr eq_refl).
  - rewrite <- str_is_empty_spec. destruct (str_is_empty _); intuition congruence.
Qed.
End validation.

(** The validation interceptor passes every message of the protocol
    unchanged, in either mode; a message that does not conform is blocked in
    strict mode and passed in lenient mode, and is counted as blocked only when
    it is. *)
Theorem validation_interceptor_decision `{JN : JsonNumbers}
    (self : ValidationInterceptor.t) c context :
  let m := MessageContext.message context in
  let '(answer, self') := ValidationInterceptor.intercept self c context in
  (conforms m \/ ValidationInterceptor.strict_mode self = false ->
   answer = Ok (InterceptionResult.pass_through m) /\
   InterceptorStats.total_blocked (ValidationInterceptor.stats self') =
     InterceptorStats.total_blocked (ValidationInterceptor.stats self)) /\
  (~ conforms m -> ValidationInterceptor.strict_mode self = true ->
   exists reason, answer = Ok (InterceptionResult.blocked reason) /\
   InterceptorStats.total_blocked (ValidationInterceptor.stats self') =
     wrap_u64 (InterceptorStats.total_blocked (ValidationInterceptor.stats self) + 1)) /\
  InterceptorStats.total_intercepted (ValidationInterceptor.stats self') =
    wrap_u64 (InterceptorStats.total_intercepted (ValidationInterceptor.stats self) + 1).
Proof.
  pose proof (validate_message_Ok (MessageContext.message context)) as Hv.
  unfold ValidationInterceptor.intercept. simpl.
  destruct (ValidationInterceptor.validate_message _) as [[]|err].
  - split_and!; [done| |done]. intros Hn. destruct Hn. by apply Hv.
  - assert (~ conforms (MessageContext.message context)) by (intros Hc; by apply Hv in Hc).
    destruct (ValidationInterceptor.strict_mode self); simpl.
    + split_and!; [by intros []|by eexists|done].
    + split_and!; [done|done|done].
Qed.

(** A successful response whose result is null, as the protocol allows,
    does not survive the wire under strict validation: it reads back without
    result and error, and is blocked. *)
Theorem null_result_blocked_in_strict_mode `{JN : JsonNumbers} {NL : JsonNumberLaws JN}
    (id : RequestId.t) (s : InterceptorStats.t) c now direction :
  RequestId.wf id ->
  exists m,
    JsonRpcMessage.from_value
      (JsonRpcMessage.to_value (JsonRpcMessage.Response (JsonRpcResponse.success id VNull))) =
      Ok m /\
    (ValidationInterceptor.intercept (ValidationInterceptor.mk s true) c
       (MessageContext.new now m direction)).1 =
      Ok (InterceptionResult.blocked
            "Protocol validation failed: Response must have either result or error").
Proof.
  intros Hw. exists (JsonRpcMessage.Response (JsonRpcResponse.mk "2.0" id None None)).
  split; [|reflexivity].
  unfold JsonRpcMessage.from_value. simpl JsonRpcMessage.to_value.
  rewrite response_is_no_request, response_from_to_value; [done|].
  split; [done|]. simpl. done.
Qed.

Lemma null_result_blocked_in_strict_mode_witness :
  exists m,
    JsonRpcMessage.from_value (JsonRpcMessage.to_value demo_null_result) = Ok m /\
    (ValidationInterceptor.intercept
       (ValidationInterceptor.mk InterceptorStats.default true) (MkReadings 0 0 0 1)
       (MessageContext.new 0 m Incoming)).1 =
      Ok (InterceptionResult.blocked
            "Protocol validation failed: Response must have either result or error").
Proof.
  apply (null_result_blocked_in_strict_mode (NL := ToyNumbers.toy_number_laws)
           (RequestId.String "a") InterceptorStats.default (MkReadings 0 0 0 1) 0 Incoming).
  exact I.
Defined.
