(* ===== verification/Transform.v ===== *)
(** The transform interceptor ([acdp-transport/src/interceptors/transform.rs]):
    rules that rewrite the parameters or the result of a message at a path.
    Objects are entry lists; their order, which a JSON object does not have, is
    kept by replacement and extended at the end by insertion. *)

From S2P Require Import Prelude McpError Messages Interceptor RateLimit.

(** [str::to_uppercase] and [str::to_lowercase] of the standard library's
    Unicode tables *)
Class UnicodeCase := { to_uppercase : string -> string; to_lowercase : string -> string }.

Section objects.
Context `{JN : JsonNumbers}.

(** [Map::insert] *)
Fixpoint insert_entry (entries : list (string * Value)) (key : string) (v : Value)
  : list (string * Value) :=
  match entries with
  | [] => [(key, v)]
  | (k, w) :: entries =>
      if String.eqb k key then (k, v) :: entries else (k, w) :: insert_entry entries key v
  end.

(** [Map::remove] *)
Definition remove_entry (entries : list (string * Value)) (key : string)
  : list (string * Value) :=
  List.filter (fun e => negb (String.eqb e.1 key)) entries.

(** [value.get(part)] *)
Definition get (v : Value) (key : string) : option Value :=
  match v with
  | VObject entries => field entries key
  | _ => None
  end.

Lemma field_insert_entry e k v : field (insert_entry e k v) k = Some v.
Proof.
  induction e as [|[j w] e IH]; simpl; [by rewrite String.eqb_refl|].
  destruct (String.eqb_spec j k); simpl.
  - destruct (String.eqb_spec j k); congruence.
  - destruct (String.eqb_spec j k); congruence.
Qed.

Lemma field_insert_entry_ne e k k' v : k <> k' -> field (insert_entry e k v) k' = field e k'.
Proof.
  intros Hne. induction e as [|[j w] e IH]; simpl.
  - by destruct (String.eqb_spec k k').
  - destruct (String.eqb_spec j k) as [->|]; simpl.
    + by destruct (String.eqb_spec k k').
    + by rewrite IH.
Qed.

Lemma field_remove_entry e k : field (remove_entry e k) k = None.
Proof.
  induction e as [|[j w] e IH]; [done|]. simpl.
  destruct (String.eqb_spec j k); simpl; [done|]. by destruct (String.eqb_spec j k).
Qed.

Lemma field_remove_entry_ne e k k' : k <> k' -> field (remove_entry e k) k' = field e k'.
Proof.
  intros Hne. induction e as [|[j w] e IH]; [done|]. simpl.
  destruct (String.eqb_spec j k) as [->|]; simpl; rewrite IH; [|done].
  by destruct (String.eqb_spec k k').
Qed.
End objects.

(** [s.split('.')]: at least one part *)
Fixpoint split_dots (s : string) : list string :=
  match s with
  | EmptyString => [""%string]
  | String c s =>
      if Ascii.eqb c "."%char then ""%string :: split_dots s
      else match split_dots s with
           | part :: parts => String c part :: parts
           | [] => [String c EmptyString]
           end
  end.

Lemma split_dots_nonempty s : split_dots s <> [].
Proof. destruct s as [|c s]; simpl; [done|]. repeat case_goal; done. Qed.

Module TransformOperation.
Section operation.
Context `{JN : JsonNumbers}.

Inductive t : Type :=
| Set_ (value : Value)
| AddIfMissing (value : Value)
| Remove
| Rename (new_name : string)
| Function_ (name : string) (args : list Value).
End operation.
Arguments t : clear implicits.
Arguments t {JN}.
End TransformOperation.

Module TransformRule.
Section rule.
Context `{JN : JsonNumbers} `{UC : UnicodeCase}.

Record t : Type := mk {
  name : string;
  method_pattern : string;
  path : string;
  operation : TransformOperation.t
}.

Definition matches (self : t) (context : MessageContext.t) : bool :=
  match MessageContext.method context with
  | Some method =>
      String.eqb (method_pattern self) "*" || String.eqb (method_pattern self) method
  | None => false
  end.

Fixpoint get_at_path (value : Value) (path : list string) : option Value :=
  match path with
  | [] => Some value
  | part :: path =>
      match get value part with
      | Some v => get_at_path v path
      | None => None
      end
  end.

(** [get_at_path_mut] and a write through the reference: [f] is the write,
    [None] when the path or the write does not apply. *)
Fixpoint modify_at_path (value : Value) (path : list string) (f : Value -> option Value)
  : option Value :=
  match path with
  | [] => f value
  | part :: path =>
      match value with
      | VObject entries =>
          match field entries part with
          | Some v =>
              match modify_at_path v path f with
              | Some v' => Some (VObject (insert_entry entries part v'))
              | None => None
              end
          | None => None
          end
      | _ => None
      end
  end.

(** [as_object_mut] and a change of the entries *)
Definition in_object (f : list (string * Value) -> list (string * Value)) (v : Value)
  : option Value :=
  match v with
  | VObject entries => Some (VObject (f entries))
  | _ => None
  end.

Definition set_at_path (value : Value) (path : list string) (new_value : Value)
  : Res Value string :=
  match path with
  | [] => Err "Empty path"%string
  | [part] =>
      ok_or (in_object (fun e => insert_entry e part new_value) value)
        "Cannot set field on non-object"%string
  | _ =>
      let parent_path := removelast path in
      let field_name := List.last path ""%string in
      ok_or (modify_at_path value parent_path
               (in_object (fun e => insert_entry e field_name new_value)))
        "Path not found"%string
  end.

Definition remove_at_path (value : Value) (path : list string) : Res Value string :=
  match path with
  | [] => Err "Empty path"%string
  | [part] =>
      ok_or (in_object (fun e => remove_entry e part) value)
        "Cannot remove field from non-object"%string
  | _ =>
      let parent_path := removelast path in
      let field_name := List.last path ""%string in
      Ok (from_option id value
            (modify_at_path value parent_path (in_object (fun e => remove_entry e field_name))))
  end.

(** [obj.remove(last)] and [obj.insert(new_name, val)] *)
Definition rename_entry (old new : string) (e : list (string * Value)) : list (string * Value) :=
  match field e old with
  | Some v => insert_entry (remove_entry e old) new v
  | None => e
  end.

Definition apply_function (value : Value) (path : list string) (func_name : string)
  : Res Value string :=
  match get_at_path value path with
  | None => Ok value
  | Some target =>
      let write v := Ok (from_option id value (modify_at_path value path (fun _ => Some v))) in
      if String.eqb func_name "uppercase" then
        match target with VString s => write (VString (to_uppercase s)) | _ => Ok value end
      else if String.eqb func_name "lowercase" then
        match target with VString s => write (VString (to_lowercase s)) | _ => Ok value end
      else if String.eqb func_name "increment" then
        match target with
        | VNumber n =>
            match num_as_i64 n with
            | Some i => write (VNumber (num_from_i64 (wrap_i64 (i + 1))))
            | None => Ok value
            end
        | _ => Ok value
        end
      else Err ("Unknown function: " +:+ func_name)
  end.

Definition apply_to_value (self : t) (value : Value) : Res Value string :=
  let path_parts := split_dots (path self) in
  match operation self with
  | TransformOperation.Set_ new_value => set_at_path value path_parts new_value
  | TransformOperation.AddIfMissing new_value =>
      match get_at_path value path_parts with
      | None => set_at_path value path_parts new_value
      | Some _ => Ok value
      end
  | TransformOperation.Remove => remove_at_path value path_parts
  | TransformOperation.Rename new_name =>
      Ok (from_option id value
            (modify_at_path value (removelast path_parts)
               (in_object (rename_entry (List.last path_parts ""%string) new_name))))
  | TransformOperation.Function_ name _args => apply_function value path_parts name
  end.

(** The optional value a rule works on *)
Definition apply_to_option (self : t) (v : option Value) : Res (option Value) string :=
  match v with
  | Some v => let? v := apply_to_value self v in Ok (Some v)
  | None => Ok None
  end.

Definition apply (self : t) (message : JsonRpcMessage.t) : Res JsonRpcMessage.t string :=
  match message with
  | JsonRpcMessage.Request req =>
      let? params := apply_to_option self (JsonRpcRequest.params req) in
      Ok (JsonRpcMessage.Request
            (JsonRpcRequest.mk (JsonRpcRequest.jsonrpc req) (JsonRpcRequest.id req)
               (JsonRpcRequest.method req) params))
  | JsonRpcMessage.Response resp =>
      let? result := apply_to_option self (JsonRpcResponse.result resp) in
      Ok (JsonRpcMessage.Response
            (JsonRpcResponse.mk (JsonRpcResponse.jsonrpc resp) (JsonRpcResponse.id resp)
               result (JsonRpcResponse.error resp)))
  | JsonRpcMessage.Notification notif =>
      let? params := apply_to_option self (JsonRpcNotification.params notif) in
      Ok (JsonRpcMessage.Notification
            (JsonRpcNotification.mk (JsonRpcNotification.jsonrpc notif)
               (JsonRpcNotification.method notif) params))
  end.
End rule.
Arguments t : clear implicits.
Arguments t {JN}.
End TransformRule.

Module TransformInterceptor.
Section interceptor.
Context `{JN : JsonNumbers} `{UC : UnicodeCase}.

Record t : Type := mk { stats : InterceptorStats.t; rules : list TransformRule.t }.

Definition interceptor_name : string := "TransformInterceptor".
Definition priority : Z := 40.

Definition new : t := mk InterceptorStats.default [].

Definition add_rule (self : t) (rule : TransformRule.t) : t :=
  mk (stats self) (rules self ++ [rule]).

Definition remove_rule (self : t) (n : string) : bool * t :=
  let initial_len := length (rules self) in
  let kept := List.filter (fun r => negb (String.eqb (TransformRule.name r) n)) (rules self) in
  (negb (length kept =? initial_len)%nat, mk (stats self) kept).

Definition list_rules (self : t) : list string := List.map TransformRule.name (rules self).

Definition should_intercept (self : t) (context : MessageContext.t) : bool :=
  existsb (fun rule => TransformRule.matches rule context) (rules self).

(** The loop over the rules: the message and the names of those that applied *)
Fixpoint apply_rules (rules : list TransformRule.t) (context : MessageContext.t)
    (current : JsonRpcMessage.t) (applied : list string) : JsonRpcMessage.t * list string :=
  match rules with
  | [] => (current, applied)
  | rule :: rules =>
      if TransformRule.matches rule context then
        match TransformRule.apply rule current with
        | Ok modified =>
            apply_rules rules context modified (applied ++ [TransformRule.name rule])
        | Err _ => apply_rules rules context current applied
        end
      else apply_rules rules context current applied
  end.

Definition update_stats (s : InterceptorStats.t) (c : Readings) (was_modified : bool)
  : InterceptorStats.t :=
  let s := RateLimitInterceptor.update_stats s c in
  InterceptorStats.mk (InterceptorStats.total_intercepted s)
    (if was_modified then wrap_u64 (InterceptorStats.total_modified s + 1)
     else InterceptorStats.total_modified s)
    (InterceptorStats.total_blocked s) (InterceptorStats.avg_processing_time_ms s)
    (InterceptorStats.last_processed s).

Definition intercept (self : t) (c : Readings) (context : MessageContext.t)
  : McpResult InterceptionResult.t * t :=
  let '(current_message, applied_rules) :=
    apply_rules (rules self) context (MessageContext.message context) [] in
  let was_modified := negb (length applied_rules =? 0)%nat in
  let self := mk (update_stats (stats self) c was_modified) (rules self) in
  if was_modified then
    (Ok (InterceptionResult.modified current_message
           ("Applied rules: " +:+ join ", " applied_rules) (f64_of_Z 1)), self)
  else (Ok (InterceptionResult.pass_through current_message), self).

Definition as_interceptor (clock : Z -> Readings) (self : t) : MessageInterceptor :=
  MkInterceptor _ t self interceptor_name priority should_intercept
    (fun s now => intercept s (clock now)).
End interceptor.
Arguments t : clear implicits.
Arguments t {JN}.
End TransformInterceptor.

(** ** Paths *)

Section paths.
Context `{JN : JsonNumbers} `{UC : UnicodeCase}.

(** Two paths that part at some key: neither leads through the other. *)
Fixpoint diverge (p q : list string) : Prop :=
  match p, q with
  | a :: p, b :: q => a <> b \/ (a = b /\ diverge p q)
  | _, _ => False
  end.

Lemma modify_at_path_spec p f : forall v v',
  TransformRule.modify_at_path v p f = Some v' ->
  (exists w w', TransformRule.get_at_path v p = Some w /\ f w = Some w' /\
                TransformRule.get_at_path v' p = Some w') /\
  (forall q, diverge p q ->
   TransformRule.get_at_path v' q = TransformRule.get_at_path v q).
Proof.
  induction p as [|a p IH]; intros v v' Hm; simpl in Hm.
  - split; [by exists v, v'|done].
  - destruct v as [| | | | |e]; try done. destruct (field e a) as [u|] eqn:Ha; [|done].
    destruct (TransformRule.modify_at_path u p f) as [u'|] eqn:Hu; [|done]. simplify_eq.
    destruct (IH u u' Hu) as [(w & w' & Hw & Hf & Hw') Hq]. split.
    + exists w, w'. simpl. by rewrite Ha, field_insert_entry.
    + intros [|b q] Hd; simpl in Hd; [done|]. simpl.
      destruct (decide (a = b)) as [<-|Hne].
      * rewrite field_insert_entry, Ha. destruct Hd as [|[_ Hd]]; [done|]. by apply Hq.
      * by rewrite field_insert_entry_ne.
Qed.

Lemma get_at_path_app v p q :
  TransformRule.get_at_path v (p ++ q) =
  match TransformRule.get_at_path v p with
  | Some w => TransformRule.get_at_path w q
  | None => None
  end.
Proof. revert v. induction p as [|a p IH]; intros v; simpl; [done|]. by case_goal. Qed.

Lemma diverge_snoc p k q :
  diverge (p ++ [k]) q ->
  diverge p q \/ exists b r, q = p ++ b :: r /\ k <> b.
Proof.
  revert q. induction p as [|a p IH]; intros [|b q]; simpl; try done.
  - intros [Hne|[_ []]]. right. by exists b, q.
  - intros [Hne|[-> Hd]]; [left; by left|].
    destruct (IH q Hd) as [|(c & r & -> & Hc)]; [left; by right|]. right. by exists c, r.
Qed.

(** A change of the object at the end of a path *)
Lemma modify_object_spec p k v v' f :
  TransformRule.modify_at_path v p (TransformRule.in_object f) = Some v' ->
  (forall e k', k <> k' -> field (f e) k' = field e k') ->
  (exists e, TransformRule.get_at_path v p = Some (VObject e) /\
             TransformRule.get_at_path v' (p ++ [k]) = field (f e) k) /\
  (forall q, diverge (p ++ [k]) q ->
   TransformRule.get_at_path v' q = TransformRule.get_at_path v q).
Proof.
  intros Hm Hf. destruct (modify_at_path_spec _ _ _ _ Hm) as [(w & w' & Hw & Hin & Hw') Hq].
  unfold TransformRule.in_object in Hin. destruct w as [| | | | |e]; try done. simplify_eq. split.
  - exists e. split; [done|]. rewrite get_at_path_app, Hw'. simpl. by case_goal.
  - intros q [Hd|(b & r & -> & Hne)]%diverge_snoc; [by apply Hq|].
    rewrite !get_at_path_app, Hw, Hw'. simpl. by rewrite Hf.
Qed.

Lemma set_at_path_Ok v p k x v' :
  TransformRule.set_at_path v (p ++ [k]) x = Ok v' <->
  TransformRule.modify_at_path v p (TransformRule.in_object (fun e => insert_entry e k x)) =
    Some v'.
Proof.
  destruct p as [|a p]; [simpl; apply ok_or_Ok|].
  unfold TransformRule.set_at_path. destruct p as [|b p]; cbn [app]; [apply ok_or_Ok|].
  rewrite !app_comm_cons, removelast_last, List.last_last. apply ok_or_Ok.
Qed.

Lemma remove_at_path_Ok v p k v' :
  TransformRule.remove_at_path v (p ++ [k]) = Ok v' ->
  TransformRule.modify_at_path v p (TransformRule.in_object (fun e => remove_entry e k)) =
    Some v' \/
  (v' = v /\ p <> [] /\
   TransformRule.modify_at_path v p (TransformRule.in_object (fun e => remove_entry e k)) = None).
Proof.
  destruct p as [|a p].
  { simpl. intros Hr%ok_or_Ok. by left. }
  unfold TransformRule.remove_at_path. destruct p as [|b p]; cbn [app];
    rewrite ?app_comm_cons, ?removelast_last, ?List.last_last; intros Hr;
    apply Ok_inj in Hr as <-.
  - simpl removelast. simpl List.last. destruct (TransformRule.modify_at_path v [a] _); auto.
  - destruct (TransformRule.modify_at_path v (a :: b :: p) _); auto.
Qed.

Lemma modify_object_None v p f :
  TransformRule.modify_at_path v p (TransformRule.in_object f) = None ->
  forall e, TransformRule.get_at_path v p <> Some (VObject e).
Proof.
  revert v. induction p as [|a p IH]; intros v Hm e; simpl in *.
  - destruct v; simpl in *; congruence.
  - destruct v as [| | | | |es]; simpl in *; try congruence.
    destruct (field es a) as [u|]; [|congruence].
    destruct (TransformRule.modify_at_path u p _) eqn:Hu; [done|]. by apply IH.
Qed.
End paths.

(** A rule that sets a path makes the new value the one found at the path,
    and a rule that removes it leaves nothing there; every path that parts from
    it keeps its value.  Adding if missing keeps an existing value, and adding
    twice is adding once. *)
Theorem transform_path_laws `{JN : JsonNumbers} `{UC : UnicodeCase}
    (name pattern path : string) (value value' x : Value) :
  let parts := split_dots path in
  let rule op := TransformRule.mk name pattern path op in
  (TransformRule.apply_to_value (rule (TransformOperation.Set_ x)) value = Ok value' ->
   TransformRule.get_at_path value' parts = Some x /\
   forall q, diverge parts q ->
   TransformRule.get_at_path value' q = TransformRule.get_at_path value q) /\
  (TransformRule.apply_to_value (rule TransformOperation.Remove) value = Ok value' ->
   TransformRule.get_at_path value' parts = None /\
   forall q, diverge parts q ->
   TransformRule.get_at_path value' q = TransformRule.get_at_path value q) /\
  (TransformRule.apply_to_value (rule (TransformOperation.AddIfMissing x)) value = Ok value' ->
   (forall y, TransformRule.get_at_path value parts = Some y -> value' = value) /\
   TransformRule.apply_to_value (rule (TransformOperation.AddIfMissing x)) value' = Ok value').
Proof.
  simpl. unfold TransformRule.apply_to_value. simpl.
  destruct (exists_last (split_dots_nonempty path)) as (p & k & ->).
  assert (Hins : forall v v', TransformRule.set_at_path v (p ++ [k]) x = Ok v' ->
    TransformRule.get_at_path v' (p ++ [k]) = Some x /\
    forall q, diverge (p ++ [k]) q ->
    TransformRule.get_at_path v' q = TransformRule.get_at_path v q).
  { intros v v' Hm%set_at_path_Ok. apply (modify_object_spec p k) in Hm as [(e & _ & Hk) Hq].
    - by rewrite field_insert_entry in Hk.
    - intros e k' Hne. by apply field_insert_entry_ne. }
  split_and!; [apply Hins| |].
  - intros Hr. apply remove_at_path_Ok in Hr as [Hm|(-> & _ & Hm)].
    + apply (modify_object_spec p k) in Hm as [(e & _ & Hk) Hq].
      * by rewrite field_remove_entry in Hk.
      * intros e k' Hne. by apply field_remove_entry_ne.
    + split; [|done]. rewrite get_at_path_app. pose proof (modify_object_None _ _ _ Hm) as Hn.
      destruct (TransformRule.get_at_path value p) as [[]|]; try done. by destruct (Hn entries).
  - destruct (TransformRule.get_at_path value (p ++ [k])) as [y|] eqn:Hg; intros Ha.
    + apply Ok_inj in Ha as <-. split; [done|]. by rewrite Hg.
    + split; [done|]. apply Hins in Ha as [-> _]. done.
Qed.

Section envelope.
Context `{JN : JsonNumbers} `{UC : UnicodeCase}.

(** The parts of a message a rule may not touch: its kind, identifier, method
    and, for a response, its error *)
Definition same_envelope (m m' : JsonRpcMessage.t) : Prop :=
  match m, m' with
  | JsonRpcMessage.Request r, JsonRpcMessage.Request r' =>
      JsonRpcRequest.jsonrpc r = JsonRpcRequest.jsonrpc r' /\
      JsonRpcRequest.id r = JsonRpcRequest.id r' /\
      JsonRpcRequest.method r = JsonRpcRequest.method r' /\
      (JsonRpcRequest.params r = None <-> JsonRpcRequest.params r' = None)
  | JsonRpcMessage.Response r, JsonRpcMessage.Response r' =>
      JsonRpcResponse.jsonrpc r = JsonRpcResponse.jsonrpc r' /\
      JsonRpcResponse.id r = JsonRpcResponse.id r' /\
      JsonRpcResponse.error r = JsonRpcResponse.error r' /\
      (JsonRpcResponse.result r = None <-> JsonRpcResponse.result r' = None)
  | JsonRpcMessage.Notification n, JsonRpcMessage.Notification n' =>
      JsonRpcNotification.jsonrpc n = JsonRpcNotification.jsonrpc n' /\
      JsonRpcNotification.method n = JsonRpcNotification.method n' /\
      (JsonRpcNotification.params n = None <-> JsonRpcNotification.params n' = None)
  | _, _ => False
  end.

Lemma same_envelope_refl m : same_envelope m m.
Proof. by destruct m. Qed.

Lemma same_envelope_trans m1 m2 m3 :
  same_envelope m1 m2 -> same_envelope m2 m3 -> same_envelope m1 m3.
Proof. destruct m1, m2, m3; simpl; try done; intuition congruence. Qed.

Lemma apply_to_option_None rule v v' :
  TransformRule.apply_to_option rule v = Ok v' -> (v = None <-> v' = None).
Proof.
  destruct v as [v|]; simpl; intros Ha.
  - apply res_bind_Ok in Ha as (w & _ & <-%Ok_inj). done.
  - by apply Ok_inj in Ha as <-.
Qed.

Lemma apply_same_envelope rule m m' :
  TransformRule.apply rule m = Ok m' -> same_envelope m m'.
Proof.
  destruct m; simpl; intros (v & Hv%apply_to_option_None & <-%Ok_inj)%res_bind_Ok;
    simpl; by split_and!.
Qed.

Lemma apply_rules_same_envelope rules ctx : forall m applied,
  same_envelope m (TransformInterceptor.apply_rules rules ctx m applied).1.
Proof.
  induction rules as [|rule rules IH]; intros m applied; simpl; [apply same_envelope_refl|].
  destruct (TransformRule.matches rule ctx); [|apply IH].
  destruct (TransformRule.apply rule m) as [m'|] eqn:Ha; [|apply IH].
  eapply same_envelope_trans; [by eapply apply_same_envelope|apply IH].
Qed.

Lemma no_match_applies_nothing rules ctx : forall m applied,
  existsb (fun rule => TransformRule.matches rule ctx) rules = false ->
  TransformInterceptor.apply_rules rules ctx m applied = (m, applied).
Proof.
  induction rules as [|rule rules IH]; intros m applied; simpl; [done|].
  intros [-> Hr]%orb_false_iff. by apply IH.
Qed.

Lemma response_matches_nothing rules ctx r :
  MessageContext.message ctx = JsonRpcMessage.Response r ->
  existsb (fun rule => TransformRule.matches rule ctx) rules = false.
Proof.
  intros Hm. apply existsb_false. intros rule _.
  unfold TransformRule.matches, MessageContext.method. by rewrite Hm.
Qed.
End envelope.

(** The transform interceptor never blocks or fails and never changes a
    message's kind, identifier, method or error; without a matching rule the
    message passes unchanged.  No rule matches a response, which has no method,
    so the branch of the rules that rewrites results is never taken. *)
Theorem transform_interceptor_envelope `{JN : JsonNumbers} `{UC : UnicodeCase}
    (self : TransformInterceptor.t) c context :
  (exists r, (TransformInterceptor.intercept self c context).1 = Ok r /\
     InterceptionResult.block r = false /\
     same_envelope (MessageContext.message context) (InterceptionResult.message r)) /\
  (TransformInterceptor.should_intercept self context = false ->
   (TransformInterceptor.intercept self c context).1 =
     Ok (InterceptionResult.pass_through (MessageContext.message context))) /\
  (forall resp, MessageContext.message context = JsonRpcMessage.Response resp ->
   TransformInterceptor.should_intercept self context = false).
Proof.
  split_and!.
  - unfold TransformInterceptor.intercept.
    pose proof (apply_rules_same_envelope (TransformInterceptor.rules self) context
      (MessageContext.message context) []) as He.
    destruct (TransformInterceptor.apply_rules _ _ _ _) as [m applied]. simpl in *.
    destruct (negb (length applied =? 0)%nat); by eexists.
  - intros Hs. unfold TransformInterceptor.intercept.
    by rewrite no_match_applies_nothing.
  - intros resp Hm. by eapply response_matches_nothing.
Qed.

(** ** A concrete rule *)

#[global] Instance toy_case : UnicodeCase := {| to_uppercase s := s; to_lowercase s := s |}.

Definition demo_params : Value (JN := ToyNumbers.toy_numbers) :=
  VObject [("args"%string, VObject [("path"%string, VString "/tmp"); ("mode"%string, VNull)])].

Definition demo_result : Value (JN := ToyNumbers.toy_numbers) :=
  VObject [("args"%string, VObject [("path"%string, VString "/home"); ("mode"%string, VNull)])].

Lemma transform_path_laws_witness :
  TransformRule.get_at_path demo_result ["args"; "path"]%string = Some (VString "/home") /\
  TransformRule.get_at_path demo_result ["args"; "mode"]%string =
    TransformRule.get_at_path demo_params ["args"; "mode"]%string.
Proof.
  destruct (transform_path_laws "set" "*" "args.path" demo_params demo_result (VString "/home"))
    as [Hs _].
  destruct Hs as [Hget Hframe]; [reflexivity|]. split; [exact Hget|].
  apply Hframe. right. split; [reflexivity|]. left. discriminate.
Defined.
