(* ===== verification/Text.v ===== *)
(** Text: methods of [str] on UTF-8 byte strings, fixed-point formatting of
    floats, durations as seconds, and the text form of JSON values, which
    [serde_json] reads and writes. *)

From Stdlib Require Import Floats.SpecFloat.
From S2P Require Import Prelude Messages Transform.

(** * Whitespace

    The code points with Unicode's [White_Space], in UTF-8 *)

Module Whitespace.

Definition code (c : Ascii.ascii) : Z := Z.of_nat (Ascii.nat_of_ascii c).

Definition one (c : Ascii.ascii) : bool :=
  ((9 <=? code c) && (code c <=? 13)) || (code c =? 32).

(** U+0085, U+00A0 *)
Definition two (c d : Ascii.ascii) : bool :=
  (code c =? 194) && ((code d =? 133) || (code d =? 160)).

(** U+1680, U+2000..U+200A, U+2028, U+2029, U+202F, U+205F, U+3000 *)
Definition three (c d e : Ascii.ascii) : bool :=
  ((code c =? 225) && (code d =? 154) && (code e =? 128)) ||
  ((code c =? 226) && (code d =? 128) &&
     (((128 <=? code e) && (code e <=? 138)) || (code e =? 168) || (code e =? 169) ||
      (code e =? 175))) ||
  ((code c =? 226) && (code d =? 129) && (code e =? 159)) ||
  ((code c =? 227) && (code d =? 128) && (code e =? 128)).

End Whitespace.

(** [s.trim_start()] *)
Fixpoint trim_start (s : string) : string :=
  match s with
  | EmptyString => EmptyString
  | String c r =>
      if Whitespace.one c then trim_start r
      else match r with
           | EmptyString => s
           | String d r =>
               if Whitespace.two c d then trim_start r
               else match r with
                    | EmptyString => s
                    | String e r => if Whitespace.three c d e then trim_start r else s
                    end
           end
  end.

(** [s.trim_end()]: a suffix that is all whitespace begins at the first byte of
    a code point, since no continuation byte begins one. *)
Fixpoint trim_end (s : string) : string :=
  match s with
  | EmptyString => EmptyString
  | String c r =>
      if str_is_empty (trim_start s) then EmptyString else String c (trim_end r)
  end.

(** [s.trim()] *)
Definition trim (s : string) : string := trim_end (trim_start s).

(** [s.split_whitespace()]: [word] is the word being read. *)
Fixpoint split_words (word s : string) : list string :=
  let flush := if str_is_empty word then [] else [word] in
  match s with
  | EmptyString => flush
  | String c r =>
      if Whitespace.one c then flush ++ split_words "" r
      else match r with
           | EmptyString => [word +:+ String c EmptyString]
           | String d r' =>
               if Whitespace.two c d then flush ++ split_words "" r'
               else match r' with
                    | EmptyString => split_words (word +:+ String c EmptyString) r
                    | String e r'' =>
                        if Whitespace.three c d e then flush ++ split_words "" r''
                        else split_words (word +:+ String c EmptyString) r
                    end
           end
  end.

Definition split_whitespace (s : string) : list string := split_words "" s.

(** [s.contains(needle)] *)
Fixpoint str_contains (needle s : string) : bool :=
  starts_with needle s || match s with String _ s => str_contains needle s | EmptyString => false end.

(** [s.find(needle)] with the slices before and after the first occurrence *)
Fixpoint drop_prefix (p s : string) : option string :=
  match p, s with
  | EmptyString, _ => Some s
  | String c p, String d s => if Ascii.eqb c d then drop_prefix p s else None
  | String _ _, EmptyString => None
  end.

Fixpoint str_find (needle s : string) : option (string * string) :=
  match drop_prefix needle s with
  | Some rest => Some (""%string, rest)
  | None =>
      match s with
      | EmptyString => None
      | String c s =>
          match str_find needle s with
          | Some (before, after) => Some (String c before, after)
          | None => None
          end
      end
  end.

(** [s.rfind(c)]: the slice before the last occurrence *)
Fixpoint str_rfind (c : Ascii.ascii) (s : string) : option string :=
  match s with
  | EmptyString => None
  | String d s =>
      match str_rfind c s with
      | Some before => Some (String d before)
      | None => if Ascii.eqb d c then Some EmptyString else None
      end
  end.

Lemma drop_prefix_spec p s r : drop_prefix p s = Some r <-> s = p +:+ r.
Proof.
  revert s. induction p as [|c p IH]; intros s; simpl.
  - split; [by intros [= ->]|by intros ->].
  - destruct s as [|d s]; [done|]. rewrite str_cons_app.
    destruct (Ascii.eqb_spec c d) as [->|]; [rewrite IH; split; congruence|]. split; congruence.
Qed.

Lemma str_find_spec needle s a b : str_find needle s = Some (a, b) -> s = a +:+ needle +:+ b.
Proof.
  revert a. induction s as [|c s IH]; intros a; cbn [str_find].
  - destruct (drop_prefix needle "") eqn:E; [|done]. intros [= <- <-]. exact (proj1 (drop_prefix_spec _ _ _) E).
  - destruct (drop_prefix needle (String c s)) eqn:E.
    + intros [= <- <-]. exact (proj1 (drop_prefix_spec _ _ _) E).
    + destruct (str_find needle s) as [[a' b']|]; [|done]. intros [= <- <-].
      rewrite str_cons_app. f_equal. by apply IH.
Qed.

(** [s.to_ascii_lowercase()] *)
Definition ascii_lower (c : Ascii.ascii) : Ascii.ascii :=
  let n := Ascii.nat_of_ascii c in
  if ((65 <=? n) && (n <=? 90))%nat then Ascii.ascii_of_nat (n + 32) else c.

Fixpoint to_ascii_lowercase (s : string) : string :=
  match s with
  | EmptyString => EmptyString
  | String c s => String (ascii_lower c) (to_ascii_lowercase s)
  end.

(** The newline *)
Definition newline : string := String (Ascii.ascii_of_nat 10) EmptyString.

(** [s.lines()]: each line with whether a newline ended it; a carriage return
    before the newline goes with it. *)
Fixpoint raw_lines (s : string) : list (string * bool) :=
  match s with
  | EmptyString => []
  | String c r =>
      if Ascii.eqb c (Ascii.ascii_of_nat 10) then (EmptyString, true) :: raw_lines r
      else match raw_lines r with
           | [] => [(String c EmptyString, false)]
           | (l, ended) :: ls => (String c l, ended) :: ls
           end
  end.

Fixpoint strip_return (s : string) : string :=
  match s with
  | EmptyString => EmptyString
  | String c EmptyString => if Ascii.eqb c (Ascii.ascii_of_nat 13) then EmptyString else s
  | String c r => String c (strip_return r)
  end.

Definition lines (s : string) : list string :=
  List.map (fun '(l, ended) => if ended : bool then strip_return l else l) (raw_lines s).

(** A text without a newline is one line, and a newline ends it. *)
Definition one_line (s : string) : bool := negb (str_contains newline s).

Lemma one_line_cons c s :
  one_line (String c s) = negb (Ascii.eqb c (Ascii.ascii_of_nat 10)) && one_line s.
Proof.
  unfold one_line. cbn [str_contains]. rewrite negb_orb. f_equal. f_equal.
  unfold newline, starts_with. cbn [String.prefix].
  destruct (Ascii.ascii_dec (Ascii.ascii_of_nat 10) c) as [<-|Hn].
  - rewrite Ascii.eqb_refl. by destruct s.
  - apply Ascii.eqb_neq in Hn. rewrite Ascii.eqb_sym, Hn. done.
Qed.

Lemma raw_lines_ended l s :
  one_line l = true -> raw_lines (l +:+ newline +:+ s) = (l, true) :: raw_lines s.
Proof.
  induction l as [|c l IH]; [done|]. rewrite one_line_cons, andb_true_iff, negb_true_iff.
  intros [Hc Hl]. change (String c l +:+ newline +:+ s) with (String c (l +:+ newline +:+ s)).
  cbn [raw_lines]. by rewrite Hc, IH.
Qed.

(** A line that a newline ends comes first. *)
Lemma lines_cons l s :
  one_line l = true -> lines (l +:+ newline +:+ s) = strip_return l :: lines s.
Proof. intros H. unfold lines. by rewrite raw_lines_ended. Qed.

Lemma str_app_nil_r (s : string) : s +:+ "" = s.
Proof. induction s as [|c s IH]; [done|]. change (String c (s +:+ "") = String c s). by f_equal. Qed.

(** Lines as a text, and a text that [lines] gives back *)
Definition unlines (ls : list string) : string := String.concat "" (List.map (fun l => l +:+ newline) ls).

Definition whole_line (l : string) : Prop := one_line l = true /\ strip_return l = l.

Lemma unlines_cons l ls : unlines (l :: ls) = l +:+ newline +:+ unlines ls.
Proof.
  unfold unlines. cbn [List.map]. destruct ls as [|l' ls].
  - cbn. by rewrite str_app_nil_r.
  - change (String.concat "" ((l +:+ newline) :: List.map (fun l => l +:+ newline) (l' :: ls)))
      with ((l +:+ newline) +:+ "" +:+ String.concat "" (List.map (fun l => l +:+ newline) (l' :: ls))).
    by rewrite !str_app_assoc.
Qed.

Lemma lines_unlines ls s : Forall whole_line ls -> lines (unlines ls +:+ s) = ls ++ lines s.
Proof.
  induction 1 as [|l ls [Ho Hr] _ IH]; [done|].
  rewrite unlines_cons, !str_app_assoc, lines_cons by done. by rewrite Hr, IH.
Qed.

(** The last character *)
Fixpoint last_char (s : string) : option Ascii.ascii :=
  match s with
  | EmptyString => None
  | String c EmptyString => Some c
  | String _ s => last_char s
  end.

Lemma last_char_app a c s : last_char (a +:+ String c s) = last_char (String c s).
Proof.
  induction a as [|d a IH]; [done|]. rewrite str_cons_app. cbn [last_char]. rewrite IH.
  by destruct a.
Qed.

Lemma strip_return_id s : last_char s <> Some (Ascii.ascii_of_nat 13) -> strip_return s = s.
Proof.
  induction s as [|c s IH]; [done|]. cbn [last_char strip_return]. destruct s as [|d s].
  - intros H. destruct (Ascii.eqb_spec c (Ascii.ascii_of_nat 13)); congruence.
  - intros H. by rewrite IH.
Qed.

(** A trimmed text does not end in a space of one byte. *)
Lemma trim_end_empty s : trim_end s = ""%string -> str_is_empty (trim_start s) = true.
Proof. destruct s as [|c s]; [done|]. cbn [trim_end]. by destruct (str_is_empty _). Qed.

Lemma trim_end_last s c : last_char (trim_end s) = Some c -> Whitespace.one c = false.
Proof.
  induction s as [|d s IH]; [done|]. cbn [trim_end].
  destruct (str_is_empty (trim_start (String d s))) eqn:E; [done|]. cbn [last_char].
  destruct (trim_end s) as [|e s'] eqn:Es; [|by apply IH].
  intros [= ->]. destruct (Whitespace.one c) eqn:Ec; [|done].
  cbn [trim_start] in E. rewrite Ec in E. by rewrite trim_end_empty in E.
Qed.

Lemma str_contains_spec needle s :
  str_contains needle s = true <-> exists a b, s = a +:+ needle +:+ b.
Proof.
  induction s as [|c s IH]; cbn [str_contains]; rewrite orb_true_iff, starts_with_spec.
  - split.
    + intros [[r Hr]|]; [|done]. by exists ""%string, r.
    + intros (a & b & H). destruct a; [|discriminate]. left. by exists b.
  - rewrite IH. split.
    + intros [[r Hr]|(a & b & ->)]; [by exists ""%string, r|]. by exists (String c a), b.
    + intros (a & b & H). destruct a as [|d a]; [left; by exists b|]. right.
      rewrite str_cons_app in H. injection H as -> ->. by exists a, b.
Qed.

(** A newline in two texts put together is in one of them. *)
Lemma str_contains_char_app a b :
  str_contains newline (a +:+ b) = true -> str_contains newline a = true \/ str_contains newline b = true.
Proof.
  induction a as [|c a IH]; [by right|]. rewrite str_cons_app. cbn [str_contains].
  assert (Hd : forall s t, starts_with newline (String c s) = true -> starts_with newline (String c t) = true)
    by (intros s t; unfold newline, starts_with; cbn; by destruct (Ascii.ascii_dec _ c), s, t).
  intros [H|H]%orb_true_iff; [left; apply orb_true_iff; left; by eapply Hd|].
  destruct (IH H) as [Ha|Hb]; [left; apply orb_true_iff; by right|by right].
Qed.

Lemma ascii_lower_idem c : ascii_lower (ascii_lower c) = ascii_lower c.
Proof. destruct c as [[] [] [] [] [] [] [] []]; reflexivity. Qed.

Lemma to_ascii_lowercase_idem s :
  to_ascii_lowercase (to_ascii_lowercase s) = to_ascii_lowercase s.
Proof. induction s as [|c s IH]; [done|]. simpl. by rewrite ascii_lower_idem, IH. Qed.

Lemma trim_start_idem_head s : trim_start (trim_start s) = trim_start s.
Proof.
  (* the recursive calls skip one, two or three bytes *)
  assert (H : forall n s, (String.length s <= n)%nat -> trim_start (trim_start s) = trim_start s).
  { clear s. induction n as [|n IH]; intros s Hn; destruct s as [|c r]; simpl in Hn; try done; [lia|].
    cbn [trim_start]. destruct (Whitespace.one c) eqn:E1; [apply IH; lia|].
    destruct r as [|d r]; [cbn [trim_start]; by rewrite E1|].
    destruct (Whitespace.two c d) eqn:E2; [apply IH; simpl in Hn; lia|].
    destruct r as [|e r]; [cbn [trim_start]; by rewrite E1, E2|].
    destruct (Whitespace.three c d e) eqn:E3; [apply IH; simpl in Hn; lia|].
    cbn [trim_start]. by rewrite E1, E2, E3. }
  by apply (H (String.length s)).
Qed.

(** * Numbers as text *)

Definition decimal_digits (digits : nat) (n : Z) : string :=
  let s := pretty n in
  String.concat "" (List.repeat "0"%string (digits - String.length s)) +:+ s.

(** [n / d] to the nearest integer, ties to even; [0 < d] *)
Definition div_nearest (n d : Z) : Z :=
  let q := n / d in
  let r := n mod d in
  if 2 * r <? d then q else if d <? 2 * r then q + 1 else if Z.even q then q else q + 1.

(** [{:.digits}] of a float: the exact value is rounded; without digits there is
    no point. *)
Definition format_fixed (digits : nat) (x : spec_float) : string :=
  let sign (s : bool) := if s then "-"%string else ""%string in
  let scale := 10 ^ Z.of_nat digits in
  let text (n : Z) :=
    match digits with
    | O => pretty n
    | S _ => pretty (n / scale) +:+ "." +:+ decimal_digits digits (n mod scale)
    end in
  match x with
  | S754_nan => "NaN"
  | S754_infinity s => sign s +:+ "inf"
  | S754_zero s => sign s +:+ text 0
  | S754_finite s m e =>
      sign s +:+ text (if 0 <=? e then Z.pos m * 2 ^ e * scale
                       else div_nearest (Z.pos m * scale) (2 ^ (- e)))
  end.

Example format_fixed_example :
  format_fixed 1 (f64_ratio 1234 10) = "123.4"%string /\
  format_fixed 2 (f64_ratio (-1) 200) = "-0.01"%string /\
  format_fixed 1 (f64_of_Z 85) = "85.0"%string /\
  format_fixed 0 (f64_ratio 1025 2) = "512"%string.
Proof. split_and!; vm_compute; reflexivity. Qed.

(** [Duration::as_secs_f64]; durations are in nanoseconds. *)
Definition as_secs_f64 (nanos : Z) : f64 :=
  f64_add (f64_of_Z (nanos / 1000000000))
          (f64_div (f64_of_Z (nanos mod 1000000000)) (f64_of_Z 1000000000)).

(** [elapsed.as_millis() as u64] *)
Definition as_millis (nanos : Z) : Z := wrap_u64 (nanos / 1000000).

(** * Floats in JSON

    [Number::from_f64] has no number for a NaN or an infinity;
    [as_f32] is what an [f32] field is read as. *)

Class JsonFloats `{JN : JsonNumbers} := {
  num_from_f64 : f64 -> option Num;
  num_as_f64 : Num -> f64;
  num_as_f32 : Num -> f32
}.

Definition is_finite (x : spec_float) : bool :=
  match x with S754_nan | S754_infinity _ => false | _ => true end.

Class JsonFloatLaws `{JF : JsonFloats} := {
  num_from_f64_finite x : num_from_f64 x = None <-> is_finite x = false
}.
Arguments JsonFloatLaws {JN} JF.

(** * Text of JSON values

    [serde_json]'s compact printer and its parser.  A parsed object is a
    [BTreeMap]: its entries come sorted by key. *)

Section canonical.
Context `{JN : JsonNumbers}.

(** Keys are compared as byte strings. *)
Fixpoint insert_key (k : string) (v : Value) (entries : list (string * Value))
  : list (string * Value) :=
  match entries with
  | [] => [(k, v)]
  | (j, w) :: rest =>
      if String.leb k j then (k, v) :: entries else (j, w) :: insert_key k v rest
  end.

Fixpoint canonical (v : Value) : Value :=
  match v with
  | VArray items => VArray (List.map canonical items)
  | VObject entries =>
      VObject (List.fold_right (fun e acc => insert_key e.1 e.2 acc) []
                 (List.map (fun e => (e.1, canonical e.2)) entries))
  | _ => v
  end.

(** No object repeats a key. *)
Fixpoint distinct_keys (v : Value) : bool :=
  match v with
  | VArray items => forallb distinct_keys items
  | VObject entries =>
      bool_decide (NoDup (List.map fst entries)) && forallb (fun e => distinct_keys e.2) entries
  | _ => true
  end.

(** Induction on a value with the hypothesis for its parts *)
Lemma value_ind' (P : Value -> Prop) :
  P VNull -> (forall b, P (VBool b)) -> (forall n, P (VNumber n)) -> (forall s, P (VString s)) ->
  (forall items, Forall P items -> P (VArray items)) ->
  (forall entries, Forall (fun e => P e.2) entries -> P (VObject entries)) ->
  forall v, P v.
Proof.
  intros H1 H2 H3 H4 H5 H6. fix IH 1. intros [|b|n|s|items|entries].
  - exact H1.
  - apply H2.
  - apply H3.
  - apply H4.
  - apply H5. induction items as [|v items IHi]; constructor; [apply IH|exact IHi].
  - apply H6. induction entries as [|[k v] entries IHe]; constructor; [apply IH|exact IHe].
Qed.

Lemma field_insert_key k v e j :
  field (insert_key k v e) j = if String.eqb k j then Some v else field e j.
Proof.
  induction e as [|[i w] e IH]; [done|]. cbn [insert_key].
  destruct (String.leb k i) eqn:El; [done|]. cbn [field]. rewrite IH.
  destruct (String.eqb_spec i j) as [->|], (String.eqb_spec k j) as [->|]; try done.
  exfalso. unfold String.leb in El.
  pose proof (String.compare_antisym j j) as E. by destruct (j ?= j)%string.
Qed.

(** Sorting does not change what a key holds. *)
Lemma field_canonical e j :
  field (match canonical (VObject e) with VObject e => e | _ => [] end) j =
    option_map canonical (field e j).
Proof.
  cbn [canonical]. induction e as [|[k v] e IH]; [done|].
  cbn [List.map List.fold_right fst snd field]. rewrite field_insert_key, IH.
  by destruct (String.eqb k j).
Qed.
End canonical.

(** [serde_json::to_string] of a value, and [serde_json::from_str] into a
    [Value] *)
Class JsonText `{JN : JsonNumbers} := {
  json_to_string : Value -> string;
  json_from_str : string -> option Value
}.

Class JsonTextLaws `{JT : JsonText} := {
  (** The parser reads what the printer wrote, *)
  json_from_to v : distinct_keys v = true -> json_from_str (json_to_string v) = Some (canonical v);
  (** and a printed value is one line without spaces around it. *)
  json_to_string_line v : str_contains newline (json_to_string v) = false;
  json_to_string_trim v : trim (json_to_string v +:+ newline) = json_to_string v;
  json_to_string_some v : json_to_string v <> ""%string
}.
Arguments JsonTextLaws {JN} JT.

(** A newline at the end is trimmed. *)
Lemma trim_start_newline s :
  trim_start (s +:+ newline) = if str_is_empty (trim_start s) then ""%string else trim_start s +:+ newline.
Proof.
  assert (H : forall n s, (String.length s <= n)%nat ->
    trim_start (s +:+ newline) = if str_is_empty (trim_start s) then ""%string else trim_start s +:+ newline).
  { clear s. induction n as [|n IH]; intros s Hn; destruct s as [|c r]; simpl in Hn; try done; [lia|].
    rewrite str_cons_app. cbn [trim_start]. destruct (Whitespace.one c) eqn:E1; [apply IH; lia|].
    destruct r as [|d r].
    { assert (H2 : Whitespace.two c (Ascii.ascii_of_nat 10) = false) by (unfold Whitespace.two; apply andb_false_r).
      change ("" +:+ newline) with (String (Ascii.ascii_of_nat 10) ""). cbv beta iota. by rewrite H2. }
    rewrite str_cons_app. destruct (Whitespace.two c d) eqn:E2; [apply IH; simpl in Hn; lia|].
    destruct r as [|e r].
    { assert (H3 : Whitespace.three c d (Ascii.ascii_of_nat 10) = false)
        by (unfold Whitespace.three; cbn -[Whitespace.code]; by rewrite !andb_false_r).
      change ("" +:+ newline) with (String (Ascii.ascii_of_nat 10) ""). cbv beta iota. by rewrite H3. }
    rewrite str_cons_app. destruct (Whitespace.three c d e) eqn:E3; [apply IH; simpl in Hn; lia|].
    cbn [str_is_empty]. by rewrite !str_cons_app. }
  by apply (H (String.length s)).
Qed.

Lemma trim_end_newline s : trim_end (s +:+ newline) = trim_end s.
Proof.
  induction s as [|c s IH]; [done|]. rewrite str_cons_app. cbn [trim_end]. rewrite <- str_cons_app, trim_start_newline.
  destruct (str_is_empty (trim_start (String c s))) eqn:E; [done|].
  destruct (trim_start (String c s)); [done|]. cbn. by rewrite IH.
Qed.

Lemma trim_newline s : trim (s +:+ newline) = trim s.
Proof.
  unfold trim. rewrite trim_start_newline. destruct (trim_start s) as [|c r]; [done|]. apply trim_end_newline.
Qed.

(** A printed value behind a text that does not end in a return is one line. *)
Lemma json_line_whole `{JT : JsonText} {TL : JsonTextLaws JT} p v :
  one_line p = true -> last_char p <> Some (Ascii.ascii_of_nat 13) -> whole_line (p +:+ json_to_string v).
Proof.
  intros Hp Hl. split.
  - unfold one_line in *. rewrite negb_true_iff in *. apply not_true_is_false. intros H.
    apply str_contains_char_app in H as [H|H]; [congruence|]. by rewrite json_to_string_line in H.
  - apply strip_return_id. destruct (json_to_string v) as [|c s] eqn:E; [by rewrite str_app_nil_r|].
    rewrite last_char_app. rewrite <- E, <- (json_to_string_trim v). unfold trim.
    intros H%trim_end_last. by vm_compute in H.
Qed.

(** * Messages as text *)

Section message_text.
Context `{JT : JsonText}.

(** [serde_json::from_str::<JsonRpcMessage>(s).ok()] and
    [serde_json::to_string(&message)] *)
Definition message_from_str (s : string) : option JsonRpcMessage.t :=
  match json_from_str s with
  | Some v => match JsonRpcMessage.from_value v with Ok m => Some m | Err _ => None end
  | None => None
  end.

Definition message_to_string (m : JsonRpcMessage.t) : string :=
  json_to_string (JsonRpcMessage.to_value m).

(** The message with the objects in it sorted *)
Definition canonical_error (e : JsonRpcError.t) : JsonRpcError.t :=
  JsonRpcError.mk (JsonRpcError.code e) (JsonRpcError.message e)
    (option_map canonical (JsonRpcError.data e)).

Definition canonical_message (m : JsonRpcMessage.t) : JsonRpcMessage.t :=
  match m with
  | JsonRpcMessage.Request r =>
      JsonRpcMessage.Request
        (JsonRpcRequest.mk (JsonRpcRequest.jsonrpc r) (JsonRpcRequest.id r)
           (JsonRpcRequest.method r) (option_map canonical (JsonRpcRequest.params r)))
  | JsonRpcMessage.Response r =>
      JsonRpcMessage.Response
        (JsonRpcResponse.mk (JsonRpcResponse.jsonrpc r) (JsonRpcResponse.id r)
           (option_map canonical (JsonRpcResponse.result r))
           (option_map canonical_error (JsonRpcResponse.error r)))
  | JsonRpcMessage.Notification n =>
      JsonRpcMessage.Notification
        (JsonRpcNotification.mk (JsonRpcNotification.jsonrpc n) (JsonRpcNotification.method n)
           (option_map canonical (JsonRpcNotification.params n)))
  end.

(** Every field of the codec reads the same from a sorted object. *)
Lemma string_of_canonical o : string_of (option_map canonical o) = string_of o.
Proof. by destruct o as [[]|]. Qed.

Lemma id_of_canonical o : RequestId.id_of (option_map canonical o) = RequestId.id_of o.
Proof. by destruct o as [[]|]. Qed.

Lemma without_null_canonical o :
  without_null (option_map canonical o) = option_map canonical (without_null o).
Proof. by destruct o as [[]|]. Qed.

Lemma error_parts_canonical c m d :
  JsonRpcError.from_parts (option_map canonical c) (option_map canonical m) (option_map canonical d) =
    option_map canonical_error (JsonRpcError.from_parts c m d).
Proof.
  unfold JsonRpcError.from_parts. rewrite string_of_canonical, without_null_canonical.
  destruct c as [[]|]; simpl; try done; destruct (string_of m); simpl; try done.
  destruct (num_as_i64 n); simpl; [|done]. by case_match.
Qed.

(** The entries of a sorted object *)
Lemma canonical_object e :
  exists e', canonical (VObject e) = VObject e' /\
    forall k, field e' k = option_map canonical (field e k).
Proof. eexists. split; [reflexivity|]. intros k. exact (field_canonical e k). Qed.

Ltac by_fields v :=
  let items := fresh "items" in
  let e := fresh "e" in
  destruct v as [| | | |items|e]; try done;
  [ repeat (destruct items as [|? items]; try done)
  | let e' := fresh "e'" in let He := fresh "He" in let Hf := fresh "Hf" in
    destruct (canonical_object e) as (e' & He & Hf); rewrite He; cbn; rewrite !Hf ].

Lemma error_from_canonical v :
  JsonRpcError.from_value (canonical v) = option_map canonical_error (JsonRpcError.from_value v).
Proof.
  by_fields v.
  - apply (error_parts_canonical (Some v) (Some v0) (Some v1)).
  - apply error_parts_canonical.
Qed.

Lemma error_of_canonical o :
  JsonRpcResponse.error_of (option_map canonical o) =
    option_map (option_map canonical_error) (JsonRpcResponse.error_of o).
Proof.
  destruct o as [v|]; [|done].
  assert (Hn : forall w, w <> VNull ->
            JsonRpcResponse.error_of (Some w) = option_map Some (JsonRpcError.from_value w)).
  { intros w Hw. destruct w; simpl; try done; by destruct (JsonRpcError.from_value _). }
  assert (Hc : v = VNull \/ v <> VNull) by (destruct v; auto).
  destruct Hc as [->|Hv]; [done|].
  simpl option_map at 1. rewrite !Hn, error_from_canonical; [|done|by destruct v].
  by destruct (JsonRpcError.from_value v).
Qed.

Lemma request_from_canonical v :
  option_map JsonRpcMessage.Request (JsonRpcRequest.from_value (canonical v)) =
    option_map (fun r => canonical_message (JsonRpcMessage.Request r)) (JsonRpcRequest.from_value v).
Proof.
  assert (H : forall a b c d,
    option_map JsonRpcMessage.Request
      (JsonRpcRequest.from_parts (option_map canonical a) (option_map canonical b)
         (option_map canonical c) (option_map canonical d)) =
    option_map (fun r => canonical_message (JsonRpcMessage.Request r))
      (JsonRpcRequest.from_parts a b c d)).
  { intros. unfold JsonRpcRequest.from_parts.
    rewrite !string_of_canonical, id_of_canonical, without_null_canonical. by repeat case_match. }
  by_fields v; [apply (H (Some _) (Some _) (Some _) (Some _))|apply H].
Qed.

Lemma response_from_canonical v :
  option_map JsonRpcMessage.Response (JsonRpcResponse.from_value (canonical v)) =
    option_map (fun r => canonical_message (JsonRpcMessage.Response r)) (JsonRpcResponse.from_value v).
Proof.
  assert (H : forall a b c d,
    option_map JsonRpcMessage.Response
      (JsonRpcResponse.from_parts (option_map canonical a) (option_map canonical b)
         (option_map canonical c) (option_map canonical d)) =
    option_map (fun r => canonical_message (JsonRpcMessage.Response r))
      (JsonRpcResponse.from_parts a b c d)).
  { intros. unfold JsonRpcResponse.from_parts.
    rewrite string_of_canonical, id_of_canonical, without_null_canonical, error_of_canonical.
    destruct (string_of a), (RequestId.id_of b), (JsonRpcResponse.error_of d); done. }
  by_fields v; [apply (H (Some _) (Some _) (Some _) (Some _))|apply H].
Qed.

Lemma notification_from_canonical v :
  option_map JsonRpcMessage.Notification (JsonRpcNotification.from_value (canonical v)) =
    option_map (fun n => canonical_message (JsonRpcMessage.Notification n))
      (JsonRpcNotification.from_value v).
Proof.
  assert (H : forall a c d,
    option_map JsonRpcMessage.Notification
      (JsonRpcNotification.from_parts (option_map canonical a)
         (option_map canonical c) (option_map canonical d)) =
    option_map (fun n => canonical_message (JsonRpcMessage.Notification n))
      (JsonRpcNotification.from_parts a c d)).
  { intros. unfold JsonRpcNotification.from_parts.
    rewrite !string_of_canonical, without_null_canonical. by repeat case_match. }
  by_fields v; [apply (H (Some _) (Some _) (Some _))|apply H].
Qed.

Lemma message_from_canonical v m :
  JsonRpcMessage.from_value v = Ok m ->
  JsonRpcMessage.from_value (canonical v) = Ok (canonical_message m).
Proof.
  unfold JsonRpcMessage.from_value.
  pose proof (request_from_canonical v) as Hq. pose proof (response_from_canonical v) as Hr.
  pose proof (notification_from_canonical v) as Hn.
  destruct (JsonRpcRequest.from_value v) as [r|], (JsonRpcRequest.from_value (canonical v)) as [r'|];
    try discriminate Hq; [intros [= <-]; injection Hq as ->; reflexivity|].
  destruct (JsonRpcResponse.from_value v) as [r|], (JsonRpcResponse.from_value (canonical v)) as [r'|];
    try discriminate Hr; [intros [= <-]; injection Hr as ->; reflexivity|].
  destruct (JsonRpcNotification.from_value v) as [r|],
    (JsonRpcNotification.from_value (canonical v)) as [r'|];
    try discriminate Hn; [intros [= <-]; injection Hn as ->; reflexivity|discriminate].
Qed.

(** What is printed reads back as the message, with sorted objects. *)
Lemma message_text_roundtrip {NL : JsonNumberLaws JN} {TL : JsonTextLaws JT} m :
  JsonRpcMessage.wf m -> distinct_keys (JsonRpcMessage.to_value m) = true ->
  message_from_str (message_to_string m) = Some (canonical_message (JsonRpcMessage.normalize m)).
Proof.
  intros Hw Hd. unfold message_from_str, message_to_string. rewrite json_from_to by done.
  by rewrite (message_from_canonical _ (JsonRpcMessage.normalize m)) by (by apply message_from_to_value).
Qed.

(** A printed message is a text without spaces around it, and not blank. *)
Lemma message_text_trim {TL : JsonTextLaws JT} m :
  trim (message_to_string m) = message_to_string m /\ str_is_empty (message_to_string m) = false.
Proof.
  unfold message_to_string. split; [by rewrite <- trim_newline, json_to_string_trim|].
  pose proof (json_to_string_some (JsonRpcMessage.to_value m)) as H. by destruct (json_to_string _).
Qed.
End message_text.

(** An instance: values are countable, and are written in binary. *)
Module ToyText.
Import ToyNumbers.

Fixpoint to_tree (v : @Value toy_numbers) : gen_tree (unit + bool + Z + string) :=
  match v with
  | VNull => GenLeaf (inl (inl (inl tt)))
  | VBool b => GenLeaf (inl (inl (inr b)))
  | VNumber n => GenLeaf (inl (inr n))
  | VString s => GenLeaf (inr s)
  | VArray items => GenNode 0 (List.map to_tree items)
  | VObject entries => GenNode 1 (List.map (fun e => GenNode 2 [GenLeaf (inr e.1); to_tree e.2]) entries)
  end.

Definition entry_of (of_tree : gen_tree (unit + bool + Z + string) -> @Value toy_numbers)
    (t : gen_tree (unit + bool + Z + string)) : string * @Value toy_numbers :=
  match t with
  | GenNode 2 [GenLeaf (inr k); v] => (k, of_tree v)
  | _ => (""%string, VNull)
  end.

Fixpoint of_tree (t : gen_tree (unit + bool + Z + string)) : @Value toy_numbers :=
  match t with
  | GenLeaf (inl (inl (inl _))) => VNull
  | GenLeaf (inl (inl (inr b))) => VBool b
  | GenLeaf (inl (inr n)) => VNumber n
  | GenLeaf (inr s) => VString s
  | GenNode 0 ts => VArray (List.map of_tree ts)
  | GenNode 1 ts =>
      VObject (List.map (fun t => match t with
                                  | GenNode 2 [GenLeaf (inr k); v] => (k, of_tree v)
                                  | _ => (""%string, VNull)
                                  end) ts)
  | _ => VNull
  end.

Lemma of_to_tree v : of_tree (to_tree v) = v.
Proof.
  induction v as [| | | |items IH|entries IH] using value_ind'; try done; cbn; f_equal; rewrite map_map.
  - induction IH as [|v items Hv _ IH]; cbn; congruence.
  - induction IH as [|[k v] entries Hv _ IH]; cbn in *; congruence.
Qed.

Fixpoint bits (p : positive) : string :=
  match p with
  | xH => "1"
  | xO p => String "0" (bits p)
  | xI p => String "1" (bits p)
  end.

Fixpoint of_bits (s : string) : positive :=
  match s with
  | EmptyString | String _ EmptyString => xH
  | String c s => if Ascii.eqb c "0" then xO (of_bits s) else xI (of_bits s)
  end.

Lemma bits_cons p : exists c s, bits p = String c s /\ (c = "0" \/ c = "1")%char.
Proof. destruct p; simpl; eauto. Qed.

Lemma of_bits_bits p : of_bits (bits p) = p.
Proof.
  induction p as [p IH|p IH|]; [| |done]; simpl;
    destruct (bits_cons p) as (c & s & E & _); rewrite E in *; by rewrite IH.
Qed.

Fixpoint is_bits (s : string) : bool :=
  match s with
  | EmptyString => true
  | String c s => (Ascii.eqb c "0" || Ascii.eqb c "1") && is_bits s
  end.

Lemma is_bits_bits p : is_bits (bits p) = true.
Proof. by induction p. Qed.

#[global] Instance toy_json_text : JsonText := {|
  json_to_string v := bits (encode (to_tree (canonical v)));
  json_from_str s := if is_bits s then option_map of_tree (decode (of_bits s)) else None
|}.

Lemma bits_line p : str_contains newline (bits p) = false.
Proof. induction p as [p IH|p IH|]; simpl; auto. Qed.

Lemma bits_trim_start p s : trim_start (bits p +:+ s) = bits p +:+ s.
Proof.
  destruct (bits_cons p) as (c & r & -> & Hc). rewrite str_cons_app.
  destruct Hc as [-> | ->]; simpl; destruct (r +:+ s) as [|d [|e t]]; done.
Qed.

Lemma bits_trim p : trim (bits p +:+ newline) = bits p.
Proof.
  unfold trim. rewrite bits_trim_start.
  induction p as [p IH|p IH|]; [| |by vm_compute].
  all: pose proof (bits_trim_start (xI p) newline) as H1; pose proof (bits_trim_start (xO p) newline) as H0;
    cbn [bits] in *; rewrite str_cons_app in *; cbn [trim_end]; rewrite ?H1, ?H0; cbn [str_is_empty]; by rewrite IH.
Qed.

(** Finite floats all have the number zero. *)
#[global] Instance toy_floats : JsonFloats := {|
  num_from_f64 x := if is_finite x then Some 0 else None;
  num_as_f64 n := f64_of_Z n;
  num_as_f32 n := f32_of_Z n
|}.

#[global] Instance toy_float_laws : JsonFloatLaws toy_floats.
Proof. split. intros x. cbn. by destruct (is_finite x). Qed.

#[global] Instance toy_json_text_laws : JsonTextLaws toy_json_text.
Proof.
  split.
  - intros v _. cbn. rewrite is_bits_bits, of_bits_bits, decode_encode. cbn. by rewrite of_to_tree.
  - intros v. apply bits_line.
  - intros v. apply bits_trim.
  - intros v. cbn. by destruct (bits_cons (encode (to_tree (canonical v)))) as (c & s & -> & _).
Qed.
End ToyText.
