(* ===== verification/Common.v ===== *)
(** Types shared by the proxy and its monitor ([acdp-common/src]): the records
    of [types.rs], the second JSON-RPC codec of [mcp.rs], the messages of
    [messages.rs] and the commands of [commands.rs].  Identifiers are the
    hyphenated text of their UUID, instants and durations nanoseconds. *)

From S2P Require Import Prelude Messages Text.

(** * JSON-RPC as the monitor reads it ([mcp.rs])

    The identifier is any JSON value, and absent parameters are written as
    null. *)

Module mcp.

Module JsonRpcRequest.
Record t `{JN : JsonNumbers} : Type := mk {
  jsonrpc : string;
  id : Value;
  method : string;
  params : option Value
}.
End JsonRpcRequest.

Module JsonRpcResponse.
(** Its [JsonRpcError] has the fields and the derives of the core's. *)
Record t `{JN : JsonNumbers} : Type := mk {
  jsonrpc : string;
  id : Value;
  result : option Value;
  error : option JsonRpcError.t
}.
End JsonRpcResponse.

Module JsonRpcNotification.
Record t `{JN : JsonNumbers} : Type := mk {
  jsonrpc : string;
  method : string;
  params : option Value
}.
End JsonRpcNotification.

Module JsonRpcMessage.
Inductive t `{JN : JsonNumbers} : Type :=
| Request (req : JsonRpcRequest.t)
| Response (resp : JsonRpcResponse.t)
| Notification (notif : JsonRpcNotification.t).

Section message.
Context `{JN : JsonNumbers}.

Definition request_from_parts (jsonrpc id method params : option Value) : option JsonRpcRequest.t :=
  match string_of jsonrpc, id, string_of method with
  | Some jsonrpc, Some id, Some method =>
      Some (JsonRpcRequest.mk _ jsonrpc id method (without_null params))
  | _, _, _ => None
  end.

Definition response_from_parts (jsonrpc id result error : option Value) : option JsonRpcResponse.t :=
  match string_of jsonrpc, id, Messages.JsonRpcResponse.error_of error with
  | Some jsonrpc, Some id, Some error =>
      Some (JsonRpcResponse.mk _ jsonrpc id (without_null result) error)
  | _, _, _ => None
  end.

Definition notification_from_parts (jsonrpc method params : option Value)
  : option JsonRpcNotification.t :=
  match string_of jsonrpc, string_of method with
  | Some jsonrpc, Some method => Some (JsonRpcNotification.mk _ jsonrpc method (without_null params))
  | _, _ => None
  end.

(** A struct is read from an object or from the array of its fields. *)
Definition from_value (v : Value) : option t :=
  let request :=
    match v with
    | VObject e =>
        request_from_parts (field e "jsonrpc") (field e "id") (field e "method") (field e "params")
    | VArray [j; i; m; p] => request_from_parts (Some j) (Some i) (Some m) (Some p)
    | _ => None
    end in
  let response :=
    match v with
    | VObject e =>
        response_from_parts (field e "jsonrpc") (field e "id") (field e "result") (field e "error")
    | VArray [j; i; r; x] => response_from_parts (Some j) (Some i) (Some r) (Some x)
    | _ => None
    end in
  let notification :=
    match v with
    | VObject e => notification_from_parts (field e "jsonrpc") (field e "method") (field e "params")
    | VArray [j; m; p] => notification_from_parts (Some j) (Some m) (Some p)
    | _ => None
    end in
  match request, response, notification with
  | Some r, _, _ => Some (Request r)
  | _, Some r, _ => Some (Response r)
  | _, _, Some n => Some (Notification n)
  | _, _, _ => None
  end.

(** [Option<Value>] without [skip_serializing_if] *)
Definition nullable (v : option Value) : Value :=
  match v with Some v => v | None => VNull end.

Definition to_value (self : t) : Value :=
  match self with
  | Request r =>
      VObject [("jsonrpc"%string, VString (JsonRpcRequest.jsonrpc r));
               ("id"%string, JsonRpcRequest.id r);
               ("method"%string, VString (JsonRpcRequest.method r));
               ("params"%string, nullable (JsonRpcRequest.params r))]
  | Response r =>
      VObject ([("jsonrpc"%string, VString (JsonRpcResponse.jsonrpc r));
                ("id"%string, JsonRpcResponse.id r)] ++
               optional_entry "result" (JsonRpcResponse.result r) ++
               optional_entry "error" (option_map JsonRpcError.to_value (JsonRpcResponse.error r)))
  | Notification n =>
      VObject [("jsonrpc"%string, VString (JsonRpcNotification.jsonrpc n));
               ("method"%string, VString (JsonRpcNotification.method n));
               ("params"%string, nullable (JsonRpcNotification.params n))]
  end.

Definition get_method (self : t) : option string :=
  match self with
  | Request req => Some (JsonRpcRequest.method req)
  | Notification notif => Some (JsonRpcNotification.method notif)
  | Response _ => None
  end.

Definition get_id (self : t) : option Value :=
  match self with
  | Request req => Some (JsonRpcRequest.id req)
  | Response resp => Some (JsonRpcResponse.id resp)
  | Notification _ => None
  end.
End message.

Section text.
Context `{JT : JsonText}.

Definition parse (input : string) : option t :=
  match json_from_str input with Some v => from_value v | None => None end.
Definition to_string (self : t) : string := json_to_string (to_value self).
End text.
End JsonRpcMessage.

End mcp.

(** * Records ([types.rs]) *)

Abbreviation ProxyId := string (only parsing).
Abbreviation ClientId := string (only parsing).
Abbreviation ServerId := string (only parsing).
Abbreviation SessionId := string (only parsing).
Abbreviation MessageId := string (only parsing).

Module LogLevel.
Inductive t : Type :=
| Debug
| Info
| Warning
| Error
| Request
| Response.

#[global] Instance t_eq_dec : EqDecision t.
Proof. solve_decision. Defined.
End LogLevel.

Module LogEntry.
Record t `{JN : JsonNumbers} : Type := mk {
  id : string;
  timestamp : Z;
  level : LogLevel.t;
  message : string;
  proxy_id : ProxyId;
  request_id : option string;
  metadata : option Value
}.

Definition new `{JN : JsonNumbers} (id : string) (now : Z) (level : LogLevel.t) (message : string)
    (proxy_id : ProxyId) : t :=
  mk _ id now level message proxy_id None None.

Definition with_request_id `{JN : JsonNumbers} (self : t) (request_id : string) : t :=
  mk _ (id self) (timestamp self) (level self) (message self) (proxy_id self) (Some request_id)
     (metadata self).

Definition with_metadata `{JN : JsonNumbers} (self : t) (metadata : Value) : t :=
  mk _ (id self) (timestamp self) (level self) (message self) (proxy_id self) (request_id self)
     (Some metadata).
End LogEntry.

Module ProxyStats.
Record t : Type := mk {
  proxy_id : ProxyId;
  total_requests : Z;
  successful_requests : Z;
  failed_requests : Z;
  active_connections : Z;
  uptime : Z;
  bytes_transferred : Z
}.

Definition default (id : ProxyId) : t := mk id 0 0 0 0 0 0.
End ProxyStats.

Module ProxyStatus.
Inductive t : Type :=
| Starting
| Running
| Stopped
| Error (x : string).
End ProxyStatus.

Module TransportType.
Inductive t : Type :=
| Stdio
| HttpSse
| HttpStream.

#[global] Instance t_eq_dec : EqDecision t.
Proof. solve_decision. Defined.
End TransportType.

Module ProxyInfo.
Record t : Type := mk {
  id : ProxyId;
  name : string;
  listen_address : string;
  target_command : list string;
  status : ProxyStatus.t;
  stats : ProxyStats.t;
  transport_type : TransportType.t;
  routing_mode : option string;
  model_status : option string
}.
End ProxyInfo.

Module MCPError.
Record t `{JN : JsonNumbers} : Type := mk {
  code : Z;
  message : string;
  data : option Value
}.
End MCPError.

Module MCPRequest.
Record t `{JN : JsonNumbers} : Type := mk {
  id : string;
  method : string;
  params : option Value
}.
End MCPRequest.

Module MCPResponse.
Record t `{JN : JsonNumbers} : Type := mk {
  id : string;
  result : option Value;
  error : option MCPError.t
}.
End MCPResponse.

Module ClientConnectionType.
Inductive t : Type :=
| WebSocket
| Stdio
| Http
| HttpSse
| Custom (x : string).
End ClientConnectionType.

Module ClientInfo.
Record t : Type := mk {
  id : ClientId;
  name : string;
  connection_type : ClientConnectionType.t;
  connected_at : Z;
  last_activity : Z;
  active_sessions : list SessionId;
  total_requests : Z
}.
End ClientInfo.

Module ServerEndpoint.
Inductive t : Type :=
| Command (program : string) (args : list string)
| Url (x : string)
| Socket (x : string)
| Custom (x : string).
End ServerEndpoint.

Module ServerStatus.
Inductive t : Type :=
| Starting
| Running
| Degraded (x : string)
| Stopped
| Error (x : string).
End ServerStatus.

Module ServerCapabilities.
Record t : Type := mk {
  tools : list string;
  resources : list string;
  prompts : list string;
  features : list string
}.
End ServerCapabilities.

Module HealthMetrics.
Record t : Type := mk {
  uptime_seconds : Z;
  response_time_ms : f64;
  success_rate : f64;
  cpu_percent : f64;
  memory_bytes : Z;
  last_error : option string
}.
End HealthMetrics.

Module ServerInfo.
Record t : Type := mk {
  id : ServerId;
  name : string;
  endpoint : ServerEndpoint.t;
  status : ServerStatus.t;
  capabilities : option ServerCapabilities.t;
  active_sessions : list SessionId;
  health_metrics : HealthMetrics.t
}.
End ServerInfo.

Module SessionStatus.
Inductive t : Type :=
| Starting
| Active
| Idle
| Completed
| Failed (x : string).
End SessionStatus.

Module ActiveRequest.
Record t : Type := mk {
  request_id : string;
  method : string;
  started_at : Z;
  duration_ms : Z;
  target_server : option ServerId
}.
End ActiveRequest.

Module TransformDirection.
Inductive t : Type :=
| Request
| Response.
End TransformDirection.

Module AppliedTransformation.
Record t : Type := mk {
  rule_id : string;
  rule_name : string;
  direction : TransformDirection.t;
  duration_ms : Z;
  success : bool;
  notes : option string
}.
End AppliedTransformation.

Module ProxySession.
Record t : Type := mk {
  id : SessionId;
  client_id : ClientId;
  server_id : ServerId;
  started_at : Z;
  last_activity : Z;
  request_count : Z;
  bytes_in : Z;
  bytes_out : Z;
  status : SessionStatus.t;
  active_requests : list ActiveRequest.t;
  transformations_applied : list AppliedTransformation.t
}.
End ProxySession.

Module TransformationStats.
Record t : Type := mk {
  applied : Z;
  blocked : Z;
  errors : Z;
  last_applied : option Z
}.
End TransformationStats.

Module TransformationRule.
Record t : Type := mk {
  id : string;
  name : string;
  description : string;
  enabled : bool;
  scope : string;
  stats : TransformationStats.t
}.
End TransformationRule.

Module RoutingRule.
Record t : Type := mk {
  id : string;
  name : string;
  description : string;
  match_criteria : gmap string string;
  target_servers : list ServerId;
  enabled : bool
}.
End RoutingRule.

Module RoutingDecision.
Record t : Type := mk {
  session_id : SessionId;
  rule_id : option string;
  target_server : ServerId;
  reason : string;
  timestamp : Z
}.
End RoutingDecision.

Module GatewayStatus.
Inductive t : Type :=
| Starting
| Running
| Degraded
| Stopped.
End GatewayStatus.

Module GatewayMetrics.
Record t : Type := mk {
  requests_per_minute : f64;
  bytes_in_per_sec : f64;
  bytes_out_per_sec : f64;
  active_sessions : nat;
  error_rate : f64;
  average_latency_ms : f64
}.
End GatewayMetrics.

Module GatewayState.
Record t : Type := mk {
  status : GatewayStatus.t;
  uptime_seconds : Z;
  metrics : GatewayMetrics.t
}.
End GatewayState.

Module MessageTiming.
Record t : Type := mk {
  received_at : Z;
  forwarded_at : option Z;
  responded_at : option Z
}.
End MessageTiming.

Module MessageStatus.
Inductive t : Type :=
| Pending
| InFlight
| Completed
| Failed (x : string).
End MessageStatus.

Module MessageFlow.
Record t `{JN : JsonNumbers} : Type := mk {
  id : MessageId;
  session_id : SessionId;
  client_request : mcp.JsonRpcRequest.t;
  server_request : option mcp.JsonRpcRequest.t;
  server_response : option mcp.JsonRpcResponse.t;
  client_response : option mcp.JsonRpcResponse.t;
  transformations : list AppliedTransformation.t;
  timing : MessageTiming.t;
  status : MessageStatus.t
}.
End MessageFlow.

(** * Messages between proxy and monitor ([messages.rs]) *)

Module InterceptorInfo.
Record t : Type := mk {
  name : string;
  priority : Z;
  enabled : bool;
  total_intercepted : Z;
  total_modified : Z;
  total_blocked : Z;
  avg_processing_time_ms : f64
}.
End InterceptorInfo.

Module InterceptorManagerInfo.
Record t : Type := mk {
  total_messages_processed : Z;
  total_modifications_made : Z;
  total_messages_blocked : Z;
  avg_processing_time_ms : f64;
  messages_by_method : gmap string Z;
  interceptors : list InterceptorInfo.t
}.
End InterceptorManagerInfo.

Module SessionMetrics.
Record t : Type := mk {
  proxy_id : ProxyId;
  session_id : SessionId;
  total_predictions : Z;
  successful_predictions : Z;
  accuracy : f32;
  optimization_score : f32;
  message_count : Z
}.
End SessionMetrics.

Module IpcMessage.
Inductive t `{JN : JsonNumbers} : Type :=
| ProxyStarted (info : ProxyInfo.t)
| ProxyStopped (id : ProxyId)
| LogEntry (entry : LogEntry.t)
| StatsUpdate (stats : ProxyStats.t)
| InterceptorStats (proxy_id : ProxyId) (stats : InterceptorManagerInfo.t)
| ClientConnected (info : ClientInfo.t)
| ClientDisconnected (id : ClientId)
| ClientUpdated (info : ClientInfo.t)
| ClientRequest (client_id : ClientId) (request : mcp.JsonRpcRequest.t) (session_id : option SessionId)
| ServerConnected (info : ServerInfo.t)
| ServerDisconnected (id : ServerId)
| ServerUpdated (info : ServerInfo.t)
| ServerResponse (server_id : ServerId) (response : mcp.JsonRpcResponse.t)
    (session_id : option SessionId)
| ServerHealthUpdate (server_id : ServerId) (metrics : HealthMetrics.t)
| SessionStarted (session : ProxySession.t)
| SessionUpdated (session : ProxySession.t)
| SessionEnded (id : SessionId)
| TransformationRules (rules : list TransformationRule.t)
| TransformationApplied (session_id : SessionId) (transformation : AppliedTransformation.t)
| RoutingRules (rules : list RoutingRule.t)
| RoutingDecision (decision : RoutingDecision.t)
| SemanticPrediction (query predicted_tool : string) (confidence : f64)
    (actual_tool : option string) (success : option bool)
| GatewayStateUpdated (state : GatewayState.t)
| GatewayMetrics (metrics : GatewayMetrics.t)
| MessageFlowUpdate (flow : MessageFlow.t)
| SessionStats (metrics : SessionMetrics.t)
| GetStatus (id : ProxyId)
| GetLogs (proxy_id : ProxyId) (limit : option nat)
| Shutdown (id : ProxyId)
| ToggleInterceptor (proxy_id : ProxyId) (interceptor_name : string)
| TuiQuery (query correlation_id : string)
| TuiMcpRequest (method : string) (params : option Value) (correlation_id : string)
| TuiQueryResponse (correlation_id response : string) (error : option string)
    (ttft_ms tokens_per_sec : option f64) (total_tokens : option nat)
    (interceptor_delay_ms : option f64)
| RoutingModeChange (proxy_id : ProxyId) (mode : string)
| RoutingModeChanged (proxy_id : ProxyId) (mode : string)
| Ping
| Pong
| Error (message : string) (proxy_id : option ProxyId).
End IpcMessage.

Module IpcEnvelope.
Record t `{JN : JsonNumbers} : Type := mk {
  message : IpcMessage.t;
  timestamp : Z;
  correlation_id : option string
}.
End IpcEnvelope.

(** * Commands of the monitor ([commands.rs])

    A command is the list of messages it hands to [IpcClient::send] and its
    result; [sent] is the outcome of that call, an error being its text. *)

Module IpcQueryResponse.
Record t : Type := mk {
  correlation_id : string;
  response : string;
  error : option string;
  ttft_ms : option f64;
  tokens_per_sec : option f64;
  total_tokens : option nat;
  interceptor_delay_ms : option f64
}.

Definition is_success (self : t) : bool :=
  match error self with None => true | Some _ => false end.

Definition text (self : t) : string :=
  match error self with Some error => error | None => response self end.
End IpcQueryResponse.

Module commands.
Section commands.
Context `{JN : JsonNumbers}.

Definition send_ipc_query (uuid query : string) (sent : Res unit string)
  : list IpcMessage.t * Res IpcQueryResponse.t string :=
  ([IpcMessage.TuiQuery query uuid],
   let? _ := sent in
   Err "send_ipc_query requires async response handling - use send_ipc_query_async"%string).

Definition send_ipc_query_async (uuid query : string) (sent : Res unit string)
  : list IpcMessage.t * Res string string :=
  ([IpcMessage.TuiQuery query uuid], let? _ := sent in Ok uuid).

Definition send_ipc_mcp_request_async (uuid method : string) (params : option Value)
    (sent : Res unit string) : list IpcMessage.t * Res string string :=
  ([IpcMessage.TuiMcpRequest method params uuid], let? _ := sent in Ok uuid).

Definition set_routing_mode (proxy_id : ProxyId) (mode : string) (sent : Res unit string)
  : list IpcMessage.t * Res unit string :=
  let normalized := to_ascii_lowercase mode in
  if String.eqb normalized "bypass" || String.eqb normalized "semantic" ||
     String.eqb normalized "hybrid"
  then ([IpcMessage.RoutingModeChange proxy_id normalized], sent)
  else ([], Err ("Invalid routing mode '" +:+ mode +:+
                 "'. Valid modes: bypass, semantic, hybrid")).

Definition get_proxy_status (proxy_id : ProxyId) (sent : Res unit string)
  : list IpcMessage.t * Res unit string := ([IpcMessage.GetStatus proxy_id], sent).

Definition get_proxy_logs (proxy_id : ProxyId) (limit : option nat) (sent : Res unit string)
  : list IpcMessage.t * Res unit string := ([IpcMessage.GetLogs proxy_id limit], sent).

Definition shutdown_proxy (proxy_id : ProxyId) (sent : Res unit string)
  : list IpcMessage.t * Res unit string := ([IpcMessage.Shutdown proxy_id], sent).

Definition toggle_interceptor (proxy_id : ProxyId) (interceptor_name : string)
    (sent : Res unit string) : list IpcMessage.t * Res unit string :=
  ([IpcMessage.ToggleInterceptor proxy_id interceptor_name], sent).

Definition send_ping (sent : Res unit string) : list IpcMessage.t * Res unit string :=
  ([IpcMessage.Ping], sent).
End commands.
End commands.

(** * The two codecs *)

Section codecs.
Context `{JN : JsonNumbers}.

(** A message of the monitor's codec as one of the core's: a response or
    request whose identifier the core cannot hold has none. *)
Definition to_core (m : mcp.JsonRpcMessage.t) : option JsonRpcMessage.t :=
  match m with
  | mcp.JsonRpcMessage.Request r =>
      match RequestId.from_value (mcp.JsonRpcRequest.id r) with
      | Some id =>
          Some (JsonRpcMessage.Request
                  (JsonRpcRequest.mk (mcp.JsonRpcRequest.jsonrpc r) id
                     (mcp.JsonRpcRequest.method r) (mcp.JsonRpcRequest.params r)))
      | None => None
      end
  | mcp.JsonRpcMessage.Response r =>
      match RequestId.from_value (mcp.JsonRpcResponse.id r) with
      | Some id =>
          Some (JsonRpcMessage.Response
                  (JsonRpcResponse.mk (mcp.JsonRpcResponse.jsonrpc r) id
                     (mcp.JsonRpcResponse.result r) (mcp.JsonRpcResponse.error r)))
      | None => None
      end
  | mcp.JsonRpcMessage.Notification n =>
      Some (JsonRpcMessage.Notification
              (JsonRpcNotification.mk (mcp.JsonRpcNotification.jsonrpc n)
                 (mcp.JsonRpcNotification.method n) (mcp.JsonRpcNotification.params n)))
  end.

(** The identifier a reader of [v] looks at *)
Definition id_in (v : Value) : option Value :=
  match v with
  | VObject e => field e "id"
  | VArray [_; i; _; _] => Some i
  | _ => None
  end.

(** Absent, or a string, an [i64] or null *)
Definition readable_id (v : Value) : Prop :=
  forall i, id_in v = Some i -> RequestId.from_value i <> None.

Definition core_reads (v : Value) : option JsonRpcMessage.t :=
  match JsonRpcMessage.from_value v with Ok m => Some m | Err _ => None end.

(** A request or response, by its parts *)
Lemma codecs_agree_call j i m p r x :
  (forall w, i = Some w -> RequestId.from_value w <> None) ->
  match mcp.JsonRpcMessage.request_from_parts j i m p, mcp.JsonRpcMessage.response_from_parts j i r x with
  | Some q, _ =>
      exists q', JsonRpcRequest.from_parts j i m p = Some q' /\
        to_core (mcp.JsonRpcMessage.Request q) = Some (JsonRpcMessage.Request q')
  | None, Some q =>
      JsonRpcRequest.from_parts j i m p = None /\
      exists q', JsonRpcResponse.from_parts j i r x = Some q' /\
        to_core (mcp.JsonRpcMessage.Response q) = Some (JsonRpcMessage.Response q')
  | None, None =>
      JsonRpcRequest.from_parts j i m p = None /\ JsonRpcResponse.from_parts j i r x = None
  end.
Proof.
  intros Hi. unfold JsonRpcRequest.from_parts, JsonRpcResponse.from_parts,
    mcp.JsonRpcMessage.request_from_parts, mcp.JsonRpcMessage.response_from_parts.
  destruct (string_of j) as [j'|]; [|done]. destruct i as [w|]; [|done]. cbn.
  specialize (Hi w eq_refl). destruct (RequestId.from_value w) as [id|] eqn:E; [|done].
  destruct (string_of m), (JsonRpcResponse.error_of x); cbn; rewrite ?E; eauto.
Qed.

Lemma codecs_agree_notification j m p :
  option_map JsonRpcMessage.Notification (JsonRpcNotification.from_parts j m p) =
  match mcp.JsonRpcMessage.notification_from_parts j m p with
  | Some n => to_core (mcp.JsonRpcMessage.Notification n)
  | None => None
  end.
Proof.
  unfold JsonRpcNotification.from_parts, mcp.JsonRpcMessage.notification_from_parts.
  by destruct (string_of j), (string_of m).
Qed.
End codecs.

(** Cases on which struct each reader builds *)
Ltac by_codec_cases :=
  repeat (case_match; cbn [option_map] in *);
  repeat match goal with
    | H : _ /\ _ |- _ => destruct H
    | H : exists _, _ |- _ => destruct H
    end; simplify_eq; congruence.

(** The proxy and its monitor read the same messages: on any JSON value
    whose identifier is absent or a string, an [i64] or null, the monitor's
    codec gives the core's message, in the same variant and with the same
    fields, and rejects exactly the values the core rejects. *)
Theorem codecs_agree `{JN : JsonNumbers} (v : Value) :
  readable_id v ->
  core_reads v = match mcp.JsonRpcMessage.from_value v with Some m => to_core m | None => None end.
Proof.
  intros Hi. unfold core_reads, JsonRpcMessage.from_value, mcp.JsonRpcMessage.from_value.
  destruct v as [| | | |items|e]; try done;
    cbn [JsonRpcRequest.from_value JsonRpcResponse.from_value JsonRpcNotification.from_value].
  - destruct items as [|a [|b [|c [|d [|]]]]]; try done.
    + pose proof (codecs_agree_notification (Some a) (Some b) (Some c)) as Hn. by_codec_cases.
    + pose proof (codecs_agree_call (Some a) (Some b) (Some c) (Some d) (Some c) (Some d)
                    (fun w Hw => Hi w Hw)) as H.
      by_codec_cases.
  - pose proof (codecs_agree_call (field e "jsonrpc") (field e "id") (field e "method")
                  (field e "params") (field e "result") (field e "error") (fun w Hw => Hi w Hw)) as H.
    pose proof (codecs_agree_notification (field e "jsonrpc") (field e "method") (field e "params")) as Hn.
    by_codec_cases.
Qed.

(** Reading with the core what the monitor's codec wrote *)
Definition demo_monitor_call : @Value ToyNumbers.toy_numbers :=
  mcp.JsonRpcMessage.to_value
    (mcp.JsonRpcMessage.Request
       (mcp.JsonRpcRequest.mk _ "2.0" (VNumber (JN := ToyNumbers.toy_numbers) 7) "tools/list" None)).

Lemma codecs_agree_witness :
  core_reads demo_monitor_call =
    Some (JsonRpcMessage.Request (JsonRpcRequest.mk "2.0" (RequestId.Number 7) "tools/list" None)).
Proof.
  rewrite (codecs_agree demo_monitor_call); [reflexivity|].
  intros i Hi. cbn in Hi. injection Hi as <-. discriminate.
Defined.
