(* ===== verification/Routing.v ===== *)
(** Routing ([acdp-llm/src/routing_modes.rs], [error.rs] and
    [database/routing_rules.rs]): the routing modes and their text, the errors
    of the LLM crate, and the choice of a rule for a request. *)

From Stdlib Require Import Sorted.
From S2P Require Import Prelude Messages Text Common.

Module LlmError.
(** [serde_json::Error] as its text *)
Inductive t : Type :=
| BindingError (s : string)
| RuntimeError (s : string)
| SerializationError (s : string)
| ConfigError (s : string)
| PredictionError (s : string)
| DatabaseError (s : string).

(** [Display] *)
Definition to_string (self : t) : string :=
  match self with
  | BindingError s => "LiteRT-LM binding error: " +:+ s
  | RuntimeError s => "LiteRT-LM runtime error: " +:+ s
  | SerializationError s => "Serialization error: " +:+ s
  | ConfigError s => "Invalid configuration: " +:+ s
  | PredictionError s => "Prediction error: " +:+ s
  | DatabaseError s => "Database error: " +:+ s
  end.

(** [From<String>] and [From<sqlx::Error>] *)
Definition from_string (s : string) : t := RuntimeError s.
Definition from_sqlx (e : string) : t := DatabaseError e.
End LlmError.

Abbreviation LlmResult T := (Res T LlmError.t).

Module RoutingMode.

Inductive t : Type := Bypass | Semantic | Hybrid.

#[global] Instance t_eq_dec : EqDecision t.
Proof. solve_decision. Defined.

Definition display_name (self : t) : string :=
  match self with Bypass => "Bypass" | Semantic => "Semantic" | Hybrid => "Hybrid" end.

Definition description (self : t) : string :=
  match self with
  | Bypass => "Direct pass-through without LLM processing"
  | Semantic => "LLM predicts optimal routing for each request"
  | Hybrid => "Database rules with LLM fallback"
  end.

Definition as_str (self : t) : string :=
  match self with Bypass => "bypass" | Semantic => "semantic" | Hybrid => "hybrid" end.

Definition default : t := Hybrid.

(** [Display] *)
Definition to_string (self : t) : string := as_str self.

Definition from_str (s : string) : Res t string :=
  let s := to_ascii_lowercase s in
  if String.eqb s "bypass" then Ok Bypass
  else if String.eqb s "semantic" then Ok Semantic
  else if String.eqb s "hybrid" then Ok Hybrid
  else Err ("Unsupported routing_mode '" +:+ s +:+ "'").
End RoutingMode.

Module RoutingConfig.
Record t : Type := mk {
  mode : RoutingMode.t;
  confidence_threshold : f32;
  enable_learning : bool;
  fallback_to_bypass : bool
}.
Definition default : t := mk RoutingMode.default (f32_ratio 8 10) true true.
End RoutingConfig.

Module RoutingRule.
Record t : Type := mk {
  id : string;
  pattern : string;
  target_tool : string;
  target_transport : string;
  confidence : f64;
  created_at : Z;
  updated_at : Z;
  enabled : bool
}.
End RoutingRule.

Module RoutingRulesDatabase.

(** The loop of [find_matching_rule] over the rows fetched *)
Fixpoint first_match (request_content : string) (rules : list RoutingRule.t) : option RoutingRule.t :=
  match rules with
  | [] => None
  | rule :: rules =>
      if str_contains (RoutingRule.pattern rule) request_content then Some rule
      else first_match request_content rules
  end.

(** [fetched] is the outcome of [SELECT * FROM routing_rules WHERE enabled =
    true ORDER BY confidence DESC]. *)
Definition find_matching_rule (fetched : Res (list RoutingRule.t) string) (request_content : string)
  : LlmResult (option RoutingRule.t) :=
  let? rules := map_err LlmError.from_sqlx fetched in
  Ok (first_match request_content rules).

(** What the statement may return: the enabled rows of the table, each once,
    by decreasing confidence.  SQLite has no NaN. *)
Definition fetches (table rows : list RoutingRule.t) : Prop :=
  rows ≡ₚ List.filter RoutingRule.enabled table /\
  StronglySorted (fun a b => f64_geb (RoutingRule.confidence a) (RoutingRule.confidence b) = true) rows.

Lemma first_match_spec content rules rule :
  first_match content rules = Some rule ->
  exists before after, rules = before ++ rule :: after /\
    str_contains (RoutingRule.pattern rule) content = true /\
    forall r, r ∈ before -> str_contains (RoutingRule.pattern r) content = false.
Proof.
  induction rules as [|r rules IH]; [done|]. cbn [first_match].
  destruct (str_contains (RoutingRule.pattern r) content) eqn:E.
  - intros [= ->]. exists [], rules. split_and!; [done|done|]. intros q Hq. by apply elem_of_nil in Hq.
  - intros H. destruct (IH H) as (b & a & -> & Hm & Hb). exists (r :: b), a. split_and!; [done|done|].
    intros q Hq. apply elem_of_cons in Hq as [->|Hq]; auto.
Qed.

Lemma first_match_none content rules :
  first_match content rules = None ->
  forall r, r ∈ rules -> str_contains (RoutingRule.pattern r) content = false.
Proof.
  induction rules as [|q rules IH]; intros H r Hr; [by apply elem_of_nil in Hr|].
  cbn [first_match] in H. destruct (str_contains (RoutingRule.pattern q) content) eqn:E; [done|].
  apply elem_of_cons in Hr as [->|Hr]; auto.
Qed.
End RoutingRulesDatabase.

(** The monitor and the proxy agree on the routing modes.  The command
    sends exactly the texts, in any case, that the proxy parses; what it sends
    parses to the same mode and is the mode's canonical text; every mode's text
    parses back to it; anything else is refused on both sides, and then
    nothing is sent. *)
Theorem routing_mode_agreement `{JN : JsonNumbers} (proxy_id text : string) (sent : Res unit string) :
  (forall mode, RoutingMode.from_str (RoutingMode.to_string mode) = Ok mode) /\
  match RoutingMode.from_str text with
  | Ok mode =>
      commands.set_routing_mode proxy_id text sent =
        ([IpcMessage.RoutingModeChange proxy_id (RoutingMode.to_string mode)], sent)
  | Err _ =>
      exists e, commands.set_routing_mode proxy_id text sent = ([], Err e)
  end.
Proof.
  split; [by intros []|]. unfold RoutingMode.from_str, commands.set_routing_mode.
  destruct (String.eqb_spec (to_ascii_lowercase text) "bypass") as [->|]; [done|].
  destruct (String.eqb_spec (to_ascii_lowercase text) "semantic") as [->|]; [done|].
  destruct (String.eqb_spec (to_ascii_lowercase text) "hybrid") as [->|]; [done|].
  cbn. eauto.
Qed.

(** The rule chosen for a request is an enabled rule whose pattern occurs
    in it, of the greatest confidence among those; none is chosen only when no
    enabled rule's pattern occurs, and a failing query is an error. *)
Theorem matching_rule_is_best table rows content :
  RoutingRulesDatabase.fetches table rows ->
  (forall e, RoutingRulesDatabase.find_matching_rule (Err e) content = Err (LlmError.DatabaseError e)) /\
  match RoutingRulesDatabase.find_matching_rule (Ok rows) content with
  | Ok (Some rule) =>
      rule ∈ table /\ RoutingRule.enabled rule = true /\
      str_contains (RoutingRule.pattern rule) content = true /\
      forall other, other ∈ table -> RoutingRule.enabled other = true ->
        str_contains (RoutingRule.pattern other) content = true ->
        other = rule \/ f64_geb (RoutingRule.confidence rule) (RoutingRule.confidence other) = true
  | Ok None =>
      forall other, other ∈ table -> RoutingRule.enabled other = true ->
        str_contains (RoutingRule.pattern other) content = false
  | Err _ => False
  end.
Proof.
  intros [Hp Hs]. split; [done|]. cbn.
  assert (Hin : forall r, r ∈ rows <-> r ∈ table /\ RoutingRule.enabled r = true).
  { intros r. rewrite Hp, !list_elem_of_In, filter_In. done. }
  destruct (RoutingRulesDatabase.first_match content rows) as [rule|] eqn:E.
  - destruct (RoutingRulesDatabase.first_match_spec _ _ _ E) as (before & after & -> & Hm & Hb).
    destruct (proj1 (Hin rule)) as [Ht He]; [rewrite elem_of_app, elem_of_cons; auto|]. split_and!; auto.
    intros other Hot Hoe Hom. assert (Ho : other ∈ before ++ rule :: after) by (by apply Hin).
    apply elem_of_app in Ho as [Ho|Ho]; [by rewrite Hb in Hom|].
    apply elem_of_cons in Ho as [->|Ho]; [by left|]. right.
    assert (Hs' : StronglySorted (fun a b => f64_geb (RoutingRule.confidence a)
                     (RoutingRule.confidence b) = true) (rule :: after)).
    { clear Hp Hin E Hb Ht He Ho Hm Hot Hoe Hom. induction before as [|x before IH]; [done|]. apply StronglySorted_inv in Hs as [Hs _]. auto. }
    apply StronglySorted_inv in Hs' as [_ Hf]. rewrite List.Forall_forall in Hf.
    apply Hf. by apply list_elem_of_In.
  - intros other Hot Hoe. eapply RoutingRulesDatabase.first_match_none; [exact E|]. by apply Hin.
Qed.

Definition demo_rule (id pattern : string) (confidence : Z) (enabled : bool) : RoutingRule.t :=
  RoutingRule.mk id pattern "search" "stdio" (f64_ratio confidence 10) 0 0 enabled.

Definition demo_rules : list RoutingRule.t :=
  [demo_rule "a" "tools" 5 true; demo_rule "b" "list" 9 true; demo_rule "c" "tools" 10 false].

Lemma matching_rule_is_best_witness :
  RoutingRulesDatabase.find_matching_rule
    (Ok [demo_rule "b" "list" 9 true; demo_rule "a" "tools" 5 true]) "tools/list" =
    Ok (Some (demo_rule "b" "list" 9 true)) /\
  f64_geb (f64_ratio 9 10) (f64_ratio 5 10) = true.
Proof.
  assert (Hf : RoutingRulesDatabase.fetches demo_rules
                 [demo_rule "b" "list" 9 true; demo_rule "a" "tools" 5 true]).
  { split; [apply perm_swap|]. repeat constructor; vm_compute; reflexivity. }
  destruct (matching_rule_is_best _ _ "tools/list" Hf) as [_ H].
  split; [reflexivity|].
  assert (E : RoutingRulesDatabase.find_matching_rule
    (Ok [demo_rule "b" "list" 9 true; demo_rule "a" "tools" 5 true]) "tools/list" =
    Ok (Some (demo_rule "b" "list" 9 true))) by reflexivity.
  rewrite E in H. destruct H as (_ & _ & _ & H).
  destruct (H (demo_rule "a" "tools" 5 true)) as [H'|H'];
    [left|reflexivity|reflexivity|discriminate H'|exact H'].
Defined.
