(* ===== verification/Predictor.v ===== *)
(** The tool predictor ([acdp-llm/src/predictors.rs], [dspy_predictor.rs],
    [dspy_signatures.rs], [database/predictions.rs]): a prediction by the
    language model or by keywords, stored in the predictions table, and the
    table's accuracy column.  The tables are their rows; that a statement fails,
    the order of rows where SQL leaves it open, the language model, the clock
    and fresh identifiers are operations of the world. *)

From Stdlib Require Import Sorted.
From S2P Require Import Prelude Messages Transform Text Common Routing.

Module ToolPrediction.
Section prediction.
Context `{JF : JsonFloats}.

Record t : Type := mk {
  tool_name : string;
  confidence : f32;
  reasoning : string;
  parameters : Value
}.

Definition from_parts (tool_name confidence reasoning parameters : option Value) : option t :=
  match string_of tool_name, confidence, string_of reasoning, parameters with
  | Some tool_name, Some (VNumber c), Some reasoning, Some parameters =>
      Some (mk tool_name (num_as_f32 c) reasoning parameters)
  | _, _, _, _ => None
  end.

Definition from_value (v : Value) : option t :=
  match v with
  | VObject e =>
      from_parts (field e "tool_name") (field e "confidence") (field e "reasoning")
        (field e "parameters")
  | VArray [a; b; c; d] => from_parts (Some a) (Some b) (Some c) (Some d)
  | _ => None
  end.

(** A float without a number is written as null. *)
Definition to_value (self : t) : Value :=
  VObject [("tool_name"%string, VString (tool_name self));
           ("confidence"%string,
             match num_from_f64 (f64_of_f32 (confidence self)) with
             | Some n => VNumber n
             | None => VNull
             end);
           ("reasoning"%string, VString (reasoning self));
           ("parameters"%string, parameters self)].
End prediction.
Arguments t : clear implicits.
Arguments t {JN}.
End ToolPrediction.

Module PredictionRecord.
Section record.
Context `{JN : JsonNumbers}.
Record t : Type := mk {
  id : string;
  context_hash : string;
  predicted_tool : string;
  actual_tool : option string;
  confidence : f64;
  prediction_data : Value;
  timestamp : Z;
  correct : option bool
}.
End record.
Arguments t : clear implicits.
Arguments t {JN}.
End PredictionRecord.

Module GepaOptimizationRecord.
Record t : Type := mk {
  id : string;
  module_name : string;
  iteration : Z;
  original_prompt : string;
  optimized_prompt : string;
  expected_improvement : f64;
  actual_improvement : option f64;
  reasoning : option string;
  timestamp : Z
}.
End GepaOptimizationRecord.

Class LlmWorld `{JN : JsonNumbers} := {
  World : Type;
  fresh_uuid : World -> string * World;
  utc_now : World -> Z * World;
  instant_now : World -> Z * World;
  (** [litert.call]: the assistant's text, another kind of message, or an error *)
  litert_call : string -> World -> Res (option string) string * World;
  (** Texts of the errors of [from_str] and of [from_value] *)
  from_str_error : string -> string;
  from_value_error : Value -> string;
  (** [Hash] of a text with the default hasher *)
  default_hash : string -> Z;
  (** The error of a statement, if it fails *)
  sql_execute : World -> option string * World;
  (** [ORDER BY confidence DESC], and [ORDER BY timestamp DESC] *)
  sql_rules : list RoutingRule.t -> World -> Res (list RoutingRule.t) string * World;
  sql_latest : list PredictionRecord.t -> World -> Res (list PredictionRecord.t) string * World;
  sql_optimizations :
    list GepaOptimizationRecord.t -> World -> Res (list GepaOptimizationRecord.t) string * World
}.

Class LlmWorldLaws `{W : LlmWorld} := {
  sql_rules_fetches table w rows w' :
    sql_rules table w = (Ok rows, w') -> RoutingRulesDatabase.fetches table rows;
  sql_latest_perm rows w rows' w' : sql_latest rows w = (Ok rows', w') -> rows' ≡ₚ rows
}.
Arguments LlmWorldLaws {JN} W.

(** ** The database, and computations on it *)

Module Db.
Section db.
Context `{W : LlmWorld}.

Record t : Type := mk {
  world : World;
  predictions : list PredictionRecord.t;
  routing_rules : list RoutingRule.t;
  gepa_optimizations : list GepaOptimizationRecord.t
}.

Definition with_world (self : t) (w : World) : t :=
  mk w (predictions self) (routing_rules self) (gepa_optimizations self).

Definition M (A : Type) : Type := t -> LlmResult A * t.

Definition ret {A} (a : A) : M A := fun d => (Ok a, d).
Definition fail {A} (e : LlmError.t) : M A := fun d => (Err e, d).
Definition bind {A B} (m : M A) (k : A -> M B) : M B :=
  fun d => match m d with
           | (Ok a, d) => k a d
           | (Err e, d) => (Err e, d)
           end.

(** The outcome of [m] as a value *)
Definition attempt {A} (m : M A) : M (LlmResult A) :=
  fun d => let '(r, d) := m d in (Ok r, d).

Definition call {A} (f : World -> A * World) : M A :=
  fun d => let '(a, w) := f (world d) in (Ok a, with_world d w).

(** [?] on an outcome of [sqlx] *)
Definition query {A} (f : World -> Res A string * World) : M A :=
  fun d => let '(r, w) := f (world d) in (map_err LlmError.from_sqlx r, with_world d w).

(** A statement that changes the tables when it does not fail *)
Definition execute (change : t -> t) : M unit :=
  fun d => let '(e, w) := sql_execute (world d) in
           match e with
           | None => (Ok tt, change (with_world d w))
           | Some e => (Err (LlmError.from_sqlx e), with_world d w)
           end.
End db.
Arguments t : clear implicits.
Arguments t {JN W}.
Arguments M : clear implicits.
Arguments M {JN W}.
End Db.

Declare Scope db_scope.
Delimit Scope db_scope with db.
Notation "'let*' x ':=' m 'in' k" := (Db.bind m (fun x => k))
  (at level 200, x pattern, m at level 100, k at level 200, right associativity) : db_scope.
Open Scope db_scope.

(** A computation that returned [Ok] ran its first part to [Ok]. *)
Lemma db_bind_Ok `{W : LlmWorld} {A B} (m : Db.M A) (k : A -> Db.M B) d b d' :
  Db.bind m k d = (Ok b, d') -> exists a d1, m d = (Ok a, d1) /\ k a d1 = (Ok b, d').
Proof. unfold Db.bind. destruct (m d) as [[a|e] d1]; [eauto|discriminate]. Qed.

Lemma db_bind_step `{W : LlmWorld} {A B} (m : Db.M A) (k : A -> Db.M B) d a d1 :
  m d = (Ok a, d1) -> Db.bind m k d = k a d1.
Proof. intros E. unfold Db.bind. by rewrite E. Qed.

Ltac inv_db :=
  repeat match goal with
    | H : Db.bind _ _ _ = (Ok _, _) |- _ =>
        apply db_bind_Ok in H; destruct H as (? & ? & ? & H)
    | H : Db.ret _ _ = _ |- _ => unfold Db.ret in H; simplify_eq
    | H : Db.fail _ _ = (Ok _, _) |- _ => discriminate H
    end.

Module PredictionsDatabase.
Section predictions.
Context `{W : LlmWorld}.

Definition set_predictions (d : Db.t) (rows : list PredictionRecord.t) : Db.t :=
  Db.mk (Db.world d) rows (Db.routing_rules d) (Db.gepa_optimizations d).

(** [INSERT INTO predictions (..) VALUES (..)] *)
Definition record_prediction (context_hash predicted_tool : string) (confidence : f64)
    (prediction_data : Value) : Db.M string :=
  let* id := Db.call fresh_uuid in
  let* now := Db.call utc_now in
  let* _ := Db.execute (fun d =>
    set_predictions d (Db.predictions d ++
      [PredictionRecord.mk id context_hash predicted_tool None confidence prediction_data now None])) in
  Db.ret id.

(** [SELECT predicted_tool FROM predictions WHERE id = ?] *)
Definition get_prediction_tool (prediction_id : string) : Db.M (option string) :=
  fun d =>
    let '(e, w) := sql_execute (Db.world d) in
    match e with
    | Some e => (Err (LlmError.from_sqlx e), Db.with_world d w)
    | None =>
        (Ok (option_map PredictionRecord.predicted_tool
               (List.find (fun r => String.eqb (PredictionRecord.id r) prediction_id)
                  (Db.predictions d))),
         Db.with_world d w)
    end.

(** [UPDATE predictions SET actual_tool = ?, correct = ? WHERE id = ?] *)
Definition set_actual (prediction_id actual_tool : string) (correct : bool)
    (r : PredictionRecord.t) : PredictionRecord.t :=
  if String.eqb (PredictionRecord.id r) prediction_id then
    PredictionRecord.mk (PredictionRecord.id r) (PredictionRecord.context_hash r)
      (PredictionRecord.predicted_tool r) (Some actual_tool) (PredictionRecord.confidence r)
      (PredictionRecord.prediction_data r) (PredictionRecord.timestamp r) (Some correct)
  else r.

Definition update_prediction_result (prediction_id actual_tool : string) : Db.M unit :=
  let* predicted := get_prediction_tool prediction_id in
  let correct := match predicted with
                 | Some predicted => String.eqb predicted actual_tool
                 | None => false
                 end in
  Db.execute (fun d =>
    set_predictions d (List.map (set_actual prediction_id actual_tool correct) (Db.predictions d))).

(** [SELECT * .. WHERE predicted_tool = ? ORDER BY timestamp DESC LIMIT ?] *)
Definition by_tool (d : Db.t) (tool_name : string) : list PredictionRecord.t :=
  List.filter (fun r => String.eqb (PredictionRecord.predicted_tool r) tool_name) (Db.predictions d).

Definition get_predictions_by_tool (tool_name : string) (limit : nat)
  : Db.M (list PredictionRecord.t) :=
  fun d => Db.bind (Db.query (sql_latest (by_tool d tool_name)))
      (fun rows => Db.ret (take limit rows)) d.

Definition get_recent_predictions (limit : nat) : Db.M (list PredictionRecord.t) :=
  fun d =>
    Db.bind (Db.query (sql_latest (Db.predictions d))) (fun rows => Db.ret (take limit rows)) d.
End predictions.
End PredictionsDatabase.

Module DSpyToolPredictor.
Section dspy.
Context `{W : LlmWorld, JT : !JsonText, JF : !JsonFloats}.

(** A quotation mark inside a text *)
Definition quoted (s : string) : string :=
  String (Ascii.ascii_of_nat 34) (s +:+ String (Ascii.ascii_of_nat 34) EmptyString).

Definition combined_prompt (mcp_context : string) : string :=
  "You are a tool prediction system. Analyze the MCP request below and predict which tool will be called."
    +:+ newline +:+ newline +:+
  "Available MCP methods: tools/list, tools/call, resources/list, resources/read, prompts/list, prompts/get"
    +:+ newline +:+ newline +:+
  "IMPORTANT: If the method is 'tools/call', look at the 'name' parameter to find the ACTUAL tool being called."
    +:+ newline +:+
  "In that case, predict the specific tool name (like 'web_search', 'calculator', etc.), NOT just 'tools.call'."
    +:+ newline +:+ newline +:+
  "Respond with ONLY a JSON object in this format:" +:+ newline +:+
  "{" +:+ quoted "tool_name" +:+ ": " +:+ quoted "<tool>" +:+ ", " +:+ quoted "confidence" +:+
  ": <0.0-1.0>, " +:+ quoted "reasoning" +:+ ": " +:+ quoted "<brief explanation>" +:+ ", " +:+
  quoted "parameters" +:+ ": {}}" +:+ newline +:+ newline +:+
  "Examples:" +:+ newline +:+
  "- If method='tools/list', predict tool_name='tools.list'" +:+ newline +:+
  "- If method='tools/call' with name='web_search', predict tool_name='web_search'" +:+ newline +:+
  "- If method='resources/read', predict tool_name='resources.read'" +:+ newline +:+ newline +:+
  "MCP Request:" +:+ newline +:+ mcp_context +:+ newline +:+ newline +:+ "JSON Response:".

Definition fence : string := "```".

(** A block between [opening] and the next fence *)
Definition fenced (opening trimmed : string) : option string :=
  match str_find opening trimmed with
  | Some (_, rest) =>
      match str_find fence rest with
      | Some (inside, _) => Some (trim inside)
      | None => None
      end
  | None => None
  end.

(** From the first brace to the last closing one, if that comes after it *)
Definition braces (trimmed : string) : option string :=
  match str_find "{" trimmed, str_rfind "}" trimmed with
  | Some (before, _), Some upto =>
      if (String.length before <? String.length upto)%nat then
        Some (String.substring (String.length before)
                (String.length upto - String.length before + 1) trimmed)
      else None
  | _, _ => None
  end.

Definition extract_json (text : string) : string :=
  let trimmed := trim text in
  match fenced "```json" trimmed with
  | Some json_text => json_text
  | None =>
      match fenced fence trimmed with
      | Some json_text => json_text
      | None => match braces trimmed with Some json_text => json_text | None => trimmed end
      end
  end.

Definition predict (mcp_context : string) : Db.M ToolPrediction.t :=
  let* response := Db.call (litert_call (combined_prompt mcp_context)) in
  match response with
  | Err e => Db.fail (LlmError.PredictionError ("LiteRT call failed: " +:+ e))
  | Ok None => Db.fail (LlmError.PredictionError "Unexpected message type from LiteRT")
  | Ok (Some response_text) =>
      if str_is_empty (trim response_text) then
        Db.fail (LlmError.PredictionError
          "LiteRT returned empty response - model may not be loaded or prompt is invalid")
      else
        let json_text := extract_json response_text in
        match json_from_str json_text with
        | None =>
            Db.fail (LlmError.PredictionError
              ("Failed to parse LiteRT response as JSON: " +:+ from_str_error json_text +:+
               ". Raw response: " +:+ response_text +:+ ". Extracted: " +:+ json_text))
        | Some parsed =>
            match ToolPrediction.from_value parsed with
            | None =>
                Db.fail (LlmError.PredictionError
                  ("Response doesn't match ToolPrediction schema: " +:+ from_value_error parsed))
            | Some prediction => Db.ret prediction
            end
        end
  end.
End dspy.
End DSpyToolPredictor.

Module PredictionOutcome.
Section outcome.
Context `{JN : JsonNumbers}.
Record t : Type := mk {
  prediction : ToolPrediction.t;
  record_id : string;
  context_hash : string
}.
End outcome.
Arguments t : clear implicits.
Arguments t {JN}.
End PredictionOutcome.

(** [{:x}] *)
Definition hex_digit (n : Z) : Ascii.ascii :=
  Ascii.ascii_of_nat (Z.to_nat (if n <? 10 then 48 + n else 87 + n)).

Fixpoint hex_digits (fuel : nat) (n : Z) (rest : string) : string :=
  match fuel with
  | O => rest
  | S fuel =>
      let rest := String (hex_digit (n mod 16)) rest in
      if n <? 16 then rest else hex_digits fuel (n / 16) rest
  end.

(** Sixteen digits hold a [u64]. *)
Definition to_hex (n : Z) : string := hex_digits 16 n "".

Module ToolPredictor.
Section predictor.
Context `{W : LlmWorld, JT : !JsonText, JF : !JsonFloats, UC : UnicodeCase}.

(** The predictor, by whether it has a semantic engine *)
Record t : Type := mk { semantic_engine : bool }.

Definition hash_context (context : string) : string := to_hex (default_hash context).

Definition persist_prediction (mcp_context tool_name : string) (confidence : f32) (reasoning : string)
  : Db.M PredictionOutcome.t :=
  let prediction := ToolPrediction.mk tool_name confidence reasoning (VObject []) in
  let context_hash := hash_context mcp_context in
  let* record_id :=
    PredictionsDatabase.record_prediction context_hash tool_name (f64_of_f32 confidence)
      (ToolPrediction.to_value prediction) in
  Db.ret (PredictionOutcome.mk prediction record_id context_hash).

(** [params.name] of a context, if it is a text *)
Definition named_tool (mcp_context : string) : option string :=
  match json_from_str mcp_context with
  | Some json =>
      match get json "params" with
      | Some params => string_of (get params "name")
      | None => None
      end
  | None => None
  end.

Definition heuristic_predict (mcp_context : string) : Db.M PredictionOutcome.t :=
  let context_lower := to_lowercase mcp_context in
  let has needle := str_contains needle context_lower in
  if has "tools/call" || has "tools.call" then
    match named_tool mcp_context with
    | Some name =>
        persist_prediction mcp_context name (f32_ratio 7 10)
          ("Extracted tool name '" +:+ name +:+ "' from tools/call params")
    | None =>
        persist_prediction mcp_context "tools.call" (f32_ratio 5 10)
          "Matched 'tools/call' pattern but couldn't extract tool name"
    end
  else
    let '(tool_name, confidence, reasoning) :=
      if has "tools/list" || (has "list" && has "tool") then
        ("tools.list", f64_ratio 8 10, "Matched 'tools/list' pattern")
      else if has "resources/list" || (has "list" && has "resource") then
        ("resources.list", f64_ratio 8 10, "Matched 'resources/list' pattern")
      else if has "resources/read" || (has "read" && has "resource") then
        ("resources.read", f64_ratio 7 10, "Matched 'resources/read' pattern")
      else if has "prompts/list" || (has "list" && has "prompt") then
        ("prompts.list", f64_ratio 8 10, "Matched 'prompts/list' pattern")
      else if has "prompts/get" || (has "get" && has "prompt") then
        ("prompts.get", f64_ratio 7 10, "Matched 'prompts/get' pattern")
      else
        ("tools.list", f64_ratio 5 10, "No clear match - defaulting to tools.list") in
    persist_prediction mcp_context tool_name (f32_of_f64 confidence) reasoning.

Definition predict_tool (self : t) (mcp_context : string) : Db.M PredictionOutcome.t :=
  if semantic_engine self then
    let* answer := Db.attempt (DSpyToolPredictor.predict mcp_context) in
    match answer with
    | Ok prediction =>
        persist_prediction mcp_context (ToolPrediction.tool_name prediction)
          (ToolPrediction.confidence prediction) (ToolPrediction.reasoning prediction)
    | Err _ => heuristic_predict mcp_context
    end
  else heuristic_predict mcp_context.

Definition update_prediction_result (record_id actual_tool : string) : Db.M unit :=
  PredictionsDatabase.update_prediction_result record_id actual_tool.
End predictor.
End ToolPredictor.

(** ** A concrete world: a counter for the clock and the identifiers, one
    answer of the model; statements do not fail. *)

Module DemoWorld.
Import ToyNumbers.

(** Insertion by decreasing confidence *)
Fixpoint insert_rule (r : RoutingRule.t) (rows : list RoutingRule.t) : list RoutingRule.t :=
  match rows with
  | [] => [r]
  | q :: rows =>
      if f64_geb (RoutingRule.confidence r) (RoutingRule.confidence q) then r :: q :: rows
      else q :: insert_rule r rows
  end.

Fixpoint decreasing (rows : list RoutingRule.t) : bool :=
  match rows with
  | [] => true
  | r :: rows =>
      forallb (fun q => f64_geb (RoutingRule.confidence r) (RoutingRule.confidence q)) rows &&
      decreasing rows
  end.

(** A table with a confidence that is no number is refused. *)
Definition sort_rules (table : list RoutingRule.t) : Res (list RoutingRule.t) string :=
  let rows := List.fold_right insert_rule [] (List.filter RoutingRule.enabled table) in
  if decreasing rows then Ok rows else Err "not a number"%string.

Lemma insert_rule_perm r rows : insert_rule r rows ≡ₚ r :: rows.
Proof.
  induction rows as [|q rows IH]; [done|]. cbn. destruct (f64_geb _ _); [done|].
  rewrite IH. apply perm_swap.
Qed.

Lemma sort_rules_fetches table rows :
  sort_rules table = Ok rows -> RoutingRulesDatabase.fetches table rows.
Proof.
  unfold sort_rules. destruct (decreasing _) eqn:E; [|done]. intros [= <-]. split.
  - clear E. induction (List.filter RoutingRule.enabled table) as [|r l IH]; [done|].
    cbn. by rewrite insert_rule_perm, IH.
  - revert E. generalize (fold_right insert_rule [] (List.filter RoutingRule.enabled table)).
    intros l. induction l as [|r l IH]; [constructor|]. cbn. rewrite andb_true_iff, forallb_forall.
    intros [Hr Hl]. constructor; [auto|]. rewrite List.Forall_forall. done.
Qed.

#[global] Instance demo_world : LlmWorld (JN := toy_numbers) := {|
  World := Z * string;
  fresh_uuid w := (pretty w.1, (w.1 + 1, w.2));
  utc_now w := (w.1, (w.1 + 1, w.2));
  instant_now w := (w.1, (w.1 + 1, w.2));
  litert_call _ w := (Ok (Some w.2), w);
  from_str_error _ := "no JSON"%string;
  from_value_error _ := "no prediction"%string;
  default_hash s := Z.of_nat (String.length s);
  sql_execute w := (None, w);
  sql_rules table w := (sort_rules table, w);
  sql_latest rows w := (Ok rows, w);
  sql_optimizations rows w := (Ok rows, w)
|}.

#[global] Instance demo_world_laws : LlmWorldLaws demo_world.
Proof.
  split.
  - intros table w rows w' [= H <-]. by apply sort_rules_fetches.
  - intros rows w rows' w' [= <- <-]. done.
Qed.
End DemoWorld.
