(* ===== verification/Gepa.v ===== *)
(** The prompt optimizer ([acdp-llm/src/gepa_optimizer.rs], [database/gepa.rs]):
    when a tool's recent predictions are poor, a new prompt is derived from the
    failures and recorded, at most once per cool-down. *)

From Stdlib Require Import Floats.SpecFloat.
From S2P Require Import Prelude Messages Transform Text Common Routing Predictor.

Module OptimizationIteration.
Record t : Type := mk {
  iteration : Z;
  original_prompt : string;
  optimized_prompt : string;
  expected_improvement : f64;
  actual_improvement : option f64;
  reasoning : string;
  timestamp : Z
}.
End OptimizationIteration.

Module GepaDatabase.
Section gepa.
Context `{W : LlmWorld}.

(** [INSERT INTO gepa_optimizations (..) VALUES (..)] *)
Definition record_optimization (module_name : string) (it : OptimizationIteration.t) : Db.M string :=
  let* id := Db.call fresh_uuid in
  let* _ := Db.execute (fun d =>
    Db.mk (Db.world d) (Db.predictions d) (Db.routing_rules d)
      (Db.gepa_optimizations d ++
       [GepaOptimizationRecord.mk id module_name (wrap_i64 (OptimizationIteration.iteration it))
          (OptimizationIteration.original_prompt it) (OptimizationIteration.optimized_prompt it)
          (OptimizationIteration.expected_improvement it)
          (OptimizationIteration.actual_improvement it)
          (Some (OptimizationIteration.reasoning it)) (OptimizationIteration.timestamp it)])) in
  Db.ret id.

(** [SELECT * .. WHERE module_name = ? ORDER BY timestamp DESC LIMIT ?] *)
Definition get_recent_optimizations (module_name : string) (limit : nat)
  : Db.M (list GepaOptimizationRecord.t) :=
  fun d =>
    Db.bind (Db.query (sql_optimizations
               (List.filter (fun r => String.eqb (GepaOptimizationRecord.module_name r) module_name)
                  (Db.gepa_optimizations d))))
      (fun rows => Db.ret (take limit rows)) d.
End gepa.
End GepaDatabase.

Section helpers.
Context `{JN : JsonNumbers}.

(** The counters of [compute_accuracy]: rows with an outcome, and correct ones *)
Definition counted (records : list PredictionRecord.t) : Z :=
  Z.of_nat (length (List.filter
    (fun r => if PredictionRecord.correct r then true else false) records)).

Definition correct_count (records : list PredictionRecord.t) : Z :=
  Z.of_nat (length (List.filter
    (fun r => match PredictionRecord.correct r with Some b => b | None => false end) records)).

Definition compute_accuracy (records : list PredictionRecord.t) : option f64 :=
  if counted records =? 0 then None
  else Some (f64_div (f64_of_Z (correct_count records)) (f64_of_Z (counted records))).

Definition collect_failure_patterns (records : list PredictionRecord.t) : list string :=
  omap (fun r => string_of (get (PredictionRecord.prediction_data r) "reasoning"))
    (List.filter (fun r => match PredictionRecord.correct r with Some b => negb b | None => false end)
       records).

(** [a.min(b)] on numbers *)
Definition f64_min (a b : f64) : f64 := if f64_geb a b then b else a.
(** [x.clamp(lo, hi)] *)
Definition f64_clamp (x lo hi : f64) : f64 :=
  if SFltb x lo then lo else if SFltb hi x then hi else x.

Definition percent (x : f64) : string := format_fixed 1 (f64_mul x (f64_of_Z 100)).

Definition synthesize_prompt (module_name baseline_prompt : string) (failures : list string)
    (recent_accuracy : option f64) : string :=
  "### Optimized prompt for " +:+ module_name +:+ newline +:+ baseline_prompt +:+
  newline +:+ newline +:+ "Guidance:" +:+ newline +:+
  (match failures with
   | [] => "- Emphasize validating MCP arguments and prefer deterministic routing rules." +:+ newline
   | _ => String.concat "" (List.map (fun f => "- Address failure: " +:+ f +:+ newline) (take 5 failures))
   end) +:+
  (match recent_accuracy with
   | Some acc =>
       "- Current accuracy " +:+ percent acc +:+ "%; aim to exceed " +:+
       percent (f64_min (f64_add acc (f64_ratio 1 10)) (f64_ratio 95 100)) +:+ "%." +:+ newline
   | None => ""
   end).
End helpers.

Module GEPAOptimizer.
Section optimizer.
Context `{W : LlmWorld}.

(** The parts [maybe_optimize_tool] uses *)
Record t : Type := mk {
  min_window_size : nat;
  trigger_accuracy : f64;
  cooldown : Z;
  recent_runs : gmap string Z
}.

Definition new : t := mk 20 (f64_ratio 85 100) (15 * 60 * 1000000000) ∅.

(** The record of an iteration *)
Definition iteration_record (module_name : string) (recent previous : list PredictionRecord.t)
    (last_record : option GepaOptimizationRecord.t) (now : Z) : OptimizationIteration.t :=
  let recent_accuracy := compute_accuracy recent in
  let previous_accuracy := compute_accuracy previous in
  let failures := collect_failure_patterns recent in
  let baseline_prompt :=
    match last_record with
    | Some record => GepaOptimizationRecord.optimized_prompt record
    | None => "Default prompt for " +:+ module_name
    end in
  OptimizationIteration.mk
    (match last_record with
     | Some record => wrap_u64 (wrap_u64 (GepaOptimizationRecord.iteration record) + 1)
     | None => 1
     end)
    baseline_prompt
    (synthesize_prompt module_name baseline_prompt failures recent_accuracy)
    (match recent_accuracy with
     | Some acc => f64_clamp (f64_sub (f64_of_Z 1) acc) f64_zero (f64_ratio 1 2)
     | None => f64_ratio 1 10
     end)
    (match recent_accuracy, previous_accuracy with
     | Some current, Some previous => Some (f64_sub current previous)
     | _, _ => None
     end)
    ("Recent accuracy " +:+
     percent (match recent_accuracy with Some acc => acc | None => f64_zero end) +:+
     "% with " +:+ pretty (Z.of_nat (length failures)) +:+
     " tracked failures. Updated prompt emphasizes remediation for the most common mistakes.")
    now.

(** Whether the cool-down since the last run of the module still holds *)
Definition cooling (self : t) (module_name : string) (now : Z) : bool :=
  match recent_runs self !! module_name with
  | Some last_run => now - last_run <? cooldown self
  | None => false
  end.

Definition good_enough (self : t) (recent_accuracy : option f64) : bool :=
  match recent_accuracy with
  | Some acc => f64_geb acc (trigger_accuracy self)
  | None => false
  end.

(** The clock is read only when the module has a last run. *)
Definition is_cooling (self : t) (module_name : string) : Db.M bool :=
  match recent_runs self !! module_name with
  | Some _ => let* now := Db.call utc_now in Db.ret (cooling self module_name now)
  | None => Db.ret false
  end.

(** From the choice to optimize to its record *)
Definition optimize (self : t) (module_name : string) (recent previous : list PredictionRecord.t)
  : Db.M (option OptimizationIteration.t * t) :=
  let* optimizations := GepaDatabase.get_recent_optimizations module_name 1 in
  let* now := Db.call utc_now in
  let record := iteration_record module_name recent previous (last optimizations) now in
  let* _ := Db.attempt (GepaDatabase.record_optimization module_name record) in
  let* finished := Db.call utc_now in
  Db.ret (Some record,
          mk (min_window_size self) (trigger_accuracy self) (cooldown self)
             (<[module_name := finished]> (recent_runs self))).

Definition maybe_optimize_tool (self : t) (module_name : string)
  : Db.M (option OptimizationIteration.t * t) :=
  let window := (min_window_size self * 2)%nat in
  let* history := PredictionsDatabase.get_predictions_by_tool module_name window in
  if (length history <? window)%nat then Db.ret (None, self)
  else
    let* busy := is_cooling self module_name in
    if busy then Db.ret (None, self)
    else
      let recent := take (min_window_size self) history in
      let previous := take (min_window_size self) (drop (min_window_size self) history) in
      if good_enough self (compute_accuracy recent) then Db.ret (None, self)
      else optimize self module_name recent previous.
End optimizer.
Arguments maybe_optimize_tool : simpl never.
End GEPAOptimizer.

(** ** What a call does *)

Section theorems.
Context `{W : LlmWorld}.

(** Tables equal up to the world *)
Definition same_tables (d d' : Db.t) : Prop :=
  Db.predictions d' = Db.predictions d /\ Db.routing_rules d' = Db.routing_rules d /\
  Db.gepa_optimizations d' = Db.gepa_optimizations d.

Lemma same_tables_refl d : same_tables d d.
Proof. done. Qed.

Lemma same_tables_trans a b c : same_tables a b -> same_tables b c -> same_tables a c.
Proof. intros (? & ? & ?) (? & ? & ?). split_and!; congruence. Qed.

Lemma call_tables {A} (f : World -> A * World) d a d' :
  Db.call f d = (Ok a, d') -> same_tables d d' /\ a = (f (Db.world d)).1.
Proof. unfold Db.call. destruct (f (Db.world d)) as [x w]. by intros [= <- <-]. Qed.

Lemma query_tables {A} (f : World -> Res A string * World) d a d' :
  Db.query f d = (Ok a, d') -> same_tables d d' /\ exists w', f (Db.world d) = (Ok a, w').
Proof.
  unfold Db.query. destruct (f (Db.world d)) as [r w] eqn:E. intros H. injection H as H1 H2.
  apply map_err_Ok in H1 as ->. subst d'. split; [done|eauto].
Qed.

Lemma by_tool_history module_name window d rows d' :
  LlmWorldLaws W ->
  PredictionsDatabase.get_predictions_by_tool module_name window d = (Ok rows, d') ->
  same_tables d d' /\
  exists all, all ≡ₚ PredictionsDatabase.by_tool d module_name /\ rows = take window all.
Proof.
  intros WL H. unfold PredictionsDatabase.get_predictions_by_tool in H.
  apply db_bind_Ok in H as (all & d1 & Hq & Hr). apply query_tables in Hq as [Ht [w' Hq]].
  unfold Db.ret in Hr. injection Hr as <- <-. split; [done|].
  exists all. split; [by eapply sql_latest_perm|done].
Qed.

Lemma cooling_spec self module_name d busy d' :
  GEPAOptimizer.is_cooling self module_name d = (Ok busy, d') ->
  same_tables d d' /\
  (busy = false -> forall last_run, GEPAOptimizer.recent_runs self !! module_name = Some last_run ->
     exists w, GEPAOptimizer.cooldown self <= (utc_now w).1 - last_run).
Proof.
  unfold GEPAOptimizer.is_cooling, GEPAOptimizer.cooling.
  destruct (GEPAOptimizer.recent_runs self !! module_name) as [last_run|] eqn:E.
  - intros H. apply db_bind_Ok in H as (now & d1 & Hc & Hr). apply call_tables in Hc as [Ht ->].
    unfold Db.ret in Hr. injection Hr as <- <-. split; [done|].
    intros Hb l [= <-]. exists (Db.world d). lia.
  - intros [= <- <-]. split; [done|]. discriminate.
Qed.

Lemma optimize_spec self module_name recent previous d it self' d' :
  GEPAOptimizer.optimize self module_name recent previous d = (Ok (it, self'), d') ->
  exists record finished,
    it = Some record /\
    GEPAOptimizer.recent_runs self' = <[module_name := finished]> (GEPAOptimizer.recent_runs self) /\
    GEPAOptimizer.cooldown self' = GEPAOptimizer.cooldown self /\
    Db.predictions d' = Db.predictions d /\
    OptimizationIteration.reasoning record =
      OptimizationIteration.reasoning
        (GEPAOptimizer.iteration_record module_name recent previous None 0).
Proof.
  unfold GEPAOptimizer.optimize. intros H.
  apply db_bind_Ok in H as (opts & d1 & H1 & H). unfold GepaDatabase.get_recent_optimizations in H1.
  apply db_bind_Ok in H1 as (all & d0 & H0 & Hr). apply query_tables in H0 as [(T0 & _) _].
  unfold Db.ret in Hr. injection Hr as <- <-.
  apply db_bind_Ok in H as (now & d2 & H2 & H). apply call_tables in H2 as [(T2 & _) _].
  apply db_bind_Ok in H as (saved & d3 & H3 & H).
  apply db_bind_Ok in H as (finished & d4 & H4 & H). apply call_tables in H4 as [(T4 & _) _].
  unfold Db.ret in H. injection H as <- <- <-. eexists _, finished. split_and!; [done|done|done| |done].
  rewrite T4. rewrite <- T0, <- T2. clear -H3. unfold Db.attempt, GepaDatabase.record_optimization in H3.
  unfold Db.bind, Db.call, Db.execute, Db.ret in H3.
  destruct (fresh_uuid (Db.world d2)) as [id w]. cbn in H3.
  destruct (sql_execute w) as [[e|] w'] in H3; by injection H3 as _ <-.
Qed.
End theorems.

(** A prompt is optimized only for a tool with a full window of forty
    predictions whose twenty latest are not accurate enough, and only when the
    cool-down since the tool's last run is over; its run is then noted and the
    predictions are untouched.  In every other case nothing changes. *)
Theorem optimizer_runs_only_when_due `{WL : LlmWorldLaws} (self self' : GEPAOptimizer.t)
    module_name d d' out :
  GEPAOptimizer.maybe_optimize_tool self module_name d = (Ok (out, self'), d') ->
  match out with
  | None => self' = self /\ same_tables d d'
  | Some _ =>
      (exists all,
         all ≡ₚ PredictionsDatabase.by_tool d module_name /\
         (GEPAOptimizer.min_window_size self * 2 <= length all)%nat /\
         forall acc, compute_accuracy (take (GEPAOptimizer.min_window_size self) all) = Some acc ->
           f64_geb acc (GEPAOptimizer.trigger_accuracy self) = false) /\
      (forall last_run, GEPAOptimizer.recent_runs self !! module_name = Some last_run ->
         exists w, GEPAOptimizer.cooldown self <= (utc_now w).1 - last_run) /\
      (exists finished,
         GEPAOptimizer.recent_runs self' = <[module_name := finished]> (GEPAOptimizer.recent_runs self)) /\
      Db.predictions d' = Db.predictions d
  end.
Proof.
  unfold GEPAOptimizer.maybe_optimize_tool. intros H.
  apply db_bind_Ok in H as (history & d1 & H1 & H).
  apply (by_tool_history _ _ _ _ _ WL) in H1 as (T1 & all & Hp & ->).
  set (n := GEPAOptimizer.min_window_size self) in *.
  destruct (Nat.ltb_spec (length (take (n * 2) all)) (n * 2)) as [|Hlen].
  { unfold Db.ret in H. by injection H as <- <- <-. }
  apply db_bind_Ok in H as (busy & d2 & H2 & H). apply cooling_spec in H2 as (T2 & Hcool).
  pose proof (same_tables_trans _ _ _ T1 T2) as T12.
  destruct busy; [unfold Db.ret in H; by injection H as <- <- <-|].
  destruct (GEPAOptimizer.good_enough _ _) eqn:Eg; [unfold Db.ret in H; by injection H as <- <- <-|].
  apply optimize_spec in H as (record & finished & -> & Hruns & _ & Hpred & _).
  split_and!.
  - exists all. split_and!; [done|rewrite length_take in Hlen; lia|].
    intros acc Hacc. rewrite take_take, Nat.min_l in Eg by lia. unfold GEPAOptimizer.good_enough in Eg.
    by rewrite Hacc in Eg.
  - by apply Hcool.
  - by exists finished.
  - rewrite Hpred. apply T12.
Qed.

(** ** Forty predictions of one tool, the latest twenty wrong *)

Module DemoGepa.
Import DemoWorld.

Definition row (n : Z) : PredictionRecord.t (JN := ToyNumbers.toy_numbers) :=
  PredictionRecord.mk (pretty n) "h" "search" (Some "read"%string) (f64_ratio 9 10)
    (VObject [("reasoning"%string, VString "guess")]) n (Some (n <? 20)).

Definition rows : list PredictionRecord.t := List.map (fun n => row (39 - Z.of_nat n)) (seq 0 40).

Definition db : Db.t := Db.mk (0, ""%string) rows [] [].

Definition result : option OptimizationIteration.t * GEPAOptimizer.t :=
  match GEPAOptimizer.maybe_optimize_tool GEPAOptimizer.new "search" db with
  | (Ok r, _) => r
  | (Err _, _) => (None, GEPAOptimizer.new)
  end.

Example result_prompt :
  option_map OptimizationIteration.iteration result.1 = Some 1 /\
  option_map OptimizationIteration.actual_improvement result.1 = Some (Some (f64_of_Z (-1))).
Proof. split; vm_compute; reflexivity. Qed.
End DemoGepa.

Lemma optimizer_runs_only_when_due_witness :
  exists finished,
    GEPAOptimizer.recent_runs DemoGepa.result.2 = <[ "search"%string := finished ]> ∅.
Proof.
  assert (H : exists d' it,
    GEPAOptimizer.maybe_optimize_tool GEPAOptimizer.new "search" DemoGepa.db =
      (Ok (Some it, DemoGepa.result.2), d')).
  { unfold DemoGepa.result.
    destruct (GEPAOptimizer.maybe_optimize_tool GEPAOptimizer.new "search" DemoGepa.db)
      as [[[[it|] g]|e] d'] eqn:E; [by exists d', it|exfalso..].
    - apply (f_equal (fun r => match r.1 with Ok (None, _) => true | _ => false end)) in E.
      vm_compute in E. discriminate E.
    - apply (f_equal (fun r => match r.1 with Err _ => true | _ => false end)) in E.
      vm_compute in E. discriminate E. }
  destruct H as (d' & it & H).
  destruct (optimizer_runs_only_when_due (WL := DemoWorld.demo_world_laws) _ _ _ _ _ _ H) as (_ & _ & [f Hf] & _).
  exists f. exact Hf.
Defined.
