(* ===== verification/Session.v ===== *)
(** Sessions of predictions ([acdp-llm/src/session_management.rs]): the
    counters and scores of a session, and the manager of all sessions.  The
    lock is taken once in every method but [predict_for_session], which reads a
    copy, predicts, and writes the copy back; its two halves are separate
    steps. *)

From S2P Require Import Prelude Messages Transform Text Common Routing Predictor Gepa.

(** [Debug] of a text: quotes and escapes, by Unicode tables *)
Class StrDebug := { str_debug : string -> string }.

Module SessionPrediction.
Section prediction.
Context `{JN : JsonNumbers}.

Record t : Type := mk {
  message_id : MessageId;
  prediction : ToolPrediction.t;
  actual_tool : option string;
  was_accurate : bool;
  confidence : f32;
  latency_ms : Z;
  timestamp : Z;
  prediction_record_id : option string
}.

Definition new (now : Z) (message_id : MessageId) (prediction : ToolPrediction.t)
    (prediction_record_id : option string) (latency_ms : Z) : t :=
  mk message_id prediction None false (ToolPrediction.confidence prediction) latency_ms now
     prediction_record_id.

Definition mark_actual (self : t) (actual : string) : t :=
  mk (message_id self) (prediction self) (Some actual)
     (String.eqb (ToolPrediction.tool_name (prediction self)) actual) (confidence self)
     (latency_ms self) (timestamp self) (prediction_record_id self).
End prediction.
Arguments t : clear implicits.
Arguments t {JN}.
End SessionPrediction.

Module SessionPredictionContext.
Section context.
Context `{JN : JsonNumbers}.

Record t : Type := mk {
  session_id : SessionId;
  message_history : list MessageFlow.t;
  predictions : list SessionPrediction.t;
  total_predictions : Z;
  successful_predictions : Z;
  optimization_score : f32;
  last_updated : Z
}.

Definition new (now : Z) (session_id : SessionId) : t := mk session_id [] [] 0 0 f32_zero now.

Definition add_message (now : Z) (self : t) (message : MessageFlow.t) : t :=
  mk (session_id self) (message_history self ++ [message]) (predictions self)
     (total_predictions self) (successful_predictions self) (optimization_score self) now.

(** [iter().rev().take(n)] *)
Definition latest {A} (n : nat) (l : list A) : list A := take n (rev l).

(** [update_optimization_score] over the last ten predictions *)
Definition score (predictions : list SessionPrediction.t) : f32 :=
  let recent := latest 10 predictions in
  match recent with
  | [] => f32_zero
  | _ =>
      let n := f32_of_Z (Z.of_nat (length recent)) in
      let accurate_count :=
        f32_of_Z (Z.of_nat (length (List.filter SessionPrediction.was_accurate recent))) in
      let avg_confidence :=
        f32_div (List.fold_left f32_add (List.map SessionPrediction.confidence recent) f32_zero) n in
      f32_add (f32_mul (f32_div accurate_count n) (f32_ratio 7 10))
              (f32_mul avg_confidence (f32_ratio 3 10))
  end.

Definition add_prediction (now : Z) (self : t) (prediction : SessionPrediction.t) : t :=
  let predictions := predictions self ++ [prediction] in
  mk (session_id self) (message_history self) predictions
     (wrap_u64 (total_predictions self + 1))
     (if SessionPrediction.was_accurate prediction
      then wrap_u64 (successful_predictions self + 1) else successful_predictions self)
     (score predictions) now.

Definition accuracy (self : t) : f32 :=
  if total_predictions self =? 0 then f32_zero
  else f32_div (f32_of_Z (successful_predictions self)) (f32_of_Z (total_predictions self)).

(** [{:?}] of a status *)
Definition status_debug `{SD : StrDebug} (s : MessageStatus.t) : string :=
  match s with
  | MessageStatus.Pending => "Pending"
  | MessageStatus.InFlight => "InFlight"
  | MessageStatus.Completed => "Completed"
  | MessageStatus.Failed e => "Failed(" +:+ str_debug e +:+ ")"
  end.

Definition build_mcp_context `{SD : StrDebug} (self : t) : string :=
  "Session: " +:+ session_id self +:+ newline +:+
  "Accuracy: " +:+ format_fixed 2 (f32_mul (accuracy self) (f32_of_Z 100)) +:+
  "%, Optimization Score: " +:+ format_fixed 2 (optimization_score self) +:+ newline +:+
  "Recent Messages:" +:+ newline +:+
  String.concat "" (List.map (fun m =>
    "  - Method: " +:+ mcp.JsonRpcRequest.method (MessageFlow.client_request m) +:+
    ", Status: " +:+ status_debug (MessageFlow.status m) +:+ newline)
    (rev (latest 5 (message_history self)))).

(** The first prediction for a message, marked: [find] on a mutable iterator *)
Fixpoint mark_first (message_id : MessageId) (actual : string) (l : list SessionPrediction.t)
  : option (SessionPrediction.t * list SessionPrediction.t) :=
  match l with
  | [] => None
  | p :: l =>
      if String.eqb (SessionPrediction.message_id p) message_id then
        Some (p, SessionPrediction.mark_actual p actual :: l)
      else match mark_first message_id actual l with
           | Some (q, l) => Some (q, p :: l)
           | None => None
           end
  end.

Definition set_predictions (now : Z) (self : t) (predictions : list SessionPrediction.t) : t :=
  mk (session_id self) (message_history self) predictions (total_predictions self)
     (successful_predictions self) (optimization_score self) now.
End context.
Arguments t : clear implicits.
Arguments t {JN}.
End SessionPredictionContext.

Module SessionStats.
Record t : Type := mk {
  session_id : SessionId;
  total_predictions : Z;
  successful_predictions : Z;
  accuracy : f32;
  optimization_score : f32;
  message_count : Z;
  last_updated : Z
}.
End SessionStats.

Module SessionManager.
Section manager.
Context `{W : LlmWorld, JT : !JsonText, JF : !JsonFloats, UC : UnicodeCase, SD : StrDebug}.

Record t : Type := mk {
  sessions : gmap string SessionPredictionContext.t;
  gepa_optimizer : option GEPAOptimizer.t
}.

Definition new (gepa_optimizer : option GEPAOptimizer.t) : t := mk ∅ gepa_optimizer.

Definition with_sessions (self : t) (s : gmap string SessionPredictionContext.t) : t :=
  mk s (gepa_optimizer self).

(** [entry(id).or_insert_with(..)] *)
Definition entry (now : Z) (self : t) (session_id : SessionId) : SessionPredictionContext.t :=
  match sessions self !! session_id with
  | Some context => context
  | None => SessionPredictionContext.new now session_id
  end.

Definition get_or_create_session (now : Z) (self : t) (session_id : SessionId)
  : SessionPredictionContext.t * t :=
  let context := entry now self session_id in
  (context, with_sessions self (<[session_id := context]> (sessions self))).

Definition update_session (self : t) (context : SessionPredictionContext.t) : t :=
  with_sessions self (<[SessionPredictionContext.session_id context := context]> (sessions self)).

Definition add_message (now : Z) (self : t) (session_id : SessionId) (message : MessageFlow.t) : t :=
  match sessions self !! session_id with
  | Some context =>
      with_sessions self
        (<[session_id := SessionPredictionContext.add_message now context message]> (sessions self))
  | None => self
  end.

Definition record_prediction_for_session (now : Z) (self : t) (session_id : SessionId)
    (prediction : SessionPrediction.t) : t :=
  with_sessions self
    (<[session_id := SessionPredictionContext.add_prediction now (entry now self session_id) prediction]>
       (sessions self)).

(** The second half of [predict_for_session]: the copy, with the prediction *)
Definition finish_prediction (now : Z) (self : t) (copy : SessionPredictionContext.t)
    (prediction : SessionPrediction.t) : t :=
  update_session self (SessionPredictionContext.add_prediction now copy prediction).

(** The prediction between the halves *)
Definition predict_with (predictor : ToolPredictor.t) (copy : SessionPredictionContext.t)
    (message_id : MessageId) (method : string) : Db.M SessionPrediction.t :=
  let* start := Db.call instant_now in
  let* outcome :=
    ToolPredictor.predict_tool predictor
      (SessionPredictionContext.build_mcp_context copy +:+ newline +:+
       "Current Method: " +:+ method +:+ newline) in
  let* stop := Db.call instant_now in
  let* now := Db.call utc_now in
  Db.ret (SessionPrediction.new now message_id (PredictionOutcome.prediction outcome)
            (Some (PredictionOutcome.record_id outcome)) (as_millis (stop - start))).

Definition predict_for_session (now later : Z) (predictor : ToolPredictor.t) (self : t)
    (session_id : SessionId) (message_id : MessageId) (method : string) (d : Db.t)
  : LlmResult SessionPrediction.t * t * Db.t :=
  let '(context, self) := get_or_create_session now self session_id in
  match predict_with predictor context message_id method d with
  | (Ok prediction, d) => (Ok prediction, finish_prediction later self context prediction, d)
  | (Err e, d) => (Err e, self, d)
  end.

(** What [record_actual_tool] does to the sessions, and the prediction found *)
Definition mark_session (now : Z) (self : t) (session_id : SessionId) (message_id : MessageId)
    (actual_tool : string) : option SessionPrediction.t * t :=
  match sessions self !! session_id with
  | Some context =>
      match SessionPredictionContext.mark_first message_id actual_tool
              (SessionPredictionContext.predictions context) with
      | Some (p, l) =>
          (Some p, with_sessions self
                     (<[session_id := SessionPredictionContext.set_predictions now context l]>
                        (sessions self)))
      | None => (None, self)
      end
  | None => (None, self)
  end.

(** The optimizer's attempt; its errors are only logged. *)
Definition try_optimize (self : t) (tool_name : string) (d : Db.t) : t * Db.t :=
  match gepa_optimizer self with
  | Some optimizer =>
      match GEPAOptimizer.maybe_optimize_tool optimizer tool_name d with
      | (Ok (_, optimizer), d) => (mk (sessions self) (Some optimizer), d)
      | (Err _, d) => (self, d)
      end
  | None => (self, d)
  end.

Definition record_actual_tool (now : Z) (self : t) (session_id : SessionId) (message_id : MessageId)
    (actual_tool : string) (d : Db.t) : LlmResult unit * t * Db.t :=
  match mark_session now self session_id message_id actual_tool with
  | (Some p, self) =>
      let '(saved, d) :=
        match SessionPrediction.prediction_record_id p with
        | Some record_id => ToolPredictor.update_prediction_result record_id actual_tool d
        | None => (Ok tt, d)
        end in
      match saved with
      | Ok _ =>
          let '(self, d) :=
            try_optimize self (ToolPrediction.tool_name (SessionPrediction.prediction p)) d in
          (Ok tt, self, d)
      | Err e => (Err e, self, d)
      end
  | (None, self) => (Ok tt, self, d)
  end.

Definition get_session_stats (self : t) (session_id : SessionId) : option SessionStats.t :=
  match sessions self !! session_id with
  | Some context =>
      Some (SessionStats.mk
              (SessionPredictionContext.session_id context)
              (SessionPredictionContext.total_predictions context)
              (SessionPredictionContext.successful_predictions context)
              (SessionPredictionContext.accuracy context)
              (SessionPredictionContext.optimization_score context)
              (Z.of_nat (length (SessionPredictionContext.message_history context)))
              (SessionPredictionContext.last_updated context))
  | None => None
  end.

Definition list_sessions (self : t) : list SessionId := (map_to_list (sessions self)).*1.

(** [retain] *)
Definition cleanup_inactive_sessions (now : Z) (self : t) (max_age_hours : Z) : t :=
  let cutoff := now - max_age_hours * (3600 * 1000000000) in
  with_sessions self
    (filter (fun s => cutoff < SessionPredictionContext.last_updated s.2) (sessions self)).
End manager.
Arguments t : clear implicits.
Arguments t {JN}.
End SessionManager.

(** ** Tasks that share a manager

    A task that predicts for a session holds a copy of its context between its
    two halves; the steps of all tasks interleave. *)

Section tasks.
Context `{W : LlmWorld, JT : !JsonText, JF : !JsonFloats, UC : UnicodeCase, SD : StrDebug}.

Abbreviation Ctx := SessionPredictionContext.t.

Inductive task_step : SessionManager.t * list Ctx -> SessionManager.t * list Ctx -> Prop :=
| step_begin m held now sid :
    task_step (m, held)
      ((SessionManager.get_or_create_session now m sid).2,
       (SessionManager.get_or_create_session now m sid).1 :: held)
| step_finish m before copy after now made message_id prediction record_id latency :
    task_step (m, before ++ copy :: after)
      (SessionManager.finish_prediction now m copy
         (SessionPrediction.new made message_id prediction record_id latency),
       before ++ after)
| step_give_up m before copy after :
    task_step (m, before ++ copy :: after) (m, before ++ after)
| step_record m held now sid made message_id prediction record_id latency :
    task_step (m, held)
      (SessionManager.record_prediction_for_session now m sid
         (SessionPrediction.new made message_id prediction record_id latency), held)
| step_actual m held now sid message_id actual :
    task_step (m, held) ((SessionManager.mark_session now m sid message_id actual).2, held)
| step_message m held now sid message :
    task_step (m, held) (SessionManager.add_message now m sid message, held)
| step_optimize m held optimizer :
    task_step (m, held) (SessionManager.mk (SessionManager.sessions m) optimizer, held)
| step_cleanup m held now hours :
    task_step (m, held) (SessionManager.cleanup_inactive_sessions now m hours, held).

(** The counters of a context *)
Definition counters_ok (c : Ctx) : Prop :=
  SessionPredictionContext.total_predictions c =
    wrap_u64 (Z.of_nat (length (SessionPredictionContext.predictions c))) /\
  SessionPredictionContext.successful_predictions c = 0.

Definition manager_ok (m : SessionManager.t) : Prop :=
  map_Forall (fun sid c => SessionPredictionContext.session_id c = sid /\ counters_ok c)
    (SessionManager.sessions m).

Lemma new_counters now sid : counters_ok (SessionPredictionContext.new now sid).
Proof. done. Qed.

Lemma wrap_u64_succ n : wrap_u64 (wrap_u64 (Z.of_nat n) + 1) = wrap_u64 (Z.of_nat (S n)).
Proof. unfold wrap_u64. rewrite Z.add_mod_idemp_l by done. f_equal. lia. Qed.

Lemma add_prediction_counters now c made message_id prediction record_id latency :
  counters_ok c ->
  counters_ok (SessionPredictionContext.add_prediction now c
                 (SessionPrediction.new made message_id prediction record_id latency)).
Proof.
  intros [Ht Hs]. split; [|done]. cbn. rewrite Ht, length_app, wrap_u64_succ. cbn. do 2 f_equal. lia.
Qed.

Lemma mark_first_length message_id actual (l : list SessionPrediction.t) p l' :
  SessionPredictionContext.mark_first message_id actual l = Some (p, l') -> length l' = length l.
Proof.
  revert l'. induction l as [|q l IH]; intros l'; [done|]. cbn.
  destruct (String.eqb _ _); [by intros [= <- <-]|].
  destruct (SessionPredictionContext.mark_first message_id actual l) as [[r l'']|]; [|done].
  intros [= <- <-]. cbn. by rewrite IH.
Qed.

Lemma entry_ok now m sid :
  manager_ok m ->
  SessionPredictionContext.session_id (SessionManager.entry now m sid) = sid /\
  counters_ok (SessionManager.entry now m sid).
Proof.
  intros Hm. unfold SessionManager.entry.
  destruct (SessionManager.sessions m !! sid) as [c|] eqn:E; [exact (Hm sid c E)|done].
Qed.

Lemma insert_ok m sid c :
  manager_ok m -> SessionPredictionContext.session_id c = sid -> counters_ok c ->
  manager_ok (SessionManager.with_sessions m (<[sid := c]> (SessionManager.sessions m))).
Proof. intros Hm Hid Hc. by apply map_Forall_insert_2. Qed.

Lemma task_step_ok s s' :
  task_step s s' -> manager_ok s.1 /\ Forall counters_ok s.2 ->
  manager_ok s'.1 /\ Forall counters_ok s'.2.
Proof.
  intros H [Hm Hh]. destruct H; cbn [fst snd] in *; rewrite ?Forall_app, ?Forall_cons in *.
  - destruct (entry_ok now m sid Hm) as [He Hc]. split; [by apply insert_ok|done].
  - destruct Hh as (Hb & Hc & Ha). split; [|done]. apply insert_ok; [done|done|].
    by apply add_prediction_counters.
  - tauto.
  - destruct (entry_ok now m sid Hm) as [He Hc]. split; [|done]. apply insert_ok; [done|done|].
    by apply add_prediction_counters.
  - split; [|done]. unfold SessionManager.mark_session.
    destruct (SessionManager.sessions m !! sid) as [c|] eqn:E; [|done].
    destruct (SessionPredictionContext.mark_first _ _ _) as [[p l]|] eqn:El; [|done].
    destruct (Hm sid c E) as [Hid [Ht Hs]]. apply insert_ok; [done|done|]. split; [|done].
    cbn. by rewrite (mark_first_length _ _ _ _ _ El).
  - split; [|done]. unfold SessionManager.add_message.
    destruct (SessionManager.sessions m !! sid) as [c|] eqn:E; [|done].
    destruct (Hm sid c E) as [Hid Hc]. by apply insert_ok.
  - done.
  - split; [|done]. intros sid c Hc. cbn in Hc. apply map_lookup_filter_Some in Hc as [Hc _].
    exact (Hm sid c Hc).
Qed.

(** In every interleaving of the tasks that share a manager, each
    session's total is the number of predictions it holds, and its count of
    successful predictions is zero: predictions enter unmarked, and marking one
    with the tool that was used does not count it.  The accuracy that is shown
    for a session is therefore always that of no success. *)
Theorem sessions_never_succeed optimizer s :
  rtc task_step (SessionManager.new optimizer, []) s ->
  forall sid stats, SessionManager.get_session_stats s.1 sid = Some stats ->
    exists c, SessionManager.sessions s.1 !! sid = Some c /\
      SessionStats.session_id stats = sid /\
      SessionStats.total_predictions stats =
        wrap_u64 (Z.of_nat (length (SessionPredictionContext.predictions c))) /\
      SessionStats.successful_predictions stats = 0 /\
      SessionStats.accuracy stats =
        (if SessionStats.total_predictions stats =? 0 then f32_zero
         else f32_div (f32_of_Z 0) (f32_of_Z (SessionStats.total_predictions stats))).
Proof.
  intros Hr.
  assert (Hok : manager_ok s.1 /\ Forall counters_ok s.2).
  { remember (SessionManager.new optimizer, []) as s0 eqn:E0.
    assert (H0 : manager_ok s0.1 /\ Forall counters_ok s0.2)
      by (subst s0; split; [apply map_Forall_empty|constructor]). clear E0.
    induction Hr as [s|s1 s2 s3 Hstep _ IH]; [done|]. apply IH. eapply task_step_ok; eauto. }
  intros sid stats Hs. unfold SessionManager.get_session_stats in Hs.
  destruct (SessionManager.sessions s.1 !! sid) as [c|] eqn:E; [|done]. injection Hs as <-.
  destruct (proj1 Hok sid c E) as [Hid [Ht Hz]]. exists c. cbn.
  unfold SessionPredictionContext.accuracy. by rewrite Hz, Hid.
Qed.

(** A prediction recorded while another task predicts for the same
    session is lost: the second half of [predict_for_session] writes back the
    copy it took at its start, so the session then holds the predictions of
    the copy and its own, and the totals count only those. *)
Theorem concurrent_prediction_lost now1 now2 now3 (m : SessionManager.t) sid
    (p q : SessionPrediction.t) :
  manager_ok m ->
  let '(copy, m1) := SessionManager.get_or_create_session now1 m sid in
  let m2 := SessionManager.record_prediction_for_session now2 m1 sid p in
  let m3 := SessionManager.finish_prediction now3 m2 copy q in
  (exists c2, SessionManager.sessions m2 !! sid = Some c2 /\
     SessionPredictionContext.predictions c2 = SessionPredictionContext.predictions copy ++ [p]) /\
  (exists c3, SessionManager.sessions m3 !! sid = Some c3 /\
     SessionPredictionContext.predictions c3 = SessionPredictionContext.predictions copy ++ [q] /\
     SessionPredictionContext.total_predictions c3 =
       wrap_u64 (SessionPredictionContext.total_predictions copy + 1)).
Proof.
  intros Hm. unfold SessionManager.get_or_create_session. cbn zeta.
  destruct (entry_ok now1 m sid Hm) as [Hid _].
  set (copy := SessionManager.entry now1 m sid) in *. split.
  - eexists. split; [by apply lookup_insert_eq|]. cbn. f_equal. unfold SessionManager.entry. cbn.
    by rewrite lookup_insert_eq.
  - exists (SessionPredictionContext.add_prediction now3 copy q). split; [|split; reflexivity].
    unfold SessionManager.finish_prediction, SessionManager.update_session.
    cbn [SessionManager.sessions SessionManager.with_sessions].
    replace (SessionPredictionContext.session_id
               (SessionPredictionContext.add_prediction now3 copy q)) with sid by (by rewrite <- Hid).
    apply lookup_insert_eq.
Qed.
End tasks.

(** ** Concrete sessions *)

Module DemoSession.
Import ToyNumbers.

Definition prediction : ToolPrediction.t (JN := toy_numbers) :=
  ToolPrediction.mk "search" (f32_ratio 9 10) "guess" (VObject []).

Definition predicted (id : string) : SessionPrediction.t :=
  SessionPrediction.new 0 id prediction None 3.

Definition start : SessionManager.t (JN := toy_numbers) := SessionManager.new None.

(** A prediction that is then marked right *)
Definition recorded : SessionManager.t :=
  SessionManager.record_prediction_for_session 1 start "s" (predicted "m").
Definition marked : SessionManager.t :=
  (SessionManager.mark_session 2 recorded "s" "m" "search").2.

Example marked_right :
  option_map (fun c => List.map SessionPrediction.was_accurate (SessionPredictionContext.predictions c))
    (SessionManager.sessions marked !! "s"%string) = Some [true].
Proof. vm_compute. reflexivity. Qed.
End DemoSession.

Lemma sessions_never_succeed_witness :
  exists stats, SessionManager.get_session_stats DemoSession.marked "s" = Some stats /\
    SessionStats.total_predictions stats = 1 /\ SessionStats.successful_predictions stats = 0.
Proof.
  assert (Hr : rtc task_step (SessionManager.new None, []) (DemoSession.marked, [])).
  { eapply rtc_l; [apply (step_record _ _ 1 "s" 0 "m" DemoSession.prediction None 3)|].
    eapply rtc_l; [apply (step_actual _ _ 2 "s" "m" "search")|]. apply rtc_refl. }
  assert (H1 : option_map SessionStats.total_predictions
                 (SessionManager.get_session_stats DemoSession.marked "s") = Some 1)
    by (vm_compute; reflexivity).
  destruct (SessionManager.get_session_stats DemoSession.marked "s") as [stats|] eqn:E; [|discriminate E].
  exists stats. injection H1 as H1.
  destruct (sessions_never_succeed _ _ Hr "s" stats E) as (c & _ & _ & _ & Hs & _).
  split; [reflexivity|]. split; [exact H1|exact Hs].
Defined.

Lemma concurrent_prediction_lost_witness :
  exists c,
    SessionManager.sessions
      (SessionManager.finish_prediction 3
         (SessionManager.record_prediction_for_session 2
            (SessionManager.get_or_create_session 1 DemoSession.start "s").2 "s"
            (DemoSession.predicted "p"))
         (SessionManager.get_or_create_session 1 DemoSession.start "s").1
         (DemoSession.predicted "q")) !! "s"%string = Some c /\
    SessionPredictionContext.predictions c = [DemoSession.predicted "q"].
Proof.
  destruct (concurrent_prediction_lost 1 2 3 DemoSession.start "s"
              (DemoSession.predicted "p") (DemoSession.predicted "q")
              ltac:(apply map_Forall_empty)) as [_ (c & Hc & Hp & _)].
  exists c. split; [exact Hc|exact Hp].
Defined.
