(* ===== verification/LlmInterceptor.v ===== *)
(** The LLM interceptor ([acdp-llm/src/interceptor.rs]): an interceptor that
    routes outgoing messages by rules or by predictions, notes what it
    predicted in the message's parameters, and scores the prediction when the
    response comes back.  It is a value of the interceptor record, so it runs
    in the manager with all others. *)

From S2P Require Import Prelude McpError Messages Interceptor Transform Text Common Routing Predictor Gepa Session.

(** [Uuid::parse_str], giving the hyphenated text *)
Class UuidText := { uuid_parse_str : string -> option string }.

Module PendingPrediction.
Record t : Type := mk {
  record_id : string;
  predicted_tool : string;
  actual_tool : option string;
  session_id : option SessionId;
  message_id : option MessageId
}.
End PendingPrediction.

Module LlmInterceptor.
Section interceptor.
Context `{W : LlmWorld, JT : !JsonText, JF : !JsonFloats, UC : UnicodeCase, SD : StrDebug, UT : UuidText}.

(** [ipc_tx] is what was sent on the channel, when there is one;
    [interceptor_manager] says whether the handle is set. *)
Record t : Type := mk {
  predictor : ToolPredictor.t;
  routing_mode : RoutingMode.t;
  confidence_threshold : f32;
  interceptor_manager : bool;
  pending_predictions : gmap string PendingPrediction.t;
  session_manager : option SessionManager.t;
  ipc_tx : option (list IpcMessage.t);
  database : Db.t
}.

Definition new (predictor : ToolPredictor.t) (routing_mode : RoutingMode.t) (database : Db.t)
    (session_manager : option SessionManager.t) : t :=
  mk predictor routing_mode (f32_ratio 8 10) false ∅ session_manager None database.

Definition with_interceptor_manager (predictor : ToolPredictor.t) (routing_mode : RoutingMode.t)
    (database : Db.t) (session_manager : option SessionManager.t) : t :=
  mk predictor routing_mode (f32_ratio 8 10) true ∅ session_manager None database.

Definition set_ipc_sender (self : t) : t :=
  mk (predictor self) (routing_mode self) (confidence_threshold self) (interceptor_manager self)
     (pending_predictions self) (session_manager self) (Some []) (database self).

Definition set_routing_mode (self : t) (mode : RoutingMode.t) : t :=
  mk (predictor self) mode (confidence_threshold self) (interceptor_manager self)
     (pending_predictions self) (session_manager self) (ipc_tx self) (database self).

Definition get_routing_mode (self : t) : RoutingMode.t := routing_mode self.

Definition set_database (self : t) (d : Db.t) : t :=
  mk (predictor self) (routing_mode self) (confidence_threshold self) (interceptor_manager self)
     (pending_predictions self) (session_manager self) (ipc_tx self) d.

Definition set_pending (self : t) (p : gmap string PendingPrediction.t) : t :=
  mk (predictor self) (routing_mode self) (confidence_threshold self) (interceptor_manager self)
     p (session_manager self) (ipc_tx self) (database self).

Definition set_sessions (self : t) (m : SessionManager.t) : t :=
  mk (predictor self) (routing_mode self) (confidence_threshold self) (interceptor_manager self)
     (pending_predictions self) (Some m) (ipc_tx self) (database self).

Definition send (self : t) (message : IpcMessage.t) : t :=
  match ipc_tx self with
  | Some sent =>
      mk (predictor self) (routing_mode self) (confidence_threshold self) (interceptor_manager self)
         (pending_predictions self) (session_manager self) (Some (sent ++ [message])) (database self)
  | None => self
  end.

(** The runtime methods act on the manager the handle points to. *)
Definition add_interceptor_at_runtime (self : t) (manager : InterceptorManager.t)
    (i : MessageInterceptor) : LlmResult unit * InterceptorManager.t :=
  if interceptor_manager self then (Ok tt, InterceptorManager.add_interceptor manager i)
  else (Err (LlmError.ConfigError "Interceptor manager not set"), manager).

Definition remove_interceptor_at_runtime (self : t) (manager : InterceptorManager.t) (name : string)
  : LlmResult bool * InterceptorManager.t :=
  if interceptor_manager self then
    let '(removed, manager) := InterceptorManager.remove_interceptor manager name in
    (Ok removed, manager)
  else (Err (LlmError.ConfigError "Interceptor manager not set"), manager).

Definition list_interceptors (self : t) (manager : InterceptorManager.t) : LlmResult (list string) :=
  if interceptor_manager self then Ok (InterceptorManager.list_interceptors manager)
  else Err (LlmError.ConfigError "Interceptor manager not set").

(** *** Reading a message *)

Definition extract_request_id (message : JsonRpcMessage.t) : option string :=
  match message with
  | JsonRpcMessage.Request req => Some (RequestId.to_string (JsonRpcRequest.id req))
  | JsonRpcMessage.Response resp => Some (RequestId.to_string (JsonRpcResponse.id resp))
  | JsonRpcMessage.Notification _ => None
  end.

(** [find_map] over the items of an array *)
Fixpoint first_name (items : list Value) : option string :=
  match items with
  | [] => None
  | VObject map :: items =>
      match string_of (field map "name") with
      | Some name => Some name
      | None => first_name items
      end
  | _ :: items => first_name items
  end.

Definition extract_tool_name (params : option Value) : option string :=
  match params with
  | Some (VObject map) => string_of (field map "name")
  | Some (VArray items) => first_name items
  | _ => None
  end.

Definition is_tool_call (method : string) : bool :=
  String.eqb method "tools/call" || String.eqb method "tools.call".

Definition determine_actual_tool (message : JsonRpcMessage.t) : option string :=
  match message with
  | JsonRpcMessage.Request req =>
      if is_tool_call (JsonRpcRequest.method req)
      then extract_tool_name (JsonRpcRequest.params req)
      else Some (JsonRpcRequest.method req)
  | JsonRpcMessage.Notification notif =>
      if is_tool_call (JsonRpcNotification.method notif)
      then extract_tool_name (JsonRpcNotification.params notif)
      else Some (JsonRpcNotification.method notif)
  | JsonRpcMessage.Response _ => None
  end.

Definition or_null (v : option Value) : Value :=
  match v with Some v => v | None => VNull end.

(** The entries of the context, by key *)
Definition context_value (message : JsonRpcMessage.t) : Value :=
  VObject
    [("id"%string, or_null (option_map RequestId.to_value (JsonRpcMessage.id message)));
     ("method"%string, or_null (option_map VString (JsonRpcMessage.method message)));
     ("params"%string,
       or_null (match message with
                | JsonRpcMessage.Request req => JsonRpcRequest.params req
                | JsonRpcMessage.Notification notif => JsonRpcNotification.params notif
                | JsonRpcMessage.Response _ => None
                end))].

Definition extract_mcp_context (message : JsonRpcMessage.t) : string :=
  json_to_string (context_value message).

(** *** Writing metadata *)

(** The object the metadata is added to: other parameters are replaced. *)
Definition params_object (params : option Value) : list (string * Value) :=
  match params with
  | Some (VObject map) => map
  | _ => []
  end.

(** [number(confidence).ok_or(..)?] *)
Definition confidence_value (confidence : f64) : LlmResult Value :=
  match num_from_f64 confidence with
  | Some n => Ok (VNumber n)
  | None => Err (LlmError.ConfigError "Invalid confidence")
  end.

Definition add_metadata (key1 : string) (v1 : Value) (key2 : string) (confidence : f64)
    (message : JsonRpcMessage.t) : LlmResult JsonRpcMessage.t :=
  match message with
  | JsonRpcMessage.Request req =>
      let obj := insert_entry (params_object (JsonRpcRequest.params req)) key1 v1 in
      let? c := confidence_value confidence in
      Ok (JsonRpcMessage.Request
            (JsonRpcRequest.mk (JsonRpcRequest.jsonrpc req) (JsonRpcRequest.id req)
               (JsonRpcRequest.method req) (Some (VObject (insert_entry obj key2 c)))))
  | JsonRpcMessage.Notification notif =>
      let obj := insert_entry (params_object (JsonRpcNotification.params notif)) key1 v1 in
      let? c := confidence_value confidence in
      Ok (JsonRpcMessage.Notification
            (JsonRpcNotification.mk (JsonRpcNotification.jsonrpc notif)
               (JsonRpcNotification.method notif) (Some (VObject (insert_entry obj key2 c)))))
  | JsonRpcMessage.Response _ => Ok message
  end.

Definition enhance_request_with_prediction (message : JsonRpcMessage.t)
    (prediction : ToolPrediction.t) : LlmResult JsonRpcMessage.t :=
  add_metadata "_predicted_tool" (VString (ToolPrediction.tool_name prediction))
    "_prediction_confidence" (f64_of_f32 (ToolPrediction.confidence prediction)) message.

Definition apply_routing_rule (message : JsonRpcMessage.t) (rule : RoutingRule.t)
  : LlmResult JsonRpcMessage.t :=
  add_metadata "_routed_transport" (VString (RoutingRule.target_transport rule))
    "_routing_confidence" (RoutingRule.confidence rule) message.

(** *** Routing *)

(** What is noted for the response *)
Definition note_pending (self : t) (message : JsonRpcMessage.t) (outcome : PredictionOutcome.t)
    (session_id : option SessionId) (message_id : MessageId) : t :=
  match extract_request_id message with
  | Some request_id =>
      set_pending self
        (<[request_id := PendingPrediction.mk (PredictionOutcome.record_id outcome)
             (ToolPrediction.tool_name (PredictionOutcome.prediction outcome))
             (determine_actual_tool message) session_id (Some message_id)]>
           (pending_predictions self))
  | None => self
  end.

(** What is noted for the session *)
Definition note_session (now : Z) (self : t) (outcome : PredictionOutcome.t)
    (session_id : option SessionId) (message_id : MessageId) (latency_ms : Z) : t :=
  match session_manager self, session_id with
  | Some manager, Some session_id =>
      set_sessions self
        (SessionManager.record_prediction_for_session now manager session_id
           (SessionPrediction.new now message_id (PredictionOutcome.prediction outcome)
              (Some (PredictionOutcome.record_id outcome)) latency_ms))
  | _, _ => self
  end.

Definition semantic_answer (self : t) (message : JsonRpcMessage.t) (prediction : ToolPrediction.t)
  : LlmResult InterceptionResult.t :=
  if f32_geb (ToolPrediction.confidence prediction) (confidence_threshold self) then
    let? message := enhance_request_with_prediction message prediction in
    Ok (InterceptionResult.modified message
          ("Enhanced with tool prediction: " +:+ ToolPrediction.tool_name prediction)
          (f64_of_f32 (ToolPrediction.confidence prediction)))
  else Ok (InterceptionResult.pass_through message).

Definition timed_prediction (self : t) (context : string)
  : Db.M (PredictionOutcome.t * Z * MessageId * Z) :=
  let* start := Db.call instant_now in
  let* outcome := ToolPredictor.predict_tool (predictor self) context in
  let* stop := Db.call instant_now in
  let* message_id := Db.call fresh_uuid in
  let* now := Db.call utc_now in
  Db.ret (outcome, as_millis (stop - start), message_id, now).

Definition semantic_routing (self : t) (message : JsonRpcMessage.t) (context : string)
    (session_id : option SessionId) : LlmResult InterceptionResult.t * t :=
  match timed_prediction self context (database self) with
  | (Err e, d) => (Err e, set_database self d)
  | (Ok (outcome, latency_ms, message_id, now), d) =>
      let prediction := PredictionOutcome.prediction outcome in
      let self := set_database self d in
      let self := note_pending self message outcome session_id message_id in
      let self := note_session now self outcome session_id message_id latency_ms in
      let self := send self (IpcMessage.SemanticPrediction context
                    (ToolPrediction.tool_name prediction)
                    (f64_of_f32 (ToolPrediction.confidence prediction)) None None) in
      (semantic_answer self message prediction, self)
  end.

Definition hybrid_routing (self : t) (message : JsonRpcMessage.t) (context : string)
    (session_id : option SessionId) : LlmResult InterceptionResult.t * t :=
  let '(fetched, w) := sql_rules (Db.routing_rules (database self)) (Db.world (database self)) in
  let self := set_database self (Db.with_world (database self) w) in
  match RoutingRulesDatabase.find_matching_rule fetched context with
  | Err e => (Err e, self)
  | Ok (Some rule) =>
      (let? message := apply_routing_rule message rule in
       Ok (InterceptionResult.modified message
             ("Routed via rule: " +:+ RoutingRule.pattern rule) (RoutingRule.confidence rule)),
       self)
  | Ok None => semantic_routing self message context session_id
  end.

(** [McpError::Internal] of the error's text *)
Definition internal (e : LlmError.t) : McpError := Internal (LlmError.to_string e).

Definition predict_and_route (self : t) (message : JsonRpcMessage.t) (context : string)
    (session_id : option SessionId) : McpResult InterceptionResult.t * t :=
  match routing_mode self with
  | RoutingMode.Bypass => (Ok (InterceptionResult.pass_through message), self)
  | RoutingMode.Semantic =>
      let '(r, self) := semantic_routing self message context session_id in
      (map_err internal r, self)
  | RoutingMode.Hybrid =>
      let '(r, self) := hybrid_routing self message context session_id in
      (map_err internal r, self)
  end.

(** *** Responses *)

(** Errors of the database and of the session are logged. *)
Definition score_prediction (self : t) (p : PendingPrediction.t) (actual_tool : string) : t :=
  let '(_, d) := ToolPredictor.update_prediction_result (PendingPrediction.record_id p) actual_tool
                   (database self) in
  let self := set_database self d in
  match session_manager self, PendingPrediction.session_id p, PendingPrediction.message_id p with
  | Some manager, Some session_id, Some message_id =>
      let '(now, w) := utc_now (Db.world (database self)) in
      let '(_, manager, d) :=
        SessionManager.record_actual_tool now manager session_id message_id actual_tool
          (Db.with_world (database self) w) in
      set_database (set_sessions self manager) d
  | _, _, _ => self
  end.

Definition update_prediction_accuracy (self : t) (message : JsonRpcMessage.t) : t :=
  match extract_request_id message with
  | Some request_id =>
      match pending_predictions self !! request_id with
      | Some p =>
          let self := set_pending self (delete request_id (pending_predictions self)) in
          match PendingPrediction.actual_tool p with
          | Some actual_tool => score_prediction self p actual_tool
          | None => self
          end
      | None => self
      end
  | None => self
  end.

(** *** The interceptor *)

Definition should_intercept (_ : t) (context : MessageContext.t) : bool :=
  match MessageContext.direction context, MessageContext.message context with
  | Outgoing, _ => true
  | Incoming, JsonRpcMessage.Response _ => true
  | Incoming, _ => false
  end.

(** The error of [predict_and_route], an [Internal] one, is wrapped again. *)
Definition internal_again (e : McpError) : McpError :=
  match e with
  | Internal message => Internal ("Internal error: " +:+ message)
  | e => e
  end.

Definition intercept (self : t) (_ : Z) (context : MessageContext.t)
  : McpResult InterceptionResult.t * t :=
  let message := MessageContext.message context in
  let context_str := extract_mcp_context message in
  let session_id :=
    match MessageContext.session_id context with
    | Some raw => uuid_parse_str raw
    | None => None
    end in
  match MessageContext.direction context with
  | Outgoing =>
      let '(r, self) := predict_and_route self message context_str session_id in
      (map_err internal_again r, self)
  | Incoming =>
      (Ok (InterceptionResult.pass_through message), update_prediction_accuracy self message)
  end.

Definition get_stats (_ : t) : InterceptorStats.t := InterceptorStats.default.

Definition as_interceptor (self : t) : MessageInterceptor :=
  MkInterceptor _ t self "LLM Interceptor" default_priority should_intercept intercept.
End interceptor.
Arguments t : clear implicits.
Arguments t {JN W}.
End LlmInterceptor.

(** The manager's list after a method of the interceptor it shares with the
    holder of a handle *)
Section shared.
Context `{W : LlmWorld, JT : !JsonText, JF : !JsonFloats, UC : UnicodeCase, SD : StrDebug, UT : UuidText}.

Inductive shared_update (f : LlmInterceptor.t -> LlmInterceptor.t)
  : list MessageInterceptor -> list MessageInterceptor -> Prop :=
| shared_here llm l :
    shared_update f (LlmInterceptor.as_interceptor llm :: l)
      (LlmInterceptor.as_interceptor (f llm) :: l)
| shared_later i l l' : shared_update f l l' -> shared_update f (i :: l) (i :: l').
End shared.

(** ** Messages keep their meaning *)

Section metadata.
Context `{W : LlmWorld, JT : !JsonText, JF : !JsonFloats, UC : UnicodeCase, SD : StrDebug, UT : UuidText}.

Definition reserved : list string :=
  ["_predicted_tool"; "_prediction_confidence"; "_routed_transport"; "_routing_confidence"]%string.

Definition params_of (m : JsonRpcMessage.t) : option Value :=
  match m with
  | JsonRpcMessage.Request req => JsonRpcRequest.params req
  | JsonRpcMessage.Notification notif => JsonRpcNotification.params notif
  | JsonRpcMessage.Response _ => None
  end.

(** [m] with other parameters; a response has none. *)
Definition with_params (m : JsonRpcMessage.t) (params : Value) : JsonRpcMessage.t :=
  match m with
  | JsonRpcMessage.Request r =>
      JsonRpcMessage.Request
        (JsonRpcRequest.mk (JsonRpcRequest.jsonrpc r) (JsonRpcRequest.id r) (JsonRpcRequest.method r) (Some params))
  | JsonRpcMessage.Notification n =>
      JsonRpcMessage.Notification
        (JsonRpcNotification.mk (JsonRpcNotification.jsonrpc n) (JsonRpcNotification.method n) (Some params))
  | JsonRpcMessage.Response _ => m
  end.

(** [m'] is [m] with a text and a number under one of the two pairs of reserved
    keys: added to its parameters if these are an object, and in place of them
    if they are none, an array or a single value. *)
Definition annotated (m m' : JsonRpcMessage.t) : Prop :=
  exists key1 key2 text number,
    ((key1, key2) = ("_predicted_tool", "_prediction_confidence")%string \/
     (key1, key2) = ("_routed_transport", "_routing_confidence")%string) /\
    m' = with_params m (VObject
           match params_of m with
           | Some (VObject map) => insert_entry (insert_entry map key1 (VString text)) key2 (VNumber number)
           | _ => [(key1, VString text); (key2, VNumber number)]
           end).

Lemma add_metadata_annotates key1 text key2 c m m' :
  ((key1, key2) = ("_predicted_tool", "_prediction_confidence")%string \/
   (key1, key2) = ("_routed_transport", "_routing_confidence")%string) ->
  LlmInterceptor.add_metadata key1 (VString text) key2 c m = Ok m' -> annotated m m'.
Proof.
  intros Hk H. unfold LlmInterceptor.add_metadata, LlmInterceptor.confidence_value in H.
  assert (Hn : forall v, insert_entry (insert_entry [] key1 (VString text)) key2 v = [(key1, VString text); (key2, v)])
    by (by destruct Hk as [[= -> ->]|[= -> ->]]).
  destruct m as [r|r|n].
  2:{ injection H as <-. exists key1, key2, text, (num_from_i64 0). by split. }
  all: destruct (num_from_f64 c) as [x|]; [|discriminate]; injection H as <-;
    exists key1, key2, text, x; (split; [done|]);
    cbn [with_params params_of]; unfold LlmInterceptor.params_object.
  - destruct (JsonRpcRequest.params r) as [[]|]; rewrite ?Hn; reflexivity.
  - destruct (JsonRpcNotification.params n) as [[]|]; rewrite ?Hn; reflexivity.
Qed.

(** What is annotated keeps its other members. *)
Lemma annotated_members m m' map k :
  annotated m m' -> params_of m = Some (VObject map) -> k ∉ reserved ->
  exists map', params_of m' = Some (VObject map') /\ field map' k = field map k.
Proof.
  intros (k1 & k2 & x & n & Hk & ->) Hp Hn. rewrite Hp.
  eexists. split; [by destruct m|].
  rewrite !field_insert_entry_ne; [done|..];
    destruct Hk as [[= -> ->]|[= -> ->]]; intros <-; apply Hn; set_solver.
Qed.

(** An answer that blocks nothing, and is the message or annotates it *)
Definition answered_of (m : JsonRpcMessage.t) (r : InterceptionResult.t) : Prop :=
  InterceptionResult.block r = false /\
  (if InterceptionResult.modified_flag r then annotated m (InterceptionResult.message r)
   else InterceptionResult.message r = m).

Lemma semantic_answer_same self m p r :
  LlmInterceptor.semantic_answer self m p = Ok r ->
  answered_of m r.
Proof.
  unfold LlmInterceptor.semantic_answer, LlmInterceptor.enhance_request_with_prediction.
  destruct (f32_geb _ _); intros H; inv_res; split; try done.
  eapply add_metadata_annotates; [|eassumption]. by left.
Qed.

Lemma semantic_routing_same self m context sid r self' :
  LlmInterceptor.semantic_routing self m context sid = (Ok r, self') ->
  answered_of m r.
Proof.
  unfold LlmInterceptor.semantic_routing.
  destruct (LlmInterceptor.timed_prediction _ _ _) as [[[[[o l] i] n]|e] d]; [|discriminate].
  intros H. apply (f_equal fst) in H. cbn [fst] in H. by eapply semantic_answer_same.
Qed.

Lemma hybrid_routing_same self m context sid r self' :
  LlmInterceptor.hybrid_routing self m context sid = (Ok r, self') ->
  answered_of m r.
Proof.
  unfold LlmInterceptor.hybrid_routing. destruct (sql_rules _ _) as [fetched w]. cbn zeta.
  destruct (RoutingRulesDatabase.find_matching_rule fetched context) as [[rule|]|e]; [| |discriminate].
  - intros H. apply (f_equal fst) in H. cbn [fst] in H. unfold LlmInterceptor.apply_routing_rule in H.
    inv_res. split; [done|]. eapply add_metadata_annotates; [|eassumption]. by right.
  - apply semantic_routing_same.
Qed.
End metadata.

(** C27: the LLM interceptor never blocks, and whatever the model, the rules and
    the database answer, on the way back and where it reports no modification
    the message it leaves is the very message.  A modified request or
    notification has the same identifier and method, and its parameters get the
    predicted tool with its confidence, or the route with its confidence, under
    the reserved keys: an object keeps all its other members, but any other
    parameters, such as an array, are replaced by these two members and lost. *)
Theorem llm_only_adds_metadata
    `{W : LlmWorld, JT : !JsonText, JF : !JsonFloats, UC : UnicodeCase, SD : StrDebug, UT : UuidText}
    (self self' : LlmInterceptor.t) now context r :
  LlmInterceptor.intercept self now context = (Ok r, self') ->
  let m := MessageContext.message context in
  InterceptionResult.block r = false /\
  (InterceptionResult.modified_flag r = false \/ MessageContext.direction context = Incoming ->
   InterceptionResult.message r = m) /\
  (InterceptionResult.modified_flag r = true ->
   annotated m (InterceptionResult.message r) /\
   forall map, params_of m = Some (VObject map) -> forall k, k ∉ reserved ->
   exists map', params_of (InterceptionResult.message r) = Some (VObject map') /\ field map' k = field map k).
Proof.
  intros H. cbn zeta. set (m := MessageContext.message context).
  assert (Ha : answered_of m r /\ (MessageContext.direction context = Incoming -> InterceptionResult.modified_flag r = false)).
  { revert H. unfold LlmInterceptor.intercept. cbn zeta.
    destruct (MessageContext.direction context); [|intros [= <- _]; by split].
    unfold LlmInterceptor.predict_and_route. destruct (LlmInterceptor.routing_mode self).
    - intros [= <- _]. by split.
    - destruct (LlmInterceptor.semantic_routing _ _ _ _) as [[q|e] s] eqn:E; [|discriminate].
      intros [= <- <-]. split; [by eapply semantic_routing_same|done].
    - destruct (LlmInterceptor.hybrid_routing _ _ _ _) as [[q|e] s] eqn:E; [|discriminate].
      intros [= <- <-]. split; [by eapply hybrid_routing_same|done]. }
  destruct Ha as [[Hb Hm] Hi]. split_and!; [done|..].
  - intros Hf. assert (Hn : InterceptionResult.modified_flag r = false) by (destruct Hf; auto). by rewrite Hn in Hm.
  - intros Hf. rewrite Hf in Hm. split; [done|]. intros map Hp k Hk. by eapply annotated_members.
Qed.

(** ** Bypass *)

Section bypass.
Context `{JN : JsonNumbers}.

Lemma run_app now l pre rest :
  InterceptorManager.run now l (pre ++ rest) =
    match InterceptorManager.run now l pre with
    | (inr r, pre') => (inr r, pre' ++ rest)
    | (inl l', pre') =>
        let '(out, rest') := InterceptorManager.run now l' rest in (out, pre' ++ rest')
    end.
Proof.
  revert l. induction pre as [|i pre IH]; intros l; cbn [app InterceptorManager.run].
  - by destruct (InterceptorManager.run now l rest).
  - destruct (wants i (InterceptorManager.context l)).
    2:{ rewrite IH. destruct (InterceptorManager.run now l pre) as [[l'|r] pre']; [|done].
        by destruct (InterceptorManager.run now l' rest). }
    destruct (intercept i (current i) now _) as [[r|e] s].
    + destruct (InterceptionResult.block r); [done|]. rewrite IH.
      destruct (InterceptorManager.run now _ pre) as [[l'|r'] pre']; [|done].
      by destruct (InterceptorManager.run now l' rest).
    + rewrite IH. destruct (InterceptorManager.run now _ pre) as [[l'|r'] pre']; [|done].
      by destruct (InterceptorManager.run now l' rest).
Qed.

(** The loop never changes the direction. *)
Lemma run_direction now ics : forall l,
  match (InterceptorManager.run now l ics).1 with
  | inl l' => MessageContext.direction (InterceptorManager.context l') =
              MessageContext.direction (InterceptorManager.context l)
  | inr _ => True
  end.
Proof.
  induction ics as [|i ics IH]; intros l; cbn [InterceptorManager.run]; [done|].
  destruct (wants i (InterceptorManager.context l)).
  2:{ specialize (IH l). by destruct (InterceptorManager.run now l ics). }
  destruct (intercept i (current i) now _) as [[r|e] s]; [destruct (InterceptionResult.block r); [done|]|].
  - match goal with |- context [InterceptorManager.run now ?x ics] => specialize (IH x) end.
    destruct (InterceptorManager.run now _ ics) as [[l'|r'] ics']; [|done]. cbn in *. rewrite IH.
    unfold InterceptorManager.apply_result. by destruct (InterceptionResult.modified_flag r).
  - match goal with |- context [InterceptorManager.run now ?x ics] => specialize (IH x) end.
    by destruct (InterceptorManager.run now _ ics) as [[l'|r'] ics'].
Qed.

(** Loops that differ at most in the message their context remembers *)
Definition loop_eq (l1 l2 : InterceptorManager.Loop) : Prop :=
  same_but_message (InterceptorManager.context l1) (InterceptorManager.context l2) /\
  InterceptorManager.current_message l1 = InterceptorManager.current_message l2 /\
  InterceptorManager.was_modified l1 = InterceptorManager.was_modified l2 /\
  InterceptorManager.modification_reasoning l1 = InterceptorManager.modification_reasoning l2 /\
  InterceptorManager.confidence_sum l1 = InterceptorManager.confidence_sum l2 /\
  InterceptorManager.confidence_count l1 = InterceptorManager.confidence_count l2.

#[local] Instance loop_eq_equivalence : Equivalence loop_eq.
Proof.
  split; red; unfold loop_eq, same_but_message; intros; destruct_and?; split_and!; congruence || done.
Qed.

Definition same_end (a b : InterceptorManager.Loop + InterceptionResult.t) : Prop :=
  match a, b with
  | inl l1, inl l2 => loop_eq l1 l2
  | inr r1, inr r2 => r1 = r2
  | _, _ => False
  end.

Lemma same_end_refl a : same_end a a.
Proof. by destruct a as [l|r]; cbn. Qed.

Lemma apply_result_eq l1 l2 r :
  loop_eq l1 l2 -> loop_eq (InterceptorManager.apply_result l1 r) (InterceptorManager.apply_result l2 r).
Proof.
  unfold loop_eq, InterceptorManager.apply_result. intros (? & ? & ? & Hr & Hs & Hc).
  destruct (InterceptionResult.modified_flag r); cbn; rewrite ?Hr, ?Hs, ?Hc; split_and!; done.
Qed.

Lemma run_blind now ics : forall l1 l2,
  Forall message_blind ics -> loop_eq l1 l2 ->
  same_end (InterceptorManager.run now l1 ics).1 (InterceptorManager.run now l2 ics).1 /\
  (InterceptorManager.run now l1 ics).2 = (InterceptorManager.run now l2 ics).2.
Proof.
  induction ics as [|i ics IH]; intros l1 l2 Hb He; [done|].
  apply Forall_cons in Hb as [Hi Hb]. pose proof He as (Hc & Hm & Hw & Hr & Hs & Hn).
  cbn [InterceptorManager.run].
  assert (Hwant : wants i (InterceptorManager.context l1) = wants i (InterceptorManager.context l2)).
  { unfold wants. rewrite <- (Hi _ _ (InterceptorManager.current_message l1)), Hc. apply Hi. }
  rewrite Hwant, <- Hm, (Hc (InterceptorManager.current_message l1)), <- Hw, <- Hr, <- Hs, <- Hn.
  destruct (wants i (InterceptorManager.context l2)).
  2:{ specialize (IH l1 l2 Hb He). 
      destruct (InterceptorManager.run now l1 ics), (InterceptorManager.run now l2 ics).
      cbn in *. destruct IH as [? ->]. done. }
  destruct (intercept i (current i) now _) as [[r|e] s].
  - destruct (InterceptionResult.block r); [done|].
    destruct (IH _ _ Hb (reflexivity (InterceptorManager.apply_result
      (InterceptorManager.MkLoop
         (MessageContext.set_message (InterceptorManager.context l2) (InterceptorManager.current_message l1))
         (InterceptorManager.current_message l1) (InterceptorManager.was_modified l1)
         (InterceptorManager.modification_reasoning l1) (InterceptorManager.confidence_sum l1)
         (InterceptorManager.confidence_count l1)) r))) as [Hend _].
    by destruct (InterceptorManager.run now _ ics).
  - destruct (IH _ _ Hb (reflexivity (InterceptorManager.MkLoop
         (MessageContext.set_message (InterceptorManager.context l2) (InterceptorManager.current_message l1))
         (InterceptorManager.current_message l1) (InterceptorManager.was_modified l1)
         (InterceptorManager.modification_reasoning l1) (InterceptorManager.confidence_sum l1)
         (InterceptorManager.confidence_count l1)))) as [Hend _].
    by destruct (InterceptorManager.run now _ ics).
Qed.

Lemma final_result_eq l1 l2 :
  loop_eq l1 l2 -> InterceptorManager.final_result l1 = InterceptorManager.final_result l2.
Proof.
  intros (_ & Hm & Hw & Hr & Hs & Hn). unfold InterceptorManager.final_result.
  by rewrite Hm, Hw, Hr, Hs, Hn.
Qed.
End bypass.

Section bypass_interceptor.
Context `{W : LlmWorld, JT : !JsonText, JF : !JsonFloats, UC : UnicodeCase, SD : StrDebug, UT : UuidText}.

(** In bypass the interceptor passes the message on in every case. *)
Lemma bypass_run now l (llm : LlmInterceptor.t) post :
  LlmInterceptor.routing_mode llm = RoutingMode.Bypass ->
  Forall message_blind post \/
    MessageContext.message (InterceptorManager.context l) = InterceptorManager.current_message l ->
  exists llm',
    LlmInterceptor.routing_mode llm' = RoutingMode.Bypass /\
    (MessageContext.direction (InterceptorManager.context l) = Outgoing -> llm' = llm) /\
    same_end (InterceptorManager.run now l (LlmInterceptor.as_interceptor llm :: post)).1
             (InterceptorManager.run now l post).1 /\
    (InterceptorManager.run now l (LlmInterceptor.as_interceptor llm :: post)).2 =
      LlmInterceptor.as_interceptor llm' :: (InterceptorManager.run now l post).2.
Proof.
  intros Hm Hb. cbn [InterceptorManager.run].
  destruct (wants (LlmInterceptor.as_interceptor llm) (InterceptorManager.context l)).
  2:{ exists llm. split_and!; [done|done| |];
        destruct (InterceptorManager.run now l post) as [[?|?] ?]; cbn; done. }
  set (ctx := MessageContext.set_message _ _).
  set (l1 := InterceptorManager.MkLoop ctx _ _ _ _ _).
  assert (same_end (InterceptorManager.run now l1 post).1 (InterceptorManager.run now l post).1 /\
          (InterceptorManager.run now l1 post).2 = (InterceptorManager.run now l post).2) as [Hend Hics].
  { destruct Hb as [Hb|Hc]; [by apply run_blind|].
    assert (l1 = l) as ->; [|split; [by apply same_end_refl|done]].
    unfold l1, ctx. destruct l as [[] cur ? ? ? ?]. cbn in Hc. by subst cur. }
  assert (Hi : exists llm', intercept (LlmInterceptor.as_interceptor llm)
                 (current (LlmInterceptor.as_interceptor llm)) now ctx =
                 (Ok (InterceptionResult.pass_through (InterceptorManager.current_message l)), llm') /\
               LlmInterceptor.routing_mode llm' = RoutingMode.Bypass /\
               (MessageContext.direction (InterceptorManager.context l) = Outgoing -> llm' = llm)).
  { cbn -[LlmInterceptor.update_prediction_accuracy LlmInterceptor.extract_mcp_context].
    unfold LlmInterceptor.intercept. cbn zeta.
    change (MessageContext.direction ctx) with
      (MessageContext.direction (InterceptorManager.context l)).
    destruct (MessageContext.direction (InterceptorManager.context l)).
    - unfold LlmInterceptor.predict_and_route. rewrite Hm. by exists llm.
    - eexists. split; [reflexivity|]. split; [|done].
      unfold LlmInterceptor.update_prediction_accuracy.
      destruct (LlmInterceptor.extract_request_id _) as [i|]; [|done].
      destruct (LlmInterceptor.pending_predictions llm !! i) as [p|]; [|done].
      destruct (PendingPrediction.actual_tool p) as [a|]; [|done].
      unfold LlmInterceptor.score_prediction.
      destruct (ToolPredictor.update_prediction_result _ _ _) as [x d].
      cbn -[SessionManager.record_actual_tool].
      destruct (LlmInterceptor.session_manager llm), (PendingPrediction.session_id p),
        (PendingPrediction.message_id p); try done.
      destruct (utc_now (Db.world d)) as [n w].
      by destruct (SessionManager.record_actual_tool _ _ _ _ _ _) as [[y mgr] d']. }
  destruct Hi as (llm' & Hi & Hmode & Hsame). rewrite Hi. cbn.
  exists llm'. split_and!; [done|done| |];
    fold l1; destruct (InterceptorManager.run now l1 post); cbn in *; [done|by subst].
Qed.
End bypass_interceptor.

(** C19: in bypass mode the LLM interceptor is transparent when it is the first
    of the list, and elsewhere when the interceptors after it decide by
    direction, session or metadata whether they run.  A manager with it then
    answers every message exactly as the manager without it, and leaves the
    other interceptors in the same states.  On the way out the LLM
    interceptor's own state does not change either. *)
Theorem bypass_is_transparent
    `{W : LlmWorld, JT : !JsonText, JF : !JsonFloats, UC : UnicodeCase, SD : StrDebug, UT : UuidText}
    now elapsed (llm : LlmInterceptor.t) pre post stats m d md :
  LlmInterceptor.routing_mode llm = RoutingMode.Bypass ->
  pre = [] \/ Forall message_blind post ->
  let with_llm := InterceptorManager.mk (pre ++ LlmInterceptor.as_interceptor llm :: post) stats in
  let without := InterceptorManager.mk (pre ++ post) stats in
  (InterceptorManager.process_message_with_metadata now elapsed with_llm m d md).1 =
    (InterceptorManager.process_message_with_metadata now elapsed without m d md).1 /\
  exists pre' post' llm',
    InterceptorManager.interceptors
      (InterceptorManager.process_message_with_metadata now elapsed with_llm m d md).2 =
      pre' ++ LlmInterceptor.as_interceptor llm' :: post' /\
    InterceptorManager.interceptors
      (InterceptorManager.process_message_with_metadata now elapsed without m d md).2 = pre' ++ post' /\
    LlmInterceptor.routing_mode llm' = RoutingMode.Bypass /\ (d = Outgoing -> llm' = llm).
Proof.
  intros Hm Hb. cbn zeta. unfold InterceptorManager.process_message_with_metadata.
  cbn [InterceptorManager.interceptors InterceptorManager.stats]. rewrite !run_app.
  set (l0 := InterceptorManager.initial_loop now m d md).
  pose proof (run_direction now pre l0) as Hdir.
  assert (Hf : pre = [] -> (InterceptorManager.run now l0 pre).1 = inl l0) by (by intros ->).
  destruct (InterceptorManager.run now l0 pre) as [[l|r] pre'].
  2:{ split; [done|]. by exists pre', post, llm. }
  assert (Hb' : Forall message_blind post \/
            MessageContext.message (InterceptorManager.context l) = InterceptorManager.current_message l).
  { destruct Hb as [Hp|Hb]; [right|by left]. apply Hf in Hp. cbn in Hp. by injection Hp as ->. }
  destruct (bypass_run now l llm post Hm Hb') as (llm' & Hmode & Hsame & Hend & Hics).
  destruct (InterceptorManager.run now l (LlmInterceptor.as_interceptor llm :: post)) as [o1 i1].
  destruct (InterceptorManager.run now l post) as [o2 i2]. cbn [fst snd] in *. subst i1.
  destruct o1 as [l1|r1], o2 as [l2|r2]; try done; cbn [same_end] in Hend.
  - cbn. split; [f_equal; by apply final_result_eq|].
    exists pre', i2, llm'. split_and!; [done|done|done|]. intros ->. apply Hsame. by rewrite Hdir.
  - cbn. split; [by subst|]. exists pre', i2, llm'. split_and!; [done|done|done|].
    intros ->. apply Hsame. by rewrite Hdir.
Qed.

(** ** The score of a prediction *)

Section scoring.
Context `{W : LlmWorld, JT : !JsonText, JF : !JsonFloats, UC : UnicodeCase, SD : StrDebug, UT : UuidText}.

(** Statements that do not fail *)
Definition database_up : Prop := forall w, (sql_execute w).1 = None.

(** Identifiers new to a table *)
Definition fresh_for (rows : list PredictionRecord.t) : Prop :=
  forall w, Forall (fun r => PredictionRecord.id r <> (fresh_uuid w).1) rows.

(** What a successful prediction leaves behind: one unscored row *)
Definition recorded (d d' : Db.t) (outcome : PredictionOutcome.t) : Prop :=
  exists row, Db.predictions d' = Db.predictions d ++ [row] /\
    PredictionRecord.id row = PredictionOutcome.record_id outcome /\
    PredictionRecord.predicted_tool row = ToolPrediction.tool_name (PredictionOutcome.prediction outcome) /\
    PredictionRecord.actual_tool row = None /\ PredictionRecord.correct row = None /\
    exists w, PredictionRecord.id row = (fresh_uuid w).1.

Lemma persist_records d context tool confidence reasoning :
  database_up ->
  exists outcome d', ToolPredictor.persist_prediction context tool confidence reasoning d = (Ok outcome, d') /\
    recorded d d' outcome /\ ToolPrediction.tool_name (PredictionOutcome.prediction outcome) = tool.
Proof.
  intros Hup. unfold ToolPredictor.persist_prediction, PredictionsDatabase.record_prediction,
    Db.bind, Db.call, Db.execute, Db.ret.
  destruct (fresh_uuid (Db.world d)) as [id w1] eqn:E1. cbn.
  destruct (utc_now w1) as [now w2]. cbn.
  pose proof (Hup w2) as Hw. destruct (sql_execute w2) as [e w3]. cbn in *. subst e.
  do 2 eexists. split; [reflexivity|]. split; [|done]. cbn. eexists. split; [reflexivity|].
  split_and!; try done. exists (Db.world d). by rewrite E1.
Qed.

(** The names the keyword heuristics can give *)
Definition dotted : list string :=
  ["tools.list"; "resources.list"; "resources.read"; "prompts.list"; "prompts.get"]%string.

Definition mentions_call (context : string) : bool :=
  str_contains "tools/call" (to_lowercase context) || str_contains "tools.call" (to_lowercase context).

Lemma heuristic_records d context :
  database_up ->
  exists outcome d', ToolPredictor.heuristic_predict context d = (Ok outcome, d') /\
    recorded d d' outcome /\
    (mentions_call context = false ->
     ToolPrediction.tool_name (PredictionOutcome.prediction outcome) ∈ dotted).
Proof.
  intros Hup. unfold ToolPredictor.heuristic_predict, mentions_call. cbn zeta.
  destruct (_ || _).
  - destruct (ToolPredictor.named_tool context);
      match goal with |- context [ToolPredictor.persist_prediction ?c ?t ?f ?r d] =>
        destruct (persist_records d c t f r Hup) as (o & d' & E & Hr & _) end;
      exists o, d'; by split_and!.
  - assert (Hp : forall tool confidence reasoning, tool ∈ dotted ->
      exists outcome d',
        ToolPredictor.persist_prediction context tool confidence reasoning d = (Ok outcome, d') /\
        recorded d d' outcome /\
        (false = false -> ToolPrediction.tool_name (PredictionOutcome.prediction outcome) ∈ dotted)).
    { intros tool confidence reasoning Hd.
      destruct (persist_records d context tool confidence reasoning Hup) as (o & d' & E & Hr & Ht).
      exists o, d'. split_and!; [done|done|]. by rewrite Ht. }
    repeat (destruct (_ || _); [by apply Hp, (bool_decide_unpack _)|]).
    by apply Hp, (bool_decide_unpack _).
Qed.

Lemma dspy_tables d context :
  Db.predictions (DSpyToolPredictor.predict context d).2 = Db.predictions d.
Proof.
  unfold DSpyToolPredictor.predict, Db.bind, Db.call, Db.fail, Db.ret.
  destruct (litert_call _ _) as [[[t|]|e] w]; try done.
  destruct (str_is_empty _); [done|]. cbn zeta.
  destruct (json_from_str _) as [v|]; [|done]. by destruct (ToolPrediction.from_value v).
Qed.

Lemma predict_records predictor d context :
  database_up ->
  exists outcome d', ToolPredictor.predict_tool predictor context d = (Ok outcome, d') /\
    recorded d d' outcome /\
    (ToolPredictor.semantic_engine predictor = false -> mentions_call context = false ->
     ToolPrediction.tool_name (PredictionOutcome.prediction outcome) ∈ dotted).
Proof.
  intros Hup. unfold ToolPredictor.predict_tool.
  destruct (ToolPredictor.semantic_engine predictor).
  - unfold Db.bind, Db.attempt. pose proof (dspy_tables d context) as Ht.
    destruct (DSpyToolPredictor.predict context d) as [[p|e] d1]; cbn [snd] in Ht.
    + destruct (persist_records d1 context (ToolPrediction.tool_name p)
        (ToolPrediction.confidence p) (ToolPrediction.reasoning p) Hup) as (o & d' & E & Hr & _).
      exists o, d'. split_and!; [done| |done]. unfold recorded in *. by rewrite Ht in Hr.
    + destruct (heuristic_records d1 context Hup) as (o & d' & E & Hr & _).
      exists o, d'. split_and!; [done| |done]. unfold recorded in *. by rewrite Ht in Hr.
  - destruct (heuristic_records d context Hup) as (o & d' & E & Hr & Hd). eauto 10.
Qed.

Lemma timed_records self context d :
  database_up ->
  exists outcome latency message_id now d',
    LlmInterceptor.timed_prediction self context d = (Ok (outcome, latency, message_id, now), d') /\
    recorded d d' outcome /\
    (ToolPredictor.semantic_engine (LlmInterceptor.predictor self) = false ->
     mentions_call context = false ->
     ToolPrediction.tool_name (PredictionOutcome.prediction outcome) ∈ dotted).
Proof.
  intros Hup. unfold LlmInterceptor.timed_prediction, Db.bind, Db.call, Db.ret.
  destruct (instant_now (Db.world d)) as [start w]. cbn.
  destruct (predict_records (LlmInterceptor.predictor self) (Db.with_world d w) context Hup)
    as (o & d' & -> & Hr & Hd).
  destruct (instant_now (Db.world d')) as [stop w1]. cbn.
  destruct (fresh_uuid w1) as [id w2]. cbn. destruct (utc_now w2) as [now w3].
  do 5 eexists. split_and!; [reflexivity|exact Hr|exact Hd].
Qed.

(** The update of a table with one row of the identifier *)
Lemma update_scores d rows row actual :
  database_up -> Db.predictions d = rows ++ [row] ->
  Forall (fun r => PredictionRecord.id r <> PredictionRecord.id row) rows ->
  Db.predictions (ToolPredictor.update_prediction_result (PredictionRecord.id row) actual d).2 =
    rows ++ [PredictionsDatabase.set_actual (PredictionRecord.id row) actual
               (String.eqb (PredictionRecord.predicted_tool row) actual) row].
Proof.
  intros Hup Hd Hf. unfold ToolPredictor.update_prediction_result,
    PredictionsDatabase.update_prediction_result, PredictionsDatabase.get_prediction_tool, Db.bind,
    Db.execute.
  pose proof (Hup (Db.world d)) as H1. destruct (sql_execute (Db.world d)) as [e w]. cbn in H1. subst e.
  cbn. pose proof (Hup w) as H2. destruct (sql_execute w) as [e w']. cbn in H2. subst e. cbn.
  rewrite Hd. clear Hd. induction Hf as [|r rows Hr _ IH].
  - cbn. by rewrite String.eqb_refl.
  - cbn [app List.find List.map]. destruct (String.eqb_spec (PredictionRecord.id r) (PredictionRecord.id row));
      [done|]. rewrite IH. f_equal. unfold PredictionsDatabase.set_actual.
    by destruct (String.eqb_spec (PredictionRecord.id r) (PredictionRecord.id row)).
Qed.
End scoring.

Section scored.
Context `{W : LlmWorld, JT : !JsonText, JF : !JsonFloats, UC : UnicodeCase, SD : StrDebug, UT : UuidText}.

(** A call on its way out, and a response on its way back, of no session *)
Definition outgoing (at_ : Z) (m : JsonRpcMessage.t) : MessageContext.t := MessageContext.new at_ m Outgoing.
Definition incoming (at_ : Z) (m : JsonRpcMessage.t) : MessageContext.t := MessageContext.new at_ m Incoming.

(** The table after a call and its response: one more row *)
Definition scored_row (rows rows' : list PredictionRecord.t) (actual : option string) (row : PredictionRecord.t)
  : Prop :=
  rows' = rows ++ [row] /\ PredictionRecord.actual_tool row = actual /\
  PredictionRecord.correct row =
    option_map (fun a => String.eqb (PredictionRecord.predicted_tool row) a) actual.

Lemma call_and_response (self : LlmInterceptor.t) now1 now2 at1 at2 call response id :
  database_up -> fresh_for (Db.predictions (LlmInterceptor.database self)) ->
  LlmInterceptor.routing_mode self = RoutingMode.Semantic ->
  LlmInterceptor.extract_request_id call = Some id ->
  LlmInterceptor.extract_request_id response = Some id ->
  let s1 := (LlmInterceptor.intercept self now1 (outgoing at1 call)).2 in
  let s2 := (LlmInterceptor.intercept s1 now2 (incoming at2 response)).2 in
  (exists row,
     scored_row (Db.predictions (LlmInterceptor.database self))
       (Db.predictions (LlmInterceptor.database s2)) (LlmInterceptor.determine_actual_tool call) row /\
     (ToolPredictor.semantic_engine (LlmInterceptor.predictor self) = false ->
      mentions_call (LlmInterceptor.extract_mcp_context call) = false ->
      PredictionRecord.predicted_tool row ∈ dotted)) /\
  LlmInterceptor.pending_predictions s2 = delete id (LlmInterceptor.pending_predictions self).
Proof.
  intros Hup Hfresh Hmode Hcall Hresp. cbn zeta.
  unfold LlmInterceptor.intercept at 1 3. cbn [MessageContext.session_id incoming outgoing
    MessageContext.new MessageContext.direction MessageContext.message].
  cbn zeta. cbn [snd].
  set (context := LlmInterceptor.extract_mcp_context call).
  unfold LlmInterceptor.intercept. cbn [MessageContext.session_id incoming outgoing
    MessageContext.new MessageContext.direction MessageContext.message]. cbn zeta.
  fold context. unfold LlmInterceptor.predict_and_route. rewrite Hmode.
  unfold LlmInterceptor.semantic_routing.
  destruct (timed_records self context (LlmInterceptor.database self) Hup)
    as (outcome & latency & message_id & now & d' & -> & Hrec & Hd).
  destruct Hrec as (row & Hrows & Hid & Htool & Hact & Hcor & w & Hw). cbn zeta. cbn [snd].
  set (s1 := LlmInterceptor.send _ _).
  assert (Hs1 : LlmInterceptor.database s1 = d' /\
                LlmInterceptor.pending_predictions s1 =
                  <[id := PendingPrediction.mk (PredictionOutcome.record_id outcome)
                       (ToolPrediction.tool_name (PredictionOutcome.prediction outcome))
                       (LlmInterceptor.determine_actual_tool call) None (Some message_id)]>
                    (LlmInterceptor.pending_predictions self)).
  { unfold s1, LlmInterceptor.send, LlmInterceptor.note_session, LlmInterceptor.note_pending.
    rewrite Hcall. cbn. destruct (LlmInterceptor.session_manager self); cbn;
      destruct (LlmInterceptor.ipc_tx self); cbn; done. }
  destruct Hs1 as [Hdb Hpend]. clearbody s1.
  unfold LlmInterceptor.update_prediction_accuracy. rewrite Hresp, Hpend, lookup_insert_eq.
  cbn [PendingPrediction.actual_tool].
  assert (Hf : Forall (fun r => PredictionRecord.id r <> PredictionRecord.id row)
                 (Db.predictions (LlmInterceptor.database self))) by (rewrite Hw; apply Hfresh).
  destruct (LlmInterceptor.determine_actual_tool call) as [actual|].
  - unfold LlmInterceptor.score_prediction. cbn [PendingPrediction.record_id PendingPrediction.session_id].
    pose proof (update_scores d' _ row actual Hup Hrows Hf) as Hu. rewrite Hid in Hu.
    cbn [LlmInterceptor.database LlmInterceptor.set_pending]. rewrite Hdb.
    destruct (ToolPredictor.update_prediction_result _ _ d') as [x d2]. cbn [snd] in Hu.
    cbn. destruct (LlmInterceptor.session_manager s1); cbn; rewrite delete_insert_eq, Hu.
    all: (split; [|done]); eexists; split; [split; [reflexivity|]|].
    all: unfold PredictionsDatabase.set_actual; rewrite <- Hid, String.eqb_refl; cbn; try done.
    all: by rewrite Htool.
  - cbn. rewrite Hdb, delete_insert_eq. split; [|done]. exists row. split; [by split_and!|].
    by rewrite Htool.
Qed.
End scored.

(** With the semantic mode and a working database, a call and the response
    to it leave exactly one new row in the predictions table, scored with the
    tool the call really used, correct if and only if that is the predicted
    one; a tool call without a readable name stays unscored.  The prediction is
    no longer pending afterwards. *)
Theorem prediction_is_scored
    `{W : LlmWorld, JT : !JsonText, JF : !JsonFloats, UC : UnicodeCase, SD : StrDebug, UT : UuidText}
    (self : LlmInterceptor.t) now1 now2 at1 at2 call response id :
  database_up -> fresh_for (Db.predictions (LlmInterceptor.database self)) ->
  LlmInterceptor.routing_mode self = RoutingMode.Semantic ->
  LlmInterceptor.extract_request_id call = Some id ->
  LlmInterceptor.extract_request_id response = Some id ->
  let s1 := (LlmInterceptor.intercept self now1 (outgoing at1 call)).2 in
  let s2 := (LlmInterceptor.intercept s1 now2 (incoming at2 response)).2 in
  (exists row,
     scored_row (Db.predictions (LlmInterceptor.database self))
       (Db.predictions (LlmInterceptor.database s2)) (LlmInterceptor.determine_actual_tool call) row) /\
  LlmInterceptor.pending_predictions s2 = delete id (LlmInterceptor.pending_predictions self).
Proof.
  intros Hup Hf Hm Hc Hr. cbn zeta.
  destruct (call_and_response self now1 now2 at1 at2 call response id Hup Hf Hm Hc Hr)
    as [(row & Hrow & _) Hp]. eauto.
Qed.

(** The keyword heuristics are always scored wrong outside tool calls: they
    predict dotted names such as [tools.list], while the tool of a request is
    its method, written with a slash.  So without a language model no request
    for a list, a resource or a prompt is ever predicted correctly. *)
Theorem heuristics_are_scored_wrong
    `{W : LlmWorld, JT : !JsonText, JF : !JsonFloats, UC : UnicodeCase, SD : StrDebug, UT : UuidText}
    (self : LlmInterceptor.t) now1 now2 at1 at2 (req : JsonRpcRequest.t) response :
  database_up -> fresh_for (Db.predictions (LlmInterceptor.database self)) ->
  LlmInterceptor.routing_mode self = RoutingMode.Semantic ->
  ToolPredictor.semantic_engine (LlmInterceptor.predictor self) = false ->
  mentions_call (LlmInterceptor.extract_mcp_context (JsonRpcMessage.Request req)) = false ->
  JsonRpcRequest.method req ∉ dotted ->
  LlmInterceptor.is_tool_call (JsonRpcRequest.method req) = false ->
  LlmInterceptor.extract_request_id response = Some (RequestId.to_string (JsonRpcRequest.id req)) ->
  let s1 := (LlmInterceptor.intercept self now1 (outgoing at1 (JsonRpcMessage.Request req))).2 in
  let s2 := (LlmInterceptor.intercept s1 now2 (incoming at2 response)).2 in
  exists row,
    Db.predictions (LlmInterceptor.database s2) =
      Db.predictions (LlmInterceptor.database self) ++ [row] /\
    PredictionRecord.actual_tool row = Some (JsonRpcRequest.method req) /\
    PredictionRecord.correct row = Some false.
Proof.
  intros Hup Hf Hm Heng Hment Hdot Hcall Hr. cbn zeta.
  destruct (call_and_response self now1 now2 at1 at2 (JsonRpcMessage.Request req) response
    (RequestId.to_string (JsonRpcRequest.id req)) Hup Hf Hm eq_refl Hr)
    as [(row & (Hrows & Hact & Hcor) & Hp) _].
  cbn [LlmInterceptor.determine_actual_tool] in Hact, Hcor. rewrite Hcall in Hact, Hcor.
  exists row. split_and!; [exact Hrows|exact Hact|]. rewrite Hcor. cbn. f_equal.
  apply String.eqb_neq. intros E. apply Hdot. rewrite <- E. by apply Hp.
Qed.

(** ** A concrete interceptor *)

Module DemoLlm.
Import ToyNumbers ToyText DemoWorld.

#[global] Instance demo_debug : StrDebug := {| str_debug s := s |}.
#[global] Instance demo_uuid_text : UuidText := {| uuid_parse_str s := Some s |}.

Definition db : Db.t := Db.mk (0, ""%string) [] demo_rules [].

Definition llm (mode : RoutingMode.t) : LlmInterceptor.t :=
  LlmInterceptor.new (ToolPredictor.mk false) mode db None.

Definition request : JsonRpcRequest.t (JN := toy_numbers) :=
  JsonRpcRequest.new (RequestId.Number 7) "prompts/get" (VArray [VString "a"]).
Definition call : JsonRpcMessage.t := JsonRpcMessage.Request request.
Definition response : JsonRpcMessage.t :=
  JsonRpcMessage.Response (JsonRpcResponse.success (RequestId.Number 7) VNull).

Lemma up : database_up.
Proof. done. Qed.

(** The answer to a call in hybrid mode, where no rule and no keyword matches *)
Definition answered : option bool :=
  match (LlmInterceptor.intercept (llm RoutingMode.Hybrid) 0 (outgoing 0 call)).1 with
  | Ok r => Some (InterceptionResult.modified_flag r)
  | Err _ => None
  end.

Example answered_unmodified : answered = Some false.
Proof. vm_compute. reflexivity. Qed.
End DemoLlm.

Lemma llm_only_adds_metadata_witness :
  exists r, (LlmInterceptor.intercept (DemoLlm.llm RoutingMode.Hybrid) 0 (outgoing 0 DemoLlm.call)).1 = Ok r /\
    InterceptionResult.block r = false.
Proof.
  destruct (LlmInterceptor.intercept (DemoLlm.llm RoutingMode.Hybrid) 0 (outgoing 0 DemoLlm.call))
    as [[r|e] s] eqn:E.
  - exists r. split; [reflexivity|]. exact (proj1 (llm_only_adds_metadata _ _ _ _ _ E)).
  - exfalso. assert (H : DemoLlm.answered = None) by (unfold DemoLlm.answered; rewrite E; reflexivity).
    rewrite DemoLlm.answered_unmodified in H. discriminate H.
Defined.

Lemma bypass_is_transparent_witness :
  (InterceptorManager.process_message_with_metadata 0 1
     (InterceptorManager.mk [LlmInterceptor.as_interceptor (DemoLlm.llm RoutingMode.Bypass); gate "g" 5 "tools/call"]
        ManagerStats.default) DemoLlm.call Outgoing InterceptionMetadata.new).1 =
  (InterceptorManager.process_message_with_metadata 0 1
     (InterceptorManager.mk [gate "g" 5 "tools/call"] ManagerStats.default) DemoLlm.call Outgoing InterceptionMetadata.new).1.
Proof.
  exact (proj1 (bypass_is_transparent 0 1 (DemoLlm.llm RoutingMode.Bypass) [] [gate "g" 5 "tools/call"]
                  ManagerStats.default DemoLlm.call Outgoing InterceptionMetadata.new eq_refl (or_introl eq_refl))).
Defined.

Lemma prediction_is_scored_witness :
  exists row,
    scored_row []
      (Db.predictions (LlmInterceptor.database
         (LlmInterceptor.intercept
            (LlmInterceptor.intercept (DemoLlm.llm RoutingMode.Semantic) 0 (outgoing 0 DemoLlm.call)).2
            0 (incoming 1 DemoLlm.response)).2)) (Some "prompts/get"%string) row.
Proof.
  exact (proj1 (prediction_is_scored (DemoLlm.llm RoutingMode.Semantic) 0 0 0 1 DemoLlm.call
                  DemoLlm.response "7" DemoLlm.up (fun _ => List.Forall_nil _) eq_refl eq_refl eq_refl)).
Defined.

Lemma heuristics_are_scored_wrong_witness :
  exists row,
    Db.predictions (LlmInterceptor.database
       (LlmInterceptor.intercept
          (LlmInterceptor.intercept (DemoLlm.llm RoutingMode.Semantic) 0 (outgoing 0 DemoLlm.call)).2
          0 (incoming 1 DemoLlm.response)).2) = [row] /\
    PredictionRecord.actual_tool row = Some "prompts/get"%string /\
    PredictionRecord.correct row = Some false.
Proof.
  apply (heuristics_are_scored_wrong (DemoLlm.llm RoutingMode.Semantic) 0 0 0 1 DemoLlm.request
           DemoLlm.response DemoLlm.up (fun _ => List.Forall_nil _));
    [reflexivity|reflexivity|vm_compute; reflexivity|by apply (bool_decide_unpack _)|reflexivity|reflexivity].
Defined.
