(* ===== verification/Conversation.v ===== *)
(** Conversations ([acdp-llm/src/conversation_context.rs]): the text of a
    session's history for the model, and the patterns counted in it.  A hash
    map's iteration order is an argument. *)

From Stdlib Require Import Floats.SpecFloat.
From S2P Require Import Prelude Messages Text Common Session.

(** [serde_json::to_string_pretty] of a value *)
Class JsonPretty `{JN : JsonNumbers} := { json_to_string_pretty : Value -> string }.

(** [a.signed_duration_since(b).num_milliseconds()] *)
Definition millis_between (a b : Z) : Z := Z.quot (a - b) 1000000.

Module ConversationContextBuilder.
Section builder.
Context `{JP : JsonPretty, SD : StrDebug}.

Record t : Type := mk {
  messages : list MessageFlow.t;
  session : option ProxySession.t;
  max_messages : nat;
  include_timing : bool;
  include_parameters : bool;
  include_predictions : bool
}.

Definition new : t := mk [] None 10 true false true.

Definition with_messages (self : t) (m : list MessageFlow.t) : t :=
  mk m (session self) (max_messages self) (include_timing self) (include_parameters self)
     (include_predictions self).

Definition with_session (self : t) (s : ProxySession.t) : t :=
  mk (messages self) (Some s) (max_messages self) (include_timing self) (include_parameters self)
     (include_predictions self).

Definition set_max_messages (self : t) (max : nat) : t :=
  mk (messages self) (session self) max (include_timing self) (include_parameters self)
     (include_predictions self).

Definition set_include_timing (self : t) (b : bool) : t :=
  mk (messages self) (session self) (max_messages self) b (include_parameters self)
     (include_predictions self).

Definition set_include_parameters (self : t) (b : bool) : t :=
  mk (messages self) (session self) (max_messages self) (include_timing self) b
     (include_predictions self).

Definition set_include_predictions (self : t) (b : bool) : t :=
  mk (messages self) (session self) (max_messages self) (include_timing self)
     (include_parameters self) b.

(** [{:?}] *)
Definition session_status_debug (s : SessionStatus.t) : string :=
  match s with
  | SessionStatus.Starting => "Starting"
  | SessionStatus.Active => "Active"
  | SessionStatus.Idle => "Idle"
  | SessionStatus.Completed => "Completed"
  | SessionStatus.Failed e => "Failed(" +:+ str_debug e +:+ ")"
  end.

Definition session_text (s : ProxySession.t) : string :=
  "=== Session Context ===" +:+ newline +:+
  "Session ID: " +:+ ProxySession.id s +:+ newline +:+
  "Request Count: " +:+ pretty (ProxySession.request_count s) +:+ newline +:+
  "Status: " +:+ session_status_debug (ProxySession.status s) +:+ newline +:+ newline.

(** The duration that is shown: zero without a response *)
Definition shown_duration (timing : MessageTiming.t) : Z :=
  match MessageTiming.responded_at timing with
  | Some responded_at => millis_between responded_at (MessageTiming.received_at timing)
  | None => 0
  end.

Definition message_text (self : t) (idx : nat) (m : MessageFlow.t) : string :=
  newline +:+ "[Message " +:+ pretty (Z.of_nat (idx + 1)) +:+ "]" +:+ newline +:+
  "Method: " +:+ mcp.JsonRpcRequest.method (MessageFlow.client_request m) +:+ newline +:+
  "Status: " +:+ SessionPredictionContext.status_debug (MessageFlow.status m) +:+ newline +:+
  (if include_timing self then
     "Duration: " +:+ pretty (shown_duration (MessageFlow.timing m)) +:+ "ms" +:+ newline
   else "") +:+
  (if include_parameters self then
     match mcp.JsonRpcRequest.params (MessageFlow.client_request m) with
     | Some params => "Parameters: " +:+ json_to_string_pretty params +:+ newline
     | None => ""
     end
   else "") +:+
  match MessageFlow.transformations m with
  | [] => ""
  | ts => "Transformations Applied: " +:+ join ", " (List.map AppliedTransformation.rule_name ts) +:+ newline
  end.

Definition recent_messages (self : t) : list MessageFlow.t :=
  rev (SessionPredictionContext.latest (max_messages self) (messages self)).

Definition build (self : t) : string :=
  (match session self with Some s => session_text s | None => "" end) +:+
  "=== Conversation History ===" +:+ newline +:+
  (match recent_messages self with
   | [] => "(No previous messages)" +:+ newline
   | recent => String.concat "" (imap (message_text self) recent)
   end) +:+
  newline +:+ "=== Current Request ===" +:+ newline.
End builder.
Arguments t : clear implicits.
Arguments t {JN}.
End ConversationContextBuilder.

Module ConversationPatterns.
Record t : Type := mk {
  method_frequency : gmap string Z;
  most_common_method : option string;
  success_rate : f32;
  average_duration_ms : Z;
  sequence_patterns : gmap string Z
}.

Definition default : t := mk ∅ None f32_zero 0 ∅.
End ConversationPatterns.

Module ConversationAnalyzer.
Section analyzer.
Context `{JN : JsonNumbers}.

(** [*map.entry(key).or_insert(0) += 1] on [usize] *)
Definition bump (m : gmap string Z) (key : string) : gmap string Z :=
  <[key := wrap_u64 (from_option id 0 (m !! key) + 1)]> m.

Definition tally (keys : list string) : gmap string Z := List.fold_left bump keys ∅.

(** [iter().max_by_key(..)]: the last of the greatest in iteration order *)
Fixpoint max_by_count (entries : list (string * Z)) : option (string * Z) :=
  match entries with
  | [] => None
  | e :: entries =>
      match max_by_count entries with
      | Some best => if best.2 <? e.2 then Some e else Some best
      | None => Some e
      end
  end.

Definition method_of (m : MessageFlow.t) : string :=
  mcp.JsonRpcRequest.method (MessageFlow.client_request m).

Definition completed (m : MessageFlow.t) : bool :=
  match MessageFlow.status m with MessageStatus.Completed => true | _ => false end.

(** The durations that count: of answered messages, when not negative *)
Definition durations (messages : list MessageFlow.t) : list Z :=
  List.filter (fun d => 0 <=? d)
    (omap (fun m => match MessageTiming.responded_at (MessageFlow.timing m) with
                    | Some r => Some (millis_between r (MessageTiming.received_at (MessageFlow.timing m)))
                    | None => None
                    end) messages).

Definition average_duration (ds : list Z) : Z :=
  let total := List.fold_left (fun acc d => wrap_u64 (acc + d)) ds 0 in
  let count := Z.of_nat (length ds) in
  if count >? 0 then total / count else 0.

(** [windows(2)] *)
Fixpoint sequences (messages : list MessageFlow.t) : list string :=
  match messages with
  | m :: ((n :: _) as rest) => (method_of m +:+ " -> " +:+ method_of n) :: sequences rest
  | _ => []
  end.

(** [order] lists the entries of the frequency map as it is iterated. *)
Definition analyze_patterns (order : gmap string Z -> list (string * Z)) (messages : list MessageFlow.t)
  : ConversationPatterns.t :=
  match messages with
  | [] => ConversationPatterns.default
  | _ =>
      let method_frequency := tally (List.map method_of messages) in
      ConversationPatterns.mk method_frequency
        (option_map fst (max_by_count (order method_frequency)))
        (f32_div (f32_of_Z (Z.of_nat (length (List.filter completed messages))))
                 (f32_of_Z (Z.of_nat (length messages))))
        (average_duration (durations messages))
        (tally (sequences messages))
  end.

Definition get_prediction_hints (order : gmap string Z -> list (string * Z))
    (patterns : ConversationPatterns.t) : list string :=
  (match ConversationPatterns.most_common_method patterns with
   | Some method => ["Most frequently used method: " +:+ method]
   | None => []
   end) ++
  (if SFltb (ConversationPatterns.success_rate patterns) (f32_ratio 1 2)
   then ["Low success rate - consider error handling"] else []) ++
  (if ConversationPatterns.average_duration_ms patterns >? 5000
   then ["High average latency detected"] else []) ++
  (match max_by_count (order (ConversationPatterns.sequence_patterns patterns)) with
   | Some (sequence, count) =>
       if count >=? 2 then
         ["Common sequence: " +:+ sequence +:+ " (observed " +:+ pretty count +:+ " times)"]
       else []
   | None => []
   end).
End analyzer.
End ConversationAnalyzer.

Section counting.
Context `{JN : JsonNumbers}.

(** How often a key occurs *)
Definition occurrences (k : string) (keys : list string) : Z :=
  Z.of_nat (length (List.filter (String.eqb k) keys)).

Lemma occurrences_le k keys : 0 <= occurrences k keys <= Z.of_nat (length keys).
Proof.
  unfold occurrences. pose proof (List.filter_length_le (String.eqb k) keys) as H. lia.
Qed.

Lemma occurrences_cons k j keys :
  occurrences k (j :: keys) = (if String.eqb k j then 1 else 0) + occurrences k keys.
Proof. unfold occurrences. cbn. destruct (String.eqb k j); cbn; lia. Qed.

Lemma tally_from keys : forall (m : gmap string Z) (total : Z),
  (forall k, 0 <= from_option id 0 (m !! k) <= total) ->
  total + Z.of_nat (length keys) <= u64_max ->
  forall k, List.fold_left ConversationAnalyzer.bump keys m !! k =
    match m !! k with
    | Some n => Some (n + occurrences k keys)
    | None => if occurrences k keys =? 0 then None else Some (occurrences k keys)
    end.
Proof.
  induction keys as [|j keys IH]; intros m total Hm Hl k.
  - cbn [List.fold_left]. change (occurrences k []) with 0. destruct (m !! k); [f_equal; lia|done].
  - cbn [List.fold_left]. cbn [length] in Hl.
    assert (Hb : ConversationAnalyzer.bump m j = <[j := from_option id 0 (m !! j) + 1]> m).
    { unfold ConversationAnalyzer.bump. f_equal. pose proof (Hm j).
      apply wrap_u64_id. unfold is_u64. lia. }
    rewrite Hb, (IH _ (total + 1)); [| |lia].
    + rewrite occurrences_cons. pose proof (occurrences_le k keys).
      destruct (String.eqb_spec k j) as [->|Hne].
      * rewrite lookup_insert_eq. destruct (m !! j); cbn; [f_equal; lia|].
        destruct (1 + occurrences j keys =? 0) eqn:E; [lia|f_equal; lia].
      * rewrite lookup_insert_ne by congruence. by replace (0 + occurrences k keys) with (occurrences k keys) by lia.
    + intros i. destruct (decide (i = j)) as [->|Hne].
      * rewrite lookup_insert_eq. cbn. pose proof (Hm j). lia.
      * rewrite lookup_insert_ne by congruence. pose proof (Hm i). lia.
Qed.

Lemma tally_spec keys k :
  Z.of_nat (length keys) <= u64_max ->
  ConversationAnalyzer.tally keys !! k =
    if occurrences k keys =? 0 then None else Some (occurrences k keys).
Proof.
  intros Hl. unfold ConversationAnalyzer.tally. rewrite (tally_from keys ∅ 0); [by rewrite lookup_empty| |lia].
  intros j. rewrite lookup_empty. cbn. lia.
Qed.

Lemma max_by_count_spec entries :
  match ConversationAnalyzer.max_by_count entries with
  | Some best => best ∈ entries /\ forall e, e ∈ entries -> e.2 <= best.2
  | None => entries = []
  end.
Proof.
  induction entries as [|e entries IH]; [done|]. cbn.
  destruct (ConversationAnalyzer.max_by_count entries) as [best|].
  - destruct IH as [Hb Hmax]. destruct (Z.ltb_spec best.2 e.2).
    + split; [constructor|]. intros f Hf. apply elem_of_cons in Hf as [->|Hf]; [lia|].
      specialize (Hmax f Hf). lia.
    + split; [by constructor|]. intros f Hf. apply elem_of_cons in Hf as [->|Hf]; auto.
  - subst. split; [constructor|]. intros f Hf. apply elem_of_cons in Hf as [->|Hf]; [lia|].
    by apply elem_of_nil in Hf.
Qed.

Lemma length_sequences (messages : list MessageFlow.t) :
  (length (ConversationAnalyzer.sequences messages) <= length messages)%nat.
Proof.
  induction messages as [|m messages IH]; [done|]. destruct messages as [|n rest]; [cbn; lia|].
  cbn [ConversationAnalyzer.sequences length] in *. lia.
Qed.
End counting.

(** The patterns of a conversation are exact.  Each method is counted as
    often as it occurs and only then, each pair of successive methods likewise,
    and the most common method, for every iteration order of the map, is one
    that no other exceeds; it is missing only for the empty conversation. *)
Theorem patterns_are_exact `{JN : JsonNumbers} (order : gmap string Z -> list (string * Z))
    (messages : list MessageFlow.t) :
  (forall m, order m ≡ₚ map_to_list m) ->
  Z.of_nat (length messages) <= u64_max ->
  let methods := List.map ConversationAnalyzer.method_of messages in
  let pairs := ConversationAnalyzer.sequences messages in
  let patterns := ConversationAnalyzer.analyze_patterns order messages in
  (forall k, ConversationPatterns.method_frequency patterns !! k =
     if occurrences k methods =? 0 then None else Some (occurrences k methods)) /\
  (forall k, ConversationPatterns.sequence_patterns patterns !! k =
     if occurrences k pairs =? 0 then None else Some (occurrences k pairs)) /\
  match ConversationPatterns.most_common_method patterns with
  | Some k => k ∈ methods /\ forall j, occurrences j methods <= occurrences k methods
  | None => messages = []
  end.
Proof.
  intros Ho Hl. cbn zeta. destruct messages as [|m messages]; [by split_and!|].
  set (ms := m :: messages) in *. unfold ConversationAnalyzer.analyze_patterns. subst ms. cbn [
    ConversationPatterns.method_frequency ConversationPatterns.sequence_patterns
    ConversationPatterns.most_common_method]. set (ms := m :: messages) in *.
  assert (Hf : forall k, ConversationAnalyzer.tally (List.map ConversationAnalyzer.method_of ms) !! k =
    if occurrences k (List.map ConversationAnalyzer.method_of ms) =? 0 then None
    else Some (occurrences k (List.map ConversationAnalyzer.method_of ms))).
  { intros k. apply tally_spec. by rewrite length_map. }
  split; [exact Hf|]. split.
  { intros k. apply tally_spec.
    eapply Z.le_trans; [apply inj_le, (length_sequences (m :: messages))|exact Hl]. }
  set (methods := List.map ConversationAnalyzer.method_of ms) in *.
  pose proof (max_by_count_spec (order (ConversationAnalyzer.tally methods))) as Hmax.
  assert (Hin : forall e, e ∈ order (ConversationAnalyzer.tally methods) <->
                          ConversationAnalyzer.tally methods !! e.1 = Some e.2).
  { intros [k n]. rewrite Ho. apply elem_of_map_to_list. }
  destruct (ConversationAnalyzer.max_by_count _) as [[k n]|]; cbn [option_map fst].
  - destruct Hmax as [Hk Hmax]. apply Hin in Hk. cbn in Hk. rewrite Hf in Hk.
    destruct (Z.eqb_spec (occurrences k methods) 0) as [|Hpos]; [done|]. injection Hk as <-. split.
    + unfold occurrences in Hpos. destruct (List.filter (String.eqb k) methods) as [|j l] eqn:E; [done|].
      assert (Hj : In j (List.filter (String.eqb k) methods)) by (rewrite E; by left).
      apply filter_In in Hj as [Hj Heq]. apply String.eqb_eq in Heq as ->. by apply list_elem_of_In.
    + intros j. destruct (Z.eqb_spec (occurrences j methods) 0) as [Hz|Hz].
      { rewrite Hz. apply occurrences_le. }
      apply (Hmax (j, occurrences j methods)). apply Hin. cbn. rewrite Hf.
      by destruct (Z.eqb_spec (occurrences j methods) 0).
  - exfalso. assert (Ht : ConversationAnalyzer.tally methods !! ConversationAnalyzer.method_of m =
      Some (occurrences (ConversationAnalyzer.method_of m) methods)).
    { rewrite Hf. unfold methods, ms. cbn [List.map]. rewrite occurrences_cons, String.eqb_refl.
      pose proof (occurrences_le (ConversationAnalyzer.method_of m) (List.map ConversationAnalyzer.method_of messages)).
      destruct (Z.eqb_spec (1 + occurrences (ConversationAnalyzer.method_of m)
        (List.map ConversationAnalyzer.method_of messages)) 0); [lia|done]. }
    apply (Hin (_, _)) in Ht. rewrite Hmax in Ht. by apply elem_of_nil in Ht.
Qed.

Definition demo_flow (method : string) : MessageFlow.t (JN := ToyNumbers.toy_numbers) :=
  MessageFlow.mk _ "id" "s" (mcp.JsonRpcRequest.mk _ "2.0" VNull method None) None None None []
    (MessageTiming.mk 0 None None) MessageStatus.Completed.

Lemma patterns_are_exact_witness :
  ConversationPatterns.sequence_patterns
    (ConversationAnalyzer.analyze_patterns map_to_list
       [demo_flow "a"; demo_flow "b"; demo_flow "a"; demo_flow "b"]) !! "a -> b"%string = Some 2.
Proof.
  destruct (patterns_are_exact map_to_list [demo_flow "a"; demo_flow "b"; demo_flow "a"; demo_flow "b"]
              (fun m => Permutation_refl _) ltac:(by vm_compute)) as (_ & H & _).
  rewrite H. reflexivity.
Defined.
