(* ===== verification/IpcServer.v ===== *)
(** The proxy's IPC server ([acdp-transport/src/ipc_server.rs]): queries from
    the monitor, handed to the transport as jobs with a responder, and the
    completion of a job from a JSON-RPC response. *)

From Stdlib Require Import Floats.SpecFloat.
From S2P Require Import Prelude Messages Transform Text Common Routing.

Module TuiQueryCompletion.
Section completion.
Context `{JT : JsonText}.

Record t : Type := mk {
  response : string;
  error : option string;
  ttft_ms : option f64;
  tokens_per_sec : option f64;
  total_tokens : option nat;
  interceptor_delay_ms : option f64
}.

(** The names of the items that have one *)
Definition tool_names (tools : list Value) : list string :=
  omap (fun tool => string_of (get tool "name")) tools.

Definition array_of (v : option Value) : option (list Value) :=
  match v with Some (VArray items) => Some items | _ => None end.

Definition non_empty (s : string) : option string := if str_is_empty s then None else Some s.

(** The first item with a text that is not blank *)
Fixpoint first_text (items : list Value) : option string :=
  match items with
  | [] => None
  | item :: items =>
      match string_of (get item "text") with
      | Some text =>
          match non_empty (trim text) with
          | Some text => Some text
          | None => first_text items
          end
      | None => first_text items
      end
  end.

Definition listed_tools (value : Value) : option string :=
  match array_of (get value "tools") with
  | Some tools =>
      match tool_names tools with
      | [] => None
      | names => Some ("Available tools: " +:+ join ", " names)
      end
  | None => None
  end.

Definition extract_text_from_value (value : Value) : option string :=
  match listed_tools value with
  | Some text => Some text
  | None =>
      match (match array_of (get value "content") with Some items => first_text items | None => None end) with
      | Some text => Some text
      | None =>
          match string_of (get value "text") with
          | Some text => non_empty (trim text)
          | None => None
          end
      end
  end.

Definition extract_text (response : JsonRpcResponse.t) : string :=
  match JsonRpcResponse.result response with
  | Some result =>
      match extract_text_from_value result with
      | Some text => text
      | None => json_to_string result
      end
  | None => ""
  end.

(** [elapsed] is a duration. *)
Definition from_response (response : JsonRpcResponse.t) (elapsed : Z) : t :=
  let text := extract_text response in
  let token_count := length (split_whitespace text) in
  let elapsed_secs := as_secs_f64 elapsed in
  mk text
    (option_map (fun err => JsonRpcError.message err +:+ " (code " +:+ pretty (JsonRpcError.code err) +:+ ")")
       (JsonRpcResponse.error response))
    (Some (f64_mul elapsed_secs (f64_of_Z 1000)))
    (if (0 <? token_count)%nat && SFltb f64_zero elapsed_secs
     then Some (f64_div (f64_of_Z (Z.of_nat token_count)) elapsed_secs) else None)
    (if (0 <? token_count)%nat then Some token_count else None)
    None.

Definition with_delay (self : t) (delay : option f64) : t :=
  mk (response self) (error self) (ttft_ms self) (tokens_per_sec self) (total_tokens self) delay.

Definition failed (message : string) : t := mk "" (Some message) None None None None.
End completion.
End TuiQueryCompletion.

(** A job; its oneshot sender is named by a number. *)
Module TuiQueryJob.
Section job.
Context `{JN : JsonNumbers}.
Record t : Type := mk {
  correlation_id : string;
  query : string;
  mcp_method : option string;
  mcp_params : option Value;
  response_tx : nat
}.
End job.
Arguments t : clear implicits.
Arguments t {JN}.
End TuiQueryJob.

Module ProxyIpcServer.
Section server.
Context `{JN : JsonNumbers}.

Record t : Type := mk { query_tx : bool; routing_tx : bool }.

Inductive Action : Type :=
| Queue (job : TuiQueryJob.t)
| Send (message : IpcMessage.t)
| SendMode (mode : RoutingMode.t).

Definition query_error (correlation_id message : string) : IpcMessage.t :=
  IpcMessage.TuiQueryResponse correlation_id "" (Some message) None None None None.

Definition query_response (correlation_id : string) (c : TuiQueryCompletion.t) : IpcMessage.t :=
  IpcMessage.TuiQueryResponse correlation_id (TuiQueryCompletion.response c)
    (TuiQueryCompletion.error c) (TuiQueryCompletion.ttft_ms c)
    (TuiQueryCompletion.tokens_per_sec c) (TuiQueryCompletion.total_tokens c)
    (TuiQueryCompletion.interceptor_delay_ms c).

(** What handling an envelope comes to: [responder] is the fresh oneshot,
    [queued] the outcome of sending the job, [answer] what the responder gives
    in the end, nothing if it is dropped. *)
Definition handle_message (self : t) (envelope : IpcEnvelope.t) (responder : nat)
    (queued : Res unit string) (answer : option TuiQueryCompletion.t) : list Action :=
  match IpcEnvelope.message envelope with
  | IpcMessage.TuiMcpRequest method params correlation_id =>
      if query_tx self then
        match queued with
        | Ok _ =>
            Queue (TuiQueryJob.mk correlation_id method (Some method) params responder) ::
            match answer with
            | Some completion => [Send (query_response correlation_id completion)]
            | None => []
            end
        | Err e => [Send (query_error correlation_id ("Failed to queue request: " +:+ e))]
        end
      else [Send (query_error correlation_id "Query processing not available")]
  | IpcMessage.TuiQuery query correlation_id =>
      if query_tx self then
        match queued with
        | Ok _ =>
            Queue (TuiQueryJob.mk correlation_id query None None responder) ::
            match answer with
            | Some completion => [Send (query_response correlation_id completion)]
            | None => [Send (query_error correlation_id "Proxy query handler dropped")]
            end
        | Err _ => [Send (query_error correlation_id "Proxy transport unavailable")]
        end
      else [Send (query_error correlation_id "Proxy not ready to process queries")]
  | IpcMessage.RoutingModeChange _ mode =>
      if routing_tx self then
        match RoutingMode.from_str mode with
        | Ok parsed => [SendMode parsed]
        | Err _ => []
        end
      else []
  | _ => []
  end.

(** The answers to a correlation identifier *)
Definition answers (correlation_id : string) (actions : list Action) : list IpcMessage.t :=
  omap (fun a => match a with
                 | Send (IpcMessage.TuiQueryResponse c r e t p k d) =>
                     if String.eqb c correlation_id then Some (IpcMessage.TuiQueryResponse c r e t p k d)
                     else None
                 | _ => None
                 end) actions.
End server.
End ProxyIpcServer.

(** A text query is answered exactly once, whatever happens to its job.
    A structured request is answered at most once, and not at all exactly when
    its job was queued and its responder dropped: the monitor then waits
    forever, unlike for a text query. *)
Theorem queries_are_answered `{JN : JsonNumbers} (self : ProxyIpcServer.t) stamp corr id query method params
    responder queued answer :
  length (ProxyIpcServer.answers id
    (ProxyIpcServer.handle_message self (IpcEnvelope.mk _ (IpcMessage.TuiQuery query id) stamp corr)
       responder queued answer)) = 1%nat /\
  length (ProxyIpcServer.answers id
    (ProxyIpcServer.handle_message self (IpcEnvelope.mk _ (IpcMessage.TuiMcpRequest method params id) stamp corr)
       responder queued answer)) =
    (if ProxyIpcServer.query_tx self && is_ok queued && negb (if answer then true else false)
     then 0%nat else 1%nat).
Proof.
  unfold ProxyIpcServer.handle_message. cbn [IpcEnvelope.message].
  destruct (ProxyIpcServer.query_tx self), queued, answer;
    unfold ProxyIpcServer.answers, ProxyIpcServer.query_error, ProxyIpcServer.query_response; cbn;
    rewrite String.eqb_refl; done.
Qed.
