(* ===== verification/StdioHandler.v ===== *)
(** The stdio handler ([acdp-transport/src/stdio_handler.rs]): the proxy
    between a client on standard input and output and a server process.  Each
    branch of its [select!] is a function on the handler's state that gives the
    effects in order; an iteration of the loop first applies the pending
    routing modes, then takes one branch.  The clock, fresh identifiers, and
    whether a write or flush succeeds are inputs of a branch. *)

From S2P Require Import Prelude McpError Messages Interceptor Transform Text Common Routing Predictor Gepa Session LlmInterceptor IpcServer.

Module PendingQuery.
Record t : Type := mk {
  responder : nat;
  started_at : Z;
  interceptor_delay_ms : option f64
}.
End PendingQuery.

(** What the outside gives to one branch *)
Module Inputs.
Record t : Type := mk {
  now : Z;           (* the clock of the interceptors *)
  elapsed_ms : Z;    (* the time the manager measures *)
  instant : Z;       (* [Instant::now], in nanoseconds *)
  delay : Z;         (* the interceptor delay, in nanoseconds *)
  uuid : string;
  utc : Z;
  write_ok : Res unit string;
  flush_ok : Res unit string
}.
End Inputs.

Module StdioHandler.
Section handler.
Context `{JT : JsonText, UC : UnicodeCase}.

Record t : Type := mk {
  proxy_id : ProxyId;
  stats : ProxyStats.t;
  ipc_client : bool;
  interceptor_manager : InterceptorManager.t;
  session_id : option SessionId;
  session_manager : bool;
  llm_interceptor : bool;
  current_routing_mode : RoutingMode.t;
  pending_queries : gmap string PendingQuery.t;
  available_tools : option (list string)
}.

(** [with_interceptors] *)
Definition with_interceptors (proxy_id : ProxyId) (stats : ProxyStats.t) (ipc_client : bool)
    (manager : InterceptorManager.t) (session_id : option SessionId) (session_manager llm : bool)
    (mode : RoutingMode.t) : t :=
  mk proxy_id stats ipc_client manager session_id session_manager llm mode ∅ None.

Inductive Effect : Type :=
| ToChild (content : string)
| ToUser (content : string)
| ToStderr (content : string)
| Ipc (message : IpcMessage.t)
| Complete (responder : nat) (completion : TuiQueryCompletion.t)
| Drop (responder : nat).

(** How a branch ends: the loop goes on, is left, or fails *)
Inductive Flow : Type :=
| Continue
| Break
| Fail (reason : string).

Definition set_stats (self : t) (s : ProxyStats.t) : t :=
  mk (proxy_id self) s (ipc_client self) (interceptor_manager self) (session_id self)
     (session_manager self) (llm_interceptor self) (current_routing_mode self)
     (pending_queries self) (available_tools self).

Definition set_manager (self : t) (m : InterceptorManager.t) : t :=
  mk (proxy_id self) (stats self) (ipc_client self) m (session_id self)
     (session_manager self) (llm_interceptor self) (current_routing_mode self)
     (pending_queries self) (available_tools self).

Definition set_mode (self : t) (mode : RoutingMode.t) : t :=
  mk (proxy_id self) (stats self) (ipc_client self) (interceptor_manager self) (session_id self)
     (session_manager self) (llm_interceptor self) mode (pending_queries self) (available_tools self).

Definition set_pending (self : t) (p : gmap string PendingQuery.t) : t :=
  mk (proxy_id self) (stats self) (ipc_client self) (interceptor_manager self) (session_id self)
     (session_manager self) (llm_interceptor self) (current_routing_mode self) p (available_tools self).

Definition set_tools (self : t) (tools : option (list string)) : t :=
  mk (proxy_id self) (stats self) (ipc_client self) (interceptor_manager self) (session_id self)
     (session_manager self) (llm_interceptor self) (current_routing_mode self)
     (pending_queries self) tools.

(** *** Statistics, on [u64] *)

Definition count_sent (s : ProxyStats.t) (content : string) : ProxyStats.t :=
  ProxyStats.mk (ProxyStats.proxy_id s) (wrap_u64 (ProxyStats.total_requests s + 1))
    (ProxyStats.successful_requests s) (ProxyStats.failed_requests s)
    (ProxyStats.active_connections s) (ProxyStats.uptime s)
    (wrap_u64 (ProxyStats.bytes_transferred s + Z.of_nat (String.length content))).

Definition count_answered (s : ProxyStats.t) (content : string) : ProxyStats.t :=
  ProxyStats.mk (ProxyStats.proxy_id s) (ProxyStats.total_requests s)
    (wrap_u64 (ProxyStats.successful_requests s + 1)) (ProxyStats.failed_requests s)
    (ProxyStats.active_connections s) (ProxyStats.uptime s)
    (wrap_u64 (ProxyStats.bytes_transferred s + Z.of_nat (String.length content))).

Definition count_failed (s : ProxyStats.t) : ProxyStats.t :=
  ProxyStats.mk (ProxyStats.proxy_id s) (ProxyStats.total_requests s)
    (ProxyStats.successful_requests s) (wrap_u64 (ProxyStats.failed_requests s + 1))
    (ProxyStats.active_connections s) (ProxyStats.uptime s) (ProxyStats.bytes_transferred s).

(** *** Interception *)

Definition interception_metadata (self : t) : InterceptionMetadata.t :=
  match session_id self with
  | Some session => InterceptionMetadata.with_session_id InterceptionMetadata.new session
  | None => InterceptionMetadata.new
  end.

Definition blocked_error (result : InterceptionResult.t) : string :=
  "Message blocked: " +:+
  match InterceptionResult.reasoning result with Some r => r | None => "" end.

(** The manager's answer, as the line to write and whether it was modified *)
Definition line_of (result : InterceptionResult.t) : Res (string * bool) string :=
  if InterceptionResult.block result then Err (blocked_error result)
  else Ok (message_to_string (InterceptionResult.message result) +:+ newline,
           InterceptionResult.modified_flag result).

Definition process_outgoing (io : Inputs.t) (self : t) (content : string)
  : Res (string * bool) string * t :=
  match message_from_str (trim content) with
  | Some message =>
      let '(answer, manager) :=
        InterceptorManager.process_message_with_metadata (Inputs.now io) (Inputs.elapsed_ms io)
          (interceptor_manager self) message Outgoing (interception_metadata self) in
      let self := set_manager self manager in
      match answer with
      | Ok result => (line_of result, self)
      | Err _ => (Ok (content, false), self)
      end
  | None => (Ok (content, false), self)
  end.

(** The names cached are looked up under [result.tools] of the argument. *)
Definition update_tools_cache (self : t) (response : Value) : t :=
  match get response "result" with
  | Some r =>
      match TuiQueryCompletion.array_of (get r "tools") with
      | Some tools =>
          match TuiQueryCompletion.tool_names tools with
          | [] => self
          | names => set_tools self (Some names)
          end
      | None => self
      end
  | None => self
  end.

Definition capture_tools (self : t) (response : JsonRpcResponse.t) : t :=
  match JsonRpcResponse.result response with
  | Some result => if get result "tools" then update_tools_cache self result else self
  | None => self
  end.

Definition capture_query_response (io : Inputs.t) (self : t) (message : JsonRpcMessage.t)
  : list Effect * t :=
  match message with
  | JsonRpcMessage.Response response =>
      let self := capture_tools self response in
      let request_id := RequestId.to_string (JsonRpcResponse.id response) in
      match pending_queries self !! request_id with
      | Some pending =>
          let completion :=
            TuiQueryCompletion.with_delay
              (TuiQueryCompletion.from_response response
                 (Z.max 0 (Inputs.instant io - PendingQuery.started_at pending)))
              (PendingQuery.interceptor_delay_ms pending) in
          ([Complete (PendingQuery.responder pending) completion],
           set_pending self (delete request_id (pending_queries self)))
      | None => ([], self)
      end
  | _ => ([], self)
  end.

Definition process_incoming (io : Inputs.t) (self : t) (content : string)
  : Res (string * bool) string * list Effect * t :=
  match message_from_str (trim content) with
  | Some message =>
      let '(answer, manager) :=
        InterceptorManager.process_message_with_metadata (Inputs.now io) (Inputs.elapsed_ms io)
          (interceptor_manager self) message Incoming (interception_metadata self) in
      let self := set_manager self manager in
      match answer with
      | Ok result =>
          let '(effects, self) := capture_query_response io self (InterceptionResult.message result) in
          (line_of result, effects, self)
      | Err _ => (Ok (content, false), [], self)
      end
  | None => (Ok (content, false), [], self)
  end.

(** *** Log entries *)

Definition log_entry (io : Inputs.t) (self : t) (level : LogLevel.t) (text : string) : list Effect :=
  if ipc_client self then
    [Ipc (IpcMessage.LogEntry (LogEntry.new (Inputs.uuid io) (Inputs.utc io) level text (proxy_id self)))]
  else [].

Definition log_request (io : Inputs.t) (self : t) (content : string) (modified : bool) : list Effect :=
  log_entry io self LogLevel.Request
    ((if modified then "→ [MODIFIED]" else "→") +:+ " " +:+ trim content).

Definition log_response (io : Inputs.t) (self : t) (content : string) (modified : bool) : list Effect :=
  log_entry io self LogLevel.Response
    ((if modified then "← [MODIFIED]" else "←") +:+ " " +:+ trim content).

Definition log_error (io : Inputs.t) (self : t) (content : string) : list Effect :=
  log_entry io self LogLevel.Info ("stderr: " +:+ trim content).
(** *** Queries of the monitor *)

Definition complete_query_with_error (responder : nat) (message : string) : list Effect :=
  [Complete responder (TuiQueryCompletion.failed message)].

Definition get_available_tool_name (self : t) : option string :=
  match available_tools self with
  | Some (tool :: _) => Some tool
  | _ => None
  end.

Definition empty_object : Value := VObject [].

(** The method and parameters of a query *)
Definition query_call (self : t) (job : TuiQueryJob.t) : string * Value :=
  match TuiQueryJob.mcp_method job with
  | Some mcp_method =>
      (mcp_method, match TuiQueryJob.mcp_params job with Some p => p | None => empty_object end)
  | None =>
      let query := to_lowercase (TuiQueryJob.query job) in
      if str_contains "tools" query && str_contains "available" query then ("tools/list"%string, empty_object)
      else match get_available_tool_name self with
           | Some tool_name =>
               ("tools/call"%string,
                VObject [("arguments"%string,
                           VObject [("input"%string, VString (TuiQueryJob.query job))]);
                         ("name"%string, VString tool_name)])
           | None => ("tools/list"%string, empty_object)
           end
  end.

Definition query_payload (request_id method : string) (params : Value) : Value :=
  VObject [("id"%string, VString request_id); ("jsonrpc"%string, VString "2.0");
           ("method"%string, VString method); ("params"%string, params)].

(** [HashMap::insert] drops the responder that was under the key. *)
Definition insert_pending (self : t) (request_id : string) (q : PendingQuery.t) : list Effect * t :=
  (match pending_queries self !! request_id with
   | Some old => [Drop (PendingQuery.responder old)]
   | None => []
   end,
   set_pending self (<[request_id := q]> (pending_queries self))).

Definition process_tui_query (io : Inputs.t) (self : t) (job : TuiQueryJob.t) : list Effect * t :=
  let request_id := TuiQueryJob.correlation_id job in
  let responder := TuiQueryJob.response_tx job in
  let '(method, params) := query_call self job in
  let raw := json_to_string (query_payload request_id method params) +:+ newline in
  match process_outgoing io self raw with
  | (Err e, self) => (complete_query_with_error responder ("Query rejected: " +:+ e), self)
  | (Ok (processed_input, modified), self) =>
      let interceptor_delay_ms := Some (f64_mul (as_secs_f64 (Inputs.delay io)) (f64_of_Z 1000)) in
      let log := log_request io self processed_input modified in
      match Inputs.write_ok io, Inputs.flush_ok io with
      | Err e, _ =>
          (log ++ complete_query_with_error responder ("Failed to send query: " +:+ e), self)
      | Ok _, Err e =>
          (log ++ complete_query_with_error responder ("Failed to flush query: " +:+ e), self)
      | Ok _, Ok _ =>
          let '(dropped, self) :=
            insert_pending self request_id
              (PendingQuery.mk responder (Inputs.instant io) interceptor_delay_ms) in
          (log ++ [ToChild processed_input] ++ dropped,
           set_stats self (count_sent (stats self) processed_input))
      end
  end.

(** *** Statistics for the monitor *)

Definition get_interceptor_stats (self : t) : InterceptorManagerInfo.t :=
  let s := InterceptorManager.stats (interceptor_manager self) in
  InterceptorManagerInfo.mk
    (ManagerStats.total_messages_processed s) (ManagerStats.total_modifications_made s)
    (ManagerStats.total_messages_blocked s) (ManagerStats.avg_processing_time_ms s)
    (ManagerStats.messages_by_method s)
    (List.map (fun name => InterceptorInfo.mk name 0 true 0 0 0 f64_zero)
       (InterceptorManager.list_interceptors (interceptor_manager self))).

(** [answer] is what the session manager has for the handler's session. *)
Definition emit_session_stats (self : t) (answer : option SessionStats.t) : list Effect :=
  match session_manager self, session_id self, ipc_client self, answer with
  | true, Some session_id, true, Some s =>
      [Ipc (IpcMessage.SessionStats
              (SessionMetrics.mk (proxy_id self) session_id (SessionStats.total_predictions s)
                 (SessionStats.successful_predictions s) (SessionStats.accuracy s)
                 (SessionStats.optimization_score s) (SessionStats.message_count s)))]
  | _, _, _, _ => []
  end.

Definition stats_tick (self : t) (answer : option SessionStats.t) : list Effect :=
  (if ipc_client self then
     [Ipc (IpcMessage.StatsUpdate (stats self));
      Ipc (IpcMessage.InterceptorStats (proxy_id self) (get_interceptor_stats self))]
   else []) ++ emit_session_stats self answer.

(** *** Lines *)

(** Writing and flushing a line: nothing is known to have arrived on failure. *)
Definition written (io : Inputs.t) : bool := is_ok (Inputs.write_ok io) && is_ok (Inputs.flush_ok io).

Definition user_line (io : Inputs.t) (self : t) (input : string) : list Effect * t * Flow :=
  match process_outgoing io self input with
  | (Err _, self) =>
      (log_request io self input false, set_stats self (count_failed (stats self)), Continue)
  | (Ok (processed_input, modified), self) =>
      let log := log_request io self processed_input modified in
      if written io then
        (log ++ [ToChild processed_input], set_stats self (count_sent (stats self) processed_input),
         Continue)
      else (log, self, Break)
  end.

Definition child_line (io : Inputs.t) (self : t) (output : string) : list Effect * t * Flow :=
  match process_incoming io self output with
  | (Err _, effects, self) =>
      (effects ++ log_response io self output false, set_stats self (count_failed (stats self)),
       Continue)
  | (Ok (processed_output, modified), effects, self) =>
      let log := effects ++ log_response io self processed_output modified in
      if written io then
        (log ++ [ToUser processed_output],
         set_stats self (count_answered (stats self) processed_output), Continue)
      else (log, self, Break)
  end.

(** *** The branches of the loop *)

Inductive Event : Type :=
| ShutdownSignal
| StatsTick (answer : option SessionStats.t)
| Query (job : TuiQueryJob.t)
| QueryClosed
| UserLine (input : string)
| UserEof
| UserError
| ChildLine (output : string)
| ChildEof
| ChildError
| StderrLine (error_msg : string)
| StderrEof
| StderrError
| ChildExit (success : bool) (status : string)
| WaitError (e : string).

Definition handle (io : Inputs.t) (self : t) (e : Event) : list Effect * t * Flow :=
  match e with
  | ShutdownSignal | UserEof | UserError | ChildEof => ([], self, Break)
  | StatsTick answer => (stats_tick self answer, self, Continue)
  | Query job => let '(effects, self) := process_tui_query io self job in (effects, self, Continue)
  | QueryClosed | StderrEof | StderrError => ([], self, Continue)
  | UserLine input => user_line io self input
  | ChildLine output => child_line io self output
  | ChildError => ([], set_stats self (count_failed (stats self)), Break)
  | StderrLine error_msg => (log_error io self error_msg ++ [ToStderr error_msg], self, Continue)
  | ChildExit true _ => ([], self, Break)
  | ChildExit false status =>
      ([], set_stats self (count_failed (stats self)),
       Fail ("Backend process crashed with status " +:+ status))
  | WaitError e => ([], self, Fail ("Failed to wait for child process: " +:+ e))
  end.

(** [apply_routing_mode], but for the shared interceptor *)
Definition apply_routing_mode (self : t) (mode : RoutingMode.t) : list Effect * t :=
  (if ipc_client self then
     [Ipc (IpcMessage.RoutingModeChanged (proxy_id self) (RoutingMode.to_string mode))]
   else [],
   set_mode self mode).
End handler.
Arguments t : clear implicits.
Arguments t {JN}.
Arguments Effect : clear implicits.
Arguments Effect {JN}.
End StdioHandler.

(** ** The loop *)

Section loop.
Context `{W : LlmWorld, JT : !JsonText, JF : !JsonFloats, UC : UnicodeCase, SD : StrDebug, UT : UuidText}.

Abbreviation Handler := StdioHandler.t.
Abbreviation Effects := (list StdioHandler.Effect).

(** [process_pending_routing_updates]: each mode in turn, on the handler and,
    if it has one, on the LLM interceptor in the manager's list *)
Inductive routed : Handler -> list RoutingMode.t -> Handler -> Effects -> Prop :=
| routed_nil self : routed self [] self []
| routed_mode self mode modes effs self1 ics self' effs' :
    StdioHandler.apply_routing_mode self mode = (effs, self1) ->
    (if StdioHandler.llm_interceptor self then
       shared_update (fun llm => LlmInterceptor.set_routing_mode llm mode)
         (InterceptorManager.interceptors (StdioHandler.interceptor_manager self)) ics
     else ics = InterceptorManager.interceptors (StdioHandler.interceptor_manager self)) ->
    routed (StdioHandler.set_manager self1
              (InterceptorManager.mk ics
                 (InterceptorManager.stats (StdioHandler.interceptor_manager self)))) modes self' effs' ->
    routed self (mode :: modes) self' (effs ++ effs').

(** [handle_communication]: iterations while the flow continues, with the
    branches taken *)
Inductive runs : Handler -> list StdioHandler.Event -> Handler -> Effects -> StdioHandler.Flow -> Prop :=
| runs_now self : runs self [] self [] StdioHandler.Continue
| runs_last self modes self1 effs1 io e effs2 self2 flow :
    routed self modes self1 effs1 ->
    StdioHandler.handle io self1 e = (effs2, self2, flow) ->
    runs self [e] self2 (effs1 ++ effs2) flow
| runs_next self modes self1 effs1 io e effs2 self2 events self3 effs3 flow :
    routed self modes self1 effs1 ->
    StdioHandler.handle io self1 e = (effs2, self2, StdioHandler.Continue) ->
    runs self2 events self3 effs3 flow ->
    runs self (e :: events) self3 (effs1 ++ effs2 ++ effs3) flow.
End loop.

(** ** Accounting *)

Section accounting.
Context `{JT : JsonText, UC : UnicodeCase}.

Definition to_child (e : StdioHandler.Effect) : option string :=
  match e with StdioHandler.ToChild c => Some c | _ => None end.
Definition to_user (e : StdioHandler.Effect) : option string :=
  match e with StdioHandler.ToUser c => Some c | _ => None end.

(** The responder an effect settles *)
Definition to_responder (e : StdioHandler.Effect) : option nat :=
  match e with
  | StdioHandler.Complete r _ | StdioHandler.Drop r => Some r
  | _ => None
  end.

Definition bytes_of (lines : list string) : Z :=
  List.fold_right (fun l acc => Z.of_nat (String.length l) + acc) 0 lines.

(** [s'] is [s] after the lines written *)
Definition accounts (s : ProxyStats.t) (effs : list StdioHandler.Effect) (s' : ProxyStats.t) : Prop :=
  ProxyStats.total_requests s' =
    wrap_u64 (ProxyStats.total_requests s + Z.of_nat (length (omap to_child effs))) /\
  ProxyStats.successful_requests s' =
    wrap_u64 (ProxyStats.successful_requests s + Z.of_nat (length (omap to_user effs))) /\
  ProxyStats.bytes_transferred s' =
    wrap_u64 (ProxyStats.bytes_transferred s + bytes_of (omap to_child effs) + bytes_of (omap to_user effs)).

(** The counters are [u64]. *)
Definition stats_wf (s : ProxyStats.t) : Prop :=
  is_u64 (ProxyStats.total_requests s) /\ is_u64 (ProxyStats.successful_requests s) /\
  is_u64 (ProxyStats.bytes_transferred s).

Lemma bytes_of_app a b : bytes_of (a ++ b) = bytes_of a + bytes_of b.
Proof.
  unfold bytes_of. induction a as [|l a IH]; [done|].
  cbn [app List.fold_right]. rewrite IH. lia.
Qed.

Lemma omap_app' {A B} (f : A -> option B) (a b : list A) : omap f (a ++ b) = omap f a ++ omap f b.
Proof. induction a as [|x a IH]; [done|]. cbn. destruct (f x); cbn; [f_equal|]; exact IH. Qed.

Lemma wrap_u64_add a b : wrap_u64 (wrap_u64 a + b) = wrap_u64 (a + b).
Proof. unfold wrap_u64. by rewrite Z.add_mod_idemp_l. Qed.

(** Effects that write no line account for nothing. *)
Lemma accounts_none s effs :
  stats_wf s -> omap to_child effs = [] -> omap to_user effs = [] -> accounts s effs s.
Proof.
  intros (H1 & H2 & H3) Hc Hu. unfold accounts. rewrite Hc, Hu. cbn.
  rewrite !Z.add_0_r, !wrap_u64_id by done. done.
Qed.

Lemma accounts_app s effs s1 effs1 s2 :
  accounts s effs s1 -> accounts s1 effs1 s2 -> accounts s (effs ++ effs1) s2.
Proof.
  unfold accounts. intros (A1 & A2 & A3) (B1 & B2 & B3).
  rewrite !omap_app', !length_app, !bytes_of_app, B1, B2, B3, A1, A2, A3.
  split_and!; [rewrite wrap_u64_add; f_equal; lia..|].
  rewrite <- (Z.add_assoc (wrap_u64 _)), wrap_u64_add. f_equal. lia.
Qed.

Lemma accounts_wf s effs s' : accounts s effs s' -> stats_wf s'.
Proof.
  intros (H1 & H2 & H3). unfold stats_wf. rewrite H1, H2, H3. split_and!; apply wrap_u64_range.
Qed.

(** *** What a branch leaves alone *)

Definition frame (self self' : StdioHandler.t) : Prop :=
  StdioHandler.proxy_id self' = StdioHandler.proxy_id self /\
  StdioHandler.ipc_client self' = StdioHandler.ipc_client self.

Lemma outgoing_frame io self c r self' :
  StdioHandler.process_outgoing io self c = (r, self') ->
  exists m, self' = StdioHandler.set_manager self m.
Proof.
  unfold StdioHandler.process_outgoing. destruct (message_from_str _) as [m|].
  - destruct (InterceptorManager.process_message_with_metadata _ _ _ _ _ _) as [[q|e] mgr];
      intros H; injection H as _ <-; by exists mgr.
  - intros H. injection H as _ <-. exists (StdioHandler.interceptor_manager self). by destruct self.
Qed.

Lemma capture_stats io self m effs self' :
  StdioHandler.capture_query_response io self m = (effs, self') ->
  StdioHandler.stats self' = StdioHandler.stats self /\
  omap to_child effs = [] /\ omap to_user effs = [].
Proof.
  unfold StdioHandler.capture_query_response. destruct m as [|resp|]; try by intros [= <- <-].
  assert (Hs : StdioHandler.stats (StdioHandler.capture_tools self resp) = StdioHandler.stats self).
  { unfold StdioHandler.capture_tools, StdioHandler.update_tools_cache. by repeat case_match. }
  destruct (StdioHandler.pending_queries _ !! _) as [p|]; intros [= <- <-]; by rewrite <- Hs.
Qed.

Lemma incoming_stats io self c r effs self' :
  StdioHandler.process_incoming io self c = (r, effs, self') ->
  StdioHandler.stats self' = StdioHandler.stats self /\
  omap to_child effs = [] /\ omap to_user effs = [].
Proof.
  unfold StdioHandler.process_incoming. destruct (message_from_str _) as [m|]; [|by intros [= _ <- <-]].
  destruct (InterceptorManager.process_message_with_metadata _ _ _ _ _ _) as [[q|e] mgr];
    [|by intros [= _ <- <-]].
  destruct (StdioHandler.capture_query_response _ _ _) as [es s1] eqn:E. intros [= _ <- <-].
  apply capture_stats in E. exact E.
Qed.

Lemma log_lines io self level text :
  omap to_child (StdioHandler.log_entry io self level text) = [] /\
  omap to_user (StdioHandler.log_entry io self level text) = [].
Proof. unfold StdioHandler.log_entry. by destruct (StdioHandler.ipc_client self). Qed.

Lemma log_request_lines io self content modified :
  omap to_child (StdioHandler.log_request io self content modified) = [] /\
  omap to_user (StdioHandler.log_request io self content modified) = [].
Proof. apply log_lines. Qed.

(** Counting one line is accounting for it. *)
Lemma count_sent_accounts s c pre post :
  stats_wf s -> omap to_child pre = [] -> omap to_user pre = [] ->
  omap to_child post = [] -> omap to_user post = [] ->
  accounts s (pre ++ [StdioHandler.ToChild c] ++ post) (StdioHandler.count_sent s c).
Proof.
  intros (H1 & H2 & H3) Hp Hu Hp' Hu'. unfold accounts. rewrite !omap_app', Hp, Hu, Hp', Hu'. cbn.
  split_and!; [done|by rewrite Z.add_0_r, wrap_u64_id|f_equal; lia].
Qed.

Lemma count_answered_accounts s c pre :
  stats_wf s -> omap to_child pre = [] -> omap to_user pre = [] ->
  accounts s (pre ++ [StdioHandler.ToUser c]) (StdioHandler.count_answered s c).
Proof.
  intros (H1 & H2 & H3) Hp Hu. unfold accounts. rewrite !omap_app', Hp, Hu. cbn.
  split_and!; [by rewrite Z.add_0_r, wrap_u64_id|done|f_equal; lia].
Qed.

Lemma count_failed_accounts s effs :
  stats_wf s -> omap to_child effs = [] -> omap to_user effs = [] ->
  accounts s effs (StdioHandler.count_failed s).
Proof.
  intros (H1 & H2 & H3) Hp Hu. unfold accounts. rewrite Hp, Hu. cbn.
  by rewrite !Z.add_0_r, !wrap_u64_id.
Qed.

Lemma handle_accounts io self e effs self' flow :
  stats_wf (StdioHandler.stats self) ->
  StdioHandler.handle io self e = (effs, self', flow) ->
  accounts (StdioHandler.stats self) effs (StdioHandler.stats self').
Proof.
  intros Hw H. destruct e as [|answer|job| |input| | |output| | |msg| | |[] status|err]; cbn in H;
    try (injection H as <- <- _; (by apply accounts_none) || (by apply count_failed_accounts)).
  - injection H as <- <- _. apply accounts_none; [done| |];
      unfold StdioHandler.stats_tick, StdioHandler.emit_session_stats; repeat case_match; done.
  - destruct (StdioHandler.process_tui_query io self job) as [es s1] eqn:E.
    injection H as <- <- _. unfold StdioHandler.process_tui_query in E.
    destruct (StdioHandler.query_call self job) as [method params].
    destruct (StdioHandler.process_outgoing io self _) as [[[line modified]|err] s2] eqn:Eo;
      apply outgoing_frame in Eo as [mgr ->]; [|injection E as <- <-; by apply accounts_none].
    destruct (log_request_lines io (StdioHandler.set_manager self mgr) line modified) as [Hc Hu].
    destruct (Inputs.write_ok io), (Inputs.flush_ok io);
      try (injection E as <- <-; apply accounts_none; [done|by rewrite omap_app', Hc|by rewrite omap_app', Hu]).
    unfold StdioHandler.insert_pending in E. injection E as <- <-. cbn -[StdioHandler.log_request].
    apply (count_sent_accounts _ _ _ (match _ with Some _ => _ | None => _ end));
      [done|done|done| |]; by case_match.
  - unfold StdioHandler.user_line in H.
    destruct (StdioHandler.process_outgoing io self input) as [[[line modified]|err] s2] eqn:Eo;
      apply outgoing_frame in Eo as [mgr ->].
    + destruct (log_request_lines io (StdioHandler.set_manager self mgr) line modified) as [Hc Hu].
      destruct (StdioHandler.written io); injection H as <- <- _.
      * apply (count_sent_accounts _ _ _ []); done.
      * by apply accounts_none.
    + injection H as <- <- _. edestruct log_lines as [Hc Hu].
      by apply count_failed_accounts; [|exact Hc|exact Hu].
  - unfold StdioHandler.child_line in H.
    destruct (StdioHandler.process_incoming io self output) as [[[[line modified]|err] es] s2] eqn:Ei;
      apply incoming_stats in Ei as (Hs & Hc & Hu).
    + pose proof (log_lines io s2 LogLevel.Response
        ((if modified then "← [MODIFIED]" else "←") +:+ " " +:+ trim line)) as [Hc' Hu'].
      destruct (StdioHandler.written io); injection H as <- <- _; cbn; rewrite Hs.
      * apply count_answered_accounts; [done|by rewrite omap_app', Hc|by rewrite omap_app', Hu].
      * apply accounts_none; [done|by rewrite omap_app', Hc|by rewrite omap_app', Hu].
    + injection H as <- <- _. cbn. rewrite Hs. edestruct log_lines as [Hc' Hu'].
      apply count_failed_accounts; [done|rewrite omap_app', Hc; exact Hc'|
        rewrite omap_app', Hu; exact Hu'].
  - injection H as <- <- _. destruct (log_lines io self LogLevel.Info ("stderr: " +:+ trim msg)) as [Hc Hu].
    unfold StdioHandler.log_error.
    apply accounts_none; [done|by rewrite omap_app', Hc|by rewrite omap_app', Hu].
Qed.
End accounting.

Section traffic.
Context `{W : LlmWorld, JT : !JsonText, JF : !JsonFloats, UC : UnicodeCase, SD : StrDebug, UT : UuidText}.

(** Routing updates write no line and touch neither the statistics nor the queries. *)
Lemma routed_quiet self modes self' effs :
  routed self modes self' effs ->
  StdioHandler.stats self' = StdioHandler.stats self /\
  StdioHandler.pending_queries self' = StdioHandler.pending_queries self /\
  omap to_child effs = [] /\ omap to_user effs = [] /\ omap to_responder effs = [].
Proof.
  induction 1 as [|self mode modes effs self1 ics self' effs' Ha _ _ (Hs & Hp & Hc & Hu & Hr)]; [done|].
  unfold StdioHandler.apply_routing_mode in Ha. injection Ha as <- <-.
  rewrite !omap_app', Hs, Hp, Hc, Hu, Hr. cbn. by destruct (StdioHandler.ipc_client self).
Qed.

(** However the proxy's loop runs, its statistics are the account of what
    it did: the requests counted are the lines written to the server, the
    successes the lines written to the client, and the bytes the lengths of
    both, on [u64]. *)
Theorem traffic_is_accounted self events self' effs flow :
  stats_wf (StdioHandler.stats self) ->
  runs self events self' effs flow ->
  accounts (StdioHandler.stats self) effs (StdioHandler.stats self').
Proof.
  intros Hw Hr. induction Hr as [self|self modes self1 effs1 io e effs2 self2 flow Hm Hh
    |self modes self1 effs1 io e effs2 self2 events self3 effs3 flow Hm Hh Hr IH].
  - by apply accounts_none.
  - apply routed_quiet in Hm as (Hs & _ & Hc & Hu & _). rewrite <- Hs in Hw |- *.
    exact (accounts_app _ _ _ _ _ (accounts_none _ _ Hw Hc Hu) (handle_accounts _ _ _ _ _ _ Hw Hh)).
  - apply routed_quiet in Hm as (Hs & _ & Hc & Hu & _). rewrite <- Hs in Hw |- *.
    pose proof (handle_accounts _ _ _ _ _ _ Hw Hh) as Ha.
    eapply accounts_app; [by apply accounts_none|].
    eapply accounts_app; [exact Ha|]. apply IH. exact (accounts_wf _ _ _ Ha).
Qed.
End traffic.

(** ** Responders *)

Section responders.
Context `{W : LlmWorld, JT : !JsonText, JF : !JsonFloats, UC : UnicodeCase, SD : StrDebug, UT : UuidText}.

(** The responders of the pending queries, and those that come with an event *)
Definition waiting (self : StdioHandler.t) : list nat :=
  (fun e => PendingQuery.responder e.2) <$> map_to_list (StdioHandler.pending_queries self).

Definition arriving (e : StdioHandler.Event) : list nat :=
  match e with StdioHandler.Query job => [TuiQueryJob.response_tx job] | _ => [] end.

Definition settled (effs : list StdioHandler.Effect) : list nat := omap to_responder effs.

Lemma settled_app a b : settled (a ++ b) = settled a ++ settled b.
Proof. apply omap_app'. Qed.

Lemma log_settles io self level text : settled (StdioHandler.log_entry io self level text) = [].
Proof. unfold StdioHandler.log_entry. by destruct (StdioHandler.ipc_client self). Qed.

Lemma waiting_insert self id q :
  waiting (StdioHandler.set_pending self (<[id := q]> (StdioHandler.pending_queries self))) ++
    match StdioHandler.pending_queries self !! id with
    | Some old => [PendingQuery.responder old] | None => [] end
  ≡ₚ PendingQuery.responder q :: waiting self.
Proof.
  unfold waiting. cbn. destruct (StdioHandler.pending_queries self !! id) as [old|] eqn:E.
  - rewrite <- insert_delete_eq, map_to_list_insert by apply lookup_delete_eq.
    rewrite <- (insert_id (StdioHandler.pending_queries self) id old) at 2 by done.
    rewrite <- insert_delete_eq, map_to_list_insert by apply lookup_delete_eq. cbn.
    constructor. symmetry. apply Permutation_cons_append.
  - rewrite map_to_list_insert, app_nil_r by done. done.
Qed.

Lemma waiting_delete self id q :
  StdioHandler.pending_queries self !! id = Some q ->
  waiting self ≡ₚ
    PendingQuery.responder q ::
    waiting (StdioHandler.set_pending self (delete id (StdioHandler.pending_queries self))).
Proof.
  intros H. unfold waiting. cbn.
  rewrite <- (insert_id (StdioHandler.pending_queries self) id q) at 1 by done.
  by rewrite <- insert_delete_eq, map_to_list_insert by apply lookup_delete_eq.
Qed.

Lemma waiting_pending self self' :
  StdioHandler.pending_queries self' = StdioHandler.pending_queries self -> waiting self' = waiting self.
Proof. unfold waiting. by intros ->. Qed.

Lemma capture_conserves io self m effs self' :
  StdioHandler.capture_query_response io self m = (effs, self') ->
  waiting self ≡ₚ settled effs ++ waiting self'.
Proof.
  unfold StdioHandler.capture_query_response. destruct m as [|resp|]; try by intros [= <- <-].
  assert (Hp : StdioHandler.pending_queries (StdioHandler.capture_tools self resp) =
               StdioHandler.pending_queries self).
  { unfold StdioHandler.capture_tools, StdioHandler.update_tools_cache. by repeat case_match. }
  rewrite <- (waiting_pending _ _ Hp).
  destruct (StdioHandler.pending_queries (StdioHandler.capture_tools self resp) !! _) as [p|] eqn:E;
    intros [= <- <-]; [|done]. exact (waiting_delete _ _ _ E).
Qed.

Lemma query_conserves io self job effs self' :
  StdioHandler.process_tui_query io self job = (effs, self') ->
  TuiQueryJob.response_tx job :: waiting self ≡ₚ settled effs ++ waiting self'.
Proof.
  unfold StdioHandler.process_tui_query. intros E.
  destruct (StdioHandler.query_call self job) as [method params].
  destruct (StdioHandler.process_outgoing io self _) as [[[line modified]|err] s2] eqn:Eo;
    apply outgoing_frame in Eo as [mgr ->]; [|by injection E as <- <-].
  pose proof (log_settles io (StdioHandler.set_manager self mgr) LogLevel.Request
    ((if modified then "→ [MODIFIED]" else "→") +:+ " " +:+ trim line)) as Hl.
  change (StdioHandler.log_entry _ _ _ _)
    with (StdioHandler.log_request io (StdioHandler.set_manager self mgr) line modified) in Hl.
  destruct (Inputs.write_ok io), (Inputs.flush_ok io);
    try (injection E as <- <-; rewrite settled_app, Hl; done).
  injection E as <- <-. rewrite settled_app, Hl. cbn.
  rewrite <- (waiting_insert self (TuiQueryJob.correlation_id job)
    (PendingQuery.mk (TuiQueryJob.response_tx job) (Inputs.instant io)
       (Some (f64_mul (as_secs_f64 (Inputs.delay io)) (f64_of_Z 1000))))).
  rewrite Permutation_app_comm. unfold waiting. cbn.
  by destruct (StdioHandler.pending_queries self !! _).
Qed.

Lemma handle_conserves io self e effs self' flow :
  StdioHandler.handle io self e = (effs, self', flow) ->
  arriving e ++ waiting self ≡ₚ settled effs ++ waiting self'.
Proof.
  intros H. destruct e as [|answer|job| |input| | |output| | |msg| | |[] status|err]; cbn in H;
    try (injection H as <- <- _; done).
  - injection H as <- <- _. unfold StdioHandler.stats_tick, StdioHandler.emit_session_stats.
    by repeat case_match.
  - destruct (StdioHandler.process_tui_query io self job) as [es s1] eqn:E.
    injection H as <- <- _. exact (query_conserves _ _ _ _ _ E).
  - unfold StdioHandler.user_line in H.
    destruct (StdioHandler.process_outgoing io self input) as [[[line modified]|err] s2] eqn:Eo;
      apply outgoing_frame in Eo as [mgr ->]; [destruct (StdioHandler.written io)|];
      injection H as <- <- _; unfold StdioHandler.log_request;
      rewrite ?settled_app, log_settles; done.
  - unfold StdioHandler.child_line, StdioHandler.process_incoming in H. cbn [arriving app].
    destruct (message_from_str _) as [m|];
      [destruct (InterceptorManager.process_message_with_metadata _ _ _ _ _ _) as [[q|er] mgr]|].
    2,3: destruct (StdioHandler.written io); injection H as <- <- _; unfold StdioHandler.log_response;
      rewrite ?settled_app, log_settles; done.
    destruct (StdioHandler.capture_query_response _ _ _) as [es s1] eqn:E.
    apply capture_conserves in E. rewrite (waiting_pending self) in E by done.
    destruct (StdioHandler.line_of q) as [[line modified]|]; [destruct (StdioHandler.written io)|];
      injection H as <- <- _; unfold StdioHandler.log_response;
      rewrite !settled_app, log_settles, ?app_nil_r; exact E.
  - injection H as <- <- _. unfold StdioHandler.log_error. by rewrite settled_app, log_settles.
Qed.

Lemma run_conserves self events self' effs flow :
  runs self events self' effs flow ->
  (events ≫= arriving) ++ waiting self ≡ₚ settled effs ++ waiting self'.
Proof.
  induction 1 as [self|self modes self1 effs1 io e effs2 self2 flow Hm Hh
    |self modes self1 effs1 io e effs2 self2 events self3 effs3 flow Hm Hh Hr IH]; [done|..];
    apply routed_quiet in Hm as (_ & Hp & _ & _ & Hs); apply handle_conserves in Hh;
    rewrite (waiting_pending _ _ Hp) in Hh; change (settled effs1 = []) in Hs;
    rewrite !settled_app, Hs; cbn; rewrite ?app_nil_r; [exact Hh|].
  rewrite <- app_assoc, (Permutation_app_comm (events ≫= arriving)), app_assoc, Hh.
  rewrite <- app_assoc, (Permutation_app_comm (waiting self2)), IH. by rewrite app_assoc.
Qed.

(** The completions among the effects, and the responders dropped without one *)
Definition to_completion (e : StdioHandler.Effect) : option (nat * TuiQueryCompletion.t) :=
  match e with StdioHandler.Complete r c => Some (r, c) | _ => None end.
Definition to_drop (e : StdioHandler.Effect) : option nat :=
  match e with StdioHandler.Drop r => Some r | _ => None end.

Definition completions (effs : list StdioHandler.Effect) := omap to_completion effs.
Definition drops (effs : list StdioHandler.Effect) := omap to_drop effs.

Lemma settled_parts effs : settled effs ≡ₚ (completions effs).*1 ++ drops effs.
Proof.
  unfold settled, completions, drops. induction effs as [|[] effs IH]; cbn; try done.
  - by constructor.
  - rewrite IH. by rewrite Permutation_middle.
Qed.

(** Log entries complete and drop nothing. *)
Lemma log_parts io self level text :
  completions (StdioHandler.log_entry io self level text) = [] /\
  drops (StdioHandler.log_entry io self level text) = [].
Proof. unfold StdioHandler.log_entry. by destruct (StdioHandler.ipc_client self). Qed.

Lemma quiet_parts effs : settled effs = [] -> completions effs = [] /\ drops effs = [].
Proof.
  intros H. pose proof (settled_parts effs) as Hp. rewrite H in Hp.
  apply Permutation_nil_l in Hp. symmetry in Hp. apply app_nil in Hp as [Hc Hd].
  by apply fmap_nil_inv in Hc.
Qed.

Lemma completions_app a b : completions (a ++ b) = completions a ++ completions b.
Proof. apply omap_app'. Qed.
Lemma drops_app a b : drops (a ++ b) = drops a ++ drops b.
Proof. apply omap_app'. Qed.
End responders.

(** ** What becomes of a line *)

Section lines.
Context `{W : LlmWorld, JT : !JsonText, JF : !JsonFloats, UC : UnicodeCase, SD : StrDebug, UT : UuidText}.

(** The message a line is, and what the interceptors answer to it *)
Definition pipeline (io : Inputs.t) (self : StdioHandler.t) (direction : MessageDirection) (line : string)
  : option (Res InterceptionResult.t McpError) :=
  option_map (fun m =>
    (InterceptorManager.process_message_with_metadata (Inputs.now io) (Inputs.elapsed_ms io)
       (StdioHandler.interceptor_manager self) m direction
       (StdioHandler.interception_metadata self)).1) (message_from_str (trim line)).

(** What is to be done with a line: pass it on as it is, withhold it, or write
    a message in its place *)
Inductive Verdict : Type :=
| Verbatim
| Withhold
| Replace (message : JsonRpcMessage.t).

Definition verdict (answer : option (Res InterceptionResult.t McpError)) : Verdict :=
  match answer with
  | None | Some (Err _) => Verbatim
  | Some (Ok r) => if InterceptionResult.block r then Withhold else Replace (InterceptionResult.message r)
  end.

Definition text_of (line : string) (v : Verdict) : option string :=
  match v with
  | Verbatim => Some line
  | Withhold => None
  | Replace m => Some (message_to_string m +:+ newline)
  end.

Lemma outgoing_verdict io self line :
  let v := verdict (pipeline io self Outgoing line) in
  match (StdioHandler.process_outgoing io self line).1 with
  | Ok (text, _) => text_of line v = Some text
  | Err _ => v = Withhold
  end.
Proof.
  unfold StdioHandler.process_outgoing, pipeline. destruct (message_from_str _) as [m|]; [|done].
  cbn [option_map]. destruct (InterceptorManager.process_message_with_metadata _ _ _ _ _ _) as [[r|e] mgr];
    [|done].
  cbn [fst verdict]. unfold StdioHandler.line_of. by destruct (InterceptionResult.block r).
Qed.

Lemma incoming_verdict io self line :
  let v := verdict (pipeline io self Incoming line) in
  match (StdioHandler.process_incoming io self line).1.1 with
  | Ok (text, _) => text_of line v = Some text
  | Err _ => v = Withhold
  end.
Proof.
  unfold StdioHandler.process_incoming, pipeline. destruct (message_from_str _) as [m|]; [|done].
  cbn [option_map]. destruct (InterceptorManager.process_message_with_metadata _ _ _ _ _ _) as [[r|e] mgr];
    [|done].
  destruct (StdioHandler.capture_query_response _ _ _) as [es s]. cbn [fst verdict].
  unfold StdioHandler.line_of. by destruct (InterceptionResult.block r).
Qed.

(** What a handler did with one line from the client: [text] is what was to be written *)
Definition sent (io : Inputs.t) (self : StdioHandler.t) (text : option string)
    (effs : list StdioHandler.Effect) (self' : StdioHandler.t) (flow : StdioHandler.Flow) : Prop :=
  omap to_user effs = [] /\
  match text with
  | Some line =>
      if StdioHandler.written io
      then omap to_child effs = [line] /\ flow = StdioHandler.Continue /\
           StdioHandler.stats self' = StdioHandler.count_sent (StdioHandler.stats self) line
      else omap to_child effs = [] /\ flow = StdioHandler.Break /\
           StdioHandler.stats self' = StdioHandler.stats self
  | None =>
      omap to_child effs = [] /\ flow = StdioHandler.Continue /\
      StdioHandler.stats self' = StdioHandler.count_failed (StdioHandler.stats self)
  end.

Lemma user_line_sent io self line effs self' flow :
  StdioHandler.user_line io self line = (effs, self', flow) ->
  sent io self (text_of line (verdict (pipeline io self Outgoing line))) effs self' flow.
Proof.
  pose proof (outgoing_verdict io self line) as Hv. cbn zeta in Hv. unfold StdioHandler.user_line.
  destruct (StdioHandler.process_outgoing io self line) as [[[text modified]|err] s] eqn:Eo;
    apply outgoing_frame in Eo as [mgr ->]; cbn [fst] in Hv; rewrite Hv; unfold sent.
  - destruct (log_request_lines io (StdioHandler.set_manager self mgr) text modified) as [Hc Hu].
    destruct (StdioHandler.written io); intros [= <- <- <-]; [|done].
    by rewrite !omap_app', Hc, Hu.
  - destruct (log_request_lines io (StdioHandler.set_manager self mgr) line false) as [Hc Hu].
    by intros [= <- <- <-].
Qed.

(** C6: a line from the client that is not a JSON-RPC message, such as a batch,
    reaches the server as it is, past every interceptor; so does one the
    interceptors fail on.  A message they block is not written, and the client
    is sent nothing in its place.  Any other message is written as one line
    that reads back as the message the interceptors gave. *)
Theorem client_line_decision {NL : JsonNumberLaws JN} {TL : JsonTextLaws JT} io self line effs self' flow :
  StdioHandler.handle io self (StdioHandler.UserLine line) = (effs, self', flow) ->
  exists text, sent io self text effs self' flow /\
  match pipeline io self Outgoing line with
  | None =>
      text = Some line /\
      StdioHandler.interceptor_manager self' = StdioHandler.interceptor_manager self
  | Some (Err _) => text = Some line
  | Some (Ok r) =>
      if InterceptionResult.block r then text = None
      else exists t, text = Some (t +:+ newline) /\ str_contains newline t = false /\
        (JsonRpcMessage.wf (InterceptionResult.message r) ->
         distinct_keys (JsonRpcMessage.to_value (InterceptionResult.message r)) = true ->
         message_from_str (trim (t +:+ newline)) =
           Some (canonical_message (JsonRpcMessage.normalize (InterceptionResult.message r))))
  end.
Proof.
  intros H. exists (text_of line (verdict (pipeline io self Outgoing line))).
  split; [exact (user_line_sent _ _ _ _ _ _ H)|].
  destruct (pipeline io self Outgoing line) as [[r|e]|] eqn:Ep; [|done|].
  - cbn. destruct (InterceptionResult.block r); [done|].
    exists (message_to_string (InterceptionResult.message r)). split_and!; [done|apply json_to_string_line|].
    intros Hw Hd. unfold message_to_string. rewrite json_to_string_trim. by apply message_text_roundtrip.
  - split; [done|]. cbn in H. unfold StdioHandler.user_line, StdioHandler.process_outgoing in H.
    unfold pipeline in Ep. destruct (message_from_str _); [done|].
    destruct (StdioHandler.written io); by injection H as _ <- _.
Qed.
End lines.

(** ** Queries and their answers *)

Section queries.
Context `{W : LlmWorld, JT : !JsonText, JF : !JsonFloats, UC : UnicodeCase, SD : StrDebug, UT : UuidText}.

(** The entry of a query that was sent *)
Definition entry_of (io : Inputs.t) (job : TuiQueryJob.t) : PendingQuery.t :=
  PendingQuery.mk (TuiQueryJob.response_tx job) (Inputs.instant io)
    (Some (f64_mul (as_secs_f64 (Inputs.delay io)) (f64_of_Z 1000))).

(** The completion of the entry [q] by [response] *)
Definition completion_of (io : Inputs.t) (q : PendingQuery.t) (response : JsonRpcResponse.t)
  : TuiQueryCompletion.t :=
  TuiQueryCompletion.with_delay
    (TuiQueryCompletion.from_response response (Z.max 0 (Inputs.instant io - PendingQuery.started_at q)))
    (PendingQuery.interceptor_delay_ms q).

(** The line the handler makes of a query *)
Definition query_line (self : StdioHandler.t) (job : TuiQueryJob.t) : string :=
  let '(method, params) := StdioHandler.query_call self job in
  json_to_string (StdioHandler.query_payload (TuiQueryJob.correlation_id job) method params) +:+ newline.

Lemma capture_tools_pending self response :
  StdioHandler.pending_queries (StdioHandler.capture_tools self response) =
  StdioHandler.pending_queries self.
Proof. unfold StdioHandler.capture_tools, StdioHandler.update_tools_cache. by repeat case_match. Qed.

Lemma capture_pending io self response q :
  StdioHandler.pending_queries self !! RequestId.to_string (JsonRpcResponse.id response) = Some q ->
  let answer := StdioHandler.capture_query_response io self (JsonRpcMessage.Response response) in
  answer.1 = [StdioHandler.Complete (PendingQuery.responder q) (completion_of io q response)] /\
  StdioHandler.pending_queries answer.2 =
    delete (RequestId.to_string (JsonRpcResponse.id response)) (StdioHandler.pending_queries self).
Proof.
  intros H. unfold StdioHandler.capture_query_response. by rewrite capture_tools_pending, H.
Qed.

(** A query that the interceptors let through and that is written waits for its answer. *)
Lemma query_waits io self job text :
  text_of (query_line self job) (verdict (pipeline io self Outgoing (query_line self job))) = Some text ->
  StdioHandler.written io = true ->
  let '(effs, self', flow) := StdioHandler.handle io self (StdioHandler.Query job) in
  omap to_child effs = [text] /\ flow = StdioHandler.Continue /\
  StdioHandler.pending_queries self' =
    <[TuiQueryJob.correlation_id job := entry_of io job]> (StdioHandler.pending_queries self).
Proof.
  unfold query_line, StdioHandler.handle, StdioHandler.process_tui_query, StdioHandler.written.
  destruct (StdioHandler.query_call self job) as [method params].
  set (line := _ +:+ newline). intros Ht Hw. pose proof (outgoing_verdict io self line) as Hv.
  destruct (StdioHandler.process_outgoing io self line) as [[[t modified]|err] s] eqn:Eo;
    apply outgoing_frame in Eo as [mgr ->]; cbn [fst] in Hv; [|by rewrite Hv in Ht].
  cbn zeta in Hv. rewrite Hv in Ht. injection Ht as ->.
  destruct (log_request_lines io (StdioHandler.set_manager self mgr) text modified) as [Hc _].
  destruct (Inputs.write_ok io), (Inputs.flush_ok io); try done. cbn -[StdioHandler.log_request].
  rewrite omap_app', Hc. split_and!; [|done|done]. by destruct (StdioHandler.pending_queries self !! _).
Qed.

(** What becomes of the monitor's queries in one turn of the loop: those
    completed and with what, those dropped without an answer, and those that
    wait afterwards; and, in a turn that takes a query, the lines written to the
    server *)
Definition fate (io : Inputs.t) (self : StdioHandler.t) (e : StdioHandler.Event) (lines : list string)
    (done : list (nat * TuiQueryCompletion.t)) (dropped : list nat) (pending : gmap string PendingQuery.t) : Prop :=
  match e with
  | StdioHandler.Query job =>
      let id := TuiQueryJob.correlation_id job in
      let line := query_line self job in
      let out := if StdioHandler.written io then text_of line (verdict (pipeline io self Outgoing line)) else None in
      if out is Some text then
        lines = [text] /\ done = [] /\
        dropped = match StdioHandler.pending_queries self !! id with
                  | Some old => [PendingQuery.responder old] | None => [] end /\
        pending = <[id := entry_of io job]> (StdioHandler.pending_queries self)
      else
        lines = [] /\ (exists why, done = [(TuiQueryJob.response_tx job, TuiQueryCompletion.failed why)]) /\
        dropped = [] /\ pending = StdioHandler.pending_queries self
  | StdioHandler.ChildLine line =>
      dropped = [] /\
      match pipeline io self Incoming line with
      | Some (Ok r) =>
          match InterceptionResult.message r with
          | JsonRpcMessage.Response response =>
              let id := RequestId.to_string (JsonRpcResponse.id response) in
              done = match StdioHandler.pending_queries self !! id with
                     | Some q => [(PendingQuery.responder q, completion_of io q response)] | None => [] end /\
              pending = delete id (StdioHandler.pending_queries self)
          | _ => done = [] /\ pending = StdioHandler.pending_queries self
          end
      | _ => done = [] /\ pending = StdioHandler.pending_queries self
      end
  | _ => done = [] /\ dropped = [] /\ pending = StdioHandler.pending_queries self
  end.

Lemma capture_fate io self m effs self' :
  StdioHandler.capture_query_response io self m = (effs, self') ->
  drops effs = [] /\
  match m with
  | JsonRpcMessage.Response response =>
      let id := RequestId.to_string (JsonRpcResponse.id response) in
      completions effs = match StdioHandler.pending_queries self !! id with
             | Some q => [(PendingQuery.responder q, completion_of io q response)] | None => [] end /\
      StdioHandler.pending_queries self' = delete id (StdioHandler.pending_queries self)
  | _ => completions effs = [] /\ StdioHandler.pending_queries self' = StdioHandler.pending_queries self
  end.
Proof.
  unfold StdioHandler.capture_query_response. destruct m as [|response|]; try by intros [= <- <-].
  rewrite capture_tools_pending.
  destruct (StdioHandler.pending_queries self !! _) as [q|] eqn:E; intros [= <- <-]; cbn; [done|].
  by rewrite capture_tools_pending, delete_id.
Qed.

Lemma query_fate io self job effs self' :
  StdioHandler.process_tui_query io self job = (effs, self') ->
  fate io self (StdioHandler.Query job) (omap to_child effs) (completions effs) (drops effs) (StdioHandler.pending_queries self').
Proof.
  unfold fate, query_line, StdioHandler.process_tui_query, StdioHandler.written. cbn zeta. intros E.
  destruct (StdioHandler.query_call self job) as [method params].
  set (line := _ +:+ newline) in *. pose proof (outgoing_verdict io self line) as Hv. cbn zeta in Hv.
  destruct (StdioHandler.process_outgoing io self line) as [[[t modified]|err] s] eqn:Eo;
    apply outgoing_frame in Eo as [mgr ->]; cbn [fst] in Hv.
  2:{ injection E as <- <-. rewrite Hv. destruct (_ && _); by split_and!; [|eexists|..]. }
  rewrite Hv.
  destruct (log_parts io (StdioHandler.set_manager self mgr) LogLevel.Request
    ((if modified then "→ [MODIFIED]" else "→") +:+ " " +:+ trim t)) as [Hc Hd].
  change (StdioHandler.log_entry _ _ _ _)
    with (StdioHandler.log_request io (StdioHandler.set_manager self mgr) t modified) in Hc, Hd.
  destruct (log_request_lines io (StdioHandler.set_manager self mgr) t modified) as [Hl _].
  destruct (Inputs.write_ok io), (Inputs.flush_ok io); injection E as <- <-;
    rewrite completions_app, drops_app, omap_app', Hc, Hd, Hl; cbn; try (by split_and!; [|eexists|..]).
  by destruct (StdioHandler.pending_queries self !! _).
Qed.

Lemma handle_fate io self e effs self' flow :
  StdioHandler.handle io self e = (effs, self', flow) ->
  fate io self e (omap to_child effs) (completions effs) (drops effs) (StdioHandler.pending_queries self').
Proof.
  intros H. destruct e as [|answer|job| |input| | |output| | |msg| | |[] status|err]; cbn [StdioHandler.handle] in H;
    try (injection H as <- <- _; done).
  - injection H as <- <- _. unfold StdioHandler.stats_tick, StdioHandler.emit_session_stats.
    cbn. by repeat case_match.
  - destruct (StdioHandler.process_tui_query io self job) as [es s1] eqn:E.
    injection H as <- <- _. exact (query_fate _ _ _ _ _ E).
  - unfold StdioHandler.user_line in H.
    destruct (StdioHandler.process_outgoing io self input) as [[[line modified]|err] s2] eqn:Eo;
      apply outgoing_frame in Eo as [mgr ->]; [destruct (StdioHandler.written io)|];
      injection H as <- <- _; unfold StdioHandler.log_request;
      rewrite ?completions_app, ?drops_app; edestruct log_parts as [-> ->]; done.
  - unfold StdioHandler.child_line, StdioHandler.process_incoming in H. unfold fate, pipeline.
    destruct (message_from_str _) as [m|]; cbn [option_map];
      [destruct (InterceptorManager.process_message_with_metadata _ _ _ _ _ _) as [[q|er] mgr]; cbn [fst]|].
    2,3: destruct (StdioHandler.written io); injection H as <- <- _; unfold StdioHandler.log_response;
      rewrite ?completions_app, ?drops_app; edestruct log_parts as [-> ->]; done.
    destruct (StdioHandler.capture_query_response _ _ _) as [es s1] eqn:E.
    apply capture_fate in E as [Hd E].
    assert (Hparts : completions effs = completions es /\ drops effs = [] /\
                     StdioHandler.pending_queries self' = StdioHandler.pending_queries s1).
    { destruct (StdioHandler.line_of q) as [[line modified]|]; [destruct (StdioHandler.written io)|];
        injection H as <- <- _; unfold StdioHandler.log_response;
        rewrite ?completions_app, ?drops_app, Hd; edestruct log_parts as [-> ->]; by rewrite ?app_nil_r. }
    destruct Hparts as (-> & -> & ->). split; [done|]. exact E.
  - injection H as <- <- _. unfold StdioHandler.log_error.
    rewrite completions_app, drops_app. by edestruct log_parts as [-> ->].
Qed.

(** The correlation identifiers of the queries among the events *)
Definition queried (e : StdioHandler.Event) : list string :=
  match e with StdioHandler.Query job => [TuiQueryJob.correlation_id job] | _ => [] end.

(** Nothing is dropped in a turn whose query is new, and only it is added. *)
Lemma fate_fresh io self e lines done dropped pending :
  fate io self e lines done dropped pending ->
  (forall id, id ∈ queried e -> StdioHandler.pending_queries self !! id = None) ->
  dropped = [] /\
  (forall id, id ∉ queried e -> StdioHandler.pending_queries self !! id = None -> pending !! id = None).
Proof.
  intros H Hf. destruct e as [|answer|job| |input| | |output| | |msg| | |[] status|err]; cbn in H;
    try (by destruct H as (_ & -> & ->)).
  - destruct (if StdioHandler.written io then _ else _).
    + destruct H as (_ & _ & -> & ->). rewrite Hf by (by left). split; [done|]. intros id Hn Hi.
      rewrite lookup_insert_ne; [done|]. intros <-. apply Hn. by left.
    + by destruct H as (_ & _ & -> & ->).
  - destruct H as (-> & H). split; [done|]. intros id _ Hi. 
    destruct (pipeline io self Incoming output) as [[r|]|]; [|by destruct H as [_ ->]..].
    destruct (InterceptionResult.message r); destruct H as [_ ->]; try done.
    by apply lookup_delete_None; right.
Qed.

Lemma run_drops_nothing self events self' effs flow :
  runs self events self' effs flow -> NoDup (events ≫= queried) ->
  (forall id, id ∈ events ≫= queried -> StdioHandler.pending_queries self !! id = None) ->
  drops effs = [].
Proof.
  induction 1 as [self|self modes self1 effs1 io e effs2 self2 flow Hm Hh
    |self modes self1 effs1 io e effs2 self2 events self3 effs3 flow Hm Hh Hr IH]; [done|..];
    apply routed_quiet in Hm as (_ & Hp & _ & _ & [_ Hs]%quiet_parts); apply handle_fate in Hh;
    cbn; intros Hn Hf; rewrite !drops_app, Hs.
  - rewrite app_nil_r in Hf. eapply fate_fresh in Hh as [-> _]; [done|]. by rewrite Hp.
  - apply NoDup_app in Hn as (_ & Hd & Hn).
    eapply fate_fresh in Hh as [-> Hk]; [|intros id Hi; rewrite Hp; apply Hf, elem_of_app; by left].
    rewrite IH; [done|done|]. intros id Hi. apply Hk; [by intros ?%Hd|].
    rewrite Hp. apply Hf, elem_of_app. by right.
Qed.

(** C17: in each turn of the proxy's loop, a monitor's query that the
    interceptors withhold or that cannot be written is completed with a failure
    at once; any other goes out and waits, alone under its correlation
    identifier, until a response of the server with that identifier has passed
    the interceptors (blocked or not), which completes it with that response; nothing
    else completes a query.  So over any run the responders that were waiting or
    came with a query are exactly those completed, those dropped and those still
    waiting, each as often, and none is dropped when the queries have distinct
    correlation identifiers that were not waiting before. *)
Theorem responders_are_conserved self events self' effs flow :
  runs self events self' effs flow ->
  (forall io s e effs1 s' flow1, StdioHandler.handle io s e = (effs1, s', flow1) ->
   fate io s e (omap to_child effs1) (completions effs1) (drops effs1) (StdioHandler.pending_queries s')) /\
  (events ≫= arriving) ++ waiting self ≡ₚ (completions effs).*1 ++ drops effs ++ waiting self' /\
  (NoDup (events ≫= queried) ->
   (forall id, id ∈ events ≫= queried -> StdioHandler.pending_queries self !! id = None) ->
   drops effs = []).
Proof.
  intros Hr. split_and!.
  - exact handle_fate.
  - rewrite (run_conserves _ _ _ _ _ Hr), settled_parts. by rewrite app_assoc.
  - exact (run_drops_nothing _ _ _ _ _ Hr).
Qed.

(** A monitor's query that the interceptors let through is written to the
    server as one line; and once the server answers with a response to its
    correlation id, also one that the interceptors then block, the query is
    completed with that response and waits no more. *)
Theorem query_is_completed io self job text io' self2 line r response effs self' flow :
  text_of (query_line self job) (verdict (pipeline io self Outgoing (query_line self job))) = Some text ->
  StdioHandler.written io = true ->
  let '(effs1, self1, flow1) := StdioHandler.handle io self (StdioHandler.Query job) in
  omap to_child effs1 = [text] /\
  (StdioHandler.pending_queries self2 !! TuiQueryJob.correlation_id job =
     StdioHandler.pending_queries self1 !! TuiQueryJob.correlation_id job ->
   pipeline io' self2 Incoming line = Some (Ok r) ->
   InterceptionResult.message r = JsonRpcMessage.Response response ->
   RequestId.to_string (JsonRpcResponse.id response) = TuiQueryJob.correlation_id job ->
   StdioHandler.handle io' self2 (StdioHandler.ChildLine line) = (effs, self', flow) ->
   (exists rest, effs =
      StdioHandler.Complete (TuiQueryJob.response_tx job) (completion_of io' (entry_of io job) response)
      :: rest /\ omap to_responder rest = []) /\
   StdioHandler.pending_queries self' =
     delete (TuiQueryJob.correlation_id job) (StdioHandler.pending_queries self2)).
Proof.
  intros Ht Hw. pose proof (query_waits io self job text Ht Hw) as Hq.
  destruct (StdioHandler.handle io self (StdioHandler.Query job)) as [[effs1 self1] flow1].
  destruct Hq as (Hc & _ & Hp). split; [exact Hc|].
  rewrite Hp, lookup_insert_eq. intros Hl Hr Hm Hid. unfold pipeline in Hr.
  cbn [StdioHandler.handle]. unfold StdioHandler.child_line, StdioHandler.process_incoming.
  destruct (message_from_str _) as [m|]; [|done]. cbn [option_map] in Hr. injection Hr as Hr.
  destruct (InterceptorManager.process_message_with_metadata _ _ _ _ _ _) as [a mgr]. cbn [fst] in Hr. subst a.
  rewrite <- Hid in Hl. rewrite Hm.
  pose proof (capture_pending io' (StdioHandler.set_manager self2 mgr) response (entry_of io job) Hl) as [He Hd].
  destruct (StdioHandler.capture_query_response _ _ _) as [es s]. cbn [fst snd] in He, Hd. rewrite He, <- Hid.
  destruct (StdioHandler.line_of r) as [[t modified]|err]; [destruct (StdioHandler.written io')|];
    intros [= <- <- <-]; (split; [|exact Hd]); eexists; (split; [reflexivity|]);
    rewrite ?omap_app', ?app_nil_r; apply log_settles.
Qed.

Lemma capture_tools_source self response :
  StdioHandler.available_tools (StdioHandler.capture_tools self response) <>
    StdioHandler.available_tools self ->
  exists result nested tools,
    JsonRpcResponse.result response = Some result /\
    get result "result" = Some nested /\ get nested "tools" = Some (VArray tools) /\
    StdioHandler.available_tools (StdioHandler.capture_tools self response) =
      Some (TuiQueryCompletion.tool_names tools).
Proof.
  unfold StdioHandler.capture_tools, StdioHandler.update_tools_cache.
  destruct (JsonRpcResponse.result response) as [result|]; [|done].
  destruct (get result "tools"); [|done]. destruct (get result "result") as [nested|] eqn:En; [|done].
  destruct (get nested "tools") as [[| | | |tools|]|] eqn:Et; try done. cbn [TuiQueryCompletion.array_of].
  destruct (TuiQueryCompletion.tool_names tools) as [|n ns] eqn:Es; [done|].
  intros _. exists result, nested, tools. by rewrite Es.
Qed.

Lemma outgoing_tools io self c r self' :
  StdioHandler.process_outgoing io self c = (r, self') ->
  StdioHandler.available_tools self' = StdioHandler.available_tools self.
Proof. intros H. by apply outgoing_frame in H as [m ->]. Qed.

Lemma query_tools io self job :
  StdioHandler.available_tools (StdioHandler.process_tui_query io self job).2 =
  StdioHandler.available_tools self.
Proof.
  unfold StdioHandler.process_tui_query. destruct (StdioHandler.query_call self job) as [method params].
  destruct (StdioHandler.process_outgoing io self _) as [[[t modified]|err] s] eqn:Eo;
    apply outgoing_tools in Eo; [|done].
  by destruct (Inputs.write_ok io), (Inputs.flush_ok io).
Qed.

(** The names of the server's tools are cached only from a response whose
    result has, besides its own [tools], a nested object [result] with [tools];
    the result the protocol defines for [tools/list] has none, and leaves the
    cache as it was. *)
Theorem tools_are_cached_only_nested io self e effs self' flow :
  StdioHandler.handle io self e = (effs, self', flow) ->
  StdioHandler.available_tools self' <> StdioHandler.available_tools self ->
  exists line r response result nested tools,
    e = StdioHandler.ChildLine line /\ pipeline io self Incoming line = Some (Ok r) /\
    InterceptionResult.message r = JsonRpcMessage.Response response /\
    JsonRpcResponse.result response = Some result /\
    get result "result" = Some nested /\ get nested "tools" = Some (VArray tools) /\
    StdioHandler.available_tools self' = Some (TuiQueryCompletion.tool_names tools).
Proof.
  intros H Ht. destruct e as [|answer|job| |input| | |output| | |msg| | |[] status|err]; cbn in H;
    try (injection H as _ <- _; done).
  - pose proof (query_tools io self job) as Hq.
    destruct (StdioHandler.process_tui_query io self job). by injection H as _ <- _.
  - unfold StdioHandler.user_line in H.
    destruct (StdioHandler.process_outgoing io self input) as [[[text modified]|err] s] eqn:Eo;
      apply outgoing_tools in Eo; [destruct (StdioHandler.written io)|]; by injection H as _ <- _.
  - assert (Hs : StdioHandler.available_tools self' =
                 StdioHandler.available_tools (StdioHandler.process_incoming io self output).2).
    { unfold StdioHandler.child_line in H.
      destruct (StdioHandler.process_incoming io self output) as [[[[t modified]|er] es] s];
        [destruct (StdioHandler.written io)|]; by injection H as _ <- _. }
    rewrite Hs in Ht |- *. clear H Hs. unfold pipeline, StdioHandler.process_incoming in *.
    exists output. destruct (message_from_str _) as [m|]; [|done]. cbn [option_map].
    destruct (InterceptorManager.process_message_with_metadata _ _ _ _ _ _) as [[r|er] mgr]; [|done].
    exists r. destruct (InterceptionResult.message r) as [|response|] eqn:Em; try done.
    assert (Hc : forall h, StdioHandler.available_tools
              (StdioHandler.capture_query_response io h (JsonRpcMessage.Response response)).2 =
            StdioHandler.available_tools (StdioHandler.capture_tools h response)).
    { intros h. unfold StdioHandler.capture_query_response. by destruct (_ !! _). }
    specialize (Hc (StdioHandler.set_manager self mgr)).
    destruct (StdioHandler.capture_query_response _ _ _) as [es s]. cbn [fst snd] in *. rewrite Hc in Ht |- *.
    destruct (capture_tools_source (StdioHandler.set_manager self mgr) response Ht)
      as (result & nested & tools & Hn).
    exists response, result, nested, tools. split_and!; try done; apply Hn.
Qed.
End queries.

(** ** Instances of the hypotheses *)

Module DemoStdio.
Import ToyNumbers ToyText DemoWorld DemoLlm.

Definition io : Inputs.t := Inputs.mk 0 1 1000000000 0 "" 0 (Ok tt) (Ok tt).

Definition handler : StdioHandler.t :=
  StdioHandler.with_interceptors "proxy" (ProxyStats.default "proxy") true
    (InterceptorManager.mk [] ManagerStats.default) None false false RoutingMode.Bypass.

Definition job : TuiQueryJob.t := TuiQueryJob.mk "q" "list" (Some "tools/list"%string) None 5.

Definition answer_value : Value (JN := toy_numbers) :=
  VObject [("result"%string, VObject [("tools"%string, VArray [VObject [("name"%string, VString "t")]])]);
           ("tools"%string, VArray [])].

Definition answer : JsonRpcResponse.t := JsonRpcResponse.success (RequestId.String "q") answer_value.

Definition answer_result : InterceptionResult.t :=
  InterceptionResult.pass_through (JsonRpcMessage.Response answer).

Definition answer_line : string := message_to_string (JsonRpcMessage.Response answer) +:+ newline.

Definition after : list StdioHandler.Effect * StdioHandler.t * StdioHandler.Flow :=
  StdioHandler.handle io handler (StdioHandler.Query job).

Definition answered : list StdioHandler.Effect * StdioHandler.t * StdioHandler.Flow :=
  StdioHandler.handle io after.1.2 (StdioHandler.ChildLine answer_line).

#[global] Strategy expand [answered].

Lemma triple_eta {A B C} (x : A * B * C) : x = (x.1.1, x.1.2, x.2).
Proof. by destruct x as [[? ?] ?]. Qed.

Lemma one_run : runs handler [StdioHandler.Query job] after.1.2 ([] ++ after.1.1) after.2.
Proof.
  exact (runs_last handler [] handler [] io (StdioHandler.Query job) _ _ _ (routed_nil _) (triple_eta after)).
Qed.

Definition sent_text : string :=
  match (StdioHandler.process_outgoing io handler (query_line handler job)).1 with
  | Ok (t, _) => t
  | Err _ => ""
  end.

Example answer_passes : pipeline io after.1.2 Incoming answer_line = Some (Ok answer_result).
Proof. vm_cast_no_check (eq_refl (Some (@Ok _ McpError answer_result))). Qed.

Lemma cached_changed :
  StdioHandler.available_tools answered.1.2 <> StdioHandler.available_tools after.1.2.
Proof. vm_compute. discriminate. Qed.
End DemoStdio.

Lemma traffic_is_accounted_witness :
  accounts (StdioHandler.stats DemoStdio.handler) ([] ++ DemoStdio.after.1.1)
    (StdioHandler.stats DemoStdio.after.1.2).
Proof.
  apply (traffic_is_accounted DemoStdio.handler [StdioHandler.Query DemoStdio.job]
           DemoStdio.after.1.2 _ DemoStdio.after.2); [|exact DemoStdio.one_run].
  split_and!; apply (bool_decide_unpack _); vm_compute; exact I.
Defined.

Lemma responders_are_conserved_witness :
  completions DemoStdio.after.1.1 = [] /\ drops ([] ++ DemoStdio.after.1.1) = [] /\
  [5%nat] ++ waiting DemoStdio.handler
  ≡ₚ (completions ([] ++ DemoStdio.after.1.1)).*1 ++ [] ++ waiting DemoStdio.after.1.2.
Proof.
  destruct (responders_are_conserved DemoStdio.handler [StdioHandler.Query DemoStdio.job]
           DemoStdio.after.1.2 _ DemoStdio.after.2 DemoStdio.one_run) as (_ & Hc & Hd).
  assert (H : drops ([] ++ DemoStdio.after.1.1) = []).
  { apply Hd; [apply NoDup_singleton|]. intros id _. reflexivity. }
  rewrite H in Hc. split_and!; [vm_compute; reflexivity|exact H|exact Hc].
Defined.

(** A line that is not JSON-RPC is sent as it is. *)
Lemma client_line_decision_witness :
  exists text,
    let after := StdioHandler.handle DemoStdio.io DemoStdio.handler (StdioHandler.UserLine "batch") in
    sent DemoStdio.io DemoStdio.handler text after.1.1 after.1.2 after.2 /\
    match pipeline DemoStdio.io DemoStdio.handler Outgoing "batch" with
    | None => text = Some "batch"%string
    | Some _ => True
    end.
Proof.
  destruct (client_line_decision DemoStdio.io DemoStdio.handler "batch" _ _ _ (DemoStdio.triple_eta _))
    as (text & Hs & Hm).
  exists text. split; [exact Hs|]. revert Hm.
  destruct (pipeline DemoStdio.io DemoStdio.handler Outgoing "batch"); [intros _; exact I|intros [H _]; exact H].
Defined.

Lemma query_is_completed_witness :
  exists rest,
    DemoStdio.answered.1.1 =
    StdioHandler.Complete 5
      (completion_of DemoStdio.io (entry_of DemoStdio.io DemoStdio.job) DemoStdio.answer) :: rest.
Proof.
  assert (H0 : text_of (query_line DemoStdio.handler DemoStdio.job)
                 (verdict (pipeline DemoStdio.io DemoStdio.handler Outgoing
                             (query_line DemoStdio.handler DemoStdio.job))) = Some DemoStdio.sent_text)
    by (vm_compute; reflexivity).
  assert (H1 : pipeline DemoStdio.io DemoStdio.after.1.2 Incoming DemoStdio.answer_line =
               Some (Ok DemoStdio.answer_result)) by exact DemoStdio.answer_passes.
  pose proof (query_is_completed DemoStdio.io DemoStdio.handler DemoStdio.job DemoStdio.sent_text
    DemoStdio.io DemoStdio.after.1.2 DemoStdio.answer_line DemoStdio.answer_result
    DemoStdio.answer DemoStdio.answered.1.1 DemoStdio.answered.1.2 DemoStdio.answered.2 H0 eq_refl) as H.
  rewrite (DemoStdio.triple_eta (StdioHandler.handle _ DemoStdio.handler _)) in H. cbv beta iota in H.
  destruct (proj2 H eq_refl H1 eq_refl eq_refl (DemoStdio.triple_eta _)) as [[rest [Hr _]] _].
  exists rest. exact Hr.
Defined.

Lemma tools_are_cached_only_nested_witness :
  exists line r response result nested tools,
    StdioHandler.ChildLine DemoStdio.answer_line = StdioHandler.ChildLine line /\
    pipeline DemoStdio.io DemoStdio.after.1.2 Incoming line = Some (Ok r) /\
    InterceptionResult.message r = JsonRpcMessage.Response response /\
    JsonRpcResponse.result response = Some result /\
    get result "result" = Some nested /\ get nested "tools" = Some (VArray tools) /\
    StdioHandler.available_tools DemoStdio.answered.1.2 = Some (TuiQueryCompletion.tool_names tools).
Proof.
  exact (tools_are_cached_only_nested DemoStdio.io DemoStdio.after.1.2
    (StdioHandler.ChildLine DemoStdio.answer_line) DemoStdio.answered.1.1 DemoStdio.answered.1.2
    DemoStdio.answered.2 (DemoStdio.triple_eta DemoStdio.answered) DemoStdio.cached_changed).
Defined.
