(* ===== verification/ParamValidation.v ===== *)
(** Validation of tool parameters against a JSON schema
    ([acdp-core/src/validation.rs]): coercions of single fields, the checks of
    types and required fields, and the hints shown for a schema. *)

From Stdlib Require Import Floats.SpecFloat.
From S2P Require Import Prelude Messages Transform Text.

(** ** Numbers in strings *)

(** The decimal digits at the start: their value, their number, the rest *)
Fixpoint take_digits (acc : Z) (n : nat) (s : string) : Z * nat * string :=
  match s with
  | EmptyString => (acc, n, s)
  | String c r =>
      let d := Z.of_nat (Ascii.nat_of_ascii c) - 48 in
      if (0 <=? d) && (d <=? 9) then take_digits (10 * acc + d) (S n) r else (acc, n, s)
  end.

Definition read_sign (s : string) : bool * string :=
  match s with
  | String c r =>
      if Ascii.eqb c "-" then (true, r) else if Ascii.eqb c "+" then (false, r) else (false, s)
  | EmptyString => (false, s)
  end.

(** [s.parse::<i64>()] *)
Definition parse_i64 (s : string) : option Z :=
  let '(negative, r) := read_sign s in
  match take_digits 0 0 r with
  | (n, S _, EmptyString) =>
      let z := if negative : bool then - n else n in
      if (- 2 ^ 63 <=? z) && (z <? 2 ^ 63) then Some z else None
  | _ => None
  end.

(** The float nearest to [n / d] *)
Definition f64_nearest (negative : bool) (n d : Z) : f64 :=
  if n =? 0 then S754_zero negative
  else let '(m, e, l) := SFdiv_core_binary f64_prec f64_emax n 0 d 0 in
       binary_round_aux f64_prec f64_emax negative m e l.

Definition f64_decimal (negative : bool) (digits exponent : Z) : f64 :=
  if 0 <=? exponent then f64_nearest negative (digits * 10 ^ exponent) 1
  else f64_nearest negative digits (10 ^ (- exponent)).

(** An exponent, or the end *)
Definition read_exponent (s : string) : option Z :=
  match s with
  | EmptyString => Some 0
  | String c r =>
      if Ascii.eqb c "e" || Ascii.eqb c "E" then
        let '(negative, r) := read_sign r in
        match take_digits 0 0 r with
        | (n, S _, EmptyString) => Some (if negative : bool then - n else n)
        | _ => None
        end
      else None
  end.

(** [s.parse::<f64>()] *)
Definition parse_f64 (s : string) : option f64 :=
  let '(negative, r) := read_sign s in
  let lower := to_ascii_lowercase r in
  if String.eqb lower "inf" || String.eqb lower "infinity" then Some (S754_infinity negative)
  else if String.eqb lower "nan" then Some S754_nan
  else
    let '(whole, n, r) := take_digits 0 0 r in
    let '(digits, n, k, r) :=
      match r with
      | String c r' =>
          if Ascii.eqb c "." then
            let '(digits, total, r'') := take_digits whole n r' in (digits, total, (total - n)%nat, r'')
          else (whole, n, 0%nat, r)
      | EmptyString => (whole, n, 0%nat, r)
      end in
    match n with
    | O => None
    | S _ => option_map (fun e => f64_decimal negative digits (e - Z.of_nat k)) (read_exponent r)
    end.

(** [x.fract() == 0.0] *)
Definition f64_integral (x : f64) : bool :=
  match x with
  | S754_zero _ => true
  | S754_finite _ m e => if 0 <=? e then true else Z.pos m mod 2 ^ (- e) =? 0
  | _ => false
  end.

Example parse_f64_examples :
  parse_f64 "1.5e1" = Some (f64_of_Z 15) /\ parse_f64 "-0.25" = Some (f64_ratio (-1) 4) /\
  parse_f64 "-Inf" = Some (S754_infinity true) /\ parse_f64 "." = None /\ parse_f64 "1e" = None /\
  parse_f64 "0.1" = Some (f64_ratio 1 10) /\ parse_f64 "1e400" = Some (S754_infinity false).
Proof. vm_compute. repeat split. Qed.

Example parse_i64_examples :
  parse_i64 "+7" = Some 7 /\ parse_i64 "-9223372036854775808" = Some (- 2 ^ 63) /\
  parse_i64 "9223372036854775808" = None /\ parse_i64 "" = None /\ parse_i64 "-" = None.
Proof. vm_compute. repeat split. Qed.

(** [Display] of a float, and [as_u64] of a number *)
Class FloatText := { f64_display : f64 -> string }.
Class JsonUnsigned `{JN : JsonNumbers} := { num_as_u64 : Num -> option Z }.

(** ** The validator *)

Module ValidationError.
Inductive t : Type :=
| SchemaError (message : string)
| MissingRequired (field : string)
| ValidationFailed (field reason : string)
| TransformationFailed (field reason : string)
| InvalidSchema (message : string).

Definition to_string (self : t) : string :=
  match self with
  | SchemaError m => "Schema compilation failed: " +:+ m
  | MissingRequired f => "Parameter '" +:+ f +:+ "' is required but missing"
  | ValidationFailed f r => "Parameter '" +:+ f +:+ "' validation failed: " +:+ r
  | TransformationFailed f r => "Value transformation failed for '" +:+ f +:+ "': " +:+ r
  | InvalidSchema m => "JSON Schema is invalid: " +:+ m
  end.
End ValidationError.

Module ValidationResult.
Record t `{JN : JsonNumbers} : Type := mk {
  is_valid : bool;
  errors : list ValidationError.t;
  warnings : list string;
  validated_params : Value;
  transformations : list string
}.
End ValidationResult.

Module ParameterHint.
Record t `{JN : JsonNumbers} : Type := mk {
  name : string;
  param_type : string;
  description : option string;
  required : bool;
  default_value : option Value;
  enum_values : option (list Value);
  format : option string;
  pattern : option string;
  min_length : option Z;
  max_length : option Z
}.
End ParameterHint.

Module ParameterValidator.
Section validator.
Context `{JF : JsonFloats, UC : UnicodeCase, FT : FloatText, JU : !JsonUnsigned}.

Record t : Type := mk { auto_transform : bool; strict_mode : bool }.

Definition default : t := mk true false.
Definition new : t := default.
Definition strict : t := mk false true.

Definition properties_of (schema : Value) : option (list (string * Value)) :=
  match get schema "properties" with Some (VObject entries) => Some entries | _ => None end.

Definition text (v : Value) (key : string) : option string := string_of (get v key).

Definition auto_fix_url (url : string) : option string :=
  if str_is_empty url || starts_with "http://" url || starts_with "https://" url then None
  else if starts_with "localhost" url || starts_with "127.0.0.1" url || starts_with "0.0.0.0" url
  then Some ("http://" +:+ url)
  else if str_contains "." url && negb (str_contains " " url) then Some ("https://" +:+ url)
  else None.

Definition arrow : string := " → ".
Definition quote (s : string) : string := "'" +:+ s +:+ "'".

(** Whether a field of type string is taken for a URL *)
Definition names_url (field_name : string) (field_schema : Value) : bool :=
  match text field_schema "description" with
  | Some description =>
      let lower := to_lowercase description in
      str_contains "url" lower || str_contains "uri" lower ||
      str_contains "url" (to_lowercase field_name)
  | None => false
  end.

Definition read_bool (s : string) : option bool :=
  let lower := to_lowercase s in
  if existsb (String.eqb lower) ["true"; "yes"; "1"; "on"]%string then Some true
  else if existsb (String.eqb lower) ["false"; "no"; "0"; "off"]%string then Some false
  else None.

Definition bool_text (b : bool) : string := if b then "true" else "false".

(** The new value with what was done, or a panic: a float that is no number of
    JSON is unwrapped. *)
Definition transform_field_value (field_name : string) (field_schema v : Value)
  : option (Value * list string) :=
  match text field_schema "type", v with
  | Some type, VString s =>
      if String.eqb type "string" then
        match (if names_url field_name field_schema then auto_fix_url s else None) with
        | Some fixed =>
            Some (VString fixed,
                  ["Auto-prefixed URL in " +:+ quote field_name +:+ ": " +:+ quote s +:+ arrow +:+ quote fixed])
        | None => Some (v, [])
        end
      else if String.eqb type "number" then
        match parse_f64 s with
        | Some x =>
            option_map (fun n => (VNumber n,
              ["Converted string to number in " +:+ quote field_name +:+ ": " +:+ quote s +:+ arrow +:+
               f64_display x])) (num_from_f64 x)
        | None => Some (v, [])
        end
      else if String.eqb type "integer" then
        match parse_i64 s with
        | Some z =>
            Some (VNumber (num_from_i64 z),
                  ["Converted string to integer in " +:+ quote field_name +:+ ": " +:+ quote s +:+ arrow +:+
                   pretty z])
        | None => Some (v, [])
        end
      else if String.eqb type "boolean" then
        match read_bool s with
        | Some b =>
            Some (VBool b,
                  ["Converted string to boolean in " +:+ quote field_name +:+ ": " +:+ quote s +:+ arrow +:+
                   bool_text b])
        | None => Some (v, [])
        end
      else Some (v, [])
  | _, _ => Some (v, [])
  end.

(** The loop over the properties, on the map of parameters *)
Fixpoint transform_fields (properties params : list (string * Value))
  : option (list (string * Value) * list string) :=
  match properties with
  | [] => Some (params, [])
  | (field_name, field_schema) :: properties =>
      match field params field_name with
      | Some v =>
          match transform_field_value field_name field_schema v with
          | Some (v, done) =>
              option_map (fun '(params, more) => (params, done ++ more))
                (transform_fields properties (insert_entry params field_name v))
          | None => None
          end
      | None => transform_fields properties params
      end
  end.

Definition apply_transformations (schema params : Value) : option (Value * list string) :=
  match properties_of schema, params with
  | Some properties, VObject entries =>
      option_map (fun '(entries, done) => (VObject entries, done)) (transform_fields properties entries)
  | _, _ => Some (params, [])
  end.

Definition is_object (v : Value) : bool := match v with VObject _ => true | _ => false end.

Definition validate_schema_syntax (schema : Value) : Res unit ValidationError.t :=
  if is_object schema then Ok tt
  else Err (ValidationError.InvalidSchema "Schema must be a JSON object").

Definition has_type (expected : string) (v : Value) : bool :=
  if String.eqb expected "string" then match v with VString _ => true | _ => false end
  else if String.eqb expected "number" then match v with VNumber _ => true | _ => false end
  else if String.eqb expected "integer" then
    match v with VNumber n => f64_integral (num_as_f64 n) | _ => false end
  else if String.eqb expected "boolean" then match v with VBool _ => true | _ => false end
  else if String.eqb expected "array" then match v with VArray _ => true | _ => false end
  else if String.eqb expected "object" then is_object v
  else true.

Definition type_name (v : Value) : string :=
  match v with
  | VString _ => "string" | VNumber _ => "number" | VBool _ => "boolean"
  | VArray _ => "array" | VObject _ => "object" | VNull => "null"
  end.

Fixpoint check_types (properties params : list (string * Value)) : Res unit ValidationError.t :=
  match properties with
  | [] => Ok tt
  | (field_name, field_schema) :: properties =>
      match field params field_name, text field_schema "type" with
      | Some v, Some expected =>
          if has_type expected v then check_types properties params
          else Err (ValidationError.ValidationFailed field_name
                 ("Expected type " +:+ quote expected +:+ " but got " +:+ quote (type_name v)))
      | _, _ => check_types properties params
      end
  end.

Definition validate_against_schema (schema params : Value) : Res unit ValidationError.t :=
  match properties_of schema, params with
  | Some properties, VObject entries => check_types properties entries
  | _, _ => Ok tt
  end.

Fixpoint check_required (required : list Value) (params : list (string * Value))
  : Res unit ValidationError.t :=
  match required with
  | [] => Ok tt
  | VString name :: required =>
      match field params name with
      | Some _ => check_required required params
      | None => Err (ValidationError.MissingRequired name)
      end
  | _ :: required => check_required required params
  end.

Definition required_of (schema : Value) : option (list Value) :=
  match get schema "required" with Some (VArray items) => Some items | _ => None end.

Definition check_required_fields (schema params : Value) : Res unit ValidationError.t :=
  match required_of schema, params with
  | Some required, VObject entries => check_required required entries
  | _, _ => Ok tt
  end.

Definition errors_of (r : Res unit ValidationError.t) : list ValidationError.t :=
  match r with Ok _ => [] | Err e => [e] end.

(** [validate], which may panic *)
Definition validate (self : t) (schema params : Value) : option ValidationResult.t :=
  match validate_schema_syntax schema with
  | Err e => Some (ValidationResult.mk _ false [e] [] params [])
  | Ok _ =>
      option_map (fun '(params, transformations) =>
        let errors := errors_of (validate_against_schema schema params) ++
                      errors_of (check_required_fields schema params) in
        ValidationResult.mk _ (match errors with [] => true | _ => false end) errors [] params transformations)
      (if auto_transform self then apply_transformations schema params else Some (params, []))
  end.

Definition is_valid (self : t) (schema params : Value) : option bool :=
  option_map (fun r => ValidationResult.is_valid r) (validate self schema params).

Definition u64_of (v : option Value) : option Z :=
  match v with
  | Some (VNumber n) => num_as_u64 n
  | _ => None
  end.

Definition array_of (v : option Value) : option (list Value) :=
  match v with Some (VArray items) => Some items | _ => None end.

Definition hint (required_fields : list string) (field_name : string) (field_schema : Value)
  : ParameterHint.t :=
  ParameterHint.mk _ field_name
    (from_option id "string"%string (text field_schema "type"))
    (text field_schema "description")
    (existsb (String.eqb field_name) required_fields)
    (get field_schema "default")
    (array_of (get field_schema "enum"))
    (text field_schema "format")
    (text field_schema "pattern")
    (u64_of (get field_schema "minLength"))
    (u64_of (get field_schema "maxLength")).

Definition extract_parameter_hints (schema : Value) : gmap string ParameterHint.t :=
  match properties_of schema with
  | Some properties =>
      let required_fields :=
        match required_of schema with
        | Some items => omap (fun v => string_of (Some v)) items
        | None => []
        end in
      List.fold_left (fun hints '(name, s) => <[name := hint required_fields name s]> hints) properties ∅
  | None => ∅
  end.

Definition validate_parameters (schema params : Value) : option ValidationResult.t := validate new schema params.
Definition validate_parameters_strict (schema params : Value) : option ValidationResult.t :=
  validate strict schema params.
End validator.
End ParameterValidator.

(** ** What validation does *)

Section theorems.
Context `{JF : JsonFloats, UC : UnicodeCase, FT : FloatText}.
Import ParameterValidator.

Definition keys (entries : list (string * Value)) : list string := List.map fst entries.

(** A value that a number is read from, but none that JSON has *)
Definition explodes (field_schema v : Value) : Prop :=
  text field_schema "type" = Some "number"%string /\
  exists s x, v = VString s /\ parse_f64 s = Some x /\ is_finite x = false.

Lemma transform_panics {FL : JsonFloatLaws JF} name field_schema v :
  transform_field_value name field_schema v = None <-> explodes field_schema v.
Proof.
  unfold transform_field_value, explodes. destruct (text field_schema "type") as [type|].
  2: { split; [done|]. by intros [? _]. }
  destruct v as [| | |s| |]; try (split; [done|]; intros (_ & s' & x & ? & _); done).
  destruct (String.eqb_spec type "string") as [->|_];
    [split; [by repeat case_match|by intros [[=] _]]|].
  destruct (String.eqb_spec type "number") as [->|Hn].
  - destruct (parse_f64 s) as [x|] eqn:Ex.
    + pose proof (num_from_f64_finite x) as Hx. destruct (num_from_f64 x); cbn; split.
      * done.
      * intros (_ & s' & x' & [= <-] & Ex' & Hf). rewrite Ex in Ex'. injection Ex' as <-.
        by apply Hx in Hf.
      * intros _. split; [done|]. exists s, x. split_and!; [done|done|by apply Hx].
      * done.
    + split; [done|]. intros (_ & s' & x & [= <-] & Ex' & _). congruence.
  - split; [by repeat case_match|]. intros [[= ?] _]. done.
Qed.

Lemma starts_with_app p s : starts_with p (p +:+ s) = true.
Proof.
  unfold starts_with. induction p as [|c p IH]; [by destruct s|].
  change (String c p +:+ s) with (String c (p +:+ s)). cbn [String.prefix].
  by destruct (Ascii.ascii_dec c c).
Qed.

Lemma fixed_url_stays url fixed : auto_fix_url url = Some fixed -> auto_fix_url fixed = None.
Proof.
  unfold auto_fix_url. intros H. assert (Hs : starts_with "http://" fixed || starts_with "https://" fixed = true).
  { repeat case_match; try done; injection H as <-; apply orb_true_iff; [left|right]; apply starts_with_app. }
  apply orb_true_iff in Hs. by destruct (str_is_empty fixed), Hs as [-> | ->], (starts_with "http://" fixed).
Qed.

(** A transformed value is transformed no further. *)
Lemma transform_again name field_schema v v' ts :
  transform_field_value name field_schema v = Some (v', ts) ->
  transform_field_value name field_schema v' = Some (v', []).
Proof.
  intros H. destruct v as [| | |s| |];
    try (unfold transform_field_value in *; destruct (text field_schema "type"); by injection H as <- _).
  destruct (text field_schema "type") as [type|] eqn:Et.
  2: { unfold transform_field_value in *. rewrite Et in *. by injection H as <- _. }
  assert (Hn : forall v, match v with VString _ => False | _ => True end ->
             transform_field_value name field_schema v = Some (v, [])).
  { intros w Hw. unfold transform_field_value. rewrite Et. by destruct w. }
  unfold transform_field_value in H. rewrite Et in H.
  destruct (String.eqb type "string") eqn:E1.
  { destruct (if names_url name field_schema then auto_fix_url s else None) as [fixed|] eqn:Eu;
      injection H as <- _; unfold transform_field_value; rewrite Et, E1; [|by rewrite Eu].
    destruct (names_url name field_schema); [|done]. by rewrite (fixed_url_stays _ _ Eu). }
  destruct (String.eqb type "number") eqn:E2.
  { destruct (parse_f64 s) as [x|] eqn:Ex.
    - destruct (num_from_f64 x); [|done]. injection H as <- _. by apply Hn.
    - injection H as <- _. unfold transform_field_value. by rewrite Et, E1, E2, Ex. }
  destruct (String.eqb type "integer") eqn:E3.
  { destruct (parse_i64 s) as [z|] eqn:Ez; injection H as <- _; [by apply Hn|].
    unfold transform_field_value. by rewrite Et, E1, E2, E3, Ez. }
  destruct (String.eqb type "boolean") eqn:E4.
  { destruct (read_bool s) as [b|] eqn:Eb; injection H as <- _; [by apply Hn|].
    unfold transform_field_value. by rewrite Et, E1, E2, E3, E4, Eb. }
  injection H as <- _. unfold transform_field_value. by rewrite Et, E1, E2, E3, E4.
Qed.

(** The loop changes each field once, by its own property. *)
Lemma transform_fields_other properties : forall params params' ts name,
  transform_fields properties params = Some (params', ts) -> name ∉ keys properties ->
  field params' name = field params name.
Proof.
  induction properties as [|[k s] properties IH]; intros params params' ts name H Hn;
    [by injection H as <- _|].
  cbn in Hn. apply not_elem_of_cons in Hn as [Hk Hn]. cbn in H.
  destruct (field params k) as [v|]; [|by eapply IH].
  destruct (transform_field_value k s v) as [[v' d]|]; [|done].
  destruct (transform_fields properties (insert_entry params k v')) as [[p' m]|] eqn:E; [|done].
  injection H as <- _. rewrite (IH _ _ _ _ E Hn). by apply field_insert_entry_ne.
Qed.

(** [params] has in each field what the transformation of the field's value gives *)
Lemma transform_fields_field properties : forall params params' ts name s,
  transform_fields properties params = Some (params', ts) -> NoDup (keys properties) ->
  (name, s) ∈ properties ->
  match field params name with
  | Some v => exists v' d, transform_field_value name s v = Some (v', d) /\ field params' name = Some v'
  | None => field params' name = None
  end.
Proof.
  induction properties as [|[k s'] properties IH]; intros params params' ts name s H Hd Hin;
    [by apply elem_of_nil in Hin|].
  cbn in Hd. apply NoDup_cons in Hd as [Hk Hd]. cbn in H.
  apply elem_of_cons in Hin as [[= <- <-]|Hin].
  - destruct (field params name) as [v|] eqn:Ef.
    + destruct (transform_field_value name s v) as [[v' d]|]; [|done].
      destruct (transform_fields properties (insert_entry params name v')) as [[p' m]|] eqn:E; [|done].
      injection H as <- _. exists v', d. split; [done|].
      rewrite (transform_fields_other _ _ _ _ _ E Hk). apply field_insert_entry.
    + by rewrite (transform_fields_other _ _ _ _ _ H Hk).
  - assert (Hne : k <> name).
    { intros ->. apply Hk. apply list_elem_of_fmap. by exists (name, s). }
    destruct (field params k) as [v|]; [|by apply IH with (1 := H)].
    destruct (transform_field_value k s' v) as [[v' d]|]; [|done].
    destruct (transform_fields properties (insert_entry params k v')) as [[p' m]|] eqn:E; [|done].
    injection H as <- _. pose proof (IH _ _ _ _ _ E Hd Hin) as H.
    by rewrite field_insert_entry_ne in H.
Qed.

Lemma insert_entry_id (params : list (string * Value)) name v :
  field params name = Some v -> insert_entry params name v = params.
Proof.
  induction params as [|[k w] params IH]; [done|]. cbn.
  destruct (String.eqb_spec k name) as [->|]; [by intros [= ->]|]. intros H. by rewrite IH.
Qed.

(** Nothing is left to do when every field is a fixed point. *)
Lemma transform_fields_fixed properties params :
  (forall name s v, (name, s) ∈ properties -> field params name = Some v ->
     transform_field_value name s v = Some (v, [])) ->
  transform_fields properties params = Some (params, []).
Proof.
  induction properties as [|[k s] properties IH]; [done|]. intros H. cbn.
  destruct (field params k) as [v|] eqn:Ef.
  - rewrite (H k s v) by (try apply list_elem_of_here; done). rewrite insert_entry_id by done.
    rewrite IH; [done|]. intros. apply H; [by apply list_elem_of_further|done].
  - apply IH. intros. apply H; [by apply list_elem_of_further|done].
Qed.

Lemma transform_fields_again properties params params' ts :
  NoDup (keys properties) ->
  transform_fields properties params = Some (params', ts) ->
  transform_fields properties params' = Some (params', []).
Proof.
  intros Hd H. apply transform_fields_fixed. intros name s v Hin Hf.
  pose proof (transform_fields_field _ _ _ _ _ _ H Hd Hin) as Hs.
  destruct (field params name) as [w|]; [|congruence].
  destruct Hs as (v' & d & Ht & Hv'). rewrite Hf in Hv'. injection Hv' as ->.
  by eapply transform_again.
Qed.

Lemma transform_fields_panics {FL : JsonFloatLaws JF} properties : forall params,
  NoDup (keys properties) ->
  transform_fields properties params = None <->
  exists name s v, (name, s) ∈ properties /\ field params name = Some v /\ explodes s v.
Proof.
  induction properties as [|[k s] properties IH]; intros params Hd.
  { split; [done|]. intros (? & ? & ? & H & _). by apply elem_of_nil in H. }
  cbn in Hd. apply NoDup_cons in Hd as [Hk Hd]. cbn.
  assert (Hrest : forall params', (forall name, name <> k -> field params' name = field params name) ->
    (exists name s v, (name, s) ∈ properties /\ field params' name = Some v /\ explodes s v) <->
    (exists name s v, (name, s) ∈ properties /\ field params name = Some v /\ explodes s v)).
  { intros params' Hp. assert (forall name s, (name, s) ∈ properties -> field params' name = field params name).
    { intros name s' Hin. apply Hp. intros ->. apply Hk. apply list_elem_of_fmap. by exists (k, s'). }
    split; intros (name & s' & v & Hin & Hf & He); exists name, s', v; (split; [done|]); (split; [|done]);
      [rewrite <- (H name s')|rewrite (H name s')]; done. }
  assert (Hcons : (exists name s' v, (name, s') ∈ (k, s) :: properties /\ field params name = Some v /\ explodes s' v) <->
    (exists v, field params k = Some v /\ explodes s v) \/
    (exists name s v, (name, s) ∈ properties /\ field params name = Some v /\ explodes s v)).
  { split.
    - intros (name & s' & v & Hin & Hf & He). apply elem_of_cons in Hin as [[= -> ->]|Hin]; [left|right]; eauto 6.
    - intros [(v & Hf & He)|(name & s' & v & Hin & Hf & He)]; [exists k, s, v|exists name, s', v];
        (split; [|done]); [apply list_elem_of_here|by apply list_elem_of_further]. }
  rewrite Hcons. destruct (field params k) as [v|] eqn:Ef.
  - pose proof (transform_panics k s v) as Ht. destruct (transform_field_value k s v) as [[v' d]|].
    + rewrite <- (Hrest (insert_entry params k v')) by (intros; by apply field_insert_entry_ne).
      rewrite <- IH by done. destruct (transform_fields properties (insert_entry params k v')) as [[p' m]|]; cbn.
      * split; [done|]. intros [(w & [= <-] & He)|He]; [|done]. by apply Ht in He.
      * split; [by right|done].
    + split; [|done]. intros _. left. exists v. split; [done|]. by apply Ht.
  - rewrite IH by done. split; [by right|]. intros [(w & [=] & _)|H]; exact H.
Qed.

(** What a schema asks of parameters that are an object *)
Definition conforms (schema params : Value) : Prop :=
  match params with
  | VObject entries =>
      (forall properties name s v expected,
         properties_of schema = Some properties -> (name, s) ∈ properties ->
         field entries name = Some v -> text s "type" = Some expected -> has_type expected v = true) /\
      (forall required name, required_of schema = Some required -> VString name ∈ required ->
         field entries name <> None)
  | _ => True
  end.

Lemma check_types_spec properties params :
  errors_of (check_types properties params) = [] <->
  (forall name s v expected, (name, s) ∈ properties -> field params name = Some v ->
     text s "type" = Some expected -> has_type expected v = true).
Proof.
  induction properties as [|[k s] properties IH]; cbn.
  { split; [|done]. intros _ ? ? ? ? H. by apply elem_of_nil in H. }
  assert (Hcons : forall P : Prop,
    (P <-> forall v expected, field params k = Some v -> text s "type" = Some expected -> has_type expected v = true) ->
    P /\ errors_of (check_types properties params) = [] <->
    (forall name s' v expected, (name, s') ∈ (k, s) :: properties -> field params name = Some v ->
       text s' "type" = Some expected -> has_type expected v = true)).
  { intros P HP. rewrite IH, HP. split.
    - intros [H1 H2] name s' v expected Hin. apply elem_of_cons in Hin as [[= -> ->]|Hin]; [apply H1|by eapply H2].
    - intros H. split; [intros v expected; apply (H k s); apply list_elem_of_here|].
      intros name s' v expected Hin. by apply H, list_elem_of_further. }
  destruct (field params k) as [v|].
  2: { rewrite <- (Hcons True); [tauto|]. by split. }
  destruct (text s "type") as [expected|].
  2: { rewrite <- (Hcons True); [tauto|]. by split. }
  destruct (has_type expected v) eqn:Eh.
  - rewrite <- (Hcons True); [tauto|]. split; [|done]. by intros _ ? ? [= <-] [= <-].
  - rewrite <- (Hcons False); [by split; [|intros [[] _]]|]. split; [done|].
    intros H. specialize (H v expected eq_refl eq_refl). congruence.
Qed.

Lemma check_required_spec required params :
  errors_of (check_required required params) = [] <->
  (forall name, VString name ∈ required -> field params name <> None).
Proof.
  induction required as [|v required IH]; cbn.
  { split; [|done]. intros _ ? H. by apply elem_of_nil in H. }
  assert (Hskip : (forall name, v <> VString name) ->
    (forall name, VString name ∈ required -> field params name <> None) <->
    (forall name, VString name ∈ v :: required -> field params name <> None)).
  { intros Hv. split; intros H name Hin; apply H; [|by apply list_elem_of_further].
    apply elem_of_cons in Hin as [Hn|Hin]; [|done]. by destruct (Hv name). }
  destruct v as [| | |name| |]; try (rewrite IH; by apply Hskip).
  destruct (field params name) as [w|] eqn:Ef; cbn.
  - rewrite IH. split; intros H n Hin; [|by apply H, list_elem_of_further].
    apply elem_of_cons in Hin as [[= ->]|Hin]; [congruence|by apply H].
  - split; [done|]. intros H. by destruct (H name (list_elem_of_here _ _)).
Qed.

Lemma checks_conform schema params :
  errors_of (validate_against_schema schema params) ++
    errors_of (check_required_fields schema params) = [] <-> conforms schema params.
Proof.
  unfold validate_against_schema, check_required_fields, conforms.
  assert (Happ : forall a b : list ValidationError.t, a ++ b = [] <-> a = [] /\ b = [])
    by (intros a b; split; [apply app_eq_nil|intros [-> ->]; done]).
  rewrite Happ. destruct params as [| | | | |entries];
    try (destruct (properties_of schema), (required_of schema); by split).
  assert (Hp : errors_of (match properties_of schema with
                          | Some properties => check_types properties entries | None => Ok tt end) = [] <->
    forall properties name s v expected, properties_of schema = Some properties -> (name, s) ∈ properties ->
      field entries name = Some v -> text s "type" = Some expected -> has_type expected v = true).
  { destruct (properties_of schema) as [properties|]; [rewrite check_types_spec|by split; intros].
    split; [intros H p n s v e [= <-]; apply H|intros H n s v e; by apply (H properties)]. }
  rewrite Hp. f_equiv. destruct (required_of schema) as [required|]; [rewrite check_required_spec|by split; intros].
  split; [intros H r n [= <-]; apply H|intros H n; by apply (H required)].
Qed.

Lemma match_nil {A} (l : list A) : match l with [] => true | _ => false end = true <-> l = [].
Proof. by destruct l. Qed.

(** C35: validation accepts exactly the parameters that conform after the
    coercions: the schema is an object, and if the parameters are one, every
    field a type is given for has it and no required field is missing.
    Parameters that are no object are accepted whatever is required.  The
    coerced parameters are stable: validating them again changes nothing and
    gives the same verdict and errors. *)
Theorem validation_decides self schema params r :
  (forall properties, properties_of schema = Some properties -> NoDup (keys properties)) ->
  validate self schema params = Some r ->
  let p := ValidationResult.validated_params r in
  (ValidationResult.is_valid r = true <-> is_object schema = true /\ conforms schema p) /\
  (auto_transform self = false -> p = params /\ ValidationResult.transformations r = []) /\
  validate self schema p =
    Some (ValidationResult.mk _ (ValidationResult.is_valid r) (ValidationResult.errors r) [] p []).
Proof.
  intros Hd. unfold validate, validate_schema_syntax. destruct (is_object schema) eqn:Eo.
  2: { intros [= <-]. cbn. by split_and!; [split; [|intros []]|..]. }
  assert (Hagain : forall p ts, apply_transformations schema params = Some (p, ts) ->
            apply_transformations schema p = Some (p, [])).
  { unfold apply_transformations. intros p ts. destruct (properties_of schema) as [properties|] eqn:Ep;
      [|by intros [= <- _]].
    destruct params as [| | | | |entries]; try by intros [= <- _].
    destruct (transform_fields properties entries) as [[es d]|] eqn:E; [|done].
    intros [= <- _]. by rewrite (transform_fields_again _ _ _ _ (Hd _ eq_refl) E). }
  destruct (auto_transform self) eqn:Ea.
  - destruct (apply_transformations schema params) as [[p ts]|] eqn:E; [|done].
    cbn. intros [= <-]. cbn. rewrite (Hagain _ _ eq_refl). cbn.
    split_and!; [|done|done]. by rewrite match_nil, checks_conform; split; [|intros [_ H]].
  - cbn. intros [= <-]. cbn. split_and!; [|done|done].
    by rewrite match_nil, checks_conform; split; [|intros [_ H]].
Qed.

(** Validation panics, and only then, when some field of type number holds
    a string that reads as an infinity or a NaN, such as [inf] or [1e400]: the
    float is unwrapped into a JSON number, which it is not.  Without coercions
    it never panics. *)
Theorem validator_panics {FL : JsonFloatLaws JF} self schema properties entries :
  is_object schema = true -> properties_of schema = Some properties -> NoDup (keys properties) ->
  validate self schema (VObject entries) = None <->
  auto_transform self = true /\
  exists name s v, (name, s) ∈ properties /\ field entries name = Some v /\ explodes s v.
Proof.
  intros Ho Hp Hd. unfold validate, validate_schema_syntax, apply_transformations. rewrite Ho, Hp.
  destruct (auto_transform self); [|by split; [|intros [? _]]].
  rewrite <- transform_fields_panics by done.
  destruct (transform_fields properties entries) as [[p ts]|]; cbn; [by split; [|intros [_ ?]]|by split].
Qed.
End theorems.

(** ** A concrete schema *)

Module DemoParams.
Import ToyNumbers ToyText ParameterValidator.

#[global] Instance demo_float_text : FloatText := {| f64_display _ := ""%string |}.

Definition properties : list (string * Value (JN := toy_numbers)) :=
  [("count"%string, VObject [("type"%string, VString "integer")]);
   ("link"%string, VObject [("description"%string, VString "the url"); ("type"%string, VString "string")]);
   ("ratio"%string, VObject [("type"%string, VString "number")])].

Definition schema : Value (JN := toy_numbers) :=
  VObject [("properties"%string, VObject properties); ("required"%string, VArray [VString "count"])].

Definition params : Value (JN := toy_numbers) :=
  VObject [("count"%string, VString "3"); ("link"%string, VString "example.org")].

Definition coerced : Value (JN := toy_numbers) :=
  VObject [("count"%string, VNumber (3 : @Num toy_numbers)); ("link"%string, VString "https://example.org")].

Definition outcome : option (bool * Value) :=
  option_map (fun r => (ValidationResult.is_valid r, ValidationResult.validated_params r))
    (validate new schema params).

Example outcome_coerced : outcome = Some (true, coerced).
Proof. vm_cast_no_check (eq_refl (Some (true, coerced))). Qed.

Lemma distinct : NoDup (keys properties).
Proof. apply (bool_decide_unpack _). vm_compute. exact I. Qed.

Lemma distinct_in (ps : list (string * Value)) : properties_of schema = Some ps -> NoDup (keys ps).
Proof. intros [= <-]. exact distinct. Qed.

Definition infinite : list (string * Value (JN := toy_numbers)) := [("ratio"%string, VString "inf")].
End DemoParams.

Lemma validation_decides_witness :
  exists r, ParameterValidator.validate ParameterValidator.new DemoParams.schema DemoParams.params = Some r /\
    ParameterValidator.validate ParameterValidator.new DemoParams.schema (ValidationResult.validated_params r) =
    Some (ValidationResult.mk _ (ValidationResult.is_valid r) (ValidationResult.errors r) []
            (ValidationResult.validated_params r) []).
Proof.
  destruct (ParameterValidator.validate ParameterValidator.new DemoParams.schema DemoParams.params)
    as [r|] eqn:E.
  - exists r. split; [reflexivity|].
    exact (proj2 (proj2 (validation_decides ParameterValidator.new DemoParams.schema DemoParams.params r
                           DemoParams.distinct_in E))).
  - exfalso. assert (H : DemoParams.outcome = None) by (unfold DemoParams.outcome; rewrite E; reflexivity).
    rewrite DemoParams.outcome_coerced in H. discriminate H.
Defined.

Lemma validator_panics_witness :
  ParameterValidator.validate ParameterValidator.new DemoParams.schema (VObject DemoParams.infinite) = None.
Proof.
  apply (validator_panics ParameterValidator.new DemoParams.schema DemoParams.properties DemoParams.infinite
           eq_refl eq_refl DemoParams.distinct).
  split; [reflexivity|].
  exists "ratio"%string, (VObject [("type"%string, VString "number")]), (VString "inf").
  split; [|split; [reflexivity|]].
  - right. right. left.
  - split; [reflexivity|]. exists "inf"%string, (S754_infinity false). repeat split.
Defined.
