(* ===== verification/CoreTransport.v ===== *)
(** The transports' shared parts ([acdp-core/src/transport/mod.rs],
    [config.rs], [factory.rs]): information counters, configurations with
    their validation, and the factory with its base64 encoder. *)

From S2P Require Import Prelude McpError Messages Transform Text.

(** ** Base64

    [base64_encode] of the factory; [base64_decode] is RFC 4648's reading of
    it, used by the statements only. *)

Definition CHARSET : string := "ABCDEFGHIJKLMNOPQRSTUVWXYZabcdefghijklmnopqrstuvwxyz0123456789+/".

Definition sextet (n : Z) : string :=
  match String.get (Z.to_nat n) CHARSET with Some c => String c EmptyString | None => EmptyString end.

(** [u32] of three bytes, the last ones 0 where the input has ended *)
Definition combined (byte1 byte2 byte3 : Z) : Z :=
  Z.lor (Z.lor (Z.shiftl byte1 16) (Z.shiftl byte2 8)) byte3.

Definition byte_or_zero (b : option Byte.byte) : Z :=
  match b with Some b => Z_of_byte b | None => 0 end.

(** The four characters of one turn of the loop *)
Definition quartet (byte1 : Byte.byte) (byte2 byte3 : option Byte.byte) : string :=
  let combined := combined (Z_of_byte byte1) (byte_or_zero byte2) (byte_or_zero byte3) in
  sextet (Z.land (Z.shiftr combined 18) 63) +:+
  sextet (Z.land (Z.shiftr combined 12) 63) +:+
  (match byte2 with Some _ => sextet (Z.land (Z.shiftr combined 6) 63) | None => "=" end) +:+
  (match byte3 with Some _ => sextet (Z.land combined 63) | None => "=" end).

Fixpoint base64_encode (input : bytes) : string :=
  match input with
  | [] => EmptyString
  | [a] => quartet a None None
  | [a; b] => quartet a (Some b) None
  | a :: b :: c :: input => quartet a (Some b) (Some c) +:+ base64_encode input
  end.

(** The value of a character *)
Definition value_of (c : Ascii.ascii) : option Z :=
  let n := Z.of_nat (Ascii.nat_of_ascii c) in
  if (65 <=? n) && (n <=? 90) then Some (n - 65)
  else if (97 <=? n) && (n <=? 122) then Some (n - 71)
  else if (48 <=? n) && (n <=? 57) then Some (n + 4)
  else if n =? 43 then Some 62
  else if n =? 47 then Some 63
  else None.

Fixpoint base64_decode (s : string) : option bytes :=
  match s with
  | EmptyString => Some []
  | String a (String b (String c (String d rest))) =>
      match value_of a, value_of b, value_of c, value_of d with
      | Some w, Some x, Some y, Some z =>
          option_map (fun more => [byte_of_Z (w * 4 + x / 16); byte_of_Z (x mod 16 * 16 + y / 4);
                                   byte_of_Z (y mod 4 * 64 + z)] ++ more) (base64_decode rest)
      | Some w, Some x, Some y, None =>
          if Ascii.eqb d "=" && str_is_empty rest
          then Some [byte_of_Z (w * 4 + x / 16); byte_of_Z (x mod 16 * 16 + y / 4)] else None
      | Some w, Some x, None, None =>
          if Ascii.eqb c "=" && Ascii.eqb d "=" && str_is_empty rest
          then Some [byte_of_Z (w * 4 + x / 16)] else None
      | _, _, _, _ => None
      end
  | _ => None
  end.

Example base64_examples :
  base64_encode (as_bytes "Man") = "TWFu"%string /\ base64_encode (as_bytes "Ma") = "TWE="%string /\
  base64_encode (as_bytes "M") = "TQ=="%string /\
  base64_decode "TWE=" = Some (as_bytes "Ma") /\ base64_decode "TW=E" = None.
Proof. vm_compute. repeat split. Qed.

Lemma lor_shiftl a b n : 0 <= n -> 0 <= b < 2 ^ n -> Z.lor (Z.shiftl a n) b = a * 2 ^ n + b.
Proof.
  intros Hn Hb. rewrite <- Z.shiftl_mul_pow2, <- Z.add_lor_land by done.
  assert (H : Z.land (Z.shiftl a n) b = 0); [|lia].
  apply Z.bits_inj'. intros i Hi. rewrite Z.land_spec, Z.bits_0.
  destruct (Z.lt_ge_cases i n).
  - by rewrite Z.shiftl_spec_low.
  - assert (Hbi : Z.testbit b i = false); [|by rewrite Hbi, andb_false_r].
    destruct (Z.eq_dec b 0) as [->|]; [apply Z.bits_0|].
    apply Z.bits_above_log2; [lia|]. apply Z.log2_lt_pow2; [lia|].
    eapply Z.lt_le_trans; [apply Hb|]. apply Z.pow_le_mono_r; lia.
Qed.

Lemma Z_of_byte_range b : 0 <= Z_of_byte b < 256.
Proof. destruct b; vm_compute; split; discriminate || reflexivity. Qed.

Lemma byte_or_zero_range b : 0 <= byte_or_zero b < 256.
Proof. destruct b; [apply Z_of_byte_range|done]. Qed.

Lemma combined_value a b c :
  0 <= b < 256 -> 0 <= c < 256 -> combined a b c = a * 65536 + b * 256 + c.
Proof.
  intros Hb Hc. unfold combined.
  assert (H8 : forall z, Z.shiftl z 8 = z * 256) by (intros z; by rewrite Z.shiftl_mul_pow2).
  rewrite (lor_shiftl a (Z.shiftl b 8) 16) by (rewrite ?H8; change (2 ^ 16) with 65536; lia).
  change (2 ^ 16) with 65536. rewrite H8.
  replace (a * 65536 + b * 256) with (Z.shiftl (a * 256 + b) 8) by (rewrite H8; lia).
  rewrite lor_shiftl by (change (2 ^ 8) with 256; lia). by rewrite H8.
Qed.

Lemma land_63 n : Z.land n 63 = n mod 64.
Proof. change 63 with (Z.ones 6). by rewrite Z.land_ones. Qed.

(** The characters of a sextet and back *)
Lemma sextet_char n : 0 <= n < 64 ->
  exists c, sextet n = String c EmptyString /\ value_of c = Some n.
Proof.
  intros Hn. assert (H : forallb (fun n => match sextet (Z.of_nat n) with
      | String c EmptyString => bool_decide (value_of c = Some (Z.of_nat n)) | _ => false end) (seq 0 64) = true)
    by (vm_compute; reflexivity).
  rewrite forallb_forall in H. specialize (H (Z.to_nat n)). rewrite Z2Nat.id in H by lia.
  assert (Hin : In (Z.to_nat n) (seq 0 64)) by (apply in_seq; lia). specialize (H Hin).
  destruct (sextet n) as [|c [|]]; try done. exists c. split; [done|]. by apply bool_decide_eq_true in H.
Qed.

(** The four sextets of a turn give the three bytes back. *)
Lemma quartet_bytes a b c :
  0 <= a < 256 -> 0 <= b < 256 -> 0 <= c < 256 ->
  let n := combined a b c in
  exists w x y z, Z.land (Z.shiftr n 18) 63 = w /\ Z.land (Z.shiftr n 12) 63 = x /\
    Z.land (Z.shiftr n 6) 63 = y /\ Z.land n 63 = z /\
    0 <= w < 64 /\ 0 <= x < 64 /\ 0 <= y < 64 /\ 0 <= z < 64 /\
    w * 4 + x / 16 = a /\ x mod 16 * 16 + y / 4 = b /\ y mod 4 * 64 + z = c.
Proof.
  intros Ha Hb Hc. cbn zeta. rewrite combined_value, !land_63, !Z.shiftr_div_pow2 by done.
  change (2 ^ 18) with 262144. change (2 ^ 12) with 4096. change (2 ^ 6) with 64.
  do 4 eexists. do 4 (split; [reflexivity|]).
  Z.div_mod_to_equations. lia.
Qed.

Lemma byte_of_Z_of_byte b : byte_of_Z (Z_of_byte b) = b.
Proof. destruct b; reflexivity. Qed.

(** A turn of the loop, read back *)
Lemma quartet_full a b c rest :
  base64_decode (quartet a (Some b) (Some c) +:+ rest) =
    option_map (fun more => [a; b; c] ++ more) (base64_decode rest) /\
  String.length (quartet a (Some b) (Some c) +:+ rest) = (4 + String.length rest)%nat.
Proof.
  destruct (quartet_bytes (Z_of_byte a) (Z_of_byte b) (Z_of_byte c))
    as (w & x & y & z & Ew & Ex & Ey & Ez & Hw & Hx & Hy & Hz & Ha & Hb & Hc);
    try apply Z_of_byte_range.
  unfold quartet, byte_or_zero. rewrite Ew, Ex, Ey, Ez.
  destruct (sextet_char w Hw) as (cw & -> & Vw), (sextet_char x Hx) as (cx & -> & Vx),
    (sextet_char y Hy) as (cy & -> & Vy), (sextet_char z Hz) as (cz & -> & Vz).
  split; [|reflexivity]. cbv [String.append]; cbn [base64_decode].
  by rewrite Vw, Vx, Vy, Vz, Ha, Hb, Hc, !byte_of_Z_of_byte.
Qed.

Lemma quartet_two a b :
  base64_decode (quartet a (Some b) None) = Some [a; b] /\
  String.length (quartet a (Some b) None) = 4%nat.
Proof.
  destruct (quartet_bytes (Z_of_byte a) (Z_of_byte b) 0)
    as (w & x & y & z & Ew & Ex & Ey & Ez & Hw & Hx & Hy & Hz & Ha & Hb & Hc);
    try apply Z_of_byte_range; [done|].
  unfold quartet, byte_or_zero. rewrite Ew, Ex, Ey.
  destruct (sextet_char w Hw) as (cw & -> & Vw), (sextet_char x Hx) as (cx & -> & Vx),
    (sextet_char y Hy) as (cy & -> & Vy).
  split; [|reflexivity]. cbv [String.append]; cbn [base64_decode].
  rewrite Vw, Vx, Vy. change (value_of "=") with (@None Z).
  by rewrite Ha, Hb, !byte_of_Z_of_byte.
Qed.

Lemma quartet_one a :
  base64_decode (quartet a None None) = Some [a] /\ String.length (quartet a None None) = 4%nat.
Proof.
  destruct (quartet_bytes (Z_of_byte a) 0 0)
    as (w & x & y & z & Ew & Ex & Ey & Ez & Hw & Hx & Hy & Hz & Ha & Hb & Hc);
    try apply Z_of_byte_range; [done..|].
  unfold quartet, byte_or_zero. rewrite Ew, Ex.
  destruct (sextet_char w Hw) as (cw & -> & Vw), (sextet_char x Hx) as (cx & -> & Vx).
  split; [|reflexivity]. cbv [String.append]; cbn [base64_decode].
  rewrite Vw, Vx. change (value_of "=") with (@None Z).
  by rewrite Ha, byte_of_Z_of_byte.
Qed.

Lemma base64_roundtrip_of input :
  base64_decode (base64_encode input) = Some input /\
  Z.of_nat (String.length (base64_encode input)) = 4 * ((Z.of_nat (length input) + 2) / 3).
Proof.
  remember (length input) as n eqn:E. revert input E.
  induction n as [n IH] using lt_wf_ind. intros input ->.
  destruct input as [|a [|b [|c rest]]]; [done|..]; cbn [base64_encode length].
  - destruct (quartet_one a) as [-> ->]. done.
  - destruct (quartet_two a b) as [-> ->]. done.
  - destruct (quartet_full a b c (base64_encode rest)) as [-> ->].
    destruct (IH (length rest) ltac:(cbn; lia) rest eq_refl) as [-> Hl]. split; [done|].
    rewrite Nat2Z.inj_add, Hl. Z.div_mod_to_equations. lia.
Qed.

(** The factory's encoder is base64: what it writes reads back, under the
    standard's decoder with its padding, as the bytes it was given, in four
    characters for every three bytes begun. *)
Theorem base64_roundtrip input :
  base64_decode (base64_encode input) = Some input /\
  Z.of_nat (String.length (base64_encode input)) = 4 * ((Z.of_nat (length input) + 2) / 3).
Proof. apply base64_roundtrip_of. Qed.

(** ** Configurations *)

(** [url::Url] *)
Class UrlApi := {
  Url : Type;
  url_parse : string -> Res Url string;
  url_scheme : Url -> string;
  url_host : Url -> option string;
  url_path : Url -> string;
  url_text : Url -> string
}.

(** An instance: every text is an address of its own. *)
Module ToyUrl.
#[global] Instance toy_url : UrlApi := {|
  Url := string;
  url_parse s := Ok s;
  url_scheme _ := "https";
  url_host _ := None;
  url_path _ := "/mcp";
  url_text s := s
|}.
End ToyUrl.

Section config.
Context `{UA : UrlApi}.

Definition invalid_value (parameter value reason : string) : McpError :=
  Config (InvalidValue parameter value reason).

Inductive AuthConfig : Type :=
| AuthBasic (username password : string)
| AuthBearer (token : string)
| AuthOAuth (client_id client_secret : string) (token_url : Url) (scope : option string)
| AuthHeader (name value : string).

Definition validate_auth (self : AuthConfig) : McpResult unit :=
  match self with
  | AuthBasic username password =>
      if str_is_empty username || str_is_empty password
      then Err (invalid_value "auth" "basic" "Username and password cannot be empty") else Ok tt
  | AuthBearer token =>
      if str_is_empty token then Err (invalid_value "auth" "bearer" "Token cannot be empty") else Ok tt
  | AuthOAuth client_id client_secret token_url _ =>
      if str_is_empty client_id || str_is_empty client_secret
      then Err (invalid_value "auth" "oauth" "Client ID and secret cannot be empty")
      else if negb (String.eqb (url_scheme token_url) "https")
      then Err (invalid_value "token_url" (url_text token_url) "OAuth token URL must use HTTPS")
      else Ok tt
  | AuthHeader name value =>
      if str_is_empty name || str_is_empty value
      then Err (invalid_value "auth" "header" "Header name and value cannot be empty") else Ok tt
  end.

Definition validate_auth_option (auth : option AuthConfig) : McpResult unit :=
  match auth with Some auth => validate_auth auth | None => Ok tt end.

Definition web_scheme (u : Url) : bool :=
  String.eqb (url_scheme u) "http" || String.eqb (url_scheme u) "https".
End config.

Definition secs (n : Z) : Z := n * 1000000000.

Module StdioConfig.
Record t : Type := mk {
  command : string;
  args : list string;
  working_dir : option string;
  timeout : Z;
  environment : gmap string string
}.

Definition new (command : string) : t := mk command [] None (secs 30) ∅.
Definition arg (self : t) (a : string) : t :=
  mk (command self) (args self ++ [a]) (working_dir self) (timeout self) (environment self).
Definition with_args (self : t) (more : list string) : t :=
  mk (command self) (args self ++ more) (working_dir self) (timeout self) (environment self).
Definition in_dir (self : t) (dir : string) : t :=
  mk (command self) (args self) (Some dir) (timeout self) (environment self).
Definition with_timeout (self : t) (timeout : Z) : t :=
  mk (command self) (args self) (working_dir self) timeout (environment self).
Definition env (self : t) (key value : string) : t :=
  mk (command self) (args self) (working_dir self) (timeout self) (<[key := value]> (environment self)).

(** [exists_]: whether a path is there *)
Definition validate (exists_ : string -> bool) (self : t) : McpResult unit :=
  if str_is_empty (command self) then Err (Config (MissingParameter "command"))
  else match working_dir self with
       | Some dir =>
           if exists_ dir then Ok tt else Err (invalid_value "working_dir" dir "Directory does not exist")
       | None => Ok tt
       end.
End StdioConfig.

Module HttpSseConfig.
Section sse.
Context `{UA : UrlApi}.
Record t : Type := mk {
  base_url : Url;
  timeout : Z;
  headers : gmap string string;
  auth : option AuthConfig
}.

Definition new (base_url : Url) : t := mk base_url (secs 60) ∅ None.
Definition with_timeout (self : t) (timeout : Z) : t := mk (base_url self) timeout (headers self) (auth self).
Definition header (self : t) (key value : string) : t :=
  mk (base_url self) (timeout self) (<[key := value]> (headers self)) (auth self).
Definition with_auth (self : t) (a : AuthConfig) : t :=
  mk (base_url self) (timeout self) (headers self) (Some a).

Definition validate (self : t) : McpResult unit :=
  if negb (web_scheme (base_url self))
  then Err (invalid_value "base_url" (url_text (base_url self)) "URL must use http or https scheme")
  else validate_auth_option (auth self).
End sse.
End HttpSseConfig.

Module HttpStreamConfig.
Section stream.
Context `{UA : UrlApi}.
Record t : Type := mk {
  base_url : Url;
  timeout : Z;
  headers : gmap string string;
  auth : option AuthConfig;
  compression : bool;
  flow_control_window : Z
}.

Definition new (base_url : Url) : t := mk base_url (secs 300) ∅ None true 65536.
Definition with_timeout (self : t) (timeout : Z) : t :=
  mk (base_url self) timeout (headers self) (auth self) (compression self) (flow_control_window self).
Definition header (self : t) (key value : string) : t :=
  mk (base_url self) (timeout self) (<[key := value]> (headers self)) (auth self) (compression self)
     (flow_control_window self).
Definition with_auth (self : t) (a : AuthConfig) : t :=
  mk (base_url self) (timeout self) (headers self) (Some a) (compression self) (flow_control_window self).
Definition with_compression (self : t) (enabled : bool) : t :=
  mk (base_url self) (timeout self) (headers self) (auth self) enabled (flow_control_window self).
Definition with_flow_control_window (self : t) (size : Z) : t :=
  mk (base_url self) (timeout self) (headers self) (auth self) (compression self) size.

Definition validate (self : t) : McpResult unit :=
  if negb (web_scheme (base_url self))
  then Err (invalid_value "base_url" (url_text (base_url self)) "URL must use http or https scheme")
  else if flow_control_window self =? 0
  then Err (invalid_value "flow_control_window" (pretty (flow_control_window self))
              "Flow control window must be greater than 0")
  else validate_auth_option (auth self).
End stream.
End HttpStreamConfig.

Module TransportConfig.
Section config.
Context `{UA : UrlApi}.
Inductive t : Type :=
| Stdio (config : StdioConfig.t)
| HttpSse (config : HttpSseConfig.t)
| HttpStream (config : HttpStreamConfig.t).

Definition stdio (command : string) (args : list string) : t :=
  Stdio (StdioConfig.mk command args None (secs 30) ∅).

Definition parse_base_url (base_url : string) : McpResult Url :=
  match url_parse base_url with
  | Ok url => Ok url
  | Err e => Err (invalid_value "base_url" base_url ("Invalid URL: " +:+ e))
  end.

Definition http_sse (base_url : string) : McpResult t :=
  let? url := parse_base_url base_url in Ok (HttpSse (HttpSseConfig.new url)).

Definition http_stream (base_url : string) : McpResult t :=
  let? url := parse_base_url base_url in Ok (HttpStream (HttpStreamConfig.new url)).

Definition transport_type (self : t) : string :=
  match self with Stdio _ => "stdio" | HttpSse _ => "http-sse" | HttpStream _ => "http-stream" end.

Definition validate (exists_ : string -> bool) (self : t) : McpResult unit :=
  match self with
  | Stdio c => StdioConfig.validate exists_ c
  | HttpSse c => HttpSseConfig.validate c
  | HttpStream c => HttpStreamConfig.validate c
  end.

(** [from_file]: the file's text, and the reader its extension selects, if it
    is one of the three *)
Definition from_file (exists_ : string -> bool) (path : string) (content : option string)
    (reader : option (string -> Res t string)) : McpResult t :=
  match content with
  | None => Err (Config (FileNotFound path))
  | Some content =>
      match reader with
      | None => Err (Config (InvalidFormat path "Unsupported file format. Use .json, .yaml, or .toml"))
      | Some read =>
          match read content with
          | Err e => Err (Config (InvalidFormat path e))
          | Ok config => let? _ := validate exists_ config in Ok config
          end
      end
  end.
End config.
End TransportConfig.

(** ** Information *)

Module TransportInfo.
Section info.
Context `{JN : JsonNumbers}.
Record t : Type := mk {
  transport_type : string;
  connected : bool;
  connected_since : option Z;
  requests_sent : Z;
  responses_received : Z;
  notifications_sent : Z;
  notifications_received : Z;
  errors : Z;
  metadata : gmap string Value
}.

Definition new (transport_type : string) : t := mk transport_type false None 0 0 0 0 0 ∅.

Definition mark_connected (now : Z) (self : t) : t :=
  mk (transport_type self) true (Some now) (requests_sent self) (responses_received self)
     (notifications_sent self) (notifications_received self) (errors self) (metadata self).
Definition mark_disconnected (self : t) : t :=
  mk (transport_type self) false None (requests_sent self) (responses_received self)
     (notifications_sent self) (notifications_received self) (errors self) (metadata self).
Definition increment_requests_sent (self : t) : t :=
  mk (transport_type self) (connected self) (connected_since self) (wrap_u64 (requests_sent self + 1))
     (responses_received self) (notifications_sent self) (notifications_received self) (errors self)
     (metadata self).
Definition increment_responses_received (self : t) : t :=
  mk (transport_type self) (connected self) (connected_since self) (requests_sent self)
     (wrap_u64 (responses_received self + 1)) (notifications_sent self) (notifications_received self)
     (errors self) (metadata self).
Definition increment_notifications_sent (self : t) : t :=
  mk (transport_type self) (connected self) (connected_since self) (requests_sent self)
     (responses_received self) (wrap_u64 (notifications_sent self + 1)) (notifications_received self)
     (errors self) (metadata self).
Definition increment_notifications_received (self : t) : t :=
  mk (transport_type self) (connected self) (connected_since self) (requests_sent self)
     (responses_received self) (notifications_sent self) (wrap_u64 (notifications_received self + 1))
     (errors self) (metadata self).
Definition increment_errors (self : t) : t :=
  mk (transport_type self) (connected self) (connected_since self) (requests_sent self)
     (responses_received self) (notifications_sent self) (notifications_received self)
     (wrap_u64 (errors self + 1)) (metadata self).
Definition add_metadata (self : t) (key : string) (value : Value) : t :=
  mk (transport_type self) (connected self) (connected_since self) (requests_sent self)
     (responses_received self) (notifications_sent self) (notifications_received self) (errors self)
     (<[key := value]> (metadata self)).
Definition connection_duration (now : Z) (self : t) : option Z :=
  option_map (fun since => Z.max 0 (now - since)) (connected_since self).
End info.
Arguments t : clear implicits.
Arguments t {JN}.
End TransportInfo.

(** [TransportHelper::validate_message] *)
Definition validate_message `{JN : JsonNumbers} (message : JsonRpcMessage.t) : McpResult unit :=
  let version := match message with
                 | JsonRpcMessage.Request req => JsonRpcRequest.jsonrpc req
                 | JsonRpcMessage.Response resp => JsonRpcResponse.jsonrpc resp
                 | JsonRpcMessage.Notification notif => JsonRpcNotification.jsonrpc notif
                 end in
  if String.eqb version "2.0" then Ok tt
  else Err (Transport (TransportInvalidConfig "generic" ("Invalid jsonrpc version: " +:+ version))).

(** ** The factory *)

Module TransportFactory.
Section factory.
Context `{UA : UrlApi}.

(** What is created *)
Inductive Created : Type :=
| StdioTransport (config : StdioConfig.t)
| HttpSseTransport (config : HttpSseConfig.t)
| HttpStreamTransport (base_url : string) (auth_header : option string).

(** The check [HttpSseTransport::new] makes of its address; the address of a
    local host may be plain *)
Definition local_host (u : Url) : bool :=
  match url_host u with
  | Some host => String.eqb host "localhost" || String.eqb host "127.0.0.1"
  | None => false
  end.

Definition build_security_config (base_url : Url) : McpResult unit :=
  if negb (local_host base_url) && negb (String.eqb (url_scheme base_url) "https")
  then Err (Transport (TransportInvalidConfig "streamable-http"
              ("HTTPS required for non-localhost URL: " +:+ url_text base_url)))
  else Ok tt.

Definition auth_header (auth : AuthConfig) : string :=
  match auth with
  | AuthBearer token => token
  | AuthBasic username password => "Basic " +:+ base64_encode (as_bytes (username +:+ ":" +:+ password))
  | AuthHeader _ value => value
  | AuthOAuth _ _ _ _ => "Bearer oauth-token"
  end.

(** [create], with all transports compiled in; [client] is what building the
    HTTP client comes to *)
Definition create (exists_ : string -> bool) (client : McpResult unit) (config : TransportConfig.t)
  : McpResult Created :=
  let? _ := TransportConfig.validate exists_ config in
  match config with
  | TransportConfig.Stdio c => Ok (StdioTransport c)
  | TransportConfig.HttpSse c =>
      let? _ := client in
      let? _ := build_security_config (HttpSseConfig.base_url c) in
      Ok (HttpSseTransport c)
  | TransportConfig.HttpStream c =>
      Ok (HttpStreamTransport (url_text (HttpStreamConfig.base_url c))
            (option_map auth_header (HttpStreamConfig.auth c)))
  end.

Definition supported_transports : list string := ["stdio"; "http-sse"; "http-stream"]%string.

(** The loop of [create_with_retry]: [remaining] retries are left, [outcome] is
    what an attempt gives.  The number of attempts and of pauses comes with
    the answer. *)
Fixpoint attempts {A} (outcome : nat -> McpResult A) (attempt remaining : nat)
  : McpResult A * nat * nat :=
  match outcome attempt with
  | Ok a => (Ok a, 1%nat, 0%nat)
  | Err e =>
      match remaining with
      | O => (Err e, 1%nat, 0%nat)
      | S remaining =>
          let '(r, tried, slept) := attempts outcome (S attempt) remaining in (r, S tried, S slept)
      end
  end.

Definition create_with_retry (outcome : nat -> McpResult Created) (max_retries : nat)
  : McpResult Created * nat * nat :=
  attempts outcome 0 max_retries.
End factory.
End TransportFactory.

Section factory_theorems.
Context `{UA : UrlApi}.
Import TransportFactory.

(** The factory never sends a client's event stream to another host in the
    clear, but has no such guard for the streaming transport: a bearer token
    for a plain-text address of any host is accepted, and becomes the
    authorization header as it stands, without its scheme. *)
Theorem only_event_streams_are_guarded exists_ client :
  (forall config c, create exists_ client config = Ok (HttpSseTransport c) ->
     config = TransportConfig.HttpSse c /\ web_scheme (HttpSseConfig.base_url c) = true /\
     (url_scheme (HttpSseConfig.base_url c) = "https"%string \/ local_host (HttpSseConfig.base_url c) = true)) /\
  (forall url token, url_scheme url = "http"%string -> token <> ""%string ->
     create exists_ client
       (TransportConfig.HttpStream (HttpStreamConfig.with_auth (HttpStreamConfig.new url) (AuthBearer token))) =
     Ok (HttpStreamTransport (url_text url) (Some token))).
Proof.
  split.
  - intros [c'|c'|c'] c; unfold create; cbn [TransportConfig.validate].
    + by destruct (StdioConfig.validate exists_ c').
    + destruct (HttpSseConfig.validate c') as [[]|] eqn:Ev; [|done]. cbn. destruct client as [[]|]; [|done]. cbn.
      unfold build_security_config.
      destruct (local_host (HttpSseConfig.base_url c')) eqn:El, (String.eqb_spec (url_scheme (HttpSseConfig.base_url c')) "https");
        cbn; try discriminate; intros [= <-]; split_and!; auto;
        unfold HttpSseConfig.validate in Ev; by destruct (web_scheme (HttpSseConfig.base_url c')).
    + by destruct (HttpStreamConfig.validate c').
  - intros url token Hu Ht. unfold create. cbn [TransportConfig.validate].
    unfold HttpStreamConfig.validate, web_scheme. cbn [HttpStreamConfig.base_url HttpStreamConfig.with_auth HttpStreamConfig.new].
    rewrite Hu. cbn. unfold validate_auth_option. cbn. by destruct token.
Qed.

Lemma creation_attempts_spec {A} (outcome : nat -> McpResult A) remaining : forall attempt r tried slept,
  attempts outcome attempt remaining = (r, tried, slept) ->
  tried = S slept /\ (tried <= S remaining)%nat /\
  (forall i, (i < slept)%nat -> exists e, outcome (attempt + i)%nat = Err e) /\
  outcome (attempt + slept)%nat = r /\
  match r with Ok _ => True | Err _ => tried = S remaining end.
Proof.
  induction remaining as [|remaining IH]; intros attempt r tried slept H; cbn in H.
  - destruct (outcome attempt) as [a|e] eqn:E; injection H as <- <- <-;
      rewrite Nat.add_0_r; split_and!; try done; lia.
  - destruct (outcome attempt) as [a|e] eqn:E.
    + injection H as <- <- <-. rewrite Nat.add_0_r. split_and!; try done; lia.
    + destruct (attempts outcome (S attempt) remaining) as [[r' t'] s'] eqn:Er. injection H as <- <- <-.
      destruct (IH _ _ _ _ Er) as (-> & Hle & Hf & Ho & Hr). split_and!; [done|lia| | |].
      * intros [|i] Hi; [rewrite Nat.add_0_r; eauto|].
        rewrite <- Nat.add_succ_comm. apply Hf. lia.
      * by rewrite <- Nat.add_succ_comm.
      * destruct r'; [done|lia].
Qed.

(** Creating with retries ends after at most one attempt more than the
    retries, with a pause between two attempts, and gives the first success or
    else the last failure; failures that no retry can mend are retried all the
    same. *)
Theorem creation_retries_end outcome max_retries :
  let '(r, tried, slept) := create_with_retry outcome max_retries in
  tried = S slept /\ (tried <= S max_retries)%nat /\
  (forall i, (i < slept)%nat -> exists e, outcome i = Err e) /\ outcome slept = r /\
  match r with Ok _ => True | Err _ => tried = S max_retries end.
Proof.
  unfold create_with_retry. destruct (attempts outcome 0 max_retries) as [[r tried] slept] eqn:E.
  exact (creation_attempts_spec _ _ _ _ _ _ E).
Qed.

(** The credentials of a basic header are read back by the standard's decoder. *)
Lemma basic_header_reads_back username password :
  exists encoded, auth_header (AuthBasic username password) = "Basic " +:+ encoded /\
  base64_decode encoded = Some (as_bytes (username +:+ ":" +:+ password)).
Proof. eexists. split; [reflexivity|]. apply base64_roundtrip_of. Qed.
End factory_theorems.
