(* ===== verification/Sandbox.v ===== *)
(** Runtime selection in the sandbox ([acdp-sandbox/src/policy.rs],
    [limits.rs] and [selector.rs]): the security policy, the runtimes it allows
    to a tool, and the choice among those compiled in.  The order in which a
    [HashSet] is iterated is an argument. *)

From S2P Require Import Prelude.

Inductive RuntimeType : Set := Process | V8 | Wasm.
Inductive TrustLevel : Set := Untrusted | Verified | Trusted | System.
Inductive Language : Set := JavaScript | Python | LWasm | Shell.

#[global] Instance runtime_eq_dec : EqDecision RuntimeType.
Proof. solve_decision. Defined.
#[global] Instance trust_eq_dec : EqDecision TrustLevel.
Proof. solve_decision. Defined.
#[global] Instance language_eq_dec : EqDecision Language.
Proof. solve_decision. Defined.

#[global] Instance runtime_countable : Countable RuntimeType.
Proof.
  refine (inj_countable'
    (fun r => match r with Process => 0%nat | V8 => 1%nat | Wasm => 2%nat end)
    (fun n => match n with 0%nat => Process | 1%nat => V8 | _ => Wasm end) _).
  by intros [].
Defined.

#[global] Instance trust_countable : Countable TrustLevel.
Proof.
  refine (inj_countable'
    (fun l => match l with Untrusted => 0%nat | Verified => 1%nat | Trusted => 2%nat
                         | System => 3%nat end)
    (fun n => match n with 0%nat => Untrusted | 1%nat => Verified | 2%nat => Trusted
                         | _ => System end) _).
  by intros [].
Defined.

Module Runtime.

Definition security_rank (r : RuntimeType) : Z :=
  match r with Wasm => 0 | V8 => 1 | Process => 2 end.

Definition performance_rank (r : RuntimeType) : Z :=
  match r with Process => 0 | V8 => 1 | Wasm => 2 end.

(** [{:?}] *)
Definition debug (r : RuntimeType) : string :=
  match r with Process => "Process" | V8 => "V8" | Wasm => "Wasm" end.

Definition debug_list (rs : list RuntimeType) : string :=
  "[" +:+ join ", " (List.map debug rs) +:+ "]".

Definition debug_language (l : Language) : string :=
  match l with JavaScript => "JavaScript" | Python => "Python" | LWasm => "Wasm"
             | Shell => "Shell" end.

Lemma security_rank_inj r s : security_rank r = security_rank s -> r = s.
Proof. by destruct r, s. Qed.

End Runtime.

Module SandboxLimits.

(** [ResourceLimits] of the sandbox; durations in milliseconds *)
Record t : Type := mk {
  max_duration : option Z;
  max_memory_bytes : option Z;
  max_cpu_time_ms : option Z
}.

Definition default : t := mk (Some (30 * 1000)) (Some (100 * 1024 * 1024)) (Some 30000).
Definition unlimited : t := mk None None None.
Definition strict : t := mk (Some (5 * 1000)) (Some (10 * 1024 * 1024)) (Some 5000).
Definition permissive : t := mk (Some (300 * 1000)) (Some (500 * 1024 * 1024)) (Some 300000).

End SandboxLimits.

Inductive RuntimeRequirement : Type :=
| Specific (runtime : RuntimeType)
| Auto (language : Language) (preferred : option RuntimeType)
| AnyOf (runtimes : list RuntimeType).

Definition default_requirement : RuntimeRequirement := Specific Wasm.

Module ToolPolicy.
Record t : Type := mk {
  tool_id : string;
  trust_level : TrustLevel;
  allowed_runtimes : list RuntimeType;
  limits : option SandboxLimits.t;
  audit_required : bool
}.
End ToolPolicy.

Module SecurityPolicy.

Record t : Type := mk {
  runtime_by_trust : gmap TrustLevel RuntimeType;  (* [default_runtime_by_trust] *)
  allowed_runtimes_by_trust : gmap TrustLevel (gset RuntimeType);
  limits_by_trust : gmap TrustLevel SandboxLimits.t;
  tool_policies : gmap string ToolPolicy.t;
  allow_process_runtime : bool;
  prefer_security_over_performance : bool
}.

Definition default_runtime_by_trust : gmap TrustLevel RuntimeType :=
  {[ Untrusted := Wasm; Verified := Wasm; Trusted := V8; System := V8 ]}.

Definition default_allowed_by_trust : gmap TrustLevel (gset RuntimeType) :=
  {[ Untrusted := {[Wasm]}; Verified := {[Wasm; V8]}; Trusted := {[Wasm; V8]};
     System := {[Wasm; V8; Process]} ]}.

Definition default_limits_by_trust : gmap TrustLevel SandboxLimits.t :=
  {[ Untrusted := SandboxLimits.strict; Verified := SandboxLimits.default;
     Trusted := SandboxLimits.permissive; System := SandboxLimits.permissive ]}.

Definition default : t :=
  mk default_runtime_by_trust default_allowed_by_trust default_limits_by_trust ∅ false true.

(** The runtimes a tool policy names, if there is one and it names some *)
Definition tool_override (self : t) (tool_id : string) : option (list RuntimeType) :=
  match tool_policies self !! tool_id with
  | Some p => match ToolPolicy.allowed_runtimes p with [] => None | rs => Some rs end
  | None => None
  end.

Definition is_runtime_allowed (self : t) (tool_id : string) (trust_level : TrustLevel)
    (runtime : RuntimeType) : bool :=
  if bool_decide (runtime = Process) && negb (allow_process_runtime self) then false
  else
    match tool_override self tool_id with
    | Some rs => existsb (fun r => bool_decide (r = runtime)) rs
    | None =>
        match allowed_runtimes_by_trust self !! trust_level with
        | Some set => bool_decide (runtime ∈ set)
        | None => false
        end
    end.

Definition allowed_runtimes (self : t) (tool_id : string) (trust_level : TrustLevel)
  : gset RuntimeType :=
  let allowed : gset RuntimeType :=
    match tool_override self tool_id with
    | Some rs => list_to_set rs
    | None => from_option id ∅ (allowed_runtimes_by_trust self !! trust_level)
    end in
  if allow_process_runtime self then allowed else allowed ∖ {[Process]}.

Definition get_limits (self : t) (tool_id : string) (trust_level : TrustLevel)
  : SandboxLimits.t :=
  let by_trust :=
    from_option id SandboxLimits.default (limits_by_trust self !! trust_level) in
  match tool_policies self !! tool_id with
  | Some p => from_option id by_trust (ToolPolicy.limits p)
  | None => by_trust
  end.

Definition requires_audit (self : t) (tool_id : string) (trust_level : TrustLevel) : bool :=
  let by_trust := match trust_level with System | Trusted => true | _ => false end in
  match tool_policies self !! tool_id with
  | Some p => ToolPolicy.audit_required p || by_trust
  | None => by_trust
  end.

(** The membership test and the set agree. *)
Lemma is_runtime_allowed_spec self tool trust r :
  is_runtime_allowed self tool trust r = true <-> r ∈ allowed_runtimes self tool trust.
Proof.
  unfold is_runtime_allowed, allowed_runtimes.
  assert (Hbase :
    match tool_override self tool with
    | Some rs => existsb (fun r' => bool_decide (r' = r)) rs
    | None => match allowed_runtimes_by_trust self !! trust with
              | Some set => bool_decide (r ∈ set) | None => false end
    end = true <->
    r ∈ match tool_override self tool with
        | Some rs => list_to_set rs
        | None => from_option id ∅ (allowed_runtimes_by_trust self !! trust)
        end).
  { destruct (tool_override self tool) as [rs|].
    - rewrite existsb_true, elem_of_list_to_set. setoid_rewrite bool_decide_eq_true.
      split; [by intros (x & ? & ->)|eauto].
    - destruct (allowed_runtimes_by_trust self !! trust) as [s|]; simpl.
      + apply bool_decide_eq_true.
      + split; [done|]. intros Hr. by apply elem_of_empty in Hr. }
  destruct (allow_process_runtime self); simpl.
  - by rewrite andb_false_r.
  - rewrite andb_true_r, elem_of_difference, <- Hbase, elem_of_singleton.
    case_bool_decide as Hp; [split; [done|by intros []]|]. intuition.
Qed.

Lemma process_banned self tool trust :
  allow_process_runtime self = false -> Process ∉ allowed_runtimes self tool trust.
Proof.
  unfold allowed_runtimes. intros ->. rewrite elem_of_difference, elem_of_singleton. by intros [].
Qed.

End SecurityPolicy.

Module ToolDefinition.
Record t : Type := mk {
  id : string;
  name : string;
  trust_level : TrustLevel;
  runtime : RuntimeRequirement;
  description : string
}.
End ToolDefinition.

Module RuntimeDecision.
Record t : Type := mk {
  runtime_type : RuntimeType;
  limits : SandboxLimits.t;
  is_override : bool;
  reason : string;
  audit_required : bool
}.
End RuntimeDecision.

Inductive SelectionError : Type :=
| NoCompatibleRuntime (tool : string)
| RuntimeDenied (runtime : RuntimeType) (tool : string)
| UnsupportedLanguage (language : Language)
| RuntimeCreation (reason : string).

(** The compiled-in features *)
Record Features := MkFeatures { f_process : bool; f_v8 : bool; f_wasm : bool }.

Module RuntimeSelector.

Record t : Type := mk { policy : SecurityPolicy.t; available_runtimes : gset RuntimeType }.

Definition compiled_in (fs : Features) : gset RuntimeType :=
  (if f_process fs then {[Process]} else ∅) ∪ (if f_v8 fs then {[V8]} else ∅) ∪
  (if f_wasm fs then {[Wasm]} else ∅).

Definition new (fs : Features) (policy : SecurityPolicy.t) : t := mk policy (compiled_in fs).
Definition with_policy (fs : Features) (policy : SecurityPolicy.t) : t := mk policy (compiled_in fs).

Definition supports_language (runtime : RuntimeType) (language : Language) : bool :=
  match runtime, language with
  | V8, JavaScript => true
  | Wasm, LWasm => true
  | Wasm, Python => true
  | Process, _ => true
  | _, _ => false
  end.

Definition contains (rs : list RuntimeType) (r : RuntimeType) : bool :=
  existsb (fun x => bool_decide (x = r)) rs.

(** [sort_by_key(security_rank)], stable *)
Fixpoint insert_by_rank (r : RuntimeType) (l : list RuntimeType) : list RuntimeType :=
  match l with
  | [] => [r]
  | s :: l => if Runtime.security_rank r <? Runtime.security_rank s then r :: s :: l
              else s :: insert_by_rank r l
  end.

Definition sort_by_rank (l : list RuntimeType) : list RuntimeType :=
  List.fold_left (fun acc r => insert_by_rank r acc) l [].

(** [min_by_key]: the first of the smallest *)
Definition min_by_rank (r : RuntimeType) (l : list RuntimeType) : RuntimeType :=
  List.fold_left (fun best x =>
    if Runtime.security_rank x <? Runtime.security_rank best then x else best) l r.

(** [candidates[0]] after sorting; the list is not empty there. *)
Definition most_secure (candidates : list RuntimeType) : RuntimeType :=
  List.hd Wasm (sort_by_rank candidates).

(** The [match &tool.runtime]: the runtime, whether it overrides the request,
    and the reason *)
Definition choose (candidates : list RuntimeType) (requirement : RuntimeRequirement)
  : Res (RuntimeType * bool * string) SelectionError :=
  match requirement with
  | Specific runtime =>
      if contains candidates runtime then
        Ok (runtime, false,
            "Tool requested " +:+ Runtime.debug runtime +:+ " and it's allowed")
      else
        let candidates := sort_by_rank candidates in
        let fallback := List.hd Wasm candidates in
        Ok (fallback, true,
            "Tool requested " +:+ Runtime.debug runtime +:+ " but policy only allows " +:+
            Runtime.debug_list candidates)
  | Auto language preferred =>
      let candidates := List.filter (fun rt => supports_language rt language) candidates in
      match candidates with
      | [] => Err (UnsupportedLanguage language)
      | _ =>
          match preferred with
          | Some pref =>
              if contains candidates pref then
                Ok (pref, false, "Auto-selected preferred runtime " +:+ Runtime.debug pref)
              else
                let chosen := most_secure candidates in
                Ok (chosen, true,
                    "Preferred " +:+ Runtime.debug pref +:+ " not available, selected " +:+
                    Runtime.debug chosen +:+ " for " +:+ Runtime.debug_language language)
          | None =>
              let chosen := most_secure candidates in
              Ok (chosen, false,
                  "Auto-selected most secure runtime " +:+ Runtime.debug chosen +:+ " for " +:+
                  Runtime.debug_language language)
          end
      end
  | AnyOf runtimes =>
      let acceptable := List.filter (contains candidates) runtimes in
      match acceptable with
      | [] =>
          let fallback := most_secure candidates in
          Ok (fallback, true,
              "None of requested runtimes " +:+ Runtime.debug_list runtimes +:+
              " allowed, fallback to " +:+ Runtime.debug fallback)
      | r :: rest =>
          let chosen := min_by_rank r rest in
          Ok (chosen, false,
              "Selected most secure from acceptable runtimes: " +:+ Runtime.debug chosen)
      end
  end%string.

(** [iter] is the order in which the intersection is iterated. *)
Definition select_runtime (iter : gset RuntimeType -> list RuntimeType) (self : t)
    (tool : ToolDefinition.t) : Res RuntimeDecision.t SelectionError :=
  let policy_allowed :=
    SecurityPolicy.allowed_runtimes (policy self) (ToolDefinition.id tool)
      (ToolDefinition.trust_level tool) in
  let candidates := iter (policy_allowed ∩ available_runtimes self) in
  match candidates with
  | [] => Err (NoCompatibleRuntime (ToolDefinition.id tool))
  | _ =>
      let? (chosen, is_override, reason) := choose candidates (ToolDefinition.runtime tool) in
      Ok (RuntimeDecision.mk chosen
            (SecurityPolicy.get_limits (policy self) (ToolDefinition.id tool)
               (ToolDefinition.trust_level tool))
            is_override reason
            (SecurityPolicy.requires_audit (policy self) (ToolDefinition.id tool)
               (ToolDefinition.trust_level tool)))
  end.

(** The runtime built, as its type and limits; [create_wasm] is
    [WasmRuntime::with_limits], which can fail. *)
Definition create_runtime (fs : Features) (create_wasm : SandboxLimits.t -> Res unit string)
    (decision : RuntimeDecision.t) : Res (RuntimeType * option SandboxLimits.t) SelectionError :=
  match RuntimeDecision.runtime_type decision with
  | Process =>
      if f_process fs then Ok (Process, None)
      else Err (RuntimeCreation "Process runtime not compiled in")
  | V8 =>
      if f_v8 fs then Ok (V8, Some (RuntimeDecision.limits decision))
      else Err (RuntimeCreation "V8 runtime not compiled in")
  | Wasm =>
      if f_wasm fs then
        let? _ := map_err RuntimeCreation (create_wasm (RuntimeDecision.limits decision)) in
        Ok (Wasm, Some (RuntimeDecision.limits decision))
      else Err (RuntimeCreation "WASM runtime not compiled in")
  end.

End RuntimeSelector.

(** ** The choice as a function of sets *)

(** The most secure member of a set *)
Definition safest (X : gset RuntimeType) : option RuntimeType :=
  if decide (Wasm ∈ X) then Some Wasm
  else if decide (V8 ∈ X) then Some V8
  else if decide (Process ∈ X) then Some Process
  else None.

Definition supporting (l : Language) (C : gset RuntimeType) : gset RuntimeType :=
  filter (fun r => RuntimeSelector.supports_language r l = true) C.

(** The runtime chosen among the candidates [C], and whether it overrides the
    request; [None] when the language is not supported *)
Definition preferred_choice (C : gset RuntimeType) (requirement : RuntimeRequirement)
  : option (RuntimeType * bool) :=
  match requirement with
  | Specific r => if decide (r ∈ C) then Some (r, false) else (fun s => (s, true)) <$> safest C
  | Auto l None => (fun s => (s, false)) <$> safest (supporting l C)
  | Auto l (Some p) =>
      if decide (p ∈ supporting l C) then Some (p, false)
      else (fun s => (s, true)) <$> safest (supporting l C)
  | AnyOf rs =>
      match safest (list_to_set rs ∩ C) with
      | Some r => Some (r, false)
      | None => (fun s => (s, true)) <$> safest C
      end
  end.

Lemma safest_min X r :
  r ∈ X -> (forall s, s ∈ X -> Runtime.security_rank r <= Runtime.security_rank s) ->
  safest X = Some r.
Proof.
  intros Hr Hmin. unfold safest.
  destruct (decide (Wasm ∈ X)) as [Hw|]; [|destruct (decide (V8 ∈ X)) as [Hv|];
    [|destruct (decide (Process ∈ X)) as [Hp|]]].
  - specialize (Hmin _ Hw). by destruct r.
  - specialize (Hmin _ Hv). by destruct r.
  - specialize (Hmin _ Hp). by destruct r.
  - by destruct r.
Qed.

Lemma safest_None X : safest X = None <-> X = ∅.
Proof.
  split; [|intros ->; unfold safest; repeat case_decide; set_solver].
  unfold safest. repeat case_decide; try done. intros _. apply set_eq. intros [];
    split; intros Hx; (done || by apply elem_of_empty in Hx).
Qed.

Lemma safest_member X r : safest X = Some r -> r ∈ X.
Proof. unfold safest. repeat case_decide; intros; by simplify_eq. Qed.

Lemma insert_by_rank_spec r l :
  RuntimeSelector.insert_by_rank r l ≡ₚ r :: l.
Proof.
  induction l as [|s l IH]; simpl; [done|]. case_goal; [done|]. rewrite IH. apply perm_swap.
Qed.

Lemma insert_by_rank_hd r l d :
  (forall s, s ∈ l -> Runtime.security_rank (List.hd d l) <= Runtime.security_rank s) ->
  forall s, s ∈ r :: l ->
  Runtime.security_rank (List.hd d (RuntimeSelector.insert_by_rank r l))
    <= Runtime.security_rank s.
Proof.
  intros Hl s Hs. destruct l as [|x l]; simpl in *.
  - apply list_elem_of_singleton in Hs as ->. lia.
  - apply elem_of_cons in Hs as [->|Hs];
      destruct (Z.ltb_spec (Runtime.security_rank r) (Runtime.security_rank x)); simpl;
      [lia|lia|specialize (Hl s Hs); lia|by apply Hl].
Qed.

Lemma sort_by_rank_spec l d : forall acc,
  (forall s, s ∈ acc -> Runtime.security_rank (List.hd d acc) <= Runtime.security_rank s) ->
  let r := List.fold_left (fun acc r => RuntimeSelector.insert_by_rank r acc) l acc in
  r ≡ₚ acc ++ l /\
  (forall s, s ∈ r -> Runtime.security_rank (List.hd d r) <= Runtime.security_rank s).
Proof.
  induction l as [|x l IH]; intros acc Hacc; simpl; [by rewrite app_nil_r|].
  destruct (IH (RuntimeSelector.insert_by_rank x acc)) as [Hp Hh].
  - intros s Hs. rewrite insert_by_rank_spec in Hs. by apply insert_by_rank_hd.
  - split; [|exact Hh]. rewrite Hp, insert_by_rank_spec. apply Permutation_middle.
Qed.

Lemma most_secure_safest l :
  l <> [] -> safest (list_to_set l) = Some (RuntimeSelector.most_secure l).
Proof.
  intros Hl. unfold RuntimeSelector.most_secure, RuntimeSelector.sort_by_rank.
  destruct (sort_by_rank_spec l Wasm []) as [Hp Hh]; [intros s Hs; by apply elem_of_nil in Hs|].
  simpl in Hp.
  destruct (List.fold_left _ l []) as [|h t] eqn:He.
  - apply Permutation_nil in Hp. done.
  - apply safest_min; setoid_rewrite elem_of_list_to_set; setoid_rewrite <- Hp; simpl in *.
    + by left.
    + exact Hh.
Qed.

Lemma min_by_rank_safest l : forall r,
  safest (list_to_set (r :: l)) = Some (RuntimeSelector.min_by_rank r l).
Proof.
  unfold RuntimeSelector.min_by_rank.
  assert (Hmin : forall r,
    List.fold_left (fun best x =>
      if Runtime.security_rank x <? Runtime.security_rank best then x else best) l r
      ∈ r :: l /\
    forall s, s ∈ r :: l -> Runtime.security_rank
      (List.fold_left (fun best x =>
        if Runtime.security_rank x <? Runtime.security_rank best then x else best) l r)
      <= Runtime.security_rank s).
  { induction l as [|x l IH]; intros r; simpl.
    - split; [by left|]. intros s ->%list_elem_of_singleton. lia.
    - specialize (IH (if Runtime.security_rank x <? Runtime.security_rank r then x else r)).
      destruct IH as [Hin Hle]. setoid_rewrite elem_of_cons in Hin.
      setoid_rewrite elem_of_cons in Hle. setoid_rewrite elem_of_cons. setoid_rewrite elem_of_cons.
      destruct (Z.ltb_spec (Runtime.security_rank x) (Runtime.security_rank r)).
      + split; [tauto|]. intros s [->|[->|Hs]]; [|by apply Hle; left|by apply Hle; right].
        specialize (Hle x (or_introl eq_refl)). lia.
      + split; [tauto|]. intros s [->|[->|Hs]]; [by apply Hle; left| |by apply Hle; right].
        specialize (Hle r (or_introl eq_refl)). lia. }
  intros r. destruct (Hmin r) as [Hin Hle]. apply safest_min.
  - by apply elem_of_list_to_set.
  - intros s Hs%elem_of_list_to_set. by apply Hle.
Qed.

Lemma contains_spec l r : RuntimeSelector.contains l r = true <-> r ∈ l.
Proof.
  unfold RuntimeSelector.contains. rewrite existsb_true. setoid_rewrite bool_decide_eq_true.
  split; [by intros (x & ? & ->)|eauto].
Qed.

(** The function over the list of candidates computes the choice over its set. *)
Lemma choose_preferred l requirement :
  l <> [] ->
  match RuntimeSelector.choose l requirement with
  | Ok (r, o, _) => preferred_choice (list_to_set l) requirement = Some (r, o)
  | Err e => preferred_choice (list_to_set l) requirement = None /\
             exists lang p, requirement = Auto lang p /\ e = UnsupportedLanguage lang
  end.
Proof.
  intros Hl. destruct requirement as [r|lang pref|rs]; simpl.
  - destruct (RuntimeSelector.contains l r) eqn:Hc.
    + apply contains_spec in Hc. by rewrite decide_True by (by apply elem_of_list_to_set).
    + rewrite decide_False.
      * by rewrite most_secure_safest.
      * rewrite elem_of_list_to_set, <- contains_spec. congruence.
  - assert (Hs : supporting lang (list_to_set l) =
      list_to_set (List.filter (fun rt => RuntimeSelector.supports_language rt lang) l)).
    { apply set_eq. intros x. unfold supporting. rewrite elem_of_filter, !elem_of_list_to_set.
      rewrite (list_elem_of_In (List.filter _ l)), filter_In, <- list_elem_of_In. tauto. }
    destruct (List.filter _ l) as [|x xs] eqn:Hf.
    + destruct pref as [p|]; simpl in *; rewrite Hs; split; eauto.
    + destruct pref as [p|]; simpl preferred_choice; rewrite Hs.
      * destruct (RuntimeSelector.contains (x :: xs) p) eqn:Hc.
        -- apply contains_spec in Hc. by rewrite decide_True by (by apply elem_of_list_to_set).
        -- rewrite decide_False; [by rewrite most_secure_safest|].
           rewrite elem_of_list_to_set, <- contains_spec. congruence.
      * by rewrite most_secure_safest.
  - assert (Hs : list_to_set rs ∩ list_to_set l =@{gset RuntimeType}
      list_to_set (List.filter (RuntimeSelector.contains l) rs)).
    { apply set_eq. intros x. rewrite elem_of_intersection, !elem_of_list_to_set.
      by rewrite (list_elem_of_In (List.filter _ rs)), filter_In, <- list_elem_of_In,
        contains_spec. }
    rewrite Hs. destruct (List.filter _ rs) as [|x xs].
    + simpl. by rewrite most_secure_safest.
    + by rewrite min_by_rank_safest.
Qed.

(** The runtime selector implements the choice on sets, in whatever order
    the candidates are iterated: with no runtime both allowed and compiled in it
    answers [NoCompatibleRuntime], with none for the language
    [UnsupportedLanguage], and otherwise it takes the requested runtime where it
    may, and the most secure candidate where it may not, marked as an override. *)
Theorem select_runtime_choice (iter : gset RuntimeType -> list RuntimeType)
    (self : RuntimeSelector.t) (tool : ToolDefinition.t) :
  (forall X, iter X ≡ₚ elements X) ->
  let C := SecurityPolicy.allowed_runtimes (RuntimeSelector.policy self)
             (ToolDefinition.id tool) (ToolDefinition.trust_level tool)
           ∩ RuntimeSelector.available_runtimes self in
  match RuntimeSelector.select_runtime iter self tool with
  | Err e =>
      (C = ∅ /\ e = NoCompatibleRuntime (ToolDefinition.id tool)) \/
      (exists lang p, ToolDefinition.runtime tool = Auto lang p /\ supporting lang C = ∅ /\
                      e = UnsupportedLanguage lang)
  | Ok d =>
      preferred_choice C (ToolDefinition.runtime tool) =
        Some (RuntimeDecision.runtime_type d, RuntimeDecision.is_override d)
  end.
Proof.
  intros Hiter C. unfold RuntimeSelector.select_runtime. fold C.
  assert (HC : list_to_set (iter C) = C).
  { apply set_eq. intros x. by rewrite elem_of_list_to_set, Hiter, elem_of_elements. }
  destruct (iter C) as [|r rs] eqn:Hi.
  - left. split; [|done]. by rewrite <- HC.
  - pose proof (choose_preferred (r :: rs) (ToolDefinition.runtime tool) ltac:(done)) as Hc.
    rewrite HC in Hc.
    destruct (RuntimeSelector.choose (r :: rs) (ToolDefinition.runtime tool))
      as [[[x o] reason]|e]; [exact Hc|].
    destruct Hc as (Hc & lang & p & Hreq & ->). right. exists lang, p. split_and!; [done| |done].
    rewrite Hreq in Hc. simpl in Hc. apply safest_None.
    destruct p as [p|]; [case_decide; [done|]|]; by destruct (safest (supporting lang C)).
Qed.

Lemma preferred_choice_member C requirement r o :
  preferred_choice C requirement = Some (r, o) -> r ∈ C.
Proof.
  assert (Hsup : forall lang, supporting lang C ⊆ C) by (intros lang x; unfold supporting; rewrite elem_of_filter; tauto).
  destruct requirement as [s|lang [p|]|rs]; simpl.
  - case_decide; [by intros [=<- _]|]. intros (x & Hx & [= -> _])%fmap_Some. by apply safest_member.
  - case_decide; [intros [=<- _]; by eapply Hsup|].
    intros (x & Hx & [= -> _])%fmap_Some. by eapply Hsup, safest_member.
  - intros (x & Hx & [= -> _])%fmap_Some. by eapply Hsup, safest_member.
  - destruct (safest (list_to_set rs ∩ C)) as [x|] eqn:Hs.
    + intros [=<- _]. apply safest_member, elem_of_intersection in Hs. tauto.
    + intros (x & Hx & [= -> _])%fmap_Some. by apply safest_member.
Qed.

Lemma select_decision_fields iter self tool d :
  RuntimeSelector.select_runtime iter self tool = Ok d ->
  RuntimeDecision.limits d = SecurityPolicy.get_limits (RuntimeSelector.policy self)
    (ToolDefinition.id tool) (ToolDefinition.trust_level tool) /\
  RuntimeDecision.audit_required d = SecurityPolicy.requires_audit (RuntimeSelector.policy self)
    (ToolDefinition.id tool) (ToolDefinition.trust_level tool).
Proof.
  unfold RuntimeSelector.select_runtime. destruct (iter _) as [|r rs]; [done|].
  intros ([[x o] reason] & _ & <-%Ok_inj)%res_bind_Ok. done.
Qed.

(** What is chosen is a candidate. *)
Lemma select_choice_member iter self tool d :
  (forall X, iter X ≡ₚ elements X) ->
  RuntimeSelector.select_runtime iter self tool = Ok d ->
  RuntimeDecision.runtime_type d ∈
    SecurityPolicy.allowed_runtimes (RuntimeSelector.policy self) (ToolDefinition.id tool)
      (ToolDefinition.trust_level tool) ∩ RuntimeSelector.available_runtimes self.
Proof.
  intros Hiter. unfold RuntimeSelector.select_runtime.
  set (C := _ ∩ _). destruct (iter C) as [|r rs] eqn:Hi; [done|].
  intros ([[x o] reason] & Hc & <-%Ok_inj)%res_bind_Ok. simpl.
  pose proof (choose_preferred (r :: rs) (ToolDefinition.runtime tool) ltac:(done)) as Hp.
  rewrite Hc in Hp. apply preferred_choice_member in Hp.
  rewrite elem_of_list_to_set, <- Hi, Hiter, elem_of_elements in Hp. exact Hp.
Qed.

(** C8: a selected runtime is one the policy allows to the tool at its trust
    level and one that is compiled in; it is the process runtime only if the
    policy permits that globally; the decision carries the policy's limits and
    audit requirement.  A process or V8 runtime can then always be created, a
    WebAssembly one exactly when its engine accepts the decision's limits. *)
Theorem select_runtime_respects_policy (iter : gset RuntimeType -> list RuntimeType)
    (fs : Features) (policy : SecurityPolicy.t) (tool : ToolDefinition.t)
    (d : RuntimeDecision.t) :
  (forall X, iter X ≡ₚ elements X) ->
  RuntimeSelector.select_runtime iter (RuntimeSelector.new fs policy) tool = Ok d ->
  SecurityPolicy.is_runtime_allowed policy (ToolDefinition.id tool)
    (ToolDefinition.trust_level tool) (RuntimeDecision.runtime_type d) = true /\
  (RuntimeDecision.runtime_type d = Process ->
   SecurityPolicy.allow_process_runtime policy = true) /\
  RuntimeDecision.limits d =
    SecurityPolicy.get_limits policy (ToolDefinition.id tool) (ToolDefinition.trust_level tool) /\
  RuntimeDecision.audit_required d =
    SecurityPolicy.requires_audit policy (ToolDefinition.id tool)
      (ToolDefinition.trust_level tool) /\
  (forall create_wasm,
   is_ok (RuntimeSelector.create_runtime fs create_wasm d) =
   match RuntimeDecision.runtime_type d with
   | Wasm => is_ok (create_wasm (RuntimeDecision.limits d))
   | Process | V8 => true
   end).
Proof.
  intros Hiter Hd.
  pose proof (select_choice_member iter (RuntimeSelector.new fs policy) tool d Hiter Hd) as Hm.
  simpl in Hm. apply elem_of_intersection in Hm as [Hallowed Havail].
  split_and!.
  - by apply SecurityPolicy.is_runtime_allowed_spec.
  - intros Hp. rewrite Hp in Hallowed. apply not_false_iff_true. intros Hf.
    by eapply SecurityPolicy.process_banned in Hallowed.
  - by apply (select_decision_fields iter _ _ _ Hd).
  - by apply (select_decision_fields iter _ _ _ Hd).
  - intros create_wasm. unfold RuntimeSelector.create_runtime, RuntimeSelector.compiled_in in *.
    destruct (RuntimeDecision.runtime_type d), (f_process fs), (f_v8 fs), (f_wasm fs);
      try done; try (exfalso; set_solver);
      by destruct (create_wasm (RuntimeDecision.limits d)).
Qed.

(** In the default build, where only the process runtime is compiled in,
    the default policy, which bans it, lets no tool run at all: every selection
    ends in [NoCompatibleRuntime]. *)
Theorem default_build_runs_nothing (iter : gset RuntimeType -> list RuntimeType)
    (tool : ToolDefinition.t) :
  (forall X, iter X ≡ₚ elements X) ->
  RuntimeSelector.select_runtime iter
    (RuntimeSelector.new (MkFeatures true false false) SecurityPolicy.default) tool =
  Err (NoCompatibleRuntime (ToolDefinition.id tool)).
Proof.
  intros Hiter. unfold RuntimeSelector.select_runtime. simpl.
  match goal with |- match iter ?X with _ => _ end = _ =>
    assert (X = ∅) as -> end.
  { pose proof (SecurityPolicy.process_banned SecurityPolicy.default (ToolDefinition.id tool)
      (ToolDefinition.trust_level tool) eq_refl) as Hb.
    apply set_eq. intros x. unfold RuntimeSelector.compiled_in. simpl.
    rewrite elem_of_intersection, !elem_of_union, elem_of_singleton. split.
    - intros [Hx [[->|Hx']|Hx']]; [done|..]; by apply elem_of_empty in Hx'.
    - intros Hx. by apply elem_of_empty in Hx. }
  specialize (Hiter ∅). rewrite elements_empty in Hiter. apply Permutation_nil_r in Hiter.
  by rewrite Hiter.
Qed.

(** ** Concrete selections *)

Definition demo_tool (level : TrustLevel) (requirement : RuntimeRequirement) : ToolDefinition.t :=
  ToolDefinition.mk "tool" "Tool" level requirement "".

Definition full_build : Features := MkFeatures true true true.

Example selection_examples :
  match RuntimeSelector.select_runtime elements
          (RuntimeSelector.new full_build SecurityPolicy.default)
          (demo_tool Untrusted (Specific V8)) with
  | Ok d => RuntimeDecision.runtime_type d = Wasm /\ RuntimeDecision.is_override d = true /\
            RuntimeDecision.reason d = "Tool requested V8 but policy only allows [Wasm]"%string
  | Err _ => False
  end /\
  RuntimeSelector.select_runtime elements
    (RuntimeSelector.new full_build SecurityPolicy.default)
    (demo_tool Trusted (Auto Shell None)) = Err (UnsupportedLanguage Shell).
Proof. vm_compute. done. Qed.

Lemma elements_iteration (X : gset RuntimeType) : elements X ≡ₚ elements X.
Proof. reflexivity. Qed.

Lemma select_runtime_choice_witness :
  preferred_choice
    (SecurityPolicy.allowed_runtimes SecurityPolicy.default "tool" Verified ∩
     RuntimeSelector.compiled_in full_build) (Auto JavaScript None) = Some (V8, false).
Proof.
  pose proof (select_runtime_choice elements
    (RuntimeSelector.new full_build SecurityPolicy.default)
    (demo_tool Verified (Auto JavaScript None)) elements_iteration) as H.
  vm_compute in H |- *. exact H.
Defined.

Lemma select_runtime_respects_policy_witness :
  exists d,
    RuntimeSelector.select_runtime elements
      (RuntimeSelector.new full_build SecurityPolicy.default)
      (demo_tool Verified (Specific V8)) = Ok d /\
    SecurityPolicy.is_runtime_allowed SecurityPolicy.default "tool" Verified
      (RuntimeDecision.runtime_type d) = true.
Proof.
  eexists. split; [vm_compute; reflexivity|].
  eapply (select_runtime_respects_policy elements full_build SecurityPolicy.default
            (demo_tool Verified (Specific V8))); [exact elements_iteration|].
  vm_compute. reflexivity.
Defined.

Lemma default_build_runs_nothing_witness :
  RuntimeSelector.select_runtime elements
    (RuntimeSelector.new (MkFeatures true false false) SecurityPolicy.default)
    (demo_tool System (Specific Process)) = Err (NoCompatibleRuntime "tool").
Proof. apply (default_build_runs_nothing elements). exact elements_iteration. Defined.
