(* ===== verification/BufferedIpc.v ===== *)
(** The buffered IPC client ([acdp-transport/src/buffered_ipc_client.rs]): the
    background task that sends messages to the monitor, buffers them while it
    is not connected and reconnects with exponential backoff.  The task's
    [select!] loop is a transition function on the task's local variables; the
    outcomes of connecting and sending, and the readings of the clock, are
    inputs of its steps. *)

From S2P Require Import Prelude.

(** Instants and durations in nanoseconds *)
Definition nanos_per_second : Z := 1000000000.
Definition nanos_per_milli : Z := 1000000.

Definition MAX_BUFFER_SIZE : nat := Z.to_nat 10000.
Definition INITIAL_RECONNECT_DELAY : Z := 1 * nanos_per_second.
Definition MAX_RECONNECT_DELAY : Z := 30 * nanos_per_second.
Definition RECONNECT_BACKOFF_FACTOR : Z := 2.

Module BufferedIpcClient.
Section client.
(** The client never looks into an [IpcMessage]. *)
Context {IpcMessage : Type}.

(** The buffer shared with the senders and the variables of
    [run_client_task]; [client] says whether an [IpcClient] is held. *)
Record t : Type := mk {
  buffer : list IpcMessage;
  client : bool;
  reconnect_delay : Z;
  last_connect_attempt : Z
}.

(** The task at its start; subtracting the delay from the instant is assumed
    not to underflow. *)
Definition start (now : Z) : t :=
  mk [] false INITIAL_RECONNECT_DELAY (now - INITIAL_RECONNECT_DELAY).

(** [if buf.len() < MAX_BUFFER_SIZE { buf.push_back(message) }] *)
Definition push_back (buf : list IpcMessage) (message : IpcMessage) : list IpcMessage :=
  if (length buf <? MAX_BUFFER_SIZE)%nat then buf ++ [message] else buf.

(** [send] once the task has ended and its channel is closed; before, the
    message goes to the channel. *)
Definition send_closed (self : t) (message : IpcMessage) : t :=
  mk (push_back (buffer self) message) (client self) (reconnect_delay self)
     (last_connect_attempt self).

(** The branch [Some(message) = receiver.recv()]; [ok] is the outcome of
    [ipc_client.send].  The second component is what was delivered. *)
Definition receive (self : t) (message : IpcMessage) (ok : bool) : t * list IpcMessage :=
  if client self then
    if ok then (self, [message])
    else (mk (push_back (buffer self) message) false (reconnect_delay self)
             (last_connect_attempt self), [])
  else (mk (push_back (buffer self) message) false (reconnect_delay self)
           (last_connect_attempt self), []).

(** The loop over [messages_to_send]; [oks] are the outcomes of its sends.
    The first failure puts its message back, drops the client and leaves the
    loop, and with it the messages after it. *)
Fixpoint flush (oks : nat -> bool) (k : nat) (messages_to_send buf : list IpcMessage)
  : list IpcMessage * bool * list IpcMessage :=
  match messages_to_send with
  | [] => (buf, true, [])
  | msg :: rest =>
      if oks k then
        let '(buf', c, delivered) := flush oks (S k) rest buf in (buf', c, msg :: delivered)
      else (push_back buf msg, false, [])
  end.

(** [client.is_none() && last_connect_attempt.elapsed() >= reconnect_delay] *)
Definition due (self : t) (now : Z) : bool :=
  negb (client self) && (reconnect_delay self <=? Z.max 0 (now - last_connect_attempt self)).

(** The timer branch at [now]; [attempt] is the second reading of the clock,
    [connected] the outcome of [IpcClient::connect]. *)
Definition tick (self : t) (now attempt : Z) (connected : bool) (oks : nat -> bool)
  : t * list IpcMessage :=
  if due self now then
    if connected then
      let '(buf, c, delivered) := flush oks 0 (buffer self) [] in
      (mk buf c INITIAL_RECONNECT_DELAY attempt, delivered)
    else
      (mk (buffer self) false
          (Z.min (reconnect_delay self * RECONNECT_BACKOFF_FACTOR) MAX_RECONNECT_DELAY)
          attempt, [])
  else (self, []).

(** One iteration of the loop *)
Inductive Event : Type :=
| Received (message : IpcMessage) (ok : bool)
| Tick (now attempt : Z) (connected : bool) (oks : nat -> bool).

Definition step (self : t) (e : Event) : t * list IpcMessage :=
  match e with
  | Received m ok => receive self m ok
  | Tick now attempt connected oks => tick self now attempt connected oks
  end.

#[local] Arguments receive : simpl never.
#[local] Arguments tick : simpl never.

(** The iterations until shutdown, with all that was delivered *)
Fixpoint run_client_task (self : t) (es : list Event) : t * list IpcMessage :=
  match es with
  | [] => (self, [])
  | e :: es =>
      let '(self', d) := step self e in
      let '(self'', ds) := run_client_task self' es in (self'', d ++ ds)
  end.

(** The messages taken from the channel *)
Definition received (es : list Event) : list IpcMessage :=
  flat_map (fun e => match e with Received m _ => [m] | Tick _ _ _ _ => [] end) es.

(** What [select!] may choose, given the messages and the instants of their
    arrival: each iteration sets a new timer of 100 ms, and a message that
    arrives before the timer runs out is taken first.  [finish] is the end of
    a timer branch. *)
Inductive selects : Z -> list (Z * IpcMessage) -> list Event -> Prop :=
| selects_stop now arrivals : selects now arrivals []
| selects_received now at_ m arrivals ok es :
    selects (Z.max now at_) arrivals es ->
    selects now ((at_, m) :: arrivals) (Received m ok :: es)
| selects_tick now fired attempt finish arrivals connected oks es :
    now + 100 * nanos_per_milli <= fired ->
    fired <= attempt -> attempt <= finish ->
    (forall a, head arrivals = Some a -> now + 100 * nanos_per_milli <= a.1) ->
    selects finish arrivals es ->
    selects now arrivals (Tick fired attempt connected oks :: es).

(** ** Invariant *)

Definition wf (self : t) : Prop :=
  (length (buffer self) <= MAX_BUFFER_SIZE)%nat /\
  INITIAL_RECONNECT_DELAY <= reconnect_delay self <= MAX_RECONNECT_DELAY /\
  (client self = true -> buffer self = []).

Lemma start_wf now : wf (start now).
Proof. split; [simpl; lia|]. split; [by vm_compute|done]. Qed.

Lemma length_push_back buf m :
  (length buf <= MAX_BUFFER_SIZE)%nat -> (length (push_back buf m) <= MAX_BUFFER_SIZE)%nat.
Proof.
  unfold push_back. destruct (Nat.ltb_spec (length buf) MAX_BUFFER_SIZE); [|done].
  rewrite length_app. simpl. lia.
Qed.

Lemma push_back_sublist buf m : push_back buf m `sublist_of` buf ++ [m].
Proof. unfold push_back. case_match; [done|]. apply sublist_inserts_r. done. Qed.

Lemma push_back_nil m : push_back [] m = [m].
Proof. reflexivity. Qed.

(** Every flush stops at its first failure: what it delivered, then that
    message, then what is lost, are the messages drained. *)
Lemma flush_spec oks k ms :
  let '(buf, c, delivered) := flush oks k ms [] in
  (c = true /\ buf = [] /\ delivered = ms /\ forall i, (i < length ms)%nat -> oks (k + i)%nat = true) \/
  (exists m lost, c = false /\ buf = [m] /\ ms = delivered ++ m :: lost /\
     oks (k + length delivered)%nat = false /\
     forall i, (i < length delivered)%nat -> oks (k + i)%nat = true).
Proof.
  revert k. induction ms as [|m ms IH]; intros k; simpl.
  - left. split_and!; auto. intros. lia.
  - destruct (oks k) eqn:Ek.
    + specialize (IH (S k)). destruct (flush oks (S k) ms []) as [[buf c] d].
      assert (Hshift : forall n, (forall i, (i < n)%nat -> oks (S k + i)%nat = true) ->
                       forall i, (i < S n)%nat -> oks (k + i)%nat = true).
      { intros n Hn [|i] Hi; [by rewrite Nat.add_0_r|].
        rewrite <- Nat.add_succ_comm. apply Hn. lia. }
      destruct IH as [(-> & -> & -> & Hall)|(m' & lost & -> & -> & -> & Hf & Hall)].
      * left. split_and!; auto. simpl. by apply Hshift.
      * right. exists m', lost. split_and!; [done|done|done| |by apply Hshift].
        change (length (m :: d)) with (S (length d)). by rewrite <- Nat.add_succ_comm.
    + right. exists m, ms. rewrite push_back_nil. split_and!; auto; [by rewrite Nat.add_0_r|simpl; lia].
Qed.

Lemma step_wf self e : wf self -> wf (step self e).1.
Proof.
  intros (Hl & Hd & Hc). destruct e as [m ok|now attempt connected oks]; simpl.
  - unfold receive. destruct (client self) eqn:Ec; [destruct ok|]; unfold wf; simpl;
      rewrite ?Ec; split_and!; auto using length_push_back; try lia; done.
  - unfold tick. destruct (due self now); [destruct connected|]; simpl.
    + pose proof (flush_spec oks 0 (buffer self)) as Hf.
      destruct (flush oks 0 (buffer self) []) as [[buf c] d]. simpl.
      assert (MAX_BUFFER_SIZE <> 0%nat) by done.
      destruct Hf as [(-> & -> & _)|(m & lost & -> & -> & _)]; unfold wf; simpl;
        split_and!; try done; lia.
    + unfold wf; simpl. unfold RECONNECT_BACKOFF_FACTOR.
      unfold INITIAL_RECONNECT_DELAY, MAX_RECONNECT_DELAY, nanos_per_second in *.
      split_and!; [done|lia|lia|done].
    + done.
Qed.

(** One iteration delivers and keeps, in order, some of what it had and what
    it received. *)
Lemma step_sublist self e :
  wf self -> (step self e).2 ++ buffer (step self e).1 `sublist_of` buffer self ++ received [e].
Proof.
  intros (_ & _ & Hc). destruct e as [m ok|now attempt connected oks]; simpl.
  - unfold receive. destruct (client self) eqn:Ec; [destruct ok|]; simpl;
      auto using push_back_sublist.
    by rewrite Hc.
  - rewrite app_nil_r. unfold tick. destruct (due self now); [destruct connected|]; simpl; auto.
    pose proof (flush_spec oks 0 (buffer self)) as Hf.
    destruct (flush oks 0 (buffer self) []) as [[buf c] d]. simpl.
    destruct Hf as [(_ & -> & -> & _)|(m & lost & _ & -> & -> & _)].
    + by rewrite app_nil_r.
    + apply sublist_app; [done|]. apply sublist_skip, sublist_nil_l.
Qed.

Lemma received_cons e es : received (e :: es) = received [e] ++ received es.
Proof. unfold received. simpl. by rewrite app_nil_r. Qed.

Lemma run_wf es : forall self, wf self -> wf (run_client_task self es).1.
Proof.
  induction es as [|e es IH]; intros self Hw; [done|]. simpl.
  pose proof (step_wf self e Hw) as Hs. destruct (step self e) as [self' d].
  specialize (IH self' Hs). by destruct (run_client_task self' es).
Qed.

Lemma run_sublist es : forall self, wf self ->
  (run_client_task self es).2 ++ buffer (run_client_task self es).1
    `sublist_of` buffer self ++ received es.
Proof.
  induction es as [|e es IH]; intros self Hw; [by rewrite app_nil_r|].
  rewrite received_cons, app_assoc. simpl.
  pose proof (step_wf self e Hw) as Hs. pose proof (step_sublist self e Hw) as Hl.
  destruct (step self e) as [self' d]. specialize (IH self' Hs). simpl in *.
  destruct (run_client_task self' es) as [self'' ds]. simpl in *.
  rewrite <- app_assoc. etrans; [apply sublist_app; [reflexivity|exact IH]|].
  rewrite app_assoc. by apply sublist_app.
Qed.

(** ** Lossless runs *)

(** No send of a flush fails. *)
Definition flush_reliable (e : Event) : Prop :=
  match e with Received _ _ => True | Tick _ _ _ oks => forall k, oks k = true end.

Lemma step_lossless self e :
  wf self -> flush_reliable e ->
  (length (buffer self ++ received [e]) <= MAX_BUFFER_SIZE)%nat ->
  (step self e).2 ++ buffer (step self e).1 = buffer self ++ received [e].
Proof.
  intros (_ & _ & Hc) Hr. destruct e as [m ok|now attempt connected oks]; simpl.
  - rewrite length_app. simpl. intros Hl.
    assert (Hp : push_back (buffer self) m = buffer self ++ [m]).
    { unfold push_back. destruct (Nat.ltb_spec (length (buffer self)) MAX_BUFFER_SIZE);
        [done|lia]. }
    unfold receive. destruct (client self); [destruct ok|]; simpl; rewrite ?Hp; auto.
    by rewrite Hc.
  - intros _. rewrite app_nil_r. unfold tick.
    destruct (due self now); [destruct connected|]; simpl; auto.
    pose proof (flush_spec oks 0 (buffer self)) as Hf.
    destruct (flush oks 0 (buffer self) []) as [[buf c] d]. simpl.
    destruct Hf as [(_ & -> & -> & _)|(m & lost & _ & _ & _ & Hfail & _)];
      [apply app_nil_r|congruence].
Qed.

Lemma run_lossless es : forall self,
  wf self -> Forall flush_reliable es ->
  (length (buffer self ++ received es) <= MAX_BUFFER_SIZE)%nat ->
  (run_client_task self es).2 ++ buffer (run_client_task self es).1 =
    buffer self ++ received es.
Proof.
  induction es as [|e es IH]; intros self Hw Hr Hl; [by rewrite app_nil_r|].
  apply Forall_cons in Hr as [He Hr].
  rewrite received_cons, !length_app in Hl. rewrite received_cons, app_assoc. simpl.
  pose proof (step_wf self e Hw) as Hs.
  pose proof (step_lossless self e Hw He ltac:(rewrite length_app; lia)) as Hl1.
  destruct (step self e) as [self' d]. simpl in *.
  assert (Hlen : (length (buffer self' ++ received es) <= MAX_BUFFER_SIZE)%nat).
  { apply (f_equal length) in Hl1. rewrite !length_app in *. lia. }
  specialize (IH self' Hs Hr Hlen).
  destruct (run_client_task self' es) as [self'' ds]. simpl in *.
  by rewrite <- app_assoc, IH, app_assoc, Hl1.
Qed.

(** ** Backoff *)

Lemma tick_failed self now attempt oks :
  due self now = true ->
  tick self now attempt false oks =
    (mk (buffer self) false
        (Z.min (reconnect_delay self * RECONNECT_BACKOFF_FACTOR) MAX_RECONNECT_DELAY)
        attempt, []).
Proof. unfold tick. by intros ->. Qed.

(** ** Timer *)

(** Each message arrives less than 100 ms after the one before it. *)
Fixpoint dense (now : Z) (arrivals : list (Z * IpcMessage)) : Prop :=
  match arrivals with
  | [] => True
  | (at_, _) :: rest => now <= at_ < now + 100 * nanos_per_milli /\ dense at_ rest
  end.

Lemma selects_dense now arrivals es :
  selects now arrivals es -> dense now arrivals -> (length es <= length arrivals)%nat ->
  Forall (fun e => exists m ok, e = Received m ok) es.
Proof.
  induction 1 as [|now at_ m arrivals ok es _ IH|now f a fi arrivals c oks es _ _ _ Hh _ _];
    [done| |]; simpl; intros Hd Hl.
  - destruct Hd as [Ha Hd]. constructor; [eauto|]. apply IH; [|lia].
    by rewrite Z.max_r by lia.
  - destruct arrivals as [|[at_ m] arrivals]; simpl in *; [lia|].
    specialize (Hh _ eq_refl). simpl in Hh. lia.
Qed.

Lemma receive_disconnected self m ok :
  client self = false -> receive self m ok = (send_closed self m, []).
Proof. unfold receive, send_closed. by intros ->. Qed.

(** A task that only receives while disconnected keeps the first messages. *)
Lemma run_received es : forall self,
  client self = false -> (length (buffer self) <= MAX_BUFFER_SIZE)%nat ->
  Forall (fun e => exists m ok, e = Received m ok) es ->
  run_client_task self es =
    (mk (take MAX_BUFFER_SIZE (buffer self ++ received es)) false
        (reconnect_delay self) (last_connect_attempt self), []).
Proof.
  induction es as [|e es IH]; intros [buf c d l] Hc Hl Hall; simpl in *.
  - rewrite app_nil_r, take_ge by lia. by rewrite Hc.
  - apply Forall_cons in Hall as [(m & ok & ->) Hall]. subst c. simpl.
    rewrite IH; simpl; [|done|by apply length_push_back|done].
    f_equal. f_equal. unfold push_back.
    destruct (Nat.ltb_spec (length buf) MAX_BUFFER_SIZE); [by rewrite <- app_assoc|].
    rewrite !take_app_le, !take_ge by lia. done.
Qed.

(** ** Unreachable monitor *)

Definition unreachable (e : Event) : Prop :=
  match e with Received _ _ => True | Tick _ _ connected _ => connected = false end.

(** The connection attempts of a run *)
Fixpoint attempts (self : t) (es : list Event) : nat :=
  match es with
  | [] => 0
  | e :: es =>
      (match e with Tick now _ _ _ => if due self now then 1 else 0 | _ => 0 end +
       attempts (step self e).1 es)%nat
  end.

Lemma run_cons self e es :
  (run_client_task self (e :: es)).1 = (run_client_task (step self e).1 es).1.
Proof. simpl. destruct (step self e) as [s d]. simpl. by destruct (run_client_task s es). Qed.

Lemma run_unreachable es : forall self,
  client self = false -> Forall unreachable es ->
  0 < reconnect_delay self <= MAX_RECONNECT_DELAY ->
  client (run_client_task self es).1 = false /\
  reconnect_delay (run_client_task self es).1 =
    Z.min (reconnect_delay self * 2 ^ Z.of_nat (attempts self es)) MAX_RECONNECT_DELAY.
Proof.
  induction es as [|e es IH]; intros self Hc Hu Hd.
  - simpl. rewrite Z.mul_1_r, Z.min_l by lia. done.
  - apply Forall_cons in Hu as [He Hu]. rewrite run_cons.
    change (attempts self (e :: es)) with
      ((match e with Tick now _ _ _ => if due self now then 1 else 0 | _ => 0 end +
        attempts (step self e).1 es)%nat).
    destruct e as [m ok|now attempt connected oks]; simpl in *.
    + rewrite receive_disconnected by done. apply (IH (send_closed self m)); done.
    + subst connected. destruct (due self now) eqn:Ed.
      * rewrite tick_failed in * by done. simpl.
        destruct (IH (mk (buffer self) false
                   (Z.min (reconnect_delay self * RECONNECT_BACKOFF_FACTOR) MAX_RECONNECT_DELAY)
                   attempt)) as [Hc' ->]; [done|done| |].
        { simpl. unfold RECONNECT_BACKOFF_FACTOR, MAX_RECONNECT_DELAY, nanos_per_second in *.
          lia. }
        split; [exact Hc'|]. simpl. unfold RECONNECT_BACKOFF_FACTOR.
        set (k := attempts _ es). rewrite Nat2Z.inj_succ, Z.pow_succ_r by lia.
        pose proof (Z.pow_pos_nonneg 2 (Z.of_nat k) ltac:(lia) ltac:(lia)). nia.
      * unfold tick in *. rewrite Ed in *. simpl. apply IH; done.
Qed.

End client.
Arguments t : clear implicits.
Arguments Event : clear implicits.
End BufferedIpcClient.

Import BufferedIpcClient.

(** ** Properties *)

(** C40: whatever connects, fails and arrives, what has been delivered and then
    what is buffered is a subsequence of what was submitted: no message is
    reordered or duplicated.  At most 10,000 messages are buffered, none while
    connected, and the reconnect delay is between 1 and 30 seconds.  When no
    send of a flush fails and at most 10,000 messages arrive, none is lost. *)
Theorem buffered_delivery {Msg} (now : Z) (es : list (Event Msg)) :
  let '(self, delivered) := run_client_task (start now) es in
  delivered ++ buffer self `sublist_of` received es /\
  Z.of_nat (length (buffer self)) <= 10000 /\
  (client self = true -> buffer self = []) /\
  1 * nanos_per_second <= reconnect_delay self <= 30 * nanos_per_second /\
  (Forall flush_reliable es -> Z.of_nat (length (received es)) <= 10000 ->
   delivered ++ buffer self = received es).
Proof.
  pose proof (run_wf es _ (start_wf now)) as (Hl & Hd & Hc).
  pose proof (run_sublist es _ (start_wf now)) as Hs.
  pose proof (run_lossless es _ (start_wf now)) as Hx.
  destruct (run_client_task (start now) es) as [self delivered]. simpl in *.
  unfold MAX_BUFFER_SIZE in *. split_and!; [done|lia|done|apply Hd|apply Hd|].
  intros Hr Hn. apply Hx; [done|lia].
Qed.

(** While the monitor is unreachable the delay doubles with every attempt
    from 1 second to at most 30, so the client tries again at the first timer
    at least 30 seconds after the last attempt. *)
Theorem reconnect_backoff {Msg} (now : Z) (es : list (Event Msg)) :
  Forall unreachable es ->
  let self := (run_client_task (start now) es).1 in
  client self = false /\
  reconnect_delay self =
    Z.min (2 ^ Z.of_nat (attempts (start now) es)) 30 * nanos_per_second /\
  (forall later, last_connect_attempt self + 30 * nanos_per_second <= later ->
   due self later = true).
Proof.
  intros Hu self. destruct (run_unreachable es (start now)) as [Hc Hd]; [done..|].
  fold self in Hc, Hd.
  assert (Hd' : reconnect_delay self =
    Z.min (2 ^ Z.of_nat (attempts (start now) es)) 30 * nanos_per_second).
  { rewrite Hd. simpl. unfold INITIAL_RECONNECT_DELAY, MAX_RECONNECT_DELAY, nanos_per_second.
    lia. }
  split_and!; [done|done|]. intros later Hl. unfold due. rewrite Hc, Hd'. simpl.
  apply Z.leb_le. unfold nanos_per_second in *. lia.
Qed.

(** When a send fails while the buffer is flushed, its message is buffered
    again, but the messages drained after it are dropped. *)
Theorem failed_flush_drops_messages {Msg} (self : BufferedIpcClient.t Msg) now attempt oks
    sent m lost :
  due self now = true ->
  buffer self = sent ++ m :: lost ->
  (forall i, (i < length sent)%nat -> oks i = true) ->
  oks (length sent) = false ->
  tick self now attempt true oks =
    (mk [m] false INITIAL_RECONNECT_DELAY attempt, sent).
Proof.
  intros Hdue Hb Hok Hf. unfold tick. rewrite Hdue, Hb.
  pose proof (flush_spec oks 0 (sent ++ m :: lost)) as Hs.
  destruct (flush oks 0 (sent ++ m :: lost) []) as [[buf c] d].
  destruct Hs as [(_ & _ & _ & Hall)|(m' & lost' & -> & -> & Heq & Hf' & Hall)].
  - specialize (Hall (length sent)). simpl in Hall. rewrite Hall in Hf; [done|].
    rewrite length_app. simpl. lia.
  - destruct (Nat.lt_total (length d) (length sent)) as [Hlt|[Hd|Hgt]].
    + rewrite Hok in Hf'; done.
    + apply app_inj_len in Heq as [-> Heq]; [|done]. by simplify_eq.
    + specialize (Hall (length sent) Hgt). simpl in Hall. congruence.
Qed.

(** The timer starts anew in every iteration, so while messages arrive less
    than 100 ms apart a disconnected client never tries to reconnect: nothing
    is delivered, and once 10,000 messages are buffered the rest are dropped. *)
Theorem busy_client_never_reconnects {Msg} (self : BufferedIpcClient.t Msg) now arrivals es :
  wf self -> client self = false ->
  dense now arrivals -> selects now arrivals es -> (length es <= length arrivals)%nat ->
  run_client_task self es =
    (mk (take MAX_BUFFER_SIZE (buffer self ++ received es)) false
        (reconnect_delay self) (last_connect_attempt self), []).
Proof.
  intros (Hl & _) Hc Hd Hs Hle.
  exact (run_received es self Hc Hl (selects_dense now arrivals es Hs Hd Hle)).
Qed.

(** ** Concrete runs *)

Definition secs (n : Z) : Z := n * nanos_per_second.

(** Two failed attempts, then a connection that fails in its flush *)
Definition demo_run : list (Event nat) :=
  [Received 1%nat true;
   Tick (secs 1) (secs 1) false (fun _ => true);
   Received 2%nat true;
   Tick (secs 2) (secs 2) true (fun _ => true);
   Tick (secs 3) (secs 3) false (fun _ => true);
   Received 3%nat true;
   Tick (secs 7) (secs 7) true (fun k => (k <? 1)%nat);
   Received 4%nat true].

Example demo_run_result :
  run_client_task (start 0) demo_run =
    (mk [2%nat; 4%nat] false (secs 1) (secs 7), [1%nat]).
Proof. vm_compute. reflexivity. Qed.

Example reconnect_backoff_witness :
  let es := [Received 1%nat true; Tick (secs 1) (secs 1) false (fun _ => true);
             Tick (secs 3) (secs 3) false (fun _ => true)] in
  Forall unreachable es /\ reconnect_delay (run_client_task (start 0) es).1 = secs 4.
Proof.
  intros es. assert (Hu : Forall unreachable es) by (repeat constructor).
  split; [exact Hu|]. destruct (reconnect_backoff 0 es Hu) as (_ & -> & _).
  vm_compute. reflexivity.
Defined.

Example failed_flush_drops_messages_witness :
  let self := mk [1%nat; 2%nat; 3%nat] false INITIAL_RECONNECT_DELAY 0 in
  tick self (secs 1) (secs 1) true (fun k => (k <? 1)%nat) =
    (mk [2%nat] false INITIAL_RECONNECT_DELAY (secs 1), [1%nat]).
Proof.
  intros self.
  apply (failed_flush_drops_messages self (secs 1) (secs 1) (fun k => (k <? 1)%nat)
           [1%nat] 2%nat [3%nat]); [vm_compute; reflexivity|reflexivity| |reflexivity].
  intros [|i] Hi; [reflexivity|simpl in Hi; lia].
Defined.

Example busy_client_never_reconnects_witness :
  let arrivals := [(50 * nanos_per_milli, 1%nat); (140 * nanos_per_milli, 2%nat)] in
  let es := [Received 1%nat true; Received 2%nat true] in
  dense 0 arrivals /\ selects 0 arrivals es /\
  (run_client_task (start 0) es).2 = [].
Proof.
  intros arrivals es.
  assert (Hd : dense 0 arrivals) by (cbv; repeat split; congruence).
  assert (Hs : selects 0 arrivals es) by (repeat constructor).
  split_and!; [exact Hd|exact Hs|].
  rewrite (busy_client_never_reconnects (start 0) 0 arrivals es (start_wf 0) eq_refl Hd Hs
             (le_n 2)).
  reflexivity.
Defined.
