(* ===== verification/Utf8.v ===== *)
(** UTF-8 decoding as the Rust standard library does it:
    [String::from_utf8_lossy] and [chars().take(n)]. *)

From S2P Require Import Prelude.

Module Utf8.

Definition between (lo hi : Z) (b : Byte.byte) : bool :=
  (lo <=? Z_of_byte b) && (Z_of_byte b <=? hi).

Definition continuation (b : Byte.byte) : bool := between 128 191 b.

(** The bytes of the longest prefix of a code point at the head of [bs], which
    is not empty, and whether it is a whole code point *)
Definition chunk (bs : bytes) : nat * bool :=
  match bs with
  | [] => (0%nat, true)
  | b :: bs =>
      let second (ok : Byte.byte -> bool) (width : nat) : nat * bool :=
        match bs with
        | c :: bs =>
            if ok c then
              match width, bs with
              | 2%nat, _ => (2%nat, true)
              | 3%nat, d :: _ => if continuation d then (3%nat, true) else (2%nat, false)
              | 4%nat, d :: e :: _ =>
                  if continuation d then
                    if continuation e then (4%nat, true) else (3%nat, false)
                  else (2%nat, false)
              | 4%nat, [d] => if continuation d then (3%nat, false) else (2%nat, false)
              | _, _ => (2%nat, false)
              end
            else (1%nat, false)
        | [] => (1%nat, false)
        end in
      if between 0 127 b then (1%nat, true)
      else if between 194 223 b then second continuation 2%nat
      else if between 224 224 b then second (between 160 191) 3%nat
      else if between 225 236 b || between 238 239 b then second continuation 3%nat
      else if between 237 237 b then second (between 128 159) 3%nat
      else if between 240 240 b then second (between 144 191) 4%nat
      else if between 241 243 b then second continuation 4%nat
      else if between 244 244 b then second (between 128 143) 4%nat
      else (1%nat, false)
  end.

(** U+FFFD *)
Definition replacement : bytes := [Byte.xef; Byte.xbf; Byte.xbd].

Fixpoint lossy (fuel : nat) (bs : bytes) : bytes :=
  match fuel, bs with
  | S fuel, _ :: _ =>
      let '(n, valid) := chunk bs in
      (if valid then take n bs else replacement) ++ lossy fuel (drop n bs)
  | _, _ => []
  end.

Definition from_utf8_lossy (bs : bytes) : string :=
  String.string_of_list_byte (lossy (length bs) bs).

(** Whether [String::from_utf8] accepts the bytes: every chunk is a whole code
    point. *)
Fixpoint valid (fuel : nat) (bs : bytes) : bool :=
  match fuel, bs with
  | S fuel, _ :: _ => let '(n, ok) := chunk bs in ok && valid fuel (drop n bs)
  | _, [] => true
  | O, _ :: _ => false
  end.

Definition from_utf8 (bs : bytes) : bool := valid (length bs) bs.

(** [s.chars().take(n).collect()] *)
Fixpoint chars_take (n : nat) (s : string) : string :=
  match s with
  | EmptyString => EmptyString
  | String c s =>
      if is_continuation_byte c then String c (chars_take n s)
      else match n with
           | O => EmptyString
           | S n => String c (chars_take n s)
           end
  end.

(** Every chunk consumes some byte and no more than there are, so the length is
    enough fuel. *)
Lemma chunk_size bs : bs <> [] -> (1 <= (chunk bs).1 <= length bs)%nat.
Proof.
  destruct bs as [|b bs]; [done|]. intros _. unfold chunk.
  repeat first [case_match|progress simpl]; simplify_eq; simpl; lia.
Qed.

Lemma lossy_fuel fuel bs :
  (length bs <= fuel)%nat -> lossy fuel bs = lossy (length bs) bs.
Proof.
  assert (H : forall n fuel fuel' bs, (length bs <= n)%nat -> (length bs <= fuel)%nat ->
            (length bs <= fuel')%nat -> lossy fuel bs = lossy fuel' bs).
  { clear. induction n as [|n IH]; intros fuel fuel' bs Hn Hf Hf'.
    - destruct bs; [by destruct fuel, fuel'|simpl in Hn; lia].
    - destruct bs as [|b bs]; [by destruct fuel, fuel'|].
      destruct fuel as [|fuel]; [simpl in Hf; lia|].
      destruct fuel' as [|fuel']; [simpl in Hf'; lia|].
      cbn [lossy]. pose proof (chunk_size (b :: bs) ltac:(done)) as Hc.
      destruct (chunk (b :: bs)) as [k v]. cbn [fst] in Hc. f_equal.
      apply IH; rewrite length_drop; cbn [length] in *; lia. }
  intros Hl. apply (H (length bs)); lia.
Qed.

(** ASCII text is its own decoding. *)
Lemma lossy_ascii bs : Forall (fun b => Z_of_byte b <= 127) bs -> lossy (length bs) bs = bs.
Proof.
  induction 1 as [|b bs Hb _ IH]; [done|].
  assert (Hc : chunk (b :: bs) = (1%nat, true)).
  { unfold chunk, between. assert (0 <= Z_of_byte b) by (unfold Z_of_byte; lia).
    by rewrite (proj2 (Z.leb_le 0 (Z_of_byte b))), (proj2 (Z.leb_le (Z_of_byte b) 127)) by lia. }
  change (lossy (length (b :: bs)) (b :: bs)) with
    (let '(n, valid) := chunk (b :: bs) in
     (if valid then take n (b :: bs) else replacement) ++ lossy (length bs) (drop n (b :: bs))).
  rewrite Hc. transitivity (b :: lossy (length bs) bs); [done|]. by rewrite IH.
Qed.

(** An overlong form, a lone continuation byte and a truncated code point *)
Example lossy_overlong :
  lossy 2 [Byte.xc0; Byte.x80] = replacement ++ replacement.
Proof. reflexivity. Qed.

Example lossy_truncated :
  lossy 4 [Byte.x61; Byte.xe2; Byte.x82; Byte.x62] =
    [Byte.x61] ++ replacement ++ [Byte.x62].
Proof. reflexivity. Qed.

Example lossy_valid :
  lossy 3 [Byte.xe2; Byte.x82; Byte.xac] = [Byte.xe2; Byte.x82; Byte.xac].
Proof. reflexivity. Qed.

End Utf8.

(** ** Valid text *)

(** A whole code point is read without looking behind it. *)
Lemma chunk_app bs cs : bs <> [] -> (Utf8.chunk bs).2 = true -> Utf8.chunk (bs ++ cs) = Utf8.chunk bs.
Proof.
  destruct bs as [|b bs]; [done|]. intros _. unfold Utf8.chunk. cbn [app].
  repeat case_match; simplify_eq/=; try done; intros; simplify_eq/=; congruence.
Qed.

Lemma valid_fuel fuel bs : (length bs <= fuel)%nat -> Utf8.valid fuel bs = Utf8.from_utf8 bs.
Proof.
  assert (H : forall n fuel fuel' bs, (length bs <= n)%nat -> (length bs <= fuel)%nat -> (length bs <= fuel')%nat ->
            Utf8.valid fuel bs = Utf8.valid fuel' bs).
  { clear. induction n as [|n IH]; intros fuel fuel' bs Hn Hf Hf'.
    - destruct bs; [by destruct fuel, fuel'|cbn in Hn; lia].
    - destruct bs as [|b bs]; [by destruct fuel, fuel'|].
      destruct fuel as [|fuel]; [cbn in Hf; lia|]. destruct fuel' as [|fuel']; [cbn in Hf'; lia|].
      cbn [Utf8.valid]. pose proof (Utf8.chunk_size (b :: bs) ltac:(done)) as Hc.
      destruct (Utf8.chunk (b :: bs)) as [k v]. cbn [fst] in Hc. f_equal.
      apply IH; rewrite length_drop; cbn [length] in *; lia. }
  intros Hl. apply (H (length bs)); lia.
Qed.

(** One code point at a time *)
Lemma from_utf8_step b bs :
  Utf8.from_utf8 (b :: bs) =
    (Utf8.chunk (b :: bs)).2 && Utf8.from_utf8 (drop (Utf8.chunk (b :: bs)).1 (b :: bs)).
Proof.
  pose proof (Utf8.chunk_size (b :: bs) ltac:(done)) as Hc.
  change (Utf8.from_utf8 (b :: bs)) with
    (let '(n, ok) := Utf8.chunk (b :: bs) in ok && Utf8.valid (length bs) (drop n (b :: bs))).
  destruct (Utf8.chunk (b :: bs)) as [k v]. cbn [fst snd] in *. f_equal.
  apply valid_fuel. rewrite length_drop. cbn [length] in *. lia.
Qed.

Lemma from_utf8_app bs cs : Utf8.from_utf8 bs = true -> Utf8.from_utf8 (bs ++ cs) = Utf8.from_utf8 cs.
Proof.
  remember (length bs) as n eqn:E. assert (Hn : (length bs <= n)%nat) by lia. clear E. revert bs Hn.
  induction n as [|n IH]; intros bs Hn; [by destruct bs; [|cbn in Hn; lia]|].
  destruct bs as [|b bs]; [done|]. rewrite from_utf8_step, andb_true_iff. intros [Hok Hr].
  pose proof (Utf8.chunk_size (b :: bs) ltac:(done)) as Hc.
  change ((b :: bs) ++ cs) with (b :: (bs ++ cs)). rewrite from_utf8_step.
  change (b :: (bs ++ cs)) with ((b :: bs) ++ cs). rewrite chunk_app, Hok, drop_app_le by (done || lia). cbn [andb].
  apply IH; [rewrite length_drop; cbn [length] in *; lia|done].
Qed.
