(* ===== verification/Gencode.v ===== *)
(** Execution plans ([acdp-common/src/gencode.rs]): the policy with its
    capability tokens, the graph of nodes, and the request and response of
    code generation. *)

From S2P Require Import Prelude Externs Messages.

Abbreviation CapabilityId := string.

Inductive NetworkPolicy : Type := Disabled | Limited | Full.
Inductive MountMode : Type := ReadOnly | ReadWrite.

Inductive CapabilityKind : Type :=
| KindSandboxExecution | KindFileRead | KindFileWrite | KindNetwork | KindCodeFragment | KindData.

Inductive CapabilityOrigin : Type := Trusted | UserProvided | External.

Inductive CapabilitySink : Type :=
| SandboxExecution | FileRead | FileWrite | NetworkRequest | Emit.

#[global] Instance NetworkPolicy_eq_dec : EqDecision NetworkPolicy.
Proof. solve_decision. Defined.
#[global] Instance CapabilitySink_eq_dec : EqDecision CapabilitySink.
Proof. solve_decision. Defined.

(** [{:?}] *)
Definition sink_debug (sink : CapabilitySink) : string :=
  match sink with
  | SandboxExecution => "SandboxExecution"
  | FileRead => "FileRead"
  | FileWrite => "FileWrite"
  | NetworkRequest => "NetworkRequest"
  | Emit => "Emit"
  end.

Module MountSpec.
Record t : Type := mk { host_path : string; sandbox_path : string; mode : MountMode }.
End MountSpec.

Module CapabilityToken.
Record t : Type := mk {
  id : CapabilityId;
  kind : CapabilityKind;
  origin : CapabilityOrigin;
  allowed_sinks : list CapabilitySink
}.
End CapabilityToken.

Module ExecutionPolicy.
Record t : Type := mk {
  timeout_secs : option Z;
  max_cpu_seconds : option f64;
  max_memory_bytes : option Z;
  heartbeat_interval_secs : option Z;
  decay_threshold : option Z;
  mounts : list MountSpec.t;
  network : NetworkPolicy;
  identity_jwt : option string;
  capabilities : list CapabilityToken.t
}.

Definition default : t := mk (Some 30) None None (Some 5) (Some 3) [] Disabled None [].
End ExecutionPolicy.

Inductive PlanNodeKind : Type :=
| RunPython (code : string) (capability : CapabilityId)
| ReadFile (path : string) (output_capability : CapabilityId)
| WriteFile (path : string) (input_capability : CapabilityId)
| EmitNode (input_capability : CapabilityId).

Module PlanNode.
Record t : Type := mk { id : string; kind : PlanNodeKind }.
End PlanNode.

(** [PlanGraph] with its only field [nodes] *)
Module PlanGraph.
Record t : Type := mk { nodes : list PlanNode.t }.
Definition default : t := mk [].
End PlanGraph.

Inductive ExecutionPayload : Type :=
| Script (language code : string)
| Container (image : string) (command : list string) (env : gmap string string)
| Workflow (steps : list ExecutionStep)
| Empty
with ExecutionStep : Type :=
| MkStep (name : string) (payload : ExecutionPayload) (metadata : gmap string string).

Section plans.
Context `{U : UuidApi, C : ChronoApi, JN : JsonNumbers}.

Record ExecutionPlan : Type := MkPlan {
  plan_id : Uuid;
  payload : ExecutionPayload;
  graph : PlanGraph.t;
  policy : ExecutionPolicy.t;
  metadata : gmap string string;
  created_at : DateTime
}.

(** [empty()], with the identifier and the time it generates *)
Definition empty_plan (id : Uuid) (now : DateTime) : ExecutionPlan :=
  MkPlan id Empty PlanGraph.default ExecutionPolicy.default ∅ now.

Record CodeGenerationSpec : Type := MkSpec {
  description : string;
  target_language : option string;
  context : gmap string Value
}.

Record CodeGenerationRequest : Type := MkRequest {
  request_id : Uuid;
  spec : CodeGenerationSpec;
  request_policy : ExecutionPolicy.t;
  request_metadata : gmap string string
}.

Definition new_request (id : Uuid) (spec : CodeGenerationSpec) (policy : ExecutionPolicy.t)
  : CodeGenerationRequest :=
  MkRequest id spec policy ∅.

Record CodeGenerationResponse : Type := MkResponse {
  plan : ExecutionPlan;
  warnings : list string;
  diagnostics : list string
}.

Definition new_response (plan : ExecutionPlan) : CodeGenerationResponse := MkResponse plan [] [].

Definition empty_response (id : Uuid) (now : DateTime) : CodeGenerationResponse :=
  new_response (empty_plan id now).

End plans.
