(* ===== verification/Execution.v ===== *)
(** Executions that survive reconnection ([acdp-sandbox/src/execution.rs],
    with the request and result types of [types.rs]): the state with its
    bounded output buffers, the handle, and the background tasks of a
    monitored execution as steps that interleave. *)

From stdpp Require Import relations.
From S2P Require Import Prelude Externs.

(** ** [types.rs] *)

Module ExecutionRequest.

Record t : Type := mk {
  code : string;
  timeout_secs : option Z;
  env : list (string * string);
  stdin : option string
}.

Definition new (code : string) : t := mk code None [] None.

Definition with_timeout (self : t) (secs : Z) : t :=
  mk (code self) (Some secs) (env self) (stdin self).

Definition with_env (self : t) (key value : string) : t :=
  mk (code self) (timeout_secs self) (env self ++ [(key, value)]) (stdin self).

End ExecutionRequest.

Module ExecutionResult.

Record t : Type := mk {
  exit_code : Z;
  duration_ms : Z;
  timed_out : bool;
  error : option string
}.

Definition success (self : t) : bool :=
  (exit_code self =? 0) && negb (timed_out self) &&
  match error self with None => true | Some _ => false end.

End ExecutionResult.

(** ** [tokio::sync::mpsc::channel(capacity)]

    A channel whose receiver nobody reads, because the sender's own function
    still holds it; [chan_send] is [None] when the send waits for room that
    nobody makes. *)

Class ChannelApi (A : Type) := {
  Chan : Type;
  chan_new : nat -> Chan;
  chan_send : Chan -> A -> option Chan;
  chan_capacity : Chan -> nat;
  chan_queue : Chan -> list A
}.

(** A send completes exactly when there is room, and queues its value. *)
Class ChannelLaws {A} {CA : ChannelApi A} := {
  chan_capacity_new n : chan_capacity (chan_new n) = n;
  chan_queue_new n : chan_queue (chan_new n) = [];
  chan_send_room c x :
    (length (chan_queue c) < chan_capacity c)%nat ->
    exists c', chan_send c x = Some c' /\ chan_capacity c' = chan_capacity c /\
               chan_queue c' = chan_queue c ++ [x];
  chan_send_full c x :
    (chan_capacity c <= length (chan_queue c))%nat -> chan_send c x = None
}.
Arguments ChannelLaws {A} CA.

Section channel.
Context {A : Type} {CA : ChannelApi A}.

(** The loops that send every line of a buffer *)
Fixpoint send_all (c : Chan) (xs : list A) : option Chan :=
  match xs with
  | [] => Some c
  | x :: xs => match chan_send c x with Some c => send_all c xs | None => None end
  end.

Lemma send_all_spec {CL : ChannelLaws CA} (xs : list A) : forall c,
  (length (chan_queue c) <= chan_capacity c)%nat ->
  match send_all c xs with
  | Some c' => (length (chan_queue c ++ xs) <= chan_capacity c)%nat /\
               chan_queue c' = chan_queue c ++ xs
  | None => (chan_capacity c < length (chan_queue c ++ xs))%nat
  end.
Proof.
  induction xs as [|x xs IH]; intros c Hl; simpl; [by rewrite app_nil_r|].
  destruct (Nat.lt_ge_cases (length (chan_queue c)) (chan_capacity c)) as [Hlt|Hge].
  - destruct (chan_send_room c x Hlt) as (c' & -> & Hcap & Hq).
    specialize (IH c'). rewrite Hcap, Hq, <- app_assoc in IH. apply IH.
    rewrite length_app. simpl. lia.
  - rewrite chan_send_full by done. rewrite length_app. simpl. lia.
Qed.

Lemma send_all_new {CL : ChannelLaws CA} (n : nat) (xs : list A) :
  match send_all (chan_new n) xs with
  | Some c => (length xs <= n)%nat /\ chan_queue c = xs
  | None => (n < length xs)%nat
  end.
Proof.
  pose proof (send_all_spec xs (chan_new n)) as H.
  rewrite chan_queue_new, chan_capacity_new in H. apply H. simpl. lia.
Qed.
End channel.

Module ToyChannel.
#[global] Instance toy_channel {A} : ChannelApi A := {|
  Chan := nat * list A;
  chan_new n := (n, []);
  chan_send c x := if (length c.2 <? c.1)%nat then Some (c.1, c.2 ++ [x]) else None;
  chan_capacity c := c.1;
  chan_queue c := c.2
|}.

#[global] Instance toy_channel_laws {A} : ChannelLaws (toy_channel (A := A)).
Proof.
  split; simpl; [done|done| |]; intros [n q] x H; simpl in *.
  - destruct (Nat.ltb_spec (length q) n); [eauto|lia].
  - destruct (Nat.ltb_spec (length q) n); [lia|done].
Qed.
End ToyChannel.

(** What the receivers of a stream hold: [result] is [None] when its sender
    was dropped. *)
Module ExecutionStream.
Record t (CA : ChannelApi bytes) : Type := mk {
  stdout : Chan;
  stderr : Chan;
  result : option ExecutionResult.t
}.
Arguments mk {CA} stdout stderr result.
Arguments stdout {CA}.
Arguments stderr {CA}.
Arguments result {CA}.
End ExecutionStream.

(** ** State *)

Inductive ExecutionStatus : Type := Queued | Running | Completed | Failed | Cancelled.

#[global] Instance ExecutionStatus_eq_dec : EqDecision ExecutionStatus.
Proof. solve_decision. Defined.

(** [matches!(status, Completed | Failed | Cancelled)] *)
Definition is_final (s : ExecutionStatus) : bool :=
  match s with
  | Completed | Failed | Cancelled => true
  | Queued | Running => false
  end.

Module ExecutionState.
Section state.
Context `{U : UuidApi}.

Record t : Type := mk {
  id : Uuid;
  request : ExecutionRequest.t;
  status : ExecutionStatus;
  result : option ExecutionResult.t;
  stdout_buffer : list bytes;
  stderr_buffer : list bytes
}.

Definition new (id : Uuid) (request : ExecutionRequest.t) : t :=
  mk id request Queued None [] [].

Definition with_status (self : t) (s : ExecutionStatus) : t :=
  mk (id self) (request self) s (result self) (stdout_buffer self) (stderr_buffer self).

(** Make room, then push; [Vec::remove(0)] panics on an empty vector. *)
Definition push_line (buffer : list bytes) (line : bytes) (max_lines : nat)
  : option (list bytes) :=
  if (max_lines <=? length buffer)%nat then
    match buffer with
    | [] => None
    | _ :: rest => Some (rest ++ [line])
    end
  else Some (buffer ++ [line]).

Definition push_stdout (self : t) (line : bytes) (max_lines : nat) : option t :=
  match push_line (stdout_buffer self) line max_lines with
  | Some b => Some (mk (id self) (request self) (status self) (result self) b (stderr_buffer self))
  | None => None
  end.

Definition push_stderr (self : t) (line : bytes) (max_lines : nat) : option t :=
  match push_line (stderr_buffer self) line max_lines with
  | Some b => Some (mk (id self) (request self) (status self) (result self) (stdout_buffer self) b)
  | None => None
  end.

(** The end of the monitor's task *)
Definition finish (self : t) (r : ExecutionResult.t) : t :=
  mk (id self) (request self)
     (if ExecutionResult.success r then Completed else Failed) (Some r)
     (stdout_buffer self) (stderr_buffer self).

(** [reconnect] of a handle and of a monitored execution: the buffered lines
    go into channels of capacity 128 whose receivers are returned only
    afterwards. *)
Definition reconnect {CA : ChannelApi bytes} (self : t) : option (ExecutionStream.t CA) :=
  match send_all (chan_new 128) (stdout_buffer self) with
  | None => None
  | Some out =>
      match send_all (chan_new 128) (stderr_buffer self) with
      | None => None
      | Some err => Some (ExecutionStream.mk out err (result self))
      end
  end.

(** One poll of [wait]: [None] is another round of its loop. *)
Definition wait_poll (self : t) : option ExecutionResult.t :=
  if is_final (status self) then result self else None.

End state.
End ExecutionState.

(** ** Handle *)

(** The output and the result the runtime will send until it closes its
    senders *)
Module RuntimeStream.
Record t : Type := mk {
  stdout : list bytes;
  stderr : list bytes;
  result : option ExecutionResult.t
}.
End RuntimeStream.

Module ExecutionHandle.
Section handle.
Context `{U : UuidApi}.

Record t : Type := mk {
  id : Uuid;
  state : ExecutionState.t;
  stream : RuntimeStream.t
}.

Definition new (id : Uuid) (request : ExecutionRequest.t) (stream : RuntimeStream.t) : t :=
  mk id (ExecutionState.new id request) stream.

Definition is_complete (self : t) : bool := is_final (ExecutionState.status (state self)).

Definition cancel (self : t) : t :=
  mk (id self) (ExecutionState.with_status (state self) Cancelled) (stream self).

Definition reconnect {CA : ChannelApi bytes} (self : t) : option (ExecutionStream.t CA) :=
  ExecutionState.reconnect (state self).

Definition into_stream (self : t) : RuntimeStream.t := stream self.

End handle.
End ExecutionHandle.

(** ** Monitored execution *)

Module MonitoredExecution.
Section monitored.
Context `{U : UuidApi}.

(** Where the task spawned by [new] is *)
Inductive Phase : Type := Starting | Awaiting | Ended.

(** The shared state, what is still in the channels, and the task *)
Record t : Type := mk {
  state : ExecutionState.t;
  stdout : list bytes;
  stderr : list bytes;
  pending : option ExecutionResult.t;
  phase : Phase
}.

Definition new (handle : ExecutionHandle.t) : t :=
  mk (ExecutionHandle.state handle)
     (RuntimeStream.stdout (ExecutionHandle.stream handle))
     (RuntimeStream.stderr (ExecutionHandle.stream handle))
     (RuntimeStream.result (ExecutionHandle.stream handle)) Starting.

Definition max_lines : nat := Z.to_nat 1000.

(** The task sets the status and spawns the two readers; these and the rest of
    the task then run in any order.  Every step holds the lock. *)
Inductive step : t -> t -> Prop :=
| step_start s out err r :
    step (mk s out err r Starting)
         (mk (ExecutionState.with_status s Running) out err r Awaiting)
| step_stdout s s' line out err r ph :
    ph <> Starting -> ExecutionState.push_stdout s line max_lines = Some s' ->
    step (mk s (line :: out) err r ph) (mk s' out err r ph)
| step_stderr s s' line out err r ph :
    ph <> Starting -> ExecutionState.push_stderr s line max_lines = Some s' ->
    step (mk s out (line :: err) r ph) (mk s' out err r ph)
| step_result s out err r :
    step (mk s out err (Some r) Awaiting)
         (mk (ExecutionState.finish s r) out err (Some r) Ended)
| step_dropped s out err :
    step (mk s out err None Awaiting) (mk s out err None Ended).

Definition wait_poll (self : t) : option ExecutionResult.t :=
  ExecutionState.wait_poll (state self).

Definition reconnect {CA : ChannelApi bytes} (self : t) : option (ExecutionStream.t CA) :=
  ExecutionState.reconnect (state self).

End monitored.
Arguments step {U}.
End MonitoredExecution.

(** ** The last lines of an output *)

(** The last [n] elements of a list *)
Definition last_n {A} (n : nat) (l : list A) : list A := drop (length l - n) l.

Lemma last_n_short {A} n (l : list A) : (length l <= n)%nat -> last_n n l = l.
Proof. intros H. unfold last_n. by replace (length l - n)%nat with 0%nat by lia. Qed.

Lemma length_last_n {A} n (l : list A) : length (last_n n l) = (length l `min` n)%nat.
Proof. unfold last_n. rewrite length_drop. lia. Qed.

(** Pushing with a limit keeps the last lines, and never panics. *)
Lemma push_line_last_n n seen line :
  (0 < n)%nat ->
  ExecutionState.push_line (last_n n seen) line n = Some (last_n n (seen ++ [line])).
Proof.
  intros Hn. unfold ExecutionState.push_line. rewrite length_last_n.
  unfold last_n. rewrite length_app. simpl.
  destruct (Nat.leb_spec n (length seen `min` n)) as [Hge|Hlt].
  - destruct (drop (length seen - n) seen) as [|x rest] eqn:Ed.
    { apply (f_equal length) in Ed. rewrite length_drop in Ed. simpl in Ed. lia. }
    replace (length seen + 1 - n)%nat with (S (length seen - n)) by lia.
    rewrite drop_app_le by lia. replace (S (length seen - n)) with (length seen - n + 1)%nat by lia.
    rewrite <- drop_drop, Ed. done.
  - replace (length seen + 1 - n)%nat with 0%nat by lia.
    replace (length seen - n)%nat with 0%nat by lia. done.
Qed.

Lemma max_lines_pos : (0 < MonitoredExecution.max_lines)%nat.
Proof. unfold MonitoredExecution.max_lines. lia. Qed.

(** ** Invariant of the tasks *)

Import MonitoredExecution.

Section invariant.
Context `{U : UuidApi}.
Variables (id : Uuid) (request : ExecutionRequest.t) (stream : RuntimeStream.t).

(** A handle that was cancelled or not before it is monitored *)
Definition created (cancelled : bool) : ExecutionHandle.t :=
  let handle := ExecutionHandle.new id request stream in
  if cancelled then ExecutionHandle.cancel handle else handle.

(** The status and the result once the task is at [ph] *)
Definition outcome (cancelled : bool) (ph : Phase)
  : ExecutionStatus * option ExecutionResult.t :=
  match ph, RuntimeStream.result stream with
  | Starting, _ => (if cancelled then Cancelled else Queued, None)
  | Ended, Some r => (if ExecutionResult.success r then Completed else Failed, Some r)
  | _, _ => (Running, None)
  end.

(** The configuration when the task is at [ph] and the readers have seen
    [out] and [err] *)
Definition config (cancelled : bool) (ph : Phase) (out err out' err' : list bytes) : t :=
  MonitoredExecution.mk
    (ExecutionState.mk id request (outcome cancelled ph).1 (outcome cancelled ph).2
       (last_n max_lines out) (last_n max_lines err))
    out' err' (RuntimeStream.result stream) ph.

Definition phase_index (ph : Phase) : nat :=
  match ph with Starting => 0 | Awaiting => 1 | Ended => 2 end.

(** After [n] steps the task and the readers have come as far as [n] says. *)
Definition reached (cancelled : bool) (n : nat) (self : t) : Prop :=
  exists ph out err out' err',
    self = config cancelled ph out err out' err' /\
    RuntimeStream.stdout stream = out ++ out' /\
    RuntimeStream.stderr stream = err ++ err' /\
    n = (phase_index ph + length out + length err)%nat /\
    (ph = Starting -> out = [] /\ err = []).

Lemma reached_new cancelled : reached cancelled 0 (MonitoredExecution.new (created cancelled)).
Proof. exists Starting, [], [], (RuntimeStream.stdout stream), (RuntimeStream.stderr stream).
  split_and!; try done. by destruct cancelled. Qed.

Lemma reached_step cancelled n self self' :
  reached cancelled n self -> step self self' -> reached cancelled (S n) self'.
Proof.
  intros (ph & out & err & out' & err' & -> & Ho & He & -> & Hst) Hs.
  inversion Hs as [s o e r|s s' line o e r ph' Hph Hp|s s' line o e r ph' Hph Hp|s o e r|s o e];
    subst.
  - destruct (Hst eq_refl) as [-> ->]. exists Awaiting, [], [], out', err'.
    split_and!; try done.
  - unfold ExecutionState.push_stdout in Hp. simpl in Hp.
    rewrite (push_line_last_n _ _ _ max_lines_pos) in Hp. simplify_eq.
    exists ph, (out ++ [line]), err, o, err'. rewrite <- app_assoc, length_app.
    split_and!; try done; simpl; lia.
  - unfold ExecutionState.push_stderr in Hp. simpl in Hp.
    rewrite (push_line_last_n _ _ _ max_lines_pos) in Hp. simplify_eq.
    exists ph, out, (err ++ [line]), out', e. rewrite <- app_assoc, length_app.
    split_and!; try done; simpl; lia.
  - exists Ended, out, err, out', err'. split_and!; try done.
    unfold config, outcome, ExecutionState.finish. simpl. by rewrite <- H2.
  - exists Ended, out, err, out', err'. split_and!; try done.
    unfold config, outcome. simpl. by rewrite <- H2.
Qed.

Lemma reached_nsteps cancelled n self :
  nsteps step n (MonitoredExecution.new (created cancelled)) self -> reached cancelled n self.
Proof.
  intros H.
  assert (Hgen : forall n x y, nsteps step n x y -> forall k, reached cancelled k x ->
                 reached cancelled (k + n)%nat y).
  { clear. intros n x y. induction 1 as [|n x y z Hs Hn IH]; intros k Hk.
    - by rewrite Nat.add_0_r.
    - rewrite <- Nat.add_succ_comm. apply IH. by eapply reached_step. }
  exact (Hgen _ _ _ H 0%nat (reached_new cancelled)).
Qed.

(** Until everything was read and the task has ended, some step is possible. *)
Lemma reached_progress cancelled n self :
  reached cancelled n self ->
  (n < 2 + length (RuntimeStream.stdout stream) + length (RuntimeStream.stderr stream))%nat ->
  exists self', step self self'.
Proof.
  intros (ph & out & err & out' & err' & -> & -> & -> & -> & _) Hn.
  rewrite !length_app in Hn. destruct ph.
  - eexists. apply step_start.
  - unfold config. destruct (RuntimeStream.result stream);
      eexists; [apply step_result|apply step_dropped].
  - destruct out' as [|line out']; [destruct err' as [|line err']|].
    + simpl in Hn. lia.
    + eexists. apply step_stderr; [done|]. unfold ExecutionState.push_stderr. simpl.
      by rewrite (push_line_last_n _ _ _ max_lines_pos).
    + eexists. apply step_stdout; [done|]. unfold ExecutionState.push_stdout. simpl.
      by rewrite (push_line_last_n _ _ _ max_lines_pos).
Qed.

(** All steps done *)
Lemma reached_all cancelled self :
  reached cancelled
    (2 + length (RuntimeStream.stdout stream) + length (RuntimeStream.stderr stream)) self ->
  self = config cancelled Ended (RuntimeStream.stdout stream) (RuntimeStream.stderr stream) [] [].
Proof.
  intros (ph & out & err & out' & err' & -> & Ho & He & Hn & _).
  rewrite Ho, He, !length_app in Hn.
  assert (Hp : (phase_index ph <= 2)%nat) by (destruct ph; simpl; lia).
  destruct out' as [|]; [|simpl in Hn; lia]. destruct err' as [|]; [|simpl in Hn; lia].
  destruct ph; simpl in Hn; try lia. by rewrite Ho, He, !app_nil_r.
Qed.

Lemma reached_bound cancelled n self :
  reached cancelled n self ->
  (n <= 2 + length (RuntimeStream.stdout stream) + length (RuntimeStream.stderr stream))%nat.
Proof.
  intros (ph & out & err & out' & err' & -> & -> & -> & -> & _).
  rewrite !length_app. destruct ph; simpl; lia.
Qed.

End invariant.

(** ** Properties *)

(** C38: however the task and its two readers interleave, monitoring never
    gets stuck or panics and ends after one step for each line of output and
    two of the task.  Then the status and the result are those of the
    runtime's result, or [Running] and none if the runtime dropped it, and the
    buffers hold the last 1000 lines of each output.  A cancellation before
    monitoring has no effect. *)
Theorem monitoring_ends `{U : UuidApi} id request stream cancelled n self :
  let total := (2 + length (RuntimeStream.stdout stream)
                + length (RuntimeStream.stderr stream))%nat in
  nsteps step n (MonitoredExecution.new (created id request stream cancelled)) self ->
  ((n < total)%nat /\ exists self', step self self') \/
  (n = total /\ (forall self', ~ step self self') /\
   state self = ExecutionState.mk id request
     (match RuntimeStream.result stream with
      | Some r => if ExecutionResult.success r then Completed else Failed
      | None => Running
      end)
     (RuntimeStream.result stream)
     (last_n max_lines (RuntimeStream.stdout stream))
     (last_n max_lines (RuntimeStream.stderr stream))).
Proof.
  intros total Hn. apply reached_nsteps in Hn as Hr.
  destruct (decide (n < total)%nat) as [Hlt|Hge].
  - left. split; [done|]. by eapply reached_progress.
  - right. pose proof (reached_bound _ _ _ _ _ _ Hr) as Hb. fold total in Hb.
    assert (n = total) as -> by lia. split_and!; [done| |].
    + intros self' Hs. pose proof (reached_step _ _ _ _ _ _ _ Hr Hs) as Hr'.
      apply reached_bound in Hr'. fold total in Hr'. lia.
    + apply reached_all in Hr as ->. unfold config, outcome. simpl.
      by destruct (RuntimeStream.result stream).
Qed.

(** [wait] returns the runtime's result once the task has stored it, also
    while output is still unread, and no other value; if the runtime drops its
    sender, as it does when it fails, [wait] never returns. *)
Theorem wait_returns_runtime_result `{U : UuidApi} id request stream cancelled n self :
  nsteps step n (MonitoredExecution.new (created id request stream cancelled)) self ->
  wait_poll self = match phase self with Ended => RuntimeStream.result stream | _ => None end /\
  (RuntimeStream.result stream = None -> wait_poll self = None).
Proof.
  intros Hn. apply reached_nsteps in Hn.
  destruct Hn as (ph & out & err & out' & err' & -> & _).
  unfold wait_poll, ExecutionState.wait_poll, config, outcome. simpl.
  destruct (RuntimeStream.result stream) as [r|] eqn:Er.
  - destruct ph; simpl; [destruct cancelled| |destruct (ExecutionResult.success r)]; done.
  - destruct ph; simpl; [destruct cancelled| |]; done.
Qed.

(** Reconnecting to an execution whose output was read returns, with all
    lines and the result, only when both outputs have at most 128 lines; when
    either has more it never returns, as its lines are sent into a channel
    that nobody reads. *)
Theorem reconnect_outcome `{U : UuidApi} {CA : ChannelApi bytes} {CL : ChannelLaws CA}
    id request stream cancelled self :
  let out := RuntimeStream.stdout stream in
  let err := RuntimeStream.stderr stream in
  nsteps step (2 + length out + length err)
    (MonitoredExecution.new (created id request stream cancelled)) self ->
  match reconnect self with
  | Some s => (length out <= 128 /\ length err <= 128)%nat /\
              chan_queue (ExecutionStream.stdout s) = out /\
              chan_queue (ExecutionStream.stderr s) = err /\
              ExecutionStream.result s = RuntimeStream.result stream
  | None => (128 < length out \/ 128 < length err)%nat
  end.
Proof.
  intros out err Hn. apply reached_nsteps, reached_all in Hn as ->.
  fold out err. unfold reconnect, ExecutionState.reconnect, config. simpl.
  assert (H128 : (128 < max_lines)%nat) by (unfold max_lines; lia).
  pose proof (send_all_new 128 (last_n max_lines out)) as Ho.
  pose proof (send_all_new 128 (last_n max_lines err)) as He.
  destruct (send_all _ (last_n max_lines out)) as [co|]; rewrite length_last_n in Ho; [|lia].
  destruct (send_all _ (last_n max_lines err)) as [ce|]; rewrite length_last_n in He; [|lia].
  destruct Ho as [Ho Hqo], He as [He Hqe]. simpl. rewrite Hqo, Hqe, !last_n_short by lia.
  split_and!; try lia; try done. unfold outcome. by destruct (RuntimeStream.result stream).
Qed.

(** ** Concrete runs *)

Definition demo_result : ExecutionResult.t := ExecutionResult.mk 0 12 false None.

Definition demo_stream (lines : nat) : RuntimeStream.t :=
  RuntimeStream.mk (replicate lines (as_bytes "ok")) [] (Some demo_result).

Definition demo_state (status : ExecutionStatus) (result : option ExecutionResult.t)
    (out : list bytes) : ExecutionState.t (U := Toy.toy_uuid) :=
  ExecutionState.mk (U := Toy.toy_uuid) false (ExecutionRequest.new "true") status result out [].

(** Reading what is left of the output, one line at a time *)
Lemma demo_reads (status : ExecutionStatus) (result pending : option ExecutionResult.t)
    (ph : Phase) (out : list bytes) : forall seen,
  ph <> Starting ->
  nsteps (step (U := Toy.toy_uuid)) (length out)
    (MonitoredExecution.mk (demo_state status result (last_n max_lines seen)) out [] pending ph)
    (MonitoredExecution.mk (demo_state status result (last_n max_lines (seen ++ out))) [] []
       pending ph).
Proof.
  induction out as [|line out IH]; intros seen Hp; simpl; [rewrite app_nil_r; constructor|].
  change (line :: out) with ([line] ++ out). rewrite app_assoc.
  econstructor.
  - apply step_stdout; [done|]. unfold ExecutionState.push_stdout. simpl.
    by rewrite (push_line_last_n _ _ _ max_lines_pos).
  - exact (IH (seen ++ [line]) Hp).
Qed.

(** A run in which the result arrives before the output is read *)
Lemma demo_run (lines : nat) :
  nsteps (step (U := Toy.toy_uuid)) (2 + (lines + 0))
    (MonitoredExecution.new
       (created (U := Toy.toy_uuid) false (ExecutionRequest.new "true") (demo_stream lines) false))
    (MonitoredExecution.mk
       (demo_state Completed (Some demo_result)
          (last_n max_lines (replicate lines (as_bytes "ok")))) [] [] (Some demo_result) Ended).
Proof.
  econstructor; [apply step_start|]. econstructor; [apply step_result|].
  rewrite Nat.add_0_r.
  pose proof (demo_reads Completed (Some demo_result) (Some demo_result) Ended
                (replicate lines (as_bytes "ok")) [] ltac:(done)) as H.
  rewrite length_replicate in H. exact H.
Qed.

Example monitoring_ends_witness :
  exists self : MonitoredExecution.t (U := Toy.toy_uuid),
    ExecutionState.status (state self) = Completed /\ forall self', ~ step self self'.
Proof.
  destruct (monitoring_ends (U := Toy.toy_uuid) false (ExecutionRequest.new "true")
                       (demo_stream 3) false 5 _ (demo_run 3)) as [[Hlt _]|(_ & Hn & _)].
  - simpl in Hlt. lia.
  - eexists. split; [|exact Hn]. reflexivity.
Defined.

Example wait_returns_runtime_result_witness :
  exists self : MonitoredExecution.t (U := Toy.toy_uuid), wait_poll self = Some demo_result.
Proof.
  destruct (wait_returns_runtime_result (U := Toy.toy_uuid) false (ExecutionRequest.new "true")
              (demo_stream 3) false 5 _ (demo_run 3)) as [Hw _].
  eexists. exact Hw.
Defined.

(** 129 lines are too many. *)
Example reconnect_outcome_witness :
  exists self : MonitoredExecution.t (U := Toy.toy_uuid), reconnect self = None.
Proof.
  pose proof (reconnect_outcome (U := Toy.toy_uuid) false (ExecutionRequest.new "true")
                (demo_stream 129) false _ (demo_run 129)) as H.
  eexists. destruct (reconnect _) eqn:Er; [|exact Er].
  destruct H as [[Hl _] _]. simpl in Hl. lia.
Defined.
