(* ===== verification/Service.v ===== *)
(** The sandbox service ([acdp-sandbox/src/service.rs]): the table of
    executions and the interpreter of execution plans with its capability
    checks.  The runtime, the code generator, the file system, the clock and
    the source of identifiers are an environment the service calls; calls that
    matter outside are appended to a log. *)

From stdpp Require Import relations.
From S2P Require Import Prelude Externs Messages Utf8 Gencode Execution.

(** ** Environment

    [runtime] and [code_generator] are the trait objects the service holds.  A
    runtime's stream stands for all it will send; the interpreter waits until
    its channels are closed. *)
Class SandboxEnv `{U : UuidApi, C : ChronoApi, JN : JsonNumbers} := {
  World : Type;
  new_v4 : World -> Uuid * World;
  runtime_execute : ExecutionRequest.t -> World -> Res RuntimeStream.t string * World;
  generator_plan :
    CodeGenerationRequest -> World -> Res CodeGenerationResponse string * World;
  generator_record : ExecutionPlan -> bool -> Value -> World -> Res unit string * World;
  read_to_string : string -> World -> Res string string * World;
  write_file : string -> bytes -> World -> Res unit string * World;
  (** the text of [oneshot::error::RecvError] *)
  recv_error : string
}.

(** The service's errors, [anyhow] messages in the code *)
Inductive ServiceError : Type :=
| NoNodes
| MountsUnsupported
| NetworkUnsupported
| CapabilityMissing (id : CapabilityId)
| SinkNotPermitted (id : CapabilityId) (sink : CapabilitySink)
| NodeFailed (node_id : string) (error : option string)
| NodeResultLost (node_id error : string)
| CapabilityHasNoValue (id : CapabilityId)
| NoExecutableNodes
| ExternalError (message : string).

(** What a node does to the outside, with what came back *)
Inductive Effect : Type :=
| Ran (request : ExecutionRequest.t) (outcome : Res RuntimeStream.t string)
| DidRead (path : string) (outcome : Res string string)
| DidWrite (path : string) (data : bytes) (outcome : Res unit string)
| DidEmit (capability : CapabilityId) (len : nat).

Section service.
Context `{U : UuidApi, C : ChronoApi, JN : JsonNumbers} {EV : SandboxEnv}.

(** The effects of nodes, the outcomes recorded, and those recorded by a
    spawned task whose result nobody awaits *)
Inductive Entry : Type :=
| Performed (e : Effect)
| Recorded (success : bool) (metadata : Value)
| SpawnedRecord (metadata : Value).

(** [executions] of the service, between the world and the log *)
Record St : Type := MkSt {
  world : World;
  executions : list (Uuid * ExecutionState.t);
  log : list Entry
}.

Definition M (A : Type) : Type := St -> Res A ServiceError * St.

Definition ret {A} (a : A) : M A := fun s => (Ok a, s).
Definition bail {A} (e : ServiceError) : M A := fun s => (Err e, s).
Definition bind {A B} (m : M A) (k : A -> M B) : M B :=
  fun s => match m s with
           | (Ok a, s) => k a s
           | (Err e, s) => (Err e, s)
           end.

#[local] Notation "'let!' x ':=' m 'in' k" := (bind m (fun x => k))
  (at level 200, x pattern, m at level 100, k at level 200, right associativity).

Definition tell (e : Entry) : M unit :=
  fun s => (Ok tt, MkSt (world s) (executions s) (log s ++ [e])).

(** A call to the environment, its outcome as a value *)
Definition call {A} (f : World -> A * World) : M A :=
  fun s => let '(a, w) := f (world s) in (Ok a, MkSt w (executions s) (log s)).

(** [?] on an outside result *)
Definition lift {A} (r : Res A string) : M A :=
  match r with Ok a => ret a | Err e => bail (ExternalError e) end.

(** ** Executions *)

(** [executions.insert(id, state)] *)
Definition insert_execution (id : Uuid) (state : ExecutionState.t)
    (es : list (Uuid * ExecutionState.t)) : list (Uuid * ExecutionState.t) :=
  (id, state) :: List.filter (fun e => negb (bool_decide (e.1 = id))) es.

Definition execute_with_id (id : Uuid) (request : ExecutionRequest.t)
  : M (Res RuntimeStream.t string) :=
  fun s =>
    let es := insert_execution id (ExecutionState.new id request) (executions s) in
    let '(outcome, w) := runtime_execute request (world s) in
    (Ok outcome, MkSt w es (log s ++ [Performed (Ran request outcome)])).

Definition execute (request : ExecutionRequest.t) : M (Res RuntimeStream.t string) :=
  let! id := call new_v4 in execute_with_id id request.

Definition get_execution (s : St) (id : Uuid) : option ExecutionState.t :=
  match List.find (fun e => bool_decide (e.1 = id)) (executions s) with
  | Some e => Some e.2
  | None => None
  end.

Definition list_executions (s : St) : list ExecutionState.t := map snd (executions s).

(** [retain]; [busy] says for which executions [try_read] finds the lock taken. *)
Definition cleanup_completed (busy : Uuid -> bool) (s : St) : St :=
  MkSt (world s)
    (List.filter (fun e => busy e.1 || negb (is_final (ExecutionState.status e.2)))
       (executions s))
    (log s).

(** ** Plans *)

Definition json_error (text : string) : Value := VObject [("error", VString text)%string].

Definition json_option (o : option string) : Value :=
  match o with Some s => VString s | None => VNull end.

(** [record_execution_outcome(..).await?] *)
Definition record_execution_outcome (plan : ExecutionPlan) (success : bool)
    (metadata : Value) : M unit :=
  let! _ := tell (Recorded success metadata) in
  let! r := call (generator_record plan success metadata) in
  lift r.

Definition record_plan_failure (plan : ExecutionPlan) (node_id stage error : string) : M unit :=
  tell (SpawnedRecord (VObject
    [("plan_id", VString (uuid_to_string (plan_id plan))); ("node_id", VString node_id);
     ("stage", VString stage); ("error", VString error)]%string)).

Definition record_plan_result (plan : ExecutionPlan) (node_id : string)
    (result : ExecutionResult.t) (stdout stderr : string) : M unit :=
  record_execution_outcome plan (ExecutionResult.success result) (VObject
    [("plan_id", VString (uuid_to_string (plan_id plan))); ("node_id", VString node_id);
     ("exit_code", VNumber (num_from_i64 (ExecutionResult.exit_code result)));
     ("timed_out", VBool (ExecutionResult.timed_out result));
     ("stdout_preview", VString (Utf8.chars_take 200 stdout));
     ("stderr_preview", VString (Utf8.chars_take 200 stderr));
     ("error", json_option (ExecutionResult.error result))]%string).

Definition capabilities_of (plan : ExecutionPlan) : list CapabilityToken.t :=
  ExecutionPolicy.capabilities (policy plan).

Definition ensure_capability (plan : ExecutionPlan) (capability_id : CapabilityId)
    (sink : CapabilitySink) : Res CapabilityToken.t ServiceError :=
  match List.find (fun cap => String.eqb (CapabilityToken.id cap) capability_id)
          (capabilities_of plan) with
  | None => Err (CapabilityMissing capability_id)
  | Some token =>
      if bool_decide (sink ∈ CapabilityToken.allowed_sinks token) then Ok token
      else Err (SinkNotPermitted capability_id sink)
  end.

(** [err.to_string()] of the errors of [ensure_capability] *)
Definition capability_error_text (e : ServiceError) : string :=
  match e with
  | CapabilityMissing id => "Capability " +:+ id +:+ " missing"
  | SinkNotPermitted id sink =>
      "Capability " +:+ id +:+ " does not permit " +:+ sink_debug sink
  | _ => ""
  end.

Definition ensure_node_capability (plan : ExecutionPlan) (capability : CapabilityId)
    (sink : CapabilitySink) (node_id stage : string) : M CapabilityToken.t :=
  match ensure_capability plan capability sink with
  | Ok token => ret token
  | Err e =>
      let! _ := record_plan_failure plan node_id stage (capability_error_text e) in bail e
  end.

(** [map_err] with [record_plan_failure], then [?] *)
Definition or_record {A} (plan : ExecutionPlan) (node_id stage : string) (r : Res A string)
  : M A :=
  match r with
  | Ok a => ret a
  | Err e => let! _ := record_plan_failure plan node_id stage e in bail (ExternalError e)
  end.

(** [value_store] and [last_output] *)
Definition Store : Type := gmap CapabilityId string * option CapabilityId.

Definition request_of (plan : ExecutionPlan) (code : string) : ExecutionRequest.t :=
  match ExecutionPolicy.timeout_secs (policy plan) with
  | Some timeout => ExecutionRequest.with_timeout (ExecutionRequest.new code) timeout
  | None => ExecutionRequest.new code
  end.

(** The branch of [RunPython] *)
Definition run_python (plan : ExecutionPlan) (node_id code : string) (capability : CapabilityId)
    (st : Store) : M Store :=
  let! _ := ensure_node_capability plan capability SandboxExecution node_id "capability_check" in
  let! outcome := execute (request_of plan code) in
  let! stream := or_record plan node_id "execute_request" outcome in
  let output := Utf8.from_utf8_lossy (concat (RuntimeStream.stdout stream)) in
  let errors := Utf8.from_utf8_lossy (concat (RuntimeStream.stderr stream)) in
  match RuntimeStream.result stream with
  | Some exec_result =>
      let! _ := record_plan_result plan node_id exec_result output errors in
      if ExecutionResult.success exec_result
      then ret (<[capability := output]> st.1, Some capability)
      else bail (NodeFailed node_id (ExecutionResult.error exec_result))
  | None =>
      let! _ := record_plan_failure plan node_id "result_channel" recv_error in
      bail (NodeResultLost node_id recv_error)
  end.

Definition read_file (plan : ExecutionPlan) (node_id path : string)
    (output_capability : CapabilityId) (st : Store) : M Store :=
  let! _ := ensure_node_capability plan output_capability FileRead node_id "capability_check" in
  let! outcome := call (read_to_string path) in
  let! _ := tell (Performed (DidRead path outcome)) in
  let! content := or_record plan node_id "read_file" outcome in
  ret (<[output_capability := content]> st.1, Some output_capability).

(** A missing value is an error that is not recorded. *)
Definition write_node (plan : ExecutionPlan) (node_id path : string)
    (input_capability : CapabilityId) (st : Store) : M Store :=
  let! _ := ensure_node_capability plan input_capability FileWrite node_id "capability_check" in
  match st.1 !! input_capability with
  | None => bail (CapabilityHasNoValue input_capability)
  | Some value =>
      let data := as_bytes value in
      let! outcome := call (write_file path data) in
      let! _ := tell (Performed (DidWrite path data outcome)) in
      let! _ := or_record plan node_id "write_file" outcome in
      ret st
  end.

Definition emit_node (plan : ExecutionPlan) (node_id : string)
    (input_capability : CapabilityId) (st : Store) : M Store :=
  let! _ := ensure_node_capability plan input_capability Emit node_id "capability_check" in
  let data := from_option id ""%string (st.1 !! input_capability) in
  let! _ := tell (Performed (DidEmit input_capability (String.length data))) in
  ret (st.1, Some input_capability).

Definition run_node (plan : ExecutionPlan) (node : PlanNode.t) (st : Store) : M Store :=
  match PlanNode.kind node with
  | RunPython code capability => run_python plan (PlanNode.id node) code capability st
  | ReadFile path cap => read_file plan (PlanNode.id node) path cap st
  | WriteFile path cap => write_node plan (PlanNode.id node) path cap st
  | EmitNode cap => emit_node plan (PlanNode.id node) cap st
  end.

(** The loop over the nodes *)
Fixpoint run_nodes (plan : ExecutionPlan) (nodes : list PlanNode.t) (st : Store) : M Store :=
  match nodes with
  | [] => ret st
  | node :: nodes => let! st := run_node plan node st in run_nodes plan nodes st
  end.

(** Refuse a plan: record the reason, then fail. *)
Definition refuse {A} (plan : ExecutionPlan) (text : string) (e : ServiceError) : M A :=
  let! _ := record_execution_outcome plan false (json_error text) in bail e.

(** The stream the service returns: one chunk and a success *)
Definition final_stream (data : string) : RuntimeStream.t :=
  RuntimeStream.mk [as_bytes data] [] (Some (ExecutionResult.mk 0 0 false None)).

Definition interpret_plan (plan : ExecutionPlan) : M RuntimeStream.t :=
  match PlanGraph.nodes (graph plan), ExecutionPolicy.mounts (policy plan),
        ExecutionPolicy.network (policy plan) with
  | [], _, _ => refuse plan "plan contains no nodes" NoNodes
  | _, _ :: _, _ => refuse plan "mounts are not supported yet" MountsUnsupported
  | _, _, (Limited | Full) =>
      refuse plan "network access is not supported yet" NetworkUnsupported
  | nodes, [], Disabled =>
      let! st := run_nodes plan nodes (∅, None) in
      match st.2 with
      | None => refuse plan "plan produced no executable nodes" NoExecutableNodes
      | Some final_id => ret (final_stream (from_option id ""%string (st.1 !! final_id)))
      end
  end.

Definition execute_plan (plan : ExecutionPlan) : M RuntimeStream.t := interpret_plan plan.

Definition generate_plan (request : CodeGenerationRequest) : M CodeGenerationResponse :=
  let! r := call (generator_plan request) in lift r.

Definition plan_and_execute (request : CodeGenerationRequest)
  : M (CodeGenerationResponse * RuntimeStream.t) :=
  let! response := generate_plan request in
  let! stream := execute_plan (plan response) in
  ret (response, stream).

Definition generate_plan_from_spec (spec : CodeGenerationSpec) (policy : ExecutionPolicy.t)
    (metadata : option (gmap string string)) : M CodeGenerationResponse :=
  let! id := call new_v4 in
  let request := new_request id spec policy in
  generate_plan
    (match metadata with
     | Some meta => MkRequest (request_id request) (Gencode.spec request)
                      (request_policy request) meta
     | None => request
     end).

Definition plan_and_execute_spec (spec : CodeGenerationSpec) (policy : ExecutionPolicy.t)
    (metadata : option (gmap string string)) : M (CodeGenerationResponse * RuntimeStream.t) :=
  let! response := generate_plan_from_spec spec policy metadata in
  let! stream := execute_plan (plan response) in
  ret (response, stream).

(** ** Reasoning about effects

    [emits m Q]: whatever the state, the effects of nodes that [m] appends to
    the log and its result satisfy [Q]. *)

Definition effect_of (e : Entry) : option Effect :=
  match e with Performed e => Some e | _ => None end.

Definition node_effects (l : list Entry) : list Effect := omap effect_of l.

Definition emits {A} (m : M A) (Q : Res A ServiceError -> list Effect -> Prop) : Prop :=
  forall s, exists added, log (m s).2 = log s ++ added /\ Q (m s).1 (node_effects added).

Lemma node_effects_app l l' : node_effects (l ++ l') = node_effects l ++ node_effects l'.
Proof. apply omap_app. Qed.

Lemma emits_conseq {A} (m : M A) (Q Q' : Res A ServiceError -> list Effect -> Prop) :
  emits m Q -> (forall r es, Q r es -> Q' r es) -> emits m Q'.
Proof. intros H HQ s. destruct (H s) as (l & Hl & Hq). eauto. Qed.

Lemma emits_ret {A} (a : A) Q : Q (Ok a) [] -> emits (ret a) Q.
Proof. intros H s. exists []. by rewrite app_nil_r. Qed.

Lemma emits_bail {A} e (Q : Res A ServiceError -> list Effect -> Prop) :
  Q (Err e) [] -> emits (bail e) Q.
Proof. intros H s. exists []. by rewrite app_nil_r. Qed.

Lemma emits_bind {A B} (m : M A) (k : A -> M B) Q :
  emits m (fun r es =>
    match r with
    | Ok a => emits (k a) (fun r' es' => Q r' (es ++ es'))
    | Err e => Q (Err e) es
    end) ->
  emits (bind m k) Q.
Proof.
  intros H s. unfold bind. destruct (H s) as (l & Hl & Hq).
  destruct (m s) as [[a|e] s']; simpl in *; [|eauto].
  destruct (Hq s') as (l' & Hl' & Hq'). exists (l ++ l').
  by rewrite Hl', Hl, <- app_assoc, node_effects_app.
Qed.

Lemma emits_tell e Q :
  Q (Ok tt) (match effect_of e with Some e => [e] | None => [] end) -> emits (tell e) Q.
Proof. intros H s. exists [e]. split; [done|]. simpl. by destruct (effect_of e). Qed.

Lemma emits_call {A} (f : World -> A * World) Q : (forall a, Q (Ok a) []) -> emits (call f) Q.
Proof.
  intros H s. exists []. unfold call. destruct (f (world s)).
  split; [by rewrite app_nil_r|apply H].
Qed.

Lemma emits_execute request (Q : Res (Res RuntimeStream.t string) ServiceError -> list Effect -> Prop) :
  (forall outcome, Q (Ok outcome) [Ran request outcome]) -> emits (execute request) Q.
Proof.
  intros H. apply emits_bind, emits_call. intros uid s. unfold execute_with_id.
  destruct (runtime_execute request (world s)) as [outcome w].
  exists [Performed (Ran request outcome)]. split; [done|apply H].
Qed.

Lemma emits_record plan success metadata (Q : Res unit ServiceError -> list Effect -> Prop) :
  (forall r, Q r []) -> emits (record_execution_outcome plan success metadata) Q.
Proof.
  intros H. apply emits_bind, emits_tell, emits_bind, emits_call. intros [[]|e].
  - by apply emits_ret.
  - by apply emits_bail.
Qed.

Lemma emits_or_record {A} plan node_id stage (r : Res A string) Q :
  (forall a, r = Ok a -> Q (Ok a) []) -> (forall e, Q (Err e) []) ->
  emits (or_record plan node_id stage r) Q.
Proof.
  intros Ho He. destruct r as [a|e]; [by apply emits_ret, Ho|].
  apply emits_bind, emits_tell, emits_bail, He.
Qed.

(** ** What a plan permits *)

(** The first token with the capability's identifier lists the sink. *)
Definition permitted (plan : ExecutionPlan) (c : CapabilityId) (sink : CapabilitySink) : Prop :=
  exists before token after,
    capabilities_of plan = before ++ token :: after /\
    Forall (fun t => CapabilityToken.id t <> c) before /\
    CapabilityToken.id token = c /\ sink ∈ CapabilityToken.allowed_sinks token.

Lemma find_first {A} (f : A -> bool) (l : list A) (x : A) :
  List.find f l = Some x ->
  exists before after, l = before ++ x :: after /\ Forall (fun y => f y = false) before /\
                       f x = true.
Proof.
  induction l as [|y l IH]; [done|]. simpl. destruct (f y) eqn:Ey.
  - intros [= <-]. exists [], l. split_and!; [done|constructor|done].
  - intros H. destruct (IH H) as (before & after & -> & Hb & Hx).
    exists (y :: before), after. split_and!; [done|by constructor|done].
Qed.

Lemma ensure_capability_permitted plan c sink token :
  ensure_capability plan c sink = Ok token -> permitted plan c sink.
Proof.
  unfold ensure_capability. destruct (List.find _ _) as [tok|] eqn:Ef; [|done].
  case_bool_decide as Hs; [|done]. intros [= <-].
  apply find_first in Ef as (before & after & Hc & Hb & Ht).
  exists before, tok, after. split_and!; [done| |by apply String.eqb_eq|done].
  eapply Forall_impl; [exact Hb|]. intros t Hf. by apply String.eqb_neq.
Qed.

Lemma emits_ensure plan c sink node_id stage
    (Q : Res CapabilityToken.t ServiceError -> list Effect -> Prop) :
  (permitted plan c sink -> forall token, Q (Ok token) []) -> (forall e, Q (Err e) []) ->
  emits (ensure_node_capability plan c sink node_id stage) Q.
Proof.
  intros Ho He. unfold ensure_node_capability.
  destruct (ensure_capability plan c sink) as [token|e] eqn:E.
  - apply emits_ret, Ho. by eapply ensure_capability_permitted.
  - apply emits_bind, emits_tell, emits_bail, He.
Qed.

(** An effect is the one of a node, and permitted. *)
Definition authorised (plan : ExecutionPlan) (node : PlanNode.t) (e : Effect) : Prop :=
  match PlanNode.kind node, e with
  | RunPython code c, Ran request _ =>
      request = request_of plan code /\ permitted plan c SandboxExecution
  | ReadFile path c, DidRead path' _ => path' = path /\ permitted plan c FileRead
  | WriteFile path c, DidWrite path' _ _ => path' = path /\ permitted plan c FileWrite
  | EmitNode c, DidEmit c' _ => c' = c /\ permitted plan c Emit
  | _, _ => False
  end.

(** A write takes its data from the store. *)
Definition stored (store : gmap CapabilityId string) (node : PlanNode.t) (e : Effect) : Prop :=
  match PlanNode.kind node, e with
  | WriteFile _ c, DidWrite _ data _ => exists value, store !! c = Some value /\ data = as_bytes value
  | _, _ => True
  end.

(** What an effect yields, under its node's capability *)
Definition produced (node : PlanNode.t) (e : Effect) : option (CapabilityId * string) :=
  match PlanNode.kind node, e with
  | RunPython _ c, Ran _ (Ok stream) =>
      Some (c, Utf8.from_utf8_lossy (concat (RuntimeStream.stdout stream)))
  | ReadFile _ c, DidRead _ (Ok content) => Some (c, content)
  | _, _ => None
  end.

Definition after (st : Store) (node : PlanNode.t) (e : Effect) : Store :=
  (match produced node e with Some (c, value) => <[c := value]> st.1 | None => st.1 end,
   match PlanNode.kind node with
   | RunPython _ c | ReadFile _ c | EmitNode c => Some c
   | WriteFile _ _ => st.2
   end).

Definition succeeded (e : Effect) : Prop :=
  match e with
  | Ran _ (Ok stream) =>
      exists r, RuntimeStream.result stream = Some r /\ ExecutionResult.success r = true
  | DidRead _ (Ok _) | DidWrite _ _ (Ok _) | DidEmit _ _ => True
  | _ => False
  end.

(** The runs of the loop: nodes in order until one is refused or fails *)
Inductive trace (plan : ExecutionPlan)
  : Store -> list PlanNode.t -> list Effect -> Res Store ServiceError -> Prop :=
| trace_end st : trace plan st [] [] (Ok st)
| trace_refused st node nodes err : trace plan st (node :: nodes) [] (Err err)
| trace_failed st node nodes e err :
    authorised plan node e -> stored st.1 node e ->
    trace plan st (node :: nodes) [e] (Err err)
| trace_next st node nodes e es r :
    authorised plan node e -> stored st.1 node e -> succeeded e ->
    trace plan (after st node e) nodes es r ->
    trace plan st (node :: nodes) (e :: es) r.

(** What one node does *)
Definition node_outcome (plan : ExecutionPlan) (st : Store) (node : PlanNode.t)
    (r : Res Store ServiceError) (es : list Effect) : Prop :=
  match r with
  | Err _ => es = [] \/ exists e, es = [e] /\ authorised plan node e /\ stored st.1 node e
  | Ok st' => exists e, es = [e] /\ authorised plan node e /\ stored st.1 node e /\
                        succeeded e /\ st' = after st node e
  end.

Lemma outcome_failed plan st node e err :
  authorised plan node e -> stored st.1 node e -> node_outcome plan st node (Err err) [e].
Proof. right. eauto. Qed.

Lemma run_python_emits plan id code c st :
  emits (run_python plan id code c st) (node_outcome plan st (PlanNode.mk id (RunPython code c))).
Proof.
  apply emits_bind, emits_ensure; [intros Hp _|by left].
  apply emits_bind, emits_execute. intros outcome.
  assert (Ha : authorised plan (PlanNode.mk id (RunPython code c)) (Ran (request_of plan code) outcome))
    by done.
  apply emits_bind, emits_or_record; [intros stream ->|intros e; by apply outcome_failed].
  destruct (RuntimeStream.result stream) as [r|] eqn:Er.
  - apply emits_bind, emits_record. intros [[]|e]; [|by apply outcome_failed].
    destruct (ExecutionResult.success r) eqn:Es; [apply emits_ret|apply emits_bail].
    + eexists. split_and!; [done|done|done| |done]. simpl. eauto.
    + by apply outcome_failed.
  - apply emits_bind, emits_tell, emits_bail. by apply outcome_failed.
Qed.

Lemma read_file_emits plan id path c st :
  emits (read_file plan id path c st) (node_outcome plan st (PlanNode.mk id (ReadFile path c))).
Proof.
  apply emits_bind, emits_ensure; [intros Hp _|by left].
  apply emits_bind, emits_call. intros outcome. apply emits_bind, emits_tell. simpl.
  apply emits_bind, emits_or_record; [intros content ->; apply emits_ret|intros e; right].
  - eexists. by split_and!.
  - eexists. by split_and!.
Qed.

Lemma write_node_emits plan id path c st :
  emits (write_node plan id path c st) (node_outcome plan st (PlanNode.mk id (WriteFile path c))).
Proof.
  apply emits_bind, emits_ensure; [intros Hp _|by left].
  destruct (st.1 !! c) as [value|] eqn:Ev; [|apply emits_bail; by left].
  apply emits_bind, emits_call. intros outcome. apply emits_bind, emits_tell. simpl.
  pose (node := PlanNode.mk id (WriteFile path c)). pose (e := DidWrite path (as_bytes value) outcome).
  assert (Ha : authorised plan node e) by done.
  assert (Hs : stored st.1 node e) by (exists value; done).
  apply emits_bind, emits_or_record; [intros [] Ho; apply emits_ret|intros err].
  - exists e. split_and!; [done|exact Ha|exact Hs| |by destruct st].
    unfold e. by rewrite Ho.
  - by apply (outcome_failed plan st node e).
Qed.

Lemma emit_node_emits plan id c st :
  emits (emit_node plan id c st) (node_outcome plan st (PlanNode.mk id (EmitNode c))).
Proof.
  apply emits_bind, emits_ensure; [intros Hp _|by left].
  apply emits_bind, emits_tell, emits_ret. simpl. eexists. by split_and!.
Qed.

Lemma run_node_emits plan node st : emits (run_node plan node st) (node_outcome plan st node).
Proof.
  destruct node as [id [code c|path c|path c|c]]; unfold run_node; simpl;
    auto using run_python_emits, read_file_emits, write_node_emits, emit_node_emits.
Qed.

Lemma run_nodes_emits plan nodes : forall st,
  emits (run_nodes plan nodes st) (fun r es => trace plan st nodes es r).
Proof.
  induction nodes as [|node nodes IH]; intros st; [apply emits_ret; constructor|].
  apply emits_bind. eapply emits_conseq; [apply run_node_emits|].
  intros [st'|err] es Hn; simpl in Hn.
  - destruct Hn as (e & -> & Ha & Hs & Hok & ->).
    eapply emits_conseq; [apply IH|]. intros r es Ht. by apply trace_next.
  - destruct Hn as [->|(e & -> & Ha & Hs)]; constructor; done.
Qed.

Lemma refuse_emits {A} plan text e :
  emits (refuse (A := A) plan text e) (fun r es => es = [] /\ exists e, r = Err e).
Proof.
  apply emits_bind, emits_record. intros [[]|e']; [apply emits_bail|]; eauto.
Qed.

(** The interpreter's run as a trace *)
Lemma interpret_plan_emits plan :
  emits (interpret_plan plan) (fun r es =>
    (es = [] /\ exists e, r = Err e) \/
    (ExecutionPolicy.mounts (policy plan) = [] /\
     ExecutionPolicy.network (policy plan) = Disabled /\
     exists r', trace plan (∅, None) (PlanGraph.nodes (graph plan)) es r' /\
     forall stream, r = Ok stream ->
     exists store c, r' = Ok (store, Some c) /\
       stream = final_stream (from_option id ""%string (store !! c)))).
Proof.
  unfold interpret_plan.
  assert (Hr : forall text e, emits (refuse plan text e) (fun (r : Res RuntimeStream.t _) es =>
    (es = [] /\ exists e, r = Err e) \/
    (ExecutionPolicy.mounts (policy plan) = [] /\
     ExecutionPolicy.network (policy plan) = Disabled /\
     exists r', trace plan (∅, None) (PlanGraph.nodes (graph plan)) es r' /\
     forall stream, r = Ok stream ->
     exists store c, r' = Ok (store, Some c) /\
       stream = final_stream (from_option id ""%string (store !! c))))).
  { intros. eapply emits_conseq; [apply refuse_emits|]. by left. }
  destruct (PlanGraph.nodes (graph plan)) as [|node nodes] eqn:En; [apply Hr|].
  destruct (ExecutionPolicy.mounts (policy plan)); [|apply Hr].
  destruct (ExecutionPolicy.network (policy plan)); [|apply Hr..].
  apply emits_bind. eapply emits_conseq; [apply run_nodes_emits|].
  intros [[store [c|]]|e] es Ht; simpl.
  - apply emits_ret. right. rewrite app_nil_r. split_and!; [done|done|].
    eexists. split; [exact Ht|]. intros stream [= <-]. eauto.
  - eapply emits_conseq; [apply refuse_emits|]. intros r es' [-> [e ->]]. right.
    rewrite app_nil_r. split_and!; [done|done|]. eexists. by split; [exact Ht|].
  - right. split_and!; [done|done|]. eexists. by split; [exact Ht|].
Qed.

(** ** The values of a run *)

(** The nodes that ran, each with its effect *)
Abbreviation Steps := (list (PlanNode.t * Effect)).

Definition run_store (st : Store) (l : Steps) : Store :=
  foldl (fun st p => after st p.1 p.2) st l.

(** [value] is the last that [l] produced under [c]. *)
Definition silent_on (c : CapabilityId) (p : PlanNode.t * Effect) : Prop :=
  forall value, produced p.1 p.2 <> Some (c, value).

Definition latest (l : Steps) (c : CapabilityId) (value : string) : Prop :=
  exists before p rest, l = before ++ p :: rest /\ produced p.1 p.2 = Some (c, value) /\
                        Forall (silent_on c) rest.

(** The capability a node leaves as the last output *)
Definition output_capability (node : PlanNode.t) : option CapabilityId :=
  match PlanNode.kind node with
  | RunPython _ c | ReadFile _ c | EmitNode c => Some c
  | WriteFile _ _ => None
  end.

Lemma run_store_snoc st l p : run_store st (l ++ [p]) = after (run_store st l) p.1 p.2.
Proof. unfold run_store. by rewrite foldl_app. Qed.

Lemma latest_snoc l p c value :
  latest (l ++ [p]) c value <->
    produced p.1 p.2 = Some (c, value) \/ (silent_on c p /\ latest l c value).
Proof.
  split.
  - intros (before & q & rest & Heq & Hp & Hr).
    destruct rest as [|x rest _] using rev_ind.
    + apply app_inj_2 in Heq as [-> Heq]; [|done]. simplify_eq. by left.
    + rewrite app_comm_cons, app_assoc in Heq.
      apply app_inj_2 in Heq as [-> Heq]; [|done]. simplify_eq.
      apply Forall_app in Hr as [Hr Hx]. apply Forall_cons in Hx as [Hx _].
      right. split; [done|]. by exists before, q, rest.
  - intros [Hp|[Hs (before & q & rest & -> & Hp & Hr)]].
    + exists l, p, []. split_and!; [done|done|constructor].
    + exists before, q, (rest ++ [p]). split_and!; [by rewrite <- app_assoc|done|].
      apply Forall_app. split; [done|]. by apply Forall_singleton.
Qed.

(** The store holds the latest value of every capability. *)
Lemma run_store_latest l : forall c value,
  (run_store (∅, None) l).1 !! c = Some value <-> latest l c value.
Proof.
  induction l as [|p l IH] using rev_ind; intros c value.
  - split; [done|]. intros (before & q & rest & Heq & _). by destruct before.
  - rewrite run_store_snoc, latest_snoc, <- IH. unfold after, silent_on. simpl.
    destruct (produced p.1 p.2) as [[c' v]|].
    2: { split; [by right|by intros [?|[_ ?]]]. }
    destruct (decide (c' = c)) as [->|Hne].
    + rewrite lookup_insert_eq. split; [intros [= ->]; by left|].
      intros [[= ->]|[Hs _]]; [done|]. by destruct (Hs v).
    + rewrite lookup_insert_ne by done. split; [|intros [[= ? _]|[_ ?]]; done].
      intros H. right. split; [congruence|done].
Qed.

Lemma run_store_output l c :
  (run_store (∅, None) l).2 = Some c ->
  exists before p rest, l = before ++ p :: rest /\ output_capability p.1 = Some c /\
                        Forall (fun q => output_capability q.1 = None) rest.
Proof.
  induction l as [|p l IH] using rev_ind; [done|].
  rewrite run_store_snoc. unfold after, output_capability in *. simpl.
  destruct (PlanNode.kind p.1) as [code c'|path c'|path c'|c'] eqn:Ek;
    try (intros [= ->]; exists l, p, []; split_and!; [done|by rewrite Ek|constructor]).
  intros H. destruct (IH H) as (before & q & rest & -> & Hq & Hr).
  exists before, q, (rest ++ [p]). split_and!; [by rewrite <- app_assoc|done|].
  apply Forall_app. split; [done|]. apply Forall_singleton. by rewrite Ek.
Qed.

(** ** What the traces say *)

Lemma trace_authorised plan st nodes es r :
  trace plan st nodes es r -> Forall2 (authorised plan) (take (length es) nodes) es.
Proof. induction 1; simpl; repeat constructor; done. Qed.

Lemma trace_succeeded plan st nodes es r :
  trace plan st nodes es r -> forall es' e, es = es' ++ [e] -> Forall succeeded es'.
Proof.
  induction 1 as [st|st node nodes err|st node nodes e err _ _|st node nodes e es r _ _ Hs _ IH];
    intros es' e' Heq.
  - by destruct es'.
  - by destruct es'.
  - destruct es' as [|x es']; [constructor|]. by destruct es'.
  - destruct es' as [|x es']; simplify_eq/=; constructor; eauto.
Qed.

Lemma trace_Ok plan st nodes es st' :
  trace plan st nodes es (Ok st') ->
  length es = length nodes /\ Forall succeeded es /\ st' = run_store st (zip nodes es).
Proof.
  remember (Ok st') as r eqn:Er. induction 1; simplify_eq/=; auto.
  destruct IHtrace as (-> & ? & ->); auto.
Qed.

Lemma trace_stored plan st nodes es r :
  trace plan st nodes es r -> forall before p rest,
  zip nodes es = before ++ p :: rest -> stored (run_store st before).1 p.1 p.2.
Proof.
  induction 1 as [st|st node nodes err|st node nodes e err Ha Hs|st node nodes e es r Ha Hs Hok _ IH];
    intros before p rest Heq.
  - by destruct before.
  - by destruct before.
  - destruct before as [|x before]; simplify_eq/=; [done|].
    destruct nodes; by destruct before.
  - destruct before as [|x before]; simplify_eq/=; [done|]. eapply IH. done.
Qed.

(** ** Executions *)

(** All the table ever holds *)
Definition all_queued (s : St) : Prop :=
  Forall (fun e => ExecutionState.status e.2 = Queued) (executions s).

Definition keeps_queued {A} (m : M A) : Prop := forall s, all_queued s -> all_queued (m s).2.

Lemma keeps_ret {A} (a : A) : keeps_queued (ret a).
Proof. intros s Hs. exact Hs. Qed.
Lemma keeps_bail {A} e : keeps_queued (@bail A e).
Proof. intros s Hs. exact Hs. Qed.
Lemma keeps_tell e : keeps_queued (tell e).
Proof. intros s Hs. exact Hs. Qed.
Lemma keeps_call {A} (f : World -> A * World) : keeps_queued (call f).
Proof. intros s Hs. unfold call. destruct (f (world s)). exact Hs. Qed.
Lemma keeps_lift {A} (r : Res A string) : keeps_queued (lift r).
Proof. destruct r; intros s Hs; exact Hs. Qed.

Lemma keeps_bind {A B} (m : M A) (k : A -> M B) :
  keeps_queued m -> (forall a, keeps_queued (k a)) -> keeps_queued (bind m k).
Proof.
  intros Hm Hk s Hs. unfold bind. specialize (Hm s Hs).
  destruct (m s) as [[a|e] s']; [by apply Hk|done].
Qed.

Lemma Forall_List_filter {A} (P : A -> Prop) (f : A -> bool) (l : list A) :
  Forall P l -> Forall P (List.filter f l).
Proof. induction 1; simpl; [constructor|]. case_match; [by constructor|done]. Qed.

Lemma keeps_execute_with_id id request : keeps_queued (execute_with_id id request).
Proof.
  intros s Hs. unfold execute_with_id. destruct (runtime_execute request (world s)).
  apply Forall_cons. split; [done|]. by apply Forall_List_filter.
Qed.

Create HintDb queued discriminated.
#[local] Hint Resolve keeps_ret keeps_bail keeps_tell keeps_call keeps_lift keeps_execute_with_id
  : queued.
#[local] Ltac queued :=
  repeat first
    [ progress auto with queued
    | apply keeps_bind; [|intros ?]
    | case_match ].

Lemma keeps_run_node plan node st : keeps_queued (run_node plan node st).
Proof.
  unfold run_node, run_python, read_file, write_node, emit_node, ensure_node_capability,
    or_record, record_plan_result, record_plan_failure, record_execution_outcome, execute.
  queued.
Qed.

Lemma keeps_run_nodes plan nodes : forall st, keeps_queued (run_nodes plan nodes st).
Proof.
  induction nodes; intros st; [apply keeps_ret|].
  apply keeps_bind; [apply keeps_run_node|done].
Qed.
#[local] Hint Resolve keeps_run_nodes : queued.

Lemma keeps_execute_plan plan : keeps_queued (execute_plan plan).
Proof.
  unfold execute_plan, interpret_plan, refuse, record_execution_outcome. queued.
Qed.
#[local] Hint Resolve keeps_execute_plan : queued.

Lemma keeps_plan_and_execute request : keeps_queued (plan_and_execute request).
Proof. unfold plan_and_execute, generate_plan. queued. Qed.

Lemma keeps_plan_and_execute_spec spec policy metadata :
  keeps_queued (plan_and_execute_spec spec policy metadata).
Proof. unfold plan_and_execute_spec, generate_plan_from_spec, generate_plan. queued. Qed.

Lemma keeps_cleanup busy s : all_queued s -> all_queued (cleanup_completed busy s).
Proof. intros Hs. by apply Forall_List_filter. Qed.

Lemma filter_all {A} (f : A -> bool) (l : list A) :
  Forall (fun x => f x = true) l -> List.filter f l = l.
Proof. induction 1 as [|x l Hx _ IH]; simpl; [done|]. by rewrite Hx, IH. Qed.

(** The operations of a service, with the environment's changes in between *)
Inductive service_step : St -> St -> Prop :=
| service_execute id request s :
    service_step s (execute_with_id id request s).2
| service_plan plan s : service_step s (execute_plan plan s).2
| service_plan_and_execute request s : service_step s (plan_and_execute request s).2
| service_spec spec policy metadata s :
    service_step s (plan_and_execute_spec spec policy metadata s).2
| service_cleanup busy s : service_step s (cleanup_completed busy s)
| service_world w s : service_step s (MkSt w (executions s) (log s)).

Lemma service_step_queued s s' : service_step s s' -> all_queued s -> all_queued s'.
Proof.
  destruct 1; intros Hs.
  - by apply keeps_execute_with_id.
  - by apply keeps_execute_plan.
  - by apply keeps_plan_and_execute.
  - by apply keeps_plan_and_execute_spec.
  - by apply keeps_cleanup.
  - done.
Qed.

End service.

(** ** Properties *)

(** C14: interpreting a plan acts on the outside only as the plan's nodes say,
    one effect for each node, in their order, and only where the first
    capability token with the node's identifier permits the effect; not at all
    when the plan asks for mounts or network.  Every effect but the last
    succeeded, and all nodes ran and succeeded when a result is returned. *)
Theorem plan_effects_authorised
    `{U : UuidApi, C : ChronoApi, JN : JsonNumbers} {EV : SandboxEnv}
    (plan : ExecutionPlan) (s : St) :
  exists added, log (execute_plan plan s).2 = log s ++ added /\
  let es := node_effects added in
  let nodes := PlanGraph.nodes (graph plan) in
  (es <> [] -> ExecutionPolicy.mounts (policy plan) = [] /\
               ExecutionPolicy.network (policy plan) = Disabled) /\
  Forall2 (authorised plan) (take (length es) nodes) es /\
  (forall es' e, es = es' ++ [e] -> Forall succeeded es') /\
  (forall stream, (execute_plan plan s).1 = Ok stream ->
   length es = length nodes /\ Forall succeeded es).
Proof.
  destruct (interpret_plan_emits plan s) as (added & Hl & Hq).
  exists added. split; [exact Hl|]. cbv zeta.
  destruct Hq as [[-> [e He]]|(Hm & Hn & r' & Ht & Hr)].
  - split_and!; [done|by constructor| |].
    + intros es' e' Heq. by destruct es'.
    + intros stream Hs. unfold execute_plan in Hs. congruence.
  - split_and!; [done|by eapply trace_authorised|by eapply trace_succeeded|].
    intros stream Hs. destruct (Hr stream Hs) as (store & c & -> & _).
    by apply trace_Ok in Ht as (? & ? & _).
Qed.

(** C15: data do not cross capabilities.  What a plan writes to a file is the
    value last produced, by running code or reading a file, under the
    capability of the writing node; and the result of a plan is the value last
    produced under the capability of its last node that is not a write, or
    empty if there is none. *)
Theorem plan_data_flow
    `{U : UuidApi, C : ChronoApi, JN : JsonNumbers} {EV : SandboxEnv}
    (plan : ExecutionPlan) (s : St) :
  exists added, log (execute_plan plan s).2 = log s ++ added /\
  let steps := zip (PlanGraph.nodes (graph plan)) (node_effects added) in
  (forall before rest id path c path' data out,
   steps = before ++ (PlanNode.mk id (WriteFile path c), DidWrite path' data out) :: rest ->
   exists value, latest before c value /\ data = as_bytes value) /\
  (forall stream, (execute_plan plan s).1 = Ok stream ->
   exists before node e rest c,
     steps = before ++ (node, e) :: rest /\ output_capability node = Some c /\
     Forall (fun p => output_capability p.1 = None) rest /\
     ((exists value, latest steps c value /\ stream = final_stream value) \/
      ((forall value, ~ latest steps c value) /\ stream = final_stream ""))).
Proof.
  destruct (interpret_plan_emits plan s) as (added & Hl & Hq).
  exists added. split; [exact Hl|]. cbv zeta.
  destruct Hq as [[-> [e He]]|(Hm & Hn & r' & Ht & Hr)].
  - split.
    + intros before rest id path c path' data out Heq. rewrite zip_with_nil_r in Heq.
      by destruct before.
    + intros stream Hs. unfold execute_plan in Hs. congruence.
  - split.
    + intros before rest id path c path' data out Heq.
      destruct (trace_stored _ _ _ _ _ Ht _ _ _ Heq) as (value & Hv & Hd).
      exists value. split; [by apply run_store_latest|done].
    + intros stream Hs. destruct (Hr stream Hs) as (store & c & -> & ->).
      apply trace_Ok in Ht as (_ & _ & Hst). set (steps := zip _ _) in *.
      destruct (run_store_output steps c) as (before & [node e] & rest & Heq & Ho & Hrest);
        [by rewrite <- Hst|].
      exists before, node, e, rest, c. split_and!; [done|done|done|].
      assert (Hval : forall value, latest steps c value <-> store !! c = Some value)
        by (intros value; by rewrite <- run_store_latest, <- Hst).
      destruct (store !! c) as [value|].
      * left. exists value. by rewrite Hval.
      * right. split; [|done]. intros value. by rewrite Hval.
Qed.

(** The service registers executions but never updates them: after any of
    its operations every execution it lists is still [Queued], also one whose
    output was returned, so cleaning up completed executions removes nothing
    and the table only grows. *)
Theorem executions_never_complete
    `{U : UuidApi, C : ChronoApi, JN : JsonNumbers} {EV : SandboxEnv}
    (w : World) (s : St) busy id request :
  rtc service_step (MkSt w [] []) s ->
  Forall (fun state => ExecutionState.status state = Queued) (list_executions s) /\
  cleanup_completed busy s = s /\
  get_execution (execute_with_id id request s).2 id = Some (ExecutionState.new id request).
Proof.
  intros Hr.
  assert (Hq : all_queued s).
  { revert Hr. generalize (MkSt w [] []), (Forall_nil_2 (fun e : Uuid * ExecutionState.t =>
      ExecutionState.status e.2 = Queued) : all_queued (MkSt w [] [])).
    intros s0 H0. induction 1; [done|]. eauto using service_step_queued. }
  split_and!.
  - apply Forall_map. exact Hq.
  - destruct s as [w' es l]. unfold cleanup_completed. simpl. f_equal. apply filter_all.
    eapply Forall_impl; [exact Hq|]. simpl. intros e ->. apply orb_true_r.
  - unfold execute_with_id, get_execution.
    destruct (runtime_execute request (world s)). simpl. by rewrite bool_decide_true.
Qed.

(** ** Concrete plans *)

Module Demo.
#[local] Existing Instances Toy.toy_uuid Toy.toy_chrono ToyNumbers.toy_numbers.

(** A world of files, and a runtime that prints its code *)
#[global] Instance demo_env : SandboxEnv := {|
  World := gmap string string;
  new_v4 w := (true, w);
  runtime_execute request w :=
    (Ok (RuntimeStream.mk [as_bytes (ExecutionRequest.code request)] []
           (Some (ExecutionResult.mk 0 1 false None))), w);
  generator_plan request w := (Ok (empty_response (request_id request) 0), w);
  generator_record _ _ _ w := (Ok tt, w);
  read_to_string path w :=
    (match w !! path with Some content => Ok content | None => Err "not found"%string end, w);
  write_file path data w := (Ok tt, <[path := String.string_of_list_byte data]> w);
  recv_error := "channel closed"
|}.

Definition token (id : string) (sinks : list CapabilitySink) : CapabilityToken.t :=
  CapabilityToken.mk id KindData Trusted sinks.

Definition plan_of (tokens : list CapabilityToken.t) (nodes : list PlanNode.t) : ExecutionPlan :=
  MkPlan true Empty (PlanGraph.mk nodes)
    (ExecutionPolicy.mk (Some 30) None None None None [] Disabled None tokens) ∅ 0.

Definition demo_nodes : list PlanNode.t :=
  [PlanNode.mk "read" (ReadFile "in" "a");
   PlanNode.mk "run" (RunPython "42" "b");
   PlanNode.mk "write" (WriteFile "out" "a")].

Definition start : St := MkSt {["in" := "data"]}%string [] [].

(** The value read under [a] is written, and that of [b] is the result. *)
Example demo_plan :
  let tokens := [token "a" [FileRead; FileWrite]; token "b" [SandboxExecution]] in
  let '(r, s) := execute_plan (plan_of tokens demo_nodes) start in
  r = Ok (final_stream "42") /\ world s !! "out"%string = Some "data"%string.
Proof. vm_compute. by split. Qed.

(** Without the sink for writing, the plan stops before the write. *)
Example demo_plan_refused :
  let tokens := [token "a" [FileRead]; token "b" [SandboxExecution]] in
  let '(r, s) := execute_plan (plan_of tokens demo_nodes) start in
  r = Err (SinkNotPermitted "a" FileWrite) /\ world s !! "out"%string = None /\
  length (node_effects (log s)) = 2%nat.
Proof. vm_compute. by repeat split. Qed.

(** The stub generator's plan has no nodes. *)
Example demo_stub_generator :
  (plan_and_execute (new_request true (MkSpec "" None ∅) ExecutionPolicy.default) start).1 =
    Err NoNodes.
Proof. vm_refl. Qed.
End Demo.

Example executions_never_complete_witness :
  let tokens := [Demo.token "a" [FileRead; FileWrite]; Demo.token "b" [SandboxExecution]] in
  let s := (execute_plan (Demo.plan_of tokens Demo.demo_nodes) Demo.start).2 in
  length (list_executions s) = 1%nat /\ cleanup_completed (fun _ => false) s = s.
Proof.
  intros tokens s. split; [vm_compute; reflexivity|].
  assert (Hr : rtc service_step Demo.start s) by (eapply rtc_once, service_plan).
  exact (proj1 (proj2 (executions_never_complete _ s (fun _ => false) true
                         (ExecutionRequest.new "true") Hr))).
Defined.
