(* ===== verification/CodeGenerator.v ===== *)
(** The LLM code generator ([acdp-sandbox/src/gencode.rs]) with the streamed
    generation it reads ([acdp-llm/src/service.rs]): the prompt, the code in
    the reply, the plan made of it, and what is recorded of its outcome.  The
    plan is the interpreter's input ([Service]). *)

From S2P Require Import Prelude Externs Messages Transform Text Utf8 Gencode Execution Service Routing Predictor Gepa.

(** ** Streamed generation *)

Module GenerationMetrics.
Record t : Type := mk {
  total_tokens : nat;
  duration : Z;
  time_to_first_token : option Z;
  tokens_per_second : option f64;
  benchmark_info : bool
}.

(** The metrics when the engine has no benchmark; times in nanoseconds *)
Definition timed (token_count : nat) (total_elapsed : Z) (ttft : option Z) : t :=
  mk token_count total_elapsed ttft
    (if (0 <? token_count)%nat && negb (f64_geb f64_zero (as_secs_f64 total_elapsed))
     then Some (f64_div (f64_of_Z (Z.of_nat token_count)) (as_secs_f64 total_elapsed)) else None)
    false.
End GenerationMetrics.

Module GenerationRequest.
Record t : Type := mk { prompt : string; temperature : option f32; max_tokens : option nat }.
End GenerationRequest.

Inductive GenerationEvent : Type :=
| Token (token : string)
| Completed (metrics : GenerationMetrics.t).

(** [LlmEvent::GenerationFinished] *)
Module GenerationFinished.
Record t : Type := mk { metrics : GenerationMetrics.t; full_text : string }.
End GenerationFinished.

Module LlmService.

(** The task of a generation: the engine gives [tokens], and the reader of the
    handle takes events until it has [taken] that many.  A reader that is gone
    ends the task at the next token, with nothing published. *)
Definition stream_task (tokens : list string) (taken : nat) (metrics : GenerationMetrics.t)
  : list GenerationEvent * option GenerationFinished.t :=
  if (taken <? length tokens)%nat then (List.map Token (take taken tokens), None)
  else (List.map Token tokens ++ [Completed metrics],
        Some (GenerationFinished.mk metrics (String.concat "" tokens))).

(** [start_generation]; [conversation] and [stream] are the engine's answers *)
Definition start_generation (engine : bool) (conversation : LlmResult unit)
    (stream : LlmResult (list string)) : LlmResult (list string) :=
  if engine then
    match conversation with
    | Ok _ => stream
    | Err e => Err e
    end
  else Err (LlmError.ConfigError "No model engine available").

Section recording.
Context `{W : LlmWorld}.

Definition codegen_label (success : bool) : string :=
  if success then "codegen_success" else "codegen_failure".

Definition record_codegen_attempt (context_hash : string) (success : bool) (metadata : Value)
  : Db.M unit :=
  let label := codegen_label success in
  Db.bind (PredictionsDatabase.record_prediction context_hash label
             (if success then f64_of_Z 1 else f64_of_Z 0) metadata)
    (fun prediction_id => PredictionsDatabase.update_prediction_result prediction_id label).
End recording.
End LlmService.

(** ** Reading the reply *)

(** The tokens before the completion *)
Fixpoint collect_tokens (events : list GenerationEvent) : string :=
  match events with
  | Token token :: events => token +:+ collect_tokens events
  | Completed _ :: _ | [] => ""
  end.

Definition fence : string := "```".

Definition is_fence (line : string) : bool := starts_with fence (trim_start line).

(** The loop over the lines inside a block *)
Fixpoint block_lines (ls : list string) : list string :=
  match ls with
  | [] => []
  | l :: ls => if is_fence l then [] else l :: block_lines ls
  end.

Fixpoint collected (ls : list string) : list string :=
  match ls with
  | [] => []
  | l :: ls => if is_fence l then block_lines ls else collected ls
  end.

Definition extract_code_block (response : string) : option string :=
  match collected (lines response) with
  | [] => None
  | ls => Some (join newline ls)
  end.

Definition code_of (generated : string) : string :=
  trim (match extract_code_block generated with Some code => code | None => trim generated end).

(** ** The generator *)

Module LlmCodeGenerator.
Section generator.
Context `{U : UuidApi, C : ChronoApi, JT : JsonText}.

(** [order] is the order in which the hash map of the context is read. *)
Definition build_prompt (order : gmap string Value -> list (string * Value))
    (request : CodeGenerationRequest) : string :=
  "You are a secure code generation assistant. Generate minimal " +:+
  from_option id "python"%string (target_language (spec request)) +:+
  " code that satisfies the following description:" +:+ newline +:+
  description (spec request) +:+ newline +:+
  (if bool_decide (context (spec request) = ∅) then ""
   else newline +:+ "Context:" +:+ newline +:+
        String.concat "" (List.map (fun e => " - " +:+ e.1 +:+ ": " +:+ json_to_string e.2 +:+ newline)
          (order (context (spec request))))) +:+
  newline +:+ "Return ONLY the code, wrapped in a fenced code block.".

Definition capability_id : CapabilityId := "sandbox_exec"%string.

Definition execution_token : CapabilityToken.t :=
  CapabilityToken.mk capability_id KindSandboxExecution Trusted [SandboxExecution].

(** The request's policy, with the token added when there is none *)
Definition granted (policy : ExecutionPolicy.t) : ExecutionPolicy.t :=
  if existsb (fun cap => String.eqb (CapabilityToken.id cap) capability_id)
       (ExecutionPolicy.capabilities policy)
  then policy
  else ExecutionPolicy.mk (ExecutionPolicy.timeout_secs policy)
         (ExecutionPolicy.max_cpu_seconds policy) (ExecutionPolicy.max_memory_bytes policy)
         (ExecutionPolicy.heartbeat_interval_secs policy) (ExecutionPolicy.decay_threshold policy)
         (ExecutionPolicy.mounts policy) (ExecutionPolicy.network policy)
         (ExecutionPolicy.identity_jwt policy)
         (ExecutionPolicy.capabilities policy ++ [execution_token]).

(** [entry(key).or_insert(value)] *)
Definition or_insert (key value : string) (m : gmap string string) : gmap string string :=
  match m !! key with Some _ => m | None => <[key := value]> m end.

Definition plan_of (now : DateTime) (request : CodeGenerationRequest) (prompt code : string)
  : ExecutionPlan :=
  MkPlan (request_id request)
    (Script (from_option id "python"%string (target_language (spec request))) code)
    (PlanGraph.mk [PlanNode.mk "run_python" (RunPython code capability_id)])
    (granted (request_policy request))
    (or_insert "generated_code_preview" (Utf8.chars_take 200 code)
       (or_insert "prompt_preview" (Utf8.chars_take 200 prompt) (request_metadata request)))
    now.

(** [events] is what the handle of the generation gives. *)
Definition generate_plan (order : gmap string Value -> list (string * Value)) (now : DateTime)
    (request : CodeGenerationRequest) (events : LlmResult (list GenerationEvent))
  : Res CodeGenerationResponse string :=
  match events with
  | Err e => Err (LlmError.to_string e)
  | Ok events =>
      Ok (new_response (plan_of now request (build_prompt order request)
            (code_of (collect_tokens events))))
  end.

(** The name under which an outcome is recorded *)
Definition preview_of (plan_id_text : string) (plan : ExecutionPlan) : string :=
  match metadata plan !! "prompt_preview"%string with Some p => p | None => plan_id_text end.
End generator.
End LlmCodeGenerator.

(** ** The stream *)

Lemma collect_tokens_map tokens rest :
  collect_tokens (List.map Token tokens ++ rest) = String.concat "" tokens +:+ collect_tokens rest.
Proof.
  induction tokens as [|t ts IH]; [done|]. cbn [List.map app collect_tokens]. rewrite IH.
  destruct ts as [|t' ts]; [reflexivity|].
  change (String.concat "" (t :: t' :: ts)) with (t +:+ "" +:+ String.concat "" (t' :: ts)).
  by rewrite !str_app_assoc.
Qed.

(** A reader that stays to the end has read the text that is published. *)
Lemma finished_text tokens taken metrics finished :
  (LlmService.stream_task tokens taken metrics).2 = Some finished ->
  collect_tokens (LlmService.stream_task tokens taken metrics).1 = GenerationFinished.full_text finished.
Proof.
  unfold LlmService.stream_task. destruct (taken <? length tokens)%nat; [done|]. intros [= <-].
  cbn [fst GenerationFinished.full_text]. by rewrite collect_tokens_map, str_app_nil_r.
Qed.

(** ** Code blocks *)

(** Lines that are neither fences nor end in a carriage return *)
Definition plain (l : string) : Prop := whole_line l /\ is_fence l = false.

Lemma plain_whole ls : Forall plain ls -> Forall whole_line ls.
Proof. intros H. eapply Forall_impl; [exact H|]. by intros l []. Qed.

Lemma block_lines_plain ls rest : Forall plain ls -> block_lines (ls ++ rest) = ls ++ block_lines rest.
Proof. induction 1 as [|l ls [_ Hf] _ IH]; [done|]. cbn [app block_lines]. by rewrite Hf, IH. Qed.

Lemma collected_plain ls rest : Forall plain ls -> collected (ls ++ rest) = collected rest.
Proof. induction 1 as [|l ls [_ Hf] _ IH]; [done|]. cbn [app collected]. by rewrite Hf, IH. Qed.

Lemma prefix_nil s : String.prefix "" s = true.
Proof. by destruct s. Qed.

Lemma is_fence_language lang : is_fence (strip_return (fence +:+ lang)) = true.
Proof.
  assert (H : strip_return (fence +:+ lang) = fence +:+ strip_return lang) by by destruct lang.
  rewrite H. unfold is_fence, fence. apply prefix_nil.
Qed.

Lemma one_line_fence lang : one_line lang = true -> one_line (fence +:+ lang) = true.
Proof.
  intros H. change (fence +:+ lang) with (String "`" (String "`" (String "`" lang))).
  by rewrite !one_line_cons, H.
Qed.

(** A reply that puts its code between two fences gives exactly that code,
    whatever the prose before the block, the language named at its opening and
    the text behind it. *)
Theorem fenced_code_is_extracted prose lang code rest :
  Forall plain prose -> one_line lang = true -> Forall plain code -> code <> [] ->
  extract_code_block
    (unlines prose +:+ fence +:+ lang +:+ newline +:+ unlines code +:+ fence +:+ newline +:+ rest) =
  Some (join newline code).
Proof.
  intros Hp Hl Hc Hne. unfold extract_code_block.
  rewrite lines_unlines by (by apply plain_whole). rewrite <- (str_app_assoc fence lang), lines_cons by by apply one_line_fence.
  rewrite lines_unlines by (by apply plain_whole). rewrite lines_cons by done.
  rewrite collected_plain by done. cbn [collected]. rewrite is_fence_language, block_lines_plain by done.
  change (block_lines (strip_return fence :: lines rest)) with (@nil string). rewrite app_nil_r.
  by destruct code.
Qed.

(** ** The plan, interpreted *)

Section plans.
Context `{U : UuidApi, C : ChronoApi, JT : JsonText} {EV : SandboxEnv}.

Definition names_execution (cap : CapabilityToken.t) : bool :=
  String.eqb (CapabilityToken.id cap) LlmCodeGenerator.capability_id.

(** Whether a request's policy leaves generated code to be run: a token for
    execution that it already has decides *)
Definition execution_allowed (policy : ExecutionPolicy.t) : bool :=
  match List.find names_execution (ExecutionPolicy.capabilities policy) with
  | Some token => bool_decide (SandboxExecution ∈ CapabilityToken.allowed_sinks token)
  | None => true
  end.

Lemma find_app_none {A} (f : A -> bool) (l l' : list A) :
  List.find f l = None -> List.find f (l ++ l') = List.find f l'.
Proof. induction l as [|x l IH]; [done|]. cbn. by destruct (f x). Qed.

Lemma existsb_find {A} (f : A -> bool) (l : list A) :
  existsb f l = match List.find f l with Some _ => true | None => false end.
Proof. induction l as [|x l IH]; [done|]. cbn. by destruct (f x). Qed.

Lemma generated_capability now request prompt code :
  match ensure_capability (LlmCodeGenerator.plan_of now request prompt code)
          LlmCodeGenerator.capability_id SandboxExecution with
  | Ok _ => execution_allowed (request_policy request) = true
  | Err _ => execution_allowed (request_policy request) = false
  end.
Proof.
  unfold ensure_capability, execution_allowed, capabilities_of, LlmCodeGenerator.plan_of,
    LlmCodeGenerator.granted. cbn [policy].
  change (fun cap => String.eqb (CapabilityToken.id cap) LlmCodeGenerator.capability_id)
    with names_execution.
  rewrite existsb_find.
  destruct (List.find names_execution (ExecutionPolicy.capabilities (request_policy request)))
    as [token|] eqn:E.
  - rewrite E. by case_bool_decide.
  - cbn [ExecutionPolicy.capabilities]. rewrite find_app_none by done. done.
Qed.

Lemma granted_policy policy :
  ExecutionPolicy.mounts (LlmCodeGenerator.granted policy) = ExecutionPolicy.mounts policy /\
  ExecutionPolicy.network (LlmCodeGenerator.granted policy) = ExecutionPolicy.network policy.
Proof. unfold LlmCodeGenerator.granted. by destruct (existsb _ _). Qed.

Definition silent {A} (m : M A) : Prop := emits m (fun _ es => es = []).

(** Once the capability is there, the code is run, once. *)
Lemma run_python_runs plan id code c st token :
  ensure_capability plan c SandboxExecution = Ok token ->
  emits (run_python plan id code c st) (fun _ es => exists outcome, es = [Ran (request_of plan code) outcome]).
Proof.
  intros He. unfold run_python, ensure_node_capability. rewrite He.
  apply emits_bind, emits_ret, emits_bind, emits_execute. intros outcome.
  apply emits_bind, emits_or_record; [intros stream ->|intros e; by exists outcome].
  destruct (RuntimeStream.result stream) as [r|].
  - apply emits_bind, emits_record. intros [[]|e]; [|by eexists].
    destruct (ExecutionResult.success r); [apply emits_ret|apply emits_bail]; by eexists.
  - apply emits_bind, emits_tell, emits_bail. by eexists.
Qed.

Lemma run_python_refused plan id code c st e :
  ensure_capability plan c SandboxExecution = Err e ->
  emits (run_python plan id code c st) (fun r es => es = [] /\ exists e, r = Err e).
Proof.
  intros He. unfold run_python, ensure_node_capability. rewrite He.
  apply emits_bind, emits_bind, emits_tell, emits_bail. cbn. eauto.
Qed.

(** What interpreting the generated plan does *)
Definition generated_effects (plan : ExecutionPlan) (request : CodeGenerationRequest) (code : string)
    (r : Res RuntimeStream.t ServiceError) (es : list Effect) : Prop :=
  match ExecutionPolicy.mounts (request_policy request), ExecutionPolicy.network (request_policy request),
        execution_allowed (request_policy request) with
  | [], Disabled, true => exists outcome, es = [Ran (request_of plan code) outcome]
  | _, _, _ => es = [] /\ exists e, r = Err e
  end.

Lemma interpret_generated now request prompt code :
  let plan := LlmCodeGenerator.plan_of now request prompt code in
  emits (interpret_plan plan) (generated_effects plan request code).
Proof.
  cbn zeta. unfold interpret_plan, generated_effects. cbn [policy graph PlanGraph.nodes LlmCodeGenerator.plan_of].
  destruct (granted_policy (request_policy request)) as [-> ->].
  destruct (ExecutionPolicy.mounts (request_policy request)); [|apply refuse_emits].
  destruct (ExecutionPolicy.network (request_policy request)); [|apply refuse_emits..].
  pose proof (generated_capability now request prompt code) as Hc.
  apply emits_bind. cbn [run_nodes]. apply emits_bind. cbn [run_node PlanNode.kind PlanNode.id].
  destruct (ensure_capability _ _ _) as [token|e] eqn:Ee; rewrite Hc.
  - eapply emits_conseq; [by eapply run_python_runs|]. intros r es [outcome ->].
    destruct r as [st|e]; [|by eexists]. apply emits_ret.
    destruct st as [store [c|]]; [apply emits_ret; by eexists|].
    eapply emits_conseq; [apply refuse_emits|]. intros r es [-> _]. by eexists.
  - eapply emits_conseq; [by eapply run_python_refused|]. intros r es [-> [e' ->]]. eauto.
Qed.

(** C28: what the model writes is what runs, and all that runs: interpreting the
    plan of a generated reply runs the code of its block once, or does nothing
    and fails.  The generator gives the plan the capability itself, so code is
    refused only when the request asks for mounts or network, or names the
    execution capability without its sink. *)
Theorem generated_code_runs now order request events s :
  exists response, LlmCodeGenerator.generate_plan order now request (Ok events) = Ok response /\
  exists added, log (execute_plan (plan response) s).2 = log s ++ added /\
  generated_effects (plan response) request (code_of (collect_tokens events))
    (execute_plan (plan response) s).1 (node_effects added).
Proof.
  eexists. split; [reflexivity|]. apply interpret_generated.
Qed.
End plans.

(** ** What is recorded of an outcome *)

Section analytics.
Context `{W : LlmWorld}.

Lemma set_actual_others id label b rows :
  Forall (fun r => PredictionRecord.id r <> id) rows ->
  List.map (PredictionsDatabase.set_actual id label b) rows = rows.
Proof.
  induction 1 as [|r rows Hr _ IH]; [done|]. cbn. rewrite IH. unfold PredictionsDatabase.set_actual.
  by apply String.eqb_neq in Hr as ->.
Qed.

Lemma find_others id rows :
  Forall (fun r => PredictionRecord.id r <> id) rows ->
  List.find (fun r => String.eqb (PredictionRecord.id r) id) rows = None.
Proof. induction 1 as [|r rows Hr _ IH]; [done|]. cbn. by apply String.eqb_neq in Hr as ->. Qed.

Lemma execute_up change d :
  (forall w, (sql_execute w).1 = None) ->
  exists w, Db.execute change d = (Ok tt, change (Db.with_world d w)).
Proof.
  intros Hup. unfold Db.execute. pose proof (Hup (Db.world d)) as H.
  destruct (sql_execute (Db.world d)) as [e w]. cbn [fst] in H. subst e. by exists w.
Qed.

(** Recording adds a row without a result, under a fresh identifier. *)
Lemma record_up context label confidence metadata d :
  (forall w, (sql_execute w).1 = None) ->
  exists w d', PredictionsDatabase.record_prediction context label confidence metadata d =
    (Ok (fresh_uuid w).1, d') /\
  exists now, Db.predictions d' = Db.predictions d ++
    [PredictionRecord.mk (fresh_uuid w).1 context label None confidence metadata now None].
Proof.
  intros Hup. exists (Db.world d). unfold PredictionsDatabase.record_prediction, Db.bind, Db.call.
  destruct (fresh_uuid (Db.world d)) as [id w1].
  destruct (utc_now (Db.world (Db.with_world d w1))) as [now w2].
  edestruct (execute_up (fun d => PredictionsDatabase.set_predictions d (Db.predictions d ++
    [PredictionRecord.mk id context label None confidence metadata now None]))
    (Db.with_world (Db.with_world d w1) w2) Hup) as [w3 ->].
  eexists. split; [reflexivity|]. by exists now.
Qed.

(** Updating scores the row of the identifier. *)
Lemma update_up id label d :
  (forall w, (sql_execute w).1 = None) ->
  exists d', PredictionsDatabase.update_prediction_result id label d = (Ok tt, d') /\
  Db.predictions d' = List.map (PredictionsDatabase.set_actual id label
    match List.find (fun r => String.eqb (PredictionRecord.id r) id) (Db.predictions d) with
    | Some r => String.eqb (PredictionRecord.predicted_tool r) label
    | None => false
    end) (Db.predictions d).
Proof.
  intros Hup. unfold PredictionsDatabase.update_prediction_result, PredictionsDatabase.get_prediction_tool, Db.bind.
  pose proof (Hup (Db.world d)) as H. destruct (sql_execute (Db.world d)) as [e w1]. cbn [fst] in H. subst e.
  edestruct (execute_up (fun d0 => PredictionsDatabase.set_predictions d0
    (List.map (PredictionsDatabase.set_actual id label
       match option_map PredictionRecord.predicted_tool
         (List.find (fun r => String.eqb (PredictionRecord.id r) id) (Db.predictions d)) with
       | Some predicted => String.eqb predicted label | None => false end) (Db.predictions d0)))
    (Db.with_world d w1) Hup) as [w2 ->].
  eexists. split; [reflexivity|]. cbn. by destruct (List.find _ _).
Qed.

(** An attempt at generating code is recorded as a correct prediction
    whether or not it succeeded, since the name that is predicted is the one
    that is then said to have been used: the accuracy that decides about
    optimizing the prompt is that of a perfect predictor. *)
Theorem failed_attempts_count_as_correct context success metadata d :
  (forall w, (sql_execute w).1 = None) ->
  (forall w, Forall (fun r => PredictionRecord.id r <> (fresh_uuid w).1) (Db.predictions d)) ->
  let '(answer, d') := LlmService.record_codegen_attempt context success metadata d in
  answer = Ok tt /\
  exists row,
    Db.predictions d' = Db.predictions d ++ [row] /\
    PredictionRecord.predicted_tool row = LlmService.codegen_label success /\
    PredictionRecord.actual_tool row = Some (LlmService.codegen_label success) /\
    PredictionRecord.correct row = Some true /\
    GEPAOptimizer.good_enough GEPAOptimizer.new (compute_accuracy [row]) = true.
Proof.
  intros Hup Hf. unfold LlmService.record_codegen_attempt, Db.bind.
  destruct (record_up context (LlmService.codegen_label success)
    (if success then f64_of_Z 1 else f64_of_Z 0) metadata d Hup) as (w & d1 & -> & now & H1).
  destruct (update_up (fresh_uuid w).1 (LlmService.codegen_label success) d1 Hup) as (d2 & -> & H2).
  split; [done|]. specialize (Hf w).
  rewrite H1, find_app_none, List.map_app, set_actual_others in H2 by (try apply find_others; done).
  cbn [List.find PredictionRecord.id] in H2. rewrite String.eqb_refl in H2.
  cbn [PredictionRecord.predicted_tool] in H2. rewrite String.eqb_refl in H2.
  eexists. split; [exact H2|]. unfold PredictionsDatabase.set_actual. cbn [PredictionRecord.id].
  rewrite String.eqb_refl. split_and!; done || (vm_compute; reflexivity).
Qed.
End analytics.

(** ** Instances *)

Lemma fenced_code_is_extracted_witness :
  extract_code_block
    (unlines ["Here it is:"%string] +:+ fence +:+ "python" +:+ newline +:+
     unlines ["x = 1"%string; "print(x)"%string] +:+ fence +:+ newline +:+ "Done.") =
  Some (join newline ["x = 1"%string; "print(x)"%string]).
Proof.
  apply fenced_code_is_extracted; [|reflexivity| |discriminate];
    repeat (constructor; [split; [split|]; reflexivity|]); constructor.
Defined.

Module DemoAttempts.
Import ToyNumbers DemoWorld.

Definition start : Db.t := Db.mk (0, ""%string) [] [] [].

Definition attempt : LlmResult unit * Db.t :=
  LlmService.record_codegen_attempt "write a loop" false VNull start.

Lemma always_up : forall w, (sql_execute w).1 = None.
Proof. done. Qed.
End DemoAttempts.

Lemma failed_attempts_count_as_correct_witness :
  let '(answer, d') := DemoAttempts.attempt in
  answer = Ok tt /\
  exists row,
    Db.predictions d' = Db.predictions DemoAttempts.start ++ [row] /\
    PredictionRecord.predicted_tool row = LlmService.codegen_label false /\
    PredictionRecord.actual_tool row = Some (LlmService.codegen_label false) /\
    PredictionRecord.correct row = Some true /\
    GEPAOptimizer.good_enough GEPAOptimizer.new (compute_accuracy [row]) = true.
Proof.
  exact (failed_attempts_count_as_correct "write a loop" false VNull DemoAttempts.start
           DemoAttempts.always_up (fun _ => List.Forall_nil _)).
Defined.
