(* ===== verification/Initialization.v ===== *)
(** The initialization handshake's messages
    ([acdp-core/src/messages/initialization.rs] and the shared types of
    [messages/mod.rs]): protocol versions, capabilities, implementations, and
    the serialisation serde derives for them, with its flattened fields. *)

From S2P Require Import Prelude Messages.

(** ** Flattened maps *)

Section flatten.
Context `{JN : JsonNumbers}.

(** Serialise the named fields and then the map; a key of the map replaces
    the field of that name. *)
Definition flatten_into (fields : list (string * Value)) (extra : gmap string Value)
  : list (string * Value) :=
  List.filter (fun e => bool_decide (extra !! e.1 = None)) fields ++ map_to_list extra.

(** Read what the named fields leave. *)
Definition flattened (names : list string) (entries : list (string * Value))
  : gmap string Value :=
  list_to_map (List.filter (fun e => bool_decide (e.1 ∉ names)) entries).

(** An [Option] field of type [A] *)
Definition optional {A} (parse : Value -> option A) (v : option Value) : option (option A) :=
  match v with
  | None | Some VNull => Some None
  | Some v => match parse v with Some a => Some (Some a) | None => None end
  end.

Definition bool_of (v : Value) : option bool :=
  match v with VBool b => Some b | _ => None end.

Definition str_of (v : Value) : option string :=
  match v with VString s => Some s | _ => None end.

Definition option_entry {A} (key : string) (to : A -> Value) (o : option A)
  : list (string * Value) :=
  match o with Some a => [(key, to a)] | None => [] end.

End flatten.

(** ** [ProtocolVersion] *)

Module ProtocolVersion.
Section version.
Context `{JN : JsonNumbers}.

Inductive t : Type :=
| V2024_11_05
| V2025_03_26
| Custom (version : string).

Definition as_str (self : t) : string :=
  match self with
  | V2024_11_05 => "2024-11-05"
  | V2025_03_26 => "2025-03-26"
  | Custom version => version
  end.

Definition is_supported (self : t) : bool :=
  match self with V2024_11_05 | V2025_03_26 => true | Custom _ => false end.

Definition supported_versions : list t := [V2024_11_05; V2025_03_26].

Definition default : t := V2025_03_26.

Definition to_value (self : t) : Value := VString (as_str self).

(** The named variants, as a string or as an object with a null, and then the
    untagged one *)
Definition from_value (v : Value) : option t :=
  match v with
  | VString s | VObject [(s, VNull)] =>
      if String.eqb s "2024-11-05" then Some V2024_11_05
      else if String.eqb s "2025-03-26" then Some V2025_03_26
      else match v with VString s => Some (Custom s) | _ => None end
  | _ => None
  end.

(** A custom version is not spelled like a known one. *)
Definition wf (self : t) : Prop :=
  match self with
  | Custom s => s <> "2024-11-05"%string /\ s <> "2025-03-26"%string
  | _ => True
  end.

Lemma version_from_to_value self : wf self -> from_value (to_value self) = Some self.
Proof.
  destruct self as [| |s]; [done|done|]. intros [H1 H2]. simpl.
  rewrite (proj2 (String.eqb_neq _ _) H1), (proj2 (String.eqb_neq _ _) H2). done.
Qed.
End version.
End ProtocolVersion.

(** ** Capabilities *)

(** A struct with one optional flag: tools, prompts and roots with
    [list_changed], sampling with [enabled], logging with [level]. *)
Module Flag.
Section flag.
Context `{JN : JsonNumbers}.
Variable key : string.

Definition to_value (flag : option bool) : Value := VObject (option_entry key VBool flag).

Definition from_value (v : Value) : option (option bool) :=
  match v with
  | VObject e => optional bool_of (field e key)
  | VArray [flag] => optional bool_of (Some flag)
  | _ => None
  end.

Lemma flag_from_to_value flag : from_value (to_value flag) = Some flag.
Proof. destruct flag; simpl; [by rewrite String.eqb_refl|done]. Qed.
End flag.
End Flag.

Module ResourceCapabilities.
Section resource.
Context `{JN : JsonNumbers}.

Record t : Type := mk { subscribe : option bool; list_changed : option bool }.

Definition to_value (self : t) : Value :=
  VObject (option_entry "subscribe" VBool (subscribe self) ++
           option_entry "list_changed" VBool (list_changed self)).

Definition from_parts (subscribe list_changed : option Value) : option t :=
  match optional bool_of subscribe, optional bool_of list_changed with
  | Some s, Some l => Some (mk s l)
  | _, _ => None
  end.

Definition from_value (v : Value) : option t :=
  match v with
  | VObject e => from_parts (field e "subscribe") (field e "list_changed")
  | VArray [s; l] => from_parts (Some s) (Some l)
  | _ => None
  end.

Lemma resource_from_to_value self : from_value (to_value self) = Some self.
Proof. destruct self as [[] []]; done. Qed.
End resource.
End ResourceCapabilities.

Module StandardCapabilities.
Section standard.
Context `{JN : JsonNumbers}.

Record t : Type := mk {
  tools : option (option bool);
  resources : option ResourceCapabilities.t;
  prompts : option (option bool);
  sampling : option (option bool);
  logging : option (option bool);
  roots : option (option bool)
}.

Definition default : t := mk None None None None None None.

Definition names : list string :=
  ["tools"; "resources"; "prompts"; "sampling"; "logging"; "roots"]%string.

Definition to_entries (self : t) : list (string * Value) :=
  option_entry "tools" (Flag.to_value "list_changed") (tools self) ++
  option_entry "resources" ResourceCapabilities.to_value (resources self) ++
  option_entry "prompts" (Flag.to_value "list_changed") (prompts self) ++
  option_entry "sampling" (Flag.to_value "enabled") (sampling self) ++
  option_entry "logging" (Flag.to_value "level") (logging self) ++
  option_entry "roots" (Flag.to_value "list_changed") (roots self).

Definition from_entries (e : list (string * Value)) : option t :=
  match optional (Flag.from_value "list_changed") (field e "tools"),
        optional ResourceCapabilities.from_value (field e "resources"),
        optional (Flag.from_value "list_changed") (field e "prompts"),
        optional (Flag.from_value "enabled") (field e "sampling"),
        optional (Flag.from_value "level") (field e "logging"),
        optional (Flag.from_value "list_changed") (field e "roots") with
  | Some t, Some r, Some p, Some s, Some l, Some o => Some (mk t r p s l o)
  | _, _, _, _, _, _ => None
  end.
End standard.
End StandardCapabilities.

Module Capabilities.
Section capabilities.
Context `{JN : JsonNumbers}.

Record t : Type := mk { standard : StandardCapabilities.t; custom : gmap string Value }.

Definition default : t := mk StandardCapabilities.default ∅.

Definition to_value (self : t) : Value :=
  VObject (flatten_into (StandardCapabilities.to_entries (standard self)) (custom self)).

(** Flattened structs are read from objects only. *)
Definition from_value (v : Value) : option t :=
  match v with
  | VObject e =>
      match StandardCapabilities.from_entries e with
      | Some s => Some (mk s (flattened StandardCapabilities.names e))
      | None => None
      end
  | _ => None
  end.

Definition wf (self : t) : Prop :=
  Forall (fun k => custom self !! k = None) StandardCapabilities.names.
End capabilities.
Arguments t : clear implicits.
Arguments t {JN}.
End Capabilities.

Module Implementation.
Section implementation.
Context `{JN : JsonNumbers}.

Record t : Type := mk { name : string; version : string; metadata : gmap string Value }.

Definition new (name version : string) : t := mk name version ∅.

Definition with_metadata (self : t) (key : string) (value : Value) : t :=
  mk (name self) (version self) (<[key := value]> (metadata self)).

Definition names : list string := ["name"; "version"]%string.

Definition to_value (self : t) : Value :=
  VObject (flatten_into [("name", VString (name self)); ("version", VString (version self))]%string
             (metadata self)).

Definition from_value (v : Value) : option t :=
  match v with
  | VObject e =>
      match string_of (field e "name"), string_of (field e "version") with
      | Some n, Some ver => Some (mk n ver (flattened names e))
      | _, _ => None
      end
  | _ => None
  end.

Definition wf (self : t) : Prop := Forall (fun k => metadata self !! k = None) names.
End implementation.
Arguments t : clear implicits.
Arguments t {JN}.
End Implementation.

(** ** The handshake *)

Module InitializeRequest.
Section request.
Context `{JN : JsonNumbers}.

Record t : Type := mk {
  protocol_version : ProtocolVersion.t;
  capabilities : Capabilities.t;
  client_info : Implementation.t
}.

Definition new := mk.

Definition basic (client_name client_version : string) : t :=
  new ProtocolVersion.default Capabilities.default (Implementation.new client_name client_version).

Definition with_client_metadata (self : t) (key : string) (value : Value) : t :=
  mk (protocol_version self) (capabilities self)
     (Implementation.with_metadata (client_info self) key value).

Definition is_supported_version (self : t) : bool :=
  ProtocolVersion.is_supported (protocol_version self).

Definition to_value (self : t) : Value :=
  VObject [("protocolVersion", ProtocolVersion.to_value (protocol_version self));
           ("capabilities", Capabilities.to_value (capabilities self));
           ("clientInfo", Implementation.to_value (client_info self))]%string.

Definition from_parts (version caps info : option Value) : option t :=
  match version, caps, info with
  | Some v, Some c, Some i =>
      match ProtocolVersion.from_value v, Capabilities.from_value c,
            Implementation.from_value i with
      | Some v, Some c, Some i => Some (mk v c i)
      | _, _, _ => None
      end
  | _, _, _ => None
  end.

Definition from_value (v : Value) : option t :=
  match v with
  | VObject e =>
      from_parts (field e "protocolVersion") (field e "capabilities") (field e "clientInfo")
  | VArray [v; c; i] => from_parts (Some v) (Some c) (Some i)
  | _ => None
  end.

Definition wf (self : t) : Prop :=
  ProtocolVersion.wf (protocol_version self) /\ Capabilities.wf (capabilities self) /\
  Implementation.wf (client_info self).
End request.
Arguments t : clear implicits.
Arguments t {JN}.
End InitializeRequest.

Module InitializeResponse.
Section response.
Context `{JN : JsonNumbers}.

Record t : Type := mk {
  protocol_version : ProtocolVersion.t;
  capabilities : Capabilities.t;
  server_info : Implementation.t;
  instructions : option string
}.

Definition new := mk.

Definition basic (server_name server_version : string) : t :=
  new ProtocolVersion.default Capabilities.default
      (Implementation.new server_name server_version) None.

Definition with_instructions (self : t) (instructions : string) : t :=
  mk (protocol_version self) (capabilities self) (server_info self) (Some instructions).

Definition with_server_metadata (self : t) (key : string) (value : Value) : t :=
  mk (protocol_version self) (capabilities self)
     (Implementation.with_metadata (server_info self) key value) (instructions self).

Definition to_value (self : t) : Value :=
  VObject ([("protocolVersion", ProtocolVersion.to_value (protocol_version self));
            ("capabilities", Capabilities.to_value (capabilities self));
            ("serverInfo", Implementation.to_value (server_info self))]%string ++
           option_entry "instructions" VString (instructions self)).

Definition from_parts (version caps info instr : option Value) : option t :=
  match version, caps, info with
  | Some v, Some c, Some i =>
      match ProtocolVersion.from_value v, Capabilities.from_value c,
            Implementation.from_value i, optional str_of instr with
      | Some v, Some c, Some i, Some s => Some (mk v c i s)
      | _, _, _, _ => None
      end
  | _, _, _ => None
  end.

Definition from_value (v : Value) : option t :=
  match v with
  | VObject e =>
      from_parts (field e "protocolVersion") (field e "capabilities") (field e "serverInfo")
                 (field e "instructions")
  | VArray [v; c; i; s] => from_parts (Some v) (Some c) (Some i) (Some s)
  | _ => None
  end.

Definition wf (self : t) : Prop :=
  ProtocolVersion.wf (protocol_version self) /\ Capabilities.wf (capabilities self) /\
  Implementation.wf (server_info self).
End response.
Arguments t : clear implicits.
Arguments t {JN}.
End InitializeResponse.

(** [InitializedNotification], [PingRequest] and [PongResponse] are one
    flattened map. *)
Module InitializedNotification.
Section initialized.
Context `{JN : JsonNumbers}.

Definition t : Type := gmap string Value.
Definition new : t := ∅.
Definition with_metadata (metadata : gmap string Value) : t := metadata.
Definition add_metadata (self : t) (key : string) (value : Value) : t := <[key := value]> self.
Definition to_value (self : t) : Value := VObject (flatten_into [] self).
Definition from_value (v : Value) : option t :=
  match v with VObject e => Some (flattened [] e) | _ => None end.
End initialized.
End InitializedNotification.

(** ** Round trips *)

Section roundtrip.
Context `{JN : JsonNumbers}.

Lemma field_app (l l' : list (string * Value)) k :
  field (l ++ l') k = match field l k with Some v => Some v | None => field l' k end.
Proof.
  induction l as [|[j v] l IH]; simpl; [done|]. by destruct (String.eqb j k).
Qed.

Lemma field_not_in (l : list (string * Value)) k : k ∉ l.*1 -> field l k = None.
Proof.
  induction l as [|[j v] l IH]; simpl; [done|]. rewrite not_elem_of_cons. intros [Hne Hn].
  destruct (String.eqb_spec j k); [congruence|auto].
Qed.

Lemma field_map_to_list (m : gmap string Value) k : m !! k = None -> field (map_to_list m) k = None.
Proof.
  intros Hk. apply field_not_in. intros Hin. apply list_elem_of_fmap in Hin as [[j v] [-> Hv]].
  apply elem_of_map_to_list in Hv. simpl in Hk. congruence.
Qed.

(** Fields the map does not shadow *)
Lemma filter_unshadowed (fields : list (string * Value)) (m : gmap string Value) :
  Forall (fun e => m !! e.1 = None) fields ->
  List.filter (fun e => bool_decide (m !! e.1 = None)) fields = fields.
Proof.
  induction 1 as [|e l He _ IH]; simpl; [done|]. by rewrite bool_decide_true, IH by done.
Qed.

Lemma flattened_into names fields (m : gmap string Value) :
  Forall (fun k => m !! k = None) names -> Forall (fun e => e.1 ∈ names) fields ->
  flattened names (flatten_into fields m) = m.
Proof.
  intros Hn Hf. unfold flattened, flatten_into.
  rewrite filter_unshadowed.
  - rewrite List.filter_app.
    assert (List.filter (fun e => bool_decide (e.1 ∉ names)) fields = []) as ->.
    { induction Hf as [|e l He _ IH]; simpl; [done|].
      rewrite bool_decide_false by (intros H; by apply H). done. }
    assert (List.filter (fun e => bool_decide (e.1 ∉ names)) (map_to_list m) = map_to_list m) as ->.
    { assert (Hm : Forall (fun e => e.1 ∉ names) (map_to_list m)).
      { apply list.Forall_forall. intros [k v] Hin Hk. apply elem_of_map_to_list in Hin.
        rewrite list.Forall_forall in Hn. specialize (Hn _ Hk). simpl in *. congruence. }
      induction Hm as [|e l He _ IH]; simpl; [done|]. by rewrite bool_decide_true, IH by done. }
    apply list_to_map_to_list.
  - eapply Forall_impl; [exact Hf|]. intros e He.
    rewrite list.Forall_forall in Hn. by apply Hn.
Qed.

Lemma field_flatten_into names fields (m : gmap string Value) k :
  Forall (fun k => m !! k = None) names -> Forall (fun e => e.1 ∈ names) fields ->
  k ∈ names -> field (flatten_into fields m) k = field fields k.
Proof.
  intros Hn Hf Hk. unfold flatten_into. rewrite filter_unshadowed.
  - rewrite field_app, field_map_to_list; [by destruct (field fields k)|].
    rewrite list.Forall_forall in Hn. by apply Hn.
  - eapply Forall_impl; [exact Hf|]. intros e He.
    rewrite list.Forall_forall in Hn. by apply Hn.
Qed.

Lemma standard_names (s : StandardCapabilities.t) :
  Forall (fun e => e.1 ∈ StandardCapabilities.names) (StandardCapabilities.to_entries s).
Proof.
  destruct s as [[] [] [] [] [] []]; repeat constructor; simpl; set_solver.
Qed.

(** An optional field among others *)
Lemma field_option_entry_ne {A} j k (to : A -> Value) o rest :
  j <> k -> field (option_entry j to o ++ rest) k = field rest k.
Proof. intros Hne. destruct o; simpl; [|done]. by rewrite (proj2 (String.eqb_neq _ _) Hne). Qed.

Lemma optional_option_entry {A} k (to : A -> Value) (parse : Value -> option A) o rest :
  (forall a, parse (to a) = Some a /\ to a <> VNull) -> field rest k = None ->
  optional parse (field (option_entry k to o ++ rest) k) = Some o.
Proof.
  intros Hp Hr. destruct o as [a|]; simpl; [|by rewrite Hr].
  rewrite String.eqb_refl. destruct (Hp a) as [Ha Hn]. unfold optional.
  destruct (to a); rewrite ?Ha; done.
Qed.

Lemma flag_parse key flag :
  Flag.from_value key (Flag.to_value key flag) = Some flag /\ Flag.to_value key flag <> VNull.
Proof. split; [apply Flag.flag_from_to_value|done]. Qed.

Lemma resource_parse r :
  ResourceCapabilities.from_value (ResourceCapabilities.to_value r) = Some r /\
  ResourceCapabilities.to_value r <> VNull.
Proof. split; [apply ResourceCapabilities.resource_from_to_value|done]. Qed.

#[local] Ltac skip_entries :=
  repeat match goal with
    | |- context [field (option_entry ?j ?to ?o ++ ?rest) ?k] =>
        rewrite (field_option_entry_ne j k to o rest) by discriminate
    end.

Lemma standard_from_to_entries s :
  StandardCapabilities.from_entries (StandardCapabilities.to_entries s) = Some s.
Proof.
  destruct s as [t r p sa l ro].
  unfold StandardCapabilities.from_entries, StandardCapabilities.to_entries. cbn [
    StandardCapabilities.tools StandardCapabilities.resources StandardCapabilities.prompts
    StandardCapabilities.sampling StandardCapabilities.logging StandardCapabilities.roots].
  rewrite <- (app_nil_r (option_entry "roots" _ ro)).
  skip_entries.
  rewrite !optional_option_entry by
    (first [apply flag_parse|apply resource_parse|skip_entries; reflexivity]).
  reflexivity.
Qed.

Lemma capabilities_from_to_value (c : Capabilities.t) :
  Capabilities.wf c -> Capabilities.from_value (Capabilities.to_value c) = Some c.
Proof.
  intros Hw. unfold Capabilities.from_value, Capabilities.to_value.
  rewrite (flattened_into _ _ _ Hw (standard_names _)).
  assert (StandardCapabilities.from_entries
    (flatten_into (StandardCapabilities.to_entries (Capabilities.standard c)) (Capabilities.custom c))
    = Some (Capabilities.standard c)) as ->; [|by destruct c].
  rewrite <- standard_from_to_entries. unfold StandardCapabilities.from_entries.
  rewrite !(field_flatten_into StandardCapabilities.names) by
    (first [exact Hw|apply standard_names|unfold StandardCapabilities.names; set_solver]).
  reflexivity.
Qed.

Lemma implementation_from_to_value (i : Implementation.t) :
  Implementation.wf i -> Implementation.from_value (Implementation.to_value i) = Some i.
Proof.
  intros Hw. unfold Implementation.from_value, Implementation.to_value.
  set (fields := [("name"%string, VString (Implementation.name i));
                  ("version"%string, VString (Implementation.version i))]).
  assert (Hf : Forall (fun e => e.1 ∈ Implementation.names) fields)
    by (repeat constructor; unfold Implementation.names; simpl; set_solver).
  rewrite !(field_flatten_into _ _ _ _ Hw Hf) by (unfold Implementation.names; set_solver).
  rewrite (flattened_into _ _ _ Hw Hf). by destruct i.
Qed.
End roundtrip.

(** ** Properties *)

(** The handshake's messages round-trip: reading a serialised initialize
    request or response gives it back, custom capabilities and metadata
    included, unless these reuse the name of a field or a custom version is
    spelled like a known one. *)
Theorem initialize_serde_roundtrip `{JN : JsonNumbers}
    (req : InitializeRequest.t) (resp : InitializeResponse.t) :
  InitializeRequest.wf req -> InitializeResponse.wf resp ->
  InitializeRequest.from_value (InitializeRequest.to_value req) = Some req /\
  InitializeResponse.from_value (InitializeResponse.to_value resp) = Some resp.
Proof.
  intros (Hv & Hc & Hi) (Hv' & Hc' & Hi'). split.
  - destruct req as [v c i].
    change (InitializeRequest.from_parts (Some (ProtocolVersion.to_value v))
              (Some (Capabilities.to_value c)) (Some (Implementation.to_value i)) =
            Some (InitializeRequest.mk v c i)).
    unfold InitializeRequest.from_parts.
    by rewrite ProtocolVersion.version_from_to_value, capabilities_from_to_value,
      implementation_from_to_value.
  - destruct resp as [v c i instr].
    transitivity (InitializeResponse.from_parts (Some (ProtocolVersion.to_value v))
              (Some (Capabilities.to_value c)) (Some (Implementation.to_value i))
              (match instr with Some s => Some (VString s) | None => None end));
      [by destruct instr|].
    unfold InitializeResponse.from_parts.
    rewrite ProtocolVersion.version_from_to_value, capabilities_from_to_value,
      implementation_from_to_value by done.
    by destruct instr.
Qed.

(** A server's capabilities in the protocol's spelling, [listChanged], are read
    without their flag: the fields keep their Rust names. *)
Example list_changed_spelling `{JN : JsonNumbers} :
  Flag.from_value "list_changed" (VObject [("listChanged", VBool true)]%string) = Some None.
Proof. reflexivity. Qed.

Example initialize_serde_roundtrip_witness :
  let req := InitializeRequest.with_client_metadata (JN := ToyNumbers.toy_numbers)
               (InitializeRequest.basic "client" "1.0") "os" (VString "linux") in
  let resp := InitializeResponse.with_instructions
                (InitializeResponse.basic "server" "2.0") "be kind" in
  InitializeRequest.from_value (InitializeRequest.to_value req) = Some req /\
  InitializeResponse.from_value (InitializeResponse.to_value resp) = Some resp.
Proof.
  apply initialize_serde_roundtrip; repeat split; repeat constructor.
Defined.
