(* ===== verification/Client.v ===== *)
(** The MCP client ([acdp-core/src/client.rs]): the connection states, the
    initialization handshake, and requests that pass the interceptors and are
    retried with exponential backoff.

    The transport is a trait object, an environment of the model; its calls and
    the client's sleeps are appended to a log.  The client's table of pending
    requests and the channel of its message task are in [ClientMessages]: no
    code fills the one or sends into the other. *)

From stdpp Require Import relations.
From S2P Require Import Prelude McpError Messages Initialization Interceptor.

(** Durations in nanoseconds *)
Definition from_secs (n : Z) : Z := n * 1000000000.
Definition duration_max : Z := u64_max * 1000000000 + 999999999.

Definition u32_max : Z := 2 ^ 32 - 1.
Definition wrap_u32 (z : Z) : Z := z mod 2 ^ 32.

Class TransportApi `{JN : JsonNumbers} := {
  Conn : Type;
  conn_connect : Conn -> McpResult unit * Conn;
  conn_disconnect : Conn -> McpResult unit * Conn;
  conn_send_request : JsonRpcRequest.t -> option Z -> Conn -> McpResult JsonRpcResponse.t * Conn;
  conn_send_notification : JsonRpcNotification.t -> Conn -> McpResult unit * Conn;
  (** the instant at which a message is processed, and how long it takes *)
  conn_clock : Conn -> Z * Z * Conn;
  (** the text of an error, and of the error of reading a value *)
  error_text : McpError -> string;
  serde_text : Value -> string
}.

Module ClientConfig.
Record t : Type := mk {
  request_timeout : Z;
  init_timeout : Z;
  max_retries : Z;  (* u32 *)
  retry_base_delay : Z;
  auto_handle_notifications : bool;
  message_buffer_size : Z
}.

Definition default : t := mk (from_secs 30) (from_secs 10) 3 (from_secs 1) true 1000.
End ClientConfig.

Module ClientState.
Inductive t : Type :=
| Disconnected
| Connecting
| Initializing
| Ready
| Error (reason : string).

#[global] Instance t_eq_dec : EqDecision t.
Proof. solve_decision. Defined.
End ClientState.

Module ClientStats.
Record t : Type := mk {
  requests_sent : Z;
  responses_received : Z;
  notifications_sent : Z;
  notifications_received : Z;
  errors : Z;
  retries : Z;
  connection_attempts : Z;
  last_activity : option Z
}.

Definition default : t := mk 0 0 0 0 0 0 0 None.

Definition sent_request (s : t) : t :=
  mk (wrap_u64 (requests_sent s + 1)) (responses_received s) (notifications_sent s)
     (notifications_received s) (errors s) (retries s) (connection_attempts s) (last_activity s).

Definition sent_notification (s : t) : t :=
  mk (requests_sent s) (responses_received s) (wrap_u64 (notifications_sent s + 1))
     (notifications_received s) (errors s) (retries s) (connection_attempts s) (last_activity s).

Definition failed (s : t) : t :=
  mk (requests_sent s) (responses_received s) (notifications_sent s)
     (notifications_received s) (wrap_u64 (errors s + 1)) (retries s) (connection_attempts s)
     (last_activity s).

Definition retried (s : t) (n : Z) : t :=
  mk (requests_sent s) (responses_received s) (notifications_sent s)
     (notifications_received s) (errors s) (wrap_u64 (retries s + n)) (connection_attempts s)
     (last_activity s).
End ClientStats.

Module ServerInfo.
Section info.
Context `{JN : JsonNumbers}.
Record t : Type := mk {
  implementation : Implementation.t;
  protocol_version : ProtocolVersion.t;
  capabilities : Capabilities.t;
  connected_at : Z
}.
End info.
Arguments t : clear implicits.
Arguments t {JN}.
End ServerInfo.

(** What reaches the transport, and the waits in between *)
Inductive Call `{JN : JsonNumbers} : Type :=
| Connected
| SentRequest (request : JsonRpcRequest.t)
| SentNotification (notification : JsonRpcNotification.t)
| ClosedTransport
| Slept (duration : Z).

Module McpClient.
Section client.
Context `{JN : JsonNumbers} {TA : TransportApi}.

Record t : Type := mk {
  transport : Conn;
  config : ClientConfig.t;
  state : ClientState.t;
  server_info : option ServerInfo.t;
  stats : ClientStats.t;
  request_counter : Z;
  interceptor_manager : InterceptorManager.t;
  session_id : option string;
  log : list Call
}.

Definition new (transport : Conn) (config : ClientConfig.t) : t :=
  mk transport config ClientState.Disconnected None ClientStats.default 1
     InterceptorManager.new None [].

Definition set_state (s : ClientState.t) (self : t) : t :=
  mk (transport self) (config self) s (server_info self) (stats self) (request_counter self)
     (interceptor_manager self) (session_id self) (log self).
Definition set_server_info (i : option ServerInfo.t) (self : t) : t :=
  mk (transport self) (config self) (state self) i (stats self) (request_counter self)
     (interceptor_manager self) (session_id self) (log self).
Definition set_stats (f : ClientStats.t -> ClientStats.t) (self : t) : t :=
  mk (transport self) (config self) (state self) (server_info self) (f (stats self))
     (request_counter self) (interceptor_manager self) (session_id self) (log self).
Definition set_conn (w : Conn) (calls : list Call) (self : t) : t :=
  mk w (config self) (state self) (server_info self) (stats self) (request_counter self)
     (interceptor_manager self) (session_id self) (log self ++ calls).
Definition set_interceptor_manager (m : InterceptorManager.t) (self : t) : t :=
  mk (transport self) (config self) (state self) (server_info self) (stats self)
     (request_counter self) m (session_id self) (log self).
Definition set_session_id (s : option string) (self : t) : t :=
  mk (transport self) (config self) (state self) (server_info self) (stats self)
     (request_counter self) (interceptor_manager self) s (log self).

Definition is_ready (self : t) : bool := bool_decide (state self = ClientState.Ready).

(** A computation that may panic ([None]), and returns a result *)
Definition M (A : Type) : Type := t -> option (McpResult A * t).

Definition ret {A} (a : A) : M A := fun self => Some (Ok a, self).
Definition fail {A} (e : McpError) : M A := fun self => Some (Err e, self).
Definition panic {A} : M A := fun _ => None.
Definition bind {A B} (m : M A) (k : A -> M B) : M B :=
  fun self => match m self with
              | Some (Ok a, self) => k a self
              | Some (Err e, self) => Some (Err e, self)
              | None => None
              end.
Definition modify (f : t -> t) : M unit := fun self => Some (Ok tt, f self).
Definition get {A} (f : t -> A) : M A := fun self => Some (Ok (f self), self).

#[local] Notation "'let!' x ':=' m 'in' k" := (bind m (fun x => k))
  (at level 200, x pattern, m at level 100, k at level 200, right associativity).

(** A call of the transport, with its outcome as a value *)
Definition on_transport {A} (call : Call) (f : Conn -> McpResult A * Conn) : M (McpResult A) :=
  fun self => let '(r, w) := f (transport self) in Some (Ok r, set_conn w [call] self).

(** [?] *)
Definition lift {A} (r : McpResult A) : M A :=
  match r with Ok a => ret a | Err e => fail e end.

Definition interception_metadata (self : t) : InterceptionMetadata.t :=
  match session_id self with
  | Some session => InterceptionMetadata.with_session_id InterceptionMetadata.new session
  | None => InterceptionMetadata.new
  end.

(** [interceptor_manager.process_message_with_metadata(..).await?] *)
Definition intercepted (message : JsonRpcMessage.t) (direction : MessageDirection)
  : M InterceptionResult.t :=
  fun self =>
    let '(now, elapsed, w) := conn_clock (transport self) in
    let '(r, m) := InterceptorManager.process_message_with_metadata now elapsed
                     (interceptor_manager self) message direction
                     (interception_metadata self) in
    Some (r, set_interceptor_manager m (set_conn w [] self)).

Definition send_single_request (request : JsonRpcRequest.t) (timeout_duration : Z)
  : M JsonRpcResponse.t :=
  let! interception := intercepted (JsonRpcMessage.Request request) Outgoing in
  if InterceptionResult.block interception then
    fail (Protocol (RequestBlocked
      (from_option id "Request blocked by interceptor"%string
         (InterceptionResult.reasoning interception))))
  else
    let final_request :=
      match InterceptionResult.message interception with
      | JsonRpcMessage.Request req => req
      | _ => request
      end in
    let! r := on_transport (SentRequest final_request)
                (conn_send_request final_request (Some timeout_duration)) in
    let! response := lift r in
    let! _ := modify (set_stats ClientStats.sent_request) in
    let! interception := intercepted (JsonRpcMessage.Response response) Incoming in
    if InterceptionResult.block interception then
      fail (Protocol (ResponseBlocked
        (from_option id "Response blocked by interceptor"%string
           (InterceptionResult.reasoning interception))))
    else
      ret match InterceptionResult.message interception with
          | JsonRpcMessage.Response resp => resp
          | _ => response
          end.

(** [retry_base_delay * 2_u32.pow(attempt)]: the power wraps, the product
    panics when it overflows. *)
Definition retry_delay (base attempt : Z) : option Z :=
  let delay := base * wrap_u32 (2 ^ attempt) in
  if delay <=? duration_max then Some delay else None.

Definition sleep_before_retry (base attempt : Z) : M unit :=
  match retry_delay base attempt with
  | Some delay => modify (fun self => set_conn (transport self) [Slept delay] self)
  | None => panic
  end.

(** The loop over [attempt in 0..=max_retries] with [remaining] retries left *)
Fixpoint attempts (request : JsonRpcRequest.t) (timeout_duration base : Z) (remaining : nat)
    (attempt : Z) : M JsonRpcResponse.t :=
  fun self =>
    match send_single_request request timeout_duration self with
    | None => None
    | Some (Ok response, self) =>
        Some (Ok response,
              if attempt >? 0
              then set_stats (fun s => ClientStats.retried s attempt) self else self)
    | Some (Err e, self) =>
        match remaining with
        | O => Some (Err e, set_stats ClientStats.failed self)
        | S remaining =>
            bind (sleep_before_retry base attempt)
              (fun _ => attempts request timeout_duration base remaining (attempt + 1)) self
        end
    end.

Definition send_request_with_retries (request : JsonRpcRequest.t) (timeout_duration : Z)
  : M JsonRpcResponse.t :=
  let! c := get config in
  attempts request timeout_duration (ClientConfig.retry_base_delay c)
    (Z.to_nat (ClientConfig.max_retries c)) 0.

Definition generate_request_id : M string :=
  fun self =>
    Some (Ok ("req_" +:+ pretty (request_counter self)),
          mk (transport self) (config self) (state self) (server_info self) (stats self)
             (wrap_u64 (request_counter self + 1)) (interceptor_manager self) (session_id self)
             (log self)).

(** [send_request_with_timeout] and [send_initialization_request]; the
    parameters are already a value. *)
Definition send_request_with_timeout (method : string) (params : Value)
    (timeout_duration : option Z) : M JsonRpcResponse.t :=
  let! request_id := generate_request_id in
  let! c := get config in
  send_request_with_retries
    (JsonRpcRequest.mk "2.0" (RequestId.String request_id) method (Some params))
    (from_option id (ClientConfig.request_timeout c) timeout_duration).

Definition send_initialized_notification (method : string) (params : Value) : M unit :=
  let notification := JsonRpcNotification.mk "2.0" method (Some params) in
  let! r := on_transport (SentNotification notification) (conn_send_notification notification) in
  let! _ := lift r in
  modify (set_stats ClientStats.sent_notification).

Definition send_notification (method : string) (params : Value) : M unit :=
  let! ready := get is_ready in
  if negb ready then
    fail (Protocol (NotInitialized "Client not ready for notifications"))
  else send_initialized_notification method params.

Definition send_request (method : string) (params : Value) : M JsonRpcResponse.t :=
  let! ready := get is_ready in
  if negb ready then fail (Protocol (NotInitialized "Client not ready for requests"))
  else send_request_with_timeout method params None.

(** The capabilities the client offers *)
Definition client_capabilities : Capabilities.t :=
  Capabilities.mk
    (StandardCapabilities.mk (Some (Some true))
       (Some (ResourceCapabilities.mk (Some true) (Some true))) (Some (Some true))
       None None None) ∅.

Definition perform_initialization (client_info : Implementation.t) : M ServerInfo.t :=
  let! _ := modify (set_state ClientState.Initializing) in
  let request :=
    InitializeRequest.mk ProtocolVersion.default client_capabilities client_info in
  let! c := get config in
  let! response := send_request_with_timeout "initialize" (InitializeRequest.to_value request)
                     (Some (ClientConfig.init_timeout c)) in
  let! init_response :=
    match JsonRpcResponse.result response with
    | Some result =>
        match InitializeResponse.from_value result with
        | Some r => ret r
        | None => fail (Serialization (serde_text result))
        end
    | None => fail (Protocol (InitializationFailed "Missing result in initialize response"))
    end in
  let! _ := send_initialized_notification "initialized"
              (InitializedNotification.to_value InitializedNotification.new) in
  let! at_ := fun self => let '(now, _, w) := conn_clock (transport self) in
                          Some (Ok now, set_conn w [] self) in
  ret (ServerInfo.mk (InitializeResponse.server_info init_response)
         (InitializeResponse.protocol_version init_response)
         (InitializeResponse.capabilities init_response) at_).

Definition connect (client_info : Implementation.t) : M ServerInfo.t :=
  let! _ := modify (set_state ClientState.Connecting) in
  let! r := on_transport Connected conn_connect in
  let! _ :=
    match r with
    | Ok _ => ret tt
    | Err e =>
        let error := "Transport connection failed: " +:+ error_text e in
        let! _ := modify (set_state (ClientState.Error error)) in
        fail (Protocol (InitializationFailed error))
    end in
  let! info := perform_initialization client_info in
  let! _ := modify (set_state ClientState.Ready) in
  let! _ := modify (set_server_info (Some info)) in
  ret info.

Definition disconnect : M unit :=
  let! _ := modify (set_state ClientState.Disconnected) in
  let! _ := modify (set_server_info None) in
  let! r := on_transport ClosedTransport conn_disconnect in
  lift r.

(** ** What a computation leaves alone *)

(** The state of the connection *)
Definition same_session (self self' : t) : Prop :=
  config self' = config self /\ state self' = state self /\
  server_info self' = server_info self /\ session_id self' = session_id self.

#[global] Instance same_session_preorder : PreOrder same_session.
Proof.
  split; [by intros self|]. intros a b c (H1 & H2 & H3 & H4) (G1 & G2 & G3 & G4).
  repeat split; congruence.
Qed.

Definition sent_of (c : Call) : option JsonRpcRequest.t :=
  match c with SentRequest r => Some r | _ => None end.
Definition slept_of (c : Call) : option Z :=
  match c with Slept d => Some d | _ => None end.

(** Only requests and waits *)
Definition of_request (c : Call) : Prop :=
  match c with SentRequest _ | Slept _ => True | _ => False end.

(** The manager never fails. *)
Lemma intercepted_spec m d self :
  exists ir w mg,
    intercepted m d self = Some (Ok ir, set_interceptor_manager mg (set_conn w [] self)).
Proof.
  unfold intercepted, InterceptorManager.process_message_with_metadata.
  destruct (conn_clock (transport self)) as [[now elapsed] w].
  destruct (InterceptorManager.run _ _ _) as [[l|r] ics]; eauto.
Qed.

(** One attempt: it sends at most one request, none exactly when the
    interceptors block it. *)
Lemma send_single_request_spec request timeout self :
  exists r self' calls,
    send_single_request request timeout self = Some (r, self') /\
    same_session self self' /\ request_counter self' = request_counter self /\
    log self' = log self ++ calls /\
    ClientStats.errors (stats self') = ClientStats.errors (stats self) /\
    ClientStats.retries (stats self') = ClientStats.retries (stats self) /\
    ((calls = [] /\ exists reason, r = Err (Protocol (RequestBlocked reason))) \/
     exists req, calls = [SentRequest req]).
Proof.
  unfold send_single_request, bind.
  destruct (intercepted_spec (JsonRpcMessage.Request request) Outgoing self)
    as (ir & w & mg & ->).
  destruct (InterceptionResult.block ir).
  - eexists _, _, []. split; [reflexivity|]. simpl. rewrite app_nil_r.
    repeat split. left. eauto.
  - unfold on_transport.
    match goal with |- context [conn_send_request ?rq ?d ?v] =>
      generalize rq; intros req; destruct (conn_send_request req d v) as [[resp|e] w'] end; simpl.
    + match goal with |- context [intercepted ?m ?d ?s] =>
        destruct (intercepted_spec m d s) as (ir' & w'' & mg' & ->) end.
      destruct (InterceptionResult.block ir'); eexists _, _, [SentRequest req];
        (split; [reflexivity|]); simpl; rewrite !app_nil_r; repeat split; eauto.
    + eexists _, _, [SentRequest req]. split; [reflexivity|]. simpl. rewrite app_nil_r.
      repeat split. eauto.
Qed.

(** The delays of [k] retries from attempt [a] on *)
Definition delays (base a : Z) (k : nat) : list Z :=
  map (fun i => base * 2 ^ (a + Z.of_nat i)) (seq 0 k).

Lemma delays_S base a k : delays base a (S k) = base * 2 ^ a :: delays base (a + 1) k.
Proof.
  unfold delays. simpl. rewrite Z.add_0_r. f_equal. rewrite <- seq_shift, map_map.
  apply map_ext. intros i. f_equal. f_equal. lia.
Qed.

#[local] Opaque delays.

Lemma retry_delay_Some base a :
  0 <= a <= 31 -> 0 <= base -> base * 2 ^ 31 <= duration_max ->
  retry_delay base a = Some (base * 2 ^ a).
Proof.
  intros Ha Hb Hm. unfold retry_delay, wrap_u32.
  assert (0 < 2 ^ a) by (apply Z.pow_pos_nonneg; lia).
  assert (2 ^ a <= 2 ^ 31) by (apply Z.pow_le_mono_r; lia).
  rewrite Z.mod_small by lia.
  destruct (Z.leb_spec (base * 2 ^ a) duration_max); [done|nia].
Qed.

Lemma attempt_calls (calls : list Call) (r : McpResult JsonRpcResponse.t) :
  (calls = [] /\ exists reason, r = Err (Protocol (RequestBlocked reason))) \/
  (exists req, calls = [SentRequest req]) ->
  Forall of_request calls /\ omap slept_of calls = [] /\ (length (omap sent_of calls) <= 1)%nat.
Proof.
  intros [[-> _]|[req ->]]; simpl; (split_and!; [by repeat constructor|done|lia]).
Qed.

(** The loop: [k] failed attempts, each followed by its delay, and a last one. *)
Lemma attempts_spec request timeout base n : forall a self,
  0 <= a -> a + Z.of_nat n <= 31 -> 0 <= base -> base * 2 ^ 31 <= duration_max ->
  exists r self' calls k,
    attempts request timeout base n a self = Some (r, self') /\
    same_session self self' /\ request_counter self' = request_counter self /\
    log self' = log self ++ calls /\ Forall of_request calls /\
    (k <= n)%nat /\ omap slept_of calls = delays base a k /\
    (length (omap sent_of calls) <= S k)%nat /\
    match r with
    | Ok _ => ClientStats.errors (stats self') = ClientStats.errors (stats self) /\
              ClientStats.retries (stats self') =
                (if a + Z.of_nat k >? 0
                 then wrap_u64 (ClientStats.retries (stats self) + (a + Z.of_nat k))
                 else ClientStats.retries (stats self))
    | Err _ => k = n /\
               ClientStats.errors (stats self') =
                 wrap_u64 (ClientStats.errors (stats self) + 1) /\
               ClientStats.retries (stats self') = ClientStats.retries (stats self)
    end.
Proof.
  induction n as [|n IH]; intros a self Ha Hn Hb Hm; simpl;
    destruct (send_single_request_spec request timeout self)
      as (r & self1 & c1 & -> & Hs & Hc & Hl & He & Hr & Hsent);
    destruct (attempt_calls _ _ Hsent) as (Hf1 & Hsl1 & Hsn1); destruct r as [resp|e].
  1,3: exists (Ok resp); eexists; exists c1, 0%nat; (split; [reflexivity|]);
    rewrite Z.add_0_r; destruct (a >? 0); simpl; rewrite ?He, ?Hr;
    (split_and!; [exact Hs|exact Hc|exact Hl|exact Hf1|lia|exact Hsl1|exact Hsn1|done|done]).
  - exists (Err e). eexists. exists c1, 0%nat. split; [reflexivity|]. simpl.
    rewrite He. split_and!; [exact Hs|exact Hc|exact Hl|exact Hf1|lia|exact Hsl1|exact Hsn1|done|done|exact Hr].
  - unfold sleep_before_retry, bind. rewrite retry_delay_Some by lia. simpl.
    set (self2 := set_conn _ _ self1).
    destruct (IH (a + 1) self2) as (r & self' & c2 & k & -> & Hs2 & Hc2 & Hl2 & Hf2 & Hk & Hsl2
      & Hsn2 & Hst); [lia..|].
    exists r, self', (c1 ++ Slept (base * 2 ^ a) :: c2), (S k).
    split; [done|]. split; [by etrans; [exact Hs|]|]. split; [by rewrite Hc2|].
    split; [rewrite Hl2; simpl; by rewrite Hl, <- !app_assoc|].
    split; [apply Forall_app; split; [done|by constructor]|]. split; [lia|].
    rewrite !omap_app, Hsl1, delays_S.
    split; [transitivity (base * 2 ^ a :: omap slept_of c2); [done|by rewrite Hsl2]|].
    split; [rewrite length_app; change (omap sent_of (_ :: c2)) with (omap sent_of c2); lia|].
    replace (a + Z.of_nat (S k)) with (a + 1 + Z.of_nat k) by lia.
    change (stats self2) with (stats self1) in Hst. rewrite He, Hr in Hst.
    destruct r; [done|]. destruct Hst as (-> & ?). done.
Qed.

(** A configuration whose delays fit a [Duration] *)
Definition sane (c : ClientConfig.t) : Prop :=
  0 <= ClientConfig.max_retries c <= 31 /\ 0 <= ClientConfig.retry_base_delay c /\
  ClientConfig.retry_base_delay c * 2 ^ 31 <= duration_max.

(** A request with its identifier, through all its attempts *)
Lemma send_request_with_timeout_spec method params timeout self :
  sane (config self) ->
  exists r self' calls k,
    send_request_with_timeout method params timeout self = Some (r, self') /\
    same_session self self' /\
    log self' = log self ++ calls /\ Forall of_request calls /\
    Z.of_nat k <= ClientConfig.max_retries (config self) /\
    omap slept_of calls = delays (ClientConfig.retry_base_delay (config self)) 0 k /\
    (length (omap sent_of calls) <= S k)%nat /\
    match r with
    | Ok _ => ClientStats.errors (stats self') = ClientStats.errors (stats self) /\
              ClientStats.retries (stats self') =
                (if Z.of_nat k >? 0 then wrap_u64 (ClientStats.retries (stats self) + Z.of_nat k)
                 else ClientStats.retries (stats self))
    | Err _ => Z.of_nat k = ClientConfig.max_retries (config self) /\
               ClientStats.errors (stats self') =
                 wrap_u64 (ClientStats.errors (stats self) + 1) /\
               ClientStats.retries (stats self') = ClientStats.retries (stats self)
    end.
Proof.
  intros (Hm & Hb & Hd). unfold send_request_with_timeout, send_request_with_retries, bind, get.
  simpl. match goal with |- context [attempts ?rq ?d ?b ?n ?a ?s] =>
    destruct (attempts_spec rq d b n a s) as
      (r & self' & calls & k & -> & Hs & _ & Hl & Hf & Hk & Hsl & Hsn & Hst); [lia..|] end.
  exists r, self', calls, k. split; [done|]. split; [exact Hs|]. split; [exact Hl|].
  split; [exact Hf|]. split; [lia|]. split; [exact Hsl|]. split; [exact Hsn|].
  destruct r; [exact Hst|]. destruct Hst as (-> & ? & ?). split_and!; [lia|done|done].
Qed.

Lemma send_initialized_notification_spec method params self :
  let n := JsonRpcNotification.mk "2.0" method (Some params) in
  exists r self',
    send_initialized_notification method params self = Some (r, self') /\
    same_session self self' /\ log self' = log self ++ [SentNotification n].
Proof.
  intros n. unfold send_initialized_notification, on_transport, bind. fold n.
  destruct (conn_send_notification n (transport self)) as [[u|e] w];
    (eexists _, _; split; [reflexivity|]; by repeat split).
Qed.

(** The handshake: the state is [Initializing] throughout, and on success the
    notification is the last call. *)
Lemma perform_initialization_spec info self :
  sane (config self) ->
  exists r self' calls,
    perform_initialization info self = Some (r, self') /\
    same_session (set_state ClientState.Initializing self) self' /\
    log self' = log self ++ calls /\
    (forall i, r = Ok i -> exists before,
       calls = before ++ [SentNotification (JsonRpcNotification.mk "2.0" "initialized"
                 (Some (VObject [])))] /\ Forall of_request before).
Proof.
  intros Hsane. unfold perform_initialization, bind at 1, modify, get.
  set (self1 := set_state ClientState.Initializing self).
  unfold bind at 1. set (req := InitializeRequest.to_value _).
  destruct (send_request_with_timeout_spec "initialize" req
    (Some (ClientConfig.init_timeout (config self1))) self1 Hsane)
    as (r & self2 & calls & k & Hreq & Hs & Hl & Hf & _).
  unfold bind at 1. rewrite Hreq. destruct r as [resp|e].
  2: { exists (Err e), self2, calls. split_and!; done. }
  assert (Hfail : forall e, exists r self' calls0,
    Some (@Err ServerInfo.t McpError e, self2) = Some (r, self') /\ same_session self1 self' /\
    log self' = log self ++ calls0 /\
    (forall i, r = Ok i -> exists before,
       calls0 = before ++ [SentNotification (JsonRpcNotification.mk "2.0" "initialized"
                 (Some (VObject [])))] /\ Forall of_request before)).
  { intros e. exists (Err e), self2, calls. split_and!; done. }
  destruct (JsonRpcResponse.result resp) as [v|]; [|apply Hfail].
  destruct (InitializeResponse.from_value v) as [init|]; [|apply Hfail].
  unfold bind at 1, ret. unfold bind at 1.
  destruct (send_initialized_notification_spec "initialized"
              (InitializedNotification.to_value InitializedNotification.new) self2)
    as (rn & self3 & -> & Hs3 & Hl3).
  destruct rn as [[]|e].
  - unfold bind. destruct (conn_clock (transport self3)) as [[now el] w].
    eexists _, _, (calls ++ [_]). split; [reflexivity|].
    split; [exact (transitivity (x := self1) (y := self2) Hs Hs3)|].
    split; [simpl; rewrite app_nil_r, Hl3, Hl, <- app_assoc; reflexivity|].
    intros i _. exists calls. split; [|exact Hf]. reflexivity.
  - eexists _, self3, (calls ++ [_]). split; [reflexivity|].
    split; [exact (transitivity (x := self1) (y := self2) Hs Hs3)|].
    split; [rewrite Hl3, Hl, <- app_assoc; reflexivity|]. done.
Qed.

Lemma connect_spec info self :
  sane (config self) ->
  exists r self' calls,
    connect info self = Some (r, self') /\ config self' = config self /\
    log self' = log self ++ Connected :: calls /\
    match r with
    | Ok i => state self' = ClientState.Ready /\ server_info self' = Some i /\
              exists before,
                calls = before ++ [SentNotification (JsonRpcNotification.mk "2.0" "initialized"
                          (Some (VObject [])))] /\ Forall of_request before
    | Err _ => server_info self' = server_info self /\
               (state self' = ClientState.Initializing \/
                exists e, state self' = ClientState.Error e)
    end.
Proof.
  intros Hsane. unfold connect, bind at 1, modify. set (self1 := set_state _ self).
  unfold on_transport. unfold bind at 1.
  destruct (conn_connect (transport self1)) as [[u|e] w].
  - unfold bind at 1, ret. set (self2 := set_conn w [Connected] self1). unfold bind at 1.
    destruct (perform_initialization_spec info self2 Hsane) as
      (r & self3 & calls & -> & (Hc & Hst & Hi & _) & Hl & Hok).
    destruct r as [i|e]; eexists _, _, calls; (split; [reflexivity|]); simpl in *.
    + split; [exact Hc|]. split; [rewrite Hl, <- app_assoc; done|]. split_and!; try done.
      exact (Hok i eq_refl).
    + split; [exact Hc|]. split; [rewrite Hl, <- app_assoc; done|]. split; [done|by left].
  - unfold bind. eexists _, _, []. split; [reflexivity|]. simpl.
    split_and!; [done|done|done|by right; eauto].
Qed.

(** ** The handshake

    What is sent of a request has passed the interceptors, which may rewrite it
    and change their states, and so has its answer. *)

(** [mg'] is [mg] after some messages *)
Definition later : InterceptorManager.t -> InterceptorManager.t -> Prop :=
  rtc (fun mg mg' => exists now elapsed m d md r,
         InterceptorManager.process_message_with_metadata now elapsed mg m d md = (r, mg')).

(** A wait, or [request] as the interceptors let it through *)
Definition attempt_of (mg : InterceptorManager.t) (md : InterceptionMetadata.t) (request : JsonRpcRequest.t)
    (c : Call) : Prop :=
  match c with
  | Slept _ => True
  | SentRequest sent =>
      exists mg1 mg2 now elapsed ir, later mg mg1 /\
        InterceptorManager.process_message_with_metadata now elapsed mg1
          (JsonRpcMessage.Request request) Outgoing md = (Ok ir, mg2) /\
        InterceptionResult.block ir = false /\
        sent = match InterceptionResult.message ir with JsonRpcMessage.Request r => r | _ => request end
  | _ => False
  end.

(** [response] is the transport's answer to [sent] as the interceptors let it
    through *)
Definition exchanged (mg : InterceptorManager.t) (md : InterceptionMetadata.t) (timeout : Z)
    (sent : JsonRpcRequest.t) (response : JsonRpcResponse.t) : Prop :=
  exists conn answer mg1 mg2 now elapsed ir, later mg mg1 /\
    (conn_send_request sent (Some timeout) conn).1 = Ok answer /\
    InterceptorManager.process_message_with_metadata now elapsed mg1
      (JsonRpcMessage.Response answer) Incoming md = (Ok ir, mg2) /\
    InterceptionResult.block ir = false /\
    response = match InterceptionResult.message ir with JsonRpcMessage.Response r => r | _ => answer end.

Lemma attempt_of_later mg mg' md request c :
  later mg mg' -> attempt_of mg' md request c -> attempt_of mg md request c.
Proof.
  intros Hl. destruct c; try done. intros (mg1 & mg2 & now & el & ir & H & Hr).
  exists mg1, mg2, now, el, ir. split; [by etrans|done].
Qed.

Lemma exchanged_later mg mg' md timeout sent response :
  later mg mg' -> exchanged mg' md timeout sent response -> exchanged mg md timeout sent response.
Proof.
  intros Hl (w & a & mg1 & mg2 & now & el & ir & H & Hr).
  exists w, a, mg1, mg2, now, el, ir. split; [by etrans|done].
Qed.

Lemma intercepted_inv m d self r self' :
  intercepted m d self = Some (r, self') ->
  exists now elapsed w mg,
    InterceptorManager.process_message_with_metadata now elapsed (interceptor_manager self) m d
      (interception_metadata self) = (r, mg) /\
    self' = set_interceptor_manager mg (set_conn w [] self) /\ later (interceptor_manager self) mg.
Proof.
  unfold intercepted. destruct (conn_clock (transport self)) as [[now el] w].
  destruct (InterceptorManager.process_message_with_metadata _ _ _ _ _ _) as [r' mg] eqn:E. intros [= <- <-].
  exists now, el, w, mg. split_and!; [done|done|]. apply rtc_once. eauto 10.
Qed.

(** What a request comes to: the calls are its attempts, and with a response
    the last of them was answered with it. *)
Definition sends (request : JsonRpcRequest.t) (timeout : Z) (self : t) (r : McpResult JsonRpcResponse.t) (self' : t) : Prop :=
  exists calls,
    log self' = log self ++ calls /\ later (interceptor_manager self) (interceptor_manager self') /\
    Forall (attempt_of (interceptor_manager self) (interception_metadata self) request) calls /\
    forall response, r = Ok response -> exists before sent,
      calls = before ++ [SentRequest sent] /\
      exchanged (interceptor_manager self) (interception_metadata self) timeout sent response.

Lemma single_request_sends request timeout self r self' :
  send_single_request request timeout self = Some (r, self') -> sends request timeout self r self'.
Proof.
  unfold send_single_request, bind.
  destruct (intercepted (JsonRpcMessage.Request request) Outgoing self) as [[[ir|e] s1]|] eqn:E1; [|by destruct (intercepted_spec (JsonRpcMessage.Request request) Outgoing self) as (? & ? & ? & H); rewrite E1 in H|done].
  apply intercepted_inv in E1 as (now & el & w & mg & Hp & -> & Hl).
  destruct (InterceptionResult.block ir) eqn:Hb.
  { intros [= <- <-]. exists []. cbn. rewrite !app_nil_r. by split_and!. }
  unfold on_transport. cbn [transport set_interceptor_manager set_conn].
  match goal with |- context [conn_send_request ?rq _ _] => set (sent := rq) end.
  assert (Ha : attempt_of (interceptor_manager self) (interception_metadata self) request (SentRequest sent))
    by (exists (interceptor_manager self), mg, now, el, ir; by split_and!).
  destruct (conn_send_request sent (Some timeout) w) as [[answer|e] w'] eqn:Es; cbn.
  2:{ intros [= <- <-]. exists [SentRequest sent]. cbn. rewrite app_nil_r. split_and!; [done|done|by constructor|done]. }
  match goal with |- context [intercepted ?m ?d ?s] => destruct (intercepted m d s) as [[[ir'|e] s2]|] eqn:E2 end; [|..|done].
  - apply intercepted_inv in E2 as (now' & el' & w'' & mg' & Hp' & -> & Hl'). cbn in Hl'.
    assert (Hll : later (interceptor_manager self) mg') by by etrans.
    destruct (InterceptionResult.block ir') eqn:Hb'; intros [= <- <-]; exists [SentRequest sent]; cbn;
      rewrite !app_nil_r; (split_and!; [done|done|by constructor|]); [done|].
    intros response [= <-]. exists [], sent. split; [done|].
    exists w, answer, mg, mg', now', el', ir'. rewrite Es. by split_and!.
  - match type of E2 with intercepted ?m ?d ?s = _ => destruct (intercepted_spec m d s) as (? & ? & ? & H) end.
    by rewrite E2 in H.
Qed.

Lemma metadata_session self self' :
  same_session self self' -> interception_metadata self' = interception_metadata self.
Proof. unfold interception_metadata. by intros (_ & _ & _ & ->). Qed.

Lemma attempts_sends request timeout base n : forall a self r self',
  attempts request timeout base n a self = Some (r, self') -> sends request timeout self r self'.
Proof.
  induction n as [|n IH]; intros a self r self'; cbn [attempts];
    destruct (send_single_request request timeout self) as [[[resp|e] s1]|] eqn:E1; try done;
    pose proof (single_request_sends _ _ _ _ _ E1) as H1.
  1, 3: intros [= <- <-]; by destruct (a >? 0).
  { by intros [= <- <-]. }
  destruct H1 as (c1 & Hl1 & Hm1 & Hf1 & _).
  destruct (send_single_request_spec request timeout self) as (r1 & s1' & ? & E1' & Hs & _).
  rewrite E1 in E1'. injection E1' as <- <-. apply metadata_session in Hs.
  unfold bind, sleep_before_retry. destruct (retry_delay base a) as [delay|]; [|done]. unfold modify.
  intros (c2 & Hl2 & Hm2 & Hf2 & Hr)%IH. cbn in *.
  change (interception_metadata (set_conn (transport s1) [Slept delay] s1)) with (interception_metadata s1) in *.
  rewrite Hs in *. exists (c1 ++ Slept delay :: c2). split_and!.
  - by rewrite Hl2, Hl1, <- !app_assoc.
  - by etrans.
  - apply Forall_app. split; [done|]. constructor; [done|].
    eapply Forall_impl; [exact Hf2|]. intros c. by apply attempt_of_later.
  - intros response Hresp. destruct (Hr response Hresp) as (before & sent & -> & Hx).
    exists (c1 ++ Slept delay :: before), sent. rewrite <- app_assoc. split; [done|].
    by eapply exchanged_later.
Qed.

(** The request the handshake makes *)
Definition initialize_request (self : t) (info : Implementation.t) : JsonRpcRequest.t :=
  JsonRpcRequest.mk "2.0" (RequestId.String ("req_" +:+ pretty (request_counter self))) "initialize"
    (Some (InitializeRequest.to_value (InitializeRequest.mk ProtocolVersion.default client_capabilities info))).

Definition initialized : Call :=
  SentNotification (JsonRpcNotification.mk "2.0" "initialized" (Some (VObject []))).

(** A handshake that gave [i]: attempts of the initialize request, the last of
    them answered with what [i] says, then the notification *)
Definition shaken (self : t) (info : Implementation.t) (i : ServerInfo.t) (calls : list Call) : Prop :=
  let mg := interceptor_manager self in
  let md := interception_metadata self in
  exists before sent response result init,
    calls = before ++ [SentRequest sent; initialized] /\
    Forall (attempt_of mg md (initialize_request self info)) (before ++ [SentRequest sent]) /\
    exchanged mg md (ClientConfig.init_timeout (config self)) sent response /\
    JsonRpcResponse.result response = Some result /\ InitializeResponse.from_value result = Some init /\
    ServerInfo.implementation i = InitializeResponse.server_info init /\
    ServerInfo.protocol_version i = InitializeResponse.protocol_version init /\
    ServerInfo.capabilities i = InitializeResponse.capabilities init.

Lemma initialization_shakes info self i self' :
  perform_initialization info self = Some (Ok i, self') ->
  exists calls, log self' = log self ++ calls /\ shaken self info i calls.
Proof.
  unfold perform_initialization, bind at 1, modify, get, bind at 1, bind at 1.
  set (self1 := set_state ClientState.Initializing self).
  destruct (send_request_with_timeout "initialize" _ _ self1) as [[[resp|e] self2]|] eqn:E; try done.
  apply attempts_sends in E as (calls & Hl & _ & Hf & Hr). destruct (Hr resp eq_refl) as (before & sent & -> & Hx).
  destruct (JsonRpcResponse.result resp) as [result|] eqn:Hres; [|done].
  destruct (InitializeResponse.from_value result) as [init|] eqn:Hinit; [|done].
  unfold bind at 1, ret. unfold bind at 1.
  destruct (send_initialized_notification_spec "initialized"
              (InitializedNotification.to_value InitializedNotification.new) self2)
    as (rn & self3 & -> & _ & Hl3).
  destruct rn as [[]|e]; [|done]. unfold bind. destruct (conn_clock (transport self3)) as [[now el] w].
  intros [= <- <-]. exists (before ++ [SentRequest sent; initialized]). split.
  - cbn. rewrite app_nil_r, Hl3, Hl. cbn. by rewrite <- !app_assoc.
  - exists before, sent, resp, result, init. by split_and!.
Qed.

Lemma connect_shakes info self i self' :
  connect info self = Some (Ok i, self') ->
  exists calls, log self' = log self ++ Connected :: calls /\ shaken self info i calls.
Proof.
  unfold connect, bind at 1, modify. set (self1 := set_state _ self). unfold on_transport. unfold bind at 1.
  destruct (conn_connect (transport self1)) as [[u|e] w]; [|done].
  unfold bind at 1, ret. set (self2 := set_conn w [Connected] self1). unfold bind at 1.
  destruct (perform_initialization info self2) as [[[i'|e] self3]|] eqn:E; try done.
  unfold bind. intros [= <- <-]. apply initialization_shakes in E as (calls & Hl & Hs).
  exists calls. split; [|exact Hs]. cbn. rewrite Hl. cbn. by rewrite <- app_assoc.
Qed.

(** ** The life of a client *)

(** The calls of the client's interface; [set_interceptor_manager] also stands
    for additions to a shared manager. *)
Inductive op : t -> t -> Prop :=
| op_connect info self r self' : connect info self = Some (r, self') -> op self self'
| op_disconnect self r self' : disconnect self = Some (r, self') -> op self self'
| op_request method params self r self' :
    send_request method params self = Some (r, self') -> op self self'
| op_notification method params self r self' :
    send_notification method params self = Some (r, self') -> op self self'
| op_session s self : op self (set_session_id s self)
| op_manager m self : op self (set_interceptor_manager m self).

Definition coherent (self : t) : Prop :=
  sane (config self) /\
  (state self = ClientState.Ready -> is_Some (server_info self)) /\
  (state self = ClientState.Disconnected -> server_info self = None) /\
  state self <> ClientState.Connecting.

Lemma same_session_coherent self self' :
  same_session self self' -> coherent self -> coherent self'.
Proof.
  unfold coherent. by intros (-> & -> & -> & _).
Qed.

Lemma op_coherent self self' : op self self' -> coherent self -> coherent self'.
Proof.
  intros Hop Hco. destruct Hop as [info self r self' H|self r self' H|m p self r self' H
    |m p self r self' H|s self|m self]; [| | | |exact Hco..].
  - destruct Hco as (Hsane & _).
    destruct (connect_spec info self Hsane) as (r1 & self1 & calls & H1 & Hc & _ & Hr).
    rewrite H in H1. injection H1 as <- <-. unfold coherent. rewrite Hc. split; [done|].
    destruct r as [i|e].
    + destruct Hr as (-> & -> & _). split_and!; [eauto|done|done].
    + destruct Hr as (_ & [->|[e' ->]]); split_and!; done.
  - destruct Hco as (Hsane & _). unfold disconnect, bind, modify, on_transport in H. simpl in H.
    destruct (conn_disconnect (transport self)) as [[u|e] w]; injection H as <- <-;
      unfold coherent; simpl; split_and!; try done; apply Hsane.
  - unfold send_request, bind, get in H. destruct (is_ready self); simpl in H.
    + destruct (send_request_with_timeout_spec m p None self (proj1 Hco))
        as (r1 & self1 & calls & k & H1 & Hs & _).
      rewrite H in H1. injection H1 as <- <-. by eapply same_session_coherent.
    + by injection H as <- <-.
  - unfold send_notification, bind, get in H. destruct (is_ready self); simpl in H.
    + destruct (send_initialized_notification_spec m p self) as (r1 & self1 & H1 & Hs & _).
      rewrite H in H1. injection H1 as <- <-. by eapply same_session_coherent.
    + by injection H as <- <-.
Qed.

Lemma new_coherent conn c : sane c -> coherent (new conn c).
Proof. intros Hs. unfold coherent. simpl. by split_and!. Qed.

(** Neither a connection nor its end *)
Definition within (c : Call) : Prop := match c with Connected | ClosedTransport => False | _ => True end.

(** A client that is ready since its last connection, and how it came to be *)
Definition handshaken (start self : t) : Prop :=
  exists self0 info i self1 calls,
    rtc op start self0 /\ connect info self0 = Some (Ok i, self1) /\ server_info self = Some i /\
    log self = log self1 ++ calls /\ Forall within calls.

Lemma handshaken_same start self self' calls :
  handshaken start self -> server_info self' = server_info self -> log self' = log self ++ calls ->
  Forall within calls -> handshaken start self'.
Proof.
  intros (s0 & info & i & s1 & c & Hr & Hc & Hi & Hl & Hw) Hi' Hl' Hw'.
  exists s0, info, i, s1, (c ++ calls). split_and!; [done|done|by rewrite Hi'|by rewrite Hl', Hl, <- app_assoc|by apply Forall_app].
Qed.

Lemma op_handshaken start self self' :
  sane (config self) -> rtc op start self -> (state self = ClientState.Ready -> handshaken start self) ->
  op self self' -> state self' = ClientState.Ready -> handshaken start self'.
Proof.
  intros Hsane Hr H Hop. destruct Hop as [info self r self' E|self r self' E|m p self r self' E
    |m p self r self' E|s self|m self].
  - intros Hst. destruct (connect_spec info self Hsane) as (r1 & self1 & calls & E1 & _ & _ & Hc).
    rewrite E in E1. injection E1 as <- <-. destruct r as [i|e].
    + destruct Hc as (_ & Hi & _). exists self, info, i, self', []. rewrite app_nil_r. by split_and!.
    + destruct Hc as (_ & [Hn|[e' Hn]]); by rewrite Hn in Hst.
  - intros Hst. unfold disconnect, bind, modify, on_transport in E. simpl in E.
    destruct (conn_disconnect (transport self)) as [[u|e] w]; by injection E as <- <-.
  - unfold send_request, bind, get in E. destruct (is_ready self); [|by injection E as <- <-]. simpl in E.
    destruct (send_request_with_timeout_spec m p None self Hsane)
      as (r1 & self1 & calls & k & E1 & (_ & Hst & Hi & _) & Hl & Hf & _).
    rewrite E in E1. injection E1 as <- <-. rewrite Hst. intros Hready.
    eapply handshaken_same; [by apply H|done|done|]. eapply Forall_impl; [exact Hf|]. by intros [].
  - unfold send_notification, bind, get in E. destruct (is_ready self); [|by injection E as <- <-]. simpl in E.
    destruct (send_initialized_notification_spec m p self) as (r1 & self1 & E1 & (_ & Hst & Hi & _) & Hl).
    rewrite E in E1. injection E1 as <- <-. rewrite Hst. intros Hready.
    eapply handshaken_same; [by apply H|done|done|by constructor].
  - exact H.
  - exact H.
Qed.

Lemma life_handshaken start self :
  coherent start -> state start <> ClientState.Ready -> rtc op start self ->
  coherent self /\ (state self = ClientState.Ready -> handshaken start self).
Proof.
  intros Hco Hn. revert self. apply (rtc_ind_r (fun x =>
    coherent x /\ (state x = ClientState.Ready -> handshaken start x))); [done|].
  intros x y Hr Hop [IHc IHh].
  split; [by eapply op_coherent|]. intros Hst. eapply (op_handshaken _ x); try done. apply IHc.
Qed.

(** ** Invariants of the connection

    What the transport's operations preserve, every call of the client's
    interface preserves. *)

Section keeps.
Context (I : Conn -> Prop).
Context (Iconnect : forall w, I w -> I (conn_connect w).2)
        (Idisconnect : forall w, I w -> I (conn_disconnect w).2)
        (Irequest : forall req d w, I w -> I (conn_send_request req d w).2)
        (Inotification : forall notif w, I w -> I (conn_send_notification notif w).2)
        (Iclock : forall w, I w -> I (conn_clock w).2).

Definition keeps {A} (m : M A) : Prop :=
  forall self, I (transport self) ->
    match m self with Some (_, self') => I (transport self') | None => True end.

Lemma conn_keeps_ret {A} (a : A) : keeps (ret a).
Proof. by intros self H. Qed.

Lemma keeps_fail {A} e : keeps (@fail A e).
Proof. by intros self H. Qed.

Lemma keeps_get {A} (f : t -> A) : keeps (get f).
Proof. by intros self H. Qed.

Lemma keeps_modify f : (forall self, transport (f self) = transport self) -> keeps (modify f).
Proof. intros Hf self H. cbn. by rewrite Hf. Qed.

Lemma conn_keeps_bind {A B} (m : M A) (k : A -> M B) : keeps m -> (forall a, keeps (k a)) -> keeps (bind m k).
Proof.
  intros Hm Hk self H. unfold bind. specialize (Hm self H).
  destruct (m self) as [[[a|e] self']|]; [by apply Hk|done|done].
Qed.

Lemma conn_keeps_lift {A} (r : McpResult A) : keeps (lift r).
Proof. destruct r; [apply conn_keeps_ret|apply keeps_fail]. Qed.

Lemma keeps_on_transport {A} call (f : Conn -> McpResult A * Conn) :
  (forall w, I w -> I (f w).2) -> keeps (on_transport call f).
Proof. intros Hf self H. unfold on_transport. specialize (Hf _ H). by destruct (f (transport self)). Qed.

Lemma keeps_clock {A} (f : Z -> Z -> t -> McpResult A) (g : Z -> Z -> t -> t) :
  (forall now elapsed self, transport (g now elapsed self) = transport self) ->
  keeps (fun self => let '(now, elapsed, w) := conn_clock (transport self) in
                     Some (f now elapsed self, g now elapsed (set_conn w [] self))).
Proof.
  intros Hg self H. pose proof (Iclock _ H) as Hw. destruct (conn_clock (transport self)) as [[now elapsed] w].
  by rewrite Hg.
Qed.

Lemma keeps_intercepted m d : keeps (intercepted m d).
Proof.
  intros self H. unfold intercepted. pose proof (Iclock _ H) as Hw.
  destruct (conn_clock (transport self)) as [[now elapsed] w]. by destruct (InterceptorManager.process_message_with_metadata _ _ _ _ _ _).
Qed.

Lemma keeps_sleep base attempt : keeps (sleep_before_retry base attempt).
Proof. unfold sleep_before_retry. destruct (retry_delay base attempt); [by apply keeps_modify|done]. Qed.

Ltac keep :=
  repeat match goal with
  | |- keeps (bind _ _) => apply conn_keeps_bind; [|intros ?]
  | |- keeps (ret _) => apply conn_keeps_ret
  | |- keeps (fail _) => apply keeps_fail
  | |- keeps (get _) => apply keeps_get
  | |- keeps (lift _) => apply conn_keeps_lift
  | |- keeps (intercepted _ _) => apply keeps_intercepted
  | |- keeps (modify _) => by apply keeps_modify
  | |- keeps (on_transport _ _) => apply keeps_on_transport; auto
  | |- keeps (match ?x with _ => _ end) => destruct x
  end.

Lemma keeps_single request timeout : keeps (send_single_request request timeout).
Proof. unfold send_single_request. keep. Qed.

Lemma keeps_attempts request timeout base n : forall attempt, keeps (attempts request timeout base n attempt).
Proof.
  induction n as [|n IH]; intros attempt self H; cbn [attempts];
    pose proof (keeps_single request timeout self H) as Hs;
    destruct (send_single_request request timeout self) as [[[r|e] self']|]; try done; try by case_match.
  by apply (conn_keeps_bind (sleep_before_retry base attempt) _ (keeps_sleep _ _) (fun _ => IH _)).
Qed.

Lemma keeps_with_timeout method params timeout : keeps (send_request_with_timeout method params timeout).
Proof.
  unfold send_request_with_timeout. keep; [by intros self H|].
  unfold send_request_with_retries. keep. apply keeps_attempts.
Qed.

Lemma keeps_initialized method params : keeps (send_initialized_notification method params).
Proof. unfold send_initialized_notification. keep. Qed.

Lemma keeps_initialization info : keeps (perform_initialization info).
Proof.
  unfold perform_initialization. keep; try apply keeps_with_timeout; try apply keeps_initialized.
  by apply (keeps_clock (fun now _ _ => Ok now) (fun _ _ self => self)).
Qed.

Lemma op_keeps self self' : op self self' -> I (transport self) -> I (transport self').
Proof.
  assert (Hk : forall A (m : M A) r, keeps m -> m self = Some (r, self') -> I (transport self) -> I (transport self'))
    by (intros A m r Hm Hr H; specialize (Hm self H); by rewrite Hr in Hm).
  intros Hop. destruct Hop as [info self r self' H|self r self' H|m p self r self' H
    |m p self r self' H|s self|m self]; try done; revert H; apply Hk.
  - unfold connect. keep; try apply keeps_initialization.
  - unfold disconnect. keep.
  - unfold send_request. keep. apply keeps_with_timeout.
  - unfold send_notification. keep. apply keeps_initialized.
Qed.
End keeps.

(** ** Blocking interceptors *)

(** Wants and blocks every message, in every state *)
Definition blocks_all (i : MessageInterceptor) (reason : string) : Prop :=
  forall s now ctx, should_intercept i s ctx = true /\
    (intercept i s now ctx).1 = Ok (InterceptionResult.blocked reason).

Definition blocked_count (self : t) : Z :=
  ManagerStats.total_messages_blocked (InterceptorManager.stats (interceptor_manager self)).

(** The first interceptor of the manager blocks everything. *)
Definition guarded (reason : string) (self : t) : Prop :=
  exists i rest, InterceptorManager.interceptors (interceptor_manager self) = i :: rest /\
                 blocks_all i reason.

Lemma send_single_request_blocked reason request timeout self :
  guarded reason self ->
  exists self', send_single_request request timeout self =
                  Some (Err (Protocol (RequestBlocked reason)), self') /\
    guarded reason self' /\ same_session self self' /\ log self' = log self /\
    blocked_count self' = wrap_u64 (blocked_count self + 1).
Proof.
  intros (i & rest & Hi & Hb).
  unfold send_single_request, bind, intercepted, InterceptorManager.process_message_with_metadata.
  destruct (conn_clock (transport self)) as [[now elapsed] w]. rewrite Hi. cbn [InterceptorManager.run].
  match goal with |- context [wants i ?c] => set (ctx := c) end.
  unfold wants. rewrite (proj1 (Hb (current i) now ctx)).
  match goal with |- context [intercept i (current i) now ?c] =>
    pose proof (proj2 (Hb (current i) now c)) as Hr;
    destruct (intercept i (current i) now c) as [answer s] end.
  simpl in Hr. subst answer. eexists. split; [reflexivity|].
  split; [exists (with_state i s), rest; split; [done|exact Hb]|].
  split; [by repeat split|]. split; [simpl; apply app_nil_r|]. reflexivity.
Qed.

Lemma attempts_blocked reason request timeout base n : forall a self,
  guarded reason self ->
  0 <= a -> a + Z.of_nat n <= 31 -> 0 <= base -> base * 2 ^ 31 <= duration_max ->
  exists self',
    attempts request timeout base n a self =
      Some (Err (Protocol (RequestBlocked reason)), self') /\
    log self' = log self ++ map Slept (delays base a n) /\
    wrap_u64 (blocked_count self') = wrap_u64 (blocked_count self + Z.of_nat n + 1).
Proof.
  induction n as [|n IH]; intros a self Hg Ha Hn Hb Hm; simpl;
    destruct (send_single_request_blocked reason request timeout self Hg)
      as (self1 & -> & Hg1 & Hs & Hl & Hc).
  - eexists. split; [reflexivity|]. simpl. rewrite app_nil_r. split; [done|].
    unfold blocked_count in *. simpl. rewrite Hc. unfold wrap_u64.
    rewrite Zmod_mod. f_equal. lia.
  - unfold sleep_before_retry, bind. rewrite retry_delay_Some by lia. simpl.
    set (self2 := set_conn _ _ self1).
    destruct (IH (a + 1) self2) as (self' & -> & Hl2 & Hc2); [exact Hg1|lia..|].
    exists self'. split; [done|]. split.
    + rewrite Hl2, delays_S. simpl. by rewrite Hl, <- app_assoc.
    + rewrite Hc2. change (blocked_count self2) with (blocked_count self1). rewrite Hc.
      unfold wrap_u64. rewrite <- Z.add_assoc, Zplus_mod_idemp_l. f_equal. lia.
Qed.

End client.
Arguments t : clear implicits.
Arguments t {JN TA}.
End McpClient.

Import McpClient.

(** ** Properties *)

(** C24: over the whole life of a client, it is ready only when a connection
    succeeded earlier and it was neither connected again nor disconnected since,
    and then it has the server's information of that connection; it has none
    when disconnected, and an operation never ends while connecting.  Connecting
    ends ready after the transport's connection, the attempts of the initialize
    request, of which the last sent is answered with what the client then knows
    of the server, and last the notification; or, with an error, initializing or
    in the error state.  Requests and notifications are refused until it
    succeeds.  The interceptors may rewrite the initialize request and its
    answer; without interceptors exactly this request is sent. *)
Theorem client_lifecycle `{JN : JsonNumbers} {TA : TransportApi} conn cfg self :
  sane cfg -> rtc op (McpClient.new conn cfg) self ->
  (state self = ClientState.Ready -> exists self0 info i self1 calls,
     rtc op (McpClient.new conn cfg) self0 /\ connect info self0 = Some (Ok i, self1) /\
     server_info self = Some i /\ log self = log self1 ++ calls /\ Forall within calls) /\
  (state self = ClientState.Disconnected -> server_info self = None) /\
  state self <> ClientState.Connecting /\
  (state self <> ClientState.Ready -> forall method params,
   send_request method params self =
     Some (Err (Protocol (NotInitialized "Client not ready for requests")), self) /\
   send_notification method params self =
     Some (Err (Protocol (NotInitialized "Client not ready for notifications")), self)) /\
  (forall info, exists r self' calls,
   connect info self = Some (r, self') /\ log self' = log self ++ Connected :: calls /\
   match r with
   | Ok i => state self' = ClientState.Ready /\ server_info self' = Some i /\ shaken self info i calls
   | Err _ => state self' = ClientState.Initializing \/ exists e, state self' = ClientState.Error e
   end) /\
  (InterceptorManager.interceptors (interceptor_manager self) = [] -> forall info sent,
   attempt_of (interceptor_manager self) (interception_metadata self) (initialize_request self info)
     (SentRequest sent) -> sent = initialize_request self info).
Proof.
  intros Hsane Hr. destruct (life_handshaken _ self (new_coherent conn cfg Hsane) ltac:(done) Hr)
    as [(Hs & Hready & Hdis & Hcon) Hh]. split_and!; try done.
  - intros Hn method params. unfold send_request, send_notification, bind, get, is_ready.
    by rewrite bool_decide_false.
  - intros info. destruct (connect_spec info self Hs) as (r & self' & calls & Hc & _ & Hl & H).
    exists r, self', calls. split_and!; [done|done|]. destruct r as [i|e]; [|apply H].
    destruct H as (? & ? & _). split_and!; [done|done|].
    destruct (connect_shakes _ _ _ _ Hc) as (calls' & Hl' & Hsh).
    rewrite Hl in Hl'. apply app_inv_head in Hl'. by injection Hl' as ->.
  - intros He info sent (mg1 & mg2 & now & el & ir & Hla & Hp & _ & ->).
    assert (Hn : InterceptorManager.interceptors mg1 = []).
    { revert He. clear -Hla. induction Hla as [|x y z (n & e & m & d & md & r & E) _ IH]; [done|].
      intros Hx. apply IH. unfold InterceptorManager.process_message_with_metadata in E. rewrite Hx in E. cbn in E.
      by injection E as _ <-. }
    unfold InterceptorManager.process_message_with_metadata in Hp. rewrite Hn in Hp. cbn in Hp.
    injection Hp as <- _. done.
Qed.

(** A request of a ready client is tried at most [max_retries + 1] times
    and at most once sent for each attempt, with the [i]-th retry after the
    base delay times [2 ^ i].  It never panics when the delays fit a
    duration; on success the retries are counted, and it fails only after all
    of them, counting one error. *)
Theorem request_retries `{JN : JsonNumbers} {TA : TransportApi} (self : McpClient.t)
    method params :
  sane (config self) -> state self = ClientState.Ready ->
  exists r self' calls k,
    send_request method params self = Some (r, self') /\
    state self' = ClientState.Ready /\ server_info self' = server_info self /\
    log self' = log self ++ calls /\ Forall of_request calls /\
    Z.of_nat k <= ClientConfig.max_retries (config self) /\
    omap slept_of calls =
      map (fun i => ClientConfig.retry_base_delay (config self) * 2 ^ Z.of_nat i) (seq 0 k) /\
    (length (omap sent_of calls) <= S k)%nat /\
    match r with
    | Ok _ => ClientStats.errors (stats self') = ClientStats.errors (stats self) /\
              ClientStats.retries (stats self') =
                (if Z.of_nat k >? 0 then wrap_u64 (ClientStats.retries (stats self) + Z.of_nat k)
                 else ClientStats.retries (stats self))
    | Err _ => Z.of_nat k = ClientConfig.max_retries (config self) /\
               ClientStats.errors (stats self') =
                 wrap_u64 (ClientStats.errors (stats self) + 1) /\
               ClientStats.retries (stats self') = ClientStats.retries (stats self)
    end.
Proof.
  intros Hs Hr. unfold send_request, bind, get, is_ready. rewrite bool_decide_true by done.
  destruct (send_request_with_timeout_spec method params None self Hs)
    as (r & self' & calls & k & H & (_ & Hst & Hi & _) & Hl & Hf & Hk & Hsl & Hsn & Hm).
  exists r, self', calls, k. split_and!; try done; congruence.
Qed.

(** A request that the first interceptor blocks is never sent, yet it is
    retried like a failure of the network, although its error is not
    retryable: the client waits out all its delays and the message is counted
    as blocked [max_retries + 1] times before the error is returned. *)
Theorem blocked_request_is_retried `{JN : JsonNumbers} {TA : TransportApi}
    (self : McpClient.t) reason method params :
  sane (config self) -> state self = ClientState.Ready -> guarded reason self ->
  McpErrors.is_retryable (Protocol (RequestBlocked reason)) = false /\
  exists self',
    send_request method params self = Some (Err (Protocol (RequestBlocked reason)), self') /\
    log self' = log self ++
      map Slept (delays (ClientConfig.retry_base_delay (config self)) 0
                   (Z.to_nat (ClientConfig.max_retries (config self)))) /\
    wrap_u64 (blocked_count self') =
      wrap_u64 (blocked_count self + (ClientConfig.max_retries (config self) + 1)).
Proof.
  intros (Hm & Hb & Hd) Hr Hg. split; [done|].
  unfold send_request, send_request_with_timeout, send_request_with_retries, bind, get, is_ready.
  rewrite bool_decide_true by done. simpl.
  match goal with |- context [attempts ?rq ?d ?b ?n ?a ?s] =>
    destruct (attempts_blocked reason rq d b n a s) as (self' & -> & Hl & Hc); [exact Hg|lia..|] end.
  exists self'. split_and!; [done|exact Hl|]. rewrite Hc. unfold blocked_count. simpl.
  f_equal. lia.
Qed.

(** ** Concrete clients *)

Module Demo.
#[local] Existing Instance ToyNumbers.toy_numbers.

(** A connection is the list of the outcomes of its sends. *)
#[global] Instance demo_transport : TransportApi := {|
  Conn := list bool;
  conn_connect w := (Ok tt, w);
  conn_disconnect w := (Ok tt, w);
  conn_send_request req _ w :=
    (if hd true w
     then Ok (JsonRpcResponse.success (JsonRpcRequest.id req)
                (InitializeResponse.to_value (InitializeResponse.basic "server" "1.0")))
     else Err (Transport (SendFailed "stdio" "closed")), tl w);
  conn_send_notification _ w := (Ok tt, w);
  conn_clock w := (0, 0, w);
  error_text _ := "error";
  serde_text _ := "invalid"
|}.

Definition client (outcomes : list bool) : McpClient.t :=
  McpClient.new outcomes ClientConfig.default.

Definition info : Implementation.t := Implementation.new "probe" "0.1.0".

(** Two failures, then the handshake succeeds. *)
Example demo_connect :
  match connect info (client [false; false; true]) with
  | Some (Ok i, self) =>
      state self = ClientState.Ready /\ ClientStats.retries (stats self) = 2 /\
      omap slept_of (log self) = [from_secs 1; from_secs 2]
  | _ => False
  end.
Proof. vm_compute. by repeat split. Qed.

(** After four failures the client stays initializing. *)
Example demo_connect_fails :
  match connect info (client [false; false; false; false]) with
  | Some (Err _, self) => state self = ClientState.Initializing
  | _ => False
  end.
Proof. vm_compute. reflexivity. Qed.

Definition ready (outcomes : list bool) : McpClient.t :=
  set_state ClientState.Ready (client outcomes).

(** An interceptor that blocks everything *)
Definition guard : MessageInterceptor :=
  MkInterceptor _ unit tt "guard" 1 (fun _ _ => true)
    (fun s _ _ => (Ok (InterceptionResult.blocked "no"), s)).

Lemma default_sane : sane ClientConfig.default.
Proof. repeat split; by vm_compute. Qed.
End Demo.

(** A client that has connected at the third attempt *)
Definition connected_client : McpClient.t (JN := ToyNumbers.toy_numbers) :=
  match connect Demo.info (Demo.client [false; false; true]) with
  | Some (_, self) => self
  | None => Demo.client []
  end.

Lemma client_connected :
  (exists i, connect Demo.info (Demo.client [false; false; true]) = Some (Ok i, connected_client)) /\
  state connected_client = ClientState.Ready.
Proof.
  pose proof Demo.demo_connect as H. unfold connected_client.
  destruct (connect Demo.info (Demo.client [false; false; true])) as [[[i|e] self]|]; [|done|done].
  split; [by exists i|]. exact (proj1 H).
Qed.

Example client_lifecycle_witness :
  exists i, connect Demo.info (Demo.client [false; false; true]) = Some (Ok i, connected_client) /\
    exists self0 info j self1 calls,
      connect (JN := ToyNumbers.toy_numbers) info self0 = Some (Ok j, self1) /\
      server_info connected_client = Some j /\ log connected_client = log self1 ++ calls.
Proof.
  destruct client_connected as [[i Hi] Hready]. exists i. split; [exact Hi|].
  pose proof (op_connect _ _ _ _ Hi) as Hop.
  destruct (client_lifecycle (JN := ToyNumbers.toy_numbers) (TA := Demo.demo_transport) [false; false; true]
    ClientConfig.default connected_client Demo.default_sane (rtc_once _ _ Hop)) as (H & _).
  destruct (H Hready) as (s0 & info & j & s1 & calls & _ & Hc & Hj & Hl & _).
  exists s0, info, j, s1, calls. split; [exact Hc|]. split; [exact Hj|exact Hl].
Defined.

Example request_retries_witness :
  exists r self' calls k,
    send_request (JN := ToyNumbers.toy_numbers) "tools/list" VNull (Demo.ready [false; true]) =
      Some (r, self') /\ Z.of_nat k <= 3 /\ omap slept_of calls = map from_secs (firstn k [1; 2; 4]).
Proof.
  destruct (request_retries (JN := ToyNumbers.toy_numbers) (Demo.ready [false; true])
              "tools/list" VNull Demo.default_sane eq_refl)
    as (r & self' & calls & k & H & _ & _ & _ & _ & Hk & Hs & _).
  exists r, self', calls, k. split_and!; [exact H|exact Hk|]. rewrite Hs. simpl in Hk.
  destruct k as [|[|[|[|k]]]]; [reflexivity..|lia].
Defined.

Example blocked_request_is_retried_witness :
  let self := set_interceptor_manager
                (InterceptorManager.add_interceptor InterceptorManager.new Demo.guard)
                (Demo.ready []) in
  exists self',
    send_request (JN := ToyNumbers.toy_numbers) "tools/list" VNull self =
      Some (Err (Protocol (RequestBlocked "no")), self') /\
    log self' = [Slept (from_secs 1); Slept (from_secs 2); Slept (from_secs 4)] /\
    wrap_u64 (blocked_count self') = 4.
Proof.
  intros self.
  assert (Hg : guarded "no" self) by (exists Demo.guard, []; by repeat split).
  destruct (blocked_request_is_retried (JN := ToyNumbers.toy_numbers) self "no" "tools/list" VNull
              Demo.default_sane eq_refl Hg) as (_ & self' & H & Hl & Hc).
  exists self'. split_and!; [exact H|rewrite Hl; reflexivity|rewrite Hc; reflexivity].
Defined.
