(* ===== verification/StdioTransport.v ===== *)
(** The client's stdio transport ([acdp-core/src/transport/stdio.rs]): a child
    process, the tasks that read its output and write its input, and the table
    of the requests that wait for a response.  A request borrows the transport
    until it is answered or times out, so only the tasks run meanwhile: what
    the reader takes in while a request waits is an argument. *)

From S2P Require Import Prelude McpError Messages Transform Text CoreTransport Client.

Module StdioTransport.
Section transport.
Context `{JT : JsonText} {UA : UrlApi}.

(** A responder of a pending request is named by a number; [next] is the next
    one.  The receiving end of [inbound] is dropped when the transport is
    disconnected. *)
Record t : Type := mk {
  config : TransportConfig.t;
  info : TransportInfo.t;
  child_process : bool;
  message_sender : bool;
  message_receiver : option (list JsonRpcMessage.t);
  outbound_sender : bool;
  outbound : list JsonRpcMessage.t;
  writer : bool;   (* the writer task holds the other end *)
  reader : bool;
  pending_requests : gmap string nat;
  next : nat
}.

Definition new (config : TransportConfig.t) : t :=
  mk config (TransportInfo.new "stdio") false false None false [] false false ∅ 0.

Definition set_info (self : t) (i : TransportInfo.t) : t :=
  mk (config self) i (child_process self) (message_sender self) (message_receiver self)
     (outbound_sender self) (outbound self) (writer self) (reader self) (pending_requests self) (next self).

Definition set_inbound (self : t) (q : option (list JsonRpcMessage.t)) : t :=
  mk (config self) (info self) (child_process self) (message_sender self) q
     (outbound_sender self) (outbound self) (writer self) (reader self) (pending_requests self) (next self).

Definition set_outbound (self : t) (q : list JsonRpcMessage.t) (alive : bool) : t :=
  mk (config self) (info self) (child_process self) (message_sender self) (message_receiver self)
     (outbound_sender self) q alive (reader self) (pending_requests self) (next self).

Definition set_reader (self : t) (alive : bool) : t :=
  mk (config self) (info self) (child_process self) (message_sender self) (message_receiver self)
     (outbound_sender self) (outbound self) (writer self) alive (pending_requests self) (next self).

Definition set_pending (self : t) (p : gmap string nat) (n : nat) : t :=
  mk (config self) (info self) (child_process self) (message_sender self) (message_receiver self)
     (outbound_sender self) (outbound self) (writer self) (reader self) p n.

Definition error (e : TransportError) : McpError := Transport e.
Definition not_connected (reason : string) : McpError := error (NotConnected "stdio" reason).

Definition is_connected (self : t) : bool :=
  TransportInfo.connected (info self) && child_process self && message_sender self && outbound_sender self.

(** [spawn_process]: [spawned] is the system's answer *)
Definition spawn_process (spawned : Res unit string) (self : t) : McpResult unit * t :=
  match config self with
  | TransportConfig.Stdio _ =>
      match spawned with
      | Ok _ =>
          (Ok tt, mk (config self) (info self) true true (Some []) true [] true true
                     (pending_requests self) (next self))
      | Err reason => (Err (error (ConnectionError "stdio" reason)), self)
      end
  | _ => (Err (error (TransportInvalidConfig "stdio" "Invalid configuration type")), self)
  end.

Definition connect (now : Z) (spawned : Res unit string) (self : t) : McpResult unit * t :=
  match spawn_process spawned self with
  | (Ok _, self) => (Ok tt, set_info self (TransportInfo.mark_connected now (info self)))
  | (Err e, self) => (Err e, self)
  end.

(** The tasks outlive it: the writer ends when its queue is empty or the killed
    process takes no more, the reader at its next message. *)
Definition disconnect (self : t) : McpResult unit * t :=
  (Ok tt, mk (config self) (TransportInfo.mark_disconnected (info self)) false false None false (outbound self)
             (writer self) (reader self) ∅ (next self)).

(** ** The reader task *)

(** One line: the response to a pending request goes to its responder, any
    other message into the queue. *)
Definition read_line (self : t) (line : string) : t * option (nat * JsonRpcResponse.t) :=
  if negb (reader self) || str_is_empty (trim line) then (self, None)
  else match message_from_str (trim line) with
       | None => (self, None)
       | Some message =>
           let queue self :=
             match message_receiver self with
             | Some q => (set_inbound self (Some (q ++ [message])), None)
             | None => (set_reader self false, None)
             end in
           match message with
           | JsonRpcMessage.Response response =>
               let key := RequestId.to_string (JsonRpcResponse.id response) in
               match pending_requests self !! key with
               | Some responder =>
                   (set_pending self (delete key (pending_requests self)) (next self), Some (responder, response))
               | None => queue self
               end
           | _ => queue self
           end
       end.

(** The lines up to the one that answers [responder], and its response *)
Fixpoint read_until (self : t) (responder : nat) (lines : list string) : t * option JsonRpcResponse.t :=
  match lines with
  | [] => (self, None)
  | line :: lines =>
      match read_line self line with
      | (self, Some (r, response)) =>
          if Nat.eqb r responder then (self, Some response) else read_until self responder lines
      | (self, None) => read_until self responder lines
      end
  end.

Definition read_lines (self : t) (lines : list string) : t :=
  List.fold_left (fun self line => (read_line self line).1) lines self.

(** ** The writer task *)

(** One message, as a line, or the end of the task *)
Definition write_one (ok : bool) (self : t) : t * list string :=
  match writer self, outbound self with
  | true, m :: q =>
      if ok then (set_outbound self q true, [message_to_string m +:+ newline])
      else (set_outbound self [] false, [])
  | _, _ => (self, [])
  end.

(** ** Operations *)

(** [sender.send(..)], which fails when the task is gone *)
Definition send_out (self : t) (m : JsonRpcMessage.t) : option t :=
  if writer self then Some (set_outbound self (outbound self ++ [m]) true) else None.

Definition failed_send (what : string) : McpError :=
  error (ProcessError ("Failed to send " +:+ what +:+ " to child process")).

(** [lines] come while the request waits; when none of them is its response it
    times out, with the text [timed_out]. *)
Definition send_request (request : JsonRpcRequest.t) (timed_out : string) (lines : list string) (self : t)
  : McpResult JsonRpcResponse.t * t :=
  if negb (is_connected self) then (Err (not_connected "Transport not connected"), self)
  else
    let responder := next self in
    let key := RequestId.to_string (JsonRpcRequest.id request) in
    let self := set_pending self (<[key := responder]> (pending_requests self)) (S (next self)) in
    match send_out self (JsonRpcMessage.Request request) with
    | None => (Err (failed_send "request"), self)
    | Some self =>
        let self := set_info self (TransportInfo.increment_requests_sent (info self)) in
        match read_until self responder lines with
        | (self, Some response) =>
            (Ok response, set_info self (TransportInfo.increment_responses_received (info self)))
        | (self, None) => (Err (error (TransportTimeout "stdio" timed_out)), self)
        end
    end.

Definition send_notification (notification : JsonRpcNotification.t) (self : t) : McpResult unit * t :=
  if negb (is_connected self) then (Err (not_connected "Transport not connected"), self)
  else match send_out self (JsonRpcMessage.Notification notification) with
       | None => (Err (failed_send "notification"), self)
       | Some self => (Ok tt, set_info self (TransportInfo.increment_notifications_sent (info self)))
       end.

(** [receive_message]: [closed] when the queue is empty and its sender gone *)
Definition receive_message (timed_out : string) (closed : bool) (self : t)
  : McpResult JsonRpcMessage.t * t :=
  if negb (is_connected self) then (Err (not_connected "Transport not connected"), self)
  else match message_receiver self with
       | None => (Err (not_connected "Message receiver not available"), self)
       | Some [] =>
           (Err (error (if closed : bool then ProcessError "Child process stdout closed"
                        else TransportTimeout "stdio" timed_out)), self)
       | Some (message :: q) =>
           let self := set_inbound self (Some q) in
           (Ok message,
            match message with
            | JsonRpcMessage.Notification _ =>
                set_info self (TransportInfo.increment_notifications_received (info self))
            | _ => self
            end)
       end.
End transport.
Arguments t : clear implicits.
Arguments t {JN UA}.
End StdioTransport.

(** ** Correlation *)

Section correlation.
Context `{JT : JsonText} {UA : UrlApi}.
Import StdioTransport.

Definition key_of (r : JsonRpcResponse.t) : string := RequestId.to_string (JsonRpcResponse.id r).

(** Set algebra of the pending keys *)
Lemma minus_skip (D X : gset string) k : k ∉ D -> D ∖ X = D ∖ ({[k]} ∪ X).
Proof. set_solver. Qed.

Lemma minus_none (D : gset string) : D = D ∖ ∅.
Proof. set_solver. Qed.

Lemma insert_answered (D X : gset string) k : ({[k]} ∪ D) ∖ (X ∪ {[k]}) = D ∖ X ∖ {[k]}.
Proof. set_solver. Qed.

Lemma insert_unanswered (D X : gset string) k : k ∉ X -> ({[k]} ∪ D) ∖ X = D ∖ X ∪ {[k]}.
Proof. set_solver. Qed.

(** The response a line is, if it is one *)
Definition answer_of (line : string) : option JsonRpcResponse.t :=
  if str_is_empty (trim line) then None
  else match message_from_str (trim line) with Some (JsonRpcMessage.Response r) => Some r | _ => None end.

Definition answered (lines : list string) : gset string := list_to_set (key_of <$> omap answer_of lines).

(** The first response with the key, and the lines before it *)
Fixpoint first_answer (key : string) (lines : list string) : option (list string * JsonRpcResponse.t) :=
  match lines with
  | [] => None
  | line :: lines =>
      match answer_of line with
      | Some r =>
          if String.eqb (key_of r) key then Some ([], r)
          else option_map (fun '(before, r) => (line :: before, r)) (first_answer key lines)
      | None => option_map (fun '(before, r) => (line :: before, r)) (first_answer key lines)
      end
  end.

(** The tasks run, and a connected transport has its queue. *)
Definition running (self : StdioTransport.t) : Prop :=
  is_connected self = true /\ writer self = true /\ reader self = true /\ is_Some (message_receiver self).

(** The responders of pending requests are distinct and were given out. *)
Definition table_ok (self : StdioTransport.t) : Prop :=
  (forall k n, pending_requests self !! k = Some n -> (n < next self)%nat) /\
  (forall k k' n, pending_requests self !! k = Some n -> pending_requests self !! k' = Some n -> k = k').

Lemma read_line_alive self line self' d :
  reader self = true -> is_Some (message_receiver self) -> read_line self line = (self', d) ->
  (reader self' = true /\ is_Some (message_receiver self') /\ next self' = next self) /\
  match answer_of line with
  | Some r =>
      match pending_requests self !! key_of r with
      | Some n => d = Some (n, r) /\ pending_requests self' = delete (key_of r) (pending_requests self)
      | None => d = None /\ pending_requests self' = pending_requests self
      end
  | None => d = None /\ pending_requests self' = pending_requests self
  end.
Proof.
  intros Hr [q Hq]. unfold read_line, answer_of. rewrite Hr, Hq. cbn [negb orb].
  destruct (str_is_empty (trim line)); [by intros [= <- <-]; rewrite Hq|].
  destruct (message_from_str (trim line)) as [[req|resp|notif]|]; try (intros [= <- <-]; cbn; by rewrite ?Hq).
  fold (key_of resp). destruct (pending_requests self !! key_of resp); intros [= <- <-]; cbn; by rewrite ?Hq.
Qed.

Lemma answered_cons line lines :
  answered (line :: lines) =
    match answer_of line with Some r => {[key_of r]} | None => ∅ end ∪ answered lines.
Proof. unfold answered. cbn. destruct (answer_of line); cbn; [done|by rewrite (left_id_L ∅ (∪))]. Qed.

Lemma table_delete (self self' : StdioTransport.t) k :
  table_ok self -> next self' = next self ->
  pending_requests self' = delete k (pending_requests self) -> table_ok self'.
Proof.
  intros [H1 H2] Hn Hp. unfold table_ok. rewrite Hn, Hp. split.
  - intros j n H. apply lookup_delete_Some in H as [_ H]. eauto.
  - intros j j' n H H'. apply lookup_delete_Some in H as [_ H], H' as [_ H']. eauto.
Qed.

Lemma read_until_spec key responder : forall lines self self' d,
  reader self = true -> is_Some (message_receiver self) -> table_ok self ->
  pending_requests self !! key = Some responder ->
  read_until self responder lines = (self', d) ->
  table_ok self' /\
  match first_answer key lines with
  | Some (before, r) =>
      d = Some r /\ dom (pending_requests self') = dom (pending_requests self) ∖ (answered before ∪ {[key]})
  | None => d = None /\ dom (pending_requests self') = dom (pending_requests self) ∖ answered lines
  end.
Proof.
  induction lines as [|line lines IH]; intros self self' d Hr Hq Ht Hk H.
  { injection H as <- <-. cbn [first_answer]. split_and!; [done|done|apply minus_none]. }
  cbn [read_until] in H. destruct (read_line self line) as [self1 d1] eqn:El.
  destruct (read_line_alive _ _ _ _ Hr Hq El) as [(Hr1 & Hq1 & Hn1) Ha].
  cbn [first_answer]. destruct (answer_of line) as [r|] eqn:Ea.
  2: { destruct Ha as [-> Hp]. assert (Ht1 : table_ok self1) by (unfold table_ok in *; by rewrite Hn1, Hp).
       rewrite <- Hp in Hk. destruct (IH _ _ _ Hr1 Hq1 Ht1 Hk H) as [Ht' Hs]. split; [done|].
       rewrite Hp in Hs. destruct (first_answer key lines) as [[before r']|]; cbn [option_map];
         rewrite answered_cons, Ea, (left_id_L ∅ (∪)); exact Hs. }
  destruct (pending_requests self !! key_of r) as [n|] eqn:En.
  - destruct Ha as [-> Hp]. pose proof (table_delete _ _ _ Ht Hn1 Hp) as Ht1.
    destruct (String.eqb_spec (key_of r) key) as [He|Hne].
    + rewrite He in En. assert (n = responder) as -> by congruence. rewrite Nat.eqb_refl in H.
      injection H as <- <-. split; [done|]. split; [done|]. rewrite Hp, dom_delete_L, He.
      change (answered []) with (∅ : gset string). by rewrite (left_id_L ∅ (∪)).
    + assert (Hnr : (n =? responder)%nat = false).
      { apply Nat.eqb_neq. intros ->. apply Hne. by eapply (proj2 Ht). }
      rewrite Hnr in H. assert (Hk1 : pending_requests self1 !! key = Some responder)
        by (by rewrite Hp, lookup_delete_ne).
      destruct (IH _ _ _ Hr1 Hq1 Ht1 Hk1 H) as [Ht' Hs]. split; [done|]. rewrite Hp, dom_delete_L in Hs.
      destruct (first_answer key lines) as [[before r']|]; cbn [option_map];
        rewrite answered_cons, Ea; destruct Hs as [-> ->]; (split; [done|]);
        by rewrite difference_difference_l_L, ?(assoc_L (∪)).
  - destruct Ha as [-> Hp]. assert (Ht1 : table_ok self1) by (unfold table_ok in *; by rewrite Hn1, Hp).
    destruct (String.eqb_spec (key_of r) key) as [He|Hne]; [congruence|].
    rewrite <- Hp in Hk. destruct (IH _ _ _ Hr1 Hq1 Ht1 Hk H) as [Ht' Hs]. split; [done|]. rewrite Hp in Hs.
    assert (Hnd : key_of r ∉ dom (pending_requests self)) by (by apply not_elem_of_dom).
    destruct (first_answer key lines) as [[before r']|]; cbn [option_map];
      rewrite answered_cons, Ea; destruct Hs as [-> ->]; (split; [done|]);
      rewrite <- ?(assoc_L (∪)); by apply minus_skip.
Qed.

Lemma first_answer_found key : forall lines before r,
  first_answer key lines = Some (before, r) -> key_of r = key /\ key ∉ answered before.
Proof.
  induction lines as [|line lines IH]; [done|]. intros before r. cbn [first_answer].
  assert (Hskip : match answer_of line with Some r => key_of r <> key | None => True end ->
    option_map (fun '(before, r) => (line :: before, r)) (first_answer key lines) = Some (before, r) ->
    key_of r = key /\ key ∉ answered before).
  { intros Hl. destruct (first_answer key lines) as [[b r'']|]; [|done]. intros [= <- <-].
    destruct (IH _ _ eq_refl) as [-> Hn]. split; [done|]. rewrite answered_cons.
    destruct (answer_of line); [|by rewrite (left_id_L ∅ (∪))].
    apply not_elem_of_union. split; [|done]. by intros ->%elem_of_singleton. }
  destruct (answer_of line) as [r'|]; [|by apply Hskip].
  destruct (String.eqb_spec (key_of r') key) as [He|Hne]; [|by apply Hskip].
  intros [= <- <-]. split; [done|apply not_elem_of_empty].
Qed.

Lemma first_answer_none key lines : first_answer key lines = None -> key ∉ answered lines.
Proof.
  induction lines as [|line lines IH]; [intros _; apply not_elem_of_empty|]. cbn [first_answer].
  rewrite answered_cons. destruct (answer_of line) as [r'|]; [destruct (String.eqb_spec (key_of r') key); [done|]|];
    (destruct (first_answer key lines) as [[b r'']|]; [done|]); intros _; specialize (IH eq_refl);
    [|by rewrite (left_id_L ∅ (∪))]; apply not_elem_of_union; split; [|done]; by intros ->%elem_of_singleton.
Qed.

(** C26: a request over a running transport is answered by the first response
    line with its identifier, and by nothing else, or times out; the table
    keeps exactly the requests whose response has not come: one that timed out
    stays, until a late response takes it out. *)
Theorem requests_are_correlated self request timed_out lines :
  running self -> table_ok self ->
  let key := RequestId.to_string (JsonRpcRequest.id request) in
  let '(answer, self') := send_request request timed_out lines self in
  table_ok self' /\
  match first_answer key lines with
  | Some (before, r) =>
      answer = Ok r /\ key_of r = key /\
      dom (pending_requests self') = dom (pending_requests self) ∖ answered before ∖ {[key]}
  | None =>
      answer = Err (Transport (TransportTimeout "stdio" timed_out)) /\
      dom (pending_requests self') = (dom (pending_requests self) ∖ answered lines) ∪ {[key]}
  end.
Proof.
  intros (Hc & Hw & Hr & Hq) [Ht1 Ht2] key. unfold send_request. rewrite Hc. cbn [negb]. fold key.
  unfold send_out. cbn [writer set_pending]. rewrite Hw.
  set (self1 := set_info _ _). destruct (read_until self1 (next self) lines) as [self2 d] eqn:E.
  assert (Ht : table_ok self1).
  { split; unfold self1; cbn.
    - intros k n [[_ <-]|[_ H]]%lookup_insert_Some; [lia|]. specialize (Ht1 _ _ H). lia.
    - intros k k' n [[<- <-]|[Hk H]]%lookup_insert_Some [[<- Hn]|[Hk' H']]%lookup_insert_Some; try done.
      + specialize (Ht1 _ _ H'). lia.
      + subst n. specialize (Ht1 _ _ H). lia.
      + by eapply Ht2. }
  assert (Hk : pending_requests self1 !! key = Some (next self)) by apply lookup_insert_eq.
  destruct (read_until_spec key (next self) lines self1 self2 d) as [Ht' Hs]; try done.
  assert (Hd : dom (pending_requests self1) = {[key]} ∪ dom (pending_requests self))
    by apply dom_insert_L.
  destruct (first_answer key lines) as [[before r]|] eqn:Ef.
  - destruct Hs as [-> Hdom]. destruct (first_answer_found _ _ _ _ Ef) as [Hkr Hnb]. cbn.
    split; [exact Ht'|]. split_and!; [done|done|]. rewrite Hdom, Hd. apply insert_answered.
  - destruct Hs as [-> Hdom]. pose proof (first_answer_none _ _ Ef) as Hnone. split; [exact Ht'|]. split; [done|].
    rewrite Hdom, Hd. by apply insert_unanswered.
Qed.
End correlation.

Module DemoWire.
Import ToyNumbers ToyText ToyUrl.

Definition transport : StdioTransport.t :=
  (StdioTransport.connect 0 (Ok tt) (StdioTransport.new (TransportConfig.Stdio (StdioConfig.new "server")))).2.

Definition request : JsonRpcRequest.t := JsonRpcRequest.without_params (RequestId.Number 7) "ping".

Definition answer (id : Z) : string :=
  message_to_string (JsonRpcMessage.Response (JsonRpcResponse.success (RequestId.Number id) VNull)) +:+ newline.

(** A response to something else comes first. *)
Definition lines : list string := ["starting"%string; answer 8; answer 7].

Lemma transport_running : running transport.
Proof. split_and!; [reflexivity..|by eexists]. Qed.

Lemma transport_table : table_ok transport.
Proof. split; intros ???; [done|]. intros H. done. Qed.
End DemoWire.

Lemma requests_are_correlated_witness :
  let key := RequestId.to_string (JsonRpcRequest.id DemoWire.request) in
  let '(answer, self') :=
    StdioTransport.send_request DemoWire.request "request_timeout" DemoWire.lines DemoWire.transport in
  table_ok self' /\
  match first_answer key DemoWire.lines with
  | Some (before, r) =>
      answer = Ok r /\ key_of r = key /\
      dom (StdioTransport.pending_requests self') =
        dom (StdioTransport.pending_requests DemoWire.transport) ∖ answered before ∖ {[key]}
  | None =>
      answer = Err (Transport (TransportTimeout "stdio" "request_timeout")) /\
      dom (StdioTransport.pending_requests self') =
        (dom (StdioTransport.pending_requests DemoWire.transport) ∖ answered DemoWire.lines) ∪ {[key]}
  end.
Proof.
  pose proof (requests_are_correlated DemoWire.transport DemoWire.request "request_timeout" DemoWire.lines
           DemoWire.transport_running DemoWire.transport_table) as H.
  exact H.
Defined.
