(* ===== verification/HttpStream.v ===== *)
(** The client's streaming transport ([acdp-core/src/transport/http_stream.rs]):
    a request for every message, the session the server assigns when it is
    initialized, and the reading of replies that are JSON or event streams.
    The table of pending requests is never filled and has no field here. *)

From S2P Require Import Prelude McpError Messages Initialization Interceptor Transform Text CoreTransport Client.

(** ** HTTP *)

Module HttpRequest.
Record t : Type := mk {
  verb : string;
  url : string;
  headers : list (string * string);
  body : string
}.

Fixpoint lookup (name : string) (hs : list (string * string)) : option string :=
  match hs with
  | [] => None
  | (k, v) :: hs => if String.eqb k name then Some v else lookup name hs
  end.

Definition header (self : t) (name : string) : option string := lookup name (headers self).
End HttpRequest.

(** A reply: its status, the headers that are read, where they are visible
    text, and its body, which may fail, or not come before the caller's time
    is up. *)
Module HttpReply.
Record t : Type := mk {
  status : Z;  (* u16 *)
  session : option string;
  content_type : option string;
  text : option (Res string string)
}.

Definition is_success (self : t) : bool := (200 <=? status self) && (status self <=? 299).
End HttpReply.

(** What comes of sending a request: a reply, an error, or nothing in time *)
Abbreviation Reply := (option (Res HttpReply.t string)).

Module HttpStreamTransport.
Section transport.
Context `{JT : JsonText} {UA : UrlApi}.

Record t : Type := mk {
  base_url : string;
  auth_header : option string;
  config : HttpStreamConfig.t;
  session_id : option string;
  info : TransportInfo.t;
  connected : bool
}.

Definition config_for (url : Url) (auth : option string) : HttpStreamConfig.t :=
  HttpStreamConfig.mk url (secs 300) ∅ (option_map AuthBearer auth) true 65536.

(** [None] when also the fallback address does not parse *)
Definition new (base_url : string) (auth_header : option string) : option t :=
  match (match url_parse base_url with Ok url => Ok url | Err _ => url_parse "http://localhost" end) with
  | Ok url =>
      Some (mk base_url auth_header (config_for url auth_header) None (TransportInfo.new "http-stream") false)
  | Err _ => None
  end.

Definition set_session (self : t) (s : option string) : t :=
  mk (base_url self) (auth_header self) (config self) s (info self) (connected self).
Definition set_info (self : t) (i : TransportInfo.t) : t :=
  mk (base_url self) (auth_header self) (config self) (session_id self) i (connected self).

Definition get_mcp_url (self : t) : string :=
  if ends_with_char "/" (base_url self) then base_url self +:+ "mcp" else base_url self +:+ "/mcp".

Definition error (e : TransportError) : McpError := Transport e.
Definition not_connected : McpError := error (NotConnected "http-stream" "Transport not connected").
Definition serialization (reason : string) : McpError := error (SerializationError "http-stream" reason).
Definition network (reason : string) : McpError := error (NetworkError "http-stream" reason).

(** The request that carries a message *)
Definition post (self : t) (session : option string) (message : JsonRpcMessage.t) : HttpRequest.t :=
  HttpRequest.mk "POST" (get_mcp_url self)
    ([("Content-Type", "application/json"); ("Accept", "application/json, text/event-stream")]%string ++
     match auth_header self with Some auth => [("Authorization"%string, auth)] | None => [] end ++
     match session with Some session_id => [("mcp-session-id"%string, session_id)] | None => [] end)
    (message_to_string message).

(** ** Reading replies *)

Definition extract_request_id (json_response : Value) : RequestId.t :=
  from_option id RequestId.Null (RequestId.id_of (get json_response "id")).

Definition parse_json_response (json_response : Value) : McpResult JsonRpcResponse.t :=
  match get json_response "result" with
  | Some result => Ok (JsonRpcResponse.mk "2.0" (extract_request_id json_response) (Some result) None)
  | None =>
      match get json_response "error" with
      | Some e => Err (error (TransportHttpError 400 ("Server returned error: " +:+ json_to_string e)))
      | None => Err (serialization "Invalid JSON-RPC response format")
      end
  end.

(** A data line with an object or array that has an identifier *)
Definition data_of (line : string) : option Value :=
  match drop_prefix "data: " line with
  | Some json_text =>
      match json_from_str json_text with
      | Some v => match get v "id" with Some _ => Some v | None => None end
      | None => None
      end
  | None => None
  end.

Fixpoint parse_sse_lines (ls : list string) : McpResult JsonRpcResponse.t :=
  match ls with
  | [] => Err (serialization "No valid JSON-RPC response found in SSE data")
  | line :: ls =>
      match data_of line with
      | Some v => parse_json_response v
      | None => parse_sse_lines ls
      end
  end.

Definition parse_sse_response (response_text : string) : McpResult JsonRpcResponse.t :=
  parse_sse_lines (lines response_text).

Definition parse_response (response_text : string) : McpResult JsonRpcResponse.t :=
  match json_from_str response_text with
  | Some v => parse_json_response v
  | None =>
      if str_contains "data: " response_text then parse_sse_response response_text
      else Err (serialization ("Could not parse response as JSON or SSE: " +:+ response_text))
  end.

(** ** Operations *)

Definition connect (now : Z) (self : t) : McpResult unit * t :=
  (Ok tt, mk (base_url self) (auth_header self) (config self) (session_id self)
             (TransportInfo.mark_connected now (info self)) true).

Definition disconnect (self : t) : McpResult unit * t :=
  (Ok tt, mk (base_url self) (auth_header self) (config self) None
             (TransportInfo.mark_disconnected (info self)) false).

(** The body of a reply that is no success *)
Definition body_or_default (reply : HttpReply.t) : option string :=
  option_map (fun b => match b with Ok body => body | Err _ => ""%string end) (HttpReply.text reply).

(** The body of a success, parsed; [None] when it does not come in time *)
Definition read_body (failed : string) (reply : HttpReply.t) : option (McpResult JsonRpcResponse.t) :=
  option_map (fun b => match b with
                       | Ok body => parse_response body
                       | Err e => Err (network (failed +:+ e))
                       end) (HttpReply.text reply).

Definition refused (status : Z) (reason : string) : McpError := error (TransportHttpError status reason).

(** [send_mcp_request]: [None] when it does not end in time.  The session a
    reply names is not taken over. *)
Definition send_mcp_request (reply : Reply) : option (McpResult JsonRpcResponse.t) :=
  match reply with
  | None => None
  | Some (Err e) => Some (Err (network ("HTTP request failed: " +:+ e)))
  | Some (Ok reply) =>
      if HttpReply.is_success reply then read_body "Failed to read response body: " reply
      else option_map (fun body => Err (refused (HttpReply.status reply) body)) (body_or_default reply)
  end.

Definition send_initialize_request (reply : Reply) (self : t)
  : option (McpResult JsonRpcResponse.t) * t :=
  match reply with
  | None => (None, self)
  | Some (Err e) => (Some (Err (network ("Initialization request failed: " +:+ e))), self)
  | Some (Ok reply) =>
      if HttpReply.is_success reply then
        (read_body "Failed to read init response: " reply,
         match HttpReply.session reply with
         | Some session_str => set_session self (Some session_str)
         | None => self
         end)
      else (option_map (fun body => Err (refused (HttpReply.status reply) ("Initialization failed: " +:+ body)))
              (body_or_default reply), self)
  end.

Definition is_initialize (request : JsonRpcRequest.t) : bool :=
  String.eqb (JsonRpcRequest.method request) "initialize".

(** With the request that is sent, if one is; [timed_out] is the text of the
    time that passed. *)
Definition send_request (request : JsonRpcRequest.t) (timed_out : string) (reply : Reply) (self : t)
  : list HttpRequest.t * McpResult JsonRpcResponse.t * t :=
  if negb (connected self) then ([], Err not_connected, self)
  else
    let message := JsonRpcMessage.Request request in
    let '(http, result, self) :=
      if is_initialize request then
        let '(result, self') := send_initialize_request reply self in (post self None message, result, self')
      else (post self (session_id self) message, send_mcp_request reply, self) in
    match result with
    | Some response =>
        ([http], response,
         set_info self (TransportInfo.increment_responses_received
                          (TransportInfo.increment_requests_sent (info self))))
    | None => ([http], Err (error (TransportTimeout "http-stream" ("Request timed out after " +:+ timed_out))), self)
    end.

(** A notification has no time limit, so its sending does not end without a
    [reply]. *)
Definition send_notification (notification : JsonRpcNotification.t) (reply : Res HttpReply.t string) (self : t)
  : list HttpRequest.t * McpResult unit * t :=
  if negb (connected self) then ([], Err not_connected, self)
  else
    let http := post self (session_id self) (JsonRpcMessage.Notification notification) in
    match reply with
    | Err e => ([http], Err (network ("Notification request failed: " +:+ e)), self)
    | Ok reply =>
        if HttpReply.is_success reply then
          ([http], Ok tt, set_info self (TransportInfo.increment_notifications_sent (info self)))
        else ([http], Err (refused (HttpReply.status reply) "Notification failed"), self)
    end.

Definition receive_message (self : t) : McpResult JsonRpcMessage.t * t :=
  (Err (error (TransportInvalidConfig "http-stream"
          "Unsolicited message reception not implemented for Modern Streamable HTTP")), self).

(** [get_info]: the texts are added as JSON *)
Definition get_info (self : t) : TransportInfo.t :=
  let add key v i := TransportInfo.add_metadata i key v in
  let i := add "base_url"%string (VString (base_url self)) (info self) in
  let i := add "mcp_endpoint"%string (VString (get_mcp_url self)) i in
  let i := add "has_auth"%string (VBool (if auth_header self then true else false)) i in
  let i := add "has_session"%string (VBool (if session_id self then true else false)) i in
  let i := add "protocol"%string (VString "Modern Streamable HTTP (2025-03-26)") i in
  let i := match session_id self with Some s => add "session_id"%string (VString s) i | None => i end in
  add "pending_requests"%string (VNumber (num_from_i64 0)) i.
End transport.
Arguments t : clear implicits.
Arguments t {JN UA}.
End HttpStreamTransport.

(** ** Replies *)

Section replies.
Context `{JT : JsonText} {UA : UrlApi}.
Import HttpStreamTransport.

(** What the transport makes of a server's response: an error becomes a
    failure of the transport, with the error as its text. *)
Definition read_as (r : JsonRpcResponse.t) : McpResult JsonRpcResponse.t :=
  match JsonRpcResponse.result r, JsonRpcResponse.error r with
  | Some v, _ => Ok (JsonRpcResponse.mk "2.0" (JsonRpcResponse.id r) (Some (canonical v)) None)
  | None, Some e =>
      Err (error (TransportHttpError 400
             ("Server returned error: " +:+ json_to_string (canonical (JsonRpcError.to_value e)))))
  | None, None => Err (serialization "Invalid JSON-RPC response format")
  end.

Lemma get_canonical entries key : get (canonical (VObject entries)) key = option_map canonical (field entries key).
Proof. destruct (canonical_object entries) as (e' & -> & H). apply H. Qed.

Lemma response_fields (r : JsonRpcResponse.t) :
  exists entries, JsonRpcResponse.to_value r = VObject entries /\
    field entries "id" = Some (RequestId.to_value (JsonRpcResponse.id r)) /\
    field entries "result" = JsonRpcResponse.result r /\
    field entries "error" = option_map JsonRpcError.to_value (JsonRpcResponse.error r).
Proof. eexists. split; [reflexivity|]. by destruct r as [j i [v|] [e|]]. Qed.

Lemma parse_json_response_of {NL : JsonNumberLaws JN} (r : JsonRpcResponse.t) :
  RequestId.wf (JsonRpcResponse.id r) ->
  parse_json_response (canonical (JsonRpcResponse.to_value r)) = read_as r.
Proof.
  intros Hw. destruct (response_fields r) as (entries & -> & Hi & Hr & He).
  unfold parse_json_response, extract_request_id, read_as.
  rewrite !get_canonical, Hi, Hr, He, id_of_canonical. cbn [RequestId.id_of].
  rewrite RequestId.id_from_to_value by done.
  by destruct (JsonRpcResponse.result r), (JsonRpcResponse.error r).
Qed.

Lemma parse_sse_skips ls rest :
  Forall (fun l => data_of l = None) ls -> parse_sse_lines (ls ++ rest) = parse_sse_lines rest.
Proof. induction 1 as [|l ls Hl _ IH]; [done|]. cbn [app parse_sse_lines]. by rewrite Hl. Qed.

Lemma data_line {TL : JsonTextLaws JT} (r : JsonRpcResponse.t) :
  distinct_keys (JsonRpcResponse.to_value r) = true ->
  data_of ("data: " +:+ json_to_string (JsonRpcResponse.to_value r)) = Some (canonical (JsonRpcResponse.to_value r)).
Proof.
  intros Hd. unfold data_of.
  rewrite (proj2 (drop_prefix_spec "data: " _ (json_to_string (JsonRpcResponse.to_value r)))) by done.
  rewrite json_from_to by done. destruct (response_fields r) as (entries & -> & Hi & _).
  by rewrite get_canonical, Hi.
Qed.

(** A server's response is read alike from a reply that is its JSON and
    from an event stream, behind events without an identifier and before
    whatever follows: a result comes with its identifier, with the objects in
    it sorted; an error comes as an HTTP failure with status 400, without its
    code and identifier. *)
Theorem stream_replies_are_read {NL : JsonNumberLaws JN} {TL : JsonTextLaws JT} (r : JsonRpcResponse.t) before rest :
  RequestId.wf (JsonRpcResponse.id r) -> distinct_keys (JsonRpcResponse.to_value r) = true ->
  let json := json_to_string (JsonRpcResponse.to_value r) in
  let events := unlines before +:+ ("data: " +:+ json) +:+ newline +:+ rest in
  parse_response json = read_as r /\
  (Forall whole_line before -> Forall (fun l => data_of l = None) before -> json_from_str events = None ->
   parse_response events = read_as r).
Proof.
  intros Hw Hd json events. split.
  - unfold parse_response, json. rewrite json_from_to by done. by apply parse_json_response_of.
  - intros Hb Hn Hj. unfold parse_response. rewrite Hj.
    assert (Hc : str_contains "data: " events = true).
    { apply str_contains_spec. exists (unlines before), (json +:+ newline +:+ rest).
      unfold events. by rewrite !str_app_assoc. }
    rewrite Hc. unfold parse_sse_response, events. rewrite lines_unlines by done.
    destruct (json_line_whole "data: " (JsonRpcResponse.to_value r) eq_refl) as [H1 H2]; [done|].
    rewrite (lines_cons ("data: " +:+ json) rest H1). unfold json. rewrite H2.
    rewrite parse_sse_skips by done. cbn [parse_sse_lines]. rewrite data_line by done.
    by apply parse_json_response_of.
Qed.
(** A reply is taken for the answer whatever identifier it carries, and counted
    as a response also when it is an error or no response at all. *)
Lemma replies_are_not_matched {NL : JsonNumberLaws JN} {TL : JsonTextLaws JT} request timed_out status session ct
    (r : JsonRpcResponse.t) self :
  RequestId.wf (JsonRpcResponse.id r) -> distinct_keys (JsonRpcResponse.to_value r) = true ->
  connected self = true -> is_initialize request = false -> 200 <= status <= 299 ->
  let reply := HttpReply.mk status session ct (Some (Ok (json_to_string (JsonRpcResponse.to_value r)))) in
  exists https self',
    send_request request timed_out (Some (Ok reply)) self = (https, read_as r, self') /\
    TransportInfo.responses_received (info self') = wrap_u64 (TransportInfo.responses_received (info self) + 1).
Proof.
  intros Hw Hd Hc Hi Hst reply. unfold send_request. rewrite Hc, Hi. cbn [negb].
  assert (Hok : HttpReply.is_success reply = true) by (unfold HttpReply.is_success; cbn; lia).
  unfold send_mcp_request, read_body. rewrite Hok. cbn [HttpReply.text reply option_map].
  unfold parse_response. rewrite json_from_to, parse_json_response_of by done. by eexists _, _.
Qed.
End replies.

(** ** Sessions *)

Section sessions.
Context `{JT : JsonText} {UA : UrlApi}.
Import HttpStreamTransport.

(** What a server can observe, with its replies *)
Inductive Exchange : Type :=
| Sent (http : HttpRequest.t) (initialize : bool) (reply : Reply)
| Ended.

(** The session the server has assigned: that of the last successful
    initialization since the transport was disconnected *)
Definition assign (session : option string) (e : Exchange) : option string :=
  match e with
  | Sent _ true (Some (Ok reply)) =>
      if HttpReply.is_success reply then
        match HttpReply.session reply with Some s => Some s | None => session end
      else session
  | Sent _ _ _ => session
  | Ended => None
  end.

Definition assigned (wire : list Exchange) : option string := List.fold_left assign wire None.

Lemma assigned_snoc wire e : assigned (wire ++ [e]) = assign (assigned wire) e.
Proof. unfold assigned. by rewrite fold_left_app. Qed.

(** Every request goes to the one address, carries the authorization, and,
    unless it initializes, the session assigned so far. *)
Definition addressed (base : string) (auth : option string) (session : option string) (http : HttpRequest.t) : Prop :=
  HttpRequest.verb http = "POST"%string /\
  HttpRequest.url http = (if ends_with_char "/" base then base +:+ "mcp" else base +:+ "/mcp") /\
  HttpRequest.header http "Authorization" = auth /\ HttpRequest.header http "mcp-session-id" = session.

Definition wire_ok (base : string) (auth : option string) (wire : list Exchange) : Prop :=
  forall before http initialize reply after,
    wire = before ++ Sent http initialize reply :: after ->
    addressed base auth (if initialize : bool then None else assigned before) http.

Lemma wire_ok_snoc base auth wire e :
  wire_ok base auth wire ->
  match e with
  | Sent http initialize _ => addressed base auth (if initialize : bool then None else assigned wire) http
  | Ended => True
  end -> wire_ok base auth (wire ++ [e]).
Proof.
  intros Hw He before http initialize reply after H.
  destruct after as [|x after _] using rev_ind.
  - apply app_inj_tail in H as [-> ->]. exact He.
  - rewrite app_comm_cons, app_assoc in H. apply app_inj_tail in H as [-> _]. by eapply Hw.
Qed.

Lemma post_addressed self session message :
  addressed (base_url self) (auth_header self) session (post self session message).
Proof. unfold addressed, post, HttpRequest.header. cbn. by destruct (auth_header self), session. Qed.

(** The transport on a wire: the server answers the [n]-th exchange with
    [replies n] and acknowledges a notification with [acks n]; time passes by
    [clock]. *)
Context (replies : nat -> Reply) (acks : nat -> Res HttpReply.t string) (clock : nat -> Z * Z).
Context (timed_out : string) (text_of_error : McpError -> string) (text_of_serde : Value -> string).

Record Wire : Type := MkWire { endpoint : HttpStreamTransport.t; exchanges : nat; wire : list Exchange }.

Definition sent_on (w : Wire) (https : list HttpRequest.t) (initialize : bool) (reply : Reply)
    (endpoint : HttpStreamTransport.t) : Wire :=
  MkWire endpoint (S (exchanges w)) (wire w ++ List.map (fun http => Sent http initialize reply) https).

#[export] Instance stream_transport : TransportApi := {|
  Conn := Wire;
  conn_connect w :=
    let '(r, e) := connect (clock (exchanges w)).1 (endpoint w) in (r, MkWire e (S (exchanges w)) (wire w));
  conn_disconnect w :=
    let '(r, e) := disconnect (endpoint w) in (r, MkWire e (S (exchanges w)) (wire w ++ [Ended]));
  conn_send_request req _ w :=
    let '(https, r, e) := send_request req timed_out (replies (exchanges w)) (endpoint w) in
    (r, sent_on w https (is_initialize req) (replies (exchanges w)) e);
  conn_send_notification notif w :=
    let '(https, r, e) := send_notification notif (acks (exchanges w)) (endpoint w) in
    (r, sent_on w https false (Some (acks (exchanges w))) e);
  conn_clock w := (clock (exchanges w), MkWire (endpoint w) (S (exchanges w)) (wire w));
  error_text := text_of_error;
  serde_text := text_of_serde
|}.

(** The endpoint holds the session that was assigned, and the wire is in order. *)
Definition in_session (base : string) (auth : option string) (w : Wire) : Prop :=
  base_url (endpoint w) = base /\ auth_header (endpoint w) = auth /\
  session_id (endpoint w) = assigned (wire w) /\ wire_ok base auth (wire w).

Lemma sent_in_session base auth w http initialize reply e :
  in_session base auth w -> base_url e = base -> auth_header e = auth ->
  addressed base auth (if initialize : bool then None else session_id (endpoint w)) http ->
  session_id e = assign (session_id (endpoint w)) (Sent http initialize reply) ->
  in_session base auth (sent_on w [http] initialize reply e).
Proof.
  intros (_ & _ & Hs & Hw) Hb Ha Hp He. rewrite Hs in He, Hp. unfold in_session, sent_on.
  cbn [endpoint wire List.map]. split; [done|]. split; [done|]. rewrite assigned_snoc. split; [done|].
  by apply wire_ok_snoc.
Qed.

Lemma none_in_session base auth w initialize reply :
  in_session base auth w -> in_session base auth (sent_on w [] initialize reply (endpoint w)).
Proof. unfold in_session, sent_on. cbn [endpoint wire List.map]. by rewrite app_nil_r. Qed.

(** A connected endpoint sends one request, and ends with the session that its
    exchange assigns. *)
Lemma send_request_exchange req reply e :
  connected e = true ->
  let http := post e (if is_initialize req then None else session_id e) (JsonRpcMessage.Request req) in
  exists r e', send_request req timed_out reply e = ([http], r, e') /\
    base_url e' = base_url e /\ auth_header e' = auth_header e /\
    session_id e' = assign (session_id e) (Sent http (is_initialize req) reply).
Proof.
  intros Hc. unfold send_request. rewrite Hc. cbn [negb]. destruct (is_initialize req).
  - unfold send_initialize_request, assign.
    destruct reply as [[reply|e']|]; [destruct (HttpReply.is_success reply)| |].
    + destruct (read_body _ reply), (HttpReply.session reply); by eexists _, _.
    + destruct (option_map _ _); by eexists _, _.
    + by eexists _, _.
    + by eexists _, _.
  - unfold assign. destruct (send_mcp_request reply); by eexists _, _.
Qed.

Lemma request_in_session base auth req d w :
  in_session base auth w -> in_session base auth (conn_send_request req d w).2.
Proof.
  intros Hin. pose proof Hin as (Hb & Ha & _). cbn [conn_send_request stream_transport].
  destruct (connected (endpoint w)) eqn:Ec.
  - destruct (send_request_exchange req (replies (exchanges w)) (endpoint w) Ec) as (r & e' & -> & Hb' & Ha' & Hs').
    apply sent_in_session; [done|congruence..| |done]. rewrite <- Hb, <- Ha. apply post_addressed.
  - unfold send_request. rewrite Ec. by apply none_in_session.
Qed.

Lemma notification_in_session base auth notif w :
  in_session base auth w -> in_session base auth (conn_send_notification notif w).2.
Proof.
  intros Hin. pose proof Hin as (Hb & Ha & _). cbn [conn_send_notification stream_transport]. unfold send_notification.
  destruct (connected (endpoint w)); cbn [negb]; [|by apply none_in_session].
  pose proof (post_addressed (endpoint w) (session_id (endpoint w)) (JsonRpcMessage.Notification notif)) as Hp.
  rewrite Hb, Ha in Hp.
  destruct (acks (exchanges w)) as [reply|e']; [destruct (HttpReply.is_success reply)|]; by apply sent_in_session.
Qed.

Lemma disconnect_in_session base auth w :
  in_session base auth w -> in_session base auth (conn_disconnect w).2.
Proof.
  intros (Hb & Ha & Hs & Hw). unfold in_session. cbn [conn_disconnect stream_transport disconnect snd endpoint wire].
  split; [done|]. split; [done|]. rewrite assigned_snoc. split; [done|]. by apply wire_ok_snoc.
Qed.

(** A client over a fresh wire *)
Definition client_over (start : HttpStreamTransport.t) (cfg : ClientConfig.t) : McpClient.t :=
  McpClient.new (TA := stream_transport) (MkWire start 0 []) cfg.

(** C25: whatever a client over the streaming transport is asked to do, and
    whatever the server answers, each message goes to the server's address
    with the configured authorization, an initialization without a session and
    anything else with the session the server assigned in the last successful
    initialization since the transport was disconnected, if it assigned one. *)
Theorem client_keeps_sessions base auth start cfg (self : McpClient.t) :
  HttpStreamTransport.new base auth = Some start ->
  rtc McpClient.op (client_over start cfg) self ->
  let w := McpClient.transport self in
  wire_ok base auth (wire w) /\ session_id (endpoint w) = assigned (wire w).
Proof.
  intros Hnew Hrun. assert (Hin : in_session base auth (McpClient.transport self)); [|by destruct Hin as (_ & _ & ? & ?)].
  assert (Hstart : in_session base auth (MkWire start 0 [])).
  { unfold HttpStreamTransport.new in Hnew. destruct (url_parse base); [|destruct (url_parse _); [|done]];
      injection Hnew as <-; (split_and!; [done..|]); by intros [] ? ? ? ?. }
  remember (client_over start cfg) as c eqn:Ec.
  assert (Hc : in_session base auth (McpClient.transport c)) by by rewrite Ec. clear Ec Hstart Hnew.
  induction Hrun as [c|c c' c'' Hop _ IH]; [done|]. apply IH. revert Hop Hc. apply McpClient.op_keeps.
  - intros w H. exact H.
  - intros w. apply disconnect_in_session.
  - intros req d w. apply request_in_session.
  - intros notif w. apply notification_in_session.
  - intros w H. exact H.
Qed.
End sessions.

Module DemoStream.
Import ToyNumbers ToyText ToyUrl.

Definition response : JsonRpcResponse.t := JsonRpcResponse.success (RequestId.Number 7) (VString "ok").

(** A server that assigns a session and answers each request with a null
    result *)
Definition initialized : JsonRpcResponse.t :=
  JsonRpcResponse.success (RequestId.String "req_1")
    (InitializeResponse.to_value (InitializeResponse.basic "server" "1.0")).

Definition replies (n : nat) : Reply :=
  Some (Ok (HttpReply.mk 200 (Some "session"%string) (Some "application/json"%string)
              (Some (Ok (json_to_string (JsonRpcResponse.to_value initialized)))))).
Definition acks (n : nat) : Res HttpReply.t string := Ok (HttpReply.mk 202 None None (Some (Ok ""%string))).
Definition clock (n : nat) : Z * Z := (0, 0).

Definition start : HttpStreamTransport.t :=
  from_option id (HttpStreamTransport.mk "" None (HttpStreamConfig.new "") None (TransportInfo.new "") false)
    (HttpStreamTransport.new "http://localhost:3001" (Some "Bearer token"%string)).

#[global] Instance demo_transport : TransportApi :=
  stream_transport replies acks clock "30s" (fun _ => "error"%string) (fun _ => "invalid"%string).

Definition client : McpClient.t := McpClient.new (TA := demo_transport) (MkWire start 0 []) ClientConfig.default.

Definition connected : option (McpResult ServerInfo.t * McpClient.t) :=
  McpClient.connect (Implementation.new "probe" "0.1.0") client.

(** After the handshake the endpoint holds the session, and the notification
    carried it. *)
Example demo_session :
  match connected with
  | Some (Ok _, self) =>
      HttpStreamTransport.session_id (endpoint (McpClient.transport self)) = Some "session"%string /\
      length (wire (McpClient.transport self)) = 2%nat
  | _ => False
  end.
Proof. vm_compute. split; reflexivity. Qed.

Definition after : McpClient.t := match connected with Some (_, self) => self | None => client end.

Example is_connected : (if connected then true else false) = true.
Proof. vm_compute. reflexivity. Qed.

Lemma reached : rtc McpClient.op client after.
Proof.
  pose proof is_connected as H. unfold after, connected in *.
  destruct (McpClient.connect _ client) as [[r self]|] eqn:E; [|discriminate].
  exact (rtc_once _ _ (McpClient.op_connect _ _ r self E)).
Qed.
End DemoStream.

Lemma stream_replies_are_read_witness :
  let r := DemoStream.response in
  let json := json_to_string (JsonRpcResponse.to_value r) in
  let events := unlines ["event: message"%string] +:+ ("data: " +:+ json) +:+ newline +:+ newline in
  HttpStreamTransport.parse_response json = read_as r /\ HttpStreamTransport.parse_response events = read_as r.
Proof.
  destruct (stream_replies_are_read DemoStream.response ["event: message"%string] newline) as [H1 H2];
    [done|reflexivity|].
  split; [exact H1|]. apply H2; [repeat constructor..|]. reflexivity.
Defined.

(** A handshake and a call after it *)
Lemma client_keeps_sessions_witness :
  let w := McpClient.transport DemoStream.after in
  wire_ok "http://localhost:3001" (Some "Bearer token"%string) (wire w) /\
  HttpStreamTransport.session_id (endpoint w) = assigned (wire w).
Proof.
  pose proof (client_keeps_sessions DemoStream.replies DemoStream.acks DemoStream.clock "30s"
    (fun _ => "error"%string) (fun _ => "invalid"%string) "http://localhost:3001" (Some "Bearer token"%string)
    DemoStream.start ClientConfig.default DemoStream.after eq_refl DemoStream.reached) as H.
  exact H.
Defined.
