(* ===== verification/HttpSse.v ===== *)
(** The client's event-stream transport ([acdp-core/src/transport/http_sse.rs]):
    the protocol's two versions, the sessions a server assigns or announces,
    replies that are JSON or streams of events, and the waits for a response
    on the streams.  The stream and monitor tasks fill the channels; what
    comes while a request waits is an argument of it.  The functions that the
    source allows to be dead are left out. *)

From S2P Require Import Prelude McpError Messages Transform Text CoreTransport Client HttpStream.

(** What the source uses of [url::Url] besides reading it, and of the [regex]
    crate: the first group of the leftmost match *)
Class UrlEdit `{UA : UrlApi} := {
  url_join : Url -> string -> Res Url string;
  url_with_query : Url -> string -> Url
}.

Class RegexApi := { regex_group1 : string -> string -> option string }.

(** The part of a text before its first white space *)
Fixpoint until_whitespace (s : string) : string :=
  match s with
  | EmptyString => EmptyString
  | String c r =>
      if Whitespace.one c then EmptyString
      else match r with
           | String d r' =>
               if Whitespace.two c d then EmptyString
               else match r' with
                    | String e _ => if Whitespace.three c d e then EmptyString else String c (until_whitespace r)
                    | EmptyString => String c (until_whitespace r)
                    end
           | EmptyString => String c (until_whitespace r)
           end
  end.

(** [s.split(needle).nth(1)] *)
Definition split_second (needle s : string) : option string :=
  match str_find needle s with
  | Some (_, after) => match str_find needle after with Some (b, _) => Some b | None => Some after end
  | None => None
  end.

(** [char::is_alphanumeric], on the visible ASCII that a header's text is *)
Definition is_ascii_alphanumeric (c : Ascii.ascii) : bool :=
  let n := Ascii.nat_of_ascii c in
  (((48 <=? n) && (n <=? 57)) || ((65 <=? n) && (n <=? 90)) || ((97 <=? n) && (n <=? 122)))%nat.

Fixpoint all_chars (p : Ascii.ascii -> bool) (s : string) : bool :=
  match s with EmptyString => true | String c s => p c && all_chars p s end.

Inductive McpProtocolVersion : Type := StreamableHttp | HttpSse | AutoDetect.

#[global] Instance McpProtocolVersion_eq_dec : EqDecision McpProtocolVersion.
Proof. solve_decision. Defined.

Module SecurityConfig.
Record t : Type := mk {
  validate_origin : bool;
  enforce_localhost : bool;
  require_https : bool;
  validate_session_ids : bool
}.

Definition default : t := mk true true false true.
End SecurityConfig.

(** How a wait on a stream ends when the response does not come: the wait's
    own time runs out in the receive or between two, the stream is closed, or
    the caller's time runs out. *)
Inductive WaitEnd : Type := TimedOut | DeadlinePassed | Closed | CutOff.

(** What comes while a request waits: at each look at the monitor's channel
    the events its task has taken in, how that phase ends, the events of the
    reply's stream, and how that phase ends. *)
Module Arrivals.
Record t : Type := mk {
  monitored : list (list string);
  monitor_end : WaitEnd;
  streamed : list string;
  stream_end : WaitEnd
}.
End Arrivals.

Module HttpSseTransport.
Section transport.
Context `{JT : JsonText} {UA : UrlApi} {UE : UrlEdit} {RX : RegexApi}.
(** the texts of the error of reading a response and of a status *)
Context (response_error : string -> string) (status_text : Z -> string).

Record t : Type := mk {
  config : HttpSseConfig.t;
  info : TransportInfo.t;
  session_id : option string;
  base_url : Url;
  sse_receiver : option (list JsonRpcMessage.t);
  last_event_id : option string;
  security_config : SecurityConfig.t;
  protocol_version : McpProtocolVersion;
  session_receiver : option (list string);
  jsonrpc_receiver : option (list JsonRpcMessage.t)
}.

Definition set_info (self : t) (i : TransportInfo.t) : t :=
  mk (config self) i (session_id self) (base_url self) (sse_receiver self) (last_event_id self)
     (security_config self) (protocol_version self) (session_receiver self) (jsonrpc_receiver self).
Definition set_session (self : t) (s : option string) : t :=
  mk (config self) (info self) s (base_url self) (sse_receiver self) (last_event_id self)
     (security_config self) (protocol_version self) (session_receiver self) (jsonrpc_receiver self).
Definition set_stream (self : t) (q : option (list JsonRpcMessage.t)) : t :=
  mk (config self) (info self) (session_id self) (base_url self) q (last_event_id self)
     (security_config self) (protocol_version self) (session_receiver self) (jsonrpc_receiver self).
Definition set_version (self : t) (v : McpProtocolVersion) : t :=
  mk (config self) (info self) (session_id self) (base_url self) (sse_receiver self) (last_event_id self)
     (security_config self) v (session_receiver self) (jsonrpc_receiver self).
Definition set_monitor (self : t) (s : option (list string)) (j : option (list JsonRpcMessage.t)) : t :=
  mk (config self) (info self) (session_id self) (base_url self) (sse_receiver self) (last_event_id self)
     (security_config self) (protocol_version self) s j.

Definition error (e : TransportError) : McpError := Transport e.
Definition invalid_config (reason : string) : McpError := error (TransportInvalidConfig "streamable-http" reason).
Definition network (reason : string) : McpError := error (NetworkError "streamable-http" reason).
Definition serialization (reason : string) : McpError := error (SerializationError "streamable-http" reason).
Definition timed_out (reason : string) : McpError := error (TransportTimeout "streamable-http" reason).
Definition disconnected (reason : string) : McpError := error (DisconnectedError "streamable-http" reason).
Definition not_connected (reason : string) : McpError := error (NotConnected "streamable-http" reason).

(** [new]: [client] is what building the HTTP client comes to *)
Definition new (client : McpResult unit) (config : TransportConfig.t) : McpResult t :=
  match config with
  | TransportConfig.HttpSse c =>
      let? _ := client in
      let? _ := TransportFactory.build_security_config (HttpSseConfig.base_url c) in
      let d := SecurityConfig.default in
      Ok (mk c (TransportInfo.new "streamable-http") None (HttpSseConfig.base_url c) None None
            (SecurityConfig.mk (SecurityConfig.validate_origin d) (SecurityConfig.enforce_localhost d)
               (negb (TransportFactory.local_host (HttpSseConfig.base_url c)))
               (SecurityConfig.validate_session_ids d))
            AutoDetect None None)
  | _ => Err (invalid_config "Invalid configuration type")
  end.

Definition validate_session_id (self : t) (session_id : string) : McpResult unit :=
  if negb (SecurityConfig.validate_session_ids (security_config self)) then Ok tt
  else if (String.length session_id <? 16)%nat
  then Err (invalid_config "Session ID too short - security risk")
  else if negb (all_chars (fun c => is_ascii_alphanumeric c || Ascii.eqb c "-") session_id)
  then Err (invalid_config "Session ID contains invalid characters")
  else Ok tt.

Definition detect_protocol_version (self : t) : McpProtocolVersion * t :=
  match protocol_version self with
  | AutoDetect =>
      let v := if String.eqb (url_path (base_url self)) "/sse" then HttpSse else StreamableHttp in
      (v, set_version self v)
  | v => (v, self)
  end.

(** ** The tasks *)

(** The message of an event of a reply's stream *)
Definition streamed_message (data : string) : option JsonRpcMessage.t :=
  if starts_with "/sse?sessionId=" data || starts_with "/mcp?sessionId=" data then None
  else message_from_str data.

(** A new channel for the events of a reply *)
Definition handle_sse_response (self : t) : t := set_stream self (Some []).

Definition stream_event (self : t) (data : string) : t :=
  match sse_receiver self, streamed_message data with
  | Some q, Some m => set_stream self (Some (q ++ [m]))
  | _, _ => self
  end.

Definition extract_session_from_event_data_static (data : string) : option string :=
  match str_find "/sse?sessionId=" data with
  | Some (_, after) => Some (until_whitespace ("/sse?sessionId=" +:+ after))
  | None => regex_group1 "sessionId=([a-fA-F0-9\-]+)" data
  end.

(** An event of the session monitor *)
Definition monitor_event (self : t) (data : string) : t :=
  match message_from_str data with
  | Some m => set_monitor self (session_receiver self) (option_map (fun q => q ++ [m]) (jsonrpc_receiver self))
  | None =>
      match extract_session_from_event_data_static data with
      | Some s => set_monitor self (option_map (fun q => q ++ [s]) (session_receiver self)) (jsonrpc_receiver self)
      | None => self
      end
  end.

(** ** Sessions *)

Definition apply_session (self : t) (session_info : string) : t :=
  if starts_with "/sse?sessionId=" session_info then
    match split_second "sessionId=" session_info with
    | Some session_id => set_session self (Some session_id)
    | None => self
    end
  else set_session self (Some session_info).

Definition get_fresh_session_id (self : t) : t :=
  if bool_decide (protocol_version self = StreamableHttp) then self
  else match session_receiver self with
       | Some q => List.fold_left apply_session q (set_monitor self (Some []) (jsonrpc_receiver self))
       | None => self
       end.

(** The wait for a session, at most fifty looks: [looks] are the events that
    come before each; the caller's time runs out when there are fewer. *)
Fixpoint await_session (n : nat) (looks : list (list string)) (self : t) : t :=
  match n, session_id self with
  | S n, None =>
      let self := List.fold_left monitor_event (hd [] looks) self in
      await_session n (tl looks) (get_fresh_session_id self)
  | _, _ => self
  end.

(** ** Waits for a response *)

Definition matches (request_id : string) (m : JsonRpcMessage.t) : option JsonRpcResponse.t :=
  match m with
  | JsonRpcMessage.Response response =>
      if String.eqb (RequestId.to_string (JsonRpcResponse.id response)) request_id then Some response else None
  | _ => None
  end.

(** The first message that is the response, and the messages after it *)
Fixpoint find_response (request_id : string) (q : list JsonRpcMessage.t)
  : option (JsonRpcResponse.t * list JsonRpcMessage.t) :=
  match q with
  | [] => None
  | m :: q => match matches request_id m with Some r => Some (r, q) | None => find_response request_id q end
  end.

(** The looks at the monitor's channel: one message for each *)
Fixpoint poll_monitor (request_id : string) (polls : list (list string)) (self : t)
  : t * option JsonRpcResponse.t :=
  match polls with
  | [] => (self, None)
  | events :: polls =>
      let self := List.fold_left monitor_event events self in
      match jsonrpc_receiver self with
      | Some (m :: q) =>
          let self := set_monitor self (session_receiver self) (Some q) in
          match matches request_id m with
          | Some r => (self, Some r)
          | None => poll_monitor request_id polls self
          end
      | _ => poll_monitor request_id polls self
      end
  end.

Definition received (self : t) : t := set_info self (TransportInfo.increment_responses_received (info self)).

(** [None] when the caller's time runs out *)
Definition wait_for_sse_response (request_id : string) (arrivals : Arrivals.t) (self : t)
  : option (McpResult JsonRpcResponse.t) * t :=
  let '(self, polled) :=
    match jsonrpc_receiver self with
    | Some _ => poll_monitor request_id (Arrivals.monitored arrivals) self
    | None => (self, None)
    end in
  let cut :=
    match jsonrpc_receiver self, Arrivals.monitor_end arrivals with Some _, CutOff => true | _, _ => false end in
  let gives_up := timed_out ("Timeout waiting for response to request ID: " +:+ request_id) in
  match polled with
  | Some r => (Some (Ok r), received self)
  | None =>
      if cut then (None, self)
      else match sse_receiver self with
           | Some q =>
               let q := q ++ omap streamed_message (Arrivals.streamed arrivals) in
               match find_response request_id q with
               | Some (r, rest) => (Some (Ok r), received (set_stream self (Some rest)))
               | None =>
                   (match Arrivals.stream_end arrivals with
                    | TimedOut => Some (Err (timed_out ("SSE response timeout for request ID: " +:+ request_id)))
                    | DeadlinePassed => Some (Err gives_up)
                    | Closed => Some (Err (disconnected "SSE stream closed while waiting for response"))
                    | CutOff => None
                    end, set_stream self (Some []))
               end
           | None => (Some (Err gives_up), self)
           end
  end.

(** ** Requests *)

Definition json_headers : list (string * string) :=
  [("content-type", "application/json"); ("Accept", "application/json, text/event-stream")]%string.

Definition post (url : Url) (headers : list (string * string)) (message : JsonRpcMessage.t) : HttpRequest.t :=
  HttpRequest.mk "POST" (url_text url) (json_headers ++ headers) (message_to_string message).

Definition header (name : string) (v : option string) : list (string * string) :=
  match v with Some v => [(name, v)] | None => [] end.

(** A reply that is JSON *)
Definition json_reply (which : string) (reply : HttpReply.t) : option (McpResult (option JsonRpcResponse.t)) :=
  option_map
    (fun body =>
       match body with
       | Err e => Err (serialization ("Failed to get " +:+ which +:+ " response text: " +:+ e))
       | Ok text =>
           match json_from_str text with
           | Some v =>
               match JsonRpcResponse.from_value v with
               | Some r => Ok (Some r)
               | None => Err (serialization ("Failed to parse " +:+ which +:+ " JSON response: " +:+ response_error text))
               end
           | None => Err (serialization ("Failed to parse " +:+ which +:+ " JSON response: " +:+ response_error text))
           end
       end) (HttpReply.text reply).

(** The response to a request on a stream; a notification waits for none. *)
Definition awaited (message : JsonRpcMessage.t) (arrivals : Arrivals.t) (self : t)
  : option (McpResult (option JsonRpcResponse.t)) * t :=
  match message with
  | JsonRpcMessage.Request req =>
      let '(r, self) := wait_for_sse_response (RequestId.to_string (JsonRpcRequest.id req)) arrivals self in
      (option_map (fun r => match r with Ok r => Ok (Some r) | Err e => Err e end) r, self)
  | _ => (Some (Ok None), self)
  end.

(** The session a reply names, if it passes *)
Definition adopt_session (reply : HttpReply.t) (self : t) : McpResult unit * t :=
  match HttpReply.session reply with
  | Some session_str =>
      match validate_session_id self session_str with
      | Ok _ => (Ok tt, set_session self (Some session_str))
      | Err e => (Err e, self)
      end
  | None => (Ok tt, self)
  end.

Definition streamable_reply (message : JsonRpcMessage.t) (reply : Reply) (arrivals : Arrivals.t) (self : t)
  : option (McpResult (option JsonRpcResponse.t)) * t :=
  match reply with
  | None => (None, self)
  | Some (Err e) => (Some (Err (network ("Modern HTTP request failed: " +:+ e))), self)
  | Some (Ok reply) =>
      match adopt_session reply self with
      | (Err e, self) => (Some (Err e), self)
      | (Ok _, self) =>
          let ct := from_option id "application/json"%string (HttpReply.content_type reply) in
          if str_contains "application/json" ct then (json_reply "Modern" reply, self)
          else if str_contains "text/event-stream" ct then awaited message arrivals (handle_sse_response self)
          else (Some (Err (network ("Unexpected Modern content type: " +:+ ct))), self)
      end
  end.

Definition send_streamable_http_request (message : JsonRpcMessage.t) (reply : Reply) (arrivals : Arrivals.t)
    (self : t) : list HttpRequest.t * option (McpResult (option JsonRpcResponse.t)) * t :=
  let http := post (base_url self)
                (header "Mcp-Session-Id" (session_id self) ++ header "Last-Event-ID" (last_event_id self)) message in
  let '(result, self) := streamable_reply message reply arrivals self in
  ([http], result, self).

Definition legacy_reply (message : JsonRpcMessage.t) (reply : Reply) (arrivals : Arrivals.t) (self : t)
  : option (McpResult (option JsonRpcResponse.t)) * t :=
  match reply with
  | None => (None, self)
  | Some (Err e) => (Some (Err (network ("Legacy HTTP+SSE request failed: " +:+ e))), self)
  | Some (Ok reply) =>
      let ct := from_option id ""%string (HttpReply.content_type reply) in
      if HttpReply.status reply =? 202 then awaited message arrivals self
      else if str_contains "application/json" ct then (json_reply "Legacy" reply, self)
      else if str_contains "text/event-stream" ct then awaited message arrivals (handle_sse_response self)
      else (Some (Err (network ("Unexpected Legacy response - Status: " +:+ status_text (HttpReply.status reply)
                                +:+ ", Content-Type: " +:+ ct))), self)
  end.

Definition send_legacy_sse_request (looks : list (list string)) (message : JsonRpcMessage.t) (reply : Reply)
    (arrivals : Arrivals.t) (self : t) : list HttpRequest.t * option (McpResult (option JsonRpcResponse.t)) * t :=
  let self := await_session 50 looks self in
  if negb (if session_id self then true else false) && (length looks <? 50)%nat then ([], None, self)
  else
    let url := match session_id self with
               | Some session_id => url_with_query (base_url self) ("sessionId=" +:+ session_id)
               | None => base_url self
               end in
    let '(result, self) := legacy_reply message reply arrivals self in
    ([post url [] message], result, self).

Definition send_mcp_request (looks : list (list string)) (message : JsonRpcMessage.t) (reply : Reply)
    (arrivals : Arrivals.t) (self : t) : list HttpRequest.t * option (McpResult (option JsonRpcResponse.t)) * t :=
  let '(protocol_version, self) := detect_protocol_version (get_fresh_session_id self) in
  match protocol_version with
  | HttpSse => send_legacy_sse_request looks message reply arrivals self
  | StreamableHttp | AutoDetect => send_streamable_http_request message reply arrivals self
  end.

(** ** Operations *)

(** [connect]'s search for a monitor: [probe] is the content type of a stream's
    address, [client] the start of its task. *)
Definition discovery_endpoints : list string := ["/events"; "/session"; "/discover"]%string.

Definition start_session_monitor_for_endpoint (probe : Url -> Res string string) (endpoint : string) (self : t)
  : McpResult (option unit) * t :=
  let discovery_endpoint := if String.eqb endpoint "/sse" then "/events"%string else endpoint in
  match url_join (base_url self) discovery_endpoint with
  | Err e => (Err (invalid_config ("Invalid discovery endpoint " +:+ discovery_endpoint +:+ ": " +:+ e)), self)
  | Ok discovery_url =>
      match probe discovery_url with
      | Err e => (Err (network ("Session monitor test failed: " +:+ e)), self)
      | Ok content_type =>
          if str_contains "text/event-stream" content_type
          then (Ok (Some tt), set_monitor self (Some []) (Some []))
          else (Ok None, self)
      end
  end.

Fixpoint try_endpoints (probe : Url -> Res string string) (endpoints : list string) (self : t) : t :=
  match endpoints with
  | [] => self
  | endpoint :: endpoints =>
      match start_session_monitor_for_endpoint probe endpoint self with
      | (Ok (Some _), self) => self
      | (_, self) => try_endpoints probe endpoints self
      end
  end.

Definition start_continuous_session_monitoring (probe : Url -> Res string string) (self : t) : t :=
  if String.eqb (url_path (base_url self)) "/mcp" then set_version self StreamableHttp
  else try_endpoints probe discovery_endpoints self.

(** [head]: the answer to the test request *)
Definition connect (now : Z) (probe : Url -> Res string string) (head : Res unit string) (self : t)
  : McpResult unit * t :=
  let self := start_continuous_session_monitoring probe self in
  match head with
  | Ok _ =>
      let self := set_info self (TransportInfo.mark_connected now (info self)) in
      (Ok tt, match session_id self with None => set_session self (Some "default"%string) | Some _ => self end)
  | Err e => (Err (error (ConnectionError "streamable-http" ("Failed to connect to server: " +:+ e))), self)
  end.

(** The monitor is not stopped. *)
Definition disconnect (self : t) : list HttpRequest.t * McpResult unit * t :=
  (match session_id self with
   | Some session_id =>
       [HttpRequest.mk "DELETE" (url_text (base_url self)) [("Mcp-Session-Id"%string, session_id)] ""]
   | None => []
   end,
   Ok tt,
   let self := set_session (set_stream self None) None in
   set_info self (TransportInfo.mark_disconnected (info self))).

Definition is_connected (self : t) : bool := TransportInfo.connected (info self).

(** [again]: what comes in the wait of [send_request] itself *)
Definition send_request (request : JsonRpcRequest.t) (time : string) (looks : list (list string)) (reply : Reply)
    (arrivals again : Arrivals.t) (self : t) : list HttpRequest.t * option (McpResult JsonRpcResponse.t) * t :=
  if negb (is_connected self) then ([], Some (Err (not_connected "Transport not connected")), self)
  else
    let '(https, result, self) := send_mcp_request looks (JsonRpcMessage.Request request) reply arrivals self in
    match result with
    | None => (https, Some (Err (timed_out ("Request timed out after " +:+ time))), self)
    | Some (Err e) => (https, Some (Err e), self)
    | Some (Ok response) =>
        let self := set_info self (TransportInfo.increment_requests_sent (info self)) in
        match response with
        | Some json_response => (https, Some (Ok json_response), received self)
        | None =>
            let '(r, self) :=
              wait_for_sse_response (RequestId.to_string (JsonRpcRequest.id request)) again self in
            (https, r, self)
        end
    end.

Definition send_notification (notification : JsonRpcNotification.t) (reply : Res unit string) (self : t)
  : list HttpRequest.t * McpResult unit * t :=
  if negb (is_connected self) then ([], Err (not_connected "Transport not connected"), self)
  else
    let http := post (base_url self) (header "Mcp-Session-Id" (session_id self))
                  (JsonRpcMessage.Notification notification) in
    match reply with
    | Ok _ => ([http], Ok tt, set_info self (TransportInfo.increment_notifications_sent (info self)))
    | Err e => ([http], Err (network ("HTTP notification failed: " +:+ e)), self)
    end.

(** [receive_message]: [closed] when the channel is empty and its task gone *)
Definition receive_message (time : string) (closed : bool) (self : t) : McpResult JsonRpcMessage.t * t :=
  if negb (is_connected self) then (Err (not_connected "Transport not connected"), self)
  else match sse_receiver self with
       | None => (Err (not_connected "No SSE stream available - server uses single JSON responses"), self)
       | Some [] =>
           (Err (if closed : bool then disconnected "SSE stream closed"
                 else timed_out ("Message receive timed out after " +:+ time)), self)
       | Some (message :: q) =>
           let self := set_stream self (Some q) in
           (Ok message,
            match message with
            | JsonRpcMessage.Request _ => self
            | JsonRpcMessage.Response _ => received self
            | JsonRpcMessage.Notification _ =>
                set_info self (TransportInfo.increment_notifications_received (info self))
            end)
       end.

(** [resume_sse_connection]: [reply] is the content type of its answer *)
Definition resume_sse_connection (reply : Res (option string) string) (self : t)
  : list HttpRequest.t * McpResult unit * t :=
  match last_event_id self with
  | None => ([], Ok tt, self)
  | Some last_event_id =>
      let http := HttpRequest.mk "GET" (url_text (base_url self))
                    ([("Accept", "text/event-stream"); ("Last-Event-ID", last_event_id)]%string ++
                     header "Mcp-Session-Id" (session_id self)) "" in
      match reply with
      | Err e => ([http], Err (network ("Failed to resume SSE connection: " +:+ e)), self)
      | Ok ct =>
          if bool_decide (ct = Some "text/event-stream"%string)
          then ([http], Ok tt, handle_sse_response self)
          else ([http], Err (network "Server did not respond with SSE stream for resume request"), self)
      end
  end.

Definition can_resume (self : t) : bool := if last_event_id self then true else false.
End transport.
Arguments t : clear implicits.
Arguments t {JN UA}.
End HttpSseTransport.

(** ** What the transport does over its life *)

Section life.
Context `{JT : JsonText} {UA : UrlApi} {UE : UrlEdit} {RX : RegexApi}.
Context (response_error : string -> string) (status_text : Z -> string).
Import HttpSseTransport.

(** A call of the interface, or an event that a task takes in, with the
    requests it sends *)
Inductive step (self : HttpSseTransport.t) : list HttpRequest.t -> HttpSseTransport.t -> Prop :=
| step_connect now probe head : step self [] (connect now probe head self).2
| step_disconnect : step self (disconnect self).1.1 (disconnect self).2
| step_request request time looks reply arrivals again https r self' :
    send_request response_error status_text request time looks reply arrivals again self = (https, r, self') ->
    step self https self'
| step_notification notif reply https r self' :
    send_notification notif reply self = (https, r, self') -> step self https self'
| step_receive time closed : step self [] (receive_message time closed self).2
| step_resume reply https r self' : resume_sse_connection reply self = (https, r, self') -> step self https self'
| step_stream data : step self [] (stream_event self data)
| step_monitor data : step self [] (monitor_event self data).

(** The steps, with all the requests they send *)
Inductive reaches : HttpSseTransport.t -> list HttpRequest.t -> HttpSseTransport.t -> Prop :=
| reaches_refl self : reaches self [] self
| reaches_step self https self' more self'' :
    step self https self' -> reaches self' more self'' -> reaches self (https ++ more) self''.

(** The parts no operation touches *)
Definition frame (self self' : HttpSseTransport.t) : Prop :=
  base_url self' = base_url self /\ last_event_id self' = last_event_id self /\
  security_config self' = security_config self.

#[local] Instance frame_preorder : PreOrder frame.
Proof.
  split; [by intros self|]. intros a b c (H1 & H2 & H3) (G1 & G2 & G3). repeat split; congruence.
Qed.

Lemma fold_left_frame {A} (f : HttpSseTransport.t -> A -> HttpSseTransport.t) (l : list A) :
  (forall self a, frame self (f self a)) -> forall self, frame self (List.fold_left f l self).
Proof.
  intros Hf. induction l as [|a l IH]; intros self; [reflexivity|]. etransitivity; [apply Hf|apply IH].
Qed.

Lemma monitor_event_frame self data : frame self (monitor_event self data).
Proof. unfold monitor_event. destruct (message_from_str data), (extract_session_from_event_data_static data); done. Qed.

Lemma get_fresh_frame self : frame self (get_fresh_session_id self).
Proof.
  unfold get_fresh_session_id. case_bool_decide; [done|]. destruct (session_receiver self); [|done].
  etransitivity; [|apply fold_left_frame]; [done|]. intros s info. unfold apply_session.
  destruct (starts_with _ _); [destruct (split_second _ _)|]; done.
Qed.

Lemma await_session_frame n : forall looks self, frame self (await_session n looks self).
Proof.
  induction n as [|n IH]; intros looks self; cbn [await_session]; [done|]. destruct (session_id self); [done|].
  etransitivity; [|apply IH]. etransitivity; [|apply get_fresh_frame]. apply fold_left_frame, monitor_event_frame.
Qed.

Lemma poll_monitor_frame id polls : forall self, frame self (poll_monitor id polls self).1.
Proof.
  induction polls as [|events polls IH]; intros self; cbn [poll_monitor]; [done|].
  pose proof (fold_left_frame _ events monitor_event_frame self) as Hf.
  destruct (jsonrpc_receiver _) as [[|m q]|].
  - etransitivity; [exact Hf|apply IH].
  - destruct (matches id m); [exact Hf|]. etransitivity; [exact Hf|]. etransitivity; [|apply IH]. done.
  - etransitivity; [exact Hf|apply IH].
Qed.

Lemma wait_frame id arrivals self : frame self (wait_for_sse_response id arrivals self).2.
Proof.
  unfold wait_for_sse_response.
  assert (Hp : forall s p, (s, p) = (match jsonrpc_receiver self with
      | Some _ => poll_monitor id (Arrivals.monitored arrivals) self | None => (self, None) end) -> frame self s).
  { intros s p H. destruct (jsonrpc_receiver self); [|by injection H as -> ->].
    pose proof (poll_monitor_frame id (Arrivals.monitored arrivals) self) as Hf. by rewrite <- H in Hf. }
  destruct (match jsonrpc_receiver self with Some _ => _ | None => _ end) as [s p]. specialize (Hp s p eq_refl).
  destruct p as [r|]; [exact Hp|]. destruct (jsonrpc_receiver s), (Arrivals.monitor_end arrivals); try exact Hp;
    (destruct (sse_receiver s); [|exact Hp]); (destruct (find_response id _) as [[r rest]|]; exact Hp).
Qed.

Lemma awaited_frame message arrivals self : frame self (awaited message arrivals self).2.
Proof.
  unfold awaited. destruct message; try done.
  pose proof (wait_frame (RequestId.to_string (JsonRpcRequest.id req)) arrivals self) as H.
  by destruct (wait_for_sse_response _ _ _).
Qed.

Lemma stream_awaited_frame message arrivals self :
  frame self (awaited message arrivals (handle_sse_response self)).2.
Proof. etransitivity; [|apply awaited_frame]. done. Qed.

Lemma adopt_session_frame reply self : frame self (adopt_session reply self).2.
Proof.
  unfold adopt_session. destruct (HttpReply.session reply) as [s|]; [|done].
  by destruct (validate_session_id self s).
Qed.

Lemma streamable_reply_frame message reply arrivals self :
  frame self (streamable_reply response_error message reply arrivals self).2.
Proof.
  unfold streamable_reply. destruct reply as [[reply|e]|]; try done.
  pose proof (adopt_session_frame reply self) as Ha. destruct (adopt_session reply self) as [[[]|e] s]; [|done].
  destruct (str_contains "application/json" _); [done|]. destruct (str_contains "text/event-stream" _); [|done].
  etransitivity; [exact Ha|apply stream_awaited_frame].
Qed.

Lemma legacy_reply_frame message reply arrivals self :
  frame self (legacy_reply response_error status_text message reply arrivals self).2.
Proof.
  unfold legacy_reply. destruct reply as [[reply|e]|]; try done.
  destruct (HttpReply.status reply =? 202); [apply awaited_frame|].
  destruct (str_contains "application/json" _); [done|].
  destruct (str_contains "text/event-stream" _); [apply stream_awaited_frame|done].
Qed.

Definition unresumed (http : HttpRequest.t) : Prop := HttpRequest.header http "Last-Event-ID" = None.

Lemma streamable_frame message reply arrivals self https r self' :
  send_streamable_http_request response_error message reply arrivals self = (https, r, self') ->
  frame self self' /\ (last_event_id self = None -> Forall unresumed https).
Proof.
  unfold send_streamable_http_request. pose proof (streamable_reply_frame message reply arrivals self) as H.
  destruct (streamable_reply _ _ _ _ _). intros [= <- <- <-]. split; [exact H|]. intros ->.
  repeat constructor. by destruct (session_id self).
Qed.

Lemma legacy_frame looks message reply arrivals self https r self' :
  send_legacy_sse_request response_error status_text looks message reply arrivals self = (https, r, self') ->
  frame self self' /\ Forall unresumed https.
Proof.
  unfold send_legacy_sse_request. pose proof (await_session_frame 50 looks self) as Ha.
  set (s := await_session 50 looks self) in *. destruct (negb _ && _); [by intros [= <- <- <-]|].
  pose proof (legacy_reply_frame message reply arrivals s) as Hl. destruct (legacy_reply _ _ _ _ _ _).
  intros [= <- <- <-]. split; [by etransitivity|by repeat constructor].
Qed.

Lemma send_frame looks message reply arrivals self https r self' :
  send_mcp_request response_error status_text looks message reply arrivals self = (https, r, self') ->
  frame self self' /\ (last_event_id self = None -> Forall unresumed https).
Proof.
  unfold send_mcp_request, detect_protocol_version. pose proof (get_fresh_frame self) as H0.
  set (s := get_fresh_session_id self) in *.
  assert (Hm : forall s', frame s s' ->
    send_streamable_http_request response_error message reply arrivals s' = (https, r, self') ->
    frame self self' /\ (last_event_id self = None -> Forall unresumed https)).
  { intros s' Hs [Hf Hu]%streamable_frame. assert (Hs' : frame self s') by by etransitivity.
    split; [by etransitivity|]. intros Hn. apply Hu. by rewrite (proj1 (proj2 Hs')). }
  assert (Hl : forall s', frame s s' ->
    send_legacy_sse_request response_error status_text looks message reply arrivals s' = (https, r, self') ->
    frame self self' /\ (last_event_id self = None -> Forall unresumed https)).
  { intros s' Hs [Hf Hu]%legacy_frame. split; [|done]. etransitivity; [exact H0|]. by etransitivity. }
  destruct (protocol_version s); [by apply Hm|by apply Hl|].
  destruct (String.eqb _ _); [by apply Hl|by apply Hm].
Qed.

Lemma try_endpoints_frame probe endpoints : forall self, frame self (try_endpoints probe endpoints self).
Proof.
  induction endpoints as [|e endpoints IH]; intros self; cbn [try_endpoints]; [done|].
  assert (Hf : frame self (start_session_monitor_for_endpoint probe e self).2).
  { unfold start_session_monitor_for_endpoint. destruct (url_join _ _); [|done].
    destruct (probe _); [|done]. by destruct (str_contains _ _). }
  destruct (start_session_monitor_for_endpoint probe e self) as [[[[]|]|] s]; [exact Hf|..];
    etransitivity; [exact Hf|apply IH|exact Hf|apply IH].
Qed.

Lemma step_frame self https self' :
  step self https self' -> frame self self' /\ (last_event_id self = None -> Forall unresumed https).
Proof.
  intros [now probe head| |request time looks reply arrivals again https' r s H|notif reply https' r s H
    |time closed|reply https' r s H|data|data].
  - split; [|done]. unfold connect, start_continuous_session_monitoring.
    set (s := if String.eqb _ _ then _ else _). assert (Hs : frame self s).
    { unfold s. destruct (String.eqb _ _); [done|apply try_endpoints_frame]. }
    destruct head; [|exact Hs]. cbn. destruct (session_id s); exact Hs.
  - split; [done|]. intros _. unfold disconnect. by destruct (session_id self); repeat constructor.
  - revert H. unfold send_request. destruct (is_connected self); [|by intros [= <- <- <-]]. cbn [negb].
    destruct (send_mcp_request _ _ _ _ _ _ _) as [[hs result] s1] eqn:E. apply send_frame in E as [Hf Hu].
    destruct result as [[[resp|]|e]|]; try (by intros [= <- <- <-]).
    pose proof (wait_frame (RequestId.to_string (JsonRpcRequest.id request)) again
      (set_info s1 (TransportInfo.increment_requests_sent (info s1)))) as Hw.
    destruct (wait_for_sse_response _ _ _). intros [= <- <- <-]. split; [|done]. etransitivity; [exact Hf|exact Hw].
  - revert H. unfold send_notification. destruct (is_connected self); [|by intros [= <- <- <-]]. cbn [negb].
    destruct reply; intros [= <- <- <-]; (split; [done|]); repeat constructor; by destruct (session_id self).
  - split; [|done]. unfold receive_message. destruct (negb _); [done|].
    destruct (sse_receiver self) as [[|m q]|]; [done| |done]. by destruct m.
  - revert H. unfold resume_sse_connection. destruct (last_event_id self) eqn:El; [|by intros [= <- <- <-]].
    destruct reply; [case_bool_decide|]; by intros [= <- <- <-].
  - split; [|done]. unfold stream_event. by destruct (sse_receiver self), (streamed_message data).
  - split; [|done]. apply monitor_event_frame.
Qed.

(** The transport never resumes a stream.  The identifier of the last event
    is kept by the task that reads the stream and never reaches the transport:
    over its whole life no request carries one, and resuming sends nothing and
    succeeds. *)
Theorem streams_never_resume client config start https self reply :
  HttpSseTransport.new client config = Ok start -> reaches start https self ->
  Forall unresumed https /\ can_resume self = false /\ resume_sse_connection reply self = ([], Ok tt, self).
Proof.
  intros Hnew Hrun. assert (Hs : last_event_id start = None).
  { destruct config as [c|c|c]; try done. cbn in Hnew. destruct client; [|done]. cbn in Hnew.
    destruct (TransportFactory.build_security_config _); [|done]. by injection Hnew as <-. }
  clear Hnew. induction Hrun as [s|s hs s' more s'' Hstep Hrun IH].
  - split; [done|]. unfold can_resume, resume_sse_connection. by rewrite Hs.
  - apply step_frame in Hstep as [(_ & Hl & _) Hu]. rewrite Hs in Hl. destruct (IH Hl) as (Hm & Hc & Hr).
    split; [|done]. apply Forall_app. auto.
Qed.
(** ** Sessions of the current protocol *)

(** A session the checks accept *)
Definition session_ok (session : string) : Prop :=
  session = "default"%string \/
  ((16 <= String.length session)%nat /\
   all_chars (fun c => is_ascii_alphanumeric c || Ascii.eqb c "-") session = true).

Definition session_checked (http : HttpRequest.t) : Prop :=
  forall session, HttpRequest.header http "Mcp-Session-Id" = Some session -> session_ok session.

(** Without a monitor, at the current protocol's address *)
Definition modern (self : HttpSseTransport.t) : Prop :=
  url_path (base_url self) = "/mcp"%string /\ session_receiver self = None /\ jsonrpc_receiver self = None /\
  protocol_version self <> HttpSse /\ SecurityConfig.validate_session_ids (security_config self) = true /\
  (forall session, session_id self = Some session -> session_ok session).

(** What a wait leaves alone then *)
Definition quiet (self self' : HttpSseTransport.t) : Prop :=
  frame self self' /\ session_receiver self' = session_receiver self /\
  jsonrpc_receiver self' = jsonrpc_receiver self /\ protocol_version self' = protocol_version self /\
  session_id self' = session_id self.

Lemma quiet_modern self self' : quiet self self' -> modern self -> modern self'.
Proof. unfold modern. by intros ((-> & _ & ->) & -> & -> & -> & ->). Qed.

Lemma wait_quiet id arrivals self :
  jsonrpc_receiver self = None -> quiet self (wait_for_sse_response id arrivals self).2.
Proof.
  intros Hj. unfold wait_for_sse_response. rewrite Hj. rewrite Hj.
  destruct (sse_receiver self); [|done]. destruct (find_response id _) as [[r rest]|]; done.
Qed.

Lemma awaited_quiet message arrivals self :
  jsonrpc_receiver self = None -> quiet self (awaited message arrivals self).2.
Proof.
  intros Hj. unfold awaited. destruct message; try done.
  pose proof (wait_quiet (RequestId.to_string (JsonRpcRequest.id req)) arrivals self Hj) as H.
  by destruct (wait_for_sse_response _ _ _).
Qed.

Lemma validated self session :
  SecurityConfig.validate_session_ids (security_config self) = true ->
  validate_session_id self session = Ok tt -> session_ok session.
Proof.
  intros Hv. unfold validate_session_id. rewrite Hv. cbn [negb].
  destruct (Nat.ltb_spec (String.length session) 16) as [|Hl]; [done|].
  destruct (all_chars _ session) eqn:E; [|done]. intros _. right. split; [exact Hl|exact E].
Qed.

Lemma adopt_modern reply self : modern self -> modern (adopt_session reply self).2.
Proof.
  intros Hm. unfold adopt_session. destruct (HttpReply.session reply) as [str|]; [|done].
  destruct (validate_session_id self str) as [[]|] eqn:E; [|done].
  destruct Hm as (H1 & H2 & H3 & H4 & H5 & _).
  do 5 (split; [done|]). intros session [= <-]. by apply (validated self).
Qed.

Lemma streamable_reply_modern message reply arrivals self :
  modern self -> modern (streamable_reply response_error message reply arrivals self).2.
Proof.
  intros Hm. unfold streamable_reply. destruct reply as [[reply|e]|]; try done.
  pose proof (adopt_modern reply self Hm) as Ha. destruct (adopt_session reply self) as [[[]|e] s]; [|done].
  destruct (str_contains "application/json" _); [done|]. destruct (str_contains "text/event-stream" _); [|done].
  eapply quiet_modern; [apply awaited_quiet|]; apply Ha.
Qed.

Lemma send_modern looks message reply arrivals self https r self' :
  modern self -> send_mcp_request response_error status_text looks message reply arrivals self = (https, r, self') ->
  modern self' /\ Forall session_checked https.
Proof.
  intros Hm H. destruct Hm as (H1 & H2 & H3 & H4 & H5 & H6).
  assert (Hsend : exists s, modern s /\
    send_streamable_http_request response_error message reply arrivals s = (https, r, self')).
  { revert H. unfold send_mcp_request, get_fresh_session_id. rewrite H2.
    destruct (bool_decide _); unfold detect_protocol_version;
      destruct (protocol_version self) eqn:Ev; try done; rewrite ?H1; cbn [String.eqb Ascii.eqb]; intros H;
      eexists; (split; [|exact H]); by split_and!; rewrite ?Ev. }
  destruct Hsend as (s & Hs & Hh). revert Hh. unfold send_streamable_http_request.
  pose proof (streamable_reply_modern message reply arrivals s Hs) as Hr.
  destruct (streamable_reply _ _ _ _ _). intros [= <- <- <-]. split; [exact Hr|].
  apply Forall_singleton. intros session. destruct Hs as (_ & _ & _ & _ & _ & Hs). cbn.
  destruct (session_id s), (last_event_id s); cbn; try done; intros [= <-]; by apply Hs.
Qed.
Lemma monitor_event_quiet self data :
  session_receiver self = None -> jsonrpc_receiver self = None -> quiet self (monitor_event self data).
Proof.
  intros Hs Hj. unfold monitor_event. rewrite Hs, Hj.
  destruct (message_from_str data), (extract_session_from_event_data_static data); by (split_and!; rewrite ?Hs, ?Hj).
Qed.

Lemma step_modern self https self' :
  modern self -> step self https self' -> modern self' /\ Forall session_checked https.
Proof.
  intros Hm Hstep. pose proof Hm as (H1 & H2 & H3 & H4 & H5 & H6).
  destruct Hstep as [now probe head| |request time looks reply arrivals again https' r s H|notif reply https' r s H
    |time closed|reply https' r s H|data|data].
  - split; [|done]. unfold connect, start_continuous_session_monitoring. rewrite H1. cbn [String.eqb Ascii.eqb].
    destruct head; cbn; [|by split_and!]. destruct (session_id self) as [str|] eqn:E; split_and!; try done; cbn.
    + rewrite E. exact H6.
    + intros session [= <-]. by left.
  - unfold disconnect. cbn. destruct (session_id self) as [str|] eqn:E; (split; [by split_and!|]); [|done].
    apply Forall_singleton. intros session [= <-]. by apply H6.
  - revert H. unfold send_request. destruct (is_connected self); [|by intros [= <- <- <-]]. cbn [negb].
    destruct (send_mcp_request _ _ _ _ _ _ _) as [[hs result] s1] eqn:E. apply send_modern in E as [Hs1 Hh]; [|done].
    destruct result as [[[resp|]|e]|]; try (by intros [= <- <- <-]).
    pose proof Hs1 as (_ & _ & Hj & _).
    pose proof (wait_quiet (RequestId.to_string (JsonRpcRequest.id request)) again
      (set_info s1 (TransportInfo.increment_requests_sent (info s1))) Hj) as Hw.
    destruct (wait_for_sse_response _ _ _). intros [= <- <- <-]. split; [|done]. by eapply quiet_modern.
  - revert H. unfold send_notification. destruct (is_connected self); [|by intros [= <- <- <-]]. cbn [negb].
    assert (Hc : session_checked (post (base_url self) (header "Mcp-Session-Id" (session_id self))
                                    (JsonRpcMessage.Notification notif))).
    { intros session. cbn. destruct (session_id self); cbn; [|done]. intros [= <-]. by apply H6. }
    destruct reply; intros [= <- <- <-]; (split; [done|]); by apply Forall_singleton.
  - split; [|done]. unfold receive_message. destruct (negb _); [done|].
    destruct (sse_receiver self) as [[|m q]|]; [done| |done]. by destruct m.
  - revert H. unfold resume_sse_connection. destruct (last_event_id self) eqn:El; [|by intros [= <- <- <-]].
    assert (Hc : session_checked (HttpRequest.mk "GET" (url_text (base_url self))
      ([("Accept", "text/event-stream"); ("Last-Event-ID", s0)]%string ++ header "Mcp-Session-Id" (session_id self)) "")).
    { intros session. cbn. destruct (session_id self); cbn; [|done]. intros [= <-]. by apply H6. }
    destruct reply; [case_bool_decide|]; intros [= <- <- <-]; (split; [done|]); by apply Forall_singleton.
  - split; [|done]. unfold stream_event. by destruct (sse_receiver self), (streamed_message data).
  - split; [|done]. eapply quiet_modern; [|exact Hm]. by apply monitor_event_quiet.
Qed.

(** At the current protocol's address every session that a request carries
    has passed the checks, at least sixteen letters, digits and hyphens, or is
    the made-up session [default], which the transport takes when it connects
    and sends with the first request, the initialization. *)
Theorem sessions_are_checked client config start now probe https self :
  HttpSseTransport.new client config = Ok start -> url_path (base_url start) = "/mcp"%string ->
  reaches start https self ->
  Forall session_checked https /\
  session_id (connect now probe (Ok tt) start).2 = Some "default"%string.
Proof.
  intros Hnew Hp Hrun. assert (Hm : modern start /\ session_id start = None).
  { destruct config as [c|c|c]; try done. cbn in Hnew. destruct client; [|done]. cbn in Hnew.
    destruct (TransportFactory.build_security_config _); [|done]. injection Hnew as <-. split; [|done].
    by split_and!. }
  destruct Hm as [Hm Hs]. split.
  - clear Hnew Hs Hp. induction Hrun as [s|s hs s' more s'' Hstep Hrun IH]; [done|].
    apply step_modern in Hstep as [Hm' Hh]; [|done]. apply Forall_app. auto.
  - unfold connect, start_continuous_session_monitoring. rewrite Hp. cbn. by rewrite Hs.
Qed.
(** ** Responses on a stream *)

Lemma find_response_spec id q :
  match find_response id q with
  | Some (r, rest) =>
      exists dropped, q = dropped ++ JsonRpcMessage.Response r :: rest /\
        RequestId.to_string (JsonRpcResponse.id r) = id /\ Forall (fun m => matches id m = None) dropped
  | None => Forall (fun m => matches id m = None) q
  end.
Proof.
  induction q as [|m q IH]; cbn [find_response]; [done|]. destruct (matches id m) as [r|] eqn:E.
  - destruct m as [req|resp|notif]; try done. cbn in E.
    destruct (String.eqb_spec (RequestId.to_string (JsonRpcResponse.id resp)) id) as [<-|]; [|done].
    injection E as ->. by exists [].
  - destruct (find_response id q) as [[r rest]|]; [|by constructor].
    destruct IH as (dropped & -> & Hid & Hd). exists (m :: dropped). split_and!; [done|done|by constructor].
Qed.

(** A request that is answered on a stream gets the first response there
    with its identifier.  What came before it on the stream, notifications and
    requests of the server among it, is dropped and cannot be received any
    more; what came after it stays.  The response is counted twice. *)
Theorem streamed_responses request time looks reply arrivals again self :
  is_connected self = true -> modern self ->
  HttpReply.session reply = None -> HttpReply.content_type reply = Some "text/event-stream"%string ->
  let id := RequestId.to_string (JsonRpcRequest.id request) in
  let messages := omap streamed_message (Arrivals.streamed arrivals) in
  let '(_, answer, self') :=
    send_request response_error status_text request time looks (Some (Ok reply)) arrivals again self in
  match answer with
  | Some (Ok response) =>
      exists dropped rest,
        messages = dropped ++ JsonRpcMessage.Response response :: rest /\
        RequestId.to_string (JsonRpcResponse.id response) = id /\
        Forall (fun m => matches id m = None) dropped /\ sse_receiver self' = Some rest /\
        TransportInfo.responses_received (info self') =
          wrap_u64 (wrap_u64 (TransportInfo.responses_received (info self) + 1) + 1)
  | _ => Forall (fun m => matches id m = None) messages /\ sse_receiver self' = Some []
  end.
Proof.
  intros Hc (H1 & H2 & H3 & H4 & _) Hs Ht id messages. unfold send_request. rewrite Hc. cbn [negb].
  assert (Hsend : exists s, jsonrpc_receiver s = None /\ info s = info self /\
    send_mcp_request response_error status_text looks (JsonRpcMessage.Request request) (Some (Ok reply)) arrivals self =
    send_streamable_http_request response_error (JsonRpcMessage.Request request) (Some (Ok reply)) arrivals s).
  { unfold send_mcp_request, get_fresh_session_id. rewrite H2.
    destruct (bool_decide _); unfold detect_protocol_version;
      destruct (protocol_version self) eqn:Ev; try done; rewrite ?H1; cbn [String.eqb Ascii.eqb];
      eexists; (split; [|split; [|reflexivity]]); done. }
  destruct Hsend as (s & Hj & Hi & ->).
  unfold send_streamable_http_request, streamable_reply, adopt_session. rewrite Hs, Ht. cbn [from_option Datatypes.id].
  change (str_contains "application/json" "text/event-stream") with false.
  change (str_contains "text/event-stream" "text/event-stream") with true. cbn iota.
  unfold awaited, wait_for_sse_response, handle_sse_response. cbn [jsonrpc_receiver set_stream sse_receiver app]. rewrite Hj.
  cbn [jsonrpc_receiver set_stream sse_receiver app]. rewrite Hj. cbn [sse_receiver set_stream app].
  fold id messages. pose proof (find_response_spec id messages) as Hf.
  destruct (find_response id messages) as [[r rest]|].
  - cbn. destruct Hf as (dropped & Hm & Hid & Hd). exists dropped, rest. split_and!; try done. by rewrite Hi.
  - by destruct (Arrivals.stream_end arrivals).
Qed.
End life.

Module DemoEvents.
Import ToyNumbers ToyText ToyUrl.

#[global] Instance toy_url_edit : UrlEdit := {|
  url_join base path := Ok (base +:+ path);
  url_with_query base query := base +:+ "?" +:+ query
|}.
#[global] Instance toy_regex : RegexApi := {| regex_group1 _ data := split_second "sessionId=" data |}.

Definition config : TransportConfig.t := TransportConfig.HttpSse (HttpSseConfig.new "https://host/mcp").

Definition start : HttpSseTransport.t :=
  HttpSseTransport.mk (HttpSseConfig.new "https://host/mcp") (TransportInfo.new "streamable-http") None
    "https://host/mcp" None None (SecurityConfig.mk true true true true) AutoDetect None None.

Example created : HttpSseTransport.new (Ok tt) config = Ok start.
Proof. reflexivity. Qed.

Definition probe (u : string) : Res string string := Ok ""%string.
Definition online : HttpSseTransport.t := (HttpSseTransport.connect 0 probe (Ok tt) start).2.

Definition request : JsonRpcRequest.t := JsonRpcRequest.without_params (RequestId.Number 7) "ping".

Definition event (m : JsonRpcMessage.t) : string := message_to_string m.
Definition progress : JsonRpcMessage.t :=
  JsonRpcMessage.Notification (JsonRpcNotification.without_params "notifications/progress").
Definition answer : JsonRpcMessage.t :=
  JsonRpcMessage.Response (JsonRpcResponse.success (RequestId.Number 7) (VString "pong")).

(** A notification, the response and another notification *)
Definition arrivals : Arrivals.t :=
  Arrivals.mk [] TimedOut [event progress; event answer; event progress] TimedOut.
Definition nothing : Arrivals.t := Arrivals.mk [] TimedOut [] TimedOut.

Definition reply : HttpReply.t := HttpReply.mk 200 None (Some "text/event-stream"%string) None.

Definition exchange : list HttpRequest.t * option (McpResult JsonRpcResponse.t) * HttpSseTransport.t :=
  HttpSseTransport.send_request (fun _ => ""%string) (fun _ => ""%string) request "30s" [] (Some (Ok reply))
    arrivals nothing online.

Lemma triple {A B C} (x : A * B * C) : x = (x.1.1, x.1.2, x.2).
Proof. by destruct x as [[? ?] ?]. Qed.

Lemma one_exchange :
  reaches (fun _ => ""%string) (fun _ => ""%string) start ([] ++ (exchange.1.1 ++ [])) exchange.2.
Proof.
  eapply reaches_step; [exact (step_connect _ _ start 0 probe (Ok tt))|].
  eapply reaches_step; [|apply reaches_refl].
  exact (step_request _ _ online request "30s" [] (Some (Ok reply)) arrivals nothing _ _ _ (triple exchange)).
Qed.

Example is_answered :
  (match exchange.1.2 with Some (Ok r) => String.eqb (RequestId.to_string (JsonRpcResponse.id r)) "7" | _ => false end
   && match HttpSseTransport.sse_receiver exchange.2 with Some [_] => true | _ => false end) = true.
Proof. vm_compute. reflexivity. Qed.

Lemma online_modern : modern online.
Proof. split_and!; try done. cbn. intros session [= <-]. by left. Qed.
End DemoEvents.

Lemma streams_never_resume_witness :
  Forall unresumed ([] ++ (DemoEvents.exchange.1.1 ++ [])) /\
  HttpSseTransport.can_resume DemoEvents.exchange.2 = false /\
  HttpSseTransport.resume_sse_connection (Ok None) DemoEvents.exchange.2 = ([], Ok tt, DemoEvents.exchange.2).
Proof.
  exact (streams_never_resume _ _ (Ok tt) DemoEvents.config DemoEvents.start _ _ (Ok None)
           DemoEvents.created DemoEvents.one_exchange).
Defined.

Lemma sessions_are_checked_witness :
  Forall session_checked ([] ++ (DemoEvents.exchange.1.1 ++ [])) /\
  HttpSseTransport.session_id (HttpSseTransport.connect 0 DemoEvents.probe (Ok tt) DemoEvents.start).2 =
    Some "default"%string.
Proof.
  exact (sessions_are_checked _ _ (Ok tt) DemoEvents.config DemoEvents.start 0 DemoEvents.probe _ _
           DemoEvents.created eq_refl DemoEvents.one_exchange).
Defined.

Lemma streamed_responses_witness :
  let messages := omap HttpSseTransport.streamed_message (Arrivals.streamed DemoEvents.arrivals) in
  match DemoEvents.exchange with
  | (_, Some (Ok response), self') =>
      exists dropped rest,
        messages = dropped ++ JsonRpcMessage.Response response :: rest /\
        RequestId.to_string (JsonRpcResponse.id response) = "7"%string /\
        HttpSseTransport.sse_receiver self' = Some rest
  | _ => True
  end.
Proof.
  pose proof (streamed_responses (fun _ => ""%string) (fun _ => ""%string) DemoEvents.request "30s" []
    DemoEvents.reply DemoEvents.arrivals DemoEvents.nothing DemoEvents.online eq_refl DemoEvents.online_modern
    eq_refl eq_refl) as H.
  revert H. fold DemoEvents.exchange. destruct DemoEvents.exchange as [[https [[response|]|]] self']; try (intros; exact I).
  intros (dropped & rest & Hm & Hid & _ & Hq & _). by exists dropped, rest.
Defined.
