(* ===== verification/HttpServers.v ===== *)
(** The proxy's HTTP servers ([acdp-transport/src/http_stream_server.rs] and
    [http_sse_server.rs]): a client's message runs through the interceptors,
    goes to the upstream server over the MCP client, and its response comes
    back as the body of the answer.  The proxy gives the client the very
    manager it gives the server, so the manager is the client's here. *)

From S2P Require Import Prelude McpError Messages Interceptor Transform Text Client.

(** Status codes, and the answer to an HTTP request *)
Definition OK : Z := 200.
Definition BAD_REQUEST : Z := 400.
Definition FORBIDDEN : Z := 403.
Definition NOT_FOUND : Z := 404.
Definition BAD_GATEWAY : Z := 502.

Module HttpAnswer.
Record t : Type := mk { status : Z; headers : list (string * string); body : string }.
End HttpAnswer.

Section servers.
Context `{JT : JsonText} {TA : TransportApi}.

(** [process_message_with_metadata] with the session, on the shared manager *)
Definition intercept_for (session_id : string) (message : JsonRpcMessage.t) (direction : MessageDirection)
    (self : McpClient.t) : McpResult InterceptionResult.t * McpClient.t :=
  let '(now, elapsed, w) := conn_clock (McpClient.transport self) in
  let '(r, m) := InterceptorManager.process_message_with_metadata now elapsed
                   (McpClient.interceptor_manager self) message direction
                   (InterceptionMetadata.with_session_id InterceptionMetadata.new session_id) in
  (r, McpClient.set_interceptor_manager m (McpClient.set_conn w [] self)).

Definition sent_response : JsonRpcResponse.t :=
  JsonRpcResponse.mk "2.0" RequestId.Null (Some (VObject [("status"%string, VString "sent")])) None.

Definition params_or_empty (params : option Value) : Value :=
  match params with Some p => p | None => VObject [] end.

(** Forwarding to the upstream server: a status is an error; [None] when the
    client panics. *)
Definition forward (message : JsonRpcMessage.t) (self : McpClient.t) : option (Res JsonRpcResponse.t Z * McpClient.t) :=
  match message with
  | JsonRpcMessage.Request req =>
      match McpClient.send_request (JsonRpcRequest.method req) (params_or_empty (JsonRpcRequest.params req)) self with
      | Some (Ok response, self) => Some (Ok response, self)
      | Some (Err _, self) => Some (Err BAD_GATEWAY, self)
      | None => None
      end
  | JsonRpcMessage.Notification notif =>
      match McpClient.send_notification (JsonRpcNotification.method notif)
              (params_or_empty (JsonRpcNotification.params notif)) self with
      | Some (Ok _, self) => Some (Ok sent_response, self)
      | Some (Err _, self) => Some (Err BAD_GATEWAY, self)
      | None => None
      end
  | JsonRpcMessage.Response _ => Some (Err BAD_REQUEST, self)
  end.

(** The session of a request: what its header says, or a fresh one *)
Definition session_of (header : option string) (fresh : string) : string := from_option id fresh header.

Definition request_id_of (message : JsonRpcMessage.t) : RequestId.t :=
  match message with JsonRpcMessage.Request req => JsonRpcRequest.id req | _ => RequestId.Null end.
End servers.

Module HttpStreamServer.
Section server.
Context `{JT : JsonText} {TA : TransportApi}.

Definition answer (session_id : string) (response : JsonRpcResponse.t) : HttpAnswer.t :=
  HttpAnswer.mk OK [("Content-Type", "application/json"); ("mcp-session-id", session_id)]%string
    (json_to_string (JsonRpcResponse.to_value response)).

Definition blocked_response (message : JsonRpcMessage.t) (reasoning : option string) : JsonRpcResponse.t :=
  JsonRpcResponse.mk "2.0" (request_id_of message) None
    (Some (JsonRpcError.mk (-32000) "Request blocked by interceptor" (option_map VString reasoning))).

(** The response after the interceptors of the way back, whose blocking is not
    looked at *)
Definition intercept_response (session_id : string) (response : JsonRpcResponse.t) (self : McpClient.t)
  : McpResult JsonRpcResponse.t * McpClient.t :=
  match intercept_for session_id (JsonRpcMessage.Response response) Incoming self with
  | (Err e, self) => (Err e, self)
  | (Ok result, self) =>
      (Ok match InterceptionResult.message result with JsonRpcMessage.Response resp => resp | _ => response end, self)
  end.

(** Status 500 for a failing manager *)
Definition handle_mcp_request (header : option string) (fresh : string) (body : Value) (self : McpClient.t)
  : option (Res HttpAnswer.t Z * McpClient.t) :=
  match JsonRpcMessage.from_value body with
  | Err _ => Some (Err BAD_REQUEST, self)
  | Ok message =>
      let session_id := session_of header fresh in
      match intercept_for session_id message Outgoing self with
      | (Err _, self) => Some (Err 500, self)
      | (Ok result, self) =>
          if InterceptionResult.block result
          then Some (Ok (answer session_id (blocked_response message (InterceptionResult.reasoning result))), self)
          else
            match forward (InterceptionResult.message result) self with
            | None => None
            | Some (Err status, self) => Some (Err status, self)
            | Some (Ok response, self) =>
                match intercept_response session_id response self with
                | (Err _, self) => Some (Err 500, self)
                | (Ok final_response, self) => Some (Ok (answer session_id final_response), self)
                end
            end
      end
  end.
End server.
End HttpStreamServer.

Module HttpSseServer.
Section server.
Context `{JT : JsonText} {TA : TransportApi}.

(** The sessions with an event stream; nothing is ever sent on their
    channels. *)
Record t : Type := mk { upstream : McpClient.t; sessions : gset string }.

Definition new (upstream : McpClient.t) : t := mk upstream ∅.

Definition answer (session_id : string) (response : JsonRpcResponse.t) : HttpAnswer.t :=
  HttpAnswer.mk OK
    [("Content-Type", "text/event-stream"); ("Cache-Control", "no-cache"); ("Mcp-Session-Id", session_id)]%string
    ("data: " +:+ json_to_string (JsonRpcResponse.to_value response) +:+ newline +:+ newline).

Definition handle_sse_post (header : option string) (fresh : string) (body : Value) (self : t)
  : option (Res HttpAnswer.t Z * t) :=
  match JsonRpcMessage.from_value body with
  | Err _ => Some (Err BAD_REQUEST, self)
  | Ok message =>
      let session_id := session_of header fresh in
      match intercept_for session_id message Outgoing (upstream self) with
      | (Err _, c) => Some (Err 500, mk c (sessions self))
      | (Ok result, c) =>
          if InterceptionResult.block result then Some (Err FORBIDDEN, mk c (sessions self))
          else
            match forward (InterceptionResult.message result) c with
            | None => None
            | Some (Err status, c) => Some (Err status, mk c (sessions self))
            | Some (Ok response, c) => Some (Ok (answer session_id response), mk c (sessions self))
            end
      end
  end.

(** The first event of a stream *)
Definition session_event (event session_id : string) : string * string :=
  let quote := String (Ascii.ascii_of_nat 34) EmptyString in
  (event, "{" +:+ quote +:+ "session_id" +:+ quote +:+ ":" +:+ quote +:+ session_id +:+ quote +:+ "}").

Definition handle_sse_get (header : option string) (fresh : string) (self : t) : (string * string) * t :=
  let session_id := session_of header fresh in
  (session_event "connected" session_id, mk (upstream self) ({[session_id]} ∪ sessions self)).

Definition handle_sse_session (session_id : string) (self : t) : Res (string * string) Z :=
  if bool_decide (session_id ∈ sessions self) then Ok (session_event "resumed" session_id) else Err NOT_FOUND.
End server.
Arguments t : clear implicits.
Arguments t {JN TA}.
End HttpSseServer.

(** ** The proxy's identifiers *)

Section identifiers.
Context `{JT : JsonText} {TA : TransportApi}.
Import McpClient.

(** A transport that answers a request with its identifier, and a manager
    without interceptors *)
Context (answers_match : forall req d w r w',
  conn_send_request req d w = (Ok r, w') -> JsonRpcResponse.id r = JsonRpcRequest.id req).

Definition bare (self : McpClient.t) : Prop :=
  InterceptorManager.interceptors (interceptor_manager self) = [].

Lemma intercepted_bare m d self :
  bare self -> exists self', intercepted m d self = Some (Ok (InterceptionResult.pass_through m), self') /\
    bare self' /\ config self' = config self.
Proof.
  intros Hb. unfold intercepted. destruct (conn_clock (transport self)) as [[now elapsed] w].
  destruct (process_bare now elapsed (interceptor_manager self) m d (interception_metadata self) Hb) as (mg & -> & Hm).
  by eexists.
Qed.

Lemma intercept_for_bare session m d self :
  bare self -> intercept_for session m d self = (Ok (InterceptionResult.pass_through m), (intercept_for session m d self).2).
Proof.
  intros Hb. unfold intercept_for. destruct (conn_clock (transport self)) as [[now elapsed] w].
  by destruct (process_bare now elapsed (interceptor_manager self) m d
    (InterceptionMetadata.with_session_id InterceptionMetadata.new session) Hb) as (mg & -> & _).
Qed.

Lemma single_request_id request timeout self r self' :
  bare self -> send_single_request request timeout self = Some (r, self') ->
  bare self' /\ match r with Ok response => JsonRpcResponse.id response = JsonRpcRequest.id request | Err _ => True end.
Proof.
  intros Hb. unfold send_single_request, bind.
  destruct (intercepted_bare (JsonRpcMessage.Request request) Outgoing self Hb) as (s1 & -> & Hb1 & _).
  cbn [InterceptionResult.block InterceptionResult.pass_through InterceptionResult.message]. unfold on_transport.
  destruct (conn_send_request request (Some timeout) (transport s1)) as [[response|e] w] eqn:E; cbn [lift ret fail];
    [|by intros [= <- <-]].
  cbn [modify]. set (s2 := set_stats ClientStats.sent_request _).
  destruct (intercepted_bare (JsonRpcMessage.Response response) Incoming s2 Hb1) as (s3 & -> & Hb3 & _).
  intros [= <- <-]. split; [done|]. by apply answers_match in E.
Qed.

Lemma attempts_id request timeout base n : forall attempt self r self',
  bare self -> attempts request timeout base n attempt self = Some (r, self') ->
  bare self' /\ match r with Ok response => JsonRpcResponse.id response = JsonRpcRequest.id request | Err _ => True end.
Proof.
  induction n as [|n IH]; intros attempt self r self' Hb; cbn [attempts];
    destruct (send_single_request request timeout self) as [[[response|e] s]|] eqn:E; try done;
    apply single_request_id in E as [Hs Hid]; try done.
  - intros [= <- <-]. split; [by destruct (attempt >? 0)|done].
  - by intros [= <- <-].
  - intros [= <- <-]. split; [by destruct (attempt >? 0)|done].
  - unfold bind, sleep_before_retry. destruct (retry_delay base attempt); [|done]. cbn [modify]. by apply IH.
Qed.

Lemma send_request_id method params self response self' :
  bare self -> send_request method params self = Some (Ok response, self') ->
  bare self' /\ JsonRpcResponse.id response = RequestId.String ("req_" +:+ pretty (request_counter self)).
Proof.
  intros Hb. unfold send_request, bind, get. destruct (is_ready self); cbn [negb]; [|done].
  unfold send_request_with_timeout, bind, generate_request_id, get. unfold send_request_with_retries, bind, get.
  by intros H%attempts_id.
Qed.

(** The streaming server answers a client's request with the identifier of
    its own request to the upstream server, [req_] and a number, in place of
    the client's: a client that matches responses by identifier finds none.
    The upstream server's transport answers with the identifier it is sent. *)
Theorem answers_carry_the_proxys_identifier header fresh body req self a self' :
  bare self -> JsonRpcMessage.from_value body = Ok (JsonRpcMessage.Request req) ->
  HttpStreamServer.handle_mcp_request header fresh body self = Some (Ok a, self') ->
  exists response,
    HttpAnswer.body a = json_to_string (JsonRpcResponse.to_value response) /\
    JsonRpcResponse.id response = RequestId.String ("req_" +:+ pretty (request_counter self)).
Proof.
  intros Hb Hv. unfold HttpStreamServer.handle_mcp_request. rewrite Hv. set (session := session_of header fresh).
  unfold intercept_for at 1. destruct (conn_clock (transport self)) as [[now elapsed] w].
  destruct (process_bare now elapsed (interceptor_manager self) (JsonRpcMessage.Request req) Outgoing
    (InterceptionMetadata.with_session_id InterceptionMetadata.new session) Hb) as (mg & -> & Hm).
  cbn [InterceptionResult.block InterceptionResult.pass_through InterceptionResult.message forward].
  set (s1 := set_interceptor_manager mg _). assert (Hb1 : bare s1) by exact Hm.
  destruct (send_request _ _ s1) as [[[response|e] s2]|] eqn:E; try done.
  apply send_request_id in E as [Hb2 Hid]; [|done].
  unfold HttpStreamServer.intercept_response, intercept_for. destruct (conn_clock (transport s2)) as [[now2 elapsed2] w2].
  destruct (process_bare now2 elapsed2 (interceptor_manager s2) (JsonRpcMessage.Response response) Incoming
    (InterceptionMetadata.with_session_id InterceptionMetadata.new session) Hb2) as (mg2 & -> & _).
  intros [= <- <-]. by exists response.
Qed.
End identifiers.

(** ** How often the interceptors run *)

Section passes.
Context `{JT : JsonText} {TA : TransportApi}.
Import McpClient.

Definition processed (self : McpClient.t) : Z :=
  ManagerStats.total_messages_processed (InterceptorManager.stats (interceptor_manager self)).

(** [n] messages more have been processed, on [u64]. *)
Definition more (n : Z) (self self' : McpClient.t) : Prop := processed self' = wrap_u64 (processed self + n).

Lemma more_trans n m a b c : more n a b -> more m b c -> more (n + m) a c.
Proof.
  unfold more. intros -> ->. unfold wrap_u64. rewrite Z.add_assoc. by rewrite Zplus_mod_idemp_l.
Qed.

Lemma process_total now elapsed mg m d md :
  ManagerStats.total_messages_processed
    (InterceptorManager.stats (InterceptorManager.process_message_with_metadata now elapsed mg m d md).2) =
  wrap_u64 (ManagerStats.total_messages_processed (InterceptorManager.stats mg) + 1).
Proof.
  unfold InterceptorManager.process_message_with_metadata. by destruct (InterceptorManager.run _ _ _) as [[l|r] ics].
Qed.

Lemma intercepted_more m d self r self' : intercepted m d self = Some (r, self') -> more 1 self self'.
Proof.
  unfold intercepted. destruct (conn_clock (transport self)) as [[now elapsed] w].
  pose proof (process_total now elapsed (interceptor_manager self) m d (interception_metadata self)) as H.
  destruct (InterceptorManager.process_message_with_metadata _ _ _ _ _ _). intros [= <- <-]. exact H.
Qed.

Lemma intercept_for_more session m d self r self' : intercept_for session m d self = (r, self') -> more 1 self self'.
Proof.
  unfold intercept_for. destruct (conn_clock (transport self)) as [[now elapsed] w].
  pose proof (process_total now elapsed (interceptor_manager self) m d
    (InterceptionMetadata.with_session_id InterceptionMetadata.new session)) as H.
  destruct (InterceptorManager.process_message_with_metadata _ _ _ _ _ _). intros [= <- <-]. exact H.
Qed.

Lemma single_request_more request timeout self r self' :
  send_single_request request timeout self = Some (r, self') ->
  exists n, (if is_ok r then 2 else 0) <= n /\ more n self self'.
Proof.
  unfold send_single_request, bind.
  destruct (intercepted_spec (JsonRpcMessage.Request request) Outgoing self) as (ir & w & mg & E).
  rewrite E. apply intercepted_more in E. destruct (InterceptionResult.block ir); [intros [= <- <-]; by exists 1|].
  unfold on_transport. destruct (conn_send_request _ _ _) as [[response|e] w'] eqn:Ec; cbn [lift ret fail].
  - cbn [modify]. match goal with |- context [intercepted ?m ?d ?s] =>
      destruct (intercepted_spec m d s) as (ir' & w'' & mg' & E') end.
    rewrite E'. apply intercepted_more in E'.
    destruct (InterceptionResult.block ir'); intros [= <- <-]; exists (1 + 1); (split; [done|]);
      eapply more_trans; [exact E|exact E'|exact E|exact E'].
  - intros [= <- <-]. exists 1. split; [done|exact E].
Qed.

Lemma attempts_more request timeout base n : forall attempt self r self',
  attempts request timeout base n attempt self = Some (r, self') ->
  exists k, (if is_ok r then 2 else 0) <= k /\ more k self self'.
Proof.
  induction n as [|n IH]; intros attempt self r self'; cbn [attempts];
    destruct (send_single_request request timeout self) as [[[response|e] s]|] eqn:E; try done;
    apply single_request_more in E as (k & Hk & Hm).
  - intros [= <- <-]. exists k. split; [done|]. by destruct (attempt >? 0).
  - intros [= <- <-]. by exists k.
  - intros [= <- <-]. exists k. split; [done|]. by destruct (attempt >? 0).
  - unfold bind, sleep_before_retry. destruct (retry_delay base attempt); [|done]. cbn [modify].
    intros (j & Hj & Hn)%IH. exists (k + j). cbn in Hk. split; [destruct (is_ok r); lia|]. by eapply more_trans.
Qed.

Lemma send_request_more method params self response self' :
  send_request method params self = Some (Ok response, self') -> exists n, 2 <= n /\ more n self self'.
Proof.
  unfold send_request, bind, get. destruct (is_ready self); cbn [negb]; [|done].
  unfold send_request_with_timeout, bind, generate_request_id, get. unfold send_request_with_retries, bind, get.
  intros (n & Hn & Hm)%attempts_more. by exists n.
Qed.

(** A request that the streaming server answers with the upstream server's
    response runs through the interceptors at least four times, twice on the
    way out and twice on the way back: the client it is forwarded with holds
    the same manager.  So a rate limit counts it twice, and every count of
    processed messages is at least double. *)
Theorem requests_are_intercepted_twice header fresh body m r s1 req self a self' :
  JsonRpcMessage.from_value body = Ok m ->
  intercept_for (session_of header fresh) m Outgoing self = (Ok r, s1) ->
  InterceptionResult.block r = false -> InterceptionResult.message r = JsonRpcMessage.Request req ->
  HttpStreamServer.handle_mcp_request header fresh body self = Some (Ok a, self') ->
  exists n, 4 <= n /\ more n self self'.
Proof.
  intros Hv E Hb Hreq. unfold HttpStreamServer.handle_mcp_request. rewrite Hv, E, Hb, Hreq.
  apply intercept_for_more in E. cbn [forward].
  destruct (send_request _ _ s1) as [[[response|e] s2]|] eqn:Es; try done.
  apply send_request_more in Es as (n & Hn & Hm). unfold HttpStreamServer.intercept_response.
  destruct (intercept_for _ (JsonRpcMessage.Response response) Incoming s2) as [[r2|e] s3] eqn:Ei; [|done].
  apply intercept_for_more in Ei. intros [= <- <-]. exists (1 + n + 1). split; [lia|].
  eapply more_trans; [|exact Ei]. by eapply more_trans.
Qed.
End passes.

Module DemoServer.
Import ToyNumbers ToyText Client.Demo.

Definition upstream : McpClient.t :=
  match McpClient.connect info (client []) with Some (_, self) => self | None => client [] end.

Definition call : JsonRpcRequest.t := JsonRpcRequest.without_params (RequestId.Number 7) "tools/list".
Definition body : Value := JsonRpcMessage.to_value (JsonRpcMessage.Request call).

Definition answered_by (x : option (Res HttpAnswer.t Z * McpClient.t)) : bool :=
  match x with Some (Ok _, _) => true | _ => false end.
Definition answer_of (x : option (Res HttpAnswer.t Z * McpClient.t)) : HttpAnswer.t :=
  match x with Some (Ok a, _) => a | _ => HttpAnswer.mk 0 [] "" end.
Definition state_of (x : option (Res HttpAnswer.t Z * McpClient.t)) : McpClient.t :=
  match x with Some (_, s) => s | None => upstream end.

Lemma answered_shape x : answered_by x = true -> x = Some (Ok (answer_of x), state_of x).
Proof. by destruct x as [[[a|e] s]|]. Qed.

Definition answer : HttpAnswer.t := answer_of (HttpStreamServer.handle_mcp_request None "fresh" body upstream).
Definition after : McpClient.t := state_of (HttpStreamServer.handle_mcp_request None "fresh" body upstream).

Example request_is_answered : answered_by (HttpStreamServer.handle_mcp_request None "fresh" body upstream) = true.
Proof. vm_compute. reflexivity. Qed.

Lemma answered_eq : HttpStreamServer.handle_mcp_request None "fresh" body upstream = Some (Ok answer, after).
Proof. exact (answered_shape (HttpStreamServer.handle_mcp_request None "fresh" body upstream) request_is_answered). Qed.

Lemma answers_match req d w r w' :
  conn_send_request (TransportApi := demo_transport) req d w = (Ok r, w') -> JsonRpcResponse.id r = JsonRpcRequest.id req.
Proof. cbn. destruct (hd true w); [by intros [= <- _]|done]. Qed.

Lemma body_reads : JsonRpcMessage.from_value body = Ok (JsonRpcMessage.Request call).
Proof. reflexivity. Qed.

Lemma upstream_bare : bare upstream.
Proof. reflexivity. Qed.

(** The outgoing run *)
Definition passed : McpClient.t := (intercept_for (session_of None "fresh") (JsonRpcMessage.Request call) Outgoing upstream).2.

Lemma passed_eq :
  intercept_for (session_of None "fresh") (JsonRpcMessage.Request call) Outgoing upstream =
  (Ok (InterceptionResult.pass_through (JsonRpcMessage.Request call)), passed).
Proof. exact (intercept_for_bare (session_of None "fresh") (JsonRpcMessage.Request call) Outgoing upstream upstream_bare). Qed.
End DemoServer.

(** The call was number 7; the answer is [req_2], the handshake's was [req_1]. *)
Lemma answers_carry_the_proxys_identifier_witness :
  exists response,
    HttpAnswer.body DemoServer.answer = json_to_string (JsonRpcResponse.to_value response) /\
    JsonRpcResponse.id response =
      RequestId.String ("req_" +:+ pretty (McpClient.request_counter DemoServer.upstream)).
Proof.
  exact (answers_carry_the_proxys_identifier DemoServer.answers_match None "fresh" DemoServer.body DemoServer.call
           DemoServer.upstream DemoServer.answer DemoServer.after DemoServer.upstream_bare DemoServer.body_reads
           DemoServer.answered_eq).
Defined.

Lemma requests_are_intercepted_twice_witness :
  exists n, 4 <= n /\ more n DemoServer.upstream DemoServer.after.
Proof.
  exact (requests_are_intercepted_twice None "fresh" DemoServer.body (JsonRpcMessage.Request DemoServer.call)
           (InterceptionResult.pass_through (JsonRpcMessage.Request DemoServer.call)) DemoServer.passed
           DemoServer.call DemoServer.upstream DemoServer.answer DemoServer.after
           DemoServer.body_reads DemoServer.passed_eq eq_refl eq_refl DemoServer.answered_eq).
Defined.
