(* ===== verification/Backend.v ===== *)
(** The proxy's backends ([acdp-transport/src/backend_connection.rs]): a child
    process that is spoken to in lines, or an upstream server over HTTP, whose
    client keeps the responses.  With the retries and their pauses, which the
    connections of the HTTP handler and the restarts of the proxy also use. *)

From S2P Require Import Prelude McpError Messages Initialization Interceptor Text CoreTransport Client.

(** ** Retries with exponential backoff *)

Definition MAX_RETRIES : nat := 5.

(** [1u64 << (retry_count - 1).min(4)], the count from 1 up *)
Definition backoff_secs (retry_count : Z) : Z := Z.shiftl 1 (Z.min (retry_count - 1) 4).

Section retries.
Context {S A E : Type} (step : S -> option (Res A E * S)).

(** The loop, with [remaining] retries left after [retry_count]; the pauses in
    seconds come with the answer.  [None] when a step panics. *)
Fixpoint retry_loop (remaining : nat) (retry_count : Z) (s : S) : option (Res A E * S * list Z) :=
  match step s with
  | None => None
  | Some (Ok a, s) => Some (Ok a, s, [])
  | Some (Err e, s) =>
      match remaining with
      | O => Some (Err e, s, [])
      | Datatypes.S remaining =>
          match retry_loop remaining (retry_count + 1) s with
          | Some (r, s, pauses) => Some (r, s, backoff_secs (retry_count + 1) :: pauses)
          | None => None
          end
      end
  end.

Definition with_retries (s : S) : option (Res A E * S * list Z) := retry_loop MAX_RETRIES 0 s.

(** Steps that fail, one after another *)
Inductive failing : nat -> S -> S -> Prop :=
| failing_zero s : failing 0 s s
| failing_succ n s e s1 s2 : step s = Some (Err e, s1) -> failing n s1 s2 -> failing (Datatypes.S n) s s2.

Definition pauses_from (retry_count : Z) (n : nat) : list Z :=
  List.map (fun i => backoff_secs (retry_count + 1 + Z.of_nat i)) (seq 0 n).

Lemma pauses_from_cons retry_count n :
  pauses_from retry_count (Datatypes.S n) = backoff_secs (retry_count + 1) :: pauses_from (retry_count + 1) n.
Proof.
  unfold pauses_from. cbn [seq List.map]. f_equal; [f_equal; lia|].
  rewrite <- seq_shift, List.map_map. apply List.map_ext. intros i. f_equal. lia.
Qed.

(** The loop in full: it leaves after some failures, with the first success or
    with the last error when no retry is left. *)
Lemma retry_loop_spec remaining : forall retry_count s r s' pauses,
  retry_loop remaining retry_count s = Some (r, s', pauses) ->
  exists n s1, (n <= remaining)%nat /\ failing n s s1 /\ step s1 = Some (r, s') /\
    pauses = pauses_from retry_count n /\ (is_ok r = false -> n = remaining).
Proof.
  induction remaining as [|remaining IH]; intros retry_count s r s' pauses; cbn [retry_loop];
    destruct (step s) as [[[a|e] s1]|] eqn:Es; try done.
  1, 2, 3: intros [= <- <- <-]; exists 0%nat, s; split_and!; [lia|constructor|done|done|done].
  destruct (retry_loop remaining (retry_count + 1) s1) as [[[r1 s2] p]|] eqn:E1; [|done].
  intros [= <- <- <-]. destruct (IH _ _ _ _ _ E1) as (n & s3 & Hn & Hf & Hs & -> & Hr).
  exists (Datatypes.S n), s3. split_and!; [lia|by econstructor|done|by rewrite pauses_from_cons|].
  intros H. by rewrite (Hr H).
Qed.

(** An invariant of the steps holds wherever failures lead, and a loop whose
    steps answer under it answers. *)
Section invariant.
Context (I : S -> Prop) (keeps : forall s r s', I s -> step s = Some (r, s') -> I s').

Lemma failing_keeps n s s' : failing n s s' -> I s -> I s'.
Proof. induction 1; eauto. Qed.

Lemma retry_loop_total (total : forall s, I s -> is_Some (step s)) remaining : forall retry_count s,
  I s -> is_Some (retry_loop remaining retry_count s).
Proof.
  induction remaining as [|remaining IH]; intros retry_count s H; cbn [retry_loop];
    destruct (total s H) as [[[a|e] s1] Es]; rewrite Es; try done.
  by destruct (IH (retry_count + 1) s1 (keeps _ _ _ H Es)) as [[[r1 s2] p] ->].
Qed.
End invariant.

(** Whatever fails, the loop pauses 31 seconds at most. *)
Lemma with_retries_pauses s r s' pauses :
  with_retries s = Some (r, s', pauses) ->
  exists n, (n <= MAX_RETRIES)%nat /\ pauses = firstn n [1; 2; 4; 8; 16] /\ (is_ok r = false -> n = MAX_RETRIES).
Proof.
  intros (n & s1 & Hn & _ & _ & -> & Hr)%retry_loop_spec. exists n. split; [done|]. split; [|done].
  unfold MAX_RETRIES in Hn. by do 6 (destruct n as [|n]; [reflexivity|]); lia.
Qed.
End retries.

(** ** Connections *)

(** The text of the JSON parser's error *)
Class ParseErrors := { parse_error : string -> string }.

Module BackendConnectionInfo.
Inductive t : Type :=
| Process (pid : option Z)
| UpstreamHttpSse (url : string)
| UpstreamHttpStream (url : string).
End BackendConnectionInfo.

Module ProcessBackend.
Section process.
Context `{JT : JsonText, PE : ParseErrors}.

(** [stdin] is what was written to the process, [stdout] the outcomes of the
    reads of its output, a line each: the list ends where the output ends. *)
Record t : Type := mk { pid : option Z; stdin : string; stdout : list (Res string string) }.

(** [spawn]: [spawned] is the system's answer for [sh -c command], with what the
    child will print *)
Definition spawn (spawned : Res (option Z * list (Res string string)) string) : Res t string :=
  let? child := spawned in Ok (mk child.1 "" child.2).

(** [io] is the outcome of the two writes and the flush. *)
Definition send (io : Res unit string) (message : JsonRpcMessage.t) (self : t) : Res unit string * t :=
  match io with
  | Ok _ => (Ok tt, mk (pid self) (stdin self +:+ message_to_string message +:+ newline) (stdout self))
  | Err e => (Err e, self)
  end.

(** Blank lines are skipped. *)
Fixpoint next_message (reads : list (Res string string))
  : Res (option JsonRpcMessage.t) string * list (Res string string) :=
  match reads with
  | [] => (Ok None, [])
  | Err e :: reads => (Err e, reads)
  | Ok line :: reads =>
      let trimmed := trim line in
      if str_is_empty trimmed then next_message reads
      else match message_from_str trimmed with
           | Some message => (Ok (Some message), reads)
           | None => (Err (parse_error trimmed), reads)
           end
  end.

Definition recv (self : t) : Res (option JsonRpcMessage.t) string * t :=
  let '(r, reads) := next_message (stdout self) in (r, mk (pid self) (stdin self) reads).
End process.
End ProcessBackend.

(** [with_defaults]: [created] is what the transport's factory gives. *)
Definition with_defaults `{TA : TransportApi} (created : McpResult Conn) : McpResult McpClient.t :=
  match created with
  | Ok transport => Ok (McpClient.new transport ClientConfig.default)
  | Err e => Err e
  end.

Definition proxy_impl `{JN : JsonNumbers} : Implementation.t := Implementation.new "mcp-proxy" "0.2.0".

Module Upstream.
Section upstream.
Context `{TA : TransportApi} {UA : UrlApi}.

Record t : Type := mk { client : McpClient.t; url : string }.

(** The outcomes of the attempts to create the transport, in order *)
Definition create_step {A} (make : McpResult Conn -> McpResult A) (outcomes : list (McpResult Conn))
  : option (McpResult A * list (McpResult Conn)) :=
  match outcomes with
  | [] => None
  | outcome :: outcomes => Some (make outcome, outcomes)
  end.

Definition after_retries (e : McpError) : string :=
  "Failed to connect to upstream server after " +:+ pretty (Z.of_nat MAX_RETRIES) +:+ " retries: " +:+ error_text e.

(** Creation and connection, each with its retries; the client stays the same
    from one attempt to connect to the next.  [after] is the text of giving up,
    [prepare] what is done with the client before it connects. *)
Definition connect_with_retries (after : McpError -> string) (outcomes : list (McpResult Conn)) (prepare : McpClient.t -> McpClient.t)
  : option (Res McpClient.t string * list Z) :=
  match with_retries (create_step with_defaults) outcomes with
  | None => None
  | Some (Err e, _, pauses) => Some (Err (after e), pauses)
  | Some (Ok client, _, pauses) =>
      match with_retries (McpClient.connect proxy_impl) (prepare client) with
      | None => None
      | Some (Err e, _, more) => Some (Err (after e), pauses ++ more)
      | Some (Ok _, client, more) => Some (Ok client, pauses ++ more)
      end
  end.

(** [UpstreamHttpSseConnection::new]; [None] also when the outcomes run out *)
Definition new_sse (url : string) (outcomes : list (McpResult Conn)) : option (Res t string) :=
  match TransportConfig.http_sse url with
  | Err e => Some (Err (error_text e))
  | Ok _ =>
      match connect_with_retries after_retries outcomes id with
      | None => None
      | Some (Err e, _) => Some (Err e)
      | Some (Ok client, _) => Some (Ok (mk client url))
      end
  end.

(** [UpstreamHttpStreamConnection::new], which does not retry *)
Definition new_stream (url : string) (outcomes : list (McpResult Conn)) : option (Res t string) :=
  match TransportConfig.http_stream url with
  | Err e => Some (Err (error_text e))
  | Ok _ =>
      match create_step with_defaults outcomes with
      | None => None
      | Some (Err e, _) => Some (Err (error_text e))
      | Some (Ok client, _) =>
          match McpClient.connect proxy_impl client with
          | None => None
          | Some (Err e, _) => Some (Err (error_text e))
          | Some (Ok _, client) => Some (Ok (mk client url))
          end
      end
  end.

(** A missing [params] becomes [null]; the response is dropped. *)
Definition send (message : JsonRpcMessage.t) (self : t) : option (Res unit string * t) :=
  let done_ {A} (out : option (McpResult A * McpClient.t)) :=
    match out with
    | None => None
    | Some (Err e, client) => Some (Err (error_text e), mk client (url self))
    | Some (Ok _, client) => Some (Ok tt, mk client (url self))
    end in
  let or_null (params : option Value) := from_option id VNull params in
  match message with
  | JsonRpcMessage.Request req =>
      done_ (McpClient.send_request (JsonRpcRequest.method req) (or_null (JsonRpcRequest.params req)) (client self))
  | JsonRpcMessage.Notification notif =>
      done_ (McpClient.send_notification (JsonRpcNotification.method notif)
               (or_null (JsonRpcNotification.params notif)) (client self))
  | JsonRpcMessage.Response _ => Some (Err "Cannot send response as request to upstream"%string, self)
  end.
End upstream.
Arguments t : clear implicits.
Arguments t {JN TA}.
End Upstream.

Module Backend.
Section backend.
Context `{JT : JsonText, PE : ParseErrors} {TA : TransportApi} {UA : UrlApi}.

(** [Box<dyn BackendConnection>] *)
Inductive t : Type :=
| Process (p : ProcessBackend.t)
| HttpSse (u : Upstream.t)
| HttpStream (u : Upstream.t).

Definition send (io : Res unit string) (message : JsonRpcMessage.t) (self : t) : option (Res unit string * t) :=
  match self with
  | Process p => let '(r, p) := ProcessBackend.send io message p in Some (r, Process p)
  | HttpSse u => match Upstream.send message u with Some (r, u) => Some (r, HttpSse u) | None => None end
  | HttpStream u => match Upstream.send message u with Some (r, u) => Some (r, HttpStream u) | None => None end
  end.

Definition sse_not_implemented : string :=
  "HTTP-SSE receive not implemented in this context - use client's response handling".
Definition stream_not_implemented : string :=
  "HTTP-Stream receive not implemented in this context - use client's response handling".

Definition recv (self : t) : Res (option JsonRpcMessage.t) string * t :=
  match self with
  | Process p => let '(r, p) := ProcessBackend.recv p in (r, Process p)
  | HttpSse _ => (Err sse_not_implemented, self)
  | HttpStream _ => (Err stream_not_implemented, self)
  end.

Definition health_check (self : t) : Res bool string := Ok true.

Definition connection_info (self : t) : BackendConnectionInfo.t :=
  match self with
  | Process p => BackendConnectionInfo.Process (ProcessBackend.pid p)
  | HttpSse u => BackendConnectionInfo.UpstreamHttpSse (Upstream.url u)
  | HttpStream u => BackendConnectionInfo.UpstreamHttpStream (Upstream.url u)
  end.

(** [flushed] is the outcome of flushing the child's input; a failing kill is
    only logged. *)
Definition close (flushed : Res unit string) (self : t) : Res unit string :=
  match self with Process _ => flushed | _ => Ok tt end.

Definition detect_transport_from_url (url : string) : option string :=
  if str_contains "/stream" url || str_contains "/message" url then Some "http-stream"%string
  else if starts_with "http://" url || starts_with "https://" url then Some "http-sse"%string
  else None.

(** What the system gives to [create_backend_connection] *)
Record Given : Type := MkGiven {
  spawned : Res (option Z * list (Res string string)) string;
  created : list (McpResult Conn)
}.

Definition create_backend_connection (given : Given) (backend_url backend_command backend_transport : option string)
  : option (Res t string) :=
  match backend_url with
  | Some url =>
      let transport :=
        match backend_transport with
        | Some transport => transport
        | None => from_option id "http-sse"%string (detect_transport_from_url url)
        end in
      if String.eqb transport "http-sse" then
        match Upstream.new_sse url (created given) with
        | Some (Ok u) => Some (Ok (HttpSse u))
        | Some (Err e) => Some (Err e)
        | None => None
        end
      else if String.eqb transport "http-stream" then
        match Upstream.new_stream url (created given) with
        | Some (Ok u) => Some (Ok (HttpStream u))
        | Some (Err e) => Some (Err e)
        | None => None
        end
      else Some (Err ("Unsupported transport: " +:+ transport))
  | None =>
      match backend_command with
      | Some cmd =>
          if str_is_empty cmd then Some (Err "backend_command is empty and backend_url not set"%string)
          else Some (match ProcessBackend.spawn (spawned given) with Ok p => Ok (Process p) | Err e => Err e end)
      | None => Some (Err "Either backend_url or backend_command must be set"%string)
      end
  end.
End backend.
Arguments t : clear implicits.
Arguments t {JN TA}.
Arguments Given : clear implicits.
Arguments Given {JN TA}.
End Backend.

(** ** Connecting to an upstream server *)

Section connecting.
Context `{TA : TransportApi}.
Import Upstream.

Lemma sane_default : McpClient.sane ClientConfig.default.
Proof. by vm_compute. Qed.

Lemma creation_total outcomes : forall remaining retry_count,
  (remaining < length outcomes)%nat ->
  is_Some (retry_loop (create_step with_defaults) remaining retry_count outcomes).
Proof.
  induction outcomes as [|outcome outcomes IH]; intros remaining retry_count H; [cbn in H; lia|].
  destruct remaining as [|remaining]; cbn [retry_loop create_step]; destruct (with_defaults outcome); try done.
  cbn in H. destruct (IH remaining (retry_count + 1)) as [[[r s] p] ->]; [lia|done].
Qed.

Lemma created_is_default outcomes client outcomes' pauses :
  with_retries (create_step with_defaults) outcomes = Some (Ok client, outcomes', pauses) ->
  McpClient.config client = ClientConfig.default.
Proof.
  intros (n & s1 & _ & _ & H & _)%retry_loop_spec.
  destruct s1 as [|[w|e] s1]; [done| |done]. by injection H as <- _.
Qed.

Lemma connect_sane info self r self' :
  McpClient.sane (McpClient.config self) -> McpClient.connect info self = Some (r, self') ->
  McpClient.sane (McpClient.config self') /\
  match r with
  | Ok i => McpClient.is_ready self' = true /\ McpClient.server_info self' = Some i
  | Err _ => True
  end.
Proof.
  intros Hs H. destruct (McpClient.connect_spec info self Hs) as (r1 & s1 & calls & H1 & Hc & _ & Hr).
  rewrite H in H1. injection H1 as <- <-. rewrite Hc. split; [done|].
  destruct r as [i|e]; [|done]. destruct Hr as (Hst & Hi & _). split; [by apply bool_decide_eq_true|done].
Qed.

Lemma connect_answers info self :
  McpClient.sane (McpClient.config self) -> is_Some (McpClient.connect info self).
Proof. intros (r & s' & c & -> & _)%(McpClient.connect_spec info). done. Qed.

Definition total_pause (pauses : list Z) : Z := foldr Z.add 0 pauses.

Lemma total_pause_app p q : total_pause (p ++ q) = total_pause p + total_pause q.
Proof. unfold total_pause. induction p as [|x p IH]; [done|]. cbn. rewrite IH. lia. Qed.

Lemma retries_pause {S A E} (step : S -> option (Res A E * S)) s r s' pauses :
  with_retries step s = Some (r, s', pauses) ->
  0 <= total_pause pauses <= 31 /\ (is_ok r = false -> total_pause pauses = 31).
Proof.
  intros (n & Hn & -> & Hr)%with_retries_pauses. unfold MAX_RETRIES in *. split.
  - by do 6 (destruct n as [|n]; [vm_compute; split; discriminate|]).
  - intros H. by rewrite (Hr H).
Qed.

(** Connecting to an upstream server ends: whatever fails, the attempts to
    create the transport and those to connect pause 62 seconds at most in all,
    and it fails only after a full series of retries, 31 seconds.  A client
    that comes out is ready and knows its server, although every attempt to
    connect was made with the one client, from where the last attempt left it. *)
Theorem connections_are_bounded (after : McpError -> string) (outcomes : list (McpResult Conn)) (prepare : McpClient.t -> McpClient.t) :
  (MAX_RETRIES < length outcomes)%nat ->
  (forall c, McpClient.config (prepare c) = McpClient.config c) ->
  exists r pauses, connect_with_retries after outcomes prepare = Some (r, pauses) /\
    total_pause pauses <= 62 /\
    match r with
    | Ok client => McpClient.is_ready client = true /\ is_Some (McpClient.server_info client)
    | Err _ => 31 <= total_pause pauses
    end.
Proof.
  intros Hl Hp. destruct (creation_total outcomes MAX_RETRIES 0 Hl) as [[[r s] p] E]. change (with_retries (create_step with_defaults) outcomes = Some (r, s, p)) in E.
  unfold connect_with_retries. rewrite E. destruct (retries_pause _ _ _ _ _ E) as [Hs Hf].
  destruct r as [client|e]; [|eexists _, _; split; [done|]; split; [lia|]; by rewrite Hf].
  apply created_is_default in E.
  assert (Hc : McpClient.sane (McpClient.config (prepare client))) by (rewrite Hp, E; exact sane_default).
  destruct (retry_loop_total (McpClient.connect proxy_impl) (fun c => McpClient.sane (McpClient.config c))
    (fun c r c' H H' => proj1 (connect_sane _ _ _ _ H H')) (connect_answers proxy_impl)
    MAX_RETRIES 0 _ Hc) as [[[r s'] q] E']. change (with_retries (McpClient.connect proxy_impl) (prepare client) = Some (r, s', q)) in E'.
  rewrite E'. destruct (retries_pause _ _ _ _ _ E') as [Hs' Hf'].
  destruct r as [i|e]; (eexists _, _; split; [done|]); rewrite total_pause_app; (split; [lia|]).
  - apply retry_loop_spec in E' as (n & c & _ & Hfail & Hlast & _).
    apply (failing_keeps _ _ (fun c r c' H H' => proj1 (connect_sane _ _ _ _ H H')) _ _ _ Hfail) in Hc.
    destruct (connect_sane _ _ _ _ Hc Hlast) as (_ & -> & ->). eauto.
  - rewrite Hf' by done. lia.
Qed.
End connecting.

Module DemoUpstream.
Import ToyNumbers Client.Demo.
(** The transport is created at the second attempt, and the server refuses the
    first handshake. *)
Definition outcomes : list (McpResult Conn) :=
  [Err (Transport (SendFailed "http-sse" "refused")); Ok [false; false; false; false; true];
   Ok []; Ok []; Ok []; Ok []].
End DemoUpstream.

Lemma connections_are_bounded_witness :
  exists r pauses, Upstream.connect_with_retries Upstream.after_retries DemoUpstream.outcomes id = Some (r, pauses) /\ total_pause pauses <= 62.
Proof.
  destruct (connections_are_bounded Upstream.after_retries DemoUpstream.outcomes id (le_n 6) (fun _ => eq_refl)) as (r & pauses & H & Hp & _).
  exists r, pauses. split; [exact H|exact Hp].
Defined.
