(* ===== verification/AppState.v ===== *)
(** The shared state of the gateway server ([acdp-tui/src/acdp_server.rs]): its
    clients, its counters, its health, and the listener that admits clients.
    Instants and durations are nanoseconds; counters are [u64]. *)

From Stdlib Require Import Floats.SpecFloat.
From stdpp Require Import relations fin_maps.
From S2P Require Import Prelude Text.

Module ClientConnection.
Record t : Type := mk {
  id : string;
  connected_at : Z;
  total_requests : Z;
  total_responses : Z;
  last_request_at : option Z;
  last_response_at : option Z;
  bytes_sent : Z;
  bytes_received : Z
}.

Definition new (now : Z) (id : string) : t := mk id now 0 0 None None 0 0.

(** [elapsed] of an instant *)
Definition since (now instant : Z) : Z := saturating_sub now instant.

Definition duration (now : Z) (self : t) : Z := since now (connected_at self).

Definition is_healthy (now timeout_secs : Z) (self : t) : bool :=
  let timeout := timeout_secs * 1000000000 in
  match (match last_request_at self with Some i => Some i | None => last_response_at self end) with
  | Some last_activity => since now last_activity <? timeout
  | None => since now (connected_at self) <? timeout
  end.

Definition count_request (now bytes : Z) (self : t) : t :=
  mk (id self) (connected_at self) (wrap_u64 (total_requests self + 1)) (total_responses self) (Some now)
     (last_response_at self) (wrap_u64 (bytes_sent self + bytes)) (bytes_received self).

(** A request over HTTP, whose bytes are not counted *)
Definition count_http_request (now : Z) (self : t) : t :=
  mk (id self) (connected_at self) (wrap_u64 (total_requests self + 1)) (total_responses self) (Some now)
     (last_response_at self) (bytes_sent self) (bytes_received self).

Definition count_response (now bytes : Z) (self : t) : t :=
  mk (id self) (connected_at self) (total_requests self) (wrap_u64 (total_responses self + 1))
     (last_request_at self) (Some now) (bytes_sent self) (wrap_u64 (bytes_received self + bytes)).
End ClientConnection.

Module ServerHealth.
Inductive t : Type := Healthy | Degraded | Unhealthy.

#[global] Instance t_eq_dec : EqDecision t.
Proof. solve_decision. Defined.
End ServerHealth.

Module ServerMetrics.
Record t : Type := mk {
  total_connections : Z;
  active_connections : nat;
  total_requests : Z;
  total_responses : Z;
  total_errors : Z;
  requests_per_second : f64;
  average_latency_ms : f64;
  bytes_sent : Z;
  bytes_received : Z;
  uptime_seconds : Z;
  peak_rps : f64;
  ema_latency_ms : f64;
  total_messages : Z
}.

Definition default : t := mk 0 0 0 0 0 f64_zero f64_zero 0 0 0 f64_zero f64_zero 0.

Definition connected (active : nat) (m : t) : t :=
  mk (wrap_u64 (total_connections m + 1)) active (total_requests m) (total_responses m) (total_errors m)
     (requests_per_second m) (average_latency_ms m) (bytes_sent m) (bytes_received m) (uptime_seconds m)
     (peak_rps m) (ema_latency_ms m) (total_messages m).

Definition disconnected (active : nat) (c : ClientConnection.t) (m : t) : t :=
  mk (total_connections m) active (total_requests m) (total_responses m) (total_errors m)
     (requests_per_second m) (average_latency_ms m)
     (wrap_u64 (bytes_sent m + ClientConnection.bytes_sent c))
     (wrap_u64 (bytes_received m + ClientConnection.bytes_received c)) (uptime_seconds m)
     (peak_rps m) (ema_latency_ms m) (total_messages m).

Definition count_request (bytes : Z) (m : t) : t :=
  mk (total_connections m) (active_connections m) (wrap_u64 (total_requests m + 1)) (total_responses m)
     (total_errors m) (requests_per_second m) (average_latency_ms m) (wrap_u64 (bytes_sent m + bytes))
     (bytes_received m) (uptime_seconds m) (peak_rps m) (ema_latency_ms m) (total_messages m).

Definition count_http_request (m : t) : t :=
  mk (total_connections m) (active_connections m) (wrap_u64 (total_requests m + 1)) (total_responses m)
     (total_errors m) (requests_per_second m) (average_latency_ms m) (bytes_sent m) (bytes_received m)
     (uptime_seconds m) (peak_rps m) (ema_latency_ms m) (total_messages m).

Definition count_response (bytes : Z) (m : t) : t :=
  mk (total_connections m) (active_connections m) (total_requests m) (wrap_u64 (total_responses m + 1))
     (total_errors m) (requests_per_second m) (average_latency_ms m) (bytes_sent m)
     (wrap_u64 (bytes_received m + bytes)) (uptime_seconds m) (peak_rps m) (ema_latency_ms m) (total_messages m).

Definition count_error (m : t) : t :=
  mk (total_connections m) (active_connections m) (total_requests m) (total_responses m)
     (wrap_u64 (total_errors m + 1)) (requests_per_second m) (average_latency_ms m) (bytes_sent m)
     (bytes_received m) (uptime_seconds m) (peak_rps m) (ema_latency_ms m) (total_messages m).
End ServerMetrics.

Module ClientUpdate.
Inductive t : Type :=
| ClientConnected (id : string) (addr : string)
| ClientDisconnected (id : string)
| RequestSent (id : string) (bytes : Z)
| ResponseReceived (id : string) (bytes : Z)
| BackendError (id : string) (error : string)
| BackendRestart (id : string) (attempt : Z)
| MetricsUpdate (metrics : ServerMetrics.t).
End ClientUpdate.

Module AppState.
Import ServerMetrics.

(** [update_tx] says whether the UI listens; the language model's service is
    in the managers made of it. *)
Record t : Type := mk {
  clients : gmap string ClientConnection.t;
  update_tx : bool;
  backend_command : string;
  backend_url : option string;
  backend_transport : option string;
  max_clients : nat;
  connection_timeout_secs : Z;
  auto_restart_backend : bool;
  metrics : ServerMetrics.t;
  started_at : Z;
  last_metrics_update : Z;
  last_request_count : Z
}.

Definition default (now : Z) : t := mk ∅ false "" None None 100 300 false ServerMetrics.default now now 0.

Definition set (clients : gmap string ClientConnection.t) (metrics : ServerMetrics.t) (self : t) : t :=
  mk clients (update_tx self) (backend_command self) (backend_url self) (backend_transport self)
     (max_clients self) (connection_timeout_secs self) (auto_restart_backend self) metrics
     (started_at self) (last_metrics_update self) (last_request_count self).

(** What the UI is told *)
Definition notify (self : t) (u : ClientUpdate.t) : list ClientUpdate.t := if update_tx self then [u] else [].

(** *** Health *)

Definition ALPHA : f64 := f64_ratio 3 10.

Definition error_rate (m : ServerMetrics.t) : f64 :=
  if total_requests m >? 0 then f64_div (f64_of_Z (total_errors m)) (f64_of_Z (total_requests m)) else f64_zero.

(** The verdict for a number of clients *)
Definition verdict (self : t) (n : nat) : ServerHealth.t :=
  let rate := error_rate (metrics self) in
  if SFltb (f64_ratio 1 2) rate || (max_clients self <=? n)%nat then ServerHealth.Unhealthy
  else if SFltb (f64_ratio 1 10) rate ||
          SFltb (f64_mul (f64_of_Z (Z.of_nat (max_clients self))) (f64_ratio 8 10)) (f64_of_Z (Z.of_nat n))
  then ServerHealth.Degraded
  else ServerHealth.Healthy.

Definition health (self : t) : ServerHealth.t := verdict self (size (clients self)).

(** The rate and its peak after some requests in [elapsed] nanoseconds *)
Definition new_rate (m : ServerMetrics.t) (requests elapsed : Z) : f64 :=
  f64_add (f64_mul ALPHA (f64_div (f64_of_Z requests) (as_secs_f64 elapsed)))
    (f64_mul (f64_sub (f64_of_Z 1) ALPHA) (requests_per_second m)).

Definition update_metrics (now : Z) (self : t) : ServerHealth.t * t :=
  let m := metrics self in
  let m := ServerMetrics.mk (total_connections m) (size (clients self)) (total_requests m) (total_responses m)
    (total_errors m) (requests_per_second m) (average_latency_ms m) (bytes_sent m) (bytes_received m)
    (saturating_sub now (started_at self) / 1000000000) (peak_rps m) (ema_latency_ms m)
    (wrap_u64 (total_requests m + total_responses m)) in
  let elapsed := saturating_sub now (last_metrics_update self) in
  let self :=
    if SFltb f64_zero (as_secs_f64 elapsed) then
      let rate := new_rate m (saturating_sub (total_requests m) (last_request_count self)) elapsed in
      let peak := if SFltb (peak_rps m) rate then rate else peak_rps m in
      let m := ServerMetrics.mk (total_connections m) (active_connections m) (total_requests m) (total_responses m)
        (total_errors m) rate (average_latency_ms m) (bytes_sent m) (bytes_received m)
        (uptime_seconds m) peak (ema_latency_ms m) (total_messages m) in
      mk (clients self) (update_tx self) (backend_command self) (backend_url self) (backend_transport self)
        (max_clients self) (connection_timeout_secs self) (auto_restart_backend self) m
        (started_at self) now (total_requests m)
    else set (clients self) m self in
  (verdict self (active_connections (metrics self)), self).

(** The task of the listener, every second *)
Definition metrics_tick (now : Z) (self : t) : list ClientUpdate.t * t :=
  let '(_, self) := update_metrics now self in
  (notify self (ClientUpdate.MetricsUpdate (metrics self)), self).

(** *** Clients *)

Definition register (now : Z) (id addr : string) (self : t) : list ClientUpdate.t * t :=
  let clients := <[id := ClientConnection.new now id]> (clients self) in
  (notify self (ClientUpdate.ClientConnected id addr), set clients (connected (size clients) (metrics self)) self).

Definition disconnect (id : string) (self : t) : list ClientUpdate.t * t :=
  (notify self (ClientUpdate.ClientDisconnected id),
   match clients self !! id with
   | Some conn =>
       let clients := delete id (clients self) in
       set clients (disconnected (size clients) conn (metrics self)) self
   | None => self
   end).

Definition count_request (now : Z) (id : string) (bytes : Z) (self : t) : list ClientUpdate.t * t :=
  (notify self (ClientUpdate.RequestSent id bytes),
   set (alter (ClientConnection.count_request now bytes) id (clients self))
     (ServerMetrics.count_request bytes (metrics self)) self).

Definition count_http_request (now : Z) (id : string) (self : t) : list ClientUpdate.t * t :=
  (notify self (ClientUpdate.RequestSent id 0),
   set (alter (ClientConnection.count_http_request now) id (clients self))
     (ServerMetrics.count_http_request (metrics self)) self).

Definition count_response (now : Z) (id : string) (bytes : Z) (self : t) : list ClientUpdate.t * t :=
  (notify self (ClientUpdate.ResponseReceived id bytes),
   set (alter (ClientConnection.count_response now bytes) id (clients self))
     (ServerMetrics.count_response bytes (metrics self)) self).

Definition backend_error (id error : string) (self : t) : list ClientUpdate.t * t :=
  (notify self (ClientUpdate.BackendError id error), set (clients self) (ServerMetrics.count_error (metrics self)) self).

(** *** The listener *)

(** A connection arrives: the number of clients is read, and the limit, each
    under a lock of its own. *)
Definition at_limit (current_clients : nat) (self : t) : bool := (max_clients self <=? current_clients)%nat.
End AppState.

(** ** Sums over the clients *)

Definition sum_clients (f : ClientConnection.t -> Z) (m : gmap string ClientConnection.t) : Z :=
  map_fold (fun _ c acc => f c + acc) 0 m.

Lemma sum_insert f id c m : m !! id = None -> sum_clients f (<[id := c]> m) = f c + sum_clients f m.
Proof. intros H. unfold sum_clients. rewrite map_fold_insert_L; [done| |done]. intros; lia. Qed.

Lemma sum_delete f id c m : m !! id = Some c -> sum_clients f m = f c + sum_clients f (delete id m).
Proof.
  intros H. rewrite <- (insert_delete_id m id c H) at 1. apply sum_insert. apply lookup_delete_eq.
Qed.

Lemma sum_alter f g id c m :
  m !! id = Some c -> sum_clients f (alter g id m) = sum_clients f m - f c + f (g c).
Proof.
  intros H. rewrite (sum_delete f id c m H).
  rewrite (sum_delete f id (g c) (alter g id m)) by (by rewrite lookup_alter_eq, H).
  rewrite delete_alter_eq. lia.
Qed.

Definition sum_list (f : ClientConnection.t -> Z) (l : list ClientConnection.t) : Z :=
  foldr (fun c acc => f c + acc) 0 l.

Lemma sum_list_app f l l' : sum_list f (l ++ l') = sum_list f l + sum_list f l'.
Proof. unfold sum_list. induction l as [|c l IH]; [done|]. cbn. rewrite IH. lia. Qed.

(** ** What both servers do to the state *)

Module Table.
Import AppState.

(** The operations, each with the connections that depart in it *)
Inductive op : list ClientConnection.t -> t -> t -> Prop :=
| op_register now id addr self :
    clients self !! id = None -> op [] self (register now id addr self).2
| op_request now id bytes self :
    is_Some (clients self !! id) -> op [] self (count_request now id bytes self).2
| op_http_request now id self :
    is_Some (clients self !! id) -> op [] self (count_http_request now id self).2
| op_response now id bytes self :
    is_Some (clients self !! id) -> op [] self (count_response now id bytes self).2
| op_error id error self : op [] self (backend_error id error self).2
| op_tick now self : op [] self (metrics_tick now self).2
| op_depart id conn self : clients self !! id = Some conn -> op [conn] self (disconnect id self).2.

Inductive run : list ClientConnection.t -> t -> t -> Prop :=
| run_nil self : run [] self self
| run_snoc departed more self self' self'' :
    run departed self self' -> op more self' self'' -> run (departed ++ more) self self''.

Lemma table_run_app departed more a b c : run departed a b -> run more b c -> run (departed ++ more) a c.
Proof.
  intros H1 H2. revert H1. induction H2 as [|more more' b c d _ IH Hop]; intros H1; [by rewrite app_nil_r|].
  rewrite app_assoc. eapply run_snoc; [by apply IH|done].
Qed.

Lemma tick_clients now self :
  clients (metrics_tick now self).2 = clients self /\ max_clients (metrics_tick now self).2 = max_clients self.
Proof. unfold metrics_tick, update_metrics. by destruct (SFltb _ _). Qed.

(** A counter of the server, against the clients' own: what departed clients
    counted is in it [k] times. *)
Definition tallies (k : Z) (total : ServerMetrics.t -> Z) (own : ClientConnection.t -> Z)
    (departed : list ClientConnection.t) (self : t) : Prop :=
  total (metrics self) = wrap_u64 (sum_clients own (clients self) + k * sum_list own departed).

(** Equations on [u64], as equations on integers *)
Lemma wrap_shift z : exists q, wrap_u64 z = z + q * 2 ^ 64.
Proof. exists (- (z / 2 ^ 64)). unfold wrap_u64. rewrite Z.mod_eq by done. ring. Qed.

Lemma wrap_same a b q : a = b + q * 2 ^ 64 -> wrap_u64 a = wrap_u64 b.
Proof. intros ->. apply Z_mod_plus_full. Qed.

(** A counter goes up by [d], on [u64]. *)
Definition moves {A} (f : A -> Z) (d : Z) (a a' : A) : Prop := f a' = wrap_u64 (f a + d) \/ (f a' = f a /\ d = 0).

Lemma moves_none {A} (f : A -> Z) a a' : f a' = f a -> moves f 0 a a'.
Proof. by right. Qed.

(** What a counter and the clients' own are to agree: they move alike, and the
    departure of a client moves the counter by [k - 1] times its own. *)
Class Counter (k : Z) (total : ServerMetrics.t -> Z) (own : ClientConnection.t -> Z) : Prop := {
  counter_new now id : own (ClientConnection.new now id) = 0;
  counter_connected n m : total (ServerMetrics.connected n m) = total m;
  counter_error m : total (ServerMetrics.count_error m) = total m;
  counter_tick now self : total (metrics (metrics_tick now self).2) = total (metrics self);
  counter_departed n c m : moves total ((k - 1) * own c) m (ServerMetrics.disconnected n c m);
  counter_request now bytes m c : exists d,
    moves total d m (ServerMetrics.count_request bytes m) /\ moves own d c (ClientConnection.count_request now bytes c);
  counter_http_request now m c : exists d,
    moves total d m (ServerMetrics.count_http_request m) /\ moves own d c (ClientConnection.count_http_request now c);
  counter_response now bytes m c : exists d,
    moves total d m (ServerMetrics.count_response bytes m) /\ moves own d c (ClientConnection.count_response now bytes c)
}.

(** A counter of requests or responses, or of bytes *)
Ltac counter :=
  split; intros;
  try match goal with
  | |- exists d, moves _ d _ _ /\ moves _ d _ _ =>
      first [eexists; split; [by left|by left] | exists 0; split; by right]
  | |- moves _ ((1 - 1) * _) _ _ => by right; split; [|lia]
  | |- moves _ ((2 - 1) * ?x) _ _ => left; cbn; f_equal; lia
  | |- context [metrics_tick] => unfold metrics_tick, update_metrics; by destruct (SFltb _ _)
  end; try done.

#[export] Instance requests_counted : Counter 1 ServerMetrics.total_requests ClientConnection.total_requests.
Proof. counter. Qed.
#[export] Instance responses_counted : Counter 1 ServerMetrics.total_responses ClientConnection.total_responses.
Proof. counter. Qed.
#[export] Instance bytes_sent_counted : Counter 2 ServerMetrics.bytes_sent ClientConnection.bytes_sent.
Proof. counter. Qed.
#[export] Instance bytes_received_counted : Counter 2 ServerMetrics.bytes_received ClientConnection.bytes_received.
Proof. counter. Qed.

Lemma tally_step k total own departed more self self' d :
  tallies k total own departed self -> moves total d (metrics self) (metrics self') ->
  (exists q, sum_clients own (clients self') + k * sum_list own more =
             sum_clients own (clients self) + d + q * 2 ^ 64) ->
  tallies k total own (departed ++ more) self'.
Proof.
  unfold tallies. intros H Hd [q Hq]. rewrite sum_list_app.
  destruct Hd as [->|[-> ->]]; rewrite H; [|apply (wrap_same _ _ (- q)); lia].
  destruct (wrap_shift (sum_clients own (clients self) + k * sum_list own departed)) as [p ->].
  apply (wrap_same _ _ (p - q)). lia.
Qed.

(** A client that counts [d] more *)
Lemma sum_counted own g id c m d :
  m !! id = Some c -> moves own d c (g c) ->
  exists q, sum_clients own (alter g id m) + 0 = sum_clients own m + d + q * 2 ^ 64.
Proof.
  intros H Hg. rewrite (sum_alter _ _ _ _ _ H). destruct Hg as [->|[-> ->]]; [|by exists 0; lia].
  destruct (wrap_shift (own c + d)) as [q ->]. exists q. lia.
Qed.

Lemma op_tallies {k total own} `{C : !Counter k total own} departed more self self' :
  tallies k total own departed self -> op more self self' -> tallies k total own (departed ++ more) self'.
Proof.
  intros Ht Hop. destruct Hop as [now id addr self H|now id bytes self [c H]|now id self [c H]
    |now id bytes self [c H]|id error self|now self|id conn self H].
  - eapply (tally_step _ _ _ _ _ _ _ 0 Ht); [apply moves_none, counter_connected|].
    exists 0. cbn. rewrite sum_insert, counter_new by done. lia.
  - destruct (counter_request now bytes (metrics self) c) as (d & Hm & Hc).
    eapply (tally_step _ _ _ _ _ _ _ d Ht); [done|]. cbn. rewrite Z.mul_0_r. by eapply sum_counted.
  - destruct (counter_http_request now (metrics self) c) as (d & Hm & Hc).
    eapply (tally_step _ _ _ _ _ _ _ d Ht); [done|]. cbn. rewrite Z.mul_0_r. by eapply sum_counted.
  - destruct (counter_response now bytes (metrics self) c) as (d & Hm & Hc).
    eapply (tally_step _ _ _ _ _ _ _ d Ht); [done|]. cbn. rewrite Z.mul_0_r. by eapply sum_counted.
  - eapply (tally_step _ _ _ _ _ _ _ 0 Ht); [apply moves_none, counter_error|]. exists 0. cbn. lia.
  - eapply (tally_step _ _ _ _ _ _ _ 0 Ht); [apply moves_none, counter_tick|]. exists 0.
    unfold metrics_tick, update_metrics. destruct (SFltb _ _); cbn; lia.
  - unfold disconnect. rewrite H. eapply (tally_step _ _ _ _ _ _ _ _ Ht); [apply counter_departed|].
    exists 0. cbn. rewrite (sum_delete own id conn (clients self) H). lia.
Qed.

Lemma run_tallies {k total own} `{C : !Counter k total own} departed self self' :
  run departed self self' -> clients self = ∅ -> total (metrics self) = 0 ->
  tallies k total own departed self'.
Proof.
  induction 1 as [self|departed more self self' self'' _ IH Hop]; intros Hc Hz.
  - unfold tallies, sum_clients. rewrite Hc, Hz, map_fold_empty. cbn. by rewrite Z.mul_0_r.
  - eapply op_tallies; [by apply IH|done].
Qed.

(** Through any run of either server from a fresh start, the counted
    requests and responses are those the clients count, the departed ones
    included; but the bytes a departed client sent and received are in the
    server's totals twice, once with each message and once more when the
    client's own totals are added at its departure. *)
Theorem departed_bytes_count_twice departed self self' :
  run departed self self' -> clients self = ∅ -> metrics self = ServerMetrics.default ->
  tallies 1 ServerMetrics.total_requests ClientConnection.total_requests departed self' /\
  tallies 1 ServerMetrics.total_responses ClientConnection.total_responses departed self' /\
  tallies 2 ServerMetrics.bytes_sent ClientConnection.bytes_sent departed self' /\
  tallies 2 ServerMetrics.bytes_received ClientConnection.bytes_received departed self'.
Proof. intros H Hc Hm. split_and!; eapply run_tallies; try done; by rewrite Hm. Qed.

(** A client connects, sends 100 bytes, receives 40, and leaves *)
Definition visit : t :=
  let s := (register 0 "a" "127.0.0.1:4000" (default 0)).2 in
  let s := (count_request 1 "a" 100 s).2 in
  let s := (count_response 2 "a" 40 s).2 in
  (disconnect "a" s).2.

Example visit_bytes : ServerMetrics.bytes_sent (metrics visit) = 200 /\ ServerMetrics.bytes_received (metrics visit) = 80.
Proof. split; reflexivity. Qed.

Definition visitor : ClientConnection.t := ClientConnection.mk "a" 0 1 1 (Some 1) (Some 2) 100 40.

Lemma visit_run : run [visitor] (default 0) visit.
Proof.
  apply (run_snoc [] [visitor] _ (count_response 2 "a" 40 (count_request 1 "a" 100
    (register 0 "a" "127.0.0.1:4000" (default 0)).2).2).2); [|by apply op_depart].
  apply (run_snoc [] [] _ (count_request 1 "a" 100 (register 0 "a" "127.0.0.1:4000" (default 0)).2).2);
    [|apply op_response; vm_compute; eauto].
  apply (run_snoc [] [] _ (register 0 "a" "127.0.0.1:4000" (default 0)).2); [|apply op_request; vm_compute; eauto].
  apply (run_snoc [] [] _ (default 0)); [constructor|by apply op_register].
Qed.

Lemma departed_bytes_count_twice_witness :
  tallies 2 ServerMetrics.bytes_sent ClientConnection.bytes_sent [visitor] visit /\
  2 * sum_list ClientConnection.bytes_sent [visitor] = 200.
Proof.
  split; [|reflexivity].
  exact (proj1 (proj2 (proj2 (departed_bytes_count_twice [visitor] (default 0) visit visit_run eq_refl eq_refl)))).
Defined.
End Table.

(** ** Health *)

Section health.
Import AppState.

(** A tick judges as [health] does; a full server is never healthy. *)
Lemma tick_health now self :
  (update_metrics now self).1 = health (update_metrics now self).2 /\
  clients (update_metrics now self).2 = clients self /\
  ServerMetrics.active_connections (metrics (update_metrics now self).2) = size (clients self).
Proof. unfold update_metrics, health. by destruct (SFltb _ _). Qed.

Lemma full_is_unhealthy self : (max_clients self <= size (clients self))%nat -> health self = ServerHealth.Unhealthy.
Proof. intros H. unfold health, verdict. apply Nat.leb_le in H. by rewrite H, orb_true_r. Qed.
End health.

(** ** The listener *)

Module Listener.
Import AppState.

(** The state, and the number of clients the accept loop has read for the
    connection it is deciding about, if there is one *)
Record t : Type := mk { app : AppState.t; deciding : option nat }.

(** The accept loop decides in two steps; between them other tasks run.
    [http] says whether the HTTP server runs as well. *)
Inductive step (http : bool) : t -> t -> Prop :=
| step_accept self : deciding self = None -> step http self (mk (app self) (Some (size (clients (app self)))))
| step_reject self n :
    deciding self = Some n -> at_limit n (app self) = true -> step http self (mk (app self) None)
| step_register self n now id addr :
    deciding self = Some n -> at_limit n (app self) = false -> clients (app self) !! id = None ->
    step http self (mk (register now id addr (app self)).2 None)
| step_other self app' departed :
    Table.op departed (app self) app' -> (size (clients app') <= size (clients (app self)))%nat ->
    step http self (mk app' (deciding self))
| step_http self now id :
    http = true -> clients (app self) !! id = None ->
    step http self (mk (register now id "0.0.0.0:0" (app self)).2 (deciding self)).

Lemma op_config departed a a' : Table.op departed a a' -> max_clients a' = max_clients a.
Proof.
  destruct 1; try done.
  - unfold metrics_tick, update_metrics. by destruct (SFltb _ _).
  - unfold disconnect. by rewrite H.
Qed.

Definition within_limit (self : t) : Prop :=
  (size (clients (app self)) <= max_clients (app self))%nat /\
  match deciding self with Some n => (size (clients (app self)) <= n)%nat | None => True end.

Lemma step_limit self self' : within_limit self -> step false self self' -> within_limit self'.
Proof.
  intros [Hs Hd] H. destruct H as [self _|self n Hn Hl|self n now id addr Hn Hl Hf|self app' departed Hop Hle|self now id]; try done.
  - split; cbn; lia.
  - rewrite Hn in Hd. apply Nat.leb_gt in Hl. split; [|done]. cbn. rewrite map_size_insert_None by done.
    unfold at_limit in Hl. lia.
  - split; cbn; [rewrite (op_config _ _ _ Hop); lia|]. destruct (deciding self); [lia|done].
Qed.

(** What the accept loop does once it has read the number of clients *)
Lemma limit_rejects self n : (max_clients self <= n)%nat -> at_limit n self = true.
Proof. apply Nat.leb_le. Qed.

(** The state after [n] sessions over HTTP *)
Fixpoint sessions (n : nat) (self : AppState.t) : AppState.t :=
  match n with
  | O => self
  | S n => (register 0 (pretty n) "0.0.0.0:0" (sessions n self)).2
  end.

Lemma sessions_spec n self :
  clients self = ∅ ->
  size (clients (sessions n self)) = n /\ max_clients (sessions n self) = max_clients self /\
  forall m : nat, (n <= m)%nat -> clients (sessions n self) !! pretty m = None.
Proof.
  intros Hc. induction n as [|n (Hs & Hm & Hf)]; cbn.
  - rewrite Hc. split_and!; [done|done|]. intros m _. apply lookup_empty.
  - rewrite map_size_insert_None by (by apply Hf). split_and!; [by rewrite Hs|done|].
    intros m H. rewrite lookup_insert_ne; [apply Hf; lia|]. intros E%(inj pretty). lia.
Qed.

Lemma sessions_run n self d :
  clients self = ∅ -> rtc (step true) (mk self d) (mk (sessions n self) d).
Proof.
  intros Hc. induction n as [|n IH]; [done|]. eapply rtc_r; [exact IH|].
  apply (step_http true (mk (sessions n self) d) 0 (pretty n)); [done|]. by apply (sessions_spec n self Hc).
Qed.

(** C37: the listener admits no more clients than the limit, whatever happens
    between the moment it reads their number and the moment it decides.  But
    the limit is the listener's alone: sessions over HTTP are entered in the
    same table without asking, in any number, and once they fill it the
    listener rejects every connection. *)
Theorem the_limit_is_the_listeners self :
  clients self = ∅ ->
  (forall self', rtc (step false) (mk self None) self' ->
     (size (clients (app self')) <= max_clients (app self'))%nat) /\
  (forall n, exists self', rtc (step true) (mk self None) (mk self' None) /\
     size (clients self') = n /\ max_clients self' = max_clients self /\
     ((max_clients self <= n)%nat -> at_limit (size (clients self')) self' = true)).
Proof.
  intros Hc. split.
  - intros self' H. assert (Hw : within_limit (mk self None)) by (split; [cbn; rewrite Hc, map_size_empty; lia|done]).
    revert Hw. generalize (mk self None) H. clear. intros s H. induction H; intros Hw; [apply Hw|].
    apply IHrtc. by eapply step_limit.
  - intros n. destruct (sessions_spec n self Hc) as (Hs & Hm & _). exists (sessions n self).
    split_and!; [by apply sessions_run|done|done|]. intros H. apply limit_rejects. by rewrite Hs, Hm.
Qed.

Lemma the_limit_is_the_listeners_witness :
  exists self', rtc (step true) (mk (default 0) None) (mk self' None) /\
    size (clients self') = 150%nat /\ at_limit (size (clients self')) self' = true.
Proof.
  destruct (proj2 (the_limit_is_the_listeners (default 0) eq_refl) 150%nat) as (s & H & Hs & _ & Hl).
  exists s. split; [exact H|]. split; [exact Hs|]. apply Hl. cbn. lia.
Defined.
End Listener.
