(* ===== verification/Relay.v ===== *)
(** The relay of one client of the gateway server
    ([acdp-tui/src/client_proxy.rs]): lines of the client go through the
    interceptors to its backend, messages of the backend through them to the
    client.  The two branches of its [select!] are functions on the proxy and
    the shared state; clock and outcomes of writes are inputs. *)

From stdpp Require Import relations.
From S2P Require Import Prelude McpError Messages Interceptor Text CoreTransport Client Backend AppState.

(** What the outside gives to one branch *)
Module RelayInputs.
Record t : Type := mk {
  now : Z;          (* the clock of the interceptors *)
  elapsed_ms : Z;   (* the time the manager measures *)
  instant : Z;      (* [Instant::now] *)
  backend_io : Res unit string;
  client_io : Res unit string
}.
End RelayInputs.

Definition MAX_RESTARTS : Z := 5.

Module ClientProxy.
Section proxy.
Context `{JT : JsonText, PE : ParseErrors} {TA : TransportApi} {UA : UrlApi}.

(** [written] is what the client has been sent, a line each. *)
Record t : Type := mk {
  client_id : string;
  interceptor_manager : InterceptorManager.t;
  backend : Backend.t;
  restart_count : Z;
  written : list string
}.

(** [new]: the language model's interceptor, when there is a service, and the
    backend of the server's configuration *)
Definition new (given : Backend.Given) (llm_interceptor : option MessageInterceptor) (client_id : string)
    (app : AppState.t) : option (Res t string) :=
  let manager :=
    match llm_interceptor with
    | Some i => InterceptorManager.add_interceptor InterceptorManager.new i
    | None => InterceptorManager.new
    end in
  let command := AppState.backend_command app in
  match Backend.create_backend_connection given (AppState.backend_url app)
          (if str_is_empty command then None else Some command) (AppState.backend_transport app) with
  | None => None
  | Some (Err e) => Some (Err ("Failed to create backend connection: " +:+ e))
  | Some (Ok backend) => Some (Ok (mk client_id manager backend 0 []))
  end.

Definition set_manager (m : InterceptorManager.t) (self : t) : t :=
  mk (client_id self) m (backend self) (restart_count self) (written self).
Definition set_backend (b : Backend.t) (self : t) : t :=
  mk (client_id self) (interceptor_manager self) b (restart_count self) (written self).
Definition write (line : string) (self : t) : t :=
  mk (client_id self) (interceptor_manager self) (backend self) (restart_count self) (written self ++ [line]).
Definition set_restarts (n : Z) (self : t) : t :=
  mk (client_id self) (interceptor_manager self) (backend self) n (written self).

Definition intercept (io : RelayInputs.t) (message : JsonRpcMessage.t) (direction : MessageDirection) (self : t)
  : McpResult InterceptionResult.t * t :=
  let '(r, m) := InterceptorManager.process_message (RelayInputs.now io) (RelayInputs.elapsed_ms io)
                   (interceptor_manager self) message direction in
  (r, set_manager m self).

(** The proxy, the shared state, and what the UI is told *)
Definition World : Type := t * AppState.t * list ClientUpdate.t.

Definition byte_length (s : string) : Z := Z.of_nat (String.length s).

(** A message of the client; [None] when the upstream client panics *)
Definition handle_client_message_internal (io : RelayInputs.t) (line : string) (self : t) (app : AppState.t)
  : option (Res unit string * World) :=
  let trimmed := trim line in
  if str_is_empty trimmed then Some (Ok tt, (self, app, []))
  else
    match message_from_str trimmed with
    | None => Some (Err "Failed to parse JSON-RPC message from client"%string, (self, app, []))
    | Some message =>
        match intercept io message Outgoing self with
        | (Err e, self) => Some (Err ("Interceptor error: " +:+ error_text e), (self, app, []))
        | (Ok result, self) =>
            if InterceptionResult.block result then Some (Ok tt, (self, app, []))
            else
              match Backend.send (RelayInputs.backend_io io) (InterceptionResult.message result) (backend self) with
              | None => None
              | Some (Err e, b) => Some (Err e, (set_backend b self, app, []))
              | Some (Ok _, b) =>
                  let bytes := byte_length (message_to_string (InterceptionResult.message result)) in
                  let '(told, app) := AppState.count_request (RelayInputs.instant io) (client_id self) bytes app in
                  Some (Ok tt, (set_backend b self, app, told))
              end
        end
    end.

(** A message of the backend, as its text *)
Definition handle_backend_message_internal (io : RelayInputs.t) (line : string) (self : t) (app : AppState.t)
  : Res unit string * World :=
  let trimmed := trim line in
  if str_is_empty trimmed then (Ok tt, (self, app, []))
  else
    match message_from_str trimmed with
    | None => (Err "Failed to parse JSON-RPC message from backend"%string, (self, app, []))
    | Some message =>
        match intercept io message Incoming self with
        | (Err e, self) => (Err ("Interceptor error: " +:+ error_text e), (self, app, []))
        | (Ok result, self) =>
            if InterceptionResult.block result then (Ok tt, (self, app, []))
            else
              let modified := message_to_string (InterceptionResult.message result) in
              match RelayInputs.client_io io with
              | Err e => (Err e, (self, app, []))
              | Ok _ =>
                  let '(told, app) :=
                    AppState.count_response (RelayInputs.instant io) (client_id self) (byte_length modified) app in
                  (Ok tt, (write (modified +:+ newline) self, app, told))
              end
        end
    end.

(** How a branch of the loop ends *)
Inductive Flow : Type :=
| Continue
| Break (r : Res unit string).

Definition flow_of (r : Res unit string) : Flow :=
  match r with Ok _ => Continue | Err e => Break (Err e) end.

(** The branch of the client: [read] is the outcome of reading a line, nothing
    at the end of the stream. *)
Definition client_branch (io : RelayInputs.t) (read : Res (option string) string) (self : t) (app : AppState.t)
  : option (Flow * World) :=
  match read with
  | Ok None => Some (Break (Ok tt), (self, app, []))
  | Ok (Some line) =>
      match handle_client_message_internal io line self app with
      | None => None
      | Some (r, w) => Some (flow_of r, w)
      end
  | Err e => Some (Break (Err ("Client read error: " +:+ e)), (self, app, []))
  end.

(** The errors of the upstream connections, which are passed over *)
Definition is_not_implemented (e : string) : bool :=
  str_contains "HTTP-SSE receive not implemented" e || str_contains "HTTP-Stream receive not implemented" e.

(** The branch of the backend *)
Definition backend_branch (io : RelayInputs.t) (self : t) (app : AppState.t) : Flow * World :=
  let '(result, b) := Backend.recv (backend self) in
  let self := set_backend b self in
  match result with
  | Ok (Some message) =>
      let '(r, w) := handle_backend_message_internal io (message_to_string message) self app in (flow_of r, w)
  | Ok None =>
      if AppState.auto_restart_backend app && (restart_count self <? MAX_RESTARTS) then
        let restart_count := restart_count self + 1 in
        (Break (Err "Backend connection closed - restart not yet implemented"%string),
         (set_restarts restart_count self, app,
          AppState.notify app (ClientUpdate.BackendRestart (client_id self) restart_count)))
      else (Break (Ok tt), (self, app, []))
  | Err e => if is_not_implemented e then (Continue, (self, app, [])) else (Break (Err e), (self, app, []))
  end.
End proxy.
Arguments t : clear implicits.
Arguments t {JN TA}.
Arguments World : clear implicits.
Arguments World {JN TA}.
End ClientProxy.

(** ** A branch and the shared state *)

Section branches.
Context `{JT : JsonText, PE : ParseErrors} {TA : TransportApi} {UA : UrlApi}.
Import ClientProxy.

(** A branch leaves the shared state alone or counts one message of its own
    client. *)
Definition counts_one (self : t) (app : AppState.t) (w : World) : Prop :=
  client_id w.1.1 = client_id self /\
  (w.1.2 = app \/ exists now bytes,
     w.1.2 = (AppState.count_request now (client_id self) bytes app).2 \/
     w.1.2 = (AppState.count_response now (client_id self) bytes app).2).

Lemma intercept_spec io m d self :
  exists r mg, intercept io m d self = (Ok r, set_manager mg self).
Proof.
  unfold intercept, InterceptorManager.process_message, InterceptorManager.process_message_with_metadata.
  destruct (InterceptorManager.run _ _ _) as [[l|r] ics]; eauto.
Qed.

Lemma client_message_counts io line self app r w :
  handle_client_message_internal io line self app = Some (r, w) -> counts_one self app w.
Proof.
  unfold handle_client_message_internal. destruct (str_is_empty _); [intros [= <- <-]; split; [done|by left]|].
  destruct (message_from_str _) as [m|]; [|intros [= <- <-]; split; [done|by left]].
  destruct (intercept_spec io m Outgoing self) as (res & mg & ->).
  destruct (InterceptionResult.block res); [intros [= <- <-]; split; [done|by left]|].
  destruct (Backend.send _ _ _) as [[[[]|e] b]|]; [|intros [= <- <-]; split; [done|by left]|done].
  intros [= <- <-]. split; [done|]. right. eexists _, _. by left.
Qed.

Lemma backend_message_counts io line self app r w :
  handle_backend_message_internal io line self app = (r, w) -> counts_one self app w.
Proof.
  unfold handle_backend_message_internal. destruct (str_is_empty _); [intros [= <- <-]; split; [done|by left]|].
  destruct (message_from_str _) as [m|]; [|intros [= <- <-]; split; [done|by left]].
  destruct (intercept_spec io m Incoming self) as (res & mg & ->).
  destruct (InterceptionResult.block res); [intros [= <- <-]; split; [done|by left]|].
  destruct (RelayInputs.client_io io) as [[]|e]; [|intros [= <- <-]; split; [done|by left]].
  intros [= <- <-]. split; [done|]. right. eexists _, _. by right.
Qed.

Lemma client_branch_counts io read self app flow w :
  client_branch io read self app = Some (flow, w) -> counts_one self app w.
Proof.
  unfold client_branch. destruct read as [[line|]|e]; [|intros [= <- <-]; split; [done|by left]..].
  destruct (handle_client_message_internal io line self app) as [[r w']|] eqn:E; [|done].
  intros [= <- <-]. by eapply client_message_counts.
Qed.

Lemma backend_branch_counts io self app flow w :
  backend_branch io self app = (flow, w) -> counts_one self app w.
Proof.
  unfold backend_branch. destruct (Backend.recv (backend self)) as [[[m|]|e] b].
  - destruct (handle_backend_message_internal _ _ _ _) as [r w'] eqn:E. intros [= <- <-].
    by apply backend_message_counts in E.
  - destruct (_ && _); intros [= <- <-]; split; [done|by left|done|by left].
  - destruct (is_not_implemented e); intros [= <- <-]; split; [done|by left|done|by left].
Qed.

Lemma counts_one_run self app w :
  counts_one self app w -> is_Some (AppState.clients app !! client_id self) ->
  Table.run [] app w.1.2 /\
  (forall id, is_Some (AppState.clients w.1.2 !! id) <-> is_Some (AppState.clients app !! id)).
Proof.
  intros [_ [->|(now & bytes & [->| ->])]] H; [split; [constructor|done]|..].
  - split; [|intros id; cbn; apply lookup_alter_is_Some].
    apply (Table.run_snoc [] [] _ app); [constructor|by apply Table.op_request].
  - split; [|intros id; cbn; apply lookup_alter_is_Some].
    apply (Table.run_snoc [] [] _ app); [constructor|by apply Table.op_response].
Qed.
End branches.

(** ** All clients of the server *)

Module RelayServer.
Section server.
Context `{JT : JsonText, PE : ParseErrors} {TA : TransportApi} {UA : UrlApi}.
Import ClientProxy.

Record t : Type := mk { app : AppState.t; proxies : gmap string ClientProxy.t }.

(** The task of a client goes on, or ends and removes the client. *)
Definition settle (id : string) (flow : Flow) (w : World) (self : t) : t :=
  match flow with
  | Continue => mk w.1.2 (<[id := w.1.1]> (proxies self))
  | Break _ => mk (AppState.disconnect id w.1.2).2 (delete id (proxies self))
  end.

Definition departs (id : string) (flow : Flow) (a : AppState.t) : list ClientConnection.t :=
  match flow with Continue => [] | Break _ => option_list (AppState.clients a !! id) end.

Inductive step : list ClientConnection.t -> t -> t -> Prop :=
| step_register now id addr self :
    AppState.clients (app self) !! id = None ->
    step [] self (mk (AppState.register now id addr (app self)).2 (proxies self))
| step_start given llm id proxy self :
    is_Some (AppState.clients (app self) !! id) -> proxies self !! id = None ->
    new given llm id (app self) = Some (Ok proxy) ->
    step [] self (mk (app self) (<[id := proxy]> (proxies self)))
| step_refused given llm id e conn self :
    AppState.clients (app self) !! id = Some conn -> proxies self !! id = None ->
    new given llm id (app self) = Some (Err e) ->
    step [conn] self (mk (AppState.disconnect id (app self)).2 (proxies self))
| step_client io read id proxy flow w self :
    proxies self !! id = Some proxy -> client_branch io read proxy (app self) = Some (flow, w) ->
    step (departs id flow w.1.2) self (settle id flow w self)
| step_backend io id proxy flow w self :
    proxies self !! id = Some proxy -> backend_branch io proxy (app self) = (flow, w) ->
    step (departs id flow w.1.2) self (settle id flow w self)
| step_tick now self : step [] self (mk (AppState.metrics_tick now (app self)).2 (proxies self)).

Inductive run : list ClientConnection.t -> t -> t -> Prop :=
| run_nil self : run [] self self
| run_snoc departed more self self' self'' :
    run departed self self' -> step more self' self'' -> run (departed ++ more) self self''.

(** Every task serves a client of the table, under its own name. *)
Definition served (self : t) : Prop :=
  map_Forall (fun id proxy => client_id proxy = id /\ is_Some (AppState.clients (app self) !! id)) (proxies self).

Lemma new_id given llm id a proxy : new given llm id a = Some (Ok proxy) -> client_id proxy = id.
Proof.
  unfold new. destruct (Backend.create_backend_connection _ _ _ _) as [[b|e]|]; try done. by intros [= <-].
Qed.

Lemma settle_served id proxy flow w self :
  served self -> proxies self !! id = Some proxy -> counts_one proxy (app self) w -> served (settle id flow w self).
Proof.
  intros Hs Hp Hc. destruct (Hs id proxy Hp) as [Hid Hin]. pose proof Hc as [Hi _].
  rewrite <- Hid in Hin. destruct (counts_one_run _ _ _ Hc Hin) as [_ Hdom].
  destruct flow; intros id' proxy'; cbn.
  - intros [[<- <-]|[Hne H]]%lookup_insert_Some.
    + split; [by rewrite Hi|]. apply Hdom. by rewrite <- Hid.
    + destruct (Hs _ _ H). split; [done|]. by apply Hdom.
  - intros [Hne H]%lookup_delete_Some. destruct (Hs _ _ H). split; [done|].
    unfold AppState.disconnect. destruct (AppState.clients w.1.2 !! id); cbn; [|by apply Hdom].
    rewrite lookup_delete_ne by done. by apply Hdom.
Qed.

Lemma settle_run id proxy flow w self :
  served self -> proxies self !! id = Some proxy -> counts_one proxy (app self) w ->
  Table.run (departs id flow w.1.2) (app self) (app (settle id flow w self)).
Proof.
  intros Hs Hp Hc. destruct (Hs id proxy Hp) as [Hid Hin]. rewrite <- Hid in Hin.
  destruct (counts_one_run _ _ _ Hc Hin) as [Hr Hdom]. destruct flow; [done|].
  apply Hdom in Hin as [conn Hconn]. rewrite Hid in Hconn. cbn [settle departs app]. rewrite Hconn. cbn [option_list].
  apply (Table.run_snoc [] [conn] _ w.1.2); [done|]. by apply Table.op_depart.
Qed.

Lemma step_refines departed self self' :
  served self -> step departed self self' -> served self' /\ Table.run departed (app self) (app self').
Proof.
  intros Hs H. destruct H as [now id addr self Hf|given llm id proxy self Hin _ Hn|given llm id e conn self Hin Hn _
    |io read id proxy flow w self Hp Hb|io id proxy flow w self Hp Hb|now self].
  - split; [|apply (Table.run_snoc [] [] _ (app self)); [constructor|by apply Table.op_register]].
    intros id' proxy' H. destruct (Hs _ _ H) as [? Hin]. split; [done|]. cbn.
    destruct (decide (id = id')) as [->|]; [rewrite lookup_insert_eq; eauto|by rewrite lookup_insert_ne].
  - split; [|constructor]. intros id' proxy'. cbn.
    intros [[<- <-]|[Hne H]]%lookup_insert_Some; [by split; [eapply new_id|]|by apply Hs].
  - split; [|apply (Table.run_snoc [] [conn] _ (app self)); [constructor|by apply Table.op_depart]].
    intros id' proxy' H. destruct (Hs _ _ H) as [? Hin']. split; [done|]. unfold AppState.disconnect. cbn.
    rewrite Hin. cbn in *. rewrite lookup_delete_ne; [done|]. congruence.
  - apply client_branch_counts in Hb. split; [by eapply settle_served|by eapply settle_run].
  - apply backend_branch_counts in Hb. split; [by eapply settle_served|by eapply settle_run].
  - destruct (Table.tick_clients now (app self)) as [Ht _].
    split; [|apply (Table.run_snoc [] [] _ (app self)); [constructor|by apply Table.op_tick]].
    intros id proxy H. cbn [app]. rewrite Ht. by apply Hs.
Qed.

(** C16: the relays implement the server's table: however the clients' tasks
    interleave, with any interceptors and backends, the shared state moves by
    the table's operations alone, one registration, counted message or departure at
    a time, each in the name of a client of the table; and every task serves a
    client of the table until it ends and takes it out. *)
Theorem relays_implement_the_table departed self self' :
  run departed self self' -> proxies self = ∅ ->
  Table.run departed (app self) (app self') /\ served self'.
Proof.
  induction 1 as [self|departed more self self' self'' _ IH Hstep]; intros He.
  - split; [constructor|]. intros id proxy. by rewrite He.
  - destruct (IH He) as [Hr Hs]. destruct (step_refines _ _ _ Hs Hstep) as [Hs' Hr'].
    split; [by eapply Table.table_run_app|done].
Qed.
End server.
Arguments t : clear implicits.
Arguments t {JN TA}.
End RelayServer.

(** ** What a client receives *)

Section delivery.
Context `{JT : JsonText, PE : ParseErrors} {TA : TransportApi} {UA : UrlApi}.
Import ClientProxy.

(** One turn of the loop that goes on *)
Inductive turn : t * AppState.t -> t * AppState.t -> Prop :=
| turn_client io read self app self' app' told :
    client_branch io read self app = Some (Continue, (self', app', told)) -> turn (self, app) (self', app')
| turn_backend io self app self' app' told :
    backend_branch io self app = (Continue, (self', app', told)) -> turn (self, app) (self', app').

(** *** Upstream servers *)

Definition upstream (b : Backend.t) : bool :=
  match b with Backend.Process _ => false | _ => true end.

Lemma send_upstream io m b r b' : Backend.send io m b = Some (r, b') -> upstream b' = upstream b.
Proof.
  destruct b as [p|u|u]; cbn.
  - destruct (ProcessBackend.send io m p). by intros [= _ <-].
  - destruct (Upstream.send m u) as [[r1 u1]|]; [|done]. by intros [= _ <-].
  - destruct (Upstream.send m u) as [[r1 u1]|]; [|done]. by intros [= _ <-].
Qed.

(** The backend's branch passes at once, with nothing done. *)
Lemma upstream_branch io self app :
  upstream (backend self) = true -> backend_branch io self app = (Continue, (self, app, [])).
Proof. destruct self as [i m [p|u|u] n w]; done. Qed.

Lemma client_keeps_upstream io read self app flow self' app' told :
  client_branch io read self app = Some (flow, (self', app', told)) ->
  upstream (backend self') = upstream (backend self) /\ written self' = written self.
Proof.
  unfold client_branch. destruct read as [[line|]|e]; try (by intros [= _ <- _ _]).
  destruct (handle_client_message_internal io line self app) as [[r [[s a] u]]|] eqn:E; [|done].
  intros [= _ <- _ _]. revert E. unfold handle_client_message_internal.
  destruct (str_is_empty _); [by intros [= _ <- _ _]|]. destruct (message_from_str _) as [m|]; [|by intros [= _ <- _ _]].
  destruct (intercept_spec io m Outgoing self) as (res & mg & ->). destruct (InterceptionResult.block res); [by intros [= _ <- _ _]|].
  destruct (Backend.send _ _ _) as [[[[]|e] b]|] eqn:Es; [| |done]; intros [= _ <- _ _]; cbn;
    (split; [by apply send_upstream in Es|done]).
Qed.

(** A client whose backend is an upstream HTTP server never receives
    anything: whatever it sends, whatever the server answers, and however long
    the relay runs, not one line is written to it, since the answers stay with
    the upstream client.  And the branch that reads the backend is always
    ready, at once and without effect, so the loop never rests. *)
Theorem upstream_answers_are_lost self app self' app' :
  rtc turn (self, app) (self', app') -> upstream (backend self) = true ->
  written self' = written self /\ upstream (backend self') = true /\
  forall io, backend_branch io self' app' = (Continue, (self', app', [])).
Proof.
  intros H Hu. remember (self, app) as a eqn:Ea. remember (self', app') as b eqn:Eb.
  revert self app Ea Hu. induction H as [a|a b c Hstep _ IH]; intros self app -> Hu.
  - injection Eb as -> ->. split_and!; [done|done|]. intros io. by apply upstream_branch.
  - destruct b as [s1 a1]. assert (Hk : upstream (backend s1) = true /\ written s1 = written self).
    { inversion Hstep as [io read ? ? ? ? told Hb|io ? ? ? ? told Hb]; subst.
      - apply client_keeps_upstream in Hb as [-> ->]. by split.
      - rewrite upstream_branch in Hb by done. by injection Hb as <- _. }
    destruct Hk as [Hu1 <-]. by eapply IH.
Qed.

(** *** Processes *)

(** Reads of a process that prints the messages, with blank lines between *)
Inductive prints : list (Res string string) -> list JsonRpcMessage.t -> Prop :=
| prints_end : prints [] []
| prints_blank line reads ms : str_is_empty (trim line) = true -> prints reads ms -> prints (Ok line :: reads) ms
| prints_message line reads m ms :
    str_is_empty (trim line) = false -> message_from_str (trim line) = Some m ->
    prints reads ms -> prints (Ok line :: reads) (m :: ms).

Lemma prints_next reads ms :
  prints reads ms ->
  match ms with
  | [] => ProcessBackend.next_message reads = (Ok None, [])
  | m :: ms => exists reads', ProcessBackend.next_message reads = (Ok (Some m), reads') /\ prints reads' ms
  end.
Proof.
  induction 1 as [|line reads ms H _ IH|line reads m ms H Hm Hp _]; [done| |]; cbn; rewrite H; [exact IH|].
  rewrite Hm. eauto.
Qed.

(** The line a client gets for a message *)
Definition delivered (m : JsonRpcMessage.t) : string :=
  message_to_string (canonical_message (JsonRpcMessage.normalize m)) +:+ newline.

Definition plain (m : JsonRpcMessage.t) : Prop :=
  JsonRpcMessage.wf m /\ distinct_keys (JsonRpcMessage.to_value m) = true.

Definition bare (self : t) : Prop := InterceptorManager.interceptors (interceptor_manager self) = [].

(** A turn of the backend's branch with a message *)
Lemma backend_turn {NL : JsonNumberLaws JN} {TL : JsonTextLaws JT} io p m reads self app :
  backend self = Backend.Process p -> ProcessBackend.next_message (ProcessBackend.stdout p) = (Ok (Some m), reads) ->
  bare self -> plain m -> RelayInputs.client_io io = Ok tt ->
  exists mg, InterceptorManager.interceptors mg = [] /\
    backend_branch io self app =
    (Continue,
     (mk (client_id self) mg (Backend.Process (ProcessBackend.mk (ProcessBackend.pid p) (ProcessBackend.stdin p) reads))
        (restart_count self) (written self ++ [delivered m]),
      (AppState.count_response (RelayInputs.instant io) (client_id self)
         (byte_length (message_to_string (canonical_message (JsonRpcMessage.normalize m)))) app).2,
      (AppState.count_response (RelayInputs.instant io) (client_id self)
         (byte_length (message_to_string (canonical_message (JsonRpcMessage.normalize m)))) app).1)).
Proof.
  intros Hb Hr Hbare [Hw Hd] Hio. unfold backend_branch. rewrite Hb. cbn [Backend.recv]. unfold ProcessBackend.recv.
  rewrite Hr. unfold handle_backend_message_internal. destruct (message_text_trim m) as [-> ->].
  rewrite message_text_roundtrip by done. unfold intercept, InterceptorManager.process_message. cbn [interceptor_manager set_backend].
  destruct (process_bare (RelayInputs.now io) (RelayInputs.elapsed_ms io) (interceptor_manager self)
    (canonical_message (JsonRpcMessage.normalize m)) Incoming InterceptionMetadata.new Hbare) as (mg & -> & Hmg).
  cbn [InterceptionResult.block InterceptionResult.pass_through InterceptionResult.message]. rewrite Hio.
  by exists mg.
Qed.

(** What a server process prints is what its client receives: without
    interceptors, each message among the lines of the process, however it was
    spaced, reaches the client as one line, in the order it was printed, the
    same message with the objects in it sorted; then the relay ends with the
    process, without an error. *)
Theorem printed_messages_are_delivered {NL : JsonNumberLaws JN} {TL : JsonTextLaws JT} io p ms self app :
  backend self = Backend.Process p -> prints (ProcessBackend.stdout p) ms -> bare self -> Forall plain ms ->
  RelayInputs.client_io io = Ok tt -> AppState.auto_restart_backend app = false ->
  exists self' app', rtc turn (self, app) (self', app') /\
    written self' = written self ++ List.map delivered ms /\
    exists w, backend_branch io self' app' = (Break (Ok tt), w) /\ written w.1.1 = written self'.
Proof.
  revert p self app. induction ms as [|m ms IH]; intros p self app Hb Hp Hbare Hplain Hio Hauto;
    apply prints_next in Hp.
  - exists self, app. split; [constructor|]. split; [by rewrite app_nil_r|].
    unfold backend_branch. rewrite Hb. cbn [Backend.recv]. unfold ProcessBackend.recv. rewrite Hp, Hauto. by eexists.
  - destruct Hp as (reads & Hr & Hp). apply Forall_cons in Hplain as [Hm Hplain].
    destruct (backend_turn io p m reads self app Hb Hr Hbare Hm Hio) as (mg & Hmg & Hturn).
    apply turn_backend in Hturn.
    edestruct IH as (self' & app' & Hrun & Hw & Hend); [| | | | | |exists self', app'; split].
    7: by eapply rtc_l. 1: done. 1: exact Hp. 1-4: done.
    split; [|exact Hend]. rewrite Hw. cbn. by rewrite <- app_assoc.
Qed.
End delivery.

(** ** Concrete runs *)

Module DemoRelay.
Import ToyNumbers ToyText ToyUrl Client.Demo ClientProxy.

#[global] Instance toy_parse_errors : ParseErrors := {| parse_error s := "expected value" |}.

Definition io : RelayInputs.t := RelayInputs.mk 0 0 0 (Ok tt) (Ok tt).
Definition app : AppState.t := (AppState.register 0 "a" "127.0.0.1:4000" (AppState.default 0)).2.
Definition call : JsonRpcMessage.t :=
  JsonRpcMessage.Request (JsonRpcRequest.without_params (RequestId.Number 7) "tools/list").
Definition line : string := message_to_string call +:+ newline.

(** A client of an upstream server *)
Definition proxy : ClientProxy.t :=
  ClientProxy.mk "a" InterceptorManager.new
    (Backend.HttpStream (Upstream.mk (McpClient.set_state ClientState.Ready (client [])) "https://host/mcp")) 0 [].

Definition asked : option (Flow * World) := client_branch io (Ok (Some line)) proxy app.

Definition goes_on (x : option (Flow * World)) : bool := match x with Some (Continue, _) => true | _ => false end.
Definition world_of (x : option (Flow * World)) : World := match x with Some (_, w) => w | None => (proxy, app, []) end.

Lemma goes_on_shape x :
  goes_on x = true -> x = Some (Continue, ((world_of x).1.1, (world_of x).1.2, (world_of x).2)).
Proof. by destruct x as [[[] [[s a] u]]|]. Qed.

(** The requests the upstream client has counted: those that were answered *)
Definition answered (self : ClientProxy.t) : Z :=
  match backend self with
  | Backend.HttpStream u => ClientStats.requests_sent (McpClient.stats (Upstream.client u))
  | _ => 0
  end.

Example asked_goes_on : goes_on asked = true.
Proof. vm_compute. reflexivity. Qed.

Example asked_is_answered : answered (world_of asked).1.1 =? 1 = true.
Proof. vm_compute. reflexivity. Qed.

Lemma asked_turn : rtc turn (proxy, app) ((world_of asked).1.1, (world_of asked).1.2).
Proof. apply rtc_once. eapply turn_client. exact (goes_on_shape asked asked_goes_on). Qed.

(** A process that prints a message, between blank lines *)
Definition note : JsonRpcMessage.t := JsonRpcMessage.Notification (JsonRpcNotification.mk "2.0" "ready" None).
Definition process : ProcessBackend.t :=
  ProcessBackend.mk (Some 4242) "" [Ok newline; Ok (message_to_string note +:+ newline); Ok newline].
Definition local : ClientProxy.t := ClientProxy.mk "a" InterceptorManager.new (Backend.Process process) 0 [].

Lemma note_trimmed :
  str_is_empty (trim (message_to_string note +:+ newline)) = false /\
  message_from_str (trim (message_to_string note +:+ newline)) = Some note.
Proof.
  rewrite trim_newline. destruct (message_text_trim note) as [-> ->]. split; [done|].
  rewrite message_text_roundtrip; reflexivity.
Qed.

Lemma process_prints : prints (ProcessBackend.stdout process) [note].
Proof.
  apply prints_blank; [reflexivity|]. destruct note_trimmed as [H1 H2].
  apply prints_message; [exact H1|exact H2|]. apply prints_blank; [reflexivity|constructor].
Qed.

Lemma note_plain : Forall plain [note].
Proof. repeat constructor. Qed.

(** A client comes, its relay starts and ends *)
Definition fresh : RelayServer.t :=
  RelayServer.mk (AppState.mk ∅ false "server" None None 100 300 false ServerMetrics.default 0 0 0) ∅.
Definition given : Backend.Given := Backend.MkGiven (Ok (Some 4242, [])) [].

Definition registered : RelayServer.t :=
  RelayServer.mk (AppState.register 0 "a" "127.0.0.1:4000" (RelayServer.app fresh)).2 ∅.
Definition started : RelayServer.t :=
  RelayServer.mk (RelayServer.app registered)
    {[ "a" := ClientProxy.mk "a" InterceptorManager.new (Backend.Process (ProcessBackend.mk (Some 4242) "" [])) 0 [] ]}.

Lemma started_run : RelayServer.run [] fresh started.
Proof.
  apply (RelayServer.run_snoc [] [] _ registered).
  - apply (RelayServer.run_snoc [] [] _ fresh); [constructor|]. by apply RelayServer.step_register.
  - by apply (RelayServer.step_start given None "a"); [eexists| |].
Qed.
End DemoRelay.

(** The server answered, and nothing was written. *)
Lemma upstream_answers_are_lost_witness :
  (DemoRelay.answered (DemoRelay.world_of DemoRelay.asked).1.1 =? 1) = true /\
  ClientProxy.written (DemoRelay.world_of DemoRelay.asked).1.1 = [].
Proof.
  split; [exact DemoRelay.asked_is_answered|].
  pose proof (upstream_answers_are_lost DemoRelay.proxy DemoRelay.app (DemoRelay.world_of DemoRelay.asked).1.1
    (DemoRelay.world_of DemoRelay.asked).1.2 DemoRelay.asked_turn eq_refl) as H.
  exact (proj1 H).
Defined.

Lemma printed_messages_are_delivered_witness :
  exists self' app', rtc turn (DemoRelay.local, DemoRelay.app) (self', app') /\
    ClientProxy.written self' = [delivered DemoRelay.note].
Proof.
  destruct (printed_messages_are_delivered DemoRelay.io DemoRelay.process [DemoRelay.note] DemoRelay.local DemoRelay.app
    eq_refl DemoRelay.process_prints eq_refl DemoRelay.note_plain eq_refl eq_refl) as (s & a & H & Hw & _).
  exists s, a. split; [exact H|exact Hw].
Defined.

Lemma relays_implement_the_table_witness :
  Table.run [] (RelayServer.app DemoRelay.fresh) (RelayServer.app DemoRelay.started) /\
  RelayServer.served DemoRelay.started.
Proof. exact (RelayServer.relays_implement_the_table [] DemoRelay.fresh DemoRelay.started DemoRelay.started_run eq_refl). Defined.
