(* ===== verification/HttpRelay.v ===== *)
(** The gateway's HTTP server ([acdp-tui/src/http_server.rs]): a session per
    client with an interceptor manager, a queue of requests for the task that
    holds the session's backend, and a broadcast channel for its event
    streams.  The handler and the branches of the task are functions on the
    server's state. *)

From stdpp Require Import relations.
From S2P Require Import Prelude McpError Messages Interceptor Text CoreTransport Client HttpServers Backend AppState Relay.

Definition ACCEPTED : Z := 202.
Definition INTERNAL_SERVER_ERROR : Z := 500.

(** The task of a session: about to create its backend, with it, or gone *)
Module Task.
Section task.
Context `{JT : JsonText, PE : ParseErrors} {TA : TransportApi} {UA : UrlApi}.
Inductive t : Type :=
| Starting (restart_count : Z)
| Running (restart_count : Z) (backend : Backend.t)
| Ended.
End task.
Arguments t : clear implicits.
Arguments t {JN TA}.
End Task.

Module HttpSession.
Section session.
Context `{JT : JsonText, PE : ParseErrors} {TA : TransportApi} {UA : UrlApi}.

(** [queue] holds the requests that wait for the task, nothing when the task
    has dropped its end; [streams] what each open event stream has been sent. *)
Record t : Type := mk {
  client_id : string;
  streams : list (list JsonRpcMessage.t);
  queue : option (list JsonRpcMessage.t);
  interceptor_manager : InterceptorManager.t;
  task : Task.t
}.

Definition set_manager (m : InterceptorManager.t) (self : t) : t :=
  mk (client_id self) (streams self) (queue self) m (task self).
Definition set_queue (q : option (list JsonRpcMessage.t)) (self : t) : t :=
  mk (client_id self) (streams self) q (interceptor_manager self) (task self).

(** [response_tx.send]: every open stream gets the message, and none keeps it
    for a later one. *)
Definition broadcast (message : JsonRpcMessage.t) (self : t) : t :=
  mk (client_id self) (List.map (fun sent => sent ++ [message]) (streams self)) (queue self)
     (interceptor_manager self) (task self).

(** A task that ends drops the queue. *)
Definition set_task (task : Task.t) (self : t) : t :=
  mk (client_id self) (streams self) (match task with Task.Ended => None | _ => queue self end)
     (interceptor_manager self) task.

Definition subscribe (self : t) : t :=
  mk (client_id self) (streams self ++ [[]]) (queue self) (interceptor_manager self) (task self).

Definition intercept (io : RelayInputs.t) (message : JsonRpcMessage.t) (direction : MessageDirection) (self : t)
  : McpResult InterceptionResult.t * t :=
  let '(r, m) := InterceptorManager.process_message (RelayInputs.now io) (RelayInputs.elapsed_ms io)
                   (interceptor_manager self) message direction in
  (r, set_manager m self).
End session.
Arguments t : clear implicits.
Arguments t {JN TA}.
End HttpSession.

Module HttpServer.
Section server.
Context `{JT : JsonText, PE : ParseErrors} {TA : TransportApi} {UA : UrlApi}.

(** [llm_interceptor] is what the language model's service puts into the
    manager of a session, when there is one. *)
Record t : Type := mk {
  app : AppState.t;
  sessions : gmap string HttpSession.t;
  llm_interceptor : option MessageInterceptor
}.

Definition new (app : AppState.t) (llm : option MessageInterceptor) : t := mk app ∅ llm.

Definition set_session (id : string) (s : HttpSession.t) (self : t) : t :=
  mk (app self) (<[id := s]> (sessions self)) (llm_interceptor self).
Definition set_app (a : AppState.t) (self : t) : t := mk a (sessions self) (llm_interceptor self).

Definition configured (a : AppState.t) : bool :=
  negb (match AppState.backend_url a with None => true | Some _ => false end && str_is_empty (AppState.backend_command a)).

Definition new_manager (self : t) : InterceptorManager.t :=
  match llm_interceptor self with
  | Some i => InterceptorManager.add_interceptor InterceptorManager.new i
  | None => InterceptorManager.new
  end.

(** The session of a request, or a new one for a new client; a server without a
    backend refuses after the session is in the table, and the end of its queue
    is dropped. *)
Definition get_or_create (now : Z) (session_id client_id : string) (self : t)
  : Res HttpSession.t Z * t * list ClientUpdate.t :=
  match sessions self !! session_id with
  | Some session => (Ok session, self, [])
  | None =>
      let '(told, a) := AppState.register now client_id "0.0.0.0:0" (app self) in
      let session := HttpSession.mk client_id [] (Some []) (new_manager self) (Task.Starting 0) in
      let self := set_app a self in
      if configured a then (Ok session, set_session session_id session self, told)
      else (Err INTERNAL_SERVER_ERROR, set_session session_id (HttpSession.set_task Task.Ended session) self, told)
  end.

Definition error_response (id : RequestId.t) (code : Z) (message : string) (data : option Value) : JsonRpcMessage.t :=
  JsonRpcMessage.Response (JsonRpcResponse.mk "2.0" id None (Some (JsonRpcError.mk code message data))).

(** A request in its session: the session, whether it was queued, and so
    counted *)
Definition take_request (io : RelayInputs.t) (req : JsonRpcRequest.t) (session : HttpSession.t)
  : HttpSession.t * bool :=
  let id := JsonRpcRequest.id req in
  match HttpSession.intercept io (JsonRpcMessage.Request req) Outgoing session with
  | (Ok result, session) =>
      if InterceptionResult.block result then
        (HttpSession.broadcast (error_response id (-32000) "Message blocked by interceptor" None) session, false)
      else
        match HttpSession.queue session with
        | Some queue => (HttpSession.set_queue (Some (queue ++ [InterceptionResult.message result])) session, true)
        | None =>
            (HttpSession.broadcast
               (error_response id (-32603) "Failed to forward request to backend" None) session, false)
        end
  | (Err e, session) =>
      (HttpSession.broadcast
         (error_response id (-32603) "Internal error" (Some (VObject [("error"%string, VString (error_text e))])))
         session, false)
  end.

Definition accepted (session_id : string) : HttpAnswer.t := HttpAnswer.mk ACCEPTED [("Mcp-Session-Id", session_id)]%string "".
Definition empty_answer (session_id : string) : HttpAnswer.t :=
  HttpAnswer.mk OK [("Mcp-Session-Id", session_id); ("Content-Type", "application/json")]%string "".

(** [fresh] is a fresh session identifier, [client_id] a fresh client. *)
Definition handle_mcp_request (io : RelayInputs.t) (header : option string) (fresh client_id : string) (body : Value)
    (self : t) : Res HttpAnswer.t Z * t * list ClientUpdate.t :=
  let session_id := session_of header fresh in
  match JsonRpcMessage.from_value body with
  | Err _ => (Err BAD_REQUEST, self, [])
  | Ok message =>
      match get_or_create (RelayInputs.instant io) session_id client_id self with
      | (Err status, self, told) => (Err status, self, told)
      | (Ok session, self, told) =>
          match message with
          | JsonRpcMessage.Request req =>
              let '(session, queued) := take_request io req session in
              let self := set_session session_id session self in
              if queued then
                let '(more, a) := AppState.count_http_request (RelayInputs.instant io) (HttpSession.client_id session) (app self) in
                (Ok (empty_answer session_id), set_app a self, told ++ more)
              else (Ok (empty_answer session_id), self, told)
          | JsonRpcMessage.Notification _ => (Ok (accepted session_id), self, told)
          | JsonRpcMessage.Response _ => (Err BAD_REQUEST, self, told)
          end
      end
  end.

Definition handle_sse_stream (session_id : string) (self : t) : Res unit Z * t :=
  match sessions self !! session_id with
  | Some session => (Ok tt, set_session session_id (HttpSession.subscribe session) self)
  | None => (Err NOT_FOUND, self)
  end.

(** *** The task of a session *)

(** After the inner loop: start over, or end *)
Definition after_break (a : AppState.t) (restart_count : Z) : Task.t :=
  if AppState.auto_restart_backend a && (restart_count <? MAX_RESTARTS) then Task.Starting restart_count else Task.Ended.

(** Creating the backend *)
Definition task_start (given : Backend.Given) (session : HttpSession.t) (a : AppState.t)
  : option (HttpSession.t * AppState.t * list ClientUpdate.t) :=
  match HttpSession.task session with
  | Task.Starting restart_count =>
      let command := AppState.backend_command a in
      match Backend.create_backend_connection given (AppState.backend_url a)
              (if str_is_empty command then None else Some command) (AppState.backend_transport a) with
      | None => None
      | Some (Ok backend) => Some (HttpSession.set_task (Task.Running restart_count backend) session, a, [])
      | Some (Err e) =>
          let '(told, a) := AppState.backend_error (HttpSession.client_id session)
                              ("Failed to create backend connection: " +:+ e) a in
          Some (HttpSession.set_task Task.Ended session, a, told)
      end
  | _ => None
  end.

(** A request from the queue, through the interceptors once more *)
Definition task_request (io : RelayInputs.t) (session : HttpSession.t) (a : AppState.t) : option HttpSession.t :=
  match HttpSession.task session, HttpSession.queue session with
  | Task.Running restart_count backend, Some (message :: queue) =>
      let session := HttpSession.set_queue (Some queue) session in
      match HttpSession.intercept io message Outgoing session with
      | (Ok result, session) =>
          if InterceptionResult.block result then Some session
          else
            match Backend.send (RelayInputs.backend_io io) (InterceptionResult.message result) backend with
            | None => None
            | Some (Ok _, backend) => Some (HttpSession.set_task (Task.Running restart_count backend) session)
            | Some (Err _, _) => Some (HttpSession.set_task (after_break a restart_count) session)
            end
      | (Err _, session) => Some (HttpSession.set_task (after_break a restart_count) session)
      end
  | _, _ => None
  end.

(** What the backend gives *)
Definition task_backend (io : RelayInputs.t) (session : HttpSession.t) (a : AppState.t)
  : option (HttpSession.t * AppState.t * list ClientUpdate.t) :=
  match HttpSession.task session with
  | Task.Running restart_count backend =>
      let '(received, backend) := Backend.recv backend in
      let session := HttpSession.set_task (Task.Running restart_count backend) session in
      match received with
      | Ok (Some message) =>
          match HttpSession.intercept io message Incoming session with
          | (Ok result, session) =>
              if InterceptionResult.block result then Some (session, a, [])
              else
                let session := HttpSession.broadcast (InterceptionResult.message result) session in
                let bytes := ClientProxy.byte_length (message_to_string (InterceptionResult.message result)) in
                let '(told, a) := AppState.count_response (RelayInputs.instant io) (HttpSession.client_id session) bytes a in
                Some (session, a, told)
          | (Err _, session) => Some (session, a, [])
          end
      | Ok None =>
          if AppState.auto_restart_backend a && (restart_count <? MAX_RESTARTS) then
            let restart_count := restart_count + 1 in
            Some (HttpSession.set_task (after_break a restart_count) session, a,
                  AppState.notify a (ClientUpdate.BackendRestart (HttpSession.client_id session) restart_count))
          else
            let '(told, a) := AppState.backend_error (HttpSession.client_id session) "Backend connection closed" a in
            Some (HttpSession.set_task Task.Ended session, a, told)
      | Err e =>
          if ClientProxy.is_not_implemented e then Some (session, a, [])
          else Some (HttpSession.set_task (after_break a restart_count) session, a, [])
      end
  | _ => None
  end.
End server.
Arguments t : clear implicits.
Arguments t {JN TA}.
End HttpServer.

(** ** The server as a whole *)

Section whole.
Context `{JT : JsonText, PE : ParseErrors} {TA : TransportApi} {UA : UrlApi}.
Import HttpServer.

Inductive step : t -> t -> Prop :=
| step_post io header fresh client_id body self r self' told :
    AppState.clients (app self) !! client_id = None ->
    handle_mcp_request io header fresh client_id body self = (r, self', told) -> step self self'
| step_stream session_id self r self' : handle_sse_stream session_id self = (r, self') -> step self self'
| step_start given id session session' a told self :
    sessions self !! id = Some session -> task_start given session (app self) = Some (session', a, told) ->
    step self (set_app a (set_session id session' self))
| step_request io id session session' self :
    sessions self !! id = Some session -> task_request io session (app self) = Some session' ->
    step self (set_session id session' self)
| step_backend io id session session' a told self :
    sessions self !! id = Some session -> task_backend io session (app self) = Some (session', a, told) ->
    step self (set_app a (set_session id session' self))
| step_tick now self : step self (set_app (AppState.metrics_tick now (app self)).2 self).

(** Every session serves a client of the table. *)
Definition served (self : t) : Prop :=
  map_Forall (fun _ s => is_Some (AppState.clients (app self) !! HttpSession.client_id s)) (sessions self).

(** What an operation may do to the table: no client goes. *)
Definition table_step (a a' : AppState.t) : Prop :=
  Table.run [] a a' /\ forall id, is_Some (AppState.clients a !! id) -> is_Some (AppState.clients a' !! id).

Lemma table_same a : table_step a a.
Proof. split; [constructor|done]. Qed.

Lemma table_op a a' :
  Table.op [] a a' -> (forall id, is_Some (AppState.clients a !! id) -> is_Some (AppState.clients a' !! id)) ->
  table_step a a'.
Proof. intros H Hd. split; [|done]. apply (Table.run_snoc [] [] _ a); [constructor|done]. Qed.

Lemma table_trans a b c : table_step a b -> table_step b c -> table_step a c.
Proof. intros [H1 D1] [H2 D2]. split; [by apply (Table.table_run_app [] [] _ b)|auto]. Qed.

Lemma table_register now id addr a :
  AppState.clients a !! id = None -> table_step a (AppState.register now id addr a).2.
Proof.
  intros H. apply table_op; [by apply Table.op_register|]. intros id' Hi. cbn.
  destruct (decide (id = id')) as [->|]; [rewrite lookup_insert_eq; eauto|by rewrite lookup_insert_ne].
Qed.

Lemma table_http_request now id a :
  is_Some (AppState.clients a !! id) -> table_step a (AppState.count_http_request now id a).2.
Proof. intros H. apply table_op; [by apply Table.op_http_request|]. intros id' Hi. by apply lookup_alter_is_Some. Qed.

Lemma table_response now id bytes a :
  is_Some (AppState.clients a !! id) -> table_step a (AppState.count_response now id bytes a).2.
Proof. intros H. apply table_op; [by apply Table.op_response|]. intros id' Hi. by apply lookup_alter_is_Some. Qed.

Lemma table_error id e a : table_step a (AppState.backend_error id e a).2.
Proof. by apply table_op; [apply Table.op_error|]. Qed.

(** *** Sessions *)

Lemma http_intercept io m d session :
  exists r mg, HttpSession.intercept io m d session = (Ok r, HttpSession.set_manager mg session).
Proof.
  unfold HttpSession.intercept, InterceptorManager.process_message, InterceptorManager.process_message_with_metadata.
  destruct (InterceptorManager.run _ _ _) as [[l|r] ics]; eauto.
Qed.

Lemma take_request_client io req session session' queued :
  take_request io req session = (session', queued) -> HttpSession.client_id session' = HttpSession.client_id session.
Proof.
  unfold take_request. destruct (http_intercept io (JsonRpcMessage.Request req) Outgoing session) as (r & mg & ->).
  destruct (InterceptionResult.block r); [by intros [= <- _]|]. destruct (HttpSession.queue _); by intros [= <- _].
Qed.

Lemma task_start_spec given session a session' a' told :
  task_start given session a = Some (session', a', told) ->
  HttpSession.client_id session' = HttpSession.client_id session /\ table_step a a'.
Proof.
  unfold task_start. destruct (HttpSession.task session); try done.
  destruct (Backend.create_backend_connection _ _ _ _) as [[b|e]|]; [| |done]; intros [= <- <- _].
  - split; [done|apply table_same].
  - split; [done|apply (table_error (HttpSession.client_id session) ("Failed to create backend connection: " +:+ e))].
Qed.

Lemma task_request_spec io session a session' :
  task_request io session a = Some session' -> HttpSession.client_id session' = HttpSession.client_id session.
Proof.
  unfold task_request. destruct (HttpSession.task session) as [| n b|]; try done.
  destruct (HttpSession.queue session) as [[|m q]|]; try done.
  destruct (http_intercept io m Outgoing (HttpSession.set_queue (Some q) session)) as (r & mg & ->).
  destruct (InterceptionResult.block r); [by intros [= <-]|].
  destruct (Backend.send _ _ _) as [[[[]|e] b']|]; by intros [= <-].
Qed.

Lemma task_backend_spec io session a session' a' told :
  is_Some (AppState.clients a !! HttpSession.client_id session) ->
  task_backend io session a = Some (session', a', told) ->
  HttpSession.client_id session' = HttpSession.client_id session /\ table_step a a'.
Proof.
  intros Hin. unfold task_backend. destruct (HttpSession.task session) as [| n b|]; try done.
  destruct (Backend.recv b) as [[[m|]|e] b'].
  - destruct (http_intercept io m Incoming (HttpSession.set_task (Task.Running n b') session)) as (r & mg & ->).
    destruct (InterceptionResult.block r); intros [= <- <- _]; (split; [done|]); [apply table_same|].
    by apply table_response.
  - destruct (_ && _); intros [= <- <- _]; (split; [done|]); [apply table_same|].
    apply (table_error (HttpSession.client_id session) "Backend connection closed").
  - destruct (ClientProxy.is_not_implemented e); intros [= <- <- _]; (split; [done|apply table_same]).
Qed.

(** *** Steps *)

(** What a step keeps: the sessions stay and serve clients of the table, which
    moves without departures. *)
Definition keeps (self self' : t) : Prop :=
  served self' /\ table_step (app self) (app self') /\
  forall id, is_Some (sessions self !! id) -> is_Some (sessions self' !! id).

Lemma put_session a id session self :
  served self -> table_step (app self) a -> is_Some (AppState.clients a !! HttpSession.client_id session) ->
  keeps self (set_app a (set_session id session self)).
Proof.
  intros Hs [Hr Hd] Hc. split; [|split; [by split|]].
  - intros id' s'. cbn. intros [[<- <-]|[_ H]]%lookup_insert_Some; [done|]. apply Hd. by eapply Hs.
  - intros id' H. cbn. destruct (decide (id = id')) as [->|]; [rewrite lookup_insert_eq; eauto|by rewrite lookup_insert_ne].
Qed.

Lemma set_session_app id session self : set_session id session self = set_app (app self) (set_session id session self).
Proof. done. Qed.

(** The session of a request serves a client of the table. *)
Lemma get_or_create_spec now session_id client_id self r self' told :
  served self -> AppState.clients (app self) !! client_id = None ->
  get_or_create now session_id client_id self = (r, self', told) ->
  keeps self self' /\
  match r with Ok session => sessions self' !! session_id = Some session | Err _ => True end.
Proof.
  intros Hs Hc. unfold get_or_create. destruct (sessions self !! session_id) as [session|] eqn:E.
  - intros [= <- <- _]. split; [|done]. split; [done|]. split; [apply table_same|done].
  - destruct (AppState.register now client_id "0.0.0.0:0" (app self)) as [told' a] eqn:Ea.
    assert (Ha : a = (AppState.register now client_id "0.0.0.0:0" (app self)).2) by (by rewrite Ea).
    assert (Hk : forall session, HttpSession.client_id session = client_id ->
      keeps self (set_app a (set_session session_id session self))).
    { intros session Hid. apply put_session; [done|subst a; by apply table_register|].
      rewrite Hid, Ha. cbn. rewrite lookup_insert_eq. eauto. }
    destruct (configured a); intros [= <- <- _]; (split; [by apply Hk|]); [|done].
    cbn. apply lookup_insert_eq.
Qed.

Lemma keeps_trans a b c : keeps a b -> keeps b c -> keeps a c.
Proof.
  intros (_ & H1 & S1) (Hs & H2 & S2). split; [done|]. split; [by eapply table_trans|auto].
Qed.

Lemma handle_keeps io header fresh client_id body self r self' told :
  served self -> AppState.clients (app self) !! client_id = None ->
  handle_mcp_request io header fresh client_id body self = (r, self', told) -> keeps self self'.
Proof.
  intros Hs Hc. unfold handle_mcp_request. set (sid := session_of header fresh).
  destruct (JsonRpcMessage.from_value body) as [m|e];
    [|intros [= _ <- _]; split; [done|split; [apply table_same|done]]].
  destruct (get_or_create (RelayInputs.instant io) sid client_id self) as [[[session|e] s1] told1] eqn:E;
    apply get_or_create_spec in E as [Hk Hin]; try done; [|by intros [= _ <- _]].
  destruct m as [req|resp|notif]; [|by intros [= _ <- _]..].
  destruct (take_request io req session) as [session' queued] eqn:Et. apply take_request_client in Et.
  assert (Hcl : is_Some (AppState.clients (app s1) !! HttpSession.client_id session'))
    by (rewrite Et; by eapply (proj1 Hk)).
  destruct queued; intros [= _ <- _]; (eapply keeps_trans; [exact Hk|]).
  - apply put_session; [apply Hk|by apply table_http_request|]. by apply lookup_alter_is_Some.
  - rewrite set_session_app. apply put_session; [apply Hk|apply table_same|done].
Qed.

Lemma step_keeps self self' : served self -> step self self' -> keeps self self'.
Proof.
  intros Hs H. destruct H as [io header fresh cid body self r self' told Hc H|sid self r self' H
    |given id session session' a told self Hin H|io id session session' self Hin H
    |io id session session' a told self Hin H|now self].
  - by eapply handle_keeps.
  - unfold handle_sse_stream in H. destruct (sessions self !! sid) as [session|] eqn:E; injection H as _ <-.
    + rewrite set_session_app. apply put_session; [done|apply table_same|]. by apply (Hs sid session).
    + split; [done|split; [apply table_same|done]].
  - apply task_start_spec in H as [Hid Ht]. apply put_session; [done|done|]. rewrite Hid. apply Ht. by apply (Hs id session).
  - apply task_request_spec in H. rewrite set_session_app. apply put_session; [done|apply table_same|].
    rewrite H. by apply (Hs id session).
  - pose proof (Hs id session Hin) as Hc. apply task_backend_spec in H as [Hid Ht]; [|done].
    apply put_session; [done|done|]. rewrite Hid. by apply Ht.
  - destruct (Table.tick_clients now (app self)) as [Ht _]. split; [|split; [|done]].
    + intros id session H. cbn [app set_app]. rewrite Ht. by apply (Hs id session).
    + apply table_op; [apply Table.op_tick|]. intros id. cbn [app set_app]. by rewrite Ht.
Qed.

(** A session over HTTP is for ever: whatever the clients ask and whatever
    becomes of the tasks and backends, no session and no client leaves the
    server's tables, and the shared state moves by registrations and counts
    alone.  So the clients of the server only grow in number. *)
Theorem http_sessions_never_leave self self' :
  rtc step self self' -> served self ->
  served self' /\ Table.run [] (app self) (app self') /\
  (forall id, is_Some (sessions self !! id) -> is_Some (sessions self' !! id)) /\
  (size (AppState.clients (app self)) <= size (AppState.clients (app self')))%nat.
Proof.
  intros H Hs. assert (Hk : keeps self self').
  { revert Hs. induction H as [self|a b c Hstep _ IH]; intros Hs; [split; [done|split; [apply table_same|done]]|].
    pose proof (step_keeps _ _ Hs Hstep) as Hk. eapply keeps_trans; [exact Hk|]. apply IH, Hk. }
  destruct Hk as (Hs' & [Hr Hd] & Hsess). split_and!; [done|done|done|].
  rewrite <- !size_dom. apply subseteq_size. intros id. rewrite !elem_of_dom. apply Hd.
Qed.
End whole.

(** ** Restarts *)

Section restarts.
Context `{JT : JsonText, PE : ParseErrors} {TA : TransportApi} {UA : UrlApi}.
Import HttpServer.

(** A local backend that can always be started, whose output ends at once *)
Context (given : Backend.Given) (pid : option Z) (spawns : Backend.spawned given = Ok (pid, [])).
Context (a : AppState.t) (auto : AppState.auto_restart_backend a = true) (listening : AppState.update_tx a = true)
        (no_url : AppState.backend_url a = None) (command : str_is_empty (AppState.backend_command a) = false).

Lemma starts n session :
  HttpSession.task session = Task.Starting n ->
  task_start given session a =
  Some (HttpSession.set_task (Task.Running n (Backend.Process (ProcessBackend.mk pid "" []))) session, a, []).
Proof.
  intros H. unfold task_start. rewrite H, no_url, command. unfold Backend.create_backend_connection.
  rewrite command, spawns. done.
Qed.

(** The backend is created and closes. *)
Definition close_cycle (io : RelayInputs.t) (session : HttpSession.t) : option (HttpSession.t * list ClientUpdate.t) :=
  match task_start given session a with
  | Some (session, _, _) =>
      match task_backend io session a with Some (session, _, told) => Some (session, told) | None => None end
  | None => None
  end.

Fixpoint close_cycles (io : RelayInputs.t) (n : nat) (session : HttpSession.t)
  : option (HttpSession.t * list ClientUpdate.t) :=
  match n with
  | O => Some (session, [])
  | S n =>
      match close_cycle io session with
      | Some (session, told) =>
          match close_cycles io n session with Some (session, more) => Some (session, told ++ more) | None => None end
      | None => None
      end
  end.

Lemma close_cycle_spec io n session :
  HttpSession.task session = Task.Starting n -> n < 5 ->
  exists session', close_cycle io session = Some (session', [ClientUpdate.BackendRestart (HttpSession.client_id session) (n + 1)]) /\
    HttpSession.client_id session' = HttpSession.client_id session /\
    HttpSession.task session' = if n + 1 <? 5 then Task.Starting (n + 1) else Task.Ended.
Proof.
  intros H Hn. unfold close_cycle. rewrite (starts n session H). unfold task_backend. cbn [HttpSession.task HttpSession.set_task].
  cbn [Backend.recv ProcessBackend.recv ProcessBackend.next_message ProcessBackend.stdout]. rewrite auto.
  assert (n <? MAX_RESTARTS = true) as -> by (by apply Z.ltb_lt). cbn [andb]. unfold after_break, AppState.notify.
  rewrite auto, listening. cbn [andb]. eexists. split; [reflexivity|]. split; [done|]. unfold MAX_RESTARTS.
  by destruct (n + 1 <? 5).
Qed.

(** The backend is created, and taking a request fails to write it. *)
Definition send_cycle (io : RelayInputs.t) (session : HttpSession.t) : option HttpSession.t :=
  match task_start given session a with
  | Some (session, _, _) => task_request io session a
  | None => None
  end.

Fixpoint send_cycles (io : RelayInputs.t) (n : nat) (session : HttpSession.t) : option HttpSession.t :=
  match n with
  | O => Some session
  | S n => match send_cycle io session with Some session => send_cycles io n session | None => None end
  end.

Definition bare_session (session : HttpSession.t) : Prop :=
  InterceptorManager.interceptors (HttpSession.interceptor_manager session) = [].

Lemma send_cycle_spec io n session m queue e :
  HttpSession.task session = Task.Starting n -> n < 5 -> HttpSession.queue session = Some (m :: queue) ->
  bare_session session -> RelayInputs.backend_io io = Err e ->
  exists session', send_cycle io session = Some session' /\ HttpSession.task session' = Task.Starting n /\
    HttpSession.queue session' = Some queue /\ bare_session session'.
Proof.
  intros H Hn Hq Hb Hio. unfold send_cycle. rewrite (starts n session H). unfold task_request.
  cbn [HttpSession.task HttpSession.set_task HttpSession.queue]. rewrite Hq. unfold HttpSession.intercept, InterceptorManager.process_message.
  cbn [HttpSession.interceptor_manager HttpSession.set_queue HttpSession.set_task].
  destruct (process_bare (RelayInputs.now io) (RelayInputs.elapsed_ms io) (HttpSession.interceptor_manager session) m Outgoing
    InterceptionMetadata.new Hb) as (mg & -> & Hmg).
  cbn [InterceptionResult.block InterceptionResult.pass_through InterceptionResult.message Backend.send ProcessBackend.send].
  rewrite Hio. unfold after_break. rewrite auto. assert (n <? MAX_RESTARTS = true) as -> by (by apply Z.ltb_lt).
  cbn [andb]. eexists. split; [reflexivity|]. done.
Qed.

(** The bound on restarts is not kept.  A backend that closes at each
    attempt is restarted four times and not five: the fifth restart is announced
    to the user interface, and the task ends instead.  A backend that fails to
    take a request is restarted without being counted, for as many requests as
    wait, and each request is lost. *)
Theorem restarts_are_miscounted io session :
  HttpSession.task session = Task.Starting 0 ->
  (exists s4, close_cycles io 4 session =
     Some (s4, List.map (ClientUpdate.BackendRestart (HttpSession.client_id session)) [1; 2; 3; 4]) /\
     HttpSession.task s4 = Task.Starting 4) /\
  (exists s5, close_cycles io 5 session =
     Some (s5, List.map (ClientUpdate.BackendRestart (HttpSession.client_id session)) [1; 2; 3; 4; 5]) /\
     HttpSession.task s5 = Task.Ended) /\
  (forall queue e, HttpSession.queue session = Some queue -> bare_session session -> RelayInputs.backend_io io = Err e ->
     exists s, send_cycles io (length queue) session = Some s /\ HttpSession.task s = Task.Starting 0 /\
       HttpSession.queue s = Some []).
Proof.
  intros H. split; [|split].
  1, 2: destruct (close_cycle_spec io 0 session H) as (s1 & E1 & I1 & T1); [done|];
    destruct (close_cycle_spec io 1 s1 T1) as (s2 & E2 & I2 & T2); [done|];
    destruct (close_cycle_spec io 2 s2 T2) as (s3 & E3 & I3 & T3); [done|];
    destruct (close_cycle_spec io 3 s3 T3) as (s4 & E4 & I4 & T4); [done|].
  - exists s4. split; [|exact T4]. unfold close_cycles. rewrite E1, E2, E3, E4, I3, I2, I1. done.
  - destruct (close_cycle_spec io 4 s4 T4) as (s5 & E5 & I5 & T5); [done|]. exists s5. split; [|exact T5].
    unfold close_cycles. rewrite E1, E2, E3, E4, E5, I4, I3, I2, I1. done.
  - intros queue e. revert session H. induction queue as [|m queue IH]; intros session H Hq Hb Hio; [by exists session|].
    destruct (send_cycle_spec io 0 session m queue e) as (s1 & E & T1 & Q1 & B1); try done.
    destruct (IH s1 T1 Q1 B1 Hio) as (s & Es & Ts & Qs). exists s. cbn [length send_cycles]. by rewrite E.
Qed.
End restarts.

(** ** Requests and notifications *)

Section posts.
Context `{JT : JsonText, PE : ParseErrors} {TA : TransportApi} {UA : UrlApi}.
Import HttpServer.

(** What waits for the task of a session, and whether a stream of it is open *)
Definition waiting (self : t) (id : string) : list JsonRpcMessage.t :=
  match sessions self !! id with Some s => from_option Datatypes.id [] (HttpSession.queue s) | None => [] end.
Definition open_streams (self : t) (id : string) : nat :=
  match sessions self !! id with Some s => length (HttpSession.streams s) | None => 0 end.

Lemma get_or_create_quiet now session_id client_id self r self' told id :
  get_or_create now session_id client_id self = (r, self', told) ->
  waiting self' id = waiting self id /\ open_streams self' id = open_streams self id.
Proof.
  unfold get_or_create, waiting, open_streams. destruct (sessions self !! session_id) as [s|] eqn:E; [by intros [= _ <- _]|].
  destruct (AppState.register _ _ _ _) as [told' a].
  destruct (configured a); intros [= _ <- _]; cbn;
    (destruct (decide (session_id = id)) as [<-|]; [by rewrite lookup_insert_eq, E|by rewrite lookup_insert_ne]).
Qed.

Lemma take_request_quiet io req session session' queued :
  take_request io req session = (session', queued) ->
  length (HttpSession.streams session') = length (HttpSession.streams session) /\
  exists more, from_option Datatypes.id [] (HttpSession.queue session') =
    from_option Datatypes.id [] (HttpSession.queue session) ++ more /\ (length more <= 1)%nat.
Proof.
  unfold take_request. destruct (http_intercept io (JsonRpcMessage.Request req) Outgoing session) as (r & mg & ->).
  destruct (InterceptionResult.block r); [|destruct (HttpSession.queue _) as [q|] eqn:Eq];
    intros [= <- _]; cbn in *; rewrite ?length_map; (split; [done|]).
  - exists []. rewrite app_nil_r. split; [done|cbn; lia].
  - exists [InterceptionResult.message r]. split; [done|cbn; lia].
  - exists []. rewrite Eq. split; [done|cbn; lia].
Qed.

(** Over HTTP a notification goes nowhere: it is acknowledged, and not
    queued for any backend, so a server never learns that its client is
    initialized.  A request is queued at most once, in its own session alone;
    its answer has an empty body, and neither opens a stream, so that without a
    stream already open whatever comes of the request is lost. *)
Theorem http_notifications_are_dropped io header fresh client_id body m self answer self' told :
  JsonRpcMessage.from_value body = Ok m ->
  handle_mcp_request io header fresh client_id body self = (Ok answer, self', told) ->
  HttpAnswer.body answer = ""%string /\
  (forall id, open_streams self' id = open_streams self id) /\
  match m with
  | JsonRpcMessage.Notification _ =>
      HttpAnswer.status answer = ACCEPTED /\ forall id, waiting self' id = waiting self id
  | JsonRpcMessage.Request _ =>
      HttpAnswer.status answer = OK /\
      forall id, exists more, waiting self' id = waiting self id ++ more /\ (length more <= 1)%nat /\
        (id <> session_of header fresh -> more = [])
  | JsonRpcMessage.Response _ => False
  end.
Proof.
  intros Hv. unfold handle_mcp_request. rewrite Hv. set (sid := session_of header fresh).
  destruct (get_or_create (RelayInputs.instant io) sid client_id self) as [[r s1] told1] eqn:E.
  pose proof (fun id => get_or_create_quiet _ _ _ _ _ _ _ id E) as Hq.
  assert (Hin : match r with Ok session => sessions s1 !! sid = Some session | Err _ => True end).
  { revert E. unfold get_or_create. destruct (sessions self !! sid) eqn:Es; [by intros [= <- <- _]|].
    destruct (AppState.register _ _ _ _). destruct (configured _); intros [= <- <- _]; [|done]. apply lookup_insert_eq. }
  destruct r as [session|e]; [|done]. destruct m as [req|resp|notif]; [|done|].
  - destruct (take_request io req session) as [session' queued] eqn:Et.
    apply take_request_quiet in Et as (Hs & more & Hm & Hl).
    assert (Hall : forall a, HttpAnswer.body answer = ""%string -> HttpAnswer.status answer = OK ->
      self' = set_app a (set_session sid session' s1) -> HttpAnswer.body answer = ""%string /\
      (forall id, open_streams self' id = open_streams self id) /\ HttpAnswer.status answer = OK /\
      forall id, exists more, waiting self' id = waiting self id ++ more /\ (length more <= 1)%nat /\ (id <> sid -> more = [])).
    { intros a Hb Hst ->. split_and!; [done| |done|]; intros id; destruct (Hq id) as [Hw Ho]; rewrite <- ?Hw, <- ?Ho;
        unfold open_streams, waiting; cbn; (destruct (decide (sid = id)) as [<-|Hne];
          [rewrite lookup_insert_eq, Hin|rewrite lookup_insert_ne by done]); [done|done|by exists more|].
      exists []. rewrite app_nil_r. split_and!; [done|cbn; lia|done]. }
    destruct queued; intros [= <- <- _]; by eapply Hall.
  - intros [= <- <- _]. split_and!; [done|intros id; apply Hq|done|intros id; apply Hq].
Qed.
End posts.

(** ** Concrete runs *)

Module DemoHttp.
Import ToyNumbers ToyText ToyUrl Client.Demo DemoRelay.

(** A server that restarts its backend and has a user interface *)
Definition app : AppState.t := AppState.mk ∅ true "server" None None 100 300 true ServerMetrics.default 0 0 0.
Definition server : HttpServer.t := HttpServer.new app None.

Definition body : Value := JsonRpcMessage.to_value note.

Definition noted : Res HttpAnswer.t Z * HttpServer.t * list ClientUpdate.t :=
  HttpServer.handle_mcp_request io (Some "s"%string) "fresh" "a" body server.

Definition answer_of (x : Res HttpAnswer.t Z * HttpServer.t * list ClientUpdate.t) : HttpAnswer.t :=
  match x.1.1 with Ok a => a | Err _ => HttpAnswer.mk 0 [] "" end.

Lemma answer_shape x : is_ok x.1.1 = true -> x = (Ok (answer_of x), x.1.2, x.2).
Proof. by destruct x as [[[a|e] s] u]. Qed.

Lemma http_body_reads : JsonRpcMessage.from_value body = Ok note.
Proof. reflexivity. Qed.

Example noted_ok : is_ok noted.1.1 = true.
Proof. reflexivity. Qed.

Lemma noted_step : rtc step server noted.1.2.
Proof.
  apply rtc_once. apply (step_post io (Some "s"%string) "fresh" "a" body server noted.1.1 noted.1.2 noted.2); [done|].
  unfold noted. by destruct (HttpServer.handle_mcp_request _ _ _ _ _ _) as [[r s] u].
Qed.

Lemma server_served : served server.
Proof. intros id s H. done. Qed.

Definition session : HttpSession.t := HttpSession.mk "a" [] (Some [note; note]) InterceptorManager.new (Task.Starting 0).
Definition broken : RelayInputs.t := RelayInputs.mk 0 0 0 (Err "broken pipe"%string) (Ok tt).
End DemoHttp.

Lemma http_notifications_are_dropped_witness :
  HttpAnswer.status (DemoHttp.answer_of DemoHttp.noted) = ACCEPTED /\ waiting DemoHttp.noted.1.2 "s" = waiting DemoHttp.server "s".
Proof.
  pose proof (http_notifications_are_dropped DemoRelay.io (Some "s"%string) "fresh" "a" DemoHttp.body DemoRelay.note
    DemoHttp.server (DemoHttp.answer_of DemoHttp.noted) DemoHttp.noted.1.2 DemoHttp.noted.2 DemoHttp.http_body_reads
    (DemoHttp.answer_shape DemoHttp.noted DemoHttp.noted_ok)) as (_ & _ & H & Hw).
  split; [exact H|exact (Hw "s"%string)].
Defined.

Lemma http_sessions_never_leave_witness :
  served DemoHttp.noted.1.2 /\ Table.run [] (HttpServer.app DemoHttp.server) (HttpServer.app DemoHttp.noted.1.2).
Proof.
  pose proof (http_sessions_never_leave DemoHttp.server DemoHttp.noted.1.2 DemoHttp.noted_step DemoHttp.server_served)
    as (H1 & H2 & _).
  split; [exact H1|exact H2].
Defined.

Lemma restarts_are_miscounted_witness :
  exists s, send_cycles DemoRelay.given DemoHttp.app DemoHttp.broken 2 DemoHttp.session = Some s /\
    HttpSession.task s = Task.Starting 0 /\ HttpSession.queue s = Some [].
Proof.
  exact (proj2 (proj2 (restarts_are_miscounted DemoRelay.given (Some 4242) eq_refl DemoHttp.app eq_refl eq_refl eq_refl
    eq_refl DemoHttp.broken DemoHttp.session eq_refl)) [DemoRelay.note; DemoRelay.note] "broken pipe"%string eq_refl eq_refl eq_refl).
Defined.
