(* ===== verification/HttpHandler.v ===== *)
(** The HTTP handler ([acdp-transport/src/http_handler.rs]): the monitor's
    queries, answered by an upstream HTTP server.  A query becomes a call of a
    tool, runs through the interceptors and goes out over the MCP client, which
    holds the same manager.  The clock's readings are inputs. *)

From S2P Require Import Prelude McpError Messages Interceptor Transform Text Common Routing Predictor Gepa Session LlmInterceptor IpcServer CoreTransport Client HttpServers Backend.

(** What the clock gives to a query: the interceptors' delay and the time to
    the answer, in nanoseconds *)
Module QueryTimes.
Record t : Type := mk { delay : Z; elapsed : Z }.
End QueryTimes.

Module HttpHandler.
Section handler.
Context `{JT : JsonText, UC : UnicodeCase, SD : StrDebug} {TA : TransportApi} {UA : UrlApi}.

(** The manager is in the client. *)
Record t : Type := mk {
  proxy_id : ProxyId;
  ipc_client : bool;
  session_id : SessionId;
  llm_interceptor : bool;
  current_routing_mode : RoutingMode.t;
  routing_mode_rx : bool;
  available_tools : option (list string)
}.

Definition set_tools (tools : option (list string)) (self : t) : t :=
  mk (proxy_id self) (ipc_client self) (session_id self) (llm_interceptor self) (current_routing_mode self)
     (routing_mode_rx self) tools.
Definition set_mode (mode : RoutingMode.t) (self : t) : t :=
  mk (proxy_id self) (ipc_client self) (session_id self) (llm_interceptor self) mode
     (routing_mode_rx self) (available_tools self).
Definition drop_routing_rx (self : t) : t :=
  mk (proxy_id self) (ipc_client self) (session_id self) (llm_interceptor self) (current_routing_mode self)
     false (available_tools self).

(** The handler and its client *)
Definition World : Type := t * McpClient.t.

(** [json!({})] *)
Definition empty_object : Value := VObject [].

Definition listed_tools (response : JsonRpcResponse.t) : list string :=
  match JsonRpcResponse.result response with
  | Some result =>
      match TuiQueryCompletion.array_of (get result "tools") with
      | Some tools => TuiQueryCompletion.tool_names tools
      | None => []
      end
  | None => []
  end.

Definition cached_tool (self : t) : option string :=
  match available_tools self with Some (tool :: _) => Some tool | _ => None end.

(** The first tool, from the cache or from the server.  A failing request gives
    no tool, and there is no other error; [None] when the client panics. *)
Definition get_available_tool (w : World) : option (option string * World) :=
  let '(self, client) := w in
  match cached_tool self with
  | Some tool => Some (Some tool, w)
  | None =>
      match McpClient.send_request "tools/list" empty_object client with
      | None => None
      | Some (Err _, client) => Some (None, (self, client))
      | Some (Ok response, client) =>
          let tools := listed_tools response in
          Some (head tools, (set_tools (match tools with [] => None | _ => Some tools end) self, client))
      end
  end.

Definition tool_call (tool_name query : string) : Value :=
  VObject [("arguments"%string, VObject [("input"%string, VString query)]); ("name"%string, VString tool_name)].

Definition no_tools : string :=
  "No tools available from MCP server. Try 'tools/list' to see available tools.".

(** The method and parameters of a query: none when there is no tool to call *)
Definition query_call (job : TuiQueryJob.t) (w : World) : option (option (string * option Value) * World) :=
  match TuiQueryJob.mcp_method job with
  | Some mcp_method =>
      Some (Some (mcp_method, Some (match TuiQueryJob.mcp_params job with Some p => p | None => empty_object end)), w)
  | None =>
      let query := to_lowercase (TuiQueryJob.query job) in
      if str_contains "tools" query && str_contains "available" query
      then Some (Some ("tools/list"%string, Some empty_object), w)
      else
        match get_available_tool w with
        | None => None
        | Some (Some tool_name, w) =>
            Some (Some ("tools/call"%string, Some (tool_call tool_name (TuiQueryJob.query job))), w)
        | Some (None, w) => Some (None, w)
        end
  end.

(** What is to be sent after the interceptors: a call, or [tools/list] as a
    last resort *)
Inductive Final : Type :=
| Call (method : string) (params : Value)
| LastResort.

(** The interceptors decide on the method and the tool; the arguments are the
    query again. *)
Definition final_call (job : TuiQueryJob.t) (message : JsonRpcMessage.t) (w : World) : option (Final * World) :=
  let query := TuiQueryJob.query job in
  match message with
  | JsonRpcMessage.Request modified_req =>
      let method := JsonRpcRequest.method modified_req in
      if String.eqb method "tools/list" then Some (Call method empty_object, w)
      else
        let named :=
          match JsonRpcRequest.params modified_req with
          | Some p => string_of (get p "name")
          | None => None
          end in
        match named with
        | Some name => Some (Call method (tool_call name query), w)
        | None =>
            match get_available_tool w with
            | None => None
            | Some (Some name, w) => Some (Call method (tool_call name query), w)
            | Some (None, w) => Some (LastResort, w)
            end
        end
  | _ =>
      match get_available_tool w with
      | None => None
      | Some (Some tool_name, w) => Some (Call "tools/call" (tool_call tool_name query), w)
      | Some (None, w) => Some (Call "tools/list" empty_object, w)
      end
  end.

(** [{:?}] of the reasoning *)
Definition debug_option (s : option string) : string :=
  match s with Some s => "Some(" +:+ str_debug s +:+ ")" | None => "None" end.

Definition completed (times : QueryTimes.t) (response : JsonRpcResponse.t) : TuiQueryCompletion.t :=
  TuiQueryCompletion.with_delay (TuiQueryCompletion.from_response response (QueryTimes.elapsed times))
    (Some (f64_mul (as_secs_f64 (QueryTimes.delay times)) (f64_of_Z 1000))).

(** Sending the final call; the text of a failure has a prefix. *)
Definition send_final (times : QueryTimes.t) (prefix method : string) (params : Value) (w : World)
  : option (TuiQueryCompletion.t * World) :=
  let '(self, client) := w in
  match McpClient.send_request method params client with
  | None => None
  | Some (Ok response, client) => Some (completed times response, (self, client))
  | Some (Err e, client) => Some (TuiQueryCompletion.failed (prefix +:+ error_text e), (self, client))
  end.

(** The request of a query *)
Definition query_request (job : TuiQueryJob.t) (method : string) (params : option Value) : JsonRpcRequest.t :=
  JsonRpcRequest.mk "2.0" (RequestId.String (TuiQueryJob.correlation_id job)) method params.

(** The completion a query's responder gets: nothing, and an error of the
    handler, when the manager fails.  A client that is not ready does not
    become ready while the handler waits for it. *)
Definition process_tui_query (times : QueryTimes.t) (job : TuiQueryJob.t) (w : World)
  : option (Res TuiQueryCompletion.t string * World) :=
  if negb (McpClient.is_ready w.2)
  then Some (Ok (TuiQueryCompletion.failed "MCP client not ready (initialization timeout)"), w)
  else
    match query_call job w with
    | None => None
    | Some (None, w) => Some (Ok (TuiQueryCompletion.failed no_tools), w)
    | Some (Some (method, params), (self, client)) =>
        let request := query_request job method params in
        match intercept_for (session_id self) (JsonRpcMessage.Request request) Outgoing client with
        | (Err e, client) => Some (Err (error_text e), (self, client))
        | (Ok result, client) =>
            if InterceptionResult.block result
            then Some (Ok (TuiQueryCompletion.failed
                   ("Query blocked by interceptor: " +:+ debug_option (InterceptionResult.reasoning result))),
                   (self, client))
            else
              match final_call job (InterceptionResult.message result) (self, client) with
              | None => None
              | Some (Call method params, w) =>
                  match send_final times "" method params w with Some (c, w) => Some (Ok c, w) | None => None end
              | Some (LastResort, w) =>
                  match send_final times "Failed to get available tools: " "tools/list" empty_object w with
                  | Some (c, w) => Some (Ok c, w)
                  | None => None
                  end
              end
        end
    end.

(** *** The connection *)

Definition after_retries (e : McpError) : string :=
  "Failed to connect to upstream HTTP server after " +:+ pretty (Z.of_nat MAX_RETRIES) +:+ " retries: " +:+ error_text e.

(** The client, with the manager and the handler's session *)
Definition prepare (manager : InterceptorManager.t) (session : SessionId) (client : McpClient.t) : McpClient.t :=
  McpClient.set_session_id (Some session) (McpClient.set_interceptor_manager manager client).

Definition connect (manager : InterceptorManager.t) (session : SessionId) (outcomes : list (McpResult Conn))
    (config : McpResult TransportConfig.t) : option (Res McpClient.t string * list Z) :=
  match config with
  | Err e => Some (Err (error_text e), [])
  | Ok _ => Upstream.connect_with_retries after_retries outcomes (prepare manager session)
  end.

(** *** Routing modes *)

Definition apply_routing_mode (mode : RoutingMode.t) (self : t) : list IpcMessage.t * t :=
  (if ipc_client self then [IpcMessage.RoutingModeChanged (proxy_id self) (RoutingMode.to_string mode)] else [],
   set_mode mode self).
End handler.
End HttpHandler.

(** ** Totality *)

Section totality.
Context `{JT : JsonText, UC : UnicodeCase, SD : StrDebug} {TA : TransportApi} {UA : UrlApi}.
Import HttpHandler.

(** A call of the client keeps its configuration and answers. *)
Lemma request_answers method params (client : McpClient.t) :
  McpClient.sane (McpClient.config client) ->
  exists r client', McpClient.send_request method params client = Some (r, client') /\
    McpClient.config client' = McpClient.config client.
Proof.
  intros Hs. unfold McpClient.send_request, McpClient.bind, McpClient.get. destruct (McpClient.is_ready client); cbn [negb].
  - destruct (McpClient.send_request_with_timeout_spec method params None client Hs) as (r & c & calls & k & -> & (Hc & _) & _).
    by exists r, c.
  - by eexists _, client.
Qed.

Lemma intercept_for_answers session m d (client : McpClient.t) :
  exists r client', intercept_for session m d client = (Ok r, client') /\
    McpClient.config client' = McpClient.config client.
Proof.
  unfold intercept_for. destruct (conn_clock (McpClient.transport client)) as [[now elapsed] w].
  unfold InterceptorManager.process_message_with_metadata.
  destruct (InterceptorManager.run _ _ _) as [[l|r] ics]; by eexists _, _.
Qed.

Definition sane (w : World) : Prop := McpClient.sane (McpClient.config w.2).

(** What a computation of the handler does to its world *)
Definition answers {A} (w : World) (x : option (A * World)) : Prop := exists a w', x = Some (a, w') /\ sane w'.

Lemma available_answers w : sane w -> answers w (get_available_tool w).
Proof.
  destruct w as [self client]. intros Hs. unfold get_available_tool. destruct (cached_tool self); [by eexists _, _|].
  destruct (request_answers "tools/list" empty_object client Hs) as ([response|e] & c & -> & Hc);
    (eexists _, _; split; [reflexivity|]); unfold sane; cbn; by rewrite Hc.
Qed.

Lemma call_answers job w : sane w -> answers w (query_call job w).
Proof.
  intros Hs. unfold query_call. destruct (TuiQueryJob.mcp_method job); [by eexists _, _|].
  destruct (_ && _); [by eexists _, _|]. destruct (available_answers w Hs) as ([tool|] & w' & -> & Hs'); by eexists _, _.
Qed.

Lemma final_answers job m w : sane w -> answers w (final_call job m w).
Proof.
  intros Hs. destruct (available_answers w Hs) as (tool & w' & E & Hs').
  unfold final_call. destruct m as [req|resp|notif]; [|rewrite E; destruct tool; by eexists _, _..].
  destruct (String.eqb _ _); [by eexists _, _|].
  destruct (match JsonRpcRequest.params req with Some p => _ | None => _ end); [by eexists _, _|].
  rewrite E. destruct tool; by eexists _, _.
Qed.

Lemma send_answers times prefix method params w : sane w -> answers w (send_final times prefix method params w).
Proof.
  destruct w as [self client]. intros Hs. unfold send_final.
  destruct (request_answers method params client Hs) as ([response|e] & c & -> & Hc);
    (eexists _, _; split; [reflexivity|]); unfold sane; cbn; by rewrite Hc.
Qed.

Lemma query_answers times job w :
  sane w -> exists c w', process_tui_query times job w = Some (Ok c, w') /\ sane w'.
Proof.
  intros Hs. unfold process_tui_query. destruct (McpClient.is_ready w.2); cbn [negb]; [|by eexists _, _].
  destruct (call_answers job w Hs) as ([[method params]|] & [self client] & -> & Hs1); [|by eexists _, _].
  destruct (intercept_for_answers (session_id self) (JsonRpcMessage.Request (query_request job method params)) Outgoing client)
    as (r & c1 & -> & Hc). assert (Hs2 : sane (self, c1)) by (unfold sane in *; cbn in *; by rewrite Hc).
  destruct (InterceptionResult.block r); [by eexists _, _|].
  destruct (final_answers job (InterceptionResult.message r) _ Hs2) as ([m p|] & w2 & -> & Hs3).
  - destruct (send_answers times "" m p w2 Hs3) as (c & w3 & -> & Hs4). by eexists _, _.
  - destruct (send_answers times "Failed to get available tools: " "tools/list" empty_object w2 Hs3) as (c & w3 & -> & Hs4).
    by eexists _, _.
Qed.
End totality.

(** ** The loop *)

Section loop.
Context `{W : LlmWorld, JT : !JsonText, JF : !JsonFloats, UC : UnicodeCase, SD : StrDebug, UT : UuidText} {TA : TransportApi} {UA : UrlApi}.
Import HttpHandler.

(** The pending routing modes, on the handler and on the LLM interceptor in the
    manager's list *)
Inductive modes_routed : World -> list RoutingMode.t -> list IpcMessage.t -> World -> Prop :=
| modes_routed_nil w : modes_routed w [] [] w
| modes_disconnected self client :
    routing_mode_rx self = true -> modes_routed (self, client) [] [] (drop_routing_rx self, client)
| modes_next self client mode modes told self1 ics more w' :
    routing_mode_rx self = true ->
    apply_routing_mode mode self = (told, self1) ->
    (if llm_interceptor self then
       shared_update (fun llm => LlmInterceptor.set_routing_mode llm mode)
         (InterceptorManager.interceptors (McpClient.interceptor_manager client)) ics
     else ics = InterceptorManager.interceptors (McpClient.interceptor_manager client)) ->
    modes_routed (self1, McpClient.set_interceptor_manager
                     (InterceptorManager.mk ics (InterceptorManager.stats (McpClient.interceptor_manager client))) client)
      modes more w' ->
    modes_routed (self, client) (mode :: modes) (told ++ more) w'.

(** [handle_communication] once connected: the queries taken and the
    completions given.  A closed channel gives no query, at once and for ever. *)
Inductive serves : World -> list TuiQueryJob.t -> list (nat * TuiQueryCompletion.t) -> World -> Prop :=
| serves_shutdown w modes told w' : modes_routed w modes told w' -> serves w [] [] w'
| serves_query w modes told w1 times job r w2 jobs given w' :
    modes_routed w modes told w1 -> process_tui_query times job w1 = Some (r, w2) -> serves w2 jobs given w' ->
    serves w (job :: jobs)
      (match r with Ok c => (TuiQueryJob.response_tx job, c) :: given | Err _ => given end) w'
| serves_nothing w modes told w1 jobs given w' :
    modes_routed w modes told w1 -> serves w1 jobs given w' -> serves w jobs given w'.

Lemma modes_routed_sane w modes told w' : modes_routed w modes told w' -> sane w -> sane w'.
Proof. induction 1; auto. Qed.

(** C33: every query of the monitor is completed exactly once over HTTP, in the
    order of arrival: whatever the server, the interceptors and the routing
    modes do, a query that is taken always comes to a completion, an answer or
    an error, and no responder is left or used twice. *)
Theorem http_queries_are_completed w jobs given w' :
  serves w jobs given w' -> sane w ->
  List.map fst given = List.map TuiQueryJob.response_tx jobs /\ sane w' /\
  forall times job, exists c w'', process_tui_query times job w' = Some (Ok c, w'').
Proof.
  induction 1 as [w modes told w' Hr|w modes told w1 times job r w2 jobs given w' Hr Hq _ IH|w modes told w1 jobs given w' Hr _ IH];
    intros Hs; apply modes_routed_sane in Hr; [|exact Hs| |exact Hs| |exact Hs].
  - split_and!; [done|done|]. intros times job. destruct (query_answers times job w' Hr) as (c & w'' & E & _). by exists c, w''.
  - destruct (query_answers times job w1 Hr) as (c & w3 & E & Hs3). rewrite E in Hq. injection Hq as <- <-.
    destruct (IH Hs3) as (Hg & Hs' & Ht). split_and!; [by cbn; rewrite Hg|done|done].
  - by apply IH.
Qed.
End loop.

(** ** What goes out *)

Section sent.
Context `{JN : JsonNumbers} {TA : TransportApi}.
Import McpClient.

(** The calls of the transport a request makes: the request itself, at least
    once, and pauses *)
Definition only_sends (request : JsonRpcRequest.t) (self self' : McpClient.t) : Prop :=
  exists calls, log self' = log self ++ calls /\ In (SentRequest request) calls /\
    Forall (fun c => c = SentRequest request \/ exists d, c = Slept d) calls.

Lemma intercepted_log m d self :
  bare self -> exists self', intercepted m d self = Some (Ok (InterceptionResult.pass_through m), self') /\
    bare self' /\ log self' = log self.
Proof.
  intros Hb. unfold intercepted. destruct (conn_clock (transport self)) as [[now elapsed] w].
  destruct (process_bare now elapsed (interceptor_manager self) m d (interception_metadata self) Hb) as (mg & -> & Hm).
  eexists. split; [reflexivity|]. split; [exact Hm|]. apply app_nil_r.
Qed.

Lemma single_sends request timeout self r self' :
  bare self -> send_single_request request timeout self = Some (r, self') ->
  bare self' /\ only_sends request self self'.
Proof.
  intros Hb. unfold send_single_request, bind.
  destruct (intercepted_log (JsonRpcMessage.Request request) Outgoing self Hb) as (s1 & -> & Hb1 & Hl1).
  cbn [InterceptionResult.block InterceptionResult.pass_through InterceptionResult.message]. unfold on_transport.
  assert (Hone : Forall (fun c => c = SentRequest request \/ exists d, c = Slept d) [SentRequest request])
    by (constructor; [by left|constructor]).
  destruct (conn_send_request request (Some timeout) (transport s1)) as [[response|e] w]; cbn [lift ret fail].
  - cbn [modify]. set (s2 := set_stats ClientStats.sent_request _).
    destruct (intercepted_log (JsonRpcMessage.Response response) Incoming s2 Hb1) as (s3 & -> & Hb3 & Hl3).
    intros [= _ <-]. split; [done|]. exists [SentRequest request]. rewrite Hl3. cbn. rewrite Hl1. by split_and!; [|left|].
  - intros [= _ <-]. split; [done|]. exists [SentRequest request]. cbn. rewrite Hl1. by split_and!; [|left|].
Qed.

Lemma attempts_send request timeout base n : forall attempt self r self',
  bare self -> attempts request timeout base n attempt self = Some (r, self') ->
  bare self' /\ only_sends request self self'.
Proof.
  induction n as [|n IH]; intros attempt self r self' Hb; cbn [attempts];
    destruct (send_single_request request timeout self) as [[[response|e] s]|] eqn:E; try done;
    apply single_sends in E as [Hs Ho]; try done.
  - intros [= _ <-]. by destruct (attempt >? 0).
  - intros [= _ <-]. done.
  - intros [= _ <-]. by destruct (attempt >? 0).
  - unfold bind, sleep_before_retry. destruct (retry_delay base attempt) as [d|]; [|done]. cbn [modify].
    intros (Hb' & calls' & Hl' & _ & Hf')%IH; [|done]. split; [done|]. destruct Ho as (calls & Hl & Hin & Hf).
    exists (calls ++ Slept d :: calls'). split_and!.
    + rewrite Hl'. cbn. by rewrite Hl, <- !app_assoc.
    + apply in_or_app. by left.
    + apply Forall_app. split; [done|]. constructor; [right; by exists d|done].
Qed.

Lemma send_request_sends method params self r self' :
  bare self -> is_ready self = true -> send_request method params self = Some (r, self') ->
  exists request, JsonRpcRequest.method request = method /\ JsonRpcRequest.params request = Some params /\
    only_sends request self self'.
Proof.
  intros Hb Hr. unfold send_request, bind, get. rewrite Hr. cbn [negb].
  unfold send_request_with_timeout, bind, generate_request_id, get. unfold send_request_with_retries, bind, get.
  intros [_ Ho]%attempts_send; [|done]. eexists. split_and!; [| |exact Ho]; done.
Qed.
End sent.

Section structured.
Context `{JT : JsonText, UC : UnicodeCase, SD : StrDebug} {TA : TransportApi} {UA : UrlApi}.
Import HttpHandler.

Lemma intercept_for_passes session m d (client : McpClient.t) :
  bare client -> exists client', intercept_for session m d client = (Ok (InterceptionResult.pass_through m), client') /\
    bare client' /\ McpClient.log client' = McpClient.log client /\ McpClient.is_ready client' = McpClient.is_ready client.
Proof.
  intros Hb. unfold intercept_for. destruct (conn_clock (McpClient.transport client)) as [[now elapsed] w].
  destruct (process_bare now elapsed (McpClient.interceptor_manager client) m d
    (InterceptionMetadata.with_session_id InterceptionMetadata.new session) Hb) as (mg & -> & Hm).
  eexists. split; [reflexivity|]. split_and!; [exact Hm|apply app_nil_r|done].
Qed.

(** The parameters that go out for a structured request *)
Definition forwarded_params (method name : string) : Value :=
  if String.eqb method "tools/list" then VObject []
  else VObject [("arguments"%string, VObject [("input"%string, VString method)]); ("name"%string, VString name)].

(** A structured request of the monitor loses its arguments over HTTP.  The
    request with a method and parameters that name a tool goes out under its
    method, but only the name is kept of the parameters, and the tool's
    argument [input] is the method's own name; of a list of tools no parameter
    is kept, such as the position to continue from. *)
Theorem structured_requests_lose_arguments (server : ProxyIpcServer.t) responder answer stamp corr times job
    method params name id self (client : McpClient.t) r w' :
  In (ProxyIpcServer.Queue job)
    (ProxyIpcServer.handle_message server
       (IpcEnvelope.mk _ (IpcMessage.TuiMcpRequest method (Some params) id) stamp corr) responder (Ok tt) answer) ->
  string_of (get params "name") = Some name -> bare client -> McpClient.is_ready client = true ->
  process_tui_query times job (self, client) = Some (r, w') ->
  exists request, JsonRpcRequest.method request = method /\
    JsonRpcRequest.params request = Some (forwarded_params method name) /\ only_sends request client w'.2.
Proof.
  intros Hin Hname Hb Hr. assert (Hjob : job = TuiQueryJob.mk id method (Some method) (Some params) responder).
  { unfold ProxyIpcServer.handle_message in Hin. cbn in Hin. destruct (ProxyIpcServer.query_tx server).
    - destruct Hin as [[= <-]|Hin]; [done|]. destruct answer; [|done]. by destruct Hin.
    - destruct Hin as [Hin|[]]. done. }
  subst job. unfold process_tui_query. cbn [snd]. rewrite Hr. cbn [negb query_call TuiQueryJob.mcp_method TuiQueryJob.mcp_params].
  destruct (intercept_for_passes (session_id self) (JsonRpcMessage.Request (query_request
    (TuiQueryJob.mk id method (Some method) (Some params) responder) method (Some params))) Outgoing client Hb)
    as (c1 & -> & Hb1 & Hl1 & Hr1).
  cbn [InterceptionResult.block InterceptionResult.pass_through InterceptionResult.message final_call JsonRpcRequest.method query_request].
  assert (Hfin : forall p x, send_final times "" method p (self, c1) = Some x -> exists request,
    JsonRpcRequest.method request = method /\ JsonRpcRequest.params request = Some p /\ only_sends request client x.2.2).
  { intros p x. unfold send_final. destruct (McpClient.send_request method p c1) as [[[response|e] c2]|] eqn:E; [| |done];
      intros [= <-]; (apply send_request_sends in E as (request & Hm & Hp & calls & Hl & Hi & Hf); [|done|by rewrite Hr1]);
      exists request; split_and!; try done; exists calls; cbn [snd]; by rewrite Hl, Hl1. }
  unfold forwarded_params. destruct (String.eqb method "tools/list").
  - destruct (send_final times "" method empty_object (self, c1)) as [[c w]|] eqn:E; [|done].
    intros [= _ <-]. by apply (Hfin _ (c, w)).
  - cbn [JsonRpcRequest.params query_request]. rewrite Hname. cbn [TuiQueryJob.query].
    destruct (send_final times "" method (tool_call name method) (self, c1)) as [[c w]|] eqn:E; [|done].
    intros [= _ <-]. by apply (Hfin _ (c, w)).
Qed.
End structured.

(** ** Instances of the hypotheses *)

Module DemoHandler.
Import ToyNumbers ToyText ToyUrl DemoWorld DemoLlm Client.Demo.

Definition handler : HttpHandler.t :=
  HttpHandler.mk "proxy" true "session" false RoutingMode.Bypass true None.
Definition start : HttpHandler.World := (handler, ready []).
Definition times : QueryTimes.t := QueryTimes.mk 0 0.

Definition params : Value := VObject [("arguments"%string, VObject [("text"%string, VString "hi")]); ("name"%string, VString "echo")].
Definition job : TuiQueryJob.t := TuiQueryJob.mk "q" "tools/call" (Some "tools/call"%string) (Some params) 5.

Definition result : option (Res TuiQueryCompletion.t string * HttpHandler.World) := HttpHandler.process_tui_query times job start.

Lemma start_sane : sane start.
Proof. exact Client.Demo.default_sane. Qed.

Definition ended (x : option (Res TuiQueryCompletion.t string * HttpHandler.World)) : HttpHandler.World :=
  match x with Some (_, w) => w | None => start end.
Definition given (x : option (Res TuiQueryCompletion.t string * HttpHandler.World)) : TuiQueryCompletion.t :=
  match x with Some (Ok c, _) => c | _ => TuiQueryCompletion.failed "" end.

Lemma result_shape : HttpHandler.process_tui_query times job start = Some (Ok (given result), ended result).
Proof.
  destruct (query_answers times job start start_sane) as (c & w & E & _). unfold result. by rewrite E.
Qed.

Lemma served : serves start [job] [(5%nat, given result)] (ended result).
Proof.
  apply (serves_query start [] [] start times job (Ok (given result)) (ended result) [] []); [constructor|exact result_shape|].
  eapply serves_shutdown. constructor.
Qed.

Definition server : ProxyIpcServer.t := ProxyIpcServer.mk true true.
End DemoHandler.

Lemma http_queries_are_completed_witness :
  List.map fst [(5%nat, DemoHandler.given DemoHandler.result)] = [TuiQueryJob.response_tx DemoHandler.job].
Proof.
  exact (proj1 (http_queries_are_completed DemoHandler.start [DemoHandler.job]
    [(5%nat, DemoHandler.given DemoHandler.result)] (DemoHandler.ended DemoHandler.result) DemoHandler.served DemoHandler.start_sane)).
Defined.

(** The text of the call is lost. *)
Lemma structured_requests_lose_arguments_witness :
  exists request : JsonRpcRequest.t, JsonRpcRequest.method request = "tools/call"%string /\
    JsonRpcRequest.params request = Some (HttpHandler.tool_call "echo" "tools/call").
Proof.
  destruct (structured_requests_lose_arguments DemoHandler.server 5 None 0 None DemoHandler.times DemoHandler.job
    "tools/call" DemoHandler.params "echo" "q" DemoHandler.handler (Client.Demo.ready [])
    (Ok (DemoHandler.given DemoHandler.result)) (DemoHandler.ended DemoHandler.result)
    (or_introl eq_refl) eq_refl eq_refl eq_refl DemoHandler.result_shape) as (request & Hm & Hp & _).
  exists request. split; [exact Hm|exact Hp].
Defined.
