(* ===== verification/ModelConfig.v ===== *)
(** The configuration ([acdp-llm/src/config.rs]) with the paths it expands, and
    the part of [std::path] the model manager uses.  A path is its components,
    as the standard library compares paths. *)

From S2P Require Import Prelude Transform Text Routing.

(** ** Paths *)

Definition slash : Ascii.ascii := "/"%char.

(** [s.split(c)]: at least one part *)
Fixpoint split_on (c : Ascii.ascii) (s : string) : list string :=
  match s with
  | EmptyString => [""%string]
  | String d s =>
      if Ascii.eqb d c then ""%string :: split_on c s
      else match split_on c s with
           | part :: parts => String d part :: parts
           | [] => [String d EmptyString]
           end
  end.

(** [s.replace(c, by)] for a character *)
Fixpoint replace_char (c : Ascii.ascii) (by_ s : string) : string :=
  match s with
  | EmptyString => EmptyString
  | String d s => (if Ascii.eqb d c then by_ else String d EmptyString) +:+ replace_char c by_ s
  end.

(** [s.ends_with(p)] *)
Fixpoint ends_with (p s : string) : bool :=
  String.eqb p s || match s with String _ s => ends_with p s | EmptyString => false end.

Module PathBuf.
Record t : Type := mk { absolute : bool; parts : list string }.

#[global] Instance t_eq_dec : EqDecision t.
Proof. solve_decision. Defined.

Definition empty : t := mk false [].

Definition normal (part : string) : bool := negb (str_is_empty part) && negb (String.eqb part ".").

Definition leads_here (parts : list string) : bool :=
  match parts with part :: _ => String.eqb part "." | [] => false end.

(** [Path::components]: a leading [.] stays in a relative path. *)
Definition of_string (s : string) : t :=
  let ps := split_on slash s in
  mk (starts_with "/" s) ((if leads_here ps then ["."%string] else []) ++ List.filter normal ps).

Definition join (self : t) (p : string) : t :=
  let q := of_string p in
  if absolute q then q
  else
    let inside := absolute self || negb (bool_decide (parts self = [])) in
    mk (absolute self) (parts self ++ (if leads_here (parts q) && inside then tail (parts q) else parts q)).

Definition to_string (self : t) : string :=
  (if absolute self then "/" else "") +:+ Prelude.join "/" (parts self).

Definition file_name (self : t) : option string :=
  match last (parts self) with
  | Some name => if String.eqb name "." || String.eqb name ".." then None else Some name
  | None => None
  end.

(** Behind the last dot, and before it unless it begins the name *)
Definition split_at_dot (name : string) : option (string * string) :=
  match rev (split_on "."%char name) with
  | after :: (_ :: _) as before =>
      let before := Prelude.join "." (rev (tail before)) in
      if str_is_empty before then None else Some (before, after)
  | _ => None
  end.

Definition stem_of (name : string) : string :=
  match split_at_dot name with Some (stem, _) => stem | None => name end.

Definition file_stem (self : t) : option string := option_map stem_of (file_name self).

Definition extension (self : t) : option string :=
  match file_name self with
  | Some name => option_map snd (split_at_dot name)
  | None => None
  end.

Definition with_extension (self : t) (ext : string) : t :=
  match file_name self with
  | Some name =>
      mk (absolute self)
         (removelast (parts self) ++ [stem_of name +:+ (if str_is_empty ext then "" else "." +:+ ext)])
  | None => self
  end.
End PathBuf.

(** ** The configuration *)

Module LiteRTBackend.
Inductive t : Type := Cpu | Gpu.
End LiteRTBackend.

Module ModelConfig.
Record t : Type := mk { preferred_model : option string; cache_dir : string }.
Definition default : t := mk None "~/.litert-lm/models".
End ModelConfig.

Module LlmConfig.
Record t : Type := mk {
  backend : string;
  temperature : f32;
  max_tokens : nat;
  database_path : string;
  routing_mode : string;
  semantic_routing : bool;
  semantic_model_path : option string
}.

Definition default_database_path : string := "~/.local/share/assist-mcp/llm.sqlite".
Definition default_routing_mode : string := "hybrid".
Definition default_semantic_model_path : option string :=
  Some "~/.litert-lm/models/gemma3-1b-it-int4.litertlm"%string.

Definition default : t :=
  mk "gpu" (f32_ratio 7 10) 1000 default_database_path default_routing_mode false default_semantic_model_path.

Definition get_routing_mode (self : t) : LlmResult RoutingMode.t :=
  map_err LlmError.ConfigError (RoutingMode.from_str (routing_mode self)).
End LlmConfig.

Module TlsConfig.
Record t : Type := mk {
  enabled : bool;
  domains : list string;
  acme_directory : string;
  challenge_type : string;
  email : option string;
  dns_provider : option string;
  dns_credentials : option string;
  cert_dir : string;
  use_staging : bool
}.

Definition default : t :=
  mk false [] "https://acme-v02.api.letsencrypt.org/directory" "http-01" None None None "./certs" false.
End TlsConfig.

Module McpServerConfig.
Record t : Type := mk {
  enabled : bool;
  bind_address : string;
  http_bind_address : string;
  backend_command : string;
  backend_url : option string;
  backend_transport : option string;
  server_bind_addr : option string;
  max_concurrent_clients : nat;
  connection_timeout_secs : Z;
  auto_restart_backend : bool;
  tls : TlsConfig.t
}.

Definition default : t := mk false "0.0.0.0:9000" "" "" None None None 100 300 false TlsConfig.default.
End McpServerConfig.

Module AppConfig.
Record t : Type := mk { model : ModelConfig.t; llm : LlmConfig.t; mcp_server : McpServerConfig.t }.

Definition default : t := mk ModelConfig.default LlmConfig.default McpServerConfig.default.

Section paths.
(** [dirs::home_dir()] *)
Context (home_dir : option PathBuf.t).

Definition home : LlmResult PathBuf.t := ok_or home_dir (LlmError.ConfigError "Cannot determine home directory").

Definition config_path : LlmResult PathBuf.t :=
  let? home := home in
  Ok (PathBuf.join (PathBuf.join (PathBuf.join home ".config") "assist-mcp") "config.toml").

(** [~user] is taken for a directory of the home directory. *)
Definition expand_path (path : string) : LlmResult PathBuf.t :=
  match drop_prefix "~/" path with
  | Some rest => let? home := home in Ok (PathBuf.join home rest)
  | None =>
      match drop_prefix "~" path with
      | Some rest => let? home := home in Ok (PathBuf.join home rest)
      | None => Ok (PathBuf.of_string path)
      end
  end.

Definition cache_dir (self : t) : LlmResult PathBuf.t := expand_path (ModelConfig.cache_dir (model self)).
Definition database_path (self : t) : LlmResult PathBuf.t := expand_path (LlmConfig.database_path (llm self)).

(** [LlmConfig::semantic_model_path] *)
Definition semantic_model_path (self : LlmConfig.t) : LlmResult (option PathBuf.t) :=
  match LlmConfig.semantic_model_path self with
  | Some path => let? path := expand_path path in Ok (Some path)
  | None => Ok None
  end.

(** [load], with what is found at the path: nothing, or the outcomes of reading
    and parsing it; the default is then written, as [saved] says. *)
Definition load (found : option (Res (Res t string) string)) (saved : LlmResult unit) : LlmResult t :=
  let? _ := config_path in
  match found with
  | None => let? _ := saved in Ok default
  | Some (Err e) => Err (LlmError.ConfigError ("Failed to read config: " +:+ e))
  | Some (Ok (Err e)) => Err (LlmError.ConfigError ("Failed to parse config: " +:+ e))
  | Some (Ok (Ok config)) => Ok config
  end.
End paths.

Definition backend `{UC : UnicodeCase} (self : t) : LlmResult LiteRTBackend.t :=
  let backend := LlmConfig.backend (llm self) in
  let lower := to_lowercase backend in
  if String.eqb lower "cpu" then Ok LiteRTBackend.Cpu
  else if String.eqb lower "gpu" then Ok LiteRTBackend.Gpu
  else Err (LlmError.ConfigError ("Invalid backend: " +:+ backend)).
End AppConfig.

(** ** Laws of paths *)

Lemma split_on_none c s : contains_char c s = false -> split_on c s = [s].
Proof.
  induction s as [|d s IH]; [done|]. cbn [contains_char split_on]. destruct (Ascii.eqb d c); [done|].
  intros H. by rewrite IH.
Qed.

Lemma replace_char_none c b s : contains_char c b = false -> contains_char c (replace_char c b s) = false.
Proof.
  intros Hb. induction s as [|d s IH]; [done|]. cbn [replace_char].
  assert (Happ : forall x y, contains_char c x = false -> contains_char c y = false -> contains_char c (x +:+ y) = false).
  { induction x as [|e x IHx]; intros y Hx Hy; [done|]. rewrite str_cons_app. cbn [contains_char] in *.
    destruct (Ascii.eqb e c); [done|]. by apply IHx. }
  apply Happ; [|done]. destruct (Ascii.eqb d c) eqn:E; [done|]. cbn [contains_char]. by rewrite E.
Qed.

(** A single name below a directory *)
Lemma join_name p s :
  contains_char slash s = false -> PathBuf.normal s = true ->
  PathBuf.join p s = PathBuf.mk (PathBuf.absolute p) (PathBuf.parts p ++ [s]).
Proof.
  intros Hs Hn. unfold PathBuf.join, PathBuf.of_string. rewrite (split_on_none _ _ Hs). cbn [List.filter]. rewrite Hn.
  assert (Ha : starts_with "/" s = false).
  { destruct (starts_with "/" s) eqn:E; [|done]. apply starts_with_spec in E as [r ->]. by rewrite str_cons_app in Hs. }
  rewrite Ha. cbn [PathBuf.absolute PathBuf.parts].
  assert (Hd : String.eqb s "." = false) by (unfold PathBuf.normal in Hn; by destruct (String.eqb s "."), (str_is_empty s)).
  change (PathBuf.leads_here [s]) with (String.eqb s "."). rewrite Hd. cbn [app].
  change (PathBuf.leads_here [s]) with (String.eqb s "."). by rewrite Hd.
Qed.

Lemma file_name_join p s :
  contains_char slash s = false -> PathBuf.normal s = true -> s <> ".."%string ->
  PathBuf.file_name (PathBuf.join p s) = Some s.
Proof.
  intros Hs Hn Hd. rewrite join_name by done. unfold PathBuf.file_name. cbn [PathBuf.parts]. rewrite last_snoc.
  unfold PathBuf.normal in Hn. apply andb_prop in Hn as [_ Hn]. apply negb_true_iff in Hn. rewrite Hn.
  destruct (String.eqb_spec s ".."); done.
Qed.

(** A name without a dot has no extension. *)
Lemma split_at_dot_none name : contains_char "."%char name = false -> PathBuf.split_at_dot name = None.
Proof. intros H. unfold PathBuf.split_at_dot. by rewrite (split_on_none _ _ H). Qed.
