(* ===== verification/ModelManager.v ===== *)
(** The model manager ([acdp-llm/src/model_management.rs]): the models found on
    the disk and listed by the registries, downloads, the loaded engine, and
    the status it announces.  The disk is a tree, the answers of the network
    and of the file system are arguments, and so is the creation of an engine,
    which is a call into the binding. *)

From S2P Require Import Prelude Messages Transform Text Routing ParamValidation IpcServer ModelConfig.

Module ModelInfo.
Record t : Type := mk { name : string; path : PathBuf.t; size_bytes : Z; is_cached : bool }.
End ModelInfo.

Module ModelStatus.
Inductive t : Type := NotLoaded | Loading | Ready | Error (msg : string).

#[global] Instance t_eq_dec : EqDecision t.
Proof. solve_decision. Defined.

(** [Display] *)
Definition to_string (self : t) : string :=
  match self with
  | NotLoaded => "NotLoaded"
  | Loading => "Loading"
  | Ready => "Ready"
  | Error msg => "Error: " +:+ msg
  end.
End ModelStatus.

Module DownloadProgress.
Record t : Type := mk {
  model_name : string;
  bytes_downloaded : Z;
  total_bytes : option Z;
  percentage : f32
}.
End DownloadProgress.

Module ModelStatusUpdate.
Inductive t : Type :=
| StatusChanged (status : ModelStatus.t)
| DownloadProgress_ (progress : DownloadProgress.t)
| ModelReady (name : string) (path : PathBuf.t).
End ModelStatusUpdate.

(** What is on the disk below a path; a file's length and a directory's entries
    as the system gives them *)
Module Node.
#[warnings="-register-all"]
Inductive t : Type :=
| File (len : option Z)
| Dir (entries : Res (list (Res (string * t) string)) string).

Definition file_len (len : option Z) : Z := from_option id 0 len.
End Node.

(** What the machine gives: the disk, and the registries that are asked, with
    the outcome of their requests, a successful status, and its body *)
Module Machine.
Section machine.
Context `{JN : JsonNumbers}.
Definition Fetched : Type := Res (bool * Res Value string) string.
Record t : Type := mk {
  home_dir : option PathBuf.t;
  disk : PathBuf.t -> option Node.t;
  hf_token : option string;
  huggingface : Fetched;
  enable_kaggle_fetch : bool;
  kaggle : Fetched
}.
End machine.
Arguments t : clear implicits.
Arguments t {JN}.
End Machine.

(** What a download meets: each chunk with the outcome of writing it *)
Module Download.
Record t : Type := mk {
  dir_made : Res unit string;
  response : Res (Res (option Z) string) string;
  created : Res unit string;
  chunks : list (Res (Z * Res unit string) string);
  flushed : Res unit string;
  renamed : Res unit string
}.
End Download.

Module ModelManager.
Section manager.
Context `{UC : UnicodeCase} `{JN : JsonNumbers} {JU : JsonUnsigned}.
Context {Engine : Type}.

(** [status_tx] is what was sent on the channel. *)
Record t : Type := mk {
  config : AppConfig.t;
  current_model : option Engine;
  current_model_path : option PathBuf.t;
  status : ModelStatus.t;
  download_progress : option DownloadProgress.t;
  status_tx : list ModelStatusUpdate.t
}.

Definition new (config : AppConfig.t) : t := mk config None None ModelStatus.NotLoaded None [].

Definition send (u : ModelStatusUpdate.t) (self : t) : t :=
  mk (config self) (current_model self) (current_model_path self) (status self) (download_progress self)
     (status_tx self ++ [u]).
Definition set_status (s : ModelStatus.t) (self : t) : t :=
  send (ModelStatusUpdate.StatusChanged s)
    (mk (config self) (current_model self) (current_model_path self) s (download_progress self) (status_tx self)).
Definition set_progress (p : option DownloadProgress.t) (self : t) : t :=
  mk (config self) (current_model self) (current_model_path self) (status self) p (status_tx self).
Definition set_model (engine : Engine) (path : PathBuf.t) (self : t) : t :=
  mk (config self) (Some engine) (Some path) (status self) (download_progress self) (status_tx self).

Definition config_error {A} (what e : string) : LlmResult A := Err (LlmError.ConfigError (what +:+ e)).

(** *** Models on the disk *)

Definition is_model_file (path : PathBuf.t) : bool :=
  let filename := from_option id ""%string (PathBuf.file_name path) in
  if str_contains ".litertlm_" filename && ends_with ".bin" filename then false
  else
    match PathBuf.extension path with
    | Some ext =>
        existsb (String.eqb (to_lowercase ext)) ["gguf"; "safetensors"; "pt"; "pth"; "onnx"; "litertlm"]%string
    | None => false
    end.

Definition child (path : PathBuf.t) (name : string) : PathBuf.t :=
  PathBuf.mk (PathBuf.absolute path) (PathBuf.parts path ++ [name]).
(** The directory's entries, read up to the first that is a model file *)
Fixpoint has_model_file (path : PathBuf.t) (entries : list (Res (string * Node.t) string)) : LlmResult bool :=
  match entries with
  | [] => Ok false
  | Err e :: _ => config_error "Failed to read entry: " e
  | Ok (name, _) :: entries =>
      if is_model_file (child path name) then Ok true else has_model_file path entries
  end.

Definition is_model_directory (path : PathBuf.t) (entries : Res (list (Res (string * Node.t) string)) string)
  : LlmResult bool :=
  match entries with
  | Err e => config_error "Failed to read directory: " e
  | Ok entries => has_model_file path entries
  end.

Fixpoint calculate_directory_size (node : Node.t) : LlmResult Z :=
  match node with
  | Node.File len => Ok (Node.file_len len)
  | Node.Dir (Err e) => config_error "Failed to read directory: " e
  | Node.Dir (Ok entries) =>
      (fix sum (total : Z) (entries : list (Res (string * Node.t) string)) : LlmResult Z :=
         match entries with
         | [] => Ok total
         | Err e :: _ => config_error "Failed to read entry: " e
         | Ok (_, node) :: entries =>
             match calculate_directory_size node with
             | Ok size => sum (wrap_u64 (total + size)) entries
             | Err e => Err e
             end
         end) 0 entries
  end.

(** What an entry of the cache directory comes to *)
Definition cached_entry (cache_dir : PathBuf.t) (name : string) (node : Node.t) : LlmResult (option ModelInfo.t) :=
  let path := child cache_dir name in
  match node with
  | Node.Dir entries =>
      let? found := is_model_directory path entries in
      if (found : bool) then
        let? size := calculate_directory_size node in
        Ok (Some (ModelInfo.mk (from_option id "unknown"%string (PathBuf.file_name path)) path size true))
      else Ok None
  | Node.File len =>
      if is_model_file path
      then Ok (Some (ModelInfo.mk (from_option id "unknown"%string (PathBuf.file_stem path)) path (Node.file_len len) true))
      else Ok None
  end.

Fixpoint cached_entries (cache_dir : PathBuf.t) (entries : list (Res (string * Node.t) string))
  : LlmResult (list ModelInfo.t) :=
  match entries with
  | [] => Ok []
  | Err e :: _ => config_error "Failed to read directory entry: " e
  | Ok (name, node) :: entries =>
      let? found := cached_entry cache_dir name node in
      let? models := cached_entries cache_dir entries in
      Ok (match found with Some model => model :: models | None => models end)
  end.

(** Reading what is not a directory fails, with the system's text. *)
Definition list_cached_models (m : Machine.t) (not_a_directory : string) (self : t) : LlmResult (list ModelInfo.t) :=
  let? cache_dir := AppConfig.cache_dir (Machine.home_dir m) (config self) in
  match Machine.disk m cache_dir with
  | None => Ok []
  | Some (Node.Dir (Ok entries)) => cached_entries cache_dir entries
  | Some (Node.Dir (Err e)) => config_error "Failed to read cache directory: " e
  | Some (Node.File _) => config_error "Failed to read cache directory: " not_a_directory
  end.

(** *** Models of the registries *)

Definition remote (name : string) (size : Z) : ModelInfo.t := ModelInfo.mk name PathBuf.empty size false.

Definition names_litert (s : string) : bool := str_contains "litert" s || str_contains "int4" s.

Definition is_litert_tag (tag : Value) : bool :=
  match tag with VString s => names_litert s || str_contains "tflite" s | _ => false end.

Definition huggingface_model (item : Value) : option ModelInfo.t :=
  match string_of (get item "id") with
  | Some model_id =>
      let tagged := match TuiQueryCompletion.array_of (get item "tags") with
                    | Some tags => existsb is_litert_tag tags
                    | None => false
                    end in
      if tagged || names_litert model_id then Some (remote model_id 0) else None
  | None => None
  end.

Definition kaggle_model (item : Value) : option ModelInfo.t :=
  match string_of (get item "slug"), string_of (get item "ownerSlug") with
  | Some name, Some owner =>
      Some (remote (owner +:+ "/" +:+ name)
              (match get item "totalBytes" with Some (VNumber n) => from_option id 0 (num_as_u64 n) | _ => 0 end))
  | _, _ => None
  end.

Definition listed (model : Value -> option ModelInfo.t) (items : option Value) : list ModelInfo.t :=
  match TuiQueryCompletion.array_of items with Some items => omap model items | None => [] end.

Definition body_of (fetched : Machine.Fetched) : option Value :=
  match fetched with Ok (true, Ok body) => Some body | _ => None end.

(** A registry that fails is passed over. *)
Definition fetch_huggingface_models (fetched : Machine.Fetched) : list ModelInfo.t :=
  match body_of fetched with Some body => listed huggingface_model (Some body) | None => [] end.

Definition fetch_kaggle_models (fetched : Machine.Fetched) : list ModelInfo.t :=
  match body_of fetched with Some body => listed kaggle_model (get body "models") | None => [] end.

Definition popular_litert_models : list ModelInfo.t :=
  [remote "gemma3-1b" 584417280; remote "gemma-3n-E2B" 2500000000; remote "gemma-3n-E4B" 4500000000;
   remote "phi-4-mini" 3800000000; remote "qwen2.5-1.5b" 1600000000].

Definition list_available_models (m : Machine.t) (not_a_directory : string) (self : t) : LlmResult (list ModelInfo.t) :=
  let? models := list_cached_models m not_a_directory self in
  Ok (models ++ popular_litert_models ++
      (match Machine.hf_token m with
       | Some token => if str_is_empty token then [] else fetch_huggingface_models (Machine.huggingface m)
       | None => []
       end) ++
      (if Machine.enable_kaggle_fetch m then fetch_kaggle_models (Machine.kaggle m) else [])).

(** [min_by_key]: the first of the smallest *)
Fixpoint smallest (models : list ModelInfo.t) : option ModelInfo.t :=
  match models with
  | [] => None
  | model :: models =>
      match smallest models with
      | Some other => if ModelInfo.size_bytes other <? ModelInfo.size_bytes model then Some other else Some model
      | None => Some model
      end
  end.

Definition get_smallest_model (m : Machine.t) (not_a_directory : string) (self : t) : LlmResult (option ModelInfo.t) :=
  let? models := list_available_models m not_a_directory self in Ok (smallest models).

(** *** Downloads *)

Definition download_url (model_name : string) : string :=
  if starts_with "google/" model_name
  then "https://www.kaggle.com/models/" +:+ model_name +:+ "/download"
  else "https://huggingface.co/" +:+ model_name +:+ "/resolve/main/model.gguf".

(** The file a download is written to, and the temporary file before it *)
Definition download_path (cache_dir : PathBuf.t) (model_name : string) : PathBuf.t :=
  PathBuf.join cache_dir (replace_char slash "_" model_name).
Definition temp_path (cache_dir : PathBuf.t) (model_name : string) : PathBuf.t :=
  PathBuf.with_extension (download_path cache_dir model_name) "tmp".

Definition percentage_of (downloaded : Z) (total_bytes : option Z) : f32 :=
  match total_bytes with
  | Some total_size => f32_mul (f32_div (f32_of_Z downloaded) (f32_of_Z total_size)) (f32_of_Z 100)
  | None => f32_zero
  end.

Definition note_progress (p : DownloadProgress.t) (self : t) : t :=
  send (ModelStatusUpdate.DownloadProgress_ p) (set_progress (Some p) self).

(** The loop over the stream's chunks *)
Fixpoint receive_chunks (model_name : string) (total_bytes : option Z) (downloaded : Z)
    (chunks : list (Res (Z * Res unit string) string)) (self : t) : LlmResult Z * t :=
  match chunks with
  | [] => (Ok downloaded, self)
  | Err e :: _ => (config_error "Download stream error: " e, self)
  | Ok (_, Err e) :: _ => (config_error "Failed to write chunk: " e, self)
  | Ok (len, Ok _) :: chunks =>
      let downloaded := wrap_u64 (downloaded + len) in
      receive_chunks model_name total_bytes downloaded chunks
        (note_progress (DownloadProgress.mk model_name downloaded total_bytes (percentage_of downloaded total_bytes)) self)
  end.

(** What precedes the body: the cache directory and the announced length *)
Definition open_download (m : Machine.t) (d : Download.t) (self : t) : LlmResult (PathBuf.t * option Z) :=
  let? cache_dir := AppConfig.cache_dir (Machine.home_dir m) (config self) in
  let? _ := map_err (fun e => LlmError.ConfigError ("Failed to create cache dir: " +:+ e)) (Download.dir_made d) in
  let? response := map_err (fun e => LlmError.ConfigError ("Failed to start download: " +:+ e)) (Download.response d) in
  let? total_bytes := map_err (fun e => LlmError.ConfigError ("Download failed with status: " +:+ e)) response in
  let? _ := map_err (fun e => LlmError.ConfigError ("Failed to create temp file: " +:+ e)) (Download.created d) in
  Ok (cache_dir, total_bytes).

Definition close_download (d : Download.t) : LlmResult unit :=
  let? _ := map_err (fun e => LlmError.ConfigError ("Failed to flush file: " +:+ e)) (Download.flushed d) in
  map_err (fun e => LlmError.ConfigError ("Failed to rename file: " +:+ e)) (Download.renamed d).

Definition download_model (m : Machine.t) (d : Download.t) (model_name : string) (self : t)
  : LlmResult DownloadProgress.t * t :=
  let self := set_status ModelStatus.Loading self in
  match open_download m d self with
  | Err e => (Err e, self)
  | Ok (cache_dir, total_bytes) =>
      match receive_chunks model_name total_bytes 0 (Download.chunks d) self with
      | (Err e, self) => (Err e, self)
      | (Ok downloaded, self) =>
          match close_download d with
          | Err e => (Err e, self)
          | Ok _ =>
              (Ok (DownloadProgress.mk model_name downloaded total_bytes (f32_of_Z 100)),
               send (ModelStatusUpdate.ModelReady model_name (download_path cache_dir model_name))
                 (set_status ModelStatus.Ready (set_progress None self)))
          end
      end
  end.

(** *** Loading *)

Definition engine_result (engine_new : PathBuf.t -> LiteRTBackend.t -> LlmResult Engine) (backend : LiteRTBackend.t)
    (model_path : PathBuf.t) : LlmResult Engine :=
  match backend with
  | LiteRTBackend.Gpu =>
      match engine_new model_path LiteRTBackend.Gpu with
      | Ok engine => Ok engine
      | Err gpu_err =>
          map_err (fun cpu_err => LlmError.RuntimeError
            ("GPU backend failed: " +:+ LlmError.to_string gpu_err +:+ ". CPU fallback also failed: " +:+ LlmError.to_string cpu_err))
            (engine_new model_path LiteRTBackend.Cpu)
      end
  | LiteRTBackend.Cpu => engine_new model_path LiteRTBackend.Cpu
  end.

Definition load_model (engine_new : PathBuf.t -> LiteRTBackend.t -> LlmResult Engine) (model_path : PathBuf.t) (self : t)
  : LlmResult unit * t :=
  let self := set_status ModelStatus.Loading self in
  match AppConfig.backend (config self) with
  | Err e => (Err e, self)
  | Ok backend =>
      match engine_result engine_new backend model_path with
      | Ok engine =>
          (Ok tt, send (ModelStatusUpdate.ModelReady (from_option id "unknown"%string (PathBuf.file_name model_path)) model_path)
                    (set_status ModelStatus.Ready (set_model engine model_path self)))
      | Err e =>
          let error_msg := "Failed to load model: " +:+ LlmError.to_string e in
          (Err (LlmError.RuntimeError error_msg), set_status (ModelStatus.Error error_msg) self)
      end
  end.

(** The configured model, if it resolves to a path that exists *)
Definition semantic_path (m : Machine.t) (self : t) : option PathBuf.t :=
  match AppConfig.semantic_model_path (Machine.home_dir m) (AppConfig.llm (config self)) with
  | Ok (Some path) => match Machine.disk m path with Some _ => Some path | None => None end
  | _ => None
  end.

Definition preferred (self : t) : option string := ModelConfig.preferred_model (AppConfig.model (config self)).

(** The preferred model of the cache, or its first *)
Definition model_to_use (self : t) (cached : list ModelInfo.t) : option ModelInfo.t :=
  match preferred self with
  | Some name =>
      match List.find (fun model => String.eqb (ModelInfo.name model) name) cached with
      | Some model => Some model
      | None => head cached
      end
  | None => head cached
  end.

Definition model_to_download (m : Machine.t) (not_a_directory : string) (self : t) : LlmResult string :=
  match preferred self with
  | Some name => Ok name
  | None =>
      let? found := get_smallest_model m not_a_directory self in
      match found with
      | Some model => Ok (ModelInfo.name model)
      | None => Err (LlmError.ConfigError "No models available")
      end
  end.

Definition ensure_model_available (m : Machine.t) (not_a_directory : string) (d : Download.t)
    (engine_new : PathBuf.t -> LiteRTBackend.t -> LlmResult Engine) (self : t) : LlmResult unit * t :=
  match current_model self with
  | Some _ => (Ok tt, self)
  | None =>
      match semantic_path m self with
      | Some path => load_model engine_new path self
      | None =>
          match list_cached_models m not_a_directory self with
          | Err e => (Err e, self)
          | Ok cached =>
              match model_to_use self cached with
              | Some model => load_model engine_new (ModelInfo.path model) self
              | None =>
                  match model_to_download m not_a_directory self with
                  | Err e => (Err e, self)
                  | Ok name =>
                      match download_model m d name self with
                      | (Err e, self) => (Err e, self)
                      | (Ok _, self) =>
                          match AppConfig.cache_dir (Machine.home_dir m) (config self) with
                          | Err e => (Err e, self)
                          | Ok cache_dir => load_model engine_new (PathBuf.join cache_dir name) self
                          end
                      end
                  end
              end
          end
      end
  end.

(** [warm_session], with the outcomes of making a conversation and of its message *)
Definition warm_session (conversation : LlmResult unit) (answer : LlmResult string) (self : t) : LlmResult unit :=
  match current_model self with
  | Some _ => let? _ := conversation in let? _ := answer in Ok tt
  | None => Err (LlmError.ConfigError "No model loaded")
  end.

(** *** Operations *)

Inductive Op : Type :=
| DownloadModel (m : Machine.t) (d : Download.t) (model_name : string)
| LoadModel (engine_new : PathBuf.t -> LiteRTBackend.t -> LlmResult Engine) (model_path : PathBuf.t)
| EnsureModelAvailable (m : Machine.t) (not_a_directory : string) (d : Download.t)
    (engine_new : PathBuf.t -> LiteRTBackend.t -> LlmResult Engine).

Definition unit_of {A} (r : LlmResult A) : LlmResult unit := let? _ := r in Ok tt.

Definition apply (op : Op) (self : t) : LlmResult unit * t :=
  match op with
  | DownloadModel m d name => let '(r, self) := download_model m d name self in (unit_of r, self)
  | LoadModel engine_new path => load_model engine_new path self
  | EnsureModelAvailable m nd d engine_new => ensure_model_available m nd d engine_new self
  end.

Definition run (ops : list Op) (self : t) : t := List.fold_left (fun self op => (apply op self).2) ops self.
End manager.
Arguments t : clear implicits.
Arguments Op {JN} Engine.
End ModelManager.

(** ** What is announced *)

Section announced.
Context `{UC : UnicodeCase} `{JN : JsonNumbers} {JU : JsonUnsigned} {Engine : Type}.
Import ModelManager.
Abbreviation Manager := (ModelManager.t Engine).

(** The status a subscriber to all updates knows *)
Definition heard (known : ModelStatus.t) (updates : list ModelStatusUpdate.t) : ModelStatus.t :=
  List.fold_left (fun known u => match u with ModelStatusUpdate.StatusChanged s => s | _ => known end) updates known.

Lemma heard_app known us vs : heard known (us ++ vs) = heard (heard known us) vs.
Proof. apply fold_left_app. Qed.

(** The subscribers know the status; an engine is there with the path it was
    loaded from, which was announced. *)
Definition announced (self : Manager) : Prop :=
  status self = heard ModelStatus.NotLoaded (status_tx self) /\
  match current_model self, current_model_path self with
  | Some _, Some path => exists name, In (ModelStatusUpdate.ModelReady name path) (status_tx self)
  | None, None => True
  | _, _ => False
  end.

Lemma announced_frame (self self' : Manager) us :
  announced self -> current_model self' = current_model self -> current_model_path self' = current_model_path self ->
  status_tx self' = status_tx self ++ us -> status self' = heard (status self) us -> announced self'.
Proof.
  intros [Hs Hm] Em Ep Et Es. unfold announced. rewrite Em, Ep, Et, Es, heard_app, <- Hs. split; [done|].
  destruct (current_model self), (current_model_path self); try done.
  destruct Hm as [name Hin]. exists name. apply in_or_app. by left.
Qed.

Lemma set_status_announced s (self : Manager) : announced self -> announced (set_status s self).
Proof. intros H. by apply (announced_frame self _ [ModelStatusUpdate.StatusChanged s]). Qed.

(** What the chunks of a download change: progress is announced, no more. *)
Lemma receive_chunks_frame name total_bytes chunks : forall n (self : Manager) r self',
  receive_chunks name total_bytes n chunks self = (r, self') ->
  exists ps, status_tx self' = status_tx self ++ List.map ModelStatusUpdate.DownloadProgress_ ps /\
    current_model self' = current_model self /\ current_model_path self' = current_model_path self /\
    status self' = status self /\ config self' = config self.
Proof.
  induction chunks as [|[[len [w|e]]|e] chunks IH]; intros n self r self'; cbn [receive_chunks].
  2: { intros (ps & -> & -> & -> & -> & ->)%IH. eexists (_ :: ps). split_and!; try done. cbn. by rewrite <- app_assoc. }
  all: intros [= _ <-]; exists []; cbn; by rewrite app_nil_r.
Qed.

Lemma heard_progress known ps : heard known (List.map ModelStatusUpdate.DownloadProgress_ ps) = known.
Proof. unfold heard. by induction ps as [|p ps IH]. Qed.

(** A download in full: it leaves the engine, and ends ready or loading. *)
Lemma download_frame m d name (self : Manager) r self' :
  download_model m d name self = (r, self') ->
  exists ps, current_model self' = current_model self /\ current_model_path self' = current_model_path self /\
    config self' = config self /\
    match r with
    | Ok _ => status self' = ModelStatus.Ready /\ exists path,
        status_tx self' = status_tx self ++ ModelStatusUpdate.StatusChanged ModelStatus.Loading ::
          List.map ModelStatusUpdate.DownloadProgress_ ps ++
          [ModelStatusUpdate.StatusChanged ModelStatus.Ready; ModelStatusUpdate.ModelReady name path]
    | Err _ => status self' = ModelStatus.Loading /\
        status_tx self' = status_tx self ++ ModelStatusUpdate.StatusChanged ModelStatus.Loading ::
          List.map ModelStatusUpdate.DownloadProgress_ ps
    end.
Proof.
  unfold download_model. destruct (open_download _ _ _) as [[cache_dir total_bytes]|e].
  2: { intros [= <- <-]. by exists []. }
  destruct (receive_chunks _ _ _ _ _) as [[n|e] s1] eqn:E;
    apply receive_chunks_frame in E as (ps & Ht & Hm & Hp & Hs & Hc); cbn in Ht, Hm, Hp, Hs, Hc.
  2: { intros [= <- <-]. exists ps. split_and!; try done. by rewrite Ht, <- app_assoc. }
  destruct (close_download d) as [u|e]; intros [= <- <-]; exists ps; split_and!; try done.
  - eexists. cbn. by rewrite Ht, <- !app_assoc.
  - by rewrite Ht, <- app_assoc.
Qed.

Lemma download_announced m d name self r self' :
  announced self -> download_model m d name self = (r, self') -> announced self'.
Proof.
  intros H (ps & Hm & Hp & _ & Hr)%download_frame. destruct r as [p|e]; [destruct Hr as (Hs & path & Ht)|destruct Hr as (Hs & Ht)];
    (eapply announced_frame; [exact H|exact Hm|exact Hp|exact Ht|]); rewrite Hs; change (?a :: ?l) with ([a] ++ l);
    rewrite !heard_app, heard_progress; done.
Qed.

Lemma load_announced engine_new path self r self' :
  announced self -> load_model engine_new path self = (r, self') -> announced self'.
Proof.
  intros H. unfold load_model. pose proof (set_status_announced ModelStatus.Loading self H) as H1.
  destruct (AppConfig.backend _) as [backend|e]; [|by intros [= _ <-]].
  destruct (engine_result _ _ _) as [engine|e]; intros [= _ <-]; [|by apply set_status_announced].
  split; cbn.
  - by rewrite !fold_left_app.
  - eexists. apply in_or_app. right. by left.
Qed.

Lemma ensure_announced m nd d engine_new self r self' :
  announced self -> ensure_model_available m nd d engine_new self = (r, self') -> announced self'.
Proof.
  intros H. unfold ensure_model_available. destruct (current_model self); [by intros [= _ <-]|].
  destruct (semantic_path m self); [by apply load_announced|].
  destruct (list_cached_models m nd self) as [cached|e]; [|by intros [= _ <-]].
  destruct (model_to_use self cached); [by apply load_announced|].
  destruct (model_to_download m nd self) as [name|e]; [|by intros [= _ <-]].
  destruct (download_model m d name self) as [[p|e] s1] eqn:E; apply (download_announced _ _ _ _ _ _ H) in E; [|by intros [= _ <-]].
  destruct (AppConfig.cache_dir _ _) as [cache_dir|e]; [by apply load_announced|by intros [= _ <-]].
Qed.

(** Through any operations on the model manager its subscribers know its
    status, and an engine is there exactly when it was loaded from a path that
    was announced.  But a failed download is never told as an error: it leaves
    the status loading, which is the last thing announced, and a download that
    succeeds announces a ready model although none is loaded. *)
Theorem status_is_announced (config : AppConfig.t) (ops : list (ModelManager.Op Engine)) :
  let self := run ops (new config) in
  announced self /\
  forall m d name r self', apply (DownloadModel m d name) self = (r, self') ->
    current_model self' = current_model self /\
    status self' = (if is_ok r then ModelStatus.Ready else ModelStatus.Loading) /\
    heard ModelStatus.NotLoaded (status_tx self') = status self'.
Proof.
  assert (Hkeep : forall op self r self', announced self -> apply op self = (r, self') -> announced self').
  { intros [m d name|engine_new path|m nd d engine_new] self r self' H; cbn [apply].
    - destruct (download_model m d name self) as [r1 s1] eqn:E. intros [= _ <-]. by eapply download_announced.
    - by apply load_announced.
    - by apply ensure_announced. }
  intros self. assert (Hself : announced self).
  { unfold self, run. clear self. assert (H0 : announced (new (Engine := Engine) config)) by done. revert H0. generalize (new (Engine := Engine) config) as s0.
    induction ops as [|op ops IH]; intros s0 H0; [done|]. cbn [List.fold_left]. apply IH.
    destruct (apply op s0) as [r s1] eqn:E. by eapply Hkeep. }
  split; [done|]. intros m d name r self' Ha. assert (Ha' := Ha). apply Hkeep in Ha' as [Hs' _]; [|done].
  cbn [apply] in Ha. destruct (download_model m d name self) as [r1 s1] eqn:E. injection Ha as <- <-.
  apply download_frame in E as (ps & Hm & _ & _ & Hr). destruct r1 as [p|e]; [destruct Hr as (Hs & _)|destruct Hr as (Hs & _)];
    cbn [unit_of res_bind is_ok]; (split_and!; [exact Hm|exact Hs|symmetry; exact Hs']).
Qed.
End announced.

(** ** What a download leaves *)

Section downloads.
Context `{UC : UnicodeCase} `{JN : JsonNumbers} {JU : JsonUnsigned} {Engine : Type}.
Import ModelManager.

Lemma length_replace_char c d s : String.length (replace_char c (String d EmptyString) s) = String.length s.
Proof. induction s as [|e s IH]; [done|]. cbn [replace_char]. destruct (Ascii.eqb e c); rewrite str_cons_app; cbn; by rewrite <- IH. Qed.

Lemma split_on_shorter c s part : In part (split_on c s) -> (String.length part <= String.length s)%nat.
Proof.
  revert part. induction s as [|d s IH]; intros part; cbn [split_on].
  - by intros [<-|[]].
  - destruct (Ascii.eqb d c); [intros [<-|H%IH]; cbn; lia|].
    destruct (split_on c s) as [|p ps]; intros [<-|H]; cbn; [lia|done| |].
    + specialize (IH p (or_introl eq_refl)). lia.
    + specialize (IH part (or_intror H)). lia.
Qed.

Lemma split_on_strict c s part :
  contains_char c s = true -> In part (split_on c s) -> (String.length part < String.length s)%nat.
Proof.
  revert part. induction s as [|d s IH]; intros part; [done|]. cbn [contains_char split_on].
  destruct (Ascii.eqb d c); [intros _ [<-|H%split_on_shorter]; cbn; lia|]. cbn [orb]. intros Hc.
  destruct (split_on c s) as [|p ps]; intros [<-|H]; cbn; [|done| |].
  - destruct s; [done|cbn; lia].
  - specialize (IH p Hc (or_introl eq_refl)). lia.
  - specialize (IH part Hc (or_intror H)). lia.
Qed.

Lemma parts_of_string s part : In part (PathBuf.parts (PathBuf.of_string s)) -> In part (split_on slash s) \/ part = "."%string.
Proof.
  unfold PathBuf.of_string. cbn [PathBuf.parts]. intros [H|H]%in_app_or; [right|left].
  - destruct (PathBuf.leads_here _); [by destruct H as [<-|[]]|done].
  - by apply List.filter_In in H as [H _].
Qed.

(** What is joined follows the path, or replaces it. *)
Lemma parts_of_join p s :
  exists rest, (PathBuf.parts (PathBuf.join p s) = PathBuf.parts p ++ rest \/ PathBuf.parts (PathBuf.join p s) = rest) /\
    forall part, In part rest -> In part (split_on slash s) \/ part = "."%string.
Proof.
  unfold PathBuf.join. destruct (PathBuf.absolute (PathBuf.of_string s)).
  - eexists. split; [by right|]. apply parts_of_string.
  - eexists. split; [by left|]. intros part H. apply parts_of_string.
    destruct (_ && _) in H; [|done]. destruct (PathBuf.parts _); [done|by right].
Qed.

Definition underscore : Ascii.ascii := "_"%char.

Lemma contains_replaced c d s :
  contains_char c s = true -> contains_char d (replace_char c (String d EmptyString) s) = true.
Proof.
  induction s as [|e s IH]; [done|]. cbn [contains_char replace_char]. destruct (Ascii.eqb e c).
  - intros _. rewrite str_cons_app. cbn [contains_char]. by rewrite Ascii.eqb_refl.
  - cbn [orb]. intros H%IH. rewrite str_cons_app. cbn [contains_char]. change (EmptyString +:+ ?x) with x. rewrite H. apply orb_true_r.
Qed.

Lemma download_path_parts p name :
  contains_char slash name = true ->
  PathBuf.parts (download_path p name) = PathBuf.parts p ++ [replace_char slash "_" name].
Proof.
  intros Hn. unfold download_path. rewrite join_name; [done|by apply replace_char_none|].
  apply (contains_replaced slash underscore) in Hn. unfold underscore in Hn. unfold PathBuf.normal.
  destruct (replace_char slash "_" name) as [|c r]; [done|]. cbn [str_is_empty negb andb].
  destruct (String.eqb_spec (String c r) "."); [|done]. by simplify_eq.
Qed.

(** A model whose name has a slash is not where it is loaded from. *)
Lemma slashed_elsewhere p name : contains_char slash name = true -> PathBuf.join p name <> download_path p name.
Proof.
  intros Hn E. pose proof (download_path_parts p name Hn) as Hd. rewrite <- E in Hd.
  destruct (parts_of_join p name) as (rest & Hr & Hin).
  assert (Hs : In (replace_char slash "_" name) rest).
  { destruct Hr as [Hr|Hr]; rewrite Hr in Hd; [apply app_inv_head in Hd|]; subst rest; [by left|]. apply in_or_app. right. by left. }
  destruct (Hin _ Hs) as [H|H].
  - apply split_on_strict in H; [|done]. rewrite length_replace_char in H. lia.
  - apply (contains_replaced slash underscore) in Hn. unfold underscore in Hn. by rewrite H in Hn.
Qed.

Definition bare_name (name : string) : Prop :=
  contains_char slash name = false /\ contains_char "."%char name = false /\ name <> ""%string.

Lemma bare_not_model p name : bare_name name -> is_model_file (child p name) = false.
Proof.
  intros (_ & Hd & _). unfold is_model_file. destruct (_ && _); [done|].
  unfold PathBuf.extension, PathBuf.file_name, child. cbn [PathBuf.parts]. rewrite last_snoc.
  destruct (_ || _); [done|]. by rewrite split_at_dot_none.
Qed.

Lemma bare_path p name : bare_name name -> PathBuf.join p name = download_path p name.
Proof.
  intros (Hs & _). unfold download_path. f_equal. induction name as [|c name IH]; [done|].
  cbn [contains_char replace_char] in *. destruct (Ascii.eqb c slash); [done|]. rewrite <- IH by done. reflexivity.
Qed.

Lemma cached_entries_bare p name len after before :
  bare_name name -> cached_entries p (before ++ Ok (name, Node.File len) :: after) = cached_entries p (before ++ after).
Proof.
  intros Hn. induction before as [|[[n node]|e] before IH]; cbn [app cached_entries]; [| |done].
  - unfold cached_entry. rewrite (bare_not_model p name Hn). cbn [res_bind]. by destruct (cached_entries p after).
  - by rewrite IH.
Qed.

(** A model that was downloaded because none was there is not found again.
    One whose name has a slash is loaded from another path than it was written
    to; one whose name has no dot, as the default's, is loaded, but the
    cache's listing passes its file over, so the next start downloads it again
    and fails without the network although the file is there. *)
Theorem downloads_are_repeated m nd d (engine_new : PathBuf.t -> LiteRTBackend.t -> LlmResult Engine) name cache_dir p
    (self s1 : ModelManager.t Engine) :
  current_model self = None -> semantic_path m self = None -> list_cached_models m nd self = Ok [] ->
  AppConfig.cache_dir (Machine.home_dir m) (config self) = Ok cache_dir ->
  model_to_download m nd self = Ok name -> download_model m d name self = (Ok p, s1) ->
  In (ModelStatusUpdate.ModelReady name (download_path cache_dir name)) (status_tx s1) /\
  ensure_model_available m nd d engine_new self = load_model engine_new (PathBuf.join cache_dir name) s1 /\
  (contains_char slash name = true -> PathBuf.join cache_dir name <> download_path cache_dir name) /\
  (bare_name name -> PathBuf.join cache_dir name = download_path cache_dir name /\
    forall m' before len after nd' d' engine_new' name' e s2,
      Machine.home_dir m' = Machine.home_dir m -> semantic_path m' (new (Engine := Engine) (config self)) = None ->
      Machine.disk m' cache_dir = Some (Node.Dir (Ok (before ++ Ok (name, Node.File len) :: after))) ->
      cached_entries cache_dir (before ++ after) = Ok [] ->
      model_to_download m' nd' (new (Engine := Engine) (config self)) = Ok name' ->
      download_model m' d' name' (new (Engine := Engine) (config self)) = (Err e, s2) ->
      ensure_model_available m' nd' d' engine_new' (new (config self)) = (Err e, s2)).
Proof.
  intros Hm Hs Hl Hc Hn Hd. split_and!.
  - unfold download_model, open_download in Hd. cbn [config set_status send] in Hd. rewrite Hc in Hd. cbn [res_bind] in Hd.
    destruct (map_err _ (Download.dir_made d)); [|done]. destruct (map_err _ (Download.response d)) as [response|]; [|done].
    cbn [res_bind] in Hd. destruct (map_err _ response) as [total_bytes|]; [|done]. cbn [res_bind] in Hd.
    destruct (map_err _ (Download.created d)); [|done]. cbn [res_bind] in Hd.
    destruct (receive_chunks _ _ _ _ _) as [[n|e] s] eqn:E; [|done]. destruct (close_download d); [|done]. injection Hd as _ <-.
    cbn. apply in_or_app. right. by left.
  - assert (Hcfg : config s1 = config self) by (by apply download_frame in Hd as (ps & _ & _ & -> & _)).
    unfold ensure_model_available. rewrite Hm, Hs, Hl.
    assert (Hu : model_to_use self [] = None) by (unfold model_to_use; by destruct (preferred self)).
    by rewrite Hu, Hn, Hd, Hcfg, Hc.
  - apply slashed_elsewhere.
  - intros Hb. split; [by apply bare_path|].
    intros m' before len after nd' d' engine_new' name' e s2 Hh Hs' Hdisk He Hn' Hd'.
    unfold ensure_model_available. cbn [current_model new]. rewrite Hs'.
    assert (Hl' : list_cached_models m' nd' (new (Engine := Engine) (config self)) = Ok []).
    { unfold list_cached_models. cbn [config new]. rewrite Hh, Hc. cbn [res_bind]. rewrite Hdisk. by rewrite cached_entries_bare. }
    rewrite Hl'.
    assert (Hu : model_to_use (new (Engine := Engine) (config self)) [] = None) by (unfold model_to_use; by destruct (preferred _)).
    by rewrite Hu, Hn', Hd'.
Qed.
End downloads.

(** ** Instances of the hypotheses *)

Module DemoModels.
Import ToyNumbers.

#[export] Instance toy_unsigned : JsonUnsigned :=
  {| num_as_u64 n := if 0 <=? n then Some n else None |}.

Definition home : PathBuf.t := PathBuf.of_string "/home/agent".
Definition cache_dir : PathBuf.t := PathBuf.of_string "/home/agent/.litert-lm/models".
Definition name : string := "gemma3-1b".

Definition machine (disk : PathBuf.t -> option Node.t) : Machine.t :=
  Machine.mk (Some home) disk None (Err "unreachable"%string) false (Err "unreachable"%string).
Definition empty : Machine.t := machine (fun _ => None).
Definition after : Machine.t :=
  machine (fun path => if decide (path = cache_dir) then Some (Node.Dir (Ok [Ok (name, Node.File (Some 5))])) else None).

Definition online : Download.t := Download.mk (Ok tt) (Ok (Ok (Some 5))) (Ok tt) [Ok (5, Ok tt)] (Ok tt) (Ok tt).
Definition offline : Download.t := Download.mk (Ok tt) (Err "unreachable"%string) (Ok tt) [] (Ok tt) (Ok tt).

Definition engine_new (path : PathBuf.t) (backend : LiteRTBackend.t) : LlmResult unit := Ok tt.

Definition start : ModelManager.t unit := ModelManager.new AppConfig.default.
Definition first_download : LlmResult DownloadProgress.t * ModelManager.t unit :=
  ModelManager.download_model empty online name start.
Definition progress : DownloadProgress.t :=
  match first_download.1 with Ok p => p | Err _ => DownloadProgress.mk "" 0 None f32_zero end.
Definition no_network : LlmError.t := LlmError.ConfigError "Failed to start download: unreachable".

Lemma bare : bare_name name.
Proof. by split_and!. Qed.
End DemoModels.

Import DemoModels.

(** The second start fails, although the file is there. *)
Lemma downloads_are_repeated_witness :
  (ModelManager.ensure_model_available after "" offline engine_new start).1 =
  Err no_network.
Proof.
  destruct (downloads_are_repeated empty "" online engine_new name
    cache_dir progress start first_download.2
    eq_refl eq_refl eq_refl eq_refl eq_refl eq_refl) as (_ & _ & _ & H).
  destruct (H bare) as [_ Ht].
  pose proof (Ht after [] (Some 5) [] ""%string offline engine_new name
    no_network (ModelManager.set_status ModelStatus.Loading start) eq_refl eq_refl eq_refl eq_refl eq_refl eq_refl) as Hf.
  exact (f_equal fst Hf).
Defined.
