(* ===== verification/Streaming.v ===== *)
(** The language-model service behind a generation ([acdp-llm/src/streaming.rs],
    [service.rs], [lm_provider.rs], and the benchmark of [litert_wrapper.rs]):
    how a reply becomes a stream of tokens, the metrics and events of a
    generation, the service's construction, and what the code generator makes
    of the stream. *)

From Stdlib Require Import Floats.SpecFloat.
From S2P Require Import Prelude Externs Messages Transform Text Gencode Routing Predictor Gepa Session CodeGenerator ModelConfig ParamValidation ModelManager.

(** ** Words as tokens *)

(** The task's loop: a space after each word but the last *)
Fixpoint word_tokens (words : list string) : list string :=
  match words with
  | [] => []
  | [word] => [word]
  | word :: words => (word +:+ " ") :: word_tokens words
  end.

(** [generate_streaming], the conversation's answer given *)
Definition generate_streaming (response : LlmResult string) : LlmResult (list string) :=
  let? response := response in Ok (word_tokens (split_whitespace response)).

(** ** Benchmarks *)

Module TurnBenchmark.
Record t : Type := mk { num_tokens : Z; duration_seconds : f64; tokens_per_sec : f64 }.
End TurnBenchmark.

(** [iter().sum()] of floats begins at negative zero *)
Definition f64_sum (xs : list f64) : f64 := List.fold_left f64_add xs (S754_zero true).

(** [Duration::from_secs_f64], in nanoseconds: a panic on a negative number, a
    NaN, or what does not fit *)
Definition from_secs_f64 (x : f64) : option Z :=
  match x with
  | S754_zero _ => Some 0
  | S754_finite false m e =>
      let nanos := if 0 <=? e then Z.pos m * 2 ^ e * 1000000000 else div_nearest (Z.pos m * 1000000000) (2 ^ (- e)) in
      if nanos <? 2 ^ 64 * 1000000000 then Some nanos else None
  | _ => None
  end.

(** [x as u64] of a float, which saturates *)
Definition f64_as_u64 (x : f64) : Z :=
  match x with
  | S754_infinity false => u64_max
  | S754_finite false m e => Z.min u64_max (if 0 <=? e then Z.pos m * 2 ^ e else Z.pos m / 2 ^ (- e))
  | _ => 0
  end.

Module BenchmarkInfo.
Record t : Type := mk {
  prefill_turns : list TurnBenchmark.t;
  decode_turns : list TurnBenchmark.t;
  time_to_first_token_ms : f64;
  last_prefill_token_count : Z;
  last_decode_token_count : Z
}.

Definition average (turns : list TurnBenchmark.t) : f64 :=
  match turns with
  | [] => f64_zero
  | _ => f64_div (f64_sum (List.map TurnBenchmark.tokens_per_sec turns)) (f64_of_Z (Z.of_nat (length turns)))
  end.

Definition avg_prefill_tokens_per_sec (self : t) : f64 := average (prefill_turns self).
Definition avg_decode_tokens_per_sec (self : t) : f64 := average (decode_turns self).

Definition count (turns : list TurnBenchmark.t) : Z :=
  List.fold_left (fun n turn => wrap_u64 (n + TurnBenchmark.num_tokens turn)) turns 0.

Definition total_tokens (self : t) : Z := wrap_u64 (count (prefill_turns self) + count (decode_turns self)).

Definition total_duration_seconds (self : t) : f64 :=
  f64_add (f64_sum (List.map TurnBenchmark.duration_seconds (prefill_turns self)))
          (f64_sum (List.map TurnBenchmark.duration_seconds (decode_turns self))).

Definition overall_tokens_per_sec (self : t) : f64 :=
  let total_duration := total_duration_seconds self in
  if SFeqb total_duration f64_zero then f64_zero
  else f64_div (f64_of_Z (total_tokens self)) total_duration.

(** The build without the runtime *)
Definition stub : t := mk [] [] f64_zero 0 0.
End BenchmarkInfo.

(** [GenerationMetrics::from_benchmark]; [None] is a panic. *)
Definition from_benchmark (benchmark : BenchmarkInfo.t) : option GenerationMetrics.t :=
  match from_secs_f64 (BenchmarkInfo.total_duration_seconds benchmark) with
  | Some duration =>
      Some (GenerationMetrics.mk (Z.to_nat (BenchmarkInfo.total_tokens benchmark)) duration
        (Some (f64_as_u64 (BenchmarkInfo.time_to_first_token_ms benchmark) * 1000000))
        (Some (BenchmarkInfo.overall_tokens_per_sec benchmark)) true)
  | None => None
  end.

(** The metrics of a generation's task: those of the engine if it has any *)
Definition generation_metrics (benchmark_info : LlmResult BenchmarkInfo.t) (token_count : nat) (total_elapsed : Z)
    (ttft : option Z) : option GenerationMetrics.t :=
  match benchmark_info with
  | Ok benchmark => from_benchmark benchmark
  | Err _ => Some (GenerationMetrics.timed token_count total_elapsed ttft)
  end.

(** The events of a generation the engine answers: a task that panics gives its
    tokens and ends. *)
Definition generation_events (tokens : list string) (taken : nat) (metrics : option GenerationMetrics.t)
  : list GenerationEvent * option GenerationFinished.t :=
  match metrics with
  | Some metrics => LlmService.stream_task tokens taken metrics
  | None => (List.map Token (take taken tokens), None)
  end.

(** ** Events *)

Module LlmEvent.
Inductive t : Type :=
| ModelStatus_ (status : ModelStatus.t)
| DownloadProgress_ (progress : DownloadProgress.t)
| ModelReady (name : string) (path : PathBuf.t)
| GenerationFinished_ (temperature : option f32) (max_tokens : option nat) (finished : GenerationFinished.t).

(** The forwarder's [match] *)
Definition of_update (update : ModelStatusUpdate.t) : t :=
  match update with
  | ModelStatusUpdate.StatusChanged status => ModelStatus_ status
  | ModelStatusUpdate.DownloadProgress_ progress => DownloadProgress_ progress
  | ModelStatusUpdate.ModelReady name path => ModelReady name path
  end.

(** What a generation publishes *)
Definition of_generation (request : GenerationRequest.t) (finished : GenerationFinished.t) : t :=
  GenerationFinished_ (GenerationRequest.temperature request) (GenerationRequest.max_tokens request) finished.
End LlmEvent.

(** ** The provider *)

Module LiteRTConfig.
Record t : Type := mk { model_path : string; backend : LiteRTBackend.t; temperature : f32; max_tokens : nat }.
End LiteRTConfig.

Module LiteRTBuilder.
Record t : Type := mk {
  model_path : option string;
  backend : LiteRTBackend.t;
  temperature : f32;
  max_tokens : nat
}.

Definition new : t := mk None LiteRTBackend.Cpu (f32_ratio 7 10) 1000.
Definition with_model_path (path : string) (self : t) : t := mk (Some path) (backend self) (temperature self) (max_tokens self).
Definition with_backend (b : LiteRTBackend.t) (self : t) : t := mk (model_path self) b (temperature self) (max_tokens self).
Definition with_temperature (temp : f32) (self : t) : t := mk (model_path self) (backend self) temp (max_tokens self).
Definition with_max_tokens (tokens : nat) (self : t) : t := mk (model_path self) (backend self) (temperature self) tokens.

Definition build (self : t) : LlmResult LiteRTConfig.t :=
  let? path := ok_or (model_path self) (LlmError.ConfigError "Model path is required") in
  Ok (LiteRTConfig.mk path (backend self) (temperature self) (max_tokens self)).
End LiteRTBuilder.

Module ChatMessage.
(** [dspy_rs::Message] *)
Inductive t : Type := System (content : string) | User (content : string) | Assistant (content : string).
End ChatMessage.

Module LiteRTLM.
Section call.
(** The conversation's state, and a message of a role sent on it *)
Context {Conversation : Type} (send_message : string -> string -> Conversation -> LlmResult string * Conversation).

Fixpoint system_instruction (messages : list ChatMessage.t) : option string :=
  match messages with
  | [] => None
  | ChatMessage.System content :: _ => Some content
  | _ :: messages => system_instruction messages
  end.

(** The loop over the messages: the reply to the last message of the user *)
Fixpoint send_all (messages : list ChatMessage.t) (response_text : string) (c : Conversation)
  : Res string string * Conversation :=
  match messages with
  | [] => (Ok response_text, c)
  | ChatMessage.System _ :: messages => send_all messages response_text c
  | ChatMessage.User content :: messages =>
      match send_message "user" content c with
      | (Ok text, c) => send_all messages text c
      | (Err e, c) => (Err ("LiteRT generation error: " +:+ LlmError.to_string e), c)
      end
  | ChatMessage.Assistant content :: messages =>
      match send_message "model" content c with
      | (Ok _, c) => send_all messages response_text c
      | (Err e, c) => (Err ("LiteRT error: " +:+ LlmError.to_string e), c)
      end
  end.

(** [create] makes the conversation, with the system's instruction if any. *)
Definition call (create : option string -> LlmResult Conversation) (messages : list ChatMessage.t)
  : Res (string * list ChatMessage.t) string :=
  match create (system_instruction messages) with
  | Err e => Err ("Failed to create conversation: " +:+ LlmError.to_string e)
  | Ok c =>
      let? output := (send_all messages "" c).1 in Ok (output, messages ++ [ChatMessage.Assistant output])
  end.
End call.
End LiteRTLM.

(** ** The service *)

Module LlmFacade.
Section service.
Context `{W : LlmWorld, UC : UnicodeCase}.
Context {Engine : Type}.

Record t : Type := mk {
  model_manager : ModelManager.t Engine;
  database : Db.t;
  tool_predictor : ToolPredictor.t;
  session_manager : SessionManager.t
}.

(** [build_semantic_provider]: [built] is the engine's creation from the
    provider's configuration; every failure disables semantic routing. *)
Definition build_semantic_provider (home_dir : option PathBuf.t) (config : AppConfig.t)
    (built : LiteRTConfig.t -> LlmResult unit) : bool :=
  let llm := AppConfig.llm config in
  if LlmConfig.semantic_routing llm then
    match AppConfig.semantic_model_path home_dir llm with
    | Ok (Some path) =>
        match AppConfig.backend config with
        | Ok backend =>
            let builder :=
              LiteRTBuilder.with_max_tokens (LlmConfig.max_tokens llm)
                (LiteRTBuilder.with_temperature (LlmConfig.temperature llm)
                  (LiteRTBuilder.with_backend backend
                    (LiteRTBuilder.with_model_path (PathBuf.to_string path) LiteRTBuilder.new))) in
            match LiteRTBuilder.build builder with
            | Ok provider => is_ok (built provider)
            | Err _ => false
            end
        | Err _ => false
        end
    | _ => false
    end
  else false.

Definition database_url (path : PathBuf.t) : string := "sqlite://" +:+ PathBuf.to_string path.

(** [new]: [dir_made] and [opened] are the outcomes of making the database's
    directory and of opening it. *)
Definition new (home_dir : option PathBuf.t) (dir_made : Res unit string) (opened : string -> LlmResult Db.t)
    (built : LiteRTConfig.t -> LlmResult unit) (config : AppConfig.t) : LlmResult t :=
  let? database_path := AppConfig.database_path home_dir config in
  let? _ := match PathBuf.parts database_path with
            | [] => Ok tt
            | _ => map_err (fun e => LlmError.DatabaseError ("Failed to create database directory: " +:+ e)) dir_made
            end in
  let? database := opened (database_url database_path) in
  let semantic_engine := build_semantic_provider home_dir config built in
  Ok (mk (ModelManager.new config) database (ToolPredictor.mk semantic_engine)
         (SessionManager.new (Some GEPAOptimizer.new))).

Definition model_status (self : t) : ModelStatus.t := ModelManager.status (model_manager self).

(** [start_generation]: the answers of making a conversation and of its
    message; [benchmark_info] of the conversation when it is over *)
Definition start_generation (conversation : LlmResult unit) (response : LlmResult string)
    (benchmark_info : LlmResult BenchmarkInfo.t) (total_elapsed : Z) (ttft : option Z) (taken : nat) (self : t)
  : LlmResult (list GenerationEvent * option GenerationFinished.t) :=
  let? tokens :=
    LlmService.start_generation (bool_decide (is_Some (ModelManager.current_model (model_manager self)))) conversation
      (generate_streaming response) in
  Ok (generation_events tokens taken (generation_metrics benchmark_info (length tokens) total_elapsed ttft)).
End service.
Arguments t : clear implicits.
Arguments t {JN W} Engine.
End LlmFacade.

(** ** Words *)

(** Whitespace begins the text. *)
Definition ws_head (s : string) : bool :=
  match s with
  | EmptyString => false
  | String c r =>
      Whitespace.one c ||
      match r with
      | EmptyString => false
      | String d r =>
          Whitespace.two c d || match r with EmptyString => false | String e _ => Whitespace.three c d e end
      end
  end.

(** No whitespace begins in [w], which [s] follows. *)
Fixpoint clear (w s : string) : bool :=
  match w with
  | EmptyString => true
  | String _ r => negb (ws_head (w +:+ s)) && clear r s
  end.

Definition solid (w : string) : bool := clear w "".

Lemma trim_start_solid s : ws_head s = false -> trim_start s = s.
Proof.
  destruct s as [|c [|d [|e s]]]; cbn; repeat case_goal; done.
Qed.

Lemma ws_head_app w s : w <> ""%string -> ws_head (w +:+ s) = false -> ws_head w = false.
Proof.
  destruct w as [|c [|d [|e w]]]; [done| | |done]; intros _; rewrite !str_cons_app; cbn [ws_head].
  - intros [H _]%orb_false_iff. by rewrite H.
  - intros [H1 [H2 _]%orb_false_iff]%orb_false_iff. by rewrite H1, H2.
Qed.

Lemma clear_solid w s : clear w s = true -> solid w = true.
Proof.
  unfold solid. induction w as [|c w IH]; [done|]. cbn [clear]. rewrite !andb_true_iff, !negb_true_iff.
  intros [Hh Hc]. rewrite str_app_nil_r. split; [by apply ws_head_app in Hh|by apply IH].
Qed.

Lemma clear_snoc w c s :
  clear w (String c s) = true -> ws_head (String c s) = false -> clear (w +:+ String c EmptyString) s = true.
Proof.
  induction w as [|d w IH]; intros Hc Hh.
  - change (negb (ws_head (String c s)) && true = true). by rewrite Hh.
  - rewrite str_cons_app. cbn [clear] in *. apply andb_prop in Hc as [Hd Hc]. rewrite IH by done.
    rewrite !str_cons_app, str_app_assoc in *. change (String c EmptyString +:+ s) with (String c s). by rewrite Hd.
Qed.

Definition good (w : string) : Prop := w <> ""%string /\ solid w = true.

Lemma flush_good w s : clear w s = true -> Forall good (if str_is_empty w then [] else [w]).
Proof. intros H%clear_solid. destruct w as [|c w]; [constructor|]. by repeat constructor. Qed.

Lemma split_words_good n : forall word s,
  (String.length s <= n)%nat -> clear word s = true -> Forall good (split_words word s).
Proof.
  induction n as [|n IH]; intros word s Hn Hc; (destruct s as [|c r]; [by eapply flush_good|]); [cbn in Hn; lia|].
  cbn [String.length] in Hn. pose proof (flush_good _ _ Hc) as Hf. assert (Hnil : forall x, clear "" x = true) by done.
  assert (Hgo : ws_head (String c r) = false -> clear (word +:+ String c EmptyString) r = true) by (intros H; by apply clear_snoc).
  cbn [split_words]. destruct (Whitespace.one c) eqn:E1; [apply Forall_app; split; [done|]; by apply IH; [lia|]|].
  destruct r as [|d r].
  - constructor; [|constructor]. split; [by destruct word|]. apply (clear_solid _ ""), Hgo. cbn. by rewrite E1.
  - cbn [String.length] in Hn. destruct (Whitespace.two c d) eqn:E2; [apply Forall_app; split; [done|]; by apply IH; [lia|]|].
    destruct r as [|e r].
    + apply IH; [cbn; lia|]. apply Hgo. cbn. by rewrite E1, E2.
    + cbn [String.length] in Hn. destruct (Whitespace.three c d e) eqn:E3; [apply Forall_app; split; [done|]; by apply IH; [lia|]|].
      apply IH; [cbn; lia|]. apply Hgo. cbn. by rewrite E1, E2, E3.
Qed.

Lemma split_whitespace_good s : Forall good (split_whitespace s).
Proof. by apply (split_words_good (String.length s)). Qed.

(** A space does not join with what precedes it. *)
Lemma ws_head_space w t :
  w <> ""%string -> ws_head w = false -> ws_head (w +:+ String " " t) = false.
Proof.
  destruct w as [|c [|d [|e w]]]; [done| | |done]; intros _; rewrite !str_cons_app; change (EmptyString +:+ ?x) with x; intros Hw.
  - cbn [ws_head] in *. rewrite orb_false_r in Hw. rewrite Hw. cbn [orb].
    destruct t as [|x t]; cbn [ws_head]; unfold Whitespace.two, Whitespace.three;
      change (Whitespace.code " ") with 32; cbn; rewrite ?andb_false_r; done.
  - cbn [ws_head] in *. rewrite orb_false_r in Hw. apply orb_false_iff in Hw as [-> ->]. cbn [orb].
    unfold Whitespace.three. change (Whitespace.code " ") with 32. cbn. by rewrite !andb_false_r.
Qed.

(** No suffix is all whitespace. *)
Fixpoint tight (s : string) : bool :=
  match s with
  | EmptyString => true
  | String _ r => negb (str_is_empty (trim_start s)) && tight r
  end.

Lemma trim_end_tight s : tight s = true -> trim_end s = s.
Proof.
  induction s as [|c s IH]; [done|]. cbn [tight trim_end]. intros [Hn Ht]%andb_prop. apply negb_true_iff in Hn.
  rewrite Hn. by rewrite IH.
Qed.

Lemma solid_tight w : solid w = true -> tight w = true.
Proof.
  unfold solid. induction w as [|c w IH]; [done|]. cbn [clear tight]. rewrite !andb_true_iff, !negb_true_iff, str_app_nil_r.
  intros [Hh Hc]. rewrite trim_start_solid by done. by split; [|apply IH].
Qed.

Lemma tight_space w t : solid w = true -> tight t = true -> t <> ""%string -> tight (w +:+ String " " t) = true.
Proof.
  unfold solid. intros Hw Ht Hne. induction w as [|c w IH].
  - change (EmptyString +:+ ?x) with x. cbn [tight]. rewrite Ht, andb_true_r.
    change (trim_start (String " " t)) with (trim_start t). destruct t as [|d t]; [done|].
    cbn [tight] in Ht. by apply andb_prop in Ht as [-> _].
  - cbn [clear] in Hw. rewrite str_app_nil_r in Hw. apply andb_prop in Hw as [Hh Hc]. apply negb_true_iff in Hh.
    rewrite str_cons_app. cbn [tight]. rewrite IH, andb_true_r by done.
    change (String c (w +:+ String " " t)) with (String c w +:+ String " " t).
    by rewrite trim_start_solid by by apply ws_head_space.
Qed.

Lemma one_line_app a b : one_line (a +:+ b) = one_line a && one_line b.
Proof. induction a as [|c a IH]; [done|]. rewrite str_cons_app, !one_line_cons, IH. by rewrite andb_assoc. Qed.

Lemma solid_one_line w : solid w = true -> one_line w = true.
Proof.
  unfold solid. induction w as [|c w IH]; [done|]. cbn [clear]. rewrite one_line_cons, str_app_nil_r.
  intros [Hh Hc]%andb_prop. rewrite IH by done. destruct (Ascii.eqb_spec c (Ascii.ascii_of_nat 10)) as [->|]; done.
Qed.

Lemma join_cons sep w w' ws : join sep (w :: w' :: ws) = w +:+ sep +:+ join sep (w' :: ws).
Proof. reflexivity. Qed.

(** The words of a text, joined by spaces: one line, nothing to trim. *)
Lemma words_line ws :
  Forall good ws ->
  trim (join " " ws) = join " " ws /\ one_line (join " " ws) = true.
Proof.
  intros H. assert (Hj : ws = [] \/ join " " ws <> ""%string /\ ws_head (join " " ws) = false /\ tight (join " " ws) = true /\
    one_line (join " " ws) = true).
  { induction H as [|w ws [Hne Hs] Hf IH]; [by left|]. right.
    assert (Hh : ws_head w = false).
    { destruct w as [|c w]; [done|]. unfold solid in Hs. cbn [clear] in Hs. rewrite str_app_nil_r in Hs.
      apply andb_prop in Hs as [Hh _]. by apply negb_true_iff. }
    destruct ws as [|w' ws].
    - change (join " " [w]) with w. split_and!; [done|done|by apply solid_tight|by apply solid_one_line].
    - destruct IH as [|(Hn & _ & Ht & Ho)]; [done|]. rewrite join_cons.
      change (" " +:+ join " " (w' :: ws)) with (String " " (join " " (w' :: ws))). split_and!.
      + by destruct w.
      + by apply ws_head_space.
      + by apply tight_space.
      + rewrite one_line_app, (solid_one_line _ Hs), one_line_cons, Ho. done. }
  destruct Hj as [->|(_ & Hh & Ht & Ho)]; [done|]. split; [|done]. unfold trim. rewrite trim_start_solid by done.
  by apply trim_end_tight.
Qed.

Lemma concat_word_tokens ws : String.concat "" (word_tokens ws) = join " " ws.
Proof.
  induction ws as [|w ws IH]; [done|]. destruct ws as [|w' ws]; [done|]. rewrite join_cons, <- IH.
  change (word_tokens (w :: w' :: ws)) with ((w +:+ " ") :: word_tokens (w' :: ws)).
  destruct (word_tokens (w' :: ws)) as [|t ts] eqn:E; [by destruct ws|].
  change (String.concat "" ((w +:+ " ") :: t :: ts)) with ((w +:+ " ") +:+ "" +:+ String.concat "" (t :: ts)).
  by rewrite str_app_assoc.
Qed.

(** One line has no block of code. *)
Lemma one_line_no_block s : one_line s = true -> extract_code_block s = None.
Proof.
  intros H. assert (Hr : raw_lines s = match s with EmptyString => [] | _ => [(s, false)] end).
  { induction s as [|c s IH]; [done|]. rewrite one_line_cons in H. apply andb_prop in H as [Hc H]. apply negb_true_iff in Hc.
    cbn [raw_lines]. rewrite Hc, IH by done. by destruct s. }
  unfold extract_code_block, lines. rewrite Hr. destruct s as [|c s]; [done|]. cbn [List.map collected].
  by destruct (is_fence _).
Qed.

(** ** Generated code *)

Section generated.
Context `{U : UuidApi, C : ChronoApi, JT : JsonText}.

(** The code generated for a request is never taken out of its block: the
    service streams a reply as its words with single spaces, so what the
    generator reads is one line, in which no block is found, and the plan's
    script is that line, with its fences and without the code's lines and
    indentation. *)
Theorem generated_code_is_one_line order now request reply taken metrics tokens :
  generate_streaming (Ok reply) = Ok tokens -> (length tokens <= taken)%nat ->
  let generated := join " " (split_whitespace reply) in
  collect_tokens (generation_events tokens taken (Some metrics)).1 = generated /\
  extract_code_block generated = None /\ one_line generated = true /\
  LlmCodeGenerator.generate_plan order now request (Ok (generation_events tokens taken (Some metrics)).1) =
    Ok (new_response (LlmCodeGenerator.plan_of now request (LlmCodeGenerator.build_prompt order request) generated)).
Proof.
  intros [= <-] Ht. cbn zeta. destruct (words_line _ (split_whitespace_good reply)) as [Htr Ho].
  assert (Hc : collect_tokens (generation_events (word_tokens (split_whitespace reply)) taken (Some metrics)).1 =
    join " " (split_whitespace reply)).
  { cbn [generation_events]. unfold LlmService.stream_task. apply Nat.ltb_ge in Ht. rewrite Ht. cbn [fst].
    rewrite collect_tokens_map, concat_word_tokens. cbn [collect_tokens]. apply str_app_nil_r. }
  split_and!; [done|by apply one_line_no_block|done|].
  unfold LlmCodeGenerator.generate_plan. rewrite Hc. unfold code_of. rewrite one_line_no_block by done. by rewrite !Htr.
Qed.
End generated.

(** ** Instances of the hypotheses *)

Module DemoStream.
Import Toy ToyNumbers.

Definition reply : string :=
  fence +:+ "python" +:+ newline +:+ "for i in range(3):" +:+ newline +:+ "    print(i)" +:+ newline +:+ fence +:+ newline.
Definition generated : string := "```python for i in range(3): print(i) ```".
Definition tokens : list string := word_tokens (split_whitespace reply).
Definition metrics : GenerationMetrics.t := GenerationMetrics.timed 6 1000000000 None.
Definition now : DateTime (ChronoApi := Toy.toy_chrono) := 0.
Definition order (_ : gmap string Value) : list (string * Value) := [].
Definition request : CodeGenerationRequest :=
  new_request (true : Uuid (UuidApi := Toy.toy_uuid)) (MkSpec "a loop" None ∅) ExecutionPolicy.default.

(** The fences take the code when the lines are there. *)
Example with_lines : extract_code_block reply = Some ("for i in range(3):" +:+ newline +:+ "    print(i)").
Proof. reflexivity. Qed.
End DemoStream.

Lemma generated_code_is_one_line_witness :
  extract_code_block DemoStream.generated = None /\
  collect_tokens (generation_events DemoStream.tokens 10 (Some DemoStream.metrics)).1 = DemoStream.generated.
Proof.
  destruct (generated_code_is_one_line DemoStream.order DemoStream.now DemoStream.request DemoStream.reply 10 DemoStream.metrics
    DemoStream.tokens eq_refl ltac:(apply Nat.leb_le; reflexivity)) as (Hc & He & _).
  split; [exact He|exact Hc].
Defined.
