(* ===== verification/Proxy.v ===== *)
(** The proxy ([acdp-transport/src/proxy.rs], [transport_config.rs]): its pairs
    of transports and how the command line chooses them, the interceptors each
    pair is given, the life of a proxy over a local server with its restarts,
    and over an upstream server.  What the monitor is told is the list of
    messages handed to the buffered client. *)

From S2P Require Import Prelude McpError Messages Initialization Interceptor RateLimit Transform Text Common Routing Predictor Gepa Session LlmInterceptor IpcServer StdioHandler CoreTransport Client HttpServers Backend HttpHandler ModelConfig ModelManager Streaming.

(** ** Pairs of transports *)

Module InboundTransport.
Inductive t : Type :=
| Stdio
| HttpSse (bind_addr : string)
| HttpStream (bind_addr : string).

(** [inbound_name] *)
Definition name (self : t) : string :=
  match self with Stdio => "stdio" | HttpSse _ => "http-sse" | HttpStream _ => "http-stream" end.
End InboundTransport.

Module OutboundTransport.
Inductive t : Type :=
| Stdio (command : string) (use_shell : bool)
| HttpSse (url : string) (api_key : option string)
| HttpStream (url : string) (api_key : option string).

(** [outbound_name] *)
Definition name (self : t) : string :=
  match self with Stdio _ _ => "stdio" | HttpSse _ _ => "http-sse" | HttpStream _ _ => "http-stream" end.
End OutboundTransport.

(** [transport_config::TransportConfig] *)
Module ProxyTransport.
Record t : Type := mk { inbound : InboundTransport.t; outbound : OutboundTransport.t }.

Definition transport_type (self : t) : TransportType.t :=
  match outbound self with
  | OutboundTransport.Stdio _ _ => TransportType.Stdio
  | OutboundTransport.HttpSse _ _ => TransportType.HttpSse
  | OutboundTransport.HttpStream _ _ => TransportType.HttpStream
  end.

Definition display_target (self : t) : string :=
  match outbound self with
  | OutboundTransport.Stdio command _ => command
  | OutboundTransport.HttpSse url _ | OutboundTransport.HttpStream url _ => url
  end.

Definition inbound_descriptor (self : t) : string :=
  match inbound self with
  | InboundTransport.Stdio => "stdio"
  | InboundTransport.HttpSse bind_addr => "http-sse@" +:+ bind_addr
  | InboundTransport.HttpStream bind_addr => "http-stream@" +:+ bind_addr
  end.

(** A matching pair, the only kind there is *)
Definition matching (inbound : InboundTransport.t) (outbound : OutboundTransport.t) : bool :=
  match inbound, outbound with
  | InboundTransport.Stdio, OutboundTransport.Stdio _ _
  | InboundTransport.HttpSse _, OutboundTransport.HttpSse _ _
  | InboundTransport.HttpStream _, OutboundTransport.HttpStream _ _ => true
  | _, _ => false
  end.

Definition bind_addr (in_port : option Z) : string := "127.0.0.1:" +:+ pretty (from_option id 0 in_port).

Definition inbound_of (inbound : string) (in_port : option Z) : Res InboundTransport.t string :=
  if String.eqb inbound "stdio" then Ok InboundTransport.Stdio
  else if String.eqb inbound "http-sse" then Ok (InboundTransport.HttpSse (bind_addr in_port))
  else if String.eqb inbound "http-stream" then Ok (InboundTransport.HttpStream (bind_addr in_port))
  else Err ("Invalid inbound transport '" +:+ inbound +:+ "'. Expected one of: stdio, http-sse, http-stream").

Definition outbound_of (outbound : string) (command url : option string) (use_shell : bool) (api_key : option string)
  : Res OutboundTransport.t string :=
  if String.eqb outbound "stdio" then
    let? command := ok_or command "--command is required when --out stdio is specified"%string in
    Ok (OutboundTransport.Stdio command use_shell)
  else if String.eqb outbound "http-sse" then
    let? url := ok_or url "--url is required when --out http-sse is specified"%string in
    Ok (OutboundTransport.HttpSse url api_key)
  else if String.eqb outbound "http-stream" then
    let? url := ok_or url "--url is required when --out http-stream is specified"%string in
    Ok (OutboundTransport.HttpStream url api_key)
  else Err ("Invalid outbound transport '" +:+ outbound +:+ "'. Expected one of: stdio, http-sse, http-stream").

Definition from_cli_args (inbound outbound : string) (command url : option string) (use_shell : bool)
    (api_key : option string) (in_port : option Z) : Res t string :=
  let? i := inbound_of inbound in_port in
  let? o := outbound_of outbound command url use_shell api_key in
  if matching i o then Ok (mk i o)
  else Err ("Unsupported transport combination: inbound '" +:+ InboundTransport.name i +:+ "' with outbound '" +:+
            OutboundTransport.name o +:+ "'").
End ProxyTransport.

(** ** The proxy *)

Module MCPProxy.
Section proxy.
Context `{W : LlmWorld, JT : !JsonText, JF : !JsonFloats, UC : UnicodeCase, SD : StrDebug, UT : UuidText} {TA : TransportApi} {UA : UrlApi}.
Context {Engine : Type}.

Record t : Type := mk {
  id : ProxyId;
  name : string;
  transport_config : ProxyTransport.t;
  stats : ProxyStats.t;
  llm_service : option (LlmFacade.t Engine);
  routing_mode : RoutingMode.t
}.

Definition new (id : ProxyId) (name : string) (config : ProxyTransport.t) (llm_service : option (LlmFacade.t Engine))
    (mode : RoutingMode.t) : t :=
  mk id name config (ProxyStats.default id) llm_service mode.

(** *** Interceptors *)

(** The rule for demonstration; the value is the time at which the proxy starts. *)
Definition demo_rule (started : string) : TransformRule.t :=
  TransformRule.mk "replace-santa-with-timestamp" "tools/call" "arguments.message"
    (TransformOperation.Set_ (VString started)).

Definition with_transformer (clock : Z -> Readings) (started : string) (mode : RoutingMode.t)
    (manager : InterceptorManager.t) : InterceptorManager.t :=
  if decide (mode = RoutingMode.Bypass) then manager
  else InterceptorManager.add_interceptor manager
         (TransformInterceptor.as_interceptor clock (TransformInterceptor.add_rule TransformInterceptor.new (demo_rule started))).

(** [wired] is what is done with the interceptor's handle. *)
Definition with_llm (wired : LlmInterceptor.t -> LlmInterceptor.t) (service : LlmFacade.t Engine) (mode : RoutingMode.t)
    (manager : InterceptorManager.t) : InterceptorManager.t :=
  InterceptorManager.add_interceptor manager
    (LlmInterceptor.as_interceptor
       (wired (LlmInterceptor.with_interceptor_manager (LlmFacade.tool_predictor service) mode (LlmFacade.database service)
                 (Some (LlmFacade.session_manager service))))).

(** For the HTTP pairs: nothing without a service *)
Definition http_manager (clock : Z -> Readings) (started : string) (self : t) : InterceptorManager.t :=
  match llm_service self with
  | Some service =>
      with_llm Datatypes.id service (routing_mode self)
        (with_transformer clock started (routing_mode self) InterceptorManager.new)
  | None => InterceptorManager.new
  end.

(** [StdioHandler::new]; [session] is its fresh session *)
Definition stdio_handler (clock : Z -> Readings) (started : string) (session : SessionId) (monitored : bool) (self : t)
  : StdioHandler.t :=
  let manager := with_transformer clock started (routing_mode self) InterceptorManager.new in
  let served := bool_decide (is_Some (llm_service self)) in
  StdioHandler.with_interceptors (id self) (stats self) monitored
    (match llm_service self with
     | Some service => with_llm LlmInterceptor.set_ipc_sender service (routing_mode self) manager
     | None => manager
     end)
    (Some session) served served (routing_mode self).

(** [HttpHandler::new] with the manager it builds *)
Definition http_handler (clock : Z -> Readings) (started : string) (session : SessionId) (monitored : bool) (self : t)
  : HttpHandler.t * InterceptorManager.t :=
  let manager := with_transformer clock started (routing_mode self) InterceptorManager.new in
  (HttpHandler.mk (id self) monitored session (bool_decide (is_Some (llm_service self))) (routing_mode self) monitored None,
   match llm_service self with
   | Some service => with_llm Datatypes.id service (routing_mode self) manager
   | None => manager
   end).

(** *** Messages to the monitor *)

(** [status] is the model's at that moment. *)
Definition proxy_info (self : t) (status : ProxyStatus.t) (listen : string) (target : list string) (s : ProxyStats.t)
    (model_status : option ModelStatus.t) : ProxyInfo.t :=
  ProxyInfo.mk (id self) (name self) listen target status s (ProxyTransport.transport_type (transport_config self))
    (Some (RoutingMode.to_string (routing_mode self))) (option_map ModelStatus.to_string model_status).

Definition announce (self : t) (status : ProxyStatus.t) (s : ProxyStats.t) (model_status : option ModelStatus.t) : IpcMessage.t :=
  IpcMessage.ProxyStarted (proxy_info self status "proxy" [ProxyTransport.display_target (transport_config self)] s model_status).

Definition tell (monitored : bool) (m : IpcMessage.t) : list IpcMessage.t := if monitored then [m] else [].

(** *** A local server *)

(** The program [start_mcp_server] spawns, with its arguments *)
Definition server_command (self : t) : Res (string * list string) string :=
  match ProxyTransport.outbound (transport_config self) with
  | OutboundTransport.Stdio command use_shell =>
      if str_is_empty command then Err "No command specified"%string
      else if use_shell then Ok ("sh"%string, ["-c"; command]%string)
      else match split_whitespace command with
           | [] => Err "Empty command"%string
           | program :: args => Ok (program, args)
           end
  | _ => Err "start_mcp_server only works for stdio outbound transport"%string
  end.

(** What becomes of an attempt: the system does not spawn the server, or
    [handle_communication] returns *)
Inductive Attempt : Type :=
| SpawnFails (e : string)
| Ran (s : ProxyStats.t) (model_status : option ModelStatus.t) (outcome : Res unit string).

(** The attempts to come, what the monitor was told, and whether the last
    attempt had a child *)
Record Life : Type := MkLife { attempts : list Attempt; told : list IpcMessage.t; had_child : bool }.

(** One turn of the restart loop; [None] when no more attempt is given *)
Definition attempt_step (monitored : bool) (self : t) (s : Life) : option (Res unit string * Life) :=
  match server_command self with
  | Err e => Some (Err e, MkLife (attempts s) (told s) false)
  | Ok _ =>
      match attempts s with
      | [] => None
      | SpawnFails e :: rest => Some (Err e, MkLife rest (told s) false)
      | Ran st model_status outcome :: rest =>
          Some (outcome, MkLife rest (told s ++ tell monitored (announce self ProxyStatus.Running st model_status)) true)
      end
  end.

Definition is_crash (e : string) : bool := str_contains "crashed" e || str_contains "exited with status" e.

(** What [start] comes to *)
Record Ended : Type := MkEnded {
  result : Res unit string;
  messages : list IpcMessage.t;
  pauses : list Z;
  killed : bool
}.

Definition stdio_life (monitored : bool) (model_status : option ModelStatus.t) (given : list Attempt) (self : t) : option Ended :=
  match with_retries (attempt_step monitored self) (MkLife given [] false) with
  | None => None
  | Some (r, s, pauses) =>
      Some (MkEnded r
              (tell monitored (announce self ProxyStatus.Starting (stats self) model_status) ++ told s ++
               tell monitored (IpcMessage.ProxyStopped (id self)))
              pauses
              (had_child s && match r with Err e => negb (is_crash e) | Ok _ => false end))
  end.

(** *** The status of the model *)

(** The task beside the proxy over a local server, on the statuses it reads
    every two seconds, with the statistics at that time: the status is told
    when it is another than the last told. *)
Fixpoint status_updates (self : t) (last_status : string) (readings : list (ProxyStats.t * ModelStatus.t)) : list IpcMessage.t :=
  match readings with
  | [] => []
  | (s, status) :: readings =>
      let current := ModelStatus.to_string status in
      if String.eqb current last_status then status_updates self last_status readings
      else IpcMessage.ProxyStarted (proxy_info self ProxyStatus.Running "proxy" ["stdio"%string] s (Some status)) ::
           status_updates self current readings
  end.

(** *** An upstream server *)

(** What the system gives to the start of an HTTP proxy *)
Record Setup : Type := MkSetup {
  parsed : Res unit string;
  bound : Res unit string;
  local_addr : Res string string;
  created : McpResult Conn;
  served : Res unit string
}.

Definition http_client (manager : InterceptorManager.t) (given : Setup) (config : McpResult CoreTransport.TransportConfig.t)
  : option (Res McpClient.t string) :=
  match config with
  | Err e => Some (Err (error_text e))
  | Ok _ =>
      match with_defaults (created given) with
      | Err e => Some (Err (error_text e))
      | Ok client =>
          match McpClient.connect proxy_impl (McpClient.set_interceptor_manager manager client) with
          | None => None
          | Some (Err e, _) => Some (Err (error_text e))
          | Some (Ok _, client) => Some (Ok client)
          end
      end
  end.

(** Up to the client, in the code's order *)
Definition http_setup (manager : InterceptorManager.t) (addr : string) (given : Setup)
    (config : McpResult CoreTransport.TransportConfig.t) : option (Res (string * McpClient.t) string) :=
  match
    let? _ := map_err (fun e => "Failed to parse bind address '" +:+ addr +:+ "': " +:+ e) (parsed given) in
    let? _ := bound given in
    local_addr given
  with
  | Err e => Some (Err e)
  | Ok actual =>
      match http_client manager given config with
      | None => None
      | Some (Err e) => Some (Err e)
      | Some (Ok client) => Some (Ok (actual, client))
      end
  end.

Definition http_life (monitored : bool) (model_status running_status : option ModelStatus.t) (clock : Z -> Readings) (started : string)
    (addr url : string) (given : Setup) (config : McpResult CoreTransport.TransportConfig.t) (self : t) : option Ended :=
  let starting := tell monitored (announce self ProxyStatus.Starting (stats self) model_status) in
  match http_setup (http_manager clock started self) addr given config with
  | None => None
  | Some (Err e) => Some (MkEnded (Err e) starting [] false)
  | Some (Ok (actual, _)) =>
      Some (MkEnded (served given)
              (starting ++
               tell monitored (IpcMessage.ProxyStarted (proxy_info self ProxyStatus.Running actual [url] (stats self) running_status)) ++
               tell monitored (IpcMessage.ProxyStopped (id self)))
              [] false)
  end.

Definition http_sse_life (monitored : bool) (model_status running_status : option ModelStatus.t) (clock : Z -> Readings) (started : string)
    (addr url : string) (given : Setup) (self : t) : option Ended :=
  http_life monitored model_status running_status clock started addr url given (CoreTransport.TransportConfig.http_sse url) self.

Definition http_stream_life (monitored : bool) (model_status running_status : option ModelStatus.t) (clock : Z -> Readings) (started : string)
    (addr url : string) (given : Setup) (self : t) : option Ended :=
  http_life monitored model_status running_status clock started addr url given (CoreTransport.TransportConfig.http_stream url) self.

(** *** The start *)

(** [pair] is the pair's text, as [{:?}] prints its two sides. *)
Definition unsupported (pair : string) : string := "Unsupported transport pairing: " +:+ pair.

Definition start (monitored : bool) (model_status running_status : option ModelStatus.t) (clock : Z -> Readings) (started : string)
    (attempts : list Attempt) (given : Setup) (pair : string) (self : t) : option Ended :=
  match ProxyTransport.inbound (transport_config self), ProxyTransport.outbound (transport_config self) with
  | InboundTransport.Stdio, OutboundTransport.Stdio _ _ => stdio_life monitored model_status attempts self
  | InboundTransport.HttpSse addr, OutboundTransport.HttpSse url _ =>
      http_sse_life monitored model_status running_status clock started addr url given self
  | InboundTransport.HttpStream addr, OutboundTransport.HttpStream url _ =>
      http_stream_life monitored model_status running_status clock started addr url given self
  | _, _ =>
      Some (MkEnded (Err (unsupported pair))
              (tell monitored (announce self ProxyStatus.Starting (stats self) model_status)) [] false)
  end.
End proxy.
Arguments t : clear implicits.
Arguments t {JN W} Engine.
End MCPProxy.

(** ** The life of a proxy over a local server *)

Section life.
Context `{W : LlmWorld, JT : !JsonText, JF : !JsonFloats, UC : UnicodeCase, SD : StrDebug, UT : UuidText} {TA : TransportApi} {UA : UrlApi}.
Context {Engine : Type}.
Import MCPProxy.
Abbreviation Proxy := (MCPProxy.t Engine).

(** What the monitor is told of the children that ran *)
Definition told_running (monitored : bool) (self : Proxy) (ran : list (ProxyStats.t * option ModelStatus.t)) : list IpcMessage.t :=
  concat (List.map (fun '(s, status) => tell monitored (announce self ProxyStatus.Running s status)) ran).

Lemma told_running_app monitored self a b :
  told_running monitored self (a ++ b) = told_running monitored self a ++ told_running monitored self b.
Proof. unfold told_running. by rewrite List.map_app, concat_app. Qed.

Definition outcome_of (a : Attempt) : Res unit string :=
  match a with SpawnFails e => Err e | Ran _ _ outcome => outcome end.

Definition child_of (a : Attempt) : option (ProxyStats.t * option ModelStatus.t) :=
  match a with SpawnFails _ => None | Ran s status _ => Some (s, status) end.

Definition fails (a : Attempt) : Prop := is_ok (outcome_of a) = false.

Definition has_child (a : Attempt) : bool := match child_of a with Some _ => true | None => false end.

(** One turn makes the next attempt and tells of its child. *)
Lemma attempt_step_next monitored (self : Proxy) c a given sofar had :
  server_command self = Ok c ->
  attempt_step monitored self (MkLife (a :: given) sofar had) =
    Some (outcome_of a, MkLife given (sofar ++ told_running monitored self (omap child_of [a])) (has_child a)).
Proof.
  intros Hc. unfold attempt_step. rewrite Hc. destruct a; cbn; by rewrite ?app_nil_r.
Qed.

(** The loop makes the attempts up to the first that succeeds, and tells of the
    children of exactly those. *)
Lemma attempts_run monitored (self : Proxy) c remaining : forall count given sofar had r s p,
  server_command self = Ok c ->
  retry_loop (attempt_step monitored self) remaining count (MkLife given sofar had) = Some (r, s, p) ->
  exists n last, (n <= remaining)%nat /\ given !! n = Some last /\ Forall fails (take n given) /\
    r = outcome_of last /\ (is_ok r = true \/ n = remaining) /\ p = pauses_from count n /\
    told s = sofar ++ told_running monitored self (omap child_of (take (S n) given)) /\
    had_child s = has_child last.
Proof.
  induction remaining as [|remaining IH]; intros count [|a given] sofar had r s p Hc H; cbn [retry_loop] in H;
    try (by unfold attempt_step in H; rewrite Hc in H);
    rewrite (attempt_step_next _ _ _ _ _ _ _ Hc) in H; destruct (outcome_of a) as [u|e] eqn:Ha.
  1, 2, 3: injection H as <- <- <-; exists 0%nat, a; split_and!; auto with lia; constructor.
  destruct (retry_loop _ _ _ _) as [[[r' s'] p']|] eqn:E; [|done]. injection H as -> -> <-.
  apply IH in E as (n & last & Hn & Hl & Hfs & -> & Hor & -> & Ht & Hh); [|done].
  exists (S n), last. split_and!; [lia|done|constructor; [by unfold fails; rewrite Ha|done]|done| | | |done].
  - destruct Hor; [by left|right; lia].
  - by rewrite pauses_from_cons.
  - rewrite Ht, <- app_assoc, <- told_running_app, <- omap_app'. done.
Qed.

(** Without a command every attempt fails before a child. *)
Lemma no_command monitored (self : Proxy) e remaining : forall count l,
  server_command self = Err e ->
  exists s, retry_loop (attempt_step monitored self) remaining count l = Some (Err e, s, pauses_from count remaining) /\
    told s = told l /\ had_child s = false.
Proof.
  induction remaining as [|remaining IH]; intros count l Hc; cbn [retry_loop];
    unfold attempt_step at 1; rewrite Hc; [by eexists|].
  destruct (IH (count + 1) (MkLife (attempts l) (told l) false) Hc) as (s & -> & Ht & Hh).
  exists s. by rewrite pauses_from_cons.
Qed.

(** With as many attempts as the loop may make, it ends. *)
Lemma attempts_suffice monitored (self : Proxy) remaining : forall count s,
  (S remaining <= length (attempts s))%nat ->
  is_Some (retry_loop (attempt_step monitored self) remaining count s).
Proof.
  assert (Hstep : forall s, (1 <= length (attempts s))%nat -> exists r s', attempt_step monitored self s = Some (r, s') /\
    (length (attempts s) <= S (length (attempts s')))%nat).
  { intros s Hl. unfold attempt_step. destruct (server_command self); [|by eexists _, _; split; [done|cbn; lia]].
    destruct (attempts s) as [|[e|st status outcome] rest]; [cbn in Hl; lia| |]; by eexists _, _; split; [done|cbn; lia]. }
  induction remaining as [|remaining IH]; intros count s Hl; cbn [retry_loop];
    (destruct (Hstep s ltac:(lia)) as (r & s1 & -> & Hs); destruct r as [u|e]; [done|]); [done|].
  destruct (IH (count + 1) s1 ltac:(lia)) as [[[r2 s2] p] ->]. done.
Qed.

(** C18: the life of a proxy over a local server.  Of the attempts given it makes
    those up to the first that succeeds, six at most, each failure but the last
    followed by a pause of 1, 2, 4, 8 and 16 seconds, and comes to what the last
    one made came to.  The monitor is told that the proxy starts, then once of
    the child of each attempt made, with the statistics and the model's status
    at its start, in order, and at last that it has stopped.  A child is killed
    only at the very end: that of the last attempt, when its communication
    failed without a crash.  Without a command all six attempts fail and no
    child is told of. *)
Theorem stdio_proxy_life monitored model_status given (self : Proxy) :
  let starting := tell monitored (announce self ProxyStatus.Starting (stats self) model_status) in
  let stopped := tell monitored (IpcMessage.ProxyStopped (id self)) in
  match server_command self with
  | Err e =>
      stdio_life monitored model_status given self =
        Some (MkEnded (Err e) (starting ++ stopped) [1; 2; 4; 8; 16] false)
  | Ok _ =>
      ((6 <= length given)%nat -> is_Some (stdio_life monitored model_status given self)) /\
      forall e, stdio_life monitored model_status given self = Some e ->
      exists n last, (n <= 5)%nat /\ given !! n = Some last /\
        Forall (fun a => is_ok (outcome_of a) = false) (take n given) /\
        (is_ok (outcome_of last) = true \/ n = 5%nat) /\
        result e = outcome_of last /\
        pauses e = take n [1; 2; 4; 8; 16] /\
        messages e = starting ++
          concat (List.map (fun '(s, status) => tell monitored (announce self ProxyStatus.Running s status))
                    (omap child_of (take (S n) given))) ++ stopped /\
        (killed e = true <-> is_Some (child_of last) /\
                             exists err, outcome_of last = Err err /\ is_crash err = false)
  end.
Proof.
  cbn zeta. destruct (server_command self) as [c|e] eqn:Hc; [split|].
  - intros Hl. unfold stdio_life, with_retries.
    destruct (attempts_suffice monitored self MAX_RETRIES 0 (MkLife given [] false) Hl) as [[[r s] p] ->]. done.
  - intros e. unfold stdio_life. destruct (with_retries _ _) as [[[r s] p]|] eqn:E; [|done]. intros [= <-].
    apply (attempts_run _ _ _ _ _ _ _ _ _ _ _ Hc) in E as (n & last & Hn & Hl & Hf & -> & Hor & -> & Ht & Hh).
    cbn [result messages pauses killed attempts told] in *. exists n, last. unfold MAX_RETRIES in *.
    split_and!; [done|done|exact Hf|done|done| |by rewrite Ht|].
    + by do 6 (destruct n as [|n]; [reflexivity|]); lia.
    + rewrite Hh, andb_true_iff. unfold has_child. destruct (child_of last); [|split; [by intros [? _]|by intros [[? ?] _]]].
      destruct (outcome_of last) as [u|err]; split; try (intros [? ?]; done); [by intros (_ & ? & ? & _)|..].
      * intros [_ Hk]. split; [by eexists|]. exists err. by apply negb_true_iff in Hk.
      * intros (_ & err' & [= <-] & Hk). split; [done|]. by apply negb_true_iff.
  - unfold stdio_life, with_retries.
    destruct (no_command monitored self e MAX_RETRIES 0 (MkLife given [] false) Hc) as (s & -> & Ht & Hh).
    by rewrite Ht, Hh.
Qed.
End life.

(** ** Restarts and the monitor's queries *)

Section restarts.
Context `{W : LlmWorld, JT : !JsonText, JF : !JsonFloats, UC : UnicodeCase, SD : StrDebug, UT : UuidText} {TA : TransportApi} {UA : UrlApi}.
Context {Engine : Type}.
Import MCPProxy.

Definition is_query (e : StdioHandler.Event) : bool :=
  match e with StdioHandler.Query _ => true | _ => false end.

(** The handler with its channel of queries, which [handle_communication] takes
    and gives back only when it returns well: on the way of an error it is
    dropped.  No query arrives without it. *)
Inductive communicates : StdioHandler.t * bool -> list StdioHandler.Event -> Res unit string -> StdioHandler.t * bool -> Prop :=
| communicates_ok self rx events self' effs :
    runs self events self' effs StdioHandler.Break -> (rx = false -> existsb is_query events = false) ->
    communicates (self, rx) events (Ok tt) (self', rx)
| communicates_err self rx events self' effs e :
    runs self events self' effs (StdioHandler.Fail e) -> (rx = false -> existsb is_query events = false) ->
    communicates (self, rx) events (Err e) (self', false).

(** The attempts of a proxy with one handler: what each child's time saw *)
Inductive lives : StdioHandler.t * bool -> list Attempt -> list (list StdioHandler.Event) -> StdioHandler.t * bool -> Prop :=
| lives_over w : lives w [] [] w
| lives_spawn w e attempts seen w' : lives w attempts seen w' -> lives w (SpawnFails e :: attempts) seen w'
| lives_ran w events outcome w1 status attempts seen w' :
    communicates w events outcome w1 -> lives w1 attempts seen w' ->
    lives w (Ran (StdioHandler.stats w.1) status outcome :: attempts) (events :: seen) w'.

(** What the sender of a query meets *)
Definition queued (rx : bool) : Res unit string := if rx then Ok tt else Err "channel closed"%string.

(** Without the channel nothing is asked any more. *)
Lemma lives_silent w attempts seen w' :
  lives w attempts seen w' -> w.2 = false -> Forall (fun events => existsb is_query events = false) seen /\ w'.2 = false.
Proof.
  induction 1 as [w|w e attempts seen w' _ IH|w events outcome w1 status attempts seen w' Hc _ IH]; intros Hw; [by split|auto|].
  inversion Hc; subst; cbn in Hw; destruct IH as [Hs Hw']; try done; (split; [constructor; auto|done]).
Qed.

(** Up to the last attempt each one failed. *)
Definition failed (a : Attempt) : bool :=
  match a with SpawnFails _ | Ran _ _ (Err _) => true | Ran _ _ (Ok _) => false end.

Lemma consumed_failed monitored (self : MCPProxy.t Engine) n s s1 :
  failing (attempt_step monitored self) n s s1 ->
  exists before, attempts s = before ++ attempts s1 /\ Forall (fun a => failed a = true) before.
Proof.
  induction 1 as [s|n s e s1 s2 Hs _ (before & Ha & Hb)]; [by exists []|].
  unfold attempt_step in Hs. destruct (server_command self); [|injection Hs as <- <-; by exists before].
  destruct (attempts s) as [|[e'|st status outcome] rest]; [done| |]; injection Hs as Ho <-; cbn [attempts] in Ha; subst rest.
  - exists (SpawnFails e' :: before). by split; [|constructor].
  - subst outcome. exists (Ran st status (Err e) :: before). by split; [|constructor].
Qed.

Lemma only_first_asks w attempts seen w' :
  lives w attempts seen w' -> Forall (fun a => failed a = true) (removelast attempts) ->
  Forall (fun events => existsb is_query events = false) (tail seen) /\ ((1 < length seen)%nat -> w'.2 = false).
Proof.
  induction 1 as [w|w e attempts seen w' Hl IH|w events outcome w1 status attempts seen w' Hc Hl IH]; intros Hf.
  - split; [constructor|cbn; lia].
  - apply IH. destruct attempts; [constructor|]. by inversion Hf.
  - cbn [tail length]. destruct attempts as [|a attempts].
    + inversion Hl; subst. split; [constructor|cbn; lia].
    + assert (Hw1 : w1.2 = false).
      { assert (Ho : failed (Ran (StdioHandler.stats w.1) status outcome) = true) by (by inversion Hf).
        inversion Hc; subst; [done|reflexivity]. }
      destruct (lives_silent _ _ _ _ Hl Hw1) as [Hs Hw']. by split.
Qed.

(** Only the first child of a proxy sees the monitor's queries.  When a
    communication fails the handler's channel of queries is lost, so through
    all restarts that follow no query reaches the new child, and each query of
    the monitor is answered with an error at once. *)
Theorem restarts_lose_the_monitors_queries monitored (self : MCPProxy.t Engine) handler given seen w' r s' pauses :
  lives (handler, true) given seen w' ->
  with_retries (attempt_step monitored self) (MkLife given [] false) = Some (r, s', pauses) -> attempts s' = [] ->
  Forall (fun events => existsb is_query events = false) (tail seen) /\
  ((1 < length seen)%nat -> w'.2 = false /\
    forall server stamp corr query id responder answer,
      ProxyIpcServer.query_tx server = true ->
      ProxyIpcServer.handle_message server (IpcEnvelope.mk _ (IpcMessage.TuiQuery query id) stamp corr) responder
        (queued w'.2) answer =
      [ProxyIpcServer.Send (ProxyIpcServer.query_error id "Proxy transport unavailable")]).
Proof.
  intros Hl Hr Ha. apply retry_loop_spec in Hr as (n & s1 & _ & Hf & Hs & _).
  apply consumed_failed in Hf as (before & Hg & Hb). cbn [attempts] in Hg.
  assert (Hlast : Forall (fun a => failed a = true) (removelast given)).
  { rewrite Hg. unfold attempt_step in Hs. destruct (server_command self).
    - destruct (attempts s1) as [|[e|st status outcome] rest]; [done| |]; injection Hs as _ <-; cbn in Ha; subst rest;
        by rewrite removelast_last.
    - injection Hs as _ <-. cbn in Ha. rewrite Ha, app_nil_r. clear - Hb.
      induction Hb as [|a l Ha Hl IH]; [constructor|]. destruct l; [constructor|]. by constructor. }
  destruct (only_first_asks _ _ _ _ Hl Hlast) as [Hseen Hw']. split; [done|].
  intros Hlen. pose proof (Hw' Hlen) as Hrx. split; [done|].
  intros server stamp corr query id responder answer Hq. rewrite Hrx. unfold ProxyIpcServer.handle_message.
  cbn [IpcEnvelope.message]. by rewrite Hq.
Qed.

(** A child that closes its output is no crash, whatever its exit status. *)
Lemma closed_output_is_no_crash self events self' effs flow :
  runs self (events ++ [StdioHandler.ChildEof]) self' effs flow -> flow = StdioHandler.Break.
Proof.
  revert self effs. induction events as [|e events IH]; intros self effs Hr.
  - inversion Hr as [|? ? ? ? ? ? ? ? ? ? Hh|? ? ? ? ? ? ? ? ? ? ? ? ? Hh Hrest]; subst; cbn in Hh; simplify_eq. done.
  - inversion Hr as [|? ? ? ? ? ? ? ? ? ? ? Hnil|? ? ? ? ? ? ? ? ? ? ? ? ? Hh Hrest]; subst; [by destruct events|]. by eapply IH.
Qed.
End restarts.

(** ** The rule for demonstration *)

Section calls.
Context `{W : LlmWorld, JT : !JsonText, JF : !JsonFloats, UC : UnicodeCase, SD : StrDebug, UT : UuidText} {TA : TransportApi} {UA : UrlApi}.
Context {Engine : Type} (clock : Z -> Readings) (started : string).
Import MCPProxy.

(** The transformer alone, with the rule *)
Definition only_demo (ics : list MessageInterceptor) : Prop :=
  exists s, ics = [TransformInterceptor.as_interceptor clock s] /\ TransformInterceptor.rules s = [demo_rule started].

Definition as_started (self : StdioHandler.t) : Prop :=
  only_demo (InterceptorManager.interceptors (StdioHandler.interceptor_manager self)) /\
  StdioHandler.llm_interceptor self = false.

Lemma transformer_keeps now (s : TransformInterceptor.t) context :
  TransformInterceptor.rules (TransformInterceptor.intercept s (clock now) context).2 = TransformInterceptor.rules s.
Proof.
  unfold TransformInterceptor.intercept. destruct (TransformInterceptor.apply_rules _ _ _ _) as [m applied].
  by destruct (negb _).
Qed.

Lemma process_keeps_demo now elapsed mg m d md r mg' :
  InterceptorManager.process_message_with_metadata now elapsed mg m d md = (r, mg') ->
  only_demo (InterceptorManager.interceptors mg) -> only_demo (InterceptorManager.interceptors mg').
Proof.
  intros Hp (s & Hi & Hr). unfold InterceptorManager.process_message_with_metadata in Hp. rewrite Hi in Hp.
  cbn [InterceptorManager.run] in Hp. set (context := InterceptorManager.context _) in Hp.
  destruct (wants (TransformInterceptor.as_interceptor clock s) context).
  - set (ctx := MessageContext.set_message _ _) in Hp.
    change (intercept (TransformInterceptor.as_interceptor clock s)
      (current (TransformInterceptor.as_interceptor clock s)) now ctx) with (TransformInterceptor.intercept s (clock now) ctx) in Hp.
    pose proof (transformer_keeps now s ctx) as Hk.
    destruct (TransformInterceptor.intercept s (clock now) ctx) as [answer s1]. cbn [snd] in Hk.
    assert (Hd : only_demo [with_state (TransformInterceptor.as_interceptor clock s) s1])
      by (exists s1; split; [reflexivity|by rewrite Hk]).
    destruct answer as [result|e]; [destruct (InterceptionResult.block result)|]; cbn in Hp; injection Hp as _ <-; exact Hd.
  - cbn in Hp. injection Hp as _ <-. by exists s.
Qed.

Lemma outgoing_keeps io self c r self' :
  StdioHandler.process_outgoing io self c = (r, self') -> as_started self -> as_started self'.
Proof.
  unfold StdioHandler.process_outgoing. destruct (message_from_str _) as [m|]; [|by intros [= _ <-]].
  destruct (InterceptorManager.process_message_with_metadata _ _ _ _ _ _) as [a mgr] eqn:E.
  intros H [Hd Hl]. apply process_keeps_demo in E; [|done]. destruct a as [q|e]; injection H as _ <-; by split.
Qed.

Lemma capture_keeps io self m effs self' :
  StdioHandler.capture_query_response io self m = (effs, self') -> as_started self -> as_started self'.
Proof.
  unfold StdioHandler.capture_query_response. destruct m as [|resp|]; try by intros [= _ <-].
  intros H Ha. assert (Hc : as_started (StdioHandler.capture_tools self resp)).
  { unfold StdioHandler.capture_tools, StdioHandler.update_tools_cache. by repeat case_match. }
  destruct (StdioHandler.pending_queries _ !! _) as [p|]; injection H as _ <-; exact Hc.
Qed.

Lemma incoming_keeps io self c r effs self' :
  StdioHandler.process_incoming io self c = (r, effs, self') -> as_started self -> as_started self'.
Proof.
  unfold StdioHandler.process_incoming. destruct (message_from_str _) as [m|]; [|by intros [= _ _ <-]].
  destruct (InterceptorManager.process_message_with_metadata _ _ _ _ _ _) as [a mgr] eqn:E.
  intros H [Hd Hl]. apply process_keeps_demo in E; [|done]. destruct a as [q|e]; [|by injection H as _ _ <-].
  destruct (StdioHandler.capture_query_response _ _ _) as [es s1] eqn:Ec. injection H as _ _ <-.
  by eapply capture_keeps in Ec; [|split].
Qed.

Lemma proxy_handle_keeps io self e effs self' flow :
  StdioHandler.handle io self e = (effs, self', flow) -> as_started self -> as_started self'.
Proof.
  intros H Ha. destruct e as [|answer|job| |input| | |output| | |msg| | |[] status|err]; cbn in H;
    try (by injection H as _ <- _).
  - destruct (StdioHandler.process_tui_query io self job) as [es s1] eqn:E. injection H as _ <- _.
    unfold StdioHandler.process_tui_query in E. destruct (StdioHandler.query_call self job) as [method params].
    destruct (StdioHandler.process_outgoing io self _) as [[[line modified]|err] s2] eqn:Eo;
      apply outgoing_keeps in Eo; [|done| |done]; [|by injection E as _ <-].
    destruct (Inputs.write_ok io), (Inputs.flush_ok io); by injection E as _ <-.
  - unfold StdioHandler.user_line in H.
    destruct (StdioHandler.process_outgoing io self input) as [[[line modified]|err] s2] eqn:Eo;
      apply outgoing_keeps in Eo; [|done| |done]; [|by injection H as _ <- _].
    destruct (StdioHandler.written io); by injection H as _ <- _.
  - unfold StdioHandler.child_line in H.
    destruct (StdioHandler.process_incoming io self output) as [[[[line modified]|err] es] s2] eqn:Ei;
      apply incoming_keeps in Ei; [|done| |done]; [|by injection H as _ <- _].
    destruct (StdioHandler.written io); by injection H as _ <- _.
Qed.

Lemma routed_keeps self modes self' effs : StdioHandler.routed self modes self' effs -> as_started self -> as_started self'.
Proof.
  induction 1 as [|self mode modes effs self1 ics self' effs' Ha Hi _ IH]; [done|]. intros [Hd Hl].
  rewrite Hl in Hi. subst ics. unfold StdioHandler.apply_routing_mode in Ha. injection Ha as <- <-. by apply IH.
Qed.

Lemma runs_keep self events self' effs flow : runs self events self' effs flow -> as_started self -> as_started self'.
Proof.
  induction 1 as [|self modes self1 effs1 io e effs2 self2 flow Hm Hh|self modes self1 effs1 io e effs2 self2 events self3 effs3 flow Hm Hh _ IH];
    [done| |]; intros Ha; apply routed_keeps in Hm; try done; apply proxy_handle_keeps in Hh; auto.
Qed.

(** A call with its message replaced *)
Definition with_message (req : JsonRpcRequest.t) (params arguments : list (string * Value)) : JsonRpcRequest.t :=
  JsonRpcRequest.mk (JsonRpcRequest.jsonrpc req) (JsonRpcRequest.id req) (JsonRpcRequest.method req)
    (Some (VObject (insert_entry params "arguments" (VObject (insert_entry arguments "message" (VString started)))))).

Lemma demo_rewrites now elapsed mg md req params arguments :
  only_demo (InterceptorManager.interceptors mg) -> JsonRpcRequest.method req = "tools/call"%string ->
  JsonRpcRequest.params req = Some (VObject params) -> field params "arguments" = Some (VObject arguments) ->
  exists r, (InterceptorManager.process_message_with_metadata now elapsed mg (JsonRpcMessage.Request req) Outgoing md).1 = Ok r /\
    InterceptionResult.block r = false /\
    InterceptionResult.message r = JsonRpcMessage.Request (with_message req params arguments).
Proof.
  intros (s & Hi & Hr) Hm Hp Ha. unfold InterceptorManager.process_message_with_metadata. rewrite Hi.
  cbn [InterceptorManager.run]. set (l := InterceptorManager.initial_loop _ _ _ _).
  assert (Hmatch : forall c, MessageContext.message c = JsonRpcMessage.Request req -> TransformRule.matches (demo_rule started) c = true).
  { intros c Hc. unfold TransformRule.matches, MessageContext.method. rewrite Hc, Hm. reflexivity. }
  assert (Hw : wants (TransformInterceptor.as_interceptor clock s) (InterceptorManager.context l) = true).
  { change (TransformInterceptor.should_intercept s (InterceptorManager.context l) = true).
    unfold TransformInterceptor.should_intercept. rewrite Hr. cbn [existsb]. by rewrite Hmatch. }
  rewrite Hw. set (ctx := MessageContext.set_message _ _).
  change (intercept (TransformInterceptor.as_interceptor clock s)
    (current (TransformInterceptor.as_interceptor clock s)) now ctx) with (TransformInterceptor.intercept s (clock now) ctx).
  unfold TransformInterceptor.intercept. rewrite Hr. cbn [TransformInterceptor.apply_rules].
  rewrite Hmatch by done. change (MessageContext.message ctx) with (JsonRpcMessage.Request req).
  cbn [TransformRule.apply]. rewrite Hp. cbn [TransformRule.apply_to_option].
  assert (Hset : TransformRule.apply_to_value (demo_rule started) (VObject params) =
    Ok (VObject (insert_entry params "arguments" (VObject (insert_entry arguments "message" (VString started)))))).
  { unfold TransformRule.apply_to_value. cbn. by rewrite Ha. }
  rewrite Hset. eexists. split; [reflexivity|]. by split.
Qed.

(** Outside of the bypass mode the proxy rewrites every call of a tool
    that has arguments.  Whatever passed before, the line it writes to the
    server for such a call of the client carries the time at which the proxy
    was started as the argument [message], in place of any the client gave. *)
Theorem calls_carry_the_starting_time (self : MCPProxy.t Engine) session monitored events handler effs0 io line req params
    arguments effs handler' flow :
  llm_service self = None -> routing_mode self <> RoutingMode.Bypass ->
  runs (stdio_handler clock started session monitored self) events handler effs0 StdioHandler.Continue ->
  message_from_str (trim line) = Some (JsonRpcMessage.Request req) -> JsonRpcRequest.method req = "tools/call"%string ->
  JsonRpcRequest.params req = Some (VObject params) -> field params "arguments" = Some (VObject arguments) ->
  StdioHandler.handle io handler (StdioHandler.UserLine line) = (effs, handler', flow) -> StdioHandler.written io = true ->
  omap to_child effs = [message_to_string (JsonRpcMessage.Request (with_message req params arguments)) +:+ newline].
Proof.
  intros Hllm Hmode Hruns Hline Hm Hp Ha Hh Hw.
  assert (Hs : as_started (stdio_handler clock started session monitored self)).
  { unfold stdio_handler, with_transformer. rewrite Hllm. destruct (decide _); [done|]. split; [|done]. by eexists. }
  destruct (runs_keep _ _ _ _ _ Hruns Hs) as [Hd _]. apply user_line_sent in Hh as [_ Hsent].
  destruct (demo_rewrites (Inputs.now io) (Inputs.elapsed_ms io) (StdioHandler.interceptor_manager handler)
    (StdioHandler.interception_metadata handler) req params arguments Hd Hm Hp Ha) as (r & Hr & Hb & Hmsg).
  unfold pipeline in Hsent. rewrite Hline in Hsent. cbn [option_map] in Hsent. rewrite Hr in Hsent.
  cbn [verdict] in Hsent. rewrite Hb in Hsent. cbn [text_of] in Hsent. rewrite Hw, Hmsg in Hsent. by destruct Hsent as [-> _].
Qed.
End calls.

(** ** The command line, and what the monitor is told *)

Section pairs.
Context `{W : LlmWorld, JT : !JsonText, JF : !JsonFloats, UC : UnicodeCase, SD : StrDebug, UT : UuidText} {TA : TransportApi} {UA : UrlApi}.
Context {Engine : Type}.
Import MCPProxy.

(** The parameter a transport needs *)
Definition required (transport : string) (command url : option string) : option string :=
  if String.eqb transport "stdio" then command
  else if String.eqb transport "http-sse" || String.eqb transport "http-stream" then url
  else None.

(** The command line gives a proxy exactly for the same transport on both
    sides, with the parameter it needs, which is then the target. *)
Lemma from_cli_args_spec inbound outbound command url use_shell api_key in_port :
  match ProxyTransport.from_cli_args inbound outbound command url use_shell api_key in_port with
  | Ok config =>
      inbound = outbound /\ required outbound command url = Some (ProxyTransport.display_target config) /\
      ProxyTransport.matching (ProxyTransport.inbound config) (ProxyTransport.outbound config) = true /\
      InboundTransport.name (ProxyTransport.inbound config) = inbound /\
      OutboundTransport.name (ProxyTransport.outbound config) = outbound
  | Err _ => inbound <> outbound \/ required outbound command url = None
  end.
Proof.
  unfold ProxyTransport.from_cli_args, ProxyTransport.inbound_of, ProxyTransport.outbound_of, required.
  destruct (String.eqb_spec inbound "stdio") as [->|Hi1];
    [|destruct (String.eqb_spec inbound "http-sse") as [->|Hi2]; [|destruct (String.eqb_spec inbound "http-stream") as [->|Hi3]]];
    (destruct (String.eqb_spec outbound "stdio") as [->|Ho1];
      [destruct command|
       destruct (String.eqb_spec outbound "http-sse") as [->|Ho2]; [destruct url|
         destruct (String.eqb_spec outbound "http-stream") as [->|Ho3]; [destruct url|]]]);
    cbn; try (by split_and!); try (by left); by right.
Qed.

(** Whether a proxy comes to the loop it serves in *)
Definition serving (clock : Z -> Readings) (started : string) (given : Setup) (self : MCPProxy.t Engine) : Prop :=
  match ProxyTransport.inbound (transport_config self), ProxyTransport.outbound (transport_config self) with
  | InboundTransport.Stdio, OutboundTransport.Stdio _ _ => True
  | InboundTransport.HttpSse addr, OutboundTransport.HttpSse url _ =>
      exists x, http_setup (http_manager clock started self) addr given (CoreTransport.TransportConfig.http_sse url) = Some (Ok x)
  | InboundTransport.HttpStream addr, OutboundTransport.HttpStream url _ =>
      exists x, http_setup (http_manager clock started self) addr given (CoreTransport.TransportConfig.http_stream url) = Some (Ok x)
  | _, _ => False
  end.

Lemma http_life_end model_status running_status clock started addr url given config (self : MCPProxy.t Engine) e :
  http_life true model_status running_status clock started addr url given config self = Some e ->
  (In (IpcMessage.ProxyStopped (id self)) (messages e) <->
   exists x, http_setup (http_manager clock started self) addr given config = Some (Ok x)) /\
  (is_ok (result e) = true -> In (IpcMessage.ProxyStopped (id self)) (messages e)).
Proof.
  unfold http_life. destruct (http_setup _ _ _ _) as [[[actual client]|err]|]; [| |done]; intros [= <-]; cbn.
  - split; [split; [by eexists|by right; right; left]|by right; right; left].
  - split; [|done]. split; [by intros [H|[]]|by intros [x Hx]].
Qed.

(** A proxy from the command line is one of the three pairs the start
    supports, with the parameter its transport needs.  Once it serves, the
    monitor is told when it has stopped; but a proxy before an upstream server
    that fails on the way there, at its address, its listener or the upstream
    server, was announced as starting and is never told to have stopped. *)
Theorem proxies_announce_their_end inbound outbound command url use_shell api_key in_port config model_status running_status clock
    started attempts given pair (self : MCPProxy.t Engine) e :
  ProxyTransport.from_cli_args inbound outbound command url use_shell api_key in_port = Ok config ->
  transport_config self = config ->
  start true model_status running_status clock started attempts given pair self = Some e ->
  inbound = outbound /\ required outbound command url = Some (ProxyTransport.display_target config) /\
  head (messages e) = Some (announce self ProxyStatus.Starting (stats self) model_status) /\
  (In (IpcMessage.ProxyStopped (id self)) (messages e) <-> serving clock started given self) /\
  (is_ok (result e) = true -> In (IpcMessage.ProxyStopped (id self)) (messages e)).
Proof.
  intros Hc Ht Hs. pose proof (from_cli_args_spec inbound outbound command url use_shell api_key in_port) as Hf.
  rewrite Hc in Hf. destruct Hf as (Hio & Hr & Hm & _). split; [done|]. split; [done|].
  unfold start, serving in *. rewrite Ht in *. destruct config as [i o]. cbn [ProxyTransport.inbound ProxyTransport.outbound] in *.
  destruct i as [|addr|addr], o as [cmd sh|u k|u k]; try discriminate Hm.
  - unfold stdio_life in Hs. destruct (with_retries _ _) as [[[r s] p]|]; [|done]. injection Hs as <-. cbn.
    assert (Hin : In (IpcMessage.ProxyStopped (id self))
      (announce self ProxyStatus.Starting (stats self) model_status :: told s ++ [IpcMessage.ProxyStopped (id self)]))
      by (right; apply in_or_app; right; by left).
    by split_and!.
  - split; [|by apply http_life_end in Hs]. unfold http_sse_life, http_stream_life, http_life in Hs. destruct (http_setup _ _ _ _) as [[[a c]|x]|]; [| |done]; by injection Hs as <-.
  - split; [|by apply http_life_end in Hs]. unfold http_sse_life, http_stream_life, http_life in Hs. destruct (http_setup _ _ _ _) as [[[a c]|x]|]; [| |done]; by injection Hs as <-.
Qed.
End pairs.

(** ** Instances of the hypotheses *)

Module DemoProxy.
Import ToyNumbers ToyText ToyUrl DemoWorld DemoLlm Client.Demo.

Definition config : ProxyTransport.t :=
  ProxyTransport.mk InboundTransport.Stdio (OutboundTransport.Stdio "server --fast" false).
Definition proxy : MCPProxy.t unit := MCPProxy.new "proxy" "demo" config None RoutingMode.Hybrid.

Definition refused : list MCPProxy.Attempt := List.repeat (MCPProxy.SpawnFails "no such file") 6.

Definition clock (now : Z) : Readings := MkReadings 0 0 0 0.
Definition started : string := "2025-01-01T00:00:00+00:00".
Definition handler : StdioHandler.t := MCPProxy.stdio_handler clock started "session" true proxy.
Definition io : Inputs.t := Inputs.mk 0 1 0 0 "" 0 (Ok tt) (Ok tt).

(** A child that crashes, and one that ends well *)
Definition crashed : string := "Backend process crashed with status 1".
Definition after : StdioHandler.t := StdioHandler.set_stats handler (StdioHandler.count_failed (StdioHandler.stats handler)).
Definition given : list MCPProxy.Attempt :=
  [MCPProxy.Ran (StdioHandler.stats handler) None (Err crashed); MCPProxy.Ran (StdioHandler.stats after) None (Ok tt)].
Definition seen : list (list StdioHandler.Event) := [[StdioHandler.ChildExit false "1"]; [StdioHandler.ShutdownSignal]].

Lemma lived : lives (handler, true) given seen (after, false).
Proof.
  apply (lives_ran (handler, true) [StdioHandler.ChildExit false "1"] (Err crashed) (after, false)).
  - eapply communicates_err; [|discriminate]. apply (runs_last handler [] handler [] io); [constructor|reflexivity].
  - apply (lives_ran (after, false) [StdioHandler.ShutdownSignal] (Ok tt) (after, false)); [|constructor].
    eapply communicates_ok; [|done]. apply (runs_last after [] after [] io); [constructor|reflexivity].
Qed.

Definition ended : option (Res unit string * MCPProxy.Life * list Z) :=
  with_retries (MCPProxy.attempt_step true proxy) (MCPProxy.MkLife given [] false).

Definition ipc : ProxyIpcServer.t := ProxyIpcServer.mk true true.

(** A call of the client, before the proxy and behind it *)
Definition arguments : list (string * Value) := [("message"%string, VString "Dear Santa")].
Definition params : list (string * Value) := [("arguments"%string, VObject arguments); ("name"%string, VString "post")].
Definition call : JsonRpcRequest.t := JsonRpcRequest.mk "2.0" (RequestId.Number 1) "tools/call" (Some (VObject params)).
Definition line : string := message_to_string (JsonRpcMessage.Request call) +:+ newline.

Lemma line_reads : message_from_str (trim line) = Some (JsonRpcMessage.Request call).
Proof.
  unfold line. rewrite trim_newline. rewrite (proj1 (message_text_trim _)). rewrite message_text_roundtrip; [reflexivity| |reflexivity].
  by repeat split.
Qed.

Definition handled : list StdioHandler.Effect * StdioHandler.t * StdioHandler.Flow :=
  StdioHandler.handle io handler (StdioHandler.UserLine line).

Lemma handled_eta : handled = (handled.1.1, handled.1.2, handled.2).
Proof. by destruct handled as [[a b] c]. Qed.

Definition http_config : ProxyTransport.t :=
  ProxyTransport.mk (InboundTransport.HttpSse "127.0.0.1:0") (OutboundTransport.HttpSse "http://upstream/sse" None).
Definition http_proxy : MCPProxy.t unit := MCPProxy.new "proxy" "demo" http_config None RoutingMode.Bypass.
Definition taken : MCPProxy.Setup :=
  MCPProxy.MkSetup (Ok tt) (Err "Address already in use"%string) (Ok "127.0.0.1:9000"%string) (Ok []) (Ok tt).
End DemoProxy.

Lemma stdio_proxy_life_witness :
  exists e n, MCPProxy.stdio_life true None DemoProxy.refused DemoProxy.proxy = Some e /\
    MCPProxy.pauses e = take n [1; 2; 4; 8; 16] /\ (n <= 5)%nat.
Proof.
  pose proof (stdio_proxy_life true None DemoProxy.refused DemoProxy.proxy) as H. cbn zeta in H.
  destruct (MCPProxy.server_command DemoProxy.proxy) as [c|e] eqn:E; [|discriminate E].
  destruct H as [Hsome Hspec]. destruct Hsome as [e He]; [apply Nat.leb_le; reflexivity|].
  destruct (Hspec e He) as (n & last & Hn & _ & _ & _ & _ & Hp & _).
  exists e, n. split; [exact He|]. split; [exact Hp|exact Hn].
Defined.

(** The second child sees no query. *)
Lemma restarts_lose_the_monitors_queries_witness :
  Forall (fun events => existsb is_query events = false) (tail DemoProxy.seen) /\ queued false = Err "channel closed"%string.
Proof.
  split; [|reflexivity].
  destruct DemoProxy.ended as [[[r s] p]|] eqn:E; [|discriminate E].
  assert (Ha : MCPProxy.attempts s = []) by (injection E as _ <- _; reflexivity).
  exact (proj1 (restarts_lose_the_monitors_queries true DemoProxy.proxy DemoProxy.handler DemoProxy.given DemoProxy.seen
    (DemoProxy.after, false) r s p DemoProxy.lived E Ha)).
Defined.

Lemma calls_carry_the_starting_time_witness :
  omap to_child DemoProxy.handled.1.1 =
  [message_to_string (JsonRpcMessage.Request
     (with_message DemoProxy.started DemoProxy.call DemoProxy.params DemoProxy.arguments)) +:+ newline].
Proof.
  exact (calls_carry_the_starting_time DemoProxy.clock DemoProxy.started DemoProxy.proxy "session" true [] DemoProxy.handler []
    DemoProxy.io DemoProxy.line DemoProxy.call DemoProxy.params DemoProxy.arguments _ _ _
    eq_refl ltac:(discriminate) (runs_now DemoProxy.handler) DemoProxy.line_reads eq_refl eq_refl eq_refl DemoProxy.handled_eta eq_refl).
Defined.

(** The address is taken: the monitor is not told that the proxy stopped. *)
Lemma proxies_announce_their_end_witness :
  exists e, MCPProxy.start true None None DemoProxy.clock DemoProxy.started [] DemoProxy.taken "" DemoProxy.http_proxy = Some e /\
    ~ In (IpcMessage.ProxyStopped "proxy") (MCPProxy.messages e).
Proof.
  eexists. split; [reflexivity|]. intros H.
  destruct (proxies_announce_their_end "http-sse" "http-sse" None (Some "http://upstream/sse"%string) false None None DemoProxy.http_config
    None None DemoProxy.clock DemoProxy.started [] DemoProxy.taken "" DemoProxy.http_proxy _ eq_refl eq_refl eq_refl)
    as (_ & _ & _ & Hs & _).
  apply Hs in H. destruct H as [x Hx]. discriminate Hx.
Defined.
