(* ===== verification/GatewayTypes.v ===== *)
(** The gateway server's types and errors ([acdp-gateway/acdp-common]), and
    what it uses of the crate [mcp-auth].  That crate is named by a path that
    the repository does not have: its structs have here the fields the server
    gives them, and its functions are an interface. *)

From S2P Require Import Prelude Externs P256 Messages.

(** ** Errors ([error.rs]) *)

Module ACDPGatewayError.
(** The errors of other crates are their texts. *)
Inductive t : Type :=
| InvalidIDJAG (msg : string)
| CredentialIssuanceFailed (msg : string)
| CredentialVerificationFailed (msg : string)
| DelegationNotAllowed (msg : string)
| RateLimitExceeded (used max : Z)
| Unauthorized (msg : string)
| DatabaseError (msg : string)
| RauthyError (msg : string)
| MCPAuthError (msg : string)
| SerializationError (msg : string)
| HttpError (msg : string)
| InternalError (msg : string).

Definition to_string (e : t) : string :=
  match e with
  | InvalidIDJAG m => "Invalid ID-JAG token: " +:+ m
  | CredentialIssuanceFailed m => "Credential issuance failed: " +:+ m
  | CredentialVerificationFailed m => "Credential verification failed: " +:+ m
  | DelegationNotAllowed m => "Delegation not allowed: " +:+ m
  | RateLimitExceeded used max => "Rate limit exceeded: " +:+ pretty used +:+ "/" +:+ pretty max
  | Unauthorized m => "Unauthorized: " +:+ m
  | DatabaseError m => "Database error: " +:+ m
  | RauthyError m => "Rauthy integration error: " +:+ m
  | MCPAuthError m => "MCP Auth error: " +:+ m
  | SerializationError m => "Serialization error: " +:+ m
  | HttpError m => "HTTP error: " +:+ m
  | InternalError m => "Internal error: " +:+ m
  end%string.

Definition status (e : t) : Z :=
  match e with
  | InvalidIDJAG _ => 400
  | Unauthorized _ => 401
  | RateLimitExceeded _ _ => 429
  | DelegationNotAllowed _ => 403
  | _ => 500
  end.
End ACDPGatewayError.

Abbreviation GatewayResult T := (Res T ACDPGatewayError.t).

(** ** Requests and results ([types.rs]) *)

Module CredentialType.
Inductive t : Type := IdentityBound | Anonymous | Hybrid.
End CredentialType.

Module RateLimitConfig.
Record t : Type := mk { max_presentations : Z (* u64 *); window : string }.

Definition validate `{V : ValidatorApi} (self : t) : Res unit string :=
  validate_fields
    [("max_presentations"%string, within (Some 1) (Some 1000000) (max_presentations self));
     ("window"%string, validate_length (Some 2) (Some 10) (window self))].
End RateLimitConfig.

Module MCPToolAccess.
Record t : Type := mk { allowed : list string; denied : list string }.
End MCPToolAccess.

Module CredentialCapabilities.
Record t : Type := mk { rate_limit : RateLimitConfig.t; mcp_tools : MCPToolAccess.t }.

(** The derived [validate()]: the fields carry no attribute. *)
Definition validate `{V : ValidatorApi} (self : t) : Res unit string := validate_fields [].
End CredentialCapabilities.

Module CredentialIssuanceRequest.
Record t : Type := mk {
  agent_id : string;
  agent_public_key : string;
  credential_type : CredentialType.t;
  capabilities : CredentialCapabilities.t;
  duration_days : Z  (* u32 *)
}.

(** The derived [validate()]: nothing of the capabilities *)
Definition validate `{V : ValidatorApi} (self : t) : Res unit string :=
  validate_fields
    [("agent_id"%string, validate_length (Some 1) None (agent_id self));
     ("agent_public_key"%string, validate_length (Some 64) (Some 64) (agent_public_key self));
     ("duration_days"%string, within (Some 1) (Some 365) (duration_days self))].
End CredentialIssuanceRequest.

Module CredentialVerificationRequest.
Record t `{U : UuidApi} : Type := mk {
  credential_id : Uuid;
  presentation_context : string;
  nonce : Z;
  credential : string;
  arc_presentation : option string
}.
Arguments mk {U}.
End CredentialVerificationRequest.

Module PrincipalInfo.
Record t : Type := mk { subject : string; issuer : string; client_id : string }.
End PrincipalInfo.

Module CredentialVerificationResult.
Record t `{C : ChronoApi} : Type := mk {
  valid : bool;
  principal : option PrincipalInfo.t;
  agent_id : option string;
  presentations_remaining : Z;
  delegation_chain : list string;
  failure_reason : option string;
  verified_at : DateTime
}.
Arguments mk {C}.
End CredentialVerificationResult.

Module DelegationRequest.
Record t `{U : UuidApi} : Type := mk {
  parent_credential_id : Uuid;
  child_agent_id : string;
  child_agent_public_key : string;
  capabilities : CredentialCapabilities.t;
  duration_days : Z
}.
Arguments mk {U}.

Definition validate `{U : UuidApi, V : ValidatorApi} (self : t) : Res unit string :=
  validate_fields
    [("child_agent_id"%string, validate_length (Some 1) None (child_agent_id self));
     ("child_agent_public_key"%string, validate_length (Some 64) (Some 64) (child_agent_public_key self));
     ("duration_days"%string, within (Some 1) (Some 365) (duration_days self))].
End DelegationRequest.

(** ** The crate [mcp-auth] *)

Module McpAuth.

Class Types := {
  Principal : Type;
  AgentMetadata : Type;
  CallLimits : Type;
  DelegatedCapability : Type;
  DelegationChain : Type;
  ARCCredential : Type;
  Extensions : Type
}.

Section data.
Context `{U : UuidApi, C : ChronoApi, E : Ed25519Api} {T : Types}.

Record Agent : Type := MkAgent {
  agent_id : string;
  public_key : bytes;
  agent_type : string;
  agent_metadata : option AgentMetadata
}.

Record MCPCapabilities : Type := MkCapabilities {
  allowed_tools : list string;
  denied_tools : list string;
  max_calls_per_tool : option CallLimits;
  rate_limit_window : option string
}.

Record DelegationRights : Type := MkRights {
  can_delegate : bool;
  max_depth : Z;
  allowed_capabilities : list DelegatedCapability
}.

Record IdentityBoundCredential : Type := MkIdentityBound {
  ib_version : string;
  ib_credential_id : Uuid;
  ib_issued_at : DateTime;
  ib_expires_at : DateTime;
  ib_principal : Principal;
  ib_agent : Agent;
  ib_mcp_capabilities : MCPCapabilities;
  ib_delegation : DelegationRights;
  ib_delegation_chain : DelegationChain;
  ib_signature : Signature;
  ib_extensions : Extensions
}.

Record AnonymousCredential : Type := MkAnonymous {
  an_version : string;
  an_credential_id : Uuid;
  an_issued_at : DateTime;
  an_expires_at : DateTime;
  an_arc_credential : ARCCredential;
  an_mcp_capabilities : MCPCapabilities;
  an_extensions : Extensions
}.

Record HybridCredential : Type := MkHybrid {
  hy_version : string;
  hy_credential_id : Uuid;
  hy_issued_at : DateTime;
  hy_expires_at : DateTime;
  hy_principal : Principal;
  hy_agent : Agent;
  hy_arc_credential : ARCCredential;
  hy_mcp_capabilities : MCPCapabilities;
  hy_delegation : DelegationRights;
  hy_delegation_chain : DelegationChain;
  hy_signature : Signature;
  hy_extensions : Extensions
}.

Inductive ACDPCredential : Type :=
| IdentityBound (c : IdentityBoundCredential)
| Anonymous (c : AnonymousCredential)
| Hybrid (c : HybridCredential).
End data.

Class Api `{U : UuidApi, C : ChronoApi, E : Ed25519Api, PA : P256Api, JN : JsonNumbers} {T : Types} := {
  (** [Principal::from_id_jag], with the text of its error *)
  from_id_jag : string -> string -> string -> Res Principal string;
  subject : Principal -> string;
  issuer : Principal -> string;
  client_id : Principal -> string;
  chain_new : DelegationChain;
  audit_trail : DelegationChain -> list string;
  default_extensions : Extensions;
  (** [acdp.is_expired()] at an instant *)
  is_expired : DateTime -> ACDPCredential -> bool;
  credential_id : ACDPCredential -> Uuid;
  (** [credential_type()], as an [i32] and as JSON *)
  credential_type : ACDPCredential -> Z;
  credential_type_value : ACDPCredential -> Value;
  (** [serde_json::to_string], [to_value] and [from_str] *)
  to_string : ACDPCredential -> Res string string;
  to_value : ACDPCredential -> Res Value string;
  from_str : string -> Res ACDPCredential string;
  (** anonymous rate-limited credentials; what an operation draws at random is
      an argument *)
  Draw : Type;
  ARCGenerators : Type;
  ServerPrivateKey : Type;
  ServerPublicKey : Type;
  ClientSecrets : Type;
  ARCCredentialRequest : Type;
  ARCCredentialResponse : Type;
  generators_new : ARCGenerators;
  private_key_random : Draw -> ServerPrivateKey;
  from_private_key : ServerPrivateKey -> ARCGenerators -> ServerPublicKey;
  secrets_random : Draw -> ClientSecrets;
  request_new : Draw -> ClientSecrets -> ServerPublicKey -> ARCGenerators -> ARCCredentialRequest;
  issue : Draw -> ARCCredentialRequest -> ServerPrivateKey -> Scalar -> ARCGenerators -> Res ARCCredentialResponse string;
  from_response : ARCCredentialResponse -> ARCCredentialRequest -> ClientSecrets -> ServerPublicKey -> Res ARCCredential string
}.

(** What the server reads of a credential *)
Definition id_of `{U : UuidApi, C : ChronoApi, E : Ed25519Api} {T : Types} (c : ACDPCredential) : Uuid :=
  match c with IdentityBound c => ib_credential_id c | Anonymous c => an_credential_id c | Hybrid c => hy_credential_id c end.
Definition expiry_of `{U : UuidApi, C : ChronoApi, E : Ed25519Api} {T : Types} (c : ACDPCredential) : DateTime :=
  match c with IdentityBound c => ib_expires_at c | Anonymous c => an_expires_at c | Hybrid c => hy_expires_at c end.

(** The accessors give the fields, a credential is expired when the instant of
    expiry has passed, and what is serialised is read back with its identifier
    and its expiry. *)
Class Laws `{U : UuidApi, C : ChronoApi, E : Ed25519Api, PA : P256Api, JN : JsonNumbers} {T : Types} {A : Api} := {
  credential_id_field c : credential_id c = id_of c;
  is_expired_at now c : is_expired now c = dt_ltb (expiry_of c) now;
  from_str_to_string c s : to_string c = Ok s ->
    exists c', from_str s = Ok c' /\ id_of c' = id_of c /\ expiry_of c' = expiry_of c
}.
End McpAuth.
