(* ===== verification/CredentialServer.v ===== *)
(** The gateway server ([acdp-gateway/acdp-server]): the credential service,
    the table of credentials, and the routes that issue and verify them.

    A statement of the database is given its outcome, an error of the
    connection or success; what a statement does to the table is here.  Times,
    identifiers and random draws are arguments. *)

From S2P Require Import Prelude Externs P256 Messages GatewayTypes.

(** ** Identity assertions ([services/id_jag.rs]) *)

Module IDJAGClaims.
Record t : Type := mk {
  typ : string;
  jti : string;
  iss : string;
  sub : string;
  aud : string;
  resource : string;
  client_id : string;
  exp : Z;
  iat : Z;
  scope : string
}.
End IDJAGClaims.

(** [jsonwebtoken] with a shared secret: [encode] with the default header, and
    [decode] with the default validation for one audience at a time *)
Class IdJagJwt := {
  jwt_encode : bytes -> IDJAGClaims.t -> Res string string;
  jwt_decode : bytes -> Z -> string -> string -> Res IDJAGClaims.t string
}.

(** What is encoded with a secret is decoded with it by the token's audience
    until it expires. *)
Class IdJagJwtLaws {W : IdJagJwt} := {
  jwt_decode_encode secret now audience claims token :
    jwt_encode secret claims = Ok token -> IDJAGClaims.aud claims = audience -> now <= IDJAGClaims.exp claims ->
    jwt_decode secret now audience token = Ok claims
}.

Definition validate_id_jag `{W : IdJagJwt} (now : Z) (token expected_audience : string) (idp_public_key : bytes)
  : GatewayResult IDJAGClaims.t :=
  let? claims := map_err (fun e => ACDPGatewayError.InvalidIDJAG ("JWT decode failed: " +:+ e))
                   (jwt_decode idp_public_key now expected_audience token) in
  if negb (String.eqb (IDJAGClaims.typ claims) "oauth-id-jag+jwt") then
    Err (ACDPGatewayError.InvalidIDJAG ("Invalid token type: " +:+ IDJAGClaims.typ claims))
  else if negb (String.eqb (IDJAGClaims.aud claims) expected_audience) then
    Err (ACDPGatewayError.InvalidIDJAG
           ("Audience mismatch: " +:+ IDJAGClaims.aud claims +:+ " != " +:+ expected_audience))
  else Ok claims.

(** ** The identity provider ([services/rauthy_client.rs]) *)

Module UserInfo.
Record t : Type := mk { sub : string; email : option string; email_verified : option bool; name : option string }.
End UserInfo.

Module IDTokenClaims.
Record t : Type := mk {
  iss : string; sub : string; aud : string; exp : Z; iat : Z; email : option string; email_verified : option bool
}.
End IDTokenClaims.

Module RauthyClient.
Record t : Type := mk { base_url : string; admin_token : string }.
Definition new (base_url admin_token : string) : t := mk base_url admin_token.

(** A reply: its status, the status as text, and the body as read *)
Record Reply : Type := MkReply { status : Z; status_text : string; json : Res UserInfo.t string }.

Definition verify_id_token (self : t) (id_token : string) : GatewayResult IDTokenClaims.t :=
  Err (ACDPGatewayError.RauthyError "ID token verification not yet implemented").

Definition user_info_url (self : t) : string := base_url self +:+ "/oidc/userinfo".

Definition get_user_info (sent : Res Reply string) (self : t) : GatewayResult UserInfo.t :=
  let? response := map_err ACDPGatewayError.HttpError sent in
  if negb ((200 <=? status response) && (status response <=? 299)) then
    Err (ACDPGatewayError.RauthyError ("User info request failed: " +:+ status_text response))
  else map_err ACDPGatewayError.HttpError (json response).

Definition validate_client (self : t) (client_id client_secret : string) : GatewayResult bool := Ok true.
End RauthyClient.

(** ** The table of credentials ([migrations/20241109000001_create_acdp_credentials.sql]) *)

(** The texts of the database's errors for a key that is taken and for an
    integer out of range *)
Class SqlTexts := { unique_violation : string; bigint_out_of_range : string }.

Module Row.
Section row.
Context `{U : UuidApi, C : ChronoApi}.
Record t : Type := mk {
  credential_id : Uuid;
  credential_type : Z;
  principal_subject : option string;
  principal_issuer : option string;
  agent_id : string;
  credential_data : string;
  max_presentations : Z;
  presentations_used : Z;
  issued_at : DateTime;
  expires_at : DateTime;
  revoked : bool
}.

Definition set_used (n : Z) (r : t) : t :=
  mk (credential_id r) (credential_type r) (principal_subject r) (principal_issuer r) (agent_id r) (credential_data r)
    (max_presentations r) n (issued_at r) (expires_at r) (revoked r).
Definition set_revoked (b : bool) (r : t) : t :=
  mk (credential_id r) (credential_type r) (principal_subject r) (principal_issuer r) (agent_id r) (credential_data r)
    (max_presentations r) (presentations_used r) (issued_at r) (expires_at r) b.
End row.
End Row.

Section table.
Context `{U : UuidApi, C : ChronoApi, ST : SqlTexts}.

(** [WHERE credential_id = $1] *)
Definition has_id (id : Uuid) (r : Row.t) : bool := bool_decide (Row.credential_id r = id).

Definition select (id : Uuid) (rows : list Row.t) : option Row.t := List.find (has_id id) rows.

Definition insert (r : Row.t) (rows : list Row.t) : GatewayResult (list Row.t) :=
  match select (Row.credential_id r) rows with
  | Some _ => Err (ACDPGatewayError.DatabaseError unique_violation)
  | None => Ok (rows ++ [r])
  end.

(** [presentations_used = presentations_used + 1], of a [BIGINT] *)
Definition update (id : Uuid) (rows : list Row.t) : GatewayResult (list Row.t) :=
  if existsb (fun r => has_id id r && (i64_max <=? Row.presentations_used r)) rows then
    Err (ACDPGatewayError.DatabaseError bigint_out_of_range)
  else Ok (List.map (fun r => if has_id id r then Row.set_used (Row.presentations_used r + 1) r else r) rows).
End table.

(** ** The credential service ([services/credential.rs]) *)

(** [KeyPair::from_seed(Seed::from_slice(bytes)).sk]; [None] is the error of a
    slice that is no seed. *)
Class SeedApi `{E : Ed25519Api} := { sk_from_seed : bytes -> option SecretKey }.

Module CredentialService.
Section service.
Context `{U : UuidApi, C : ChronoApi, E : Ed25519Api, PA : P256Api, JN : JsonNumbers, V : ValidatorApi, H : HexApi, ST : SqlTexts}.
Context {SA : SeedApi} {T : McpAuth.Types} {MA : McpAuth.Api}.

Record t : Type := mk {
  signing_key : bytes;
  public_key : bytes;
  gateway_issuer : string;
  arc_generators : McpAuth.ARCGenerators;
  arc_server_key : McpAuth.ServerPrivateKey;
  arc_server_pubkey : McpAuth.ServerPublicKey
}.

Definition new (drawn : McpAuth.Draw) (signing_key public_key : bytes) (gateway_issuer : string) : t :=
  let arc_generators := McpAuth.generators_new in
  let arc_server_key := McpAuth.private_key_random drawn in
  mk signing_key public_key gateway_issuer arc_generators arc_server_key
    (McpAuth.from_private_key arc_server_key arc_generators).

(** What is drawn for an anonymous rate-limited credential *)
Record Draws : Type := MkDraws { for_secrets : McpAuth.Draw; for_request : McpAuth.Draw; for_issue : McpAuth.Draw }.

Definition issue_arc (self : t) (d : Draws) : GatewayResult McpAuth.ARCCredential :=
  let client_secrets := McpAuth.secrets_random (for_secrets d) in
  let arc_request := McpAuth.request_new (for_request d) client_secrets (arc_server_pubkey self) (arc_generators self) in
  let m2 := scalar_from_u64 0 in
  let? arc_response :=
    map_err (fun e => ACDPGatewayError.CredentialIssuanceFailed ("ARC issuance failed: " +:+ e))
      (McpAuth.issue (for_issue d) arc_request (arc_server_key self) m2 (arc_generators self)) in
  map_err (fun e => ACDPGatewayError.CredentialIssuanceFailed ("ARC finalization failed: " +:+ e))
    (McpAuth.from_response arc_response arc_request client_secrets (arc_server_pubkey self)).

Definition no_delegation : McpAuth.DelegationRights := McpAuth.MkRights false 0 [].

(** The data that is signed; a hybrid credential's has no instants. *)
Definition identity_bound_data (credential_id : Uuid) (issued_at expires_at : DateTime) : bytes :=
  as_bytes "ACDP-v0.3" ++ uuid_as_bytes credential_id ++
  to_le_bytes 8 (timestamp issued_at) ++ to_le_bytes 8 (timestamp expires_at).
Definition hybrid_data (credential_id : Uuid) : bytes := as_bytes "ACDP-v0.3" ++ uuid_as_bytes credential_id.

(** [None] is the panic of a signing key that is no seed. *)
Definition sign (self : t) (data : bytes) : option Signature :=
  option_map (fun sk => ed_sign sk data) (sk_from_seed (signing_key self)).

Definition issue_identity_bound (self : t) (credential_id : Uuid) (principal : McpAuth.Principal) (agent : McpAuth.Agent)
    (capabilities : McpAuth.MCPCapabilities) (issued_at expires_at : DateTime) : option (GatewayResult McpAuth.ACDPCredential) :=
  match sign self (identity_bound_data credential_id issued_at expires_at) with
  | None => None
  | Some signature =>
      Some (Ok (McpAuth.IdentityBound
        (McpAuth.MkIdentityBound "0.3" credential_id issued_at expires_at principal agent capabilities no_delegation
           McpAuth.chain_new signature McpAuth.default_extensions)))
  end.

Definition issue_anonymous (self : t) (d : Draws) (credential_id : Uuid) (capabilities : McpAuth.MCPCapabilities)
    (issued_at expires_at : DateTime) : GatewayResult McpAuth.ACDPCredential :=
  let? arc_credential := issue_arc self d in
  Ok (McpAuth.Anonymous
    (McpAuth.MkAnonymous "0.3" credential_id issued_at expires_at arc_credential capabilities McpAuth.default_extensions)).

Definition issue_hybrid (self : t) (d : Draws) (credential_id : Uuid) (principal : McpAuth.Principal) (agent : McpAuth.Agent)
    (capabilities : McpAuth.MCPCapabilities) (issued_at expires_at : DateTime) : option (GatewayResult McpAuth.ACDPCredential) :=
  match issue_arc self d with
  | Err e => Some (Err e)
  | Ok arc_credential =>
      match sign self (hybrid_data credential_id) with
      | None => None
      | Some signature =>
          Some (Ok (McpAuth.Hybrid
            (McpAuth.MkHybrid "0.3" credential_id issued_at expires_at principal agent arc_credential capabilities no_delegation
               McpAuth.chain_new signature McpAuth.default_extensions)))
      end
  end.

Definition parse_mcp_capabilities (caps : CredentialCapabilities.t) : GatewayResult McpAuth.MCPCapabilities :=
  Ok (McpAuth.MkCapabilities (MCPToolAccess.allowed (CredentialCapabilities.mcp_tools caps))
        (MCPToolAccess.denied (CredentialCapabilities.mcp_tools caps)) None
        (Some (RateLimitConfig.window (CredentialCapabilities.rate_limit caps)))).

(** The subject and the issuer a row names *)
Definition named (credential : McpAuth.ACDPCredential) : option McpAuth.Principal :=
  match credential with
  | McpAuth.IdentityBound c => Some (McpAuth.ib_principal c)
  | McpAuth.Hybrid c => Some (McpAuth.hy_principal c)
  | McpAuth.Anonymous _ => None
  end.

Definition issued_of (credential : McpAuth.ACDPCredential) : DateTime :=
  match credential with
  | McpAuth.IdentityBound c => McpAuth.ib_issued_at c
  | McpAuth.Anonymous c => McpAuth.an_issued_at c
  | McpAuth.Hybrid c => McpAuth.hy_issued_at c
  end.

Definition row_of (credential : McpAuth.ACDPCredential) (credential_json : string) (request : CredentialIssuanceRequest.t) : Row.t :=
  Row.mk (McpAuth.credential_id credential) (McpAuth.credential_type credential)
    (option_map McpAuth.subject (named credential)) (option_map McpAuth.issuer (named credential))
    (CredentialIssuanceRequest.agent_id request) credential_json
    (wrap_i64 (RateLimitConfig.max_presentations
       (CredentialCapabilities.rate_limit (CredentialIssuanceRequest.capabilities request))))
    0 (issued_of credential) (McpAuth.expiry_of credential) false.

Definition store_credential (inserted : Res unit string) (credential : McpAuth.ACDPCredential)
    (request : CredentialIssuanceRequest.t) (rows : list Row.t) : GatewayResult (list Row.t) :=
  let? credential_json := map_err ACDPGatewayError.SerializationError (McpAuth.to_string credential) in
  let? _ := map_err ACDPGatewayError.DatabaseError inserted in
  insert (row_of credential credential_json request) rows.

(** What the service draws and is told while it issues *)
Record Inputs : Type := MkInputs { issued_at : DateTime; new_id : Uuid; draws : Draws; inserted : Res unit string }.

(** The credential before it is stored; [None] is a panic, of a date out of
    range or of the signing key. *)
Definition build (self : t) (io : Inputs) (principal : McpAuth.Principal) (request : CredentialIssuanceRequest.t)
  : option (GatewayResult McpAuth.ACDPCredential) :=
  match map_err (fun e => ACDPGatewayError.CredentialIssuanceFailed ("Invalid agent public key: " +:+ e))
          (hex_decode (CredentialIssuanceRequest.agent_public_key request)) with
  | Err e => Some (Err e)
  | Ok agent_pubkey =>
      let agent := McpAuth.MkAgent (CredentialIssuanceRequest.agent_id request) agent_pubkey "mcp-client" None in
      match parse_mcp_capabilities (CredentialIssuanceRequest.capabilities request) with
      | Err e => Some (Err e)
      | Ok capabilities =>
          match dt_add_days (issued_at io) (CredentialIssuanceRequest.duration_days request) with
          | None => None
          | Some expires_at =>
              match CredentialIssuanceRequest.credential_type request with
              | CredentialType.IdentityBound =>
                  issue_identity_bound self (new_id io) principal agent capabilities (issued_at io) expires_at
              | CredentialType.Anonymous =>
                  Some (issue_anonymous self (draws io) (new_id io) capabilities (issued_at io) expires_at)
              | CredentialType.Hybrid =>
                  issue_hybrid self (draws io) (new_id io) principal agent capabilities (issued_at io) expires_at
              end
          end
      end
  end.

Definition issue_credential (self : t) (io : Inputs) (principal : McpAuth.Principal) (request : CredentialIssuanceRequest.t)
    (rows : list Row.t) : option (GatewayResult McpAuth.ACDPCredential * list Row.t) :=
  match build self io principal request with
  | None => None
  | Some (Err e) => Some (Err e, rows)
  | Some (Ok credential) =>
      match store_credential (inserted io) credential request rows with
      | Err e => Some (Err e, rows)
      | Ok rows => Some (Ok credential, rows)
      end
  end.
End service.
End CredentialService.

(** ** Routes *)

Module Config.
Record t : Type := mk {
  server_host : string;
  server_port : Z;
  database_url : string;
  rauthy_base_url : string;
  rauthy_admin_token : string;
  gateway_issuer : string;
  gateway_signing_key : bytes;
  gateway_public_key : bytes
}.

(** A variable that is absent or wrong is a panic. *)
Definition from_env `{H : HexApi} (var : string -> option string) (parse_u16 : string -> option Z) : option t :=
  let or (name default : string) := from_option id default (var name) in
  match parse_u16 (or "ACDP_SERVER_PORT" "8080"), var "DATABASE_URL", var "RAUTHY_ADMIN_TOKEN",
        var "ACDP_GATEWAY_SIGNING_KEY", var "ACDP_GATEWAY_PUBLIC_KEY" with
  | Some port, Some database_url, Some admin_token, Some signing, Some public =>
      match hex_decode signing, hex_decode public with
      | Ok signing, Ok public =>
          Some (mk (or "ACDP_SERVER_HOST" "127.0.0.1") port database_url (or "RAUTHY_BASE_URL" "http://localhost:8000")
                  admin_token (or "ACDP_GATEWAY_ISSUER" "https://acdp-gateway.kontext.dev/") signing public)
      | _, _ => None
      end
  | _, _, _, _, _ => None
  end%string.
End Config.

Module Routes.
Section routes.
Context `{U : UuidApi, C : ChronoApi, E : Ed25519Api, PA : P256Api, JN : JsonNumbers, V : ValidatorApi, H : HexApi, ST : SqlTexts}.
Context {SA : SeedApi} {T : McpAuth.Types} {MA : McpAuth.Api} {JW : IdJagJwt}.

(** [main.rs]: the state of the server, the table apart *)
Record AppState : Type := MkState {
  config : Config.t;
  credential_service : CredentialService.t;
  rauthy_client : RauthyClient.t
}.

Definition initial (drawn : McpAuth.Draw) (config : Config.t) : AppState :=
  MkState config
    (CredentialService.new drawn (Config.gateway_signing_key config) (Config.gateway_public_key config)
       (Config.gateway_issuer config))
    (RauthyClient.new (Config.rauthy_base_url config) (Config.rauthy_admin_token config)).

Inductive Body : Type := Json (v : Value) | Verification (r : CredentialVerificationResult.t).
Record HttpResponse : Type := MkResponse { status : Z; body : Body }.

(** [ResponseError::error_response] *)
Definition error_response (e : ACDPGatewayError.t) : HttpResponse :=
  MkResponse (ACDPGatewayError.status e) (Json (VObject [("error"%string, VString (ACDPGatewayError.to_string e))])).

Definition respond (r : GatewayResult HttpResponse) : HttpResponse :=
  match r with Ok response => response | Err e => error_response e end.

Definition health_check : HttpResponse :=
  MkResponse 200 (Json (VObject [("status"%string, VString "healthy"); ("version"%string, VString "0.1.0")])).

Definition delegate_credential (body : DelegationRequest.t) : GatewayResult HttpResponse :=
  Err (ACDPGatewayError.InternalError "Delegation not yet implemented").

(** *** Issuing ([routes/credential_issue.rs]) *)

Definition idp_secret : bytes := as_bytes "test-secret".

(** The token of the [Authorization] header *)
Definition bearer (authorization : option string) : GatewayResult string :=
  let? auth_header := ok_or authorization (ACDPGatewayError.Unauthorized "Missing Authorization header") in
  if negb (starts_with "Bearer " auth_header) then
    Err (ACDPGatewayError.Unauthorized "Invalid Authorization header format")
  else Ok (String.substring 7 (String.length auth_header - 7) auth_header).

(** The checks before the service is called *)
Definition admit_request (state : AppState) (now : Z) (authorization : option string) (body : CredentialIssuanceRequest.t)
  : GatewayResult McpAuth.Principal :=
  let? id_jag_token := bearer authorization in
  let? claims := validate_id_jag now id_jag_token (Config.gateway_issuer (config state)) idp_secret in
  let? principal :=
    map_err (fun e => ACDPGatewayError.CredentialIssuanceFailed ("Invalid principal: " +:+ e))
      (McpAuth.from_id_jag (IDJAGClaims.sub claims) (IDJAGClaims.iss claims) (IDJAGClaims.client_id claims)) in
  let? _ := map_err (fun e => ACDPGatewayError.CredentialIssuanceFailed ("Invalid request: " +:+ e))
              (CredentialIssuanceRequest.validate body) in
  Ok principal.

Definition issued_body (credential : McpAuth.ACDPCredential) (credential_json : Value) : Body :=
  Json (VObject [("credential"%string, credential_json);
                 ("credential_id"%string, VString (uuid_to_string (McpAuth.credential_id credential)));
                 ("credential_type"%string, McpAuth.credential_type_value credential)]).

Definition issue_credential (state : AppState) (now : Z) (io : CredentialService.Inputs) (authorization : option string)
    (body : CredentialIssuanceRequest.t) (rows : list Row.t) : option (GatewayResult HttpResponse * list Row.t) :=
  match admit_request state now authorization body with
  | Err e => Some (Err e, rows)
  | Ok principal =>
      match CredentialService.issue_credential (credential_service state) io principal body rows with
      | None => None
      | Some (Err e, rows) => Some (Err e, rows)
      | Some (Ok credential, rows) =>
          Some (let? credential_json := map_err ACDPGatewayError.SerializationError (McpAuth.to_value credential) in
                Ok (MkResponse 200 (issued_body credential credential_json)), rows)
      end
  end.

(** *** Verifying ([routes/credential_verify.rs]) *)

Definition refused (reason : string) (verified_at : DateTime) : HttpResponse :=
  MkResponse 200 (Verification (CredentialVerificationResult.mk false None None 0 [] (Some reason) verified_at)).

(** What a successful response tells of a credential *)
Definition disclosed (credential : McpAuth.ACDPCredential) : option PrincipalInfo.t * option string * list string :=
  match credential with
  | McpAuth.IdentityBound c =>
      let p := McpAuth.ib_principal c in
      (Some (PrincipalInfo.mk (McpAuth.subject p) (McpAuth.issuer p) (McpAuth.client_id p)),
       Some (McpAuth.agent_id (McpAuth.ib_agent c)), McpAuth.audit_trail (McpAuth.ib_delegation_chain c))
  | McpAuth.Anonymous _ | McpAuth.Hybrid _ => (None, None, [])
  end.

Definition accepted (credential : McpAuth.ACDPCredential) (max_presentations presentations_used : Z) (verified_at : DateTime)
  : HttpResponse :=
  let '(principal, agent_id, delegation_chain) := disclosed credential in
  let presentations_remaining := max_presentations - (presentations_used + 1) in
  MkResponse 200 (Verification (CredentialVerificationResult.mk true principal agent_id (wrap_u64 presentations_remaining)
                                  delegation_chain None verified_at)).

(** Up to the [SELECT]: a response, or the credential to look up *)
Definition received (now verified_at : DateTime) (body : CredentialVerificationRequest.t)
  : GatewayResult HttpResponse + McpAuth.ACDPCredential :=
  match McpAuth.from_str (CredentialVerificationRequest.credential body) with
  | Err e => inl (Err (ACDPGatewayError.CredentialVerificationFailed ("Invalid credential JSON: " +:+ e)))
  | Ok credential => if McpAuth.is_expired now credential then inl (Ok (refused "Credential expired" verified_at)) else inr credential
  end.

(** The [SELECT] and the decision on its row: a response, or the row to count
    a presentation in *)
Definition read (verified_at : DateTime) (fetched : Res unit string) (credential : McpAuth.ACDPCredential) (rows : list Row.t)
  : GatewayResult HttpResponse + Row.t :=
  match fetched with
  | Err e => inl (Err (ACDPGatewayError.DatabaseError e))
  | Ok _ =>
      match select (McpAuth.credential_id credential) rows with
      | None => inl (Ok (refused "Credential not found" verified_at))
      | Some row =>
          if Row.revoked row then inl (Ok (refused "Credential revoked" verified_at))
          else if Row.max_presentations row <=? Row.presentations_used row then inl (Ok (refused "Rate limit exceeded" verified_at))
          else inr row
      end
  end.

(** The [UPDATE] and the response *)
Definition count (verified_at : DateTime) (executed : Res unit string) (credential : McpAuth.ACDPCredential) (row : Row.t)
    (rows : list Row.t) : GatewayResult HttpResponse * list Row.t :=
  match (let? _ := map_err ACDPGatewayError.DatabaseError executed in update (McpAuth.credential_id credential) rows) with
  | Err e => (Err e, rows)
  | Ok rows => (Ok (accepted credential (Row.max_presentations row) (Row.presentations_used row) verified_at), rows)
  end.

(** The instants of the verification and of its response, and the outcomes of
    its statements *)
Record VerifyInputs : Type := MkVerify { now : DateTime; verified_at : DateTime; fetched : Res unit string; executed : Res unit string }.

Definition verify_credential (io : VerifyInputs) (body : CredentialVerificationRequest.t) (rows : list Row.t)
  : GatewayResult HttpResponse * list Row.t :=
  match received (now io) (verified_at io) body with
  | inl r => (r, rows)
  | inr credential =>
      match read (verified_at io) (fetched io) credential rows with
      | inl r => (r, rows)
      | inr row => count (verified_at io) (executed io) credential row rows
      end
  end.
End routes.
End Routes.

(** ** The table and its primary key *)

Section keyed.
Context `{U : UuidApi, C : ChronoApi, ST : SqlTexts}.

(** [row] is the only row of its identifier. *)
Definition holds (row : Row.t) (rows : list Row.t) : Prop :=
  exists before after, rows = before ++ row :: after /\
    Forall (fun r => has_id (Row.credential_id row) r = false) (before ++ after).

Lemma has_id_spec id r : has_id id r = true <-> Row.credential_id r = id.
Proof. apply bool_decide_eq_true. Qed.

Lemma select_none id rows : select id rows = None <-> Forall (fun r => has_id id r = false) rows.
Proof.
  unfold select. induction rows as [|r rows IH]; cbn; [split; [constructor|done]|].
  destruct (has_id id r) eqn:E.
  - split; [done|]. intros H. inversion H; congruence.
  - rewrite IH. split; intros H; [by constructor|by inversion H].
Qed.

Lemma find_app {A} (p : A -> bool) l l' : List.find p (l ++ l') = match List.find p l with Some x => Some x | None => List.find p l' end.
Proof. induction l as [|x l IH]; [done|]. cbn. by destruct (p x). Qed.

Lemma holds_select row rows : holds row rows -> select (Row.credential_id row) rows = Some row.
Proof.
  intros (before & after & -> & H). apply Forall_app in H as [H _]. apply select_none in H.
  unfold select in *. rewrite find_app, H. cbn. unfold has_id. by rewrite bool_decide_true.
Qed.

Lemma update_others id rows : Forall (fun r => has_id id r = false) rows ->
  List.map (fun r => if has_id id r then Row.set_used (Row.presentations_used r + 1) r else r) rows = rows /\
  existsb (fun r => has_id id r && (i64_max <=? Row.presentations_used r)) rows = false.
Proof. induction 1 as [|r rows Hr _ [IH1 IH2]]; [done|]. cbn. by rewrite Hr, IH1, IH2. Qed.

(** The row after a presentation *)
Definition counted (row : Row.t) : Row.t := Row.set_used (Row.presentations_used row + 1) row.

Lemma update_at row before after :
  Forall (fun r => has_id (Row.credential_id row) r = false) (before ++ after) ->
  update (Row.credential_id row) (before ++ row :: after) =
    if i64_max <=? Row.presentations_used row then Err (ACDPGatewayError.DatabaseError bigint_out_of_range)
    else Ok (before ++ counted row :: after).
Proof.
  intros [H1 H2]%Forall_app. destruct (update_others _ _ H1) as [Hm1 Hb1], (update_others _ _ H2) as [Hm2 Hb2].
  assert (Hid : has_id (Row.credential_id row) row = true) by by apply has_id_spec.
  unfold update. rewrite existsb_app, map_app, Hb1, Hm1. cbn. by rewrite Hid, Hb2, Hm2, orb_false_r.
Qed.

Lemma holds_update row rows :
  holds row rows ->
  (i64_max <= Row.presentations_used row /\ update (Row.credential_id row) rows = Err (ACDPGatewayError.DatabaseError bigint_out_of_range)) \/
  (Row.presentations_used row < i64_max /\
   exists rows', update (Row.credential_id row) rows = Ok rows' /\ holds (counted row) rows').
Proof.
  intros (before & after & -> & H). rewrite (update_at row before after H).
  destruct (Z.leb_spec i64_max (Row.presentations_used row)); [by left|right]. split; [done|].
  eexists. split; [done|]. by exists before, after.
Qed.

Lemma update_keeps_others id row rows rows' :
  holds row rows -> Row.credential_id row <> id -> update id rows = Ok rows' -> holds row rows'.
Proof.
  intros (before & after & -> & H) Hne. unfold update. destruct (existsb _ _); [done|]. intros [= <-].
  set (f := fun r => _). assert (Hf : forall r, Row.credential_id (f r) = Row.credential_id r) by (intros r; unfold f; by destruct (has_id id r)).
  assert (Hrow : f row = row). { unfold f. destruct (has_id id row) eqn:E; [|done]. by apply has_id_spec in E. }
  rewrite map_app. cbn. exists (List.map f before), (List.map f after). rewrite Hrow. split; [done|]. rewrite <- map_app.
  apply Forall_forall. intros r Hr. apply list_elem_of_In, in_map_iff in Hr as (r0 & <- & Hr0).
  rewrite Forall_forall in H. unfold has_id. rewrite Hf. apply H. by apply list_elem_of_In.
Qed.

Lemma insert_keeps row new rows rows' : holds row rows -> insert new rows = Ok rows' -> holds row rows'.
Proof.
  intros Hr. assert (Hs := holds_select _ _ Hr). destruct Hr as (before & after & -> & H). unfold insert.
  destruct (select (Row.credential_id new) _) eqn:E; [done|]. intros [= <-].
  exists before, (after ++ [new]). split; [by rewrite <- app_assoc|]. rewrite app_assoc. apply Forall_app. split; [done|].
  constructor; [|done]. unfold has_id. apply bool_decide_eq_false. intros He. congruence.
Qed.

Lemma insert_holds new rows rows' : insert new rows = Ok rows' -> holds new rows'.
Proof.
  unfold insert. destruct (select _ _) eqn:E; [done|]. intros [= <-]. apply select_none in E.
  exists rows, []. by rewrite app_nil_r.
Qed.
End keyed.

(** ** Verification *)

Section verification.
Context `{U : UuidApi, C : ChronoApi, E : Ed25519Api, PA : P256Api, JN : JsonNumbers, V : ValidatorApi, H : HexApi, ST : SqlTexts}.
Context {SA : SeedApi} {T : McpAuth.Types} {MA : McpAuth.Api} {ML : McpAuth.Laws} {JW : IdJagJwt}.
Import Routes.

(** The decision on a credential that was read, by the row of its identifier *)
Definition verdict (credential : McpAuth.ACDPCredential) (row : Row.t) (verified_at : DateTime) : HttpResponse :=
  if Row.revoked row then refused "Credential revoked" verified_at
  else if Row.presentations_used row <? Row.max_presentations row
  then accepted credential (Row.max_presentations row) (Row.presentations_used row) verified_at
  else refused "Rate limit exceeded" verified_at.

Definition spent (row : Row.t) : Row.t :=
  if negb (Row.revoked row) && (Row.presentations_used row <? Row.max_presentations row) then counted row else row.

Lemma verify_by_row io body credential row rows :
  McpAuth.from_str (CredentialVerificationRequest.credential body) = Ok credential ->
  McpAuth.id_of credential = Row.credential_id row -> dt_ltb (McpAuth.expiry_of credential) (now io) = false ->
  fetched io = Ok tt -> executed io = Ok tt -> holds row rows -> Row.max_presentations row <= i64_max ->
  exists rows', verify_credential io body rows = (Ok (verdict credential row (verified_at io)), rows') /\ holds (spent row) rows'.
Proof.
  intros Hc Hid He Hf Hx Hh Hm. unfold verify_credential, received. rewrite Hc, McpAuth.is_expired_at, He.
  unfold read. rewrite Hf, McpAuth.credential_id_field, Hid, (holds_select _ _ Hh).
  unfold verdict, spent. destruct (Row.revoked row); cbn; [by eexists|].
  rewrite Z.leb_antisym. destruct (Z.ltb_spec (Row.presentations_used row) (Row.max_presentations row)); cbn; [|by eexists].
  unfold count. rewrite Hx, McpAuth.credential_id_field, Hid. cbn.
  destruct (holds_update _ _ Hh) as [[Hbig _]|[_ (rows' & -> & Hh')]]; [lia|]. by exists rows'.
Qed.

(** C10: verification believes what is presented.  For any text that reads as a
    credential, of whatever form, with the identifier of a stored one and an
    expiry that has not passed, the answer depends on the row of that identifier
    alone: a revoked row refuses it, one whose presentations are spent refuses
    it, and any other row accepts it, whatever its signature and whatever was
    stored at the issue.  The answer then names the principal, the agent and the
    delegations that the text names, when it is identity-bound, and one
    presentation is spent.  Nonce, context and anonymous presentation of the
    request are not looked at. *)
Theorem forged_credentials_are_believed io body (forged : McpAuth.ACDPCredential) row rows :
  McpAuth.from_str (CredentialVerificationRequest.credential body) = Ok forged ->
  McpAuth.id_of forged = Row.credential_id row -> dt_ltb (McpAuth.expiry_of forged) (now io) = false ->
  fetched io = Ok tt -> executed io = Ok tt -> holds row rows -> Row.max_presentations row <= i64_max ->
  let used := Row.presentations_used row in
  let max := Row.max_presentations row in
  let refusal why := CredentialVerificationResult.mk false None None 0 [] (Some why) (verified_at io) in
  let acceptance principal agent delegations :=
    CredentialVerificationResult.mk true principal agent (wrap_u64 (max - (used + 1))) delegations None (verified_at io) in
  exists rows',
    verify_credential io body rows =
      (Ok (MkResponse 200 (Verification
         (if Row.revoked row then refusal "Credential revoked"%string
          else if max <=? used then refusal "Rate limit exceeded"%string
          else match forged with
               | McpAuth.IdentityBound c =>
                   let p := McpAuth.ib_principal c in
                   acceptance (Some (PrincipalInfo.mk (McpAuth.subject p) (McpAuth.issuer p) (McpAuth.client_id p)))
                     (Some (McpAuth.agent_id (McpAuth.ib_agent c))) (McpAuth.audit_trail (McpAuth.ib_delegation_chain c))
               | _ => acceptance None None []
               end))), rows') /\
    holds (if Row.revoked row || (max <=? used) then row else counted row) rows'.
Proof.
  intros Hc Hid He Hf Hx Hh Hm. cbn zeta.
  destruct (verify_by_row io body _ row rows Hc Hid He Hf Hx Hh Hm) as (rows' & -> & Hh'). exists rows'.
  unfold verdict, spent, refused, accepted, disclosed in *. rewrite (Z.leb_antisym (Row.presentations_used row)).
  destruct (Row.revoked row); [done|]. cbn in *.
  by destruct (Row.presentations_used row <? Row.max_presentations row), forged.
Qed.

(** ** From issue to the last presentation *)

Fixpoint verify_all (asked : list (VerifyInputs * CredentialVerificationRequest.t)) (rows : list Row.t)
  : list (GatewayResult HttpResponse) * list Row.t :=
  match asked with
  | [] => ([], rows)
  | (io, body) :: asked =>
      let '(r, rows) := verify_credential io body rows in
      let '(rs, rows) := verify_all asked rows in (r :: rs, rows)
  end.

(** What the [k]th presentation and those after it are answered *)
Fixpoint answers_from (credential : McpAuth.ACDPCredential) (max k : Z) (asked : list (VerifyInputs * CredentialVerificationRequest.t))
  : list (GatewayResult HttpResponse) :=
  match asked with
  | [] => []
  | (io, _) :: asked =>
      Ok (if k <? max then accepted credential max k (verified_at io) else refused "Rate limit exceeded" (verified_at io)) ::
      answers_from credential max (k + 1) asked
  end.

Definition presents (credential : McpAuth.ACDPCredential) (text : string) (asked : VerifyInputs * CredentialVerificationRequest.t) : Prop :=
  CredentialVerificationRequest.credential asked.2 = text /\ fetched asked.1 = Ok tt /\ executed asked.1 = Ok tt /\
  dt_ltb (McpAuth.expiry_of credential) (now asked.1) = false.

Lemma verify_all_spends credential text asked : forall k row rows,
  McpAuth.from_str text = Ok credential -> McpAuth.id_of credential = Row.credential_id row ->
  Forall (presents credential text) asked -> holds row rows -> Row.revoked row = false ->
  Row.max_presentations row <= i64_max -> 
  (Row.presentations_used row = k \/ (Row.max_presentations row <= Row.presentations_used row /\ Row.max_presentations row <= k)) ->
  (verify_all asked rows).1 = answers_from credential (Row.max_presentations row) k asked.
Proof.
  induction asked as [|[io body] asked IH]; intros k row rows Hc Hid Hp Hh Hr Hm Hk; [done|].
  inversion Hp as [|? ? (Hb & Hf & Hx & He) Hp']; subst. cbn in *.
  destruct (verify_by_row io body credential row rows Hc Hid He Hf Hx Hh Hm) as (rows' & -> & Hh').
  destruct (verify_all asked rows') as [rs rows2] eqn:Ev. cbn. f_equal.
  - unfold verdict. rewrite Hr. destruct Hk as [->|[H1 H2]]; [done|].
    by rewrite (proj2 (Z.ltb_ge _ _) H1), (proj2 (Z.ltb_ge _ _) H2).
  - change rs with (rs, rows2).1. rewrite <- Ev. unfold spent in Hh'. rewrite Hr in Hh'. cbn in Hh'.
    destruct (Z.ltb_spec (Row.presentations_used row) (Row.max_presentations row)).
    + rewrite (IH (k + 1) (counted row)); auto. cbn. left. lia.
    + rewrite (IH (k + 1) row); auto. right. lia.
Qed.
End verification.

(** ** Issue *)

Section issue.
Context `{U : UuidApi, C : ChronoApi, E : Ed25519Api, PA : P256Api, JN : JsonNumbers, V : ValidatorApi, H : HexApi, ST : SqlTexts}.
Context {SA : SeedApi} {T : McpAuth.Types} {MA : McpAuth.Api} {ML : McpAuth.Laws} {JW : IdJagJwt}.
Import Routes.

Lemma build_id self io principal request credential :
  CredentialService.build self io principal request = Some (Ok credential) ->
  McpAuth.id_of credential = CredentialService.new_id io /\
  dt_add_days (CredentialService.issued_at io) (CredentialIssuanceRequest.duration_days request) = Some (McpAuth.expiry_of credential).
Proof.
  unfold CredentialService.build. destruct (map_err _ (hex_decode _)); [|done]. cbn. destruct (dt_add_days _ _) as [e|]; [|done].
  destruct (CredentialIssuanceRequest.credential_type request).
  - unfold CredentialService.issue_identity_bound. destruct (CredentialService.sign _ _); [|done]. by intros [= <-].
  - unfold CredentialService.issue_anonymous. destruct (CredentialService.issue_arc _ _); [|done]. by intros [= <-].
  - unfold CredentialService.issue_hybrid. destruct (CredentialService.issue_arc _ _); [|done].
    destruct (CredentialService.sign _ _); [|done]. by intros [= <-].
Qed.

Lemma service_issue_Ok self io principal request rows credential rows' :
  CredentialService.issue_credential self io principal request rows = Some (Ok credential, rows') ->
  CredentialService.build self io principal request = Some (Ok credential) /\
  exists text, McpAuth.to_string credential = Ok text /\ insert (CredentialService.row_of credential text request) rows = Ok rows'.
Proof.
  unfold CredentialService.issue_credential. destruct (CredentialService.build _ _ _ _) as [[c|e]|]; [|done|done].
  unfold CredentialService.store_credential. destruct (McpAuth.to_string c) as [text|] eqn:Et; [|done]. cbn.
  destruct (CredentialService.inserted io) as [[]|]; [|done]. cbn. destruct (insert _ rows) as [rows1|] eqn:Ei; [|done].
  intros [= <- <-]. split; [done|]. by exists text.
Qed.

Lemma route_issue_Ok state now io authorization body rows response rows' :
  issue_credential state now io authorization body rows = Some (Ok response, rows') ->
  exists principal credential json, admit_request state now authorization body = Ok principal /\
    CredentialService.issue_credential (credential_service state) io principal body rows = Some (Ok credential, rows') /\
    McpAuth.to_value credential = Ok json /\ response = MkResponse 200 (issued_body credential json).
Proof.
  unfold issue_credential. destruct (admit_request _ _ _ _) as [p|]; [|done].
  destruct (CredentialService.issue_credential _ _ _ _ _) as [[[c|e] rows1]|] eqn:Es; [|done|done].
  destruct (McpAuth.to_value c) as [json|] eqn:Ev; [|done]. cbn. intros [= <- <-]. by exists p, c, json.
Qed.

Definition requested (body : CredentialIssuanceRequest.t) : Z :=
  RateLimitConfig.max_presentations (CredentialCapabilities.rate_limit (CredentialIssuanceRequest.capabilities body)).

(** C11: an issued credential is accepted as often as it was asked for, and no
    more.  While it is not expired and the database answers, its text is
    accepted at the first [n] verifications, each told how many are left, and
    refused from then on, where [n] is the requested maximum as a signed 64-bit
    integer: one of [2^63] or more, which no check rejects, makes a credential
    that is never accepted. *)
Theorem issued_credentials_are_spent state at_second io authorization body rows response rows' :
  issue_credential state at_second io authorization body rows = Some (Ok response, rows') ->
  exists credential text read_back, (exists json, response = MkResponse 200 (issued_body credential json)) /\
    McpAuth.to_string credential = Ok text /\ McpAuth.from_str text = Ok read_back /\
    dt_add_days (CredentialService.issued_at io) (CredentialIssuanceRequest.duration_days body) = Some (McpAuth.expiry_of read_back) /\
    forall asked, Forall (presents read_back text) asked ->
      (verify_all asked rows').1 = answers_from read_back (wrap_i64 (requested body)) 0 asked.
Proof.
  intros Hi. apply route_issue_Ok in Hi as (p & c & json & _ & Hs & _ & ->).
  apply service_issue_Ok in Hs as (Hb & text & Ht & Hins). apply build_id in Hb as [Hid He].
  destruct (McpAuth.from_str_to_string _ _ Ht) as (c' & Hc' & Hid' & He').
  exists c, text, c'. split_and!; [by eexists|done|done|by rewrite He'|]. intros asked Hp.
  apply (verify_all_spends c' text asked 0 (CredentialService.row_of c text body)); try done.
  - by rewrite Hid', <- McpAuth.credential_id_field.
  - by eapply insert_holds.
  - cbn. pose proof (wrap_i64_range (requested body)) as Hm. unfold is_i64 in Hm. by destruct Hm.
  - by left.
Qed.
End issue.

Section admission.
Context `{U : UuidApi, C : ChronoApi, E : Ed25519Api, PA : P256Api, JN : JsonNumbers, V : ValidatorApi, H : HexApi, ST : SqlTexts}.
Context {SA : SeedApi} {T : McpAuth.Types} {MA : McpAuth.Api} {JW : IdJagJwt}.
Import Routes.

Lemma substring_all s : String.substring 0 (String.length s) s = s.
Proof. induction s as [|c s IH]; [done|]. cbn. by rewrite IH. Qed.

Lemma bearer_spec authorization :
  match bearer authorization with
  | Ok token => authorization = Some ("Bearer " +:+ token)
  | Err e => ACDPGatewayError.status e = 401 /\ forall token, authorization <> Some ("Bearer " +:+ token)
  end.
Proof.
  unfold bearer. destruct authorization as [h|]; cbn; [|done]. destruct (starts_with "Bearer " h) eqn:Hs; cbn.
  - apply starts_with_spec in Hs as [r ->].
    replace (String.length ("Bearer " +:+ r) - 7)%nat with (String.length r)
      by (change (String.length ("Bearer " +:+ r)) with (7 + String.length r)%nat; lia).
    change (String.substring 7 (String.length r) ("Bearer " +:+ r)) with (String.substring 0 (String.length r) r).
    by rewrite substring_all.
  - split; [done|]. intros token [= ->]. assert (Hc : starts_with "Bearer " ("Bearer " +:+ token) = true) by (apply starts_with_spec; by eexists).
    congruence.
Qed.

Lemma bearer_token token : bearer (Some ("Bearer " +:+ token)) = Ok token.
Proof.
  pose proof (bearer_spec (Some ("Bearer " +:+ token))) as Hb. destruct (bearer _) as [t|e].
  - apply (inj Some), str_app_inj_l in Hb as ->. done.
  - destruct Hb as [_ Hb]. by destruct (Hb token).
Qed.

Lemma validate_id_jag_status now token audience secret e :
  validate_id_jag now token audience secret = Err e -> ACDPGatewayError.status e = 400.
Proof.
  unfold validate_id_jag. destruct (jwt_decode _ _ _ _) as [c|]; cbn; [|by intros [= <-]].
  destruct (negb _); [by intros [= <-]|]. destruct (negb _); [by intros [= <-]|done].
Qed.

Lemma issue_arc_status self d e : CredentialService.issue_arc self d = Err e -> ACDPGatewayError.status e = 500.
Proof.
  unfold CredentialService.issue_arc. destruct (McpAuth.issue _ _ _ _ _); cbn; [|by intros [= <-]].
  destruct (McpAuth.from_response _ _ _ _); [done|]. by intros [= <-].
Qed.

Lemma build_status self io principal body e :
  CredentialService.build self io principal body = Some (Err e) -> ACDPGatewayError.status e = 500.
Proof.
  unfold CredentialService.build. destruct (hex_decode _); cbn; [|by intros [= <-]]. destruct (dt_add_days _ _); [|done].
  destruct (CredentialIssuanceRequest.credential_type body).
  - unfold CredentialService.issue_identity_bound. by destruct (CredentialService.sign _ _).
  - unfold CredentialService.issue_anonymous. destruct (CredentialService.issue_arc _ _) eqn:Ea; [done|].
    intros [= <-]. by eapply issue_arc_status.
  - unfold CredentialService.issue_hybrid. destruct (CredentialService.issue_arc _ _) eqn:Ea.
    + by destruct (CredentialService.sign _ _).
    + intros [= <-]. by eapply issue_arc_status.
Qed.

Lemma service_status self io principal body rows e rows' :
  CredentialService.issue_credential self io principal body rows = Some (Err e, rows') ->
  ACDPGatewayError.status e = 500 /\ rows' = rows.
Proof.
  unfold CredentialService.issue_credential. destruct (CredentialService.build _ _ _ _) as [[c|e1]|] eqn:Eb; [| |done].
  - unfold CredentialService.store_credential. destruct (McpAuth.to_string c); [|by intros [= <- <-]]. cbn.
    destruct (CredentialService.inserted io); [|by intros [= <- <-]]. cbn.
    unfold insert. destruct (select _ _); [by intros [= <- <-]|done].
  - intros [= <- <-]. split; [|done]. by eapply build_status.
Qed.

(** How an issue fails.  The status is 401 exactly without a bearer token,
    400 exactly when the token is no valid assertion, and 500 for every other
    failure, the request's own faults included.  A failed issue leaves the
    table as it was, unless the credential was stored and cannot then be
    printed. *)
Theorem issue_failures state now io authorization body rows e rows' :
  issue_credential state now io authorization body rows = Some (Err e, rows') ->
  (ACDPGatewayError.status e = 401 <-> forall token, authorization <> Some ("Bearer " +:+ token)) /\
  (ACDPGatewayError.status e = 400 <-> exists token, authorization = Some ("Bearer " +:+ token) /\
     is_ok (validate_id_jag now token (Config.gateway_issuer (config state)) idp_secret) = false) /\
  In (ACDPGatewayError.status e) [400; 401; 500] /\
  (rows' <> rows -> exists principal credential,
     CredentialService.issue_credential (credential_service state) io principal body rows = Some (Ok credential, rows') /\
     is_ok (McpAuth.to_value credential) = false).
Proof.
  unfold issue_credential, admit_request. pose proof (bearer_spec authorization) as Hb.
  destruct (bearer authorization) as [token|e0]; cbn [res_bind].
  2: { intros [= <- <-]. destruct Hb as [-> Hb]. split_and!; [done| |by right; left|done].
       split; [done|]. intros (t & -> & _). by destruct (Hb t). }
  assert (Hrest : forall Q : Prop, is_ok (validate_id_jag now token (Config.gateway_issuer (config state)) idp_secret) = true ->
    ACDPGatewayError.status e = 500 -> Q ->
    (ACDPGatewayError.status e = 401 <-> forall token, authorization <> Some ("Bearer " +:+ token)) /\
    (ACDPGatewayError.status e = 400 <-> exists token, authorization = Some ("Bearer " +:+ token) /\
       is_ok (validate_id_jag now token (Config.gateway_issuer (config state)) idp_secret) = false) /\
    In (ACDPGatewayError.status e) [400; 401; 500] /\ Q).
  { intros Q Hv -> HQ. split_and!; [| |by right; right; left|done].
    - split; [done|]. intros Hn. by destruct (Hn token).
    - split; [done|]. intros (t & Ht & Hf). rewrite Hb in Ht. apply (inj Some), str_app_inj_l in Ht as ->. congruence. }
  destruct (validate_id_jag _ _ _ _) as [claims|e1] eqn:Ev; cbn [res_bind].
  2: { intros [= <- <-]. apply validate_id_jag_status in Ev as Hs. rewrite Hs. split_and!; [| |by left|done].
       - split; [done|]. intros Hn. by destruct (Hn token).
       - split; [|done]. intros _. exists token. rewrite Ev. by split. }
  specialize (fun Q => Hrest Q eq_refl). destruct (McpAuth.from_id_jag _ _ _) as [p|]; cbn [map_err res_bind]; [|intros [= <- <-]; by apply Hrest].
  destruct (CredentialIssuanceRequest.validate body); cbn [map_err res_bind]; [|intros [= <- <-]; by apply Hrest].
  destruct (CredentialService.issue_credential _ _ _ _ _) as [[[c|e1] rows1]|] eqn:Es; [| |done].
  - destruct (McpAuth.to_value c) eqn:Et; cbn [map_err res_bind]; [done|]. intros [= <- <-]. apply Hrest; [done|]. intros _. exists p, c. by rewrite Et.
  - intros [= <- <-]. apply service_status in Es as [Hs ->]. by apply Hrest.
Qed.

(** Identities can be made up.  The assertions of the identity provider are
    checked with a constant secret, so whoever knows it obtains credentials in
    any identity the library accepts: the outcome is the service's for this
    identity.  An identity-bound credential names it, allows the tools that
    were asked for and nothing else decides them, whatever scope, resource and
    identifier the assertion has, and is stored under this identity. *)
Theorem identities_can_be_made_up {JL : IdJagJwtLaws} state now io claims token principal body rows :
  jwt_encode (as_bytes "test-secret") claims = Ok token ->
  IDJAGClaims.typ claims = "oauth-id-jag+jwt"%string -> IDJAGClaims.aud claims = Config.gateway_issuer (config state) ->
  now <= IDJAGClaims.exp claims ->
  McpAuth.from_id_jag (IDJAGClaims.sub claims) (IDJAGClaims.iss claims) (IDJAGClaims.client_id claims) = Ok principal ->
  CredentialIssuanceRequest.validate body = Ok tt ->
  let issued := CredentialService.issue_credential (credential_service state) io principal body rows in
  issue_credential state now io (Some ("Bearer " +:+ token)) body rows =
    match issued with
    | None => None
    | Some (Err e, rows) => Some (Err e, rows)
    | Some (Ok credential, rows) =>
        Some (let? credential_json := map_err ACDPGatewayError.SerializationError (McpAuth.to_value credential) in
              Ok (MkResponse 200 (issued_body credential credential_json)), rows)
    end /\
  forall credential rows', issued = Some (Ok credential, rows') ->
    CredentialIssuanceRequest.credential_type body = CredentialType.IdentityBound ->
    exists c row, credential = McpAuth.IdentityBound c /\ McpAuth.ib_principal c = principal /\
      McpAuth.allowed_tools (McpAuth.ib_mcp_capabilities c) =
        MCPToolAccess.allowed (CredentialCapabilities.mcp_tools (CredentialIssuanceRequest.capabilities body)) /\
      holds row rows' /\ Row.principal_subject row = Some (McpAuth.subject principal).
Proof.
  intros Htok Ht Ha He Hp Hv issued. split.
  - unfold issue_credential, admit_request. rewrite bearer_token. cbn. unfold validate_id_jag, idp_secret.
    rewrite (jwt_decode_encode _ _ _ _ _ Htok) by done. cbn. rewrite Ht, Ha, !String.eqb_refl. cbn. rewrite Hp. cbn. by rewrite Hv.
  - intros credential rows' Hs Hi. apply service_issue_Ok in Hs as (Hb & text & _ & Hins). apply insert_holds in Hins.
    unfold CredentialService.build in Hb. destruct (map_err _ (hex_decode _)); [|done]. cbn in Hb. rewrite Hi in Hb.
    destruct (dt_add_days _ _); [|done]. unfold CredentialService.issue_identity_bound in Hb.
    destruct (CredentialService.sign _ _); [|done]. injection Hb as <-. eexists _, _. by split_and!.
Qed.
End admission.

(** ** Verifications at the same time *)

Section concurrent.
Context `{U : UuidApi, C : ChronoApi, E : Ed25519Api, PA : P256Api, JN : JsonNumbers, V : ValidatorApi, H : HexApi, ST : SqlTexts}.
Context {SA : SeedApi} {T : McpAuth.Types} {MA : McpAuth.Api} {JW : IdJagJwt}.
Import Routes.

(** A verification before its [SELECT], before its [UPDATE], and answered *)
Inductive Progress : Type :=
| Reading (credential : McpAuth.ACDPCredential)
| Counting (credential : McpAuth.ACDPCredential) (row : Row.t)
| Answered (r : GatewayResult HttpResponse).

Definition arrived (r : GatewayResult HttpResponse + McpAuth.ACDPCredential) : Progress :=
  match r with inl r => Answered r | inr credential => Reading credential end.
Definition looked_up (credential : McpAuth.ACDPCredential) (r : GatewayResult HttpResponse + Row.t) : Progress :=
  match r with inl r => Answered r | inr row => Counting credential row end.

(** The table with the verifications under way; a step tells the identifiers
    it accepts.  Rows are added by the service and revoked by an operator,
    since no code of the server revokes. *)
Inductive step : list Row.t * list Progress -> list Uuid -> list Row.t * list Progress -> Prop :=
| step_arrives rows tasks at_time verified_at body :
    step (rows, tasks) [] (rows, tasks ++ [arrived (received at_time verified_at body)])
| step_reads rows before after credential at_time fetched :
    step (rows, before ++ Reading credential :: after) []
      (rows, before ++ looked_up credential (read at_time fetched credential rows) :: after)
| step_counts rows before after credential row at_time executed r rows' :
    count at_time executed credential row rows = (r, rows') ->
    step (rows, before ++ Counting credential row :: after) (if is_ok r then [McpAuth.credential_id credential] else [])
      (rows', before ++ Answered r :: after)
| step_issues rows tasks self io principal body r rows' :
    CredentialService.issue_credential self io principal body rows = Some (r, rows') ->
    step (rows, tasks) [] (rows', tasks)
| step_revokes rows tasks id :
    step (rows, tasks) [] (List.map (fun r => if has_id id r then Row.set_revoked true r else r) rows, tasks).

Definition counts_id (id : Uuid) (p : Progress) : bool :=
  match p with Counting credential _ => bool_decide (McpAuth.credential_id credential = id) | _ => false end.
Definition counting (id : Uuid) (tasks : list Progress) : nat := length (List.filter (counts_id id) tasks).
Definition times (id : Uuid) (told : list Uuid) : Z := Z.of_nat (length (List.filter (fun i => bool_decide (i = id)) told)).

(** Runs in which at most [n] verifications of the identifier are between
    their two statements *)
Inductive runs (id : Uuid) (n : nat) : list Row.t * list Progress -> list Uuid -> list Row.t * list Progress -> Prop :=
| runs_none s : runs id n s [] s
| runs_step s told s1 told1 s2 :
    step s told s1 -> (counting id s1.2 <= n)%nat -> runs id n s1 told1 s2 -> runs id n s (told ++ told1) s2.

Lemma counting_app id l l' : counting id (l ++ l') = (counting id l + counting id l')%nat.
Proof. unfold counting. by rewrite List.filter_app, length_app. Qed.

Lemma counting_cons id p l : counting id (p :: l) = (Nat.b2n (counts_id id p) + counting id l)%nat.
Proof. unfold counting. cbn. by destruct (counts_id id p). Qed.

Lemma times_app id l l' : times id (l ++ l') = times id l + times id l'.
Proof. unfold times. rewrite List.filter_app, length_app. lia. Qed.

(** The row of the identifier after [k] presentations *)
Definition row_after (id : Uuid) (max used : Z) (rows : list Row.t) : Prop :=
  exists row, holds row rows /\ Row.credential_id row = id /\ Row.max_presentations row = max /\ Row.presentations_used row = used.

Lemma count_spec at_time executed credential row rows r rows' id max used :
  row_after id max used rows -> count at_time executed credential row rows = (r, rows') ->
  exists used', row_after id max used' rows' /\
    used' = used + times id (if is_ok r then [McpAuth.credential_id credential] else []).
Proof.
  intros (row0 & Hh & <- & <- & <-). unfold count.
  destruct (map_err _ executed) as [[]|e]; cbn; [|intros [= <- <-]; eexists; split; [by exists row0|unfold times; cbn; lia]].
  destruct (decide (McpAuth.credential_id credential = Row.credential_id row0)) as [Heq|Hne].
  - rewrite Heq. destruct (holds_update _ _ Hh) as [[_ ->]|[_ (rows2 & -> & Hh2)]]; intros [= <- <-].
    + eexists. split; [by exists row0|unfold times; cbn; lia].
    + eexists. split; [by exists (counted row0)|]. unfold times. cbn. by rewrite bool_decide_true.
  - destruct (update (McpAuth.credential_id credential) rows) as [rows2|e] eqn:Eu; intros [= <- <-].
    + eexists. split; [exists row0; split; [by eapply update_keeps_others|done]|]. unfold times. cbn.
      rewrite bool_decide_false by done. cbn. lia.
    + eexists. split; [by exists row0|unfold times; cbn; lia].
Qed.

Lemma revoked_row id max used rows id' :
  row_after id max used rows -> row_after id max used (List.map (fun r => if has_id id' r then Row.set_revoked true r else r) rows).
Proof.
  intros (row & (before & after & -> & Hh) & <- & <- & <-). set (f := fun r => _).
  assert (Hf : forall r, Row.credential_id (f r) = Row.credential_id r) by (intros r; unfold f; by destruct (has_id id' r)).
  exists (f row). split_and!; [|by apply Hf|unfold f; by destruct (has_id id' row)..].
  exists (List.map f before), (List.map f after). split; [by rewrite map_app|]. rewrite <- map_app.
  apply Forall_forall. intros r Hr. apply list_elem_of_In, in_map_iff in Hr as (r0 & <- & Hr0).
  rewrite Forall_forall in Hh. unfold has_id. rewrite !Hf. apply Hh. by apply list_elem_of_In.
Qed.

Lemma issue_keeps_row id max used rows self io principal body r rows' :
  row_after id max used rows -> CredentialService.issue_credential self io principal body rows = Some (r, rows') ->
  row_after id max used rows'.
Proof.
  intros (row & Hh & Hrest) Hi. destruct r as [c|e].
  - apply service_issue_Ok in Hi as (_ & text & _ & Hins). exists row. split; [by eapply insert_keeps|done].
  - apply service_status in Hi as [_ ->]. by exists row.
Qed.

Lemma step_slack id n max used s told s' :
  step s told s' -> row_after id max used s.1 -> used + Z.of_nat (counting id s.2) <= max + Z.of_nat (Nat.pred n) ->
  (counting id s'.2 <= n)%nat ->
  exists used', row_after id max used' s'.1 /\ used' = used + times id told /\
    used' + Z.of_nat (counting id s'.2) <= max + Z.of_nat (Nat.pred n).
Proof.
  intros Hs Hr Hb Hn. destruct Hs as [rows tasks t va body|rows before after c t f|rows before after c row t x r rows' Hc|rows tasks self io p body r rows' Hi|rows tasks i];
    cbn [fst snd] in *.
  - exists used. split_and!; [done|unfold times; cbn; lia|]. rewrite counting_app, counting_cons in *.
    assert (Ha : counts_id id (arrived (received t va body)) = false) by (unfold arrived; by destruct (received t va body)). rewrite Ha. cbn in *. lia.
  - exists used. split_and!; [done|unfold times; cbn; lia|]. rewrite counting_app, counting_cons in *. cbn [counts_id Nat.b2n] in Hb.
    unfold looked_up in *. destruct (read t f c rows) as [r|row] eqn:Er; cbn [counts_id Nat.b2n] in *; [lia|].
    case_bool_decide as Hid; cbn [Nat.b2n] in *; [|lia]. subst id.
    destruct Hr as (row0 & Hh & Hi & <- & <-). unfold read in Er. destruct f; [|done]. rewrite <- Hi, (holds_select _ _ Hh) in Er.
    destruct (Row.revoked row0); [done|]. destruct (Z.leb_spec (Row.max_presentations row0) (Row.presentations_used row0)); [done|]. lia.
  - apply (count_spec _ _ _ _ _ _ _ _ _ _ Hr) in Hc as (used' & Hr' & ->). eexists. split_and!; [done|done|].
    rewrite counting_app, counting_cons in *. cbn [counts_id Nat.b2n] in *. unfold times.
    destruct (is_ok r); cbn in *; [|case_bool_decide; cbn in *; lia]. case_bool_decide; cbn in *; lia.
  - exists used. split_and!; [by eapply issue_keeps_row|unfold times; cbn; lia|done].
  - exists used. split_and!; [by apply revoked_row|unfold times; cbn; lia|done].
Qed.
Lemma runs_slack id n max s told s' : runs id n s told s' -> forall used, row_after id max used s.1 ->
  used + Z.of_nat (counting id s.2) <= max + Z.of_nat (Nat.pred n) ->
  exists used', row_after id max used' s'.1 /\ used' = used + times id told /\
    used' + Z.of_nat (counting id s'.2) <= max + Z.of_nat (Nat.pred n).
Proof.
  induction 1 as [s|s told s1 told1 s2 Hs Hn _ IH]; intros used Hr Hb; [exists used; split_and!; [done|unfold times; cbn; lia|done]|].
  destruct (step_slack _ _ _ _ _ _ _ Hs Hr Hb Hn) as (used1 & Hr1 & -> & Hb1).
  destruct (IH _ Hr1 Hb1) as (used2 & Hr2 & -> & Hb2). eexists. split_and!; [done|rewrite times_app; lia|done].
Qed.

Lemma runs_app id n s told s1 told1 s2 : runs id n s told s1 -> runs id n s1 told1 s2 -> runs id n s (told ++ told1) s2.
Proof. induction 1 as [|s told s1 told2 s3 Hs Hn _ IH]; intros Hr; [done|]. rewrite <- app_assoc. econstructor; eauto. Qed.

Lemma counting_replicate id k p : counting id (replicate k p) = (if counts_id id p then k else 0)%nat.
Proof.
  induction k as [|k IH]; [by destruct (counts_id id p)|]. cbn [replicate]. rewrite counting_cons, IH. by destruct (counts_id id p).
Qed.

(** [k] verifications that take the same step one after the other *)
Lemma all_step id n bound (from to : Progress) (told : list Uuid) (state : nat -> list Row.t) :
  (forall i before after, (i < bound)%nat -> step (state i, before ++ from :: after) told (state (S i), before ++ to :: after)) ->
  forall k j i, (j + k <= n)%nat -> (i + k <= bound)%nat ->
    runs id n (state i, replicate j to ++ replicate k from) (List.concat (replicate k told)) (state (i + k)%nat, replicate (j + k) to).
Proof.
  intros Hs k. induction k as [|k IH]; intros j i Hle Hi.
  - rewrite !Nat.add_0_r, app_nil_r. constructor.
  - assert (Hr := IH (S j) (S i) ltac:(lia) ltac:(lia)). cbn [replicate List.concat].
    replace (i + S k)%nat with (S i + k)%nat by lia. replace (j + S k)%nat with (S j + k)%nat by lia.
    assert (Hmove : replicate j to ++ to :: replicate k from = replicate (S j) to ++ replicate k from).
    { change (to :: replicate k from) with ([to] ++ replicate k from). rewrite app_assoc. f_equal.
      change [to] with (replicate 1 to). rewrite <- replicate_add. f_equal. lia. }
    econstructor; [apply Hs; lia| |by rewrite Hmove]. cbn [snd]. rewrite Hmove, counting_app, !counting_replicate.
    destruct (counts_id id to), (counts_id id from); lia.
Qed.

Lemma all_arrive id n rows at_time verified_at body credential k :
  received at_time verified_at body = inr credential -> runs id n (rows, []) [] (rows, replicate k (Reading credential)).
Proof.
  intros Hr. induction k as [|k IH]; [constructor|]. replace (S k) with (k + 1)%nat by lia. rewrite replicate_add. cbn [replicate].
  change (@nil Uuid) with ([] ++ [] : list Uuid). eapply runs_app; [exact IH|].
  change (@nil Uuid) with ([] ++ [] : list Uuid). econstructor; [| |constructor].
  - pose proof (step_arrives rows (replicate k (Reading credential)) at_time verified_at body) as Hs. rewrite Hr in Hs. exact Hs.
  - cbn [snd]. rewrite counting_app, counting_replicate, counting_cons. cbn. lia.
Qed.

Lemma concat_replicate {A} (x : A) k : List.concat (replicate k [x]) = replicate k x.
Proof. induction k as [|k IH]; [done|]. cbn. by rewrite IH. Qed.

Lemma concat_none {A} k : List.concat (replicate k (@nil A)) = [].
Proof. by induction k. Qed.

(** Verifications that all read before one counts are all accepted. *)
Lemma readers_are_accepted (n : nat) (row : Row.t) rows at_time verified_at body credential :
  holds row rows -> received at_time verified_at body = inr credential ->
  McpAuth.credential_id credential = Row.credential_id row -> Row.revoked row = false ->
  Row.presentations_used row < Row.max_presentations row -> Row.presentations_used row + Z.of_nat n <= i64_max ->
  exists rows' tasks,
    runs (Row.credential_id row) n (rows, []) (replicate n (Row.credential_id row)) (rows', tasks) /\
    row_after (Row.credential_id row) (Row.max_presentations row) (Row.presentations_used row + Z.of_nat n) rows'.
Proof.
  intros Hh Hrec Hid Hrev Hlt Hbig. set (id := Row.credential_id row) in *. assert (Hsel := holds_select _ _ Hh).
  assert (Hread : looked_up credential (read at_time (Ok tt) credential rows) = Counting credential row).
  { unfold read. rewrite Hid. unfold id. rewrite Hsel, Hrev. by rewrite (proj2 (Z.leb_gt _ _) Hlt). }
  destruct Hh as (before & after & -> & Hothers).
  pose (state i := before ++ Row.set_used (Row.presentations_used row + Z.of_nat i) row :: after).
  pose (r := @Ok _ ACDPGatewayError.t (accepted credential (Row.max_presentations row) (Row.presentations_used row) at_time)).
  assert (H0 : state 0%nat = before ++ row :: after). { unfold state. rewrite Z.add_0_r. by destruct row. }
  assert (Hhold : forall i, holds (Row.set_used (Row.presentations_used row + Z.of_nat i) row) (state i)) by (intros i; by exists before, after).
  exists (state n), (replicate n (Answered r)). split.
  + assert (Htold : replicate n id = [] ++ List.concat (replicate n []) ++ List.concat (replicate n [id]))
      by (by rewrite concat_none, concat_replicate).
    rewrite Htold.
    eapply runs_app; [by eapply all_arrive|]. eapply runs_app.
    * apply (all_step id n n (Reading credential) (Counting credential row) [] (fun _ => before ++ row :: after)) with (j := 0%nat) (i := 0%nat); [|lia|lia].
      intros i b a _. pose proof (step_reads (before ++ row :: after) b a credential at_time (Ok tt)) as Hs. by rewrite Hread in Hs.
    * rewrite <- H0. apply (all_step id n n (Counting credential row) (Answered r) [id] state) with (j := 0%nat) (i := 0%nat); [|lia|lia].
      intros i b a Hi. rewrite <- Hid. change [McpAuth.credential_id credential] with (if is_ok r then [McpAuth.credential_id credential] else []).
      apply (step_counts _ _ _ _ _ at_time (Ok tt)). unfold count. cbn [map_err res_bind]. rewrite Hid.
      pose proof (update_at (Row.set_used (Row.presentations_used row + Z.of_nat i) row) before after Hothers) as Hup.
      cbn [Row.credential_id Row.presentations_used Row.set_used] in Hup. unfold state, id. rewrite Hup.
      rewrite (proj2 (Z.leb_gt _ _)) by lia. unfold counted, r, Row.set_used. cbn.
      by replace (Row.presentations_used row + Z.of_nat i + 1) with (Row.presentations_used row + Z.of_nat (S i)) by lia.
  + eexists. split_and!; [apply Hhold|done..].
Qed.

(** C12: verifications at the same time overdraw a credential.  However
    verifications, issues and revocations interleave, the counter of a row is
    exact; but with [n] verifications of its identifier between their two
    statements it can pass the maximum by [n - 1], and no further.  The bound is
    sharp: [n] verifications that all read before one counts are all accepted
    when a single presentation is left. *)
Theorem verifications_overdraw (n : nat) (row : Row.t) rows :
  holds row rows -> Row.presentations_used row <= Row.max_presentations row ->
  let id := Row.credential_id row in
  (forall told rows' tasks, runs id n (rows, []) told (rows', tasks) ->
    exists used, row_after id (Row.max_presentations row) used rows' /\
      used = Row.presentations_used row + times id told /\ used <= Row.max_presentations row + Z.of_nat (Nat.pred n)) /\
  (forall at_time verified_at body credential,
    received at_time verified_at body = inr credential -> McpAuth.credential_id credential = id -> Row.revoked row = false ->
    Row.presentations_used row < Row.max_presentations row -> Row.presentations_used row + Z.of_nat n <= i64_max ->
    exists rows' tasks, runs id n (rows, []) (replicate n id) (rows', tasks) /\
      row_after id (Row.max_presentations row) (Row.presentations_used row + Z.of_nat n) rows').
Proof.
  intros Hh Hu id. split.
  - intros told rows' tasks Hr. apply (runs_slack _ _ (Row.max_presentations row)) with (used := Row.presentations_used row) in Hr;
      [|by exists row|cbn; lia]. destruct Hr as (used & Ha & Hs & Hb). exists used. split_and!; [done|done|cbn in Hb; lia].
  - intros at_time verified_at body credential Hrec Hid. by apply (readers_are_accepted n row rows at_time verified_at body credential).
Qed.
End concurrent.

(** ** Instances of the hypotheses *)

Module DemoServer.
Import Toy ToyGroup ToyNumbers.

#[global] Instance demo_types : McpAuth.Types := {|
  McpAuth.Principal := string * string * string;
  McpAuth.AgentMetadata := unit;
  McpAuth.CallLimits := unit;
  McpAuth.DelegatedCapability := unit;
  McpAuth.DelegationChain := list string;
  McpAuth.ARCCredential := unit;
  McpAuth.Extensions := unit
|}.

#[global] Instance demo_texts : SqlTexts := {| unique_violation := "duplicate key"; bigint_out_of_range := "bigint out of range" |}.
#[global] Instance demo_seed : SeedApi := {| sk_from_seed b := match b with [k] => Some k | _ => None end |}.

Definition day (n : Z) : Z := n * 86400.

(** A credential of identifier 1 that expires after a week *)
Definition a_credential (holder agent : string) : McpAuth.IdentityBoundCredential :=
  McpAuth.MkIdentityBound "0.3" (true : Uuid (UuidApi := toy_uuid)) (0 : DateTime (ChronoApi := toy_chrono)) (day 7) (holder, "https://idp.example"%string, "client"%string)
    (McpAuth.MkAgent agent [] "mcp-client" None) (McpAuth.MkCapabilities ["read"%string] [] None (Some "24h"%string))
    (McpAuth.MkRights false 0 []) [] ((Byte.x2a, []) : Signature (Ed25519Api := toy_ed25519)) tt.

Definition texts : list (string * McpAuth.ACDPCredential) :=
  [("issued"%string, McpAuth.IdentityBound (a_credential "alice" "agent"));
   ("forged"%string, McpAuth.IdentityBound (a_credential "mallory" "other"))].

#[global] Instance demo_auth : McpAuth.Api (T := demo_types) := {|
  McpAuth.from_id_jag sub iss client := if str_is_empty sub then Err "no subject"%string else Ok (sub, iss, client);
  McpAuth.subject p := p.1.1;
  McpAuth.issuer p := p.1.2;
  McpAuth.client_id p := p.2;
  McpAuth.chain_new := [];
  McpAuth.audit_trail chain := chain;
  McpAuth.default_extensions := tt;
  McpAuth.is_expired now c := dt_ltb (McpAuth.expiry_of c) now;
  McpAuth.credential_id := McpAuth.id_of;
  McpAuth.credential_type c := match c with McpAuth.IdentityBound _ => 0 | McpAuth.Anonymous _ => 1 | McpAuth.Hybrid _ => 2 end;
  McpAuth.credential_type_value _ := VString "a type";
  McpAuth.to_string c :=
    if McpAuth.id_of c && (McpAuth.expiry_of c =? day 7) then Ok "issued"%string else Err "no text"%string;
  McpAuth.to_value _ := Ok VNull;
  McpAuth.from_str s := match List.find (fun e => String.eqb e.1 s) texts with Some e => Ok e.2 | None => Err "no credential"%string end;
  McpAuth.Draw := unit;
  McpAuth.ARCGenerators := unit;
  McpAuth.ServerPrivateKey := unit;
  McpAuth.ServerPublicKey := unit;
  McpAuth.ClientSecrets := unit;
  McpAuth.ARCCredentialRequest := unit;
  McpAuth.ARCCredentialResponse := unit;
  McpAuth.generators_new := tt;
  McpAuth.private_key_random d := d;
  McpAuth.from_private_key _ _ := tt;
  McpAuth.secrets_random d := d;
  McpAuth.request_new d _ _ _ := d;
  McpAuth.issue d _ _ _ _ := Ok d;
  McpAuth.from_response r _ _ _ := Ok r
|}.

#[global] Instance demo_auth_laws : McpAuth.Laws.
Proof.
  split; [done|done|]. intros c s. unfold McpAuth.to_string. cbn.
  destruct (McpAuth.id_of c) eqn:Hi; cbn; [|done]. destruct (Z.eqb_spec (McpAuth.expiry_of c) (day 7)) as [He|]; [|done].
  intros [= <-]. eexists. split; [reflexivity|]. split; [reflexivity|]. symmetry. exact He.
Qed.

Definition claims : IDJAGClaims.t :=
  IDJAGClaims.mk "oauth-id-jag+jwt" "jti-1" "https://idp.example" "mallory" "https://gateway/" "https://other-server/" "client" 300 0 "nothing".

#[global] Instance demo_jwt : IdJagJwt := {|
  jwt_encode _ c := if String.eqb (IDJAGClaims.sub c) "mallory" && String.eqb (IDJAGClaims.jti c) "jti-1" && String.eqb (IDJAGClaims.typ c) (IDJAGClaims.typ claims)
                       && String.eqb (IDJAGClaims.iss c) (IDJAGClaims.iss claims) && String.eqb (IDJAGClaims.aud c) (IDJAGClaims.aud claims)
                       && String.eqb (IDJAGClaims.resource c) (IDJAGClaims.resource claims) && String.eqb (IDJAGClaims.client_id c) "client"
                       && (IDJAGClaims.exp c =? 300) && (IDJAGClaims.iat c =? 0) && String.eqb (IDJAGClaims.scope c) "nothing"
                    then Ok "jwt"%string else Err "no token"%string;
  jwt_decode _ now audience token :=
    if String.eqb token "jwt" && String.eqb audience (IDJAGClaims.aud claims) && (now <=? 300) then Ok claims else Err "bad token"%string
|}.

#[global] Instance demo_jwt_laws : IdJagJwtLaws.
Proof.
  split. intros secret now audience c token. cbn. destruct (_ && _) eqn:E; [|done]. intros [= <-] Ha He.
  rewrite !andb_true_iff, !String.eqb_eq, !Z.eqb_eq in E. destruct c; cbn in *. destruct_and!. subst. cbn.
  by rewrite (proj2 (Z.leb_le _ _) He).
Qed.

Definition service : CredentialService.t := CredentialService.new tt [Byte.x2a] [Byte.x2a] "https://gateway/".
Definition config : Config.t := Config.mk "127.0.0.1" 8080 "postgres://db" "http://localhost:8000" "token" "https://gateway/" [Byte.x2a] [Byte.x2a].
Definition state : Routes.AppState := Routes.initial tt config.
Definition key : string := "0123456789abcdef0123456789abcdef0123456789abcdef0123456789abcdef".
Definition request : CredentialIssuanceRequest.t :=
  CredentialIssuanceRequest.mk "agent" key CredentialType.IdentityBound
    (CredentialCapabilities.mk (RateLimitConfig.mk 2 "24h") (MCPToolAccess.mk ["read"%string] [])) 7.
Definition io : CredentialService.Inputs :=
  CredentialService.MkInputs (0 : DateTime (ChronoApi := toy_chrono)) (true : Uuid (UuidApi := toy_uuid)) (CredentialService.MkDraws tt tt tt) (Ok tt).

Definition stored : Row.t := CredentialService.row_of (McpAuth.IdentityBound (a_credential "mallory" "agent")) "issued" request.
Definition presented (text : string) : CredentialVerificationRequest.t :=
  CredentialVerificationRequest.mk (false : Uuid (UuidApi := toy_uuid)) "no context" 0 text None.
Definition at_noon : Routes.VerifyInputs := Routes.MkVerify (43200 : DateTime (ChronoApi := toy_chrono)) (43201 : DateTime (ChronoApi := toy_chrono)) (Ok tt) (Ok tt).

Lemma stored_held : holds stored [stored].
Proof. exists [], []. split; [done|constructor]. Qed.

Definition response : Routes.HttpResponse :=
  Routes.MkResponse 200 (Routes.issued_body (McpAuth.IdentityBound (a_credential "mallory" "agent")) VNull).

Lemma made_up : Routes.issue_credential state 10 io (Some "Bearer jwt"%string) request [] = Some (Ok response, [stored]).
Proof. vm_refl. Qed.

Lemma received_issued : Routes.received (43200 : DateTime (ChronoApi := toy_chrono)) 43201 (presented "issued") =
  inr (McpAuth.IdentityBound (a_credential "alice" "agent")).
Proof. vm_refl. Qed.
End DemoServer.

Section witnesses.
Import Toy ToyGroup ToyNumbers DemoServer.

Lemma forged_credentials_are_believed_witness : exists result rows',
  Routes.verify_credential at_noon (presented "forged") [stored] =
    (Ok (Routes.MkResponse 200 (Routes.Verification result)), rows') /\
  CredentialVerificationResult.valid result = true /\
  holds (counted stored) rows'.
Proof.
  destruct (forged_credentials_are_believed at_noon (presented "forged") (McpAuth.IdentityBound (a_credential "mallory" "other")) stored [stored])
    as (rows' & Hv & Hh); [reflexivity..|exact stored_held|vm_compute; discriminate|].
  eexists _, rows'. split; [exact Hv|]. split; [reflexivity|exact Hh].
Defined.

Lemma issued_credentials_are_spent_witness : exists read_back,
  (verify_all [(at_noon, presented "issued"); (at_noon, presented "issued"); (at_noon, presented "issued")] [stored]).1 =
  answers_from read_back (wrap_i64 2) 0 [(at_noon, presented "issued"); (at_noon, presented "issued"); (at_noon, presented "issued")].
Proof.
  destruct (issued_credentials_are_spent state 10 io (Some "Bearer jwt"%string) request [] response [stored] made_up)
    as (c & text & c' & _ & Ht & Hc & He & Hall).
  exists c'. change (Some (day 7) = Some (McpAuth.expiry_of c')) in He. injection He as Hx.
  assert (Htext : text = "issued"%string).
  { revert Ht. unfold McpAuth.to_string. cbn [demo_auth]. destruct (McpAuth.id_of c && _); [|discriminate]. by intros [= <-]. }
  subst text.
  assert (Hp : presents c' "issued" (at_noon, presented "issued")).
  { split; [reflexivity|]. split; [reflexivity|]. split; [reflexivity|]. rewrite <- Hx. reflexivity. }
  apply Hall. repeat (constructor; [exact Hp|]). constructor.
Defined.

Lemma identities_can_be_made_up_witness : exists outcome,
  Routes.issue_credential state 10 io (Some "Bearer jwt"%string) request [] = outcome.
Proof.
  pose proof (identities_can_be_made_up state 10 io claims "jwt" ("mallory", "https://idp.example", "client")%string request []
    eq_refl eq_refl eq_refl ltac:(vm_compute; discriminate) eq_refl ltac:(vm_compute; reflexivity)) as [He _].
  eexists. exact He.
Defined.

Lemma issue_failures_witness :
  ACDPGatewayError.status (ACDPGatewayError.Unauthorized "Missing Authorization header") = 401 <->
  forall token, None <> Some ("Bearer " +:+ token).
Proof. by apply (issue_failures state 10 io None request [] (ACDPGatewayError.Unauthorized "Missing Authorization header") []). Defined.

Lemma verifications_overdraw_witness : exists rows' tasks,
  runs (true : Uuid (UuidApi := toy_uuid)) 3 ([stored], []) [true; true; true] (rows', tasks) /\
  row_after (true : Uuid (UuidApi := toy_uuid)) 2 3 rows'.
Proof.
  destruct (verifications_overdraw 3 stored [stored] stored_held ltac:(vm_compute; discriminate)) as [_ Hreach].
  exact (Hreach _ _ _ _ received_issued eq_refl eq_refl ltac:(vm_compute; reflexivity) ltac:(vm_compute; discriminate)).
Defined.
End witnesses.
