(* ===== verification/MonitorUi.v ===== *)
(** The state behind the terminal interface ([acdp-tui/src/ui.rs], [tabs.rs],
    [events.rs], [activity_feed.rs], [servers_panel.rs],
    [settings_panel.rs]): keys and events, focus and overlays, selections and
    settings.  Drawing is in [Screen]. *)

From Stdlib Require Import Floats.SpecFloat.
From S2P Require Import Prelude Text ModelConfig ModelManager.

(** [String::pop()]: the last character goes, with its continuation bytes. *)
Fixpoint pop_bytes (reversed : list Ascii.ascii) : list Ascii.ascii :=
  match reversed with
  | [] => []
  | c :: rest => if is_continuation_byte c then pop_bytes rest else rest
  end.
Definition pop_char (s : string) : string := String.string_of_list_ascii (rev (pop_bytes (rev (String.list_ascii_of_string s)))).

(** ** Keys and events ([events.rs]) *)

Module Event.
Inductive t : Type :=
| Quit
| Escape
| Input (character : string)
| Enter
| Backspace
| Tab
| FocusNext
| FocusPrev
| Up
| Down
| Left
| Right
| CycleProxy
| StartProxy.

#[global] Instance t_eq_dec : EqDecision t.
Proof. solve_decision. Defined.
End Event.

(** The terminal's events: a key, a character being its encoding in UTF-8, or
    anything else *)
Inductive KeyCode : Type :=
| KEsc
| KEnter
| KTab
| KBackTab
| KBackspace
| KLeft
| KRight
| KUp
| KDown
| KChar (character : string)
| KOther.

Inductive TerminalEvent : Type :=
| Key (code : KeyCode) (shift control press : bool)
| OtherEvent.

Definition map_char (character : string) (control : bool) : Event.t :=
  if control && existsb (String.eqb character) ["c"; "q"]%string then Event.Quit
  else if control && existsb (String.eqb character) ["p"; "P"]%string then Event.CycleProxy
  else if control && existsb (String.eqb character) ["n"; "N"]%string then Event.StartProxy
  else Event.Input character.

Definition map_event (event : TerminalEvent) : option Event.t :=
  match event with
  | Key code shift control press =>
      if negb press then None
      else
        match code with
        | KEsc => Some Event.Escape
        | KEnter => Some Event.Enter
        | KTab => Some (if shift then Event.FocusPrev else if control then Event.FocusNext else Event.Tab)
        | KBackTab => Some Event.FocusPrev
        | KBackspace => Some Event.Backspace
        | KLeft => Some Event.Left
        | KRight => Some Event.Right
        | KUp => Some Event.Up
        | KDown => Some Event.Down
        | KChar character => Some (map_char character control)
        | KOther => None
        end
  | OtherEvent => None
  end.

(** ** Tabs and focus ([tabs.rs], [components.rs]) *)

Module FocusArea.
Inductive t : Type := MainTabs | QueryInput | Settings | Diagnostics | Search.

#[global] Instance t_eq_dec : EqDecision t.
Proof. solve_decision. Defined.
End FocusArea.

Module MainTab.
Inductive t : Type := Activity | Servers | Settings.

Definition all : list t := [Activity; Servers; Settings].
Definition title (self : t) : string :=
  match self with Activity => "Activity" | Servers => "Servers" | Settings => "Settings" end.
Definition index (self : t) : nat := match self with Activity => 0 | Servers => 1 | Settings => 2 end.
Definition next (self : t) : t := match self with Activity => Servers | Servers => Settings | Settings => Activity end.
Definition prev (self : t) : t := match self with Activity => Settings | Servers => Activity | Settings => Servers end.
Definition from_index (index : nat) : t := match index with 0 => Activity | 1 => Servers | 2 => Settings | _ => Activity end%nat.
End MainTab.

(** ** Lists with a selection *)

Module ActivityFeed.
(** [state.selected()] *)
Definition t : Type := option nat.
Definition new : t := Some 0%nat.
Definition focus (self : t) : t := match self with None => Some 0%nat | s => s end.

Definition next (len : nat) (self : t) : t :=
  let idx := from_option id 0%nat self in
  if (len =? 0)%nat then None
  else Some (if (len <=? idx + 1)%nat then len - 1 else idx + 1)%nat.

Definition previous (self : t) : t := Some (from_option id 0%nat self - 1)%nat.

(** What drawing [len] items leaves selected *)
Definition drawn (len : nat) (self : t) : t := option_map (fun idx => Nat.min idx (len - 1)) self.

(** [&id[0..n]], a panic unless a character begins there *)
Definition slice_to (n : nat) (id : string) : option string :=
  match String.get n id with
  | Some c => if is_continuation_byte c then None else Some (String.substring 0 n id)
  | None => if (String.length id =? n)%nat then Some id else None
  end.

Definition shorten_proxy_id (id : string) : option string :=
  if starts_with "proxy-" id && (15 <? String.length id)%nat then slice_to 9 id else Some id.
End ActivityFeed.

Module ServersPanel.
Definition t : Type := option nat.
Definition new : t := Some 0%nat.

Definition next (len : nat) (self : t) : t :=
  if (len =? 0)%nat then None
  else let idx := from_option id 0%nat self in Some (if (len <=? idx + 1)%nat then 0 else idx + 1)%nat.

Definition previous (len : nat) (self : t) : t :=
  if (len =? 0)%nat then None
  else let idx := from_option id 0%nat self in Some (if (idx =? 0)%nat then len - 1 else idx - 1)%nat.
End ServersPanel.

(** ** Settings ([settings_panel.rs]) *)

Module LiteRTModel.
Record t : Type := mk { name : string; size : string; description : string; installed : bool }.
End LiteRTModel.

Module SettingsTab.
Inductive t : Type := Models | TuiEngineSettings | ProxyEngineSettings | Advanced.
Definition label (self : t) : string :=
  match self with
  | Models => "Models" | TuiEngineSettings => "TUI Engine" | ProxyEngineSettings => "Proxy Engine" | Advanced => "Advanced"
  end.
Definition next (self : t) : t :=
  match self with
  | Models => TuiEngineSettings | TuiEngineSettings => ProxyEngineSettings | ProxyEngineSettings => Advanced | Advanced => Models
  end.
Definition prev (self : t) : t :=
  match self with
  | Models => Advanced | TuiEngineSettings => Models | ProxyEngineSettings => TuiEngineSettings | Advanced => ProxyEngineSettings
  end.
End SettingsTab.

Module PanelFocus.
Inductive t : Type := ModelsList | Details.
End PanelFocus.

Definition f32_min (a b : f32) : f32 := if SFltb b a then b else a.
Definition f32_max (a b : f32) : f32 := if SFltb a b then b else a.
Definition f32_sub (a b : f32) : f32 := SFsub f32_prec f32_emax a b.

Module EngineSettings.
Record t : Type := mk {
  backend : string;
  temperature : f32;
  max_tokens : Z;
  semantic_routing : bool;
  semantic_model_path : option string;
  active_model : option string
}.

Definition default : t := mk "cpu" (f32_ratio 7 10) 1000 false None (Some "gemma3-1b-it-int4"%string).

Definition step : f32 := f32_ratio 1 10.

Definition toggle_backend (self : t) : t :=
  mk (if String.eqb (backend self) "cpu" then "gpu" else "cpu") (temperature self) (max_tokens self) (semantic_routing self)
    (semantic_model_path self) (active_model self).
Definition adjust_temperature (increase : bool) (self : t) : t :=
  mk (backend self)
    (if increase then f32_min (f32_add (temperature self) step) (f32_of_Z 2)
     else f32_max (f32_sub (temperature self) step) f32_zero)
    (max_tokens self) (semantic_routing self) (semantic_model_path self) (active_model self).
Definition adjust_max_tokens (increase : bool) (self : t) : t :=
  mk (backend self) (temperature self)
    (if increase then Z.min (max_tokens self + 100) 4096 else Z.max (saturating_sub (max_tokens self) 100) 1)
    (semantic_routing self) (semantic_model_path self) (active_model self).
Definition toggle_semantic_routing (self : t) : t :=
  mk (backend self) (temperature self) (max_tokens self) (negb (semantic_routing self)) (semantic_model_path self) (active_model self).
Definition set_active_model (name : string) (self : t) : t :=
  mk (backend self) (temperature self) (max_tokens self) (semantic_routing self) (semantic_model_path self) (Some name).
End EngineSettings.

Module SettingsPanel.
Record t : Type := mk {
  current_tab : SettingsTab.t;
  models : list LiteRTModel.t;
  model_list_state : option nat;
  tui_engine_settings : EngineSettings.t;
  proxy_engine_settings : EngineSettings.t;
  selected_setting : nat;
  hf_token : string;
  loading : bool;
  status_message : option string;
  panel_focus : PanelFocus.t
}.

(** [hf_token] is the variable [HF_TOKEN]. *)
Definition new (hf_token : option string) : t :=
  mk SettingsTab.Models [] None EngineSettings.default EngineSettings.default 0 (from_option id ""%string hf_token) false None
    PanelFocus.ModelsList.

Definition set_tab (tab : SettingsTab.t) (s : t) : t :=
  mk tab (models s) (model_list_state s) (tui_engine_settings s) (proxy_engine_settings s) (selected_setting s) (hf_token s)
    (loading s) (status_message s) (panel_focus s).
Definition set_selected_model (i : option nat) (s : t) : t :=
  mk (current_tab s) (models s) i (tui_engine_settings s) (proxy_engine_settings s) (selected_setting s) (hf_token s)
    (loading s) (status_message s) (panel_focus s).
Definition set_selected_setting (i : nat) (s : t) : t :=
  mk (current_tab s) (models s) (model_list_state s) (tui_engine_settings s) (proxy_engine_settings s) i (hf_token s)
    (loading s) (status_message s) (panel_focus s).
Definition set_models (ms : list LiteRTModel.t) (s : t) : t :=
  mk (current_tab s) ms (model_list_state s) (tui_engine_settings s) (proxy_engine_settings s) (selected_setting s) (hf_token s)
    (loading s) (status_message s) (panel_focus s).
Definition set_status (loading : bool) (message : string) (s : t) : t :=
  mk (current_tab s) (models s) (model_list_state s) (tui_engine_settings s) (proxy_engine_settings s) (selected_setting s)
    (hf_token s) loading (Some message) (panel_focus s).
Definition set_tui_settings (e : EngineSettings.t) (s : t) : t :=
  mk (current_tab s) (models s) (model_list_state s) e (proxy_engine_settings s) (selected_setting s) (hf_token s)
    (loading s) (status_message s) (panel_focus s).
Definition set_proxy_settings (e : EngineSettings.t) (s : t) : t :=
  mk (current_tab s) (models s) (model_list_state s) (tui_engine_settings s) e (selected_setting s) (hf_token s)
    (loading s) (status_message s) (panel_focus s).

Definition next_tab (self : t) : t := set_tab (SettingsTab.next (current_tab self)) self.
Definition prev_tab (self : t) : t := set_tab (SettingsTab.prev (current_tab self)) self.

Definition toggle_panel_focus (s : t) : t :=
  mk (current_tab s) (models s) (model_list_state s) (tui_engine_settings s) (proxy_engine_settings s) (selected_setting s)
    (hf_token s) (loading s) (status_message s)
    (match panel_focus s with PanelFocus.ModelsList => PanelFocus.Details | PanelFocus.Details => PanelFocus.ModelsList end).

Definition next_model (self : t) : t :=
  match models self with
  | [] => self
  | ms =>
      set_selected_model
        (Some match model_list_state self with
              | Some i => if (length ms - 1 <=? i)%nat then 0 else i + 1
              | None => 0
              end)%nat self
  end.

Definition prev_model (self : t) : t :=
  match models self with
  | [] => self
  | ms =>
      set_selected_model
        (Some match model_list_state self with
              | Some i => if (i =? 0)%nat then length ms - 1 else i - 1
              | None => 0
              end)%nat self
  end.

Definition next_setting (self : t) : t := set_selected_setting ((selected_setting self + 1) mod 6)%nat self.
Definition prev_setting (self : t) : t :=
  set_selected_setting (if (selected_setting self =? 0)%nat then 5 else selected_setting self - 1)%nat self.

(** [iter().position()] *)
Fixpoint position {A} (p : A -> bool) (l : list A) : option nat :=
  match l with [] => None | x :: l => if p x then Some 0%nat else option_map S (position p l) end.

Definition cycle_model (increase : bool) (models : list LiteRTModel.t) (settings : EngineSettings.t) : EngineSettings.t :=
  let installed_models := List.filter LiteRTModel.installed models in
  let n := length installed_models in
  let current_index :=
    from_option id 0%nat
      (match EngineSettings.active_model settings with
       | Some name => position (fun m => String.eqb (LiteRTModel.name m) name) installed_models
       | None => None
       end) in
  let new_index :=
    (if increase then (current_index + 1) mod n
     else if current_index =? 0 then n - 1 else current_index - 1)%nat in
  match installed_models !! new_index with
  | Some m => EngineSettings.set_active_model (LiteRTModel.name m) settings
  | None => settings
  end.

Definition adjusted (increase : bool) (models : list LiteRTModel.t) (selected_setting : nat) (settings : EngineSettings.t)
  : EngineSettings.t :=
  match selected_setting with
  | 0 => cycle_model increase models settings
  | 1 => EngineSettings.toggle_backend settings
  | 2 => EngineSettings.adjust_temperature increase settings
  | 3 => EngineSettings.adjust_max_tokens increase settings
  | 4 => EngineSettings.toggle_semantic_routing settings
  | _ => settings
  end%nat.

Definition adjust_setting (increase : bool) (self : t) : t :=
  match current_tab self with
  | SettingsTab.TuiEngineSettings =>
      set_tui_settings (adjusted increase (models self) (selected_setting self) (tui_engine_settings self)) self
  | SettingsTab.ProxyEngineSettings =>
      set_proxy_settings (adjusted increase (models self) (selected_setting self) (proxy_engine_settings self)) self
  | _ => self
  end.

Definition KB : Z := 1024.
Definition MB : Z := KB * 1024.
Definition GB : Z := MB * 1024.

Definition format_size (bytes : Z) : string :=
  if GB <=? bytes then format_fixed 2 (f64_ratio bytes GB) +:+ "GB"
  else if MB <=? bytes then format_fixed 0 (f64_ratio bytes MB) +:+ "MB"
  else if KB <=? bytes then format_fixed 0 (f64_ratio bytes KB) +:+ "KB"
  else pretty bytes +:+ "B".

Definition cached_model (m : ModelInfo.t) : LiteRTModel.t :=
  LiteRTModel.mk (ModelInfo.name m) (format_size (ModelInfo.size_bytes m))
    ("Cached model: " +:+ PathBuf.to_string (ModelInfo.path m)) true.
Definition available_model (m : ModelInfo.t) : LiteRTModel.t :=
  LiteRTModel.mk (ModelInfo.name m) (format_size (ModelInfo.size_bytes m)) "Available for download" false.

(** The models that are not in the list yet *)
Fixpoint add_available (available : list ModelInfo.t) (models : list LiteRTModel.t) : list LiteRTModel.t :=
  match available with
  | [] => models
  | m :: available =>
      add_available available
        (if existsb (fun l => String.eqb (LiteRTModel.name l) (ModelInfo.name m)) models then models
         else models ++ [available_model m])
  end.

(** [service] is what the service's two listings give, if there is one. *)
Definition refresh_models (service : option (Res (list ModelInfo.t) string * Res (list ModelInfo.t) string)) (self : t) : t :=
  match service with
  | None => set_status false "LLM service not available" self
  | Some (Err e, _) => set_status false ("Failed to load models: " +:+ e) self
  | Some (Ok cached, available) =>
      let ms := List.map cached_model cached in
      let ms := match available with Ok available => add_available available ms | Err _ => ms end in
      set_status false ("Found " +:+ pretty (length ms) +:+ " models") (set_models ms self)
  end.

(** [downloaded] is the outcome of the service's download. *)
Definition pull_model (model_name : string)
    (service : option (Res unit string * (Res (list ModelInfo.t) string * Res (list ModelInfo.t) string))) (self : t) : t :=
  let self := set_status true ("Downloading " +:+ model_name +:+ "...") self in
  match service with
  | None => set_status false "LLM service not available" self
  | Some (Ok _, listings) => refresh_models (Some listings) (set_status true ("Successfully downloaded " +:+ model_name) self)
  | Some (Err e, _) => set_status false ("Failed to download: " +:+ e) self
  end.
End SettingsPanel.

(** ** The interface ([ui.rs]) *)

Module UI.
Record t : Type := mk {
  current_tab : MainTab.t;
  focus : FocusArea.t;
  activity_feed : ActivityFeed.t;
  servers_panel : ServersPanel.t;
  settings_panel : SettingsPanel.t;
  diagnostics_prev_focus : FocusArea.t;
  search_prev_focus : FocusArea.t;
  search_overlay : option string;
  models_refreshed_for_session : bool
}.

Definition new (hf_token : option string) : t :=
  mk MainTab.Activity FocusArea.MainTabs ActivityFeed.new ServersPanel.new (SettingsPanel.new hf_token) FocusArea.MainTabs
    FocusArea.MainTabs None false.

Definition set_focus (f : FocusArea.t) (u : t) : t :=
  mk (current_tab u) f (activity_feed u) (servers_panel u) (settings_panel u) (diagnostics_prev_focus u) (search_prev_focus u)
    (search_overlay u) (models_refreshed_for_session u).
Definition set_tab (tab : MainTab.t) (u : t) : t :=
  mk tab (focus u) (activity_feed u) (servers_panel u) (settings_panel u) (diagnostics_prev_focus u) (search_prev_focus u)
    (search_overlay u) (models_refreshed_for_session u).
Definition set_feed (f : ActivityFeed.t) (u : t) : t :=
  mk (current_tab u) (focus u) f (servers_panel u) (settings_panel u) (diagnostics_prev_focus u) (search_prev_focus u)
    (search_overlay u) (models_refreshed_for_session u).
Definition set_servers (p : ServersPanel.t) (u : t) : t :=
  mk (current_tab u) (focus u) (activity_feed u) p (settings_panel u) (diagnostics_prev_focus u) (search_prev_focus u)
    (search_overlay u) (models_refreshed_for_session u).
Definition set_settings (p : SettingsPanel.t) (u : t) : t :=
  mk (current_tab u) (focus u) (activity_feed u) (servers_panel u) p (diagnostics_prev_focus u) (search_prev_focus u)
    (search_overlay u) (models_refreshed_for_session u).
Definition set_search (s : option string) (u : t) : t :=
  mk (current_tab u) (focus u) (activity_feed u) (servers_panel u) (settings_panel u) (diagnostics_prev_focus u)
    (search_prev_focus u) s (models_refreshed_for_session u).
Definition set_refreshed (b : bool) (u : t) : t :=
  mk (current_tab u) (focus u) (activity_feed u) (servers_panel u) (settings_panel u) (diagnostics_prev_focus u)
    (search_prev_focus u) (search_overlay u) b.

Definition next_tab (self : t) : t := set_tab (MainTab.next (current_tab self)) self.
Definition prev_tab (self : t) : t := set_tab (MainTab.prev (current_tab self)) self.
Definition switch_to_tab (tab : MainTab.t) (self : t) : t := set_tab tab self.

Definition toggle_focus (self : t) : t :=
  set_focus (match focus self with
             | FocusArea.MainTabs => FocusArea.QueryInput
             | FocusArea.QueryInput => FocusArea.MainTabs
             | _ => FocusArea.MainTabs
             end) self.

Definition open_settings (self : t) : t := set_focus FocusArea.Settings self.
Definition close_settings (self : t) : t :=
  if decide (focus self = FocusArea.Settings) then set_focus FocusArea.MainTabs self else self.

Definition open_diagnostics (u : t) : t :=
  if decide (focus u = FocusArea.Diagnostics) then u
  else mk (current_tab u) FocusArea.Diagnostics (activity_feed u) (servers_panel u) (settings_panel u) (focus u)
         (search_prev_focus u) (search_overlay u) (models_refreshed_for_session u).
Definition close_diagnostics (self : t) : t :=
  if decide (focus self = FocusArea.Diagnostics) then set_focus (diagnostics_prev_focus self) self else self.

Definition open_search (u : t) : t :=
  if decide (focus u = FocusArea.Search) then u
  else mk (current_tab u) FocusArea.Search (activity_feed u) (servers_panel u) (settings_panel u) (diagnostics_prev_focus u)
         (focus u) (Some ""%string) (models_refreshed_for_session u).
Definition close_search (self : t) : t :=
  if decide (focus self = FocusArea.Search) then set_focus (search_prev_focus self) (set_search None self) else self.

Definition search_active (self : t) : bool := bool_decide (focus self = FocusArea.Search).
Definition handle_search_input (character : string) (is_control : bool) (self : t) : t :=
  set_search (option_map (fun q => if is_control then q else q +:+ character) (search_overlay self)) self.
Definition search_backspace (self : t) : t := set_search (option_map pop_char (search_overlay self)) self.

(** The answer, and the interface with the models marked as refreshed *)
Definition should_refresh_models (self : t) : bool * t :=
  if decide (focus self = FocusArea.Settings) then
    if models_refreshed_for_session self then (false, self) else (true, set_refreshed true self)
  else (false, self).

Definition reset_models_refresh_flag (self : t) : t :=
  if decide (focus self = FocusArea.Settings) then self else set_refreshed false self.

Definition handle_up (server_len : nat) (self : t) : t :=
  match current_tab self with
  | MainTab.Activity => set_feed (ActivityFeed.previous (activity_feed self)) self
  | MainTab.Servers => set_servers (ServersPanel.previous server_len (servers_panel self)) self
  | MainTab.Settings =>
      set_settings
        (match SettingsPanel.current_tab (settings_panel self) with
         | SettingsTab.Models => SettingsPanel.prev_model (settings_panel self)
         | _ => SettingsPanel.prev_setting (settings_panel self)
         end) self
  end.

Definition handle_down (activity_len server_len : nat) (self : t) : t :=
  match current_tab self with
  | MainTab.Activity => set_feed (ActivityFeed.next activity_len (activity_feed self)) self
  | MainTab.Servers => set_servers (ServersPanel.next server_len (servers_panel self)) self
  | MainTab.Settings =>
      set_settings
        (match SettingsPanel.current_tab (settings_panel self) with
         | SettingsTab.Models => SettingsPanel.next_model (settings_panel self)
         | _ => SettingsPanel.next_setting (settings_panel self)
         end) self
  end.

(** Left and right: the tabs of the settings, or the value of a setting *)
Definition moved (right : bool) (panel : SettingsPanel.t) : SettingsPanel.t :=
  match SettingsPanel.current_tab panel with
  | SettingsTab.TuiEngineSettings | SettingsTab.ProxyEngineSettings => SettingsPanel.adjust_setting right panel
  | _ => if right then SettingsPanel.next_tab panel else SettingsPanel.prev_tab panel
  end.

Definition handle_left (self : t) : t :=
  match current_tab self with MainTab.Settings => set_settings (moved false (settings_panel self)) self | _ => self end.
Definition handle_right (self : t) : t :=
  match current_tab self with MainTab.Settings => set_settings (moved true (settings_panel self)) self | _ => self end.
End UI.
