(* ===== verification/Monitor.v ===== *)
(** The monitor ([acdp-tui/src/app.rs], [ipc_handler.rs], [components.rs]): the
    messages of the proxies it receives, the tables it keeps of them, the
    user's queries and the activity feed.

    A clock reading, a generated identifier, the outcome of a call to the
    system or of a message sent to the proxy is an input.  The quick
    actions are in [QuickActions], the start in [Startup]. *)

From Stdlib Require Import Floats.SpecFloat.
From S2P Require Import Prelude McpError Messages Transform Text Common Session IpcServer Client CodeGenerator ModelManager Streaming MonitorUi.

(** ** Data ([components.rs], [semantic_status.rs], [diagnostics.rs]) *)

Module components.
Module ClientStatus.
Inductive t : Type := Connected | Disconnected | Error.
End ClientStatus.

Module ServerType.
Inductive t : Type := Proxy | Gateway | Server.

#[global] Instance t_eq_dec : EqDecision t.
Proof. solve_decision. Defined.
End ServerType.

Module ServerStatus.
Inductive t : Type := Starting | Running | Degraded | Stopped | Error.
End ServerStatus.

Module ActivityStatus.
Inductive t : Type := Processing | Success | Failed.
Definition label (self : t) : string :=
  match self with Processing => "Processing" | Success => "Success" | Failed => "Failed" end.
End ActivityStatus.

Module Client.
Record t : Type := mk {
  id : string;
  name : string;
  description : string;
  status : ClientStatus.t;
  requests_sent : Z;
  last_activity : Z
}.
End Client.

Module Server.
Record t : Type := mk {
  id : string;
  name : string;
  description : string;
  server_type : ServerType.t;
  status : ServerStatus.t;
  requests_received : Z;
  last_activity : Z;
  routing_mode : option string;
  model_status : option string;
  target_address : option string
}.

Definition set_stats (requests now : Z) (s : t) : t :=
  mk (id s) (name s) (description s) (server_type s) (status s) requests now (routing_mode s) (model_status s) (target_address s).
Definition set_mode (mode : string) (s : t) : t :=
  mk (id s) (name s) (description s) (server_type s) (status s) (requests_received s) (last_activity s) (Some mode)
    (model_status s) (target_address s).
Definition set_name (name : string) (status : ServerStatus.t) (now : Z) (s : t) : t :=
  mk (id s) name (description s) (server_type s) status (requests_received s) now (routing_mode s) (model_status s) (target_address s).
End Server.

(** The field [metrics] of an item is always [None]. *)
Module ActivityItem.
Record t : Type := mk {
  timestamp : Z;
  client : string;
  server : string;
  action : string;
  status : ActivityStatus.t
}.

Definition set (action : string) (status : ActivityStatus.t) (i : t) : t := mk (timestamp i) (client i) (server i) action status.
End ActivityItem.
End components.
Import components.

Module SemanticPrediction.
Record t : Type := mk {
  query : option string;
  predicted_tool : option string;
  confidence : option f64;
  actual_tool : option string;
  success : option bool
}.
Definition default : t := mk None None None None None.
End SemanticPrediction.

Module DiagnosticsData.
Record t : Type := mk {
  model_status : ModelStatus.t;
  model_name : option string;
  download_progress : option DownloadProgress.t;
  ttft : option f64;
  tokens_per_sec : option f64;
  gepa_optimization : option f64;
  dspy_accuracy : option f64;
  last_query : option string;
  last_response : option string;
  routing_mode : option string;
  session_accuracy : option f64;
  session_total_predictions : option Z;
  session_successful_predictions : option Z;
  interceptors : option (Z * Z * Z);
  gateway_state : option (Z * Z * Z * Z);
  gateway_metrics : option (Z * Z * f64 * f64)
}.

Definition default : t := mk ModelStatus.NotLoaded None None None None None None None None None None None None None None None.

Definition set_model (status : ModelStatus.t) (name : option string) (progress : option DownloadProgress.t) (d : t) : t :=
  mk status name progress (ttft d) (tokens_per_sec d) (gepa_optimization d) (dspy_accuracy d) (last_query d) (last_response d)
    (routing_mode d) (session_accuracy d) (session_total_predictions d) (session_successful_predictions d) (interceptors d)
    (gateway_state d) (gateway_metrics d).
Definition set_speed (ttft tokens_per_sec : option f64) (d : t) : t :=
  mk (model_status d) (model_name d) (download_progress d) ttft tokens_per_sec (gepa_optimization d) (dspy_accuracy d)
    (last_query d) (last_response d) (routing_mode d) (session_accuracy d) (session_total_predictions d)
    (session_successful_predictions d) (interceptors d) (gateway_state d) (gateway_metrics d).
Definition set_accuracy (dspy gepa : option f64) (d : t) : t :=
  mk (model_status d) (model_name d) (download_progress d) (ttft d) (tokens_per_sec d) gepa dspy (last_query d)
    (last_response d) (routing_mode d) (session_accuracy d) (session_total_predictions d) (session_successful_predictions d)
    (interceptors d) (gateway_state d) (gateway_metrics d).
Definition set_answer (query response : string) (d : t) : t :=
  mk (model_status d) (model_name d) (download_progress d) (ttft d) (tokens_per_sec d) (gepa_optimization d) (dspy_accuracy d)
    (Some query) (Some response) (routing_mode d) (session_accuracy d) (session_total_predictions d)
    (session_successful_predictions d) (interceptors d) (gateway_state d) (gateway_metrics d).
Definition set_mode (mode : string) (d : t) : t :=
  mk (model_status d) (model_name d) (download_progress d) (ttft d) (tokens_per_sec d) (gepa_optimization d) (dspy_accuracy d)
    (last_query d) (last_response d) (Some mode) (session_accuracy d) (session_total_predictions d)
    (session_successful_predictions d) (interceptors d) (gateway_state d) (gateway_metrics d).
Definition set_session (accuracy : f64) (total successful : Z) (d : t) : t :=
  mk (model_status d) (model_name d) (download_progress d) (ttft d) (tokens_per_sec d) (gepa_optimization d) (dspy_accuracy d)
    (last_query d) (last_response d) (routing_mode d) (Some accuracy) (Some total) (Some successful) (interceptors d)
    (gateway_state d) (gateway_metrics d).
Definition set_interceptors (count modifications blocks : Z) (d : t) : t :=
  mk (model_status d) (model_name d) (download_progress d) (ttft d) (tokens_per_sec d) (gepa_optimization d) (dspy_accuracy d)
    (last_query d) (last_response d) (routing_mode d) (session_accuracy d) (session_total_predictions d)
    (session_successful_predictions d) (Some (count, modifications, blocks)) (gateway_state d) (gateway_metrics d).
Definition set_gateway (g : Z * Z * Z * Z) (d : t) : t :=
  mk (model_status d) (model_name d) (download_progress d) (ttft d) (tokens_per_sec d) (gepa_optimization d) (dspy_accuracy d)
    (last_query d) (last_response d) (routing_mode d) (session_accuracy d) (session_total_predictions d)
    (session_successful_predictions d) (interceptors d) (Some g) (gateway_metrics d).
Definition set_gateway_metrics (g : Z * Z * f64 * f64) (d : t) : t :=
  mk (model_status d) (model_name d) (download_progress d) (ttft d) (tokens_per_sec d) (gepa_optimization d) (dspy_accuracy d)
    (last_query d) (last_response d) (routing_mode d) (session_accuracy d) (session_total_predictions d)
    (session_successful_predictions d) (interceptors d) (gateway_state d) (Some g).
End DiagnosticsData.

(** ** Messages of the proxies ([ipc_handler.rs]) *)

Module AppStateUpdate.
Inductive t : Type :=
| ClientAdded (client : Client.t)
| ClientRemoved (client_id : string)
| ClientUpdated (client_id : string) (requests_sent last_activity : Z)
| ServerAdded (server : Server.t)
| ServerRemoved (server_id : string)
| ServerStatsUpdate (server_id : string) (requests_received : Z)
| ServerUpdated (server_id name : string) (status : ServerStatus.t)
| ServerHealthUpdate (server_id : string) (metrics : HealthMetrics.t)
| ActivityAdded (item : ActivityItem.t)
| SessionAdded (session : ProxySession.t)
| SessionUpdated (session : ProxySession.t)
| SessionRemoved (session_id : SessionId)
| SessionStats (metrics : SessionMetrics.t)
| InterceptorStats (proxy_id : string) (stats : InterceptorManagerInfo.t)
| GatewayStateUpdate (active_proxies total_clients total_servers uptime_seconds : Z)
| GatewayMetrics (total_requests total_errors : Z) (avg_response_time_ms requests_per_second : f64)
| QueryResponse (correlation_id response : string) (error : option string) (ttft_ms tokens_per_sec : option f64)
    (total_tokens : option nat) (interceptor_delay_ms : option f64)
| RoutingModeChanged (proxy_id mode : string)
| SemanticPredictionUpdate (query predicted_tool : string) (confidence : f64) (actual_tool : option string)
    (success : option bool)
| PingReceived
| PongReceived.
End AppStateUpdate.

Module IpcHandler.
Section handler.
Context `{JT : JsonText, SD : StrDebug}.
Import ActivityItem.

(** [Debug] of the enumerations that are shown *)
Definition transport_debug (t : TransportType.t) : string :=
  match t with TransportType.Stdio => "Stdio" | TransportType.HttpSse => "HttpSse" | TransportType.HttpStream => "HttpStream" end.
Definition connection_debug (t : ClientConnectionType.t) : string :=
  match t with
  | ClientConnectionType.WebSocket => "WebSocket"
  | ClientConnectionType.Stdio => "Stdio"
  | ClientConnectionType.Http => "Http"
  | ClientConnectionType.HttpSse => "HttpSse"
  | ClientConnectionType.Custom x => "Custom(" +:+ str_debug x +:+ ")"
  end.
Definition endpoint_debug (e : ServerEndpoint.t) : string :=
  match e with
  | ServerEndpoint.Command program args =>
      "Command { program: " +:+ str_debug program +:+ ", args: [" +:+ join ", " (List.map str_debug args) +:+ "] }"
  | ServerEndpoint.Url x => "Url(" +:+ str_debug x +:+ ")"
  | ServerEndpoint.Socket x => "Socket(" +:+ str_debug x +:+ ")"
  | ServerEndpoint.Custom x => "Custom(" +:+ str_debug x +:+ ")"
  end.

Definition proxy_status (s : ProxyStatus.t) : components.ServerStatus.t :=
  match s with
  | ProxyStatus.Starting => components.ServerStatus.Starting
  | ProxyStatus.Running => components.ServerStatus.Running
  | ProxyStatus.Stopped => components.ServerStatus.Stopped
  | ProxyStatus.Error _ => components.ServerStatus.Error
  end.
Definition server_status (s : Common.ServerStatus.t) : components.ServerStatus.t :=
  match s with
  | Common.ServerStatus.Starting => components.ServerStatus.Starting
  | Common.ServerStatus.Running => components.ServerStatus.Running
  | Common.ServerStatus.Degraded _ => components.ServerStatus.Degraded
  | Common.ServerStatus.Stopped => components.ServerStatus.Stopped
  | Common.ServerStatus.Error _ => components.ServerStatus.Error
  end.

Definition proxy_server (now : Z) (info : ProxyInfo.t) : Server.t :=
  Server.mk (ProxyInfo.id info) (ProxyInfo.name info) ("Transport: " +:+ transport_debug (ProxyInfo.transport_type info))
    ServerType.Proxy (proxy_status (ProxyInfo.status info)) (ProxyStats.successful_requests (ProxyInfo.stats info)) now
    (ProxyInfo.routing_mode info) (ProxyInfo.model_status info) (head (ProxyInfo.target_command info)).

Definition mcp_server (now : Z) (info : Common.ServerInfo.t) : Server.t :=
  Server.mk (Common.ServerInfo.id info) (Common.ServerInfo.name info) (endpoint_debug (Common.ServerInfo.endpoint info)) ServerType.Server
    (server_status (Common.ServerInfo.status info)) 0 now None None (Some (endpoint_debug (Common.ServerInfo.endpoint info))).

Definition flow_status (flow : MessageFlow.t) : ActivityStatus.t :=
  match MessageFlow.server_response flow with
  | Some response =>
      match mcp.JsonRpcResponse.error response with Some _ => ActivityStatus.Failed | None => ActivityStatus.Success end
  | None => ActivityStatus.Processing
  end.

(** *** The items of the feed some messages become, and other updates *)

Definition log_item (entry : LogEntry.t) : ActivityItem.t :=
  mk (LogEntry.timestamp entry) ("proxy-" +:+ LogEntry.proxy_id entry) "Gateway" (LogEntry.message entry)
    (match LogEntry.level entry with LogLevel.Error | LogLevel.Warning => ActivityStatus.Failed | _ => ActivityStatus.Success end).

Definition request_item (now : Z) (client_id : ClientId) (request : mcp.JsonRpcRequest.t) : ActivityItem.t :=
  mk now client_id "Gateway"
    (mcp.JsonRpcRequest.method request +:+ " (" +:+ json_to_string (mcp.JsonRpcRequest.id request) +:+ ")") ActivityStatus.Processing.

Definition response_item (now : Z) (server_id : ServerId) (response : mcp.JsonRpcResponse.t) : ActivityItem.t :=
  mk now "Gateway" server_id ("Response for " +:+ json_to_string (mcp.JsonRpcResponse.id response))
    (match mcp.JsonRpcResponse.error response with Some _ => ActivityStatus.Failed | None => ActivityStatus.Success end).

Definition server_update (info : Common.ServerInfo.t) : AppStateUpdate.t :=
  AppStateUpdate.ServerUpdated (Common.ServerInfo.id info) (Common.ServerInfo.name info) (server_status (Common.ServerInfo.status info)).

Definition transformation_item (now : Z) (session_id : SessionId) (transformation : AppliedTransformation.t) : ActivityItem.t :=
  mk now ("Session " +:+ session_id) "Transform"
    ("Applied: " +:+ AppliedTransformation.rule_name transformation +:+ " (" +:+ AppliedTransformation.rule_id transformation +:+ ")")
    (if AppliedTransformation.success transformation then ActivityStatus.Success else ActivityStatus.Failed).

Definition decision_item (decision : RoutingDecision.t) : ActivityItem.t :=
  mk (RoutingDecision.timestamp decision) ("Session " +:+ RoutingDecision.session_id decision) "Router"
    ("Route to " +:+ RoutingDecision.target_server decision +:+ " - " +:+ RoutingDecision.reason decision) ActivityStatus.Success.

(** The numbers of proxies, clients and servers are not counted. *)
Definition gateway_state (state : GatewayState.t) : AppStateUpdate.t :=
  AppStateUpdate.GatewayStateUpdate 0 0 0 (GatewayState.uptime_seconds state).

Definition gateway_metrics (metrics : GatewayMetrics.t) : AppStateUpdate.t :=
  AppStateUpdate.GatewayMetrics 0 (f64_as_u64 (f64_mul (GatewayMetrics.error_rate metrics) (f64_of_Z 100)))
    (GatewayMetrics.average_latency_ms metrics) (f64_div (GatewayMetrics.requests_per_minute metrics) (f64_of_Z 60)).

Definition flow_item (now : Z) (flow : MessageFlow.t) : ActivityItem.t :=
  mk now ("Session " +:+ MessageFlow.session_id flow) "Gateway"
    ("Message " +:+ MessageFlow.id flow +:+ ": " +:+ mcp.JsonRpcRequest.method (MessageFlow.client_request flow)) (flow_status flow).

Definition error_item (now : Z) (message : string) (proxy_id : option ProxyId) : ActivityItem.t :=
  mk now (match proxy_id with Some p => "Proxy " +:+ p | None => "System" end) "Gateway" ("Error: " +:+ message) ActivityStatus.Failed.

(** The update a message becomes; those that go to a proxy are ignored. *)
Definition update_of (now : Z) (message : IpcMessage.t) : option AppStateUpdate.t :=
  match message with
  | IpcMessage.ProxyStarted info => Some (AppStateUpdate.ServerAdded (proxy_server now info))
  | IpcMessage.ProxyStopped proxy_id => Some (AppStateUpdate.ServerRemoved proxy_id)
  | IpcMessage.LogEntry entry => Some (AppStateUpdate.ActivityAdded (log_item entry))
  | IpcMessage.StatsUpdate stats =>
      Some (AppStateUpdate.ServerStatsUpdate (ProxyStats.proxy_id stats) (ProxyStats.total_requests stats))
  | IpcMessage.ClientConnected info =>
      Some (AppStateUpdate.ClientAdded
        (Client.mk (ClientInfo.id info) (ClientInfo.name info) (connection_debug (ClientInfo.connection_type info))
           ClientStatus.Connected (ClientInfo.total_requests info) (ClientInfo.last_activity info)))
  | IpcMessage.ClientDisconnected client_id => Some (AppStateUpdate.ClientRemoved client_id)
  | IpcMessage.ClientUpdated info =>
      Some (AppStateUpdate.ClientUpdated (ClientInfo.id info) (ClientInfo.total_requests info) (ClientInfo.last_activity info))
  | IpcMessage.ServerConnected info => Some (AppStateUpdate.ServerAdded (mcp_server now info))
  | IpcMessage.ServerDisconnected server_id => Some (AppStateUpdate.ServerRemoved server_id)
  | IpcMessage.SessionStarted session => Some (AppStateUpdate.SessionAdded session)
  | IpcMessage.SessionEnded session_id => Some (AppStateUpdate.SessionRemoved session_id)
  | IpcMessage.SessionStats metrics => Some (AppStateUpdate.SessionStats metrics)
  | IpcMessage.ClientRequest client_id request _ => Some (AppStateUpdate.ActivityAdded (request_item now client_id request))
  | IpcMessage.ServerResponse server_id response _ => Some (AppStateUpdate.ActivityAdded (response_item now server_id response))
  | IpcMessage.TuiQueryResponse correlation_id response error ttft_ms tokens_per_sec total_tokens delay =>
      Some (AppStateUpdate.QueryResponse correlation_id response error ttft_ms tokens_per_sec total_tokens delay)
  | IpcMessage.RoutingModeChanged proxy_id mode => Some (AppStateUpdate.RoutingModeChanged proxy_id mode)
  | IpcMessage.InterceptorStats proxy_id stats => Some (AppStateUpdate.InterceptorStats proxy_id stats)
  | IpcMessage.ServerUpdated info => Some (server_update info)
  | IpcMessage.ServerHealthUpdate server_id metrics => Some (AppStateUpdate.ServerHealthUpdate server_id metrics)
  | IpcMessage.SessionUpdated session => Some (AppStateUpdate.SessionUpdated session)
  | IpcMessage.TransformationApplied session_id transformation => Some (AppStateUpdate.ActivityAdded (transformation_item now session_id transformation))
  | IpcMessage.RoutingDecision decision => Some (AppStateUpdate.ActivityAdded (decision_item decision))
  | IpcMessage.SemanticPrediction query predicted_tool confidence actual_tool success =>
      Some (AppStateUpdate.SemanticPredictionUpdate query predicted_tool confidence actual_tool success)
  | IpcMessage.GatewayStateUpdated state => Some (gateway_state state)
  | IpcMessage.GatewayMetrics metrics => Some (gateway_metrics metrics)
  | IpcMessage.MessageFlowUpdate flow => Some (AppStateUpdate.ActivityAdded (flow_item now flow))
  | IpcMessage.Error message proxy_id => Some (AppStateUpdate.ActivityAdded (error_item now message proxy_id))
  | IpcMessage.Ping => Some AppStateUpdate.PingReceived
  | IpcMessage.Pong => Some AppStateUpdate.PongReceived
  | IpcMessage.GetStatus _ | IpcMessage.GetLogs _ _ | IpcMessage.Shutdown _ | IpcMessage.ToggleInterceptor _ _
  | IpcMessage.TuiQuery _ _ | IpcMessage.TuiMcpRequest _ _ _ | IpcMessage.RoutingModeChange _ _
  | IpcMessage.TransformationRules _ | IpcMessage.RoutingRules _ => None
  end.

(** [sent] is the outcome of the channel to the application. *)
Definition process_message (now : Z) (sent : Res unit string) (message : IpcMessage.t)
  : Res (option AppStateUpdate.t) string :=
  match update_of now message with
  | None => Ok None
  | Some update => let? _ := map_err (fun e => "Failed to send update: " +:+ e) sent in Ok (Some update)
  end.
End handler.
End IpcHandler.

(** ** The application ([app.rs]) *)

Module ActiveGeneration.
Record t : Type := mk { prompt : string; accumulated : string; activity_index : nat }.
End ActiveGeneration.

Module UiGenerationEvent.
Inductive t : Type :=
| Token (id : Z) (token : string)
| Completed (id : Z) (metrics : GenerationMetrics.t).
End UiGenerationEvent.

Module App.
Section app.
Context `{JT : JsonText, SD : StrDebug} {TA : TransportApi}.

(** Without the channels, the configuration, the handles that are only kept
    alive, and two tables that nothing enters ([activity_log], [mcp_servers]).
    Of the IPC client it says whether there is one. *)
Record t : Type := mk {
  ui : UI.t;
  clients : gmap string Client.t;
  servers : gmap string Server.t;
  activities : list ActivityItem.t;
  query_input : string;
  running : bool;
  gateway_client : option McpClient.t;
  ipc_client : bool;
  pending_queries : gmap string (string * nat);
  proxy_sessions : gmap string ProxySession.t;
  selected_proxy_id : option string;
  llm_service : bool;
  next_generation_id : Z;
  active_generations : gmap Z ActiveGeneration.t;
  diagnostics : DiagnosticsData.t;
  semantic_prediction : SemanticPrediction.t
}.

(** [App::new]: the service and the gateway's client as far as they could be
    made, and the configured routing mode *)
Definition new (hf_token : option string) (gateway_client : option McpClient.t) (llm_service : bool) (routing_mode : string) : t :=
  mk (UI.new hf_token) ∅ ∅ [] "" true gateway_client false ∅ ∅ None llm_service 0 ∅
    (DiagnosticsData.set_mode routing_mode DiagnosticsData.default) SemanticPrediction.default.

Definition set_ui (u : UI.t) (s : t) : t :=
  mk u (clients s) (servers s) (activities s) (query_input s) (running s) (gateway_client s) (ipc_client s) (pending_queries s)
    (proxy_sessions s) (selected_proxy_id s) (llm_service s) (next_generation_id s) (active_generations s) (diagnostics s) (semantic_prediction s).
Definition set_clients (m : gmap string Client.t) (s : t) : t :=
  mk (ui s) m (servers s) (activities s) (query_input s) (running s) (gateway_client s) (ipc_client s) (pending_queries s)
    (proxy_sessions s) (selected_proxy_id s) (llm_service s) (next_generation_id s) (active_generations s) (diagnostics s) (semantic_prediction s).
Definition set_servers (m : gmap string Server.t) (s : t) : t :=
  mk (ui s) (clients s) m (activities s) (query_input s) (running s) (gateway_client s) (ipc_client s) (pending_queries s)
    (proxy_sessions s) (selected_proxy_id s) (llm_service s) (next_generation_id s) (active_generations s) (diagnostics s) (semantic_prediction s).
Definition set_activities (l : list ActivityItem.t) (s : t) : t :=
  mk (ui s) (clients s) (servers s) l (query_input s) (running s) (gateway_client s) (ipc_client s) (pending_queries s)
    (proxy_sessions s) (selected_proxy_id s) (llm_service s) (next_generation_id s) (active_generations s) (diagnostics s) (semantic_prediction s).
Definition set_input (q : string) (s : t) : t :=
  mk (ui s) (clients s) (servers s) (activities s) q (running s) (gateway_client s) (ipc_client s) (pending_queries s)
    (proxy_sessions s) (selected_proxy_id s) (llm_service s) (next_generation_id s) (active_generations s) (diagnostics s) (semantic_prediction s).
Definition stop (s : t) : t :=
  mk (ui s) (clients s) (servers s) (activities s) (query_input s) false (gateway_client s) (ipc_client s) (pending_queries s)
    (proxy_sessions s) (selected_proxy_id s) (llm_service s) (next_generation_id s) (active_generations s) (diagnostics s) (semantic_prediction s).
Definition set_gateway (g : option McpClient.t) (s : t) : t :=
  mk (ui s) (clients s) (servers s) (activities s) (query_input s) (running s) g (ipc_client s) (pending_queries s)
    (proxy_sessions s) (selected_proxy_id s) (llm_service s) (next_generation_id s) (active_generations s) (diagnostics s) (semantic_prediction s).
Definition set_ipc (b : bool) (s : t) : t :=
  mk (ui s) (clients s) (servers s) (activities s) (query_input s) (running s) (gateway_client s) b (pending_queries s)
    (proxy_sessions s) (selected_proxy_id s) (llm_service s) (next_generation_id s) (active_generations s) (diagnostics s) (semantic_prediction s).
Definition set_pending (m : gmap string (string * nat)) (s : t) : t :=
  mk (ui s) (clients s) (servers s) (activities s) (query_input s) (running s) (gateway_client s) (ipc_client s) m
    (proxy_sessions s) (selected_proxy_id s) (llm_service s) (next_generation_id s) (active_generations s) (diagnostics s) (semantic_prediction s).
Definition set_sessions (m : gmap string ProxySession.t) (s : t) : t :=
  mk (ui s) (clients s) (servers s) (activities s) (query_input s) (running s) (gateway_client s) (ipc_client s) (pending_queries s)
    m (selected_proxy_id s) (llm_service s) (next_generation_id s) (active_generations s) (diagnostics s) (semantic_prediction s).
Definition set_selected (p : option string) (s : t) : t :=
  mk (ui s) (clients s) (servers s) (activities s) (query_input s) (running s) (gateway_client s) (ipc_client s) (pending_queries s)
    (proxy_sessions s) p (llm_service s) (next_generation_id s) (active_generations s) (diagnostics s) (semantic_prediction s).
Definition set_generations (next : Z) (m : gmap Z ActiveGeneration.t) (s : t) : t :=
  mk (ui s) (clients s) (servers s) (activities s) (query_input s) (running s) (gateway_client s) (ipc_client s) (pending_queries s)
    (proxy_sessions s) (selected_proxy_id s) (llm_service s) next m (diagnostics s) (semantic_prediction s).
Definition set_diagnostics (d : DiagnosticsData.t) (s : t) : t :=
  mk (ui s) (clients s) (servers s) (activities s) (query_input s) (running s) (gateway_client s) (ipc_client s) (pending_queries s)
    (proxy_sessions s) (selected_proxy_id s) (llm_service s) (next_generation_id s) (active_generations s) d (semantic_prediction s).
Definition set_prediction (p : SemanticPrediction.t) (s : t) : t :=
  mk (ui s) (clients s) (servers s) (activities s) (query_input s) (running s) (gateway_client s) (ipc_client s) (pending_queries s)
    (proxy_sessions s) (selected_proxy_id s) (llm_service s) (next_generation_id s) (active_generations s) (diagnostics s) p.

Definition push (item : ActivityItem.t) (self : t) : t := set_activities (activities self ++ [item]) self.

(** [if let Some(activity) = self.activities.get_mut(index)] *)
Definition rewrite_at (index : nat) (f : ActivityItem.t -> ActivityItem.t) (self : t) : t :=
  set_activities (alter f index (activities self)) self.

Definition fail_at (index : nat) (action : string) (self : t) : t :=
  rewrite_at index (ActivityItem.set action ActivityStatus.Failed) self.

(** The items that are drawn: all, or those the search finds *)
Definition matches (item : ActivityItem.t) (needle : string) : bool :=
  str_contains needle (to_ascii_lowercase (ActivityItem.client item)) ||
  str_contains needle (to_ascii_lowercase (ActivityItem.server item)) ||
  str_contains needle (to_ascii_lowercase (ActivityItem.action item)) ||
  str_contains needle (to_ascii_lowercase (ActivityStatus.label (ActivityItem.status item))).

Definition filtered_activities (u : UI.t) (activities : list ActivityItem.t) : list ActivityItem.t :=
  match UI.search_overlay u with
  | Some query =>
      if str_is_empty (trim query) then activities
      else List.filter (fun item => matches item (to_ascii_lowercase query)) activities
  | None => activities
  end.

(** *** Queries *)

(** What handling an event draws and is told: the instant, a correlation
    identifier, whether the message to the proxy is sent and a generation
    starts, the order in which the table of servers is listed, and how starting
    a proxy goes. *)
Inductive Started : Type := NoServer | NoBinary | Spawned (r : Res unit string).

Record Inputs : Type := MkInputs {
  now : Z;
  new_id : string;
  sent : Res unit string;
  generation : Res unit string;
  listed : list Server.t;
  started : Started
}.

(** The query stays pending when the message cannot be sent. *)
Definition process_query_via_ipc (io : Inputs) (query : string) (activity_index : nat) (self : t)
  : Res unit string * list IpcMessage.t * t :=
  let self := set_pending (<[new_id io := (query, activity_index)]> (pending_queries self)) self in
  (sent io, [IpcMessage.TuiQuery query (new_id io)], self).

Definition array_of (v : option Value) : option (list Value) := match v with Some (VArray l) => Some l | _ => None end.

(** The first result of [f] *)
Fixpoint first_some {A B} (f : A -> option B) (l : list A) : option B :=
  match l with [] => None | x :: l => match f x with Some y => Some y | None => first_some f l end end.

Definition extract_text_from_result (result : Value) : option string :=
  match (match array_of (get result "content") with Some items => first_some (fun i => string_of (get i "text")) items | None => None end) with
  | Some text => Some text
  | None =>
      match (match array_of (get result "messages") with
             | Some ms => first_some (fun m => match get m "content" with Some c => string_of (get c "text") | None => None end) ms
             | None => None end) with
      | Some text => Some text
      | None => string_of (get result "text")
      end
  end.

Definition search_call (query : string) : Value :=
  VObject [("arguments"%string, VObject [("input"%string, VString query)]); ("name"%string, VString "web_search")].

(** The text of the gateway's answer, or an error's; [None] when the client
    panics. *)
Definition gateway_answer (query : string) (client : McpClient.t) : option (Res string string * McpClient.t) :=
  if negb (McpClient.is_ready client) then Some (Err "gateway client not ready"%string, client)
  else
    match McpClient.send_request "tools/call" (search_call query) client with
    | None => None
    | Some (Err _, client) => Some (Err "gateway tools/call request failed"%string, client)
    | Some (Ok response, client) =>
        Some
          (match JsonRpcResponse.error response, JsonRpcResponse.result response with
           | Some error, _ => Err (JsonRpcError.message error +:+ " (code " +:+ pretty (JsonRpcError.code error) +:+ ")")
           | None, None => Err "gateway response missing result payload"%string
           | None, Some result =>
               Ok (from_option id "Request completed but no textual response received"%string (extract_text_from_result result))
           end, client)
    end.

Definition process_query_via_gateway (client : McpClient.t) (query : string) (activity_index : nat) (self : t)
  : option (Res unit string * t) :=
  match gateway_answer query client with
  | None => None
  | Some (r, client) =>
      let self := set_gateway (Some client) self in
      match r with
      | Err e => Some (Err e, self)
      | Ok text =>
          Some (Ok tt, rewrite_at activity_index
                         (fun i => ActivityItem.mk (ActivityItem.timestamp i) (ActivityItem.client i) "Gateway"
                                     (query +:+ ": " +:+ trim text) ActivityStatus.Success) self)
      end
  end.

Definition process_query_via_llm (io : Inputs) (query : string) (activity_index : nat) (self : t) : Res unit string * t :=
  if negb (llm_service self) then (Err "LLM service unavailable"%string, self)
  else
    let generation_id := next_generation_id self in
    let self := set_generations (wrap_u64 (generation_id + 1))
                  (<[generation_id := ActiveGeneration.mk query "" activity_index]> (active_generations self)) self in
    match generation io with
    | Ok _ => (Ok tt, self)
    | Err e =>
        let self := set_generations (next_generation_id self) (delete generation_id (active_generations self)) self in
        (Err e, fail_at activity_index (query +:+ " (error starting generation)") self)
    end.

Inductive Target : Type := ToProxy | ToGateway | ToLlm.

Definition target_name (target : Target) : string :=
  match target with ToProxy => "Proxy" | ToGateway => "Gateway" | ToLlm => "LLM" end.

Definition target_of (query : string) : Target * string :=
  match drop_prefix "@proxy " query with
  | Some rest => (ToProxy, rest)
  | None => match drop_prefix "@gateway " query with Some rest => (ToGateway, rest) | None => (ToLlm, query) end
  end.

(** The messages sent to the proxy, and the application afterwards *)
Definition route_query (io : Inputs) (target : Target) (query : string) (activity_index : nat) (self : t)
  : option (list IpcMessage.t * t) :=
  match target with
  | ToProxy =>
      if ipc_client self then
        let '(r, messages, self) := process_query_via_ipc io query activity_index self in
        Some (messages, match r with Ok _ => self | Err e => fail_at activity_index (query +:+ " (proxy error: " +:+ e +:+ ")") self end)
      else Some ([], fail_at activity_index (query +:+ " (no proxy connected)") self)
  | ToGateway =>
      match gateway_client self with
      | Some client =>
          match process_query_via_gateway client query activity_index self with
          | None => None
          | Some (Ok _, self) => Some ([], self)
          | Some (Err e, self) => Some ([], fail_at activity_index (query +:+ " (gateway error: " +:+ e +:+ ")") self)
          end
      | None => Some ([], fail_at activity_index (query +:+ " (no gateway connected)") self)
      end
  | ToLlm =>
      let '(r, self) := process_query_via_llm io query activity_index self in
      Some ([], match r with Ok _ => self | Err e => fail_at activity_index (query +:+ " (processing failed: " +:+ e +:+ ")") self end)
  end.

Definition process_query (io : Inputs) (self : t) : option (list IpcMessage.t * t) :=
  let query := trim (query_input self) in
  if str_is_empty query then Some ([], self)
  else
    let '(target, actual_query) := target_of query in
    let self := push (ActivityItem.mk (now io) "User" (target_name target) actual_query ActivityStatus.Processing) self in
    let activity_index := (length (activities self) - 1)%nat in
    let self := set_diagnostics (DiagnosticsData.set_speed None None (diagnostics self)) self in
    route_query io target actual_query activity_index self.

(** *** Events *)

Definition system_item (now : Z) (action : string) (status : ActivityStatus.t) : ActivityItem.t :=
  ActivityItem.mk now "User" "System" action status.

Definition handle_start_default_proxy (io : Inputs) : ActivityItem.t :=
  match started io with
  | NoServer => system_item (now io) "Cannot start proxy: test_server.py not found" ActivityStatus.Failed
  | NoBinary => system_item (now io) "Binary not found. Run: cargo build --release -p mcp-cli" ActivityStatus.Failed
  | Spawned (Ok _) =>
      system_item (now io) "Started default proxy with semantic routing (check Servers panel)" ActivityStatus.Success
  | Spawned (Err e) => system_item (now io) ("Failed to start proxy: " +:+ e) ActivityStatus.Failed
  end.

Definition is_proxy (s : Server.t) : bool := bool_decide (Server.server_type s = ServerType.Proxy).

Definition cycle_proxy_selection (io : Inputs) (self : t) : ActivityItem.t * t :=
  let proxies := List.filter is_proxy (listed io) in
  match proxies with
  | [] => (system_item (now io) "No proxies available to select" ActivityStatus.Failed, self)
  | [p] =>
      (system_item (now io) ("Only one proxy: " +:+ Server.name p +:+ " (auto-selected)") ActivityStatus.Success,
       set_selected (Some (Server.id p)) self)
  | first :: _ =>
      let current_idx :=
        match selected_proxy_id self with
        | Some id => SettingsPanel.position (fun p => String.eqb (Server.id p) id) proxies
        | None => None
        end in
      let next_idx := match current_idx with Some idx => ((idx + 1) mod length proxies)%nat | None => 0%nat end in
      let selected := nth next_idx proxies first in
      let mode_info := match Server.routing_mode selected with Some m => " (mode: " +:+ m +:+ ")" | None => "" end in
      (system_item (now io)
         ("Selected proxy " +:+ pretty (Z.of_nat (next_idx + 1)) +:+ " of " +:+ pretty (Z.of_nat (length proxies)) +:+ ": " +:+
          Server.name selected +:+ mode_info) ActivityStatus.Success,
       set_selected (Some (Server.id selected)) self)
  end.

(** What escaping an overlay leaves; without one the application ends. *)
Definition escape (self : t) : t :=
  match UI.focus (ui self) with
  | FocusArea.Settings => set_ui (UI.close_settings (ui self)) self
  | FocusArea.Diagnostics => set_ui (UI.close_diagnostics (ui self)) self
  | FocusArea.Search => set_ui (UI.close_search (ui self)) self
  | _ => stop self
  end.

Definition on_tabs (f : UI.t -> UI.t) (self : t) : t :=
  if decide (UI.focus (ui self) = FocusArea.MainTabs) then set_ui (f (ui self)) self else self.

Definition handle_event (io : Inputs) (event : Event.t) (self : t) : option (list IpcMessage.t * t) :=
  let typing := bool_decide (UI.focus (ui self) = FocusArea.QueryInput) in
  let server_len := size (servers self) in
  let activity_len := length (activities self) in
  match event with
  | Event.Quit => Some ([], stop self)
  | Event.Escape => Some ([], escape self)
  | Event.Input character => Some ([], if typing then set_input (query_input self +:+ character) self else self)
  | Event.Backspace => Some ([], if typing then set_input (pop_char (query_input self)) self else self)
  | Event.Enter =>
      if typing && negb (str_is_empty (query_input self)) then
        match process_query io self with
        | None => None
        | Some (messages, self) => Some (messages, set_input "" self)
        end
      else Some ([], self)
  | Event.Tab =>
      Some ([], set_ui (if decide (UI.focus (ui self) = FocusArea.MainTabs) then UI.next_tab (ui self) else UI.toggle_focus (ui self)) self)
  | Event.FocusNext | Event.FocusPrev => Some ([], set_ui (UI.toggle_focus (ui self)) self)
  | Event.Up => Some ([], on_tabs (UI.handle_up server_len) self)
  | Event.Down => Some ([], on_tabs (UI.handle_down activity_len server_len) self)
  | Event.Left => Some ([], on_tabs UI.handle_left self)
  | Event.Right => Some ([], on_tabs UI.handle_right self)
  | Event.CycleProxy => let '(item, self) := cycle_proxy_selection io self in Some ([], push item self)
  | Event.StartProxy => Some ([], push (handle_start_default_proxy io) self)
  end.

(** *** State updates *)

(** [get_mut] of a diagnostics value, only if it is given *)
Definition or_keep {A} (new old : option A) : option A := match new with Some x => Some x | None => old end.

Definition answer_pending (correlation_id response : string) (error : option string) (ttft_ms tokens_per_sec : option f64) (self : t) : t :=
  match pending_queries self !! correlation_id with
  | None => self
  | Some (query, activity_index) =>
      let self := set_pending (delete correlation_id (pending_queries self)) self in
      match activities self !! activity_index with
      | None => self
      | Some _ =>
          match error with
          | Some err => fail_at activity_index (query +:+ " (Error: " +:+ err +:+ ")") self
          | None =>
              let self := rewrite_at activity_index (ActivityItem.set (query +:+ " → " +:+ response) ActivityStatus.Success) self in
              let d := DiagnosticsData.set_answer query response (diagnostics self) in
              set_diagnostics
                (DiagnosticsData.set_speed (or_keep ttft_ms (DiagnosticsData.ttft d))
                   (or_keep tokens_per_sec (DiagnosticsData.tokens_per_sec d)) d) self
          end
      end
  end.

(** [connected] is whether connecting to the proxies' command socket works. *)
Definition apply_update (now : Z) (connected : bool) (update : AppStateUpdate.t) (self : t) : t :=
  match update with
  | AppStateUpdate.ClientAdded client => set_clients (<[Client.id client := client]> (clients self)) self
  | AppStateUpdate.ClientRemoved client_id => set_clients (delete client_id (clients self)) self
  | AppStateUpdate.ClientUpdated client_id requests_sent last_activity =>
      set_clients
        (alter (fun c => Client.mk (Client.id c) (Client.name c) (Client.description c) (Client.status c) requests_sent last_activity)
           client_id (clients self)) self
  | AppStateUpdate.ServerAdded server =>
      let self := if is_proxy server && negb (ipc_client self) then set_ipc connected self else self in
      set_servers (<[Server.id server := server]> (servers self)) self
  | AppStateUpdate.ServerRemoved server_id => set_servers (delete server_id (servers self)) self
  | AppStateUpdate.ServerStatsUpdate server_id requests_received =>
      set_servers (alter (Server.set_stats requests_received now) server_id (servers self)) self
  | AppStateUpdate.ActivityAdded item => push item self
  | AppStateUpdate.SessionAdded session | AppStateUpdate.SessionUpdated session =>
      set_sessions (<[ProxySession.id session := session]> (proxy_sessions self)) self
  | AppStateUpdate.SessionRemoved session_id => set_sessions (delete session_id (proxy_sessions self)) self
  | AppStateUpdate.RoutingModeChanged proxy_id mode =>
      set_diagnostics (DiagnosticsData.set_mode mode (diagnostics self))
        (set_servers (alter (Server.set_mode mode) proxy_id (servers self)) self)
  | AppStateUpdate.SemanticPredictionUpdate query predicted_tool confidence actual_tool success =>
      set_prediction (SemanticPrediction.mk (Some query) (Some predicted_tool) (Some confidence) actual_tool success) self
  | AppStateUpdate.SessionStats m =>
      set_diagnostics
        (DiagnosticsData.set_session (f64_of_f32 (SessionMetrics.accuracy m)) (SessionMetrics.total_predictions m)
           (SessionMetrics.successful_predictions m) (diagnostics self)) self
  | AppStateUpdate.QueryResponse correlation_id response error ttft_ms tokens_per_sec _ _ =>
      answer_pending correlation_id response error ttft_ms tokens_per_sec self
  | AppStateUpdate.ServerUpdated server_id name status =>
      set_servers (alter (Server.set_name name status now) server_id (servers self)) self
  | AppStateUpdate.InterceptorStats _ stats =>
      set_diagnostics
        (DiagnosticsData.set_interceptors (Z.of_nat (length (InterceptorManagerInfo.interceptors stats)))
           (InterceptorManagerInfo.total_modifications_made stats) (InterceptorManagerInfo.total_messages_blocked stats)
           (diagnostics self)) self
  | AppStateUpdate.GatewayStateUpdate active_proxies total_clients total_servers uptime_seconds =>
      set_diagnostics
        (DiagnosticsData.set_gateway (active_proxies, total_clients, total_servers, uptime_seconds) (diagnostics self)) self
  | AppStateUpdate.GatewayMetrics total_requests total_errors avg_response_time_ms requests_per_second =>
      set_diagnostics
        (DiagnosticsData.set_gateway_metrics (total_requests, total_errors, avg_response_time_ms, requests_per_second)
           (diagnostics self)) self
  | AppStateUpdate.ServerHealthUpdate _ _ | AppStateUpdate.PingReceived | AppStateUpdate.PongReceived => self
  end.

Definition set_metrics (metrics : GenerationMetrics.t) (self : t) : t :=
  set_diagnostics
    (DiagnosticsData.set_speed (option_map as_secs_f64 (GenerationMetrics.time_to_first_token metrics))
       (GenerationMetrics.tokens_per_second metrics) (diagnostics self)) self.

(** What the task that reads a generation's handle sends on *)
Definition forward (generation_id : Z) (event : GenerationEvent) : UiGenerationEvent.t :=
  match event with
  | Token token => UiGenerationEvent.Token generation_id token
  | Completed metrics => UiGenerationEvent.Completed generation_id metrics
  end.

Definition streamed (active : ActiveGeneration.t) : string :=
  ActiveGeneration.prompt active +:+ ": " +:+ ActiveGeneration.accumulated active.

Definition apply_generation (event : UiGenerationEvent.t) (self : t) : t :=
  match event with
  | UiGenerationEvent.Token id token =>
      match active_generations self !! id with
      | None => self
      | Some active =>
          let active := ActiveGeneration.mk (ActiveGeneration.prompt active) (ActiveGeneration.accumulated active +:+ token)
                          (ActiveGeneration.activity_index active) in
          let self := set_generations (next_generation_id self) (<[id := active]> (active_generations self)) self in
          rewrite_at (ActiveGeneration.activity_index active)
            (fun i => ActivityItem.set (streamed active) (ActivityItem.status i) i) self
      end
  | UiGenerationEvent.Completed id metrics =>
      match active_generations self !! id with
      | None => self
      | Some active =>
          let self := set_generations (next_generation_id self) (delete id (active_generations self)) self in
          let self := rewrite_at (ActiveGeneration.activity_index active)
                        (ActivityItem.set (streamed active) ActivityStatus.Success) self in
          set_metrics metrics self
      end
  end.

Definition apply_llm (event : LlmEvent.t) (self : t) : t :=
  let d := diagnostics self in
  match event with
  | LlmEvent.ModelStatus_ status =>
      set_diagnostics (DiagnosticsData.set_model status (DiagnosticsData.model_name d) (DiagnosticsData.download_progress d) d) self
  | LlmEvent.DownloadProgress_ progress =>
      set_diagnostics (DiagnosticsData.set_model (DiagnosticsData.model_status d) (DiagnosticsData.model_name d) (Some progress) d) self
  | LlmEvent.ModelReady name _ => set_diagnostics (DiagnosticsData.set_model ModelStatus.Ready (Some name) None d) self
  | LlmEvent.GenerationFinished_ _ _ finished => set_metrics (GenerationFinished.metrics finished) self
  end.

(** What the service answers when it is asked, and the models it lists *)
Record Polls : Type := MkPolls {
  status : ModelStatus.t;
  progress : option DownloadProgress.t;
  accuracy : Res f64 string;
  improvement : Res (option f64) string;
  listings : Res (list ModelInfo.t) string * Res (list ModelInfo.t) string
}.

Definition poll (p : Polls) (self : t) : t :=
  let d := diagnostics self in
  if llm_service self then
    let d := DiagnosticsData.set_model (status p) (DiagnosticsData.model_name d) (progress p) d in
    set_diagnostics
      (DiagnosticsData.set_accuracy (match accuracy p with Ok a => Some a | Err _ => None end)
         (match improvement p with Ok i => i | Err _ => None end) d) self
  else set_diagnostics (DiagnosticsData.set_accuracy None None d) self.

Definition refresh (p : Polls) (self : t) : t :=
  let '(wanted, u) := UI.should_refresh_models (ui self) in
  let u := if wanted
           then UI.set_settings
                  (SettingsPanel.refresh_models (if llm_service self then Some (listings p) else None) (UI.settings_panel u)) u
           else u in
  set_ui (UI.reset_models_refresh_flag u) self.

Definition clean_activities (self : t) : t :=
  if (100 <? length (activities self))%nat then set_activities (skipn 50 (activities self)) self else self.

(** What is found in the three channels *)
Record Arrived : Type := MkArrived {
  updates : list (Z * bool * AppStateUpdate.t);
  generated : list UiGenerationEvent.t;
  llm_events : list LlmEvent.t
}.

Definition update_state (arrived : Arrived) (p : Polls) (self : t) : t :=
  let self := refresh p self in
  let self := fold_left (fun self '(now, connected, update) => apply_update now connected update self) (updates arrived) self in
  let self := fold_left (fun self event => apply_generation event self) (generated arrived) self in
  let self := fold_left (fun self event => apply_llm event self) (llm_events arrived) self in
  clean_activities (poll p self).

(** *** The loop *)

Definition is_pending (arrived : Arrived) (self : t) : bool :=
  negb (length (updates arrived) =? 0)%nat ||
  ((0 <? size (active_generations self)) && negb (length (generated arrived) =? 0))%nat ||
  negb (length (llm_events arrived) =? 0)%nat.

Fixpoint handle_events (events : list (Inputs * Event.t)) (self : t) : option (list IpcMessage.t * t) :=
  match events with
  | [] => Some ([], self)
  | (io, event) :: events =>
      match handle_event io event self with
      | None => None
      | Some (messages, self) =>
          match handle_events events self with None => None | Some (more, self) => Some (messages ++ more, self) end
      end
  end.

(** One round: the events that are there, then the state if something of it is
    pending; it ends the loop when an event stopped the application. *)
Definition round (events : list (Inputs * Event.t)) (arrived : Arrived) (p : Polls) (self : t) : option (list IpcMessage.t * t) :=
  match handle_events events self with
  | None => None
  | Some (messages, self) =>
      Some (messages, if is_pending arrived self then update_state arrived p self else self)
  end.
Record Round : Type := MkRound { events : list (Inputs * Event.t); arrived : Arrived; polls : Polls }.

(** The loop over what its rounds find *)
Fixpoint run (rounds : list Round) (self : t) : option (list IpcMessage.t * t) :=
  match rounds with
  | [] => Some ([], self)
  | r :: rounds =>
      if running self then
        match round (events r) (arrived r) (polls r) self with
        | None => None
        | Some (messages, self) =>
            match run rounds self with None => None | Some (more, self) => Some (messages ++ more, self) end
        end
      else Some ([], self)
  end.
End app.
End App.

(** ** Answers and the activity feed *)

Definition who (item : ActivityItem.t) : Z * string := (ActivityItem.timestamp item, ActivityItem.client item).

(** Whether an update settles a pending query *)
Definition settles (id : string) (update : AppStateUpdate.t) : bool :=
  match update with AppStateUpdate.QueryResponse correlation_id _ _ _ _ _ _ => String.eqb correlation_id id | _ => false end.

Section laws.
Context `{JT : JsonText, SD : StrDebug} {TA : TransportApi}.
Implicit Types self : App.t.

(** [self'] comes of [self] without the pending query [id] being touched: items
    were added to the feed, their texts rewritten, and the feed cleaned [c]
    times. *)
Definition evolves_by (c : nat) (added : list (Z * string)) (id : string) (self self' : App.t) : Prop :=
  App.pending_queries self' !! id = App.pending_queries self !! id /\
  (50 * c <= length (App.activities self) + length added)%nat /\
  List.map who (App.activities self') = skipn (50 * c) (List.map who (App.activities self) ++ added).

Lemma evolves_by_length c added id s1 s2 :
  evolves_by c added id s1 s2 ->
  length (App.activities s2) = (length (App.activities s1) + length added - 50 * c)%nat.
Proof.
  intros (_ & _ & E). apply (f_equal (@length _)) in E.
  by rewrite length_map, length_skipn, length_app, length_map in E.
Qed.

Lemma evolves_by_trans c1 c2 a1 a2 id s1 s2 s3 :
  evolves_by c1 a1 id s1 s2 -> evolves_by c2 a2 id s2 s3 -> evolves_by (c1 + c2) (a1 ++ a2) id s1 s3.
Proof.
  intros H1 (P2 & L2 & E2). pose proof (evolves_by_length _ _ _ _ _ H1) as Hlen. destruct H1 as (P1 & L1 & E1).
  split; [congruence|]. split; [rewrite length_app; lia|].
  rewrite E2, E1, app_assoc.
  replace (50 * (c1 + c2))%nat with (50 * c1 + 50 * c2)%nat by lia.
  rewrite <- !drop_drop. f_equal. rewrite (drop_app_le (_ ++ a1)); [done|].
  rewrite length_app, length_map. lia.
Qed.

(** Without a cleaning *)
Definition evolves (id : string) (self self' : App.t) : Prop := exists added, evolves_by 0 added id self self'.

#[local] Instance evolves_preorder id : PreOrder (evolves id).
Proof.
  split.
  - intros self. exists []. split; [done|]. split; [lia|]. by rewrite app_nil_r.
  - intros s1 s2 s3 (a1 & H1) (a2 & H2). exists (a1 ++ a2). exact (evolves_by_trans _ _ _ _ _ _ _ _ H1 H2).
Qed.

Lemma evolves_by_app c added id s1 s2 s3 :
  evolves id s1 s2 -> evolves_by c added id s2 s3 -> exists added', evolves_by c added' id s1 s3.
Proof. intros (a & H1) H2. exists (a ++ added). exact (evolves_by_trans _ _ _ _ _ _ _ _ H1 H2). Qed.

Lemma evolves_same id self self' :
  App.pending_queries self' !! id = App.pending_queries self !! id -> App.activities self' = App.activities self ->
  evolves id self self'.
Proof. intros P A. exists []. split; [done|]. split; [lia|]. by rewrite A, app_nil_r. Qed.

Lemma who_alter f i l : (forall x, who (f x) = who x) -> List.map who (alter f i l) = List.map who l.
Proof.
  intros Hf. revert i. induction l as [|x l IH]; intros [|i]; cbn; [done..| |].
  - by rewrite Hf.
  - f_equal. apply IH.
Qed.

Lemma evolves_rewrite id i f self : (forall x, who (f x) = who x) -> evolves id self (App.rewrite_at i f self).
Proof. intros Hf. exists []. split; [done|]. split; [lia|]. cbn. by rewrite who_alter, app_nil_r. Qed.

Lemma evolves_fail id i action self : evolves id self (App.fail_at i action self).
Proof. by apply evolves_rewrite. Qed.

Lemma evolves_push id item self : evolves id self (App.push item self).
Proof. exists [who item]. split; [done|]. split; [lia|]. cbn. by rewrite map_app. Qed.

(** Whether the feed is long enough to be cleaned *)
Definition overfull self : nat := if (100 <? length (App.activities self))%nat then 1 else 0.

Lemma evolves_clean id self : evolves_by (overfull self) [] id self (App.clean_activities self).
Proof.
  unfold App.clean_activities, overfull. destruct (Nat.ltb_spec 100 (length (App.activities self)));
    (split; [done|]; split; [cbn; lia|]); cbn [App.activities App.set_activities].
  - by rewrite app_nil_r, skipn_map.
  - by rewrite app_nil_r.
Qed.

Lemma evolves_fold {A} (f : App.t -> A -> App.t) (l : list A) id self :
  (forall self x, x ∈ l -> evolves id self (f self x)) -> evolves id self (fold_left f l self).
Proof.
  revert self. induction l as [|x l IH]; intros self Hf; cbn; [reflexivity|].
  etransitivity; [apply Hf; by left|]. apply IH. intros self' y Hy. apply Hf. by right.
Qed.

Ltac same := apply evolves_same; done.

Lemma evolves_answer id c response error ttft tps self :
  String.eqb c id = false -> evolves id self (App.answer_pending c response error ttft tps self).
Proof.
  intros Hc%String.eqb_neq. unfold App.answer_pending.
  destruct (App.pending_queries self !! c) as [[q i]|]; [|reflexivity].
  assert (evolves id self (App.set_pending (delete c (App.pending_queries self)) self)) as He.
  { apply evolves_same; [|done]. cbn. by rewrite lookup_delete_ne. }
  cbn [App.activities App.set_pending]. destruct (App.activities self !! i); [|done].
  etransitivity; [apply He|]. destruct error; [apply evolves_fail|].
  etransitivity; [apply (evolves_rewrite _ i)|]; [|same]. done.
Qed.

Lemma evolves_update id now connected update self :
  settles id update = false -> evolves id self (App.apply_update now connected update self).
Proof.
  intros Hs. destruct update; cbn [App.apply_update settles] in *; try same; try apply evolves_push; try by apply evolves_answer.
  destruct (App.is_proxy server && negb (App.ipc_client self)); same.
Qed.

Lemma evolves_generation id event self : evolves id self (App.apply_generation event self).
Proof.
  destruct event as [g token|g metrics]; cbn [App.apply_generation];
    (destruct (App.active_generations self !! g) as [a|]; [|reflexivity]).
  - etransitivity; [|by apply evolves_rewrite]. same.
  - etransitivity; [|unfold App.set_metrics; same]. etransitivity; [|by apply evolves_rewrite]. same.
Qed.

Lemma evolves_llm id event self : evolves id self (App.apply_llm event self).
Proof. destruct event; same. Qed.

Lemma evolves_poll id p self : evolves id self (App.poll p self).
Proof. unfold App.poll. destruct (App.llm_service self); same. Qed.

Lemma evolves_refresh id p self : evolves id self (App.refresh p self).
Proof. unfold App.refresh. destruct (UI.should_refresh_models (App.ui self)). same. Qed.

Definition settled_by (id : string) (arrived : App.Arrived) : bool :=
  existsb (fun '(_, _, update) => settles id update) (App.updates arrived).

(** [update_state] before it cleans the feed *)
Definition taken_in (arrived : App.Arrived) (p : App.Polls) self : App.t :=
  let self := App.refresh p self in
  let self := fold_left (fun self '(now, connected, update) => App.apply_update now connected update self) (App.updates arrived) self in
  let self := fold_left (fun self event => App.apply_generation event self) (App.generated arrived) self in
  let self := fold_left (fun self event => App.apply_llm event self) (App.llm_events arrived) self in
  App.poll p self.

Lemma update_state_cleans arrived p self :
  App.update_state arrived p self = App.clean_activities (taken_in arrived p self).
Proof. done. Qed.

Lemma evolves_taken id arrived p self :
  settled_by id arrived = false -> evolves id self (taken_in arrived p self).
Proof.
  intros Hs. unfold taken_in.
  etransitivity; [apply evolves_refresh|].
  etransitivity; [|apply evolves_poll].
  etransitivity; [|apply evolves_fold; intros; apply evolves_llm].
  etransitivity; [|apply evolves_fold; intros; apply evolves_generation].
  apply evolves_fold. intros self' [[n c] u] Hx. apply evolves_update.
  destruct (settles id u) eqn:E; [|done].
  assert (settled_by id arrived = true) as H; [|congruence].
  apply existsb_exists. exists (n, c, u). split; [by apply list_elem_of_In|done].
Qed.

(** How often the feed is cleaned over some rounds *)
Fixpoint cleanings (rounds : list App.Round) self : nat :=
  match rounds with
  | [] => 0
  | r :: rounds =>
      if App.running self then
        match App.handle_events (App.events r) self with
        | None => 0
        | Some (_, self) =>
            if App.is_pending (App.arrived r) self then
              overfull (taken_in (App.arrived r) (App.polls r) self) +
              cleanings rounds (App.update_state (App.arrived r) (App.polls r) self)
            else cleanings rounds self
        end
      else 0
  end%nat.

Lemma evolves_route io target query i self messages self' id :
  App.new_id io <> id -> App.route_query io target query i self = Some (messages, self') -> evolves id self self'.
Proof.
  intros Hid. destruct target; cbn [App.route_query].
  - destruct (App.ipc_client self); [|intros [= <- <-]; apply evolves_fail].
    cbn [App.process_query_via_ipc]. intros [= <- <-].
    assert (evolves id self (App.set_pending (<[App.new_id io := (query, i)]> (App.pending_queries self)) self)) as He.
    { apply evolves_same; [|done]. cbn. by rewrite lookup_insert_ne. }
    destruct (App.sent io); [done|]. etransitivity; [done|apply evolves_fail].
  - destruct (App.gateway_client self) as [client|]; [|intros [= <- <-]; apply evolves_fail].
    unfold App.process_query_via_gateway. destruct (App.gateway_answer query client) as [[[text|e] client']|]; [..|done].
    + intros [= <- <-]. etransitivity; [|by apply evolves_rewrite]. same.
    + intros [= <- <-]. etransitivity; [|apply evolves_fail]. same.
  - unfold App.process_query_via_llm. destruct (App.llm_service self).
    + cbn [negb]. destruct (App.generation io); intros [= <- <-]; [same|].
      etransitivity; [|apply evolves_fail]. etransitivity; [|apply evolves_fail]. same.
    + intros [= <- <-]. apply evolves_fail.
Qed.

Lemma evolves_event id io event self messages self' :
  App.new_id io <> id -> App.handle_event io event self = Some (messages, self') -> evolves id self self'.
Proof.
  intros Hid. destruct event; cbn [App.handle_event]; intros H.
  4: {
    destruct (_ && _); [|injection H as <- <-; reflexivity].
    unfold App.process_query in H.
    destruct (str_is_empty (trim _)); [injection H as <- <-; same|].
    destruct (App.target_of _) as [target actual]. destruct (App.route_query _ _ _ _ _) as [[ms s]|] eqn:E; [|done].
    injection H as <- <-. apply (evolves_route _ _ _ _ _ _ _ id Hid) in E.
    etransitivity; [|same]. etransitivity; [|exact E]. etransitivity; [apply evolves_push|same]. }
  all: try (injection H as <- <-).
  all: unfold App.escape, App.on_tabs, App.cycle_proxy_selection in *; repeat (case_match; try discriminate; simplify_eq);
    try same; try reflexivity; try apply evolves_push.
  all: etransitivity; [|apply evolves_push]; same.
Qed.

Lemma evolves_events id events self messages self' :
  Forall (fun e => App.new_id e.1 <> id) events -> App.handle_events events self = Some (messages, self') -> evolves id self self'.
Proof.
  intros He. revert self messages self'.
  induction He as [|[io e] events Hid _ IH]; intros self messages self'; cbn [App.handle_events].
  - intros [= <- <-]. reflexivity.
  - destruct (App.handle_event io e self) as [[ms s]|] eqn:E1; [|done].
    destruct (App.handle_events events s) as [[ms' s']|] eqn:E2; [|done]. intros [= <- <-].
    etransitivity; [by eapply evolves_event|by eapply IH].
Qed.

(** Rounds in which the query [id] is neither answered nor sent again *)
Definition quiet (id : string) (r : App.Round) : Prop :=
  Forall (fun e => App.new_id e.1 <> id) (App.events r) /\ settled_by id (App.arrived r) = false.

Lemma evolves_run id rounds : forall self messages self',
  Forall (quiet id) rounds -> App.run rounds self = Some (messages, self') ->
  exists added, evolves_by (cleanings rounds self) added id self self'.
Proof.
  intros self messages self' Hq. revert self messages self'.
  induction Hq as [|r rounds [He Hs] _ IH]; intros self messages self'; cbn [App.run cleanings].
  - intros [= <- <-]. by apply evolves_same.
  - destruct (App.running self); [|intros [= <- <-]; by apply evolves_same].
    unfold App.round. destruct (App.handle_events (App.events r) self) as [[ms s]|] eqn:E1; [|done].
    apply (evolves_events id) in E1; [|done].
    destruct (App.is_pending (App.arrived r) s).
    + destruct (App.run rounds _) as [[ms' s']|] eqn:E2; [|done]. intros [= <- <-]. apply IH in E2 as [a E2].
      eapply evolves_by_app; [etransitivity; [exact E1|by apply evolves_taken]|].
      eapply evolves_by_trans; [apply evolves_clean|]. exact E2.
    + destruct (App.run rounds s) as [[ms' s']|] eqn:E2; [|done]. intros [= <- <-]. apply IH in E2 as [a E2].
      by eapply evolves_by_app.
Qed.

Lemma map_lookup {A B} (f : A -> B) (l : list A) i : List.map f l !! i = option_map f (l !! i).
Proof. revert i. induction l as [|x l IH]; intros [|i]; [done..|apply IH]. Qed.

Lemma who_lookup self i x :
  App.activities self !! i = Some x -> List.map who (App.activities self) !! i = Some (who x).
Proof. intros H. by rewrite map_lookup, H. Qed.

Lemma lookup_who self i w :
  List.map who (App.activities self) !! i = Some w -> exists x, App.activities self !! i = Some x /\ who x = w.
Proof. rewrite map_lookup. destruct (App.activities self !! i) as [x|]; cbn; [intros [= <-]; by exists x|done]. Qed.

(** A query keeps the index its item had in the feed, while cleaning the
    feed moves the items.  Without a cleaning its answer is written to its own
    item; after [c] cleanings it is written to the item that came [50 * c]
    after it, and if there is none it is lost; the query's own item, if it is
    still there, is left as it was.  The query is no longer pending in any
    case. *)
Theorem answers_miss_their_query id q i item self rounds messages self' now connected response ttft tps total delay :
  App.pending_queries self !! id = Some (q, i) -> App.activities self !! i = Some item ->
  Forall (quiet id) rounds -> App.run rounds self = Some (messages, self') ->
  exists added, let c := cleanings rounds self in evolves_by c added id self self' /\
    let answered := App.apply_update now connected (AppStateUpdate.QueryResponse id response None ttft tps total delay) self' in
    App.pending_queries answered !! id = None /\
    (c = 0%nat -> exists x, App.activities answered !! i = Some x /\ who x = who item /\
       ActivityItem.action x = q +:+ " → " +:+ response /\ ActivityItem.status x = ActivityStatus.Success) /\
    (forall x, App.activities answered !! i = Some x ->
       ActivityItem.action x = q +:+ " → " +:+ response /\
       (List.map who (App.activities self) ++ added) !! (50 * c + i)%nat = Some (who x)) /\
    ((0 < c)%nat -> (50 * c <= i)%nat -> exists x, App.activities answered !! (i - 50 * c)%nat = Some x /\
       App.activities self' !! (i - 50 * c)%nat = Some x /\ who x = who item).
Proof.
  intros Hp Hi Hq Hrun. apply (evolves_run id) in Hrun; [|done]. destruct Hrun as (added & He).
  exists added. cbv zeta. set (c := cleanings rounds self) in *. split; [done|]. destruct He as (P & L & E). rewrite Hp in P.
  cbn [App.apply_update]. unfold App.answer_pending. rewrite P.
  pose proof (who_lookup _ _ _ Hi) as Hwi. pose proof (lookup_lt_Some _ _ _ Hi) as Hlt.
  assert (forall k, List.map who (App.activities self') !! k = (List.map who (App.activities self) ++ added) !! (50 * c + k)%nat) as El.
  { intros k. by rewrite E, lookup_drop. }
  assert ((50 * c <= i)%nat -> exists x, App.activities self' !! (i - 50 * c)%nat = Some x /\ who x = who item) as Hown.
  { intros Hc. apply lookup_who. rewrite El. replace (50 * c + (i - 50 * c))%nat with i by lia. by apply lookup_app_l_Some. }
  assert (c = 0%nat -> exists x, App.activities self' !! i = Some x /\ who x = who item) as Hzero.
  { intros ->. destruct Hown as (x & Hx & Hw); [lia|]. exists x. by rewrite Nat.sub_0_r in Hx. }
  cbn [App.activities App.set_pending App.pending_queries].
  destruct (App.activities self' !! i) as [y|] eqn:Ey; cbn [App.set_pending App.pending_queries App.activities App.set_diagnostics App.rewrite_at App.set_activities].
  - split; [apply lookup_delete_eq|]. rewrite list_lookup_alter_eq, Ey. cbn -[Nat.mul]. split_and!.
    + intros Hc. destruct (Hzero Hc) as (x & Hx & Hw). injection Hx as <-. eexists. split_and!; [reflexivity|exact Hw|reflexivity|reflexivity].
    + intros x [= <-]. split; [done|]. pose proof (who_lookup _ _ _ Ey) as Hy. by rewrite El in Hy.
    + intros Hc Hle. destruct (Hown Hle) as (x & Hx & Hw). exists x.
      by rewrite list_lookup_alter_ne by lia.
  - split; [apply lookup_delete_eq|]. split_and!.
    + intros Hc. destruct (Hzero Hc) as (x & Hx & _); congruence.
    + intros x Hx. congruence.
    + intros _ Hle. destruct (Hown Hle) as (x & Hx & Hw). by exists x.
Qed.

(** ** A query through a proxy, from the key to the answer *)

Lemma query_has_answer (server : ProxyIpcServer.t) stamp corr id q responder queued answer :
  exists response error ttft tps total delay,
    ProxyIpcServer.answers id
      (ProxyIpcServer.handle_message server (IpcEnvelope.mk _ (IpcMessage.TuiQuery q id) stamp corr) responder queued answer) =
    [IpcMessage.TuiQueryResponse id response error ttft tps total delay].
Proof.
  unfold ProxyIpcServer.handle_message. cbn [IpcEnvelope.message].
  destruct (ProxyIpcServer.query_tx server); [destruct queued; [destruct answer|]|]; cbn; rewrite String.eqb_refl; by do 6 eexists.
Qed.

(** The feed after an answer to a pending query *)
Lemma answer_settles id q i response error ttft tps self :
  App.pending_queries self !! id = Some (q, i) ->
  let settled := App.answer_pending id response error ttft tps self in
  App.pending_queries settled = delete id (App.pending_queries self) /\
  App.activities settled =
    alter (match error with
           | Some e => ActivityItem.set (q +:+ " (Error: " +:+ e +:+ ")") ActivityStatus.Failed
           | None => ActivityItem.set (q +:+ " → " +:+ response) ActivityStatus.Success
           end) i (App.activities self).
Proof.
  intros Hp. cbv zeta. unfold App.answer_pending. rewrite Hp. cbn [App.activities App.set_pending].
  destruct (App.activities self !! i) as [x|] eqn:E.
  - by destruct error.
  - split; [done|]. cbn [App.activities App.set_pending]. symmetry. apply list_eq. intros j.
    destruct (decide (i = j)) as [<-|Hj]; [by rewrite list_lookup_alter_eq, E|by rewrite list_lookup_alter_ne].
Qed.

(** C30: a query typed for the proxy goes out as one message and is shown as
    being processed.  Whatever becomes of its job at the proxy, the proxy sends
    one answer for it, which the monitor takes in.  However many rounds the
    monitor's loop makes before (in which the fresh identifier is not drawn again
    and no other answer to it arrives), the answer changes the item at the
    query's place in the feed only, and only this query is no longer pending.
    If the feed was not cleaned in these rounds, that item is the query's: it
    has then succeeded with the answer, or failed with the error. *)
Theorem proxy_queries_are_settled io self q (server : ProxyIpcServer.t) stamp corr responder queued answer later connected :
  UI.focus (App.ui self) = FocusArea.QueryInput -> trim (App.query_input self) = "@proxy " +:+ q ->
  App.ipc_client self = true -> App.sent io = Ok tt ->
  exists self' m update response error,
    App.handle_event io Event.Enter self = Some ([IpcMessage.TuiQuery q (App.new_id io)], self') /\
    App.query_input self' = ""%string /\
    App.activities self' = App.activities self ++ [ActivityItem.mk (App.now io) "User" "Proxy" q ActivityStatus.Processing] /\
    ProxyIpcServer.answers (App.new_id io)
      (ProxyIpcServer.handle_message server (IpcEnvelope.mk _ (IpcMessage.TuiQuery q (App.new_id io)) stamp corr) responder queued answer) = [m] /\
    (exists ttft tps total delay, m = IpcMessage.TuiQueryResponse (App.new_id io) response error ttft tps total delay) /\
    IpcHandler.process_message later (Ok tt) m = Ok (Some update) /\
    forall rounds messages self2,
      Forall (quiet (App.new_id io)) rounds -> App.run rounds self' = Some (messages, self2) ->
      let i := length (App.activities self) in
      let settled := App.apply_update later connected update self2 in
      App.pending_queries settled = delete (App.new_id io) (App.pending_queries self2) /\
      (forall j, j <> i -> App.activities settled !! j = App.activities self2 !! j) /\
      (cleanings rounds self' = 0%nat ->
       exists x, App.activities settled !! i = Some x /\
         ActivityItem.timestamp x = App.now io /\ ActivityItem.client x = "User"%string /\
         (ActivityItem.action x, ActivityItem.status x) =
           match error with
           | Some e => (q +:+ " (Error: " +:+ e +:+ ")", ActivityStatus.Failed)
           | None => (q +:+ " → " +:+ response, ActivityStatus.Success)
           end).
Proof.
  intros Hf Hq Hipc Hsent.
  destruct (query_has_answer server stamp corr (App.new_id io) q responder queued answer) as (r & e & t1 & t2 & t3 & t4 & Ha).
  assert (str_is_empty (App.query_input self) = false) as Hne.
  { destruct (App.query_input self); [|done]. by rewrite (eq_refl : trim "" = ""%string) in Hq. }
  assert (App.target_of ("@proxy " +:+ q) = (App.ToProxy, q)) as Ht by done.
  eexists _, _, _, r, e. split_and!; [| | |exact Ha|by do 4 eexists|reflexivity|].
  - cbn [App.handle_event]. rewrite bool_decide_true, Hne by done. cbn [andb negb].
    unfold App.process_query. rewrite Hq, (eq_refl : str_is_empty ("@proxy " +:+ q) = false), Ht.
    cbn [App.route_query App.ipc_client App.set_diagnostics App.push App.set_activities]. rewrite Hipc.
    cbn [App.process_query_via_ipc]. rewrite Hsent. reflexivity.
  - reflexivity.
  - reflexivity.
  - set (item := ActivityItem.mk _ _ _ _ _). set (self' := App.set_input "" _).
    intros rounds messages self2 Hquiet Hrun. cbv zeta. set (i := length (App.activities self)).
    assert (Hpend : App.pending_queries self' !! App.new_id io = Some (q, i)).
    { unfold self'. cbn [App.pending_queries App.set_input App.set_pending App.activities App.set_diagnostics App.push App.set_activities].
      rewrite lookup_insert_eq, length_app. cbn. unfold i. do 2 f_equal. lia. }
    assert (Hitem : App.activities self' !! i = Some item) by (apply list_lookup_middle; reflexivity).
    apply (evolves_run (App.new_id io)) in Hrun as (added & P & L & E); [|done]. rewrite Hpend in P.
    cbn [App.apply_update]. destruct (answer_settles _ _ _ r e t1 t2 _ P) as [-> ->]. split_and!; [done| |].
    + intros j Hj. by rewrite list_lookup_alter_ne.
    + intros Hc. rewrite Hc in E. cbn [Nat.mul skipn] in E.
      destruct (lookup_who self2 i (who item)) as (x & Hx & Hw).
      { rewrite E. apply lookup_app_l_Some. by apply who_lookup. }
      rewrite list_lookup_alter_eq, Hx. eexists. split; [reflexivity|]. injection Hw as Hn Hcl.
      by destruct e.
Qed.

(** ** Replies that are streamed *)

Definition belongs (g : Z) (event : UiGenerationEvent.t) : bool :=
  match event with UiGenerationEvent.Token id _ | UiGenerationEvent.Completed id _ => Z.eqb id g end.

(** No other generation writes to item [i]. *)
Definition exclusive (g : Z) (i : nat) self : Prop :=
  forall g' a, g' <> g -> App.active_generations self !! g' = Some a -> ActiveGeneration.activity_index a <> i.

(** Generation [g] writes its reply to [prompt] to item [i]. *)
Definition showing (g : Z) (prompt text : string) (i : nat) (item : ActivityItem.t) self : Prop :=
  App.active_generations self !! g = Some (ActiveGeneration.mk prompt text i) /\
  App.activities self !! i = Some item /\ exclusive g i self.

Definition generated_by (events : list UiGenerationEvent.t) self : App.t :=
  fold_left (fun self event => App.apply_generation event self) events self.

Lemma generation_other g i event self :
  belongs g event = false -> exclusive g i self ->
  App.active_generations (App.apply_generation event self) !! g = App.active_generations self !! g /\
  App.activities (App.apply_generation event self) !! i = App.activities self !! i /\
  exclusive g i (App.apply_generation event self).
Proof.
  intros Hb Hx. destruct event as [id token|id metrics]; cbn [belongs] in Hb; apply Z.eqb_neq in Hb;
    cbn [App.apply_generation]; (destruct (App.active_generations self !! id) as [a|] eqn:E; [|done]);
    pose proof (Hx _ _ Hb E) as Hi; cbn -[lookup insert delete alter]; (split_and!;
    [by (rewrite lookup_insert_ne || rewrite lookup_delete_ne)|by rewrite list_lookup_alter_ne|]); intros g' a' Hg;
    cbn -[lookup insert delete].
  - destruct (decide (id = g')) as [<-|Hne]; [rewrite lookup_insert_eq; by intros [= <-]|rewrite lookup_insert_ne by done]. by apply Hx.
  - rewrite lookup_delete_Some. intros [_ H]. by eapply Hx.
Qed.

Lemma generation_others g i events self :
  List.filter (belongs g) events = [] -> exclusive g i self ->
  App.active_generations (generated_by events self) !! g = App.active_generations self !! g /\
  App.activities (generated_by events self) !! i = App.activities self !! i.
Proof.
  revert self. induction events as [|e events IH]; intros self Hf Hx; [done|]. cbn in Hf.
  destruct (belongs g e) eqn:Hb; [done|]. destruct (generation_other g i e self Hb Hx) as (H1 & H2 & H3).
  cbn. rewrite <- H1, <- H2. by apply IH.
Qed.

Lemma concat_cons t ts : String.concat "" (t :: ts) = t +:+ String.concat "" ts.
Proof. destruct ts; cbn; [by rewrite str_app_nil_r|done]. Qed.

Lemma generation_tokens g prompt i tokens : forall events text item self,
  List.filter (belongs g) events = List.map (UiGenerationEvent.Token g) tokens -> showing g prompt text i item self ->
  showing g prompt (text +:+ String.concat "" tokens) i
    (match tokens with
     | [] => item
     | _ => ActivityItem.set (prompt +:+ ": " +:+ text +:+ String.concat "" tokens) (ActivityItem.status item) item
     end) (generated_by events self).
Proof.
  intros events. revert tokens. induction events as [|e events IH]; intros tokens text item self Hf (Ha & Hi & Hx).
  - destruct tokens; [|done]. cbn. by rewrite str_app_nil_r.
  - cbn [List.filter] in Hf. cbn [generated_by fold_left]. destruct (belongs g e) eqn:Hb.
    + destruct tokens as [|t tokens]; [done|]. injection Hf as -> Hf.
      assert (showing g prompt (text +:+ t) i
        (ActivityItem.set (prompt +:+ ": " +:+ text +:+ t) (ActivityItem.status item) item)
        (App.apply_generation (UiGenerationEvent.Token g t) self)) as Hs.
      { cbn [App.apply_generation]. rewrite Ha. split; [|split].
        - apply lookup_insert_eq.
        - cbn -[lookup insert alter]. by rewrite list_lookup_alter_eq, Hi.
        - intros g' a' Hg. cbn -[lookup insert]. rewrite lookup_insert_ne by done. by apply Hx. }
      apply (IH tokens _ _ _ Hf) in Hs. rewrite concat_cons. rewrite ?str_app_assoc in Hs; rewrite ?str_app_assoc.
      destruct tokens; [|done]. cbn [String.concat] in *. by rewrite !str_app_nil_r in *.
    + destruct (generation_other g i e self Hb Hx) as (H1 & H2 & H3). apply IH; [done|]. split_and!; [congruence..|done].
Qed.

Lemma filter_last {A} (f : A -> bool) l l1 x :
  List.filter f l = l1 ++ [x] -> exists l2 l3, l = l2 ++ x :: l3 /\ List.filter f l2 = l1 /\ List.filter f l3 = [].
Proof.
  revert l1. induction l as [|y l IH]; intros l1; cbn; [by destruct l1|].
  destruct (f y) eqn:Hy.
  - destruct l1 as [|z l1].
    + intros [= <- H]. by exists [], l.
    + intros [= <- H]. destruct (IH _ H) as (l2 & l3 & -> & H2 & H3). exists (y :: l2), l3. cbn. by rewrite Hy, H2.
  - intros H. destruct (IH _ H) as (l2 & l3 & -> & H2 & H3). exists (y :: l2), l3. cbn. by rewrite Hy.
Qed.

Lemma forward_tokens g tokens rest :
  List.map (App.forward g) (List.map Token tokens ++ rest) =
  List.map (UiGenerationEvent.Token g) tokens ++ List.map (App.forward g) rest.
Proof. by rewrite map_app, map_map. Qed.

(** Among the events of other generations, a generation whose task publishes
    its whole reply leaves its item as succeeded; one whose task panics stays
    active. *)
Lemma generation_is_shown g prompt i item self tokens taken metrics events :
  showing g prompt "" i item self -> (length tokens <= taken)%nat ->
  List.filter (belongs g) events = List.map (App.forward g) (generation_events tokens taken metrics).1 ->
  let shown := generated_by events self in
  match metrics with
  | Some m =>
      exists finished, (generation_events tokens taken metrics).2 = Some finished /\
        App.activities shown !! i =
          Some (ActivityItem.set (prompt +:+ ": " +:+ GenerationFinished.full_text finished) ActivityStatus.Success item) /\
        App.active_generations shown !! g = None
  | None =>
      App.active_generations shown !! g = Some (ActiveGeneration.mk prompt (String.concat "" tokens) i) /\
      exists x, App.activities shown !! i = Some x /\ ActivityItem.status x = ActivityItem.status item /\
        (tokens <> [] -> ActivityItem.action x = prompt +:+ ": " +:+ String.concat "" tokens)
  end.
Proof.
  intros Hs Ht Hf. cbv zeta. destruct metrics as [m|]; cbn [generation_events] in *.
  - unfold LlmService.stream_task in *. apply Nat.ltb_ge in Ht. rewrite Ht in *. cbn [fst snd] in *.
    rewrite forward_tokens in Hf. cbn [List.map App.forward] in Hf.
    destruct (filter_last _ _ _ _ Hf) as (l2 & l3 & -> & H2 & H3).
    apply (generation_tokens g prompt i tokens l2 "" item self H2) in Hs. destruct Hs as (Ha & Hi & Hx).
    eexists. split; [done|]. cbn [GenerationFinished.full_text].
    unfold generated_by. rewrite fold_left_app. fold (generated_by l2 self). cbn [fold_left].
    set (s := generated_by l2 self) in *.
    assert (exclusive g i (App.apply_generation (UiGenerationEvent.Completed g m) s)) as Hx'.
    { cbn [App.apply_generation]. rewrite Ha. intros g' a' Hg. cbn -[lookup delete]. rewrite lookup_delete_ne by done. by apply Hx. }
    destruct (generation_others g i l3 _ H3 Hx') as (E1 & E2). fold (generated_by l3 (App.apply_generation (UiGenerationEvent.Completed g m) s)).
    rewrite E1, E2. cbn [App.apply_generation]. rewrite Ha. cbn -[lookup delete alter]. rewrite list_lookup_alter_eq, Hi, lookup_delete_eq.
    split; [|done]. cbn. by destruct tokens.
  - cbn [fst] in Hf. rewrite firstn_all2 in Hf by done. rewrite <- (app_nil_r (List.map Token tokens)), forward_tokens, app_nil_r in Hf.
    apply (generation_tokens g prompt i tokens events "" item self Hf) in Hs. destruct Hs as (Ha & Hi & _).
    split; [done|]. eexists. split; [exact Hi|]. by destruct tokens.
Qed.

(** *** Generations point into the feed until it is cleaned *)

Definition pointing self : Prop :=
  forall g a, App.active_generations self !! g = Some a ->
    (ActiveGeneration.activity_index a < length (App.activities self))%nat.

Lemma pointing_same self self' :
  App.active_generations self' = App.active_generations self ->
  (length (App.activities self) <= length (App.activities self'))%nat -> pointing self -> pointing self'.
Proof. intros Ha Hl H g a. rewrite Ha. intros Hg. specialize (H g a Hg). lia. Qed.

Ltac points := apply pointing_same; [done|cbn [App.activities App.rewrite_at App.fail_at App.push App.set_activities
  App.set_pending App.set_diagnostics App.set_gateway App.set_input App.set_ui App.set_selected]; rewrite ?length_alter, ?length_app; lia].

Lemma pointing_answer c response error ttft tps self :
  pointing self -> pointing (App.answer_pending c response error ttft tps self).
Proof.
  destruct (App.pending_queries self !! c) as [[q i]|] eqn:E.
  - pose proof (answer_settles c q i response error ttft tps self E) as [_ Ha].
    apply pointing_same; [|by rewrite Ha, length_alter].
    unfold App.answer_pending. rewrite E. repeat case_match; done.
  - unfold App.answer_pending. by rewrite E.
Qed.

Lemma pointing_update now connected update self :
  pointing self -> pointing (App.apply_update now connected update self).
Proof.
  destruct update; cbn [App.apply_update]; try done; try points; try apply pointing_answer.
  by destruct (App.is_proxy server && negb (App.ipc_client self)).
Qed.

Lemma pointing_generation event self : pointing self -> pointing (App.apply_generation event self).
Proof.
  intros H. destruct event as [id token|id metrics]; cbn [App.apply_generation];
    (destruct (App.active_generations self !! id) as [a|] eqn:E; [|done]); intros g x;
    cbn -[lookup insert delete alter]; rewrite length_alter.
  - destruct (decide (id = g)) as [<-|Hne]; [rewrite lookup_insert_eq; intros [= <-]; exact (H _ _ E)|].
    rewrite lookup_insert_ne by done. apply H.
  - rewrite lookup_delete_Some. intros [_ Hx]. by apply (H g).
Qed.

Lemma pointing_fold {A} (f : App.t -> A -> App.t) (l : list A) self :
  (forall self x, pointing self -> pointing (f self x)) -> pointing self -> pointing (fold_left f l self).
Proof. intros Hf. revert self. induction l as [|x l IH]; intros self H; cbn; [done|]. by apply IH, Hf. Qed.

Lemma pointing_taken arrived p self : pointing self -> pointing (taken_in arrived p self).
Proof.
  intros H. unfold taken_in.
  assert (forall s, pointing s -> pointing (App.poll p s)) as Hp by (intros s; unfold App.poll; by destruct (App.llm_service s)).
  apply Hp, pointing_fold; [by intros s []|]. apply pointing_fold; [intros s e; apply pointing_generation|].
  apply pointing_fold; [intros s [[n c] u]; apply pointing_update|].
  unfold App.refresh. by destruct (UI.should_refresh_models (App.ui self)).
Qed.

Lemma pointing_route io target q i self messages self' :
  (i < length (App.activities self))%nat ->
  App.route_query io target q i self = Some (messages, self') -> pointing self -> pointing self'.
Proof.
  intros Hi. destruct target; cbn [App.route_query].
  - destruct (App.ipc_client self); [|intros [= <- <-]; points].
    cbn [App.process_query_via_ipc]. intros [= <- <-]. destruct (App.sent io); [done|points].
  - destruct (App.gateway_client self) as [client|]; [|intros [= <- <-]; points].
    unfold App.process_query_via_gateway. destruct (App.gateway_answer q client) as [[[text|e] client']|]; [..|done];
      intros [= <- <-]; points.
  - unfold App.process_query_via_llm. destruct (App.llm_service self); cbn [negb]; [|intros [= <- <-]; points].
    assert (pointing self -> pointing (App.set_generations (wrap_u64 (App.next_generation_id self + 1))
      (<[App.next_generation_id self := ActiveGeneration.mk q "" i]> (App.active_generations self)) self)) as Hin.
    { intros H g a. cbn -[lookup insert]. destruct (decide (App.next_generation_id self = g)) as [<-|Hne].
      - rewrite lookup_insert_eq. by intros [= <-].
      - rewrite lookup_insert_ne by done. apply H. }
    destruct (App.generation io); intros [= <- <-]; [done|]. intros H.
    intros g a. cbn -[lookup insert delete alter]. rewrite !length_alter, lookup_delete_Some. intros [Hne Hg].
    rewrite lookup_insert_ne in Hg by done. by apply (H g).
Qed.

Lemma pointing_event io event self messages self' :
  App.handle_event io event self = Some (messages, self') -> pointing self -> pointing self'.
Proof.
  destruct event; cbn [App.handle_event]; intros H.
  4: {
    destruct (_ && _); [|by injection H as <- <-].
    unfold App.process_query in H.
    destruct (str_is_empty (trim _)); [by injection H as <- <-|].
    destruct (App.target_of _) as [target actual]. destruct (App.route_query _ _ _ _ _) as [[ms s]|] eqn:E; [|done].
    injection H as <- <-. intros Hp. apply (pointing_same s); [done|done|].
    refine (pointing_route _ _ _ _ _ _ _ _ E _); cbn [App.activities App.set_diagnostics App.push App.set_activities];
      [rewrite length_app; cbn; lia|].
    revert Hp. points. }
  all: try (injection H as <- <-).
  all: unfold App.escape, App.on_tabs, App.cycle_proxy_selection in *; repeat (case_match; try discriminate; simplify_eq);
    try done; points.
Qed.

Lemma pointing_events events : forall self messages self',
  App.handle_events events self = Some (messages, self') -> pointing self -> pointing self'.
Proof.
  induction events as [|[io e] events IH]; intros self messages self'; cbn [App.handle_events]; [by intros [= <- <-]|].
  destruct (App.handle_event io e self) as [[ms s]|] eqn:E1; [|done].
  destruct (App.handle_events events s) as [[ms' s']|] eqn:E2; [|done]. intros [= <- <-] H.
  eapply IH; [exact E2|]. by eapply pointing_event.
Qed.

Lemma pointing_run rounds : forall self messages self',
  App.run rounds self = Some (messages, self') -> cleanings rounds self = 0%nat -> pointing self -> pointing self'.
Proof.
  induction rounds as [|r rounds IH]; intros self messages self'; cbn [App.run cleanings]; [by intros [= <- <-]|].
  destruct (App.running self); [|by intros [= <- <-]]. unfold App.round.
  destruct (App.handle_events (App.events r) self) as [[ms s]|] eqn:E1; [|done].
  destruct (App.run rounds _) as [[ms' s']|] eqn:E2; [|done]. intros [= <- <-] Hc H.
  apply (pointing_events _ _ _ _ E1) in H. destruct (App.is_pending (App.arrived r) s).
  - apply Nat.eq_add_0 in Hc as [Hf Hc]. eapply IH; [exact E2|exact Hc|].
    rewrite update_state_cleans. unfold App.clean_activities, overfull in *.
    destruct (100 <? _)%nat; [done|]. by apply pointing_taken.
  - by eapply IH.
Qed.

(** C31: a query typed for the model starts a generation, in a monitor that was
    run from its start and whose feed was never cleaned.  Then, among the events of
    any other generations and however these are interleaved with its own (and
    with nothing else taken in between), the query's item ends as succeeded with
    the query and exactly the text the task published, and the generation is no
    longer active.  If the task panics over its metrics, the text is shown but the
    item stays as being processed and the generation active for good. *)
Theorem streamed_replies_are_shown hf_token gateway llm mode rounds messages self io q tokens taken metrics :
  App.run rounds (App.new hf_token gateway llm mode) = Some (messages, self) ->
  cleanings rounds (App.new hf_token gateway llm mode) = 0%nat ->
  UI.focus (App.ui self) = FocusArea.QueryInput -> trim (App.query_input self) = q ->
  str_is_empty q = false -> App.target_of q = (App.ToLlm, q) ->
  App.llm_service self = true -> App.generation io = Ok tt -> (length tokens <= taken)%nat ->
  let g := App.next_generation_id self in
  let i := length (App.activities self) in
  let item := ActivityItem.mk (App.now io) "User" "LLM" q ActivityStatus.Processing in
  exists self',
    App.handle_event io Event.Enter self = Some ([], self') /\
    App.activities self' = App.activities self ++ [item] /\
    forall events,
      List.filter (belongs g) events = List.map (App.forward g) (generation_events tokens taken metrics).1 ->
      let shown := generated_by events self' in
      match metrics with
      | Some m =>
          exists finished, (generation_events tokens taken metrics).2 = Some finished /\
            App.activities shown !! i =
              Some (ActivityItem.set (q +:+ ": " +:+ GenerationFinished.full_text finished) ActivityStatus.Success item) /\
            App.active_generations shown !! g = None
      | None =>
          App.active_generations shown !! g = Some (ActiveGeneration.mk q (String.concat "" tokens) i) /\
          exists x, App.activities shown !! i = Some x /\ ActivityItem.status x = ActivityStatus.Processing /\
            (tokens <> [] -> ActivityItem.action x = q +:+ ": " +:+ String.concat "" tokens)
      end.
Proof.
  intros Hrun Hc Hf Hq Hn Ht Hllm Hg Hl. cbv zeta.
  assert (pointing self) as Hp.
  { apply (pointing_run _ _ _ _ Hrun Hc). intros g a. cbn. by rewrite lookup_empty. }
  assert (str_is_empty (App.query_input self) = false) as Hne.
  { destruct (App.query_input self); [|done]. by rewrite <- Hq in Hn. }
  eexists. split_and!; [| |intros events Hev; eapply generation_is_shown; [|exact Hl|exact Hev]].
  - cbn [App.handle_event]. rewrite bool_decide_true, Hne by done. cbn [andb negb].
    unfold App.process_query. rewrite Hq, Hn, Ht.
    cbn [App.route_query App.process_query_via_llm App.llm_service App.set_diagnostics App.push App.set_activities].
    unfold App.process_query_via_llm. cbn [App.llm_service App.set_diagnostics App.push App.set_activities].
    rewrite Hllm, Hg. reflexivity.
  - reflexivity.
  - cbn [App.target_name]. split; [|split].
    + cbn -[lookup insert length]. rewrite lookup_insert_eq, length_app. cbn. do 2 f_equal. lia.
    + apply list_lookup_middle. reflexivity.
    + intros g' a Hne'. cbn -[lookup insert length]. rewrite lookup_insert_ne by done. intros Ha.
      specialize (Hp g' a Ha). lia.
Qed.

(** ** What the keys reach *)

(** *** The temperatures of the settings

    Steps of a tenth up and down, cut off at 0 and 2, reach a few dozen floats
    from the default, which differ in the last places. *)

Definition f32_same (a b : f32) : bool :=
  match a, b with
  | S754_zero s, S754_zero s' => Bool.eqb s s'
  | S754_finite s m e, S754_finite s' m' e' => Bool.eqb s s' && Pos.eqb m m' && Z.eqb e e'
  | _, _ => false
  end.

Definition with_temperature (t : f32) (e : EngineSettings.t) : EngineSettings.t :=
  EngineSettings.mk (EngineSettings.backend e) t (EngineSettings.max_tokens e) (EngineSettings.semantic_routing e)
    (EngineSettings.semantic_model_path e) (EngineSettings.active_model e).

Definition stepped (increase : bool) (t : f32) : f32 :=
  EngineSettings.temperature (EngineSettings.adjust_temperature increase (with_temperature t EngineSettings.default)).

(** What is reached from [todo], without what was [seen] *)
Fixpoint closure (fuel : nat) (todo seen : list f32) : list f32 :=
  match fuel, todo with
  | S fuel, t :: todo =>
      if existsb (f32_same t) seen then closure fuel todo seen
      else closure fuel (stepped true t :: stepped false t :: todo) (t :: seen)
  | _, _ => seen
  end.

Definition temperatures : list f32 :=
  Eval vm_compute in closure 200 [EngineSettings.temperature EngineSettings.default] [].

Lemma f32_same_eq a b : f32_same a b = true -> a = b.
Proof.
  destruct a as [s|s| |s m e], b as [s'|s'| |s' m' e']; try done; cbn.
  - by intros ->%eqb_prop.
  - intros [[Hs%eqb_prop Hm%Pos.eqb_eq]%andb_prop He%Z.eqb_eq]%andb_prop. by subst.
Qed.

Lemma temperatures_closed t increase : In t temperatures -> In (stepped increase t) temperatures.
Proof.
  assert (forallb (fun t => existsb (f32_same (stepped true t)) temperatures &&
                            existsb (f32_same (stepped false t)) temperatures) temperatures = true) as H
    by (vm_compute; reflexivity).
  rewrite forallb_forall in H. intros Ht. apply H, andb_prop in Ht as [Hu Hd].
  assert (existsb (f32_same (stepped increase t)) temperatures = true) as Hs by by destruct increase.
  apply existsb_exists in Hs as (x & Hx & ->%f32_same_eq). done.
Qed.

Lemma temperatures_bounded t :
  In t temperatures -> SFleb f32_zero t = true /\ SFleb t (f32_of_Z 2) = true.
Proof.
  assert (forallb (fun t => SFleb f32_zero t && SFleb t (f32_of_Z 2)) temperatures = true) as H
    by (vm_compute; reflexivity).
  rewrite forallb_forall in H. intros Ht. by apply H, andb_prop in Ht.
Qed.

Definition settings_ok (e : EngineSettings.t) : Prop :=
  1 <= EngineSettings.max_tokens e <= 4096 /\ In (EngineSettings.temperature e) temperatures.

(** Typing or moving over the tabs, with no overlay open and no model listed *)

Definition plain_ui (u : UI.t) : Prop :=
  (UI.focus u = FocusArea.MainTabs \/ UI.focus u = FocusArea.QueryInput) /\
  UI.search_overlay u = None /\ SettingsPanel.models (UI.settings_panel u) = [] /\
  (SettingsPanel.selected_setting (UI.settings_panel u) < 6)%nat /\
  settings_ok (SettingsPanel.tui_engine_settings (UI.settings_panel u)) /\
  settings_ok (SettingsPanel.proxy_engine_settings (UI.settings_panel u)).

(** The settings' tab of an engine *)
Definition on_engine (tab : SettingsTab.t) : Prop := tab = SettingsTab.TuiEngineSettings \/ tab = SettingsTab.ProxyEngineSettings.

(** [u'] is as plain as [u], and on the same engine's tab. *)
Definition ui_step (u u' : UI.t) : Prop :=
  plain_ui u -> plain_ui u' /\
  (on_engine (SettingsPanel.current_tab (UI.settings_panel u)) ->
   SettingsPanel.current_tab (UI.settings_panel u') = SettingsPanel.current_tab (UI.settings_panel u)).

#[local] Instance ui_step_preorder : PreOrder ui_step.
Proof.
  split; [done|]. intros u1 u2 u3 H12 H23 H. destruct (H12 H) as (P2 & T2). destruct (H23 P2) as (P3 & T3).
  split; [done|]. intros E. rewrite <- T2 by done. apply T3. by rewrite T2.
Qed.

Lemma adjusted_ok increase n e : settings_ok e -> settings_ok (SettingsPanel.adjusted increase [] n e).
Proof.
  unfold settings_ok. intros H. destruct n as [|[|[|[|[|n]]]]]; cbn [SettingsPanel.adjusted]; try exact H.
  - split; [apply H|]. exact (temperatures_closed (EngineSettings.temperature e) increase (proj2 H)).
  - split; [|apply H]. unfold EngineSettings.adjust_max_tokens, saturating_sub. cbn. destruct increase; lia.
Qed.

Lemma moved_ok right u : ui_step u (UI.set_settings (UI.moved right (UI.settings_panel u)) u).
Proof.
  intros (F & S & M & N & T & P). unfold UI.moved, on_engine, plain_ui. cbn.
  destruct (SettingsPanel.current_tab (UI.settings_panel u)) eqn:E; destruct right; cbn; unfold SettingsPanel.adjust_setting; rewrite ?E, ?M; cbn;
    (split; [split_and!; try done; try by apply adjusted_ok|]); by intros [?|?].
Qed.

Lemma selected_ok n u :
  (n < 6)%nat -> ui_step u (UI.set_settings (SettingsPanel.set_selected_setting n (UI.settings_panel u)) u).
Proof. intros Hn (F & S & M & N & T & P). by split_and!. Qed.

Lemma toggle_ok u : ui_step u (UI.toggle_focus u).
Proof. intros (F & H). unfold UI.toggle_focus, plain_ui. destruct F as [-> | ->]; cbn; (split; [split; [|exact H]|done]); auto. Qed.

Lemma model_ok u :
  ui_step u (UI.set_settings (SettingsPanel.next_model (UI.settings_panel u)) u) /\
  ui_step u (UI.set_settings (SettingsPanel.prev_model (UI.settings_panel u)) u).
Proof.
  split; intros (F & S & M & H); unfold SettingsPanel.next_model, SettingsPanel.prev_model; rewrite M;
    (split; [split_and!; (done || apply H)|done]).
Qed.

Lemma setting_ok u :
  ui_step u (UI.set_settings (SettingsPanel.next_setting (UI.settings_panel u)) u) /\
  ui_step u (UI.set_settings (SettingsPanel.prev_setting (UI.settings_panel u)) u).
Proof.
  split; intros H; pose proof H as (F & S & M & N & T); revert H; apply selected_ok.
  - by apply Nat.mod_upper_bound.
  - case_match; lia.
Qed.

Lemma arrows_ok activity_len server_len u :
  ui_step u (UI.handle_up server_len u) /\ ui_step u (UI.handle_down activity_len server_len u) /\
  ui_step u (UI.handle_left u) /\ ui_step u (UI.handle_right u).
Proof.
  unfold UI.handle_up, UI.handle_down, UI.handle_left, UI.handle_right.
  destruct (UI.current_tab u); split_and!; try done; try apply moved_ok;
    destruct (SettingsPanel.current_tab (UI.settings_panel u)); apply model_ok || apply setting_ok.
Qed.

Definition ui_evolves self self' : Prop := ui_step (App.ui self) (App.ui self').

Lemma ui_evolves_same self self' : App.ui self' = App.ui self -> ui_evolves self self'.
Proof. unfold ui_evolves. by intros ->. Qed.

Lemma route_ui io target q i self messages self' :
  App.route_query io target q i self = Some (messages, self') -> App.ui self' = App.ui self.
Proof.
  destruct target; cbn [App.route_query App.process_query_via_ipc];
    unfold App.process_query_via_gateway, App.process_query_via_llm; intros H; repeat (case_match; try discriminate; simplify_eq); done.
Qed.

Lemma escape_plain self : plain_ui (App.ui self) -> App.escape self = App.stop self.
Proof. intros ([F | F] & _); unfold App.escape; by rewrite F. Qed.

Lemma event_ui io event self messages self' :
  App.handle_event io event self = Some (messages, self') -> ui_evolves self self'.
Proof.
  intros H. destruct event; cbn [App.handle_event] in H.
  4: {
    destruct (_ && _); [|injection H as <- <-; by apply ui_evolves_same].
    unfold App.process_query in H.
    destruct (str_is_empty (trim _)); [injection H as <- <-; by apply ui_evolves_same|].
    destruct (App.target_of _) as [target actual]. destruct (App.route_query _ _ _ _ _) as [[ms s]|] eqn:E; [|done].
    injection H as <- <-. apply route_ui in E. by apply ui_evolves_same. }
  2: { injection H as <- <-. intros P. by rewrite escape_plain. }
  all: try (injection H as <- <-; unfold App.on_tabs; repeat case_match).
  all: try by apply ui_evolves_same.
  all: try (unfold ui_evolves; cbn [App.ui App.set_ui]; (apply toggle_ok || apply (arrows_ok (length (App.activities self)) (size (App.servers self))) || (intros P; split; [exact P|done]))).
  unfold App.cycle_proxy_selection in H. repeat (case_match; simplify_eq); by apply ui_evolves_same.
Qed.

Lemma refresh_ui p self : ui_evolves self (App.refresh p self).
Proof.
  intros ([F | F] & H); unfold App.refresh, UI.should_refresh_models, UI.reset_models_refresh_flag, ui_evolves; rewrite F; cbn [decide];
    (rewrite decide_False by done); cbn; rewrite F; (rewrite decide_False by done);
    (split; [split; [auto|exact H]|done]).
Qed.

Lemma fold_ui {A} (f : App.t -> A -> App.t) (l : list A) self :
  (forall self x, App.ui (f self x) = App.ui self) -> App.ui (fold_left f l self) = App.ui self.
Proof. intros Hf. revert self. induction l as [|x l IH]; intros self; cbn; [done|]. by rewrite IH. Qed.

Lemma update_ui now connected update self : App.ui (App.apply_update now connected update self) = App.ui self.
Proof. destruct update; cbn [App.apply_update]; unfold App.answer_pending; repeat case_match; done. Qed.

Lemma generation_ui event self : App.ui (App.apply_generation event self) = App.ui self.
Proof. destruct event; cbn [App.apply_generation]; case_match; done. Qed.

Lemma llm_ui event self : App.ui (App.apply_llm event self) = App.ui self.
Proof. by destruct event. Qed.

Lemma state_ui arrived p self : App.ui (App.update_state arrived p self) = App.ui (App.refresh p self).
Proof.
  unfold App.update_state, App.clean_activities, App.poll. case_match; (case_match; cbn [App.ui App.set_activities App.set_diagnostics];
    rewrite (fold_ui _ _ _ (fun s e => llm_ui e s)), (fold_ui _ _ _ (fun s e => generation_ui e s));
    by apply fold_ui; intros s [[n c] u]; apply update_ui).
Qed.

Lemma ui_evolves_trans s1 s2 s3 : ui_evolves s1 s2 -> ui_evolves s2 s3 -> ui_evolves s1 s3.
Proof. unfold ui_evolves. intros H1 H2. by etransitivity. Qed.

Lemma events_ui events self messages self' :
  App.handle_events events self = Some (messages, self') -> ui_evolves self self'.
Proof.
  revert self messages. induction events as [|[io e] events IH]; intros self messages; cbn [App.handle_events].
  - intros [= <- <-]. by apply ui_evolves_same.
  - destruct (App.handle_event io e self) as [[ms s]|] eqn:E1; [|done].
    destruct (App.handle_events events s) as [[ms' s']|] eqn:E2; [|done]. intros [= <- <-].
    eapply ui_evolves_trans; [by eapply event_ui|by eapply IH].
Qed.

Lemma run_ui rounds self messages self' : App.run rounds self = Some (messages, self') -> ui_evolves self self'.
Proof.
  revert self messages. induction rounds as [|r rounds IH]; intros self messages; cbn [App.run].
  - intros [= <- <-]. by apply ui_evolves_same.
  - destruct (App.running self); [|intros [= <- <-]; by apply ui_evolves_same]. unfold App.round.
    destruct (App.handle_events (App.events r) self) as [[ms s]|] eqn:E1; [|done]. apply events_ui in E1.
    destruct (App.run rounds _) as [[ms' s']|] eqn:E2; [|done]. intros [= <- <-]. apply IH in E2.
    eapply ui_evolves_trans; [exact E1|]. case_match; [|exact E2].
    eapply ui_evolves_trans; [|exact E2]. unfold ui_evolves. rewrite state_ui. apply refresh_ui.
Qed.

Lemma plain_new hf_token : plain_ui (UI.new hf_token).
Proof.
  unfold plain_ui, settings_ok. split_and!; try (cbn; lia); try done; [by left|..]; vm_compute; intuition reflexivity.
Qed.

(** C32: whatever keys are pressed and whatever arrives, the focus stays on the
    tabs or the query line: no overlay opens, the settings never list a model,
    the selected setting exists, and in both engines' settings the limit of
    tokens stays between 1 and 4096 and the temperature between 0 and 2.  So
    escape always ends the application; and of the settings' own tabs, once an
    engine's is the current one no key makes another of them current (the tab
    key does lead to another of the main tabs). *)
Theorem keys_reach_no_overlay hf_token gateway llm mode rounds messages self :
  App.run rounds (App.new hf_token gateway llm mode) = Some (messages, self) ->
  let panel := UI.settings_panel (App.ui self) in
  (UI.focus (App.ui self) = FocusArea.MainTabs \/ UI.focus (App.ui self) = FocusArea.QueryInput) /\
  UI.search_overlay (App.ui self) = None /\ SettingsPanel.models panel = [] /\
  (SettingsPanel.selected_setting panel < 6)%nat /\
  Forall (fun e => 1 <= EngineSettings.max_tokens e <= 4096 /\
                   SFleb f32_zero (EngineSettings.temperature e) = true /\
                   SFleb (EngineSettings.temperature e) (f32_of_Z 2) = true)
    [SettingsPanel.tui_engine_settings panel; SettingsPanel.proxy_engine_settings panel] /\
  App.escape self = App.stop self /\
  forall rounds' messages' self', App.run rounds' self = Some (messages', self') ->
    SettingsPanel.current_tab panel = SettingsTab.TuiEngineSettings \/
    SettingsPanel.current_tab panel = SettingsTab.ProxyEngineSettings ->
    SettingsPanel.current_tab (UI.settings_panel (App.ui self')) = SettingsPanel.current_tab panel.
Proof.
  intros H. cbn zeta. assert (plain_ui (App.ui self)) as P by (apply run_ui in H; apply H, plain_new).
  pose proof P as (F & S & M & N & (T1 & T2) & (P1 & P2)). split_and!; try done.
  - apply Forall_cons. split; [|apply Forall_singleton]; (split; [done|]); by apply temperatures_bounded.
  - by apply escape_plain.
  - intros rounds' messages' self' H'. by apply (run_ui _ _ _ _ H').
Qed.
End laws.

(** ** A concrete monitor *)

Module DemoMonitor.
Import ToyNumbers ToyText Demo.

#[global] Instance monitor_debug : StrDebug := {| str_debug s := s |}.

Definition app : App.t := App.new None None true "hybrid".

Definition io (id : string) : App.Inputs := App.MkInputs 7 id (Ok tt) (Ok tt) [] App.NoServer.

Definition item (now : Z) (action : string) : ActivityItem.t := ActivityItem.mk now "User" "Proxy" action ActivityStatus.Processing.

(** A hundred items and a query that waits for the proxy's answer *)
Definition asked : App.t :=
  App.set_pending {["1" := ("sum"%string, 100%nat)]}
    (App.set_activities (List.map (fun n => item (Z.of_nat n) "old") (seq 0 100) ++ [item 7 "sum"]) app).

Definition polls : App.Polls := App.MkPolls ModelStatus.Ready None (Err "none"%string) (Ok None) (Ok [], Ok []).

Definition ping : App.Round := App.MkRound [] (App.MkArrived [(8, true, AppStateUpdate.PingReceived)] [] []) polls.

Definition typed : App.t :=
  App.set_ipc true (App.set_input "@proxy sum" (App.set_ui (UI.toggle_focus (App.ui app)) app)).

Definition typing : App.Round :=
  App.MkRound [(io "1", Event.FocusNext); (io "1", Event.Input "s"); (io "1", Event.Input "u"); (io "1", Event.Input "m")]
    (App.MkArrived [] [] []) polls.

Definition metrics : GenerationMetrics.t := GenerationMetrics.mk 2 1 None None false.

Definition keys : App.Round :=
  App.MkRound (List.map (fun e => (io "1", e)) [Event.Left; Event.Tab; Event.Tab; Event.Right; Event.Left]) (App.MkArrived [] [] []) polls.
End DemoMonitor.

Example answers_miss_their_query_witness :
  exists self', App.run [DemoMonitor.ping] DemoMonitor.asked = Some ([], self') /\
    exists added, evolves_by 1 added "1" DemoMonitor.asked self' /\
      App.pending_queries
        (App.apply_update 9 true (AppStateUpdate.QueryResponse "1" "3" None None None None None) self') !! "1"%string = None.
Proof.
  assert (exists self', App.run [DemoMonitor.ping] DemoMonitor.asked = Some ([], self')) as (self' & H).
  { eexists. cbn [App.run]. reflexivity. }
  exists self'. split; [exact H|].
  destruct (answers_miss_their_query "1" "sum" 100 (DemoMonitor.item 7 "sum") DemoMonitor.asked [DemoMonitor.ping] [] self' 9 true "3"
    None None None None) as (added & He & Hp & _); [reflexivity..| |exact H|].
  - apply Forall_singleton. split; [apply Forall_nil_2|reflexivity].
  - exists added. split; [exact He|exact Hp].
Defined.

Example proxy_queries_are_settled_witness :
  exists self' m update,
    App.handle_event (DemoMonitor.io "1") Event.Enter DemoMonitor.typed = Some ([IpcMessage.TuiQuery "sum" "1"], self') /\
    IpcHandler.process_message 9 (Ok tt) m = Ok (Some update) /\
    exists messages self2, App.run [DemoMonitor.ping] self' = Some (messages, self2) /\
      App.pending_queries (App.apply_update 9 true update self2) = delete "1"%string (App.pending_queries self2).
Proof.
  destruct (proxy_queries_are_settled (DemoMonitor.io "1") DemoMonitor.typed "sum" (ProxyIpcServer.mk true true) 3 None 0 (Ok tt) None 9 true)
    as (self' & m & update & r & e & H1 & _ & _ & _ & _ & H2 & H3); [reflexivity..|].
  exists self', m, update. split; [exact H1|]. split; [exact H2|].
  assert (exists messages self2, App.run [DemoMonitor.ping] self' = Some (messages, self2)) as (messages & self2 & Hr).
  { revert H1. intros [= <-]. do 2 eexists. reflexivity. }
  exists messages, self2. split; [exact Hr|].
  destruct (H3 [DemoMonitor.ping] messages self2) as (Hp & _); [|exact Hr|exact Hp].
  apply Forall_singleton. split; [apply Forall_nil_2|reflexivity].
Defined.

Example streamed_replies_are_shown_witness :
  exists messages self,
    App.run [DemoMonitor.typing] DemoMonitor.app = Some (messages, self) /\
    exists self' finished,
      App.handle_event (DemoMonitor.io "2") Event.Enter self = Some ([], self') /\
      App.activities
        (generated_by [UiGenerationEvent.Token 0 "3"; UiGenerationEvent.Token 5 "x"; UiGenerationEvent.Completed 0 DemoMonitor.metrics]
           self') !! 0%nat =
      Some (ActivityItem.set ("sum: " +:+ GenerationFinished.full_text finished) ActivityStatus.Success
              (ActivityItem.mk 7 "User" "LLM" "sum" ActivityStatus.Processing)).
Proof.
  assert (exists messages self, App.run [DemoMonitor.typing] DemoMonitor.app = Some (messages, self) /\
    UI.focus (App.ui self) = FocusArea.QueryInput /\ App.query_input self = "sum"%string /\
    App.llm_service self = true /\ App.next_generation_id self = 0 /\ App.activities self = [])
    as (messages & self & Hrun & Hf & Hq & Hl & Hg & Ha).
  { do 2 eexists. by split_and!. }
  exists messages, self. split; [exact Hrun|].
  destruct (streamed_replies_are_shown None None true "hybrid" [DemoMonitor.typing] messages self (DemoMonitor.io "2") "sum"
    ["3"%string] 1 (Some DemoMonitor.metrics)) as (self' & He & _ & Hs);
    [exact Hrun|reflexivity|exact Hf|rewrite Hq; reflexivity|reflexivity|reflexivity|exact Hl|reflexivity|apply (le_n 1)|].
  rewrite Hg, Ha in Hs.
  destruct (Hs [UiGenerationEvent.Token 0 "3"; UiGenerationEvent.Token 5 "x"; UiGenerationEvent.Completed 0 DemoMonitor.metrics])
    as (finished & _ & Hi & _); [reflexivity|]. exists self', finished. split; [exact He|exact Hi].
Defined.

Example keys_reach_no_overlay_witness :
  exists messages self, App.run [DemoMonitor.keys] DemoMonitor.app = Some (messages, self) /\ App.escape self = App.stop self.
Proof.
  assert (exists messages self, App.run [DemoMonitor.keys] DemoMonitor.app = Some (messages, self)) as (messages & self & H).
  { do 2 eexists. reflexivity. }
  exists messages, self. split; [exact H|].
  destruct (keys_reach_no_overlay None None true "hybrid" [DemoMonitor.keys] messages self H) as (_ & _ & _ & _ & _ & He & _).
  exact He.
Defined.
