(* ===== verification/Families.v ===== *)
(** The families of protocol messages ([acdp-core/src/messages/tools.rs],
    [resources.rs], [prompts.rs], [sampling.rs], [logging.rs]) with the
    serialisation serde derives for them, and the hand-written deserialiser of
    tools. *)

From S2P Require Import Prelude Messages Text ParamValidation Initialization.

(** ** What serde derives *)

(** [Serialize] and [Deserialize] *)
Class Serde `{JN : JsonNumbers} (A : Type) := {
  to_value : A -> Value;
  from_value : Value -> option A
}.

(** What is written is read back, for the readable values. *)
Class SerdeLaws `{JN : JsonNumbers} (A : Type) {S : Serde A} := {
  readable : A -> Prop;
  from_to (a : A) : readable a -> from_value (to_value a) = Some a
}.

(** The numbers JSON has of a [u64], and of a finite [f64] *)
Class JsonWords `{JF : JsonFloats} {JU : JsonUnsigned} := { num_from_u64 : Z -> Num }.

Class JsonWordLaws `{JF : JsonFloats} {JU : JsonUnsigned} {JW : JsonWords} := {
  num_as_from_u64 z : is_u64 z -> num_as_u64 (num_from_u64 z) = Some z;
  num_as_from_f64 x : is_finite x = true -> exists n, num_from_f64 x = Some n /\ num_as_f64 n = x
}.

Section serde.
Context `{JN : JsonNumbers}.

#[global] Instance string_serde : Serde string := {| to_value := VString; from_value := str_of |}.
#[global] Instance bool_serde : Serde bool := {| to_value := VBool; from_value := bool_of |}.
#[global] Instance value_serde : Serde Value := {| to_value v := v; from_value := Some |}.

#[global] Instance list_serde {A} {S : Serde A} : Serde (list A) := {|
  to_value l := VArray (List.map to_value l);
  from_value v := match v with VArray l => mapM from_value l | _ => None end
|}.

(** The members of a struct: of an object by their names, of an array by their
    places, where the last [tail] may be missing *)
Definition members (names : list string) (tail : nat) (v : Value) : option (list (option Value)) :=
  match v with
  | VObject e => Some (List.map (field e) names)
  | VArray l =>
      if ((length l <=? length names) && (length names <=? length l + tail))%nat
      then Some (List.map Some l ++ repeat None (length names - length l)%nat) else None
  | _ => None
  end.

(** A struct with a flattened map is read from objects only. *)
Definition flat_members (names : list string) (v : Value) : option (list (option Value) * gmap string Value) :=
  match v with VObject e => Some (List.map (field e) names, flattened names e) | _ => None end.

(** The members that are there *)
Definition object (fields : list (string * option Value)) : list (string * Value) :=
  omap (fun '(k, v) => option_map (pair k) v) fields.

(** A required member, an [Option], and one with a default *)
Definition need {A} {S : Serde A} (v : option Value) : option A := match v with Some v => from_value v | None => None end.
Definition maybe {A} {S : Serde A} (v : option Value) : option (option A) := optional from_value v.
Definition or_default {A} {S : Serde A} (d : A) (v : option Value) : option A :=
  match v with Some v => from_value v | None => Some d end.

(** [#[serde(tag = "type")]]: the tag and what is left for the variant *)
Definition tagged (v : Value) : option (string * Value) :=
  match v with
  | VObject e =>
      match field e "type" with
      | Some (VString tag) => Some (tag, VObject (List.filter (fun m => negb (String.eqb m.1 "type")) e))
      | _ => None
      end
  | VArray (VString tag :: rest) => Some (tag, VArray rest)
  | _ => None
  end.

Definition tag (name : string) (fields : list (string * option Value)) : Value :=
  VObject (("type"%string, VString name) :: object fields).

(** An enum without data, by the names of its variants *)
Definition variant {A} (variants : list (string * A)) (v : Value) : option A :=
  match v with
  | VString s | VObject [(s, VNull)] =>
      match List.find (fun x => String.eqb x.1 s) variants with Some x => Some x.2 | None => None end
  | _ => None
  end.

Definition i32_of (v : Value) : option Z :=
  match v with
  | VNumber n => match num_as_i64 n with Some z => if bool_decide (is_i32 z) then Some z else None | None => None end
  | _ => None
  end.
Definition of_i32 (z : Z) : Value := VNumber (num_from_i64 z).
Definition u64_of `{JU : !JsonUnsigned} (v : Value) : option Z := match v with VNumber n => num_as_u64 n | _ => None end.
Definition of_u64 `{JW : JsonWords} (z : Z) : Value := VNumber (num_from_u64 z).
Definition f64_value `{JF : !JsonFloats} (v : Value) : option f64 := match v with VNumber n => Some (num_as_f64 n) | _ => None end.
Definition of_f64 `{JF : !JsonFloats} (x : f64) : Value := match num_from_f64 x with Some n => VNumber n | None => VNull end.
End serde.

Section laws.
Context `{JN : JsonNumbers}.

Lemma field_object fields k v :
  NoDup (List.map fst fields) -> In (k, v) fields -> field (object fields) k = v.
Proof.
  induction fields as [|[j w] fields IH]; [done|]. cbn [List.map fst]. intros [Hj Hnd]%NoDup_cons Hin.
  assert (field (object fields) j = None) as Hnone.
  { apply field_not_in. intros Hk. apply Hj, list_elem_of_In, in_map_iff.
    apply list_elem_of_fmap in Hk as ([k' v'] & -> & He). apply list_elem_of_omap in He as ([k'' w'] & Hk'' & Hw).
    destruct w' as [w'|]; [|done]. injection Hw as -> ->. exists (k', Some v'). split; [done|by apply list_elem_of_In]. }
  destruct Hin as [[= -> ->]|Hin].
  - destruct v as [v|]; cbn; [by rewrite String.eqb_refl|exact Hnone].
  - assert (j <> k) as Hne.
    { intros ->. apply Hj, list_elem_of_In, in_map_iff. by exists (k, v). }
    rewrite <- (IH Hnd Hin). destruct w as [w|]; cbn; [|done].
    by rewrite (proj2 (String.eqb_neq _ _) Hne).
Qed.

(** The members of what a struct was written as *)
Lemma members_object fields tail :
  NoDup (List.map fst fields) -> members (List.map fst fields) tail (VObject (object fields)) = Some (List.map snd fields).
Proof.
  intros Hnd. cbn. f_equal. rewrite map_map. apply map_ext_in. intros [k v] Hin. by apply field_object.
Qed.

Lemma object_names fields : Forall (fun e => e.1 ∈ List.map fst fields) (object fields).
Proof.
  apply list.Forall_forall. intros [k v] He. apply list_elem_of_omap in He as ([k' w] & Hin & Hw).
  destruct w as [w|]; [|done]. injection Hw as -> ->. apply list_elem_of_In, in_map_iff.
  exists (k, Some v). split; [done|by apply list_elem_of_In].
Qed.

Definition unshadowed (names : list string) (m : gmap string Value) : Prop := Forall (fun k => m !! k = None) names.

Lemma flat_members_object fields m :
  NoDup (List.map fst fields) -> unshadowed (List.map fst fields) m ->
  flat_members (List.map fst fields) (VObject (flatten_into (object fields) m)) = Some (List.map snd fields, m).
Proof.
  intros Hnd Hm. cbn. rewrite (flattened_into _ _ _ Hm (object_names fields)). do 2 f_equal.
  rewrite map_map. apply map_ext_in. intros [k v] Hin.
  rewrite (field_flatten_into _ _ _ _ Hm (object_names fields)); [by apply field_object|].
  apply list_elem_of_In, in_map_iff. by exists (k, v).
Qed.

Lemma tagged_tag name fields :
  ~ In "type"%string (List.map fst fields) -> tagged (tag name fields) = Some (name, VObject (object fields)).
Proof.
  intros Hn. cbn. do 3 f_equal. pose proof (object_names fields) as Ho.
  induction Ho as [|[k v] l Hk Ho IH]; cbn; [done|].
  assert (String.eqb k "type" = false) as ->; [|by rewrite IH].
  apply String.eqb_neq. intros ->. by apply Hn, list_elem_of_In.
Qed.

Section law.
Context {A} `{SL : SerdeLaws A}.

Lemma need_to a : readable a -> need (Some (to_value a)) = Some a.
Proof. apply from_to. Qed.

Lemma or_default_to d a : readable a -> or_default d (Some (to_value a)) = Some a.
Proof. apply from_to. Qed.

(** An [Option] is read back unless it holds what is written as a null. *)
Definition readable_if (o : option A) : Prop :=
  match o with Some a => readable a /\ to_value a <> VNull | None => True end.

Lemma maybe_to o : readable_if o -> maybe (option_map to_value o) = Some o.
Proof.
  destruct o as [a|]; [|done]. intros [Hr Hn]. cbn. pose proof (from_to a Hr) as H. by destruct (to_value a); rewrite ?H.
Qed.
End law.

#[global] Instance string_laws : SerdeLaws string.
Proof. by exists (fun _ => True). Defined.
#[global] Instance bool_laws : SerdeLaws bool.
Proof. by exists (fun _ => True). Defined.
#[global] Instance value_laws : SerdeLaws Value.
Proof. by exists (fun _ => True). Defined.

#[global] Instance list_laws {A} `{SL : SerdeLaws A} : SerdeLaws (list A).
Proof.
  exists (Forall readable). intros l Hl. cbn. induction Hl as [|a l Ha _ IH]; cbn; [done|].
  rewrite from_to by done. cbn. by rewrite IH.
Defined.

Lemma all_readable {A} `{SL : SerdeLaws A} (l : list A) : (forall a, readable a) -> readable l.
Proof. intros H. by apply list.Forall_forall. Qed.
End laws.

Ltac decided := match goal with |- ?P => refine (bool_decide_eq_true_1 P _); vm_compute; reflexivity end.

(** Read a struct's members, then each of them; of an enum, the variant first *)
Ltac readables :=
  first [exact I | assumption | apply all_readable; intros; exact I | discriminate | cbn in *; intuition congruence].
Ltac optional_readable :=
  cbn [readable_if] in *; match goal with |- context [readable_if ?o] => let o' := eval cbn in o in change o with o'; destruct o' end;
  [split; readables|exact I].
Ltac fields_read :=
  match goal with
  | |- context [members ?names ?tail (VObject (object ?fields))] =>
      change names with (List.map fst fields); rewrite members_object by decided
  end;
  cbn [List.map snd mbind option_bind];
  repeat (first [rewrite need_to by readables | rewrite or_default_to by readables | rewrite maybe_to by optional_readable];
          cbn [mbind option_bind]).
Ltac head_of t := match t with ?f _ => head_of f | _ => t end.
Ltac unfold_serde :=
  match goal with |- @from_value _ _ ?S _ = _ => let h := head_of S in unfold h; cbn [to_value from_value] end.
Ltac struct_read := try unfold_serde; fields_read; reflexivity.
Ltac flat_read :=
  try unfold_serde;
  match goal with
  | |- context [flat_members ?names (VObject (flatten_into (object ?fields) ?m))] =>
      change names with (List.map fst fields);
      rewrite flat_members_object by first [assumption | decided]
  end;
  cbn [List.map snd mbind option_bind];
  repeat (first [rewrite need_to by readables | rewrite or_default_to by readables | rewrite maybe_to by optional_readable];
          cbn [mbind option_bind]);
  reflexivity.
Ltac variant_read := unfold_serde; rewrite tagged_tag by (cbn; intuition discriminate); cbn [mbind option_bind String.eqb]; struct_read.

(** ** Tools ([tools.rs]) *)

Module tools.
Module ListToolsRequest.
Record t : Type := mk { cursor : option string }.
End ListToolsRequest.

Module Tool.
Record t `{JN : JsonNumbers} : Type := mk {
  name : string;
  description : string;
  input_schema : option Value;
  extensions : option Value;
  read_only : option bool;
  return_type : option Value
}.

Section tool.
Context `{JN : JsonNumbers}.

Definition new (name description : string) : t := mk _ name description None None None None.
Definition with_input_schema (schema : Value) (self : t) : t :=
  mk _ (name self) (description self) (Some schema) (extensions self) (read_only self) (return_type self).
Definition with_extensions (extensions : Value) (self : t) : t :=
  mk _ (name self) (description self) (input_schema self) (Some extensions) (read_only self) (return_type self).
Definition with_read_only (read_only : bool) (self : t) : t :=
  mk _ (name self) (description self) (input_schema self) (extensions self) (Some read_only) (return_type self).
Definition with_return_type (return_type : Value) (self : t) : t :=
  mk _ (name self) (description self) (input_schema self) (extensions self) (read_only self) (Some return_type).

Inductive Field : Type := Name | Description | InputSchema | ParametersSchema | Extensions | ReadOnly | ReturnType | Unknown.

Definition identify (key : string) : Field :=
  if String.eqb key "name" then Name
  else if String.eqb key "description" then Description
  else if existsb (String.eqb key) ["inputSchema"; "input_schema"]%string then InputSchema
  else if existsb (String.eqb key) ["parametersSchema"; "parameters_schema"]%string then ParametersSchema
  else if String.eqb key "extensions" then Extensions
  else if existsb (String.eqb key) ["readOnly"; "read_only"]%string then ReadOnly
  else if String.eqb key "returnType" then ReturnType
  else Unknown.

(** The variables of [visit_map], while the name and the description may be
    missing *)
Record Visited : Type := MkVisited {
  v_name : option string;
  v_description : option string;
  v_input_schema : option Value;
  v_extensions : option Value;
  v_read_only : option bool;
  v_return_type : option Value
}.

Definition unvisited : Visited := MkVisited None None None None None None.

(** A duplicate field is an error, a second schema is skipped. *)
Definition visit (entry : string * Value) (s : Visited) : option Visited :=
  let '(key, v) := entry in
  match identify key with
  | Name =>
      match v_name s, str_of v with
      | None, Some x => Some (MkVisited (Some x) (v_description s) (v_input_schema s) (v_extensions s) (v_read_only s) (v_return_type s))
      | _, _ => None
      end
  | Description =>
      match v_description s, str_of v with
      | None, Some x => Some (MkVisited (v_name s) (Some x) (v_input_schema s) (v_extensions s) (v_read_only s) (v_return_type s))
      | _, _ => None
      end
  | InputSchema | ParametersSchema =>
      match v_input_schema s with
      | None => Some (MkVisited (v_name s) (v_description s) (Some v) (v_extensions s) (v_read_only s) (v_return_type s))
      | Some _ => Some s
      end
  | Extensions =>
      match v_extensions s with
      | None => Some (MkVisited (v_name s) (v_description s) (v_input_schema s) (Some v) (v_read_only s) (v_return_type s))
      | Some _ => None
      end
  | ReadOnly =>
      match v_read_only s, bool_of v with
      | None, Some x => Some (MkVisited (v_name s) (v_description s) (v_input_schema s) (v_extensions s) (Some x) (v_return_type s))
      | _, _ => None
      end
  | ReturnType =>
      match v_return_type s with
      | None => Some (MkVisited (v_name s) (v_description s) (v_input_schema s) (v_extensions s) (v_read_only s) (Some v))
      | Some _ => None
      end
  | Unknown => Some s
  end.

Fixpoint visit_map (entries : list (string * Value)) (s : Visited) : option t :=
  match entries with
  | [] =>
      match v_name s, v_description s with
      | Some name, Some description => Some (mk _ name description (v_input_schema s) (v_extensions s) (v_read_only s) (v_return_type s))
      | _, _ => None
      end
  | e :: entries => s ← visit e s; visit_map entries s
  end.

#[global] Instance tool_serde : Serde t := {|
  to_value self :=
    VObject (object
      [("name", Some (VString (name self))); ("description", Some (VString (description self)));
       ("input_schema", input_schema self); ("extensions", extensions self);
       ("readOnly", option_map VBool (read_only self)); ("returnType", return_type self)]%string);
  from_value v := match v with VObject entries => visit_map entries unvisited | _ => None end
|}.

(** Every tool is read back, explicit nulls included. *)
#[global] Instance tool_laws : SerdeLaws t.
Proof. exists (fun _ => True). intros [n d [i|] [e|] [r|] [ty|]] _; reflexivity. Defined.
End tool.
End Tool.

Module ListToolsResponse.
Record t `{JN : JsonNumbers} : Type := mk { tools : list Tool.t; next_cursor : option string }.
End ListToolsResponse.

Module CallToolRequest.
Record t `{JN : JsonNumbers} : Type := mk { name : string; arguments : option Value }.
End CallToolRequest.

Module ResourceReference.
Record t : Type := mk { uri : string; text : option string }.
End ResourceReference.

Module ToolResult.
Inductive t : Type :=
| Text (text : string)
| Image (data mime_type : string)
| Resource (resource : ResourceReference.t).
End ToolResult.

Module CallToolResponse.
Record t : Type := mk { content : list ToolResult.t; is_error : option bool }.
Definition names : list string := ["content"; "is_error"]%string.
End CallToolResponse.

Section serde.
Context `{JN : JsonNumbers}.

#[global] Instance list_tools_request_serde : Serde ListToolsRequest.t := {|
  to_value r := VObject (object [("cursor"%string, option_map to_value (ListToolsRequest.cursor r))]);
  from_value v :=
    ms ← members ["cursor"%string] 0 v;
    match ms with [cursor] => c ← maybe cursor; Some (ListToolsRequest.mk c) | _ => None end
|}.

#[global] Instance list_tools_response_serde : Serde ListToolsResponse.t := {|
  to_value r :=
    VObject (object [("tools", Some (to_value (ListToolsResponse.tools r)));
                     ("next_cursor", option_map to_value (ListToolsResponse.next_cursor r))]%string);
  from_value v :=
    ms ← members ["tools"; "next_cursor"]%string 0 v;
    match ms with
    | [tools; next_cursor] => ts ← need tools; c ← maybe next_cursor; Some (ListToolsResponse.mk _ ts c)
    | _ => None
    end
|}.

#[global] Instance call_tool_request_serde : Serde CallToolRequest.t := {|
  to_value r :=
    VObject (object [("name", Some (to_value (CallToolRequest.name r)));
                     ("arguments", option_map to_value (CallToolRequest.arguments r))]%string);
  from_value v :=
    ms ← members ["name"; "arguments"]%string 0 v;
    match ms with
    | [name; arguments] => n ← need name; a ← maybe arguments; Some (CallToolRequest.mk _ n a)
    | _ => None
    end
|}.

#[global] Instance resource_reference_serde : Serde ResourceReference.t := {|
  to_value r :=
    VObject (object [("uri", Some (to_value (ResourceReference.uri r)));
                     ("text", option_map to_value (ResourceReference.text r))]%string);
  from_value v :=
    ms ← members ["uri"; "text"]%string 0 v;
    match ms with [uri; text] => u ← need uri; x ← maybe text; Some (ResourceReference.mk u x) | _ => None end
|}.

#[global] Instance tool_result_serde : Serde ToolResult.t := {|
  to_value r :=
    match r with
    | ToolResult.Text text => tag "text" [("text"%string, Some (to_value text))]
    | ToolResult.Image data mime_type =>
        tag "image" [("data", Some (to_value data)); ("mimeType", Some (to_value mime_type))]%string
    | ToolResult.Resource resource => tag "resource" [("resource"%string, Some (to_value resource))]
    end;
  from_value v :=
    x ← tagged v;
    let '(name, v) := x in
    if String.eqb name "text" then
      ms ← members ["text"%string] 0 v;
      match ms with [text] => t ← need text; Some (ToolResult.Text t) | _ => None end
    else if String.eqb name "image" then
      ms ← members ["data"; "mimeType"]%string 0 v;
      match ms with [data; mime] => d ← need data; m ← need mime; Some (ToolResult.Image d m) | _ => None end
    else if String.eqb name "resource" then
      ms ← members ["resource"%string] 0 v;
      match ms with [resource] => r ← need resource; Some (ToolResult.Resource r) | _ => None end
    else None
|}.

#[global] Instance call_tool_response_serde : Serde CallToolResponse.t := {|
  to_value r :=
    VObject (object [("content", Some (to_value (CallToolResponse.content r)));
                     ("is_error", option_map to_value (CallToolResponse.is_error r))]%string);
  from_value v :=
    ms ← members CallToolResponse.names 0 v;
    match ms with
    | [content; is_error] => c ← or_default [] content; e ← maybe is_error; Some (CallToolResponse.mk c e)
    | _ => None
    end
|}.

#[global] Instance list_tools_request_laws : SerdeLaws ListToolsRequest.t.
Proof. exists (fun _ => True). intros [c] _. struct_read. Defined.

#[global] Instance list_tools_response_laws : SerdeLaws ListToolsResponse.t.
Proof. exists (fun _ => True). intros [ts c] _. struct_read. Defined.

(** Null arguments are read as none. *)
#[global] Instance call_tool_request_laws : SerdeLaws CallToolRequest.t.
Proof. exists (fun r => CallToolRequest.arguments r <> Some VNull). intros [n a] H. struct_read. Defined.

#[global] Instance resource_reference_laws : SerdeLaws ResourceReference.t.
Proof. exists (fun _ => True). intros [u x] _. struct_read. Defined.

#[global] Instance tool_result_laws : SerdeLaws ToolResult.t.
Proof. exists (fun _ => True). intros [x|d m|r] _; variant_read. Defined.

#[global] Instance call_tool_response_laws : SerdeLaws CallToolResponse.t.
Proof. exists (fun _ => True). intros [c e] _. struct_read. Defined.
End serde.
End tools.

(** One flattened map of metadata *)
Module Metadata.
Section metadata.
Context `{JN : JsonNumbers}.
Definition t : Type := gmap string Value.
Definition new : t := ∅.
Definition with_metadata (key : string) (value : Value) (self : t) : t := <[key := value]> self.
Definition to_value (self : t) : Value := VObject (flatten_into [] self).
Definition from_value (v : Value) : option t := match v with VObject e => Some (flattened [] e) | _ => None end.
End metadata.
End Metadata.

(** ** Resources ([resources.rs]) *)

Module resources.
Module ListResourcesRequest.
Record t : Type := mk { cursor : option string }.
End ListResourcesRequest.

Module Resource.
Record t : Type := mk { uri : string; name : string; description : option string; mime_type : option string }.
Definition new (uri name : string) : t := mk uri name None None.
Definition with_description (description : string) (self : t) : t := mk (uri self) (name self) (Some description) (mime_type self).
Definition with_mime_type (mime_type : string) (self : t) : t := mk (uri self) (name self) (description self) (Some mime_type).
End Resource.

Module ListResourcesResponse.
Record t : Type := mk { resources : list Resource.t; next_cursor : option string }.
End ListResourcesResponse.

(** [SubscribeRequest] and [UnsubscribeRequest] are the same. *)
Module ReadResourceRequest.
Record t : Type := mk { uri : string }.
End ReadResourceRequest.

Module ResourceContent.
Inductive t : Type :=
| Text (text uri : string) (mime_type : option string)
| Blob (blob uri : string) (mime_type : option string).

Definition text (uri text : string) : t := Text text uri None.
Definition text_with_mime_type (uri text mime_type : string) : t := Text text uri (Some mime_type).
Definition blob (uri blob : string) : t := Blob blob uri None.
Definition blob_with_mime_type (uri blob mime_type : string) : t := Blob blob uri (Some mime_type).
Definition uri (self : t) : string := match self with Text _ uri _ | Blob _ uri _ => uri end.
Definition mime_type (self : t) : option string := match self with Text _ _ m | Blob _ _ m => m end.
End ResourceContent.

Module ReadResourceResponse.
Record t : Type := mk { contents : list ResourceContent.t }.
End ReadResourceResponse.

Module ResourceUpdatedNotification.
Record t `{JN : JsonNumbers} : Type := mk { uri : string; metadata : gmap string Value }.
Definition new `{JN : JsonNumbers} (uri : string) : t := mk _ uri ∅.
Definition with_metadata `{JN : JsonNumbers} (key : string) (value : Value) (self : t) : t :=
  mk _ (uri self) (<[key := value]> (metadata self)).
End ResourceUpdatedNotification.

Section serde.
Context `{JN : JsonNumbers}.

#[global] Instance list_resources_request_serde : Serde ListResourcesRequest.t := {|
  to_value r := VObject (object [("cursor"%string, option_map to_value (ListResourcesRequest.cursor r))]);
  from_value v :=
    ms ← members ["cursor"%string] 0 v;
    match ms with [cursor] => c ← maybe cursor; Some (ListResourcesRequest.mk c) | _ => None end
|}.

#[global] Instance resource_serde : Serde Resource.t := {|
  to_value r :=
    VObject (object [("uri", Some (to_value (Resource.uri r))); ("name", Some (to_value (Resource.name r)));
                     ("description", option_map to_value (Resource.description r));
                     ("mime_type", option_map to_value (Resource.mime_type r))]%string);
  from_value v :=
    ms ← members ["uri"; "name"; "description"; "mime_type"]%string 0 v;
    match ms with
    | [uri; name; description; mime] =>
        u ← need uri; n ← need name; d ← maybe description; m ← maybe mime; Some (Resource.mk u n d m)
    | _ => None
    end
|}.

#[global] Instance list_resources_response_serde : Serde ListResourcesResponse.t := {|
  to_value r :=
    VObject (object [("resources", Some (to_value (ListResourcesResponse.resources r)));
                     ("next_cursor", option_map to_value (ListResourcesResponse.next_cursor r))]%string);
  from_value v :=
    ms ← members ["resources"; "next_cursor"]%string 0 v;
    match ms with
    | [resources; next_cursor] => rs ← need resources; c ← maybe next_cursor; Some (ListResourcesResponse.mk rs c)
    | _ => None
    end
|}.

#[global] Instance read_resource_request_serde : Serde ReadResourceRequest.t := {|
  to_value r := VObject (object [("uri"%string, Some (to_value (ReadResourceRequest.uri r)))]);
  from_value v :=
    ms ← members ["uri"%string] 0 v;
    match ms with [uri] => u ← need uri; Some (ReadResourceRequest.mk u) | _ => None end
|}.

#[global] Instance resource_content_serde : Serde ResourceContent.t := {|
  to_value r :=
    match r with
    | ResourceContent.Text text uri mime_type =>
        tag "text" [("text", Some (to_value text)); ("uri", Some (to_value uri)); ("mimeType", option_map to_value mime_type)]%string
    | ResourceContent.Blob blob uri mime_type =>
        tag "blob" [("blob", Some (to_value blob)); ("uri", Some (to_value uri)); ("mimeType", option_map to_value mime_type)]%string
    end;
  from_value v :=
    x ← tagged v;
    let '(name, v) := x in
    if String.eqb name "text" then
      ms ← members ["text"; "uri"; "mimeType"]%string 0 v;
      match ms with
      | [text; uri; mime] => t ← need text; u ← need uri; m ← maybe mime; Some (ResourceContent.Text t u m)
      | _ => None
      end
    else if String.eqb name "blob" then
      ms ← members ["blob"; "uri"; "mimeType"]%string 0 v;
      match ms with
      | [blob; uri; mime] => b ← need blob; u ← need uri; m ← maybe mime; Some (ResourceContent.Blob b u m)
      | _ => None
      end
    else None
|}.

#[global] Instance read_resource_response_serde : Serde ReadResourceResponse.t := {|
  to_value r := VObject (object [("contents"%string, Some (to_value (ReadResourceResponse.contents r)))]);
  from_value v :=
    ms ← members ["contents"%string] 1 v;
    match ms with [contents] => c ← or_default [] contents; Some (ReadResourceResponse.mk c) | _ => None end
|}.

#[global] Instance resource_updated_serde : Serde ResourceUpdatedNotification.t := {|
  to_value r :=
    VObject (flatten_into (object [("uri"%string, Some (to_value (ResourceUpdatedNotification.uri r)))])
               (ResourceUpdatedNotification.metadata r));
  from_value v :=
    x ← flat_members ["uri"%string] v;
    match x with ([uri], m) => u ← need uri; Some (ResourceUpdatedNotification.mk _ u m) | _ => None end
|}.

#[global] Instance list_resources_request_laws : SerdeLaws ListResourcesRequest.t.
Proof. exists (fun _ => True). intros [c] _. struct_read. Defined.
#[global] Instance resource_laws : SerdeLaws Resource.t.
Proof. exists (fun _ => True). intros [u n d m] _. struct_read. Defined.
#[global] Instance list_resources_response_laws : SerdeLaws ListResourcesResponse.t.
Proof. exists (fun _ => True). intros [rs c] _. struct_read. Defined.
#[global] Instance read_resource_request_laws : SerdeLaws ReadResourceRequest.t.
Proof. exists (fun _ => True). intros [u] _. struct_read. Defined.
#[global] Instance resource_content_laws : SerdeLaws ResourceContent.t.
Proof. exists (fun _ => True). intros [x u m|b u m] _; variant_read. Defined.
#[global] Instance read_resource_response_laws : SerdeLaws ReadResourceResponse.t.
Proof. exists (fun _ => True). intros [c] _. struct_read. Defined.

(** Metadata does not reuse the name of a field. *)
#[global] Instance resource_updated_laws : SerdeLaws ResourceUpdatedNotification.t.
Proof. exists (fun r => unshadowed ["uri"%string] (ResourceUpdatedNotification.metadata r)). intros [u m] H. flat_read. Defined.
End serde.
End resources.

(** ** Prompts ([prompts.rs]) *)

(** The roles of [prompts.rs] and of [sampling.rs] are the same. *)
Module MessageRole.
Inductive t : Type := System | User | Assistant.

Definition variants : list (string * t) := [("system", System); ("user", User); ("assistant", Assistant)]%string.
Definition name (self : t) : string := match self with System => "system" | User => "user" | Assistant => "assistant" end.
End MessageRole.

#[global] Instance message_role_serde `{JN : JsonNumbers} : Serde MessageRole.t := {|
  to_value r := VString (MessageRole.name r);
  from_value := variant MessageRole.variants
|}.

#[global] Instance message_role_laws `{JN : JsonNumbers} : SerdeLaws MessageRole.t.
Proof. exists (fun _ => True). by intros []. Defined.

Module prompts.
Module ListPromptsRequest.
Record t : Type := mk { cursor : option string }.
End ListPromptsRequest.

Module Prompt.
Record t `{JN : JsonNumbers} : Type := mk { name : string; description : string; arguments : option Value }.
Definition new `{JN : JsonNumbers} (name description : string) : t := mk _ name description None.
Definition with_arguments `{JN : JsonNumbers} (arguments : Value) (self : t) : t := mk _ (name self) (description self) (Some arguments).
End Prompt.

Module ListPromptsResponse.
Record t `{JN : JsonNumbers} : Type := mk { prompts : list Prompt.t; next_cursor : option string }.
End ListPromptsResponse.

Module GetPromptRequest.
Record t `{JN : JsonNumbers} : Type := mk { name : string; arguments : option Value }.
End GetPromptRequest.

(** Its content, with the constructors of [tools.ToolResult] *)
Module PromptContent.
Definition t : Type := tools.ToolResult.t.
Definition text (text : string) : t := tools.ToolResult.Text text.
Definition image (data mime_type : string) : t := tools.ToolResult.Image data mime_type.
Definition resource (uri : string) : t := tools.ToolResult.Resource (tools.ResourceReference.mk uri None).
Definition resource_with_text (uri text : string) : t := tools.ToolResult.Resource (tools.ResourceReference.mk uri (Some text)).
End PromptContent.

Module PromptMessage.
Record t : Type := mk { role : MessageRole.t; content : PromptContent.t }.
Definition new := mk.
Definition system (content : string) : t := new MessageRole.System (PromptContent.text content).
Definition user (content : string) : t := new MessageRole.User (PromptContent.text content).
Definition assistant (content : string) : t := new MessageRole.Assistant (PromptContent.text content).
End PromptMessage.

Module GetPromptResponse.
Record t : Type := mk { description : option string; messages : list PromptMessage.t }.
End GetPromptResponse.

Section serde.
Context `{JN : JsonNumbers}.

#[global] Instance list_prompts_request_serde : Serde ListPromptsRequest.t := {|
  to_value r := VObject (object [("cursor"%string, option_map to_value (ListPromptsRequest.cursor r))]);
  from_value v :=
    ms ← members ["cursor"%string] 0 v;
    match ms with [cursor] => c ← maybe cursor; Some (ListPromptsRequest.mk c) | _ => None end
|}.

#[global] Instance prompt_serde : Serde Prompt.t := {|
  to_value r :=
    VObject (object [("name", Some (to_value (Prompt.name r))); ("description", Some (to_value (Prompt.description r)));
                     ("arguments", option_map to_value (Prompt.arguments r))]%string);
  from_value v :=
    ms ← members ["name"; "description"; "arguments"]%string 0 v;
    match ms with
    | [name; description; arguments] => n ← need name; d ← need description; a ← maybe arguments; Some (Prompt.mk _ n d a)
    | _ => None
    end
|}.

#[global] Instance list_prompts_response_serde : Serde ListPromptsResponse.t := {|
  to_value r :=
    VObject (object [("prompts", Some (to_value (ListPromptsResponse.prompts r)));
                     ("next_cursor", option_map to_value (ListPromptsResponse.next_cursor r))]%string);
  from_value v :=
    ms ← members ["prompts"; "next_cursor"]%string 0 v;
    match ms with
    | [prompts; next_cursor] => ps ← need prompts; c ← maybe next_cursor; Some (ListPromptsResponse.mk _ ps c)
    | _ => None
    end
|}.

#[global] Instance get_prompt_request_serde : Serde GetPromptRequest.t := {|
  to_value r :=
    VObject (object [("name", Some (to_value (GetPromptRequest.name r)));
                     ("arguments", option_map to_value (GetPromptRequest.arguments r))]%string);
  from_value v :=
    ms ← members ["name"; "arguments"]%string 0 v;
    match ms with
    | [name; arguments] => n ← need name; a ← maybe arguments; Some (GetPromptRequest.mk _ n a)
    | _ => None
    end
|}.

#[global] Instance prompt_message_serde : Serde PromptMessage.t := {|
  to_value r :=
    VObject (object [("role", Some (to_value (PromptMessage.role r)));
                     ("content", Some (to_value (PromptMessage.content r : tools.ToolResult.t)))]%string);
  from_value v :=
    ms ← members ["role"; "content"]%string 0 v;
    match ms with
    | [role; content] => r ← need role; c ← need (A := tools.ToolResult.t) content; Some (PromptMessage.mk r c)
    | _ => None
    end
|}.

#[global] Instance get_prompt_response_serde : Serde GetPromptResponse.t := {|
  to_value r :=
    VObject (object [("description", option_map to_value (GetPromptResponse.description r));
                     ("messages", Some (to_value (GetPromptResponse.messages r)))]%string);
  from_value v :=
    ms ← members ["description"; "messages"]%string 1 v;
    match ms with
    | [description; messages] => d ← maybe description; m ← or_default [] messages; Some (GetPromptResponse.mk d m)
    | _ => None
    end
|}.

#[global] Instance list_prompts_request_laws : SerdeLaws ListPromptsRequest.t.
Proof. exists (fun _ => True). intros [c] _. struct_read. Defined.
#[global] Instance prompt_laws : SerdeLaws Prompt.t.
Proof. exists (fun p => Prompt.arguments p <> Some VNull). intros [n d a] H. struct_read. Defined.
#[global] Instance list_prompts_response_laws : SerdeLaws ListPromptsResponse.t.
Proof. exists (fun r => readable (ListPromptsResponse.prompts r)). intros [ps c] H. struct_read. Defined.
#[global] Instance get_prompt_request_laws : SerdeLaws GetPromptRequest.t.
Proof. exists (fun r => GetPromptRequest.arguments r <> Some VNull). intros [n a] H. struct_read. Defined.
#[global] Instance prompt_message_laws : SerdeLaws PromptMessage.t.
Proof. exists (fun _ => True). intros [r c] _. struct_read. Defined.
#[global] Instance get_prompt_response_laws : SerdeLaws GetPromptResponse.t.
Proof. exists (fun _ => True). intros [d m] _. struct_read. Defined.
End serde.
End prompts.

(** ** Sampling ([sampling.rs]) *)

Module sampling.
(** [CostPriority], [SpeedPriority] and [IntelligencePriority] *)
Module Priority.
Inductive t : Type := Low | Medium | High.
Definition variants : list (string * t) := [("low", Low); ("medium", Medium); ("high", High)]%string.
Definition name (self : t) : string := match self with Low => "low" | Medium => "medium" | High => "high" end.
End Priority.

Module ModelPreferences.
Record t : Type := mk {
  models : option (list string);
  cost_priority : option Priority.t;
  speed_priority : option Priority.t;
  intelligence_priority : option Priority.t
}.
Definition new : t := mk None None None None.
Definition with_models (models : list string) (self : t) : t :=
  mk (Some models) (cost_priority self) (speed_priority self) (intelligence_priority self).
Definition with_cost_priority (priority : Priority.t) (self : t) : t :=
  mk (models self) (Some priority) (speed_priority self) (intelligence_priority self).
Definition with_speed_priority (priority : Priority.t) (self : t) : t :=
  mk (models self) (cost_priority self) (Some priority) (intelligence_priority self).
Definition with_intelligence_priority (priority : Priority.t) (self : t) : t :=
  mk (models self) (cost_priority self) (speed_priority self) (Some priority).
End ModelPreferences.

Module SamplingContent.
Inductive t : Type :=
| Text (text : string)
| Image (data mime_type : string).
Definition text (text : string) : t := Text text.
Definition image (data mime_type : string) : t := Image data mime_type.
End SamplingContent.

Module SamplingMessage.
Record t : Type := mk { role : MessageRole.t; content : SamplingContent.t }.
Definition new := mk.
Definition system (content : string) : t := new MessageRole.System (SamplingContent.text content).
Definition user (content : string) : t := new MessageRole.User (SamplingContent.text content).
Definition assistant (content : string) : t := new MessageRole.Assistant (SamplingContent.text content).
End SamplingMessage.

Module CompletionArgument.
Record t `{JN : JsonNumbers} : Type := mk {
  messages : list SamplingMessage.t;
  model_preferences : option ModelPreferences.t;
  system_prompt : option string;
  include_context : option string;
  temperature : option f64;
  max_tokens : option Z;
  stop_sequences : option (list string);
  metadata : gmap string Value
}.

Section argument.
Context `{JN : JsonNumbers}.
Definition new (messages : list SamplingMessage.t) : t := mk _ messages None None None None None None ∅.
Definition with_model_preferences (preferences : ModelPreferences.t) (s : t) : t :=
  mk _ (messages s) (Some preferences) (system_prompt s) (include_context s) (temperature s) (max_tokens s) (stop_sequences s) (metadata s).
Definition with_system_prompt (prompt : string) (s : t) : t :=
  mk _ (messages s) (model_preferences s) (Some prompt) (include_context s) (temperature s) (max_tokens s) (stop_sequences s) (metadata s).
Definition with_temperature (temperature : f64) (s : t) : t :=
  mk _ (messages s) (model_preferences s) (system_prompt s) (include_context s) (Some temperature) (max_tokens s) (stop_sequences s) (metadata s).
Definition with_max_tokens (max_tokens : Z) (s : t) : t :=
  mk _ (messages s) (model_preferences s) (system_prompt s) (include_context s) (temperature s) (Some max_tokens) (stop_sequences s) (metadata s).
Definition with_stop_sequences (sequences : list string) (s : t) : t :=
  mk _ (messages s) (model_preferences s) (system_prompt s) (include_context s) (temperature s) (max_tokens s) (Some sequences) (metadata s).
Definition with_metadata (key : string) (value : Value) (s : t) : t :=
  mk _ (messages s) (model_preferences s) (system_prompt s) (include_context s) (temperature s) (max_tokens s) (stop_sequences s)
    (<[key := value]> (metadata s)).
Definition names : list string :=
  ["messages"; "model_preferences"; "system_prompt"; "include_context"; "temperature"; "max_tokens"; "stop_sequences"]%string.
End argument.
End CompletionArgument.

Module CompleteRequest.
Record t `{JN : JsonNumbers} : Type := mk { argument : CompletionArgument.t }.
End CompleteRequest.

(** [CompletionResult] has text only. *)
Module CompletionResult.
Inductive t : Type := Text (text : string).
Definition text (text : string) : t := Text text.
End CompletionResult.

Module StopReason.
Inductive t : Type := EndTurn | MaxTokens | StopSequence | ToolUse.
Definition variants : list (string * t) :=
  [("end_turn", EndTurn); ("max_tokens", MaxTokens); ("stop_sequence", StopSequence); ("tool_use", ToolUse)]%string.
Definition name (self : t) : string :=
  match self with EndTurn => "end_turn" | MaxTokens => "max_tokens" | StopSequence => "stop_sequence" | ToolUse => "tool_use" end.
End StopReason.

Module CompleteResponse.
Record t : Type := mk { completion : CompletionResult.t; model : option string; stop_reason : option StopReason.t }.
End CompleteResponse.

Section serde.
Context `{JF : JsonFloats}.

#[global] Instance priority_serde : Serde Priority.t := {|
  to_value r := VString (Priority.name r); from_value := variant Priority.variants
|}.
#[global] Instance stop_reason_serde : Serde StopReason.t := {|
  to_value r := VString (StopReason.name r); from_value := variant StopReason.variants
|}.

#[global] Instance model_preferences_serde : Serde ModelPreferences.t := {|
  to_value r :=
    VObject (object [("models", option_map to_value (ModelPreferences.models r));
                     ("cost_priority", option_map to_value (ModelPreferences.cost_priority r));
                     ("speed_priority", option_map to_value (ModelPreferences.speed_priority r));
                     ("intelligence_priority", option_map to_value (ModelPreferences.intelligence_priority r))]%string);
  from_value v :=
    ms ← members ["models"; "cost_priority"; "speed_priority"; "intelligence_priority"]%string 0 v;
    match ms with
    | [models; cost; speed; intelligence] =>
        m ← maybe models; c ← maybe cost; s ← maybe speed; i ← maybe intelligence; Some (ModelPreferences.mk m c s i)
    | _ => None
    end
|}.

#[global] Instance sampling_content_serde : Serde SamplingContent.t := {|
  to_value r :=
    match r with
    | SamplingContent.Text text => tag "text" [("text"%string, Some (to_value text))]
    | SamplingContent.Image data mime_type =>
        tag "image" [("data", Some (to_value data)); ("mimeType", Some (to_value mime_type))]%string
    end;
  from_value v :=
    x ← tagged v;
    let '(name, v) := x in
    if String.eqb name "text" then
      ms ← members ["text"%string] 0 v;
      match ms with [text] => t ← need text; Some (SamplingContent.Text t) | _ => None end
    else if String.eqb name "image" then
      ms ← members ["data"; "mimeType"]%string 0 v;
      match ms with [data; mime] => d ← need data; m ← need mime; Some (SamplingContent.Image d m) | _ => None end
    else None
|}.

#[global] Instance sampling_message_serde : Serde SamplingMessage.t := {|
  to_value r :=
    VObject (object [("role", Some (to_value (SamplingMessage.role r))); ("content", Some (to_value (SamplingMessage.content r)))]%string);
  from_value v :=
    ms ← members ["role"; "content"]%string 0 v;
    match ms with [role; content] => r ← need role; c ← need content; Some (SamplingMessage.mk r c) | _ => None end
|}.

#[global] Instance completion_argument_serde : Serde CompletionArgument.t := {|
  to_value r :=
    VObject (flatten_into
      (object [("messages", Some (to_value (CompletionArgument.messages r)));
               ("model_preferences", option_map to_value (CompletionArgument.model_preferences r));
               ("system_prompt", option_map to_value (CompletionArgument.system_prompt r));
               ("include_context", option_map to_value (CompletionArgument.include_context r));
               ("temperature", option_map of_f64 (CompletionArgument.temperature r));
               ("max_tokens", option_map of_i32 (CompletionArgument.max_tokens r));
               ("stop_sequences", option_map to_value (CompletionArgument.stop_sequences r))]%string)
      (CompletionArgument.metadata r));
  from_value v :=
    x ← flat_members CompletionArgument.names v;
    match x with
    | ([messages; preferences; prompt; context; temperature; tokens; stops], metadata) =>
        ms ← need messages; p ← maybe preferences; s ← maybe prompt; c ← maybe context; t ← optional f64_value temperature;
        k ← optional i32_of tokens; q ← maybe stops; Some (CompletionArgument.mk _ ms p s c t k q metadata)
    | _ => None
    end
|}.

#[global] Instance complete_request_serde : Serde CompleteRequest.t := {|
  to_value r := VObject (object [("argument"%string, Some (to_value (CompleteRequest.argument r)))]);
  from_value v :=
    ms ← members ["argument"%string] 0 v;
    match ms with [argument] => a ← need argument; Some (CompleteRequest.mk _ a) | _ => None end
|}.

#[global] Instance completion_result_serde : Serde CompletionResult.t := {|
  to_value r := match r with CompletionResult.Text text => tag "text" [("text"%string, Some (to_value text))] end;
  from_value v :=
    x ← tagged v;
    let '(name, v) := x in
    if String.eqb name "text" then
      ms ← members ["text"%string] 0 v;
      match ms with [text] => t ← need text; Some (CompletionResult.Text t) | _ => None end
    else None
|}.

#[global] Instance complete_response_serde : Serde CompleteResponse.t := {|
  to_value r :=
    VObject (object [("completion", Some (to_value (CompleteResponse.completion r)));
                     ("model", option_map to_value (CompleteResponse.model r));
                     ("stop_reason", option_map to_value (CompleteResponse.stop_reason r))]%string);
  from_value v :=
    ms ← members ["completion"; "model"; "stop_reason"]%string 0 v;
    match ms with
    | [completion; model; stop] => c ← need completion; m ← maybe model; s ← maybe stop; Some (CompleteResponse.mk c m s)
    | _ => None
    end
|}.

#[global] Instance priority_laws : SerdeLaws Priority.t.
Proof. exists (fun _ => True). by intros []. Defined.
#[global] Instance stop_reason_laws : SerdeLaws StopReason.t.
Proof. exists (fun _ => True). by intros []. Defined.
#[global] Instance model_preferences_laws : SerdeLaws ModelPreferences.t.
Proof. exists (fun _ => True). intros [m c s i] _. struct_read. Defined.
#[global] Instance sampling_content_laws : SerdeLaws SamplingContent.t.
Proof. exists (fun _ => True). intros [x|d m] _; variant_read. Defined.
#[global] Instance sampling_message_laws : SerdeLaws SamplingMessage.t.
Proof. exists (fun _ => True). intros [r c] _. struct_read. Defined.
#[global] Instance completion_result_laws : SerdeLaws CompletionResult.t.
Proof. exists (fun _ => True). intros [x] _. variant_read. Defined.
#[global] Instance complete_response_laws : SerdeLaws CompleteResponse.t.
Proof. exists (fun _ => True). intros [c m s] _. struct_read. Defined.

Context {JU : JsonUnsigned} {JW : JsonWords} {WL : JsonWordLaws} {NL : JsonNumberLaws JN}.

Lemma i32_back o : match o with Some z => is_i32 z | None => True end -> optional i32_of (option_map of_i32 o) = Some o.
Proof.
  destruct o as [z|]; [|done]. intros Hz. cbn. rewrite num_as_from_i64 by (unfold is_i32, is_i64, i64_min, i64_max in *; lia).
  by rewrite bool_decide_true.
Qed.

Lemma f64_back o :
  match o with Some x => is_finite x = true | None => True end -> optional f64_value (option_map of_f64 o) = Some o.
Proof.
  destruct o as [x|]; [|done]. intros Hx. cbn. unfold of_f64. destruct (num_as_from_f64 x Hx) as (n & -> & Hn). cbn. by rewrite Hn.
Qed.

(** The temperature is finite, the limit an [i32], and metadata does not reuse
    the name of a field. *)
#[global] Instance completion_argument_laws : SerdeLaws CompletionArgument.t.
Proof.
  exists (fun a => match CompletionArgument.temperature a with Some x => is_finite x = true | None => True end /\
                   match CompletionArgument.max_tokens a with Some z => is_i32 z | None => True end /\
                   unshadowed CompletionArgument.names (CompletionArgument.metadata a)).
  intros [ms p s c t k q m] (Ht & Hk & Hm). unfold_serde.
  match goal with |- context [object ?fields] => change CompletionArgument.names with (List.map fst fields) end.
  rewrite flat_members_object by first [assumption | decided].
  cbn [List.map snd mbind option_bind]. rewrite need_to by readables. cbn [mbind option_bind].
  do 3 (rewrite maybe_to by optional_readable; cbn [mbind option_bind]).
  rewrite f64_back by done. cbn [mbind option_bind]. rewrite i32_back by done. cbn [mbind option_bind].
  rewrite maybe_to by optional_readable. reflexivity.
Defined.

#[global] Instance complete_request_laws : SerdeLaws CompleteRequest.t.
Proof. exists (fun r => readable (CompleteRequest.argument r)). intros [a] H. struct_read. Defined.
End serde.
End sampling.

(** ** Logging and progress ([logging.rs]) *)

Module logging.
Module LogLevel.
Inductive t : Type := Debug | Info | Notice | Warning | Error | Critical.

Definition all : list t := [Debug; Info; Notice; Warning; Error; Critical].
Definition rank (self : t) : nat := match self with Debug => 0 | Info => 1 | Notice => 2 | Warning => 3 | Error => 4 | Critical => 5 end.
(** The derived order is that of the variants. *)
Definition is_more_verbose_than (self other : t) : bool := (rank self <? rank other)%nat.
Definition is_less_verbose_than (self other : t) : bool := (rank other <? rank self)%nat.
Definition to_string (self : t) : string :=
  match self with
  | Debug => "debug" | Info => "info" | Notice => "notice" | Warning => "warning" | Error => "error" | Critical => "critical"
  end.
Definition variants : list (string * t) := List.map (fun l => (to_string l, l)) all.
End LogLevel.

Module SetLevelRequest.
Record t : Type := mk { level : LogLevel.t }.
Definition new := mk.
End SetLevelRequest.

Module LoggingNotification.
Record t `{JN : JsonNumbers} : Type := mk { level : LogLevel.t; data : Value; logger : option string }.
Section notification.
Context `{JN : JsonNumbers}.
Definition new (level : LogLevel.t) (data : Value) : t := mk _ level data None.
Definition with_logger (level : LogLevel.t) (data : Value) (logger : string) : t := mk _ level data (Some logger).
Definition debug (message : string) : t := new LogLevel.Debug (VString message).
Definition info (message : string) : t := new LogLevel.Info (VString message).
Definition notice (message : string) : t := new LogLevel.Notice (VString message).
Definition warning (message : string) : t := new LogLevel.Warning (VString message).
Definition error (message : string) : t := new LogLevel.Error (VString message).
Definition critical (message : string) : t := new LogLevel.Critical (VString message).
End notification.
End LoggingNotification.

Module ProgressToken.
Inductive t : Type := String (s : string) | Number (n : Z).
Definition to_string (self : t) : string := match self with String s => s | Number n => pretty n end.
Definition from_string (s : string) : t := String s.
Definition from_i64 (n : Z) : t := Number n.
End ProgressToken.

Module ProgressNotification.
Record t : Type := mk { progress_token : ProgressToken.t; progress : f64; total : option Z }.
Definition new (token : ProgressToken.t) (progress : f64) : t := mk token progress None.
Definition with_total (token : ProgressToken.t) (progress : f64) (total : Z) : t := mk token progress (Some total).
End ProgressNotification.

Section serde.
Context `{JF : JsonFloats} {JU : JsonUnsigned} {JW : JsonWords}.

#[global] Instance log_level_serde : Serde LogLevel.t := {|
  to_value l := VString (LogLevel.to_string l); from_value := variant LogLevel.variants
|}.

#[global] Instance set_level_serde : Serde SetLevelRequest.t := {|
  to_value r := VObject (object [("level"%string, Some (to_value (SetLevelRequest.level r)))]);
  from_value v :=
    ms ← members ["level"%string] 0 v;
    match ms with [level] => l ← need level; Some (SetLevelRequest.mk l) | _ => None end
|}.

#[global] Instance logging_notification_serde : Serde LoggingNotification.t := {|
  to_value r :=
    VObject (object [("level", Some (to_value (LoggingNotification.level r)));
                     ("data", Some (to_value (LoggingNotification.data r)));
                     ("logger", option_map to_value (LoggingNotification.logger r))]%string);
  from_value v :=
    ms ← members ["level"; "data"; "logger"]%string 0 v;
    match ms with
    | [level; data; logger] => l ← need level; d ← need data; g ← maybe logger; Some (LoggingNotification.mk _ l d g)
    | _ => None
    end
|}.

#[global] Instance progress_token_serde : Serde ProgressToken.t := {|
  to_value t := match t with ProgressToken.String s => VString s | ProgressToken.Number n => VNumber (num_from_i64 n) end;
  from_value v :=
    match v with
    | VString s => Some (ProgressToken.String s)
    | VNumber n => option_map ProgressToken.Number (num_as_i64 n)
    | _ => None
    end
|}.

#[global] Instance progress_notification_serde : Serde ProgressNotification.t := {|
  to_value r :=
    VObject (object [("progress_token", Some (to_value (ProgressNotification.progress_token r)));
                     ("progress", Some (of_f64 (ProgressNotification.progress r)));
                     ("total", option_map of_u64 (ProgressNotification.total r))]%string);
  from_value v :=
    ms ← members ["progress_token"; "progress"; "total"]%string 0 v;
    match ms with
    | [token; progress; total] =>
        k ← need token; p ← (v ← progress; f64_value v); t ← optional u64_of total; Some (ProgressNotification.mk k p t)
    | _ => None
    end
|}.

#[global] Instance log_level_laws : SerdeLaws LogLevel.t.
Proof. exists (fun _ => True). by intros []. Defined.
#[global] Instance set_level_laws : SerdeLaws SetLevelRequest.t.
Proof. exists (fun _ => True). intros [l] _. struct_read. Defined.
#[global] Instance logging_notification_laws : SerdeLaws LoggingNotification.t.
Proof. exists (fun _ => True). intros [l d g] _. struct_read. Defined.

Context {WL : JsonWordLaws} {NL : JsonNumberLaws JN}.

#[global] Instance progress_token_laws : SerdeLaws ProgressToken.t.
Proof.
  exists (fun t => match t with ProgressToken.Number n => is_i64 n | _ => True end).
  intros [s|n] H; cbn; [done|]. by rewrite num_as_from_i64.
Defined.

#[global] Instance progress_notification_laws : SerdeLaws ProgressNotification.t.
Proof.
  exists (fun r => readable (ProgressNotification.progress_token r) /\ is_finite (ProgressNotification.progress r) = true /\
                   match ProgressNotification.total r with Some z => is_u64 z | None => True end).
  intros [k p t] (Hk & Hp & Ht). unfold_serde.
  match goal with |- context [members ?names _ (VObject (object ?fields))] => change names with (List.map fst fields) end.
  rewrite members_object by decided. cbn [List.map snd mbind option_bind].
  rewrite need_to by exact Hk. cbn [mbind option_bind ProgressNotification.progress ProgressNotification.total].
  unfold of_f64. destruct (num_as_from_f64 p Hp) as (n & -> & <-). cbn.
  destruct t as [t|]; cbn; [by rewrite num_as_from_u64|done].
Defined.
End serde.
End logging.

(** ** Properties *)

Section properties.
Context `{JF : JsonFloats} {JU : JsonUnsigned} {JW : JsonWords} {WL : JsonWordLaws} {NL : JsonNumberLaws JN}.

(** C22: the messages of the tool, resource, prompt, sampling and logging
    families are read back from what they are written as.  These are a tool,
    the requests and pages of each list, a call and its answer, reading a
    resource (and subscribing and unsubscribing, of the same shape) and what is
    read, a resource's update, getting a prompt and what is got, a completion
    and its answer, the logging level, a log and a progress notification, and
    the notifications that a list has changed.  The exceptions are the stated
    ones: null arguments of calls and prompts, a temperature or a progress that
    is infinite or undefined, numbers beyond their width, and metadata that
    reuses the name of a field. *)
Theorem message_families_are_read_back :
  (forall m : tools.ListToolsRequest.t, from_value (to_value m) = Some m) /\
  (forall m : tools.Tool.t, from_value (to_value m) = Some m) /\
  (forall m : tools.ListToolsResponse.t, from_value (to_value m) = Some m) /\
  (forall m : tools.CallToolRequest.t,
     tools.CallToolRequest.arguments m <> Some VNull -> from_value (to_value m) = Some m) /\
  (forall m : tools.CallToolResponse.t, from_value (to_value m) = Some m) /\
  (forall m : resources.ListResourcesRequest.t, from_value (to_value m) = Some m) /\
  (forall m : resources.ListResourcesResponse.t, from_value (to_value m) = Some m) /\
  (forall m : resources.ReadResourceRequest.t, from_value (to_value m) = Some m) /\
  (forall m : resources.ReadResourceResponse.t, from_value (to_value m) = Some m) /\
  (forall m : resources.ResourceUpdatedNotification.t,
     resources.ResourceUpdatedNotification.metadata m !! "uri"%string = None -> from_value (to_value m) = Some m) /\
  (forall m : prompts.ListPromptsRequest.t, from_value (to_value m) = Some m) /\
  (forall m : prompts.ListPromptsResponse.t,
     Forall (fun p => prompts.Prompt.arguments p <> Some VNull) (prompts.ListPromptsResponse.prompts m) ->
     from_value (to_value m) = Some m) /\
  (forall m : prompts.GetPromptRequest.t,
     prompts.GetPromptRequest.arguments m <> Some VNull -> from_value (to_value m) = Some m) /\
  (forall m : prompts.GetPromptResponse.t, from_value (to_value m) = Some m) /\
  (forall m : sampling.CompleteRequest.t,
     let a := sampling.CompleteRequest.argument m in
     match sampling.CompletionArgument.temperature a with Some x => is_finite x = true | None => True end ->
     match sampling.CompletionArgument.max_tokens a with Some z => is_i32 z | None => True end ->
     unshadowed sampling.CompletionArgument.names (sampling.CompletionArgument.metadata a) ->
     from_value (to_value m) = Some m) /\
  (forall m : sampling.CompleteResponse.t, from_value (to_value m) = Some m) /\
  (forall m : logging.SetLevelRequest.t, from_value (to_value m) = Some m) /\
  (forall m : logging.LoggingNotification.t, from_value (to_value m) = Some m) /\
  (forall m : logging.ProgressNotification.t,
     match logging.ProgressNotification.progress_token m with logging.ProgressToken.Number n => is_i64 n | _ => True end ->
     is_finite (logging.ProgressNotification.progress m) = true ->
     match logging.ProgressNotification.total m with Some z => is_u64 z | None => True end ->
     from_value (to_value m) = Some m) /\
  (forall m : Metadata.t, Metadata.from_value (Metadata.to_value m) = Some m).
Proof.
  split_and!; try (intros m; exact (from_to m I)).
  - intros m H. exact (from_to m H).
  - intros m H. apply (from_to m). constructor; [exact H|constructor].
  - intros m H. exact (from_to m H).
  - intros m H. exact (from_to m H).
  - intros m a Ht Hk Hm. exact (from_to m (conj Ht (conj Hk Hm))).
  - intros m Hk Hp Ht. exact (from_to m (conj Hk (conj Hp Ht))).
  - intros m. unfold Metadata.from_value, Metadata.to_value. rewrite flattened_into; [done|constructor|constructor].
Qed.

(** The struct of a message that is read from an object has the members of
    these names only. *)
Lemma members_of_object names tail e : members names tail (VObject e) = Some (List.map (field e) names).
Proof. done. Qed.

(** The first schema an object has under one of its four names *)
Fixpoint first_schema (e : list (string * Value)) : option Value :=
  match e with
  | [] => None
  | (k, v) :: e =>
      if existsb (String.eqb k) ["inputSchema"; "input_schema"; "parametersSchema"; "parameters_schema"]%string then Some v
      else first_schema e
  end.

Lemma identify_schema k :
  existsb (String.eqb k) ["inputSchema"; "input_schema"; "parametersSchema"; "parameters_schema"]%string = true <->
  tools.Tool.identify k = tools.Tool.InputSchema \/ tools.Tool.identify k = tools.Tool.ParametersSchema.
Proof.
  unfold tools.Tool.identify. cbn [existsb].
  repeat match goal with |- context [String.eqb k ?s] => destruct (String.eqb_spec k s); subst; cbn end; intuition discriminate.
Qed.

Lemma visit_schema e s tool :
  tools.Tool.visit_map e s = Some tool ->
  tools.Tool.input_schema tool = match tools.Tool.v_input_schema s with Some x => Some x | None => first_schema e end.
Proof.
  revert s. induction e as [|[k v] e IH]; intros s; cbn [tools.Tool.visit_map first_schema].
  - destruct (tools.Tool.v_name s), (tools.Tool.v_description s); try done. intros [= <-]. cbn. by destruct (tools.Tool.v_input_schema s).
  - destruct (tools.Tool.visit (k, v) s) as [s'|] eqn:E; [|done]. cbn [mbind option_bind]. intros ->%IH.
    pose proof (identify_schema k) as Hk. unfold tools.Tool.visit in E.
    destruct (existsb _ _).
    + destruct (proj1 Hk eq_refl) as [H|H]; rewrite H in E; destruct (tools.Tool.v_input_schema s) eqn:Es;
        injection E as <-; cbn; by rewrite ?Es.
    + destruct (tools.Tool.identify k); try discriminate (proj2 Hk (or_introl eq_refl)); try discriminate (proj2 Hk (or_intror eq_refl));
        repeat (match type of E with context [match ?x with _ => _ end] => destruct x end; try discriminate); by injection E as <-.
Qed.

(** A tool is read with the first schema its object has, under whichever of
    the four names. *)
Theorem tools_take_the_first_schema e tool :
  from_value (VObject e) = Some tool -> tools.Tool.input_schema tool = first_schema e.
Proof. intros H. by rewrite (visit_schema _ _ _ H). Qed.

(** C23: the fields the protocol writes in camel case are neither written nor
    read: whatever a server's answer to a call says under [isError] it reads
    as no error, a page of tools ends the list whatever its [nextCursor], a
    completion's [maxTokens] is metadata and no limit, and a notification of
    progress with a [progressToken] is no notification.  A failed call that is
    written has no [isError], so it reads as a success elsewhere. *)
Theorem camel_case_is_lost :
  (forall e r, field e "is_error" = None -> from_value (VObject e) = Some r -> tools.CallToolResponse.is_error r = None) /\
  (forall e r, field e "next_cursor" = None -> from_value (VObject e) = Some r -> tools.ListToolsResponse.next_cursor r = None) /\
  (forall e a, field e "max_tokens" = None -> from_value (VObject e) = Some a ->
     sampling.CompletionArgument.max_tokens a = None /\
     sampling.CompletionArgument.metadata a !! "maxTokens"%string = flattened sampling.CompletionArgument.names e !! "maxTokens"%string) /\
  (forall e, field e "progress_token" = None -> from_value (A := logging.ProgressNotification.t) (VObject e) = None) /\
  (forall r e, to_value r = VObject e -> field e "isError" = None /\
     field e "is_error" = option_map VBool (tools.CallToolResponse.is_error r)) /\
  forall content contents, from_value content = Some contents ->
    from_value (VObject [("content", content); ("isError", VBool true)]%string) = Some (tools.CallToolResponse.mk contents None).
Proof.
  split_and!.
  - intros e r He H. cbn in H. rewrite He in H. cbn in H. destruct (or_default _ _); cbn in H; [by injection H as <-|done].
  - intros e r He H. cbn in H. rewrite He in H. cbn in H. destruct (need _); cbn in H; [by injection H as <-|done].
  - intros e a He H. cbn in H. rewrite He in H.
    repeat match type of H with (?m ≫= _) = _ => destruct m; cbn in H; [|done] end. by injection H as <-.
  - intros e He. cbn. by rewrite He.
  - intros [c [b|]] e [= <-]; split; reflexivity.
  - intros content contents Hc. cbn in Hc |- *. by rewrite Hc.
Qed.
End properties.

(** ** Concrete numbers: integers and floats apart *)

Module DemoFamilies.
#[local] Instance mixed_numbers : JsonNumbers := {|
  Num := Z + f64;
  num_as_i64 n := match n with inl z => if bool_decide (i64_min <= z <= i64_max) then Some z else None | inr _ => None end;
  num_from_i64 z := inl z
|}.
#[local] Instance mixed_floats : JsonFloats := {|
  num_from_f64 x := if is_finite x then Some (inr x) else None;
  num_as_f64 n := match n with inl z => f64_of_Z z | inr x => x end;
  num_as_f32 n := match n with inl z => f32_of_Z z | inr x => x end
|}.
#[local] Instance mixed_unsigned : JsonUnsigned := {|
  num_as_u64 n := match n with inl z => if bool_decide (0 <= z <= u64_max) then Some z else None | inr _ => None end
|}.
#[local] Instance mixed_words : JsonWords := {| num_from_u64 z := inl z |}.
#[local] Instance mixed_number_laws : JsonNumberLaws mixed_numbers.
Proof. split. intros z Hz. cbn. by rewrite bool_decide_true. Qed.
#[local] Instance mixed_word_laws : JsonWordLaws.
Proof.
  split.
  - intros z Hz. cbn. by rewrite bool_decide_true.
  - intros x Hx. exists (inr x). cbn. by rewrite Hx.
Qed.

Definition progress : logging.ProgressNotification.t :=
  logging.ProgressNotification.with_total (logging.ProgressToken.from_string "job") (f64_of_Z 1) 3.

Example message_families_are_read_back_witness :
  from_value (to_value progress) = Some progress.
Proof.
  destruct message_families_are_read_back as (_ & _ & _ & _ & _ & _ & _ & _ & _ & _ & _ & _ & _ & _ & _ & _ & _ & _ & H & _).
  by apply (H progress).
Defined.

(** A failed call as a server that follows the protocol writes it *)
Definition failed : list (string * Value) :=
  [("content", VArray [tools.tool_result_serde.(to_value) (tools.ToolResult.Text "no such file")]); ("isError", VBool true)]%string.

Example camel_case_is_lost_witness :
  exists r, from_value (VObject failed) = Some r /\ tools.CallToolResponse.is_error r = None.
Proof.
  eexists. split; [reflexivity|].
  destruct camel_case_is_lost as (H & _). by apply (H failed).
Defined.
End DemoFamilies.
