(* ===== verification/LitertServer.v ===== *)
(** The model server
    ([acdp-transport/src/bin/litert_mcp_server.rs]): an MCP server over HTTP
    whose tools are the language-model service, with its sessions.  The
    service's start and the binding of the socket are not modelled; what the
    service answers is an interface. *)

From S2P Require Import Prelude Messages Transform Text CoreTransport Initialization ParamValidation Predictor Session CodeGenerator ModelManager Streaming Client HttpStream HttpServers Families.

Module Session.
(** Its channel is sent to by nobody. *)
Record t : Type := mk { id : string; initialized : bool }.
End Session.

(** The service as the server uses it; a generation's events end. *)
Module Service.
Record t `{JF : JsonFloats} : Type := mk {
  start_generation : GenerationRequest.t -> Res (list GenerationEvent) string;
  predict_tool : string -> Res PredictionOutcome.t string;
  model_status : ModelStatus.t;
  download_progress : option DownloadProgress.t
}.
End Service.

Module ServerState.
Section state.
Context `{JF : JsonFloats}.

Record t : Type := mk { sessions : gmap string Session.t; llm_service : option Service.t }.

Definition new : t := mk ∅ None.
Definition set_llm_service (service : Service.t) (self : t) : t := mk (sessions self) (Some service).

(** [fresh] is the identifier that is drawn. *)
Definition get_or_create_session (session_id : option string) (fresh : string) (self : t) : Session.t * t :=
  let session_id := from_option id fresh session_id in
  match sessions self !! session_id with
  | Some session => (session, self)
  | None =>
      let session := Session.mk session_id false in
      (session, mk (<[session_id := session]> (sessions self)) (llm_service self))
  end.

Definition mark_initialized (session_id : string) (self : t) : t :=
  mk (alter (fun s => Session.mk (Session.id s) true) session_id (sessions self)) (llm_service self).
End state.
Arguments t : clear implicits.
Arguments t {JN JF}.
End ServerState.

Module LitertServer.
Section server.
Context `{JT : JsonText, JF : !JsonFloats, JU : !JsonUnsigned, SD : StrDebug}.
Import ServerState.

(** *** Values *)

Definition json_error (code : Z) (message : string) : Value :=
  VObject [("code"%string, VNumber (num_from_i64 code)); ("message"%string, VString message)].

(** [value[key]], null if there is nothing *)
Definition index (v : Value) (key : string) : Value := from_option id VNull (get v key).

(** [{"content": [{"type": "text", "text": text}]}], with more members *)
Definition content (text : string) (more : list (string * Value)) : Value :=
  VObject (("content"%string, VArray [VObject [("text"%string, VString text); ("type"%string, VString "text")]]) :: more).

Definition text_of (v : Value) : option string := match v with VString s => Some s | _ => None end.
Definition as_f64 (v : Value) : option f64 := match v with VNumber n => Some (num_as_f64 n) | _ => None end.
Definition as_u64 (v : Value) : option Z := match v with VNumber n => num_as_u64 n | _ => None end.

Definition ok_or {A} (o : option A) (code : Z) (message : string) : Res A Value :=
  match o with Some a => Ok a | None => Err (json_error code message) end.

Definition service_of (state : t) : Res Service.t Value := ok_or (llm_service state) (-32603) "LLM service not initialized".

(** *** Tools *)

Definition handle_text_generation (state : t) (args : Value) : Res Value Value :=
  let? service := service_of state in
  let? prompt := ok_or (text_of (index args "prompt")) (-32602) "Missing prompt" in
  let request :=
    GenerationRequest.mk prompt (option_map f32_of_f64 (as_f64 (index args "temperature")))
      (option_map Z.to_nat (as_u64 (index args "max_tokens"))) in
  match Service.start_generation service request with
  | Ok events => Ok (content (collect_tokens events) [])
  | Err e => Err (json_error (-32603) ("Generation failed: " +:+ e))
  end.

Definition prediction_text (p : ToolPrediction.t) : string :=
  "Predicted tool: " +:+ ToolPrediction.tool_name p +:+ " (confidence: " +:+
  format_fixed 0 (f32_mul (ToolPrediction.confidence p) (f32_of_Z 100)) +:+ "%)" +:+ newline +:+ "Reasoning: " +:+
  ToolPrediction.reasoning p.

Definition handle_tool_prediction (state : t) (args : Value) : Res Value Value :=
  let? service := service_of state in
  let? query := ok_or (text_of (index args "query")) (-32602) "Missing query" in
  let? tools := ok_or (match index args "available_tools" with VArray l => Some l | _ => None end) (-32602)
                  "Missing or invalid available_tools" in
  let context := "User query: " +:+ query +:+ newline +:+ "Available tools: " +:+ join ", " (omap text_of tools) in
  match Service.predict_tool service context with
  | Ok outcome =>
      let p := PredictionOutcome.prediction outcome in
      Ok (content (prediction_text p)
            [("prediction"%string,
              VObject [("confidence"%string, of_f64 (f64_of_f32 (ToolPrediction.confidence p)));
                       ("record_id"%string, VString (PredictionOutcome.record_id outcome));
                       ("tool"%string, VString (ToolPrediction.tool_name p))])])
  | Err e => Err (json_error (-32603) ("Prediction failed: " +:+ e))
  end.

(** [Debug] of the status *)
Definition status_debug (s : ModelStatus.t) : string :=
  match s with
  | ModelStatus.NotLoaded => "NotLoaded"
  | ModelStatus.Loading => "Loading"
  | ModelStatus.Ready => "Ready"
  | ModelStatus.Error msg => "Error(" +:+ str_debug msg +:+ ")"
  end.

Definition handle_model_info (state : t) : Res Value Value :=
  let? service := service_of state in
  let status := status_debug (Service.model_status service) in
  Ok (content ("Model status: " +:+ status) [("status"%string, VString status)]).

Definition handle_cache_status (state : t) : Res Value Value :=
  let? service := service_of state in
  let status := Service.model_status service in
  let info_text :=
    match Service.download_progress service with
    | Some progress =>
        "Model downloading: " +:+ DownloadProgress.model_name progress +:+ " (" +:+
        format_fixed 1 (DownloadProgress.percentage progress) +:+ "%)"
    | None =>
        match status with
        | ModelStatus.Ready => "Model ready and loaded"
        | ModelStatus.Loading => "Model loading..."
        | ModelStatus.NotLoaded => "No model loaded"
        | ModelStatus.Error err => "Model error: " +:+ err
        end
    end in
  Ok (content info_text [("status"%string, VString (status_debug status))]).

Definition handle_tools_call (state : t) (params : option Value) : Res Value Value :=
  let? params := ok_or params (-32602) "Missing params" in
  let? tool_name := ok_or (text_of (index params "name")) (-32602) "Missing tool name" in
  let arguments := index params "arguments" in
  if String.eqb tool_name "text_generation" then handle_text_generation state arguments
  else if String.eqb tool_name "tool_prediction" then handle_tool_prediction state arguments
  else if String.eqb tool_name "model_info" then handle_model_info state
  else if String.eqb tool_name "cache_status" then handle_cache_status state
  else Err (json_error (-32602) ("Unknown tool: " +:+ tool_name)).

Definition schema (properties : list (string * Value)) (required : list string) : Value :=
  VObject ([("properties"%string, VObject properties)] ++
           match required with [] => [] | _ => [("required"%string, VArray (List.map VString required))] end ++
           [("type"%string, VString "object")]).

Definition tool (name description : string) (schema : Value) (read_only : bool) : tools.Tool.t :=
  tools.Tool.mk _ name description (Some schema) None (Some read_only) None.

Definition text_generation_schema : Value :=
  schema
    [("max_tokens", VObject [("default", VNumber (num_from_i64 512)); ("description", VString "Maximum tokens to generate");
                             ("type", VString "number")]);
     ("prompt", VObject [("description", VString "The prompt for text generation"); ("type", VString "string")]);
     ("temperature", VObject [("default", of_f64 (f64_ratio 7 10)); ("description", VString "Sampling temperature (0.0-1.0)");
                              ("type", VString "number")])]%string
    ["prompt"%string].

Definition tool_prediction_schema : Value :=
  schema
    [("available_tools", VObject [("description", VString "List of available tool names");
                                  ("items", VObject [("type", VString "string")]); ("type", VString "array")]);
     ("query", VObject [("description", VString "The user query to predict tool for"); ("type", VString "string")])]%string
    ["query"; "available_tools"]%string.

Definition tool_list : list tools.Tool.t :=
  [tool "text_generation" "Generate text using on-device LLM (LiteRT)" text_generation_schema false;
   tool "tool_prediction" "Predict which tool to use for a query using LiteRT" tool_prediction_schema true;
   tool "model_info" "Get information about the loaded LiteRT model" (schema [] []) true;
   tool "cache_status" "Check the status of the model cache" (schema [] []) true].

Definition handle_tools_list : Res Value Value := Ok (VObject [("tools"%string, canonical (to_value tool_list))]).

(** *** Requests *)

Definition handle_initialize (version : string) : Res Value Value :=
  Ok (canonical (InitializeResponse.to_value
    (InitializeResponse.new ProtocolVersion.V2024_11_05
       (Capabilities.mk (StandardCapabilities.mk (Some (Some false)) None None None None None) ∅)
       (Implementation.new "litert-mcp-server" version)
       (Some "LiteRT MCP Server - On-device LLM capabilities via MCP protocol"%string)))).

(** [code as i32] *)
Definition as_i32 (z : Z) : Z := (z + 2 ^ 31) mod 2 ^ 32 - 2 ^ 31.

Definition failure_of (error : Value) : JsonRpcError.t :=
  JsonRpcError.mk
    (as_i32 (match index error "code" with VNumber n => from_option id (-32603) (num_as_i64 n) | _ => -32603 end))
    (from_option id "Internal error"%string (text_of (index error "message"))) None.

Definition handle_request (version : string) (state : t) (req : JsonRpcRequest.t) : JsonRpcResponse.t :=
  let method := JsonRpcRequest.method req in
  let result :=
    if String.eqb method "initialize" then handle_initialize version
    else if String.eqb method "tools/list" then handle_tools_list
    else if String.eqb method "tools/call" then handle_tools_call state (JsonRpcRequest.params req)
    else if String.eqb method "resources/list" then Ok (VObject [("resources"%string, VArray [])])
    else if String.eqb method "prompts/list" then Ok (VObject [("prompts"%string, VArray [])])
    else Err (json_error (-32601) ("Method not found: " +:+ method)) in
  match result with
  | Ok result => JsonRpcResponse.mk "2.0" (JsonRpcRequest.id req) (Some result) None
  | Err error => JsonRpcResponse.mk "2.0" (JsonRpcRequest.id req) None (Some (failure_of error))
  end.

Definition handle_notification (session : Session.t) (notif : JsonRpcNotification.t) (state : t) : t :=
  if String.eqb (JsonRpcNotification.method notif) "initialized" then mark_initialized (Session.id session) state else state.

(** *** The routes *)

Definition answer (session : Session.t) (response : JsonRpcResponse.t) : HttpAnswer.t :=
  HttpAnswer.mk OK
    [("Content-Type", "text/event-stream"); ("Cache-Control", "no-cache"); ("Mcp-Session-Id", Session.id session)]%string
    ("data: " +:+ json_to_string (JsonRpcResponse.to_value response) +:+ newline +:+ newline).

Definition acknowledgement : JsonRpcResponse.t :=
  JsonRpcResponse.mk "2.0" RequestId.Null (Some (VObject [("status"%string, VString "ok")])) None.

(** [header] is the session's header, if it is text. *)
Definition handle_sse_post (version : string) (header : option string) (fresh : string) (body : Value) (state : t)
  : Res HttpAnswer.t Z * t :=
  match JsonRpcMessage.from_value body with
  | Err _ => (Err BAD_REQUEST, state)
  | Ok message =>
      let '(session, state) := get_or_create_session header fresh state in
      match message with
      | JsonRpcMessage.Request req => (Ok (answer session (handle_request version state req)), state)
      | JsonRpcMessage.Notification notif => (Ok (answer session acknowledgement), handle_notification session notif state)
      | JsonRpcMessage.Response _ => (Err BAD_REQUEST, state)
      end
  end.

(** The first event; nothing follows it, since nobody sends. *)
Definition handle_sse_get (header : option string) (fresh : string) (state : t) : (string * string) * t :=
  let '(session, state) := get_or_create_session header fresh state in
  (HttpSseServer.session_event "connected" (Session.id session), state).

(** What happens to a server: the service gets ready, or a client calls. *)
Inductive Call : Type :=
| Ready (service : Service.t)
| Post (header : option string) (fresh : string) (body : Value)
| Get (header : option string) (fresh : string).

Definition step (version : string) (call : Call) (state : t) : t :=
  match call with
  | Ready service => set_llm_service service state
  | Post header fresh body => (handle_sse_post version header fresh body state).2
  | Get header fresh => (handle_sse_get header fresh state).2
  end.

Definition run (version : string) (calls : list Call) (state : t) : t :=
  fold_left (fun state call => step version call state) calls state.
End server.
End LitertServer.

(** ** Properties *)

Section properties.
Context `{JT : JsonText, JF : !JsonFloats, JU : !JsonUnsigned, SD : StrDebug} {NL : JsonNumberLaws JN}.
Import LitertServer.

(** *** Answers *)

Definition methods : list string := ["initialize"; "tools/list"; "tools/call"; "resources/list"; "prompts/list"]%string.

Lemma failure_of_json code message :
  is_i32 code -> failure_of (json_error code message) = JsonRpcError.mk code message None.
Proof.
  intros Hc. unfold failure_of, json_error, index, as_i32. cbn. rewrite num_as_from_i64 by (unfold is_i32, is_i64, i64_min, i64_max in *; lia).
  cbn. f_equal. unfold is_i32 in Hc. rewrite Z.mod_small; lia.
Qed.

(** What the server promises to answer: a result, or an error's code and text *)
Definition Outcome : Type := Res Value (Z * string).

Definition tool_names : list string := ["text_generation"; "tool_prediction"; "model_info"; "cache_status"]%string.

(** The text under a key, or [None] if there is nothing or no text *)
Definition text_at (v : Value) (key : string) : option string :=
  match get v key with Some (VString s) => Some s | _ => None end.

Definition list_at (v : Value) (key : string) : option (list Value) :=
  match get v key with Some (VArray l) => Some l | _ => None end.

(** The parameters of a generation *)
Definition generation_of (args : Value) (prompt : string) : GenerationRequest.t :=
  GenerationRequest.mk prompt (option_map f32_of_f64 (as_f64 (index args "temperature")))
    (option_map Z.to_nat (as_u64 (index args "max_tokens"))).

(** What the model is asked for a prediction *)
Definition question_of (query : string) (available : list Value) : string :=
  "User query: " +:+ query +:+ newline +:+ "Available tools: " +:+ join ", " (omap text_of available).

(** The text that tells of the model's cache *)
Definition cache_text (s : Service.t) : string :=
  match Service.download_progress s, Service.model_status s with
  | Some p, _ =>
      "Model downloading: " +:+ DownloadProgress.model_name p +:+ " (" +:+ format_fixed 1 (DownloadProgress.percentage p) +:+ "%)"
  | None, ModelStatus.Ready => "Model ready and loaded"
  | None, ModelStatus.Loading => "Model loading..."
  | None, ModelStatus.NotLoaded => "No model loaded"
  | None, ModelStatus.Error err => "Model error: " +:+ err
  end.

Inductive tool_answer (args : Value) : option Service.t -> string -> Outcome -> Prop :=
| ans_unknown service name :
    name ∉ tool_names -> tool_answer args service name (Err (-32602, "Unknown tool: " +:+ name))
| ans_no_service name :
    name ∈ tool_names -> tool_answer args None name (Err (-32603, "LLM service not initialized"%string))
| ans_generated s prompt events :
    text_at args "prompt" = Some prompt -> Service.start_generation s (generation_of args prompt) = Ok events ->
    tool_answer args (Some s) "text_generation" (Ok (content (collect_tokens events) []))
| ans_generation_failed s prompt e :
    text_at args "prompt" = Some prompt -> Service.start_generation s (generation_of args prompt) = Err e ->
    tool_answer args (Some s) "text_generation" (Err (-32603, "Generation failed: " +:+ e))
| ans_no_prompt s :
    text_at args "prompt" = None -> tool_answer args (Some s) "text_generation" (Err (-32602, "Missing prompt"%string))
| ans_predicted s query available outcome :
    text_at args "query" = Some query -> list_at args "available_tools" = Some available ->
    Service.predict_tool s (question_of query available) = Ok outcome ->
    let p := PredictionOutcome.prediction outcome in
    tool_answer args (Some s) "tool_prediction"
      (Ok (content (prediction_text p)
             [("prediction"%string,
               VObject [("confidence"%string, of_f64 (f64_of_f32 (ToolPrediction.confidence p)));
                        ("record_id"%string, VString (PredictionOutcome.record_id outcome));
                        ("tool"%string, VString (ToolPrediction.tool_name p))])]))
| ans_prediction_failed s query available e :
    text_at args "query" = Some query -> list_at args "available_tools" = Some available ->
    Service.predict_tool s (question_of query available) = Err e ->
    tool_answer args (Some s) "tool_prediction" (Err (-32603, "Prediction failed: " +:+ e))
| ans_no_query s :
    text_at args "query" = None -> tool_answer args (Some s) "tool_prediction" (Err (-32602, "Missing query"%string))
| ans_no_tools s query :
    text_at args "query" = Some query -> list_at args "available_tools" = None ->
    tool_answer args (Some s) "tool_prediction" (Err (-32602, "Missing or invalid available_tools"%string))
| ans_model_info s :
    tool_answer args (Some s) "model_info"
      (Ok (content ("Model status: " +:+ status_debug (Service.model_status s))
             [("status"%string, VString (status_debug (Service.model_status s)))]))
| ans_cache_status s :
    tool_answer args (Some s) "cache_status"
      (Ok (content (cache_text s) [("status"%string, VString (status_debug (Service.model_status s)))])).

Inductive request_answer (version : string) (service : option Service.t) (req : JsonRpcRequest.t) : Outcome -> Prop :=
| ans_initialize :
    JsonRpcRequest.method req = "initialize"%string ->
    request_answer version service req
      (Ok (canonical (InitializeResponse.to_value
        (InitializeResponse.new ProtocolVersion.V2024_11_05
           (Capabilities.mk (StandardCapabilities.mk (Some (Some false)) None None None None None) ∅)
           (Implementation.new "litert-mcp-server" version)
           (Some "LiteRT MCP Server - On-device LLM capabilities via MCP protocol"%string)))))
| ans_tools_list :
    JsonRpcRequest.method req = "tools/list"%string ->
    request_answer version service req (Ok (VObject [("tools"%string, canonical (to_value tool_list))]))
| ans_resources_list :
    JsonRpcRequest.method req = "resources/list"%string ->
    request_answer version service req (Ok (VObject [("resources"%string, VArray [])]))
| ans_prompts_list :
    JsonRpcRequest.method req = "prompts/list"%string ->
    request_answer version service req (Ok (VObject [("prompts"%string, VArray [])]))
| ans_no_params :
    JsonRpcRequest.method req = "tools/call"%string -> JsonRpcRequest.params req = None ->
    request_answer version service req (Err (-32602, "Missing params"%string))
| ans_no_name params :
    JsonRpcRequest.method req = "tools/call"%string -> JsonRpcRequest.params req = Some params ->
    text_at params "name" = None ->
    request_answer version service req (Err (-32602, "Missing tool name"%string))
| ans_call params name outcome :
    JsonRpcRequest.method req = "tools/call"%string -> JsonRpcRequest.params req = Some params ->
    text_at params "name" = Some name -> tool_answer (index params "arguments") service name outcome ->
    request_answer version service req outcome
| ans_no_method :
    JsonRpcRequest.method req ∉ methods ->
    request_answer version service req (Err (-32601, "Method not found: " +:+ JsonRpcRequest.method req)).

Definition coded (e : Z * string) : Value := json_error e.1 e.2.

Lemma text_of_index v key : text_of (index v key) = text_at v key.
Proof. unfold index, text_at. by destruct (get v key) as [[]|]. Qed.

Lemma list_of_index v key : match index v key with VArray l => Some l | _ => None end = list_at v key.
Proof. unfold index, list_at. by destruct (get v key) as [[]|]. Qed.

(** Each handler of a tool answers as promised. *)
Lemma generation_answers state args :
  exists outcome, handle_text_generation state args = map_err coded outcome /\
    tool_answer args (ServerState.llm_service state) "text_generation" outcome.
Proof.
  unfold handle_text_generation, service_of. rewrite text_of_index.
  destruct (ServerState.llm_service state) as [s|]; cbn [ok_or res_bind].
  2:{ eexists. split; [|apply ans_no_service; set_solver]. reflexivity. }
  destruct (text_at args "prompt") as [prompt|] eqn:Hp; cbn [ok_or res_bind].
  - fold (generation_of args prompt). destruct (Service.start_generation s _) as [events|e] eqn:E.
    + eexists. split; [|by eapply ans_generated]. reflexivity.
    + eexists. split; [|by eapply ans_generation_failed]. reflexivity.
  - eexists. split; [|by apply ans_no_prompt]. reflexivity.
Qed.

Lemma prediction_answers state args :
  exists outcome, handle_tool_prediction state args = map_err coded outcome /\
    tool_answer args (ServerState.llm_service state) "tool_prediction" outcome.
Proof.
  unfold handle_tool_prediction, service_of. rewrite text_of_index, list_of_index.
  destruct (ServerState.llm_service state) as [s|]; cbn [ok_or res_bind].
  2:{ eexists. split; [|apply ans_no_service; set_solver]. reflexivity. }
  destruct (text_at args "query") as [query|] eqn:Hq; cbn [ok_or res_bind].
  2:{ eexists. split; [|by apply ans_no_query]. reflexivity. }
  destruct (list_at args "available_tools") as [available|] eqn:Ha; cbn [ok_or res_bind].
  2:{ eexists. split; [|by eapply ans_no_tools]. reflexivity. }
  fold (question_of query available). destruct (Service.predict_tool s _) as [o|e] eqn:E.
  - eexists. split; [|by eapply ans_predicted]. reflexivity.
  - eexists. split; [|by eapply ans_prediction_failed]. reflexivity.
Qed.

Lemma status_answers state args :
  (exists outcome, handle_model_info state = map_err coded outcome /\
     tool_answer args (ServerState.llm_service state) "model_info" outcome) /\
  (exists outcome, handle_cache_status state = map_err coded outcome /\
     tool_answer args (ServerState.llm_service state) "cache_status" outcome).
Proof.
  unfold handle_model_info, handle_cache_status, service_of.
  destruct (ServerState.llm_service state) as [s|]; cbn [ok_or res_bind];
    [|split; (eexists; split; [|apply ans_no_service; set_solver]; reflexivity)].
  split; (eexists; split; [|constructor]); [reflexivity|].
  cbn. unfold cache_text. by destruct (Service.download_progress s), (Service.model_status s).
Qed.

Lemma tool_call_answers state args name :
  exists outcome,
    (if String.eqb name "text_generation" then handle_text_generation state args
     else if String.eqb name "tool_prediction" then handle_tool_prediction state args
     else if String.eqb name "model_info" then handle_model_info state
     else if String.eqb name "cache_status" then handle_cache_status state
     else Err (json_error (-32602) ("Unknown tool: " +:+ name))) = map_err coded outcome /\
    tool_answer args (ServerState.llm_service state) name outcome.
Proof.
  destruct (String.eqb_spec name "text_generation") as [->|]; [apply generation_answers|].
  destruct (String.eqb_spec name "tool_prediction") as [->|]; [apply prediction_answers|].
  destruct (status_answers state args) as [Hm Hc].
  destruct (String.eqb_spec name "model_info") as [->|]; [exact Hm|].
  destruct (String.eqb_spec name "cache_status") as [->|]; [exact Hc|].
  eexists. split; [|apply ans_unknown; unfold tool_names; set_solver]. reflexivity.
Qed.

Lemma tool_answer_code args service name code message :
  tool_answer args service name (Err (code, message)) -> is_i32 code.
Proof. unfold is_i32. inversion 1; subst; lia. Qed.

Definition response_of (req : JsonRpcRequest.t) (outcome : Outcome) : JsonRpcResponse.t :=
  match outcome with
  | Ok v => JsonRpcResponse.mk "2.0" (JsonRpcRequest.id req) (Some v) None
  | Err (code, message) =>
      JsonRpcResponse.mk "2.0" (JsonRpcRequest.id req) None (Some (JsonRpcError.mk code message None))
  end.

Lemma handle_request_answers version state req :
  exists outcome, request_answer version (ServerState.llm_service state) req outcome /\
    handle_request version state req = response_of req outcome.
Proof.
  unfold handle_request. set (m := JsonRpcRequest.method req).
  destruct (String.eqb_spec m "initialize"); [eexists; split; [by apply ans_initialize|reflexivity]|].
  destruct (String.eqb_spec m "tools/list"); [eexists; split; [by apply ans_tools_list|reflexivity]|].
  destruct (String.eqb_spec m "tools/call").
  { unfold handle_tools_call. destruct (JsonRpcRequest.params req) as [params|] eqn:Hp; cbn [ok_or res_bind].
    2:{ eexists. split; [by apply ans_no_params|]. cbn. by rewrite failure_of_json. }
    rewrite text_of_index. destruct (text_at params "name") as [name|] eqn:Hn; cbn [ok_or res_bind].
    2:{ eexists. split; [by eapply ans_no_name|]. cbn. by rewrite failure_of_json. }
    destruct (tool_call_answers state (index params "arguments") name) as (outcome & -> & Ha).
    exists outcome. split; [by eapply ans_call|]. destruct outcome as [v|[code message]]; [done|].
    cbn [map_err response_of]. unfold coded. cbn [fst snd]. rewrite failure_of_json; [done|]. by eapply tool_answer_code. }
  destruct (String.eqb_spec m "resources/list"); [eexists; split; [by apply ans_resources_list|reflexivity]|].
  destruct (String.eqb_spec m "prompts/list"); [eexists; split; [by apply ans_prompts_list|reflexivity]|].
  eexists. split; [apply ans_no_method; unfold methods; set_solver|]. cbn. by rewrite failure_of_json.
Qed.

(** *** Sessions *)

(** Sessions are entered under their identifiers. *)
Definition keyed (state : ServerState.t) : Prop :=
  forall k session, ServerState.sessions state !! k = Some session -> Session.id session = k.

(** Every session of [s] is one of [s'], and stays initialized if it is. *)
Definition grows (s s' : ServerState.t) : Prop :=
  forall k session, ServerState.sessions s !! k = Some session ->
    exists session', ServerState.sessions s' !! k = Some session' /\ Session.id session' = Session.id session /\
      (Session.initialized session = true -> Session.initialized session' = true).

#[local] Instance grows_preorder : PreOrder grows.
Proof.
  split.
  - intros s k session H. by exists session.
  - intros s1 s2 s3 H12 H23 k x H. destruct (H12 k x H) as (y & Hy & Ey & Iy). destruct (H23 k y Hy) as (z & Hz & Ez & Iz).
    exists z. split; [done|]. split; [congruence|auto].
Qed.

Lemma session_spec header fresh state session state' :
  keyed state -> ServerState.get_or_create_session header fresh state = (session, state') ->
  Session.id session = from_option id fresh header /\ keyed state' /\ grows state state' /\
  ServerState.llm_service state' = ServerState.llm_service state /\
  ServerState.sessions state' !! Session.id session = Some session.
Proof.
  intros Hk. unfold ServerState.get_or_create_session.
  destruct (ServerState.sessions state !! from_option id fresh header) as [x|] eqn:E.
  - intros [= <- <-]. rewrite (Hk _ _ E). by split_and!.
  - intros [= <- <-]. cbn. split_and!; [done| | |done|apply lookup_insert_eq].
    + intros k y. cbn. rewrite lookup_insert. case_decide; [by intros [= <-]|apply Hk].
    + intros k y Hy. exists y. split; [|done]. cbn. rewrite lookup_insert_ne; [done|]. intros <-. congruence.
Qed.

Lemma mark_spec sid state :
  keyed state -> keyed (ServerState.mark_initialized sid state) /\ grows state (ServerState.mark_initialized sid state).
Proof.
  intros Hk. split.
  - intros k x. cbn. rewrite lookup_alter. case_decide; [|apply Hk]. subst.
    destruct (ServerState.sessions state !! k) as [y|] eqn:E; [|done]. intros [= <-]. exact (Hk _ _ E).
  - intros k x Hx. cbn. rewrite lookup_alter. case_decide; [|by exists x]. subst. rewrite Hx. eexists. split; [reflexivity|]. by split.
Qed.

Lemma step_spec version call state : keyed state -> keyed (step version call state) /\ grows state (step version call state).
Proof.
  intros Hk. destruct call as [service|header fresh body|header fresh]; cbn [step].
  - split; [exact Hk|]. intros k x Hx. by exists x.
  - unfold handle_sse_post. destruct (JsonRpcMessage.from_value body) as [message|e]; [|by split].
    destruct (ServerState.get_or_create_session header fresh state) as [session state'] eqn:E.
    destruct (session_spec _ _ _ _ _ Hk E) as (_ & K & G & _).
    destruct message as [req|resp|notif]; cbn; [by split..|]. unfold handle_notification.
    destruct (String.eqb _ _); [|by split]. destruct (mark_spec (Session.id session) state' K) as [K' G'].
    split; [done|by etransitivity].
  - unfold handle_sse_get. destruct (ServerState.get_or_create_session header fresh state) as [session state'] eqn:E.
    by destruct (session_spec _ _ _ _ _ Hk E) as (_ & K & G & _).
Qed.

Lemma run_spec version calls state : keyed state -> keyed (run version calls state) /\ grows state (run version calls state).
Proof.
  revert state. induction calls as [|c calls IH]; intros state Hk; [by split|]. cbn.
  destruct (step_spec version c state Hk) as [K G]. destruct (IH _ K) as [K' G']. split; [done|by etransitivity].
Qed.

(** Whatever the clients do, sessions are never dropped; and whether a session
    has been initialized makes no difference to any answer. *)
Theorem sessions_are_not_used version calls more header fresh body other :
  let state := run version calls ServerState.new in
  keyed state /\ grows state (run version more state) /\
  (keyed other -> ServerState.llm_service other = ServerState.llm_service state ->
   match (handle_sse_post version header fresh body state).1, (handle_sse_post version header fresh body other).1 with
   | Ok a, Ok b => a = b
   | Err x, Err y => x = y
   | _, _ => False
   end).
Proof.
  intros state. assert (keyed state) as Hk.
  { apply run_spec. intros k x. cbn. by rewrite lookup_empty. }
  split; [done|]. split; [by apply run_spec|]. intros Ho Hs. unfold handle_sse_post.
  destruct (JsonRpcMessage.from_value body) as [message|e]; [|done].
  destruct (ServerState.get_or_create_session header fresh state) as [x sx] eqn:Ex.
  destruct (ServerState.get_or_create_session header fresh other) as [y sy] eqn:Ey.
  destruct (session_spec _ _ _ _ _ Hk Ex) as (Ix & _ & _ & Lx & _).
  destruct (session_spec _ _ _ _ _ Ho Ey) as (Iy & _ & _ & Ly & _).
  destruct message as [req|resp|notif]; cbn; [|done|].
  - unfold answer. rewrite Ix, Iy. do 2 f_equal. assert (ServerState.llm_service sx = ServerState.llm_service sy) as L by congruence.
    unfold handle_request, handle_tools_call, handle_text_generation, handle_tool_prediction, handle_model_info, handle_cache_status, service_of.
    by rewrite L.
  - unfold answer. by rewrite Ix, Iy.
Qed.

(** C36: a body that is no message, or a response, is a bad request; a
    notification is answered with a response without identifier, and an
    [initialized] one marks its session; a request is answered once, on an event
    stream, with its identifier, in the session it names or a new one.  The
    answer is the promised one of [request_answer]: an unknown method, a missing
    or wrong argument, an unknown tool, a missing service and a failing one each
    give their own error with its code, and everything else the stated result,
    such as the text collected from the generation of the given prompt and the
    prediction for the given query. *)
Theorem requests_are_answered version header fresh body state :
  keyed state ->
  let '(answered, state') := handle_sse_post version header fresh body state in
  let session_id := from_option id fresh header in
  match JsonRpcMessage.from_value body with
  | Err _ => answered = Err BAD_REQUEST /\ state' = state
  | Ok (JsonRpcMessage.Response _) => answered = Err BAD_REQUEST
  | Ok (JsonRpcMessage.Notification notif) =>
      (exists session, Session.id session = session_id /\ answered = Ok (answer session acknowledgement)) /\
      (JsonRpcNotification.method notif = "initialized"%string ->
       Session.initialized <$> (ServerState.sessions state' !! session_id) = Some true)
  | Ok (JsonRpcMessage.Request req) =>
      exists session outcome, Session.id session = session_id /\
        ServerState.sessions state' !! session_id = Some session /\
        request_answer version (ServerState.llm_service state) req outcome /\
        answered = Ok (answer session
          match outcome with
          | Ok v => JsonRpcResponse.mk "2.0" (JsonRpcRequest.id req) (Some v) None
          | Err (code, message) =>
              JsonRpcResponse.mk "2.0" (JsonRpcRequest.id req) None (Some (JsonRpcError.mk code message None))
          end)
  end.
Proof.
  intros Hk. unfold handle_sse_post. destruct (JsonRpcMessage.from_value body) as [message|e]; [|done].
  destruct (ServerState.get_or_create_session header fresh state) as [session state'] eqn:E.
  destruct (session_spec _ _ _ _ _ Hk E) as (I & _ & _ & L & S).
  destruct message as [req|resp|notif]; [|done|].
  - destruct (handle_request_answers version state' req) as (outcome & Ha & Hr).
    exists session, outcome. rewrite <- I, <- L. split_and!; [done..|]. by rewrite Hr.
  - split; [by exists session|]. intros Hm. unfold handle_notification. rewrite Hm. cbn.
    by rewrite <- I, lookup_alter_eq, S.
Qed.

Lemma collect_generation tokens taken metrics :
  (length tokens <= taken)%nat -> collect_tokens (generation_events tokens taken metrics).1 = String.concat "" tokens.
Proof.
  intros Ht. destruct metrics as [m|]; cbn [generation_events].
  - unfold LlmService.stream_task. apply Nat.ltb_ge in Ht. rewrite Ht. cbn [fst].
    by rewrite collect_tokens_map, str_app_nil_r.
  - cbn [fst]. rewrite firstn_all2 by done. rewrite <- (app_nil_r (List.map Token tokens)), collect_tokens_map.
    by rewrite str_app_nil_r.
Qed.

Lemma content_readable rid text :
  distinct_keys (JsonRpcResponse.to_value (JsonRpcResponse.mk "2.0" rid (Some (content text [])) None)) = true /\
  canonical (content text []) = content text [].
Proof. by destruct rid. Qed.

(** C29: a client of the streaming transport that calls the server's tool for
    text reads the words of the reply the service's engine gave to its prompt
    and parameters, all of them and in order, joined by single spaces as the
    service streams them (line breaks and other blanks of the reply are lost),
    with the identifier of its request, also when the service's task panics over
    its metrics. *)
Theorem generation_reaches_the_client {TL : JsonTextLaws JT} version header fresh state service req params args prompt
    reply tokens taken metrics :
  (forall s, json_from_str ("data: " +:+ s) = None) ->
  keyed state -> ServerState.llm_service state = Some service -> RequestId.wf (JsonRpcRequest.id req) ->
  JsonRpcRequest.method req = "tools/call"%string -> JsonRpcRequest.params req = Some params ->
  get params "name" = Some (VString "text_generation") -> get params "arguments" = Some args ->
  get args "prompt" = Some (VString prompt) ->
  generate_streaming (Ok reply) = Ok tokens -> (length tokens <= taken)%nat ->
  Service.start_generation service
    (GenerationRequest.mk prompt (option_map f32_of_f64 (as_f64 (index args "temperature")))
       (option_map Z.to_nat (as_u64 (index args "max_tokens")))) = Ok (generation_events tokens taken metrics).1 ->
  exists a, (handle_sse_post version header fresh (JsonRpcRequest.to_value req) state).1 = Ok a /\ HttpAnswer.status a = OK /\
    HttpStreamTransport.parse_response (HttpAnswer.body a) =
      Ok (JsonRpcResponse.mk "2.0" (JsonRpcRequest.id req) (Some (content (join " " (split_whitespace reply)) [])) None).
Proof.
  intros Hdata Hk Hs Hid Hm Hp Hname Hargs Hprompt Hg Ht Hstart.
  cbn in Hg. injection Hg as <-. set (tokens := word_tokens (split_whitespace reply)) in *.
  rewrite <- concat_word_tokens. fold tokens. unfold handle_sse_post.
  pose proof (message_from_to_value (JsonRpcMessage.Request req) Hid) as Hread.
  cbn [JsonRpcMessage.to_value JsonRpcMessage.normalize] in Hread. rewrite Hread.
  destruct (ServerState.get_or_create_session header fresh state) as [session state'] eqn:E.
  destruct (session_spec _ _ _ _ _ Hk E) as (_ & _ & _ & L & _).
  cbn [fst]. eexists. split; [done|]. split; [done|].
  assert (without_null (Some params) = Some params) as Hw by (destruct params; done).
  unfold handle_request. cbn [JsonRpcRequest.method JsonRpcRequest.id JsonRpcRequest.params]. rewrite Hm, Hp, Hw. cbn [String.eqb Ascii.eqb Bool.eqb].
  unfold handle_tools_call, index at 1. cbn [ok_or res_bind]. rewrite Hname. cbn [from_option text_of ok_or res_bind id].
  rewrite String.eqb_refl. unfold handle_text_generation, service_of. rewrite L, Hs. cbn [ok_or res_bind].
  assert (index params "arguments" = args) as -> by (unfold index; by rewrite Hargs).
  assert (text_of (index args "prompt") = Some prompt) as -> by (unfold index; by rewrite Hprompt).
  cbn [ok_or res_bind]. rewrite Hstart, collect_generation by done. cbn [answer HttpAnswer.body].
  set (r := JsonRpcResponse.mk _ _ _ _). destruct (content_readable (JsonRpcRequest.id req) (String.concat "" tokens)) as [Hd Hc].
  destruct (stream_replies_are_read r [] newline Hid Hd) as [_ H].
  rewrite str_app_assoc in H. etransitivity; [apply H; [constructor|constructor|apply Hdata]|].
  unfold read_as, r. cbn [JsonRpcResponse.result]. by rewrite Hc.
Qed.
End properties.

(** ** A concrete server *)

Module DemoLitert.
Import ToyNumbers ToyText DemoFamilies.

#[global] Instance server_debug : StrDebug := {| str_debug s := s |}.
#[global] Instance server_unsigned : JsonUnsigned := {| num_as_u64 n := if 0 <=? n then Some n else None |}.

(** The engine's reply is streamed. *)
Definition reply : string := "It is" +:+ newline +:+ "42".

Definition service : Service.t :=
  Service.mk _ _ (fun _ => Ok (generation_events (word_tokens (split_whitespace reply)) 3 None).1)
    (fun _ => Err "no engine"%string) ModelStatus.Ready None.

Definition state : ServerState.t := ServerState.set_llm_service service ServerState.new.

Definition params : Value :=
  VObject [("arguments", VObject [("prompt", VString "6 * 7")]); ("name", VString "text_generation")]%string.

Definition request : JsonRpcRequest.t := JsonRpcRequest.new (RequestId.Number 7) "tools/call" params.

Lemma state_keyed : keyed state.
Proof. intros k x. cbn. by rewrite lookup_empty. Qed.
End DemoLitert.

Example generation_reaches_the_client_witness :
  exists a,
    (LitertServer.handle_sse_post "1.0" None "s" (JsonRpcRequest.to_value DemoLitert.request) DemoLitert.state).1 = Ok a /\
    HttpStreamTransport.parse_response (HttpAnswer.body a) =
      Ok (JsonRpcResponse.mk "2.0" (RequestId.Number 7) (Some (LitertServer.content "It is 42" [])) None).
Proof.
  destruct (generation_reaches_the_client "1.0" None "s" DemoLitert.state DemoLitert.service DemoLitert.request DemoLitert.params
    (VObject [("prompt"%string, VString "6 * 7")]) "6 * 7" DemoLitert.reply (word_tokens (split_whitespace DemoLitert.reply)) 3 None)
    as (a & H & _ & Ha);
    [intros s; reflexivity|apply DemoLitert.state_keyed|reflexivity|done|reflexivity..|vm_compute; lia|reflexivity|].
  exists a. split; [exact H|exact Ha].
Defined.

Example requests_are_answered_witness :
  exists session outcome,
    (LitertServer.handle_sse_post "1.0" None "s" (JsonRpcRequest.to_value DemoLitert.request) DemoLitert.state).1 =
      Ok (LitertServer.answer session (response_of DemoLitert.request outcome)) /\
    request_answer "1.0" (Some DemoLitert.service) DemoLitert.request outcome.
Proof.
  pose proof (requests_are_answered "1.0" None "s" (JsonRpcRequest.to_value DemoLitert.request) DemoLitert.state DemoLitert.state_keyed) as H.
  destruct (LitertServer.handle_sse_post _ _ _ _ _) as [answered state'].
  rewrite (message_from_to_value (JsonRpcMessage.Request DemoLitert.request) ltac:(done) :
             JsonRpcMessage.from_value (JsonRpcRequest.to_value DemoLitert.request) = _) in H.
  destruct H as (session & outcome & _ & _ & Ho & ->). exists session, outcome. split; [reflexivity|exact Ho].
Defined.
