(* ===== verification/Ipc.v ===== *)
(** The local socket between the programs ([acdp-common/src/ipc.rs]): an
    envelope is a line of JSON.  The JSON of an envelope is derived code and
    [serde_json]'s, so it is a parameter with laws. *)

From S2P Require Import Prelude Messages Transform Text Utf8 Common.

(** [Uuid::parse_str], as the identifier's text in lower case *)
Class UuidParse := { parse_str : string -> option string }.

(** ** The text of an envelope

    [faithful] are the envelopes that reading gives back; a number that is not
    finite is not one, for instance. *)

Class IpcCodec `{JN : JsonNumbers} := {
  envelope_to_string : IpcEnvelope.t -> Res string string;
  envelope_from_str : string -> Res IpcEnvelope.t string;
  faithful : IpcEnvelope.t -> Prop
}.

(** Compact JSON: one line in UTF-8, without blanks around it, and since it is
    an object no proper prefix of it is a JSON text. *)
Class IpcCodecLaws `{IC : IpcCodec} := {
  envelope_line e s : envelope_to_string e = Ok s -> one_line s = true /\ trim s = s /\ s <> ""%string;
  envelope_utf8 e s : envelope_to_string e = Ok s -> Utf8.from_utf8 (as_bytes s) = true;
  envelope_read e s : envelope_to_string e = Ok s -> faithful e -> envelope_from_str s = Ok e;
  envelope_cut e s p :
    envelope_to_string e = Ok s -> starts_with p s = true -> p <> s -> is_ok (envelope_from_str (trim p)) = false
}.
Arguments IpcCodecLaws {JN} IC.

(** ** Connections *)

(** What has arrived of the peer's text: it may still come, it has ended, or
    reading fails behind it. *)
Inductive Ending : Type := Open | Closed | Broken (e : string).

Module Incoming.
Record t : Type := mk { text : string; ending : Ending }.
End Incoming.

(** Up to and with the first line feed, if there is one, and the rest *)
Fixpoint take_line (s : string) : option (string * string) :=
  match s with
  | EmptyString => None
  | String c s =>
      if Ascii.eqb c (Ascii.ascii_of_nat 10) then Some (String c EmptyString, s)
      else match take_line s with
           | Some (line, rest) => Some (String c line, rest)
           | None => None
           end
  end.

(** [read_line]: [None] while the line is not complete *)
Definition read_line (i : Incoming.t) : option (Res string string) * Incoming.t :=
  let whole line rest :=
    (Some (if Utf8.from_utf8 (as_bytes line) then Ok line else Err "stream did not contain valid UTF-8"%string),
     Incoming.mk rest (Incoming.ending i)) in
  match take_line (Incoming.text i) with
  | Some (line, rest) => whole line rest
  | None =>
      match Incoming.ending i with
      | Open => (None, i)
      | Closed => whole (Incoming.text i) ""%string
      | Broken e => (Some (Err e), i)
      end
  end.

(** How writing a text goes: all of it, or an error after some bytes *)
Inductive Wrote : Type := All | Failed (bytes : nat) (e : string).

Module IpcConnection.
Section connection.
Context `{IC : IpcCodec}.

Record t : Type := mk { reader : Incoming.t; writer : string }.

Definition new : t := mk (Incoming.mk "" Open) "".

(** [receive_message]: [None] while nothing is there to be received, [Ok None]
    when the peer has closed. *)
Definition receive_message (self : t) : option (Res (option IpcEnvelope.t) string) * t :=
  let '(read, rest) := read_line (reader self) in
  let self := mk rest (writer self) in
  match read with
  | None => (None, self)
  | Some (Err e) => (Some (Err e), self)
  | Some (Ok line) =>
      (Some (if str_is_empty line then Ok None
             else let? envelope := envelope_from_str (trim line) in Ok (Some envelope)), self)
  end.

(** [send_message] at [now], with a fresh correlation identifier *)
Definition send_message (now : Z) (id : string) (wrote : Wrote) (message : IpcMessage.t) (self : t) : Res unit string * t :=
  match envelope_to_string (IpcEnvelope.mk _ message now (Some id)) with
  | Err e => (Err e, self)
  | Ok json =>
      match wrote with
      | All => (Ok tt, mk (reader self) (writer self +:+ json +:+ newline))
      | Failed n e => (Err e, mk (reader self) (writer self +:+ String.substring 0 n (json +:+ newline)))
      end
  end.

(** A loop that receives until the connection ends or fails; [fuel] bounds the
    lines that are there. *)
Fixpoint receive_all (fuel : nat) (self : t) : list (Res (option IpcEnvelope.t) string) * t :=
  match fuel with
  | O => ([], self)
  | S fuel =>
      let '(received, self) := receive_message self in
      match received with
      | None => ([], self)
      | Some (Ok (Some envelope)) => let '(rest, self) := receive_all fuel self in (Ok (Some envelope) :: rest, self)
      | Some r => ([r], self)
      end
  end.

(** Every line has a byte, and the end takes one turn more. *)
Definition received (self : t) : list (Res (option IpcEnvelope.t) string) * t :=
  receive_all (S (String.length (Incoming.text (reader self)))) self.

Definition envelope_of (r : Res (option IpcEnvelope.t) string) : option IpcEnvelope.t :=
  match r with Ok o => o | Err _ => None end.

(** The loop of a server that hands each envelope to [handle] *)
Definition serve {A} (handle : IpcEnvelope.t -> A) (self : t) : list A * t :=
  let '(rs, self) := received self in (handle <$> omap envelope_of rs, self).
End connection.
End IpcConnection.

(** ** What is sent is received *)

Lemma take_line_ended l s : one_line l = true -> take_line (l +:+ newline +:+ s) = Some (l +:+ newline, s).
Proof.
  induction l as [|c l IH]; [done|]. rewrite one_line_cons, andb_true_iff, negb_true_iff. intros [Hc Hl].
  change (String c l +:+ newline +:+ s) with (String c (l +:+ newline +:+ s)). cbn [take_line]. by rewrite Hc, IH.
Qed.

Lemma take_line_none l : one_line l = true -> take_line l = None.
Proof.
  induction l as [|c l IH]; [done|]. rewrite one_line_cons, andb_true_iff, negb_true_iff. intros [Hc Hl].
  cbn [take_line]. by rewrite Hc, IH.
Qed.

Lemma one_line_prefix a b : one_line (a +:+ b) = true -> one_line a = true.
Proof.
  induction a as [|c a IH]; [done|]. change (String c a +:+ b) with (String c (a +:+ b)).
  rewrite !one_line_cons, !andb_true_iff. intros [? ?]. auto.
Qed.

Lemma str_length_app (a b : string) : String.length (a +:+ b) = (String.length a + String.length b)%nat.
Proof. by rewrite <- !length_as_bytes, as_bytes_app, length_app. Qed.

(** A prefix of two texts ends in the first or behind it. *)
Lemma starts_with_split p a b :
  starts_with p (a +:+ b) = true ->
  (starts_with p a = true /\ p <> a) \/ exists q, p = a +:+ q /\ starts_with q b = true.
Proof.
  revert p. induction a as [|c a IH]; intros p H; [right; by exists p|].
  destruct p as [|d p]; [by left|]. change (String c a +:+ b) with (String c (a +:+ b)) in H.
  unfold starts_with in *. cbn [String.prefix] in *. destruct (Ascii.ascii_dec d c) as [->|]; [|done].
  destruct (IH p H) as [[? ?]|(q & -> & ?)]; [left; split; congruence|right; by exists q].
Qed.

Section delivery.
Context `{IC : IpcCodec} {IL : IpcCodecLaws IC}.
Abbreviation Conn := IpcConnection.t.
Import IpcConnection.

(** The text of some envelopes, if they have one *)
Inductive wire : list IpcEnvelope.t -> string -> Prop :=
| wire_nil : wire [] ""
| wire_cons e es json s :
    envelope_to_string e = Ok json -> faithful e -> wire es s -> wire (e :: es) (json +:+ newline +:+ s).

Lemma receive_line e json rest ending w :
  envelope_to_string e = Ok json -> faithful e ->
  receive_message (mk (Incoming.mk (json +:+ newline +:+ rest) ending) w) =
    (Some (Ok (Some e)), mk (Incoming.mk rest ending) w).
Proof.
  intros He Hf. destruct (envelope_line e json He) as (Ho & Ht & Hn).
  unfold receive_message, read_line. cbn [reader writer Incoming.text Incoming.ending]. rewrite take_line_ended by done.
  rewrite as_bytes_app, from_utf8_app by by apply (envelope_utf8 e).
  change (Utf8.from_utf8 (as_bytes newline)) with true. cbn iota.
  assert (str_is_empty (json +:+ newline) = false) as -> by by destruct json.
  by rewrite trim_newline, Ht, (envelope_read e).
Qed.

(** Whatever becomes of a text cut before its line ends, it is not an envelope
    unless only the line feed is missing and the connection has closed. *)
Lemma receive_cut e json p ending w fuel :
  envelope_to_string e = Ok json -> starts_with p json = true -> p <> json ->
  omap envelope_of (receive_all fuel (mk (Incoming.mk p ending) w)).1 = [].
Proof.
  intros He Hp Hn. destruct (envelope_line e json He) as (Ho & _ & _).
  assert (Hl : one_line p = true) by (apply starts_with_spec in Hp as [r ->]; by eapply one_line_prefix).
  destruct fuel as [|fuel]; [done|]. cbn [receive_all]. unfold receive_message, read_line.
  cbn [reader writer Incoming.text Incoming.ending]. rewrite take_line_none by done.
  destruct ending; [done| |done]. destruct (Utf8.from_utf8 (as_bytes p)); [|done].
  destruct (str_is_empty p); [done|]. pose proof (envelope_cut e json p He Hp Hn) as Hc.
  by destruct (envelope_from_str (trim p)).
Qed.

Lemma receive_unended e json ending w fuel :
  envelope_to_string e = Ok json -> faithful e -> (2 <= fuel)%nat ->
  omap envelope_of (receive_all fuel (mk (Incoming.mk json ending) w)).1 =
    match ending with Closed => [e] | _ => [] end.
Proof.
  intros He Hf Hl. destruct (envelope_line e json He) as (Ho & Ht & Hn).
  destruct fuel as [|[|fuel]]; [lia..|]. cbn [receive_all]. unfold receive_message at 1, read_line.
  cbn [reader writer Incoming.text Incoming.ending]. rewrite take_line_none by done.
  destruct ending; [done| |done]. rewrite (envelope_utf8 e) by done.
  assert (str_is_empty json = false) as -> by by destruct json. by rewrite Ht, (envelope_read e).
Qed.

(** What an unended last line gives: its message, when the connection has closed
    behind all of it but its line feed, and nothing otherwise *)
Definition unended (ending : Ending) (next : option IpcEnvelope.t) (rest : string) : list IpcEnvelope.t :=
  match ending, next with
  | Closed, Some e =>
      match envelope_to_string e with
      | Ok json => if String.eqb json rest then [e] else []
      | Err _ => []
      end
  | _, _ => []
  end.

(** The text may be cut at any byte: it is some whole lines and a rest without
    a line feed, and the reader has the messages of exactly those lines, in
    order, and what the rest gives. *)
Lemma receive_prefix es s : wire es s -> forall p ending w fuel,
  starts_with p s = true -> (S (String.length p) <= fuel)%nat ->
  exists k t rest, (k <= length es)%nat /\ wire (take k es) t /\ p = t +:+ rest /\ one_line rest = true /\
    omap envelope_of (receive_all fuel (mk (Incoming.mk p ending) w)).1 =
      take k es ++ unended ending (es !! k) rest.
Proof.
  induction 1 as [|e es json s He Hf Hw IH]; intros p ending w fuel Hp Hl.
  - destruct p; [|done]. exists 0%nat, ""%string, ""%string.
    split_and!; [done|constructor|done|done|by destruct fuel, ending].
  - destruct (envelope_line e json He) as (Ho & Ht & Hn).
    destruct (starts_with_split p json (newline +:+ s) Hp) as [[Hj Hd]|(q & -> & Hq)].
    + exists 0%nat, ""%string, p. split_and!; [lia|constructor|done| |].
      * apply starts_with_spec in Hj as [r ->]. by eapply one_line_prefix.
      * rewrite (receive_cut e json) by done. destruct ending; [done| |done]. cbn. rewrite He.
        by destruct (String.eqb_spec json p).
    + destruct (starts_with_split q newline s Hq) as [[Hj Hd]|(q' & -> & Hq')].
      * assert (q = ""%string) as ->.
        { apply starts_with_spec in Hj as [r Hj]. by destruct q as [|c q]; [|injection Hj as <- Hj; destruct q; [destruct (Hd eq_refl)|done]]. }
        rewrite str_app_nil_r in *. exists 0%nat, ""%string, json. split_and!; [lia|constructor|done|done|].
        rewrite (receive_unended e) by (done || (destruct json; [done|cbn in Hl; lia])).
        destruct ending; [done| |done]. cbn. by rewrite He, String.eqb_refl.
      * rewrite !str_length_app in Hl. cbn in Hl. destruct fuel as [|fuel]; [lia|].
        destruct (IH q' ending w fuel Hq') as (k & t & rest & Hk & Hwt & -> & Hone & Hr); [lia|].
        exists (S k), (json +:+ newline +:+ t), rest. split_and!; [cbn; lia|by constructor|by rewrite !str_app_assoc|done|].
        cbn [receive_all]. rewrite (receive_line e) by done.
        destruct (receive_all fuel _) as [rs c]. cbn [fst] in *. cbn. by rewrite Hr.
Qed.

(** Messages sent one after the other, each with its time and identifier *)
Definition envelope (m : Z * string * IpcMessage.t) : IpcEnvelope.t := IpcEnvelope.mk _ m.2 m.1.1 (Some m.1.2).

Fixpoint send_all (ms : list (Z * string * IpcMessage.t)) (self : Conn) : Res unit string * Conn :=
  match ms with
  | [] => (Ok tt, self)
  | (now, id, message) :: ms =>
      let '(r, self) := send_message now id All message self in
      match r with Ok _ => send_all ms self | Err e => (Err e, self) end
  end.

Lemma send_all_wire ms : forall self,
  Forall (fun m => is_ok (envelope_to_string (envelope m)) = true /\ faithful (envelope m)) ms ->
  exists s, wire (envelope <$> ms) s /\
    send_all ms self = (Ok tt, mk (reader self) (writer self +:+ s)).
Proof.
  induction ms as [|[[now id] message] ms IH]; intros self H.
  - exists ""%string. split; [constructor|]. rewrite str_app_nil_r. by destruct self.
  - apply Forall_cons in H as [[Hk Hf] H]. apply is_ok_iff in Hk as [json Hj].
    cbn [send_all]. unfold send_message. change (IpcEnvelope.mk _ message now (Some id)) with (envelope (now, id, message)).
    rewrite Hj. destruct (IH (mk (reader self) (writer self +:+ json +:+ newline)) H) as (s & Hw & ->).
    exists (json +:+ newline +:+ s). split; [by constructor|]. cbn [reader writer]. by rewrite !str_app_assoc.
Qed.

(** Reading writes nothing. *)
Lemma receive_writer self : writer (receive_message self).2 = writer self.
Proof.
  unfold receive_message. destruct (read_line (reader self)) as [r rest].
  by destruct r as [[line|e]|].
Qed.

Lemma receive_all_writer fuel : forall self, writer (receive_all fuel self).2 = writer self.
Proof.
  induction fuel as [|fuel IH]; intros self; [done|]. cbn [receive_all].
  pose proof (receive_writer self) as Hw. destruct (receive_message self) as [r self1]. cbn [snd] in Hw.
  destruct r as [[[e|]|e]|]; try done. specialize (IH self1). destruct (receive_all fuel self1). cbn [snd] in *. congruence.
Qed.

Lemma serve_writer {A} (handle : IpcEnvelope.t -> A) self : writer (serve handle self).2 = writer self.
Proof.
  unfold serve, received. pose proof (receive_all_writer (S (String.length (Incoming.text (reader self)))) self) as H.
  by destruct (receive_all _ self).
Qed.
End delivery.

(** C21: the socket's messages are a round trip.  The messages one side sends,
    each with an envelope that JSON keeps, are all written, one line each; and
    wherever the connection is cut, at any byte of the text, the other side
    receives exactly the messages whose lines have come in whole, in their
    order, with their times and identifiers.  Of a last line without its line
    feed it receives nothing while the connection is open or when reading fails;
    once the peer has closed it receives the message if only the line feed is
    missing, and nothing otherwise. *)
Theorem messages_are_received_in_order `{IC : IpcCodec} {IL : IpcCodecLaws IC} ms (self : IpcConnection.t) :
  Forall (fun m => is_ok (envelope_to_string (envelope m)) = true /\ faithful (envelope m)) ms ->
  let es : list IpcEnvelope.t := List.map envelope ms in
  exists s, wire es s /\
    send_all ms self =
      (Ok tt, IpcConnection.mk (IpcConnection.reader self) (IpcConnection.writer self +:+ s)) /\
    forall p ending w, starts_with p s = true ->
      exists k whole rest, (k <= length es)%nat /\
        wire (take k es) whole /\ p = whole +:+ rest /\ one_line rest = true /\
        omap IpcConnection.envelope_of (IpcConnection.received (IpcConnection.mk (Incoming.mk p ending) w)).1 =
          take k es ++
          match ending, es !! k with
          | Closed, Some e =>
              match envelope_to_string e with
              | Ok json => if String.eqb json rest then [e] else []
              | Err _ => []
              end
          | _, _ => []
          end.
Proof.
  intros H es. change es with (envelope <$> ms). destruct (send_all_wire ms self H) as (s & Hw & Hs). exists s. split_and!; [done..|].
  intros p ending w Hp. unfold IpcConnection.received. cbn [IpcConnection.reader Incoming.text].
  exact (receive_prefix _ s Hw p ending w (S (String.length p)) Hp ltac:(done)).
Qed.

(** *** A codec of three envelopes *)

Module ToyIpc.
Import ToyNumbers.
Definition ping : IpcEnvelope.t := IpcEnvelope.mk toy_numbers IpcMessage.Ping 3 (Some "a"%string).
Definition query : IpcEnvelope.t := IpcEnvelope.mk toy_numbers (IpcMessage.TuiQuery "hello" "q") 3 (Some "a"%string).
Definition status : IpcEnvelope.t := IpcEnvelope.mk toy_numbers (IpcMessage.GetStatus "p") 3 (Some "a"%string).

#[export] Instance toy_ipc : IpcCodec := {|
  envelope_to_string e :=
    match IpcEnvelope.message e with
    | IpcMessage.Ping => Ok "ping"%string
    | IpcMessage.TuiQuery _ _ => Ok "query"%string
    | IpcMessage.GetStatus _ => Ok "status"%string
    | _ => Err "not in this codec"%string
    end;
  envelope_from_str s :=
    if String.eqb s "ping" then Ok ping else if String.eqb s "query" then Ok query
    else if String.eqb s "status" then Ok status else Err "expected value"%string;
  faithful e := e = ping \/ e = query \/ e = status
|}.

Lemma text_of e s : envelope_to_string e = Ok s -> s = "ping"%string \/ s = "query"%string \/ s = "status"%string.
Proof. cbn. destruct (IpcEnvelope.message e); intros [=]; auto. Qed.

#[export] Instance toy_ipc_laws : IpcCodecLaws toy_ipc.
Proof.
  split.
  - by intros e s [-> |[-> | ->]]%text_of.
  - by intros e s [-> |[-> | ->]]%text_of.
  - intros e s He [-> |[-> | ->]]; cbn in *; by simplify_eq.
  - intros e s p [-> |[-> | ->]]%text_of Hp Hn;
      repeat (destruct p as [|?c p]; [done || by vm_compute|]; unfold starts_with in Hp; cbn [String.prefix] in Hp;
              try done;
              match type of Hp with context [Ascii.ascii_dec ?a ?b] => destruct (Ascii.ascii_dec a b) as [->|]; [|done] end).
Qed.
End ToyIpc.

#[local] Existing Instance ToyNumbers.toy_numbers.
#[local] Existing Instance ToyIpc.toy_ipc.
#[local] Existing Instance ToyIpc.toy_ipc_laws.

Lemma messages_are_received_in_order_witness :
  exists k whole rest, wire (take k [ToyIpc.ping; ToyIpc.query]) whole /\
    ("ping" +:+ newline +:+ "que")%string = whole +:+ rest /\ one_line rest = true /\
    omap IpcConnection.envelope_of
        (IpcConnection.received (IpcConnection.mk (Incoming.mk ("ping" +:+ newline +:+ "que") Open) "")).1 =
      take k [ToyIpc.ping; ToyIpc.query] ++ [].
Proof.
  destruct (messages_are_received_in_order (IC := ToyIpc.toy_ipc)
              [(3, "a"%string, IpcMessage.Ping); (3, "a"%string, IpcMessage.TuiQuery "hello" "q")] IpcConnection.new)
    as (s & Hw & Hs & Hr).
  - repeat constructor; by (left + (right; left)).
  - destruct (Hr ("ping" +:+ newline +:+ "que")%string Open ""%string) as (k & whole & rest & Hk & Hwt & Hp & Ho & He).
    + vm_compute in Hs. by injection Hs as <-.
    + exists k, whole, rest. split; [exact Hwt|]. split; [exact Hp|]. split; [exact Ho|exact He].
Defined.
