(* ===== verification/Runtimes.v ===== *)
(** The runtimes of the sandbox ([acdp-sandbox/src/runtime.rs] and
    [runtime/]): a shell, WebAssembly under wasmtime and JavaScript under V8.
    The operating system and the two engines are a host that is a parameter;
    what the runtimes make of what it does is modelled. *)

From S2P Require Import Prelude Messages Transform Text Utf8 Execution Sandbox.

(** ** The host *)

(** A child process: what comes out of its pipes until they close, and after
    how many milliseconds waiting for it returns, with its exit code (none
    after a signal); [None] when it does not end by itself. *)
Module Child.
Record t : Type := mk { out : bytes; err : bytes; ends : option (Z * Res (option Z) string) }.
End Child.

(** wasmtime's configuration; the default stack is half a mebibyte. *)
Module EngineConfig.
Record t : Type := mk { async_support : bool; max_wasm_stack : Z; memory_init_cow : bool }.
Definition new : t := mk false (512 * 1024) true.
End EngineConfig.

(** How a call of [_start] ends, and what the module has written by then *)
Inductive WasmEnd : Type := Returned | I32Exit (code : Z) | Trapped (e : string).

Module WasmCall.
Record t : Type := mk { out : bytes; err : bytes; ends : option (Z * WasmEnd) }.
End WasmCall.

(** What V8 is started with, and how a script ends *)
Module RuntimeOptions.
Record t : Type := mk { startup_snapshot : option bytes; heap_limits : option (Z * Z) }.
End RuntimeOptions.

Inductive ScriptEnd : Type := Evaluated (text : string) | Threw (e : string) | Panicked (e : string).

Class RuntimeHost := {
  spawn_child : string -> list string -> Res Child.t string;
  base64_standard_decode : string -> option bytes;
  engine_new : EngineConfig.t -> Res unit string;
  WasmModule : Type;
  WasmInstance : Type;
  WasmFunc : Type;
  module_from_binary : EngineConfig.t -> bytes -> Res WasmModule string;
  add_wasi : EngineConfig.t -> Res unit string;
  instantiate : WasmModule -> Res WasmInstance string;
  typed_start : WasmInstance -> Res WasmFunc string;
  call_start : WasmFunc -> WasmCall.t;
  execute_script : RuntimeOptions.t -> string -> option (Z * ScriptEnd)
}.

(** [Config::async_stack_size] is two mebibytes unless it is set, and cannot be
    less than the stack of the module. *)
Definition async_stack_size : Z := 2 * 1024 * 1024.

Class RuntimeHostLaws `{RH : RuntimeHost} := {
  engine_stack config :
    EngineConfig.async_support config = true -> async_stack_size < EngineConfig.max_wasm_stack config ->
    is_ok (engine_new config) = false
}.
Arguments RuntimeHostLaws RH : clear implicits.

(** ** Runs

    What a runtime will send: the lines of the two streams, and the result if
    the program or a limit ever ends the run. *)

Inductive Fate : Type := Sent (r : ExecutionResult.t) | NeverSent.

Module Run.
Record t : Type := mk { stdout : list bytes; stderr : list bytes; fate : Fate }.

Definition failed (elapsed : Z) (stderr : list bytes) (error : string) : t :=
  mk [] stderr (Sent (ExecutionResult.mk 1 (wrap_u64 elapsed) false (Some error))).

(** The stream as the service sees it once the run has ended *)
Definition stream (self : t) : option RuntimeStream.t :=
  match fate self with
  | Sent r => Some (RuntimeStream.mk (stdout self) (stderr self) (Some r))
  | NeverSent => None
  end.
End Run.

(** [timeout(limit, task)]: the end of the task, unless the limit comes first *)
Inductive Timed (A : Type) : Type := Finished (a : A) | Elapsed | Running.
Arguments Finished {A} a.
Arguments Elapsed {A}.
Arguments Running {A}.

Definition timeout {A} (limit : option Z) (ends : option (Z * A)) : Timed A :=
  match ends, limit with
  | Some (after, a), Some limit => if after <=? limit then Finished a else Elapsed
  | Some (_, a), None => Finished a
  | None, Some _ => Elapsed
  | None, None => Running
  end.

(** ** The shell ([process.rs]) *)

Module ProcessRuntime.
Section process.
Context `{RH : RuntimeHost}.

Record t : Type := mk { shell : string }.

(** [SHELL] from the environment *)
Definition new (shell_var : option string) : t := mk (from_option id "/bin/sh"%string shell_var).
Definition with_shell (shell : string) : t := mk shell.
Definition name : string := "process".

(** A stream is forwarded line by line, each with a newline, until the first
    line that is not UTF-8. *)
Fixpoint forward (ls : list (string * bool)) : list bytes :=
  match ls with
  | [] => []
  | (l, ended) :: ls =>
      if Utf8.from_utf8 (as_bytes l)
      then as_bytes ((if ended : bool then strip_return l else l) +:+ newline) :: forward ls
      else []
  end.

Definition forward_lines (bs : bytes) : list bytes := forward (raw_lines (String.string_of_list_byte bs)).

(** [elapsed] is what the clock says in the end.  The environment and the
    standard input of the request are not used. *)
Definition execute (elapsed : Z) (self : t) (request : ExecutionRequest.t) : Run.t :=
  match spawn_child (shell self) ["-c"%string; ExecutionRequest.code request] with
  | Err e => Run.failed elapsed [] ("Failed to spawn process: " +:+ e)
  | Ok child =>
      let result code timed_out error := Sent (ExecutionResult.mk code (wrap_u64 elapsed) timed_out error) in
      Run.mk (forward_lines (Child.out child)) (forward_lines (Child.err child))
        (match timeout (option_map (Z.mul 1000) (ExecutionRequest.timeout_secs request)) (Child.ends child) with
         | Finished (Ok code) => result (from_option id 1 code) false None
         | Finished (Err e) => result 1 false (Some ("Process wait error: " +:+ e))
         (* the child is killed, and [ExitStatus::default()] is the status 0 *)
         | Elapsed => result 0 true None
         | Running => NeverSent
         end)
  end.
End process.
End ProcessRuntime.

(** ** WebAssembly ([wasm.rs]) *)

Module WasmRuntime.
Section wasm.
Context `{RH : RuntimeHost}.

Record t : Type := mk { engine : EngineConfig.t; limits : SandboxLimits.t }.

Definition base_config : EngineConfig.t := EngineConfig.mk true (512 * 1024) true.

Definition new : Res t string :=
  let? _ := engine_new base_config in Ok (mk base_config SandboxLimits.default).

(** The memory limit becomes the limit of the stack. *)
Definition with_limits (limits : SandboxLimits.t) : Res t string :=
  let config :=
    match SandboxLimits.max_memory_bytes limits with
    | Some max_memory => EngineConfig.mk true max_memory false
    | None => base_config
    end in
  let? _ := engine_new config in Ok (mk config limits).

Definition with_config (config : EngineConfig.t) : Res t string :=
  let? _ := engine_new config in Ok (mk config SandboxLimits.default).

Definition name : string := "wasm".

(** Raw when it begins with a zero byte, otherwise base64, and raw again when
    it is not base64 *)
Definition wasm_bytes (code : string) : bytes :=
  match as_bytes code with
  | Byte.x00 :: _ => as_bytes code
  | _ => match base64_standard_decode code with Some bs => bs | None => as_bytes code end
  end.

Definition line (e : string) : bytes := as_bytes (e +:+ newline).

Definition finish (elapsed : Z) (call : WasmCall.t) : Run.t :=
  match timeout None (WasmCall.ends call) with
  | Finished how =>
      let '(exit_code, error_msg) :=
        match how with
        | Returned => (0, None)
        | I32Exit code => (code, if code =? 0 then None else Some ("Program exited with code " +:+ pretty code))
        | Trapped e => (1, Some ("Execution error: " +:+ e))
        end in
      Run.mk (match WasmCall.out call with [] => [] | out => [out] end)
        (match WasmCall.err call, error_msg with
         | [], Some e => [line e]
         | [], None => []
         | err, _ => [err]
         end)
        (Sent (ExecutionResult.mk exit_code (wrap_u64 elapsed) false error_msg))
  | _ => Run.mk [] [] NeverSent
  end.

Definition execute (elapsed : Z) (self : t) (request : ExecutionRequest.t) : Run.t :=
  match module_from_binary (engine self) (wasm_bytes (ExecutionRequest.code request)) with
  | Err e => Run.failed elapsed [line ("WASM parse error: " +:+ e)] ("Failed to parse WASM module: " +:+ e)
  | Ok m =>
      match add_wasi (engine self) with
      | Err e => Run.failed elapsed [line e] ("Failed to link WASI: " +:+ e)
      | Ok _ =>
          match instantiate m with
          | Err e => Run.failed elapsed [line e] ("Failed to instantiate module: " +:+ e)
          | Ok instance =>
              match typed_start instance with
              | Err e => Run.failed elapsed [line e] ("Failed to get _start function: " +:+ e)
              | Ok func => finish elapsed (call_start func)
              end
          end
      end
  end.
End wasm.
End WasmRuntime.

(** The runtime of a build without WebAssembly ([runtime.rs]) *)
Module WasmPlaceholder.
Definition name : string := "wasm".
Definition execute (request : ExecutionRequest.t) : Run.t :=
  Run.failed 0 [] "WASM runtime not enabled. Compile with --features wasm".
End WasmPlaceholder.

(** ** JavaScript ([v8/]) *)

(** A file of the system: whether it exists, and how reading and removing it go *)
Module SnapshotManager.
Record File : Type := MkFile { exists_ : bool; read : Res bytes string; remove : Res unit string }.

Definition load (path : string) (file : File) : Res bytes string :=
  if negb (exists_ file) then Err ("Snapshot not found at " +:+ path) else read file.

Definition get_or_create (path : string) (file : File) : Res (option bytes) string :=
  if exists_ file then let? data := load path file in Ok (Some data) else Ok None.

Definition delete (file : File) : Res unit string :=
  if exists_ file then remove file else Ok tt.
End SnapshotManager.

(** [{:?}] of a duration of whole milliseconds *)
Definition duration_debug (ms : Z) : string :=
  let strip_zeros (s : string) : string :=
    if ends_with_char "0" s then let s := drop_last_char s in if ends_with_char "0" s then drop_last_char s else s else s in
  if ms =? 0 then "0ns"
  else if ms <? 1000 then pretty ms +:+ "ms"
  else if ms mod 1000 =? 0 then pretty (ms / 1000) +:+ "s"
  else pretty (ms / 1000) +:+ "." +:+ strip_zeros (decimal_digits 3 (ms mod 1000)) +:+ "s".

Module V8Runtime.
Section v8.
Context `{RH : RuntimeHost}.

Record t : Type := mk { snapshot : option bytes; limits : SandboxLimits.t }.

Definition new : t := mk None SandboxLimits.default.
Definition with_limits (limits : SandboxLimits.t) : t := mk None limits.
Definition with_snapshot (snapshot : bytes) : t := mk (Some snapshot) SandboxLimits.default.
Definition with_snapshot_and_limits (snapshot : bytes) (limits : SandboxLimits.t) : t := mk (Some snapshot) limits.

Definition from_snapshot_config (path : string) (file : SnapshotManager.File) : Res t string :=
  let? snapshot := SnapshotManager.get_or_create path file in
  Ok (mk snapshot SandboxLimits.default).

Definition name : string := "v8".

Definition runtime_options (self : t) : RuntimeOptions.t :=
  RuntimeOptions.mk (snapshot self)
    (option_map (fun max_bytes => (Z.min (max_bytes / 10) (10 * 1024 * 1024), max_bytes))
       (SandboxLimits.max_memory_bytes (limits self))).

(** What the blocking task sends and returns; a panic has no result. *)
Definition printed (e : ScriptEnd) : list bytes * list bytes :=
  match e with
  | Evaluated text => ((if String.eqb text "undefined" then [] else [as_bytes (text +:+ newline)]), [])
  | Threw e => ([], [as_bytes (e +:+ newline)])
  | Panicked _ => ([], [])
  end.

(** A script that a limit overtakes is not stopped: it goes on in its thread,
    and what it prints is still sent. *)
Definition execute (elapsed : Z) (self : t) (request : ExecutionRequest.t) : Run.t :=
  let ends := execute_script (runtime_options self) (ExecutionRequest.code request) in
  let '(out, err) := match ends with Some (_, e) => printed e | None => ([], []) end in
  let result code timed_out error := Sent (ExecutionResult.mk code (wrap_u64 elapsed) timed_out error) in
  Run.mk out err
    (match timeout (SandboxLimits.max_duration (limits self)) ends with
     | Finished (Evaluated _) => result 0 false None
     | Finished (Threw e) => result 1 false (Some ("Execution error: " +:+ e))
     | Finished (Panicked e) => result 1 false (Some ("Task panicked: " +:+ e))
     | Elapsed =>
         result 124 true
           (option_map (fun d => "Execution timed out after " +:+ duration_debug d)
              (SandboxLimits.max_duration (limits self)))
     | Running => NeverSent
     end).
End v8.
End V8Runtime.

(** The fetch operations of the worker ([worker.rs]).  A request is its method,
    address, headers and body; [http] sends it and reads the whole answer. *)
Module V8Worker.
Section worker.
Context `{JT : JsonText, UC : UnicodeCase}.

Record HttpRequest : Type := MkRequest {
  method : string;
  url : string;
  headers : list (string * string);
  body : option string
}.

(** The failure to send, or the status with the outcome of reading the text *)
Context (http : HttpRequest -> Res (Z * Res string string) string).

Definition answer (what : string) (request : HttpRequest) : Res string string :=
  let? response := map_err (fun e => what +:+ " failed: " +:+ e) (http request) in
  let? text := map_err (fun e => "Failed to read response: " +:+ e) response.2 in
  Ok (json_to_string (VObject [("body"%string, VString text); ("status"%string, VNumber (num_from_i64 response.1))])).

Definition op_fetch (url : string) : Res string string := answer "Fetch" (MkRequest "GET" url [] None).

Definition methods : list string := ["GET"; "POST"; "PUT"; "DELETE"; "PATCH"].

Definition text_headers (headers : option Value) : list (string * string) :=
  match headers with
  | Some (VObject entries) => omap (fun '(k, v) => match v with VString s => Some (k, s) | _ => None end) entries
  | _ => []
  end.

Definition op_fetch_request (url method : string) (body : option string) (headers : option Value) : Res string string :=
  let verb := to_uppercase method in
  if existsb (String.eqb verb) methods
  then answer "Request" (MkRequest verb url (text_headers headers) body)
  else Err ("Unsupported HTTP method: " +:+ method).
End worker.
End V8Worker.

(** ** A runtime as the service holds it *)

(** The trait object that [create_runtime] returns, as the choice and the
    limits it was made with *)
Inductive Built : Type :=
| BuiltProcess (p : ProcessRuntime.t)
| BuiltV8 (v : V8Runtime.t)
| BuiltWasm (w : WasmRuntime.t).

Section built.
Context `{RH : RuntimeHost}.

Definition execute (elapsed : Z) (b : Built) (request : ExecutionRequest.t) : Run.t :=
  match b with
  | BuiltProcess p => ProcessRuntime.execute elapsed p request
  | BuiltV8 v => V8Runtime.execute elapsed v request
  | BuiltWasm w => WasmRuntime.execute elapsed w request
  end.

(** [WasmRuntime::with_limits] as the selector calls it *)
Definition create_wasm (limits : SandboxLimits.t) : Res unit string :=
  let? _ := WasmRuntime.with_limits limits in Ok tt.

(** The runtime behind a decision *)
Definition build (fs : Features) (shell_var : option string) (d : RuntimeDecision.t) : Res Built SelectionError :=
  let? made := RuntimeSelector.create_runtime fs create_wasm d in
  match made with
  | (Process, _) => Ok (BuiltProcess (ProcessRuntime.new shell_var))
  | (V8, limits) => Ok (BuiltV8 (V8Runtime.with_limits (from_option id SandboxLimits.default limits)))
  | (Wasm, limits) =>
      let? w := map_err RuntimeCreation (WasmRuntime.with_limits (from_option id SandboxLimits.default limits)) in
      Ok (BuiltWasm w)
  end.

(** *** What a run should report *)


End built.


(** ** Limits *)

Section limits.
Context `{RH : RuntimeHost}.

Lemma with_limits_engine limits w :
  WasmRuntime.with_limits limits = Ok w -> is_ok (create_wasm limits) = true.
Proof. intros H. unfold create_wasm. by rewrite H. Qed.

(** What [build] makes is of the decision's runtime, with its limits. *)
Lemma build_choice fs shell d b :
  build fs shell d = Ok b ->
  match b with
  | BuiltProcess _ => RuntimeDecision.runtime_type d = Process
  | BuiltV8 v => RuntimeDecision.runtime_type d = V8 /\ V8Runtime.limits v = RuntimeDecision.limits d
  | BuiltWasm w => RuntimeDecision.runtime_type d = Wasm /\ WasmRuntime.with_limits (RuntimeDecision.limits d) = Ok w
  end.
Proof.
  unfold build, RuntimeSelector.create_runtime. destruct (RuntimeDecision.runtime_type d).
  - destruct (f_process fs); intros [= <-]. done.
  - destruct (f_v8 fs); intros [= <-]. done.
  - destruct (f_wasm fs); [|done]. unfold create_wasm. cbn [from_option id].
    destruct (WasmRuntime.with_limits (RuntimeDecision.limits d)) as [w|e] eqn:E; cbn; rewrite ?E; intros [= <-]. done.
Qed.

(** A memory limit above the stack's bound keeps the engine from being made. *)
Lemma with_limits_memory {RL : RuntimeHostLaws RH} limits m :
  SandboxLimits.max_memory_bytes limits = Some m -> async_stack_size < m ->
  is_ok (WasmRuntime.with_limits limits) = false.
Proof.
  intros Hm Hl. unfold WasmRuntime.with_limits. rewrite Hm.
  pose proof (engine_stack (EngineConfig.mk true m false) eq_refl Hl) as He.
  by destruct (engine_new _).
Qed.

Lemma default_limits_memory tool level :
  exists m, SandboxLimits.max_memory_bytes (SecurityPolicy.get_limits SecurityPolicy.default tool level) = Some m /\
    async_stack_size < m.
Proof. by destruct level; eexists. Qed.

Lemma default_untrusted tool r :
  r ∈ SecurityPolicy.allowed_runtimes SecurityPolicy.default tool Untrusted -> r = Wasm.
Proof.
  intros H. apply SecurityPolicy.is_runtime_allowed_spec in H. by destruct r.
Qed.
End limits.

(** What is learnt of a run: whether a limit cut it off, if anything is ever
    reported *)
Definition reported (fate : Fate) : option bool :=
  match fate with Sent r => Some (ExecutionResult.timed_out r) | NeverSent => None end.

(** What should be learnt of a program that ends by itself after some time, if
    ever, under a limit, if there is one *)
Definition under_limit {A} (limit : option Z) (ends : option (Z * A)) : option bool :=
  match limit, ends with
  | Some limit, Some (after, _) => Some (limit <? after)
  | Some _, None => Some true
  | None, Some _ => Some false
  | None, None => None
  end.

Section cut.
Context `{RH : RuntimeHost}.

Lemma process_cut elapsed (p : ProcessRuntime.t) request :
  reported (Run.fate (ProcessRuntime.execute elapsed p request)) =
    match spawn_child (ProcessRuntime.shell p) ["-c"%string; ExecutionRequest.code request] with
    | Err _ => Some false
    | Ok child => under_limit (option_map (Z.mul 1000) (ExecutionRequest.timeout_secs request)) (Child.ends child)
    end.
Proof.
  unfold ProcessRuntime.execute. destruct (spawn_child _ _) as [child|e]; [|done]. cbn [Run.fate]. unfold timeout, under_limit.
  destruct (Child.ends child) as [[after how]|], (option_map _ _) as [limit|]; [|by destruct how|done..].
  rewrite Z.leb_antisym. by destruct (limit <? after), how.
Qed.

Lemma v8_cut elapsed (v : V8Runtime.t) request :
  reported (Run.fate (V8Runtime.execute elapsed v request)) =
    under_limit (SandboxLimits.max_duration (V8Runtime.limits v))
      (execute_script (V8Runtime.runtime_options v) (ExecutionRequest.code request)).
Proof.
  unfold V8Runtime.execute. destruct (execute_script _ _) as [[after how]|].
  - destruct (V8Runtime.printed how) as [out err]. cbn [Run.fate]. unfold timeout, under_limit.
    destruct (SandboxLimits.max_duration _) as [limit|]; [|by destruct how].
    rewrite Z.leb_antisym. by destruct (limit <? after), how.
  - cbn [Run.fate]. unfold timeout, under_limit. by destruct (SandboxLimits.max_duration _).
Qed.

(** A module runs from its bytes to its start without a limit. *)
Lemma wasm_cut elapsed (w : WasmRuntime.t) request :
  reported (Run.fate (WasmRuntime.execute elapsed w request)) =
    match (let? m := module_from_binary (WasmRuntime.engine w) (WasmRuntime.wasm_bytes (ExecutionRequest.code request)) in
           let? _ := add_wasi (WasmRuntime.engine w) in
           let? i := instantiate m in typed_start i) with
    | Err _ => Some false
    | Ok func => under_limit None (WasmCall.ends (call_start func))
    end.
Proof.
  unfold WasmRuntime.execute. destruct (module_from_binary _ _) as [m|e]; [|done]. cbn [res_bind].
  destruct (add_wasi _) as [u|e]; [|done]. cbn [res_bind]. destruct (instantiate m) as [i|e]; [|done].
  cbn [res_bind]. destruct (typed_start i) as [f|e]; [|done]. unfold WasmRuntime.finish.
  destruct (WasmCall.ends (call_start f)) as [[after how]|]; [|done]. by destruct how.
Qed.

(** The runtime of a decision, in full *)
Lemma build_made fs shell d b :
  build fs shell d = Ok b ->
  b = match RuntimeDecision.runtime_type d with
      | Process => BuiltProcess (ProcessRuntime.new shell)
      | V8 => BuiltV8 (V8Runtime.mk None (RuntimeDecision.limits d))
      | Wasm => BuiltWasm (WasmRuntime.mk
                  match SandboxLimits.max_memory_bytes (RuntimeDecision.limits d) with
                  | Some max_memory => EngineConfig.mk true max_memory false
                  | None => WasmRuntime.base_config
                  end (RuntimeDecision.limits d))
      end.
Proof.
  unfold build, RuntimeSelector.create_runtime. destruct (RuntimeDecision.runtime_type d).
  - by destruct (f_process fs); intros [= <-].
  - by destruct (f_v8 fs); intros [= <-].
  - destruct (f_wasm fs); [|done]. unfold create_wasm, WasmRuntime.with_limits. cbn [from_option id].
    destruct (engine_new _) as [u|e] eqn:E; cbn; rewrite ?E; by intros [= <-].
Qed.
End cut.

(** C39: the policy's limits and the runtimes.  For whatever tool and policy the
    selector decides, a run on the runtime of the decision is cut off as
    follows.  On V8 it is when the script has not ended within the policy's
    time limit for the tool, and the heap of the script is bounded by the
    policy's memory limit.  A process is by the request's own limit alone.  A
    module of WebAssembly never is: one that does not end never gets a result.
    The memory limit, which the code hands to wasmtime as the size of the
    stack, keeps the WebAssembly runtime from being built when it is above
    2 MiB; that is so under the default policy, which allows an untrusted tool
    no other runtime, so there no untrusted tool gets a runtime. *)
Theorem policy_limits_and_runtimes `{RH : RuntimeHost} {RL : RuntimeHostLaws RH} iter fs policy shell tool d elapsed request :
  (forall X, iter X ≡ₚ elements X) ->
  RuntimeSelector.select_runtime iter (RuntimeSelector.new fs policy) tool = Ok d ->
  let limits := SecurityPolicy.get_limits policy (ToolDefinition.id tool) (ToolDefinition.trust_level tool) in
  let code := ExecutionRequest.code request in
  (forall b, build fs shell d = Ok b ->
     reported (Run.fate (execute elapsed b request)) =
       match RuntimeDecision.runtime_type d with
       | V8 =>
           under_limit (SandboxLimits.max_duration limits)
             (execute_script
                (RuntimeOptions.mk None
                   (option_map (fun m => (Z.min (m / 10) (10 * 1024 * 1024), m)) (SandboxLimits.max_memory_bytes limits))) code)
       | Process =>
           match spawn_child (from_option id "/bin/sh"%string shell) ["-c"%string; code] with
           | Err _ => Some false
           | Ok child => under_limit (option_map (Z.mul 1000) (ExecutionRequest.timeout_secs request)) (Child.ends child)
           end
       | Wasm =>
           let engine :=
             match SandboxLimits.max_memory_bytes limits with
             | Some stack => EngineConfig.mk true stack false
             | None => WasmRuntime.base_config
             end in
           match (let? m := module_from_binary engine (WasmRuntime.wasm_bytes code) in
                  let? _ := add_wasi engine in let? i := instantiate m in typed_start i) with
           | Err _ => Some false
           | Ok func => under_limit None (WasmCall.ends (call_start func))
           end
       end) /\
  (forall m, RuntimeDecision.runtime_type d = Wasm -> SandboxLimits.max_memory_bytes limits = Some m -> 2 * 1024 * 1024 < m ->
     is_ok (build fs shell d) = false) /\
  (policy = SecurityPolicy.default ->
   RuntimeDecision.runtime_type d = Wasm \/ ToolDefinition.trust_level tool = Untrusted ->
   is_ok (build fs shell d) = false).
Proof.
  intros Hiter Hd. pose proof (select_decision_fields iter _ _ _ Hd) as [Hl _]. cbn [RuntimeSelector.policy RuntimeSelector.new] in Hl.
  pose proof (select_choice_member iter (RuntimeSelector.new fs policy) tool d Hiter Hd) as Hm. intros limits code.
  assert (Hw : forall m, RuntimeDecision.runtime_type d = Wasm -> SandboxLimits.max_memory_bytes limits = Some m ->
                 async_stack_size < m -> is_ok (build fs shell d) = false).
  { intros m E Hmem Hs. destruct (build fs shell d) as [b|e] eqn:Hb; [|done]. apply build_choice in Hb.
    destruct b as [p|v|w]; [congruence|by destruct Hb; congruence|]. destruct Hb as [_ H]. rewrite Hl in H.
    pose proof (with_limits_memory limits m Hmem Hs) as Hf. fold limits in H. by rewrite H in Hf. }
  split_and!; [|exact Hw|].
  - intros b ->%build_made. rewrite Hl. unfold execute. destruct (RuntimeDecision.runtime_type d);
      [by rewrite process_cut|by rewrite v8_cut|by rewrite wasm_cut].
  - intros -> E. destruct (default_limits_memory (ToolDefinition.id tool) (ToolDefinition.trust_level tool)) as (m & Hmem & Hs).
    apply (Hw m); [|done..]. destruct E as [E|E]; [done|]. apply elem_of_intersection in Hm as [Hm _].
    cbn [RuntimeSelector.policy RuntimeSelector.new] in Hm. rewrite E in Hm. by apply default_untrusted in Hm.
Qed.

(** ** The output of the shell *)

Section output.

Definition forwarded (l : string) : bytes := as_bytes (strip_return l +:+ newline).

(** Lines in UTF-8 go through, without a carriage return, and the text behind
    them is on its own. *)
Lemma forward_lines_ended ls rest :
  Forall (fun l => one_line l = true /\ Utf8.from_utf8 (as_bytes l) = true) ls ->
  ProcessRuntime.forward_lines (as_bytes (unlines ls +:+ rest)) =
    (forwarded <$> ls) ++ ProcessRuntime.forward_lines (as_bytes rest).
Proof.
  unfold ProcessRuntime.forward_lines.
  change (as_bytes (unlines ls +:+ rest)) with (String.list_byte_of_string (unlines ls +:+ rest)).
  change (as_bytes rest) with (String.list_byte_of_string rest).
  rewrite !String.string_of_list_byte_of_string.
  induction 1 as [|l ls [Ho Hu] _ IH]; [done|].
  rewrite unlines_cons, !str_app_assoc, raw_lines_ended by done. cbn [ProcessRuntime.forward]. rewrite Hu.
  by rewrite IH.
Qed.

(** The first line that is not UTF-8 ends the stream, and what comes behind it
    is lost. *)
Lemma forward_lines_lost bad rest :
  one_line bad = true -> Utf8.from_utf8 (as_bytes bad) = false ->
  ProcessRuntime.forward_lines (as_bytes (bad +:+ newline +:+ rest)) = [].
Proof.
  intros Ho Hu. unfold ProcessRuntime.forward_lines.
  change (as_bytes (bad +:+ newline +:+ rest)) with (String.list_byte_of_string (bad +:+ newline +:+ rest)).
  rewrite String.string_of_list_byte_of_string.
  rewrite raw_lines_ended by done. cbn [ProcessRuntime.forward]. by rewrite Hu.
Qed.
End output.

(** ** A host *)

Module ToyHost.
(** A shell that sleeps for the time its code says, engines that start unless
    the stack is too large, a module that never returns and a script that
    answers after a minute *)
#[export] Instance toy_host : RuntimeHost := {|
  spawn_child _ args :=
    match args with
    | [_; "sleep"%string] => Ok (Child.mk [] [] (Some (60000, Ok (Some 0))))
    | _ => Ok (Child.mk (as_bytes ("hi" +:+ newline)) [] (Some (5, Ok (Some 0))))
    end;
  base64_standard_decode _ := None;
  engine_new config :=
    if EngineConfig.async_support config && (async_stack_size <? EngineConfig.max_wasm_stack config)
    then Err "max_wasm_stack size cannot exceed the async_stack_size"%string else Ok tt;
  WasmModule := unit;
  WasmInstance := unit;
  WasmFunc := unit;
  module_from_binary _ _ := Ok tt;
  add_wasi _ := Ok tt;
  instantiate _ := Ok tt;
  typed_start _ := Ok tt;
  call_start _ := WasmCall.mk [] [] None;
  execute_script _ _ := Some (60000, Evaluated "1")
|}.

#[export] Instance toy_host_laws : RuntimeHostLaws toy_host.
Proof.
  split. intros config Ha Hs. cbn. rewrite Ha. by rewrite (proj2 (Z.ltb_lt _ _) Hs).
Qed.

(** The four ways a run of a minute goes *)
Example a_minute :
  Run.fate (ProcessRuntime.execute 5003 (ProcessRuntime.new None) (ExecutionRequest.mk "sleep" (Some 5) [] None)) =
    Sent (ExecutionResult.mk 0 5003 true None) /\
  Run.fate (V8Runtime.execute 30001 V8Runtime.new (ExecutionRequest.new "f()")) =
    Sent (ExecutionResult.mk 124 30001 true (Some "Execution timed out after 30s"%string)) /\
  Run.fate (WasmRuntime.execute 0 (WasmRuntime.mk WasmRuntime.base_config SandboxLimits.strict)
              (ExecutionRequest.mk "" (Some 5) [] None)) = NeverSent /\
  is_ok (WasmRuntime.with_limits SandboxLimits.strict) = false.
Proof. vm_compute. done. Qed.
End ToyHost.

#[local] Existing Instance ToyHost.toy_host.
#[local] Existing Instance ToyHost.toy_host_laws.

Lemma policy_limits_and_runtimes_witness :
  exists d b,
    RuntimeSelector.select_runtime elements (RuntimeSelector.new full_build SecurityPolicy.default)
      (demo_tool Trusted (Specific V8)) = Ok d /\
    build full_build None d = Ok b /\
    reported (Run.fate (execute 60001 b (ExecutionRequest.new "f()"))) = Some false.
Proof.
  eexists _, _. split; [vm_compute; reflexivity|]. split; [vm_compute; reflexivity|].
  etransitivity;
    [exact (proj1 (policy_limits_and_runtimes elements full_build SecurityPolicy.default None (demo_tool Trusted (Specific V8)) _
              60001 (ExecutionRequest.new "f()") elements_iteration ltac:(vm_compute; reflexivity)) _ ltac:(vm_compute; reflexivity))|].
  vm_compute. reflexivity.
Defined.
