(* ===== verification/QuickActions.v ===== *)
(** The quick actions of the terminal interface ([acdp-tui/src/quick_access.rs]
    and their handlers in [app.rs]): the drawer that lists them and what each
    does to the application. *)

From Stdlib Require Import Floats.SpecFloat.
From S2P Require Import Prelude Messages Transform Text Client Common Ipc IpcServer Routing ModelManager MonitorUi Monitor.
Import components.

(** ** The drawer *)

Module QuickAccess.

Record QuickAction : Type := MkAction { label : string; description : string; command : string }.

Definition default_actions : list QuickAction :=
  [MkAction "Start Default Proxy" "Launch new proxy with semantic routing (multi-server support)" "start_default_proxy";
   MkAction "Start Gemini Client" "Launch Gemini MCP client in shell" "start_gemini_client";
   MkAction "List available tools" "Inspect which tools MCP exposes" "list_tools";
   MkAction "Check server health" "Gather latest health metrics" "check_health";
   MkAction "Open session" "Start a new interactive session" "open_session";
   MkAction "Routing: Bypass" "Force proxy to bypass LLM predictions" "set_mode_bypass";
   MkAction "Routing: Semantic" "Enable semantic-only routing via LiteRT" "set_mode_semantic";
   MkAction "Routing: Hybrid" "Combine rules with semantic fallback" "set_mode_hybrid"].

Definition default_actions_with_start_proxy : list QuickAction :=
  [MkAction "Start Default Proxy" "Launch proxy with semantic routing enabled" "start_default_proxy";
   MkAction "Start Gemini Client" "Launch Gemini MCP client in shell" "start_gemini_client";
   MkAction "List available tools" "Inspect which tools MCP exposes" "list_tools";
   MkAction "Check server health" "Gather latest health metrics" "check_health";
   MkAction "Open session" "Start a new interactive session" "open_session"].

(** [state] is the index that is selected. *)
Record t : Type := mk { items : list QuickAction; state : option nat; expanded : bool }.

Definition new : t := mk default_actions (Some 0%nat) false.
Definition select (i : option nat) (self : t) : t := mk (items self) i (expanded self).

Definition update_actions (has_proxies : bool) (self : t) : t :=
  let new_items := if has_proxies then default_actions else default_actions_with_start_proxy in
  if (length (items self) =? length new_items)%nat then self
  else
    let current_idx := from_option id 0%nat (state self) in
    mk new_items (if (length new_items <=? current_idx)%nat then Some 0%nat else state self) (expanded self).

Definition focus (self : t) : t :=
  match state self with None => if expanded self then select (Some 0%nat) self else self | Some _ => self end.

Definition toggle_expanded (self : t) : t :=
  if expanded self then mk (items self) None false
  else match state self, items self with
       | None, _ :: _ => mk (items self) (Some 0%nat) true
       | _, _ => mk (items self) (state self) true
       end.

Definition drawer_height (self : t) : Z := if expanded self then 8 else 3.

Definition next (self : t) : t :=
  if negb (expanded self) then self
  else match items self with
       | [] => select None self
       | _ => let idx := from_option id 0%nat (state self) in
              select (Some (if (length (items self) <=? idx + 1)%nat then 0 else idx + 1)%nat) self
       end.

Definition previous (self : t) : t :=
  if negb (expanded self) then self
  else match items self with
       | [] => select None self
       | _ => let idx := from_option id 0%nat (state self) in
              select (Some (match idx with O => length (items self) - 1 | S idx => idx end)%nat) self
       end.

(** Drawing the open drawer moves the selection to the last item at most. *)
Definition render (self : t) : t :=
  if expanded self then select (option_map (fun idx => Nat.min idx (length (items self) - 1)) (state self)) self else self.

Definition get_selected_action (self : t) : option QuickAction :=
  match state self with Some idx => items self !! idx | None => None end.

Definition execute_selected_action (self : t) : option string :=
  if expanded self then option_map command (get_selected_action self) else None.

Definition execute_shortcut (self : t) (slot : nat) : option string := option_map command (items self !! slot).
End QuickAccess.

(** ** The handlers *)

(** How [gemini mcp add] and opening a terminal go; on Linux three terminals
    are tried. *)
Inductive Added : Type := Configured | Refused (stderr : bytes) | NotRun (e : string).
Inductive Terminal : Type := MacOs (r : Res unit string) | Linux (x gnome xterm : Res unit string) | OtherSystem.

Definition or_else {A} (a b : Res A string) : Res A string := match a with Ok _ => a | Err _ => b end.

Definition launched (terminal : Terminal) : Res unit string :=
  match terminal with
  | MacOs r => r
  | Linux x gnome xterm => or_else (or_else x gnome) xterm
  | OtherSystem => Err "Unsupported platform"%string
  end.

Module Quick.
Section quick.
Context `{JT : JsonText, SD : StrDebug} {TA : TransportApi} {UP : UuidParse}.
Import App.

(** The inputs of an action: those of an event, and how the client of Gemini is
    configured and opened *)
Record Tools : Type := MkTools { added : Added; terminal : Terminal }.

Definition user_item (now : Z) (server action : string) (status : ActivityStatus.t) : ActivityItem.t :=
  ActivityItem.mk now "User" server action status.

Definition start_gemini (now : Z) (terminal : Terminal) : ActivityItem.t :=
  match launched terminal with
  | Ok _ => system_item now "Launched Gemini MCP client in new terminal (server configured)" ActivityStatus.Success
  | Err e => system_item now ("Failed to launch Gemini client: " +:+ e) ActivityStatus.Failed
  end.

(** Refused without a word, or because it is already there, counts as
    configured. *)
Definition handle_start_gemini_client (now : Z) (tools : Tools) : ActivityItem.t :=
  match added tools with
  | Configured => start_gemini now (terminal tools)
  | Refused bytes =>
      let stderr := Utf8.Utf8.from_utf8_lossy bytes in
      if negb (str_contains "already" stderr) && negb (str_is_empty stderr)
      then system_item now ("Failed to configure Gemini MCP server: " +:+ stderr) ActivityStatus.Failed
      else start_gemini now (terminal tools)
  | NotRun e => system_item now ("Failed to configure Gemini (gemini CLI not found?): " +:+ e) ActivityStatus.Failed
  end.

(** *** The routing mode *)

Definition human_label (mode : string) : option string :=
  if String.eqb mode "bypass" then Some "Bypass"%string
  else if String.eqb mode "semantic" then Some "Semantic"%string
  else if String.eqb mode "hybrid" then Some "Hybrid"%string
  else None.

(** The proxy to address, with the selection it leaves, or what is shown *)
Definition target_proxy (proxies : list Server.t) (selected : option string) : Res (Server.t * option string) string :=
  match proxies, selected with
  | [], _ => Err "No proxy registered with monitor"%string
  | _, Some id =>
      match find (fun p => String.eqb (Server.id p) id) proxies with
      | Some p => Ok (p, selected)
      | None => Err "Selected proxy not found"%string
      end
  | [p], None => Ok (p, Some (Server.id p))
  | _, None =>
      Err ("Multiple proxies detected (" +:+ pretty (Z.of_nat (length proxies)) +:+
           "). Use 'P' key to select target proxy first")
  end.

(** The item to show, the messages sent, and the application afterwards *)
Definition handle_routing_mode_change (io : Inputs) (mode : string) (self : t)
  : ActivityItem.t * list IpcMessage.t * t :=
  let normalized := to_ascii_lowercase mode in
  let failed server action self : ActivityItem.t * list IpcMessage.t * t :=
    (user_item (now io) server action ActivityStatus.Failed, [], self) in
  match human_label normalized with
  | None => failed "Proxy"%string ("Invalid routing mode '" +:+ mode +:+ "'. Valid modes: bypass, semantic, hybrid") self
  | Some label =>
      if negb (ipc_client self) then failed "Proxy"%string "Cannot set routing mode (IPC not connected)"%string self
      else
        match target_proxy (List.filter is_proxy (listed io)) (selected_proxy_id self) with
        | Err e => failed "Proxy"%string e self
        | Ok (proxy, selected) =>
            let self := set_selected selected self in
            match parse_str (Server.id proxy) with
            | None => failed (Server.name proxy) "Invalid proxy identifier"%string self
            | Some id =>
                let messages := [IpcMessage.RoutingModeChange id normalized] in
                match sent io with
                | Ok _ =>
                    (user_item (now io) (Server.name proxy) ("Routing mode set to " +:+ label) ActivityStatus.Success, messages,
                     set_diagnostics (DiagnosticsData.set_mode label (diagnostics self)) self)
                | Err e =>
                    (user_item (now io) (Server.name proxy) ("Failed to set routing mode: " +:+ e) ActivityStatus.Failed, messages, self)
                end
            end
        end
  end.

(** *** Tools and health *)

(** A list the gateway has, or the text of what went wrong; [None] when the
    client panics *)
Definition gateway_list (method missing : string) (client : McpClient.t) : option (Res Value string * McpClient.t) :=
  if negb (McpClient.is_ready client) then Some (Err "gateway client not ready"%string, client)
  else
    match McpClient.send_request method (VObject []) client with
    | None => None
    | Some (Err _, client) => Some (Err ("gateway " +:+ method +:+ " request failed"), client)
    | Some (Ok response, client) =>
        Some
          (match JsonRpcResponse.error response, JsonRpcResponse.result response with
           | Some error, _ => Err (JsonRpcError.message error +:+ " (code " +:+ pretty (JsonRpcError.code error) +:+ ")")
           | None, None => Err ("gateway response missing " +:+ missing)
           | None, Some result => Ok result
           end, client)
    end.

Definition list_tools_from_state (io : Inputs) (gateway_error : option string) : ActivityItem.t :=
  let server_names := Server.name <$> listed io in
  let base_message :=
    match server_names with
    | [] => "No servers connected. Start proxies to see available tools."%string
    | _ => "Connected to " +:+ pretty (Z.of_nat (length server_names)) +:+ " server(s): " +:+ join ", " server_names +:+ "."
    end in
  let action :=
    match gateway_error with
    | Some error => "Gateway unavailable (" +:+ error +:+ "). " +:+ base_message
    | None => base_message
    end in
  user_item (now io) "Gateway" action
    (match server_names, gateway_error with _ :: _, None => ActivityStatus.Success | _, _ => ActivityStatus.Failed end).

Definition listed_names (result : Value) : list string :=
  match array_of (get result "tools") with
  | Some tools => omap (fun tool => string_of (get tool "name")) tools
  | None => []
  end.

Definition list_tools_via_gateway (now : Z) (client : McpClient.t) : option (Res ActivityItem.t string * McpClient.t) :=
  match gateway_list "tools/list" "tools" client with
  | None => None
  | Some (r, client) =>
      Some
        (let? result := r in
         let action :=
           match listed_names result with
           | [] => "Gateway reports no tools"%string
           | names => "Tools available: " +:+ join ", " names
           end in
         Ok (user_item now "Gateway" action ActivityStatus.Success), client)
  end.

Definition handle_list_tools (io : Inputs) (self : t) : option (ActivityItem.t * t) :=
  match gateway_client self with
  | None => Some (list_tools_from_state io None, self)
  | Some client =>
      match list_tools_via_gateway (now io) client with
      | None => None
      | Some (Err e, client) => Some (list_tools_from_state io (Some e), set_gateway (Some client) self)
      | Some (Ok activity, client) => Some (activity, set_gateway (Some client) self)
      end
  end.

Definition is_running (s : Server.t) : bool := match Server.status s with ServerStatus.Running => true | _ => false end.

Definition healthy (servers : gmap string Server.t) : nat := size (filter (fun '(_, s) => is_running s = true) servers).

Definition health_text (self : t) : string :=
  "Health: " +:+ pretty (Z.of_nat (healthy (servers self))) +:+ "/" +:+ pretty (Z.of_nat (size (servers self))) +:+
  " servers running, " +:+ pretty (Z.of_nat (size (clients self))) +:+ " clients, " +:+
  pretty (Z.of_nat (size (proxy_sessions self))) +:+ " active sessions".

Definition check_health_from_state (io : Inputs) (gateway_error : option string) (self : t) : ActivityItem.t :=
  let action :=
    match gateway_error with
    | Some error => "Gateway health unavailable (" +:+ error +:+ "). " +:+ health_text self
    | None => health_text self
    end in
  user_item (now io) "Gateway" action
    (if (size (servers self) =? 0)%nat then ActivityStatus.Failed
     else match gateway_error with
          | Some _ => ActivityStatus.Failed
          | None => if (healthy (servers self) =? size (servers self))%nat then ActivityStatus.Success else ActivityStatus.Processing
          end).

Definition resource_count (result : Value) : nat :=
  match array_of (get result "resources") with Some resources => length resources | None => 0%nat end.

Definition check_health_via_gateway (now : Z) (client : McpClient.t) (self : t)
  : option (Res ActivityItem.t string * McpClient.t) :=
  match gateway_list "resources/list" "health data" client with
  | None => None
  | Some (r, client) =>
      Some
        (let? result := r in
         Ok (user_item now "Gateway" (health_text self +:+ ", " +:+ pretty (Z.of_nat (resource_count result)) +:+ " resources")
               ActivityStatus.Success), client)
  end.

Definition handle_check_health (io : Inputs) (self : t) : option (ActivityItem.t * t) :=
  match gateway_client self with
  | None => Some (check_health_from_state io None self, self)
  | Some client =>
      match check_health_via_gateway (now io) client self with
      | None => None
      | Some (Err e, client) => Some (check_health_from_state io (Some e) self, set_gateway (Some client) self)
      | Some (Ok activity, client) => Some (activity, set_gateway (Some client) self)
      end
  end.

(** *** Actions *)

Definition action_query (action : string) : string :=
  if String.eqb action "list_tools" then "What tools are available?"
  else if String.eqb action "check_health" then "Check the health status of all servers"
  else if String.eqb action "open_session" then "Start a new interactive session"
  else action.

(** Through the proxy that is connected, as a query *)
Definition via_proxy (io : Inputs) (action : string) (self : t) : list IpcMessage.t * t :=
  let activity_index := length (activities self) in
  let self := push (user_item (now io) "Proxy" ("Executing action: " +:+ action) ActivityStatus.Processing) self in
  let '(r, messages, self) := process_query_via_ipc io (action_query action) activity_index self in
  (messages, match r with Ok _ => self | Err _ => fail_at activity_index (action +:+ " (proxy routing failed)") self end).

(** Without a proxy *)
Definition directly (io : Inputs) (tools : Tools) (action : string) (self : t) : option (ActivityItem.t * t) :=
  if String.eqb action "list_tools" then handle_list_tools io self
  else if String.eqb action "check_health" then handle_check_health io self
  else if String.eqb action "open_session" then
    Some (system_item (now io) "Session opened (connect proxy for full functionality)" ActivityStatus.Success, self)
  else if String.eqb action "start_default_proxy" then Some (handle_start_default_proxy io, self)
  else if String.eqb action "start_gemini_client" then Some (handle_start_gemini_client (now io) tools, self)
  else Some (system_item (now io) ("Unknown action: " +:+ action) ActivityStatus.Failed, self).

Definition handle_quick_action (io : Inputs) (tools : Tools) (action : string) (self : t) : option (list IpcMessage.t * t) :=
  match drop_prefix "set_mode_" action with
  | Some mode =>
      let '(item, messages, self) := handle_routing_mode_change io mode self in Some (messages, push item self)
  | None =>
      if ipc_client self then Some (via_proxy io action self)
      else match directly io tools action self with
           | None => None
           | Some (item, self) => Some ([], push item self)
           end
  end.
End quick.
End Quick.

(** ** Laws *)

(** Operations of the drawer *)
Definition drawer_ops : list (QuickAccess.t -> QuickAccess.t) :=
  [QuickAccess.update_actions true; QuickAccess.update_actions false; QuickAccess.focus; QuickAccess.toggle_expanded;
   QuickAccess.next; QuickAccess.previous; QuickAccess.render].

Definition drawer_ok (d : QuickAccess.t) : Prop :=
  (QuickAccess.items d = QuickAccess.default_actions \/ QuickAccess.items d = QuickAccess.default_actions_with_start_proxy) /\
  match QuickAccess.state d with
  | Some i => (i < length (QuickAccess.items d))%nat
  | None => True
  end.

Lemma drawer_op_ok f d : f ∈ drawer_ops -> drawer_ok d -> drawer_ok (f d).
Proof.
  intros Hf [Hi Hs]. unfold drawer_ok. destruct d as [items state expanded]. cbn [QuickAccess.items QuickAccess.state] in *.
  unfold drawer_ops in Hf. rewrite !elem_of_cons, elem_of_nil in Hf.
  destruct Hf as [-> |[-> |[-> |[-> |[-> |[-> |[-> |[]]]]]]]]; destruct Hi as [-> | ->], expanded, state as [i|];
    cbn in *; repeat case_match; cbn in *; simplify_eq; try (split; [tauto|]); try lia; try done;
    repeat match goal with H : (_ <=? _)%nat = false |- _ => apply Nat.leb_gt in H end; lia.
Qed.

(** The drawer never selects what it does not list, and offers nothing that the
    handler does not know. *)
Lemma drawer_in_range ops :
  Forall (fun f => f ∈ drawer_ops) ops -> drawer_ok (foldl (fun d f => f d) QuickAccess.new ops).
Proof.
  assert (H : drawer_ok QuickAccess.new) by (split; [by left|cbn; lia]). revert H. generalize QuickAccess.new.
  intros d Hd Hops. revert d Hd. induction Hops as [|f ops Hf _ IH]; intros d Hd; [done|]. cbn. by apply IH, drawer_op_ok.
Qed.

Section laws.
Context `{JT : JsonText, SD : StrDebug} {TA : TransportApi} {UP : UuidParse}.
Abbreviation AppT := App.t.

(** What a single item more means, whatever was shown before it *)
Definition one_more (self self' : AppT) : Prop :=
  exists item, App.activities self' = App.activities self ++ [item].

Lemma human_label_modes mode label : Quick.human_label mode = Some label -> exists r, RoutingMode.from_str mode = Ok r.
Proof.
  unfold Quick.human_label. repeat case_match; intros [= <-];
    match goal with H : String.eqb mode _ = true |- _ => apply String.eqb_eq in H as -> end; by eexists.
Qed.

Lemma target_proxy_found proxies selected p chosen :
  Quick.target_proxy proxies selected = Ok (p, chosen) ->
  p ∈ proxies /\ chosen = Some (Server.id p) /\ (forall id, selected = Some id -> Server.id p = id).
Proof.
  unfold Quick.target_proxy. intros H. destruct proxies as [|p0 ps]; [done|]. destruct selected as [id|].
  - destruct (find _ (p0 :: ps)) as [q|] eqn:E; destruct ps; try done; simplify_eq;
      apply find_some in E as [Hin Hid%String.eqb_eq]; rewrite Hid;
      (split_and!; [by apply list_elem_of_In|done|by intros ? [= <-]]).
  - destruct ps; [|done]. simplify_eq. split_and!; [by apply list_elem_of_here|done|done].
Qed.

(** One change of mode *)
Lemma mode_change_spec io mode self item messages self' :
  Quick.handle_routing_mode_change io mode self = (item, messages, self') ->
  App.activities self' = App.activities self /\
  match messages with
  | [] => ActivityItem.status item = ActivityStatus.Failed /\ App.diagnostics self' = App.diagnostics self
  | m :: rest =>
      rest = [] /\ exists p id label r,
        App.ipc_client self = true /\
        p ∈ App.listed io /\ Server.server_type p = ServerType.Proxy /\ App.selected_proxy_id self' = Some (Server.id p) /\
        (forall chosen, App.selected_proxy_id self = Some chosen -> Server.id p = chosen) /\
        parse_str (Server.id p) = Some id /\ RoutingMode.from_str (to_ascii_lowercase mode) = Ok r /\
        m = IpcMessage.RoutingModeChange id (to_ascii_lowercase mode) /\
        match App.sent io with
        | Ok _ => ActivityItem.status item = ActivityStatus.Success /\
                  App.diagnostics self' = DiagnosticsData.set_mode label (App.diagnostics self)
        | Err _ => ActivityItem.status item = ActivityStatus.Failed /\ App.diagnostics self' = App.diagnostics self
        end
  end.
Proof.
  unfold Quick.handle_routing_mode_change.
  destruct (Quick.human_label (to_ascii_lowercase mode)) as [label|] eqn:El; [|by intros [= <- <- <-]].
  destruct (App.ipc_client self) eqn:Ei; cbn [negb]; [|by intros [= <- <- <-]].
  destruct (Quick.target_proxy _ _) as [[p chosen]|e] eqn:Et; [|by intros [= <- <- <-]].
  apply target_proxy_found in Et as (Hp & -> & Hs). destruct (parse_str (Server.id p)) as [id|] eqn:Eu; [|by intros [= <- <- <-]].
  apply list_elem_of_In, filter_In in Hp as [Hp Ht]. apply list_elem_of_In in Hp.
  unfold App.is_proxy in Ht. apply bool_decide_eq_true in Ht. destruct (human_label_modes _ _ El) as [r Hr].
  destruct (App.sent io) eqn:Eo; intros [= <- <- <-]; (split; [done|]); (split; [done|]); exists p, id, label, r; by split_and!.
Qed.

(** Rewriting the item that was just added *)
Lemma alter_last {A} (f : A -> A) l x : alter f (length (l ++ [x]) - 1)%nat (l ++ [x]) = l ++ [f x].
Proof.
  replace (length (l ++ [x]) - 1)%nat with (length l + 0)%nat by (rewrite length_app; cbn; lia).
  by rewrite alter_app_r.
Qed.

(** Every action ends in exactly one more item, after what was there. *)
Lemma action_adds_one io tools action self messages self' :
  Quick.handle_quick_action io tools action self = Some (messages, self') -> one_more self self' /\ (length messages <= 1)%nat.
Proof.
  unfold Quick.handle_quick_action. destruct (drop_prefix "set_mode_" action) as [mode|].
  - destruct (Quick.handle_routing_mode_change io mode self) as [[item ms] s] eqn:E. intros [= <- <-].
    apply mode_change_spec in E as [Ha Hm]. split; [exists item; unfold App.push; cbn [App.activities App.set_activities]; by rewrite Ha|].
    destruct ms as [|m ms]; [cbn; lia|]. by destruct Hm as [-> _].
  - destruct (App.ipc_client self).
    + unfold Quick.via_proxy, App.process_query_via_ipc. destruct (App.sent io) as [u|e]; intros [= <- <-]; (split; [|cbn; lia]).
      * by eexists.
      * unfold App.fail_at, App.rewrite_at, App.push. cbn [App.activities App.set_activities App.set_pending].
        unfold one_more. cbn [App.activities App.set_activities].
        exists (ActivityItem.set (action +:+ " (proxy routing failed)") ActivityStatus.Failed
                  (Quick.user_item (App.now io) "Proxy" ("Executing action: " +:+ action) ActivityStatus.Processing)).
        pose proof (alter_last (ActivityItem.set (action +:+ " (proxy routing failed)") ActivityStatus.Failed) (App.activities self)
          (Quick.user_item (App.now io) "Proxy" ("Executing action: " +:+ action) ActivityStatus.Processing)) as Hl.
        rewrite length_app in Hl. cbn [length] in Hl. by replace (length (App.activities self) + 1 - 1)%nat with (length (App.activities self)) in Hl by lia.
    + destruct (Quick.directly io tools action self) as [[item s]|] eqn:E; [|done]. intros [= <- <-]. split; [|cbn; lia].
      assert (Ha : App.activities s = App.activities self).
      { revert E. unfold Quick.directly, Quick.handle_list_tools, Quick.handle_check_health.
        repeat case_match; intros [= <- <-]; done. }
      exists item. unfold App.push. cbn [App.activities App.set_activities]. by rewrite Ha.
Qed.

(** What the drawer offers is known to the handler. *)
Lemma offered_actions_are_known :
  Forall (fun a => match drop_prefix "set_mode_" (QuickAccess.command a) with
                   | Some mode => is_Some (Quick.human_label mode)
                   | None => QuickAccess.command a ∈
                       ["list_tools"; "check_health"; "open_session"; "start_default_proxy"; "start_gemini_client"]%string
                   end) (QuickAccess.default_actions ++ QuickAccess.default_actions_with_start_proxy).
Proof. repeat constructor; vm_compute; try (by eexists); apply list_elem_of_In; cbn; tauto. Qed.
End laws.

(** A change of the routing mode from the drawer.  It shows exactly one
    item; it sends a message only for one of the three modes and only to a
    proxy that is listed, the selected one if there is one, otherwise the only
    one, which it then selects; and the mode that the diagnostics show changes
    exactly when the message is sent.  The proxy whose socket the monitor is
    connected to takes the mode whichever proxy the message names. *)
Theorem mode_changes_go_to_the_connected_proxy `{JT : JsonText, SD : StrDebug} {TA : TransportApi} {UP : UuidParse}
    io tools mode (self : App.t) messages self' :
  Quick.handle_quick_action io tools ("set_mode_" +:+ mode) self = Some (messages, self') ->
  one_more self self' /\
  match messages with
  | [] => App.diagnostics self' = App.diagnostics self
  | m :: rest =>
      rest = [] /\ exists p id label r,
        p ∈ App.listed io /\ Server.server_type p = ServerType.Proxy /\
        App.selected_proxy_id self' = Some (Server.id p) /\
        (forall chosen, App.selected_proxy_id self = Some chosen -> Server.id p = chosen) /\
        parse_str (Server.id p) = Some id /\ m = IpcMessage.RoutingModeChange id (to_ascii_lowercase mode) /\
        App.diagnostics self' =
          (if is_ok (App.sent io) then DiagnosticsData.set_mode label (App.diagnostics self) else App.diagnostics self) /\
        forall queries stamp corr responder queued answer,
          ProxyIpcServer.handle_message (ProxyIpcServer.mk queries true) (IpcEnvelope.mk _ m stamp corr) responder queued answer =
            [ProxyIpcServer.SendMode r]
  end.
Proof.
  intros H. split; [by eapply action_adds_one|]. revert H. unfold Quick.handle_quick_action.
  rewrite (proj2 (drop_prefix_spec "set_mode_" ("set_mode_" +:+ mode) mode)) by done.
  destruct (Quick.handle_routing_mode_change io mode self) as [[item ms] s] eqn:E. intros [= <- <-].
  apply mode_change_spec in E as [_ Hm]. destruct ms as [|m ms]; [by destruct Hm|].
  destruct Hm as (-> & p & id & label & r & _ & Hp & Ht & Hsel & Hc & Hu & Hr & -> & Hd). split; [done|].
  exists p, id, label, r. split_and!; try done.
  - by destruct (App.sent io); destruct Hd as [_ Hd].
  - intros. unfold ProxyIpcServer.handle_message. cbn [IpcEnvelope.message ProxyIpcServer.routing_tx]. by rewrite Hr.
Qed.

(** A monitor connected to one proxy while another is selected *)
Module DemoActions.
Import ToyNumbers ToyText Client.Demo DemoMonitor.

#[export] Instance toy_uuid : UuidParse := {| parse_str s := if str_is_empty s then None else Some (to_ascii_lowercase s) |}.

Definition proxy (id : string) : Server.t :=
  Server.mk id ("proxy " +:+ id) "" ServerType.Proxy ServerStatus.Running 0 0 None None None.

Definition io : App.Inputs := App.MkInputs 9 "q" (Ok tt) (Ok tt) [proxy "a"; proxy "b"] App.NoServer.

Definition selected : App.t := App.set_selected (Some "b"%string) (App.set_ipc true DemoMonitor.app).

Definition tools : Quick.Tools := Quick.MkTools Configured OtherSystem.
End DemoActions.

#[local] Existing Instance DemoActions.toy_uuid.

Lemma mode_changes_go_to_the_connected_proxy_witness :
  exists self', Quick.handle_quick_action DemoActions.io DemoActions.tools "set_mode_Hybrid" DemoActions.selected =
      Some ([IpcMessage.RoutingModeChange "b" "hybrid"], self') /\
    one_more DemoActions.selected self'.
Proof.
  destruct (Quick.handle_quick_action DemoActions.io DemoActions.tools "set_mode_Hybrid" DemoActions.selected)
    as [[messages self']|] eqn:E; [|discriminate E].
  assert (Hm : messages = [IpcMessage.RoutingModeChange "b" "hybrid"]).
  { apply (f_equal (fun r => match r with Some (ms, _) => ms | None => [] end)) in E. symmetry in E. exact E. }
  exists self'. split; [by rewrite Hm|].
  exact (proj1 (mode_changes_go_to_the_connected_proxy (SD := DemoMonitor.monitor_debug) DemoActions.io DemoActions.tools "Hybrid" DemoActions.selected messages self' E)).
Defined.
