(* ===== verification/Startup.v ===== *)
(** The start of the terminal interface ([acdp-tui/src/config.rs], [App::new],
    [lib.rs], and the start of the HTTP server in [http_server.rs]): the
    settings it reads from the environment and the configuration, and what it
    starts. *)

From S2P Require Import Prelude McpError Messages Transform Text ParamValidation Routing Initialization CoreTransport Client Backend AppState Relay ModelConfig MonitorUi Monitor.

(** [s.parse()] of an unsigned integer of 64 bits *)
Definition parse_u64 (s : string) : option Z :=
  let r := match s with String c r => if Ascii.eqb c "+" then r else s | EmptyString => s end in
  match take_digits 0 0 r with
  | (n, S _, EmptyString) => if n <=? u64_max then Some n else None
  | _ => None
  end.

(** ** The settings ([config.rs]) *)

Module Config.
Section config.

(** [std::env::var(name).ok()] *)
Context (env : string -> option string).
Abbreviation t := AppConfig.t.
Abbreviation server := AppConfig.mcp_server.

(** [unwrap_or_default] of loading it *)
Definition load_or_default (found : option (Res (Res t string) string)) (home : option PathBuf.t) (saved : LlmResult unit) : t :=
  match AppConfig.load home found saved with Ok config => config | Err _ => AppConfig.default end.

Definition truthy (value : string) : bool :=
  existsb (String.eqb (to_ascii_lowercase (trim value))) ["1"; "true"; "yes"; "on"]%string.

Definition flag (name : string) (configured : bool) : bool :=
  match env name with Some value => truthy value | None => configured end.

Definition preferred_model (self : t) : option string := ModelConfig.preferred_model (AppConfig.model self).
Definition enable_mcp_server (self : t) : bool := flag "MCP_SERVER_MODE" (McpServerConfig.enabled (server self)).
Definition mcp_server_bind_addr (self : t) : string :=
  from_option id (McpServerConfig.bind_address (server self)) (env "MCP_SERVER_BIND_ADDR").

Definition backend_url (self : t) : option string :=
  match env "MCP_BACKEND_URL" with Some url => Some url | None => McpServerConfig.backend_url (server self) end.

Definition needs_backend_command (self : t) : bool := match backend_url self with None => true | Some _ => false end.

Definition no_backend : string :=
  "Either backend_command or backend_url is required but neither is configured. " +:+
  "Set MCP_BACKEND_COMMAND or MCP_BACKEND_URL environment variable, or configure in config file.".

Definition backend_command (self : t) : Res (option string) string :=
  match backend_url self with
  | Some _ => Ok None
  | None =>
      let cmd := from_option id (McpServerConfig.backend_command (server self)) (env "MCP_BACKEND_COMMAND") in
      if str_is_empty cmd then Err no_backend else Ok (Some cmd)
  end.

Definition backend_command_string (self : t) : Res string string :=
  let? cmd := backend_command self in Ok (from_option id ""%string cmd).

(** The transport an address stands for *)
Definition detected (url : string) : option string :=
  if str_contains "/stream" url || str_contains "/message" url then Some "http-stream"%string
  else if starts_with "http://" url || starts_with "https://" url then Some "http-sse"%string
  else None.

(** The first of some settings that there is *)
Definition first_of {A} (settings : list (option A)) : option A := head (omap id settings).

Definition backend_transport (self : t) : option string :=
  first_of [env "MCP_BACKEND_TRANSPORT";
            match backend_url self with Some url => detected url | None => None end;
            McpServerConfig.backend_transport (server self)].

Definition http_server_bind_addr (self : t) : string :=
  from_option id (McpServerConfig.http_bind_address (server self)) (env "MCP_HTTP_BIND_ADDR").

Definition server_bind_addr (self : t) : option string :=
  first_of [env "MCP_SERVER_BIND_ADDR"; McpServerConfig.server_bind_addr (server self);
            Some (let http_addr := http_server_bind_addr self in
                  if str_is_empty http_addr then mcp_server_bind_addr self else http_addr)].

Definition parsed (name : string) : option Z := match env name with Some v => parse_u64 v | None => None end.

Definition max_concurrent_clients (self : t) : Z :=
  from_option id (Z.of_nat (McpServerConfig.max_concurrent_clients (server self))) (parsed "MCP_MAX_CLIENTS").
Definition connection_timeout_secs (self : t) : Z :=
  from_option id (McpServerConfig.connection_timeout_secs (server self)) (parsed "MCP_CONNECTION_TIMEOUT").
Definition auto_restart_backend (self : t) : bool := flag "MCP_AUTO_RESTART" (McpServerConfig.auto_restart_backend (server self)).

Definition enable_http_server (self : t) : bool := negb (str_is_empty (http_server_bind_addr self)).
Definition tls_config (self : t) : TlsConfig.t := McpServerConfig.tls (server self).
Definition enable_tls (self : t) : bool := flag "MCP_TLS_ENABLED" (TlsConfig.enabled (tls_config self)).
End config.
End Config.

(** ** What the interface starts ([app.rs], [lib.rs]) *)

Module Startup.
Section startup.
Context `{JT : JsonText, SD : StrDebug} {TA : TransportApi} {UA : UrlApi}.

(** The directory of the crate at build time *)
Context (manifest_dir : string).

(** *** The gateway's client *)

Definition default_gateway_config : PathBuf.t := PathBuf.join (PathBuf.of_string manifest_dir) "../mcp-core/config.json".

Definition resolve_gateway_config_path (env : string -> option string) (exists_ : PathBuf.t -> bool) : option PathBuf.t :=
  let default := if exists_ default_gateway_config then Some default_gateway_config else None in
  match env "MCP_GATEWAY_CONFIG" with
  | Some path => if exists_ (PathBuf.of_string path) then Some (PathBuf.of_string path) else default
  | None => default
  end.

Definition identity : Implementation.t :=
  Implementation.with_metadata (Implementation.new "mcp-tui" "0.1.0") "ui" (VObject [("mode"%string, VString "tui")]).

(** [loaded] is the outcome of [TransportConfig::from_file], [created] what the
    transport's factory makes of it; [None] when the client panics. *)
Definition initialize_gateway_client (env : string -> option string) (exists_ : PathBuf.t -> bool)
    (loaded : PathBuf.t -> McpResult CoreTransport.TransportConfig.t) (created : CoreTransport.TransportConfig.t -> McpResult Conn)
  : option (Res (option McpClient.t) string) :=
  match resolve_gateway_config_path env exists_ with
  | None => Some (Ok None)
  | Some path =>
      match loaded path with
      | Err _ => Some (Err ("Failed to load gateway config from " +:+ PathBuf.to_string path))
      | Ok config =>
          match with_defaults (created config) with
          | Err _ => Some (Err "Failed to construct MCP client"%string)
          | Ok client =>
              match McpClient.connect identity client with
              | None => None
              | Some (Err _, _) => Some (Ok None)
              | Some (Ok _, client) => Some (Ok (Some client))
              end
          end
      end
  end.

(** *** Processes *)

Definition mcp_cli : PathBuf.t := PathBuf.join (PathBuf.of_string manifest_dir) "../target/release/mcp-cli".

Definition auto_proxy_args (mcp_server_url : string) : list string :=
  ["proxy"; "--in"; "http-sse"; "--out"; "http-sse"; "--url"; mcp_server_url; "--name"; "tui-auto-proxy"]%string.

(** The program and arguments of a proxy that is spawned *)
Definition spawn_auto_proxy (exists_ : PathBuf.t -> bool) (spawned : Res unit string) (mcp_server_url : string)
  : Res (PathBuf.t * list string) string :=
  if exists_ mcp_cli then
    let? _ := map_err (fun _ => "Failed to spawn auto-proxy process"%string) spawned in
    Ok (mcp_cli, auto_proxy_args mcp_server_url)
  else Err ("mcp-cli binary not found at " +:+ PathBuf.to_string mcp_cli +:+ ". Run: cargo build --release -p mcp-cli").

Definition test_server : PathBuf.t := PathBuf.join (PathBuf.of_string manifest_dir) "../tests/common/test_server.py".

(** The command behind [handle_start_default_proxy] *)
Definition default_proxy_args : list string :=
  ["proxy"; "--routing-mode"; "semantic"; "--transport"; "stdio"; "--command"; "python3 " +:+ PathBuf.to_string test_server]%string.

Definition start_default_proxy (exists_ : PathBuf.t -> bool) (spawned : Res unit string) : App.Started :=
  if negb (exists_ test_server) then App.NoServer
  else if negb (exists_ mcp_cli) then App.NoBinary
  else App.Spawned spawned.

(** *** The application *)

(** What the system gives to [App::new] *)
Record Boot : Type := MkBoot {
  env : string -> option string;
  exists_ : PathBuf.t -> bool;
  now : Z;
  found : option (Res (Res AppConfig.t string) string);
  home : option PathBuf.t;
  saved : LlmResult unit;
  service : Res unit string;
  loaded : PathBuf.t -> McpResult CoreTransport.TransportConfig.t;
  created : CoreTransport.TransportConfig.t -> McpResult Conn;
  ipc : Res unit string;
  listening : Res unit string;
  spawned : Res unit string
}.

(** What has been started: the socket the monitor listens on, the server for
    clients with its state, and the proxy for it *)
Record Started : Type := MkStarted {
  app : App.t;
  ipc_socket : option string;
  mcp_server : option AppState.t;
  auto_proxy : option (PathBuf.t * list string)
}.

(** Nobody keeps the receiving end of the server's channel to the interface. *)
Definition server_state (now : Z) (backend_command : string) : AppState.t :=
  AppState.mk ∅ false backend_command None None 100 30 true ServerMetrics.default now now 0.

Definition new (b : Boot) : option Started :=
  let config := Config.load_or_default (found b) (home b) (saved b) in
  match initialize_gateway_client (env b) (exists_ b) (loaded b) (created b) with
  | None => None
  | Some gateway =>
      let socket_path := from_option id "/tmp/mcp-monitor.sock"%string (env b "MCP_IPC_SOCKET") in
      let enabled := Config.enable_mcp_server (env b) config in
      let bind_addr := Config.mcp_server_bind_addr (env b) config in
      let command :=
        match Config.backend_command (env b) config with Ok (Some command) => command | _ => ""%string end in
      Some (MkStarted
        (App.new (env b "HF_TOKEN") (match gateway with Ok client => client | Err _ => None end) (is_ok (service b))
           (LlmConfig.routing_mode (AppConfig.llm config)))
        (if is_ok (ipc b) then Some socket_path else None)
        (if enabled && is_ok (listening b) then Some (server_state (now b) command) else None)
        (if enabled then
           match spawn_auto_proxy (exists_ b) (spawned b) ("http://" +:+ bind_addr +:+ "/sse") with
           | Ok child => Some child
           | Err _ => None
           end
         else None))
  end.

(** [run_monitor_app]: the environment in which the interface starts *)
Definition monitor_env (ipc_socket : string) (verbose : bool) (env : string -> option string) (name : string) : option string :=
  if String.eqb name "MCP_IPC_SOCKET" then Some ipc_socket
  else if verbose && String.eqb name "RUST_LOG" then Some "debug"%string
  else env name.

(** [ran] is the outcome of the event loop and the terminal; an error is
    printed and returned. *)
Definition launch_tui (b : Boot) (ran : Started -> Res unit string) : option (list string * Res unit string) :=
  match new b with
  | None => None
  | Some started =>
      let r := ran started in
      Some (match r with Ok _ => [] | Err e => ["Application error: " +:+ e]%string end, r)
  end.

Definition with_env (e : string -> option string) (b : Boot) : Boot :=
  MkBoot e (exists_ b) (now b) (found b) (home b) (saved b) (service b) (loaded b) (created b) (ipc b) (listening b) (spawned b).

Definition run_monitor_app (ipc_socket : string) (verbose : bool) (b : Boot) (ran : Started -> Res unit string)
  : option (list string * Res unit string) :=
  launch_tui (with_env (monitor_env ipc_socket verbose (env b)) b) ran.
End startup.
End Startup.

(** ** The HTTP server ([http_server.rs]) *)

Module HttpStart.

(** What the certificate client is asked for *)
Record AcmeConfig : Type := MkAcme {
  domains : list string;
  contacts : list string;
  cache : PathBuf.t;
  staging : bool
}.

Inductive Served : Type := Plain (addr : string) | Tls (addr : string) (acme : AcmeConfig).

Definition contacts_of (tls : TlsConfig.t) : list string :=
  [match TlsConfig.email tls with Some email => "mailto:" +:+ email | None => "mailto:admin@example.com" end]%string.

(** [made] is the outcome of making a directory, [is_addr] whether a text is a
    socket address; every challenge but HTTP-01 is only announced. *)
Definition start_https_server_with_acme (made : PathBuf.t -> Res unit string) (is_addr : string -> bool)
    (bind_addr : string) (tls : TlsConfig.t) : Res Served string :=
  match TlsConfig.domains tls with
  | [] => Err "TLS enabled but no domains configured"%string
  | _ =>
      let cert_dir := PathBuf.of_string (TlsConfig.cert_dir tls) in
      let? _ := map_err (fun _ => "Failed to create certificate directory"%string) (made cert_dir) in
      let cache_dir := PathBuf.join cert_dir "acme-cache" in
      let? _ := map_err (fun _ => "Failed to create ACME cache directory"%string) (made cache_dir) in
      let acme := MkAcme (TlsConfig.domains tls) (List.map (fun e => "mailto:" +:+ e) (contacts_of tls)) cache_dir
                    (TlsConfig.use_staging tls) in
      if str_is_empty bind_addr then Err "HTTPS bind address is empty"%string
      else if is_addr bind_addr then Ok (Tls bind_addr acme)
      else Err ("Invalid HTTPS bind address format: '" +:+ bind_addr +:+ "'. Expected 'host:port' (e.g., '127.0.0.1:8443')")
  end.

Definition start_http_server (env : string -> option string) (made : PathBuf.t -> Res unit string) (is_addr : string -> bool)
    (bound : Res unit string) (bind_addr : string) (config : AppConfig.t) : Res Served string :=
  if Config.enable_tls env config then start_https_server_with_acme made is_addr bind_addr (Config.tls_config config)
  else if str_is_empty bind_addr then Err "HTTP bind address is empty"%string
  else if is_addr bind_addr then let? _ := bound in Ok (Plain bind_addr)
  else Err ("Invalid HTTP bind address format: '" +:+ bind_addr +:+ "'. Expected 'host:port' (e.g., '127.0.0.1:8080')").
End HttpStart.

(** ** Laws *)

Section laws.
Context `{JT : JsonText, SD : StrDebug} {TA : TransportApi} {UA : UrlApi}.

(** The environment comes before the address, and the address before the
    configured transport. *)
Lemma backend_transport_order env config url t :
  Config.backend_url env config = Some url -> Config.detected url = Some t -> env "MCP_BACKEND_TRANSPORT"%string = None ->
  Config.backend_transport env config = Some t.
Proof. intros Hu Ht He. unfold Config.backend_transport. rewrite He, Hu. cbn. by rewrite Ht. Qed.

Lemma server_bind_addr_some env config : is_Some (Config.server_bind_addr env config).
Proof.
  unfold Config.server_bind_addr, Config.first_of. destruct (env _) as [a|]; [by eexists|].
  destruct (McpServerConfig.server_bind_addr _) as [a|]; by eexists.
Qed.

Lemma backend_command_url env config :
  is_Some (Config.backend_url env config) <-> Config.backend_command env config = Ok None.
Proof.
  unfold Config.backend_command. destruct (Config.backend_url env config) as [url|].
  - split; [done|by eexists].
  - split; [by intros []|]. destruct (str_is_empty _); done.
Qed.

Lemma new_server dir b started app :
  Startup.new dir b = Some started -> Startup.mcp_server started = Some app ->
  app = Startup.server_state (Startup.now b)
          (match Config.backend_command (Startup.env b) (Config.load_or_default (Startup.found b) (Startup.home b) (Startup.saved b))
           with Ok (Some command) => command | _ => ""%string end).
Proof.
  unfold Startup.new. destruct (Startup.initialize_gateway_client _ _ _ _ _) as [gateway|]; [|done].
  intros [= <-]. cbn [Startup.mcp_server]. by destruct (_ && _); [intros [= <-]|].
Qed.
End laws.

(** The server for clients that the interface starts.  Whatever is
    configured, it takes a hundred clients, waits thirty seconds and restarts
    its backends, and has no address of a backend; so when an address is
    configured, in the environment or in the file, it has no command either,
    and every client that connects is refused for want of a backend. *)
Theorem configured_backends_are_not_used `{JT : JsonText, SD : StrDebug, PE : ParseErrors} {TA : TransportApi} {UA : UrlApi}
    dir b started app given llm client_id :
  Startup.new dir b = Some started -> Startup.mcp_server started = Some app ->
  AppState.max_clients app = 100%nat /\ AppState.connection_timeout_secs app = 30 /\
  AppState.auto_restart_backend app = true /\ AppState.backend_url app = None /\ AppState.backend_transport app = None /\
  let config := Config.load_or_default (Startup.found b) (Startup.home b) (Startup.saved b) in
  (forall command, Config.backend_command (Startup.env b) config = Ok (Some command) -> AppState.backend_command app = command) /\
  (is_Some (Config.backend_url (Startup.env b) config) ->
   ClientProxy.new given llm client_id app =
     Some (Err "Failed to create backend connection: Either backend_url or backend_command must be set"%string)).
Proof.
  intros Hn Ha. apply (new_server dir b started app Hn) in Ha as ->.
  do 5 (split; [done|]). intros config. subst config. split; [by intros command ->|].
  intros Hu%backend_command_url. by rewrite Hu.
Qed.

Module DemoStart.
Import ToyNumbers ToyText Client.Demo DemoMonitor.

Definition env (name : string) : option string :=
  if String.eqb name "MCP_SERVER_MODE" then Some "On "%string
  else if String.eqb name "MCP_BACKEND_URL" then Some "https://backend.example/stream"%string
  else None.

Definition boot : Startup.Boot :=
  Startup.MkBoot env (fun _ => false) 5 None (Some (PathBuf.of_string "/root")) (Ok tt) (Err "no model"%string)
    (fun _ => Err (Config (FileNotFound "none"))) (fun _ => Ok []) (Ok tt) (Ok tt) (Ok tt).
End DemoStart.

Lemma configured_backends_are_not_used_witness :
  exists started app, Startup.new "/src/acdp-tui" DemoStart.boot = Some started /\
    Startup.mcp_server started = Some app /\
    ClientProxy.new (Backend.MkGiven (Err "no"%string) []) None "c" app =
      Some (Err "Failed to create backend connection: Either backend_url or backend_command must be set"%string).
Proof.
  destruct (Startup.new "/src/acdp-tui" DemoStart.boot) as [started|] eqn:E; [|discriminate E].
  destruct (Startup.mcp_server started) as [app|] eqn:Ea.
  2: { exfalso. injection E as <-. discriminate Ea. }
  exists started, app. split; [done|]. split; [done|].
  apply (configured_backends_are_not_used (SD := DemoMonitor.monitor_debug) "/src/acdp-tui" DemoStart.boot started app
           (Backend.MkGiven (Err "no"%string) []) None "c" E Ea).
  by eexists.
Defined.
