(* ===== verification/ProxyMain.v ===== *)
(** The programs that run a proxy ([acdp-transport/src/main.rs], [lib.rs],
    [bin/http_sse_proxy.rs]): how arguments and configuration become a proxy,
    and what the program's end is. *)

From S2P Require Import Prelude McpError Messages Initialization Interceptor RateLimit Transform Text Common Routing Predictor Gepa Session LlmInterceptor IpcServer StdioHandler CoreTransport Client HttpServers Backend HttpHandler ModelConfig ModelManager Streaming Proxy.

(** What is found at the path of the configuration, the home directory and the
    outcome of writing the default *)
Module ConfigFile.
Record t : Type := mk {
  found : option (Res (Res AppConfig.t string) string);
  home : option PathBuf.t;
  saved : LlmResult unit
}.
Definition load (self : t) : LlmResult AppConfig.t := AppConfig.load (home self) (found self) (saved self).
End ConfigFile.

(** The mode that is given, otherwise the configured one, otherwise hybrid *)
Definition configured_mode (file : ConfigFile.t) : option RoutingMode.t :=
  match ConfigFile.load file with
  | Ok config => match LlmConfig.get_routing_mode (AppConfig.llm config) with Ok mode => Some mode | Err _ => None end
  | Err _ => None
  end.

Definition selected_mode (given : option string) (file : ConfigFile.t) : Res RoutingMode.t string :=
  match given with
  | Some mode => RoutingMode.from_str mode
  | None => Ok (from_option id RoutingMode.Hybrid (configured_mode file))
  end.

Module ProxyApp.
Section app.
Context `{W : LlmWorld, JT : !JsonText, JF : !JsonFloats, UC : UnicodeCase, SD : StrDebug, UT : UuidText} {TA : TransportApi} {UA : UrlApi}.
Context {Engine : Type}.

(** [ProxyArgs], without [verbose], which only chooses what is logged *)
Record ProxyArgs : Type := MkArgs {
  transport_config : ProxyTransport.t;
  name : string;
  ipc_socket : string;
  no_monitor : bool;
  routing_mode : RoutingMode.t
}.

(** What the system gives: the configuration, the language model's service made
    of it, the proxy's identifier, and what [MCPProxy::start] is given *)
Record World : Type := MkWorld {
  file : ConfigFile.t;
  service : AppConfig.t -> Res (LlmFacade.t Engine) string;
  id : ProxyId;
  model_status : option ModelStatus.t;
  running_status : option ModelStatus.t;
  clock : Z -> Readings;
  started : string;
  attempts : list MCPProxy.Attempt;
  given : MCPProxy.Setup;
  pair : string
}.

Definition llm_service (w : World) : option (LlmFacade.t Engine) :=
  match ConfigFile.load (file w) with
  | Ok config => match service w config with Ok s => Some s | Err _ => None end
  | Err _ => None
  end.

Definition proxy_of (w : World) (args : ProxyArgs) : MCPProxy.t Engine :=
  MCPProxy.new (id w) (name args) (transport_config args) (llm_service w) (routing_mode args).

(** [run_proxy_app]; [None] when the upstream's client panics or an attempt is
    missing *)
Definition run_proxy_app (w : World) (args : ProxyArgs) : option MCPProxy.Ended :=
  MCPProxy.start (negb (no_monitor args)) (model_status w) (running_status w) (clock w) (started w) (attempts w) (given w) (pair w)
    (proxy_of w args).

(** [acdp-transport]: a proxy over a local server; [suffix] is random. *)
Definition transport_main (w : World) (suffix command : string) (name : option string) (ipc_socket : string) (shell no_monitor : bool)
    (routing_mode : option string) : option (Res MCPProxy.Ended string) :=
  let config := ProxyTransport.mk InboundTransport.Stdio (OutboundTransport.Stdio command shell) in
  match selected_mode routing_mode (file w) with
  | Err e => Some (Err e)
  | Ok mode =>
      match run_proxy_app w
              (MkArgs config (from_option Datatypes.id ("mcp-proxy-" +:+ suffix) name) ipc_socket no_monitor mode) with
      | None => None
      | Some ended => Some (Ok ended)
      end
  end.

(** [acdp-cli proxy] ([run_proxy]) *)
Definition run_proxy (w : World) (in_transport out_transport : string) (in_port : option Z) (command url api_key : option string)
    (name ipc_socket : string) (shell no_monitor : bool) : option (Res MCPProxy.Ended string) :=
  match ProxyTransport.from_cli_args in_transport out_transport command url shell api_key in_port with
  | Err e => Some (Err e)
  | Ok config =>
      match run_proxy_app w
              (MkArgs config name ipc_socket no_monitor (from_option Datatypes.id RoutingMode.Hybrid (configured_mode (file w)))) with
      | None => None
      | Some ended => Some (Ok ended)
      end
  end.

(** [http-sse-proxy]: the manager and the upstream client its server starts
    with, and the address *)
Definition sse_proxy_manager (w : World) (mode : RoutingMode.t) : InterceptorManager.t :=
  match llm_service w with
  | Some service =>
      MCPProxy.with_llm Datatypes.id service mode (MCPProxy.with_transformer (clock w) (started w) mode InterceptorManager.new)
  | None => InterceptorManager.new
  end.

Definition sse_proxy_impl : Implementation.t := Implementation.new "http-sse-proxy" "0.2.0".

Definition sse_proxy_main (w : World) (upstream host : string) (port : Z) (routing_mode : option string)
  : option (Res HttpSseServer.t string) :=
  match selected_mode routing_mode (file w) with
  | Err e => Some (Err e)
  | Ok mode =>
      let manager := sse_proxy_manager w mode in
      match CoreTransport.TransportConfig.http_sse upstream, with_defaults (MCPProxy.created (given w)) with
      | Err e, _ => Some (Err (error_text e))
      | Ok _, Err e => Some (Err (error_text e))
      | Ok _, Ok client =>
          match McpClient.connect sse_proxy_impl (McpClient.set_interceptor_manager manager client) with
          | None => None
          | Some (Err e, _) => Some (Err (error_text e))
          | Some (Ok _, client) =>
              Some (let? _ := MCPProxy.parsed (given w) in
                    let? _ := MCPProxy.bound (given w) in
                    let? _ := MCPProxy.local_addr (given w) in
                    let? _ := MCPProxy.served (given w) in
                    Ok (HttpSseServer.new client))
          end
      end
  end.
End app.
End ProxyApp.
