(* ===== verification/Cli.v ===== *)
(** The command line ([acdp-cli/src/main.rs], [commands.rs]): its commands, how
    each talks over the monitor's socket and what it prints, and the two
    servers it can reach.  Parsing the arguments is derived code; the model
    starts from the parsed command. *)

From Stdlib Require Import Floats.SpecFloat.
From S2P Require Import Prelude McpError Messages Interceptor RateLimit Transform Text Common Ipc Routing Predictor Gepa Session LlmInterceptor IpcServer StdioHandler CoreTransport Client ModelConfig ModelManager Streaming Proxy ProxyMain MonitorUi Monitor QuickActions Startup.

(** ** The servers behind the sockets

    Both loops receive from a connection and handle each message; the
    connection is dropped when they end. *)

Section servers.
Context `{IC : IpcCodec} `{JT : !JsonText, SD : StrDebug}.

(** [IpcHandler::handle_ipc_server], one connection *)
Definition monitor_connection (now : IpcEnvelope.t -> Z) (sent : Res unit string) (c : IpcConnection.t)
  : list (Res (option AppStateUpdate.t) string) * IpcConnection.t :=
  IpcConnection.serve (fun e => IpcHandler.process_message (now e) sent (IpcEnvelope.message e)) c.

(** [ProxyIpcServer::start], one connection; it listens beside the monitor's
    socket. *)
Definition receive_socket (socket_path : string) : string := socket_path +:+ ".recv".

Definition proxy_connection (self : ProxyIpcServer.t) (responder : IpcEnvelope.t -> nat)
    (queued : IpcEnvelope.t -> Res unit string) (answer : IpcEnvelope.t -> option TuiQueryCompletion.t) (c : IpcConnection.t)
  : list (list ProxyIpcServer.Action) * IpcConnection.t :=
  IpcConnection.serve (fun e => ProxyIpcServer.handle_message self e (responder e) (queued e) (answer e)) c.
End servers.

(** ** Commands *)

Definition default_socket : string := "/tmp/mcp-monitor.sock".
Definition default_timeout : Z := 30.
Definition default_listen : Z := 5.

Module Commands.
Inductive t : Type :=
| Monitor (ipc_socket : string) (verbose : bool)
| Proxy (in_transport out_transport : string) (in_port : option Z) (command url api_key : option string)
    (name ipc_socket : string) (verbose shell no_monitor : bool)
| Query (query ipc_socket : string) (timeout : Z)
| McpRequest (method : string) (params : option string) (ipc_socket : string) (timeout : Z)
| SetRoutingMode (proxy_id mode ipc_socket : string)
| GetStatus (proxy_id ipc_socket : string)
| GetLogs (proxy_id : string) (limit : option nat) (ipc_socket : string)
| ListProxies (ipc_socket : string) (duration : Z)
| Shutdown (proxy_id ipc_socket : string)
| ToggleInterceptor (proxy_id interceptor_name ipc_socket : string).

(** The options that [proxy] declares *)
Definition proxy_options : list string :=
  ["--in"; "--out"; "--in-port"; "--command"; "--url"; "--api-key"; "--name"; "--ipc-socket"; "--verbose"; "--shell";
   "--no-monitor"]%string.
End Commands.

(** What a command leaves behind: the socket it has written to with the text,
    what it prints, and how the program ends *)
Inductive Outcome : Type := Done (r : Res unit string) | Exit (code : Z).

Module Run.
Record t : Type := mk {
  wrote : option (string * string);
  stdout : list string;
  stderr : list string;
  outcome : Outcome
}.

Definition failed (e : string) : t := mk None [] [] (Done (Err e)).

(** The status of the process: an error that [main] returns is a failure. *)
Definition exit_code (self : t) : Z :=
  match outcome self with Done (Ok _) => 0 | Done (Err _) => 1 | Exit code => code end.
End Run.

Module Cli.
Section cli.
Context `{IC : IpcCodec} `{JT : !JsonText, SD : StrDebug} {UP : UuidParse}.

(** What the system gives to a command: connecting to a socket, the time and
    the identifiers of the envelope and of the request, how writing goes, what
    has come back on the connection by the time the command stops waiting, as a
    function of what it wrote, and [serde_json::from_str] *)
Record Io : Type := MkIo {
  connect : string -> Res unit string;
  now : Z;
  envelope_id : string;
  request_id : string;
  write : Wrote;
  peer : string -> Incoming.t;
  from_json : string -> Res Value string
}.

Definition connect_error : string := "Failed to connect to IPC socket".

(** A function of [commands.rs] over the connection *)
Definition issue {A} (io : Io) (command : Res unit string -> list IpcMessage.t * Res A string) (c : IpcConnection.t)
  : Res A string * IpcConnection.t :=
  match (command (Ok tt)).1 with
  | [] => ((command (Ok tt)).2, c)
  | message :: _ =>
      let '(sent, c) := IpcConnection.send_message (now io) (envelope_id io) (write io) message c in ((command sent).2, c)
  end.

(** What is received on the connection before the time is over *)
Definition arrivals (io : Io) (c : IpcConnection.t) : list (Res (option IpcEnvelope.t) string) :=
  (IpcConnection.received (IpcConnection.mk (peer io (IpcConnection.writer c)) (IpcConnection.writer c))).1.

Definition answer_of (correlation_id : string) (m : IpcMessage.t) : option IpcQueryResponse.t :=
  match m with
  | IpcMessage.TuiQueryResponse resp_id response error ttft_ms tokens_per_sec total_tokens interceptor_delay_ms =>
      if String.eqb resp_id correlation_id
      then Some (IpcQueryResponse.mk resp_id response error ttft_ms tokens_per_sec total_tokens interceptor_delay_ms)
      else None
  | _ => None
  end.

(** The timer fires when nothing more arrives. *)
Fixpoint wait_for_response (correlation_id : string) (timeout_secs : Z) (arrived : list (Res (option IpcEnvelope.t) string))
  : Res IpcQueryResponse.t string :=
  match arrived with
  | [] => Err ("Timeout waiting for response (" +:+ pretty timeout_secs +:+ "s)")
  | Ok (Some envelope) :: arrived =>
      match answer_of correlation_id (IpcEnvelope.message envelope) with
      | Some response => Ok response
      | None => wait_for_response correlation_id timeout_secs arrived
      end
  | Ok None :: _ => Err "IPC connection closed before response received"%string
  | Err e :: _ => Err ("Error receiving IPC message: " +:+ e)
  end.

(** [execute_query] and [execute_mcp_request], with what was written *)
Definition request_and_wait (io : Io) (ipc_socket : string) (timeout_secs : option Z)
    (command : Res unit string -> list IpcMessage.t * Res string string)
  : Res IpcQueryResponse.t string * option (string * string) :=
  match connect io ipc_socket with
  | Err _ => (Err connect_error, None)
  | Ok _ =>
      let '(r, c) := issue io command IpcConnection.new in
      (let? correlation_id := r in
       wait_for_response correlation_id (from_option id default_timeout timeout_secs) (arrivals io c),
       Some (ipc_socket, IpcConnection.writer c))
  end.

Definition execute_query (io : Io) (ipc_socket query : string) (timeout_secs : option Z) :=
  request_and_wait io ipc_socket timeout_secs (commands.send_ipc_query_async (request_id io) query).

Definition execute_mcp_request (io : Io) (ipc_socket method : string) (params : option Value) (timeout_secs : option Z) :=
  request_and_wait io ipc_socket timeout_secs (commands.send_ipc_mcp_request_async (request_id io) method params).

(** A command for one proxy, which is only sent *)
Definition tell_proxy (io : Io) (ipc_socket proxy_id : string)
    (command : ProxyId -> Res unit string -> list IpcMessage.t * Res unit string) (printed : string) : Run.t :=
  match connect io ipc_socket with
  | Err _ => Run.failed connect_error
  | Ok _ =>
      match parse_str proxy_id with
      | None => Run.mk (Some (ipc_socket, ""%string)) [] [] (Done (Err ("Invalid proxy ID: " +:+ proxy_id)))
      | Some id =>
          let '(r, c) := issue io (command id) IpcConnection.new in
          Run.mk (Some (ipc_socket, IpcConnection.writer c)) (match r with Ok _ => [printed] | Err _ => [] end) [] (Done r)
      end
  end.

Definition execute_set_routing_mode (io : Io) (ipc_socket proxy_id mode : string) : Run.t :=
  tell_proxy io ipc_socket proxy_id (fun id => commands.set_routing_mode id mode) "✓ Routing mode change request sent".
Definition execute_get_status (io : Io) (ipc_socket proxy_id : string) : Run.t :=
  tell_proxy io ipc_socket proxy_id commands.get_proxy_status "✓ Status request sent (monitor IPC stream for response)".
Definition execute_get_logs (io : Io) (ipc_socket proxy_id : string) (limit : option nat) : Run.t :=
  tell_proxy io ipc_socket proxy_id (fun id => commands.get_proxy_logs id limit)
    "✓ Logs request sent (monitor IPC stream for response)".
Definition execute_shutdown (io : Io) (ipc_socket proxy_id : string) : Run.t :=
  tell_proxy io ipc_socket proxy_id commands.shutdown_proxy "✓ Shutdown request sent".
Definition execute_toggle_interceptor (io : Io) (ipc_socket proxy_id interceptor_name : string) : Run.t :=
  tell_proxy io ipc_socket proxy_id (fun id => commands.toggle_interceptor id interceptor_name) "✓ Toggle interceptor request sent".

(** *** Listing *)

Definition status_debug (s : ProxyStatus.t) : string :=
  match s with
  | ProxyStatus.Starting => "Starting"
  | ProxyStatus.Running => "Running"
  | ProxyStatus.Stopped => "Stopped"
  | ProxyStatus.Error message => "Error(" +:+ str_debug message +:+ ")"
  end.

Definition announced (info : ProxyInfo.t) : list string :=
  [newline +:+ "✓ Proxy " +:+ ProxyInfo.name info +:+ " (" +:+ ProxyInfo.id info +:+ ")";
   "  Transport: " +:+ IpcHandler.transport_debug (ProxyInfo.transport_type info);
   "  Status: " +:+ status_debug (ProxyInfo.status info)]%string ++
  match ProxyInfo.routing_mode info with Some mode => ["  Routing Mode: " +:+ mode]%string | None => [] end.

(** The lines printed, those to the error stream, and the number of proxies if
    the loop ended before the time was over *)
Fixpoint listen (count : nat) (arrived : list (Res (option IpcEnvelope.t) string)) : list string * list string * option nat :=
  match arrived with
  | [] => ([], [], None)
  | Ok None :: _ => ([newline +:+ "IPC connection closed"]%string, [], Some count)
  | Err e :: _ => ([], [newline +:+ "Error: " +:+ e]%string, Some count)
  | Ok (Some envelope) :: arrived =>
      let '(now, count) :=
        match IpcEnvelope.message envelope with
        | IpcMessage.ProxyStarted info => (announced info, S count)
        | IpcMessage.ProxyStopped id => ([newline +:+ "✗ Proxy stopped: " +:+ id]%string, count)
        | _ => ([], count)
        end in
      let '(out, err, ended) := listen count arrived in (now ++ out, err, ended)
  end.

Definition no_proxies : string := newline +:+ "No proxies detected. Start a proxy with: mcp-cli proxy ...".

Definition execute_list_proxies (io : Io) (ipc_socket : string) (duration_secs : Z) : Run.t :=
  match connect io ipc_socket with
  | Err _ => Run.failed connect_error
  | Ok _ =>
      let '(out, err, ended) := listen 0 (arrivals io IpcConnection.new) in
      Run.mk (Some (ipc_socket, ""%string))
        (("Listening for proxy announcements (" +:+ pretty duration_secs +:+ "s)...")%string :: out ++
         match ended with
         | Some O => [no_proxies]
         | Some _ => []
         | None => [newline +:+ "Timeout reached"]%string
         end) err (Done (Ok tt))
  end.

(** *** The program *)

Definition print_query_response (response : IpcQueryResponse.t) : list string * list string * option Z :=
  match IpcQueryResponse.error response with
  | Some error => ([], ["✗ Error: " +:+ error]%string, Some 1)
  | None =>
      let metric {A} (value : option A) (line : A -> string) : list string :=
        match value with Some v => [line v] | None => [] end in
      let fixed (v : f64) : string := format_fixed 2 v in
      let measured :=
        match IpcQueryResponse.ttft_ms response, IpcQueryResponse.tokens_per_sec response,
              IpcQueryResponse.interceptor_delay_ms response with
        | None, None, None => false
        | _, _, _ => true
        end in
      (IpcQueryResponse.response response ::
       (if measured then
          [newline +:+ "--- Metrics ---"]%string ++
          metric (IpcQueryResponse.ttft_ms response) (fun v => "Time to first token: " +:+ fixed v +:+ "ms") ++
          metric (IpcQueryResponse.tokens_per_sec response) (fun v => "Tokens per second: " +:+ fixed v) ++
          metric (IpcQueryResponse.total_tokens response) (fun n => "Total tokens: " +:+ pretty (Z.of_nat n)) ++
          metric (IpcQueryResponse.interceptor_delay_ms response) (fun v => "Interceptor delay: " +:+ fixed v +:+ "ms")
        else []), [], None)
  end.

Definition show (r : Res IpcQueryResponse.t string * option (string * string)) : Run.t :=
  match r with
  | (Err e, wrote) => Run.mk wrote [] [] (Done (Err e))
  | (Ok response, wrote) =>
      let '(out, err, code) := print_query_response response in
      Run.mk wrote out err (match code with Some code => Exit code | None => Done (Ok tt) end)
  end.

(** [monitor] and [proxy] are [run_monitor] and [run_proxy]. *)
Context (monitor : string -> bool -> option (list string * Res unit string)).
Context (proxy : string -> string -> option Z -> option string -> option string -> option string -> string -> string -> bool -> bool ->
                 option (Res unit string)).

(** [main], [None] when it panics; without a command it is the monitor. *)
Definition main (io : Io) (command : option Commands.t) : option Run.t :=
  let run_monitor socket verbose :=
    match monitor socket verbose with None => None | Some (err, r) => Some (Run.mk None [] err (Done r)) end in
  match command with
  | None => run_monitor default_socket false
  | Some (Commands.Monitor ipc_socket verbose) => run_monitor ipc_socket verbose
  | Some (Commands.Proxy in_transport out_transport in_port command url api_key name ipc_socket _ shell no_monitor) =>
      match proxy in_transport out_transport in_port command url api_key name ipc_socket shell no_monitor with
      | None => None
      | Some r => Some (Run.mk None [] [] (Done r))
      end
  | Some (Commands.Query query ipc_socket timeout) => Some (show (execute_query io ipc_socket query (Some timeout)))
  | Some (Commands.McpRequest method params ipc_socket timeout) =>
      Some
        (match match params with None => Ok None | Some p => let? v := from_json io p in Ok (Some v) end with
         | Err e => Run.failed e
         | Ok params => show (execute_mcp_request io ipc_socket method params (Some timeout))
         end)
  | Some (Commands.SetRoutingMode proxy_id mode ipc_socket) => Some (execute_set_routing_mode io ipc_socket proxy_id mode)
  | Some (Commands.GetStatus proxy_id ipc_socket) => Some (execute_get_status io ipc_socket proxy_id)
  | Some (Commands.GetLogs proxy_id limit ipc_socket) => Some (execute_get_logs io ipc_socket proxy_id limit)
  | Some (Commands.ListProxies ipc_socket duration) => Some (execute_list_proxies io ipc_socket duration)
  | Some (Commands.Shutdown proxy_id ipc_socket) => Some (execute_shutdown io ipc_socket proxy_id)
  | Some (Commands.ToggleInterceptor proxy_id interceptor_name ipc_socket) =>
      Some (execute_toggle_interceptor io ipc_socket proxy_id interceptor_name)
  end.
End cli.
End Cli.

(** ** What the servers answer *)

Section laws.
Context `{IC : IpcCodec} `{JT : !JsonText, SD : StrDebug} {UP : UuidParse}.
Import Cli.

(** The other end of every connection is one of the two servers: what comes
    back is what its loop has written on the connection. *)
Inductive served (io : Cli.Io) : Prop :=
| by_monitor now sent ending :
    (forall w, Incoming.text (peer io w) =
       IpcConnection.writer (monitor_connection now sent (IpcConnection.mk (Incoming.mk w ending) "")).2) -> served io
| by_proxy server responder queued answer ending :
    (forall w, Incoming.text (peer io w) =
       IpcConnection.writer (proxy_connection server responder queued answer (IpcConnection.mk (Incoming.mk w ending) "")).2) ->
    served io.

Lemma served_nothing io w : served io -> Incoming.text (peer io w) = ""%string.
Proof.
  intros [now sent ending H|server responder queued answer ending H]; rewrite H;
    unfold monitor_connection, proxy_connection; by rewrite serve_writer.
Qed.

(** So a command receives the end of the connection at most. *)
Lemma served_arrivals io c :
  served io -> arrivals io c = [] \/ arrivals io c = [Ok None] \/ exists e, arrivals io c = [Err e].
Proof.
  intros H. pose proof (served_nothing io (IpcConnection.writer c) H) as Ht. unfold arrivals.
  destruct (peer io (IpcConnection.writer c)) as [text ending]. cbn in Ht. subst text.
  destruct ending as [| |e]; [by left|by right; left|right; right; by exists e].
Qed.

Lemma served_no_response io id secs c : served io -> is_ok (wait_for_response id secs (arrivals io c)) = false.
Proof. by intros [-> |[-> |[e ->]]]%(served_arrivals io c). Qed.

(** The first answer with the identifier is the one that is returned. *)
Lemma wait_for_response_skips id secs es rest :
  Forall (fun e => answer_of id (IpcEnvelope.message e) = None) es ->
  wait_for_response id secs (((fun e => Ok (Some e)) <$> es) ++ rest) = wait_for_response id secs rest.
Proof. induction 1 as [|e es He _ IH]; [done|]. cbn [fmap list_fmap app wait_for_response]. by rewrite He, IH. Qed.

(** What a request that gets no answer leaves behind.  It is written to the
    socket whole, as one line, unless connecting, encoding or writing fails; a
    request that was written whole ends when its time is over or when the
    connection ends. *)
Definition unanswered (io : Cli.Io) (socket : string) (message : IpcMessage.t) (secs : Z) (run : Run.t) : Prop :=
  let ended wrote e := run = Run.mk wrote [] [] (Done (Err e)) in
  match connect io socket, envelope_to_string (IpcEnvelope.mk _ message (now io) (Some (envelope_id io))), write io with
  | Err _, _, _ => ended None connect_error
  | Ok _, Err e, _ => ended (Some (socket, ""%string)) e
  | Ok _, Ok json, Failed n e => ended (Some (socket, String.substring 0 n (json +:+ newline))) e
  | Ok _, Ok json, All =>
      ended (Some (socket, (json +:+ newline)%string))
        (match Incoming.ending (peer io (json +:+ newline)) with
         | Open => "Timeout waiting for response (" +:+ pretty secs +:+ "s)"
         | Closed => "IPC connection closed before response received"
         | Broken e => "Error receiving IPC message: " +:+ e
         end)%string
  end.

(** A request whose command is one message and its identifier *)
Lemma request_fails io socket secs message id :
  served io ->
  unanswered io socket message secs
    (show (request_and_wait io socket (Some secs) (fun sent => ([message], let? _ := sent in Ok id)))).
Proof.
  intros H. unfold unanswered, request_and_wait. destruct (connect io socket) as [u|e]; [|done].
  cbn [issue fst snd res_bind]. unfold issue. cbn [fst snd]. unfold IpcConnection.send_message.
  destruct (envelope_to_string _) as [json|e]; [|done].
  destruct (write io) as [|n e]; [|done]. cbn [res_bind IpcConnection.writer from_option].
  change (IpcConnection.writer IpcConnection.new +:+ json +:+ newline)%string with (json +:+ newline)%string.
  pose proof (served_nothing io (json +:+ newline) H) as Ht. unfold arrivals. cbn [IpcConnection.writer].
  destruct (peer io (json +:+ newline)) as [text ending]. cbn in Ht. subst text. by destruct ending.
Qed.

Lemma unanswered_exit io socket message secs run : unanswered io socket message secs run -> Run.exit_code run = 1.
Proof.
  unfold unanswered. cbv zeta. destruct (connect io socket); [|by intros ->].
  destruct (envelope_to_string _); [|by intros ->]. by destruct (write io); intros ->.
Qed.

(** Sent whole, a message comes in at a server alone. *)
Lemma served_message {A} (handle : IpcEnvelope.t -> A) io message json ending w :
  IpcCodecLaws IC ->
  envelope_to_string (IpcEnvelope.mk _ message (now io) (Some (envelope_id io))) = Ok json ->
  faithful (IpcEnvelope.mk _ message (now io) (Some (envelope_id io))) ->
  (IpcConnection.serve handle (IpcConnection.mk (Incoming.mk (json +:+ newline) ending) w)).1 =
    [handle (IpcEnvelope.mk _ message (now io) (Some (envelope_id io)))].
Proof.
  intros IL Hj Hf. unfold IpcConnection.serve, IpcConnection.received. cbn [IpcConnection.reader Incoming.text].
  cbn [IpcConnection.receive_all]. rewrite <- (str_app_nil_r newline), (receive_line _ json "" ending w Hj Hf).
  rewrite str_length_app. destruct (String.length json) as [|n] eqn:E.
  { destruct (envelope_line _ json Hj) as (_ & _ & Hn). by destruct json. }
  cbn. by destruct ending.
Qed.

(** The messages of commands that neither server acts on *)
Definition unheeded (m : IpcMessage.t) : bool :=
  match m with
  | IpcMessage.GetStatus _ | IpcMessage.GetLogs _ _ | IpcMessage.Shutdown _ | IpcMessage.ToggleInterceptor _ _ => true
  | _ => false
  end.

Lemma unheeded_monitor now sent m : unheeded m = true -> IpcHandler.process_message now sent m = Ok None.
Proof. by destruct m. Qed.

Lemma unheeded_proxy server m stamp corr responder queued answer :
  unheeded m = true -> ProxyIpcServer.handle_message server (IpcEnvelope.mk _ m stamp corr) responder queued answer = [].
Proof. by destruct m. Qed.
End laws.

(** C34: the command line never gets an answer.  Whichever of the two servers it
    is connected to, the monitor or a proxy, and whatever either does with the
    request, nothing is written back on the connection.  A query is written to
    its socket as one line, the envelope of its message, and a request likewise
    when its parameters are JSON; then each fails, when its time is over or the
    connection ends: it prints nothing and its exit code is 1.  Before that only
    connecting, encoding or writing can fail.  Listing the proxies lists
    none. *)
Theorem command_line_gets_no_answer `{IC : IpcCodec} `{JT : !JsonText, SD : StrDebug} {UP : UuidParse}
    monitor proxy (io : Cli.Io) command run :
  served io -> Cli.main monitor proxy io (Some command) = Some run ->
  match command with
  | Commands.Query query socket secs =>
      unanswered io socket (IpcMessage.TuiQuery query (Cli.request_id io)) secs run /\ Run.exit_code run = 1
  | Commands.McpRequest method params socket secs =>
      Run.exit_code run = 1 /\
      match params with
      | None => unanswered io socket (IpcMessage.TuiMcpRequest method None (Cli.request_id io)) secs run
      | Some text =>
          match Cli.from_json io text with
          | Ok v => unanswered io socket (IpcMessage.TuiMcpRequest method (Some v) (Cli.request_id io)) secs run
          | Err e => run = Run.mk None [] [] (Done (Err e))
          end
      end
  | Commands.ListProxies _ secs =>
      Run.exit_code run = 1 /\ Run.stdout run = [] \/
      exists last, Run.stdout run = ("Listening for proxy announcements (" +:+ pretty secs +:+ "s)...")%string :: last /\
        (last = [newline +:+ "IPC connection closed"; Cli.no_proxies]%string \/ last = [Cli.no_proxies] \/
         last = [newline +:+ "Timeout reached"]%string)
  | _ => True
  end.
Proof.
  intros Hs. destruct command; cbn [Cli.main]; try done.
  - intros [= <-]. pose proof (request_fails io ipc_socket timeout (IpcMessage.TuiQuery query (Cli.request_id io)) (Cli.request_id io) Hs) as H.
    split; [exact H|exact (unanswered_exit _ _ _ _ _ H)].
  - intros [= <-].
    assert (H : forall v, unanswered io ipc_socket (IpcMessage.TuiMcpRequest method v (Cli.request_id io)) timeout
                  (Cli.show (Cli.execute_mcp_request io ipc_socket method v (Some timeout)))).
    { intros v. exact (request_fails io ipc_socket timeout (IpcMessage.TuiMcpRequest method v (Cli.request_id io)) _ Hs). }
    destruct params as [p|]; cbn [res_bind]; [destruct (Cli.from_json io p) as [v|e]; cbn [res_bind]; [|done]|];
      (split; [exact (unanswered_exit _ _ _ _ _ (H _))|exact (H _)]).
  - intros [= <-]. unfold Cli.execute_list_proxies. destruct (Cli.connect io ipc_socket) as [u|e]; [|by left]. right.
    destruct (served_arrivals io IpcConnection.new Hs) as [-> |[-> |[e ->]]]; cbn; eexists; (split; [done|]); auto.
Qed.

(** A command for a proxy succeeds without doing anything.  Asking for the
    status or the logs, shutting a proxy down and toggling an interceptor print
    that the request was sent and end with exit code 0 whenever it could be
    sent; and both servers receive exactly that message and do nothing with
    it: the monitor makes no update of it and the proxy takes no action. *)
Theorem proxy_commands_do_nothing `{IC : IpcCodec} {IL : IpcCodecLaws IC} `{JT : !JsonText, SD : StrDebug} {UP : UuidParse}
    monitor proxy (io : Cli.Io) command socket proxy_id id m :
  (command, m) ∈ [(Commands.GetStatus proxy_id socket, IpcMessage.GetStatus id);
                  (Commands.Shutdown proxy_id socket, IpcMessage.Shutdown id)] \/
  (exists limit, command = Commands.GetLogs proxy_id limit socket /\ m = IpcMessage.GetLogs id limit) \/
  (exists name, command = Commands.ToggleInterceptor proxy_id name socket /\ m = IpcMessage.ToggleInterceptor id name) ->
  parse_str proxy_id = Some id -> Cli.connect io socket = Ok tt -> Cli.write io = All ->
  is_ok (envelope_to_string (IpcEnvelope.mk _ m (Cli.now io) (Some (Cli.envelope_id io)))) = true ->
  faithful (IpcEnvelope.mk _ m (Cli.now io) (Some (Cli.envelope_id io))) ->
  exists text line, Cli.main monitor proxy io (Some command) = Some (Run.mk (Some (socket, text)) [line] [] (Done (Ok tt))) /\
    forall ending w,
      (forall now sent, (monitor_connection now sent (IpcConnection.mk (Incoming.mk text ending) w)).1 = [Ok None]) /\
      (forall server responder queued answer,
         (proxy_connection server responder queued answer (IpcConnection.mk (Incoming.mk text ending) w)).1 = [[]]).
Proof.
  intros Hm Hp Hc Hw Hj Hf. apply is_ok_iff in Hj as [json Hj]. exists (json +:+ newline)%string.
  assert (Hu : unheeded m = true /\ exists line, Cli.main monitor proxy io (Some command) =
                 Some (Run.mk (Some (socket, (json +:+ newline)%string)) [line] [] (Done (Ok tt)))).
  { rewrite elem_of_cons, list_elem_of_singleton in Hm.
    destruct Hm as [[[= -> ->]|[= -> ->]]|[(limit & -> & ->)|(name & -> & ->)]]; (split; [done|]); eexists; cbn [Cli.main];
      unfold Cli.execute_get_status, Cli.execute_shutdown, Cli.execute_get_logs, Cli.execute_toggle_interceptor, Cli.tell_proxy, Cli.issue;
      rewrite Hc, Hp; cbn; unfold IpcConnection.send_message; rewrite Hj, Hw; reflexivity. }
  destruct Hu as [Hu [line Hl]]. exists line. split; [done|]. intros ending w. split; intros.
  - unfold monitor_connection. rewrite (served_message _ io m json ending w) by done. cbn [IpcEnvelope.message].
    by rewrite unheeded_monitor.
  - unfold proxy_connection. rewrite (served_message _ io m json ending w) by done. by rewrite unheeded_proxy.
Qed.

(** ** The program, and what the monitor asks of it *)

Section program.
Context `{W : LlmWorld, JT : !JsonText, JF : !JsonFloats, UC : UnicodeCase, SD : StrDebug, UT : UuidText, IC : !IpcCodec}
  {TA : TransportApi} {UA : UrlApi} {UP : UuidParse}.
Context {Engine : Type}.

(** [acdp-cli] with the monitor and the proxy it starts; an error of the proxy
    is the program's. *)
Definition program (dir : string) (boot : Startup.Boot) (ran : Startup.Started -> Res unit string) (world : ProxyApp.World)
    (io : Cli.Io) (command : option Commands.t) : option Run.t :=
  Cli.main (fun socket verbose => Startup.run_monitor_app dir socket verbose boot ran)
    (fun in_transport out_transport in_port cmd url api_key name socket shell no_monitor =>
       match ProxyApp.run_proxy (Engine := Engine) world in_transport out_transport in_port cmd url api_key name socket shell no_monitor with
       | None => None
       | Some r => Some (let? ended := r in MCPProxy.result ended)
       end) io command.
End program.

(** The options among some arguments *)
Definition options_of (args : list string) : list string := List.filter (starts_with "--") args.

(** The monitor starts its proxy for clients with options the command line
    has, and the proxy of its quick action with two it does not have. *)
Lemma spawned_options dir url :
  starts_with "--" url = false ->
  Forall (fun o => o ∈ Commands.proxy_options) (options_of (Startup.auto_proxy_args url)) /\
  List.filter (fun o => negb (existsb (String.eqb o) Commands.proxy_options)) (options_of (Startup.default_proxy_args dir)) =
    ["--routing-mode"; "--transport"]%string.
Proof.
  intros H. split; [|done]. unfold Startup.auto_proxy_args, options_of. cbn [List.filter]. rewrite H. cbn.
  repeat constructor; apply list_elem_of_In; cbn; tauto.
Qed.

(** *** Concrete commands *)

Module DemoCli.
Import ToyNumbers ToyIpc ToyText DemoMonitor DemoActions.

(** Connected to a monitor, which reads to the end of what is written *)
Definition io : Cli.Io :=
  Cli.MkIo (fun _ => Ok tt) 3 "a" "q" All
    (fun w => Incoming.mk (IpcConnection.writer (monitor_connection (fun _ => 5) (Ok tt) (IpcConnection.mk (Incoming.mk w Closed) "")).2) Open)
    (fun _ => Err "not JSON"%string).

Lemma io_served : served io.
Proof. exact (by_monitor io (fun _ => 5) (Ok tt) Closed (fun w => eq_refl)). Qed.

Definition monitor (socket : string) (verbose : bool) : option (list string * Res unit string) := None.
Definition proxy (a b : string) (p : option Z) (c u k : option string) (n s : string) (sh nm : bool) : option (Res unit string) := None.
End DemoCli.

#[local] Existing Instance ToyNumbers.toy_numbers.
#[local] Existing Instance ToyIpc.toy_ipc.
#[local] Existing Instance ToyIpc.toy_ipc_laws.
#[local] Existing Instance DemoActions.toy_uuid.

Lemma command_line_gets_no_answer_witness :
  exists run, Cli.main DemoCli.monitor DemoCli.proxy DemoCli.io (Some (Commands.Query "hello" default_socket 30)) = Some run /\
    run = Run.mk (Some (default_socket, ("query" +:+ newline)%string)) [] []
            (Done (Err "Timeout waiting for response (30s)"%string)) /\
    Run.exit_code run = 1.
Proof.
  eexists. split; [reflexivity|].
  destruct (command_line_gets_no_answer DemoCli.monitor DemoCli.proxy DemoCli.io (Commands.Query "hello" default_socket 30) _
           DemoCli.io_served eq_refl) as [H1 H2].
  split; [|exact H2]. etransitivity; [exact H1|]. vm_compute. reflexivity.
Defined.

Lemma proxy_commands_do_nothing_witness :
  exists text line, Cli.main DemoCli.monitor DemoCli.proxy DemoCli.io (Some (Commands.GetStatus "P" default_socket)) =
    Some (Run.mk (Some (default_socket, text)) [line] [] (Done (Ok tt))).
Proof.
  destruct (proxy_commands_do_nothing DemoCli.monitor DemoCli.proxy DemoCli.io (Commands.GetStatus "P" default_socket) default_socket
              "P" "p" (IpcMessage.GetStatus "p")) as (text & line & H & _);
    [left; left|reflexivity|reflexivity|reflexivity|reflexivity|by right; right|].
  by exists text, line.
Defined.
