(* ===== verification/GatewayMain.v ===== *)
(** The gateway's program ([acdp-auth/src/bin/gateway.rs]): three routes over a
    gateway that two of them are given and do not use. *)

From S2P Require Import Prelude Externs Messages Gateway.

Module GatewayMain.

Definition base_url : string := "https://acdp-gateway.kontext.dev/".
Definition bind_address : string := "0.0.0.0:8080".

Section main.
Context `{E : Ed25519Api, JN : JsonNumbers}.

Record Reply : Type := MkReply { status : Z; body : option Value }.

Definition health_check : Reply :=
  MkReply 200 (Some (VObject [("status"%string, VString "healthy"); ("version"%string, VString "0.1.0")])).

Definition not_implemented (message : string) : Reply :=
  MkReply 501 (Some (VObject [("error"%string, VString "not_implemented"); ("message"%string, VString message)])).

Definition issue_credential (gateway : ACDPGateway.t) : Reply * ACDPGateway.t :=
  (not_implemented "Credential issuance not yet implemented", gateway).
Definition verify_credential (gateway : ACDPGateway.t) : Reply * ACDPGateway.t :=
  (not_implemented "Credential verification not yet implemented", gateway).

Inductive Handler : Type :=
| Health
| Json (handle : ACDPGateway.t -> Reply * ACDPGateway.t).

(** The routes, by path and method *)
Definition routes : list (string * string * Handler) :=
  [("/health", "GET", Health); ("/acdp/v1/credentials/issue", "POST", Json issue_credential);
   ("/acdp/v1/verify", "POST", Json verify_credential)]%string.

(** actix answers 404 for another path and 405 for another method of a path;
    [extracted] is what its extractor makes of the body, an error being the
    status it answers with. *)
Definition respond (method path : string) (extracted : Res unit Z) (gateway : ACDPGateway.t) : Reply * ACDPGateway.t :=
  match List.filter (fun '(p, _, _) => String.eqb p path) routes with
  | [] => (MkReply 404 None, gateway)
  | rs =>
      match find (fun '(_, m, _) => String.eqb m method) rs with
      | None => (MkReply 405 None, gateway)
      | Some (_, _, Health) => (health_check, gateway)
      | Some (_, _, Json handle) =>
          match extracted with Ok _ => handle gateway | Err status => (MkReply status None, gateway) end
      end
  end.

(** The program: a gateway with a fresh key, and the requests in turn *)
Record Request : Type := MkRequest { method : string; path : string; extracted : Res unit Z }.

Definition serve (requests : list Request) (gateway : ACDPGateway.t) : list Reply * ACDPGateway.t :=
  foldl (fun '(replies, g) r => let '(reply, g) := respond (method r) (path r) (extracted r) g in (replies ++ [reply], g))
    ([], gateway) requests.

Definition main (generated : SecretKey) (requests : list Request) : list Reply * ACDPGateway.t :=
  serve requests (ACDPGateway.new generated base_url).

(** ** It issues and verifies nothing *)

Lemma respond_spec m p x gateway :
  (respond m p x gateway).2 = gateway /\
  ((respond m p x gateway).1 = health_check /\ m = "GET"%string /\ p = "/health"%string \/
   (respond m p x gateway).1 = not_implemented "Credential issuance not yet implemented" \/
   (respond m p x gateway).1 = not_implemented "Credential verification not yet implemented" \/
   body (respond m p x gateway).1 = None).
Proof.
  unfold respond, routes. cbn [List.filter].
  destruct (String.eqb_spec "/health" p) as [<-|_]; cbn iota.
  { change (String.eqb "/acdp/v1/credentials/issue" "/health") with false.
    change (String.eqb "/acdp/v1/verify" "/health") with false. cbn [find].
    destruct (String.eqb_spec "GET" m) as [<-|_]; cbn; auto. }
  destruct (String.eqb_spec "/acdp/v1/credentials/issue" p) as [<-|_]; cbn iota.
  { change (String.eqb "/acdp/v1/verify" "/acdp/v1/credentials/issue") with false. cbn [find].
    destruct (String.eqb_spec "POST" m) as [_|_]; [destruct x|]; cbn; auto. }
  destruct (String.eqb_spec "/acdp/v1/verify" p) as [<-|_]; cbn iota; [cbn [find]|cbn; auto 6].
  destruct (String.eqb_spec "POST" m) as [_|_]; [destruct x|]; cbn; auto 6.
Qed.

(** Whatever it is asked, every reply with a body is the health check's or says
    that nothing is implemented, and the gateway stays as it was made. *)
Lemma gateway_only_reports_health generated requests :
  (main generated requests).2 = ACDPGateway.new generated base_url /\
  Forall (fun r => body r = None \/ r = health_check \/ status r = 501) (main generated requests).1.
Proof.
  unfold main, serve. generalize (ACDPGateway.new generated base_url). intros g.
  assert (H : forall replies, Forall (fun r => body r = None \/ r = health_check \/ status r = 501) replies ->
    let r := foldl (fun '(replies, g) r => let '(reply, g) := respond (method r) (path r) (extracted r) g in (replies ++ [reply], g))
               (replies, g) requests in
    r.2 = g /\ Forall (fun r => body r = None \/ r = health_check \/ status r = 501) r.1); [|by apply H].
  induction requests as [|[m p x] requests IH]; intros replies Hr; [done|]. cbn [foldl method path extracted].
  pose proof (respond_spec m p x g) as [Hg Hs]. destruct (respond m p x g) as [reply g']. cbn [fst snd] in *. subst g'.
  apply IH. apply Forall_app. split; [done|]. apply Forall_singleton.
  destruct Hs as [[-> _]|[-> |[-> |Hb]]]; auto.
Qed.
End main.
End GatewayMain.
