(* ===== verification/ClientMessages.v ===== *)
(** The client's message task and its builder ([acdp-core/src/client.rs]):
    responses are sent to the requests that wait for them, notifications to the
    handler.  [Client] models the client without the task, since nothing sends
    to it. *)

From S2P Require Import Prelude McpError Messages Text ParamValidation Initialization Interceptor CoreTransport Client Families.

(** ** Notifications *)

(** The trait: a handler with its state, whose errors are passed over *)
Module NotificationHandler.
Record t `{JN : JsonNumbers} (H : Type) : Type := mk {
  handle_progress : logging.ProgressNotification.t -> H -> McpResult unit * H;
  handle_resource_updated : resources.ResourceUpdatedNotification.t -> H -> McpResult unit * H;
  handle_resource_list_changed : Metadata.t -> H -> McpResult unit * H;
  handle_tool_list_changed : Metadata.t -> H -> McpResult unit * H;
  handle_prompt_list_changed : Metadata.t -> H -> McpResult unit * H
}.
Arguments mk {JN H}.
Arguments handle_progress {JN H}.
Arguments handle_resource_updated {JN H}.
Arguments handle_resource_list_changed {JN H}.
Arguments handle_tool_list_changed {JN H}.
Arguments handle_prompt_list_changed {JN H}.
End NotificationHandler.

(** [DefaultNotificationHandler] only logs. *)
Definition DefaultNotificationHandler `{JN : JsonNumbers} : NotificationHandler.t unit :=
  NotificationHandler.mk (fun _ h => (Ok tt, h)) (fun _ h => (Ok tt, h)) (fun _ h => (Ok tt, h)) (fun _ h => (Ok tt, h))
    (fun _ h => (Ok tt, h)).

(** The counters the task moves *)
Definition received_response (s : ClientStats.t) : ClientStats.t :=
  ClientStats.mk (ClientStats.requests_sent s) (wrap_u64 (ClientStats.responses_received s + 1)) (ClientStats.notifications_sent s)
    (ClientStats.notifications_received s) (ClientStats.errors s) (ClientStats.retries s) (ClientStats.connection_attempts s)
    (ClientStats.last_activity s).
Definition received_notification (s : ClientStats.t) : ClientStats.t :=
  ClientStats.mk (ClientStats.requests_sent s) (ClientStats.responses_received s) (ClientStats.notifications_sent s)
    (wrap_u64 (ClientStats.notifications_received s + 1)) (ClientStats.errors s) (ClientStats.retries s)
    (ClientStats.connection_attempts s) (ClientStats.last_activity s).

(** ** The task *)

Module MessageTask.
Section task.
Context `{JF : JsonFloats} {JU : JsonUnsigned} {JW : JsonWords} {H : Type}.
Implicit Type handler : NotificationHandler.t H.

(** Parameters that are there and can be read go to the handler. *)
Definition with_params {A} (read : Value -> option A) (handle : A -> H -> McpResult unit * H) (params : option Value) (h : H) : H :=
  match params with
  | Some v => match read v with Some a => (handle a h).2 | None => h end
  | None => h
  end.

Definition handle_notification (handler : NotificationHandler.t H) (notification : JsonRpcNotification.t) (h : H) : H :=
  let params := JsonRpcNotification.params notification in
  let named method := String.eqb (JsonRpcNotification.method notification) method in
  if named "notifications/progress" then with_params from_value (NotificationHandler.handle_progress handler) params h
  else if named "notifications/resources/updated" then
    with_params from_value (NotificationHandler.handle_resource_updated handler) params h
  else if named "notifications/resources/list_changed" then
    with_params Metadata.from_value (NotificationHandler.handle_resource_list_changed handler) params h
  else if named "notifications/tools/list_changed" then
    with_params Metadata.from_value (NotificationHandler.handle_tool_list_changed handler) params h
  else if named "notifications/prompts/list_changed" then
    with_params Metadata.from_value (NotificationHandler.handle_prompt_list_changed handler) params h
  else h.

(** The table of pending requests by the text of their identifiers, each with
    the sender of its response, which a number stands for *)
Record t : Type := mk { pending_requests : gmap string nat; stats : ClientStats.t; state : H }.

(** The responses sent, and the state after a message *)
Definition on_message (handler : NotificationHandler.t H) (message : JsonRpcMessage.t) (self : t)
  : list (nat * JsonRpcResponse.t) * t :=
  match message with
  | JsonRpcMessage.Response response =>
      let key := RequestId.to_string (JsonRpcResponse.id response) in
      match pending_requests self !! key with
      | Some sender => ([(sender, response)], mk (delete key (pending_requests self)) (received_response (stats self)) (state self))
      | None => ([], self)
      end
  | JsonRpcMessage.Notification notification =>
      ([], mk (pending_requests self) (received_notification (stats self)) (handle_notification handler notification (state self)))
  | JsonRpcMessage.Request _ => ([], self)
  end.

(** [start_message_processing]: the task receives until its channel is closed,
    which the next start of a task or the end of the client does. *)
Fixpoint run (handler : NotificationHandler.t H) (messages : list JsonRpcMessage.t) (self : t)
  : list (nat * JsonRpcResponse.t) * t :=
  match messages with
  | [] => ([], self)
  | message :: messages =>
      let '(sent, self) := on_message handler message self in
      let '(rest, self) := run handler messages self in (sent ++ rest, self)
  end.

(** Disconnecting empties the table. *)
Definition clear (self : t) : t := mk ∅ (stats self) (state self).
End task.
Arguments t : clear implicits.
End MessageTask.

(** ** The builder *)

Module McpClientBuilder.
Section builder.
Context `{TA : TransportApi} {H : Type}.

Record t : Type := mk {
  transport_config : option CoreTransport.TransportConfig.t;
  client_config : ClientConfig.t;
  handler : option (NotificationHandler.t H)
}.

Definition new : t := mk None ClientConfig.default None.
Definition transport (config : CoreTransport.TransportConfig.t) (self : t) : t := mk (Some config) (client_config self) (handler self).
Definition config (config : ClientConfig.t) (self : t) : t := mk (transport_config self) config (handler self).
Definition notification_handler (handler : NotificationHandler.t H) (self : t) : t :=
  mk (transport_config self) (client_config self) (Some handler).

Definition set_config (f : ClientConfig.t -> ClientConfig.t) (self : t) : t :=
  mk (transport_config self) (f (client_config self)) (handler self).
Definition request_timeout (timeout : Z) : t -> t :=
  set_config (fun c => ClientConfig.mk timeout (ClientConfig.init_timeout c) (ClientConfig.max_retries c)
    (ClientConfig.retry_base_delay c) (ClientConfig.auto_handle_notifications c) (ClientConfig.message_buffer_size c)).
Definition init_timeout (timeout : Z) : t -> t :=
  set_config (fun c => ClientConfig.mk (ClientConfig.request_timeout c) timeout (ClientConfig.max_retries c)
    (ClientConfig.retry_base_delay c) (ClientConfig.auto_handle_notifications c) (ClientConfig.message_buffer_size c)).
Definition max_retries (retries : Z) : t -> t :=
  set_config (fun c => ClientConfig.mk (ClientConfig.request_timeout c) (ClientConfig.init_timeout c) retries
    (ClientConfig.retry_base_delay c) (ClientConfig.auto_handle_notifications c) (ClientConfig.message_buffer_size c)).

(** [build]: [created] is what the transport's factory makes of the
    configuration; the second component is the handler that is given, if any. *)
Definition build (created : CoreTransport.TransportConfig.t -> McpResult Conn) (self : t)
  : McpResult (McpClient.t * option (NotificationHandler.t H)) :=
  match transport_config self with
  | None => Err (Protocol (ProtocolInvalidConfig "Transport configuration is required"))
  | Some config => let? conn := created config in Ok (McpClient.new conn (client_config self), handler self)
  end.
End builder.
End McpClientBuilder.

(** ** Correlation *)

Section laws.
Context `{JF : JsonFloats} {JU : JsonUnsigned} {JW : JsonWords} {H : Type}.
Implicit Type self : MessageTask.t H.
Import MessageTask.

(** The response a message is to the request whose identifier prints as [k] *)
Definition response_to (k : string) (m : JsonRpcMessage.t) : option JsonRpcResponse.t :=
  match m with
  | JsonRpcMessage.Response r => if String.eqb (RequestId.to_string (JsonRpcResponse.id r)) k then Some r else None
  | _ => None
  end.

(** What is sent under an identifier *)
Definition sent_to (k : string) (sent : list (nat * JsonRpcResponse.t)) : list (nat * JsonRpcResponse.t) :=
  List.filter (fun s => String.eqb (RequestId.to_string (JsonRpcResponse.id s.2)) k) sent.

Definition notifications (messages : list JsonRpcMessage.t) : list JsonRpcNotification.t :=
  omap (fun m => match m with JsonRpcMessage.Notification n => Some n | _ => None end) messages.

Lemma sent_to_app k a b : sent_to k (a ++ b) = sent_to k a ++ sent_to k b.
Proof. apply List.filter_app. Qed.

(** One message, seen from one identifier *)
Lemma on_message_at handler m self k :
  let '(sent, self') := on_message handler m self in
  match pending_requests self !! k, response_to k m with
  | Some sender, Some r => sent_to k sent = [(sender, r)] /\ pending_requests self' !! k = None
  | p, _ => sent_to k sent = [] /\ pending_requests self' !! k = p
  end.
Proof.
  destruct m as [request|response|notification]; cbn [on_message response_to]; [by destruct (_ !! k)| |by destruct (_ !! k)].
  set (key := RequestId.to_string (JsonRpcResponse.id response)). destruct (String.eqb_spec key k) as [<-|Hk].
  - destruct (pending_requests self !! key) as [sender|] eqn:E; cbn [pending_requests]; [|done].
    unfold sent_to. cbn [List.filter snd]. fold key. rewrite String.eqb_refl. by rewrite lookup_delete_eq.
  - destruct (pending_requests self !! key) as [sender|]; [|by destruct (_ !! k)].
    unfold sent_to. cbn [List.filter snd pending_requests]. fold key. rewrite (proj2 (String.eqb_neq _ _) Hk).
    rewrite lookup_delete_ne by done. by destruct (_ !! k).
Qed.

Lemma run_at handler messages k : forall self,
  let '(sent, self') := run handler messages self in
  match pending_requests self !! k, head (omap (response_to k) messages) with
  | Some sender, Some r => sent_to k sent = [(sender, r)] /\ pending_requests self' !! k = None
  | p, _ => sent_to k sent = [] /\ pending_requests self' !! k = p
  end.
Proof.
  induction messages as [|m messages IH]; intros self; cbn [run]; [by destruct (_ !! k)|].
  pose proof (on_message_at handler m self k) as Hm. destruct (on_message handler m self) as [sent self1].
  specialize (IH self1). destruct (run handler messages self1) as [rest self2]. rewrite sent_to_app. cbn [omap list_omap].
  destruct (pending_requests self !! k) as [sender|], (response_to k m) as [r|]; destruct Hm as [-> Hp]; rewrite Hp in IH;
    cbn [head app]; 
    repeat (match goal with |- context [match ?x with _ => _ end] => destruct x end); by destruct IH as [-> ->].
Qed.
Lemma wrap_next a n : wrap_u64 (wrap_u64 (a + 1) + Z.of_nat n) = wrap_u64 (a + Z.of_nat (S n)).
Proof. unfold wrap_u64. rewrite Nat2Z.inj_succ, Zplus_mod_idemp_l. f_equal. lia. Qed.

(** The counters and the handler *)
Lemma run_counts handler messages : forall self,
  let '(sent, self') := run handler messages self in
  wrap_u64 (ClientStats.responses_received (stats self')) =
    wrap_u64 (ClientStats.responses_received (stats self) + Z.of_nat (length sent)) /\
  wrap_u64 (ClientStats.notifications_received (stats self')) =
    wrap_u64 (ClientStats.notifications_received (stats self) + Z.of_nat (length (notifications messages))) /\
  state self' = foldl (fun h n => handle_notification handler n h) (state self) (notifications messages).
Proof.
  induction messages as [|m messages IH]; intros self; cbn [run]; [by rewrite !Z.add_0_r|].
  destruct (on_message handler m self) as [sent self1] eqn:E. specialize (IH self1).
  destruct (run handler messages self1) as [rest self2]. destruct IH as (Hr & Hn & ->). rewrite Hr, Hn.
  unfold notifications in *. destruct m as [request|response|notification]; cbn [on_message omap list_omap] in *.
  - by simplify_eq.
  - destruct (pending_requests self !! _); simplify_eq; [|done].
    cbn [stats received_response ClientStats.responses_received app length]. by rewrite wrap_next.
  - simplify_eq. cbn [stats received_notification ClientStats.notifications_received length]. by rewrite wrap_next.
Qed.
End laws.

(** What the client's message task does with everything it receives.  Under
    each identifier exactly the first response goes to the request that waits
    for it, which then waits no more; other responses and all requests are
    passed over.  Every notification is counted and reaches the handler in
    order, if it is one of the five with parameters that can be read.  The
    table goes by the texts of identifiers, so the number 1 and the text "1"
    are one request. *)
Theorem messages_are_dispatched `{JF : JsonFloats} {JU : JsonUnsigned} {JW : JsonWords} {H : Type}
    (handler : NotificationHandler.t H) messages (self : MessageTask.t H) :
  let '(sent, self') := MessageTask.run handler messages self in
  (forall id,
     match MessageTask.pending_requests self !! RequestId.to_string id,
           head (omap (response_to (RequestId.to_string id)) messages) with
     | Some sender, Some r =>
         sent_to (RequestId.to_string id) sent = [(sender, r)] /\
         MessageTask.pending_requests self' !! RequestId.to_string id = None
     | p, _ =>
         sent_to (RequestId.to_string id) sent = [] /\ MessageTask.pending_requests self' !! RequestId.to_string id = p
     end) /\
  wrap_u64 (ClientStats.responses_received (MessageTask.stats self')) =
    wrap_u64 (ClientStats.responses_received (MessageTask.stats self) + Z.of_nat (length sent)) /\
  wrap_u64 (ClientStats.notifications_received (MessageTask.stats self')) =
    wrap_u64 (ClientStats.notifications_received (MessageTask.stats self) + Z.of_nat (length (notifications messages))) /\
  MessageTask.state self' =
    foldl (fun h n => MessageTask.handle_notification handler n h) (MessageTask.state self) (notifications messages).
Proof.
  pose proof (fun k => run_at handler messages k self) as Hk. pose proof (run_counts handler messages self) as Hc.
  destruct (MessageTask.run handler messages self) as [sent self']. split; [intros id; apply Hk|done].
Qed.

(** What a server that follows the protocol writes does not reach the handler:
    a changed list is announced without parameters, and progress under
    [progressToken]. *)
Theorem protocol_notifications_are_missed `{JF : JsonFloats} {JU : JsonUnsigned} {JW : JsonWords} {H : Type}
    (handler : NotificationHandler.t H) (h : H) :
  (forall method, MessageTask.handle_notification handler (JsonRpcNotification.without_params method) h = h) /\
  (forall e, field e "progress_token" = None ->
     MessageTask.handle_notification handler (JsonRpcNotification.new "notifications/progress" (VObject e)) h = h).
Proof.
  split.
  - intros method. unfold MessageTask.handle_notification. cbn [JsonRpcNotification.method JsonRpcNotification.params].
    repeat (match goal with |- context [if ?b then _ else _] => destruct b; [done|] end). done.
  - intros e He. cbn. by rewrite He.
Qed.

Module DemoTask.
Section demo.
Context `{JF : JsonFloats} {JU : JsonUnsigned} {JW : JsonWords}.

(** A response and a second one whose identifier prints alike, with a
    notification between them *)
Definition answers : list JsonRpcMessage.t :=
  [JsonRpcMessage.Response (JsonRpcResponse.success (RequestId.Number 1) VNull);
   JsonRpcMessage.Notification (JsonRpcNotification.without_params "notifications/tools/list_changed");
   JsonRpcMessage.Response (JsonRpcResponse.success (RequestId.String "1") VNull)].

Example first_answer_wins :
  let '(sent, self) := MessageTask.run DefaultNotificationHandler answers
      (MessageTask.mk {["1"%string := 7%nat]} ClientStats.default tt) in
  sent = [(7%nat, JsonRpcResponse.success (RequestId.Number 1) VNull)] /\
  MessageTask.pending_requests self = ∅ /\
  ClientStats.responses_received (MessageTask.stats self) = 1 /\
  ClientStats.notifications_received (MessageTask.stats self) = 1.
Proof. vm_compute. done. Qed.
End demo.
End DemoTask.
