(* ===== verification/GepaModule.v ===== *)
(** The optimizer's path for whole modules ([GEPAOptimizer::optimize_module] in
    [acdp-llm/src/gepa_optimizer.rs]): traces of a module on examples, a new
    prompt from them, and its evaluation. *)

From Stdlib Require Import Floats.SpecFloat.
From S2P Require Import Prelude Messages Transform Text Common Routing Predictor Gepa.

(** [dspy_rs::Module], as a state with the model behind it; [clock] gives the
    milliseconds since a start and the time. *)
Class DspyModule := {
  DsExample : Type;
  DsPrediction : Type;
  Mod : Type;
  forward : DsExample -> Mod -> Res DsPrediction string * Mod;
  clock : Mod -> Z * Z * Mod
}.

Module ExecutionTrace.
Record t `{DM : DspyModule} : Type := mk {
  input : DsExample;
  prediction : DsPrediction;
  execution_time_ms : Z;
  success : bool;
  error_message : option string;
  timestamp : Z
}.
Arguments mk {DM}.
Arguments success {DM}.
Arguments error_message {DM}.
End ExecutionTrace.

Module PromptOptimizationResult.
Record t : Type := mk { optimized_prompt : string; expected_improvement : f32; reasoning : string }.
End PromptOptimizationResult.

Module OptimizationResult.
Record t : Type := mk {
  iterations : list OptimizationIteration.t;
  final_improvement : f64;
  success : bool;
  total_time_ms : Z
}.
End OptimizationResult.

Module GepaRun.
Section run.
Context `{DM : DspyModule}.

(** What the optimizer holds: whether it has a provider, the bounds, and
    [serde_json::to_string] of traces *)
Record t : Type := mk {
  has_provider : bool;
  max_iterations : nat;
  improvement_threshold : f64;
  traces_json : list ExecutionTrace.t -> Res string string
}.

Definition new (has_provider : bool) (traces_json : list ExecutionTrace.t -> Res string string) : t :=
  mk has_provider 10 (f64_ratio 1 10) traces_json.

(** Computations on the module that may fail *)
Definition M (A : Type) : Type := Mod -> LlmResult A * Mod.
Definition ret {A} (a : A) : M A := fun m => (Ok a, m).
Definition lift {A} (r : LlmResult A) : M A := fun m => (r, m).
Definition bind {A B} (c : M A) (k : A -> M B) : M B :=
  fun m => match c m with (Ok a, m) => k a m | (Err e, m) => (Err e, m) end.
#[local] Notation "'let!' x ':=' c 'in' k" := (bind c (fun x => k))
  (at level 200, x pattern, c at level 100, k at level 200, right associativity).

Definition predict (example : DsExample) : M DsPrediction :=
  fun m => let '(r, m) := forward example m in (map_err LlmError.PredictionError r, m).
Definition time : M (Z * Z) := fun m => let '(elapsed, now, m) := clock m in (Ok (elapsed, now), m).

(** Placeholders *)
Definition extract_current_prompt : string := "Current prompt placeholder".
Definition apply_prompt_to_module (prompt : string) : M unit := ret tt.
Definition evaluate_prediction_success (example : DsExample) (prediction : DsPrediction) : bool := true.

Definition trace_of (example : DsExample) : M ExecutionTrace.t :=
  let! prediction := predict example in
  let! (elapsed, now) := time in
  let success := evaluate_prediction_success example prediction in
  ret (ExecutionTrace.mk example prediction (wrap_u64 elapsed) success
         (if success then None else Some "Prediction failed evaluation"%string) now).

Fixpoint generate_execution_traces (examples : list DsExample) : M (list ExecutionTrace.t) :=
  match examples with
  | [] => ret []
  | example :: examples =>
      let! trace := trace_of example in
      let! traces := generate_execution_traces examples in
      ret (trace :: traces)
  end.

(** The prompt and the schema for the provider are made and not used. *)
Definition optimize_prompt_iteration (self : t) (current_prompt : string) (traces : list ExecutionTrace.t)
  : LlmResult PromptOptimizationResult.t :=
  let? _ := if has_provider self
            then let? _ := map_err LlmError.SerializationError (traces_json self traces) in Ok tt
            else Ok tt in
  Ok (PromptOptimizationResult.mk
        (current_prompt +:+ newline +:+ newline +:+
         "Reminder: highlight common MCP failure modes and enumerate guard rails for tool routing.")
        (f32_ratio 5 100) "LiteRT provider unavailable; applied heuristic GEPA fallback.").

Fixpoint successes (examples : list DsExample) : M nat :=
  match examples with
  | [] => ret 0%nat
  | example :: examples =>
      let! prediction := predict example in
      let! n := successes examples in
      ret (if evaluate_prediction_success example prediction then S n else n)
  end.

(** The count is an [i32]. *)
Definition wrap_i32 (z : Z) : Z := (z + 2 ^ 31) mod 2 ^ 32 - 2 ^ 31.
Definition evaluate_improvement (examples : list DsExample) : M f32 :=
  let! n := successes examples in
  ret (f32_div (f32_of_Z (wrap_i32 (Z.of_nat n))) (f32_of_Z (Z.of_nat (length examples)))).

(** [a > b] *)
Definition f64_gtb (a b : f64) : bool := SFltb b a.

(** One turn of the loop: its record, and the best prompt and improvement *)
Definition iterate (self : t) (examples : list DsExample) (iteration : Z) (prompt : string) (best : f64)
  : M (OptimizationIteration.t * string * f64) :=
  let! traces := generate_execution_traces examples in
  let! r := lift (optimize_prompt_iteration self prompt traces) in
  let! _ := apply_prompt_to_module (PromptOptimizationResult.optimized_prompt r) in
  let! improvement := evaluate_improvement examples in
  let! (_, now) := time in
  let actual := f64_of_f32 improvement in
  let record :=
    OptimizationIteration.mk iteration prompt (PromptOptimizationResult.optimized_prompt r)
      (f64_of_f32 (PromptOptimizationResult.expected_improvement r)) (Some actual)
      (PromptOptimizationResult.reasoning r) now in
  ret (if f64_gtb actual best then (record, PromptOptimizationResult.optimized_prompt r, actual) else (record, prompt, best)).

(** The loop ends early when the improvement reaches the threshold. *)
Fixpoint iterations (self : t) (examples : list DsExample) (remaining : nat) (iteration : Z) (prompt : string) (best : f64)
  : M (list OptimizationIteration.t * f64) :=
  match remaining with
  | O => ret ([], best)
  | S remaining =>
      let! (record, prompt, best) := iterate self examples iteration prompt best in
      if f64_geb (from_option id f64_zero (OptimizationIteration.actual_improvement record)) (improvement_threshold self)
      then ret ([record], best)
      else
        let! (records, best) := iterations self examples remaining (iteration + 1) prompt best in
        ret (record :: records, best)
  end.

Definition optimize_module (self : t) (examples : list DsExample) : M OptimizationResult.t :=
  let! (records, best) := iterations self examples (max_iterations self) 1 extract_current_prompt f64_zero in
  let! (elapsed, _) := time in
  ret (OptimizationResult.mk records best (f64_geb best (improvement_threshold self)) (wrap_u64 elapsed)).
End run.
End GepaRun.

(** ** A number over itself *)

Lemma digits_shift m k : Z.pos (digits2_pos (Pos.iter xO m k)) = Z.pos (digits2_pos m) + Z.pos k.
Proof.
  revert m. induction k using Pos.peano_ind; intros m; [cbn; lia|].
  rewrite Pos.iter_succ. cbn [digits2_pos]. specialize (IHk m). lia.
Qed.

Lemma digits_bound p : 2 ^ (Z.pos (digits2_pos p) - 1) <= Z.pos p.
Proof.
  induction p as [p IH|p IH|]; cbn [digits2_pos]; [| |done];
    rewrite Pos2Z.inj_succ; replace (Z.succ (Z.pos (digits2_pos p)) - 1) with (Z.succ (Z.pos (digits2_pos p) - 1)) by lia;
    rewrite Z.pow_succ_r by lia; lia.
Qed.

(** A mantissa of exactly the precision is not rounded. *)
Lemma round_exact s m e :
  Z.pos (digits2_pos m) = 24 -> -149 <= e <= 104 ->
  binary_round_aux f32_prec f32_emax s (Z.pos m) e loc_Exact = S754_finite s m e.
Proof.
  intros Hd He. unfold binary_round_aux.
  assert (Hs : shr_fexp f32_prec f32_emax (Z.pos m) e loc_Exact = (Build_shr_record (Z.pos m) false false, e)).
  { unfold shr_fexp. cbn [Zdigits2]. rewrite Hd. unfold fexp, emin, f32_prec, f32_emax.
    replace (Z.max (24 + e - 24) (3 - 128 - 24) - e) with 0 by lia. done. }
  rewrite Hs. cbn [shr_m loc_of_shr_record round_nearest_even]. rewrite Hs. cbn [shr_m].
  unfold f32_emax, f32_prec. by rewrite (proj2 (Z.leb_le e (128 - 24))) by lia.
Qed.

(** Small integers are floats. *)
Lemma f32_of_small n : 0 < n < 2 ^ 24 -> exists m e, f32_of_Z n = S754_finite false m e.
Proof.
  intros [Hp Hn]. destruct n as [|p|p]; [lia| |lia]. unfold f32_of_Z, binary_normalize, binary_round.
  pose proof (digits_bound p) as Hd.
  assert (Hl : Z.pos (digits2_pos p) <= 24).
  { destruct (Z.le_gt_cases (Z.pos (digits2_pos p)) 24) as [|Hg]; [done|].
    pose proof (Z.pow_le_mono_r 2 24 (Z.pos (digits2_pos p) - 1)). lia. }
  unfold fexp, emin. change (3 - f32_emax - f32_prec) with (-149). change f32_prec with 24 at 1.
  rewrite Z.max_l by lia. unfold shl_align. rewrite Z.add_0_r, Z.sub_0_r.
  destruct (Z.pos (digits2_pos p) - 24) as [|d|d] eqn:Ed; [|lia|].
  - exists p, 0. apply round_exact; lia.
  - exists (Pos.iter xO p d), (Z.neg d). apply round_exact; [rewrite digits_shift; lia|lia].
Qed.

Lemma f32_div_self s m e : f32_div (S754_finite s m e) (S754_finite s m e) = f32_of_Z 1.
Proof.
  unfold f32_div, SFdiv, SFdiv_core_binary. rewrite !Z.sub_diag.
  change (Z.min (fexp f32_prec f32_emax 0) 0) with (-24). change (0 - -24) with 24. cbn iota.
  assert (Hq : Z.div_eucl (Z.shiftl (Z.pos m) 24) (Z.pos m) = (2 ^ 24, 0)).
  { rewrite Z.shiftl_mul_pow2 by lia.
    pose proof (Z_div_mod (Z.pos m * 2 ^ 24) (Z.pos m) ltac:(lia)) as H.
    destruct (Z.div_eucl _ _) as [q r]. destruct H as [H Hr]. assert (q = 2 ^ 24) by nia. subst q. f_equal. lia. }
  rewrite Hq, xorb_nilpotent. unfold new_location, new_location_even, new_location_odd. cbn iota. by destruct (Z.even _).
Qed.

(** ** What optimizing comes to *)

Section theorems.
Context `{DM : DspyModule}.
Import GepaRun.

(** A module that answers, and traces that have a text *)
Context (answers : forall example m, is_ok (forward example m).1 = true).
Context (provider : bool) (json : list ExecutionTrace.t -> Res string string).
Context (printed : forall traces, is_ok (json traces) = true).

(** A computation that succeeds with a value of a property *)
Definition gives {A} (c : M A) (P : A -> Prop) : Prop := forall m, exists a m', c m = (Ok a, m') /\ P a.

Lemma gives_ret {A} (a : A) (P : A -> Prop) : P a -> gives (ret a) P.
Proof. intros H m. by exists a, m. Qed.

Lemma gives_bind {A B} (c : M A) (k : A -> M B) (P : A -> Prop) Q :
  gives c P -> (forall a, P a -> gives (k a) Q) -> gives (bind c k) Q.
Proof.
  intros Hc Hk m. destruct (Hc m) as (a & m1 & E & Ha). destruct (Hk a Ha m1) as (b & m2 & E' & Hb).
  exists b, m2. unfold bind. by rewrite E.
Qed.

Lemma gives_predict example : gives (predict example) (fun _ => True).
Proof.
  intros m. unfold predict. pose proof (answers example m) as H. destruct (forward example m) as [r m'].
  cbn [fst] in H. apply is_ok_iff in H as [p ->]. by exists p, m'.
Qed.

Lemma gives_time : gives time (fun _ => True).
Proof. intros m. unfold time. destruct (clock m) as [[elapsed now] m']. by eexists _, m'. Qed.

Lemma gives_traces examples : gives (generate_execution_traces examples) (fun _ => True).
Proof.
  induction examples as [|example examples IH]; cbn [generate_execution_traces]; [by apply gives_ret|].
  apply (gives_bind _ _ (fun _ => True)).
  - apply (gives_bind _ _ (fun _ => True) _ (gives_predict example)). intros p _.
    apply (gives_bind _ _ (fun _ => True) _ gives_time). intros [elapsed now] _. by apply gives_ret.
  - intros t _. apply (gives_bind _ _ (fun _ => True) _ IH). intros ts _. by apply gives_ret.
Qed.

Lemma gives_successes examples : gives (successes examples) (fun n => n = length examples).
Proof.
  induction examples as [|example examples IH]; cbn [successes]; [by apply gives_ret|].
  apply (gives_bind _ _ (fun _ => True) _ (gives_predict example)). intros p _.
  apply (gives_bind _ _ _ _ IH). intros n ->. by apply gives_ret.
Qed.

(** The prompt with the reminder *)
Definition reminded (prompt : string) : string :=
  prompt +:+ newline +:+ newline +:+
  "Reminder: highlight common MCP failure modes and enumerate guard rails for tool routing.".

(** The share of successes, all examples being counted as successes *)
Definition share (n : nat) : f64 := f64_of_f32 (f32_div (f32_of_Z (wrap_i32 (Z.of_nat n))) (f32_of_Z (Z.of_nat n))).

Lemma gives_iterate examples i prompt best :
  gives (iterate (new provider json) examples i prompt best)
    (fun '(record, prompt', best') =>
       OptimizationIteration.original_prompt record = prompt /\
       OptimizationIteration.optimized_prompt record = reminded prompt /\
       OptimizationIteration.actual_improvement record = Some (share (length examples)) /\
       (prompt', best') = if f64_gtb (share (length examples)) best then (reminded prompt, share (length examples)) else (prompt, best)).
Proof.
  unfold iterate. apply (gives_bind _ _ (fun _ => True) _ (gives_traces examples)). intros traces _.
  apply (gives_bind _ _ (fun r => PromptOptimizationResult.optimized_prompt r = reminded prompt)).
  { intros m. unfold lift, optimize_prompt_iteration. cbn [has_provider traces_json new].
    pose proof (printed traces) as [s Hs]%is_ok_iff. rewrite Hs. destruct provider; cbn [map_err res_bind]; by eexists _, m. }
  intros r Hr. apply (gives_bind _ _ (fun _ => True)); [by apply gives_ret|]. intros _ _.
  apply (gives_bind _ _ (fun x => f64_of_f32 x = share (length examples))).
  { unfold evaluate_improvement. apply (gives_bind _ _ _ _ (gives_successes examples)). intros n ->. by apply gives_ret. }
  intros x Hx. apply (gives_bind _ _ (fun _ => True) _ gives_time). intros [elapsed now] _. rewrite Hx.
  apply gives_ret. destruct (f64_gtb _ _); cbn; by rewrite Hr.
Qed.

Lemma share_one n : 0 < Z.of_nat n < 2 ^ 24 -> share n = f64_of_Z 1.
Proof.
  intros Hn. unfold share, wrap_i32. rewrite Z.mod_small by lia.
  replace (Z.of_nat n + 2 ^ 31 - 2 ^ 31) with (Z.of_nat n) by lia.
  destruct (f32_of_small (Z.of_nat n) Hn) as (m & e & ->). rewrite f32_div_self. by vm_compute.
Qed.

(** Without examples every turn is the same. *)
Lemma gives_nothing k : forall i prompt,
  gives (iterations (new provider json) [] k i prompt f64_zero)
    (fun '(records, best) =>
       best = f64_zero /\ length records = k /\
       Forall (fun r => OptimizationIteration.original_prompt r = prompt /\
                        OptimizationIteration.actual_improvement r = Some S754_nan) records).
Proof.
  induction k as [|k IH]; intros i prompt; cbn [iterations]; [by apply gives_ret|].
  apply (gives_bind _ _ _ _ (gives_iterate [] i prompt f64_zero)). intros [[record prompt'] best'] (Ho & _ & Ha & Hb).
  injection Hb as -> ->. rewrite Ha. change (f64_geb _ _) with false. cbn iota.
  apply (gives_bind _ _ _ _ (IH (i + 1) prompt)). intros [records best] (-> & Hl & Hf).
  apply gives_ret. cbn [length]. rewrite Hl. by split_and!; [..|constructor].
Qed.

Lemma gives_one examples k i prompt :
  0 < Z.of_nat (length examples) < 2 ^ 24 ->
  gives (iterations (new provider json) examples (S k) i prompt f64_zero)
    (fun '(records, best) =>
       best = f64_of_Z 1 /\ exists record, records = [record] /\
         OptimizationIteration.original_prompt record = prompt /\
         OptimizationIteration.optimized_prompt record = reminded prompt /\
         OptimizationIteration.actual_improvement record = Some (f64_of_Z 1)).
Proof.
  intros Hl. cbn [iterations]. apply (gives_bind _ _ _ _ (gives_iterate examples i prompt f64_zero)).
  intros [[record prompt'] best'] (Ho & Hp & Ha & Hb). rewrite share_one in * by done. rewrite Ha.
  injection Hb as -> ->. change (f64_geb _ _) with true. apply gives_ret. split; [done|]. by exists record.
Qed.
End theorems.

(** Optimizing a module measures nothing and changes nothing.  Whatever the
    module answers to the examples, it has one turn, in which a placeholder
    gets a fixed reminder, and reports a full improvement; without examples it
    has ten equal turns and reports a failure. *)
Theorem modules_are_never_improved `{DM : DspyModule} provider json examples m :
  (forall example m, is_ok (forward example m).1 = true) -> (forall traces, is_ok (json traces) = true) ->
  Z.of_nat (length examples) < 2 ^ 24 ->
  exists r m', GepaRun.optimize_module (GepaRun.new provider json) examples m = (Ok r, m') /\
    match examples with
    | [] =>
        OptimizationResult.success r = false /\ OptimizationResult.final_improvement r = f64_zero /\
        length (OptimizationResult.iterations r) = 10%nat /\
        Forall (fun i => OptimizationIteration.original_prompt i = GepaRun.extract_current_prompt /\
                         OptimizationIteration.actual_improvement i = Some S754_nan) (OptimizationResult.iterations r)
    | _ =>
        OptimizationResult.success r = true /\ OptimizationResult.final_improvement r = f64_of_Z 1 /\
        exists i, OptimizationResult.iterations r = [i] /\
          OptimizationIteration.original_prompt i = GepaRun.extract_current_prompt /\
          OptimizationIteration.optimized_prompt i = reminded GepaRun.extract_current_prompt /\
          OptimizationIteration.actual_improvement i = Some (f64_of_Z 1)
    end.
Proof.
  intros Hf Hj Hl. revert m.
  match goal with |- forall m, exists r m', _ = _ /\ @?Q r => change (gives (GepaRun.optimize_module (GepaRun.new provider json) examples) Q) end.
  unfold GepaRun.optimize_module. destruct examples as [|example examples].
  - apply (gives_bind _ _ _ _ (gives_nothing Hf provider json Hj 10 1 _)). intros [records best] (-> & Hk & Hr).
    apply (gives_bind _ _ (fun _ => True) _ gives_time). intros [elapsed now] _. by apply gives_ret.
  - apply (gives_bind _ _ _ _ (gives_one Hf provider json Hj (example :: examples) 9 1 _ ltac:(cbn [length] in *; lia))).
    intros [records best] (-> & Hr). apply (gives_bind _ _ (fun _ => True) _ gives_time). intros [elapsed now] _.
    by apply gives_ret.
Qed.

Module DemoModule.
(** A module that counts its calls *)
Definition counter : DspyModule := {|
  DsExample := unit; DsPrediction := bool; Mod := nat;
  forward _ calls := (Ok false, S calls);
  clock calls := (12, 1700000000, calls)
|}.
End DemoModule.

Lemma modules_are_never_improved_witness :
  exists r, GepaRun.optimize_module (DM := DemoModule.counter) (GepaRun.new true (fun _ => Ok "[]"%string)) [tt; tt] 0%nat = (Ok r, 4%nat) /\
    OptimizationResult.success r = true.
Proof.
  destruct (modules_are_never_improved (DM := DemoModule.counter) true (fun _ => Ok "[]"%string) [tt; tt] 0%nat
              (fun _ _ => eq_refl) (fun _ => eq_refl) ltac:(done)) as (r & m' & E & H & _).
  exists r. split; [|done]. rewrite E. f_equal. apply (f_equal snd) in E. symmetry. vm_compute in E |- *. exact E.
Defined.
