(* ===== verification/LlmTables.v ===== *)
(** The tables of rules and of metrics ([acdp-llm/src/database/routing_rules.rs],
    [database/metrics.rs]) and the collector of metrics ([metrics.rs]).  The
    order SQL leaves open and the aggregates of SQL are operations of the
    world. *)

From Stdlib Require Import Sorted Floats.SpecFloat.
From S2P Require Import Prelude Messages Transform Text Common Routing Predictor.

(** ** Rows of metrics *)

Module PerformanceMetric.
Record t : Type := mk { id : string; metric_type : string; value : f64; tags : string; timestamp : Z }.
End PerformanceMetric.

Module MetricTrend.
Record t : Type := mk {
  metric_type : string;
  avg_value : f64;
  min_value : f64;
  max_value : f64;
  sample_count : Z;
  time_window_hours : Z
}.
End MetricTrend.

(** SQL's [AVG], [MIN] and [MAX], null without rows *)
Module Aggregates.
Record t : Type := mk { avg : option f64; min : option f64; max : option f64 }.
End Aggregates.

Class SqlTables `{W : LlmWorld} := {
  (** [ORDER BY created_at DESC], a row of those that match, [ORDER BY timestamp DESC] *)
  sql_newest_rules : list RoutingRule.t -> World -> Res (list RoutingRule.t) string * World;
  sql_one_rule : list RoutingRule.t -> World -> Res (option RoutingRule.t) string * World;
  sql_newest_metrics : list PerformanceMetric.t -> World -> Res (list PerformanceMetric.t) string * World;
  sql_aggregate : list f64 -> World -> Res Aggregates.t string * World
}.

Class SqlTablesLaws `{ST : SqlTables} := {
  sql_newest_rules_perm rows w rows' w' : sql_newest_rules rows w = (Ok rows', w') -> rows' ≡ₚ rows;
  sql_one_rule_member rows w r w' :
    sql_one_rule rows w = (Ok r, w') -> match r with Some r => r ∈ rows | None => rows = [] end
}.
Arguments SqlTablesLaws {JN W} ST.

(** ** Rules *)

Module Rules.
Section rules.
Context `{ST : SqlTables}.

Definition set_rules (d : Db.t) (rows : list RoutingRule.t) : Db.t :=
  Db.mk (Db.world d) (Db.predictions d) rows (Db.gepa_optimizations d).

Definition create_rule (pattern target_tool target_transport : string) (confidence : f64) : Db.M string :=
  let* id := Db.call fresh_uuid in
  let* now := Db.call utc_now in
  let* _ := Db.execute (fun d =>
    set_rules d (Db.routing_rules d ++ [RoutingRule.mk id pattern target_tool target_transport confidence now now true])) in
  Db.ret id.

(** [WHERE pattern = ? AND enabled = true] *)
Definition get_rule_by_pattern (pattern : string) : Db.M (option RoutingRule.t) :=
  fun d =>
    Db.query (sql_one_rule
      (List.filter (fun r => String.eqb (RoutingRule.pattern r) pattern && RoutingRule.enabled r) (Db.routing_rules d))) d.

Definition find_matching_rule (request_content : string) : Db.M (option RoutingRule.t) :=
  fun d =>
    let '(fetched, w) := sql_rules (Db.routing_rules d) (Db.world d) in
    (RoutingRulesDatabase.find_matching_rule fetched request_content, Db.with_world d w).

Definition set_confidence (rule_id : string) (new_confidence : f64) (now : Z) (r : RoutingRule.t) : RoutingRule.t :=
  if String.eqb (RoutingRule.id r) rule_id then
    RoutingRule.mk (RoutingRule.id r) (RoutingRule.pattern r) (RoutingRule.target_tool r) (RoutingRule.target_transport r)
      new_confidence (RoutingRule.created_at r) now (RoutingRule.enabled r)
  else r.

Definition update_rule_confidence (rule_id : string) (new_confidence : f64) : Db.M unit :=
  let* now := Db.call utc_now in
  Db.execute (fun d => set_rules d (List.map (set_confidence rule_id new_confidence now) (Db.routing_rules d))).

Definition list_enabled_rules : Db.M (list RoutingRule.t) :=
  fun d => Db.query (sql_newest_rules (List.filter RoutingRule.enabled (Db.routing_rules d))) d.
End rules.
End Rules.

(** ** Metrics *)

Module MetricsDatabase.
Section metrics.
Context `{ST : SqlTables}.

Record t : Type := mk { world : World; rows : list PerformanceMetric.t }.

Definition M (A : Type) : Type := t -> LlmResult A * t.
Definition ret {A} (a : A) : M A := fun d => (Ok a, d).
Definition bind {A B} (m : M A) (k : A -> M B) : M B :=
  fun d => match m d with (Ok a, d) => k a d | (Err e, d) => (Err e, d) end.

Definition record_metric (metric_type : string) (value : f64) (tags : string) : M string :=
  fun d =>
    let '(id, w) := fresh_uuid (world d) in
    let '(now, w) := utc_now w in
    let '(failed, w) := sql_execute w in
    match failed with
    | Some e => (Err (LlmError.from_sqlx e), mk w (rows d))
    | None => (Ok id, mk w (rows d ++ [PerformanceMetric.mk id metric_type value tags now]))
    end.

(** [WHERE metric_type = ? AND timestamp > ?] *)
Definition since (metric_type : string) (start : Z) (rows : list PerformanceMetric.t) : list PerformanceMetric.t :=
  List.filter (fun r => String.eqb (PerformanceMetric.metric_type r) metric_type && (start <? PerformanceMetric.timestamp r)) rows.

Definition get_metrics (metric_type : string) (start : Z) : M (list PerformanceMetric.t) :=
  fun d =>
    let '(r, w) := sql_newest_metrics (since metric_type start (rows d)) (world d) in
    (map_err LlmError.from_sqlx r, mk w (rows d)).

(** Nanoseconds; a number of hours for which the subtraction overflows panics
    and is not considered. *)
Definition hour : Z := 3600 * 1000000000.

Definition aggregate (metric_type : string) (time_window_hours : Z) : M (Aggregates.t * Z) :=
  fun d =>
    let '(now, w) := utc_now (world d) in
    let window := since metric_type (now - time_window_hours * hour) (rows d) in
    let '(r, w) := sql_aggregate (List.map PerformanceMetric.value window) w in
    ((let? a := map_err LlmError.from_sqlx r in Ok (a, Z.of_nat (length window))), mk w (rows d)).

Definition get_average_metric (metric_type : string) (time_window_hours : Z) : M (option f64) :=
  bind (aggregate metric_type time_window_hours) (fun '(a, _) => ret (Aggregates.avg a)).

Definition get_metric_trends (metric_type : string) (time_window_hours : Z) : M MetricTrend.t :=
  bind (aggregate metric_type time_window_hours) (fun '(a, n) =>
    let or_zero (x : option f64) : f64 := from_option id f64_zero x in
    ret (MetricTrend.mk metric_type (or_zero (Aggregates.avg a)) (or_zero (Aggregates.min a)) (or_zero (Aggregates.max a)) n
           time_window_hours)).
End metrics.
Arguments t : clear implicits.
Arguments t {JN W}.
End MetricsDatabase.

(** ** The collector ([metrics.rs]) *)

Module LlmMetricsCollector.
Section collector.
Context `{ST : SqlTables} {JT : JsonText}.

(** Some metrics with the same tags, until one fails *)
Fixpoint record_all (metrics : list (string * f64)) (tags : string) : MetricsDatabase.M unit :=
  match metrics with
  | [] => MetricsDatabase.ret tt
  | (metric_type, value) :: metrics =>
      MetricsDatabase.bind (MetricsDatabase.record_metric metric_type value tags) (fun _ => record_all metrics tags)
  end.

Definition record_prediction (tool_name : string) (confidence : f64) (prediction_time_ms : Z) (success : bool)
  : MetricsDatabase.M unit :=
  record_all [("prediction_confidence", confidence); ("prediction_time", f64_of_Z prediction_time_ms)]%string
    (json_to_string (VObject [("success", VBool success); ("tool_name", VString tool_name)]%string)).

(** The counter of optimizations is made and not incremented. *)
Definition record_gepa_optimization (iterations : nat) (improvement : f64) (optimization_time_ms : Z) : MetricsDatabase.M unit :=
  record_all [("gepa_improvement", improvement); ("gepa_optimization_time", f64_of_Z optimization_time_ms)]%string
    (json_to_string (VObject [("iterations", VNumber (num_from_i64 (Z.of_nat iterations)));
                              ("successful", VBool (SFltb (f64_ratio 1 10) improvement))]%string)).

Definition record_routing_decision (mode : string) (confidence : f64) (used_llm : bool) : MetricsDatabase.M unit :=
  record_all [("routing_confidence"%string, confidence)]
    (json_to_string (VObject [("mode", VString mode); ("used_llm", VBool used_llm)]%string)).

Definition uptime_ms (elapsed : Z) : Z := wrap_u64 elapsed.
End collector.
End LlmMetricsCollector.

Module PerformanceSummary.
Record t : Type := mk {
  total_predictions : Z;
  average_confidence : f64;
  success_rate : f64;
  average_prediction_time_ms : f64;
  gepa_optimizations : Z;
  average_gepa_improvement : f64
}.
Definition new : t := mk 0 f64_zero f64_zero f64_zero 0 f64_zero.
End PerformanceSummary.

(** ** What is recorded *)

Section laws.
Context `{ST : SqlTables}.

Lemma record_metric_rows metric_type value tags d r d' :
  MetricsDatabase.record_metric metric_type value tags d = (r, d') ->
  match r with
  | Ok id => exists now, MetricsDatabase.rows d' = MetricsDatabase.rows d ++ [PerformanceMetric.mk id metric_type value tags now]
  | Err _ => MetricsDatabase.rows d' = MetricsDatabase.rows d
  end.
Proof.
  unfold MetricsDatabase.record_metric. destruct (fresh_uuid _) as [id w], (utc_now w) as [now w2], (sql_execute w2) as [[e|] w3];
    intros [= <- <-]; [done|by exists now].
Qed.

(** A call records the first of its metrics, all of them when it succeeds. *)
Lemma record_all_rows tags metrics : forall d r d',
  LlmMetricsCollector.record_all metrics tags d = (r, d') ->
  exists k new, MetricsDatabase.rows d' = MetricsDatabase.rows d ++ new /\
    (fun m => (PerformanceMetric.metric_type m, PerformanceMetric.value m)) <$> new = take k metrics /\
    Forall (fun m => PerformanceMetric.tags m = tags) new /\ (is_ok r = true <-> (length metrics <= k)%nat).
Proof.
  induction metrics as [|[metric_type value] metrics IH]; intros d r d'; cbn [LlmMetricsCollector.record_all].
  - intros [= <- <-]. exists 0%nat, []. rewrite app_nil_r. by split_and!.
  - unfold MetricsDatabase.bind. destruct (MetricsDatabase.record_metric _ _ _ d) as [[id|e] d1] eqn:E.
    + apply record_metric_rows in E as [now Hr]. intros H. destruct (IH d1 r d' H) as (k & new & Hn & Hm & Ht & Hk).
      exists (S k), (PerformanceMetric.mk id metric_type value tags now :: new). split_and!.
      * by rewrite Hn, Hr, <- app_assoc.
      * cbn. by rewrite <- Hm.
      * by constructor.
      * rewrite Hk. cbn. lia.
    + apply record_metric_rows in E as Hr. intros [= <- <-]. exists 0%nat, []. rewrite app_nil_r. split_and!; try done.
      split; [done|cbn; lia].
Qed.

(** Updating the confidence of a rule moves that rule alone. *)
Lemma update_rule_confidence_spec rule_id c d d' :
  Rules.update_rule_confidence rule_id c d = (Ok tt, d') ->
  exists now, Db.routing_rules d' = List.map (Rules.set_confidence rule_id c now) (Db.routing_rules d).
Proof.
  unfold Rules.update_rule_confidence, Db.bind, Db.call. destruct (utc_now _) as [now w]. unfold Db.execute.
  destruct (sql_execute _) as [[e|] w2]; intros [= <-]. by exists now.
Qed.

Lemma create_rule_spec pattern tool transport c d id d' :
  Rules.create_rule pattern tool transport c d = (Ok id, d') ->
  exists now, Db.routing_rules d' = Db.routing_rules d ++ [RoutingRule.mk id pattern tool transport c now now true].
Proof.
  unfold Rules.create_rule, Db.bind, Db.call. destruct (fresh_uuid _) as [id' w], (utc_now _) as [now w2]. unfold Db.execute.
  cbn [Db.world Db.with_world]. destruct (sql_execute _) as [[e|] w3]; intros [= <- <-]. by exists now.
Qed.
End laws.

(** A rule that has been made is the one that is found for every request with
    its pattern, if it is surer than every enabled rule there was with a
    pattern in the request. *)
Theorem created_rules_are_found `{ST : SqlTables} {WL : LlmWorldLaws W} pattern tool transport c d id d1 content found d2 :
  Rules.create_rule pattern tool transport c d = (Ok id, d1) ->
  Rules.find_matching_rule content d1 = (Ok found, d2) ->
  str_contains pattern content = true ->
  (forall r, r ∈ Db.routing_rules d -> RoutingRule.enabled r = true -> str_contains (RoutingRule.pattern r) content = true ->
     f64_geb (RoutingRule.confidence r) c = false) ->
  exists rule, found = Some rule /\ RoutingRule.id rule = id /\ RoutingRule.pattern rule = pattern /\
    RoutingRule.target_tool rule = tool /\ RoutingRule.confidence rule = c.
Proof.
  intros Hc Hf Hp Hs. apply create_rule_spec in Hc as [now Hr]. unfold Rules.find_matching_rule in Hf.
  destruct (sql_rules _ _) as [fetched w] eqn:E. destruct fetched as [rows|e]; [|discriminate Hf].
  apply sql_rules_fetches in E. destruct (matching_rule_is_best _ rows content E) as [_ Hb].
  apply (f_equal fst) in Hf. cbn [fst] in Hf. rewrite Hf in Hb. set (made := RoutingRule.mk id pattern tool transport c now now true) in *.
  assert (Hin : made ∈ Db.routing_rules d1) by (rewrite Hr; apply elem_of_app; right; by apply list_elem_of_singleton).
  destruct found as [rule|]; [|specialize (Hb made Hin eq_refl); cbn in Hb; congruence].
  destruct Hb as (Ht & He & Hm & Hbest). exists rule. split; [done|].
  destruct (Hbest made Hin eq_refl Hp) as [<-|Hge]; [done|]. rewrite Hr in Ht. apply elem_of_app in Ht as [Ht|Ht].
  - specialize (Hs rule Ht He Hm). cbn in Hge. congruence.
  - apply list_elem_of_singleton in Ht as ->. done.
Qed.

Module DemoTables.
Import DemoWorld.
#[local] Existing Instance ToyNumbers.toy_numbers.

(** Tables in the order of insertion, and the average of a single value *)
#[export] Instance demo_tables : SqlTables := {|
  sql_newest_rules rows w := (Ok (rev rows), w);
  sql_one_rule rows w := (Ok (head rows), w);
  sql_newest_metrics rows w := (Ok (rev rows), w);
  sql_aggregate values w :=
    (match values with
     | [] => Ok (Aggregates.mk None None None)
     | [x] => Ok (Aggregates.mk (Some x) (Some x) (Some x))
     | _ => Err "not here"%string
     end, w)
|}.

#[export] Instance demo_tables_laws : SqlTablesLaws demo_tables.
Proof.
  split.
  - intros rows w rows' w' [= <- <-]. symmetry. apply Permutation_rev.
  - intros [|r rows] w r' w' [= <- <-]; [done|]. apply elem_of_cons. by left.
Qed.

Definition db : Db.t := Db.mk (100, "")%string [] demo_rules [].

(** A failed statement keeps the first of two metrics; a window leaves out
    what is older. *)
Example trend :
  let d := MetricsDatabase.mk (7200 * 1000000000, "")%string
             [PerformanceMetric.mk "a" "latency" (f64_of_Z 3) "{}" 0; PerformanceMetric.mk "b" "latency" (f64_of_Z 5) "{}" (3600 * 1000000000 + 1)] in
  (MetricsDatabase.get_metric_trends "latency" 1 d).1 =
    Ok (MetricTrend.mk "latency" (f64_of_Z 5) (f64_of_Z 5) (f64_of_Z 5) 1 1) /\
  (MetricsDatabase.get_average_metric "latency" 0 d).1 = Ok None.
Proof. vm_compute. done. Qed.

(** The table with the rule made, and what is found in it *)
Definition made : LlmResult string * Db.t := Rules.create_rule "tools/" "find" "stdio" (f64_ratio 6 10) db.
Definition found : LlmResult (option RoutingRule.t) * Db.t := Rules.find_matching_rule "tools/call" made.2.
End DemoTables.

Lemma created_rules_are_found_witness :
  exists rule, DemoTables.found.1 = Ok (Some rule) /\ RoutingRule.target_tool rule = "find"%string.
Proof.
  destruct (created_rules_are_found (ST := DemoTables.demo_tables) (WL := DemoWorld.demo_world_laws) "tools/" "find" "stdio"
              (f64_ratio 6 10) DemoTables.db "100" DemoTables.made.2 "tools/call"
              (Some (RoutingRule.mk "100" "tools/" "find" "stdio" (f64_ratio 6 10) 101 101 true)) DemoTables.found.2)
    as (rule & H & _ & _ & Ht & _).
  - reflexivity.
  - reflexivity.
  - reflexivity.
  - intros r Hr He Hc. cbn in Hr. repeat (apply elem_of_cons in Hr as [->|Hr]); [..|by apply elem_of_nil in Hr];
      vm_compute in Hc, He |- *; congruence.
  - exists rule. split; [|done]. rewrite <- H. reflexivity.
Defined.
