(* ===== verification/Screen.v ===== *)
(** Drawing ([acdp-tui/src/ui.rs] and the panels it draws): what the interface
    hands to [ratatui] for a state, as data, and the loop of [app.rs] with its
    drawing.  [ratatui] divides the screen and scrolls its lists, [chrono]
    writes the times; both are parameters. *)

From Stdlib Require Import Floats.SpecFloat.
From S2P Require Import Prelude McpError Messages Transform Text Common Session IpcServer Client CodeGenerator ModelManager Streaming MonitorUi AppState Monitor.
Import components.

(** ** What is drawn *)

Module Color.
Inductive t : Type := Rgb (r g b : Z).
End Color.

(** The theme *)
Module colors.
Import Color.
Definition LILAC : t := Rgb 219 191 239.
Definition LAVENDER : t := Rgb 164 160 232.
Definition BOSSANOVA : t := Rgb 69 40 89.
Definition MIDNIGHT : t := Rgb 59 34 76.
Definition REVOLVER : t := Rgb 40 23 51.
Definition MINT : t := Rgb 159 242 143.
Definition HONEY : t := Rgb 239 186 93.
Definition APRICOT : t := Rgb 244 120 104.
Definition LIGHTNING : t := Rgb 255 205 28.
Definition DELTA : t := Rgb 111 68 240.
Definition ZINC : t := Rgb 161 161 170.

Definition BACKGROUND : t := REVOLVER.
Definition BORDER : t := BOSSANOVA.
Definition BORDER_FOCUSED : t := DELTA.
Definition TEXT_PRIMARY : t := LILAC.
Definition TEXT_SECONDARY : t := LAVENDER.
Definition TEXT_DIM : t := ZINC.
Definition STATUS_SUCCESS : t := MINT.
Definition STATUS_WARNING : t := HONEY.
Definition STATUS_ERROR : t := APRICOT.
Definition STATUS_INFO : t := LIGHTNING.
Definition ACCENT : t := DELTA.
Definition ACCENT_BRIGHT : t := LAVENDER.
Definition SETTINGS_BACKGROUND : t := MIDNIGHT.
Definition SETTINGS_BORDER : t := ACCENT.
End colors.
Import colors.

(** A style as the code builds it: two colours and [Modifier::BOLD] *)
Module Style.
Record t : Type := mk { foreground : option Color.t; background : option Color.t; bold : bool }.
Definition default : t := mk None None false.
Definition fg (c : Color.t) : t := mk (Some c) None false.
Definition bg (c : Color.t) : t := mk None (Some c) false.
Definition bold_fg (c : Color.t) : t := mk (Some c) None true.
End Style.

Module Span.
Record t : Type := mk { content : string; style : Style.t }.
Definition raw (s : string) : t := mk s Style.default.
Definition styled (s : string) (c : Color.t) : t := mk s (Style.fg c).
End Span.
Import Span(raw, styled).
Notation Line := (list Span.t).

Module Block.
Inductive Borders : Type := All | Top.
Record t : Type := mk {
  title : option string;
  title_style : Style.t;
  borders : Borders;
  thick : bool;
  border_style : Style.t;
  style : Style.t
}.

(** A frame around everything, in the colour [c] *)
Definition bordered (c : Color.t) : t := mk None Style.default All false (Style.fg c) Style.default.
Definition titled (s : string) (c : Color.t) : t := mk (Some s) Style.default All false (Style.fg c) Style.default.
Definition on (c : Color.t) (b : t) : t := mk (title b) (title_style b) (borders b) (thick b) (border_style b) (Style.bg c).

(** The block of the panels, with and without the focus *)
Definition panel (s : string) (focused : bool) : t :=
  on BACKGROUND
    (if focused then mk (Some s) (Style.fg ACCENT_BRIGHT) All false (Style.fg BORDER_FOCUSED) Style.default
     else titled s BORDER).
End Block.

Inductive Alignment : Type := AlignLeft | AlignCenter.

(** [trim] of [Wrap], if lines are wrapped; the style and the symbol of the
    selected item of a list, if they are set *)
Inductive Widget : Type :=
| Paragraph (lines : list Line) (block : Block.t) (alignment : Alignment) (wrap : option bool)
| ListOf (items : list (list Line)) (block : Block.t) (highlight : option (Style.t * string)) (selected : option nat)
| TabsOf (titles : list string) (selected : nat) (block : Block.t) (style highlight_style : Style.t)
| Bordered (block : Block.t)
| Clear.

Module Rect.
Record t : Type := mk { x : Z; y : Z; width : Z; height : Z }.
End Rect.

(** The widgets in the order of drawing *)
Notation Frame := (list (Rect.t * Widget)).

Inductive Direction : Type := Vertical | Horizontal.
Inductive Constraint : Type := Length (n : Z) | Min (n : Z) | Percentage (n : Z).

(** [ratatui]: the division of an area, the area within a block, and what
    drawing a list leaves selected *)
Class Ratatui := {
  split : Direction -> list Constraint -> Rect.t -> list Rect.t;
  inner : Block.t -> Rect.t -> Rect.t;
  scrolled : Rect.t -> Widget -> option nat
}.

(** There is an area for each constraint. *)
Class RatatuiLaws (RT : Ratatui) := {
  split_length d cs r : length (split d cs r) = length cs
}.

(** [chrono]'s format ["%H:%M:%S"] *)
Class ClockFormat := { clock : Z -> string }.

Module ServerLabel.
Definition label (self : ServerStatus.t) : string :=
  match self with
  | ServerStatus.Starting => "Starting" | ServerStatus.Running => "Running" | ServerStatus.Degraded => "Degraded"
  | ServerStatus.Stopped => "Stopped" | ServerStatus.Error => "Error"
  end.
Definition style (self : ServerStatus.t) : Style.t :=
  Style.fg
    match self with
    | ServerStatus.Starting => STATUS_WARNING | ServerStatus.Running => STATUS_SUCCESS | ServerStatus.Degraded => HONEY
    | ServerStatus.Stopped => TEXT_DIM | ServerStatus.Error => STATUS_ERROR
    end.
End ServerLabel.

Module ClientLabel.
Definition label (self : ClientStatus.t) : string :=
  match self with
  | ClientStatus.Connected => "Connected" | ClientStatus.Disconnected => "Disconnected" | ClientStatus.Error => "Error"
  end.
Definition style (self : ClientStatus.t) : Style.t :=
  Style.fg
    match self with
    | ClientStatus.Connected => STATUS_SUCCESS | ClientStatus.Disconnected => TEXT_DIM | ClientStatus.Error => STATUS_ERROR
    end.
End ClientLabel.

Module ActivityLabel.
Definition style (self : ActivityStatus.t) : Style.t :=
  Style.fg
    match self with
    | ActivityStatus.Processing => STATUS_INFO | ActivityStatus.Success => STATUS_SUCCESS | ActivityStatus.Failed => STATUS_ERROR
    end.
End ActivityLabel.

(** [if let Some(x) = o] around pushing *)
Definition pushed {A B} (o : option A) (f : A -> list B) : list B := match o with Some x => f x | None => [] end.
Definition pushed_if {B} (b : bool) (l : list B) : list B := if b then l else [].

(** [sort_by] the names: stable *)
Fixpoint insert_by_name {A} (name : A -> string) (x : A) (l : list A) : list A :=
  match l with [] => [x] | y :: l => if String.leb (name x) (name y) then x :: y :: l else y :: insert_by_name name x l end.
Definition sort_by_name {A} (name : A -> string) (l : list A) : list A := fold_right (insert_by_name name) [] l.

(** ** The status bar ([status_bar.rs]) *)

Module StatusBar.
Record t : Type := mk {
  tui_model_status : option ModelStatus.t;
  proxy_model_status : option string;
  routing_mode : option string;
  ttft : option f64;
  tokens_per_sec : option f64;
  dspy_accuracy : option f64;
  session_accuracy : option f64;
  session_predictions : option (Z * Z);
  mcp_server_health : option ServerHealth.t;
  mcp_server_connections : option nat
}.
Definition default : t := mk None None None None None None None None None None.

Definition model_span (status : option ModelStatus.t) : Span.t :=
  match status with
  | Some ModelStatus.NotLoaded => styled "NotLoaded" TEXT_DIM
  | Some ModelStatus.Loading => styled "Loading" STATUS_WARNING
  | Some ModelStatus.Ready => styled "Ready" STATUS_SUCCESS
  | Some (ModelStatus.Error _) => styled "Error" STATUS_ERROR
  | None => styled "Unknown" TEXT_DIM
  end.

Definition proxy_span (status : option string) : Span.t :=
  match status with
  | Some s =>
      if str_contains "NotLoaded" s then styled "NotLoaded" TEXT_DIM
      else if str_contains "Loading" s then styled "Loading" STATUS_WARNING
      else if str_contains "Ready" s then styled "Ready" STATUS_SUCCESS
      else if str_contains "Error" s then styled s STATUS_ERROR
      else styled s TEXT_SECONDARY
  | None => styled "N/A" TEXT_DIM
  end.

Definition mode_icon (mode : string) : string :=
  if String.eqb mode "bypass" then "🔓" else if String.eqb mode "semantic" then "🧠" else if String.eqb mode "hybrid" then "⚡" else "".

(** The colour of a share *)
Definition share_color (x : f64) : Color.t :=
  if f64_geb x (f64_ratio 8 10) then STATUS_SUCCESS
  else if f64_geb x (f64_ratio 5 10) then STATUS_WARNING else STATUS_ERROR.

Definition ttft_spans (ttft : option f64) : Line :=
  pushed ttft (fun t =>
    pushed_if (SFltb t (f64_of_Z 10))
      [raw " │ "; styled "TTFT: " TEXT_DIM; styled (format_fixed 0 (f64_mul t (f64_of_Z 1000)) +:+ "ms") TEXT_SECONDARY]).

Definition health_span (health : ServerHealth.t) : Span.t :=
  match health with
  | ServerHealth.Healthy => styled "✓ Healthy" STATUS_SUCCESS
  | ServerHealth.Degraded => styled "⚠ Degraded" STATUS_WARNING
  | ServerHealth.Unhealthy => styled "✗ Unhealthy" STATUS_ERROR
  end.

(** The text before the help; it is never empty. *)
Definition spans (data : t) : Line :=
  [styled "TUI Model: " TEXT_DIM; model_span (tui_model_status data)] ++
  pushed (tokens_per_sec data) (fun tps =>
    [raw " │ "; styled "TPS: " TEXT_DIM; styled (format_fixed 1 tps) TEXT_SECONDARY]) ++
  [styled " ◆ " BORDER; styled "Proxy Model: " TEXT_DIM; proxy_span (proxy_model_status data); raw " │ ";
   match routing_mode data with
   | Some mode => styled (mode_icon mode +:+ " " +:+ mode) ACCENT_BRIGHT
   | None => styled "Mode: N/A" TEXT_DIM
   end] ++
  ttft_spans (ttft data) ++
  pushed (session_accuracy data) (fun a =>
    [raw " │ "; styled "Acc: " TEXT_DIM; styled (format_fixed 0 (f64_mul a (f64_of_Z 100)) +:+ "%") (share_color a)]) ++
  pushed (session_predictions data) (fun '(success, total) =>
    pushed_if (0 <? total)
      [raw " │ "; styled "Pred: " TEXT_DIM; styled (pretty success +:+ "/" +:+ pretty total) TEXT_SECONDARY]) ++
  pushed (mcp_server_health data) (fun health =>
    [raw " │ "; styled "MCP Server: " TEXT_DIM; health_span health] ++
    pushed (mcp_server_connections data) (fun conns => [raw " "; styled ("(" +:+ pretty conns +:+ " conns)") TEXT_DIM])).

Definition render (area : Rect.t) (data : t) : Frame :=
  [(area, Paragraph
     [spans data ++ [raw "  "; styled "[Ctrl+N: New Proxy] [Ctrl+P: Cycle Proxy] [Esc: Quit]" TEXT_DIM]]
     (Block.on BACKGROUND (Block.bordered BORDER)) AlignLeft None)].
End StatusBar.

(** ** The panels *)

(** *** [activity_feed.rs]; a name that is cut within a character panics. *)

Module ActivityFeed.
Section feed.
Context `{RT : Ratatui, CF : ClockFormat}.

Definition list_item (item : ActivityItem.t) : option (list Line) :=
  client ← MonitorUi.ActivityFeed.shorten_proxy_id (ActivityItem.client item);
  server ← MonitorUi.ActivityFeed.shorten_proxy_id (ActivityItem.server item);
  Some [[styled ("[" +:+ clock (ActivityItem.timestamp item) +:+ "] ") TEXT_DIM;
         styled (client +:+ " → " +:+ server +:+ " ") TEXT_SECONDARY;
         styled (ActivityItem.action item) TEXT_PRIMARY;
         raw " ";
         Span.mk ("[" +:+ ActivityStatus.label (ActivityItem.status item) +:+ "]") (ActivityLabel.style (ActivityItem.status item))]].

Definition render (area : Rect.t) (activities : list ActivityItem.t) (focused : bool) (self : MonitorUi.ActivityFeed.t)
  : option (Frame * MonitorUi.ActivityFeed.t) :=
  items ← mapM list_item (rev activities);
  let w := ListOf items (Block.panel "Activity Feed" focused) None (MonitorUi.ActivityFeed.drawn (length items) self) in
  Some ([(area, w)], scrolled area w).
End feed.
End ActivityFeed.

(** *** [servers_panel.rs] *)

Module ServersPanel.
Section servers.
Context `{RT : Ratatui, CF : ClockFormat}.

Definition is_url (addr : string) : bool := starts_with "http://" addr || starts_with "https://" addr.

Definition render_item (server : Server.t) (selected_proxy_id : option string) : list Line :=
  let proxy := bool_decide (Server.server_type server = ServerType.Proxy) in
  let marker := if bool_decide (selected_proxy_id = Some (Server.id server)) then "► "%string else ""%string in
  [[styled (marker +:+ Server.name server) TEXT_PRIMARY; raw " ";
    Span.mk ("[" +:+ ServerLabel.label (Server.status server) +:+ "]") (ServerLabel.style (Server.status server))] ++
   pushed_if proxy (pushed (Server.routing_mode server) (fun mode => [raw " "; styled ("(" +:+ mode +:+ ")") HONEY]));
   [raw "  "; styled (Server.description server) TEXT_DIM]] ++
  pushed_if proxy (pushed (Server.target_address server) (fun addr =>
    pushed_if (is_url addr) [[styled "  addr: " TEXT_DIM; styled addr HONEY]])).

Definition render_client_item (client : Client.t) : list Line :=
  [[styled (Client.name client) TEXT_PRIMARY; raw " ";
    Span.mk ("[" +:+ ClientLabel.label (Client.status client) +:+ "]") (ClientLabel.style (Client.status client))];
   [raw "  "; styled (Client.description client) TEXT_DIM]] ++
  pushed_if (0 <? Client.requests_sent client)
    [[raw "  "; styled ("Requests: " +:+ pretty (Client.requests_sent client) +:+ " | Last: " +:+ clock (Client.last_activity client)) TEXT_DIM]].

(** The servers and the clients in the order in which their tables list them *)
Definition render (area : Rect.t) (servers : list Server.t) (clients : list Client.t) (focused : bool)
    (selected_proxy_id : option string) (self : MonitorUi.ServersPanel.t) : option (Frame * MonitorUi.ServersPanel.t) :=
  let chunks := split Horizontal [Percentage 60; Percentage 40] area in
  let rendered := List.map (fun s => render_item s selected_proxy_id) (sort_by_name Server.name servers) in
  let w := ListOf rendered (Block.panel "Servers" focused) None (MonitorUi.ActivityFeed.drawn (length rendered) self) in
  let client_rendered := List.map render_client_item (sort_by_name Client.name clients) in
  left ← chunks !! 0%nat;
  right ← chunks !! 1%nat;
  Some ([(left, w); (right, ListOf client_rendered (Block.panel "Clients" false) None None)], scrolled left w).
End servers.
End ServersPanel.

(** *** [query_input.rs] *)

Module QueryInput.
Definition placeholder : string := "Enter query (prefix @proxy or @gateway to route, default: local LLM)…".

Definition render (area : Rect.t) (value : string) (focused : bool) : Frame :=
  let block :=
    Block.on BACKGROUND
      (if focused then Block.mk (Some "Query"%string) (Style.fg (Color.Rgb 225 22 247)) Block.All false (Style.fg (Color.Rgb 48 174 209)) Style.default
       else Block.titled "Query" BORDER) in
  let display := if str_is_empty value then [styled placeholder TEXT_DIM] else [styled value TEXT_PRIMARY] in
  [(area, Paragraph [display] block AlignLeft None)].
End QueryInput.

(** *** [tabs.rs] *)

Module tabs.
Definition render_tab_bar (area : Rect.t) (current_tab : MainTab.t) : Frame :=
  [(area, TabsOf (List.map MainTab.title MainTab.all) (MainTab.index current_tab) (Block.bordered BORDER) (Style.fg TEXT_DIM)
            (Style.bold_fg ACCENT_BRIGHT))].

Definition render_tab_help (current_tab : MainTab.t) : string :=
  match current_tab with
  | MainTab.Activity => "↑/↓: scroll | Enter: details | c: clear | f: follow | /: search"
  | MainTab.Servers => "↑/↓: select | Enter: details | r: routing mode | Space: start/stop"
  | MainTab.Settings => "↑/↓: navigate | ←/→: adjust | Enter: edit | r: reset"
  end.
End tabs.

(** *** [settings_panel.rs] *)

Module SettingsPanel.
Section settings.
Context `{RT : Ratatui}.
Import MonitorUi.SettingsPanel.

Definition tabs : list SettingsTab.t :=
  [SettingsTab.Models; SettingsTab.TuiEngineSettings; SettingsTab.ProxyEngineSettings; SettingsTab.Advanced].

Definition tab_eqb (a b : SettingsTab.t) : bool :=
  match a, b with
  | SettingsTab.Models, SettingsTab.Models | SettingsTab.TuiEngineSettings, SettingsTab.TuiEngineSettings
  | SettingsTab.ProxyEngineSettings, SettingsTab.ProxyEngineSettings | SettingsTab.Advanced, SettingsTab.Advanced => true
  | _, _ => false
  end.

Definition render_tab_bar (area : Rect.t) (self : t) : Frame :=
  let tab_spans :=
    List.map
      (fun tab => Span.mk (" " +:+ SettingsTab.label tab +:+ " ")
                    (if tab_eqb tab (current_tab self) then Style.bold_fg ACCENT_BRIGHT else Style.fg TEXT_PRIMARY)) tabs in
  [(area, Paragraph [tab_spans] (Block.bordered BORDER) AlignLeft None)].

(** A key in brackets and what it does *)
Definition key_line (key what : string) : Line :=
  [styled "  [" TEXT_DIM; styled key ACCENT_BRIGHT; styled ("] " +:+ what) TEXT_PRIMARY].
(** The line of the key for the tabs *)
Definition switch_line (a b c : string) : Line :=
  [styled "  [" TEXT_DIM; styled "Tab" ACCENT_BRIGHT; styled "] Switch to " TEXT_PRIMARY; styled a ACCENT_BRIGHT;
   styled " / " TEXT_DIM; styled b ACCENT_BRIGHT; styled " / " TEXT_DIM; styled c ACCENT_BRIGHT].
Definition heading (s : string) (c : Color.t) : Line := [Span.mk s (Style.bold_fg c)].
(** [Line::from("")] *)
Definition blank : Line := [raw ""].

Definition focus_border (title : string) (focused : bool) : Block.t := Block.titled title (if focused then ACCENT_BRIGHT else BORDER).

Definition model_item (model : LiteRTModel.t) : list Line :=
  [[styled (" " +:+ (if LiteRTModel.installed model then "✓" else " ") +:+ " ")
      (if LiteRTModel.installed model then STATUS_SUCCESS else TEXT_DIM);
    styled (LiteRTModel.name model) TEXT_PRIMARY;
    styled (" (" +:+ LiteRTModel.size model +:+ ")") TEXT_DIM]].

Definition details_text (selected : option LiteRTModel.t) : list Line :=
  match selected with
  | None => [[raw "No model selected"]]
  | Some model =>
      [[styled "Name: " TEXT_DIM; styled (LiteRTModel.name model) TEXT_PRIMARY];
       [styled "Size: " TEXT_DIM; styled (LiteRTModel.size model) TEXT_PRIMARY];
       [styled "Status: " TEXT_DIM;
        if LiteRTModel.installed model then styled "Installed" STATUS_SUCCESS else styled "Not installed" TEXT_DIM];
       blank;
       [styled (LiteRTModel.description model) TEXT_PRIMARY];
       blank; blank;
       heading "Actions:" TEXT_DIM;
       switch_line "TUI Engine" "Proxy Engine" "Advanced";
       key_line "p" "Pull model";
       key_line "r" "Refresh list"]
  end.

Definition render_models_tab (area : Rect.t) (focused : bool) (self : t) : option (Frame * t) :=
  let chunks := split Horizontal [Percentage 60; Percentage 40] area in
  let w := ListOf (List.map model_item (models self)) (focus_border " Available Models " focused)
             (Some (Style.mk (Some ACCENT_BRIGHT) (Some BORDER) true, "▶ "%string)) (model_list_state self) in
  left ← chunks !! 0%nat;
  right ← chunks !! 1%nat;
  let self := set_selected_model (scrolled left w) self in
  let selected := i ← model_list_state self; models self !! i in
  Some ([(left, w); (right, Paragraph (details_text selected) (Block.titled " Model Details " BORDER) AlignLeft (Some false))], self).

(** The row of the setting [n], with what it is called and how it changes *)
Definition setting_row (self : t) (n : nat) (label value : string) (c : Color.t) (how : option string) : Line :=
  [styled (if (selected_setting self =? n)%nat then "▶ " else "  ") ACCENT_BRIGHT; styled label TEXT_DIM; styled value c] ++
  pushed how (fun h => [styled (" (← → to " +:+ h +:+ ")") TEXT_DIM]).

Definition engine_rows (settings : EngineSettings.t) (self : t) : list Line :=
  [setting_row self 0 "Active Model: " (from_option id "(none)"%string (EngineSettings.active_model settings)) STATUS_SUCCESS (Some "change"%string);
   blank;
   setting_row self 1 "Backend: " (EngineSettings.backend settings) TEXT_PRIMARY (Some "toggle"%string);
   blank;
   setting_row self 2 "Temperature: " (format_fixed 1 (EngineSettings.temperature settings)) TEXT_PRIMARY (Some "adjust"%string);
   blank;
   setting_row self 3 "Max Tokens: " (pretty (EngineSettings.max_tokens settings)) TEXT_PRIMARY (Some "adjust"%string);
   blank;
   (if EngineSettings.semantic_routing settings
    then setting_row self 4 "Semantic Routing: " "Enabled" STATUS_SUCCESS (Some "toggle"%string)
    else setting_row self 4 "Semantic Routing: " "Disabled" TEXT_DIM (Some "toggle"%string));
   blank;
   setting_row self 5 "Semantic Model Path: " (from_option id "(default)"%string (EngineSettings.semantic_model_path settings)) TEXT_PRIMARY None].

Definition render_engine_settings_tab (area : Rect.t) (focused is_tui : bool) (self : t) : Frame :=
  let settings := if is_tui then tui_engine_settings self else proxy_engine_settings self in
  let lines :=
    engine_rows settings self ++
    [blank; blank;
     heading "Navigation:" TEXT_DIM;
     switch_line "Models" (if is_tui then "Proxy Engine" else "TUI Engine") "Advanced";
     key_line "↑↓" "Navigate settings";
     key_line "←→" "Adjust values";
     blank;
     heading "Actions:" TEXT_DIM;
     key_line "s" "Save settings";
     key_line "r" "Refresh model list"] in
  [(area, Paragraph lines (focus_border (" Engine Configuration (" +:+ (if is_tui then "TUI" else "Proxies") +:+ ") ") focused)
            AlignLeft (Some false))].

Definition render_advanced_tab (area : Rect.t) : Frame :=
  [(area, Paragraph
     [heading "Advanced Settings" TEXT_PRIMARY;
      blank;
      [styled "• Database Path: ~/.config/assist-mcp/routing.db" TEXT_PRIMARY];
      [styled "• Model Cache: ~/.litert-lm/models/" TEXT_PRIMARY];
      [styled "• Config Path: ~/.config/assist-mcp/config.toml" TEXT_PRIMARY];
      blank;
      heading "Environment Variables:" TEXT_DIM;
      [styled "• DYLD_LIBRARY_PATH=/Users/rpm/LiteRT-LM/bazel-bin/rust_api" TEXT_PRIMARY];
      [styled "• RUST_LOG=debug" TEXT_PRIMARY]]
     (Block.titled " Advanced Configuration " BORDER) AlignLeft (Some false))].

Definition render_status_bar (area : Rect.t) (self : t) : Frame :=
  let status_text :=
    if loading self then "Loading..."%string else from_option id "Ready"%string (status_message self) in
  [(area, Paragraph [[styled (" " +:+ status_text +:+ " ") TEXT_PRIMARY]] (Block.bordered BORDER) AlignLeft None)].

Definition outer_block : Block.t :=
  Block.mk (Some " Settings (Press Esc to exit) "%string) (Style.bold_fg ACCENT_BRIGHT) Block.All true (Style.fg SETTINGS_BORDER)
    (Style.bg SETTINGS_BACKGROUND).

Definition render (area : Rect.t) (focused : bool) (self : t) : option (Frame * t) :=
  let chunks := split Vertical [Length 3; Min 10; Length 3] (inner outer_block area) in
  bar ← chunks !! 0%nat;
  content ← chunks !! 1%nat;
  status ← chunks !! 2%nat;
  tab ← (match current_tab self with
         | SettingsTab.Models => render_models_tab content focused self
         | SettingsTab.TuiEngineSettings => Some (render_engine_settings_tab content focused true self, self)
         | SettingsTab.ProxyEngineSettings => Some (render_engine_settings_tab content focused false self, self)
         | SettingsTab.Advanced => Some (render_advanced_tab content, self)
         end);
  let '(drawn, after) := tab in
  Some ((area, Bordered outer_block) :: render_tab_bar bar self ++ drawn ++ render_status_bar status after, after).
End settings.
End SettingsPanel.

(** ** Panels that the interface exports and does not draw *)

(** *** [semantic_status.rs] *)

Module SemanticStatusBar.
Section bar.
Context `{RT : Ratatui, JT : JsonText}.

Definition truncate_string (s : string) (max_len : nat) : option string :=
  if (String.length s <=? max_len)%nat then Some s
  else option_map (fun t => t +:+ "...") (MonitorUi.ActivityFeed.slice_to (max_len - 3) s).

(** What of a method's parameters is shown *)
Definition params_info (method : string) (params : Value) : option (option string) :=
  if String.eqb method "tools/call" then Some (option_map (fun n => "tool: " +:+ n) (string_of (get params "name")))
  else if String.eqb method "resources/read" then
    match string_of (get params "uri") with Some s => option_map Some (truncate_string s 25) | None => Some None end
  else if String.eqb method "prompts/get" then Some (option_map (fun n => "prompt: " +:+ n) (string_of (get params "name")))
  else Some None.

Definition extract_query_info (query_json : string) : option (string * option string) :=
  match json_from_str query_json with
  | Some json =>
      let method := from_option id "unknown"%string (string_of (get json "method")) in
      info ← (match get json "params" with Some params => params_info method params | None => Some None end);
      Some (method, info)
  | None => text ← truncate_string query_json 30; Some (text, None)
  end.

Definition left_spans (prediction : SemanticPrediction.t) : option Line :=
  match SemanticPrediction.query prediction with
  | None => Some []
  | Some query =>
      info ← extract_query_info query;
      Some ([styled "Request: " TEXT_DIM; styled info.1 TEXT_SECONDARY] ++
            pushed info.2 (fun i => [raw " "; styled ("(" +:+ i +:+ ")") TEXT_DIM]))
  end.

Definition right_spans (p : SemanticPrediction.t) : Line :=
  pushed (SemanticPrediction.predicted_tool p) (fun tool =>
    [styled "LLM → " TEXT_DIM; styled tool ACCENT] ++
    pushed (SemanticPrediction.confidence p) (fun conf =>
      [raw " "; styled (format_fixed 0 (f64_mul conf (f64_of_Z 100)) +:+ "%") (StatusBar.share_color conf)]) ++
    pushed (SemanticPrediction.success p) (fun success =>
      raw " " ::
      if success : bool then [styled "✓" STATUS_SUCCESS]
      else styled "✗" STATUS_ERROR ::
           pushed (SemanticPrediction.actual_tool p) (fun actual => [styled (" (actual: " +:+ actual +:+ ")") STATUS_WARNING]))).

(** The bytes of a line, and the spaces between its halves *)
Definition line_width (l : Line) : nat := list_sum (List.map (fun s => String.length (Span.content s)) l).

Definition render (area : Rect.t) (prediction : SemanticPrediction.t) : option Frame :=
  left ← left_spans prediction;
  let right := right_spans prediction in
  let available_width := Z.to_nat (saturating_sub (Rect.width area) 4) in
  let padding := (available_width - (line_width left + line_width right))%nat in
  let line :=
    match right with
    | [] => left
    | _ => left ++ pushed_if (0 <? padding)%nat [raw (String.concat "" (List.repeat " "%string padding))] ++ right
    end in
  Some [(area, Paragraph [line] (Block.on BACKGROUND (Block.bordered ACCENT)) AlignLeft None)].
End bar.
End SemanticStatusBar.

(** *** [llm_responses_panel.rs] *)

Module LlmResponsesPanel.
Section panel.
Context `{RT : Ratatui, CF : ClockFormat}.

Record LlmResponse : Type := MkResponse { query : string; response : string; is_streaming : bool; timestamp : Z }.

Record t : Type := mk { state : option nat; responses : list LlmResponse }.
Definition new : t := mk (Some 0%nat) [].

Definition add_response (r : LlmResponse) (self : t) : t := mk (Some (length (responses self))) (responses self ++ [r]).

(** [last_mut] *)
Definition on_last (f : LlmResponse -> LlmResponse) (self : t) : t :=
  mk (state self) (alter f (length (responses self) - 1)%nat (responses self)).

Definition update_streaming_response (partial_response : string) (self : t) : t :=
  on_last (fun r => if is_streaming r then MkResponse (query r) partial_response true (timestamp r) else r) self.
Definition complete_streaming_response (self : t) : t :=
  on_last (fun r => MkResponse (query r) (response r) false (timestamp r)) self.

Definition next (self : t) : t := mk (MonitorUi.ServersPanel.next (length (responses self)) (state self)) (responses self).
Definition previous (self : t) : t := mk (MonitorUi.ServersPanel.previous (length (responses self)) (state self)) (responses self).

(** The preview is cut after a hundred bytes, which panics within a
    character. *)
Definition render_response_item (r : LlmResponse) : option (list Line) :=
  preview ← (if (100 <? String.length (response r))%nat
             then option_map (fun t => t +:+ "...") (MonitorUi.ActivityFeed.slice_to 100 (response r)) else Some (response r));
  Some [[styled ("[" +:+ clock (timestamp r) +:+ "] ") TEXT_DIM; styled (query r) ACCENT_BRIGHT;
         styled (if is_streaming r then " ⋯" else "") STATUS_INFO];
        [raw "  "; styled preview TEXT_SECONDARY]].

Definition render (area : Rect.t) (focused : bool) (self : t) : option (Frame * t) :=
  items ← mapM render_response_item (responses self);
  let block := Block.panel "LLM Responses" focused in
  let selected := MonitorUi.ActivityFeed.drawn (length items) (state self) in
  match items with
  | [] =>
      Some ([(area, Paragraph [[styled "No LLM responses yet." TEXT_DIM];
                               [styled "Type a query and press Enter to chat with the LLM." TEXT_DIM]] block AlignLeft (Some true))],
            mk selected (responses self))
  | _ => let w := ListOf items block None selected in Some ([(area, w)], mk (scrolled area w) (responses self))
  end.
End panel.
End LlmResponsesPanel.

(** *** [clients_panel.rs]; it moves its selection as the panel of servers
    does. *)

Module ClientsPanel.
Section clients.
Context `{RT : Ratatui}.

Definition render_item (client : Client.t) : list Line :=
  [[styled (Client.name client) TEXT_PRIMARY; raw " ";
    Span.mk ("[" +:+ ClientLabel.label (Client.status client) +:+ "]") (ClientLabel.style (Client.status client))];
   [raw "  "; styled (Client.description client) TEXT_DIM]].

Definition render (area : Rect.t) (clients : list Client.t) (focused : bool) (self : option nat) : Frame * option nat :=
  let list_items := List.map render_item (sort_by_name Client.name clients) in
  let w := ListOf list_items (Block.panel "Clients" focused) None (MonitorUi.ActivityFeed.drawn (length list_items) self) in
  ([(area, w)], scrolled area w).
End clients.
End ClientsPanel.

(** *** [diagnostics.rs]; nothing sets what it shows of the server for clients. *)

Module DiagnosticsPanel.

Definition status_line (status : ModelStatus.t) : Span.t :=
  match status with
  | ModelStatus.Ready => styled "Ready" STATUS_SUCCESS
  | ModelStatus.Loading => styled "Loading..." STATUS_WARNING
  | _ => styled "Not Loaded" TEXT_DIM
  end.

Definition row (label value : string) (c : Color.t) : list Line := [[styled label TEXT_SECONDARY; styled value c]].

Definition percent (x : spec_float) : string := format_fixed 1 x +:+ "%".

Definition download_lines (progress : DownloadProgress.t) : list Line :=
  let mb (bytes : Z) := format_fixed 1 (f64_ratio bytes 1048576) +:+ " MB" in
  row "Download: " (percent (DownloadProgress.percentage progress)) STATUS_WARNING ++
  pushed (DownloadProgress.total_bytes progress) (fun total =>
    [[styled ("  " +:+ mb (DownloadProgress.bytes_downloaded progress) +:+ " / " +:+ mb total) TEXT_DIM]]).

Definition lines (d : DiagnosticsData.t) : list Line :=
  let share (x : f64) := percent (f64_mul x (f64_of_Z 100)) in
  [[styled "Model: " TEXT_SECONDARY; status_line (DiagnosticsData.model_status d)]] ++
  pushed (DiagnosticsData.model_name d) (fun name => row "Model Name: " name ACCENT) ++
  pushed (DiagnosticsData.download_progress d) download_lines ++
  pushed (DiagnosticsData.ttft d) (fun t => row "TTFT: " (format_fixed 3 t +:+ "s") STATUS_SUCCESS) ++
  pushed (DiagnosticsData.tokens_per_sec d) (fun tps => row "Tokens/sec: " (format_fixed 1 tps) STATUS_SUCCESS) ++
  pushed (DiagnosticsData.gepa_optimization d) (fun x => row "GEPA Optimization: " (share x) ACCENT) ++
  pushed (DiagnosticsData.dspy_accuracy d) (fun x => row "DSPy Accuracy: " (share x) ACCENT) ++
  pushed (DiagnosticsData.session_accuracy d) (fun x => row "Session Accuracy: " (share x) ACCENT_BRIGHT) ++
  pushed (DiagnosticsData.session_total_predictions d) (fun total =>
    pushed (DiagnosticsData.session_successful_predictions d) (fun success =>
      row "Session Predictions: " (pretty success +:+ "/" +:+ pretty total) ACCENT)) ++
  pushed (DiagnosticsData.routing_mode d) (fun mode => row "Routing Mode: " mode ACCENT_BRIGHT).

Definition render (area : Rect.t) (focused : bool) (d : DiagnosticsData.t) : Frame :=
  let block := Block.panel "Diagnostics" focused in
  match DiagnosticsData.model_status d with
  | ModelStatus.Error e => [(area, Paragraph (List.map (fun l => [raw l]) (Text.lines ("Error: " +:+ e))) block AlignLeft None)]
  | _ => [(area, Paragraph (lines d) block AlignLeft None)]
  end.
End DiagnosticsPanel.

(** ** The interface ([ui.rs]) *)

(** What a draw finds: the screen's area and the order in which the tables of
    servers and of clients list their values *)
Record Scene : Type := MkScene { screen : Rect.t; servers_listed : list Server.t; clients_listed : list Client.t }.

Module UI.
Section ui.
Context `{RT : Ratatui, CF : ClockFormat, SD : StrDebug}.
Import MonitorUi.UI.

(** The selected proxy's status, or the first proxy's in the table's order *)
Definition proxy_status (servers : gmap string Server.t) (listed : list Server.t) (selected_proxy_id : option string) : option string :=
  match selected_proxy_id with
  | Some id => s ← servers !! id; Server.model_status s
  | None => s ← List.find App.is_proxy listed; Server.model_status s
  end.

(** Nothing sets the health and the connections of the server for clients. *)
Definition status_data (d : DiagnosticsData.t) (proxy_model_status : option string) : StatusBar.t :=
  if bool_decide (DiagnosticsData.model_status d = ModelStatus.NotLoaded) && bool_decide (DiagnosticsData.routing_mode d = None)
  then StatusBar.default
  else
    StatusBar.mk (Some (DiagnosticsData.model_status d)) proxy_model_status (DiagnosticsData.routing_mode d)
      (DiagnosticsData.ttft d) (DiagnosticsData.tokens_per_sec d) (DiagnosticsData.dspy_accuracy d)
      (DiagnosticsData.session_accuracy d)
      (s ← DiagnosticsData.session_successful_predictions d;
       option_map (fun t => (s, t)) (DiagnosticsData.session_total_predictions d))
      None None.

Definition render_status_bar (area : Rect.t) (d : DiagnosticsData.t) (servers : gmap string Server.t) (listed : list Server.t)
    (selected_proxy_id : option string) : Frame :=
  StatusBar.render area (status_data d (proxy_status servers listed selected_proxy_id)).

(** [Debug] of a model's status *)
Definition status_debug (s : ModelStatus.t) : string :=
  match s with ModelStatus.Error e => "Error(" +:+ str_debug e +:+ ")" | s => ModelStatus.to_string s end.

Definition diagnostics_lines (d : DiagnosticsData.t) : list Line :=
  let percent (x : f64) := format_fixed 1 (f64_mul x (f64_of_Z 100)) +:+ "%" in
  let line (label : string) (value : string) (c : Color.t) : list Line := [[styled label TEXT_DIM; styled value c]] in
  line "Model Status: " (status_debug (DiagnosticsData.model_status d)) ACCENT_BRIGHT ++
  pushed (DiagnosticsData.routing_mode d) (fun mode => line "Routing Mode: " mode ACCENT_BRIGHT) ++
  pushed (DiagnosticsData.ttft d) (fun t => line "TTFT: " (format_fixed 2 t +:+ "s") STATUS_SUCCESS) ++
  pushed (DiagnosticsData.tokens_per_sec d) (fun tps => line "Tokens/sec: " (format_fixed 1 tps) STATUS_SUCCESS) ++
  pushed (DiagnosticsData.dspy_accuracy d) (fun a => line "DSPy Accuracy: " (percent a) STATUS_SUCCESS) ++
  pushed (DiagnosticsData.session_accuracy d) (fun a => line "Session Accuracy: " (percent a) STATUS_SUCCESS) ++
  pushed (DiagnosticsData.session_successful_predictions d) (fun succ =>
    pushed (DiagnosticsData.session_total_predictions d) (fun total =>
      line "Session Predictions: " (pretty succ +:+ "/" +:+ pretty total) STATUS_SUCCESS)).

Definition render_diagnostics_overlay (area : Rect.t) (d : DiagnosticsData.t) : Frame :=
  [(area, Paragraph (diagnostics_lines d) (Block.on BACKGROUND (Block.titled "Diagnostics (Press Esc to close)" ACCENT)) AlignLeft None)].

(** Sums and differences of 16 bits *)
Definition popup (area : Rect.t) : Rect.t :=
  Rect.mk ((Rect.x area + 2) mod 2 ^ 16) ((Rect.y area + 1) mod 2 ^ 16) (saturating_sub (Rect.width area) 4) (Z.min (Rect.height area) 5).

Definition render_search_overlay (area : Rect.t) (query : string) (activities : list ActivityItem.t) (self : t) : Frame :=
  let match_count := length (App.filtered_activities self activities) in
  let lines :=
    [[styled ("Search: " +:+ query) TEXT_PRIMARY];
     [styled ("Matches: " +:+ pretty match_count +:+ " / " +:+ pretty (length activities)) TEXT_DIM];
     [styled "Type to filter · Enter apply · Esc cancel" TEXT_DIM]] in
  [(popup area, Clear); (popup area, Paragraph lines (Block.on BACKGROUND (Block.titled "Search" ACCENT)) AlignLeft (Some true))].

Definition render_main_content (area : Rect.t) (scene : Scene) (activities : list ActivityItem.t) (selected_proxy_id : option string)
    (self : t) : option (Frame * t) :=
  let chunks := split Vertical [Length 3; Min 7] area in
  bar ← chunks !! 0%nat;
  content ← chunks !! 1%nat;
  let focused := bool_decide (focus self = FocusArea.MainTabs) in
  tab ← (match current_tab self with
         | MainTab.Activity =>
             feed ← ActivityFeed.render content (App.filtered_activities self activities) focused (activity_feed self);
             let '(drawn, feed) := feed in
             Some (drawn ++ pushed (search_overlay self) (fun q => render_search_overlay content q activities self), set_feed feed self)
         | MainTab.Servers =>
             panel ← ServersPanel.render content (servers_listed scene) (clients_listed scene) focused selected_proxy_id (servers_panel self);
             let '(drawn, panel) := panel in Some (drawn, set_servers panel self)
         | MainTab.Settings =>
             panel ← SettingsPanel.render content focused (settings_panel self);
             let '(drawn, panel) := panel in Some (drawn, set_settings panel self)
         end);
  let '(drawn, self) := tab in Some (tabs.render_tab_bar bar (current_tab self) ++ drawn, self).

Definition render_input_area (area : Rect.t) (query_input : string) (self : t) : option Frame :=
  let chunks := split Vertical [Length 3; Length 2] area in
  input ← chunks !! 0%nat;
  help ← chunks !! 1%nat;
  let focused := bool_decide (focus self = FocusArea.QueryInput) in
  let help_text :=
    if focused then "Enter: submit | Ctrl+R: semantic route | Ctrl+H: health | Tab: switch focus"%string
    else tabs.render_tab_help (current_tab self) in
  Some (QueryInput.render input query_input focused ++
        [(help, Paragraph [[styled help_text TEXT_DIM]]
                  (Block.mk None Style.default Block.Top false (Style.fg BORDER) Style.default) AlignCenter None)]).

Definition draw (scene : Scene) (servers : gmap string Server.t) (activities : list ActivityItem.t) (query_input : string)
    (d : DiagnosticsData.t) (selected_proxy_id : option string) (self : t) : option (Frame * t) :=
  let chunks := split Vertical [Length 3; Min 10; Length 5] (screen scene) in
  bar ← chunks !! 0%nat;
  content ← chunks !! 1%nat;
  input ← chunks !! 2%nat;
  main ← (match focus self with
          | FocusArea.Settings =>
              panel ← SettingsPanel.render content true (settings_panel self);
              let '(drawn, panel) := panel in Some (drawn, set_settings panel self)
          | FocusArea.Diagnostics => Some (render_diagnostics_overlay content d, self)
          | _ => render_main_content content scene activities selected_proxy_id self
          end);
  let '(drawn, self) := main in
  below ← render_input_area input query_input self;
  Some (render_status_bar bar d servers (servers_listed scene) selected_proxy_id ++ drawn ++ below, self).
End ui.
End UI.

(** ** The loop with its drawing ([App::run] in [app.rs]) *)

Module Drawn.
Section drawn.
Context `{RT : Ratatui, CF : ClockFormat, JT : JsonText, SD : StrDebug} {TA : TransportApi}.

Definition draw (scene : Scene) (self : App.t) : option (Frame * App.t) :=
  drawn ← UI.draw scene (App.servers self) (App.activities self) (App.query_input self) (App.diagnostics self)
            (App.selected_proxy_id self) (App.ui self);
  let '(frame, u) := drawn in Some (frame, App.set_ui u self).

(** How the loop goes: it panics in handling an event or in drawing, or it has
    drawn some frames *)
Inductive Outcome : Type :=
| HandlerPanics
| DrawPanics
| Went (frames : list Frame) (self : App.t).

Definition drawing (frame : Frame) (o : Outcome) : Outcome :=
  match o with Went frames self => Went (frame :: frames) self | o => o end.

Fixpoint run (needs_redraw : bool) (rounds : list (App.Round * Scene)) (self : App.t) : Outcome :=
  match rounds with
  | [] => Went [] self
  | (r, scene) :: rounds =>
      if App.running self then
        match App.handle_events (App.events r) self with
        | None => HandlerPanics
        | Some (_, self) =>
            let pending := App.is_pending (App.arrived r) self in
            let self := if pending then App.update_state (App.arrived r) (App.polls r) self else self in
            if needs_redraw || negb (length (App.events r) =? 0)%nat || pending then
              match draw scene self with
              | None => DrawPanics
              | Some (frame, self) => drawing frame (run false rounds self)
              end
            else run false rounds self
        end
      else Went [] self
  end.
End drawn.
End Drawn.

(** ** Drawing and panics *)

(** An item whose names can be shortened *)
Definition named (item : ActivityItem.t) : Prop :=
  is_Some (MonitorUi.ActivityFeed.shorten_proxy_id (ActivityItem.client item)) /\
  is_Some (MonitorUi.ActivityFeed.shorten_proxy_id (ActivityItem.server item)).

Definition ascii_text (s : string) : bool :=
  forallb (fun c => (N_of_ascii c <? 128)%N) (String.list_ascii_of_string s).

(** The identifiers of a message that become names in the feed are texts in
    ASCII, as those of [Uuid] are. *)
Definition plain_ids (message : IpcMessage.t) : bool :=
  match message with
  | IpcMessage.LogEntry entry => ascii_text (LogEntry.proxy_id entry)
  | IpcMessage.ClientRequest client_id _ _ => ascii_text client_id
  | IpcMessage.ServerResponse server_id _ _ => ascii_text server_id
  | _ => true
  end.

Lemma ascii_not_continuation c : (N_of_ascii c <? 128)%N = true -> is_continuation_byte c = false.
Proof. by destruct c as [[] [] [] [] [] [] [] []]. Qed.

Lemma ascii_get s : ascii_text s = true -> forall n c, String.get n s = Some c -> is_continuation_byte c = false.
Proof.
  induction s as [|a s IH]; [done|]. unfold ascii_text in *. cbn. intros [Ha Hs]%andb_true_iff [|n] c; cbn.
  - intros [= <-]. by apply ascii_not_continuation.
  - by apply IH.
Qed.

Lemma get_past s : forall n, String.get n s = None -> (String.length s <= n)%nat.
Proof. induction s as [|a s IH]; intros [|n]; cbn; try done; [lia|]. intros H%IH. lia. Qed.

Lemma shorten_ascii s : ascii_text s = true -> is_Some (MonitorUi.ActivityFeed.shorten_proxy_id s).
Proof.
  intros Hs. unfold MonitorUi.ActivityFeed.shorten_proxy_id, MonitorUi.ActivityFeed.slice_to.
  destruct (starts_with "proxy-" s); [|by eexists]. destruct (Nat.ltb_spec 15 (String.length s)); [|by eexists].
  cbn [andb]. destruct (String.get 9 s) as [c|] eqn:E; [|apply get_past in E; lia].
  rewrite (ascii_get s Hs 9 c E). by eexists.
Qed.

Lemma shorten_other s : starts_with "proxy-" s = false -> is_Some (MonitorUi.ActivityFeed.shorten_proxy_id s).
Proof. intros H. unfold MonitorUi.ActivityFeed.shorten_proxy_id. rewrite H. by eexists. Qed.

Section laws.
Context `{RT : Ratatui} {RL : RatatuiLaws RT}.
Context `{CF : ClockFormat, JT : JsonText, SD : StrDebug} {TA : TransportApi}.
Implicit Types self : App.t.

Lemma update_named now message item :
  IpcHandler.update_of now message = Some (AppStateUpdate.ActivityAdded item) -> plain_ids message = true -> named item.
Proof.
  destruct message; cbn [IpcHandler.update_of plain_ids]; try discriminate; intros [= <-] Hp; unfold named; cbn.
  all: split; try (by eexists); try (by apply shorten_other); try (by apply shorten_ascii).
  case_match; by apply shorten_other.
Qed.

(** *** The names of the feed *)

Definition keeps_names self self' : Prop := Forall named (App.activities self) -> Forall named (App.activities self').

#[local] Instance keeps_names_preorder : PreOrder keeps_names.
Proof. split; [intros self H; exact H|]. unfold keeps_names. intros s1 s2 s3. tauto. Qed.

Lemma names_same self self' : App.activities self' = App.activities self -> keeps_names self self'.
Proof. unfold keeps_names. by intros ->. Qed.

(** Items that are only rewritten keep their names. *)
Ltac rewritten := let H := fresh in intros H; cbn; repeat (apply Forall_alter; [|done]); exact H.

Lemma names_push item self : named item -> keeps_names self (App.push item self).
Proof. intros Hi H. cbn. apply Forall_app. split; [done|]. by constructor. Qed.

Lemma names_fold {A} (P : A -> Prop) (f : App.t -> A -> App.t) (l : list A) self :
  (forall self x, P x -> keeps_names self (f self x)) -> Forall P l -> keeps_names self (fold_left f l self).
Proof.
  intros Hf Hl. revert self. induction Hl as [|x l Hx Hl IH]; intros self; cbn; [done|]. etransitivity; [by apply Hf|apply IH].
Qed.

Lemma user_named now server action status :
  starts_with "proxy-" server = false -> named (ActivityItem.mk now "User" server action status).
Proof. intros H. split; by apply shorten_other. Qed.

(** An update that adds no item, or one with names *)
Definition named_update (update : AppStateUpdate.t) : Prop :=
  match update with AppStateUpdate.ActivityAdded item => named item | _ => True end.

Lemma names_update now connected update self : named_update update -> keeps_names self (App.apply_update now connected update self).
Proof.
  destruct update; cbn [App.apply_update named_update]; intros Hu; try by apply names_same.
  - case_match; by apply names_same.
  - by apply names_push.
  - unfold App.answer_pending. destruct (_ !! _) as [[q i]|]; [|done]. cbn [App.activities App.set_pending].
    destruct (_ !! i); [|by apply names_same]. destruct error; rewritten.
Qed.

Lemma names_generation event self : keeps_names self (App.apply_generation event self).
Proof.
  destruct event; cbn [App.apply_generation]; destruct (_ !! _); try done; rewritten.
Qed.

Lemma names_llm event self : keeps_names self (App.apply_llm event self).
Proof. by destruct event; apply names_same. Qed.

Lemma names_clean self : keeps_names self (App.clean_activities self).
Proof. unfold App.clean_activities. destruct (_ <? _)%nat; [|done]. intros H. cbn. by apply Forall_drop. Qed.

Lemma names_state arrived p self :
  Forall (fun '(_, _, update) => named_update update) (App.updates arrived) -> keeps_names self (App.update_state arrived p self).
Proof.
  intros Hu. unfold App.update_state. etransitivity; [|apply names_clean].
  etransitivity; [|apply names_same; unfold App.poll; by case_match].
  etransitivity; [|apply (names_fold (fun _ => True)); [intros; apply names_llm|by apply Forall_true]].
  etransitivity; [|apply (names_fold (fun _ => True)); [intros; apply names_generation|by apply Forall_true]].
  etransitivity; [|apply (names_fold (fun '(_, _, update) => named_update update)); [|exact Hu]].
  - apply names_same. unfold App.refresh. by case_match.
  - intros s [[now c] u]. apply names_update.
Qed.

Lemma names_gateway client query i self r self' :
  App.process_query_via_gateway client query i self = Some (r, self') -> keeps_names self self'.
Proof.
  unfold App.process_query_via_gateway. destruct (App.gateway_answer _ _) as [[[text|e] c]|]; [| |done];
    intros [= <- <-]; [|by apply names_same]. intros H. cbn. apply Forall_alter; [exact H|].
  intros x _ [Hc Hs]. split; [exact Hc|by apply shorten_other].
Qed.

Lemma names_route io target query i self messages self' :
  App.route_query io target query i self = Some (messages, self') -> keeps_names self self'.
Proof.
  destruct target; cbn [App.route_query App.process_query_via_ipc].
  - destruct (App.ipc_client self); [destruct (App.sent io)|]; intros [= <- <-]; rewritten.
  - destruct (App.gateway_client self) as [c|]; [|intros [= <- <-]; rewritten].
    destruct (App.process_query_via_gateway c query i self) as [[[u|e] s]|] eqn:E; [| |done]; apply names_gateway in E;
      intros [= <- <-]; [done|]. etransitivity; [exact E|]. rewritten.
  - unfold App.process_query_via_llm. destruct (App.llm_service self); cbn; [destruct (App.generation io); cbn|];
      intros [= <- <-]; rewritten.
Qed.

Lemma names_event io event self messages self' :
  App.handle_event io event self = Some (messages, self') -> keeps_names self self'.
Proof.
  intros H. destruct event; cbn [App.handle_event] in H.
  4: {
    destruct (_ && _); [|by injection H as <- <-]. unfold App.process_query in H.
    destruct (str_is_empty (trim _)); [injection H as <- <-; by apply names_same|].
    destruct (App.target_of _) as [target actual]. destruct (App.route_query _ _ _ _ _) as [[ms s]|] eqn:E; [|done].
    injection H as <- <-. apply names_route in E. intros Hn. apply E, names_push; [|exact Hn].
    destruct target; by apply user_named. }
  12: {
    unfold App.cycle_proxy_selection in H. destruct (List.filter _ _) as [|p [|p' l]]; injection H as <- <-;
      intros Hn; (apply names_push; [by apply user_named|exact Hn]). }
  12: { injection H as <- <-. apply names_push. unfold App.handle_start_default_proxy. repeat case_match; by apply user_named. }
  all: injection H as <- <-; apply names_same; unfold App.on_tabs, App.escape; repeat case_match; done.
Qed.

Lemma names_events events self messages self' :
  App.handle_events events self = Some (messages, self') -> keeps_names self self'.
Proof.
  revert self messages. induction events as [|[io e] events IH]; intros self messages; cbn [App.handle_events].
  - by intros [= <- <-].
  - destruct (App.handle_event io e self) as [[ms s]|] eqn:E1; [|done].
    destruct (App.handle_events events s) as [[ms' s']|] eqn:E2; [|done]. intros [= <- <-].
    etransitivity; [by eapply names_event|by eapply IH].
Qed.
(** *** When drawing succeeds *)

Lemma chunk d cs r i : (i < length cs)%nat -> exists a, split d cs r !! i = Some a.
Proof. intros H. apply lookup_lt_is_Some_2. by rewrite split_length. Qed.

(** Every area of the divisions in the goal *)
Ltac areas :=
  repeat match goal with
    | |- context [split ?d ?cs ?r !! ?i] =>
        let a := fresh "a" in let Ha := fresh in
        destruct (chunk d cs r i ltac:(cbn; lia)) as [a Ha]; rewrite Ha; clear Ha; cbn [mbind option_bind]
    end.

Lemma list_item_named item : is_Some (ActivityFeed.list_item item) <-> named item.
Proof.
  unfold ActivityFeed.list_item, named.
  destruct (MonitorUi.ActivityFeed.shorten_proxy_id (ActivityItem.client item)); cbn;
    [destruct (MonitorUi.ActivityFeed.shorten_proxy_id (ActivityItem.server item)); cbn|]; split; intros H.
  all: first [by destruct H|by destruct H as [[? ?] [? ?]]|split; by eexists|by eexists].
Qed.

Lemma feed_draws area activities focused s :
  is_Some (ActivityFeed.render area activities focused s) <-> Forall named activities.
Proof.
  assert (Hm : is_Some (mapM ActivityFeed.list_item (rev activities)) <-> Forall named activities).
  { rewrite mapM_is_Some. split; intros H.
    - rewrite <- (rev_involutive activities). apply List.Forall_rev. eapply Forall_impl; [exact H|]. intros x. apply list_item_named.
    - apply List.Forall_rev. eapply Forall_impl; [exact H|]. intros x. apply list_item_named. }
  rewrite <- Hm. unfold ActivityFeed.render. destruct (mapM _ _); cbn; split; intros H; first [by destruct H|by eexists].
Qed.

Lemma settings_draw area focused s : is_Some (SettingsPanel.render area focused s).
Proof.
  unfold SettingsPanel.render. areas. destruct (MonitorUi.SettingsPanel.current_tab s); cbn [mbind option_bind]; try by eexists.
  unfold SettingsPanel.render_models_tab. areas. by eexists.
Qed.

Lemma servers_draw area servers clients focused selected s : is_Some (ServersPanel.render area servers clients focused selected s).
Proof. unfold ServersPanel.render. areas. by eexists. Qed.

Lemma input_draws area query u : is_Some (UI.render_input_area area query u).
Proof. unfold UI.render_input_area. areas. by eexists. Qed.

(** The feed is on the screen. *)
Definition feed_shown (u : MonitorUi.UI.t) : Prop :=
  MonitorUi.UI.focus u <> FocusArea.Settings /\ MonitorUi.UI.focus u <> FocusArea.Diagnostics /\
  MonitorUi.UI.current_tab u = MainTab.Activity.

Lemma content_draws area scene activities selected u :
  is_Some (UI.render_main_content area scene activities selected u) <->
  (MonitorUi.UI.current_tab u = MainTab.Activity -> Forall named (App.filtered_activities u activities)).
Proof.
  unfold UI.render_main_content. areas. destruct (MonitorUi.UI.current_tab u) eqn:E.
  - match goal with |- context [ActivityFeed.render ?a ?l ?f ?s] =>
      rewrite <- (feed_draws a l f s); destruct (ActivityFeed.render a l f s) as [[drawn s']|] end; cbn.
    + by split; [intros _ _|intros _]; eexists.
    + split; intros H; [by destruct H|by destruct (H eq_refl)].
  - match goal with |- context [ServersPanel.render ?a ?l ?c ?f ?i ?s] => destruct (servers_draw a l c f i s) as [[drawn s'] ->] end.
    split; [done|]. by eexists.
  - match goal with |- context [SettingsPanel.render ?a ?f ?s] => destruct (settings_draw a f s) as [[drawn s'] ->] end.
    split; [done|]. by eexists.
Qed.

(** Drawing panics exactly when the feed is on the screen and shows a name that
    is cut within a character. *)
Theorem drawing_succeeds scene servers activities query d selected u :
  is_Some (UI.draw scene servers activities query d selected u) <->
  (feed_shown u -> Forall named (App.filtered_activities u activities)).
Proof.
  unfold UI.draw, feed_shown. areas.
  assert (Hi : forall a u, exists f, UI.render_input_area a query u = Some f) by (intros; apply input_draws).
  destruct (MonitorUi.UI.focus u).
  3: match goal with |- context [SettingsPanel.render ?a ?f ?s] => destruct (settings_draw a f s) as [[drawn s'] ->] end.
  3,4: cbn [mbind option_bind]; match goal with |- context [UI.render_input_area ?a ?q ?v] => destruct (Hi a v) as [f ->] end;
       (split; [|by eexists]); by intros _ (? & ? & _).
  all: match goal with |- context [UI.render_main_content ?a ?sc ?l ?i ?v] =>
         pose proof (content_draws a sc l i v) as Hc; destruct (UI.render_main_content a sc l i v) as [[drawn v']|] end; cbn [mbind option_bind].
  all: try match goal with |- context [UI.render_input_area ?a ?q ?v] => destruct (Hi a v) as [f ->] end; cbn [mbind option_bind].
  all: split; intros H; try (by eexists).
  all: try (intros (_ & _ & Ht); by apply Hc; eauto).
  all: try by destruct H.
  all: exfalso; assert (is_Some (@None (Frame * MonitorUi.UI.t))) as [? ?]; [|done]; apply Hc; intros Ht; by apply H.
Qed.

Lemma filtered_named u activities : Forall named activities -> Forall named (App.filtered_activities u activities).
Proof.
  intros H. unfold App.filtered_activities. destruct (MonitorUi.UI.search_overlay u); [|done]. destruct (str_is_empty _); [done|].
  rewrite List.Forall_forall in *. intros x [Hx _]%List.filter_In. by apply H.
Qed.

(** Every update comes from a message whose identifiers are plain. *)
Definition plain_arrivals (r : App.Round) : Prop :=
  Forall (fun '(_, _, update) => exists now message, IpcHandler.update_of now message = Some update /\ plain_ids message = true)
    (App.updates (App.arrived r)).

Lemma plain_named r :
  plain_arrivals r -> Forall (fun '(_, _, update) => named_update update) (App.updates (App.arrived r)).
Proof.
  intros H. eapply Forall_impl; [exact H|]. intros [[now c] update] (now' & m & Hu & Hp). destruct update; cbn; try done. by eapply update_named.
Qed.

(** Drawing never panics, whatever the keys, the arrivals and the size of the
    screen, if the identifiers in the messages of the proxies are texts in ASCII. *)
Theorem drawing_never_panics hf_token gateway llm mode redraw rounds :
  Forall (fun r => plain_arrivals r.1) rounds ->
  Drawn.run redraw rounds (App.new hf_token gateway llm mode) <> Drawn.DrawPanics.
Proof.
  intros Hr. assert (Hn : Forall named (App.activities (App.new hf_token gateway llm mode))) by constructor.
  revert Hn. generalize (App.new hf_token gateway llm mode). revert redraw.
  induction Hr as [|[r scene] rounds Hp Hr IH]; intros redraw self Hn; cbn [Drawn.run]; [done|].
  destruct (App.running self); [|done].
  destruct (App.handle_events (App.events r) self) as [[ms s]|] eqn:E; [|done]. apply names_events in E. apply E in Hn.
  set (s' := if App.is_pending (App.arrived r) s then App.update_state (App.arrived r) (App.polls r) s else s).
  assert (Hs : Forall named (App.activities s')).
  { unfold s'. destruct (App.is_pending _ _); [|done]. apply names_state; [by apply plain_named|done]. }
  destruct (_ || App.is_pending _ _); [|by apply IH].
  unfold Drawn.draw. edestruct (proj2 (drawing_succeeds scene (App.servers s') (App.activities s') (App.query_input s')
    (App.diagnostics s') (App.selected_proxy_id s') (App.ui s'))) as [[frame u] ->].
  { intros _. by apply filtered_named. }
  cbn [mbind option_bind]. assert (Hu : Forall named (App.activities (App.set_ui u s'))) by done.
  specialize (IH false _ Hu). by destruct (Drawn.run false rounds _).
Qed.

(** The time of a proxy's answer on the status bar: it is in milliseconds and
    taken for seconds, so it is shown a thousandfold, or from ten milliseconds
    on not at all. *)
Theorem answer_times_are_misread now connected id response ms tps total delay q i item self :
  App.pending_queries self !! id = Some (q, i) -> App.activities self !! i = Some item ->
  let d := App.diagnostics (App.apply_update now connected (AppStateUpdate.QueryResponse id response None (Some ms) tps total delay) self) in
  forall status, bool_decide (DiagnosticsData.routing_mode (App.diagnostics self) = None) = false ->
  StatusBar.ttft_spans (StatusBar.ttft (UI.status_data d status)) =
    if SFltb ms (f64_of_Z 10)
    then [raw " │ "; styled "TTFT: " TEXT_DIM; styled (format_fixed 0 (f64_mul ms (f64_of_Z 1000)) +:+ "ms") TEXT_SECONDARY]
    else [].
Proof.
  intros Hp Ha d status Hm. subst d. cbn [App.apply_update]. unfold App.answer_pending. rewrite Hp.
  cbn [App.activities App.set_pending]. rewrite Ha. unfold UI.status_data. cbn. rewrite Hm, andb_false_r. done.
Qed.
End laws.

(** *** A screen *)

Module DemoScreen.
Import ToyNumbers ToyText Demo DemoMonitor.

(** Every area is the whole one, and lists stay where they are. *)
#[global] Instance demo_ratatui : Ratatui := {|
  split _ cs r := List.map (fun _ => r) cs;
  inner _ r := r;
  scrolled _ w := match w with ListOf _ _ _ selected => selected | _ => None end
|}.
#[global] Instance demo_ratatui_laws : RatatuiLaws demo_ratatui.
Proof. split. intros d cs r. apply length_map. Qed.
#[global] Instance demo_clock : ClockFormat := {| clock _ := "00:00:00"%string |}.

Definition scene : Scene := MkScene (Rect.mk 0 0 80 24) [] [].

Definition entry (proxy_id : string) : IpcMessage.t := IpcMessage.LogEntry (LogEntry.mk _ "1" 3 LogLevel.Info "ready" proxy_id None None).

(** A line of the log of a proxy *)
Definition logged (proxy_id : string) : App.Round :=
  App.MkRound [] (App.MkArrived (match IpcHandler.update_of 3 (entry proxy_id) with Some u => [(3, true, u)] | None => [] end) [] []) polls.
End DemoScreen.

#[local] Existing Instance DemoMonitor.monitor_debug.

(** A proxy's log is drawn, *)
Lemma drawing_never_panics_witness :
  Drawn.run true [(DemoScreen.logged "f8633494-471c-4f0a-93e5-b5363ae90d93", DemoScreen.scene)] (App.new None None true "hybrid")
    <> Drawn.DrawPanics.
Proof.
  apply drawing_never_panics. constructor; [|constructor]. constructor; [|constructor].
  exists 3, (DemoScreen.entry "f8633494-471c-4f0a-93e5-b5363ae90d93"). by split.
Defined.

(** and one that an identifier of other characters would name is not. *)
Example foreign_names_panic :
  Drawn.run true [(DemoScreen.logged "ab€defghijklmnop", DemoScreen.scene)] (App.new None None true "hybrid") = Drawn.DrawPanics.
Proof. reflexivity. Qed.

(** An answer after 250 milliseconds shows no time, one after 2 shows 2000. *)
Lemma answer_times_are_misread_witness :
  let shown ms := StatusBar.ttft_spans (StatusBar.ttft (UI.status_data
    (App.diagnostics (App.apply_update 9 true
       (AppStateUpdate.QueryResponse "1" "3" None (Some (f64_of_Z ms)) None None None) DemoMonitor.asked)) None)) in
  shown 250 = [] /\ List.map Span.content (shown 2) = [" │ "; "TTFT: "; "2000ms"]%string.
Proof.
  cbv zeta. split.
  - by rewrite (answer_times_are_misread 9 true "1" "3" (f64_of_Z 250) None None None "sum" 100 (DemoMonitor.item 7 "sum") DemoMonitor.asked).
  - by rewrite (answer_times_are_misread 9 true "1" "3" (f64_of_Z 2) None None None "sum" 100 (DemoMonitor.item 7 "sum") DemoMonitor.asked).
Defined.
